(* ===== verification/_CoqProject ===== *)
-Q . S2P
Prelude.v
CString.v
Scheduling.v
SchedulingFacts.v
Indexes.v
IndexesFacts.v
SharedTheorems.v
World.v
Party.v
PartySlots.v
PartyInv.v
PartyRaid.v
PartyHandlers.v
PartyRefs.v
PartySessions.v
PartyOutcomes.v
PartyRoster.v
LFTTypes.v
LFTQueue.v
LFTOffer.v
LFTQueueFacts.v
LFTInv.v
LFTOfferFacts.v
LFTListings.v
LFTListingFacts.v
LFTListingInv.v
LFTBotFill.v
LFTBotFillFacts.v
LFTBotFillSafety.v
LFTMgr.v
LFTMgrFacts.v
Demo.v
LFTTheorems.v
LFTListingTheorems.v
GuildBankTypes.v
GuildBank.v
GuildBankRequests.v
GuildBankItems.v
GuildBankHandlers.v
GuildBankDemo.v
GuildBankKernel.v
GuildBankInv.v
GuildBankRoundtrip.v
GuildBankTotals.v
GuildBankSteps.v
GuildBankTheorems.v
GuildTypes.v
Petitions.v
Guild.v
GuildMgr.v
GuildHandlers.v
PetitionHandlers.v
GuildInv.v
GuildEffects.v
GuildJoin.v
GuildSteps.v
GuildFacts.v
GuildOutcomes.v
GuildDemo.v
GuildTheorems.v
PartyTheorems.v
PartySessionTheorems.v
PostTypes.v
Mail.v
MailHandlers.v
Auction.v
AuctionHandlers.v
PostSteps.v
PostGold.v
PostGoldSteps.v
PostItems.v
PostItemsSteps.v
PostItemsLoad.v
PostHouses.v
PostOutcomes.v
PostDemo.v
PostTheorems.v
