(* ===== verification/Prelude.v ===== *)
(** * Tortoise-WoW: a verification library of the server's social core

    This library models the part of the game server (src/src/game, C++) that
    brings players together: parties and raids (Group/Group.cpp), the dungeon
    finder "LFT" (LFT/), which forms parties out of a queue, keeps a board of
    listings and fills missing roles with bots, guilds with their ranks and the
    charters they are founded with (Guild/), the guild bank (GuildBank/), where
    guilds store items and money, the mail (Mail/) and the auction houses
    (AuctionHouse/), through which players trade; and the schedulers and lookup structures
    the world's threads share (src/shared).  Definitions follow the functions of
    the source one by one and keep their names; all of them are executable, and
    the witnesses at the end of the theorem files run them.

    ** The parts and how they interact

    The finder is one singleton, [LFTManager].  Addon messages from the chat
    handler, the world's update tick, a player's logout and the bot module call
    into it.  It keeps listings, a queue, pending rolechecks and offers, reads
    the world's players and forms parties by calling [Group].  A group keeps
    the list of its members; every member in the world keeps a reference to his
    group (and, in a battleground raid, to his original group).

    - [Prelude]: machine integers with their wrap-around written out ([u8],
      [u16], [u32], [u64], [i32]), ordered traversal of maps ([skeys], the
      order of the source's std::map), folds and counting, the [case_if] and
      [bool_prop] tactics.
    - [CString]: the C and C++ string functions the source uses (c_str, strstr,
      strtoul, atoi, getline ...), [Tokenizer] (shared/Util.cpp) and
      [SplitPreserveEmpty], with the lemmas that split inverts join.
    - [World]: [Player] (the fields the modelled code reads or writes), [Group]
      and its accessors (Group/Group.h), the world, lookup of players by guid
      and by name (ObjectAccessor.cpp).  [GroupService] is the interface
      between finder and groups: a class with [Create], [AddMember] and
      [RemoveFromGroup] and the laws the finder relies on.
    - [Party]: Group/Group.cpp and the reference handling of Player.cpp in
      memory.  A Group* is an address into [w_groups]; a reference that is
      unlinked when its group dies is an [option] of an address.  [PartySlots]
      (what group operations leave alone, the list of members and the subgroup
      counters), [PartyInv] (the invariant [party_ok]; it ends with the instance
      of [GroupService]) and [PartyRaid] (who is a member afterwards, subgroups,
      main roles, icons) hold the lemmas.
    - [PartyHandlers]: the opcode handlers of Handlers/GroupHandler.cpp with
      their [PartyResult] answers, and the party's share of logging in and out
      (Player::_LoadGroup, WorldSession::LogoutPlayer); [PartyEnv] is what they
      read elsewhere.  [PartyRefs] (references against lists, [refs_ok]),
      [PartySessions] (every opcode keeps [parties_ok]; the step relation
      [party_step]), [PartyOutcomes] (what single opcodes achieve)
      and [PartyRoster] (the abstract specification: a roster of
      lists, and its refinement) hold the lemmas.
    - [LFTTypes]: [LFTManager]'s data (LFT/LFTMgr.h) as the record [LFT], and
      the class [LFTEnv] of what is configuration or belongs to the bot module.
    - [LFTQueue], [LFTOffer]: LFT/LFTQeueue.cpp; facts in [LFTQueueFacts],
      [LFTInv] (the invariant of queue and offers), [LFTOfferFacts].
    - [LFTListings]: LFT/LFTUserGroups.cpp; the table lft_user_groups is a map
      from id to the row's columns, the text columns as the code writes them.
      Facts in [LFTListingFacts] (text formats, invariant, signups) and
      [LFTListingInv].
    - [LFTBotFill]: LFT/LFTBotFill.cpp; facts in [LFTBotFillFacts] and
      [LFTBotFillSafety].
    - [LFTMgr]: LFT/LFTMgr.cpp, and [lft_step], the step relation over all
      entry points; facts in [LFTMgrFacts].
    - [Demo]: a concrete environment and concrete states for the witnesses.
    - [SharedTheorems], [LFTTheorems], [LFTListingTheorems], [PartyTheorems],
      [PartySessionTheorems], [GuildBankTheorems], [GuildTheorems],
      [PostTheorems]: the claims.

    The shared headers depend on nothing else.  The world's threads call them
    under a lock or from one thread only, so that every call is a step.

    - [Scheduling]: a Module for each header with a state of its own -
      [WorkSlice] (a budget of attempts and time), [IncrementalFilter] (a filter
      that can be interrupted), [TickDiffWindow] (the last tick lengths),
      [BotTrace] (BoundedBotTrace.h) - and the decisions of MapWork.h,
      BoundedBotThrottle.h and BackgroundWorldScheduling.h; lemmas over many
      calls in [SchedulingFacts].
    - [Indexes]: [MovementViewerSet], [BotTrainerIndex], [AreaLookupIndex],
      [StaticLocationIndex] (a float is its bit pattern) and
      [WeightedPermutation] (clocks and random numbers are parameters); lemmas
      in [IndexesFacts].

    The guild bank is an object of its own, one per guild (and one more for the
    hardcore "inferno" bank); it calls neither finder nor groups.  A player at
    a vault keeper sends addon messages; each handler checks his rank, changes
    the bank in memory, the player's bags or money, queues the changed items,
    answers with messages, and most of them end with a save of everything that
    is marked as changed.

    - [GuildBankTypes]: the bank ([GuildBank] with its [BankItem]s, tabs, logs,
      queue and flags), the player's bags, and the database tables as they are
      keyed; the vector of [BankItem*] is a list of addresses and items, so
      that writing through a pointer, copies and erasure are those of the
      code.  [BankEnv] is what the bank reads elsewhere: item templates, names,
      the creation of items and [CanStoreNewItem].
    - [GuildBank]: logs, weekly numbers, access and SaveToDB;
      [GuildBankRequests]: loading, SetGuild, unlocking, settings, money;
      [GuildBankItems]: the inventory functions of Player.cpp the bank calls,
      deposits, withdrawals, exchanges; [GuildBankHandlers]: DepositItem,
      WithdrawItem, MoveItem, SplitItem, DestroyItem and the dispatch.
    - [GuildBankKernel] (the invariant [bank_ok] and the five
      ways in which it is kept: adding, changing, exchanging places, removing,
      saving), [GuildBankInv] (every item request keeps it), [GuildBankSteps]
      (access, money and the step relation [bank_step]), [GuildBankRoundtrip],
      [GuildBankTotals] (conservation; deposits into the first free place end).
    - [GuildBankDemo]: a bank, players and an environment for the witnesses.

    Guilds.  [GuildMgr] is a singleton that owns guilds and charters and an
    index from players to guilds; a [Guild] owns its list of members, its ranks,
    its event log and its two banks.  Opcodes of players, the loading of the
    server, logins, logouts and the update tick call into them; every change is
    written to the tables guild, guild_member, guild_rank, guild_eventlog,
    petition and petition_sign, and changes the members in the world.

    - [GuildTypes]: the records of Guild.h and GuildMgr.h, the tables as maps by
      their keys, the fields of a player guilds read ([GPlayer]), the whole state
      ([GW]) and [GuildEnv], what is configuration or belongs to scripts.
    - [Petitions]: petitions and signatures (GuildMgr.cpp, second half), lookup
      of players.  [Guild]: Guild/Guild.cpp; an operation takes the guild and the
      rest of the state, since a guild that is being founded is not registered
      yet.  [GuildMgr]: registering, loading from rows and its repairs, saving of
      banks.
    - [GuildHandlers]: Handlers/GuildHandler.cpp, Player::_LoadGuild and the
      guild's share of logging in and out; [PetitionHandlers]:
      Handlers/PetitionsHandler.cpp.
    - [GuildInv] (the view: the part of the state the invariant reads, so that
      what does not touch it needs no proof; the invariant [reg_ok] and the ways
      it is kept), [GuildEffects] (what each operation does to the view),
      [GuildJoin] (joining), [GuildSteps] (the step relation [guild_step]; every
      step keeps the invariant), [GuildFacts] (rights and standing),
      [GuildOutcomes] (event log, disbanding, loading) hold the lemmas,
      [GuildDemo] the states of the witnesses.

    Mail and auctions.  An item that is sent or sold leaves the bags of its
    owner; from then on it is in a letter or on sale, and its row names who will
    get it.  A letter is a row, with rows for its items, and, as long as its
    receiver is online, an object in his mailbox.  An auction is an entry in the
    three maps of its house, a row, and an item; it ends in letters, by the
    update tick, a buyout or its owner.  Letters that nobody takes expire.
    - [PostTypes]: items in the post, letters, drafts, auctions and houses, a
      player's session, bags and mailbox ([PostPlayer]), the tables mail,
      mail_items, item_instance, item_text and auction, the whole state ([PW]),
      and [PostEnv], what is data, configuration or belongs to other parts.
    - [Mail]: Mail/Mail.cpp, the mailbox of MapNodes/MasterPlayer.cpp with its
      saving and loading, Item::LoadFromDB and SaveToDB, the functions of
      Player.cpp that move items out of and into the bags.  [MailHandlers]:
      Handlers/MailHandler.cpp, the returning of old letters (ObjectMgr.cpp) and
      the switch to hardcore mode (Player.cpp).
    - [Auction]: AuctionHouse/AuctionHouseMgr.cpp; single precision numbers are
      SpecFloat's.  [AuctionHandlers]: Handlers/AuctionHouseHandler.cpp, and
      the task that answers a search later.
    - [PostSteps]: the 26 operations, [run_op], and the step relation
      [post_steps].  Three invariants, each on a view of the state that holds
      only what it speaks of: gold ([PostGold], [PostGoldSteps]), the
      places of items ([PostItems], [PostItemsSteps], [PostItemsLoad]), the houses
      ([PostHouses]).
    - [PostOutcomes] (letters that were sent, the end of auctions, bids, lists)
      specifies single operations; [PostDemo] states what a consistent server
      is and runs one.

    ** What the theorems show

    The finder.  In every state the step relation reaches, offers are full
    parties, players are promised to one offer at most and the listings mirror
    the table (C1).  Matching builds sound offers and keeps blocks of players
    together, in the order of the queue (C5); accepting and completing an offer
    (C6), breaking it up and letting it run out (C9), leaving and logging out
    (C10), finishing a rolecheck (C15) are specified on every branch.
    Bot fill terminates and adds only bots that fit (C16), and its cleanup
    removes exactly the unneeded ones ([cleanup_keeps_wanted_bots]); it does not
    look at the hardcore mode ([filling_ignores_hardcore]), though the source's
    comment says so.  Listings survive a save and a load when no signup contains
    a delimiter, and not otherwise (C19); no text escapes its JSON string (C21);
    publishing, updating and signing up keep the board consistent (C22, C23).

    Mail and auctions.  In every state the step relation reaches, no gold has
    been made (C2), every item is in one place (C3), and the maps, rows, ids and
    items of the auction houses agree (C7).  Bids are paid exactly and the outbid
    player is paid back (C11), auctions end when they are due, with letters to
    both sides (C12), lists are pages of what there is (C18), the house's cut is
    below the bid (C38).  Five ways in which gold, texts and auctions are made
    or lost are in C39.

    Guilds.  In every state the step relation reaches, index, lists of members,
    rows and players agree, guilds have ranks and one leader (C4), and what is
    loaded from whatever rows is repaired to a well-formed guild (C17).  Officers
    act only below them and with the right for it (C8), disbanding leaves nothing
    behind (C13), the event log is bounded in memory and in its table (C14).  A
    member whose rank is deleted passes every test of rights (C20).

    Parties.  Joining, leaving, creation, moving and swapping keep all groups
    well formed - distinct members, size limits, subgroup counters that count,
    a leader who is a member - and say what becomes of the list of members
    (C24, C25, [subgroups_move_and_swap]); succession of leaders (C25), target
    icons and main roles ([raid_marks_are_unique]) do what they should.

    Sessions.  Whatever opcodes players send, log in and log out, references
    and lists agree and nobody is in two groups (C28); invitations and their
    acceptance are specified by their answers (C29), kicks need a right
    (C30), logging out takes the offline members and bots along (C31), and all
    of it refines the roster specification (C32).  The dungeon finder is outside
    that step relation: together with an open invitation it puts a player into
    two groups (C33).

    The guild bank.  Access follows the rule of ranks and weekly numbers (C26)
    and money moves exactly, within 32 bits (C27).  Items, queue and table
    agree through all requests (C34), a saved bank loads back and an item comes
    back from the bank as it went in (C35), and no request makes or loses
    items (C36).  The hypotheses of C34 and C36 exclude what C37 shows to go
    wrong: a deposit of more than the stack holds, exchanging a bag item for a
    bank item, unlocking an unlocked bank, withdrawing 2^31 copper or more.

    The shared headers.  Staggered passes, delayed updates and the weighted
    permutation leave nobody out (C40); a filter in slices of work gets through
    ([filter_finishes_in_slices]), the window of ticks shows the recent ones
    ([window_shows_recent_ticks]), throttle and trace keep their limits
    ([rates_are_limited]); viewers and trainers are the sets they stand for
    ([viewers_and_trainers_are_sets]), areas and locations are found as a search
    would find them ([indexes_find_what_search_finds]).

    ** Conventions and bounds

    Guids, addresses and machine integers are in [Z]; a truncating assignment
    is written with [u8] and the like.  Loops over containers are folds over
    the container's elements before the loop, as in the source, where erasing
    during a loop is done on the iterator.  The order of hash maps is a
    parameter ([GetPlayers_order], [GetAllSessions_order], [members_order], [guilds_order]).
    Two loops are not structural.  Filling an instance runs with fuel
    [fill_fuel] = 8, and C16 shows that the fuel never runs out, since each
    round raises the number of covered places, of which there are five.
    Depositing into the first free place calls itself for the rest of a stack;
    it runs with [deposit_fuel] = 99, since each round fills one of the 98
    stacks of a tab; C36 shows that it ends with all of the stack stored or the
    tab full.
    Offer ids, queue numbers and listing ids are 32- or 64-bit counters that the code
    increments without a check; the step relation asks that they have not
    wrapped ([spare]), which takes four billion offers in one uptime.
    [post_steps] asks in the same way ([in_range]) that the ids of letters,
    items and auctions have not wrapped and that no letter holds more gold than
    a purse may; numbers that players send are not restricted.
    Next to those, C2 speaks of the default rate of the cut, for which the
    computation in single precision is bounded.

    ** What is not modelled, and why

    Network packets other than the finder's addon messages, which are part of
    the state ([w_out]); the group rows of the characters database and
    instance binds; loot rolls; scripts and the bot module, which is outside
    the sources and enters as fields of [Player] and parameters of [LFTEnv];
    SQL escaping, which is trusted.  Of a player's inventory only what the bank
    calls is here, without auras, quests and enchantment timers.  Of guilds the
    cached packets (roster, query), the choice of who hears a message, game
    master commands and FixupInfernoBanks are not here; a message to a guild is
    one output.  Undefined
    behaviour of the bank (a field read before it was set, a pointer to an item
    that was destroyed) reads as the value named where it happens.
    Of mail and auctions: logs of game masters, script hooks, the copies the
    auction bot takes of the houses, items made from a mail template for a
    receiver who is online (no modelled caller asks for them), the packets'
    layout; queries to the database are answered before anything else happens.
    An auction's house that does not exist, which the code would dereference, is
    skipped.
    PROJECT.json lists the other parts of the server.

    ** Plan

    Next: loot rolls and the database rows of groups, social lists, reputation;
    trades between players, which would join the step relation of mail and
    auctions.
*)

From stdpp Require Export prelude gmap strings sorting.
From Stdlib Require Export Ascii ZArith Lia.

#[global] Open Scope Z_scope.

(** ** Machine integers

    The server's integers are fixed width; the model keeps them in [Z] and
    writes every truncation out.  [uint8 x = e] is [u8 e], and so on. *)
Definition u8 (x : Z) : Z := x mod 2 ^ 8.
Definition u16 (x : Z) : Z := x mod 2 ^ 16.
Definition u32 (x : Z) : Z := x mod 2 ^ 32.
Definition u64 (x : Z) : Z := x mod 2 ^ 64.
Definition i32 (x : Z) : Z := (x + 2 ^ 31) mod 2 ^ 32 - 2 ^ 31.

Definition U32_MAX : Z := 2 ^ 32 - 1.
Definition U64_MAX : Z := 2 ^ 64 - 1.

Lemma u8_range x : 0 <= u8 x < 256.
Proof. apply Z.mod_pos_bound; lia. Qed.

Lemma u32_range x : 0 <= u32 x < 2 ^ 32.
Proof. apply Z.mod_pos_bound; lia. Qed.

Lemma u64_range x : 0 <= u64 x < 2 ^ 64.
Proof. apply Z.mod_pos_bound; lia. Qed.

Lemma u8_small x : 0 <= x < 256 -> u8 x = x.
Proof. intros ?. by apply Z.mod_small. Qed.

Lemma u32_small x : 0 <= x < 2 ^ 32 -> u32 x = x.
Proof. intros ?. by apply Z.mod_small. Qed.

Lemma u64_small x : 0 <= x < 2 ^ 64 -> u64 x = x.
Proof. intros ?. by apply Z.mod_small. Qed.

Lemma i32_small x : - 2 ^ 31 <= x < 2 ^ 31 -> i32 x = x.
Proof. intros ?. unfold i32. rewrite Z.mod_small; lia. Qed.

Lemma i32_range x : - 2 ^ 31 <= i32 x < 2 ^ 31.
Proof. unfold i32. pose proof (Z.mod_pos_bound (x + 2 ^ 31) (2 ^ 32)). lia. Qed.

(** ** Ordered containers

    [std::map<ObjectGuid, V>] and [std::map<uint32, V>] are [gmap Z V]; what
    the code observes beyond lookups is that iteration runs in key order,
    which [skeys] gives.  [selems] does the same for [std::set]. *)
Definition skeys {V} (m : gmap Z V) : list Z := merge_sort Z.le (map_to_list m).*1.
Definition selems (s : gset Z) : list Z := merge_sort Z.le (elements s).

(** [m[k]] where the code only reads it and the key is known to exist, or
    where a missing key reads as the value-initialised element. *)
Definition map_at {V} (d : V) (m : gmap Z V) (k : Z) : V := default d (m !! k).

Section ordered.
Context {V : Type}.
Implicit Types (m : gmap Z V) (k : Z).

Lemma skeys_perm m : skeys m ≡ₚ (map_to_list m).*1.
Proof. apply merge_sort_Permutation. Qed.

Lemma elem_of_skeys m k : k ∈ skeys m <-> is_Some (m !! k).
Proof.
    rewrite skeys_perm, list_elem_of_fmap. split.
    - intros ([k' v] & -> & Hin%elem_of_map_to_list). by exists v.
    - intros [v Hv]. exists (k, v). split; [done|]. by apply elem_of_map_to_list.
Qed.

Lemma NoDup_skeys m : NoDup (skeys m).
Proof. rewrite skeys_perm. apply NoDup_fst_map_to_list. Qed.

Lemma skeys_sorted m : StronglySorted Z.le (skeys m).
Proof. apply StronglySorted_merge_sort; apply _. Qed.

Lemma length_skeys m : length (skeys m) = size m.
Proof. rewrite skeys_perm, length_fmap. apply length_map_to_list. Qed.

Lemma skeys_lookup_Some m k : k ∈ skeys m -> exists v, m !! k = Some v.
Proof. rewrite elem_of_skeys. by intros [v ?]; exists v. Qed.
End ordered.

Lemma elem_of_selems (s : gset Z) k : k ∈ selems s <-> k ∈ s.
Proof. unfold selems. by rewrite merge_sort_Permutation, elem_of_elements. Qed.

Lemma NoDup_selems (s : gset Z) : NoDup (selems s).
Proof. unfold selems. rewrite merge_sort_Permutation. apply NoDup_elements. Qed.

(** ** Loops over a list with state

    A [for] loop whose body updates the state is a left fold; an invariant of
    the body is an invariant of the loop. *)
Lemma foldl_inv {A B} (P : A -> Prop) (f : A -> B -> A) (l : list B) (a : A) :
  P a -> (forall a x, x ∈ l -> P a -> P (f a x)) -> P (foldl f a l).
Proof.
  revert a. induction l as [|x l IH]; intros a Ha Hf; simpl; [done|].
  apply IH; [apply Hf; [left|done] |].
  intros a' y Hy. apply Hf. by right.
Qed.

(** Same, with a relation between the state before and after the loop. *)
Lemma foldl_rel {A B} (R : A -> A -> Prop) (f : A -> B -> A) (l : list B) :
  (forall a, R a a) -> (forall a b c, R a b -> R b c -> R a c) ->
  (forall a x, x ∈ l -> R a (f a x)) -> forall a, R a (foldl f a l).
Proof.
  intros Hrefl Htrans. induction l as [|x l IH]; intros Hf a; simpl; [done|].
  eapply Htrans; [apply Hf; left|]. apply IH.
  intros a' y Hy. apply Hf. by right.
Qed.

(** What does not depend on the loop body's state change is kept by it. *)
Lemma foldl_keep {A B C} (p : A -> C) (f : A -> B -> A) (l : list B) (a : A) :
  (forall a x, p (f a x) = p a) -> p (foldl f a l) = p a.
Proof.
  intros Hf. revert a. induction l as [|x l IH]; intros a; simpl; [done|].
  by rewrite IH, Hf.
Qed.

(** ** Counting *)
Definition count {A} (P : A -> bool) (l : list A) : nat := length (List.filter P l).

Lemma count_nil {A} (P : A -> bool) : count P [] = 0%nat.
Proof. done. Qed.

Lemma count_cons {A} (P : A -> bool) x l :
  count P (x :: l) = ((if P x then 1 else 0) + count P l)%nat.
Proof. unfold count. simpl. by destruct (P x). Qed.

Lemma count_app {A} (P : A -> bool) l1 l2 :
  count P (l1 ++ l2) = (count P l1 + count P l2)%nat.
Proof. unfold count. by rewrite List.filter_app, List.length_app. Qed.

Lemma count_le {A} (P : A -> bool) l : (count P l <= length l)%nat.
Proof. induction l as [|x l IH]; [done|]. rewrite count_cons. simpl. destruct (P x); lia. Qed.

(** ** Sorted lists *)
Lemma StronglySorted_weaken {A} (R R' : A -> A -> Prop) l :
  (forall a b, R a b -> R' a b) -> StronglySorted R l -> StronglySorted R' l.
Proof.
  intros Hw. induction 1 as [|a l Hs IH Hall]; constructor; [done|].
  eapply Forall_impl; [exact Hall|]. by apply Hw.
Qed.

(** ** Tables

    [INSERT]: a row with a key that is there already is refused. *)
Definition insert_row {K V} `{Countable K} (k : K) (v : V) (m : gmap K V) : gmap K V :=
  match m !! k with Some _ => m | None => <[k := v]> m end.
Lemma fmap_insert_row {K A B} `{Countable K} (h : A -> B) k x (m : gmap K A) : h <$> insert_row k x m = insert_row k (h x) (h <$> m).
Proof. unfold insert_row. rewrite lookup_fmap. destruct (m !! k); simpl; [done|]. apply fmap_insert. Qed.

(** ** Automation *)
Create HintDb tw.
Create Rewrite HintDb tw.
#[export] Hint Resolve NoDup_skeys NoDup_selems skeys_sorted : tw.
#[export] Hint Rewrite @elem_of_skeys elem_of_selems : tw.

(** Split a decided condition of the code, in the goal or in a hypothesis. *)
Ltac case_if :=
  match goal with
  | |- context [if ?b then _ else _] => destruct b eqn:?
  | H : context [if ?b then _ else _] |- _ => destruct b eqn:?
  end.

(** Turn the boolean guards of the code into propositions. *)
Ltac bool_prop :=
  repeat match goal with
  | H : andb _ _ = true |- _ => apply andb_true_iff in H; destruct H
  | H : orb _ _ = false |- _ => apply orb_false_iff in H; destruct H
  | H : negb _ = true |- _ => apply negb_true_iff in H
  | H : negb _ = false |- _ => apply negb_false_iff in H
  | H : Z.eqb _ _ = true |- _ => apply Z.eqb_eq in H
  | H : Z.eqb _ _ = false |- _ => apply Z.eqb_neq in H
  | H : Z.ltb _ _ = true |- _ => apply Z.ltb_lt in H
  | H : Z.ltb _ _ = false |- _ => apply Z.ltb_ge in H
  | H : Z.leb _ _ = true |- _ => apply Z.leb_le in H
  | H : Z.leb _ _ = false |- _ => apply Z.leb_gt in H
  | H : bool_decide _ = true |- _ => apply bool_decide_eq_true in H
  | H : bool_decide _ = false |- _ => apply bool_decide_eq_false in H
  end.
