(* ===== verification/CString.v ===== *)
(** C++ standard-library strings and the server's own tokenizer
    (src/shared/Util.cpp).  Strings are byte strings ([String.string]). *)

From Stdlib Require Import Ascii String DecimalString DecimalN.
From S2P Require Import Prelude.

#[global] Arguments String.append : simpl nomatch.
Notation "a =s b" := (String.eqb a b) (at level 70) : Z_scope.

(** [std::to_string] on an integer. *)
Definition to_string (n : Z) : string :=
  if n <? 0 then String "-" (NilZero.string_of_uint (N.to_uint (Z.to_N (- n))))
  else NilZero.string_of_uint (N.to_uint (Z.to_N n)).

Definition NUL : ascii := ascii_of_nat 0.

(** The part of a byte string a C function sees: up to the first NUL. *)
Fixpoint c_str (s : string) : string :=
  match s with
  | EmptyString => EmptyString
  | String c s' => if Ascii.eqb c NUL then EmptyString else String c (c_str s')
  end.

(** [strstr(msg.c_str(), pat) != nullptr]. *)
Fixpoint contains (pat s : string) : bool :=
  String.prefix pat s ||
  match s with EmptyString => false | String _ s' => contains pat s' end.
Definition strstr (msg pat : string) : bool := contains pat (c_str msg).

(** [isspace] in the C locale. *)
Definition isspace (c : ascii) : bool :=
  let n := Z.of_nat (nat_of_ascii c) in (n =? 32) || ((9 <=? n) && (n <=? 13)).

Definition digit_of (c : ascii) : option Z :=
  let n := Z.of_nat (nat_of_ascii c) in
  if (48 <=? n) && (n <=? 57) then Some (n - 48) else None.

(** The longest run of decimal digits; [None] when there is none. *)
Fixpoint read_digits (s : string) (acc : option Z) : option Z :=
  match s with
  | EmptyString => acc
  | String c s' =>
      match digit_of c with
      | Some d => read_digits s' (Some (10 * default 0 acc + d))
      | None => acc
      end
  end.

Fixpoint skip_space (s : string) : string :=
  match s with
  | String c s' => if isspace c then skip_space s' else s
  | EmptyString => s
  end.

(** The optional sign, then the digits: [Some (negative, value)]. *)
Definition parse_number (s : string) : option (bool * Z) :=
  match skip_space s with
  | String "-" s' => v ← read_digits s' None; Some (true, v)
  | String "+" s' => v ← read_digits s' None; Some (false, v)
  | s' => v ← read_digits s' None; Some (false, v)
  end.

(** [strtoul(s, &end, 10)] with a 64-bit [unsigned long]: [None] when no
    conversion was performed ([end == s], value 0), saturation at
    [ULONG_MAX], negation in the unsigned type for a minus sign. *)
Definition strtoul_end (s : string) : option Z :=
  '(neg, v) ← parse_number (c_str s);
  Some (if U64_MAX <? v then U64_MAX else if (neg : bool) then u64 (- v) else v).
Definition strtoul (s : string) : Z := default 0 (strtoul_end s).

(** [atoi]: [strtol] (64-bit, saturating) converted to [int]. *)
Definition atoi (s : string) : Z :=
  match parse_number (c_str s) with
  | None => 0
  | Some (true, v) => i32 (- Z.min v (2 ^ 63))
  | Some (false, v) => i32 (Z.min v (2 ^ 63 - 1))
  end.

(** Byte at the end of a string, and its removal ([std::string::pop_back]). *)
Fixpoint pop_back (s : string) : string :=
  match s with
  | EmptyString => EmptyString
  | String c EmptyString => EmptyString
  | String c s' => String c (pop_back s')
  end.

(** *** Tokenizer (src/shared/Util.cpp)

    The pieces between separators; a last piece only when it is not empty
    ("hack like, but the old code accepted these kind of broken strings");
    a NUL ends the scan. *)
Module Tokenizer.
Fixpoint scan (sep : ascii) (s cur : string) : list string :=
    match s with
    | EmptyString => if cur =s "" then [] else [cur]
    | String c s' =>
        if Ascii.eqb c sep then cur :: scan sep s' ""
        else if Ascii.eqb c NUL then (if cur =s "" then [] else [cur])
        else scan sep s' (cur +:+ String c "")
    end.

Definition make (src : string) (sep : ascii) : list string := scan sep src "".
End Tokenizer.

(** [SplitPreserveEmpty] (the same local function in the three LFT files). *)
Fixpoint split_scan (delimiter : ascii) (s current : string) : list string :=
  match s with
  | EmptyString => [current]
  | String c s' =>
      if Ascii.eqb c delimiter then current :: split_scan delimiter s' ""
      else split_scan delimiter s' (current +:+ String c "")
  end.
Definition SplitPreserveEmpty (value : string) (delimiter : ascii) : list string :=
  split_scan delimiter value "".

(** [while (std::getline(stream, piece, sep))]: no piece after the last comma
    when the text ends there. *)
Definition getlines (sep : ascii) (text : string) : list string :=
  let pieces := SplitPreserveEmpty text sep in
  match last pieces with
  | Some EmptyString => removelast pieces
  | _ => pieces
  end.

(** [JoinStrings] (src/game/LFT/LFTQeueue.cpp): no delimiter while the text so
    far is empty. *)
Definition JoinStrings (values : list string) (delimiter : ascii) : string :=
  foldl (fun joined value =>
           (if joined =s "" then "" else joined +:+ String delimiter "") +:+ value) "" values.

(** [std::set<std::string>] iterates in byte order. *)
Definition str_le (a b : string) : Prop := String.leb a b = true.
#[export] Instance str_le_dec a b : Decision (str_le a b).
Proof. unfold str_le. apply _. Defined.

(** ** Facts *)
Lemma str_app_nil_r s : s +:+ "" = s.
Proof. induction s as [|c s IH]; simpl; congruence. Qed.

Lemma str_app_assoc s1 s2 s3 : (s1 +:+ s2) +:+ s3 = s1 +:+ (s2 +:+ s3).
Proof. induction s1 as [|c s IH]; simpl; congruence. Qed.

Lemma str_app_nonempty_r s c t : s +:+ String c t <> "".
Proof. destruct s; discriminate. Qed.

(** No occurrence of a byte in a string. *)
Fixpoint lacks (c : ascii) (s : string) : bool :=
  match s with
  | EmptyString => true
  | String d s' => negb (Ascii.eqb d c) && lacks c s'
  end.

Lemma lacks_app c s1 s2 : lacks c (s1 +:+ s2) = lacks c s1 && lacks c s2.
Proof. induction s1 as [|d s IH]; simpl; [done|]. by rewrite IH, andb_assoc. Qed.

Lemma split_scan_piece d s cur rest :
  lacks d s = true ->
  split_scan d (s +:+ String d rest) cur = (cur +:+ s) :: split_scan d rest "".
Proof.
  revert cur. induction s as [|c s IH]; intros cur; simpl.
  - intros _. by rewrite Ascii.eqb_refl, str_app_nil_r.
  - intros [Hc Hs]%andb_true_iff. apply negb_true_iff in Hc. rewrite Hc.
    rewrite IH by done. by rewrite str_app_assoc.
Qed.

Lemma split_scan_last d s cur :
  lacks d s = true -> split_scan d s cur = [cur +:+ s].
Proof.
  revert cur. induction s as [|c s IH]; intros cur; simpl.
  - intros _. by rewrite str_app_nil_r.
  - intros [Hc Hs]%andb_true_iff. apply negb_true_iff in Hc. rewrite Hc.
    rewrite IH by done. by rewrite str_app_assoc.
Qed.

Lemma tokenizer_piece d s cur rest :
  lacks d s = true -> lacks NUL s = true ->
  Tokenizer.scan d (s +:+ String d rest) cur = (cur +:+ s) :: Tokenizer.scan d rest "".
Proof.
  revert cur. induction s as [|c s IH]; intros cur; simpl.
  - intros _ _. by rewrite Ascii.eqb_refl, str_app_nil_r.
  - intros [Hc Hs]%andb_true_iff [Hn Hns]%andb_true_iff.
    apply negb_true_iff in Hc, Hn. rewrite Hc, Hn.
    rewrite IH by done. by rewrite str_app_assoc.
Qed.

Lemma tokenizer_last d s cur :
  lacks d s = true -> lacks NUL s = true -> cur +:+ s <> "" ->
  Tokenizer.scan d s cur = [cur +:+ s].
Proof.
  revert cur. induction s as [|c s IH]; intros cur; simpl.
  - intros _ _. rewrite str_app_nil_r. intros Hcur.
    by rewrite (proj2 (String.eqb_neq cur "") Hcur).
  - intros [Hc Hs]%andb_true_iff [Hn Hns]%andb_true_iff Hne.
    apply negb_true_iff in Hc, Hn. rewrite Hc, Hn.
    rewrite IH; [by rewrite str_app_assoc|done..|].
    by rewrite str_app_assoc.
Qed.

(** Joining with a byte no piece contains, then splitting, is the identity,
    unless the pieces before the first non-empty one are lost. *)
Fixpoint join_with (d : ascii) (l : list string) : string :=
  match l with
  | [] => ""
  | [x] => x
  | x :: l' => x +:+ String d (join_with d l')
  end.

Lemma split_join d l :
  l <> [] -> forallb (lacks d) l = true ->
  SplitPreserveEmpty (join_with d l) d = l.
Proof.
  unfold SplitPreserveEmpty. intros Hne.
  induction l as [|x [|y l] IH]; [done|..]; intros Hl.
  - simpl in *. rewrite andb_true_r in Hl. by rewrite split_scan_last.
  - apply andb_true_iff in Hl as [Hx Hl].
    change (join_with d (x :: y :: l)) with (x +:+ String d (join_with d (y :: l))).
    rewrite split_scan_piece by done. simpl. f_equal. by apply IH.
Qed.

Lemma foldl_join_nonempty d l acc :
  acc <> "" ->
  foldl (fun joined value =>
           (if joined =s "" then "" else joined +:+ String d "") +:+ value) acc l
  = match l with [] => acc | _ => acc +:+ String d (join_with d l) end.
Proof.
  revert acc. induction l as [|x l IH]; intros acc Hacc; simpl; [done|].
  rewrite (proj2 (String.eqb_neq acc "") Hacc), IH.
  - destruct l; by rewrite ?str_app_assoc.
  - rewrite str_app_assoc. apply str_app_nonempty_r.
Qed.

Lemma JoinStrings_join d x l :
  x <> "" -> JoinStrings (x :: l) d = join_with d (x :: l).
Proof.
  intros Hx. unfold JoinStrings. simpl. rewrite foldl_join_nonempty by done. by destruct l.
Qed.

(** Decimal digits contain neither separators nor NUL. *)
Lemma lacks_uint c (u : Decimal.uint) :
  digit_of c = None -> lacks c (NilEmpty.string_of_uint u) = true.
Proof.
  intros Hc. induction u; cbn [NilEmpty.string_of_uint lacks]; [done|..];
    (apply andb_true_iff; split; [|done]);
    apply negb_true_iff, Ascii.eqb_neq; intros <-; discriminate.
Qed.

Lemma lacks_to_string c n :
  digit_of c = None -> c <> "-"%char -> lacks c (to_string n) = true.
Proof.
  intros Hc Hm. unfold to_string, NilZero.string_of_uint.
  assert (forall u, lacks c match u with Decimal.Nil => "0" | _ => NilEmpty.string_of_uint u end = true) as Hu.
  { intros u. destruct u; try by apply lacks_uint. cbn [lacks].
    rewrite andb_true_r. apply negb_true_iff, Ascii.eqb_neq. intros <-. discriminate. }
  destruct (n <? 0); [|apply Hu]. cbn [lacks]. apply andb_true_iff. split; [|apply Hu].
  apply negb_true_iff, Ascii.eqb_neq. congruence.
Qed.

(** Reading back what [std::to_string] printed. *)
Lemma read_digits_acc u : forall acc,
  read_digits (NilEmpty.string_of_uint u) (Some (Z.pos acc)) = Some (Z.pos (Pos.of_uint_acc u acc)).
Proof.
  induction u; intros acc; [done|..]; cbn [NilEmpty.string_of_uint read_digits default Pos.of_uint_acc].
  all: match goal with |- context [digit_of ?c] =>
         let d := eval vm_compute in (digit_of c) in change (digit_of c) with d end; cbv iota.
  all: rewrite <- IHu; do 2 f_equal; simpl; lia.
Qed.

Lemma read_digits_uint u :
  read_digits (NilEmpty.string_of_uint u) (Some 0) = Some (Z.of_N (Pos.of_uint u)).
Proof.
  induction u; [done|exact IHu|..]; exact (read_digits_acc u _).
Qed.

Lemma read_digits_start u :
  u <> Decimal.Nil ->
  read_digits (NilEmpty.string_of_uint u) None = Some (Z.of_N (Pos.of_uint u)).
Proof. intros Hu. rewrite <- read_digits_uint. by destruct u. Qed.

Lemma to_uint_not_nil n : N.to_uint n <> Decimal.Nil.
Proof.
  intros Hn. pose proof (DecimalN.Unsigned.of_to n) as Ho. rewrite Hn in Ho. 
  assert (n = 0%N) as -> by done. discriminate.
Qed.

Lemma to_string_uint n :
  0 <= n -> to_string n = NilEmpty.string_of_uint (N.to_uint (Z.to_N n)).
Proof.
  intros Hn. unfold to_string. rewrite (proj2 (Z.ltb_ge n 0)) by done.
  unfold NilZero.string_of_uint. pose proof (to_uint_not_nil (Z.to_N n)).
  by destruct (N.to_uint (Z.to_N n)).
Qed.

Lemma c_str_lacks s : lacks NUL s = true -> c_str s = s.
Proof.
  induction s as [|c s IH]; simpl; [done|]. intros [Hc Hs]%andb_true_iff.
  apply negb_true_iff in Hc. by rewrite Hc, IH.
Qed.

Lemma strtoul_to_string n : 0 <= n <= U64_MAX -> strtoul (to_string n) = n.
Proof.
  intros Hn. unfold strtoul, strtoul_end. rewrite c_str_lacks by by apply lacks_to_string.
  rewrite to_string_uint by lia. pose proof (to_uint_not_nil (Z.to_N n)) as Hne.
  assert (parse_number (NilEmpty.string_of_uint (N.to_uint (Z.to_N n))) =
    v ← read_digits (NilEmpty.string_of_uint (N.to_uint (Z.to_N n))) None; Some (false, v)) as ->
    by by destruct (N.to_uint (Z.to_N n)).
  rewrite read_digits_start by done. simpl.
  assert (Pos.of_uint (N.to_uint (Z.to_N n)) = Z.to_N n) as -> by apply DecimalN.Unsigned.of_to.
  rewrite Z2N.id by lia. by rewrite (proj2 (Z.ltb_ge U64_MAX n)) by lia.
Qed.

Lemma parse_to_string n :
  parse_number (c_str (to_string n)) = Some (n <? 0, Z.abs n).
Proof.
  rewrite c_str_lacks by by apply lacks_to_string.
  assert (forall m, 0 <= m -> read_digits (to_string m) None = Some m) as Hd.
  { intros m Hm. rewrite to_string_uint by done. rewrite read_digits_start by apply to_uint_not_nil.
    assert (Pos.of_uint (N.to_uint (Z.to_N m)) = Z.to_N m) as -> by apply DecimalN.Unsigned.of_to. by rewrite Z2N.id. }
  destruct (Z.ltb_spec n 0) as [Hn|Hn].
  - specialize (Hd (- n) ltac:(lia)). unfold to_string in *. rewrite (proj2 (Z.ltb_lt n 0)) by lia.
    rewrite (proj2 (Z.ltb_ge (- n) 0)) in Hd by lia.
    change (parse_number (String "-" ?t)) with (v ← read_digits t None; Some (true, v)). rewrite Hd. simpl. do 2 f_equal. lia.
  - specialize (Hd n Hn). rewrite Z.abs_eq by lia. rewrite to_string_uint in * by lia.
    pose proof (to_uint_not_nil (Z.to_N n)).
    assert (parse_number (NilEmpty.string_of_uint (N.to_uint (Z.to_N n))) =
      v ← read_digits (NilEmpty.string_of_uint (N.to_uint (Z.to_N n))) None; Some (false, v)) as ->
      by by destruct (N.to_uint (Z.to_N n)).
    by rewrite Hd.
Qed.
Lemma atoi_to_string n : - 2 ^ 31 <= n < 2 ^ 31 -> atoi (to_string n) = n.
Proof.
  intros Hn. unfold atoi. rewrite parse_to_string. destruct (Z.ltb_spec n 0).
  - rewrite Z.min_l, i32_small by lia. lia.
  - rewrite Z.min_l, i32_small by lia. lia.
Qed.

(** Numbers with a space after each, as the server writes arrays of fields. *)
Definition spaced (l : list Z) : string := foldr (fun n text => to_string n +:+ " " +:+ text) "" l.
Lemma spaced_tokens l : Tokenizer.make (spaced l) " "%char = map to_string l.
Proof.
  unfold Tokenizer.make. induction l as [|n l IH]; [done|]. cbn [spaced foldr map].
  change (" " +:+ ?t) with (String " "%char t). rewrite tokenizer_piece by by apply lacks_to_string.
  by f_equal.
Qed.
