(* ===== verification/Scheduling.v ===== *)
(** The small building blocks with which the world's threads share their time
    (src/shared): budgets, resumable filters, staggered passes, rate limits and
    the window of tick lengths.  Clocks are machine words and wrap around. *)

From S2P Require Import Prelude.

(** ** WorkSlice.h *)
Module WorkSlice.
Record WorkSlice := mkSlice { start : Z; duration : Z; limit : Z; used : Z }.
Definition new (nowUs maxAttempts budgetUs : Z) : WorkSlice := mkSlice nowUs budgetUs maxAttempts 0.
Definition Take (nowUs : Z) (s : WorkSlice) : bool * WorkSlice :=
  if (limit s <=? used s) || (negb (used s =? 0) && (duration s <=? u64 (nowUs - start s))) then (false, s)
  else (true, mkSlice (start s) (duration s) (limit s) (u32 (used s + 1))).
Definition Attempts (s : WorkSlice) : Z := used s.
End WorkSlice.

(** ** MapWork.h *)
Record MapWorkStamp := mkStamp { mw_map : Z; mw_instance : Z; mw_generation : Z }.
Definition Matches (s : MapWorkStamp) (newMap newInstance newGeneration : Z) (inWorld : bool) : bool :=
  inWorld && (mw_map s =? newMap) && (mw_instance s =? newInstance) && (mw_generation s =? newGeneration).
Definition IsStaggeredMapWorkDue (pass guid stride : Z) : bool :=
  let stride := Z.max 1 stride in pass mod stride =? guid mod stride.

(** ** IncrementalFilter.h

    The vector is a list; a value that was moved from holds anything, [moved].
    The caller's [permit] is a step on the caller's own state. *)
Module IncrementalFilter.
Record IncrementalFilter := mkFilter { read : nat; write : nat }.
Definition start : IncrementalFilter := mkFilter 0 0.

Section advance.
Context {A P : Type} (moved : A -> A) (remove : A -> bool) (permit : P -> bool * P).

Definition keep (f : IncrementalFilter) (v : A) (values : list A) : list A :=
  if decide (write f = read f) then values else <[read f := moved v]> (<[write f := v]> values).
(** The loop runs once for every value that is left, at most. *)
Fixpoint loop (rounds : nat) (f : IncrementalFilter) (values : list A) (p : P) : bool * IncrementalFilter * list A * P :=
  match rounds, values !! read f with
  | S rounds, Some v =>
      let '(allowed, p) := permit p in
      if negb allowed then (false, f, values, p)
      else if remove v then loop rounds (mkFilter (S (read f)) (write f)) values p
      else loop rounds (mkFilter (S (read f)) (S (write f))) (keep f v values) p
  | _, _ => (true, start, take (write f) values, p)
  end.
Definition Advance (f : IncrementalFilter) (values : list A) (p : P) : bool * IncrementalFilter * list A * P :=
  loop (length values - read f) f values p.
End advance.
End IncrementalFilter.

(** ** BoundedBotThrottle.h: the last time of each key; [begin_key] is where
    the hash map's iteration happens to begin. *)
Definition THROTTLE_KEYS := 65536.
Section throttle.
Context (begin_key : gmap Z Z -> Z).
Definition Allow (key now interval : Z) (force : bool) (times : gmap Z Z) : bool * gmap Z Z :=
  match times !! key with
  | Some last =>
      if negb force && (u32 (now - last) <? interval) then (false, times)
      else (true, <[key := now]> times)
  | None =>
      let times := if decide (THROTTLE_KEYS <= Z.of_nat (size times)) then delete (begin_key times) times else times in
      (true, <[key := now]> times)
  end.
End throttle.

(** ** TickDiffWindow.h *)
Module TickDiffWindow.
Record TickDiffWindow := mkWindow {
  history : list Z; cursor : nat; sum : Z; current : Z; average : Z; maximum : Z }.
Definition empty (Size : nat) : TickDiffWindow := mkWindow (repeat 0 Size) 0 0 0 0 0.
(** [*std::max_element]. *)
Definition max_element (l : list Z) : Z := foldr Z.max 0 l.
Definition Record_ (Size : nat) (diff : Z) (w : TickDiffWindow) : TickDiffWindow :=
  let sum := u64 (sum w - nth (cursor w) (history w) 0) in
  let history := <[cursor w := diff]> (history w) in
  let sum := u64 (sum + diff) in
  mkWindow history ((cursor w + 1) mod Size) sum diff (u32 (sum / Z.of_nat Size)) (max_element history).
End TickDiffWindow.

(** ** BackgroundWorldScheduling.h *)
Inductive Motion := Idle | Random | Other.
Record CreatureState := mkCreature {
  c_continent : bool; c_foreground : bool; c_alive : bool; c_controlled : bool; c_combat : bool; c_events : bool;
  c_auras : bool; c_casting : bool; c_scripted : bool; c_active : bool; c_transport : bool; c_motion : Motion }.

Definition BackgroundStride (averageMs : Z) (hasPlayers : bool) (maxSkip : Z) : Z :=
  if averageMs <=? 100 then 1
  else
    let stride := u64 (averageMs + 9) / 10 in
    let stride := if hasPlayers then stride else u64 (stride * 3) in
    u32 (Z.min (Z.max 1 maxSkip) stride).

Definition protected (c : CreatureState) : bool :=
  negb (c_continent c) || c_foreground c || negb (c_alive c) || c_controlled c || c_combat c || c_events c ||
  c_auras c || c_casting c || c_scripted c || c_active c || c_transport c.
Definition CreatureInterval (c : CreatureState) (guid : Z) : Z :=
  if protected c then 0
  else
    let mixed := u32 (guid * 2654435761) in
    let mixed := Z.lxor mixed (Z.shiftr mixed 16) in
    match c_motion c with
    | Idle => 500 + mixed mod 501
    | Random => 250 + mixed mod 251
    | Other => 0
    end.

(** [{due, logicalDiff}]. *)
Definition DecideUpdate (elapsed mapDiff interval : Z) : bool * Z :=
  if interval =? 0 then (true, mapDiff)
  else if negb (elapsed =? 0) && (elapsed <? interval) then (false, 0)
  else (true, Z.min 1000 (if elapsed =? 0 then mapDiff else elapsed)).

(** ** BoundedBotTrace.h *)
Module BotTrace.
Record Slot := mkSlot {
  guid : Z; lastSeen : Z; second : Z; count : Z; lastPeriodic : Z; lastAction : Z; hasPeriodic : bool; hasAction : bool }.
Definition no_slot : Slot := mkSlot 0 0 0 0 0 0 false false.
Record Trace := mkTrace { slots : list Slot; started : bool; finished : bool; start : Z; emitted : Z; suppressed : Z }.
Definition new : Trace := mkTrace (repeat no_slot 12) false false 0 0 0.

Definition is_available (now : Z) (s : Slot) : bool := (guid s =? 0) || (30000 <=? u32 (now - lastSeen s)).
(** The search stops at the guid's own slot; up to there, or else at all, the
    first available one is remembered. *)
Definition selected (g : Z) (l : list Slot) : option (nat * Slot) := list_find (fun s => guid s = g) l.
Definition available (now : Z) (l : list Slot) : option (nat * Slot) := list_find (fun s => is_available now s = true) l.

Definition suppress (t : Trace) : Trace := mkTrace (slots t) (started t) (finished t) (start t) (emitted t) (u64 (suppressed t + 1)).
Definition put (n : nat) (s : Slot) (t : Trace) : Trace :=
  mkTrace (<[n := s]> (slots t)) (started t) (finished t) (start t) (emitted t) (suppressed t).
(** The slot at [n], found or new, is charged. *)
Definition charge (now : Z) (periodic action : bool) (n : nat) (s : Slot) (t : Trace) : bool * Trace :=
  let t := if started t then t else mkTrace (slots t) true (finished t) now (emitted t) (suppressed t) in
  let sec := now / 1000 in
  let s := mkSlot (guid s) now sec (if second s =? sec then count s else 0) (lastPeriodic s) (lastAction s) (hasPeriodic s) (hasAction s) in
  if periodic && hasPeriodic s && (u32 (now - lastPeriodic s) <? 5000) then (false, put n s t)
  else if negb periodic && ((7 <=? count s) || (action && hasAction s && (u32 (now - lastAction s) <? 5000)))
  then (false, suppress (put n s t))
  else
    let s := mkSlot (guid s) (lastSeen s) (second s) (u32 (count s + 1)) (if periodic then now else lastPeriodic s)
               (if action then now else lastAction s) (periodic || hasPeriodic s) (action || hasAction s) in
    let t := put n s t in
    (true, mkTrace (slots t) (started t) (finished t) (start t) (u32 (emitted t + 1)) (suppressed t)).

Definition Take (now g : Z) (allowNew periodic action : bool) (t : Trace) : bool * Trace :=
  if finished t || (g =? 0) then (false, t)
  else if (started t && (600000 <=? u32 (now - start t))) || (8000 <=? emitted t)
  then (false, mkTrace (slots t) (started t) true (start t) (emitted t) (suppressed t))
  else
    match selected g (slots t) with
    | Some (n, s) => charge now periodic action n s t
    | None =>
        if negb allowNew then (false, t)
        else match available now (slots t) with
             | None => (false, suppress t)
             | Some (n, _) =>
                 charge now periodic action n (mkSlot g 0 0 0 0 0 false false)
                   (put n (mkSlot g 0 0 0 0 0 false false) t)
             end
    end.
End BotTrace.
