(* ===== verification/SchedulingFacts.v ===== *)
(** What the building blocks of [Scheduling] do over many calls. *)

From S2P Require Import Prelude Scheduling.

(** ** The resumable filter, in slices of work *)
Section filter.
Context {A : Type} (moved : A -> A) (remove : A -> bool).
Abbreviation IFilter := IncrementalFilter.IncrementalFilter.
Abbreviation fread := IncrementalFilter.read.
Abbreviation fwrite := IncrementalFilter.write.

Definition kept (l : list A) : list A := List.filter (negb ∘ remove) l.
Lemma kept_snoc l v : kept (l ++ [v]) = kept l ++ if remove v then [] else [v].
Proof. unfold kept. rewrite List.filter_app. simpl. by destruct (remove v). Qed.
Lemma kept_length l : (length (kept l) <= length l)%nat.
Proof. unfold kept. induction l as [|v l IH]; simpl; [lia|]. destruct (negb (remove v)); simpl; lia. Qed.

(** The values in front are those kept so far, those from [read] on are still
    untouched. *)
Record part_way (l : list A) (f : IFilter) (values : list A) : Prop := {
  pw_length : length values = length l;
  pw_read : (fread f <= length l)%nat;
  pw_kept : take (fwrite f) values = kept (take (fread f) l);
  pw_write : fwrite f = length (kept (take (fread f) l));
  pw_rest : drop (fread f) values = drop (fread f) l
}.
Lemma part_way_start l : part_way l IncrementalFilter.start l.
Proof. by split; simpl; try lia. Qed.
Lemma part_way_le l f values : part_way l f values -> (fwrite f <= fread f)%nat.
Proof. intros H. rewrite (pw_write _ _ _ H). pose proof (kept_length (take (fread f) l)). rewrite length_take in *. lia. Qed.

Lemma part_way_next l f values : part_way l f values -> values !! fread f = l !! fread f.
Proof. intros H. rewrite <- (Nat.add_0_r (fread f)), <- !lookup_drop. by rewrite (pw_rest _ _ _ H). Qed.
Lemma part_way_skip l f values v : part_way l f values -> values !! fread f = Some v -> remove v = true ->
  part_way l (IncrementalFilter.mkFilter (S (fread f)) (fwrite f)) values.
Proof.
  intros H Hv Hr. pose proof Hv as Hl. rewrite (part_way_next _ _ _ H) in Hl. pose proof (lookup_lt_Some _ _ _ Hl).
  split; simpl; rewrite ?(take_S_r _ _ _ Hl), ?kept_snoc, ?Hr, ?app_nil_r; try apply H; [lia|].
  rewrite <- Nat.add_1_r, <- !drop_drop. by rewrite (pw_rest _ _ _ H).
Qed.
Lemma part_way_keep l f values v : part_way l f values -> values !! fread f = Some v -> remove v = false ->
  part_way l (IncrementalFilter.mkFilter (S (fread f)) (S (fwrite f))) (IncrementalFilter.keep moved f v values).
Proof.
  intros H Hv Hr. pose proof Hv as Hl. rewrite (part_way_next _ _ _ H) in Hl. pose proof (lookup_lt_Some _ _ _ Hl).
  pose proof (part_way_le _ _ _ H) as Hle. pose proof (pw_length _ _ _ H) as Hlen. unfold IncrementalFilter.keep.
  assert (forall vs : list A, drop (S (fread f)) vs = drop 1 (drop (fread f) vs)) as HS by (intros; by rewrite drop_drop, Nat.add_1_r).
  split; cbn [IncrementalFilter.read IncrementalFilter.write]; rewrite ?(take_S_r _ _ _ Hl), ?kept_snoc, ?Hr.
  - case_decide; rewrite ?length_insert; done.
  - lia.
  - rewrite <- (pw_kept _ _ _ H). case_decide as E; [by rewrite E, (take_S_r _ _ v)|].
    rewrite take_insert_ge by lia. rewrite (take_S_r _ _ v) by (apply list_lookup_insert_eq; lia). by rewrite take_insert_ge.
  - rewrite length_app, <- (pw_write _ _ _ H). simpl. lia.
  - rewrite !HS, <- (pw_rest _ _ _ H). case_decide; [done|]. rewrite <- !HS. rewrite !drop_insert_lt by lia. done.
Qed.

(** Every pass that starts with a permit makes progress. *)
Context {P : Type} (permit : P -> bool * P).
Lemma loop_result l n : forall f values p b f' values' p', part_way l f values -> (length values - fread f = n)%nat ->
  IncrementalFilter.loop moved remove permit n f values p = (b, f', values', p') ->
  if b then f' = IncrementalFilter.start /\ values' = kept l
  else part_way l f' values' /\ (fread f <= fread f' < length l)%nat /\ (fst (permit p) = true -> (fread f < fread f')%nat).
Proof.
  induction n as [|n IH]; intros f values p b f' values' p' H Hn; cbn [IncrementalFilter.loop].
  - intros [= <- <- <- <-]. split; [done|]. rewrite (pw_kept _ _ _ H), take_ge; [done|]. rewrite <- (pw_length _ _ _ H). lia.
  - destruct (values !! fread f) as [v|] eqn:Hv; [|apply lookup_ge_None in Hv; lia].
    destruct (permit p) as [allowed p1] eqn:Hp. destruct allowed; cbn [negb fst].
    + destruct (remove v) eqn:Hr; intros Hl; eapply IH in Hl;
        try (apply part_way_skip with (v := v); done); try (apply part_way_keep; done); try (cbn; rewrite ?length_insert; lia).
      * destruct b; [done|]. destruct Hl as (? & ? & _). cbn in *. split; [done|]. split; lia.
      * destruct b; [done|]. destruct Hl as (? & ? & _). cbn in *. split; [done|]. split; lia.
      * cbn. unfold IncrementalFilter.keep. case_decide; rewrite ?length_insert; lia.
    + intros [= <- <- <- <-]. apply lookup_lt_Some in Hv. rewrite (pw_length _ _ _ H) in Hv. split; [done|]. by split; [lia|].
Qed.
End filter.

(** The permit of a slice of work, with the readings of the clock. *)
Definition slice_permit (clock : nat -> Z) (p : WorkSlice.WorkSlice * nat) : bool * (WorkSlice.WorkSlice * nat) :=
  let '(allowed, s) := WorkSlice.Take (clock (snd p)) (fst p) in (allowed, (s, S (snd p))).
Lemma first_attempt now maxAttempts budget t : 0 < maxAttempts -> fst (WorkSlice.Take t (WorkSlice.new now maxAttempts budget)) = true.
Proof. intros H. unfold WorkSlice.Take. simpl. by destruct (Z.leb_spec maxAttempts 0); [lia|]. Qed.
Lemma attempts_bounded t s : 0 <= WorkSlice.used s <= WorkSlice.limit s -> WorkSlice.limit s < 2 ^ 32 ->
  let '(b, s') := WorkSlice.Take t s in
  WorkSlice.limit s' = WorkSlice.limit s /\ WorkSlice.used s' = WorkSlice.used s + (if b then 1 else 0) /\
  0 <= WorkSlice.used s' <= WorkSlice.limit s'.
Proof.
  intros H Hl. unfold WorkSlice.Take. destruct (Z.leb_spec (WorkSlice.limit s) (WorkSlice.used s)); cbn [orb]; [split_and!; lia|].
  destruct (negb _ && _); [split_and!; lia|]. cbn. rewrite u32_small by lia. split_and!; lia.
Qed.

Section slices.
Context {A : Type} (moved : A -> A) (remove : A -> bool) (maxAttempts budget : Z).

(** One pass over the values: a fresh slice of work. *)
Definition slice_pass (f : IncrementalFilter.IncrementalFilter) (values : list A) (turn : Z * (nat -> Z)) :=
  IncrementalFilter.Advance moved remove (slice_permit (snd turn)) f values (WorkSlice.new (fst turn) maxAttempts budget, 0%nat).
(** Passes until the filter is through. *)
Fixpoint passes (turns : list (Z * (nat -> Z))) (f : IncrementalFilter.IncrementalFilter) (values : list A) : option (list A) :=
  match turns with
  | [] => None
  | turn :: turns =>
      let '(b, f, values, _) := slice_pass f values turn in if b then Some values else passes turns f values
  end.

Lemma slice_pass_progress l f values turn b f' values' p : 0 < maxAttempts -> part_way remove l f values ->
  slice_pass f values turn = (b, f', values', p) ->
  if b then f' = IncrementalFilter.start /\ values' = kept remove l
  else part_way remove l f' values' /\ (IncrementalFilter.read f < IncrementalFilter.read f' < length l)%nat.
Proof.
  intros Hm H E. eapply loop_result in E; [|done|done]. destruct b; [done|]. destruct E as (H1 & H2 & H3). split; [done|].
  split; [|apply H2]. apply H3.
  unfold slice_permit. cbn [fst snd]. pose proof (first_attempt (fst turn) maxAttempts budget (snd turn 0%nat) Hm) as Hf.
  by destruct (WorkSlice.Take _ _).
Qed.
(** A pass that is interrupted has read something new, so there are at most as
    many passes as values. *)
Lemma passes_finish l turns : forall f values, 0 < maxAttempts -> part_way remove l f values -> turns <> [] ->
  (length l <= IncrementalFilter.read f + length turns)%nat -> passes turns f values = Some (kept remove l).
Proof.
  induction turns as [|turn turns IH]; intros f values Hm H Hne Hle; [done|]. simpl.
  destruct (slice_pass f values turn) as [[[b f'] values'] p] eqn:E. apply (slice_pass_progress l) in E; [|done|done]. destruct b.
  - by destruct E as [_ ->].
  - destruct E as [H' Hlt]. simpl in Hle. apply IH; [done|done| |lia]. intros ->. simpl in Hle. lia.
Qed.

(** No pass does more than its share. *)
Lemma loop_attempts n : forall clock f values s k b f' values' s' k', 0 <= WorkSlice.used s <= WorkSlice.limit s -> WorkSlice.limit s < 2 ^ 32 ->
  IncrementalFilter.loop moved remove (slice_permit clock) n f values (s, k) = (b, f', values', (s', k')) ->
  WorkSlice.limit s' = WorkSlice.limit s /\ WorkSlice.used s <= WorkSlice.used s' <= WorkSlice.limit s.
Proof.
  induction n as [|n IH]; intros clock f values s k b f' values' s' k' Hs Hl; cbn [IncrementalFilter.loop].
  { intros [= <- <- <- <- <-]. split; [done|lia]. }
  destruct (values !! _) as [v|]; [|intros [= <- <- <- <- <-]; split; [done|lia]].
  unfold slice_permit at 1. cbn [fst snd]. pose proof (attempts_bounded (clock k) s Hs Hl) as Ht.
  destruct (WorkSlice.Take (clock k) s) as [allowed s1]. destruct Ht as (H1 & H2 & H3). destruct allowed; cbn [negb] in *.
  - assert (WorkSlice.limit s1 < 2 ^ 32) as Hl1 by lia.
    destruct (remove v); intros E; apply IH in E as [E1 E2]; try done; (split; [congruence|lia]).
  - intros [= <- <- <- <- <-]. split; [done|lia].
Qed.
Lemma slice_pass_attempts f values turn b f' values' p : 0 < maxAttempts < 2 ^ 32 ->
  slice_pass f values turn = (b, f', values', p) -> 0 <= WorkSlice.Attempts (fst p) <= maxAttempts.
Proof.
  intros Hm E. destruct p as [s k]. apply loop_attempts in E as [_ E]; unfold WorkSlice.new, WorkSlice.Attempts in *; cbn [WorkSlice.used WorkSlice.limit fst] in *; lia.
Qed.
End slices.

(** ** The window of tick lengths *)
Section window.
Context (Size : nat) (Hsize : (0 < Size)%nat) (Hsmall : Z.of_nat Size < 2 ^ 32).
Abbreviation Window := TickDiffWindow.TickDiffWindow.

Definition sum_list_Z (l : list Z) : Z := foldr Z.add 0 l.
(** The last [Size] tick lengths, with zeros before the first one. *)
Definition recent (diffs : list Z) : list Z := drop (length diffs) (repeat 0 Size ++ diffs).
Lemma sum_app l k : sum_list_Z (l ++ k) = sum_list_Z l + sum_list_Z k.
Proof. unfold sum_list_Z. induction l as [|x l IH]; simpl; lia. Qed.
Lemma max_app l k : Forall (Z.le 0) k -> TickDiffWindow.max_element (l ++ k) = Z.max (TickDiffWindow.max_element l) (TickDiffWindow.max_element k).
Proof.
  intros Hk. unfold TickDiffWindow.max_element. assert (0 <= foldr Z.max 0 k) by (induction Hk; simpl; lia).
  induction l as [|x l IH]; simpl; lia.
Qed.
Lemma length_recent diffs : length (recent diffs) = Size.
Proof. unfold recent. rewrite length_drop, length_app, repeat_length. lia. Qed.
Lemma recent_snoc diffs d : recent (diffs ++ [d]) = tail (recent diffs) ++ [d].
Proof.
  unfold recent. rewrite length_app. simpl. rewrite (app_assoc _ diffs). rewrite drop_app_le by (rewrite length_app, repeat_length; lia).
  rewrite <- drop_drop. by destruct (drop (length diffs) _).
Qed.

Definition diff_ok (d : Z) : Prop := 0 <= d < 2 ^ 32.
Record window_ok (diffs : list Z) (w : Window) : Prop := {
  wo_length : length (TickDiffWindow.history w) = Size;
  wo_cursor : (TickDiffWindow.cursor w < Size)%nat;
  wo_recent : drop (TickDiffWindow.cursor w) (TickDiffWindow.history w) ++ take (TickDiffWindow.cursor w) (TickDiffWindow.history w) = recent diffs;
  wo_sum : TickDiffWindow.sum w = sum_list_Z (recent diffs)
}.
Lemma sum_bound l : Forall diff_ok l -> 0 <= sum_list_Z l <= Z.of_nat (length l) * (2 ^ 32 - 1).
Proof. unfold diff_ok. induction 1; simpl; lia. Qed.
Lemma recent_ok diffs : Forall diff_ok diffs -> Forall diff_ok (recent diffs).
Proof.
  intros H. unfold recent. apply Forall_drop, Forall_app. split; [|done]. apply Forall_forall. intros x Hx.
  apply list_elem_of_In, repeat_spec in Hx. subst. by split.
Qed.

Lemma window_record diffs w d : Forall diff_ok diffs -> diff_ok d -> window_ok diffs w ->
  window_ok (diffs ++ [d]) (TickDiffWindow.Record_ Size d w).
Proof.
  intros Hd Hok [Hl Hc Hr Hs]. set (c := TickDiffWindow.cursor w) in *. set (h := TickDiffWindow.history w) in *.
  destruct (lookup_lt_is_Some_2 h c) as [x Hx]; [lia|]. pose proof (drop_S h x c Hx) as Hdrop.
  assert (recent (diffs ++ [d]) = drop (S c) h ++ take c h ++ [d]) as Hrec.
  { rewrite recent_snoc, <- Hr, Hdrop. simpl. by rewrite app_assoc. }
  assert (recent diffs = x :: drop (S c) h ++ take c h) as Hold by (rewrite <- Hr, Hdrop; done).
  split; cbn [TickDiffWindow.Record_ TickDiffWindow.history TickDiffWindow.cursor TickDiffWindow.sum]; fold c h.
  - by rewrite length_insert.
  - apply Nat.mod_upper_bound. lia.
  - rewrite Hrec. destruct (decide (c + 1 = Size)%nat) as [E|].
    + rewrite E, Nat.Div0.mod_same. simpl. rewrite app_nil_r, (insert_take_drop h) by lia. rewrite !(drop_ge h (S c)) by lia. done.
    + rewrite Nat.mod_small, Nat.add_1_r by lia. rewrite drop_insert_lt by lia. f_equal.
      rewrite (take_S_r _ _ d) by (apply list_lookup_insert_eq; lia). by rewrite take_insert_ge.
  - rewrite (nth_lookup_Some h c 0 x Hx), Hs. pose proof (recent_ok diffs Hd) as Hf.
    pose proof (sum_bound _ (recent_ok diffs Hd)) as Hb. rewrite length_recent in Hb.
    assert (Forall diff_ok (diffs ++ [d])) as Hd' by (apply Forall_app; split; [done|by constructor]).
    pose proof (sum_bound _ (recent_ok _ Hd')) as Hb'. rewrite length_recent in Hb'. rewrite Hold in *. apply Forall_cons in Hf as [Hx0 Hf].
    pose proof (sum_bound _ Hf) as Hb2. rewrite Hrec, app_assoc, (sum_app _ [d]) in *. simpl in Hb, Hb' |- *. unfold diff_ok in *.
    set (rest := sum_list_Z (drop (S c) h ++ take c h)) in *. assert (Z.of_nat Size * (2 ^ 32 - 1) < 2 ^ 64) as Hlt by lia.
    replace (x + rest - x) with rest by lia. rewrite (u64_small rest), u64_small by lia. lia.
Qed.
Lemma window_start : window_ok [] (TickDiffWindow.empty Size).
Proof.
  assert (recent [] = repeat 0 Size) as E by (unfold recent; by rewrite app_nil_r).
  split; rewrite ?E; cbn; rewrite ?repeat_length, ?app_nil_r; try done.
  unfold sum_list_Z. clear. induction Size; simpl; lia.
Qed.
Lemma window_after diffs : Forall diff_ok diffs -> window_ok diffs (foldl (fun w d => TickDiffWindow.Record_ Size d w) (TickDiffWindow.empty Size) diffs).
Proof.
  induction diffs as [|d diffs IH] using rev_ind; intros H; [apply window_start|]. apply Forall_app in H as [H [Hd _]%Forall_cons].
  rewrite foldl_snoc. by apply window_record, IH.
Qed.
(** What is published after a tick. *)
Lemma window_published diffs d : Forall diff_ok (diffs ++ [d]) ->
  let w := foldl (fun w d => TickDiffWindow.Record_ Size d w) (TickDiffWindow.empty Size) (diffs ++ [d]) in
  TickDiffWindow.current w = d /\ TickDiffWindow.average w = sum_list_Z (recent (diffs ++ [d])) / Z.of_nat Size /\
  TickDiffWindow.maximum w = TickDiffWindow.max_element (recent (diffs ++ [d])).
Proof.
  intros H w. pose proof (window_after _ H) as Hw. fold w in Hw. destruct Hw as [Hl Hc Hr Hs].
  pose proof (sum_bound _ (recent_ok _ H)) as Hb. rewrite length_recent in Hb.
  assert (TickDiffWindow.average w = u32 (TickDiffWindow.sum w / Z.of_nat Size) /\ TickDiffWindow.current w = d /\
    TickDiffWindow.maximum w = TickDiffWindow.max_element (TickDiffWindow.history w)) as (-> & -> & ->).
  { unfold w. rewrite foldl_snoc. done. }
  split; [done|]. rewrite Hs. split.
  - rewrite u32_small; [done|]. split; [apply Z.div_pos; lia|]. apply Z.div_lt_upper_bound; nia.
  - rewrite <- Hr. pose proof (recent_ok _ H) as Hf. rewrite <- Hr in Hf. apply Forall_app in Hf as [H1 H2].
    assert (forall l, Forall diff_ok l -> Forall (Z.le 0) l) as Hle by (intros l Hl0; eapply Forall_impl; [exact Hl0|]; unfold diff_ok; simpl; lia).
    rewrite <- (take_drop (TickDiffWindow.cursor w) (TickDiffWindow.history w)) at 1. rewrite !max_app by auto. apply Z.max_comm.
Qed.
End window.

(** ** The throttle *)
Section throttle.
Context (begin_key : gmap Z Z -> Z) (Hbegin : forall m, m <> ∅ -> is_Some (m !! begin_key m)).
Lemma Allow_spec key now interval force times b times' : Z.of_nat (size times) <= THROTTLE_KEYS ->
  Allow begin_key key now interval force times = (b, times') ->
  (b = false <-> exists last, times !! key = Some last /\ force = false /\ u32 (now - last) < interval) /\
  (b = false -> times' = times) /\ (b = true -> times' !! key = Some now) /\ Z.of_nat (size times') <= THROTTLE_KEYS /\
  (forall k t, k <> key -> times' !! k = Some t -> times !! k = Some t) /\
  (Z.of_nat (size times) < THROTTLE_KEYS -> forall k, k <> key -> times' !! k = times !! k).
Proof.
  intros Hs. unfold Allow. destruct (times !! key) as [last|] eqn:Hk.
  - destruct (negb force && (u32 (now - last) <? interval)) eqn:Hb; intros [= <- <-].
    + apply andb_true_iff in Hb as [Hf%negb_true_iff Hi%Z.ltb_lt]. split_and!; try done. split; [by exists last|done].
    + split_and!; try done.
      * split; [done|]. intros (? & [= <-] & -> & Hi). apply Z.ltb_lt in Hi. by rewrite Hi in Hb.
      * intros _. by rewrite lookup_insert_eq.
      * rewrite map_size_insert_Some; [done|]. by exists last.
      * intros k t Hne. by rewrite lookup_insert_ne.
      * intros _ k Hne. by rewrite lookup_insert_ne.
  - intros [= <- <-]. split_and!; try done.
    + split; [done|]. by intros (? & ? & _).
    + intros _. by rewrite lookup_insert_eq.
    + case_decide as Hfull.
      * assert (is_Some (times !! begin_key times)) as Hin.
        { apply Hbegin. intros ->. rewrite map_size_empty in Hfull. by unfold THROTTLE_KEYS in Hfull. }
        rewrite map_size_insert_None; [|rewrite lookup_delete_None; by right].
        rewrite map_size_delete_Some by done. destruct Hin as [? Hin]. assert (size times <> 0)%nat; [|lia].
        intros E%map_size_empty_inv. subst. by rewrite lookup_empty in Hin.
      * rewrite map_size_insert_None by done. lia.
    + intros k t Hne. rewrite lookup_insert_ne by done. case_decide; [|done]. by intros [_ ?]%lookup_delete_Some.
    + intros Hlt k Hne. rewrite lookup_insert_ne by done. rewrite decide_False by lia. done.
Qed.
End throttle.

(** ** Staggered passes and update intervals *)
Lemma staggered_once guid stride first : 0 <= guid ->
  exists pass, first <= pass < first + Z.max 1 stride /\ IsStaggeredMapWorkDue pass guid stride = true /\
    forall other, first <= other < first + Z.max 1 stride -> IsStaggeredMapWorkDue other guid stride = true -> other = pass.
Proof.
  intros Hg. unfold IsStaggeredMapWorkDue. cbv zeta. set (n := Z.max 1 stride). assert (0 < n) as Hn by lia.
  exists (first + (guid - first) mod n). pose proof (Z.mod_pos_bound (guid - first) n Hn).
  assert ((first + (guid - first) mod n) mod n = guid mod n) as E by (rewrite Zplus_mod_idemp_r; f_equal; lia).
  split; [lia|]. rewrite E, Z.eqb_refl. split; [done|]. intros other Ho He%Z.eqb_eq. rewrite <- E in He.
  pose proof (Z.div_mod other n ltac:(lia)) as H1. pose proof (Z.div_mod (first + (guid - first) mod n) n ltac:(lia)) as H2.
  rewrite He in H1. set (r := (first + (guid - first) mod n) mod n) in *. set (pass := first + (guid - first) mod n) in *.
  destruct (Z.lt_trichotomy (other / n) (pass / n)) as [?|[E2|?]]; [|rewrite E2 in H1; lia|];
    [assert (n * (other / n) + n <= n * (pass / n)) by nia|assert (n * (pass / n) + n <= n * (other / n)) by nia]; lia.
Qed.
Lemma BackgroundStride_bounds averageMs hasPlayers maxSkip : 0 <= averageMs < 2 ^ 32 -> 0 <= maxSkip < 2 ^ 32 ->
  1 <= BackgroundStride averageMs hasPlayers maxSkip <= Z.max 1 maxSkip /\
  (averageMs <= 100 -> BackgroundStride averageMs hasPlayers maxSkip = 1) /\
  BackgroundStride averageMs true maxSkip <= BackgroundStride averageMs false maxSkip.
Proof.
  intros Ha Hm. unfold BackgroundStride. destruct (Z.leb_spec averageMs 100); [split_and!; lia|].
  assert (10 <= (averageMs + 9) / 10 < 2 ^ 32) as Hq by (split; [apply Z.div_le_lower_bound; lia|apply Z.div_lt_upper_bound; lia]).
  rewrite (u64_small (averageMs + 9)), (u64_small (_ * 3)) by lia. split; [destruct hasPlayers; rewrite u32_small; lia|].
  split; [lia|]. rewrite !u32_small; lia.
Qed.
Lemma CreatureInterval_bounds c guid : 0 <= CreatureInterval c guid <= 1000 /\
  (CreatureInterval c guid = 0 <-> protected c = true \/ c_motion c = Other).
Proof.
  unfold CreatureInterval. destruct (protected c); [split; [lia|]; split; [by left|done]|]. cbv zeta. set (m := Z.lxor _ _).
  pose proof (Z.mod_pos_bound m 501 ltac:(lia)). pose proof (Z.mod_pos_bound m 251 ltac:(lia)).
  destruct (c_motion c); (split; [lia|]); split; try lia; try (intros [?|?]; done); by right.
Qed.
Lemma DecideUpdate_spec elapsed mapDiff interval : 0 <= elapsed -> 0 <= mapDiff -> 0 <= interval ->
  let '(due, diff) := DecideUpdate elapsed mapDiff interval in
  (due = false <-> 0 < elapsed < interval) /\ 0 <= diff /\ (interval <> 0 -> diff <= 1000) /\ (interval = 0 -> diff = mapDiff).
Proof.
  intros He Hm Hi. unfold DecideUpdate. destruct (Z.eqb_spec interval 0); [split_and!; lia|].
  destruct (Z.eqb_spec elapsed 0); cbn [negb andb]; [split_and!; (lia || (split; [done|lia]))|].
  destruct (Z.ltb_spec elapsed interval); split_and!; (lia || (split; [done|lia])).
Qed.

(** ** The bounded trace *)
Section trace.
Import BotTrace.
(** Eight records a second at most; the eighth is a periodic one. *)
Record slot_ok (now : Z) (s : Slot) : Prop := {
  so_count : 0 <= count s <= 8;
  so_eighth : count s = 8 -> hasPeriodic s = true /\ lastPeriodic s / 1000 = second s;
  so_periodic : 0 <= lastPeriodic s <= now
}.
Record trace_ok (now : Z) (t : Trace) : Prop := {
  to_slots : Forall (slot_ok now) (slots t);
  to_emitted : 0 <= emitted t <= 8000
}.
Lemma slot_ok_later now now' s : now <= now' -> slot_ok now s -> slot_ok now' s.
Proof. intros Hle [H1 H2 H3]. split; [done..|lia]. Qed.
Lemma trace_ok_later now now' t : now <= now' -> trace_ok now t -> trace_ok now' t.
Proof. intros Hle [H1 H2]. split; [|done]. eapply Forall_impl; [exact H1|]. intros s. by apply slot_ok_later. Qed.
Lemma no_slot_ok g now : 0 <= now -> slot_ok now (mkSlot g 0 0 0 0 0 false false).
Proof. intros H. split; simpl; [lia..|done]. Qed.

Lemma charge_ok now periodic action n s t : 0 <= now < 2 ^ 32 -> trace_ok now t -> emitted t < 8000 -> slot_ok now s ->
  trace_ok now (snd (charge now periodic action n s t)).
Proof.
  intros Hn [Hs He] Hlt [Hc H8 Hp]. unfold charge. cbv zeta. set (t1 := if started t then t else _).
  assert (slots t1 = slots t /\ emitted t1 = emitted t) as [E1 E2] by (unfold t1; by destruct (started t)). clearbody t1.
  set (c := if second s =? now / 1000 then count s else 0). set (s1 := mkSlot _ _ _ c _ _ _ _).
  assert (slot_ok now s1 /\ second s1 = now / 1000) as [Hs1 Hsec].
  { split; [|done]. unfold s1, c. destruct (Z.eqb_spec (second s) (now / 1000)) as [E|]; split; simpl; try lia. by rewrite <- E. }
  assert (forall s2 t2, slot_ok now s2 -> slots t2 = slots t -> Forall (slot_ok now) (slots (put n s2 t2))) as Hput.
  { intros s2 t2 H2 E. simpl. rewrite E. by apply Forall_insert. }
  clearbody s1. destruct Hs1 as [Hc1 H81 Hp1].
  destruct (periodic && hasPeriodic s1 && _) eqn:Hb1; [by split; [apply Hput|simpl; rewrite E2]|].
  destruct (negb periodic && _) eqn:Hb2; [by split; [apply Hput|simpl; rewrite E2]|].
  assert (count s1 <= 7 /\ (periodic = false -> count s1 < 7)) as [H7 H7'].
  { destruct periodic; cbn [negb andb] in *.
    - split; [|done]. destruct (decide (count s1 = 8)) as [E|]; [|lia]. destruct (H81 E) as [Hh Hl]. rewrite Hh in Hb1.
      apply Z.ltb_ge in Hb1. rewrite Hsec in Hl. rewrite u32_small in Hb1 by lia.
      pose proof (Z.div_mod now 1000 ltac:(lia)). pose proof (Z.div_mod (lastPeriodic s1) 1000 ltac:(lia)).
      pose proof (Z.mod_pos_bound now 1000 ltac:(lia)). pose proof (Z.mod_pos_bound (lastPeriodic s1) 1000 ltac:(lia)). lia.
    - apply orb_false_iff in Hb2 as [Hb2%Z.leb_gt _]. split; [lia|done]. }
  split; [|simpl; rewrite E2, u32_small; lia]. cbn [snd slots]. apply Hput; [|done].
  split; cbn [count lastPeriodic hasPeriodic second]; rewrite ?(u32_small (count s1 + 1)) by lia; [lia| |destruct periodic; lia].
  intros E. destruct periodic; [by rewrite Hsec|]. specialize (H7' eq_refl). lia.
Qed.

Lemma Take_ok now g allowNew periodic action t : 0 <= now < 2 ^ 32 -> trace_ok now t ->
  trace_ok now (snd (Take now g allowNew periodic action t)) /\
  (fst (Take now g allowNew periodic action t) = true ->
     finished t = false /\ g <> 0 /\ emitted (snd (Take now g allowNew periodic action t)) = emitted t + 1).
Proof.
  intros Hn Ht. pose proof Ht as [Hs He]. unfold Take. destruct (finished t || (g =? 0)) eqn:Hf; [by split|].
  apply orb_false_iff in Hf as [Hf Hg%Z.eqb_neq]. destruct ((started t && _) || (8000 <=? emitted t)) eqn:Hb; [by split|].
  apply orb_false_iff in Hb as [_ Hb%Z.leb_gt].
  assert (forall n s t', emitted t' = emitted t -> fst (charge now periodic action n s t') = true ->
    emitted (snd (charge now periodic action n s t')) = emitted t + 1) as Hem.
  { intros n s t' E. unfold charge. cbv zeta. rewrite <- E in *. set (t1 := if started t' then t' else _).
    assert (emitted t1 = emitted t') as E1 by (unfold t1; by destruct (started t')). clearbody t1.
    destruct (_ && _ && _); [done|]. destruct (negb periodic && _); [done|]. intros _. simpl. rewrite E1, u32_small; lia. }
  destruct (selected g (slots t)) as [[n s]|] eqn:Hsel.
  - apply list_find_Some in Hsel as (Hl & _). rewrite Forall_lookup in Hs. split; [by apply charge_ok; eauto|]. auto.
  - destruct allowNew; [|by split]. cbn [negb]. destruct (available now (slots t)) as [[n s]|]; [|by split]. split; [|auto].
    assert (slot_ok now (mkSlot g 0 0 0 0 0 false false)) as H0 by (apply no_slot_ok; lia).
    apply charge_ok; try done. split; [|done]. by apply Forall_insert.
Qed.

Lemma Take_emitted now g allowNew periodic action t :
  fst (Take now g allowNew periodic action t) = false -> emitted (snd (Take now g allowNew periodic action t)) = emitted t.
Proof.
  assert (forall n s t', emitted t' = emitted t -> fst (charge now periodic action n s t') = false ->
    emitted (snd (charge now periodic action n s t')) = emitted t) as Hc.
  { intros n s t' E. unfold charge. cbv zeta. set (t1 := if started t' then t' else _).
    assert (emitted t1 = emitted t') as E1 by (unfold t1; by destruct (started t')). clearbody t1.
    destruct (_ && _ && _); [simpl; congruence|]. destruct (negb periodic && _); [simpl; congruence|done]. }
  unfold Take. destruct (_ || _); [done|]. destruct (_ || _); [done|]. destruct (selected g (slots t)) as [[n s]|]; [auto|].
  destruct allowNew; [|done]. cbn [negb]. destruct (available now (slots t)) as [[n s]|]; [auto|done].
Qed.

(** The answers to a sequence of calls, at times that do not go back. *)
Definition trace_call : Type := Z * Z * (bool * bool * bool).
Definition take_call (c : trace_call) (t : Trace) : bool * Trace :=
  let '(now, g, (allowNew, periodic, action)) := c in Take now g allowNew periodic action t.
Definition granted (calls : list trace_call) : Z * Trace :=
  foldl (fun nt c => let '(b, t) := take_call c (snd nt) in (fst nt + (if b then 1 else 0), t)) (0, new) calls.
Definition ordered (calls : list trace_call) : Prop :=
  StronglySorted (fun a b : trace_call => fst (fst a) <= fst (fst b)) calls /\ Forall (fun c : trace_call => 0 <= fst (fst c) < 2 ^ 32) calls.

Lemma granted_ok calls : forall n t now, (forall c, c ∈ calls -> now <= fst (fst c)) -> ordered calls -> trace_ok now t -> emitted t = n ->
  let '(n', t') := foldl (fun nt c => let '(b, t) := take_call c (snd nt) in (fst nt + (if b then 1 else 0), t)) (n, t) calls in
  emitted t' = n' /\ n' <= 8000 /\ exists now', trace_ok now' t'.
Proof.
  induction calls as [|[[t0 g] [[a p] b]] calls IH]; intros n t now Hnow [Ho Hf] Ht He; simpl.
  { split_and!; [done|destruct Ht; lia|by exists now]. }
  apply StronglySorted_inv in Ho as [Ho Hall]. apply Forall_cons in Hf as [H0 Hf]. simpl in H0.
  assert (trace_ok t0 t) as Ht0 by (eapply trace_ok_later, Ht; apply (Hnow _ (list_elem_of_here _ _))).
  destruct (Take_ok t0 g a p b t H0 Ht0) as [Hok Hem]. pose proof (Take_emitted t0 g a p b t) as Hno.
  destruct (Take t0 g a p b t) as [r t1] eqn:E. cbn [fst snd] in *. apply (IH _ t1 t0); try done.
  - intros c Hc. rewrite Forall_forall in Hall. by apply (Hall c).
  - destruct r; [destruct Hem as (_ & _ & ->); [done|lia]|]. rewrite Hno by done. lia.
Qed.
Lemma granted_bounds calls : ordered calls ->
  let '(n, t) := granted calls in n <= 8000 /\ emitted t = n /\ exists now, trace_ok now t.
Proof.
  intros Ho. pose proof (granted_ok calls 0 new 0) as H. unfold granted. destruct (foldl _ _ _) as [n t].
  destruct H as (H1 & H2 & H3); [|done| |done|done].
  - intros c Hc. destruct Ho as [_ Ho]. rewrite Forall_forall in Ho. apply (Ho c Hc).
  - split; [|by split]. repeat (apply Forall_cons; split; [by apply no_slot_ok|]). apply Forall_nil_2.
Qed.
Lemma charge_slots now periodic action n s t : length (slots (snd (charge now periodic action n s t))) = length (slots t).
Proof. unfold charge. cbv zeta. destruct (started t); repeat case_match; simpl; by rewrite ?length_insert. Qed.
Lemma Take_slots now g a p b t : length (slots (snd (Take now g a p b t))) = length (slots t).
Proof. unfold Take. repeat case_match; try done; rewrite charge_slots; simpl; by rewrite ?length_insert. Qed.
Lemma granted_slots calls : length (slots (snd (granted calls))) = 12%nat.
Proof.
  unfold granted. apply (foldl_inv (fun nt : Z * Trace => length (slots (snd nt)) = 12%nat)); [done|].
  intros [n t] [[t0 g] [[a p] b]] _ H. cbn [take_call snd fst] in *. pose proof (Take_slots t0 g a p b t) as E.
  destruct (Take t0 g a p b t) as [r t1]. cbn in *. congruence.
Qed.
End trace.
