(* ===== verification/Indexes.v ===== *)
(** The lookup structures of src/shared that the map workers read: sets of
    viewers, trainers, areas and locations.  A locked section is one step. *)

From S2P Require Import Prelude.

(** ** MovementViewerSet.h: a sorted vector *)
Module MovementViewerSet.
(** [std::lower_bound]: the first place that is not below the guid. *)
Definition lower_bound (g : Z) (l : list Z) : nat := from_option fst (length l) (list_find (fun x => g <= x) l).
Definition Add (g : Z) (l : list Z) : list Z :=
  let it := lower_bound g l in
  if decide (l !! it = Some g) then l else take it l ++ g :: drop it l.
Definition Remove (g : Z) (l : list Z) : list Z :=
  let it := lower_bound g l in
  if decide (l !! it = Some g) then delete it l else l.
Definition Snapshot (l : list Z) : list Z := l.
Definition Clear (l : list Z) : list Z := [].
End MovementViewerSet.

(** ** BotTrainerIndex.h *)
Module BotTrainerIndex.
Record BotTrainerIndex := mkIndex { common_ : gset Z; classes_ : gmap Z (gset Z) }.
Definition empty : BotTrainerIndex := mkIndex ∅ ∅.
Definition Update (entry trainerClass : Z) (allClasses eligible : bool) (x : BotTrainerIndex) : BotTrainerIndex :=
  let common := common_ x ∖ {[entry]} in
  let classes := (.∖ {[entry]}) <$> classes_ x in
  if negb eligible then mkIndex common classes
  else if allClasses then mkIndex ({[entry]} ∪ common) classes
  else mkIndex common (<[trainerClass := {[entry]} ∪ default ∅ (classes !! trainerClass)]> classes).
Definition Snapshot (playerClass : Z) (x : BotTrainerIndex) : list Z :=
  selems (common_ x ∪ default ∅ (classes_ x !! playerClass)).
End BotTrainerIndex.

(** ** AreaLookupIndex.h *)
Module AreaLookupIndex.
Record AreaLookupIndex := mkAreas { exact : gmap Z Z; fallback : gmap Z Z; mapFlags : gmap Z Z }.
Definition empty : AreaLookupIndex := mkAreas ∅ ∅ ∅.
Definition exact_key (map flag : Z) : Z := Z.lor (Z.shiftl map 32) flag.
(** [emplace]: the first entry of a key stays. *)
Definition emplace (k v : Z) (m : gmap Z Z) : gmap Z Z := match m !! k with Some _ => m | None => <[k := v]> m end.
Definition Add (id flag map : Z) (zone : bool) (x : AreaLookupIndex) : AreaLookupIndex :=
  let x := if flag =? 0 then x
           else mkAreas (emplace (exact_key map flag) id (exact x)) (<[flag := id]> (fallback x)) (mapFlags x) in
  if zone && negb (map =? 0) && negb (map =? 1) then mkAreas (exact x) (fallback x) (emplace map flag (mapFlags x)) else x.
Definition Find (flag map : Z) (x : AreaLookupIndex) : Z :=
  match exact x !! exact_key map flag with
  | Some id => id
  | None => default 0 (fallback x !! flag)
  end.
Definition MapFlag (map : Z) (x : AreaLookupIndex) : Z := default 0 (mapFlags x !! map).
End AreaLookupIndex.

(** ** StaticLocationIndex.h

    A [float] is its 32-bit pattern: not finite when the exponent is all ones,
    equal to zero when nothing but the sign is set. *)
Module StaticLocationIndex.
Definition isfinite (f : Z) : bool := negb (Z.land (Z.shiftr f 23) 255 =? 255).
Definition canonical (f : Z) : Z := if (f =? 0) || (f =? 2 ^ 31) then 0 else f.
Definition MakeKey (map x y z : Z) : option (Z * Z * Z * Z) :=
  if isfinite x && isfinite y && isfinite z then Some (map, canonical x, canonical y, canonical z) else None.

Section entries.
Context {Value : Type}.
Definition Find (map x y z : Z) (entries : gmap (Z * Z * Z * Z) Value) : option Value :=
  key ← MakeKey map x y z; entries !! key.
Definition Insert (map x y z : Z) (value : Value) (entries : gmap (Z * Z * Z * Z) Value) : bool * gmap (Z * Z * Z * Z) Value :=
  match MakeKey map x y z with
  | None => (false, entries)
  | Some key => match entries !! key with
                | Some _ => (false, entries)
                | None => (true, <[key := value]> entries)
                end
  end.
End entries.
End StaticLocationIndex.

(** ** WeightedPermutation.h

    [clock w u] is [-log(u) / w], or infinity for a weight that is not positive
    and finite; clocks are compared by [lt].  [draws] are the numbers the
    generator yields, two for each item. *)
Module WeightedPermutation.
Section permutation.
Context {D W U C : Type} (clock : W -> U -> C) (lt : C -> C -> bool) (equal : C -> C -> bool) (lt_tie : U -> U -> bool).
Record Entry := mkEntry { value : D; weight : W; e_clock : C; tie : U }.
Definition before (a b : Entry) : bool := lt (e_clock a) (e_clock b) || (equal (e_clock a) (e_clock b) && lt_tie (tie a) (tie b)).
Fixpoint entries (items : list D) (weights : list W) (draws : nat -> U) (n : nat) : list Entry :=
  match items, weights with
  | d :: items, w :: weights => mkEntry d w (clock w (draws n)) (draws (S n)) :: entries items weights draws (S (S n))
  | _, _ => []
  end.
(** [std::sort]: some order in which nothing comes before its predecessor. *)
Definition not_after (a b : Entry) : Prop := before b a = false.
#[export] Instance not_after_dec a b : Decision (not_after a b).
Proof. unfold not_after. apply _. Defined.
Definition permute (items : list D) (weights : list W) (draws : nat -> U) : list D * list W :=
  let l := merge_sort not_after (entries items weights draws 0) in
  ((value <$> l) ++ drop (length l) items, (weight <$> l) ++ drop (length l) weights).
End permutation.
End WeightedPermutation.
