(* ===== verification/IndexesFacts.v ===== *)
(** The lookup structures of [Indexes] behave as the plain sets and searches
    they stand for. *)

From S2P Require Import Prelude Indexes.

(** ** Ascending lists are sets *)
Lemma sorted_lt_NoDup (l : list Z) : StronglySorted Z.lt l -> NoDup l.
Proof.
  induction 1 as [|x l _ IH Hall]; constructor; [|done]. intros Hin. rewrite Forall_forall in Hall. specialize (Hall x Hin). lia.
Qed.
Lemma sorted_lt_le (l : list Z) : StronglySorted Z.lt l -> StronglySorted Z.le l.
Proof. induction 1 as [|x l _ IH Hall]; constructor; [done|]. eapply Forall_impl; [exact Hall|]. simpl. lia. Qed.
Lemma selems_sorted s : StronglySorted Z.le (selems s).
Proof. apply (StronglySorted_merge_sort Z.le). Qed.
Lemma sorted_selems l s : StronglySorted Z.lt l -> (forall k, k ∈ l <-> k ∈ s) -> l = selems s.
Proof.
  intros Hl Hs. apply (StronglySorted_unique Z.le); [by apply sorted_lt_le|apply selems_sorted|].
  apply NoDup_Permutation; [by apply sorted_lt_NoDup|apply NoDup_selems|]. intros k. by rewrite elem_of_selems.
Qed.

(** ** Viewers *)
Section viewers.
Import MovementViewerSet.
Lemma lower_bound_split g l : StronglySorted Z.lt l ->
  Forall (fun x => x < g) (take (lower_bound g l) l) /\ Forall (fun x => g <= x) (drop (lower_bound g l) l).
Proof.
  unfold lower_bound. induction 1 as [|x l Hl IH Hall]; simpl; [done|]. case_decide as Hx; simpl.
  - split; [done|]. constructor; [done|]. eapply Forall_impl; [exact Hall|]. simpl. lia.
  - destruct (list_find _ l) as [[i y]|]; simpl in *; (split; [constructor; [lia|]|]); apply IH.
Qed.
Lemma sorted_app (l k : list Z) : StronglySorted Z.lt (l ++ k) <->
  StronglySorted Z.lt l /\ StronglySorted Z.lt k /\ (forall x y, x ∈ l -> y ∈ k -> x < y).
Proof. rewrite StronglySorted_app. naive_solver. Qed.

Lemma Add_sorted g l : StronglySorted Z.lt l -> StronglySorted Z.lt (Add g l) /\ forall k, k ∈ Add g l <-> k = g \/ k ∈ l.
Proof.
  intros Hl. destruct (lower_bound_split g l Hl) as [Hlo Hhi]. unfold Add. cbv zeta. set (it := lower_bound g l) in *. case_decide as Hg.
  - split; [done|]. intros k. split; [by right|]. intros [->|?]; [by eapply list_elem_of_lookup_2|done].
  - rewrite Forall_forall in Hlo, Hhi. pose proof Hl as Hall. rewrite <- (take_drop it l) in Hall. apply sorted_app in Hall as (H1 & H2 & H).
    assert (forall y, y ∈ drop it l -> g < y) as Hlt.
    { destruct (drop it l) as [|z rest] eqn:E; [by intros ? ?%not_elem_of_nil|].
      assert (l !! it = Some z) as Hz by (rewrite <- (Nat.add_0_r it), <- lookup_drop, E; done).
      assert (g < z) by (specialize (Hhi z (list_elem_of_here _ _)); simpl in Hhi; destruct (decide (z = g)); [congruence|lia]).
      intros y Hy. apply elem_of_cons in Hy as [->|Hy]; [done|]. apply StronglySorted_inv in H2 as [_ H2]. rewrite Forall_forall in H2.
      specialize (H2 y Hy). lia. }
    split.
    + apply sorted_app. split_and!; [done|constructor; [done|by apply Forall_forall]|]. intros x y Hx [->|Hy]%elem_of_cons; [by apply Hlo|auto].
    + intros k. rewrite <- (take_drop it l) at 3. rewrite !elem_of_app, elem_of_cons. tauto.
Qed.

Lemma Remove_sorted g l : StronglySorted Z.lt l -> StronglySorted Z.lt (Remove g l) /\ forall k, k ∈ Remove g l <-> k <> g /\ k ∈ l.
Proof.
  intros Hl. destruct (lower_bound_split g l Hl) as [Hlo Hhi]. unfold Remove. cbv zeta. set (it := lower_bound g l) in *.
  rewrite Forall_forall in Hlo, Hhi. case_decide as Hg.
  - pose proof Hl as Hall. rewrite <- (take_drop_middle l it g Hg) in Hall. apply sorted_app in Hall as (H1 & H2 & H).
    apply StronglySorted_inv in H2 as [H2 Hgt]. rewrite Forall_forall in Hgt. rewrite delete_take_drop. split.
    + apply sorted_app. split_and!; [done|done|]. intros x y Hx Hy. apply H; [done|]. by right.
    + intros k. rewrite <- (take_drop_middle l it g Hg) at 3. rewrite !elem_of_app, elem_of_cons. split.
      * intros [Hk|Hk]; [specialize (Hlo k Hk)|specialize (Hgt k Hk)]; simpl in *; (split; [lia|tauto]).
      * tauto.
  - split; [done|]. intros k. split; [|tauto]. intros Hk. split; [|done]. intros ->.
    rewrite <- (take_drop it l) in Hk. apply elem_of_app in Hk as [Hk|Hk]; [specialize (Hlo g Hk); simpl in Hlo; lia|].
    pose proof Hl as Hall. rewrite <- (take_drop it l) in Hall. apply sorted_app in Hall as (_ & H2 & _).
    destruct (drop it l) as [|z rest] eqn:E; [by apply not_elem_of_nil in Hk|].
    assert (l !! it = Some z) as Hz by (rewrite <- (Nat.add_0_r it), <- lookup_drop, E; done).
    apply elem_of_cons in Hk as [->|Hk]; [done|]. apply StronglySorted_inv in H2 as [_ H2]. rewrite Forall_forall in H2.
    specialize (H2 g Hk). specialize (Hhi z (list_elem_of_here _ _)). simpl in *. lia.
Qed.

(** A sequence of calls, on the vector and on the set it stands for. *)
Inductive viewer_op := VAdd (g : Z) | VRemove (g : Z) | VClear.
Definition viewer_step (l : list Z) (op : viewer_op) : list Z :=
  match op with VAdd g => Add g l | VRemove g => Remove g l | VClear => Clear l end.
Definition viewer_spec (s : gset Z) (op : viewer_op) : gset Z :=
  match op with VAdd g => {[g]} ∪ s | VRemove g => s ∖ {[g]} | VClear => ∅ end.
Definition viewers (ops : list viewer_op) : list Z := foldl viewer_step [] ops.
Definition viewers_spec (ops : list viewer_op) : gset Z := foldl viewer_spec ∅ ops.

Lemma viewers_refine ops : StronglySorted Z.lt (viewers ops) /\ forall k, k ∈ viewers ops <-> k ∈ viewers_spec ops.
Proof.
  unfold viewers, viewers_spec. induction ops as [|op ops [Hs He]] using rev_ind; [split; [constructor|set_solver]|].
  rewrite !foldl_snoc. destruct op as [g|g|]; simpl.
  - destruct (Add_sorted g _ Hs) as [H1 H2]. split; [done|]. intros k. rewrite H2, He. set_solver.
  - destruct (Remove_sorted g _ Hs) as [H1 H2]. split; [done|]. intros k. rewrite H2, He. set_solver.
  - split; [constructor|set_solver].
Qed.
End viewers.

(** ** Trainers *)
Section trainers.
Import BotTrainerIndex.
(** One line of the trainer table: the entry, its class, whether it is for all
    classes, whether bots may use it. *)
Definition trainer_row : Type := Z * Z * bool * bool.
Definition trainer_update (x : BotTrainerIndex) (r : trainer_row) : BotTrainerIndex :=
  let '(entry, cls, all, eligible) := r in Update entry cls all eligible x.
Definition trainers (rows : list trainer_row) : BotTrainerIndex := foldl trainer_update empty rows.
(** What the last line of an entry says. *)
Definition row_for (entry cls : Z) (r : option trainer_row) : Prop :=
  match r with Some (e, c, all, eligible) => eligible = true /\ (all = true \/ c = cls) | None => False end.
Definition last_row (entry : Z) (rows : list trainer_row) : option trainer_row :=
  last (List.filter (fun r : trainer_row => fst (fst (fst r)) =? entry) rows).

Lemma last_row_snoc entry rows r : last_row entry (rows ++ [r]) = if fst (fst (fst r)) =? entry then Some r else last_row entry rows.
Proof. unfold last_row. rewrite List.filter_app. simpl. destruct (_ =? _); [apply last_snoc|by rewrite app_nil_r]. Qed.

Lemma Update_lookup entry cls all eligible x k c :
  k ∈ common_ (Update entry cls all eligible x) ∪ default ∅ (classes_ (Update entry cls all eligible x) !! c) <->
  if decide (k = entry) then eligible = true /\ (all = true \/ cls = c) else k ∈ common_ x ∪ default ∅ (classes_ x !! c).
Proof.
  assert (forall c, default ∅ (((.∖ {[entry]}) <$> classes_ x) !! c) = default ∅ (classes_ x !! c) ∖ {[entry]}) as Hd.
  { intros c'. rewrite lookup_fmap. destruct (classes_ x !! c'); simpl; set_solver. }
  unfold Update. destruct eligible; cbn [negb].
  - destruct all; cbn [common_ classes_].
    + rewrite Hd. case_decide; set_solver.
    + destruct (decide (cls = c)) as [->|Hne].
      * rewrite lookup_insert_eq. cbn [default from_option id]. rewrite Hd. case_decide; set_solver.
      * rewrite lookup_insert_ne by done. rewrite Hd. case_decide; [|set_solver]. split; [set_solver|]. intros [_ [?|?]]; done.
  - cbn [common_ classes_]. rewrite Hd. case_decide; set_solver.
Qed.

Lemma trainers_spec rows cls k : k ∈ Snapshot cls (trainers rows) <-> row_for k cls (last_row k rows).
Proof.
  unfold Snapshot. rewrite elem_of_selems. unfold trainers. revert k. induction rows as [|[[[e c] all] eligible] rows IH] using rev_ind; intros k.
  - simpl. rewrite lookup_empty. set_solver.
  - rewrite foldl_snoc, last_row_snoc. cbn [trainer_update fst]. rewrite Update_lookup. destruct (Z.eqb_spec e k) as [->|Hne].
    + by rewrite decide_True.
    + rewrite decide_False by congruence. apply IH.
Qed.
End trainers.

(** ** Areas *)
Section areas.
Import AreaLookupIndex.
(** id, flag, map, whether it is a zone *)
Definition area_row : Type := Z * Z * Z * bool.
Definition area_id (r : area_row) : Z := fst (fst (fst r)).
Definition area_flag (r : area_row) : Z := snd (fst (fst r)).
Definition area_map (r : area_row) : Z := snd (fst r).
Definition area_add (x : AreaLookupIndex) (r : area_row) : AreaLookupIndex := Add (area_id r) (area_flag r) (area_map r) (snd r) x.
Definition areas (rows : list area_row) : AreaLookupIndex := foldl area_add empty rows.

(** The searches over the whole table. *)
Definition on_map (flag map : Z) (r : area_row) : bool := (area_flag r =? flag) && (area_map r =? map).
Definition linear_find (flag map : Z) (rows : list area_row) : Z :=
  if flag =? 0 then 0
  else match head (List.filter (on_map flag map) rows) with
       | Some r => area_id r
       | None => from_option area_id 0 (last (List.filter (fun r => area_flag r =? flag) rows))
       end.
Definition linear_map_flag (map : Z) (rows : list area_row) : Z :=
  if (map =? 0) || (map =? 1) then 0
  else from_option area_flag 0 (head (List.filter (fun r : area_row => snd r && (area_map r =? map)) rows)).

Definition word (z : Z) : Prop := 0 <= z < 2 ^ 32.
Lemma exact_key_inj m f m' f' : word f -> word f' -> exact_key m f = exact_key m' f' -> m = m' /\ f = f'.
Proof.
  unfold word, exact_key. intros Hf Hf' H.
  assert (forall m f, 0 <= f < 2 ^ 32 -> Z.lor (Z.shiftl m 32) f = m * 2 ^ 32 + f) as E.
  { intros a b Hb. rewrite Z.shiftl_mul_pow2 by lia. rewrite <- Z.add_lor_land.
    assert (Z.land (a * 2 ^ 32) b = 0) as ->; [|lia]. apply Z.bits_inj'. intros n Hn. rewrite Z.land_spec, Z.bits_0.
    destruct (Z.ltb_spec n 32); [by rewrite Z.mul_pow2_bits_low|]. rewrite <- (Z.mod_small b (2 ^ 32)) by done.
    rewrite Z.mod_pow2_bits_high by lia. apply andb_false_r. }
  rewrite !E in H by done. lia.
Qed.

Lemma head_snoc {A} (p : A -> bool) l x :
  head (List.filter p (l ++ [x])) = match head (List.filter p l) with Some y => Some y | None => if p x then Some x else None end.
Proof. rewrite List.filter_app. simpl. by destruct (List.filter p l), (p x). Qed.
Lemma last_filter_snoc {A} (p : A -> bool) l x :
  last (List.filter p (l ++ [x])) = if p x then Some x else last (List.filter p l).
Proof. rewrite List.filter_app. simpl. destruct (p x); [apply last_snoc|by rewrite app_nil_r]. Qed.

Definition row_ok (r : area_row) : Prop := word (area_flag r) /\ word (area_map r).
Lemma emplace_lookup k v m k' : emplace k v m !! k' = match m !! k' with Some y => Some y | None => if decide (k = k') then Some v else None end.
Proof.
  unfold emplace. destruct (m !! k) eqn:E.
  - destruct (m !! k') eqn:E'; [done|]. rewrite decide_False; [done|]. by intros ->; rewrite E in E'.
  - destruct (decide (k = k')) as [->|]; [by rewrite lookup_insert_eq, E|]. rewrite lookup_insert_ne by done. by destruct (m !! k').
Qed.

Lemma areas_lookup rows : Forall row_ok rows ->
  (forall flag map, word flag -> flag <> 0 -> exact (areas rows) !! exact_key map flag = area_id <$> head (List.filter (on_map flag map) rows)) /\
  (forall map, exact (areas rows) !! exact_key map 0 = None) /\
  (forall flag, flag <> 0 -> fallback (areas rows) !! flag = area_id <$> last (List.filter (fun r => area_flag r =? flag) rows)) /\
  fallback (areas rows) !! 0 = None /\
  (forall map, mapFlags (areas rows) !! map = if (map =? 0) || (map =? 1) then None
     else area_flag <$> head (List.filter (fun r : area_row => snd r && (area_map r =? map)) rows)).
Proof.
  unfold areas. induction rows as [|r rows IH] using rev_ind; intros Hok.
  { simpl. split_and!; try done. intros map. by destruct (_ || _). }
  apply Forall_app in Hok as [Hok [[Hrf Hrm] _]%Forall_cons]. destruct (IH Hok) as (H1 & H2 & H3 & H4 & H5). clear IH.
  rewrite foldl_snoc. set (x := foldl area_add empty rows) in *. unfold area_add at 1 2 3 4 5, Add.
  set (x1 := if area_flag r =? 0 then x else _).
  assert (forall a b c, exact (if snd r && a && b then mkAreas (exact x1) (fallback x1) c else x1) = exact x1 /\
                        fallback (if snd r && a && b then mkAreas (exact x1) (fallback x1) c else x1) = fallback x1) as Hx1
    by (intros; by destruct (snd r && a && b)).
  cbv zeta. destruct (Hx1 (negb (area_map r =? 0)) (negb (area_map r =? 1)) (emplace (area_map r) (area_flag r) (mapFlags x1))) as [-> ->].
  assert (mapFlags x1 = mapFlags x) as Hm1 by (unfold x1; by destruct (area_flag r =? 0)).
  assert (word 0) as Hw0 by done. split_and!.
  - intros flag map Hw Hne. rewrite head_snoc. unfold x1, on_map at 2. destruct (Z.eqb_spec (area_flag r) 0) as [E|E].
    + rewrite E, (proj2 (Z.eqb_neq 0 flag)) by done. cbn [andb]. rewrite H1 by done. by destruct (head _).
    + cbn [exact]. rewrite emplace_lookup, H1 by done. destruct (head _); [done|]. cbn [fmap option_fmap option_map].
      destruct (Z.eqb_spec (area_flag r) flag) as [<-|Hf]; cbn [andb].
      * destruct (Z.eqb_spec (area_map r) map) as [<-|Hm]; [by rewrite decide_True|]. rewrite decide_False; [done|].
        intros Hk. by apply exact_key_inj in Hk as [? _].
      * rewrite decide_False; [done|]. intros Hk. by apply exact_key_inj in Hk as [_ ?].
  - intros map. unfold x1. destruct (Z.eqb_spec (area_flag r) 0) as [E|E]; [apply H2|]. cbn [exact]. rewrite emplace_lookup, H2.
    rewrite decide_False; [done|]. intros Hk. by apply exact_key_inj in Hk as [_ ?].
  - intros flag Hne. rewrite last_filter_snoc. unfold x1. destruct (Z.eqb_spec (area_flag r) flag) as [<-|Hf].
    + rewrite (proj2 (Z.eqb_neq _ 0)) by done. cbn [fallback]. by rewrite lookup_insert_eq.
    + rewrite <- H3 by done. destruct (Z.eqb_spec (area_flag r) 0); [done|]. cbn [fallback]. by rewrite lookup_insert_ne.
  - unfold x1. destruct (Z.eqb_spec (area_flag r) 0); [done|]. cbn [fallback]. by rewrite lookup_insert_ne.
  - intros map. rewrite head_snoc. specialize (H5 map).
    assert (forall b : bool, mapFlags (if b then mkAreas (exact x1) (fallback x1) (emplace (area_map r) (area_flag r) (mapFlags x1)) else x1) !! map =
      match mapFlags x !! map with Some y => Some y | None => if b && (area_map r =? map) then Some (area_flag r) else None end) as E.
    { intros []; cbn [mapFlags andb]; rewrite ?Hm1; [|by destruct (mapFlags x !! map)]. rewrite emplace_lookup.
      destruct (mapFlags x !! map); [done|]. destruct (Z.eqb_spec (area_map r) map); [by rewrite decide_True|by rewrite decide_False]. }
    rewrite E, H5. clear E H5. destruct (Z.eqb_spec map 0) as [Hz|H0]; cbn [orb].
    + rewrite Hz. by destruct (snd r), (area_map r =? 0), (area_map r =? 1).
    + destruct (Z.eqb_spec map 1) as [Ho|Hm1']; [rewrite Ho; by destruct (snd r), (area_map r =? 0), (area_map r =? 1)|].
      destruct (head _); [done|]. cbn [fmap option_fmap option_map]. destruct (Z.eqb_spec (area_map r) map) as [Em|]; [|by rewrite !andb_false_r].
      rewrite Em, (proj2 (Z.eqb_neq map 0)), (proj2 (Z.eqb_neq map 1)) by done. cbn [negb]. rewrite !andb_true_r. by destruct (snd r).
Qed.

Lemma areas_linear rows flag map : Forall row_ok rows -> word flag ->
  Find flag map (areas rows) = linear_find flag map rows /\ MapFlag map (areas rows) = linear_map_flag map rows.
Proof.
  intros Hok Hw. destruct (areas_lookup rows Hok) as (H1 & H2 & H3 & H4 & H5). unfold Find, linear_find, MapFlag, linear_map_flag.
  rewrite H5. split; [|destruct (_ || _); [done|]; by destruct (head _)].
  destruct (Z.eqb_spec flag 0) as [->|Hne]; [by rewrite H2, H4|]. rewrite H1 by done. destruct (head _); [done|]. simpl. rewrite H3 by done.
  by destruct (last _).
Qed.
End areas.

(** ** Locations *)
Section locations.
Import StaticLocationIndex.
(** [==] on finite floats. *)
Definition float_eq (f g : Z) : Prop := f = g \/ (f = 0 \/ f = 2 ^ 31) /\ (g = 0 \/ g = 2 ^ 31).
Lemma canonical_eq f g : canonical f = canonical g <-> float_eq f g.
Proof.
  unfold canonical, float_eq. destruct (Z.eqb_spec f 0), (Z.eqb_spec f (2 ^ 31)), (Z.eqb_spec g 0), (Z.eqb_spec g (2 ^ 31)); cbn [orb]; lia.
Qed.
Definition finite3 (x y z : Z) : bool := isfinite x && isfinite y && isfinite z.

Lemma Insert_spec {V} (map x y z : Z) (value : V) (entries : gmap (Z * Z * Z * Z) V) b entries' :
  Insert map x y z value entries = (b, entries') ->
  (b = true <-> finite3 x y z = true /\ Find map x y z entries = None) /\
  (b = false -> entries' = entries) /\
  (b = true -> forall map' x' y' z', finite3 x' y' z' = true ->
     (map' = map /\ float_eq x' x /\ float_eq y' y /\ float_eq z' z -> Find map' x' y' z' entries' = Some value) /\
     (~ (map' = map /\ float_eq x' x /\ float_eq y' y /\ float_eq z' z) -> Find map' x' y' z' entries' = Find map' x' y' z' entries)).
Proof.
  unfold Insert, Find, MakeKey. fold (finite3 x y z). destruct (finite3 x y z); cbn [mbind option_bind]; [|intros [= <- <-]; split; [split; [done|by intros [? _]]|done]].
  destruct (entries !! _) eqn:E; intros [= <- <-]; [split; [split; [done|by intros [_ ?]]|done]|]. split_and!; [done|done|]. intros _ map' x' y' z' Hf.
  fold (finite3 x' y' z'). rewrite Hf. cbn [mbind option_bind]. rewrite <- !canonical_eq. split.
  - intros (-> & -> & -> & ->). apply lookup_insert_eq.
  - intros Hne. apply lookup_insert_ne. intros Heq. apply Hne. injection Heq. intros. by split_and!.
Qed.
Lemma not_finite {V} (map x y z : Z) (entries : gmap (Z * Z * Z * Z) V) : finite3 x y z = false -> Find map x y z entries = None.
Proof. unfold Find, MakeKey. fold (finite3 x y z). by intros ->. Qed.
End locations.

(** ** The weighted permutation *)
Section permutation.
Context {D W U C : Type} (clock : W -> U -> C) (lt equal : C -> C -> bool) (lt_tie : U -> U -> bool).
Abbreviation Entry := (@WeightedPermutation.Entry D W U C).
Abbreviation before := (@WeightedPermutation.before D W U C lt equal lt_tie).
Abbreviation permute := (@WeightedPermutation.permute D W U C clock lt equal lt_tie).
Abbreviation entries := (@WeightedPermutation.entries D W U C clock).

Lemma entries_pairs items : forall weights (draws : nat -> U) n,
  (fun e : Entry => (WeightedPermutation.value e, WeightedPermutation.weight e)) <$> entries items weights draws n = zip items weights.
Proof. induction items as [|d items IH]; intros [|w weights] draws n; simpl; [done..|]. by rewrite IH. Qed.
Lemma entries_clock items : forall weights (draws : nat -> U) n e, e ∈ entries items weights draws n ->
  exists u, WeightedPermutation.e_clock e = clock (WeightedPermutation.weight e) u.
Proof.
  induction items as [|d items IH]; intros [|w weights] draws n e; simpl; try by intros ?%not_elem_of_nil.
  intros [->|H]%elem_of_cons; [by eexists|]. eapply IH, H.
Qed.
Lemma zip_fmap {A} (f : A -> D) (g : A -> W) l : zip (f <$> l) (g <$> l) = (fun a => (f a, g a)) <$> l.
Proof. induction l as [|a l IH]; simpl; [done|]. f_equal; apply IH. Qed.
Lemma zip_app_drop (l1 : list D) (k1 : list W) (l2 : list D) (k2 : list W) : length l1 = length k1 -> l2 = [] \/ k2 = [] ->
  zip (l1 ++ l2) (k1 ++ k2) = zip l1 k1.
Proof. intros Hl H. rewrite zip_with_app by done. destruct H as [->| ->]; simpl; [by rewrite app_nil_r|]. destruct l2; by rewrite app_nil_r. Qed.

Lemma permute_spec items weights draws items' weights' : permute items weights draws = (items', weights') ->
  length items' = length items /\ length weights' = length weights /\
  zip items' weights' ≡ₚ zip items weights /\
  (forall i, (length weights <= i)%nat -> items' !! i = items !! i) /\ (forall i, (length items <= i)%nat -> weights' !! i = weights !! i).
Proof.
  unfold WeightedPermutation.permute. cbv zeta. set (es := entries items weights draws 0).
  set (l := merge_sort _ es). assert (l ≡ₚ es) as Hp by apply merge_sort_Permutation. assert (length l = length (zip items weights)) as Hlen
    by (rewrite (Permutation_length Hp), <- (entries_pairs items weights draws 0), length_fmap; done).
  rewrite length_zip_with in Hlen. intros [= <- <-]. rewrite !length_app, !length_fmap, !length_drop. split_and!; [lia|lia| | |].
  - rewrite zip_app_drop; [|by rewrite !length_fmap|destruct (Nat.le_ge_cases (length items) (length weights)); [left|right]; apply drop_ge; lia].
    rewrite zip_fmap, <- (entries_pairs items weights draws 0). by rewrite Hp.
  - intros i Hi. destruct (Nat.lt_ge_cases i (length items)) as [Hlt|]; [|rewrite !lookup_ge_None_2; [done|lia|rewrite length_app, length_fmap, length_drop; lia]].
    rewrite lookup_app_r by (rewrite length_fmap; lia). rewrite lookup_drop, length_fmap. f_equal. lia.
  - intros i Hi. destruct (Nat.lt_ge_cases i (length weights)) as [Hlt|]; [|rewrite !lookup_ge_None_2; [done|lia|rewrite length_app, length_fmap, length_drop; lia]].
    rewrite lookup_app_r by (rewrite length_fmap; lia). rewrite lookup_drop, length_fmap. f_equal. lia.
Qed.
End permutation.
