(* ===== verification/SharedTheorems.v ===== *)
(** The properties of the building blocks the world's threads share. *)

From S2P Require Import Prelude Scheduling SchedulingFacts Indexes IndexesFacts.

(** Cleaning up a vector in slices of work always gets through.  A slice
    grants no more than its attempts, but the first one always, whatever the
    clock says; so after at most as many passes as there are values the filter
    has kept exactly the values that are not to be removed, in their order. *)
Theorem filter_finishes_in_slices {A : Type} (moved : A -> A) (remove : A -> bool) (maxAttempts budget : Z) (l : list A)
    (turns : list (Z * (nat -> Z))) :
  0 < maxAttempts < 2 ^ 32 -> turns <> [] -> (length l <= length turns)%nat ->
  passes moved remove maxAttempts budget turns IncrementalFilter.start l = Some (List.filter (negb ∘ remove) l) /\
  (forall f values turn b f' values' p, slice_pass moved remove maxAttempts budget f values turn = (b, f', values', p) ->
     0 <= WorkSlice.Attempts (fst p) <= maxAttempts).
Proof.
  intros Hm Hne Hle. split; [|intros; by eapply slice_pass_attempts].
  apply (passes_finish moved remove maxAttempts budget l turns IncrementalFilter.start l); [lia|apply part_way_start|done|done].
Qed.

(** Two attempts in a slice, and a clock that has run out at once. *)
Lemma filter_finishes_in_slices_witness :
  passes (fun _ => 0) Z.even 2 0 (replicate 5 (7, fun _ => 9)) IncrementalFilter.start [1; 2; 3; 4; 5] = Some [1; 3; 5].
Proof. exact (proj1 (filter_finishes_in_slices (fun _ => 0) Z.even 2 0 [1; 2; 3; 4; 5] (replicate 5 (7, fun _ => 9))
  ltac:(lia) ltac:(discriminate) ltac:(vm_compute; lia))). Defined.

(** C40: Nobody is left out.  In as many passes as the stride is long an object
    is due exactly once; an update that is due gets a time of its own, at most
    a second unless the object is exempt; and the weighted permutation hands
    out every item of the pairs once, with its own weight, leaving what has no
    partner where it is. *)
Theorem background_work_misses_nobody (guid stride first : Z) :
  0 <= guid ->
  (exists pass, first <= pass < first + Z.max 1 stride /\ IsStaggeredMapWorkDue pass guid stride = true /\
     forall other, first <= other < first + Z.max 1 stride -> IsStaggeredMapWorkDue other guid stride = true -> other = pass) /\
  (forall averageMs hasPlayers maxSkip, 0 <= averageMs < 2 ^ 32 -> 0 <= maxSkip < 2 ^ 32 ->
     1 <= BackgroundStride averageMs hasPlayers maxSkip <= Z.max 1 maxSkip) /\
  (forall c elapsed mapDiff, 0 <= elapsed -> 0 <= mapDiff ->
     let '(due, diff) := DecideUpdate elapsed mapDiff (CreatureInterval c guid) in
     (due = false -> 0 < elapsed < CreatureInterval c guid /\ CreatureInterval c guid <= 1000) /\
     (protected c = true -> due = true /\ diff = mapDiff) /\ (due = true -> protected c = false -> c_motion c <> Other -> diff <= 1000)) /\
  (forall (D W U C : Type) (clock : W -> U -> C) lt equal lt_tie (items : list D) (weights : list W) (draws : nat -> U) items' weights',
     WeightedPermutation.permute clock lt equal lt_tie items weights draws = (items', weights') ->
     zip items' weights' ≡ₚ zip items weights /\
     (forall i, (length weights <= i)%nat -> items' !! i = items !! i) /\ (forall i, (length items <= i)%nat -> weights' !! i = weights !! i)).
Proof.
  intros Hg. split_and!; [by apply staggered_once|intros; by apply BackgroundStride_bounds| |].
  - intros c elapsed mapDiff He Hd. destruct (CreatureInterval_bounds c guid) as [Hb Hz].
    pose proof (DecideUpdate_spec elapsed mapDiff (CreatureInterval c guid) He Hd ltac:(lia)) as H.
    destruct (DecideUpdate _ _ _) as [due diff]. destruct H as (H1 & _ & H3 & H4). split_and!.
    + intros Hf. apply H1 in Hf. lia.
    + intros Hp. assert (CreatureInterval c guid = 0) as H0 by (apply Hz; by left). split; [|by apply H4].
      destruct due; [done|]. destruct H1 as [H1 _]. specialize (H1 eq_refl). lia.
    + intros _ Hp Hm. apply H3. intros [?|?]%Hz; congruence.
  - intros D W U C clock lt equal lt_tie items weights draws items' weights' H. apply permute_spec in H. by destruct_and!.
Qed.

Lemma background_work_misses_nobody_witness : exists pass, 10 <= pass < 14 /\ IsStaggeredMapWorkDue pass 7 4 = true.
Proof. destruct (background_work_misses_nobody 7 4 10 ltac:(lia)) as [(pass & H1 & H2 & _) _]. exists pass. split; [exact H1|exact H2]. Defined.

(** The window of tick lengths.  After any ticks it publishes the last
    length, the rounded down average and the longest of the last [Size] ones,
    with zeros for those that have not been yet; the running sum never drifts
    from the ring. *)
Theorem window_shows_recent_ticks (Size : nat) (diffs : list Z) (d : Z) :
  (0 < Size)%nat -> Z.of_nat Size < 2 ^ 32 -> Forall (fun d => 0 <= d < 2 ^ 32) (diffs ++ [d]) ->
  let w := foldl (fun w d => TickDiffWindow.Record_ Size d w) (TickDiffWindow.empty Size) (diffs ++ [d]) in
  let last := recent Size (diffs ++ [d]) in
  length last = Size /\ TickDiffWindow.current w = d /\ TickDiffWindow.sum w = sum_list_Z last /\
  TickDiffWindow.average w = sum_list_Z last / Z.of_nat Size /\ TickDiffWindow.maximum w = TickDiffWindow.max_element last.
Proof.
  intros Hs Hb Hd. cbv zeta. destruct (window_published Size Hs Hb diffs d Hd) as (H1 & H2 & H3).
  split_and!; [by apply length_recent|done| |done|done]. apply (window_after Size Hs Hb), Hd.
Qed.

Lemma window_shows_recent_ticks_witness :
  TickDiffWindow.average (foldl (fun w d => TickDiffWindow.Record_ 3 d w) (TickDiffWindow.empty 3) ([100; 7; 20] ++ [50])) = 25.
Proof.
  destruct (window_shows_recent_ticks 3 [100; 7; 20] 50) as (_ & _ & _ & H & _); [lia|lia|repeat constructor; lia|].
  rewrite H. vm_compute. reflexivity.
Defined.

(** Rates are limited.  The throttle remembers at most 65536 keys; while a
    key is remembered a call is refused exactly when it comes before the
    interval is over and is not forced, and only a granted call counts.  The
    trace grants at most 8000 records in all, to any sequence of calls, and at
    most eight in a second to one of its twelve slots. *)
Theorem rates_are_limited (begin_key : gmap Z Z -> Z) :
  (forall m, m <> ∅ -> is_Some (m !! begin_key m)) ->
  (forall key now interval force times b times', Z.of_nat (size times) <= THROTTLE_KEYS ->
     Allow begin_key key now interval force times = (b, times') ->
     Z.of_nat (size times') <= THROTTLE_KEYS /\
     (b = false <-> exists last, times !! key = Some last /\ force = false /\ u32 (now - last) < interval) /\
     (b = false -> times' = times) /\ (b = true -> times' !! key = Some now) /\
     (forall k t, k <> key -> times' !! k = Some t -> times !! k = Some t) /\
     (Z.of_nat (size times) < THROTTLE_KEYS -> forall k, k <> key -> times' !! k = times !! k)) /\
  (forall calls, ordered calls ->
     let '(n, t) := granted calls in
     n <= 8000 /\ BotTrace.emitted t = n /\ length (BotTrace.slots t) = 12%nat /\
     Forall (fun s => 0 <= BotTrace.count s <= 8) (BotTrace.slots t)).
Proof.
  intros Hb. split.
  - intros key now interval force times b times' Hs H. apply Allow_spec in H; [|done|done]. by destruct_and!.
  - intros calls Ho. pose proof (granted_slots calls) as Hlen. pose proof (granted_bounds calls Ho) as H.
    destruct (granted calls) as [n t]. destruct H as (H1 & H2 & now & [H3 _]). split_and!; [done|done|done|].
    eapply Forall_impl; [exact H3|]. by intros s [? _ _].
Qed.

(** The first key stands for the beginning of the hash map. *)
Definition first_key (m : gmap Z Z) : Z := from_option fst 0 (head (map_to_list m)).
Lemma first_key_law m : m <> ∅ -> is_Some (m !! first_key m).
Proof.
  intros Hm. unfold first_key. destruct (map_to_list m) as [|[k v] l] eqn:E; [by apply map_to_list_empty_iff in E|].
  exists v. apply elem_of_map_to_list. rewrite E. by left.
Qed.
Lemma rates_are_limited_witness :
  fst (granted [(1000, 5, (true, false, false)); (1200, 5, (true, false, true))]) = 2 /\
  BotTrace.emitted (snd (granted [(1000, 5, (true, false, false)); (1200, 5, (true, false, true))])) = 2.
Proof.
  destruct (rates_are_limited first_key first_key_law) as [_ H].
  specialize (H [(1000, 5, (true, false, false)); (1200, 5, (true, false, true))]).
  split; [vm_compute; reflexivity|].
  destruct (granted _) as [n t] eqn:E. destruct H as (_ & H & _).
  - split; repeat constructor; simpl; lia.
  - simpl. rewrite H. vm_compute in E. injection E as <- _. reflexivity.
Defined.

(** The sets of viewers and trainers.  The sorted vector of viewers is the
    ascending list of the set the same calls build.  A trainer is in the
    snapshot for a class exactly when the last line for his entry says he may
    be used and is for all classes or for that one, once and in ascending
    order. *)
Theorem viewers_and_trainers_are_sets (ops : list viewer_op) (rows : list trainer_row) (cls : Z) :
  MovementViewerSet.Snapshot (viewers ops) = selems (viewers_spec ops) /\
  (forall k, k ∈ BotTrainerIndex.Snapshot cls (trainers rows) <-> row_for k cls (last_row k rows)) /\
  NoDup (BotTrainerIndex.Snapshot cls (trainers rows)) /\ StronglySorted Z.le (BotTrainerIndex.Snapshot cls (trainers rows)).
Proof.
  destruct (viewers_refine ops) as [H1 H2]. split_and!; [by apply sorted_selems|intros; apply trainers_spec|apply NoDup_selems|apply selems_sorted].
Qed.

(** The indexes find what a search of the whole table finds.  An area is
    the first one with the flag on the map, else the last one with the flag
    anywhere; the flag of a map is that of its first zone; none is found for
    flag 0.  A location is stored once, under coordinates that equal the given
    ones as numbers, and never under an infinite or undefined one. *)
Theorem indexes_find_what_search_finds (rows : list area_row) (flag map : Z) :
  Forall row_ok rows -> 0 <= flag < 2 ^ 32 ->
  AreaLookupIndex.Find flag map (areas rows) = linear_find flag map rows /\
  AreaLookupIndex.MapFlag map (areas rows) = linear_map_flag map rows /\
  (forall (x y z value : Z) (entries entries' : gmap (Z * Z * Z * Z) Z) b,
     StaticLocationIndex.Insert map x y z value entries = (b, entries') ->
     (b = true <-> finite3 x y z = true /\ StaticLocationIndex.Find map x y z entries = None) /\
     (b = false -> entries' = entries) /\
     (b = true -> forall map' x' y' z', finite3 x' y' z' = true ->
        StaticLocationIndex.Find map' x' y' z' entries' =
          if decide (map' = map /\ float_eq x' x /\ float_eq y' y /\ float_eq z' z) then Some value
          else StaticLocationIndex.Find map' x' y' z' entries)).
Proof.
  intros Hr Hf. destruct (areas_linear rows flag map Hr Hf) as [H1 H2]. split_and!; [done|done|].
  intros x y z value entries entries' b H. apply Insert_spec in H as (H3 & H4 & H5). split_and!; [done..|].
  intros Hb map' x' y' z' Hf'. destruct (H5 Hb map' x' y' z' Hf') as [H6 H7]. case_decide as Hd; [by apply H6|by apply H7].
Qed.

Lemma indexes_find_what_search_finds_witness :
  AreaLookupIndex.Find 7 0 (areas [(10, 7, 1, false); (11, 7, 0, true); (12, 7, 0, true)]) = 11 /\
  AreaLookupIndex.Find 7 5 (areas [(10, 7, 1, false); (11, 7, 0, true); (12, 7, 0, true)]) = 12.
Proof.
  assert (Forall row_ok [(10, 7, 1, false); (11, 7, 0, true); (12, 7, 0, true)]) as Hr.
  { repeat constructor; vm_compute; congruence. }
  destruct (indexes_find_what_search_finds _ 7 0 Hr ltac:(lia)) as [H1 _].
  destruct (indexes_find_what_search_finds _ 7 5 Hr ltac:(lia)) as [H2 _].
  rewrite H1, H2. split; vm_compute; reflexivity.
Defined.
