(* ===== verification/World.v ===== *)
(** The part of the world server that parties and the dungeon finder share:
    players as their handlers read them, groups (src/game/Group/Group.h), the
    realm's clock and configuration, and the addon messages sent so far.
    [GroupService] is what the finder relies on from the group code; [Party.v]
    implements it. *)

From S2P Require Import Prelude CString.

(** Classes (src/game/SharedDefines.h). *)
Definition CLASS_WARRIOR := 1.
Definition CLASS_PALADIN := 2.
Definition CLASS_HUNTER := 3.
Definition CLASS_ROGUE := 4.
Definition CLASS_PRIEST := 5.
Definition CLASS_SHAMAN := 7.
Definition CLASS_MAGE := 8.
Definition CLASS_WARLOCK := 9.
Definition CLASS_DRUID := 11.

(** Teams. *)
Definition TEAM_NONE := 0.
Definition HORDE := 67.
Definition ALLIANCE := 469.
Definition TEAM_CROSSFACTION := 1.

(** Item qualities. *)
Definition ITEM_QUALITY_NORMAL := 1.
Definition ITEM_QUALITY_UNCOMMON := 2.
Definition ITEM_QUALITY_LEGENDARY := 5.

(** A player as far as the party and finder code reads or writes it.  The
    [p_bot*]/[p_ai*] fields are the answers of the script modules. *)
Record Player := mkPlayer {
  p_name : string;
  p_class : Z;
  p_level : Z;
  p_team : Z;
  p_hardcore : bool;
  p_inWorld : bool;
  p_alive : bool;
  p_session : bool;
  p_group : option Z;               (* GetGroup(), an address *)
  p_subGroup : Z;
  p_originalGroup : option Z;       (* GetOriginalGroup() *)
  p_originalSubGroup : Z;
  p_groupInvite : option Z;
  p_leaderFlag : bool;              (* PLAYER_FLAGS_GROUP_LEADER *)
  p_account : option string;        (* account name, when the session has one *)
  p_botManaged : bool;              (* sScriptMgr.IsBotManaged *)
  p_botRoles : Z;                   (* sScriptMgr.GetBotRoles *)
  p_aiControlled : bool;            (* Script_IsAIControlled *)
  p_aiRoles : Z;                    (* Script_GetAllowedRoles *)
  p_forcedRole : Z;                 (* last Script_SetForcedRole *)
  p_inBattleGround : bool;
  p_inBattleGroundQueue : bool;
  p_dungeon : option Z;             (* instance id while on a dungeon map *)
  p_beingTeleported : bool;
  p_inCombat : bool;
  p_position : option string        (* name of the entrance teleported to *)
}.

(** Field updates of [Player]. *)
Definition set_p_group x (r : Player) : Player :=
  {| p_name := p_name r; p_class := p_class r; p_level := p_level r; p_team := p_team r;
     p_hardcore := p_hardcore r; p_inWorld := p_inWorld r; p_alive := p_alive r;
     p_session := p_session r; p_group := x; p_subGroup := p_subGroup r;
     p_originalGroup := p_originalGroup r; p_originalSubGroup := p_originalSubGroup r;
     p_groupInvite := p_groupInvite r; p_leaderFlag := p_leaderFlag r; p_account := p_account r;
     p_botManaged := p_botManaged r; p_botRoles := p_botRoles r;
     p_aiControlled := p_aiControlled r; p_aiRoles := p_aiRoles r; p_forcedRole := p_forcedRole r;
     p_inBattleGround := p_inBattleGround r; p_inBattleGroundQueue := p_inBattleGroundQueue r;
     p_dungeon := p_dungeon r; p_beingTeleported := p_beingTeleported r;
     p_inCombat := p_inCombat r; p_position := p_position r |}.
Definition set_p_subGroup x (r : Player) : Player :=
  {| p_name := p_name r; p_class := p_class r; p_level := p_level r; p_team := p_team r;
     p_hardcore := p_hardcore r; p_inWorld := p_inWorld r; p_alive := p_alive r;
     p_session := p_session r; p_group := p_group r; p_subGroup := x;
     p_originalGroup := p_originalGroup r; p_originalSubGroup := p_originalSubGroup r;
     p_groupInvite := p_groupInvite r; p_leaderFlag := p_leaderFlag r; p_account := p_account r;
     p_botManaged := p_botManaged r; p_botRoles := p_botRoles r;
     p_aiControlled := p_aiControlled r; p_aiRoles := p_aiRoles r; p_forcedRole := p_forcedRole r;
     p_inBattleGround := p_inBattleGround r; p_inBattleGroundQueue := p_inBattleGroundQueue r;
     p_dungeon := p_dungeon r; p_beingTeleported := p_beingTeleported r;
     p_inCombat := p_inCombat r; p_position := p_position r |}.
Definition set_p_originalGroup x (r : Player) : Player :=
  {| p_name := p_name r; p_class := p_class r; p_level := p_level r; p_team := p_team r;
     p_hardcore := p_hardcore r; p_inWorld := p_inWorld r; p_alive := p_alive r;
     p_session := p_session r; p_group := p_group r; p_subGroup := p_subGroup r;
     p_originalGroup := x; p_originalSubGroup := p_originalSubGroup r;
     p_groupInvite := p_groupInvite r; p_leaderFlag := p_leaderFlag r; p_account := p_account r;
     p_botManaged := p_botManaged r; p_botRoles := p_botRoles r;
     p_aiControlled := p_aiControlled r; p_aiRoles := p_aiRoles r; p_forcedRole := p_forcedRole r;
     p_inBattleGround := p_inBattleGround r; p_inBattleGroundQueue := p_inBattleGroundQueue r;
     p_dungeon := p_dungeon r; p_beingTeleported := p_beingTeleported r;
     p_inCombat := p_inCombat r; p_position := p_position r |}.
Definition set_p_originalSubGroup x (r : Player) : Player :=
  {| p_name := p_name r; p_class := p_class r; p_level := p_level r; p_team := p_team r;
     p_hardcore := p_hardcore r; p_inWorld := p_inWorld r; p_alive := p_alive r;
     p_session := p_session r; p_group := p_group r; p_subGroup := p_subGroup r;
     p_originalGroup := p_originalGroup r; p_originalSubGroup := x;
     p_groupInvite := p_groupInvite r; p_leaderFlag := p_leaderFlag r; p_account := p_account r;
     p_botManaged := p_botManaged r; p_botRoles := p_botRoles r;
     p_aiControlled := p_aiControlled r; p_aiRoles := p_aiRoles r; p_forcedRole := p_forcedRole r;
     p_inBattleGround := p_inBattleGround r; p_inBattleGroundQueue := p_inBattleGroundQueue r;
     p_dungeon := p_dungeon r; p_beingTeleported := p_beingTeleported r;
     p_inCombat := p_inCombat r; p_position := p_position r |}.
Definition set_p_groupInvite x (r : Player) : Player :=
  {| p_name := p_name r; p_class := p_class r; p_level := p_level r; p_team := p_team r;
     p_hardcore := p_hardcore r; p_inWorld := p_inWorld r; p_alive := p_alive r;
     p_session := p_session r; p_group := p_group r; p_subGroup := p_subGroup r;
     p_originalGroup := p_originalGroup r; p_originalSubGroup := p_originalSubGroup r;
     p_groupInvite := x; p_leaderFlag := p_leaderFlag r; p_account := p_account r;
     p_botManaged := p_botManaged r; p_botRoles := p_botRoles r;
     p_aiControlled := p_aiControlled r; p_aiRoles := p_aiRoles r; p_forcedRole := p_forcedRole r;
     p_inBattleGround := p_inBattleGround r; p_inBattleGroundQueue := p_inBattleGroundQueue r;
     p_dungeon := p_dungeon r; p_beingTeleported := p_beingTeleported r;
     p_inCombat := p_inCombat r; p_position := p_position r |}.
Definition set_p_leaderFlag x (r : Player) : Player :=
  {| p_name := p_name r; p_class := p_class r; p_level := p_level r; p_team := p_team r;
     p_hardcore := p_hardcore r; p_inWorld := p_inWorld r; p_alive := p_alive r;
     p_session := p_session r; p_group := p_group r; p_subGroup := p_subGroup r;
     p_originalGroup := p_originalGroup r; p_originalSubGroup := p_originalSubGroup r;
     p_groupInvite := p_groupInvite r; p_leaderFlag := x; p_account := p_account r;
     p_botManaged := p_botManaged r; p_botRoles := p_botRoles r;
     p_aiControlled := p_aiControlled r; p_aiRoles := p_aiRoles r; p_forcedRole := p_forcedRole r;
     p_inBattleGround := p_inBattleGround r; p_inBattleGroundQueue := p_inBattleGroundQueue r;
     p_dungeon := p_dungeon r; p_beingTeleported := p_beingTeleported r;
     p_inCombat := p_inCombat r; p_position := p_position r |}.
Definition set_p_aiRoles x (r : Player) : Player :=
  {| p_name := p_name r; p_class := p_class r; p_level := p_level r; p_team := p_team r;
     p_hardcore := p_hardcore r; p_inWorld := p_inWorld r; p_alive := p_alive r;
     p_session := p_session r; p_group := p_group r; p_subGroup := p_subGroup r;
     p_originalGroup := p_originalGroup r; p_originalSubGroup := p_originalSubGroup r;
     p_groupInvite := p_groupInvite r; p_leaderFlag := p_leaderFlag r; p_account := p_account r;
     p_botManaged := p_botManaged r; p_botRoles := p_botRoles r;
     p_aiControlled := p_aiControlled r; p_aiRoles := x; p_forcedRole := p_forcedRole r;
     p_inBattleGround := p_inBattleGround r; p_inBattleGroundQueue := p_inBattleGroundQueue r;
     p_dungeon := p_dungeon r; p_beingTeleported := p_beingTeleported r;
     p_inCombat := p_inCombat r; p_position := p_position r |}.
Definition set_p_forcedRole x (r : Player) : Player :=
  {| p_name := p_name r; p_class := p_class r; p_level := p_level r; p_team := p_team r;
     p_hardcore := p_hardcore r; p_inWorld := p_inWorld r; p_alive := p_alive r;
     p_session := p_session r; p_group := p_group r; p_subGroup := p_subGroup r;
     p_originalGroup := p_originalGroup r; p_originalSubGroup := p_originalSubGroup r;
     p_groupInvite := p_groupInvite r; p_leaderFlag := p_leaderFlag r; p_account := p_account r;
     p_botManaged := p_botManaged r; p_botRoles := p_botRoles r;
     p_aiControlled := p_aiControlled r; p_aiRoles := p_aiRoles r; p_forcedRole := x;
     p_inBattleGround := p_inBattleGround r; p_inBattleGroundQueue := p_inBattleGroundQueue r;
     p_dungeon := p_dungeon r; p_beingTeleported := p_beingTeleported r;
     p_inCombat := p_inCombat r; p_position := p_position r |}.
Definition set_p_inCombat x (r : Player) : Player :=
  {| p_name := p_name r; p_class := p_class r; p_level := p_level r; p_team := p_team r;
     p_hardcore := p_hardcore r; p_inWorld := p_inWorld r; p_alive := p_alive r;
     p_session := p_session r; p_group := p_group r; p_subGroup := p_subGroup r;
     p_originalGroup := p_originalGroup r; p_originalSubGroup := p_originalSubGroup r;
     p_groupInvite := p_groupInvite r; p_leaderFlag := p_leaderFlag r; p_account := p_account r;
     p_botManaged := p_botManaged r; p_botRoles := p_botRoles r;
     p_aiControlled := p_aiControlled r; p_aiRoles := p_aiRoles r; p_forcedRole := p_forcedRole r;
     p_inBattleGround := p_inBattleGround r; p_inBattleGroundQueue := p_inBattleGroundQueue r;
     p_dungeon := p_dungeon r; p_beingTeleported := p_beingTeleported r; p_inCombat := x;
     p_position := p_position r |}.
Definition set_p_position x (r : Player) : Player :=
  {| p_name := p_name r; p_class := p_class r; p_level := p_level r; p_team := p_team r;
     p_hardcore := p_hardcore r; p_inWorld := p_inWorld r; p_alive := p_alive r;
     p_session := p_session r; p_group := p_group r; p_subGroup := p_subGroup r;
     p_originalGroup := p_originalGroup r; p_originalSubGroup := p_originalSubGroup r;
     p_groupInvite := p_groupInvite r; p_leaderFlag := p_leaderFlag r; p_account := p_account r;
     p_botManaged := p_botManaged r; p_botRoles := p_botRoles r;
     p_aiControlled := p_aiControlled r; p_aiRoles := p_aiRoles r; p_forcedRole := p_forcedRole r;
     p_inBattleGround := p_inBattleGround r; p_inBattleGroundQueue := p_inBattleGroundQueue r;
     p_dungeon := p_dungeon r; p_beingTeleported := p_beingTeleported r;
     p_inCombat := p_inCombat r; p_position := x |}.

(** ** Groups (src/game/Group/Group.h) *)
Definition MAX_GROUP_SIZE := 5.
Definition MAX_RAID_SIZE := 40.
Definition MAX_RAID_SUBGROUPS := 8.

Inductive GroupType := GROUPTYPE_NORMAL | GROUPTYPE_RAID.
#[export] Instance GroupType_eq_dec : EqDecision GroupType.
Proof. solve_decision. Defined.

Record MemberSlot := mkSlot { ms_guid : Z; ms_name : string; ms_group : Z; ms_assistant : bool }.
#[export] Instance MemberSlot_eq_dec : EqDecision MemberSlot.
Proof. solve_decision. Defined.

(** [LootMethod] (src/game/Group/Group.h). *)
Inductive LootMethod := FREE_FOR_ALL | ROUND_ROBIN | MASTER_LOOT | GROUP_LOOT | NEED_BEFORE_GREED.

Record Group := mkGroup {
  m_Id : Z;
  m_memberSlots : list MemberSlot;
  m_invitees : gset Z;
  m_leaderGuid : Z;
  m_leaderName : string;
  m_leaderLastOnline : Z;
  m_mainTankGuid : Z;
  m_mainAssistantGuid : Z;
  m_groupType : GroupType;
  m_bgGroup : bool;
  m_targetIcons : list Z;
  m_lootMethod : LootMethod;
  m_lootThreshold : Z;
  m_looterGuid : Z;
  m_subGroupsCounts : option (list Z);
  m_groupTeam : Z;
  m_LFGAreaId : Z;
  m_isCrossfaction : bool
}.

(** Field updates of [Group]. *)
Definition set_m_Id x (r : Group) : Group :=
  {| m_Id := x; m_memberSlots := m_memberSlots r; m_invitees := m_invitees r;
     m_leaderGuid := m_leaderGuid r; m_leaderName := m_leaderName r;
     m_leaderLastOnline := m_leaderLastOnline r; m_mainTankGuid := m_mainTankGuid r;
     m_mainAssistantGuid := m_mainAssistantGuid r; m_groupType := m_groupType r;
     m_bgGroup := m_bgGroup r; m_targetIcons := m_targetIcons r; m_lootMethod := m_lootMethod r;
     m_lootThreshold := m_lootThreshold r; m_looterGuid := m_looterGuid r;
     m_subGroupsCounts := m_subGroupsCounts r; m_groupTeam := m_groupTeam r;
     m_LFGAreaId := m_LFGAreaId r; m_isCrossfaction := m_isCrossfaction r |}.
Definition set_m_memberSlots x (r : Group) : Group :=
  {| m_Id := m_Id r; m_memberSlots := x; m_invitees := m_invitees r;
     m_leaderGuid := m_leaderGuid r; m_leaderName := m_leaderName r;
     m_leaderLastOnline := m_leaderLastOnline r; m_mainTankGuid := m_mainTankGuid r;
     m_mainAssistantGuid := m_mainAssistantGuid r; m_groupType := m_groupType r;
     m_bgGroup := m_bgGroup r; m_targetIcons := m_targetIcons r; m_lootMethod := m_lootMethod r;
     m_lootThreshold := m_lootThreshold r; m_looterGuid := m_looterGuid r;
     m_subGroupsCounts := m_subGroupsCounts r; m_groupTeam := m_groupTeam r;
     m_LFGAreaId := m_LFGAreaId r; m_isCrossfaction := m_isCrossfaction r |}.
Definition set_m_invitees x (r : Group) : Group :=
  {| m_Id := m_Id r; m_memberSlots := m_memberSlots r; m_invitees := x;
     m_leaderGuid := m_leaderGuid r; m_leaderName := m_leaderName r;
     m_leaderLastOnline := m_leaderLastOnline r; m_mainTankGuid := m_mainTankGuid r;
     m_mainAssistantGuid := m_mainAssistantGuid r; m_groupType := m_groupType r;
     m_bgGroup := m_bgGroup r; m_targetIcons := m_targetIcons r; m_lootMethod := m_lootMethod r;
     m_lootThreshold := m_lootThreshold r; m_looterGuid := m_looterGuid r;
     m_subGroupsCounts := m_subGroupsCounts r; m_groupTeam := m_groupTeam r;
     m_LFGAreaId := m_LFGAreaId r; m_isCrossfaction := m_isCrossfaction r |}.
Definition set_m_leaderGuid x (r : Group) : Group :=
  {| m_Id := m_Id r; m_memberSlots := m_memberSlots r; m_invitees := m_invitees r;
     m_leaderGuid := x; m_leaderName := m_leaderName r;
     m_leaderLastOnline := m_leaderLastOnline r; m_mainTankGuid := m_mainTankGuid r;
     m_mainAssistantGuid := m_mainAssistantGuid r; m_groupType := m_groupType r;
     m_bgGroup := m_bgGroup r; m_targetIcons := m_targetIcons r; m_lootMethod := m_lootMethod r;
     m_lootThreshold := m_lootThreshold r; m_looterGuid := m_looterGuid r;
     m_subGroupsCounts := m_subGroupsCounts r; m_groupTeam := m_groupTeam r;
     m_LFGAreaId := m_LFGAreaId r; m_isCrossfaction := m_isCrossfaction r |}.
Definition set_m_leaderName x (r : Group) : Group :=
  {| m_Id := m_Id r; m_memberSlots := m_memberSlots r; m_invitees := m_invitees r;
     m_leaderGuid := m_leaderGuid r; m_leaderName := x;
     m_leaderLastOnline := m_leaderLastOnline r; m_mainTankGuid := m_mainTankGuid r;
     m_mainAssistantGuid := m_mainAssistantGuid r; m_groupType := m_groupType r;
     m_bgGroup := m_bgGroup r; m_targetIcons := m_targetIcons r; m_lootMethod := m_lootMethod r;
     m_lootThreshold := m_lootThreshold r; m_looterGuid := m_looterGuid r;
     m_subGroupsCounts := m_subGroupsCounts r; m_groupTeam := m_groupTeam r;
     m_LFGAreaId := m_LFGAreaId r; m_isCrossfaction := m_isCrossfaction r |}.
Definition set_m_leaderLastOnline x (r : Group) : Group :=
  {| m_Id := m_Id r; m_memberSlots := m_memberSlots r; m_invitees := m_invitees r;
     m_leaderGuid := m_leaderGuid r; m_leaderName := m_leaderName r; m_leaderLastOnline := x;
     m_mainTankGuid := m_mainTankGuid r; m_mainAssistantGuid := m_mainAssistantGuid r;
     m_groupType := m_groupType r; m_bgGroup := m_bgGroup r; m_targetIcons := m_targetIcons r;
     m_lootMethod := m_lootMethod r; m_lootThreshold := m_lootThreshold r;
     m_looterGuid := m_looterGuid r; m_subGroupsCounts := m_subGroupsCounts r;
     m_groupTeam := m_groupTeam r; m_LFGAreaId := m_LFGAreaId r;
     m_isCrossfaction := m_isCrossfaction r |}.
Definition set_m_mainTankGuid x (r : Group) : Group :=
  {| m_Id := m_Id r; m_memberSlots := m_memberSlots r; m_invitees := m_invitees r;
     m_leaderGuid := m_leaderGuid r; m_leaderName := m_leaderName r;
     m_leaderLastOnline := m_leaderLastOnline r; m_mainTankGuid := x;
     m_mainAssistantGuid := m_mainAssistantGuid r; m_groupType := m_groupType r;
     m_bgGroup := m_bgGroup r; m_targetIcons := m_targetIcons r; m_lootMethod := m_lootMethod r;
     m_lootThreshold := m_lootThreshold r; m_looterGuid := m_looterGuid r;
     m_subGroupsCounts := m_subGroupsCounts r; m_groupTeam := m_groupTeam r;
     m_LFGAreaId := m_LFGAreaId r; m_isCrossfaction := m_isCrossfaction r |}.
Definition set_m_mainAssistantGuid x (r : Group) : Group :=
  {| m_Id := m_Id r; m_memberSlots := m_memberSlots r; m_invitees := m_invitees r;
     m_leaderGuid := m_leaderGuid r; m_leaderName := m_leaderName r;
     m_leaderLastOnline := m_leaderLastOnline r; m_mainTankGuid := m_mainTankGuid r;
     m_mainAssistantGuid := x; m_groupType := m_groupType r; m_bgGroup := m_bgGroup r;
     m_targetIcons := m_targetIcons r; m_lootMethod := m_lootMethod r;
     m_lootThreshold := m_lootThreshold r; m_looterGuid := m_looterGuid r;
     m_subGroupsCounts := m_subGroupsCounts r; m_groupTeam := m_groupTeam r;
     m_LFGAreaId := m_LFGAreaId r; m_isCrossfaction := m_isCrossfaction r |}.
Definition set_m_groupType x (r : Group) : Group :=
  {| m_Id := m_Id r; m_memberSlots := m_memberSlots r; m_invitees := m_invitees r;
     m_leaderGuid := m_leaderGuid r; m_leaderName := m_leaderName r;
     m_leaderLastOnline := m_leaderLastOnline r; m_mainTankGuid := m_mainTankGuid r;
     m_mainAssistantGuid := m_mainAssistantGuid r; m_groupType := x; m_bgGroup := m_bgGroup r;
     m_targetIcons := m_targetIcons r; m_lootMethod := m_lootMethod r;
     m_lootThreshold := m_lootThreshold r; m_looterGuid := m_looterGuid r;
     m_subGroupsCounts := m_subGroupsCounts r; m_groupTeam := m_groupTeam r;
     m_LFGAreaId := m_LFGAreaId r; m_isCrossfaction := m_isCrossfaction r |}.
Definition set_m_bgGroup x (r : Group) : Group :=
  {| m_Id := m_Id r; m_memberSlots := m_memberSlots r; m_invitees := m_invitees r;
     m_leaderGuid := m_leaderGuid r; m_leaderName := m_leaderName r;
     m_leaderLastOnline := m_leaderLastOnline r; m_mainTankGuid := m_mainTankGuid r;
     m_mainAssistantGuid := m_mainAssistantGuid r; m_groupType := m_groupType r; m_bgGroup := x;
     m_targetIcons := m_targetIcons r; m_lootMethod := m_lootMethod r;
     m_lootThreshold := m_lootThreshold r; m_looterGuid := m_looterGuid r;
     m_subGroupsCounts := m_subGroupsCounts r; m_groupTeam := m_groupTeam r;
     m_LFGAreaId := m_LFGAreaId r; m_isCrossfaction := m_isCrossfaction r |}.
Definition set_m_targetIcons x (r : Group) : Group :=
  {| m_Id := m_Id r; m_memberSlots := m_memberSlots r; m_invitees := m_invitees r;
     m_leaderGuid := m_leaderGuid r; m_leaderName := m_leaderName r;
     m_leaderLastOnline := m_leaderLastOnline r; m_mainTankGuid := m_mainTankGuid r;
     m_mainAssistantGuid := m_mainAssistantGuid r; m_groupType := m_groupType r;
     m_bgGroup := m_bgGroup r; m_targetIcons := x; m_lootMethod := m_lootMethod r;
     m_lootThreshold := m_lootThreshold r; m_looterGuid := m_looterGuid r;
     m_subGroupsCounts := m_subGroupsCounts r; m_groupTeam := m_groupTeam r;
     m_LFGAreaId := m_LFGAreaId r; m_isCrossfaction := m_isCrossfaction r |}.
Definition set_m_lootMethod x (r : Group) : Group :=
  {| m_Id := m_Id r; m_memberSlots := m_memberSlots r; m_invitees := m_invitees r;
     m_leaderGuid := m_leaderGuid r; m_leaderName := m_leaderName r;
     m_leaderLastOnline := m_leaderLastOnline r; m_mainTankGuid := m_mainTankGuid r;
     m_mainAssistantGuid := m_mainAssistantGuid r; m_groupType := m_groupType r;
     m_bgGroup := m_bgGroup r; m_targetIcons := m_targetIcons r; m_lootMethod := x;
     m_lootThreshold := m_lootThreshold r; m_looterGuid := m_looterGuid r;
     m_subGroupsCounts := m_subGroupsCounts r; m_groupTeam := m_groupTeam r;
     m_LFGAreaId := m_LFGAreaId r; m_isCrossfaction := m_isCrossfaction r |}.
Definition set_m_lootThreshold x (r : Group) : Group :=
  {| m_Id := m_Id r; m_memberSlots := m_memberSlots r; m_invitees := m_invitees r;
     m_leaderGuid := m_leaderGuid r; m_leaderName := m_leaderName r;
     m_leaderLastOnline := m_leaderLastOnline r; m_mainTankGuid := m_mainTankGuid r;
     m_mainAssistantGuid := m_mainAssistantGuid r; m_groupType := m_groupType r;
     m_bgGroup := m_bgGroup r; m_targetIcons := m_targetIcons r; m_lootMethod := m_lootMethod r;
     m_lootThreshold := x; m_looterGuid := m_looterGuid r;
     m_subGroupsCounts := m_subGroupsCounts r; m_groupTeam := m_groupTeam r;
     m_LFGAreaId := m_LFGAreaId r; m_isCrossfaction := m_isCrossfaction r |}.
Definition set_m_looterGuid x (r : Group) : Group :=
  {| m_Id := m_Id r; m_memberSlots := m_memberSlots r; m_invitees := m_invitees r;
     m_leaderGuid := m_leaderGuid r; m_leaderName := m_leaderName r;
     m_leaderLastOnline := m_leaderLastOnline r; m_mainTankGuid := m_mainTankGuid r;
     m_mainAssistantGuid := m_mainAssistantGuid r; m_groupType := m_groupType r;
     m_bgGroup := m_bgGroup r; m_targetIcons := m_targetIcons r; m_lootMethod := m_lootMethod r;
     m_lootThreshold := m_lootThreshold r; m_looterGuid := x;
     m_subGroupsCounts := m_subGroupsCounts r; m_groupTeam := m_groupTeam r;
     m_LFGAreaId := m_LFGAreaId r; m_isCrossfaction := m_isCrossfaction r |}.
Definition set_m_subGroupsCounts x (r : Group) : Group :=
  {| m_Id := m_Id r; m_memberSlots := m_memberSlots r; m_invitees := m_invitees r;
     m_leaderGuid := m_leaderGuid r; m_leaderName := m_leaderName r;
     m_leaderLastOnline := m_leaderLastOnline r; m_mainTankGuid := m_mainTankGuid r;
     m_mainAssistantGuid := m_mainAssistantGuid r; m_groupType := m_groupType r;
     m_bgGroup := m_bgGroup r; m_targetIcons := m_targetIcons r; m_lootMethod := m_lootMethod r;
     m_lootThreshold := m_lootThreshold r; m_looterGuid := m_looterGuid r; m_subGroupsCounts := x;
     m_groupTeam := m_groupTeam r; m_LFGAreaId := m_LFGAreaId r;
     m_isCrossfaction := m_isCrossfaction r |}.
Definition set_m_groupTeam x (r : Group) : Group :=
  {| m_Id := m_Id r; m_memberSlots := m_memberSlots r; m_invitees := m_invitees r;
     m_leaderGuid := m_leaderGuid r; m_leaderName := m_leaderName r;
     m_leaderLastOnline := m_leaderLastOnline r; m_mainTankGuid := m_mainTankGuid r;
     m_mainAssistantGuid := m_mainAssistantGuid r; m_groupType := m_groupType r;
     m_bgGroup := m_bgGroup r; m_targetIcons := m_targetIcons r; m_lootMethod := m_lootMethod r;
     m_lootThreshold := m_lootThreshold r; m_looterGuid := m_looterGuid r;
     m_subGroupsCounts := m_subGroupsCounts r; m_groupTeam := x; m_LFGAreaId := m_LFGAreaId r;
     m_isCrossfaction := m_isCrossfaction r |}.
Definition set_m_LFGAreaId x (r : Group) : Group :=
  {| m_Id := m_Id r; m_memberSlots := m_memberSlots r; m_invitees := m_invitees r;
     m_leaderGuid := m_leaderGuid r; m_leaderName := m_leaderName r;
     m_leaderLastOnline := m_leaderLastOnline r; m_mainTankGuid := m_mainTankGuid r;
     m_mainAssistantGuid := m_mainAssistantGuid r; m_groupType := m_groupType r;
     m_bgGroup := m_bgGroup r; m_targetIcons := m_targetIcons r; m_lootMethod := m_lootMethod r;
     m_lootThreshold := m_lootThreshold r; m_looterGuid := m_looterGuid r;
     m_subGroupsCounts := m_subGroupsCounts r; m_groupTeam := m_groupTeam r; m_LFGAreaId := x;
     m_isCrossfaction := m_isCrossfaction r |}.
Definition set_m_isCrossfaction x (r : Group) : Group :=
  {| m_Id := m_Id r; m_memberSlots := m_memberSlots r; m_invitees := m_invitees r;
     m_leaderGuid := m_leaderGuid r; m_leaderName := m_leaderName r;
     m_leaderLastOnline := m_leaderLastOnline r; m_mainTankGuid := m_mainTankGuid r;
     m_mainAssistantGuid := m_mainAssistantGuid r; m_groupType := m_groupType r;
     m_bgGroup := m_bgGroup r; m_targetIcons := m_targetIcons r; m_lootMethod := m_lootMethod r;
     m_lootThreshold := m_lootThreshold r; m_looterGuid := m_looterGuid r;
     m_subGroupsCounts := m_subGroupsCounts r; m_groupTeam := m_groupTeam r;
     m_LFGAreaId := m_LFGAreaId r; m_isCrossfaction := x |}.

Definition isRaidGroup (g : Group) : bool := bool_decide (m_groupType g = GROUPTYPE_RAID).
Definition isBGGroup (g : Group) : bool := m_bgGroup g.
Definition GetMembersCount (g : Group) : Z := Z.of_nat (length (m_memberSlots g)).
Definition IsFull (g : Group) : bool :=
  match m_groupType g with
  | GROUPTYPE_NORMAL => MAX_GROUP_SIZE <=? GetMembersCount g
  | GROUPTYPE_RAID => MAX_RAID_SIZE <=? GetMembersCount g
  end.
Definition IsLeader (g : Group) (guid : Z) : bool := m_leaderGuid g =? guid.
Definition getMemberSlot (g : Group) (guid : Z) : option MemberSlot :=
  List.find (fun s => ms_guid s =? guid) (m_memberSlots g).
Definition IsMember (g : Group) (guid : Z) : bool :=
  match getMemberSlot g guid with Some _ => true | None => false end.

(** ** The world *)
Record World := mkWorld {
  w_players : gmap Z Player;
  w_groups : gmap Z Group;          (* live Group objects, by address *)
  w_nextGroupId : Z;                (* sObjectMgr.GenerateGroupId *)
  w_gameTime : Z;                   (* sWorld.GetGameTime() *)
  w_now : Z;                        (* time(nullptr) *)
  w_playerCache : gmap Z Z;         (* sObjectMgr player cache: guid to race *)
  w_twoSideGroup : bool;            (* CONFIG_BOOL_ALLOW_TWO_SIDE_INTERACTION_GROUP *)
  w_out : list (Z * string)         (* addon messages, oldest first *)
}.

(** Field updates of [World]. *)
Definition set_w_players x (r : World) : World :=
  {| w_players := x; w_groups := w_groups r; w_nextGroupId := w_nextGroupId r;
     w_gameTime := w_gameTime r; w_now := w_now r; w_playerCache := w_playerCache r;
     w_twoSideGroup := w_twoSideGroup r; w_out := w_out r |}.
Definition set_w_groups x (r : World) : World :=
  {| w_players := w_players r; w_groups := x; w_nextGroupId := w_nextGroupId r;
     w_gameTime := w_gameTime r; w_now := w_now r; w_playerCache := w_playerCache r;
     w_twoSideGroup := w_twoSideGroup r; w_out := w_out r |}.
Definition set_w_nextGroupId x (r : World) : World :=
  {| w_players := w_players r; w_groups := w_groups r; w_nextGroupId := x;
     w_gameTime := w_gameTime r; w_now := w_now r; w_playerCache := w_playerCache r;
     w_twoSideGroup := w_twoSideGroup r; w_out := w_out r |}.
Definition set_w_out x (r : World) : World :=
  {| w_players := w_players r; w_groups := w_groups r; w_nextGroupId := w_nextGroupId r;
     w_gameTime := w_gameTime r; w_now := w_now r; w_playerCache := w_playerCache r;
     w_twoSideGroup := w_twoSideGroup r; w_out := x |}.

(** [ObjectAccessor::FindPlayerNotInWorld] / [ObjectMgr::GetPlayer(guid)]. *)
Definition FindPlayerNotInWorld (w : World) (guid : Z) : option Player :=
  if guid =? 0 then None else w_players w !! guid.
Definition GetPlayerW (w : World) (guid : Z) : option Player :=
  p ← FindPlayerNotInWorld w guid; if p_inWorld p then Some p else None.

(** [player->GetGroup()]. *)
Definition GetGroup (w : World) (p : Player) : option Group :=
  gp ← p_group p; w_groups w !! gp.

(** [Player::HandleHardcoreInteraction(target, true) == Allowed]
    (src/game/Objects/Player.cpp). *)
Definition HardcoreAllowed (p target : Player) : bool :=
  if negb (p_hardcore p) && negb (p_hardcore target) then true
  else if p_hardcore p then
    p_hardcore target && negb (5 <? Z.abs (i32 (p_level p - p_level target)))
  else false.

(** ** Names
    [normalizePlayerName] (src/game/ObjectMgr.cpp) goes through the vendored
    UTF-8 library; normalising twice is normalising once. *)
Class NameEnv := {
  normalizePlayerName : string -> option string;
  normalizePlayerName_idem : forall name n,
    normalizePlayerName name = Some n -> normalizePlayerName n = Some n
}.

(** [ObjectAccessor::FindPlayerByName]; [playerNameToPlayerPointer] holds every
    player under its name. *)
Definition FindPlayerByName `{NameEnv} (w : World) (name : string) : option (Z * Player) :=
  n ← normalizePlayerName (c_str name);
  guid ← List.find (fun guid => match w_players w !! guid with
                                | Some p => p_name p =s n
                                | None => false
                                end) (skeys (w_players w));
  p ← w_players w !! guid;
  if p_inWorld p then Some (guid, p) else None.

(** What group operations never change about a player. *)
Definition same_static (p q : Player) : Prop :=
  p_name q = p_name p /\ p_class q = p_class p /\ p_level q = p_level p /\
  p_team q = p_team p /\ p_hardcore q = p_hardcore p /\ p_inWorld q = p_inWorld p /\
  p_session q = p_session p /\ p_botManaged q = p_botManaged p /\ p_botRoles q = p_botRoles p /\
  p_account q = p_account p /\ p_aiControlled q = p_aiControlled p.

Definition world_frame (w w' : World) : Prop :=
  (forall guid, match w_players w !! guid, w_players w' !! guid with
           | Some p, Some q => same_static p q
           | None, None => True
           | _, _ => False
           end) /\
  w_twoSideGroup w' = w_twoSideGroup w /\ w_gameTime w' = w_gameTime w /\
  w_out w' = w_out w.

(** Membership in the group object at an address. *)
Definition member_of (w : World) (gp guid : Z) : Prop :=
  exists g, w_groups w !! gp = Some g /\ IsMember g guid = true.

(** No group object holds more members than a raid can have. *)
Definition groups_small (w : World) : Prop :=
  map_Forall (fun _ g => GetMembersCount g <= MAX_RAID_SIZE) (w_groups w).

(** ** What the dungeon finder relies on from the group code *)
Class GroupService := {
  (** [new Group] followed by [Create]: on success the address of the group,
      registered with the object manager. *)
  gs_Create : Z -> string -> World -> option Z * World;
  gs_AddMember : Z -> Z -> string -> World -> bool * World;
  gs_RemoveFromGroup : Z -> World -> World;

  gs_Create_frame : forall guid name w, world_frame w (snd (gs_Create guid name w));
  gs_AddMember_frame : forall gp guid name w, world_frame w (snd (gs_AddMember gp guid name w));
  gs_RemoveFromGroup_frame : forall guid w, world_frame w (gs_RemoveFromGroup guid w);

  gs_Create_member : forall guid name w gp w',
    gs_Create guid name w = (Some gp, w') -> member_of w' gp guid;
  gs_AddMember_member : forall gp guid name w w',
    gs_AddMember gp guid name w = (true, w') -> member_of w' gp guid;
  gs_AddMember_keeps : forall gp guid name w w' b g,
    gs_AddMember gp guid name w = (b, w') -> member_of w gp g -> member_of w' gp g;

  gs_Create_small : forall guid name w,
    groups_small w -> groups_small (snd (gs_Create guid name w));
  gs_AddMember_small : forall gp guid name w,
    groups_small w -> groups_small (snd (gs_AddMember gp guid name w));
  gs_RemoveFromGroup_small : forall guid w,
    groups_small w -> groups_small (gs_RemoveFromGroup guid w)
}.

(** ** Facts *)
Lemma same_static_refl p : same_static p p.
Proof. done. Qed.

Lemma same_static_trans p q r : same_static p q -> same_static q r -> same_static p r.
Proof. unfold same_static. intros Ha Hb. destruct_and!. repeat split; congruence. Qed.

Lemma world_frame_refl w : world_frame w w.
Proof. split; [|done]. intros guid. by destruct (w_players w !! guid). Qed.

Lemma world_frame_trans w1 w2 w3 : world_frame w1 w2 -> world_frame w2 w3 -> world_frame w1 w3.
Proof.
  intros (Ha & ? & ? & ?) (Hb & ? & ? & ?). split; [|repeat split; congruence].
  intros guid. specialize (Ha guid). specialize (Hb guid).
  destruct (w_players w1 !! guid), (w_players w2 !! guid), (w_players w3 !! guid); try done.
  by eapply same_static_trans.
Qed.

Lemma GetPlayerW_Some w guid p :
  GetPlayerW w guid = Some p <-> guid <> 0 /\ w_players w !! guid = Some p /\ p_inWorld p = true.
Proof.
  unfold GetPlayerW, FindPlayerNotInWorld. destruct (Z.eqb_spec guid 0); simpl.
  - split; [done|]. intros (? & _); done.
  - destruct (w_players w !! guid) as [q|]; simpl.
    + destruct (p_inWorld q) eqn:?; split.
      * by intros [= ->].
      * intros (_ & [= ->] & _); done.
      * done.
      * intros (_ & [= ->] & ?); congruence.
    + split; [done|]. intros (_ & ? & _); done.
Qed.

Lemma same_static_inWorld p q : same_static p q -> p_inWorld q = p_inWorld p.
Proof. unfold same_static. tauto. Qed.

(** A frame-preserving step finds the same players online. *)
Lemma GetPlayerW_frame w w' guid p :
  world_frame w w' -> GetPlayerW w guid = Some p ->
  exists q, GetPlayerW w' guid = Some q /\ same_static p q.
Proof.
  intros (H & _) (Hne & Hp & Hin)%GetPlayerW_Some. specialize (H guid). rewrite Hp in H.
  destruct (w_players w' !! guid) as [q|] eqn:Hq; [|done].
  exists q. split; [|done]. apply GetPlayerW_Some.
  repeat split; [done|done|]. by rewrite (same_static_inWorld p q).
Qed.

Lemma GetPlayerW_frame_None w w' guid :
  world_frame w w' -> GetPlayerW w guid = None -> GetPlayerW w' guid = None.
Proof.
  intros (H & _) Hn. destruct (GetPlayerW w' guid) as [q|] eqn:Hq; [|done].
  apply GetPlayerW_Some in Hq as (Hne & Hq & Hin). specialize (H guid). rewrite Hq in H.
  destruct (w_players w !! guid) as [p|] eqn:Hp; [|done].
  exfalso. assert (GetPlayerW w guid = Some p) as E; [|congruence].
  apply GetPlayerW_Some. repeat split; [done|done|]. by rewrite <- (same_static_inWorld p q).
Qed.

Lemma IsMember_elem g guid :
  IsMember g guid = true <-> guid ∈ (ms_guid <$> m_memberSlots g).
Proof.
  unfold IsMember, getMemberSlot. rewrite list_elem_of_fmap. split.
  - destruct (List.find _ _) as [s|] eqn:Hf; [|done]. intros _.
    apply List.find_some in Hf as [Hin Heq%Z.eqb_eq]. exists s. split; [done|]. by apply list_elem_of_In.
  - intros (s & -> & Hin%list_elem_of_In). destruct (List.find _ _) eqn:Hf; [done|].
    eapply List.find_none in Hf; [|done]. simpl in Hf. by rewrite Z.eqb_refl in Hf.
Qed.
