(* ===== verification/Party.v ===== *)
(** Parties and raids (src/game/Group/Group.cpp, Group.h) with the player's
    side of a membership (src/game/Objects/Player.cpp): creating, inviting,
    joining, leaving, leaders, subgroups, assistants, target icons. *)

From S2P Require Import Prelude CString World.

(** Races (src/game/SharedDefines.h). *)
Definition RACE_HUMAN := 1.
Definition RACE_DWARF := 3.
Definition RACE_NIGHTELF := 4.
Definition RACE_GNOME := 7.
Definition RACE_HIGH_ELF := 10.
Definition TARGET_ICON_COUNT : nat := 8.

(** ** Objects by address *)
Definition upd_group (gp : Z) (f : Group -> Group) (w : World) : World :=
  set_w_groups (alter f gp (w_groups w)) w.
Definition upd_player (guid : Z) (f : Player -> Player) (w : World) : World :=
  set_w_players (alter f guid (w_players w)) w.

(** ** The player's references *)
Definition SetGroup (group : option (Z * Z)) (p : Player) : Player :=
  match group with
  | None => set_p_group None p
  | Some (gp, subgroup) => set_p_subGroup (u8 subgroup) (set_p_group (Some gp) p)
  end.
Definition SetOriginalGroup (group : option (Z * Z)) (p : Player) : Player :=
  match group with
  | None => set_p_originalGroup None p
  | Some (gp, subgroup) => set_p_originalSubGroup (u8 subgroup) (set_p_originalGroup (Some gp) p)
  end.
Definition SetBattleGroundRaid (gp subgroup : Z) (p : Player) : Player :=
  let p := SetOriginalGroup ((fun g => (g, p_subGroup p)) <$> p_group p) p in
  set_p_subGroup (u8 subgroup) (set_p_group (Some gp) p).
Definition RemoveFromBattleGroundRaid (p : Player) : Player :=
  let p := match p_originalGroup p with
           | Some g => set_p_subGroup (p_originalSubGroup p) (set_p_group (Some g) p)
           | None => set_p_group None p
           end in
  SetOriginalGroup None p.

(** [Player::UpdateGroupLeaderFlag]. *)
Definition UpdateGroupLeaderFlag (remove : bool) (guid : Z) (w : World) : World :=
  match w_players w !! guid with
  | None => w
  | Some p =>
      let leads := from_option (fun g => m_leaderGuid g =? guid) false (GetGroup w p) in
      if p_leaderFlag p
      then if remove || negb leads then upd_player guid (set_p_leaderFlag false) w else w
      else if negb remove && leads then upd_player guid (set_p_leaderFlag true) w else w
  end.

(** ** Slots and subgroup counters *)
Definition IsAssistant (g : Group) (guid : Z) : bool :=
  match getMemberSlot g guid with Some slot => ms_assistant slot | None => false end.
Definition GetMemberGroup (g : Group) (guid : Z) : Z :=
  match getMemberSlot g guid with
  | Some slot => ms_group slot
  | None => MAX_RAID_SUBGROUPS + 1
  end.
Definition GetMembersMinCount (g : Group) : Z := if isBGGroup g then 1 else 2.

(** [m_subGroupsCounts[subgroup]]; an index outside the array is not modelled
    (reads 0, writes nothing). *)
Definition counter (counts : list Z) (subgroup : Z) : Z := nth (Z.to_nat subgroup) counts 0.
Definition SubGroupCounterIncrease (subgroup : Z) (g : Group) : Group :=
  match m_subGroupsCounts g with
  | Some counts => set_m_subGroupsCounts
      (Some (alter (fun n => u8 (n + 1)) (Z.to_nat subgroup) counts)) g
  | None => g
  end.
Definition SubGroupCounterDecrease (subgroup : Z) (g : Group) : Group :=
  match m_subGroupsCounts g with
  | Some counts => set_m_subGroupsCounts
      (Some (alter (fun n => u8 (n - 1)) (Z.to_nat subgroup) counts)) g
  | None => g
  end.
Definition _initRaidSubGroupsCounter (g : Group) : Group :=
  set_m_subGroupsCounts
    (Some (foldl (fun counts slot => alter (fun n => u8 (n + 1)) (Z.to_nat (ms_group slot)) counts)
             (replicate (Z.to_nat MAX_RAID_SUBGROUPS) 0) (m_memberSlots g))) g.
Definition HasFreeSlotSubGroup (g : Group) (subgroup : Z) : bool :=
  match m_subGroupsCounts g with
  | Some counts => counter counts subgroup <? MAX_GROUP_SIZE
  | None => false
  end.

(** Change the first slot of a member. *)
Fixpoint upd_slot (guid : Z) (f : MemberSlot -> MemberSlot) (slots : list MemberSlot)
    : list MemberSlot :=
  match slots with
  | [] => []
  | slot :: slots' => if ms_guid slot =? guid then f slot :: slots' else slot :: upd_slot guid f slots'
  end.
Fixpoint erase_slot (guid : Z) (slots : list MemberSlot) : list MemberSlot :=
  match slots with
  | [] => []
  | slot :: slots' => if ms_guid slot =? guid then slots' else slot :: erase_slot guid slots'
  end.
Definition set_slot_group (group : Z) (slot : MemberSlot) : MemberSlot :=
  mkSlot (ms_guid slot) (ms_name slot) group (ms_assistant slot).
Definition set_slot_assistant (state : bool) (slot : MemberSlot) : MemberSlot :=
  mkSlot (ms_guid slot) (ms_name slot) (ms_group slot) state.

(** ** Invitations *)
Definition RemoveInvite (gp guid : Z) (w : World) : World :=
  match w_groups w !! gp with
  | Some g =>
      if bool_decide (guid ∈ m_invitees g)
      then upd_player guid (set_p_groupInvite None)
             (upd_group gp (set_m_invitees (m_invitees g ∖ {[guid]})) w)
      else w
  | None => w
  end.

Definition RemoveAllInvites (gp : Z) (w : World) : World :=
  match w_groups w !! gp with
  | Some g =>
      upd_group gp (set_m_invitees ∅)
        (foldl (fun w guid => upd_player guid (set_p_groupInvite None) w) w (selems (m_invitees g)))
  | None => w
  end.

Definition AddInvite (gp guid : Z) (w : World) : bool * World :=
  match w_players w !! guid, w_groups w !! gp with
  | Some player, Some g =>
      match p_groupInvite player with
      | Some _ => (false, w)
      | None =>
          let group :=
            match p_group player with
            | Some cur => if from_option isBGGroup false (w_groups w !! cur)
                          then p_originalGroup player else Some cur
            | None => None
            end in
          match group with
          | Some _ => (false, w)
          | None =>
              let w := RemoveInvite gp guid w in
              let w := upd_group gp (fun g => set_m_invitees ({[guid]} ∪ m_invitees g) g) w in
              (true, upd_player guid (set_p_groupInvite (Some gp)) w)
          end
      end
  | _, _ => (false, w)
  end.

(** ** Leaders *)
(** [_updateLeaderFlag]. *)
Definition _updateLeaderFlag (gp : Z) (remove : bool) (w : World) : World :=
  match w_groups w !! gp with
  | Some g => match GetPlayerW w (m_leaderGuid g) with
              | Some _ => UpdateGroupLeaderFlag remove (m_leaderGuid g) w
              | None => w
              end
  | None => w
  end.

Definition AddLeaderInvite (gp guid : Z) (w : World) : bool * World :=
  match AddInvite gp guid w with
  | (false, w) => (false, w)
  | (true, w) =>
      let w := _updateLeaderFlag gp true w in
      let name := match w_players w !! guid with Some p => p_name p | None => "" end in
      let w := upd_group gp (fun g => set_m_leaderName name (set_m_leaderGuid guid g)) w in
      (true, _updateLeaderFlag gp false w)
  end.

Definition _setLeader (gp guid : Z) (w : World) : World :=
  match g ← w_groups w !! gp; getMemberSlot g guid with
  | None => w
  | Some slot =>
      let w := _updateLeaderFlag gp true w in
      let w := upd_group gp (fun g => set_m_leaderLastOnline (w_now w)
                 (set_m_leaderName (ms_name slot) (set_m_leaderGuid (ms_guid slot) g))) w in
      _updateLeaderFlag gp false w
  end.

Definition ChangeLeader (gp guid : Z) (w : World) : World := _setLeader gp guid w.

(** May the member lead: online with a session and in this very group? *)
Definition leader_candidate (w : World) (gp : Z) (g : Group) (slot : MemberSlot) : bool :=
  negb (ms_guid slot =? m_leaderGuid g) &&
  match GetPlayerW w (ms_guid slot) with
  | Some p => p_session p && bool_decide (p_group p = Some gp)
  | None => false
  end.

(** The scan for [chosen], with [first] as the fallback. *)
Fixpoint scan_leader (w : World) (gp : Z) (g : Group) (slots : list MemberSlot) (first : Z) : Z :=
  match slots with
  | [] => first
  | slot :: slots' =>
      if negb (leader_candidate w gp g slot) then scan_leader w gp g slots' first
      else if isRaidGroup g && negb (ms_assistant slot)
      then scan_leader w gp g slots' (if first =? 0 then ms_guid slot else first)
      else ms_guid slot
  end.

Definition _chooseLeader (gp : Z) (offline : bool) (w : World) : World :=
  match w_groups w !! gp with
  | None => w
  | Some g =>
      if GetMembersCount g <? GetMembersMinCount g then w
      else
        let chosen := scan_leader w gp g (m_memberSlots g) 0 in
        if offline && (chosen =? 0) then w
        else
          let chosen := if chosen =? 0
                        then match m_memberSlots g with slot :: _ => ms_guid slot | [] => 0 end
                        else chosen in
          if offline then ChangeLeader gp chosen w else _setLeader gp chosen w
  end.

(** [UpdateOfflineLeader(time, delay)]; [loading] is the leader's session
    still loading the player. *)
Definition UpdateOfflineLeader (gp time delay : Z) (loading : bool) (w : World) : World :=
  match w_groups w !! gp with
  | None => w
  | Some g =>
      if isBGGroup g then w
      else match GetPlayerW w (m_leaderGuid g) with
      | Some _ => upd_group gp (set_m_leaderLastOnline time) w
      | None =>
          if (time - m_leaderLastOnline g <? delay) || loading then w
          else _chooseLeader gp true w
      end
  end.

Definition UpdatePlayerOnlineStatus (gp guid : Z) (online : bool) (w : World) : World :=
  match w_groups w !! gp with
  | Some g =>
      if negb (IsMember g guid) then w
      else if online then w
      else if IsLeader g guid then upd_group gp (set_m_leaderLastOnline (w_now w)) w
      else w
  | None => w
  end.

(** ** Joining *)
Definition _addMember_to (gp guid : Z) (name : string) (isAssistant : bool) (group : Z) (w : World)
    : bool * World :=
  match w_groups w !! gp with
  | None => (false, w)
  | Some g =>
      if IsFull g then (false, w)
      else if guid =? 0 then (false, w)
      else
        let slot := mkSlot guid name group isAssistant in
        let player := GetPlayerW w guid in
        let w := upd_group gp (fun g => SubGroupCounterIncrease group
                                 (set_m_memberSlots (m_memberSlots g ++ [slot]) g)) w in
        match player with
        | None => (true, w)
        | Some p =>
            let w := match p_groupInvite p with Some ig => RemoveInvite ig guid w | None => w end in
            let w := upd_player guid (set_p_groupInvite None) w in
            let join := match p_group p with
                        | Some _ => if isBGGroup g then SetBattleGroundRaid gp group
                                    else SetOriginalGroup (Some (gp, group))
                        | None => SetGroup (Some (gp, group))
                        end in
            (true, upd_player guid join w)
        end
  end.

(** The first subgroup with a free place. *)
Fixpoint first_free (counts : list Z) (groupid : Z) : option Z :=
  match counts with
  | [] => None
  | n :: counts' => if n <? MAX_GROUP_SIZE then Some groupid else first_free counts' (groupid + 1)
  end.

Definition _addMember (gp guid : Z) (name : string) (isAssistant : bool) (w : World) : bool * World :=
  match w_groups w !! gp with
  | None => (false, w)
  | Some g =>
      match m_subGroupsCounts g with
      | None => _addMember_to gp guid name isAssistant 0 w
      | Some counts =>
          match first_free counts 0 with
          | None => (false, w)
          | Some groupid => _addMember_to gp guid name isAssistant groupid w
          end
      end
  end.

(** Does a member count as horde?  Offline members by their cached race. *)
Definition horde_race (race : Z) : bool :=
  negb ((race =? RACE_DWARF) || (race =? RACE_GNOME) || (race =? RACE_HIGH_ELF) ||
        (race =? RACE_HUMAN) || (race =? RACE_NIGHTELF)).
Definition counts_as_horde (w : World) (slot : MemberSlot) : bool :=
  match FindPlayerNotInWorld w (ms_guid slot) with
  | Some p => p_team p =? HORDE
  | None => from_option horde_race false (w_playerCache w !! ms_guid slot)
  end.
Definition crossfaction (w : World) (g : Group) : bool :=
  let hordeCount := Z.of_nat (count (counts_as_horde w) (m_memberSlots g)) in
  negb (hordeCount =? 0) && negb (hordeCount =? GetMembersCount g).
Definition UpdateCrossfaction (gp : Z) (w : World) : World :=
  match w_groups w !! gp with
  | Some g => upd_group gp (set_m_isCrossfaction (crossfaction w g)) w
  | None => w
  end.

(** The group's team once a player of [team] has joined. *)
Definition join_team (groupTeam team : Z) : Z :=
  let groupTeam :=
    if ((groupTeam =? ALLIANCE) && (team =? HORDE)) || ((groupTeam =? HORDE) && (team =? ALLIANCE))
    then TEAM_CROSSFACTION else groupTeam in
  if groupTeam =? TEAM_NONE then team else groupTeam.

Definition AddMember (gp guid : Z) (name : string) (w : World) : bool * World :=
  match _addMember gp guid name false w with
  | (false, w) => (false, w)
  | (true, w) =>
      let w := match w_groups w !! gp with
               | Some g => if negb (isBGGroup g) && negb (GetMembersCount g =? 1)
                           then UpdateCrossfaction gp w else w
               | None => w
               end in
      let w := match GetPlayerW w guid with
               | Some p => upd_group gp (fun g => set_m_groupTeam (join_team (m_groupTeam g) (p_team p)) g) w
               | None => w
               end in
      (true, w)
  end.

(** ** Creation *)
(** [new Group]; [bgGroup] tells whether [SetBattlegroundGroup] was called on it. *)
Definition Group_new (bgGroup : bool) : Group := {|
  m_Id := 0; m_memberSlots := []; m_invitees := ∅; m_leaderGuid := 0; m_leaderName := "";
  m_leaderLastOnline := 0; m_mainTankGuid := 0; m_mainAssistantGuid := 0;
  m_groupType := GROUPTYPE_NORMAL; m_bgGroup := bgGroup;
  m_targetIcons := replicate TARGET_ICON_COUNT 0; m_lootMethod := FREE_FOR_ALL;
  m_lootThreshold := ITEM_QUALITY_UNCOMMON; m_looterGuid := 0; m_subGroupsCounts := None;
  m_groupTeam := TEAM_NONE; m_LFGAreaId := 0; m_isCrossfaction := false |}.

(** [Group::Create] on the object at [gp]. *)
Definition Create (gp guid : Z) (name : string) (w : World) : bool * World :=
  match w_groups w !! gp with
  | None => (false, w)
  | Some g =>
      let g := set_m_leaderLastOnline (w_now w) (set_m_leaderName name (set_m_leaderGuid guid g)) in
      let g := set_m_groupType (if isBGGroup g then GROUPTYPE_RAID else GROUPTYPE_NORMAL) g in
      let g := if isRaidGroup g then _initRaidSubGroupsCounter g else g in
      let g := set_m_lootThreshold ITEM_QUALITY_UNCOMMON (set_m_lootMethod GROUP_LOOT g) in
      let g := set_m_looterGuid guid g in
      let '(g, w) := if isBGGroup g then (g, w)
                     else (set_m_Id (w_nextGroupId w) g,
                           set_w_nextGroupId (u32 (w_nextGroupId w + 1)) w) in
      let w := upd_group gp (fun _ => g) w in
      match AddMember gp guid name w with
      | (false, w) => (false, w)
      | (true, w) => (true, _updateLeaderFlag gp false w)
      end
  end.

(** [new Group] at a fresh address. *)
Definition new_group (bgGroup : bool) (w : World) : Z * World :=
  let gp := fresh (dom (w_groups w)) in
  (gp, set_w_groups (<[gp := Group_new bgGroup]> (w_groups w)) w).

(** [delete group]: invitations are withdrawn and references unlinked. *)
Definition unlink (gp : Z) (p : Player) : Player :=
  let p := if bool_decide (p_group p = Some gp) then set_p_group None p else p in
  if bool_decide (p_originalGroup p = Some gp) then set_p_originalGroup None p else p.
Definition delete_group (gp : Z) (w : World) : World :=
  let w := RemoveAllInvites gp w in
  let w := set_w_players (unlink gp <$> w_players w) w in
  set_w_groups (delete gp (w_groups w)) w.

(** [group = new Group; if (!group->Create(..)) delete group;] *)
Definition CreateNew (guid : Z) (name : string) (w : World) : option Z * World :=
  let '(gp, w) := new_group false w in
  match Create gp guid name w with
  | (true, w) => (Some gp, w)
  | (false, w) => (None, delete_group gp w)
  end.

Definition ConvertToRaid (gp : Z) (w : World) : World :=
  upd_group gp (fun g => _initRaidSubGroupsCounter (set_m_groupType GROUPTYPE_RAID g)) w.

(** ** Leaving *)
(** Take this group's reference off a player who leaves it. *)
Definition unref_member (gp : Z) (bg : bool) (p : Player) : Player :=
  if bg then RemoveFromBattleGroundRaid p
  else if bool_decide (p_originalGroup p = Some gp) then SetOriginalGroup None p
  else SetGroup None p.

Definition _removeMember (gp guid : Z) (w : World) : bool * World :=
  match w_groups w !! gp with
  | None => (false, w)
  | Some g =>
      let w := match GetPlayerW w guid with
               | Some _ => upd_player guid (unref_member gp (isBGGroup g)) w
               | None => w
               end in
      let w := match getMemberSlot g guid with
               | Some slot => upd_group gp (fun g => set_m_memberSlots (erase_slot guid (m_memberSlots g))
                                                     (SubGroupCounterDecrease (ms_group slot) g)) w
               | None => w
               end in
      if m_leaderGuid g =? guid
      then (true, _chooseLeader gp false (_updateLeaderFlag gp true w))
      else (false, w)
  end.

(** One member of a group being disbanded. *)
Definition disband_member (gp : Z) (bg : bool) (w : World) (slot : MemberSlot) : World :=
  match GetPlayerW w (ms_guid slot) with
  | Some _ => upd_player (ms_guid slot) (unref_member gp bg) w
  | None => w
  end.

Definition Disband (gp : Z) (w : World) : World :=
  match w_groups w !! gp with
  | None => w
  | Some g =>
      let w := foldl (disband_member gp (isBGGroup g)) w (m_memberSlots g) in
      let w := upd_group gp (set_m_memberSlots []) w in
      let w := RemoveAllInvites gp w in
      let w := _updateLeaderFlag gp true w in
      upd_group gp (fun g => set_m_leaderName "" (set_m_leaderGuid 0 g)) w
  end.

Definition RemoveMember (gp guid : Z) (w : World) : Z * World :=
  match w_groups w !! gp with
  | None => (0, w)
  | Some g =>
      let w := if GetMembersMinCount g <? GetMembersCount g
               then UpdateCrossfaction gp (snd (_removeMember gp guid w))
               else Disband gp w in
      (from_option GetMembersCount 0 (w_groups w !! gp), w)
  end.

(** [Player::RemoveFromGroup(group, guid)] and [RemoveFromGroup()]. *)
Definition RemoveFromGroup_of (gp guid : Z) (w : World) : World :=
  let '(remaining, w) := RemoveMember gp guid w in
  if remaining <=? 1 then delete_group gp w else w.
Definition RemoveFromGroup (guid : Z) (w : World) : World :=
  match p ← w_players w !! guid; gp ← p_group p; g ← w_groups w !! gp; Some gp with
  | Some gp => RemoveFromGroup_of gp guid w
  | None => w
  end.

Definition UninviteFromGroup (guid : Z) (w : World) : World :=
  match p ← w_players w !! guid; p_groupInvite p with
  | None => w
  | Some gp =>
      let w := RemoveInvite gp guid w in
      match w_groups w !! gp with
      | Some g =>
          if GetMembersCount g <=? 1
          then delete_group gp (if 0 <? GetMembersCount g then Disband gp w else RemoveAllInvites gp w)
          else w
      | None => w
      end
  end.

(** ** Raid roles *)
Definition _setAssistantFlag (guid : Z) (state : bool) (g : Group) : bool * Group :=
  match getMemberSlot g guid with
  | None => (false, g)
  | Some _ => (true, set_m_memberSlots (upd_slot guid (set_slot_assistant state) (m_memberSlots g)) g)
  end.

(** [_setMainTank] and [_setMainAssistant] call each other only with the empty
    guid, which the callee stores at once. *)
Definition _setMainTank (guid : Z) (g : Group) : bool * Group :=
  if m_mainTankGuid g =? guid then (false, g)
  else if negb (guid =? 0) then
    if negb (IsMember g guid) then (false, g)
    else
      let g := if m_mainAssistantGuid g =? guid then set_m_mainAssistantGuid 0 g else g in
      (true, set_m_mainTankGuid guid g)
  else (true, set_m_mainTankGuid guid g).
Definition _setMainAssistant (guid : Z) (g : Group) : bool * Group :=
  if m_mainAssistantGuid g =? guid then (false, g)
  else if negb (guid =? 0) then
    if negb (IsMember g guid) then (false, g)
    else
      let g := if m_mainTankGuid g =? guid then set_m_mainTankGuid 0 g else g in
      (true, set_m_mainAssistantGuid guid g)
  else (true, set_m_mainAssistantGuid guid g).

Definition SetAssistant (gp guid : Z) (state : bool) (w : World) : World :=
  upd_group gp (fun g => if isRaidGroup g then snd (_setAssistantFlag guid state g) else g) w.
Definition SetMainTank (gp guid : Z) (w : World) : World :=
  upd_group gp (fun g => if isRaidGroup g then snd (_setMainTank guid g) else g) w.
Definition SetMainAssistant (gp guid : Z) (w : World) : World :=
  upd_group gp (fun g => if isRaidGroup g then snd (_setMainAssistant guid g) else g) w.

(** ** Subgroups *)
Definition _setMembersGroup (guid group : Z) (g : Group) : bool * Group :=
  match getMemberSlot g guid with
  | None => (false, g)
  | Some _ => (true, SubGroupCounterIncrease group
      (set_m_memberSlots (upd_slot guid (set_slot_group group) (m_memberSlots g)) g))
  end.

Definition overflows (g : Group) (group : Z) : bool :=
  match m_subGroupsCounts g with
  | Some counts => MAX_GROUP_SIZE <=? counter counts group
  | None => false
  end.

(** The subgroup stored in the reference that points to this group. *)
Definition set_ref_subgroup (gp group : Z) (p : Player) : Player :=
  if bool_decide (p_group p = Some gp) then set_p_subGroup group p else set_p_originalSubGroup group p.

(** [ChangeMembersGroup(Player*, uint8)]. *)
Definition ChangeMembersGroup_online (gp guid group : Z) (w : World) : World :=
  match w_groups w !! gp, w_players w !! guid with
  | Some g, Some p =>
      if negb (isRaidGroup g) || (MAX_RAID_SUBGROUPS <=? group) then w
      else
        let prevSubGroup := GetMemberGroup g guid in
        if (prevSubGroup =? group) || (MAX_RAID_SUBGROUPS <=? prevSubGroup) then w
        else if overflows g group then w
        else
          let prevSubGroup := if bool_decide (p_group p = Some gp) then prevSubGroup
                              else p_originalSubGroup p in
          let w := upd_player guid (set_ref_subgroup gp group) w in
          upd_group gp (fun g => SubGroupCounterDecrease prevSubGroup (snd (_setMembersGroup guid group g))) w
  | _, _ => w
  end.

(** [ChangeMembersGroup(ObjectGuid, uint8)]. *)
Definition ChangeMembersGroup (gp guid group : Z) (w : World) : World :=
  match w_groups w !! gp with
  | None => w
  | Some g =>
      if negb (isRaidGroup g) || (MAX_RAID_SUBGROUPS <=? group) then w
      else if overflows g group then w
      else match GetPlayerW w guid with
      | Some _ => ChangeMembersGroup_online gp guid group w
      | None =>
          let prevSubGroup := GetMemberGroup g guid in
          if prevSubGroup =? group then w
          else upd_group gp (fun g => match _setMembersGroup guid group g with
                                      | (true, g) => SubGroupCounterDecrease prevSubGroup g
                                      | (false, g) => g
                                      end) w
      end
  end.

(** [_swapMembersGroup]. *)
Definition _swapMembersGroup (guid swapGuid : Z) (g : Group) : bool * Group :=
  match getMemberSlot g guid, getMemberSlot g swapGuid with
  | Some slot, Some swapSlot =>
      let slots := upd_slot swapGuid (set_slot_group (ms_group slot)) (m_memberSlots g) in
      (true, set_m_memberSlots (upd_slot guid (set_slot_group (ms_group swapSlot)) slots) g)
  | _, _ => (false, g)
  end.

(** Both overloads of [SwapMembersGroup]: whichever players are online get
    their reference updated. *)
Definition SwapMembersGroup (gp guid swapGuid : Z) (w : World) : World :=
  match w_groups w !! gp with
  | None => w
  | Some g =>
      if negb (isRaidGroup g) then w
      else
        let group := GetMemberGroup g guid in
        let swapGroup := GetMemberGroup g swapGuid in
        if (group =? swapGroup) || (MAX_RAID_SUBGROUPS <=? group) || (MAX_RAID_SUBGROUPS <=? swapGroup)
        then w
        else match _swapMembersGroup guid swapGuid g with
        | (false, _) => w
        | (true, g') =>
            let online := GetPlayerW w guid in
            let swapOnline := GetPlayerW w swapGuid in
            let w := upd_group gp (fun _ => g') w in
            let w := match online with
                     | Some _ => upd_player guid (set_ref_subgroup gp swapGroup) w | None => w end in
            match swapOnline with
            | Some _ => upd_player swapGuid (set_ref_subgroup gp group) w
            | None => w
            end
        end
  end.

(** ** Target icons *)
Definition SetTargetIcon (id targetGuid : Z) (g : Group) : Group :=
  if Z.of_nat TARGET_ICON_COUNT <=? id then g
  else
    let cleaned :=
      if targetGuid =? 0 then m_targetIcons g
      else (fun icon => if icon =? targetGuid then 0 else icon) <$> m_targetIcons g in
    set_m_targetIcons (<[Z.to_nat id := targetGuid]> cleaned) g.

Fixpoint icon_index (targetGuid : Z) (icons : list Z) : option nat :=
  match icons with
  | [] => None
  | icon :: icons' => if icon =? targetGuid then Some 0%nat else S <$> icon_index targetGuid icons'
  end.
Definition ClearTargetIcon (targetGuid : Z) (g : Group) : Group :=
  match icon_index targetGuid (m_targetIcons g) with
  | Some i => SetTargetIcon (Z.of_nat i) 0 g
  | None => g
  end.
