(* ===== verification/PartySlots.v ===== *)
(** Parties: what each operation leaves alone, and the slots of one group -
    distinct members, the size limit, and subgroup counters that count what they
    say; each change of the slots keeps them. *)

From S2P Require Import Prelude CString World Party.

(** ** Frames *)
Definition static_update (f : Player -> Player) : Prop := forall p, same_static p (f p).

Lemma upd_player_frame guid f w : static_update f -> world_frame w (upd_player guid f w).
Proof.
  intros Hf. split; [|done]. intros g. simpl. destruct (decide (g = guid)) as [->|].
  - rewrite lookup_alter_eq. destruct (w_players w !! guid); simpl; [apply Hf|done].
  - rewrite lookup_alter_ne by done. by destruct (w_players w !! g).
Qed.

Lemma upd_group_frame gp f w : world_frame w (upd_group gp f w).
Proof. split; [|done]. intros g. simpl. by destruct (w_players w !! g). Qed.

Lemma upd_player_groups guid f w : w_groups (upd_player guid f w) = w_groups w.
Proof. done. Qed.

Lemma frame_then w1 w2 w3 : world_frame w1 w2 -> world_frame w2 w3 -> world_frame w1 w3.
Proof. apply world_frame_trans. Qed.

Lemma foldl_frame {B} (body : World -> B -> World) l w :
  (forall w x, world_frame w (body w x)) -> world_frame w (foldl body w l).
Proof. intros Hb. apply foldl_rel; [apply world_frame_refl|apply world_frame_trans|auto]. Qed.

Lemma static_SetGroup x : static_update (SetGroup x).
Proof. intros p. destruct x as [[? ?]|]; done. Qed.
Lemma static_SetOriginalGroup x : static_update (SetOriginalGroup x).
Proof. intros p. destruct x as [[? ?]|]; done. Qed.
Lemma static_SetBattleGroundRaid gp k : static_update (SetBattleGroundRaid gp k).
Proof. intros p. unfold SetBattleGroundRaid. by destruct (p_group p). Qed.
Lemma static_RemoveFromBattleGroundRaid : static_update RemoveFromBattleGroundRaid.
Proof. intros p. unfold RemoveFromBattleGroundRaid. by destruct (p_originalGroup p). Qed.
Lemma static_invite x : static_update (set_p_groupInvite x).
Proof. done. Qed.
Lemma static_flag x : static_update (set_p_leaderFlag x).
Proof. done. Qed.
Lemma static_unref gp bg : static_update (unref_member gp bg).
Proof.
  intros p. unfold unref_member. destruct bg; [apply static_RemoveFromBattleGroundRaid|].
  case_bool_decide; done.
Qed.
Lemma static_ref gp k : static_update (set_ref_subgroup gp k).
Proof. intros p. unfold set_ref_subgroup. by case_bool_decide. Qed.
Lemma static_unlink gp : static_update (unlink gp).
Proof. intros p. unfold unlink. repeat case_bool_decide; done. Qed.

Create HintDb party.
#[export] Hint Resolve upd_player_frame upd_group_frame static_SetGroup
  static_SetOriginalGroup static_SetBattleGroundRaid static_RemoveFromBattleGroundRaid
  static_invite static_flag static_unref static_ref static_unlink foldl_frame : party.
(** Frame goals: split the code's cases, then chain the updates backwards. *)
Ltac frame_step :=
  first [ apply world_frame_refl
        | eapply world_frame_trans; [|solve [eauto 3 with party]]
        | solve [eauto 3 with party] ].
Ltac frames := repeat (case_match; simplify_eq/=); repeat frame_step.

Lemma UpdateGroupLeaderFlag_frame r g w : world_frame w (UpdateGroupLeaderFlag r g w).
Proof. unfold UpdateGroupLeaderFlag. frames. Qed.
Lemma UpdateGroupLeaderFlag_groups r g w : w_groups (UpdateGroupLeaderFlag r g w) = w_groups w.
Proof. unfold UpdateGroupLeaderFlag. by repeat case_match. Qed.
#[export] Hint Resolve UpdateGroupLeaderFlag_frame : party.

Lemma _updateLeaderFlag_frame gp r w : world_frame w (_updateLeaderFlag gp r w).
Proof. unfold _updateLeaderFlag. frames. Qed.
Lemma _updateLeaderFlag_groups gp r w : w_groups (_updateLeaderFlag gp r w) = w_groups w.
Proof. unfold _updateLeaderFlag. repeat case_match; rewrite ?UpdateGroupLeaderFlag_groups; done. Qed.
Lemma RemoveInvite_frame gp g w : world_frame w (RemoveInvite gp g w).
Proof. unfold RemoveInvite. frames. Qed.
Lemma RemoveAllInvites_frame gp w : world_frame w (RemoveAllInvites gp w).
Proof. unfold RemoveAllInvites. frames. Qed.
#[export] Hint Resolve _updateLeaderFlag_frame RemoveInvite_frame RemoveAllInvites_frame : party.

Lemma AddInvite_frame gp g w : world_frame w (snd (AddInvite gp g w)).
Proof. unfold AddInvite. frames. Qed.
Lemma _setLeader_frame gp g w : world_frame w (_setLeader gp g w).
Proof. unfold _setLeader. frames. Qed.
#[export] Hint Resolve _setLeader_frame : party.
Lemma ChangeLeader_frame gp g w : world_frame w (ChangeLeader gp g w).
Proof. unfold ChangeLeader. frames. Qed.
#[export] Hint Resolve ChangeLeader_frame : party.
Lemma _chooseLeader_frame gp o w : world_frame w (_chooseLeader gp o w).
Proof. unfold _chooseLeader. frames. Qed.
Lemma UpdateCrossfaction_frame gp w : world_frame w (UpdateCrossfaction gp w).
Proof. unfold UpdateCrossfaction. frames. Qed.
#[export] Hint Resolve _chooseLeader_frame UpdateCrossfaction_frame : party.

Lemma _addMember_to_frame gp g n a k w : world_frame w (snd (_addMember_to gp g n a k w)).
Proof. unfold _addMember_to. frames. Qed.
#[export] Hint Resolve _addMember_to_frame : party.
Lemma _addMember_frame gp g n a w : world_frame w (snd (_addMember gp g n a w)).
Proof. unfold _addMember. frames. Qed.

Lemma AddMember_frame gp g n w : world_frame w (snd (AddMember gp g n w)).
Proof.
  unfold AddMember. pose proof (_addMember_frame gp g n false w) as H1.
  destruct (_addMember gp g n false w) as [[] w1]; [|done]. simpl in *.
  eapply world_frame_trans; [exact H1|]. clear H1. frames.
Qed.

Lemma set_nextGroupId_frame x w : world_frame w (set_w_nextGroupId x w).
Proof. split; [|done]. intros g. simpl. by destruct (w_players w !! g). Qed.
Lemma set_groups_frame x w : world_frame w (set_w_groups x w).
Proof. split; [|done]. intros g. simpl. by destruct (w_players w !! g). Qed.
#[export] Hint Resolve set_nextGroupId_frame set_groups_frame : party.

Lemma Create_frame gp g n w : world_frame w (snd (Create gp g n w)).
Proof.
  unfold Create. destruct (w_groups w !! gp) as [gr|]; [|apply world_frame_refl]. simpl.
  match goal with |- context [if ?b then (?a, w) else (?c, ?d)] =>
    assert (exists gr' w', (if b then (a, w) else (c, d)) = (gr', w') /\ world_frame w w')
      as (gr' & w' & -> & H1) end.
  { case_if; eexists _, _; (split; [done|]); first [apply world_frame_refl|eauto with party]. }
  set (w2 := upd_group gp (fun _ => gr') w').
  pose proof (AddMember_frame gp g n w2) as H2.
  assert (world_frame w w2) as H3 by (eapply world_frame_trans; [exact H1|apply upd_group_frame]).
  destruct (AddMember gp g n w2) as [[] w3]; simpl in *.
  - eapply world_frame_trans; [|apply _updateLeaderFlag_frame]. by eapply world_frame_trans.
  - by eapply world_frame_trans.
Qed.

Lemma delete_group_frame gp w : world_frame w (delete_group gp w).
Proof.
  unfold delete_group. eapply world_frame_trans; [|apply set_groups_frame].
  eapply world_frame_trans; [apply RemoveAllInvites_frame|].
  split; [|done]. intros g. simpl. rewrite lookup_fmap.
  destruct (w_players _ !! g); simpl; [apply static_unlink|done].
Qed.

Lemma CreateNew_frame g n w : world_frame w (snd (CreateNew g n w)).
Proof.
  unfold CreateNew, new_group. set (gp := fresh _). set (w1 := set_w_groups _ w).
  assert (world_frame w w1) as H1 by apply set_groups_frame.
  pose proof (Create_frame gp g n w1) as H2.
  destruct (Create gp g n w1) as [[] w2]; simpl in *; [eapply world_frame_trans; [exact H1|exact H2]|].
  eapply world_frame_trans; [|apply delete_group_frame].
  eapply world_frame_trans; [exact H1|exact H2].
Qed.

Lemma _removeMember_frame gp g w : world_frame w (snd (_removeMember gp g w)).
Proof. unfold _removeMember. frames. Qed.
Lemma Disband_frame gp w : world_frame w (Disband gp w).
Proof.
  unfold Disband. destruct (w_groups w !! gp) as [gr|]; [|apply world_frame_refl]. simpl.
  repeat (eapply world_frame_trans; [|solve [eauto 3 with party]]).
  apply foldl_frame. intros w' s. unfold disband_member. frames.
Qed.
#[export] Hint Resolve _removeMember_frame Disband_frame delete_group_frame : party.
Lemma RemoveMember_frame gp g w : world_frame w (snd (RemoveMember gp g w)).
Proof. unfold RemoveMember. frames. Qed.
Lemma RemoveFromGroup_of_frame gp g w : world_frame w (RemoveFromGroup_of gp g w).
Proof.
  unfold RemoveFromGroup_of.
  pose proof (RemoveMember_frame gp g w) as H1. destruct (RemoveMember gp g w) as [n w1]; simpl in *.
  case_if; [|done]. eapply world_frame_trans; [exact H1|apply delete_group_frame].
Qed.
Lemma RemoveFromGroup_frame g w : world_frame w (RemoveFromGroup g w).
Proof.
  unfold RemoveFromGroup.
  destruct (_ ≫= _) as [gp|]; [apply RemoveFromGroup_of_frame|apply world_frame_refl].
Qed.

Lemma UninviteFromGroup_frame g w : world_frame w (UninviteFromGroup g w).
Proof.
  unfold UninviteFromGroup. destruct (_ ≫= _) as [gp|]; [|apply world_frame_refl].
  eapply frame_then; [apply RemoveInvite_frame|]. destruct (w_groups _ !! gp); [|apply world_frame_refl].
  case_if; [|apply world_frame_refl]. eapply frame_then; [|apply delete_group_frame].
  case_if; [apply Disband_frame|apply RemoveAllInvites_frame].
Qed.

(** The slots of one group: distinct members, the size limit, and subgroup
    counters that count what they say; each change of the slots keeps them. *)

Definition in_sub (k : Z) (slots : list MemberSlot) : nat := count (fun s => ms_group s =? k) slots.
Definition subgroup_ok (k : Z) : Prop := 0 <= k < MAX_RAID_SUBGROUPS.

Definition counters_match (counts : list Z) (slots : list MemberSlot) : Prop :=
  length counts = Z.to_nat MAX_RAID_SUBGROUPS /\
  forall k, subgroup_ok k -> counter counts k = Z.of_nat (in_sub k slots) /\
    Z.of_nat (in_sub k slots) <= MAX_GROUP_SIZE.

Definition size_limit (g : Group) : Z :=
  match m_groupType g with GROUPTYPE_NORMAL => MAX_GROUP_SIZE | GROUPTYPE_RAID => MAX_RAID_SIZE end.

Definition slots_ok (g : Group) : Prop :=
  NoDup (ms_guid <$> m_memberSlots g) /\
  Forall (fun s => ms_guid s <> 0 /\ subgroup_ok (ms_group s)) (m_memberSlots g) /\
  GetMembersCount g <= size_limit g /\
  match m_subGroupsCounts g with
  | None => m_groupType g = GROUPTYPE_NORMAL /\ Forall (fun s => ms_group s = 0) (m_memberSlots g)
  | Some counts => m_groupType g = GROUPTYPE_RAID /\ counters_match counts (m_memberSlots g)
  end.

(** A group with members is led by one of them. *)
Definition leader_ok (g : Group) : Prop :=
  m_memberSlots g = [] \/ IsMember g (m_leaderGuid g) = true.
Definition group_ok (g : Group) : Prop := slots_ok g /\ leader_ok g.

(** ** Lists of slots *)
Lemma getMemberSlot_spec g guid slot :
  getMemberSlot g guid = Some slot -> ms_guid slot = guid /\ slot ∈ m_memberSlots g.
Proof.
  intros [Hin Hg%Z.eqb_eq]%List.find_some. split; [done|]. by apply list_elem_of_In.
Qed.

Lemma IsMember_slot g guid : IsMember g guid = true <-> exists slot, getMemberSlot g guid = Some slot.
Proof. unfold IsMember. destruct (getMemberSlot g guid); naive_solver. Qed.

Section slots.
Implicit Types (l : list MemberSlot) (guid k : Z).

Definition find_slot guid l : option MemberSlot := List.find (fun s => ms_guid s =? guid) l.

Lemma erase_slot_count (P : MemberSlot -> bool) guid l slot :
  find_slot guid l = Some slot ->
  count P l = (count P (erase_slot guid l) + if P slot then 1 else 0)%nat.
Proof.
  induction l as [|s l IH]; simpl; [done|]. rewrite count_cons. case_if.
  - intros [= ->]. lia.
  - intros Hf. rewrite count_cons, (IH Hf). lia.
Qed.

Lemma erase_slot_length guid l slot :
  find_slot guid l = Some slot -> length l = S (length (erase_slot guid l)).
Proof.
  induction l as [|s l IH]; simpl; [done|]. case_if; [done|]. intros Hf. by rewrite (IH Hf).
Qed.

Lemma erase_slot_sublist guid l : sublist (erase_slot guid l) l.
Proof.
  induction l as [|s l IH]; simpl; [constructor|]. case_if; [by apply sublist_cons|by apply sublist_skip].
Qed.

Lemma erase_slot_guids guid l g :
  NoDup (ms_guid <$> l) -> (g ∈ ms_guid <$> erase_slot guid l <-> g ∈ ms_guid <$> l /\ g <> guid).
Proof.
  induction l as [|s l IH]; simpl; intros Hnd; [set_solver|].
  apply NoDup_cons in Hnd as [Hnin Hnd]. destruct (Z.eqb_spec (ms_guid s) guid) as [<-|Hne]; simpl.
  - rewrite elem_of_cons. split; [|naive_solver]. intros Hg. split; [by right|]. by intros ->.
  - rewrite !elem_of_cons, IH by done. naive_solver.
Qed.

Lemma upd_slot_guids guid f l :
  (forall s, ms_guid (f s) = ms_guid s) -> ms_guid <$> upd_slot guid f l = ms_guid <$> l.
Proof.
  intros Hf. induction l as [|s l IH]; cbn [upd_slot]; [done|].
  case_if; rewrite !fmap_cons; [by rewrite Hf|by rewrite IH].
Qed.

Lemma upd_slot_length guid f l : length (upd_slot guid f l) = length l.
Proof. induction l as [|s l IH]; simpl; [done|]. case_if; simpl; [done|by rewrite IH]. Qed.

Lemma upd_slot_count (P : MemberSlot -> bool) guid f l slot :
  find_slot guid l = Some slot ->
  (count P (upd_slot guid f l) + (if P slot then 1 else 0) =
   count P l + (if P (f slot) then 1 else 0))%nat.
Proof.
  induction l as [|s l IH]; simpl; [done|]. rewrite count_cons. case_if.
  - intros [= ->]. rewrite count_cons. lia.
  - intros Hf. rewrite count_cons. specialize (IH Hf). lia.
Qed.

Lemma upd_slot_Forall (Q : MemberSlot -> Prop) guid f l :
  (forall s, Q s -> Q (f s)) -> Forall Q l -> Forall Q (upd_slot guid f l).
Proof.
  intros Hf. induction 1 as [|s l Hs Hl IH]; simpl; [constructor|]. case_if; constructor; auto.
Qed.

Lemma find_upd_slot_ne guid guid' f l :
  guid <> guid' -> (forall s, ms_guid (f s) = ms_guid s) ->
  find_slot guid' (upd_slot guid f l) = find_slot guid' l.
Proof.
  intros Hne Hf. induction l as [|s l IH]; simpl; [done|].
  destruct (Z.eqb_spec (ms_guid s) guid) as [Hs|Hs]; simpl.
  - rewrite Hf. destruct (Z.eqb_spec (ms_guid s) guid'); [lia|done].
  - by rewrite IH.
Qed.

(** ** Counters *)
Lemma counter_alter f counts k i :
  subgroup_ok k -> subgroup_ok i -> length counts = Z.to_nat MAX_RAID_SUBGROUPS ->
  counter (alter f (Z.to_nat k) counts) i = if i =? k then f (counter counts i) else counter counts i.
Proof.
  unfold subgroup_ok, MAX_RAID_SUBGROUPS, counter. intros Hk Hi Hlen.
  rewrite !nth_lookup.
  destruct (Z.eqb_spec i k) as [->|Hne].
  - destruct (lookup_lt_is_Some_2 counts (Z.to_nat k)) as [x Hx]; [lia|].
    rewrite list_lookup_alter_eq, Hx. done.
  - rewrite list_lookup_alter_ne by lia. done.
Qed.

Lemma in_sub_app k l1 l2 : in_sub k (l1 ++ l2) = (in_sub k l1 + in_sub k l2)%nat.
Proof. apply count_app. Qed.

Lemma in_sub_one k s : in_sub k [s] = if ms_group s =? k then 1%nat else 0%nat.
Proof. unfold in_sub. rewrite count_cons, count_nil. by destruct (ms_group s =? k). Qed.

Lemma init_counts l : forall counts l0,
  Forall (fun s => subgroup_ok (ms_group s)) l -> (length (l0 ++ l) < 256)%nat ->
  length counts = Z.to_nat MAX_RAID_SUBGROUPS ->
  (forall k, subgroup_ok k -> counter counts k = Z.of_nat (in_sub k l0)) ->
  let counts' := foldl (fun counts slot => alter (fun n => u8 (n + 1)) (Z.to_nat (ms_group slot)) counts)
                   counts l in
  length counts' = Z.to_nat MAX_RAID_SUBGROUPS /\
  forall k, subgroup_ok k -> counter counts' k = Z.of_nat (in_sub k (l0 ++ l)).
Proof.
  induction l as [|s l IH]; intros counts l0 Hl Hlen Hc Hk; simpl.
  { split; [done|]. by rewrite app_nil_r. }
  apply Forall_cons in Hl as [Hs Hl].
  replace (l0 ++ s :: l) with ((l0 ++ [s]) ++ l) in * by by rewrite <- app_assoc.
  apply IH; [done|done|by rewrite length_alter|].
  intros k Hkk. rewrite counter_alter, Hk, in_sub_app, in_sub_one, Z.eqb_sym by done.
  destruct (Z.eqb_spec (ms_group s) k); [|f_equal; lia].
  pose proof (count_le (fun s => ms_group s =? k) l0) as Hle. unfold in_sub.
  rewrite !length_app in Hlen. simpl in Hlen. rewrite u8_small; lia.
Qed.
End slots.

(** ** Changes of one group *)
Lemma in_sub_limit g k : slots_ok g -> Z.of_nat (in_sub k (m_memberSlots g)) <= 40.
Proof.
  intros (_ & _ & Hlen & _). pose proof (count_le (fun s => ms_group s =? k) (m_memberSlots g)).
  unfold GetMembersCount, size_limit, in_sub, MAX_GROUP_SIZE, MAX_RAID_SIZE in *.
  destruct (m_groupType g); lia.
Qed.

Lemma not_full_room g : slots_ok g -> IsFull g = false -> GetMembersCount g < size_limit g.
Proof. unfold IsFull, size_limit. intros _. destruct (m_groupType g); intros ?; bool_prop; lia. Qed.

Lemma add_slot_ok g slot :
  slots_ok g -> IsFull g = false -> ms_guid slot <> 0 -> IsMember g (ms_guid slot) = false ->
  subgroup_ok (ms_group slot) ->
  match m_subGroupsCounts g with
  | None => ms_group slot = 0
  | Some counts => counter counts (ms_group slot) < MAX_GROUP_SIZE
  end ->
  slots_ok (SubGroupCounterIncrease (ms_group slot)
              (set_m_memberSlots (m_memberSlots g ++ [slot]) g)).
Proof.
  intros Hok Hfull Hne Hnm Hk Hroom. pose proof (not_full_room g Hok Hfull) as Hlt.
  destruct Hok as (H1 & H2 & H3 & H4).
  assert (NoDup (ms_guid <$> (m_memberSlots g ++ [slot]))) as Hnd.
  { rewrite fmap_app. apply NoDup_app. split_and!; [done| |apply NoDup_singleton].
    intros x Hx Hin. apply list_elem_of_singleton in Hin as ->.
    apply IsMember_elem in Hx. congruence. }
  assert (Forall (fun s => ms_guid s <> 0 /\ subgroup_ok (ms_group s)) (m_memberSlots g ++ [slot])) as Hf.
  { apply Forall_app. split; [done|]. by constructor. }
  assert (Z.of_nat (length (m_memberSlots g ++ [slot])) <= size_limit g) as Hl.
  { unfold GetMembersCount in Hlt. rewrite length_app. simpl. lia. }
  unfold SubGroupCounterIncrease. simpl. destruct (m_subGroupsCounts g) as [counts|] eqn:Hc.
  - destruct H4 as (Ht & Hlen & Hcnt). split_and!; simpl; try done.
    split; [done|]. split; [by rewrite length_alter|]. intros k Hkk. destruct (Hcnt k Hkk) as [E Hcap].
    rewrite counter_alter, in_sub_app, in_sub_one, Z.eqb_sym by done.
    destruct (Z.eqb_spec (ms_group slot) k) as [<-|]; rewrite E in *; [|split; lia].
    unfold MAX_GROUP_SIZE in *. split; [rewrite u8_small by lia|]; lia.
  - split_and!; simpl; try done. rewrite Hc. destruct H4 as [? H4]. split; [done|].
    apply Forall_app. split; [done|]. by constructor.
Qed.

Lemma erase_slot_ok g guid slot :
  slots_ok g -> getMemberSlot g guid = Some slot ->
  slots_ok (set_m_memberSlots (erase_slot guid (m_memberSlots g))
              (SubGroupCounterDecrease (ms_group slot) g)).
Proof.
  intros Hok Hs. pose proof Hok as (H1 & H2 & H3 & H4). pose proof (erase_slot_sublist guid (m_memberSlots g)) as Hsub.
  destruct (getMemberSlot_spec _ _ _ Hs) as [_ Hin].
  assert (NoDup (ms_guid <$> erase_slot guid (m_memberSlots g))) as Hnd.
  { eapply sublist_NoDup; [exact H1|]. by apply fmap_sublist. }
  assert (forall Q : MemberSlot -> Prop, Forall Q (m_memberSlots g) -> Forall Q (erase_slot guid (m_memberSlots g))) as HF.
  { intros Q HQ. rewrite Forall_forall in *. intros x Hx. apply HQ. eapply elem_of_sublist; [exact Hx|done]. }
  pose proof (erase_slot_length _ _ _ Hs) as Hlen. unfold GetMembersCount in H3.
  assert (subgroup_ok (ms_group slot)) as Hk by (rewrite Forall_forall in H2; by apply H2).
  unfold SubGroupCounterDecrease. destruct (m_subGroupsCounts g) as [counts|] eqn:Hc.
  - destruct H4 as (Ht & Hcl & Hcnt).
    split_and!; simpl; try done; [by apply HF|unfold GetMembersCount; simpl; unfold size_limit in *; simpl; lia|].
    split; [done|]. split; [by rewrite length_alter|]. intros k Hkk. destruct (Hcnt k Hkk) as [E Hcap].
    rewrite counter_alter, Z.eqb_sym by done. unfold in_sub in *.
    pose proof (erase_slot_count (fun s => ms_group s =? k) _ _ _ Hs) as Hcount. cbv beta in Hcount.
    destruct (Z.eqb_spec (ms_group slot) k); rewrite E; [|split; lia].
    unfold MAX_GROUP_SIZE in *. split; [rewrite u8_small by lia|]; lia.
  - split_and!; simpl; try done; [by apply HF|unfold GetMembersCount, size_limit in *; simpl; lia|].
    rewrite Hc. destruct H4. split; [done|by apply HF].
Qed.

(** Moving a member to another subgroup with a free place. *)
Lemma move_slot_ok g guid slot k :
  slots_ok g -> getMemberSlot g guid = Some slot -> isRaidGroup g = true -> subgroup_ok k ->
  k <> ms_group slot -> overflows g k = false ->
  slots_ok (SubGroupCounterDecrease (ms_group slot) (snd (_setMembersGroup guid k g))).
Proof.
  intros Hok Hs Hr Hk Hne Hroom. pose proof Hok as (H1 & H2 & H3 & H4).
  destruct (getMemberSlot_spec _ _ _ Hs) as [_ Hin].
  assert (subgroup_ok (ms_group slot)) as Hk' by (rewrite Forall_forall in H2; by apply H2).
  unfold isRaidGroup in Hr. apply bool_decide_eq_true in Hr.
  destruct (m_subGroupsCounts g) as [counts|] eqn:Hc; [|by destruct H4; congruence].
  destruct H4 as (Ht & Hcl & Hcnt).
  unfold _setMembersGroup, SubGroupCounterIncrease, SubGroupCounterDecrease. rewrite Hs. simpl.
  rewrite Hc. simpl. split_and!; simpl.
  - by rewrite upd_slot_guids.
  - apply upd_slot_Forall; [|done]. intros s [? ?]. by split.
  - unfold GetMembersCount, size_limit in *. simpl. by rewrite upd_slot_length.
  - split; [done|]. split; [by rewrite !length_alter|]. intros i Hi. destruct (Hcnt i Hi) as [E Hcap].
    unfold overflows in Hroom. rewrite Hc in Hroom. apply Z.leb_gt in Hroom.
    assert (i = k -> Z.of_nat (in_sub i (m_memberSlots g)) < MAX_GROUP_SIZE) as Hlt
      by (intros ->; by rewrite <- E).
    rewrite !counter_alter by (rewrite ?length_alter; done).
    pose proof (upd_slot_count (fun s => ms_group s =? i) guid (set_slot_group k) _ _ Hs) as Hcount.
    unfold in_sub in *. simpl in Hcount. rewrite E. unfold MAX_GROUP_SIZE in *.
    destruct (Z.eqb_spec i (ms_group slot)), (Z.eqb_spec i k), (Z.eqb_spec (ms_group slot) i),
      (Z.eqb_spec k i); try lia; rewrite ?u8_small by lia; split; lia.
Qed.

Lemma swap_slots_ok g guid swapGuid slot swapSlot :
  slots_ok g -> getMemberSlot g guid = Some slot -> getMemberSlot g swapGuid = Some swapSlot ->
  guid <> swapGuid -> slots_ok (snd (_swapMembersGroup guid swapGuid g)).
Proof.
  intros Hok Hs Hs' Hne. pose proof Hok as (H1 & H2 & H3 & H4).
  destruct (getMemberSlot_spec _ _ _ Hs) as [_ Hin]. destruct (getMemberSlot_spec _ _ _ Hs') as [_ Hin'].
  assert (subgroup_ok (ms_group slot) /\ subgroup_ok (ms_group swapSlot)) as [Hk Hk'].
  { rewrite Forall_forall in H2. split; by apply H2. }
  unfold _swapMembersGroup. rewrite Hs, Hs'. simpl.
  set (l1 := upd_slot swapGuid (set_slot_group (ms_group slot)) (m_memberSlots g)).
  assert (find_slot guid l1 = Some slot) as Hs1 by (unfold l1; rewrite find_upd_slot_ne; done).
  split_and!; simpl.
  - unfold l1. by rewrite !upd_slot_guids.
  - do 2 (apply upd_slot_Forall; [intros s [? ?]; by split|]). done.
  - unfold GetMembersCount, size_limit, l1 in *. simpl. by rewrite !upd_slot_length.
  - destruct (m_subGroupsCounts g) as [counts|] eqn:Hc.
    + destruct H4 as (Ht & Hcl & Hcnt). split; [done|]. split; [done|]. intros i Hi.
      destruct (Hcnt i Hi) as [E Hcap].
      assert (in_sub i (upd_slot guid (set_slot_group (ms_group swapSlot)) l1) =
              in_sub i (m_memberSlots g)) as Heq.
      { pose proof (upd_slot_count (fun s => ms_group s =? i) guid
          (set_slot_group (ms_group swapSlot)) l1 _ Hs1) as C1.
        pose proof (upd_slot_count (fun s => ms_group s =? i) swapGuid
          (set_slot_group (ms_group slot)) _ _ Hs') as C2. fold l1 in C2. unfold in_sub. simpl in *. lia. }
      by rewrite Heq.
    + destruct H4 as [Ht Hz]. split; [done|]. rewrite Forall_forall in Hz.
      rewrite (Hz _ Hin') in *. unfold l1. rewrite (Hz _ Hin).
      do 2 (apply upd_slot_Forall; [done|]). by rewrite Forall_forall.
Qed.

Lemma set_assistant_ok g guid state : slots_ok g -> slots_ok (snd (_setAssistantFlag guid state g)).
Proof.
  intros (H1 & H2 & H3 & H4). unfold _setAssistantFlag.
  destruct (getMemberSlot g guid) as [slot|] eqn:Hs; [|done]. simpl.
  split_and!; simpl.
  - by rewrite upd_slot_guids.
  - by apply upd_slot_Forall.
  - unfold GetMembersCount, size_limit in *. simpl. by rewrite upd_slot_length.
  - destruct (m_subGroupsCounts g) as [counts|] eqn:Hc.
    + destruct H4 as (Ht & Hcl & Hcnt). split; [done|]. split; [done|]. intros i Hi.
      destruct (Hcnt i Hi) as [E Hcap].
      assert (in_sub i (upd_slot guid (set_slot_assistant state) (m_memberSlots g)) =
              in_sub i (m_memberSlots g)) as ->; [|done].
      pose proof (upd_slot_count (fun s => ms_group s =? i) guid (set_slot_assistant state) _ _ Hs) as C.
      unfold in_sub. simpl in C. lia.
    + destruct H4. split; [done|]. by apply upd_slot_Forall.
Qed.

Lemma convert_ok g : slots_ok g ->
  slots_ok (_initRaidSubGroupsCounter (set_m_groupType GROUPTYPE_RAID g)).
Proof.
  intros Hok. pose proof Hok as (H1 & H2 & H3 & H4). 
  assert (Z.of_nat (length (m_memberSlots g)) <= 40) as Hlen.
  { unfold GetMembersCount, size_limit, MAX_GROUP_SIZE, MAX_RAID_SIZE in H3. destruct (m_groupType g); lia. }
  destruct (init_counts (m_memberSlots g) (replicate (Z.to_nat MAX_RAID_SUBGROUPS) 0) [])
    as [Hl Hcnt].
  { eapply Forall_impl; [exact H2|]. by intros s [_ ?]. }
  { simpl. lia. } { done. }
  { intros k Hk. unfold counter. rewrite nth_lookup.
    by destruct (_ !! _) as [x|] eqn:Ex; [apply lookup_replicate in Ex as [-> _]|]. }
  split_and!; simpl; try done.
  split; [done|]. split; [done|]. intros k Hk. split; [by apply Hcnt|].
  destruct (m_subGroupsCounts g) as [counts|].
  - destruct H4 as (_ & _ & Hc). by apply Hc.
  - destruct H4 as [Ht _]. unfold size_limit, GetMembersCount in H3. rewrite Ht in H3.
    pose proof (count_le (fun s => ms_group s =? k) (m_memberSlots g)). unfold in_sub, MAX_GROUP_SIZE in *. lia.
Qed.
