(* ===== verification/PartyInv.v ===== *)
(** The party invariant through every operation, and the interface that the
    dungeon finder relies on, implemented by the operations of [Party.v]. *)

From S2P Require Import Prelude CString World Party PartySlots.

Definition party_ok (w : World) : Prop := map_Forall (fun _ g => group_ok g) (w_groups w).
(** All groups but one. *)
Definition others_ok (gp : Z) (w : World) : Prop :=
  forall gp' g, gp' <> gp -> w_groups w !! gp' = Some g -> group_ok g.

Definition slots_at (w : World) (gp : Z) : option (list MemberSlot) := m_memberSlots <$> w_groups w !! gp.

Lemma party_others gp w : party_ok w -> others_ok gp w.
Proof. intros Hp gp' g _ Hg. by apply Hp in Hg. Qed.

Lemma others_party gp w :
  others_ok gp w -> (forall g, w_groups w !! gp = Some g -> group_ok g) -> party_ok w.
Proof.
  intros Ho Hg gp' g Hl. destruct (decide (gp' = gp)) as [->|]; [by apply Hg|by eapply Ho].
Qed.

Lemma upd_group_lookup gp f w gp' :
  w_groups (upd_group gp f w) !! gp' =
  if decide (gp' = gp) then f <$> w_groups w !! gp else w_groups w !! gp'.
Proof.
  simpl. case_decide; [subst; by rewrite lookup_alter_eq|by rewrite lookup_alter_ne].
Qed.

Lemma party_upd gp f w :
  (forall g, w_groups w !! gp = Some g -> group_ok g -> group_ok (f g)) ->
  party_ok w -> party_ok (upd_group gp f w).
Proof.
  intros Hf Hp gp' g. rewrite upd_group_lookup. case_decide as Hd; [subst|by intros ?%Hp].
  intros (g0 & Hg & ->)%fmap_Some. apply Hf; [done|]. by apply Hp in Hg.
Qed.

Lemma others_upd gp f w : others_ok gp w -> others_ok gp (upd_group gp f w).
Proof. intros Ho gp' g Hne. rewrite upd_group_lookup, decide_False by done. by apply Ho. Qed.

(** ** What keeps every group's slots, and what keeps the invariant with them *)
Record gentle (w w' : World) : Prop := {
  ge_slots : forall gp, slots_at w' gp = slots_at w gp;
  ge_party : party_ok w -> party_ok w';
  ge_others : forall gp, others_ok gp w -> others_ok gp w'
}.

Lemma gentle_refl w : gentle w w.
Proof. by split. Qed.

Lemma gentle_trans w1 w2 w3 : gentle w1 w2 -> gentle w2 w3 -> gentle w1 w3.
Proof. intros [A1 A2 A3] [B1 B2 B3]. split; [intros; by rewrite B1|auto|auto]. Qed.

Lemma gentle_groups w w' : w_groups w' = w_groups w -> gentle w w'.
Proof. intros E. split; unfold slots_at, party_ok, others_ok; by rewrite E. Qed.

Lemma gentle_upd gp f w :
  (forall g, m_memberSlots (f g) = m_memberSlots g) -> (forall g, group_ok g -> group_ok (f g)) ->
  gentle w (upd_group gp f w).
Proof.
  intros Hs Hok. split.
  - intros gp'. unfold slots_at. rewrite upd_group_lookup. case_decide; [subst|done].
    destruct (w_groups w !! gp); simpl; [by rewrite Hs|done].
  - apply party_upd. auto.
  - intros gp0 Ho gp' g Hne. rewrite upd_group_lookup. case_decide; [subst|by apply Ho].
    intros (g0 & Hg & ->)%fmap_Some. apply Hok. by eapply Ho.
Qed.

Lemma gentle_foldl {B} (body : World -> B -> World) l w :
  (forall w x, gentle w (body w x)) -> gentle w (foldl body w l).
Proof. intros Hb. apply foldl_rel; [apply gentle_refl|apply gentle_trans|auto]. Qed.

Lemma gentle_player guid f w : gentle w (upd_player guid f w).
Proof. by apply gentle_groups. Qed.

Lemma gentle_RemoveInvite gp guid w : gentle w (RemoveInvite gp guid w).
Proof.
  unfold RemoveInvite. destruct (w_groups w !! gp); [|apply gentle_refl].
  case_if; [|apply gentle_refl]. eapply gentle_trans; [|apply gentle_player]. by apply gentle_upd.
Qed.

Lemma gentle_RemoveAllInvites gp w : gentle w (RemoveAllInvites gp w).
Proof.
  unfold RemoveAllInvites. destruct (w_groups w !! gp); [|apply gentle_refl].
  eapply gentle_trans; [|by apply gentle_upd]. apply gentle_foldl. intros. apply gentle_player.
Qed.

Lemma gentle_AddInvite gp guid w : gentle w (snd (AddInvite gp guid w)).
Proof.
  unfold AddInvite. destruct (w_players w !! guid) as [p|]; [|apply gentle_refl].
  destruct (w_groups w !! gp) as [g|]; [|apply gentle_refl].
  destruct (p_groupInvite p); [apply gentle_refl|].
  match goal with |- gentle _ (snd (match ?e with _ => _ end)) => destruct e end; [apply gentle_refl|].
  simpl. eapply gentle_trans; [apply gentle_RemoveInvite|].
  eapply gentle_trans; [|apply gentle_player]. by apply gentle_upd.
Qed.

Lemma gentle_leaderFlag gp r w : gentle w (_updateLeaderFlag gp r w).
Proof. apply gentle_groups, _updateLeaderFlag_groups. Qed.

Lemma gentle_UpdateCrossfaction gp w : gentle w (UpdateCrossfaction gp w).
Proof.
  unfold UpdateCrossfaction. destruct (w_groups w !! gp); [by apply gentle_upd|apply gentle_refl].
Qed.

Lemma gentle_setLeader gp guid w : gentle w (_setLeader gp guid w).
Proof.
  unfold _setLeader. destruct (_ ≫= _) as [slot|] eqn:E; [|apply gentle_refl].
  apply bind_Some in E as (g & Hg & Hs).
  eapply gentle_trans; [|apply gentle_leaderFlag].
  eapply gentle_trans; [apply (gentle_leaderFlag gp true)|].
  set (w1 := _updateLeaderFlag gp true w).
  assert (w_groups w1 = w_groups w) as Hw1 by apply _updateLeaderFlag_groups.
  set (f := fun g => set_m_leaderLastOnline _ _).
  assert (group_ok g -> group_ok (f g)) as Hf.
  { intros [Hok _]. split; [exact Hok|]. right. unfold f. simpl.
    change (IsMember g (ms_guid slot) = true). apply getMemberSlot_spec in Hs as [_ Hin].
    apply IsMember_elem. by apply list_elem_of_fmap_2. }
  split.
  - intros gp'. unfold slots_at. rewrite upd_group_lookup. case_decide; [subst|done].
    by destruct (w_groups w1 !! gp).
  - apply party_upd. rewrite Hw1. intros g' Hg'. simplify_eq. exact Hf.
  - intros gp0 Ho gp' g' Hne. rewrite upd_group_lookup. case_decide; [subst|by apply Ho].
    rewrite Hw1, Hg. simpl. intros [= <-]. apply Hf. eapply Ho; [done|]. by rewrite Hw1.
Qed.

Lemma gentle_chooseLeader gp o w : gentle w (_chooseLeader gp o w).
Proof.
  unfold _chooseLeader, ChangeLeader. destruct (w_groups w !! gp); [|apply gentle_refl].
  case_if; [apply gentle_refl|]. simpl. case_if; [apply gentle_refl|].
  case_if; apply gentle_setLeader.
Qed.

Lemma gentle_UpdateOfflineLeader gp t d ld w : gentle w (UpdateOfflineLeader gp t d ld w).
Proof.
  unfold UpdateOfflineLeader. destruct (w_groups w !! gp) as [g|]; [|apply gentle_refl].
  case_if; [apply gentle_refl|]. destruct (GetPlayerW w _); [by apply gentle_upd|].
  case_if; [apply gentle_refl|apply gentle_chooseLeader].
Qed.

Lemma gentle_UpdatePlayerOnlineStatus gp guid o w : gentle w (UpdatePlayerOnlineStatus gp guid o w).
Proof.
  unfold UpdatePlayerOnlineStatus. destruct (w_groups w !! gp) as [g|]; [|apply gentle_refl].
  case_if; [apply gentle_refl|]. case_if; [apply gentle_refl|].
  case_if; [by apply gentle_upd|apply gentle_refl].
Qed.

(** ** Joining *)
Lemma first_free_spec counts : forall i k, first_free counts i = Some k ->
  i <= k < i + Z.of_nat (length counts) /\ nth (Z.to_nat (k - i)) counts 0 < MAX_GROUP_SIZE.
Proof.
  induction counts as [|n counts IH]; intros i k; simpl; [done|].
  destruct (Z.ltb_spec n MAX_GROUP_SIZE) as [Hn|Hn].
  - intros [= <-]. replace (i - i) with 0 by lia. simpl. lia.
  - intros H. apply IH in H as [Hr Hc]. split; [lia|].
    replace (Z.to_nat (k - i)) with (S (Z.to_nat (k - (i + 1)))) by lia. exact Hc.
Qed.

(** The world after a join: the new slot, everything else as gentle steps. *)
Lemma _addMember_to_spec gp guid name a k w g :
  w_groups w !! gp = Some g -> IsFull g = false -> guid <> 0 ->
  let slot := mkSlot guid name k a in
  let w1 := upd_group gp (fun g => SubGroupCounterIncrease k
              (set_m_memberSlots (m_memberSlots g ++ [slot]) g)) w in
  exists w', _addMember_to gp guid name a k w = (true, w') /\ gentle w1 w'.
Proof.
  intros Hg Hfull Hne slot w1. unfold _addMember_to. rewrite Hg, Hfull.
  rewrite (proj2 (Z.eqb_neq guid 0) Hne). fold w1. destruct (GetPlayerW w guid) as [p|].
  2: { exists w1. split; [done|apply gentle_refl]. }
  eexists. split; [reflexivity|]. eapply gentle_trans; [|apply gentle_player].
  eapply gentle_trans; [|apply gentle_player].
  destruct (p_groupInvite p); [apply gentle_RemoveInvite|apply gentle_refl].
Qed.

Lemma increase_slots k g : m_memberSlots (SubGroupCounterIncrease k g) = m_memberSlots g.
Proof. unfold SubGroupCounterIncrease. by destruct (m_subGroupsCounts g). Qed.
Lemma increase_leader k g : m_leaderGuid (SubGroupCounterIncrease k g) = m_leaderGuid g.
Proof. unfold SubGroupCounterIncrease. by destruct (m_subGroupsCounts g). Qed.
Lemma decrease_slots k g : m_memberSlots (SubGroupCounterDecrease k g) = m_memberSlots g.
Proof. unfold SubGroupCounterDecrease. by destruct (m_subGroupsCounts g). Qed.
Lemma decrease_leader k g : m_leaderGuid (SubGroupCounterDecrease k g) = m_leaderGuid g.
Proof. unfold SubGroupCounterDecrease. by destruct (m_subGroupsCounts g). Qed.

(** The subgroup [_addMember] picks. *)
Definition joins_at (g : Group) (k : Z) : Prop :=
  match m_subGroupsCounts g with
  | None => k = 0
  | Some counts => first_free counts 0 = Some k
  end.

Lemma joins_at_room g k : slots_ok g -> joins_at g k ->
  subgroup_ok k /\
  match m_subGroupsCounts g with
  | None => k = 0
  | Some counts => counter counts k < MAX_GROUP_SIZE
  end.
Proof.
  unfold joins_at, subgroup_ok. intros (_ & _ & _ & Hc).
  destruct (m_subGroupsCounts g) as [counts|]; [|by intros ->].
  destruct Hc as (_ & Hl & _). intros [Hr Hn]%first_free_spec. rewrite Hl in Hr.
  replace (k - 0) with k in Hn by lia. split; [unfold MAX_RAID_SUBGROUPS in *; lia|done].
Qed.

(** A successful join, from the outside. *)
Record joined (gp guid : Z) (w w' : World) : Prop := {
  jo_slots : exists l slot, slots_at w gp = Some l /\ ms_guid slot = guid /\ 
    slots_at w' gp = Some (l ++ [slot]);
  jo_other : forall gp', gp' <> gp -> slots_at w' gp' = slots_at w gp';
  jo_room : exists g, w_groups w !! gp = Some g /\ IsFull g = false /\ guid <> 0;
  jo_party : forall g, w_groups w !! gp = Some g -> slots_ok g -> IsMember g guid = false ->
    (leader_ok g /\ m_memberSlots g <> [] \/ m_leaderGuid g = guid) -> others_ok gp w -> party_ok w'
}.

Lemma joined_gentle gp guid w w1 w2 : joined gp guid w w1 -> gentle w1 w2 -> joined gp guid w w2.
Proof.
  intros [(l & slot & H1 & H2 & H3) Ho Hr Hp] [G1 G2 _]. split.
  - exists l, slot. by rewrite G1.
  - intros gp' Hne. rewrite G1. by apply Ho.
  - done.
  - intros. apply G2. eapply Hp; eauto.
Qed.

Lemma _addMember_joined gp guid name a w w' :
  _addMember gp guid name a w = (true, w') -> joined gp guid w w'.
Proof.
  unfold _addMember. destruct (w_groups w !! gp) as [g|] eqn:Hg; [|done]. intros Hadd.
  assert (exists k, joins_at g k /\ _addMember_to gp guid name a k w = (true, w')) as (k & Hk & Ha).
  { unfold joins_at. destruct (m_subGroupsCounts g) as [counts|]; [|by exists 0].
    destruct (first_free counts 0) as [k|] eqn:E; [by exists k|done]. }
  clear Hadd. assert (IsFull g = false /\ guid <> 0) as [Hfull Hne].
  { unfold _addMember_to in Ha. rewrite Hg in Ha. destruct (IsFull g); [done|].
    destruct (Z.eqb_spec guid 0); done. }
  destruct (_addMember_to_spec gp guid name a k w g Hg Hfull Hne) as (w2 & E & Hge).
  rewrite E in Ha. injection Ha as <-. eapply joined_gentle; [|exact Hge]. clear E Hge w2.
  split.
  - exists (m_memberSlots g), (mkSlot guid name k a). unfold slots_at.
    rewrite upd_group_lookup, decide_True, Hg by done. simpl. by rewrite increase_slots.
  - intros gp' Hne'. unfold slots_at. by rewrite upd_group_lookup, decide_False.
  - by exists g.
  - intros g' Hg' Hok Hnm Hlead Hoth. simplify_eq. apply (others_party gp); [by apply others_upd|].
    intros g2. rewrite upd_group_lookup, decide_True, Hg by done. simpl. intros [= <-].
    destruct (joins_at_room g k Hok Hk) as [Hsub Hroom]. split.
    + by apply (add_slot_ok g (mkSlot guid name k a)).
    + right. unfold IsMember, getMemberSlot. rewrite increase_slots, increase_leader. simpl.
      change (IsMember (set_m_memberSlots (m_memberSlots g ++ [mkSlot guid name k a]) g)
                (m_leaderGuid g) = true).
      apply IsMember_elem. simpl. rewrite fmap_app, elem_of_app.
      destruct Hlead as [[[Hnil|Hm] Hnn]| ->]; [done|left; by apply IsMember_elem|right; by left].
Qed.

Lemma AddMember_joined gp guid name w w' :
  AddMember gp guid name w = (true, w') -> joined gp guid w w'.
Proof.
  unfold AddMember. destruct (_addMember gp guid name false w) as [[] w1] eqn:E; [|done].
  apply _addMember_joined in E. simpl. intros [= <-].
  eapply joined_gentle; [exact E|]. 
  set (w2 := match w_groups w1 !! gp with Some _ => _ | None => _ end).
  assert (gentle w1 w2) as Hg2.
  { unfold w2. destruct (w_groups w1 !! gp); [|apply gentle_refl].
    case_if; [apply gentle_UpdateCrossfaction|apply gentle_refl]. }
  eapply gentle_trans; [exact Hg2|].
  destruct (GetPlayerW w2 guid); [by apply gentle_upd|apply gentle_refl].
Qed.

Lemma AddMember_refused gp guid name w w' : AddMember gp guid name w = (false, w') -> w' = w.
Proof.
  unfold AddMember, _addMember. destruct (w_groups w !! gp) as [g|] eqn:Hg; [|by intros [= <-]].
  assert (forall k, _addMember_to gp guid name false k w = (false, w) \/
    exists w2, _addMember_to gp guid name false k w = (true, w2)) as Hk.
  { intros k. unfold _addMember_to. rewrite Hg. destruct (IsFull g); [by left|].
    destruct (guid =? 0); [by left|]. right. destruct (GetPlayerW w guid); by eexists. }
  destruct (m_subGroupsCounts g) as [counts|].
  - destruct (first_free counts 0) as [k|]; [|by intros [= <-]].
    destruct (Hk k) as [->|[w2 ->]]; [by intros [= <-]|done].
  - destruct (Hk 0) as [->|[w2 ->]]; [by intros [= <-]|done].
Qed.

(** Joining keeps the invariant. *)
Lemma AddMember_party gp guid name w g :
  party_ok w -> w_groups w !! gp = Some g -> IsMember g guid = false -> m_memberSlots g <> [] ->
  party_ok (snd (AddMember gp guid name w)).
Proof.
  intros Hp Hg Hnm Hnn. destruct (AddMember gp guid name w) as [[] w'] eqn:E; simpl.
  - apply AddMember_joined in E as [_ _ _ Hj]. destruct (Hp _ _ Hg) as [Hs Hl].
    eapply Hj; [done..|by left|by apply party_others].
  - by apply AddMember_refused in E as ->.
Qed.

(** ** Creating *)
(** Creation starts from a group nobody is in: a new one, or one that has only
    invited players so far. *)
Lemma Create_new gp guid name w g0 :
  w_groups w !! gp = Some g0 -> m_memberSlots g0 = [] -> m_subGroupsCounts g0 = None ->
  (forall gp', gp' <> gp -> slots_at (snd (Create gp guid name w)) gp' = slots_at w gp') /\
  match Create gp guid name w with
  | (true, w') => (others_ok gp w -> party_ok w') /\
                  exists slot, slots_at w' gp = Some [slot] /\ ms_guid slot = guid
  | (false, w') => others_ok gp w -> others_ok gp w'
  end.
Proof.
  intros Hg Hempty Hcounts. unfold Create. rewrite Hg.
  match goal with |- context [let '(_, _) := ?e in _] => destruct e as [g1 w1] eqn:E1 end.
  assert (slots_ok g1 /\ m_memberSlots g1 = [] /\ m_leaderGuid g1 = guid /\ w_groups w1 = w_groups w)
    as (Hok & Hnil & Hlead & Hw1).
  { unfold slots_ok, GetMembersCount, size_limit. destruct g0. simpl in Hempty, Hcounts. subst.
    destruct m_bgGroup; cbn in E1; injection E1 as <- <-; cbn; (split; [|done]).
    - split_and!; try done; [apply NoDup_nil_2|]. split; [done|]. intros k Hk.
      unfold subgroup_ok, MAX_RAID_SUBGROUPS in Hk. unfold in_sub, MAX_GROUP_SIZE. rewrite count_nil. 
      split; [|lia]. assert (k = 0 \/ k = 1 \/ k = 2 \/ k = 3 \/ k = 4 \/ k = 5 \/ k = 6 \/ k = 7) as Hc by lia.
      by destruct_or! Hc; subst.
    - split_and!; try done; apply NoDup_nil_2. }
  set (w2 := upd_group gp (fun _ => g1) w1).
  assert (w_groups w2 !! gp = Some g1) as Hg2.
  { unfold w2. rewrite upd_group_lookup, decide_True, Hw1, Hg by done. done. }
  assert (forall gp', gp' <> gp -> w_groups w2 !! gp' = w_groups w !! gp') as Hoth.
  { intros gp' Hne. unfold w2. by rewrite upd_group_lookup, decide_False, Hw1. }
  destruct (AddMember gp guid name w2) as [[] w3] eqn:Ea.
  - apply AddMember_joined in Ea as [(l & slot & J1 & J2 & J3) J4 J5 J6].
    destruct (gentle_leaderFlag gp false w3) as [G1 G2 _]. split_and!.
    + intros gp' Hne. simpl. rewrite G1, J4 by done. unfold slots_at. by rewrite Hoth.
    + intros Ho. apply G2. apply (J6 g1); [done|done| |by right|].
      * unfold IsMember, getMemberSlot. by rewrite Hnil.
      * intros gp' g Hne. rewrite Hoth by done. by apply Ho.
    + exists slot. rewrite G1, J3. unfold slots_at in J1. rewrite Hg2 in J1. simpl in J1.
      rewrite Hnil in J1. by injection J1 as <-.
  - apply AddMember_refused in Ea as ->. split.
    + intros gp' Hne. unfold slots_at. simpl. by rewrite Hoth.
    + intros Ho gp' g Hne. rewrite Hoth by done. by apply Ho.
Qed.

(** ** Deleting *)
Lemma delete_group_slots gp w gp' :
  slots_at (delete_group gp w) gp' = if decide (gp' = gp) then None else slots_at w gp'.
Proof.
  unfold delete_group. destruct (gentle_RemoveAllInvites gp w) as [G1 _ _].
  unfold slots_at at 1. simpl. case_decide; [subst; by rewrite lookup_delete_eq|].
  rewrite lookup_delete_ne by done. apply (G1 gp').
Qed.

Lemma delete_group_party gp w : others_ok gp w -> party_ok (delete_group gp w).
Proof.
  intros Ho. destruct (gentle_RemoveAllInvites gp w) as [_ _ G3]. apply G3 in Ho.
  unfold delete_group. intros gp' g. simpl. intros [Hne Hg]%lookup_delete_Some. by eapply Ho.
Qed.

Lemma small_slots w :
  groups_small w <-> forall gp l, slots_at w gp = Some l -> Z.of_nat (length l) <= MAX_RAID_SIZE.
Proof.
  unfold groups_small, slots_at, GetMembersCount. split.
  - intros Hs gp l (g & Hg & ->)%fmap_Some. by apply Hs in Hg.
  - intros Hs gp g Hg. apply (Hs gp). by rewrite Hg.
Qed.

Lemma CreateNew_spec guid name w :
  (party_ok w -> party_ok (snd (CreateNew guid name w))) /\
  (forall gp w', CreateNew guid name w = (Some gp, w') -> member_of w' gp guid) /\
  (groups_small w -> groups_small (snd (CreateNew guid name w))).
Proof.
  unfold CreateNew, new_group. set (gp := fresh (dom (w_groups w))).
  set (w1 := set_w_groups (<[gp := Group_new false]> (w_groups w)) w).
  assert (w_groups w !! gp = None) as Hfresh by apply not_elem_of_dom, is_fresh.
  assert (w_groups w1 !! gp = Some (Group_new false)) as Hg by apply lookup_insert_eq.
  assert (forall gp', gp' <> gp -> w_groups w1 !! gp' = w_groups w !! gp') as Hw1
    by (intros; by apply lookup_insert_ne).
  assert (party_ok w -> others_ok gp w1) as Ho.
  { intros Hp gp' g Hne. rewrite Hw1 by done. by apply Hp. }
  pose proof (Create_new gp guid name w1 _ Hg eq_refl eq_refl) as [Hs Hc].
  assert (forall gp', gp' <> gp -> slots_at (snd (Create gp guid name w1)) gp' = slots_at w gp') as Hslots.
  { intros gp' Hne. rewrite Hs by done. unfold slots_at. by rewrite Hw1. }
  destruct (Create gp guid name w1) as [[] w2]; simpl in *.
  - destruct Hc as [Hp (slot & Hsl & <-)]. split_and!; [auto| |].
    + intros gp0 w' [= <- <-]. unfold slots_at in Hsl. apply fmap_Some in Hsl as (g & Hg2 & E).
      exists g. split; [done|]. apply IsMember_elem. rewrite <- E. by left.
    + intros Hsm. apply small_slots. intros gp' l Hl. destruct (decide (gp' = gp)) as [->|Hne].
      * rewrite Hsl in Hl. injection Hl as <-. done.
      * rewrite Hslots in Hl by done. by eapply small_slots.
  - split_and!; [|done|].
    + intros Hp. by apply delete_group_party, Hc, Ho.
    + intros Hsm. apply small_slots. intros gp' l. rewrite delete_group_slots. case_decide; [done|].
      rewrite Hslots by done. by apply small_slots.
Qed.

(** ** Leaving *)
Lemma scan_leader_in w gp g l : forall first,
  scan_leader w gp g l first = first \/ scan_leader w gp g l first ∈ ms_guid <$> l.
Proof.
  induction l as [|s l IH]; intros first; simpl; [by left|].
  destruct (negb (leader_candidate w gp g s)).
  { destruct (IH first); [by left|right; by right]. }
  case_if; [|right; by left]. destruct (first =? 0).
  - destruct (IH (ms_guid s)) as [->|]; [right; by left|right; by right].
  - destruct (IH first) as [->|]; [by left|right; by right].
Qed.

(** Choosing a leader for a group with enough members ends with a member
    leading it. *)
Lemma _chooseLeader_leads gp w g :
  w_groups w !! gp = Some g -> slots_ok g -> GetMembersMinCount g <= GetMembersCount g ->
  others_ok gp w -> party_ok (_chooseLeader gp false w).
Proof.
  intros Hg Hok Hmin Ho. unfold _chooseLeader. rewrite Hg.
  rewrite (proj2 (Z.ltb_ge _ _)) by done. simpl.
  set (c := if _ =? 0 then _ else _).
  assert (c ∈ ms_guid <$> m_memberSlots g) as Hc.
  { unfold c. destruct (scan_leader_in w gp g (m_memberSlots g) 0) as [->|Hin].
    - unfold GetMembersMinCount, GetMembersCount in Hmin.
      destruct (m_memberSlots g); [destruct (isBGGroup g); simpl in Hmin; lia|by left].
    - case_if; [|done]. apply Z.eqb_eq in Heqb. rewrite Heqb in Hin.
      destruct Hok as (_ & Hne & _). apply list_elem_of_fmap in Hin as (s & Hs & Hin).
      rewrite Forall_forall in Hne. by apply Hne in Hin as [? _]. }
  clearbody c. unfold _setLeader. rewrite Hg. simpl.
  apply IsMember_elem in Hc as Hm. apply IsMember_slot in Hm as [slot Hs]. rewrite Hs.
  set (w1 := _updateLeaderFlag gp true w).
  assert (w_groups w1 = w_groups w) as Hw1 by apply _updateLeaderFlag_groups.
  destruct (gentle_leaderFlag gp false (upd_group gp (fun g => set_m_leaderLastOnline (w_now w1)
    (set_m_leaderName (ms_name slot) (set_m_leaderGuid (ms_guid slot) g))) w1)) as [_ G _].
  apply G. apply (others_party gp).
  - apply others_upd. intros gp' g' Hne. rewrite Hw1. by apply Ho.
  - intros g'. rewrite upd_group_lookup, decide_True, Hw1, Hg by done. simpl. intros [= <-].
    split; [exact Hok|]. right. change (IsMember g (ms_guid slot) = true).
    apply getMemberSlot_spec in Hs as [-> _]. by apply IsMember_elem.
Qed.

Definition erased (guid : Z) (g : Group) : Group :=
  match getMemberSlot g guid with
  | Some slot => set_m_memberSlots (erase_slot guid (m_memberSlots g))
                   (SubGroupCounterDecrease (ms_group slot) g)
  | None => g
  end.

Lemma erased_fields guid g :
  m_leaderGuid (erased guid g) = m_leaderGuid g /\ isBGGroup (erased guid g) = isBGGroup g.
Proof.
  unfold erased. destruct (getMemberSlot g guid); [|done]. simpl. unfold isBGGroup. simpl.
  unfold SubGroupCounterDecrease. by destruct (m_subGroupsCounts g).
Qed.

Lemma erased_ok guid g : slots_ok g -> slots_ok (erased guid g).
Proof.
  intros Hok. unfold erased. destruct (getMemberSlot g guid) as [slot|] eqn:E; [|done].
  by apply erase_slot_ok.
Qed.

Lemma erased_length guid g :
  (length (m_memberSlots (erased guid g)) <= length (m_memberSlots g))%nat /\
  (length (m_memberSlots g) <= S (length (m_memberSlots (erased guid g))))%nat.
Proof.
  unfold erased. destruct (getMemberSlot g guid) as [slot|] eqn:E; [|lia]. simpl.
  apply erase_slot_length in E. lia.
Qed.

(** What [_removeMember] does before a new leader is looked for. *)
Lemma _removeMember_eq gp guid w g : w_groups w !! gp = Some g ->
  exists w1, w_groups w1 = <[gp := erased guid g]> (w_groups w) /\
    _removeMember gp guid w =
    if m_leaderGuid g =? guid then (true, _chooseLeader gp false (_updateLeaderFlag gp true w1))
    else (false, w1).
Proof.
  intros Hg. unfold _removeMember. rewrite Hg.
  set (w0 := match GetPlayerW w guid with Some _ => _ | None => _ end).
  assert (w_groups w0 = w_groups w) as Hw0 by (unfold w0; by destruct (GetPlayerW w guid)).
  eexists. split; [|reflexivity]. unfold erased. destruct (getMemberSlot g guid) as [slot|]; simpl.
  - rewrite Hw0. rewrite <- (insert_id (w_groups w) gp g) at 1 by done.
    by rewrite alter_insert_eq.
  - by rewrite Hw0, insert_id.
Qed.

Lemma _removeMember_party gp guid w g :
  party_ok w -> w_groups w !! gp = Some g -> GetMembersMinCount g < GetMembersCount g ->
  party_ok (snd (_removeMember gp guid w)).
Proof.
  intros Hp Hg Hmin. destruct (_removeMember_eq gp guid w g Hg) as (w1 & Hw1 & ->).
  destruct (Hp _ _ Hg) as [Hok Hlead]. destruct (erased_fields guid g) as [El Eb].
  pose proof (erased_length guid g) as [_ Hlen]. unfold GetMembersCount in Hmin.
  assert (others_ok gp w1) as Ho.
  { intros gp' g' Hne. rewrite Hw1, lookup_insert_ne by done. by intros ?%Hp. }
  destruct (Z.eqb_spec (m_leaderGuid g) guid) as [Heq|Hne]; simpl.
  - apply (_chooseLeader_leads gp _ (erased guid g)).
    + rewrite _updateLeaderFlag_groups, Hw1. apply lookup_insert_eq.
    + by apply erased_ok.
    + unfold GetMembersMinCount, GetMembersCount in *. rewrite Eb. destruct (isBGGroup g); lia.
    + intros gp' g' Hne. rewrite _updateLeaderFlag_groups. by apply Ho.
  - apply (others_party gp); [done|]. rewrite Hw1, lookup_insert_eq. intros g' [= <-].
    split; [by apply erased_ok|]. right. rewrite El. 
    destruct Hlead as [Hnil|Hm]; [rewrite Hnil in Hmin; simpl in Hmin;
      unfold GetMembersMinCount in Hmin; destruct (isBGGroup g); lia|].
    unfold erased. destruct (getMemberSlot g guid); [|done].
    apply IsMember_elem. simpl. apply IsMember_elem in Hm. apply erase_slot_guids; [apply Hok|done].
Qed.

(** Slots only ever shrink while somebody leaves. *)
Definition shrinks_slots (w w' : World) : Prop :=
  forall gp l', slots_at w' gp = Some l' ->
    exists l, slots_at w gp = Some l /\ (length l' <= length l)%nat.

Lemma shrinks_slots_trans w1 w2 w3 : shrinks_slots w1 w2 -> shrinks_slots w2 w3 -> shrinks_slots w1 w3.
Proof.
  intros A B gp l' H. apply B in H as (l2 & H2 & Hl). apply A in H2 as (l1 & H1 & Hl'). exists l1.
  split; [done|lia].
Qed.
Lemma gentle_shrinks w w' : gentle w w' -> shrinks_slots w w'.
Proof. intros [G _ _] gp l' Hl. exists l'. by rewrite <- G. Qed.

Lemma _removeMember_shrinks gp guid w : shrinks_slots w (snd (_removeMember gp guid w)).
Proof.
  destruct (w_groups w !! gp) as [g|] eqn:Hg.
  2: { unfold _removeMember. rewrite Hg. apply gentle_shrinks, gentle_refl. }
  destruct (_removeMember_eq gp guid w g Hg) as (w1 & Hw1 & ->).
  assert (shrinks_slots w w1) as H1.
  { intros gp' l'. unfold slots_at. rewrite Hw1. destruct (decide (gp' = gp)) as [->|].
    - rewrite lookup_insert_eq, Hg. simpl. intros [= <-]. eexists. split; [done|]. apply erased_length.
    - rewrite lookup_insert_ne by done. by exists l'. }
  case_if; simpl; [|done]. eapply shrinks_slots_trans; [exact H1|]. apply gentle_shrinks.
  eapply gentle_trans; [apply gentle_leaderFlag|apply gentle_chooseLeader].
Qed.

Lemma Disband_spec gp w g : w_groups w !! gp = Some g ->
  (others_ok gp w -> others_ok gp (Disband gp w)) /\
  (forall gp', slots_at (Disband gp w) gp' = if decide (gp' = gp) then Some [] else slots_at w gp').
Proof.
  intros Hg. unfold Disband. rewrite Hg.
  set (w0 := foldl _ w _).
  assert (gentle w w0) as H0.
  { apply gentle_foldl. intros w' s. unfold disband_member.
    destruct (GetPlayerW w' _); [apply gentle_player|apply gentle_refl]. }
  set (w1 := upd_group gp (set_m_memberSlots []) w0).
  assert (gentle w1 (_updateLeaderFlag gp true (RemoveAllInvites gp w1))) as H1.
  { eapply gentle_trans; [apply gentle_RemoveAllInvites|apply gentle_leaderFlag]. }
  split.
  - intros Ho. by apply others_upd, H1, others_upd, H0.
  - intros gp'. unfold slots_at at 1. rewrite upd_group_lookup.
    pose proof (ge_slots _ _ H1 gp') as E. pose proof (ge_slots _ _ H0 gp') as E0.
    unfold slots_at in E, E0. unfold w1 in E. rewrite upd_group_lookup in E.
    destruct (decide (gp' = gp)) as [->|Hd].
    + rewrite Hg in E0. apply fmap_Some in E0 as (g0 & Hg0 & _). rewrite Hg0 in E.
      apply fmap_Some in E as (g1 & Hg1 & E). fold w1 in Hg1. rewrite Hg1. simpl in *. by rewrite <- E.
    + fold w1 in E. rewrite E. exact E0.
Qed.

Lemma RemoveMember_party gp guid w g :
  party_ok w -> w_groups w !! gp = Some g ->
  others_ok gp (snd (RemoveMember gp guid w)) /\
  (GetMembersMinCount g < GetMembersCount g -> party_ok (snd (RemoveMember gp guid w))) /\
  (GetMembersCount g <= GetMembersMinCount g -> fst (RemoveMember gp guid w) = 0).
Proof.
  intros Hp Hg. unfold RemoveMember. rewrite Hg. simpl.
  destruct (Z.ltb_spec (GetMembersMinCount g) (GetMembersCount g)) as [Hlt|Hge].
  - destruct (gentle_UpdateCrossfaction gp (snd (_removeMember gp guid w))) as [_ G _].
    assert (party_ok (UpdateCrossfaction gp (snd (_removeMember gp guid w)))) as Hok.
    { apply G. by eapply _removeMember_party. }
    split_and!; [by apply party_others|done|lia].
  - destruct (Disband_spec gp w g Hg) as [Ho Hs]. split_and!; [by apply Ho, party_others|lia|].
    intros _. specialize (Hs gp). rewrite decide_True in Hs by done. unfold slots_at in Hs.
    destruct (w_groups (Disband gp w) !! gp) as [g'|]; [|done]. simpl in *.
    unfold GetMembersCount. by injection Hs as ->.
Qed.

Lemma RemoveMember_shrinks gp guid w : shrinks_slots w (snd (RemoveMember gp guid w)).
Proof.
  unfold RemoveMember. destruct (w_groups w !! gp) as [g|] eqn:Hg; [|apply gentle_shrinks, gentle_refl].
  simpl. case_if.
  - eapply shrinks_slots_trans; [apply _removeMember_shrinks|].
    apply gentle_shrinks, gentle_UpdateCrossfaction.
  - destruct (Disband_spec gp w g Hg) as [_ Hs]. intros gp' l'. rewrite Hs. case_decide.
    + intros [= <-]. subst. unfold slots_at. rewrite Hg. eexists. split; [done|]. simpl. lia.
    + by exists l'.
Qed.

Lemma RemoveFromGroup_party guid w : party_ok w -> party_ok (RemoveFromGroup guid w).
Proof.
  intros Hp. unfold RemoveFromGroup. destruct (_ ≫= _) as [gp|] eqn:E; [|done].
  apply bind_Some in E as (p & _ & E). apply bind_Some in E as (gp' & _ & E).
  apply bind_Some in E as (g & Hg & [= ->]). unfold RemoveFromGroup_of.
  destruct (RemoveMember_party gp guid w g Hp Hg) as (H1 & H2 & H3).
  destruct (RemoveMember gp guid w) as [n w1]; simpl in *. case_if; [by apply delete_group_party|].
  apply H2. destruct (Z.le_gt_cases (GetMembersCount g) (GetMembersMinCount g)) as [Hle|]; [|lia].
  apply H3 in Hle. subst. done.
Qed.

Lemma RemoveFromGroup_shrinks guid w : shrinks_slots w (RemoveFromGroup guid w).
Proof.
  unfold RemoveFromGroup, RemoveFromGroup_of.
  destruct (_ ≫= _) as [gp|]; [|apply gentle_shrinks, gentle_refl].
  pose proof (RemoveMember_shrinks gp guid w) as Hs. destruct (RemoveMember gp guid w) as [n w1]; simpl in *.
  case_if; [|done]. eapply shrinks_slots_trans; [exact Hs|]. intros gp' l'. rewrite delete_group_slots.
  case_decide; [done|]. by exists l'.
Qed.

(** ** The interface of the dungeon finder *)
Lemma joined_laws gp guid w w' : joined gp guid w w' ->
  member_of w' gp guid /\
  (forall gp0 g, member_of w gp0 g -> member_of w' gp0 g) /\ (groups_small w -> groups_small w').
Proof.
  intros [(l & slot & J1 & <- & J3) J4 (g & Hg & Hfull & _) _]. split_and!.
  - unfold slots_at in J3. apply fmap_Some in J3 as (g' & Hg' & E). exists g'. split; [done|].
    apply IsMember_elem. rewrite <- E, fmap_app. apply elem_of_app. right. by left.
  - intros gp0 m (g0 & Hg0 & Hm). apply IsMember_elem in Hm. destruct (decide (gp0 = gp)) as [->|Hne].
    + unfold slots_at in *. rewrite Hg0 in J1. injection J1 as <-.
      apply fmap_Some in J3 as (g' & Hg' & E). exists g'. split; [done|].
      apply IsMember_elem. rewrite <- E, fmap_app. apply elem_of_app. by left.
    + specialize (J4 gp0 Hne). unfold slots_at in J4. rewrite Hg0 in J4.
      apply fmap_Some in J4 as (g' & Hg' & E). exists g'. split; [done|]. apply IsMember_elem. by rewrite <- E.
  - intros Hsm. apply small_slots. intros gp' l' Hl. destruct (decide (gp' = gp)) as [->|Hne].
    + rewrite J3 in Hl. injection Hl as <-. unfold slots_at in J1. rewrite Hg in J1. injection J1 as <-.
      unfold IsFull, GetMembersCount, MAX_GROUP_SIZE, MAX_RAID_SIZE in *. rewrite length_app. simpl.
      destruct (m_groupType g); bool_prop; lia.
    + rewrite J4 in Hl by done. by eapply small_slots.
Qed.

#[export] Program Instance PartyService : GroupService | 100 := {
  gs_Create := CreateNew;
  gs_AddMember := AddMember;
  gs_RemoveFromGroup := RemoveFromGroup
}.
Next Obligation. exact CreateNew_frame. Qed.
Next Obligation. exact AddMember_frame. Qed.
Next Obligation. exact RemoveFromGroup_frame. Qed.
Next Obligation. intros guid name w gp w' E. by eapply CreateNew_spec. Qed.
Next Obligation. intros gp guid name w w' E. by apply AddMember_joined, joined_laws in E as (? & _). Qed.
Next Obligation.
  intros gp guid name w w' b g E Hm. destruct b.
  - apply AddMember_joined, joined_laws in E as (_ & Hk & _). by apply Hk.
  - by apply AddMember_refused in E as ->.
Qed.
Next Obligation. intros. by apply CreateNew_spec. Qed.
Next Obligation.
  intros gp guid name w Hs. destruct (AddMember gp guid name w) as [[] w'] eqn:E; simpl.
  - apply AddMember_joined, joined_laws in E as (_ & _ & Hk). by apply Hk.
  - by apply AddMember_refused in E as ->.
Qed.
Next Obligation.
  intros guid w Hs. apply small_slots. intros gp l' Hl.
  apply RemoveFromGroup_shrinks in Hl as (l & Hl & Hle). eapply small_slots in Hl; [|exact Hs]. lia.
Qed.
