(* ===== verification/PartyRaid.v ===== *)
(** Who is in a group after somebody joined or left; raids: subgroups, assistants,
    main tank and main assistant, target icons, and who becomes leader. *)

From S2P Require Import Prelude CString World Party PartySlots PartyInv.

(** ** A raid that is not full has a free subgroup *)
Lemma first_free_None counts : forall i,
  first_free counts i = None -> Forall (fun n => MAX_GROUP_SIZE <= n) counts.
Proof.
  induction counts as [|n counts IH]; intros i; simpl; [constructor|].
  destruct (Z.ltb_spec n MAX_GROUP_SIZE); [done|]. intros Hn. constructor; [done|by eapply IH].
Qed.

Lemma subgroups_cover slots :
  Forall (fun s => subgroup_ok (ms_group s)) slots ->
  (length slots = in_sub 0 slots + in_sub 1 slots + in_sub 2 slots + in_sub 3 slots +
    in_sub 4 slots + in_sub 5 slots + in_sub 6 slots + in_sub 7 slots)%nat.
Proof.
  unfold in_sub. induction 1 as [|s slots Hs _ IH]; [done|]. rewrite !count_cons. simpl. rewrite IH.
  unfold subgroup_ok, MAX_RAID_SUBGROUPS in Hs.
  assert (ms_group s = 0 \/ ms_group s = 1 \/ ms_group s = 2 \/ ms_group s = 3 \/ ms_group s = 4 \/
          ms_group s = 5 \/ ms_group s = 6 \/ ms_group s = 7) as Hc by lia.
  destruct_or! Hc; rewrite Hc; simpl; lia.
Qed.

Lemma not_full_has_subgroup g :
  slots_ok g -> IsFull g = false -> exists k, joins_at g k.
Proof.
  intros Hok Hfull. pose proof (not_full_room g Hok Hfull) as Hroom.
  destruct Hok as (_ & Hs & _ & Hc). unfold joins_at.
  destruct (m_subGroupsCounts g) as [counts|]; [|by exists 0].
  destruct (first_free counts 0) as [k|] eqn:E; [by exists k|exfalso].
  apply first_free_None in E. destruct Hc as (Ht & Hl & Hc).
  unfold size_limit in Hroom. rewrite Ht in Hroom.
  assert (forall k, subgroup_ok k -> 5 <= Z.of_nat (in_sub k (m_memberSlots g))) as Hge.
  { intros k Hk. destruct (Hc k Hk) as [<- _]. unfold subgroup_ok, MAX_RAID_SUBGROUPS in *.
    unfold counter. rewrite Forall_forall in E. apply E, nth_elem_of. rewrite Hl. lia. }
  assert (Forall (fun s => subgroup_ok (ms_group s)) (m_memberSlots g)) as Hs'
    by (eapply Forall_impl; [exact Hs|]; by intros s [_ ?]).
  apply subgroups_cover in Hs'. unfold GetMembersCount, MAX_RAID_SIZE in Hroom.
  unfold subgroup_ok, MAX_RAID_SUBGROUPS in Hge.
  pose proof (Hge 0). pose proof (Hge 1). pose proof (Hge 2). pose proof (Hge 3). pose proof (Hge 4).
  pose proof (Hge 5). pose proof (Hge 6). pose proof (Hge 7). lia.
Qed.

Lemma AddMember_accepts gp guid name w g :
  w_groups w !! gp = Some g -> slots_ok g -> IsFull g = false -> guid <> 0 ->
  fst (AddMember gp guid name w) = true.
Proof.
  intros Hg Hok Hfull Hne. destruct (not_full_has_subgroup g Hok Hfull) as [k Hk].
  destruct (_addMember_to_spec gp guid name false k w g Hg Hfull Hne) as (w1 & E & _).
  unfold AddMember, _addMember. rewrite Hg. unfold joins_at in Hk.
  destruct (m_subGroupsCounts g) as [counts|]; [rewrite Hk, E|subst; rewrite E]; done.
Qed.

(** ** Who is left when somebody leaves *)
Lemma _removeMember_slots gp guid w g gp' : w_groups w !! gp = Some g ->
  slots_at (snd (_removeMember gp guid w)) gp' =
  if decide (gp' = gp) then Some (m_memberSlots (erased guid g)) else slots_at w gp'.
Proof.
  intros Hg. destruct (_removeMember_eq gp guid w g Hg) as (w1 & Hw1 & ->).
  assert (slots_at w1 gp' = if decide (gp' = gp) then Some (m_memberSlots (erased guid g))
          else slots_at w gp') as E.
  { unfold slots_at. rewrite Hw1. case_decide; [subst; by rewrite lookup_insert_eq|].
    by rewrite lookup_insert_ne. }
  case_if; [|exact E]. simpl. rewrite <- E.
  etransitivity; [apply gentle_chooseLeader|apply gentle_leaderFlag].
Qed.

Lemma erased_slots guid g : IsMember g guid = true ->
  m_memberSlots (erased guid g) = erase_slot guid (m_memberSlots g) /\
  S (length (erase_slot guid (m_memberSlots g))) = length (m_memberSlots g).
Proof.
  intros [slot Hs]%IsMember_slot. unfold erased. rewrite Hs. split; [done|].
  symmetry. by eapply erase_slot_length.
Qed.

Lemma RemoveMember_slots gp guid w g gp' : w_groups w !! gp = Some g -> IsMember g guid = true ->
  fst (RemoveMember gp guid w) =
    (if GetMembersMinCount g <? GetMembersCount g then GetMembersCount g - 1 else 0) /\
  slots_at (snd (RemoveMember gp guid w)) gp' =
    if decide (gp' = gp)
    then Some (if GetMembersMinCount g <? GetMembersCount g
               then erase_slot guid (m_memberSlots g) else [])
    else slots_at w gp'.
Proof.
  intros Hg Hm. destruct (erased_slots guid g Hm) as [Es El].
  assert (forall x, slots_at (snd (RemoveMember gp guid w)) x =
    if decide (x = gp) then Some (if GetMembersMinCount g <? GetMembersCount g
       then erase_slot guid (m_memberSlots g) else []) else slots_at w x) as Hs.
  { intros x. unfold RemoveMember. rewrite Hg. simpl. case_if.
    - rewrite (ge_slots _ _ (gentle_UpdateCrossfaction gp _)), (_removeMember_slots gp guid w g x Hg).
      by rewrite Es.
    - by destruct (Disband_spec gp w g Hg) as [_ ->]. }
  split; [|apply Hs].
  assert (fst (RemoveMember gp guid w) =
    from_option (fun l => Z.of_nat (length l)) 0 (slots_at (snd (RemoveMember gp guid w)) gp)) as ->.
  { unfold RemoveMember. rewrite Hg. simpl. unfold slots_at.
    match goal with |- from_option _ _ ?o = _ => by destruct o end. }
  rewrite Hs, decide_True by done. unfold GetMembersCount. simpl. case_if; simpl; lia.
Qed.

Lemma RemoveFromGroup_of_slots guid w gp g gp' :
  w_groups w !! gp = Some g -> IsMember g guid = true ->
  slots_at (RemoveFromGroup_of gp guid w) gp' =
    if decide (gp' = gp)
    then if GetMembersCount g <=? 2 then None else Some (erase_slot guid (m_memberSlots g))
    else slots_at w gp'.
Proof.
  intros Hg Hm. unfold RemoveFromGroup_of. destruct (RemoveMember_slots gp guid w g gp' Hg Hm) as [E1 E2].
  destruct (RemoveMember gp guid w) as [n w1]. simpl in *. subst n.
  assert (1 <= GetMembersMinCount g <= 2) as Hmin by (unfold GetMembersMinCount; case_if; lia).
  destruct (Z.ltb_spec (GetMembersMinCount g) (GetMembersCount g)) as [Hlt|Hge].
  - destruct (Z.leb_spec (GetMembersCount g - 1) 1) as [Hle|Hgt].
    + rewrite delete_group_slots. case_decide; [|done]. by rewrite (proj2 (Z.leb_le _ _)) by lia.
    + rewrite E2. case_decide; [|done]. by rewrite (proj2 (Z.leb_gt _ _)) by lia.
  - simpl. rewrite delete_group_slots. case_decide; [|done].
    by rewrite (proj2 (Z.leb_le _ _)) by lia.
Qed.

Lemma RemoveFromGroup_eq guid w p gp g :
  w_players w !! guid = Some p -> p_group p = Some gp -> w_groups w !! gp = Some g ->
  RemoveFromGroup guid w = RemoveFromGroup_of gp guid w.
Proof. intros Hp Hpg Hg. unfold RemoveFromGroup. rewrite Hp. simpl. rewrite Hpg. simpl. by rewrite Hg. Qed.

Lemma RemoveFromGroup_slots guid w p gp g gp' :
  w_players w !! guid = Some p -> p_group p = Some gp -> w_groups w !! gp = Some g ->
  IsMember g guid = true ->
  slots_at (RemoveFromGroup guid w) gp' =
    if decide (gp' = gp)
    then if GetMembersCount g <=? 2 then None else Some (erase_slot guid (m_memberSlots g))
    else slots_at w gp'.
Proof. intros Hp Hpg Hg Hm. erewrite RemoveFromGroup_eq by done. by apply RemoveFromGroup_of_slots. Qed.

(** Raids: subgroups, assistants, main tank and main assistant, target icons,
    and who becomes leader. *)

(** ** Conversion, assistants, subgroups *)
Lemma ConvertToRaid_party gp w : party_ok w -> party_ok (ConvertToRaid gp w).
Proof. apply party_upd. intros g _ [Hok Hl]. split; [by apply convert_ok|exact Hl]. Qed.

Lemma IsMember_guids g g' guid :
  ms_guid <$> m_memberSlots g' = ms_guid <$> m_memberSlots g -> IsMember g guid = true ->
  IsMember g' guid = true.
Proof. intros E Hm. apply IsMember_elem. rewrite E. by apply IsMember_elem. Qed.

Lemma leader_ok_guids g g' :
  ms_guid <$> m_memberSlots g' = ms_guid <$> m_memberSlots g -> m_leaderGuid g' = m_leaderGuid g ->
  leader_ok g -> leader_ok g'.
Proof.
  intros E El [Hnil|Hm]; [left|right; rewrite El; by eapply IsMember_guids].
  rewrite Hnil in E. by destruct (m_memberSlots g').
Qed.

Lemma SetAssistant_party gp guid state w : party_ok w -> party_ok (SetAssistant gp guid state w).
Proof.
  apply party_upd. intros g _ [Hok Hl]. case_if; [|done]. split; [by apply set_assistant_ok|].
  unfold _setAssistantFlag. destruct (getMemberSlot g guid); [|done]. simpl.
  apply (leader_ok_guids g); [|done|exact Hl]. simpl. by apply upd_slot_guids.
Qed.

Lemma SetMainTank_party gp guid w : party_ok w -> party_ok (SetMainTank gp guid w).
Proof.
  apply party_upd. intros g _ Hok. case_if; [|done]. unfold _setMainTank.
  repeat (case_if; [exact Hok|]). all: repeat case_if; exact Hok.
Qed.
Lemma SetMainAssistant_party gp guid w : party_ok w -> party_ok (SetMainAssistant gp guid w).
Proof.
  apply party_upd. intros g _ Hok. case_if; [|done]. unfold _setMainAssistant.
  repeat (case_if; [exact Hok|]). all: repeat case_if; exact Hok.
Qed.

(** An online member's reference into the group knows the subgroup of the slot. *)
Definition ref_agrees (w : World) (gp guid : Z) : Prop :=
  forall g p, w_groups w !! gp = Some g -> GetPlayerW w guid = Some p -> IsMember g guid = true ->
    p_group p = Some gp \/ p_originalSubGroup p = GetMemberGroup g guid.

Lemma setMembersGroup_leader guid k g :
  leader_ok g -> forall j, leader_ok (SubGroupCounterDecrease j (snd (_setMembersGroup guid k g))).
Proof.
  intros Hl j. unfold _setMembersGroup. apply (leader_ok_guids g); [| |exact Hl];
    rewrite ?decrease_slots, ?decrease_leader; destruct (getMemberSlot g guid); simpl;
    rewrite ?increase_slots, ?increase_leader; simpl; try done.
  by apply upd_slot_guids.
Qed.

Lemma move_group_ok guid k g :
  group_ok g -> isRaidGroup g = true -> subgroup_ok k -> overflows g k = false ->
  GetMemberGroup g guid <> k -> IsMember g guid = true ->
  group_ok (SubGroupCounterDecrease (GetMemberGroup g guid) (snd (_setMembersGroup guid k g))).
Proof.
  intros [Hok Hl] Hr Hk Ho Hne Hm. split; [|by apply setMembersGroup_leader].
  apply IsMember_slot in Hm as [slot Hs]. unfold GetMemberGroup in *. rewrite Hs in *.
  by apply move_slot_ok.
Qed.

Lemma ChangeMembersGroup_online_party gp guid k w :
  party_ok w -> 0 <= k -> ref_agrees w gp guid -> is_Some (GetPlayerW w guid) ->
  party_ok (ChangeMembersGroup_online gp guid k w).
Proof.
  intros Hp Hk Href [p0 Hon]. unfold ChangeMembersGroup_online.
  destruct (w_groups w !! gp) as [g|] eqn:Hg; [|done].
  destruct (w_players w !! guid) as [p|] eqn:Hpl; [|done].
  assert (p0 = p) as -> by (apply GetPlayerW_Some in Hon as (_ & ? & _); congruence).
  case_if; [done|]. simpl. case_if; [done|]. case_if; [done|]. bool_prop.
  assert (IsMember g guid = true) as Hm.
  { unfold IsMember, GetMemberGroup in *. destruct (getMemberSlot g guid); [done|].
    unfold MAX_RAID_SUBGROUPS in *. lia. }
  set (prev := if bool_decide (p_group p = Some gp) then _ else _).
  assert (prev = GetMemberGroup g guid) as ->.
  { unfold prev. case_bool_decide; [done|]. by destruct (Href g p Hg Hon Hm). }
  apply party_upd; [|exact Hp]. intros g' Hg' Hok. simpl in Hg'. simplify_eq.
  by apply move_group_ok.
Qed.

Lemma ChangeMembersGroup_party gp guid k w :
  party_ok w -> 0 <= k -> ref_agrees w gp guid -> party_ok (ChangeMembersGroup gp guid k w).
Proof.
  intros Hp Hk Href. unfold ChangeMembersGroup. destruct (w_groups w !! gp) as [g|] eqn:Hg; [|done].
  case_if; [done|]. case_if; [done|].
  destruct (GetPlayerW w guid) eqn:Hon; [apply ChangeMembersGroup_online_party; [done..|by rewrite Hon]|].
  simpl. case_if; [done|].
  bool_prop. apply party_upd; [|exact Hp]. intros g' Hg' Hok. simplify_eq.
  destruct (_setMembersGroup guid k g) as [b g1] eqn:E.
  assert (g1 = snd (_setMembersGroup guid k g)) as -> by by rewrite E.
  destruct b.
  - apply move_group_ok; try done.
    unfold _setMembersGroup, IsMember in *. by destruct (getMemberSlot g guid).
  - unfold _setMembersGroup in *. by destruct (getMemberSlot g guid).
Qed.

Lemma SwapMembersGroup_party gp guid swapGuid w :
  party_ok w -> party_ok (SwapMembersGroup gp guid swapGuid w).
Proof.
  intros Hp. unfold SwapMembersGroup. destruct (w_groups w !! gp) as [g|] eqn:Hg; [|done].
  case_if; [done|]. simpl. case_if; [done|].
  destruct (_swapMembersGroup guid swapGuid g) as [[] g'] eqn:E; [|done].
  assert (party_ok (upd_group gp (fun _ => g') w)) as Hok.
  { apply party_upd; [|exact Hp]. intros g0 Hg0 [Hs Hl]. simplify_eq.
    assert (g' = snd (_swapMembersGroup guid swapGuid g)) as -> by by rewrite E.
    bool_prop. unfold GetMemberGroup, _swapMembersGroup in *.
    destruct (getMemberSlot g guid) as [slot|] eqn:Hs1; [|done].
    destruct (getMemberSlot g swapGuid) as [slot'|] eqn:Hs2; [|done]. split.
    - pose proof (swap_slots_ok g guid swapGuid slot slot' Hs Hs1 Hs2) as Hok.
      unfold _swapMembersGroup in Hok. rewrite Hs1, Hs2 in Hok. apply Hok. intros <-. congruence.
    - apply (leader_ok_guids g); [|done|exact Hl]. simpl. by rewrite !upd_slot_guids. }
  destruct (GetPlayerW w guid), (GetPlayerW w swapGuid); exact Hok.
Qed.

(** ** Main tank and main assistant are different players *)
Definition tanks_ok (g : Group) : Prop :=
  m_mainTankGuid g = 0 \/ m_mainTankGuid g <> m_mainAssistantGuid g.

Lemma setMainTank_ok guid g : tanks_ok g -> tanks_ok (snd (_setMainTank guid g)).
Proof.
  unfold tanks_ok, _setMainTank. intros Hok. case_if; [done|]. case_if.
  - case_if; [done|]. bool_prop. case_if; simpl; [by right|]. bool_prop. right. congruence.
  - bool_prop. by left.
Qed.
Lemma setMainAssistant_ok guid g : tanks_ok g -> tanks_ok (snd (_setMainAssistant guid g)).
Proof.
  unfold tanks_ok, _setMainAssistant. intros Hok. case_if; [done|]. case_if.
  - case_if; [done|]. bool_prop. case_if; simpl; [by left|]. bool_prop. by right.
  - bool_prop. simpl. subst. destruct (decide (m_mainTankGuid g = 0)); [by left|by right].
Qed.

(** ** Target icons *)
(** Eight icons, and nobody carries two of them. *)
Definition icons_ok (icons : list Z) : Prop :=
  length icons = TARGET_ICON_COUNT /\
  forall i j x, x <> 0 -> icons !! i = Some x -> icons !! j = Some x -> i = j.

Lemma SetTargetIcon_ok id target g :
  0 <= id -> icons_ok (m_targetIcons g) -> icons_ok (m_targetIcons (SetTargetIcon id target g)).
Proof.
  intros Hid [Hlen Hinj]. unfold SetTargetIcon. case_if; [done|]. bool_prop. simpl.
  set (cleaned := if target =? 0 then _ else _).
  assert (length cleaned = TARGET_ICON_COUNT) as Hl.
  { unfold cleaned. case_if; [done|by rewrite length_fmap]. }
  assert (forall i x, x <> 0 -> cleaned !! i = Some x -> m_targetIcons g !! i = Some x /\ x <> target) as Hc.
  { intros i x Hx. unfold cleaned. case_if; bool_prop; [by intros; subst|].
    rewrite list_lookup_fmap. intros (y & Hy & E)%fmap_Some. case_if; [done|]. bool_prop. by subst. }
  split; [by rewrite length_insert|]. intros i j x Hx.
  rewrite !list_lookup_insert_Some. 
  intros [(<- & Ex & _)|[Hni Hi]] [(<- & Ey & _)|[Hnj Hj]]; [done| | |].
  - destruct (Hc _ _ Hx Hj). congruence.
  - destruct (Hc _ _ Hx Hi). congruence.
  - apply Hc in Hi as [Hi _]; [|done]. apply Hc in Hj as [Hj _]; [|done]. by eapply Hinj.
Qed.

Lemma icon_index_Some target icons i :
  icon_index target icons = Some i -> icons !! i = Some target.
Proof.
  revert i. induction icons as [|x icons IH]; intros i; simpl; [done|].
  destruct (Z.eqb_spec x target) as [->|]; [by intros [= <-]|].
  intros (j & Hj & ->)%fmap_Some. simpl. by apply IH.
Qed.
Lemma icon_index_None target icons : icon_index target icons = None -> target ∉ icons.
Proof.
  induction icons as [|x icons IH]; simpl; [intros _; apply not_elem_of_nil|].
  destruct (Z.eqb_spec x target) as [->|Hne]; [done|]. intros Hn%fmap_None.
  rewrite elem_of_cons. intros [->|Hin]; [done|by apply IH].
Qed.

(** After clearing, the target carries no icon. *)
Lemma ClearTargetIcon_gone target g :
  target <> 0 -> icons_ok (m_targetIcons g) -> target ∉ m_targetIcons (ClearTargetIcon target g).
Proof.
  intros Ht [Hlen Hinj]. unfold ClearTargetIcon.
  destruct (icon_index target (m_targetIcons g)) as [i|] eqn:Hi; [|by apply icon_index_None].
  apply icon_index_Some in Hi. pose proof (lookup_lt_Some _ _ _ Hi) as Hlt.
  unfold SetTargetIcon. case_if; [bool_prop; lia|]. simpl. rewrite Nat2Z.id.
  intros [j Hj]%list_elem_of_lookup. rewrite list_lookup_insert_Some in Hj.
  destruct Hj as [(_ & E & _)|[Hne Hj]]; [congruence|]. apply Hne. by eapply Hinj.
Qed.

(** ** Who becomes leader *)
(** An online member other than the old leader; in a raid, an assistant. *)
Definition preferred (w : World) (gp : Z) (g : Group) (slot : MemberSlot) : bool :=
  leader_candidate w gp g slot && (negb (isRaidGroup g) || ms_assistant slot).

Lemma scan_leader_spec w gp g l : forall first,
  match List.find (preferred w gp g) l with
  | Some slot => scan_leader w gp g l first = ms_guid slot
  | None => scan_leader w gp g l first =
      if first =? 0
      then match List.find (fun s => leader_candidate w gp g s && negb (ms_guid s =? 0)) l with
           | Some slot => ms_guid slot
           | None => 0
           end
      else first
  end.
Proof.
  unfold preferred. induction l as [|s l IH]; intros first; simpl.
  { by destruct (Z.eqb_spec first 0). }
  destruct (leader_candidate w gp g s); simpl; [|apply IH].
  destruct (isRaidGroup g), (ms_assistant s); simpl; try done.
  specialize (IH (if first =? 0 then ms_guid s else first)).
  destruct (List.find _ l); [done|]. rewrite IH. destruct (first =? 0) eqn:E; [|by rewrite E].
  by destruct (ms_guid s =? 0).
Qed.
