(* ===== verification/PartyHandlers.v ===== *)
(** The party opcodes of a session (src/game/Handlers/GroupHandler.cpp) and
    what logging in and out does to a party (WorldSession::LogoutPlayer,
    Player::_LoadGroup).  A handler returns the [SendPartyResult] it answers
    with, if any, and the world afterwards. *)

From S2P Require Import Prelude CString World Party.

(** [PartyOperation] and [PartyResult] (src/game/WorldSession.h). *)
Inductive PartyOperation := PARTY_OP_INVITE | PARTY_OP_LEAVE.
Inductive PartyResult :=
  | ERR_PARTY_RESULT_OK
  | ERR_BAD_PLAYER_NAME_S
  | ERR_TARGET_NOT_IN_GROUP_S
  | ERR_GROUP_FULL
  | ERR_ALREADY_IN_GROUP_S
  | ERR_NOT_IN_GROUP
  | ERR_NOT_LEADER
  | ERR_PLAYER_WRONG_FACTION
  | ERR_IGNORING_YOU_S
  | ERR_INTERNAL_BATTLEGROUND.
#[export] Instance PartyResult_eq_dec : EqDecision PartyResult.
Proof. solve_decision. Defined.

Record PartyReply := mkReply {
  re_operation : PartyOperation;
  re_member : string;
  re_result : PartyResult
}.

Definition SendPartyResult (op : PartyOperation) (member : string) (res : PartyResult) (w : World)
    : option PartyReply * World := (Some (mkReply op member res), w).
Definition silent (w : World) : option PartyReply * World := (None, w).

(** ** What the handlers read from other parts of the server

    Where a player is (map and instance id), the social lists, the cached
    hardcore status and level of an offline character, the name index of the
    character cache (0 is the empty guid), and the veto hooks of the modules. *)
Class PartyEnv := {
  GetMapId : Z -> Z;
  GetInstanceId : Z -> Z;
  HasIgnore : Z -> Z -> bool;
  cached_hardcore : Z -> option (Z * Z);
  GetPlayerGuidByName : string -> Z;
  Script_CanInvitePlayer : option Z -> Z -> Z -> bool;
  Script_CanMemberAccept : Z -> Z -> bool;
  Script_IsMachineDriven : Z -> bool
}.

Definition HARDCORE_MODE_STATUS_ALIVE := 1.
Definition HARDCORE_MODE_STATUS_DEAD := 3.
Definition HARDCORE_MODE_STATUS_HC60 := 4.

Section handlers.
Context {names : NameEnv} {penv : PartyEnv}.

(** One member in [Group::HandleHardcoreInteraction]. *)
Definition member_accepts (w : World) (invitee : Player) (slot : MemberSlot) : bool :=
  match GetPlayerW w (ms_guid slot) with
  | Some member => HardcoreAllowed member invitee
  | None =>
      let '(hardcoreStatus, level) := default (0, 0) (cached_hardcore (ms_guid slot)) in
      let memberIsHardcore := (hardcoreStatus =? HARDCORE_MODE_STATUS_ALIVE) ||
        (hardcoreStatus =? HARDCORE_MODE_STATUS_DEAD) || (hardcoreStatus =? HARDCORE_MODE_STATUS_HC60) in
      if memberIsHardcore
      then if negb (p_hardcore invitee) then false
           else negb (5 <? Z.abs (i32 (p_level invitee - level)))
      else negb (p_hardcore invitee)
  end.
Definition Group_HandleHardcoreInteraction (w : World) (g : Group) (invitee : Player) : bool :=
  forallb (member_accepts w invitee) (m_memberSlots g).

(** The player's own group, whatever battleground raid he is in. *)
Definition own_group (w : World) (p : Player) : option Z :=
  match p_group p with
  | Some gp => if from_option isBGGroup false (w_groups w !! gp) then p_originalGroup p else Some gp
  | None => None
  end.

Definition other_instance (guid target : Z) : bool :=
  (1 <? GetMapId guid) && negb (GetInstanceId guid =? 0) && negb (GetInstanceId target =? 0) &&
  negb (GetInstanceId guid =? GetInstanceId target) && (GetMapId guid =? GetMapId target).

(** The end of the invite handler: enter the invitation, in a new group when
    the player has none, and report. *)
Definition invite_into (guid target : Z) (membername : string) (group : option Z) (w : World)
    : option PartyReply * World :=
  match group with
  | None =>
      let '(gp, w) := new_group false w in
      match AddLeaderInvite gp guid w with
      | (false, w) => silent (delete_group gp w)
      | (true, w) =>
          match AddInvite gp target w with
          | (false, w) => silent (delete_group gp w)
          | (true, w) => SendPartyResult PARTY_OP_INVITE membername ERR_PARTY_RESULT_OK w
          end
      end
  | Some gp =>
      match AddInvite gp target w with
      | (false, w) => silent w
      | (true, w) => SendPartyResult PARTY_OP_INVITE membername ERR_PARTY_RESULT_OK w
      end
  end.

(** What an existing group has to say about an invitation. *)
Definition group_refuses (w : World) (guid : Z) (player : Player) (membername : string)
    (group : option Z) : option (string * PartyResult) :=
  match gp ← group; w_groups w !! gp with
  | None => None
  | Some g =>
      if negb (IsLeader g guid) && negb (IsAssistant g guid) then Some ("", ERR_NOT_LEADER)
      else if IsFull g then Some ("", ERR_GROUP_FULL)
      else if negb (Group_HandleHardcoreInteraction w g player)
      then Some (membername, ERR_BAD_PLAYER_NAME_S)
      else None
  end.

Definition HandleGroupInviteOpcode (guid : Z) (membername : string) (w : World)
    : option PartyReply * World :=
  match w_players w !! guid with
  | None => silent w
  | Some self =>
      match normalizePlayerName membername with
      | None => SendPartyResult PARTY_OP_INVITE membername ERR_BAD_PLAYER_NAME_S w
      | Some membername =>
          match FindPlayerByName w membername with
          | None => SendPartyResult PARTY_OP_INVITE membername ERR_BAD_PLAYER_NAME_S w
          | Some (target, player) =>
              if negb (HardcoreAllowed self player)
              then SendPartyResult PARTY_OP_INVITE membername ERR_BAD_PLAYER_NAME_S w
              else if negb (w_twoSideGroup w) && negb (p_team self =? p_team player)
              then SendPartyResult PARTY_OP_INVITE membername ERR_PLAYER_WRONG_FACTION w
              else if other_instance guid target then silent w
              else if HasIgnore target guid
              then SendPartyResult PARTY_OP_INVITE membername ERR_IGNORING_YOU_S w
              else
                let group := own_group w self in
                let group2 := own_group w player in
                if bool_decide (is_Some group2) || bool_decide (is_Some (p_groupInvite player))
                then SendPartyResult PARTY_OP_INVITE membername ERR_ALREADY_IN_GROUP_S w
                else match group_refuses w guid player membername group with
                | Some (name, res) => SendPartyResult PARTY_OP_INVITE name res w
                | None =>
                    if negb (Script_CanInvitePlayer group guid target) then silent w
                    else invite_into guid target membername group w
                end
          end
      end
  end.

Definition HandleGroupAcceptOpcode (guid : Z) (w : World) : option PartyReply * World :=
  match p ← w_players w !! guid; gp ← p_groupInvite p; g ← w_groups w !! gp; Some (p, gp, g) with
  | None => silent w
  | Some (p, gp, g) =>
      if m_leaderGuid g =? guid then silent w
      else if negb (Script_CanMemberAccept gp guid) then silent w
      else
        let w := RemoveInvite gp guid w in
        if IsFull g then SendPartyResult PARTY_OP_INVITE "" ERR_GROUP_FULL w
        else if negb (Group_HandleHardcoreInteraction w g p) then silent w
        else if GetMembersCount g =? 0 then
          let w := match GetPlayerW w (m_leaderGuid g) with
                   | Some _ => RemoveInvite gp (m_leaderGuid g) w
                   | None => w
                   end in
          match Create gp (m_leaderGuid g) (m_leaderName g) w with
          | (true, w) => silent (snd (AddMember gp guid (p_name p) w))
          | (false, w) => silent w
          end
        else silent (snd (AddMember gp guid (p_name p) w))
  end.

Definition HandleGroupDeclineOpcode (guid : Z) (w : World) : option PartyReply * World :=
  match p ← w_players w !! guid; p_groupInvite p with
  | None => silent w
  | Some _ => silent (UninviteFromGroup guid w)
  end.

(** [Player::CanUninviteFromGroup]. *)
Definition CanUninviteFromGroup (w : World) (guid : Z) (p : Player) (uninvitedGuid : Z) : PartyResult :=
  match GetGroup w p with
  | None => ERR_NOT_IN_GROUP
  | Some grp =>
      if m_leaderGuid grp =? uninvitedGuid then ERR_NOT_LEADER
      else if negb (IsLeader grp guid) && negb (IsAssistant grp guid) then ERR_NOT_LEADER
      else if p_inBattleGround p then ERR_INTERNAL_BATTLEGROUND
      else ERR_PARTY_RESULT_OK
  end.

Definition HandleGroupUninviteGuidOpcode (guid target : Z) (w : World) : option PartyReply * World :=
  match w_players w !! guid with
  | None => silent w
  | Some p =>
      if target =? guid then silent w
      else match CanUninviteFromGroup w guid p target with
      | ERR_PARTY_RESULT_OK =>
          match gp ← p_group p; g ← w_groups w !! gp; Some (gp, g) with
          | None => silent w
          | Some (gp, g) =>
              if IsMember g target then silent (RemoveFromGroup_of gp target w)
              else if bool_decide (target ∈ m_invitees g) then silent (UninviteFromGroup target w)
              else SendPartyResult PARTY_OP_LEAVE "" ERR_TARGET_NOT_IN_GROUP_S w
          end
      | res => SendPartyResult PARTY_OP_LEAVE "" res w
      end
  end.

(** [GetMemberGuid(name)] (0 when there is none) and [GetInvited(name)]. *)
Definition GetMemberGuid (g : Group) (name : string) : Z :=
  match List.find (fun slot => ms_name slot =s name) (m_memberSlots g) with
  | Some slot => ms_guid slot
  | None => 0
  end.
Definition GetInvited_name (w : World) (g : Group) (name : string) : option Z :=
  List.find (fun guid => match w_players w !! guid with
                         | Some p => p_name p =s name
                         | None => false
                         end) (selems (m_invitees g)).

Definition HandleGroupUninviteOpcode (guid : Z) (membername : string) (w : World)
    : option PartyReply * World :=
  match p ← w_players w !! guid; n ← normalizePlayerName membername; Some (p, n) with
  | None => silent w
  | Some (p, membername) =>
      if p_name p =s membername then silent w
      else match gp ← p_group p; g ← w_groups w !! gp; Some (gp, g) with
      | None => silent w
      | Some (gp, g) =>
          let target := GetMemberGuid g membername in
          if negb (target =? 0) then
            match CanUninviteFromGroup w guid p target with
            | ERR_PARTY_RESULT_OK => silent (RemoveFromGroup_of gp target w)
            | res => SendPartyResult PARTY_OP_LEAVE "" res w
            end
          else match GetInvited_name w g membername with
          | Some plr =>
              match CanUninviteFromGroup w guid p plr with
              | ERR_PARTY_RESULT_OK => silent (UninviteFromGroup plr w)
              | res => SendPartyResult PARTY_OP_LEAVE "" res w
              end
          | None => SendPartyResult PARTY_OP_LEAVE membername ERR_TARGET_NOT_IN_GROUP_S w
          end
      end
  end.

Definition HandleGroupSetLeaderOpcode (guid target : Z) (w : World) : option PartyReply * World :=
  match p ← w_players w !! guid; gp ← p_group p; g ← w_groups w !! gp; Some (gp, g) with
  | None => silent w
  | Some (gp, g) =>
      match GetPlayerW w target with
      | Some player =>
          if negb (IsLeader g guid) || negb (bool_decide (p_group player = Some gp)) then silent w
          else silent (ChangeLeader gp target w)
      | None => silent w
      end
  end.

(** The player leaves his group. *)
Definition HandleGroupDisbandOpcode (guid : Z) (w : World) : option PartyReply * World :=
  match p ← w_players w !! guid; _ ← GetGroup w p; Some p with
  | None => silent w
  | Some p =>
      if p_inBattleGround p then silent w
      else SendPartyResult PARTY_OP_LEAVE (p_name p) ERR_PARTY_RESULT_OK (RemoveFromGroup guid w)
  end.

(** [(LootMethod)lootMethod] of a value up to 4. *)
Definition LootMethod_of (lootMethod : Z) : LootMethod :=
  if lootMethod =? 0 then FREE_FOR_ALL
  else if lootMethod =? 1 then ROUND_ROBIN
  else if lootMethod =? 2 then MASTER_LOOT
  else if lootMethod =? 3 then GROUP_LOOT
  else NEED_BEFORE_GREED.

Definition HandleLootMethodOpcode (guid lootMethod lootMaster lootThreshold : Z) (w : World)
    : option PartyReply * World :=
  if 4 <? lootMethod then silent w
  else if (lootThreshold <? ITEM_QUALITY_NORMAL) || (ITEM_QUALITY_LEGENDARY <? lootThreshold) then silent w
  else match w_players w !! guid with
  | None => silent w
  | Some p =>
      let group := match p_group p with
                   | Some gp => if from_option isBGGroup false (w_groups w !! gp)
                                then p_originalGroup p else Some gp
                   | None => p_originalGroup p
                   end in
      match gp ← group; g ← w_groups w !! gp; Some (gp, g) with
      | None => silent w
      | Some (gp, g) =>
          if negb (IsLeader g guid) then silent w
          else silent (upd_group gp (fun g => set_m_lootThreshold lootThreshold (set_m_looterGuid lootMaster
                                                (set_m_lootMethod (LootMethod_of lootMethod) g))) w)
      end
  end.

Definition may_lead (g : Group) (guid : Z) : bool := IsLeader g guid || IsAssistant g guid.

(** [x = 0xFF] asks for the list of icons. *)
Definition HandleRaidTargetUpdateOpcode (guid x target : Z) (w : World) : option PartyReply * World :=
  match p ← w_players w !! guid;
        gp ← match p_group p with Some gp => Some gp | None => p_originalGroup p end;
        g ← w_groups w !! gp; Some (gp, g) with
  | None => silent w
  | Some (gp, g) =>
      if x =? 255 then silent w
      else if negb (may_lead g guid) then silent w
      else silent (upd_group gp (SetTargetIcon x target) w)
  end.

Definition HandleGroupRaidConvertOpcode (guid : Z) (w : World) : option PartyReply * World :=
  match p ← w_players w !! guid; gp ← p_group p; g ← w_groups w !! gp; Some (p, gp, g) with
  | None => silent w
  | Some (p, gp, g) =>
      if p_inBattleGround p then silent w
      else if negb (IsLeader g guid) || (GetMembersCount g <? GetMembersMinCount g) then silent w
      else SendPartyResult PARTY_OP_INVITE "" ERR_PARTY_RESULT_OK (ConvertToRaid gp w)
  end.

Definition HandleGroupChangeSubGroupOpcode (guid : Z) (name : string) (groupNr : Z) (w : World)
    : option PartyReply * World :=
  if MAX_RAID_SUBGROUPS <=? groupNr then silent w
  else match p ← w_players w !! guid; gp ← p_group p; g ← w_groups w !! gp; Some (gp, g) with
  | None => silent w
  | Some (gp, g) =>
      if negb (may_lead g guid) then silent w
      else if negb (HasFreeSlotSubGroup g groupNr) then silent w
      else match FindPlayerByName w name with
      | Some (player, _) => silent (ChangeMembersGroup_online gp player groupNr w)
      | None =>
          let target := GetPlayerGuidByName name in
          if target =? 0 then silent w else silent (ChangeMembersGroup gp target groupNr w)
      end
  end.

Definition HandleGroupSwapSubGroupOpcode (guid : Z) (name nameSwapWith : string) (w : World)
    : option PartyReply * World :=
  match p ← w_players w !! guid; gp ← p_group p; g ← w_groups w !! gp; Some (gp, g) with
  | None => silent w
  | Some (gp, g) =>
      if negb (may_lead g guid) then silent w
      else match FindPlayerByName w name, FindPlayerByName w nameSwapWith with
      | Some (player, _), Some (swapPlayer, _) => silent (SwapMembersGroup gp player swapPlayer w)
      | _, _ =>
          let swapGuid := GetPlayerGuidByName name in
          let swapWithGuid := GetPlayerGuidByName nameSwapWith in
          if (swapGuid =? 0) || (swapWithGuid =? 0) then silent w
          else silent (SwapMembersGroup gp swapGuid swapWithGuid w)
      end
  end.

Definition HandleGroupAssistantLeaderOpcode (guid target flag : Z) (w : World)
    : option PartyReply * World :=
  match p ← w_players w !! guid; gp ← p_group p; g ← w_groups w !! gp; Some (gp, g) with
  | None => silent w
  | Some (gp, g) =>
      if negb (IsLeader g guid) then silent w
      else silent (SetAssistant gp target (negb (flag =? 0)) w)
  end.

(** ** Logging in and out *)
(** [Player::_LoadGroup] for a player who enters the world; [group] is the
    group the database row names, as [GetGroupById] finds it. *)
Definition _LoadGroup (group : option Z) (guid : Z) (w : World) : World :=
  let w := match gp ← group; g ← w_groups w !! gp; Some (gp, g) with
           | Some (gp, g) => upd_player guid (SetGroup (Some (gp, GetMemberGroup g guid))) w
           | None => w
           end in
  UpdateGroupLeaderFlag false guid w.

(** The members whom a leaving player takes with him: everybody who is not
    online or is a bot. *)
Definition evicted (w : World) (g : Group) (guid : Z) : list Z :=
  filter (fun m => m <> guid /\ (GetPlayerW w m = None \/ Script_IsMachineDriven m = true))
    (ms_guid <$> m_memberSlots g).

Definition evict (guid : Z) (w : World) (member : Z) : World :=
  match p ← w_players w !! guid; gp ← p_group p; g ← w_groups w !! gp; Some gp with
  | Some gp => RemoveFromGroup_of gp member w
  | None => w
  end.

(** The group part of [WorldSession::LogoutPlayer]; [socket] tells a normal
    logout from a lost connection. *)
Definition LogoutGroup (guid : Z) (socket : bool) (w : World) : World :=
  let w := UninviteFromGroup guid w in
  let w := match p ← w_players w !! guid; GetGroup w p with
           | Some g =>
               if negb (isRaidGroup g) && socket
               then RemoveFromGroup guid (foldl (evict guid) w (evicted w g guid))
               else w
           | None => w
           end in
  match p ← w_players w !! guid; gp ← p_group p; g ← w_groups w !! gp; Some gp with
  | Some gp => UpdatePlayerOnlineStatus gp guid false w
  | None => w
  end.

(** The player object is deleted after that, its references with it. *)
Definition LogoutPlayer (guid : Z) (socket : bool) (w : World) : World :=
  let w := LogoutGroup guid socket w in
  set_w_players (delete guid (w_players w)) w.

End handlers.
