(* ===== verification/PartyRefs.v ===== *)
(** Who is where: the players' references to their groups and invitations
    against the groups' own lists.  [refs_ok] is the invariant the assertions
    of [Group::RemoveInvite] rest on; it only looks at the views [pref] and
    [gref], so operations that leave those alone keep it ([same_refs]). *)

From S2P Require Import Prelude CString World Party PartySlots PartyInv PartyRaid.

(** ** The views *)
Record PRef := mkPRef {
  r_inWorld : bool; r_group : option Z; r_original : option Z; r_invite : option Z }.
Record GRef := mkGRef { g_members : list Z; g_invited : gset Z; g_bg : bool }.

Definition player_ref (p : Player) : PRef :=
  mkPRef (p_inWorld p) (p_group p) (p_originalGroup p) (p_groupInvite p).
Definition group_ref (g : Group) : GRef :=
  mkGRef (ms_guid <$> m_memberSlots g) (m_invitees g) (m_bgGroup g).
Definition pref (w : World) (x : Z) : option PRef := player_ref <$> w_players w !! x.
Definition gref (w : World) (y : Z) : option GRef := group_ref <$> w_groups w !! y.

Definition same_refs (w w' : World) : Prop :=
  (forall x, pref w' x = pref w x) /\ (forall y, gref w' y = gref w y).

#[export] Instance same_refs_equivalence : Equivalence same_refs.
Proof.
  split; unfold same_refs.
  - done.
  - intros w w' [A B]. by split.
  - intros w1 w2 w3 [A B] [C D]. split; intros; [by rewrite C|by rewrite D].
Qed.

(** ** The invariant *)
Record refs_ok (w : World) : Prop := {
  rf_bg : forall y G, gref w y = Some G -> g_bg G = false;
  rf_zero : pref w 0 = None;
  rf_original : forall x p, pref w x = Some p -> r_original p = None;
  rf_live : forall x p y, pref w x = Some p -> r_group p = Some y -> is_Some (gref w y);
  rf_member : forall x p y G, pref w x = Some p -> r_inWorld p = true -> gref w y = Some G ->
    (r_group p = Some y <-> x ∈ g_members G);
  rf_once : forall x y1 y2 G1 G2, gref w y1 = Some G1 -> gref w y2 = Some G2 ->
    x ∈ g_members G1 -> x ∈ g_members G2 -> y1 = y2;
  rf_invite_live : forall x p y, pref w x = Some p -> r_invite p = Some y -> is_Some (gref w y);
  rf_invite : forall x p y G, pref w x = Some p -> gref w y = Some G ->
    (r_invite p = Some y <-> x ∈ g_invited G);
  rf_invited : forall x y G, gref w y = Some G -> x ∈ g_invited G ->
    exists p, pref w x = Some p /\ r_inWorld p = true /\ r_group p = None
}.

#[export] Instance refs_ok_proper : Proper (same_refs ==> iff) refs_ok.
Proof.
  assert (forall w w', same_refs w w' -> refs_ok w -> refs_ok w') as H.
  { intros w w' [A B] [? ? ? ? ? ? ? ? ?].
    split; intros *; rewrite ?A, ?B; eauto. }
  intros w w' Hs. split; apply H; [done|by symmetry].
Qed.

(** A group nobody is in yet has its founder among the invited players; [x]
    is an address that is exempt. *)
Definition pending (g : Group) : Prop :=
  m_memberSlots g = [] -> m_leaderGuid g ∈ m_invitees g /\ m_subGroupsCounts g = None.
Definition pending_but (x : option Z) (w : World) : Prop :=
  forall y g, Some y <> x -> w_groups w !! y = Some g -> pending g.

(** ** Lookups through updates *)
Lemma pref_upd_player f x w y :
  pref (upd_player x f w) y =
  if decide (y = x) then (fun p => player_ref (f p)) <$> w_players w !! x else pref w y.
Proof.
  unfold pref. simpl. case_decide; [subst|by rewrite lookup_alter_ne].
  rewrite lookup_alter_eq. by destruct (w_players w !! x).
Qed.
Lemma pref_upd_group f x w y : pref (upd_group x f w) y = pref w y.
Proof. done. Qed.
Lemma gref_upd_player f x w y : gref (upd_player x f w) y = gref w y.
Proof. done. Qed.
Lemma gref_upd_group f x w y :
  gref (upd_group x f w) y =
  if decide (y = x) then (fun g => group_ref (f g)) <$> w_groups w !! x else gref w y.
Proof.
  unfold gref. rewrite upd_group_lookup. case_decide; [|done]. by destruct (w_groups w !! x).
Qed.
Lemma pref_Some w x p : w_players w !! x = Some p -> pref w x = Some (player_ref p).
Proof. unfold pref. by intros ->. Qed.
Lemma gref_Some w y g : w_groups w !! y = Some g -> gref w y = Some (group_ref g).
Proof. unfold gref. by intros ->. Qed.
Lemma same_refs_player x f w :
  (forall p, player_ref (f p) = player_ref p) -> same_refs w (upd_player x f w).
Proof.
  intros Hf. split; [|done]. intros y. rewrite pref_upd_player. case_decide; [|done]. subst.
  unfold pref. destruct (w_players w !! x); simpl; [by rewrite Hf|done].
Qed.
Lemma same_refs_group y f w :
  (forall g, w_groups w !! y = Some g -> group_ref (f g) = group_ref g) -> same_refs w (upd_group y f w).
Proof.
  intros Hf. split; [done|]. intros z. rewrite gref_upd_group. case_decide; [|done]. subst.
  unfold gref. destruct (w_groups w !! y) as [g|] eqn:E; simpl; [by rewrite Hf|done].
Qed.
Lemma pending_groups x w w' : w_groups w' = w_groups w -> pending_but x w -> pending_but x w'.
Proof. unfold pending_but. by intros ->. Qed.
Lemma pending_upd x y f w :
  (forall g, w_groups w !! y = Some g -> pending g -> pending (f g)) ->
  pending_but x w -> pending_but x (upd_group y f w).
Proof.
  intros Hf Hp z g Hz. rewrite upd_group_lookup. case_decide; [subst|by apply Hp].
  intros (g0 & Hg & ->)%fmap_Some. apply Hf; [done|]. by apply (Hp y).
Qed.
Lemma pending_exempt y w : pending_but None w -> pending_but (Some y) w.
Proof. intros Hp z g _. by apply Hp. Qed.
Lemma pending_upd_exempt y f w : pending_but (Some y) w -> pending_but (Some y) (upd_group y f w).
Proof.
  intros Hp z g Hz. rewrite upd_group_lookup. case_decide; [congruence|by apply Hp].
Qed.

(** ** Operations that change no reference *)
Lemma same_refs_leaderFlag r x w : same_refs w (UpdateGroupLeaderFlag r x w).
Proof.
  unfold UpdateGroupLeaderFlag. repeat case_match; try reflexivity; by apply same_refs_player.
Qed.
Lemma same_refs_updateLeaderFlag y r w : same_refs w (_updateLeaderFlag y r w).
Proof. unfold _updateLeaderFlag. repeat case_match; try reflexivity; apply same_refs_leaderFlag. Qed.

(** What changes neither references nor the groups' founders. *)
Definition quiet_party (w w' : World) : Prop :=
  same_refs w w' /\ forall x, pending_but x w -> pending_but x w'.

#[export] Instance quiet_party_preorder : PreOrder quiet_party.
Proof.
  split; [by split|]. intros w1 w2 w3 [A B] [C D]. split; [by etransitivity|auto].
Qed.

Lemma quiet_player x f w : (forall p, player_ref (f p) = player_ref p) -> quiet_party w (upd_player x f w).
Proof. intros Hf. split; [by apply same_refs_player|intros z; by apply pending_groups]. Qed.
Lemma quiet_group y f w :
  (forall g, w_groups w !! y = Some g -> group_ref (f g) = group_ref g /\ (pending g -> pending (f g))) ->
  quiet_party w (upd_group y f w).
Proof.
  intros Hf. split; [apply same_refs_group; intros; by apply Hf|].
  intros z. apply pending_upd. intros g Hg. by apply Hf.
Qed.
Lemma quiet_updateLeaderFlag y r w : quiet_party w (_updateLeaderFlag y r w).
Proof.
  split; [apply same_refs_updateLeaderFlag|]. intros x. apply pending_groups, _updateLeaderFlag_groups.
Qed.

Lemma member_not_empty g x slot : getMemberSlot g x = Some slot -> m_memberSlots g <> [].
Proof. intros [_ Hin]%getMemberSlot_spec E. rewrite E in Hin. by apply not_elem_of_nil in Hin. Qed.

Lemma quiet_setLeader y x w : quiet_party w (_setLeader y x w).
Proof.
  unfold _setLeader. destruct (_ ≫= _) as [slot|] eqn:E; [|reflexivity].
  apply bind_Some in E as (g & Hg & Hs). apply member_not_empty in Hs.
  etransitivity; [apply (quiet_updateLeaderFlag y true)|].
  etransitivity; [|apply quiet_updateLeaderFlag].
  apply quiet_group. intros g'. rewrite _updateLeaderFlag_groups, Hg. intros [= <-].
  split; [done|]. intros _ Hnil. by destruct Hs.
Qed.
Lemma quiet_chooseLeader y o w : quiet_party w (_chooseLeader y o w).
Proof.
  unfold _chooseLeader, ChangeLeader. destruct (w_groups w !! y); [|reflexivity].
  case_if; [reflexivity|]. simpl. case_if; [reflexivity|]. case_if; apply quiet_setLeader.
Qed.
Lemma quiet_UpdateCrossfaction y w : quiet_party w (UpdateCrossfaction y w).
Proof.
  unfold UpdateCrossfaction. destruct (w_groups w !! y); [|reflexivity]. by apply quiet_group.
Qed.
Lemma quiet_UpdatePlayerOnlineStatus y x o w : quiet_party w (UpdatePlayerOnlineStatus y x o w).
Proof.
  unfold UpdatePlayerOnlineStatus. repeat case_match; try reflexivity. by apply quiet_group.
Qed.

(** ** One player and one group change *)
Record ref_update (x y : Z) (p p' : PRef) (G G' : GRef) : Prop := {
  ru_world : r_inWorld p' = r_inWorld p;
  ru_original : r_original p' = None;
  ru_bg : g_bg G' = false;
  ru_members : forall z, z <> x -> (z ∈ g_members G' <-> z ∈ g_members G);
  ru_others : forall z, z <> x -> (z ∈ g_invited G' <-> z ∈ g_invited G);
  ru_group : forall z, z <> y -> (r_group p' = Some z <-> r_group p = Some z);
  ru_invite : forall z, z <> y -> (r_invite p' = Some z <-> r_invite p = Some z);
  ru_member : r_inWorld p = true -> (r_group p' = Some y <-> x ∈ g_members G');
  ru_invited : r_invite p' = Some y <-> x ∈ g_invited G';
  ru_fresh : r_inWorld p = true \/ (x ∈ g_members G' -> x ∈ g_members G);
  ru_free : is_Some (r_invite p') -> r_inWorld p = true /\ r_group p' = None
}.

Lemma refs_update w w' x y p p' G G' :
  refs_ok w -> pref w x = Some p -> gref w y = Some G -> ref_update x y p p' G G' ->
  (forall z, pref w' z = if decide (z = x) then Some p' else pref w z) ->
  (forall z, gref w' z = if decide (z = y) then Some G' else gref w z) ->
  refs_ok w'.
Proof.
  intros Hok Hp HG [Uw Uo Ub Um Ui Ug Uv Uy Uvy Uf Ue] HP HQ.
  assert (x <> 0) as Hx by (intros ->; rewrite rf_zero in Hp by done; done).
  assert (forall z, is_Some (gref w z) -> is_Some (gref w' z)) as Hlive.
  { intros z Hz. rewrite HQ. by case_decide. }
  (* membership and invitation of the changed player elsewhere *)
  assert (forall z Gz, z <> y -> gref w z = Some Gz -> x ∈ g_invited Gz -> r_invite p' = Some z) as Hinv.
  { intros z Gz Hz Hgz Hin. apply Uv; [done|]. by eapply rf_invite. }
  split; intros *; rewrite ?HP, ?HQ.
  - case_decide; [by intros [= <-]|by apply rf_bg].
  - rewrite decide_False by done. by apply rf_zero.
  - case_decide; [by intros [= <-]|by apply rf_original].
  - case_decide as Hd; [intros [= <-]|].
    + intros Hg. rewrite <- HQ. destruct (decide (y0 = y)) as [->|Hn].
      * apply Hlive. by rewrite HG.
      * apply Hlive. eapply rf_live; [done|done|]. by apply Ug.
    + intros Hz Hg. rewrite <- HQ. apply Hlive. by eapply rf_live.
  - intros Hp0 Hw HG0. destruct (decide (x0 = x)) as [->|Hd1]; [injection Hp0 as <-|];
      (destruct (decide (y0 = y)) as [->|Hd2]; [injection HG0 as <-|]).
    + apply Uy. congruence.
    + rewrite Ug by done. eapply rf_member; try done. congruence.
    + rewrite Um by done. by eapply rf_member.
    + by eapply rf_member.
  - assert (forall z Gz, z <> y -> gref w z = Some Gz -> x ∈ g_members Gz -> x ∈ g_members G' -> False)
      as Hone.
    { intros z Gz Hz Hgz Hin Hin'. destruct Uf as [Hw|Hs].
      - assert (r_group p = Some z) as Hr by (by eapply rf_member).
        apply Ug in Hr; [|done]. apply Uy in Hin'; [|done]. congruence.
      - apply Hz. eapply rf_once; eauto. }
    intros H1 H2 Hin1 Hin2. destruct (decide (y1 = y)) as [->|Hd1]; [injection H1 as <-|];
      (destruct (decide (y2 = y)) as [->|Hd2]; [injection H2 as <-|]); try done;
      destruct (decide (x0 = x)) as [->|Hn]; try (by edestruct Hone);
      rewrite ?Um in Hin1 by done; rewrite ?Um in Hin2 by done; by eapply rf_once.
  - case_decide as Hd; [intros [= <-]|].
    + intros Hg. rewrite <- HQ. destruct (decide (y0 = y)) as [->|Hn].
      * apply Hlive. by rewrite HG.
      * apply Hlive. eapply rf_invite_live; [done|done|]. by apply Uv.
    + intros Hz Hg. rewrite <- HQ. apply Hlive. by eapply rf_invite_live.
  - intros Hp0 HG0. destruct (decide (x0 = x)) as [->|Hd1]; [injection Hp0 as <-|];
      (destruct (decide (y0 = y)) as [->|Hd2]; [injection HG0 as <-|]).
    + apply Uvy.
    + rewrite Uv by done. by eapply rf_invite.
    + rewrite Ui by done. by eapply rf_invite.
    + by eapply rf_invite.
  - intros HG0 Hin. assert (x0 = x -> r_invite p' = Some y0) as Hx0.
    { intros ->. destruct (decide (y0 = y)) as [->|Hn]; [injection HG0 as <-; by apply Uvy|by eapply Hinv]. }
    destruct (decide (x0 = x)) as [Hd2|Hd2].
    + exists p'. rewrite Uw. split_and!; [done|apply Ue; eexists; by apply Hx0..].
    + destruct (decide (y0 = y)) as [->|Hn]; [injection HG0 as <-; apply Ui in Hin; [|done]|];
        by eapply rf_invited.
Qed.

(** ** One group gives up members or invitations *)
Definition forgets (y : Z) (p p' : PRef) : Prop :=
  r_inWorld p' = r_inWorld p /\ r_original p' = r_original p /\
  (r_group p' = r_group p \/ r_group p = Some y /\ r_group p' = None) /\
  (r_invite p' = r_invite p \/ r_invite p = Some y /\ r_invite p' = None).

Record shrinks_refs (y : Z) (w w' : World) : Prop := {
  sr_players : forall z, option_Forall2 (forgets y) (pref w z) (pref w' z);
  sr_groups : forall z, z <> y -> gref w' z = gref w z;
  sr_group : forall G', gref w' y = Some G' -> exists G, gref w y = Some G /\ g_bg G' = g_bg G /\
    g_members G' ⊆ g_members G /\ g_invited G' ⊆ g_invited G;
  sr_member : forall z p' G', pref w' z = Some p' -> gref w' y = Some G' ->
    (r_inWorld p' = true -> r_group p' = Some y <-> z ∈ g_members G') /\
    (r_invite p' = Some y <-> z ∈ g_invited G');
  sr_gone : gref w' y = None -> forall z p', pref w' z = Some p' ->
    r_group p' <> Some y /\ r_invite p' <> Some y
}.

Lemma forgets_group y p p' z : forgets y p p' -> z <> y -> r_group p' = Some z <-> r_group p = Some z.
Proof. intros (_ & _ & [->|[-> ->]] & _) Hz; naive_solver. Qed.
Lemma forgets_invite y p p' z : forgets y p p' -> z <> y -> r_invite p' = Some z <-> r_invite p = Some z.
Proof. intros (_ & _ & _ & [->|[-> ->]]) Hz; naive_solver. Qed.

Lemma refs_shrink y w w' : refs_ok w -> shrinks_refs y w w' -> refs_ok w'.
Proof.
  intros Hok [SP SG Sy Sm Sd].
  assert (forall z p', pref w' z = Some p' -> exists p, pref w z = Some p /\ forgets y p p') as Hback.
  { intros z p' Hp'. specialize (SP z). rewrite Hp' in SP. inversion SP; subst. eauto. }
  assert (forall z p, pref w z = Some p -> exists p', pref w' z = Some p' /\ forgets y p p') as Hforth.
  { intros z p Hp. specialize (SP z). rewrite Hp in SP. inversion SP; subst. eauto. }
  assert (forall z G', gref w' z = Some G' -> exists G, gref w z = Some G /\ g_bg G' = g_bg G /\
    g_members G' ⊆ g_members G /\ g_invited G' ⊆ g_invited G) as HG.
  { intros z G' HG'. destruct (decide (z = y)) as [->|Hz]; [by apply Sy|].
    rewrite SG in HG' by done. by exists G'. }
  assert (forall z, z <> y -> is_Some (gref w z) -> is_Some (gref w' z)) as Hlive
    by (intros z Hz; by rewrite SG).
  split.
  - intros z G' HG'. apply HG in HG' as (G & HG1 & -> & _). by eapply rf_bg.
  - specialize (SP 0). rewrite rf_zero in SP by done. by inversion SP.
  - intros x p' (p & Hp & _ & -> & _)%Hback. by eapply rf_original.
  - intros x p' z Hp' Hr. destruct (decide (z = y)) as [->|Hz].
    + destruct (gref w' y) eqn:E; [done|]. by destruct (Sd eq_refl x p' Hp').
    + apply Hback in Hp' as (p & Hp & Hf). rewrite (forgets_group y p p') in Hr by done.
      apply Hlive; [done|]. by eapply rf_live.
  - intros x p' z G' Hp' Hw HG'. destruct (decide (z = y)) as [->|Hz]; [by eapply Sm|].
    apply Hback in Hp' as (p & Hp & Hf). rewrite SG in HG' by done.
    rewrite (forgets_group y p p') by done. eapply rf_member; try done. by destruct Hf as [<- _].
  - intros x y1 y2 G1 G2 H1 H2 Hin1 Hin2. apply HG in H1 as (G3 & H1 & _ & Hs1 & _).
    apply HG in H2 as (G4 & H2 & _ & Hs2 & _). eapply rf_once; eauto.
  - intros x p' z Hp' Hr. destruct (decide (z = y)) as [->|Hz].
    + destruct (gref w' y) eqn:E; [done|]. by destruct (Sd eq_refl x p' Hp').
    + apply Hback in Hp' as (p & Hp & Hf). rewrite (forgets_invite y p p') in Hr by done.
      apply Hlive; [done|]. by eapply rf_invite_live.
  - intros x p' z G' Hp' HG'. destruct (decide (z = y)) as [->|Hz]; [by eapply Sm|].
    apply Hback in Hp' as (p & Hp & Hf). rewrite SG in HG' by done.
    rewrite (forgets_invite y p p') by done. by eapply rf_invite.
  - intros x z G' HG' Hin. apply HG in HG' as (G & HG1 & _ & _ & Hs). apply Hs in Hin.
    eapply rf_invited in Hin as (p & Hp & Hw & Hg); [|done..].
    apply Hforth in Hp as (p' & Hp' & E & _ & Hf & _). exists p'. rewrite E. split_and!; [done..|].
    destruct Hf as [->|[_ ->]]; done.
Qed.

Lemma forgets_refl y p : forgets y p p.
Proof. unfold forgets. naive_solver. Qed.
Lemma forgets_trans y p1 p2 p3 : forgets y p1 p2 -> forgets y p2 p3 -> forgets y p1 p3.
Proof. unfold forgets. intuition (congruence || naive_solver). Qed.

Lemma shrinks_refs_refl y w : refs_ok w -> shrinks_refs y w w.
Proof.
  intros Hok. split.
  - intros z. destruct (pref w z); constructor. apply forgets_refl.
  - done.
  - intros G' HG. by exists G'.
  - intros z p' G' Hp HG. split; [intros Hw; by eapply rf_member|by eapply rf_invite].
  - intros Hn z p' Hp. split; intros Hr.
    + eapply rf_live in Hr; [|done..]. rewrite Hn in Hr. by destruct Hr.
    + eapply rf_invite_live in Hr; [|done..]. rewrite Hn in Hr. by destruct Hr.
Qed.

(** References to group [y] may go, others stay. *)
Definition forgetful (y : Z) (w w' : World) : Prop :=
  forall z, option_Forall2 (forgets y) (pref w z) (pref w' z).
#[export] Instance forgetful_preorder y : PreOrder (forgetful y).
Proof.
  split.
  - intros w z. destruct (pref w z); constructor. apply forgets_refl.
  - intros w1 w2 w3 A B z. specialize (A z). specialize (B z).
    inversion A as [p1 p2 H12 E1 E2|E1 E2]; inversion B as [q2 q3 H23 E3 E4|E3 E4];
      rewrite <- E2 in E3; simplify_eq; constructor. by eapply forgets_trans.
Qed.
Lemma same_refs_forgetful y w w' : same_refs w w' -> forgetful y w w'.
Proof. intros [A _] z. rewrite A. destruct (pref w z); constructor. apply forgets_refl. Qed.

(** ** Invitations *)
Definition uninvite (x : Z) (G : GRef) : GRef := mkGRef (g_members G) (g_invited G ∖ {[x]}) (g_bg G).
Definition no_invite (p : PRef) : PRef := mkPRef (r_inWorld p) (r_group p) (r_original p) None.

Lemma gref_RemoveInvite y x w z :
  gref (RemoveInvite y x w) z = if decide (z = y) then uninvite x <$> gref w y else gref w z.
Proof.
  unfold RemoveInvite. destruct (w_groups w !! y) as [g|] eqn:Hg.
  - case_bool_decide as Hin.
    + rewrite gref_upd_player, gref_upd_group. case_decide; [|done]. rewrite (gref_Some w y g), Hg by done.
      done.
    + case_decide; [subst|done]. rewrite (gref_Some w y g) by done. unfold uninvite, group_ref. simpl.
      do 2 f_equal. set_solver.
  - case_decide; [subst|done]. unfold gref. by rewrite Hg.
Qed.

(** An invited player's invitation is withdrawn, other references stay. *)
Lemma pref_RemoveInvite y x w z : refs_ok w ->
  pref (RemoveInvite y x w) z =
  if decide (z = x) then (fun p => if decide (r_invite p = Some y) then no_invite p else p) <$> pref w x
  else pref w z.
Proof.
  intros Hok. unfold RemoveInvite. destruct (w_groups w !! y) as [g|] eqn:Hg.
  - assert (forall p, pref w x = Some p -> r_invite p = Some y <-> x ∈ m_invitees g) as Hin.
    { intros p Hp. by apply (rf_invite w Hok x p y (group_ref g)), gref_Some. }
    case_bool_decide as Hx; rewrite ?pref_upd_player; (case_decide; [subst z|done]);
      unfold pref in *; simpl; destruct (w_players w !! x) as [p|]; try done; simpl.
    + rewrite decide_True; [done|]. by apply (Hin (player_ref p)).
    + rewrite decide_False; [done|]. intros Hr. apply Hx. by apply (Hin (player_ref p)).
  - case_decide; [subst z|done]. destruct (pref w x) as [p|] eqn:Hp; simpl; [|done].
    rewrite decide_False; [done|]. intros Hr. eapply rf_invite_live in Hr; [|done..].
    unfold gref in Hr. rewrite Hg in Hr. by destruct Hr.
Qed.

Lemma RemoveInvite_refs y x w : refs_ok w -> refs_ok (RemoveInvite y x w).
Proof.
  intros Hok. apply (refs_shrink y w); [done|]. split.
  - intros z. rewrite pref_RemoveInvite by done. case_decide; [subst|].
    + destruct (pref w x) as [p|]; simpl; [|constructor]. constructor. unfold forgets. case_decide; naive_solver.
    + destruct (pref w z) as [p|]; constructor. unfold forgets. naive_solver.
  - intros z Hz. by rewrite gref_RemoveInvite, decide_False.
  - intros G'. rewrite gref_RemoveInvite, decide_True by done.
    intros (G & HG & ->)%fmap_Some. exists G. split_and!; [done..|]. simpl. set_solver.
  - intros z p' G'. rewrite gref_RemoveInvite, decide_True, pref_RemoveInvite by done.
    intros Hp' (G & HG & ->)%fmap_Some. simpl. case_decide; [subst|].
    + apply fmap_Some in Hp' as (p & Hp & ->).
      pose proof (rf_member w Hok x p y G Hp) as Hm. pose proof (rf_invite w Hok x p y G Hp HG) as Hi.
      case_decide; simpl; (split; [by auto|]); set_solver.
    + pose proof (rf_member w Hok z p' y G Hp') as Hm. pose proof (rf_invite w Hok z p' y G Hp' HG) as Hi.
      split; [by auto|]. set_solver.
  - rewrite gref_RemoveInvite, decide_True by done. intros Hn%fmap_None z p'.
    rewrite pref_RemoveInvite by done. intros Hp'.
    assert (exists p, pref w z = Some p /\ r_group p' = r_group p /\
      (r_invite p' = r_invite p \/ r_invite p' = None)) as (p & Hp & -> & Hi).
    { case_decide; [subst|by eauto]. apply fmap_Some in Hp' as (p & Hp & ->). exists p.
      case_decide; simpl; auto. }
    split.
    + intros Hr. eapply rf_live in Hr; [|done..]. rewrite Hn in Hr. by destruct Hr.
    + destruct Hi as [->| ->]; [|done]. intros Hr. eapply rf_invite_live in Hr; [|done..].
      rewrite Hn in Hr. by destruct Hr.
Qed.

Lemma RemoveInvite_pending e y x w :
  pending_but e w ->
  (forall g, e <> Some y -> w_groups w !! y = Some g -> m_memberSlots g <> [] \/ m_leaderGuid g <> x) ->
  pending_but e (RemoveInvite y x w).
Proof.
  intros Hp Hx. unfold RemoveInvite. destruct (w_groups w !! y) as [g|] eqn:Hg; [|done].
  case_bool_decide; [|done]. eapply pending_groups; [apply upd_player_groups|].
  intros z g'. rewrite upd_group_lookup. intros Hz. case_decide as Hd; [subst|by apply Hp].
  rewrite Hg. simpl. intros [= <-] Hnil. simpl in *. assert (e <> Some y) as He by congruence.
  destruct (Hp y g Hz Hg Hnil) as [Hin Hc]. split; [|done]. destruct (Hx g He eq_refl); [done|]. set_solver.
Qed.

(** A pass over some players that changes each of them once. *)
Lemma pref_foldl (f : Player -> Player) (r : PRef -> PRef) l : forall w,
  (forall p, player_ref (f p) = r (player_ref p)) -> (forall p, r (r p) = r p) ->
  (forall z, pref (foldl (fun w x => upd_player x f w) w l) z =
     if decide (z ∈ l) then r <$> pref w z else pref w z) /\
  w_groups (foldl (fun w x => upd_player x f w) w l) = w_groups w.
Proof.
  induction l as [|x l IH]; intros w Hf Hr; simpl; [split; [intros z|done]|].
  - done.
  - destruct (IH (upd_player x f w) Hf Hr) as [H1 H2]. split; [|by rewrite H2].
    intros z. rewrite H1, pref_upd_player. destruct (decide (z = x)) as [->|Hn].
    + rewrite (decide_True (P := x ∈ x :: l)) by set_solver. unfold pref.
      destruct (w_players w !! x); simpl; case_decide; try done; simpl; rewrite Hf; by rewrite ?Hr.
    + case_decide; [rewrite decide_True by set_solver|rewrite decide_False by set_solver]; done.
Qed.

Lemma elem_of_selems_iff (X : gset Z) x : x ∈ selems X <-> x ∈ X.
Proof. apply elem_of_selems. Qed.

Lemma RemoveAllInvites_views y w g : w_groups w !! y = Some g ->
  (forall z, pref (RemoveAllInvites y w) z =
     if decide (z ∈ m_invitees g) then no_invite <$> pref w z else pref w z) /\
  (forall z, w_groups (RemoveAllInvites y w) !! z =
     if decide (z = y) then Some (set_m_invitees ∅ g) else w_groups w !! z).
Proof.
  intros Hg. unfold RemoveAllInvites. rewrite Hg.
  destruct (pref_foldl (set_p_groupInvite None) no_invite (selems (m_invitees g)) w) as [H1 H2]; [done..|].
  split; intros z.
  - rewrite pref_upd_group, H1. destruct (decide (z ∈ m_invitees g)) as [Hi|Hi].
    + rewrite decide_True; [done|]. by apply elem_of_selems_iff.
    + rewrite decide_False; [done|]. by rewrite elem_of_selems_iff.
  - rewrite upd_group_lookup, H2. case_decide; [|done]. subst. by rewrite Hg.
Qed.

Lemma RemoveAllInvites_shrinks y w : refs_ok w -> shrinks_refs y w (RemoveAllInvites y w).
Proof.
  intros Hok. destruct (w_groups w !! y) as [g|] eqn:Hg.
  2: { unfold RemoveAllInvites. rewrite Hg. by apply shrinks_refs_refl. }
  destruct (RemoveAllInvites_views y w g Hg) as [HP HG]. pose proof (gref_Some w y g Hg) as Hr.
  assert (gref (RemoveAllInvites y w) y = Some (group_ref (set_m_invitees ∅ g))) as Hr'.
  { unfold gref. by rewrite HG, decide_True. }
  split.
  - intros z. rewrite HP. case_decide as Hi; (destruct (pref w z) as [p|] eqn:Hp; [|constructor]);
      constructor; unfold forgets; [|naive_solver].
    split_and!; [done..|by left|right]. split; [|done]. by eapply (rf_invite w Hok z p y).
  - intros z Hz. unfold gref. by rewrite HG, decide_False.
  - intros G'. rewrite Hr'. intros [= <-]. exists (group_ref g). split_and!; [done..|]. simpl. set_solver.
  - intros z p' G'. rewrite Hr', HP. intros Hp [= <-]. simpl.
    assert (exists p, pref w z = Some p /\ r_inWorld p' = r_inWorld p /\ r_group p' = r_group p /\
      r_invite p' = if decide (z ∈ m_invitees g) then None else r_invite p) as (p & Hpz & -> & -> & ->).
    { case_decide; [apply fmap_Some in Hp as (p & Hpz & ->); by exists p|by exists p']. }
    split; [intros Hw; by apply (rf_member w Hok z p y _ Hpz Hw Hr)|]. case_decide as Hi; [set_solver|].
    rewrite (rf_invite w Hok z p y _ Hpz Hr). simpl. set_solver.
  - rewrite Hr'. done.
Qed.

Lemma RemoveAllInvites_refs y w : refs_ok w -> refs_ok (RemoveAllInvites y w).
Proof. intros Hok. eapply refs_shrink; [done|by apply RemoveAllInvites_shrinks]. Qed.

Lemma RemoveAllInvites_pending y w : pending_but (Some y) w -> pending_but (Some y) (RemoveAllInvites y w).
Proof.
  intros Hpd. destruct (w_groups w !! y) as [g|] eqn:Hg.
  - destruct (RemoveAllInvites_views y w g Hg) as [_ H]. intros z g' Hz. rewrite H.
    case_decide; [congruence|by apply Hpd].
  - unfold RemoveAllInvites. by rewrite Hg.
Qed.

Lemma delete_group_shrinks y w : refs_ok w -> shrinks_refs y (RemoveAllInvites y w) (delete_group y w).
Proof.
  intros Hok. apply (RemoveAllInvites_refs y) in Hok. unfold delete_group.
  assert (forall G, gref (RemoveAllInvites y w) y = Some G -> g_invited G = ∅) as Hempty.
  { intros G HG. destruct (w_groups w !! y) as [g|] eqn:Hg.
    - destruct (RemoveAllInvites_views y w g Hg) as [_ H]. unfold gref in HG.
      rewrite H, decide_True in HG by done. by injection HG as <-.
    - unfold RemoveAllInvites, gref in HG. by rewrite !Hg in HG. }
  set (w1 := RemoveAllInvites y w) in *. clearbody w1.
  assert (forall z p, pref w1 z = Some p -> r_invite p <> Some y) as Hni.
  { intros z p Hp Hi. destruct (rf_invite_live w1 Hok z p y Hp Hi) as [G HG].
    apply (rf_invite w1 Hok z p y G Hp HG) in Hi. rewrite (Hempty G HG) in Hi. set_solver. }
  set (w2 := set_w_groups _ _).
  assert (forall z, pref w2 z = (fun p => if decide (r_group p = Some y)
    then mkPRef (r_inWorld p) None (r_original p) (r_invite p) else p) <$> pref w1 z) as HP.
  { intros z. unfold pref, w2. simpl. rewrite lookup_fmap.
    destruct (w_players w1 !! z) as [p|] eqn:Hp; [|done]. simpl.
    pose proof (rf_original w1 Hok z (player_ref p) (pref_Some w1 z p Hp)) as Ho. simpl in Ho.
    unfold unlink, player_ref. do 2 case_bool_decide; simpl in *; case_decide; simpl in *; congruence. }
  assert (forall z, gref w2 z = if decide (z = y) then None else gref w1 z) as HG.
  { intros z. unfold gref, w2. simpl. case_decide; [subst; by rewrite lookup_delete_eq|by rewrite lookup_delete_ne]. }
  split.
  - intros z. rewrite HP. destruct (pref w1 z); constructor. unfold forgets. case_decide; naive_solver.
  - intros z Hz. by rewrite HG, decide_False.
  - intros G'. by rewrite HG, decide_True.
  - intros z p' G' _. by rewrite HG, decide_True.
  - intros _ z p'. rewrite HP. intros (p & Hp & ->)%fmap_Some. apply Hni in Hp as Hi. by case_decide.
Qed.

Lemma delete_group_refs y w : refs_ok w -> refs_ok (delete_group y w).
Proof.
  intros Hok. eapply refs_shrink; [by apply (RemoveAllInvites_refs y)|by apply delete_group_shrinks].
Qed.
Lemma delete_group_forgets y w : refs_ok w -> forgetful y w (delete_group y w).
Proof.
  intros Hok. transitivity (RemoveAllInvites y w).
  - exact (sr_players _ _ _ (RemoveAllInvites_shrinks y w Hok)).
  - exact (sr_players _ _ _ (delete_group_shrinks y w Hok)).
Qed.

Lemma delete_group_groups y w z :
  w_groups (delete_group y w) !! z = if decide (z = y) then None else w_groups w !! z.
Proof.
  unfold delete_group. simpl. case_decide; [subst; by rewrite lookup_delete_eq|].
  rewrite lookup_delete_ne by done. destruct (w_groups w !! y) as [g|] eqn:Hg.
  - destruct (RemoveAllInvites_views y w g Hg) as [_ HG]. by rewrite HG, decide_False.
  - unfold RemoveAllInvites. by rewrite Hg.
Qed.

Lemma delete_group_pending y w : pending_but (Some y) w -> pending_but None (delete_group y w).
Proof.
  intros Hp z g _. rewrite delete_group_groups. case_decide; [done|]. apply Hp. congruence.
Qed.

Lemma RemoveInvite_uninvited y x w pl :
  refs_ok w -> w_players w !! x = Some pl -> p_groupInvite pl = None -> RemoveInvite y x w = w.
Proof.
  intros Hok Hpl Hi. unfold RemoveInvite. destruct (w_groups w !! y) as [g|] eqn:Hg; [|done].
  case_bool_decide as Hin; [|done]. exfalso.
  pose proof (rf_invite w Hok x _ y _ (pref_Some w x pl Hpl) (gref_Some w y g Hg)) as [_ H].
  apply H in Hin. simpl in Hin. congruence.
Qed.

(** An invitation is entered for a free player in the world. *)
Lemma AddInvite_refs y x w w' p :
  refs_ok w -> pref w x = Some p -> r_inWorld p = true -> AddInvite y x w = (true, w') ->
  refs_ok w' /\ (exists p', pref w' x = Some p' /\ r_invite p' = Some y) /\ r_group p = None.
Proof.
  intros Hok Hp Hw. unfold AddInvite. unfold pref in Hp.
  destruct (w_players w !! x) as [pl|] eqn:Hpl; [|done]. injection Hp as <-. simpl in Hw.
  destruct (w_groups w !! y) as [g|] eqn:Hg; [|done].
  destruct (p_groupInvite pl) eqn:Hi; [done|].
  destruct (match p_group pl with Some _ => _ | None => _ end) eqn:Hown; [done|]. intros [= <-].
  assert (p_group pl = None) as Hnone.
  { destruct (p_group pl) as [cur|] eqn:Hc; [|done]. exfalso.
    destruct (rf_live w Hok x _ cur (pref_Some w x pl Hpl) Hc) as [G HG].
    pose proof (rf_bg w Hok cur G HG) as Hb. unfold gref in HG.
    destruct (w_groups w !! cur); [|done]. injection HG as <-. unfold isBGGroup in Hown. simpl in *.
    by rewrite Hb in Hown. }
  rewrite (RemoveInvite_uninvited y x w pl) in * by done.
  set (w' := upd_player _ _ _). set (p' := mkPRef true None None (Some y)).
  pose proof (rf_original w Hok x _ (pref_Some w x pl Hpl)) as Ho. simpl in Ho.
  assert (forall z, pref w' z = if decide (z = x) then Some p' else pref w z) as HP.
  { intros z. unfold w'. rewrite pref_upd_player. case_decide; [|done]. simpl. rewrite Hpl. simpl.
    unfold player_ref. simpl. by rewrite Hw, Hnone, Ho. }
  split_and!; [|exists p'; by rewrite HP, decide_True|done].
  apply (refs_update w w' x y (player_ref pl) p' (group_ref g)
    (mkGRef (ms_guid <$> m_memberSlots g) ({[x]} ∪ m_invitees g) (m_bgGroup g)));
    [done|by apply pref_Some|by apply gref_Some| |done|].
  - pose proof (rf_member w Hok x _ y _ (pref_Some w x pl Hpl) Hw (gref_Some w y g Hg)) as Hm. simpl in Hm.
    split; simpl; try done; try set_solver.
    by apply (rf_bg w Hok y _ (gref_Some w y g Hg)).
  - intros z. unfold w'. rewrite gref_upd_player, gref_upd_group. case_decide; [|done]. by rewrite Hg.
Qed.

Lemma AddInvite_world y x w w' z : AddInvite y x w = (true, w') ->
  r_inWorld <$> pref w' z = r_inWorld <$> pref w z.
Proof.
  intros E. assert (world_frame w w') as [Hf _].
  { pose proof (AddInvite_frame y x w) as H. by rewrite E in H. }
  specialize (Hf z). unfold pref. destruct (w_players w !! z) as [p|], (w_players w' !! z) as [q|]; try done.
  simpl. f_equal. by rewrite (same_static_inWorld p q).
Qed.

Lemma AddInvite_counts y x w w' g' : AddInvite y x w = (true, w') ->
  (forall g, w_groups w !! y = Some g -> m_subGroupsCounts g = None) ->
  w_groups w' !! y = Some g' -> m_subGroupsCounts g' = None.
Proof.
  unfold AddInvite, RemoveInvite. intros E Hc. destruct (w_players w !! x) as [pl|]; [|done].
  destruct (w_groups w !! y) as [g|] eqn:Hg; [|done]. destruct (p_groupInvite pl); [done|].
  destruct (match p_group pl with Some _ => _ | None => _ end); [done|]. injection E as <-.
  rewrite upd_player_groups, upd_group_lookup, decide_True by done. intros (g1 & Hg1 & ->)%fmap_Some. simpl.
  case_if; simpl in Hg1; [|rewrite Hg in Hg1; injection Hg1 as <-; by apply Hc].
  rewrite lookup_alter_eq, Hg in Hg1. injection Hg1 as <-. simpl. by apply Hc.
Qed.

Lemma AddInvite_pending e y x w w' : refs_ok w -> AddInvite y x w = (true, w') -> pending_but e w -> pending_but e w'.
Proof.
  intros Hok E Hpd. unfold AddInvite in E.
  destruct (w_players w !! x) as [pl|] eqn:Hpl; [|done]. destruct (w_groups w !! y) as [g|] eqn:Hg; [|done].
  destruct (p_groupInvite pl) eqn:Hi; [done|].
  destruct (match p_group pl with Some _ => _ | None => _ end); [done|]. injection E as <-.
  rewrite (RemoveInvite_uninvited y x w pl) in * by done.
  eapply pending_groups; [apply upd_player_groups|]. apply pending_upd; [|done].
  intros g' _ Hp Hnil. destruct (Hp Hnil) as [Hl Hc]. split; [|done]. simpl. set_solver.
Qed.

(** What an unsuccessful invitation leaves behind is what there was. *)
Lemma AddInvite_false y x w w' : AddInvite y x w = (false, w') -> w' = w.
Proof.
  unfold AddInvite. destruct (w_players w !! x) as [p|]; [|congruence].
  destruct (w_groups w !! y); [|congruence]. destruct (p_groupInvite p); [congruence|].
  by destruct (match p_group p with Some _ => _ | None => _ end); [congruence|].
Qed.

(** ** Joining *)
Lemma pref_world w x p : pref w x = Some p -> r_inWorld p = true -> x <> 0 ->
  exists pl, w_players w !! x = Some pl /\ p = player_ref pl /\ GetPlayerW w x = Some pl.
Proof.
  unfold pref. intros Hp Hw Hx. destruct (w_players w !! x) as [pl|] eqn:Hpl; [|done].
  injection Hp as <-. exists pl. split_and!; [done..|]. by apply GetPlayerW_Some.
Qed.

Lemma refs_nonzero w x p : refs_ok w -> pref w x = Some p -> x <> 0.
Proof. intros Hok Hp ->. by rewrite rf_zero in Hp. Qed.

Lemma quiet_refs w w' : quiet_party w w' -> refs_ok w -> refs_ok w'.
Proof. intros [Hs _] Hok. by rewrite <- Hs. Qed.

(** A free player without an invitation joins. *)
Definition joined_ref (y : Z) : PRef := mkPRef true (Some y) None None.

Record joins_refs (y x : Z) (w w' : World) : Prop := {
  jr_refs : refs_ok w';
  jr_pref : forall z, pref w' z = if decide (z = x) then Some (joined_ref y) else pref w z;
  jr_gref : forall z, gref w' z = if decide (z = y)
    then (fun G => mkGRef (g_members G ++ [x]) (g_invited G) (g_bg G)) <$> gref w z else gref w z;
  jr_pending : pending_but (Some y) w -> pending_but None w'
}.

Lemma joins_refs_quiet y x w w1 w2 : joins_refs y x w w1 -> quiet_party w1 w2 -> joins_refs y x w w2.
Proof.
  intros [J1 J2 J3 J4] Hq. pose proof Hq as [[Hp Hg] Hpd]. split.
  - by eapply quiet_refs.
  - intros z. by rewrite Hp.
  - intros z. by rewrite Hg.
  - auto.
Qed.

Lemma _addMember_to_refs y x name a k w w' p :
  refs_ok w -> pref w x = Some p -> r_inWorld p = true -> r_group p = None -> r_invite p = None ->
  _addMember_to y x name a k w = (true, w') -> joins_refs y x w w'.
Proof.
  intros Hok Hp Hw Hgr Hinv. pose proof (refs_nonzero w x p Hok Hp) as Hx.
  destruct (pref_world w x p Hp Hw Hx) as (pl & Hpl & -> & Hget). simpl in *.
  unfold _addMember_to. destruct (w_groups w !! y) as [g|] eqn:Hg; [|done].
  case_if; [done|]. case_if; [done|]. rewrite Hget, Hinv, Hgr. intros [= <-].
  set (w' := upd_player _ _ _).
  pose proof (rf_original w Hok x _ Hp) as Ho. simpl in Ho.
  assert (forall z, pref w' z = if decide (z = x) then Some (joined_ref y) else pref w z) as HP.
  { intros z. unfold w'. rewrite !pref_upd_player. case_decide; [|done]. simpl.
    rewrite lookup_alter_eq, Hpl. simpl. unfold player_ref, joined_ref. simpl. by rewrite Hw, Ho. }
  set (G' := mkGRef ((ms_guid <$> m_memberSlots g) ++ [x]) (m_invitees g) (m_bgGroup g)).
  assert (forall z, gref w' z = if decide (z = y) then Some G' else gref w z) as HQ.
  { intros z. unfold w'. rewrite !gref_upd_player, gref_upd_group. case_decide; [|done].
    rewrite Hg. simpl. unfold group_ref, G'. rewrite increase_slots. simpl. rewrite fmap_app.
    unfold SubGroupCounterIncrease. by destruct (m_subGroupsCounts _). }
  split; [|done| |].
  - apply (refs_update w w' x y (player_ref pl) (joined_ref y) (group_ref g) G');
      [done|done|by apply gref_Some| |done|done].
    pose proof (rf_invite w Hok x _ y _ Hp (gref_Some w y g Hg)) as Hi. simpl in Hi. rewrite Hinv in Hi.
    split; simpl; try done.
    + apply (rf_bg w Hok y _ (gref_Some w y g Hg)).
    + intros z Hz. rewrite elem_of_app, list_elem_of_singleton. naive_solver.
    + intros z Hz. rewrite Hgr. split; [congruence|done].
    + intros z Hz. by rewrite Hinv.
    + intros _. rewrite elem_of_app, list_elem_of_singleton. naive_solver.
    + by left.
  - intros z. rewrite HQ. case_decide; [subst|done]. by rewrite (gref_Some w y g).
  - intros Hpd z g' _. unfold w'. rewrite !upd_player_groups, upd_group_lookup.
    case_decide; [subst|apply Hpd; congruence]. rewrite Hg. intros [= <-] Hnil.
    rewrite increase_slots in Hnil. simpl in Hnil. by destruct (m_memberSlots g).
Qed.

Lemma AddMember_refs y x name w w' p :
  refs_ok w -> pref w x = Some p -> r_inWorld p = true -> r_group p = None -> r_invite p = None ->
  AddMember y x name w = (true, w') -> joins_refs y x w w'.
Proof.
  intros Hok Hp Hw Hgr Hinv. unfold AddMember.
  destruct (_addMember y x name false w) as [[] w1] eqn:E; [|done]. intros [= <-].
  assert (joins_refs y x w w1) as Hj.
  { unfold _addMember in E. destruct (w_groups w !! y); [|done].
    destruct (m_subGroupsCounts _); [destruct (first_free _ _); [|done]|];
      by eapply _addMember_to_refs. }
  eapply joins_refs_quiet; [exact Hj|].
  set (w2 := match w_groups w1 !! y with Some _ => _ | None => _ end).
  assert (quiet_party w1 w2) as Hq.
  { unfold w2. destruct (w_groups w1 !! y); [|reflexivity].
    case_if; [apply quiet_UpdateCrossfaction|reflexivity]. }
  etransitivity; [exact Hq|]. destruct (GetPlayerW w2 x); [by apply quiet_group|reflexivity].
Qed.

Lemma AddMember_empty y x name w g p :
  w_groups w !! y = Some g -> m_memberSlots g = [] -> m_subGroupsCounts g = None ->
  pref w x = Some p -> r_inWorld p = true -> x <> 0 -> exists w', AddMember y x name w = (true, w').
Proof.
  intros Hg Hnil Hc Hp Hw Hx. destruct (pref_world w x p Hp Hw Hx) as (pl & _ & _ & Hget).
  unfold AddMember, _addMember, _addMember_to. rewrite Hg, Hc.
  assert (IsFull g = false) as ->.
  { unfold IsFull, GetMembersCount, MAX_GROUP_SIZE, MAX_RAID_SIZE. rewrite Hnil. by destruct (m_groupType g). }
  rewrite (proj2 (Z.eqb_neq x 0) Hx), Hget. by eexists.
Qed.

(** Creating the group of a free founder in the world. *)
Lemma Create_refs y x name w g p :
  refs_ok w -> w_groups w !! y = Some g -> m_memberSlots g = [] -> m_subGroupsCounts g = None ->
  pref w x = Some p -> r_inWorld p = true -> r_group p = None -> r_invite p = None ->
  exists w', Create y x name w = (true, w') /\ joins_refs y x w w'.
Proof.
  intros Hok Hg Hnil Hc Hp Hw Hgr Hinv. pose proof (refs_nonzero w x p Hok Hp) as Hx.
  unfold Create. rewrite Hg. pose proof (rf_bg w Hok y _ (gref_Some w y g Hg)) as Hbg. simpl in Hbg.
  match goal with |- context [let '(_, _) := ?e in _] => destruct e as [g1 w1] eqn:E1 end.
  assert (group_ref g1 = group_ref g /\ m_memberSlots g1 = [] /\ m_subGroupsCounts g1 = None /\
    w_groups w1 = w_groups w /\ w_players w1 = w_players w) as (Hr & Hn1 & Hc1 & HG1 & HP1).
  { destruct g. simpl in *. subst. by injection E1 as <- <-. }
  set (w2 := upd_group y (fun _ => g1) w1).
  assert (same_refs w w2) as Hsame.
  { split; intros z; unfold w2; [unfold pref; simpl; by rewrite HP1|].
    rewrite gref_upd_group, HG1, Hg. case_decide; [subst|unfold gref; by rewrite HG1]. simpl.
    by rewrite (gref_Some w y g), Hr. }
  assert (w_groups w2 !! y = Some g1) as Hg2.
  { unfold w2. by rewrite upd_group_lookup, decide_True, HG1, Hg. }
  assert (refs_ok w2) as Hok2 by by rewrite <- Hsame.
  assert (pref w2 x = Some p) as Hp2 by (rewrite (proj1 Hsame); done).
  destruct (AddMember_empty y x name w2 g1 p Hg2 Hn1 Hc1 Hp2 Hw Hx) as [w3 E3]. rewrite E3.
  destruct (AddMember_refs y x name w2 w3 p Hok2 Hp2 Hw Hgr Hinv E3) as [J1 J2 J3 J4].
  destruct (quiet_updateLeaderFlag y false w3) as [[Q1 Q2] Q3].
  eexists. split; [reflexivity|].
  assert (pending_but (Some y) w -> pending_but None (_updateLeaderFlag y false w3)) as Hpd.
  { intros Hpd. apply Q3, J4. intros z g' Hz. unfold w2. rewrite upd_group_lookup, HG1.
    case_decide; [congruence|by apply Hpd]. }
  split; [|intros z|intros z|done].
  - apply (quiet_refs w3); [|done]. apply quiet_updateLeaderFlag.
  - rewrite Q1, J2. by rewrite (proj1 Hsame).
  - rewrite Q2, J3. by rewrite (proj2 Hsame).
Qed.

(** ** Leaving *)
Definition leave_ref (p : PRef) : PRef :=
  if r_inWorld p then mkPRef (r_inWorld p) None (r_original p) (r_invite p) else p.

(** Taking this group's reference off one player. *)
Definition unref_one (y x : Z) (w : World) : World :=
  match GetPlayerW w x with Some _ => upd_player x (unref_member y false) w | None => w end.

Lemma pref_unref y x w z : refs_ok w \/ (pref w 0 = None /\ forall z p, pref w z = Some p -> r_original p = None) ->
  pref (unref_one y x w) z = if decide (z = x) then leave_ref <$> pref w z else pref w z.
Proof.
  intros Hok. assert (pref w 0 = None /\ forall z p, pref w z = Some p -> r_original p = None) as [H0 Ho].
  { destruct Hok as [Hok|]; [|done]. split; [by apply rf_zero|by apply rf_original]. }
  unfold unref_one. destruct (GetPlayerW w x) as [p|] eqn:Hget.
  - apply GetPlayerW_Some in Hget as (Hx & Hp & Hw). rewrite pref_upd_player. case_decide; [subst|done].
    rewrite Hp. simpl. rewrite (pref_Some w x p Hp). simpl. pose proof (Ho x _ (pref_Some w x p Hp)) as Hn.
    simpl in Hn. unfold leave_ref, unref_member. rewrite Hn. simpl. unfold player_ref. simpl. by rewrite Hw, Hn.
  - case_decide; [subst|done]. destruct (pref w x) as [p|] eqn:Hp; [|done]. simpl. unfold leave_ref.
    destruct (r_inWorld p) eqn:Hw; [|done]. exfalso.
    assert (x <> 0) as Hx by congruence. by destruct (pref_world w x p Hp Hw Hx) as (? & ? & ? & ?); congruence.
Qed.

Lemma leave_ref_idem p : leave_ref (leave_ref p) = leave_ref p.
Proof. by destruct p as [[] ? ? ?]. Qed.

Lemma unref_all y l : forall w,
  pref w 0 = None -> (forall z p, pref w z = Some p -> r_original p = None) ->
  (forall z, pref (foldl (fun w x => unref_one y x w) w l) z =
    if decide (z ∈ l) then leave_ref <$> pref w z else pref w z) /\
  w_groups (foldl (fun w x => unref_one y x w) w l) = w_groups w.
Proof.
  induction l as [|x l IH]; intros w H0 Ho; simpl; [done|].
  assert (forall z, pref (unref_one y x w) z = if decide (z = x) then leave_ref <$> pref w z else pref w z) as H1
    by (intros; apply pref_unref; by right).
  destruct (IH (unref_one y x w)) as [H2 H3].
  - rewrite H1. case_decide; by rewrite H0.
  - intros z p. rewrite H1. case_decide; [|by apply Ho].
    intros (q & Hq & ->)%fmap_Some. apply Ho in Hq. unfold leave_ref. by case_if.
  - split; [|rewrite H3; unfold unref_one; by destruct (GetPlayerW w x)].
    intros z. rewrite H2, H1. destruct (decide (z = x)) as [->|Hn].
    + rewrite (decide_True (P := x ∈ x :: l)) by set_solver. case_decide; [|done].
      destruct (pref w x); simpl; [by rewrite leave_ref_idem|done].
    + destruct (decide (z ∈ l)); [rewrite decide_True by set_solver|rewrite decide_False by set_solver]; done.
Qed.

Lemma leave_forgets w y x p : refs_ok w -> pref w x = Some p ->
  (r_inWorld p = true -> r_group p = Some y) -> forgets y p (leave_ref p).
Proof.
  intros Hok Hp Hg. unfold forgets, leave_ref. destruct (r_inWorld p) eqn:E; simpl; [|naive_solver].
  split_and!; [done..| |by left]. right. auto.
Qed.

(** One player has left group [y]: his reference is gone and he is off the list. *)
Lemma erased_shrinks y x w w1 g :
  refs_ok w -> slots_ok g -> w_groups w !! y = Some g ->
  (forall p, pref w x = Some p -> r_inWorld p = true -> r_group p = Some y) ->
  (forall z, pref w1 z = if decide (z = x) then leave_ref <$> pref w z else pref w z) ->
  w_groups w1 = <[y := erased x g]> (w_groups w) -> shrinks_refs y w w1.
Proof.
  intros Hok Hslots Hg Hx HP HG1. pose proof (gref_Some w y g Hg) as Hr.
  assert (gref w1 y = Some (group_ref (erased x g))) as Hr' by (unfold gref; by rewrite HG1, lookup_insert_eq).
  assert (forall z, z ∈ ms_guid <$> m_memberSlots (erased x g) <-> z ∈ ms_guid <$> m_memberSlots g /\ z <> x)
    as Hm.
  { intros z. unfold erased. destruct (getMemberSlot g x) as [slot|] eqn:E.
    - apply erase_slot_guids. apply Hslots.
    - split; [|tauto]. intros Hz. split; [done|]. intros ->. apply IsMember_elem in Hz.
      unfold IsMember in Hz. by rewrite E in Hz. }
  assert (m_invitees (erased x g) = m_invitees g /\ m_bgGroup (erased x g) = m_bgGroup g) as [Hi Hb].
  { unfold erased. destruct (getMemberSlot g x); [|done]. simpl. unfold SubGroupCounterDecrease.
    by destruct (m_subGroupsCounts g). }
  split.
  - intros z. rewrite HP. case_decide; [subst|].
    + destruct (pref w x) as [p|] eqn:Hp; constructor. eapply leave_forgets; eauto.
    + destruct (pref w z); constructor. unfold forgets. naive_solver.
  - intros z Hz. unfold gref. by rewrite HG1, lookup_insert_ne.
  - intros G'. rewrite Hr'. intros [= <-]. exists (group_ref g). simpl. rewrite Hi, Hb.
    split_and!; [done..| |done]. intros z Hz. by apply Hm.
  - intros z p' G'. rewrite Hr', HP. intros Hp [= <-]. simpl. rewrite Hm, Hi. case_decide; [subst|].
    + apply fmap_Some in Hp as (p & Hp & ->).
      pose proof (rf_invite w Hok x p y _ Hp Hr) as Hin. simpl in Hin. unfold leave_ref.
      destruct (r_inWorld p) eqn:E; simpl; (split; [|exact Hin]); [naive_solver|congruence].
    + pose proof (fun Hw => rf_member w Hok z p' y _ Hp Hw Hr) as Hin. simpl in Hin.
      split; [intros Hw; rewrite Hin by done; tauto|]. by apply (rf_invite w Hok z p' y _ Hp Hr).
  - by rewrite Hr'.
Qed.

Lemma _removeMember_refs y x w g :
  refs_ok w -> slots_ok g -> w_groups w !! y = Some g ->
  (forall p, pref w x = Some p -> r_inWorld p = true -> r_group p = Some y) ->
  exists w1, quiet_party w1 (snd (_removeMember y x w)) /\ shrinks_refs y w w1 /\
    (forall z, pref w1 z = if decide (z = x) then leave_ref <$> pref w z else pref w z) /\
    w_groups w1 = <[y := erased x g]> (w_groups w).
Proof.
  intros Hok Hslots Hg Hx. unfold _removeMember. rewrite Hg.
  pose proof (rf_bg w Hok y _ (gref_Some w y g Hg)) as Hbg. simpl in Hbg. unfold isBGGroup. rewrite Hbg.
  change (match GetPlayerW w x with Some _ => upd_player x (unref_member y false) w | None => w end)
    with (unref_one y x w).
  assert (w_groups (unref_one y x w) = w_groups w) as Hu
    by (unfold unref_one; by destruct (GetPlayerW w x)).
  set (w1 := match getMemberSlot g x with Some _ => _ | None => _ end).
  assert (w_groups w1 = <[y := erased x g]> (w_groups w)) as HG1.
  { unfold w1, erased. destruct (getMemberSlot g x); simpl; rewrite Hu.
    - rewrite <- (insert_id (w_groups w) y g) at 1 by done. by rewrite alter_insert_eq.
    - by rewrite insert_id. }
  assert (forall z, pref w1 z = if decide (z = x) then leave_ref <$> pref w z else pref w z) as HP.
  { intros z. transitivity (pref (unref_one y x w) z); [|apply pref_unref; by left].
    unfold w1. by destruct (getMemberSlot g x). }
  exists w1. split_and!; [|by eapply erased_shrinks|done|done].
  case_if; simpl; [|reflexivity].
  etransitivity; [apply quiet_updateLeaderFlag|apply quiet_chooseLeader].
Qed.

Lemma cleared_shrinks y w w1 g :
  refs_ok w -> w_groups w !! y = Some g ->
  (forall z, pref w1 z = if decide (z ∈ ms_guid <$> m_memberSlots g) then leave_ref <$> pref w z else pref w z) ->
  (forall z, w_groups w1 !! z = if decide (z = y) then Some (set_m_memberSlots [] g) else w_groups w !! z) ->
  shrinks_refs y w w1.
Proof.
  intros Hok Hg HP HG. pose proof (gref_Some w y g Hg) as Hr.
  assert (gref w1 y = Some (group_ref (set_m_memberSlots [] g))) as Hr' by (unfold gref; by rewrite HG, decide_True).
  split.
  - intros z. rewrite HP. case_decide as Hm.
    + destruct (pref w z) as [p|] eqn:Hp; constructor. eapply leave_forgets; [done..|].
      intros Hw. by apply (rf_member w Hok z p y _ Hp Hw Hr).
    + destruct (pref w z); constructor. unfold forgets. naive_solver.
  - intros z Hz. unfold gref. by rewrite HG, decide_False.
  - intros G'. rewrite Hr'. intros [= <-]. exists (group_ref g). simpl. split_and!; [done..|set_solver|done].
  - intros z p' G'. rewrite Hr', HP. intros Hp [= <-]. simpl. case_decide as Hm.
    + apply fmap_Some in Hp as (p & Hp & ->).
      pose proof (rf_invite w Hok z p y _ Hp Hr) as Hin. simpl in Hin. unfold leave_ref.
      destruct (r_inWorld p) eqn:E; simpl; (split; [|exact Hin]); [|congruence].
      intros _. split; [done|]. by intros ?%not_elem_of_nil.
    + pose proof (fun Hw => rf_member w Hok z p' y _ Hp Hw Hr) as Hin. simpl in Hin.
      split; [|by apply (rf_invite w Hok z p' y _ Hp Hr)].
      intros Hw. rewrite Hin by done. split; [done|]. by intros ?%not_elem_of_nil.
  - by rewrite Hr'.
Qed.

Lemma Disband_refs y w g : refs_ok w -> w_groups w !! y = Some g ->
  refs_ok (Disband y w) /\ (pending_but (Some y) w -> pending_but (Some y) (Disband y w)) /\
  forgetful y w (Disband y w).
Proof.
  intros Hok Hg. pose proof (rf_bg w Hok y _ (gref_Some w y g Hg)) as Hbg. simpl in Hbg.
  unfold Disband. rewrite Hg. unfold isBGGroup. rewrite Hbg.
  assert (foldl (disband_member y false) w (m_memberSlots g) =
    foldl (fun w x => unref_one y x w) w (ms_guid <$> m_memberSlots g)) as ->.
  { clear. generalize (m_memberSlots g). intros l. revert w. induction l as [|s l IH]; intros w; simpl; [done|].
    apply IH. }
  destruct (unref_all y (ms_guid <$> m_memberSlots g) w (rf_zero w Hok) (rf_original w Hok)) as [HP HG].
  set (w0 := foldl _ w _) in *. set (w1 := upd_group y (set_m_memberSlots []) w0).
  assert (shrinks_refs y w w1) as Hsh.
  { apply (cleared_shrinks y w w1 g); [done..|].
    intros z. unfold w1. rewrite upd_group_lookup, HG. case_decide; [subst; by rewrite Hg|done]. }
  assert (refs_ok w1) as Hok1 by by eapply refs_shrink.
  assert (pending_but (Some y) w -> pending_but (Some y) w1) as Hpd1.
  { intros Hpd. apply pending_upd_exempt. by eapply pending_groups. }
  destruct (quiet_updateLeaderFlag y true (RemoveAllInvites y w1)) as [Hs Hpd2].
  assert (refs_ok (_updateLeaderFlag y true (RemoveAllInvites y w1))) as Hok2.
  { rewrite <- Hs. by apply RemoveAllInvites_refs. }
  set (w3 := _updateLeaderFlag y true _) in *.
  assert (same_refs w3 (upd_group y (fun g => set_m_leaderName "" (set_m_leaderGuid 0 g)) w3)) as Hs3
    by by apply same_refs_group.
  split_and!.
  - by rewrite <- Hs3.
  - intros Hpd. by apply pending_upd_exempt, Hpd2, RemoveAllInvites_pending, Hpd1.
  - transitivity w1; [exact (sr_players _ _ _ Hsh)|].
    transitivity (RemoveAllInvites y w1); [exact (sr_players _ _ _ (RemoveAllInvites_shrinks y w1 Hok1))|].
    transitivity w3; by apply same_refs_forgetful.
Qed.

(** ** The compound operations keep the invariant *)
Definition parties_ok (w : World) : Prop := party_ok w /\ refs_ok w /\ pending_but None w.

Lemma parties_refs w : parties_ok w -> refs_ok w.
Proof. by intros (_ & H & _). Qed.
Lemma parties_party w : parties_ok w -> party_ok w.
Proof. by intros (H & _). Qed.

(** Membership by the list and by the reference. *)
Lemma in_list_in_group w x p y g :
  refs_ok w -> w_groups w !! y = Some g -> IsMember g x = true ->
  pref w x = Some p -> r_inWorld p = true -> r_group p = Some y.
Proof.
  intros Hok Hg Hm Hp Hw. apply (rf_member w Hok x p y _ Hp Hw (gref_Some w y g Hg)). by apply IsMember_elem.
Qed.

Lemma in_group_in_list w x p y :
  refs_ok w -> w_players w !! x = Some p -> p_inWorld p = true -> p_group p = Some y ->
  exists g, w_groups w !! y = Some g /\ IsMember g x = true.
Proof.
  intros Hok Hp Hw Hg. destruct (rf_live w Hok x _ y (pref_Some w x p Hp) Hg) as [G HG]. unfold gref in HG.
  destruct (w_groups w !! y) as [g|] eqn:E; [|done]. exists g. split; [done|].
  apply IsMember_elem. by apply (rf_member w Hok x _ y _ (pref_Some w x p Hp) Hw (gref_Some w y g E)).
Qed.

Lemma RemoveFromGroup_of_party y x w g :
  party_ok w -> w_groups w !! y = Some g -> party_ok (RemoveFromGroup_of y x w).
Proof.
  intros Hp Hg. unfold RemoveFromGroup_of.
  destruct (RemoveMember_party y x w g Hp Hg) as (H1 & H2 & H3).
  destruct (RemoveMember y x w) as [n w1]; simpl in *. case_if; [by apply delete_group_party|].
  apply H2. destruct (Z.le_gt_cases (GetMembersCount g) (GetMembersMinCount g)) as [Hle|]; [|lia].
  apply H3 in Hle. subst. done.
Qed.

Lemma RemoveMember_refs y x w g :
  parties_ok w -> w_groups w !! y = Some g ->
  (forall p, pref w x = Some p -> r_inWorld p = true -> r_group p = Some y) ->
  refs_ok (snd (RemoveMember y x w)) /\ forgetful y w (snd (RemoveMember y x w)) /\
  pending_but (Some y) (snd (RemoveMember y x w)) /\
  (1 < fst (RemoveMember y x w) -> pending_but None (snd (RemoveMember y x w))).
Proof.
  intros (Hp & Hok & Hpd) Hg Hx. destruct (Hp y g Hg) as [Hslots _].
  assert (refs_ok (snd (RemoveMember y x w)) /\ forgetful y w (snd (RemoveMember y x w)) /\
    pending_but (Some y) (snd (RemoveMember y x w))) as (H1 & Hf & H2).
  { unfold RemoveMember. rewrite Hg. simpl. case_if.
    - destruct (_removeMember_refs y x w g Hok Hslots Hg Hx) as (w1 & [Hs Hq] & Hsh & _ & HG).
      destruct (quiet_UpdateCrossfaction y (snd (_removeMember y x w))) as [Hs' Hq']. split_and!.
      + rewrite <- Hs', <- Hs. by eapply refs_shrink.
      + transitivity w1; [exact (sr_players _ _ _ Hsh)|]. apply same_refs_forgetful. by rewrite Hs.
      + apply Hq', Hq. intros z g' Hz. rewrite HG. rewrite lookup_insert_ne by congruence. by apply Hpd.
    - destruct (Disband_refs y w g Hok Hg) as (Hd & Hdp & Hdf).
      split_and!; [done..|]. by apply Hdp, pending_exempt. }
  split_and!; [done..|]. intros Hn z g' _ Hz. destruct (decide (z = y)) as [->|Hne].
  - intros Hnil. exfalso. unfold RemoveMember in Hn, Hz. rewrite Hg in Hn, Hz. simpl in *.
    rewrite Hz in Hn. simpl in Hn. unfold GetMembersCount in Hn. rewrite Hnil in Hn. simpl in Hn. lia.
  - apply (H2 z); [congruence|done].
Qed.

Lemma RemoveFromGroup_of_ok y x w g :
  parties_ok w -> w_groups w !! y = Some g ->
  (forall p, pref w x = Some p -> r_inWorld p = true -> r_group p = Some y) ->
  parties_ok (RemoveFromGroup_of y x w).
Proof.
  intros Hok Hg Hx. split; [by eapply RemoveFromGroup_of_party; [apply Hok|]|].
  destruct (RemoveMember_refs y x w g Hok Hg Hx) as (H1 & _ & H2 & H3). unfold RemoveFromGroup_of.
  destruct (RemoveMember y x w) as [n w1]; simpl in *. case_if.
  - split; [by apply delete_group_refs|by apply delete_group_pending].
  - split; [done|]. bool_prop. auto.
Qed.

(** The other players keep their references, unless the group is dissolved. *)
Lemma RemoveMember_others y x w g z :
  parties_ok w -> w_groups w !! y = Some g ->
  (forall p, pref w x = Some p -> r_inWorld p = true -> r_group p = Some y) ->
  z <> x -> 1 < fst (RemoveMember y x w) -> pref (snd (RemoveMember y x w)) z = pref w z.
Proof.
  intros (Hp & Hok & Hpd) Hg Hx Hz. destruct (Hp y g Hg) as [Hslots _]. unfold RemoveMember. rewrite Hg. simpl.
  case_if.
  - intros _. destruct (_removeMember_refs y x w g Hok Hslots Hg Hx) as (w1 & [[Hs _] _] & _ & HP & _).
    destruct (quiet_UpdateCrossfaction y (snd (_removeMember y x w))) as [[Hs' _] _].
    by rewrite Hs', Hs, HP, decide_False.
  - intros Hn. exfalso. destruct (Disband_spec y w g Hg) as [_ Hsl]. specialize (Hsl y).
    rewrite decide_True in Hsl by done. unfold slots_at in Hsl.
    destruct (w_groups (Disband y w) !! y) as [g'|]; simpl in *; [|lia].
    injection Hsl as Hnil. unfold GetMembersCount in Hn. rewrite Hnil in Hn. simpl in Hn. lia.
Qed.

Lemma RemoveFromGroup_of_others y x w g z :
  parties_ok w -> w_groups w !! y = Some g ->
  (forall p, pref w x = Some p -> r_inWorld p = true -> r_group p = Some y) -> z <> x ->
  let w' := RemoveFromGroup_of y x w in
  pref w' z = pref w z \/ w_groups w' !! y = None /\ option_Forall2 (forgets y) (pref w z) (pref w' z).
Proof.
  intros Hok Hg Hx Hz. cbv zeta. unfold RemoveFromGroup_of.
  destruct (RemoveMember_refs y x w g Hok Hg Hx) as (H1 & Hf & _ & _).
  pose proof (RemoveMember_others y x w g z Hok Hg Hx Hz) as Ho.
  destruct (RemoveMember y x w) as [n w1]; simpl in *. case_if; bool_prop; [right|left; by apply Ho].
  split; [by rewrite delete_group_groups, decide_True|].
  assert (forgetful y w (delete_group y w1)) as Hd
    by (transitivity w1; [done|by apply delete_group_forgets]).
  apply Hd.
Qed.
