(* ===== verification/PartySessions.v ===== *)
(** Sessions keep parties consistent: every opcode of
    src/game/Handlers/GroupHandler.cpp, logging in and logging out preserve
    [parties_ok]; [party_step] is the step relation they generate. *)

From S2P Require Import Prelude CString World Party PartySlots PartyInv PartyRaid PartyHandlers PartyRefs.

(** ** Operations on groups that have members *)
Lemma quiet_ok w w' : quiet_party w w' -> party_ok w' -> parties_ok w -> parties_ok w'.
Proof. intros Hq Hp (_ & Hr & Hpd). split_and!; [done|by eapply quiet_refs|by apply Hq]. Qed.

Lemma UninviteFromGroup_ok x w : parties_ok w -> parties_ok (UninviteFromGroup x w).
Proof.
  intros (Hp & Hok & Hpd). unfold UninviteFromGroup.
  destruct (_ ≫= _) as [y|]; [|done].
  set (w1 := RemoveInvite y x w).
  assert (refs_ok w1) as Hok1 by by apply RemoveInvite_refs.
  assert (party_ok w1) as Hp1 by by apply gentle_RemoveInvite.
  assert (pending_but (Some y) w1) as Hpd1.
  { apply RemoveInvite_pending; [by apply pending_exempt|]. intros g Hn. congruence. }
  clearbody w1. destruct (w_groups w1 !! y) as [g|] eqn:Hg.
  - case_if.
    + set (w2 := if 0 <? GetMembersCount g then Disband y w1 else RemoveAllInvites y w1).
      assert (others_ok y w2 /\ refs_ok w2 /\ pending_but (Some y) w2) as (H1 & H2 & H3).
      { unfold w2. case_if.
        - destruct (Disband_refs y w1 g Hok1 Hg) as (Hd & Hdp & _). destruct (Disband_spec y w1 g Hg) as [Ho _].
          split_and!; [by apply Ho, party_others|done|by apply Hdp].
        - split_and!; [apply gentle_RemoveAllInvites; by apply party_others|by apply RemoveAllInvites_refs|].
          by apply RemoveAllInvites_pending. }
      split_and!; [by apply delete_group_party|by apply delete_group_refs|by apply delete_group_pending].
    + split_and!; [done..|]. intros z g' _ Hz. destruct (decide (z = y)) as [->|Hn].
      * simplify_eq. intros Hnil. bool_prop. unfold GetMembersCount in *. rewrite Hnil in *. simpl in *. lia.
      * apply (Hpd1 z); [congruence|done].
  - split_and!; [done..|]. intros z g' _ Hz. apply (Hpd1 z); [|done]. intros [= ->]. congruence.
Qed.

Lemma RemoveFromGroup_ok x w : parties_ok w -> parties_ok (RemoveFromGroup x w).
Proof.
  intros Hok. unfold RemoveFromGroup. destruct (_ ≫= _) as [y|] eqn:E; [|done].
  apply bind_Some in E as (p & Hp & E). apply bind_Some in E as (y' & Hy & E).
  apply bind_Some in E as (g & Hg & [= ->]).
  eapply RemoveFromGroup_of_ok; [done..|]. intros q Hq _. unfold pref in Hq. rewrite Hp in Hq.
  by injection Hq as <-.
Qed.

(** Kicking somebody from the list. *)
Lemma kick_ok y x w g :
  parties_ok w -> w_groups w !! y = Some g -> IsMember g x = true -> parties_ok (RemoveFromGroup_of y x w).
Proof.
  intros Hok Hg Hm. eapply RemoveFromGroup_of_ok; [done..|].
  intros p Hp Hw. eapply in_list_in_group; [apply Hok|done..].
Qed.

Lemma ChangeLeader_ok y x w : parties_ok w -> parties_ok (ChangeLeader y x w).
Proof.
  intros Hok. apply (quiet_ok w); [apply quiet_setLeader| |done]. apply gentle_setLeader. apply Hok.
Qed.

Lemma group_change_ok y f w :
  (forall g, w_groups w !! y = Some g -> group_ok g -> group_ok (f g)) ->
  (forall g, w_groups w !! y = Some g -> group_ref (f g) = group_ref g /\ (pending g -> pending (f g))) ->
  parties_ok w -> parties_ok (upd_group y f w).
Proof.
  intros Hf Hq Hok. apply (quiet_ok w); [by apply quiet_group| |done]. apply party_upd; [done|apply Hok].
Qed.

Lemma ConvertToRaid_ok y w :
  (forall g, w_groups w !! y = Some g -> m_memberSlots g <> []) -> parties_ok w -> parties_ok (ConvertToRaid y w).
Proof.
  intros Hne Hok. apply (quiet_ok w); [|by apply ConvertToRaid_party, Hok|done].
  apply quiet_group. intros g Hg. split; [done|]. intros _ Hnil. by destruct (Hne g Hg).
Qed.

(** Slots may change as long as the members stay. *)
Lemma slots_changed g l :
  ms_guid <$> l = ms_guid <$> m_memberSlots g -> m_memberSlots g <> [] ->
  group_ref (set_m_memberSlots l g) = group_ref g /\ (pending g -> pending (set_m_memberSlots l g)).
Proof.
  intros Hl Hne. split; [unfold group_ref; simpl; by rewrite Hl|]. intros _ Hnil. simpl in Hnil. subst.
  by destruct (m_memberSlots g).
Qed.

Lemma upd_slot_nil x f l : upd_slot x f l = [] -> l = [].
Proof. destruct l as [|s l]; simpl; [done|]. by case_if. Qed.

Lemma SetAssistant_ok y x b w : parties_ok w -> parties_ok (SetAssistant y x b w).
Proof.
  intros Hok. apply (quiet_ok w); [|by apply SetAssistant_party, Hok|done].
  apply quiet_group. intros g Hg. case_if; [|done]. unfold _setAssistantFlag.
  destruct (getMemberSlot g x) as [slot|] eqn:E; [|done]. apply member_not_empty in E.
  by apply slots_changed; [by apply upd_slot_guids|].
Qed.

Lemma quiet_ref_subgroup y x k w : quiet_party w (upd_player x (set_ref_subgroup y k) w).
Proof. apply quiet_player. intros p. unfold set_ref_subgroup. by case_bool_decide. Qed.

Lemma moved_ref j x k g :
  group_ref (SubGroupCounterDecrease j (snd (_setMembersGroup x k g))) = group_ref g /\
  (pending g -> pending (SubGroupCounterDecrease j (snd (_setMembersGroup x k g)))).
Proof.
  unfold _setMembersGroup. destruct (getMemberSlot g x) as [slot|] eqn:E; simpl.
  - apply member_not_empty in E.
    destruct (slots_changed g (upd_slot x (set_slot_group k) (m_memberSlots g))) as [<- _];
      [by apply upd_slot_guids|done|].
    unfold group_ref, pending. rewrite decrease_slots, increase_slots.
    split; [unfold SubGroupCounterDecrease, SubGroupCounterIncrease; simpl; by repeat case_match|].
    intros _ Hnil. simpl in Hnil. by apply upd_slot_nil in Hnil.
  - unfold pending. rewrite decrease_slots, decrease_leader. unfold SubGroupCounterDecrease.
    split; [by destruct (m_subGroupsCounts g)|]. intros Hp Hnil. destruct (Hp Hnil) as [Hl E2]. by rewrite E2.
Qed.

Lemma ChangeMembersGroup_online_quiet y x k w : quiet_party w (ChangeMembersGroup_online y x k w).
Proof.
  unfold ChangeMembersGroup_online. destruct (w_groups w !! y) as [g|]; [|reflexivity].
  destruct (w_players w !! x); [|reflexivity]. case_if; [reflexivity|]. simpl.
  case_if; [reflexivity|]. case_if; [reflexivity|].
  etransitivity; [apply quiet_ref_subgroup|]. apply quiet_group. intros g' _. apply moved_ref.
Qed.

Lemma ChangeMembersGroup_quiet y x k w : quiet_party w (ChangeMembersGroup y x k w).
Proof.
  unfold ChangeMembersGroup. destruct (w_groups w !! y) as [g|]; [|reflexivity].
  case_if; [reflexivity|]. case_if; [reflexivity|].
  destruct (GetPlayerW w x); [apply ChangeMembersGroup_online_quiet|]. simpl. case_if; [reflexivity|].
  apply quiet_group. intros g' _. destruct (_setMembersGroup x k g') as [[] g2] eqn:E.
  - assert (g2 = snd (_setMembersGroup x k g')) as -> by by rewrite E. apply moved_ref.
  - unfold _setMembersGroup in E. destruct (getMemberSlot g' x); [done|]. by injection E as <-.
Qed.

Lemma SwapMembersGroup_quiet y x x' w : quiet_party w (SwapMembersGroup y x x' w).
Proof.
  unfold SwapMembersGroup. destruct (w_groups w !! y) as [g|] eqn:Hg; [|reflexivity].
  case_if; [reflexivity|]. simpl. case_if; [reflexivity|].
  destruct (_swapMembersGroup x x' g) as [[] g'] eqn:E; [|reflexivity].
  assert (quiet_party w (upd_group y (fun _ => g') w)) as Hq.
  { apply quiet_group. intros g0 Hg0. simplify_eq. unfold _swapMembersGroup in E.
    destruct (getMemberSlot g x) as [s|] eqn:Hs; [|done]. destruct (getMemberSlot g x') as [s'|]; [|done].
    injection E as <-. apply member_not_empty in Hs.
    apply slots_changed; [|done]. by rewrite !upd_slot_guids. }
  etransitivity; [exact Hq|].
  destruct (GetPlayerW w x), (GetPlayerW w x'); try reflexivity; try apply quiet_ref_subgroup.
  etransitivity; apply quiet_ref_subgroup.
Qed.

(** The reference of an online member agrees with the list. *)
Lemma refs_agree w y x : refs_ok w -> ref_agrees w y x.
Proof.
  intros Hok g p Hg Hon Hm. left. apply GetPlayerW_Some in Hon as (_ & Hp & Hw).
  exact (in_list_in_group w x _ y g Hok Hg Hm (pref_Some w x p Hp) Hw).
Qed.

(** ** The opcodes *)
Section sessions.
Context {names : NameEnv} {penv : PartyEnv}.

(** The session's player is in the world. *)
Definition logged_in (w : World) (guid : Z) : Prop :=
  exists p, w_players w !! guid = Some p /\ p_inWorld p = true.

Lemma FindPlayerByName_world w name guid p :
  FindPlayerByName w name = Some (guid, p) -> w_players w !! guid = Some p /\ p_inWorld p = true.
Proof.
  unfold FindPlayerByName. intros (n & _ & (g & _ & (q & Hq & H)%bind_Some)%bind_Some)%bind_Some.
  destruct (p_inWorld q) eqn:E; [|done]. by injection H as <- <-.
Qed.

Lemma new_group_ok w : refs_ok w -> pending_but None w ->
  let '(y, w') := new_group false w in
  refs_ok w' /\ pending_but (Some y) w' /\ w_players w' = w_players w /\
  w_groups w' !! y = Some (Group_new false).
Proof.
  intros Hok Hpd. unfold new_group. set (y := fresh (dom (w_groups w))).
  set (w' := set_w_groups _ _).
  assert (w_groups w !! y = None) as Hf by apply not_elem_of_dom, is_fresh.
  assert (forall z, gref w' z = if decide (z = y) then Some (mkGRef [] ∅ false) else gref w z) as HG.
  { intros z. unfold gref, w'. simpl. case_decide; [subst; by rewrite lookup_insert_eq|by rewrite lookup_insert_ne]. }
  assert (gref w y = None) as Hn by (unfold gref; by rewrite Hf).
  split_and!; [|intros z g Hz; simpl; rewrite lookup_insert_ne by congruence; by apply Hpd|done|
    simpl; by rewrite lookup_insert_eq].
  assert (forall z, pref w' z = pref w z) as HP by done.
  assert (forall z, is_Some (gref w z) -> is_Some (gref w' z)) as Hl.
  { intros z Hz. rewrite HG. by case_decide. }
  split; intros *; rewrite ?HP.
  - rewrite HG. case_decide; [by intros [= <-]|by apply rf_bg].
  - by apply rf_zero.
  - by apply rf_original.
  - intros Hp Hg. apply Hl. by eapply rf_live.
  - rewrite HG. case_decide; [|by apply rf_member]. subst. intros Hp Hw [= <-]. simpl.
    split; [|by intros ?%not_elem_of_nil]. intros Hg. eapply rf_live in Hg; [|done..]. rewrite Hn in Hg.
    by destruct Hg.
  - rewrite !HG. case_decide; [intros [= <-] _ Hin; by apply not_elem_of_nil in Hin|].
    case_decide; [intros _ [= <-] _ Hin; by apply not_elem_of_nil in Hin|]. by apply rf_once.
  - intros Hp Hg. apply Hl. by eapply rf_invite_live.
  - rewrite HG. case_decide; [|by apply rf_invite]. subst. intros Hp [= <-]. simpl.
    split; [|set_solver]. intros Hg. eapply rf_invite_live in Hg; [|done..]. rewrite Hn in Hg.
    by destruct Hg.
  - rewrite HG. case_decide; [intros [= <-]; simpl; set_solver|]. intros Hg Hin.
    by apply (rf_invited w Hok x y0 G).
Qed.

Lemma party_others_new w : party_ok w -> others_ok (fst (new_group false w)) (snd (new_group false w)).
Proof. intros Hp z g Hz. simpl in *. rewrite lookup_insert_ne by done. by intros ?%Hp. Qed.

Lemma party_new w : party_ok w -> party_ok (snd (new_group false w)).
Proof.
  intros Hp z g. simpl. destruct (decide (z = fresh (dom (w_groups w)))) as [->|Hn].
  - rewrite lookup_insert_eq. intros [= <-]. split; [|by left]. split_and!; try done; apply NoDup_nil_2.
  - rewrite lookup_insert_ne by done. by intros ?%Hp.
Qed.

(** An invitation into an existing group. *)
Lemma AddInvite_ok y x w p : parties_ok w -> pref w x = Some p -> r_inWorld p = true ->
  parties_ok (snd (AddInvite y x w)).
Proof.
  intros (Hp & Hok & Hpd) Hx Hw. split; [by apply gentle_AddInvite|].
  destruct (AddInvite y x w) as [[] w'] eqn:E; [|by apply AddInvite_false in E as ->].
  destruct (AddInvite_refs y x w w' p Hok Hx Hw E) as [Hok' _]. split; [done|]. simpl. by apply (AddInvite_pending None y x w).
Qed.
(** The founder's invitation to a group that does not exist yet. *)
Lemma AddLeaderInvite_ok y x w p :
  party_ok w -> refs_ok w -> pending_but (Some y) w -> slots_at w y = Some [] ->
  (forall g, w_groups w !! y = Some g -> m_subGroupsCounts g = None) ->
  pref w x = Some p -> r_inWorld p = true ->
  match AddLeaderInvite y x w with
  | (true, w') => parties_ok w' /\ (forall z, (r_inWorld <$> pref w' z) = (r_inWorld <$> pref w z))
  | (false, w') => w' = w
  end.
Proof.
  intros Hp Hok Hpd Hs Hc Hx Hw. unfold AddLeaderInvite.
  destruct (AddInvite y x w) as [[] w1] eqn:E; [|by apply AddInvite_false in E].
  destruct (AddInvite_refs y x w w1 p Hok Hx Hw E) as (Hok1 & (p1 & Hx1 & Hi1) & _).
  pose proof (gentle_AddInvite y x w) as Hge. rewrite E in Hge. destruct Hge as [G1 G2 _]. simpl in *.
  pose proof (AddInvite_pending (Some y) y x w w1 Hok E Hpd) as Hpd1.
  assert (forall z, (r_inWorld <$> pref w1 z) = (r_inWorld <$> pref w z)) as Hin.
  { intros z. by eapply AddInvite_world. }
  set (w2 := _updateLeaderFlag y true w1). destruct (quiet_updateLeaderFlag y true w1) as [Hs2 Hq2].
  fold w2 in Hs2, Hq2.
  assert (w_groups w2 = w_groups w1) as Hw2 by apply _updateLeaderFlag_groups.
  set (name := match w_players w2 !! x with Some _ => _ | None => _ end).
  set (w3 := upd_group y (fun g => set_m_leaderName name (set_m_leaderGuid x g)) w2).
  assert (same_refs w2 w3) as Hs3 by by apply same_refs_group.
  assert (refs_ok w3) as Hok3 by by rewrite <- Hs3, <- Hs2.
  assert (party_ok w3) as Hp3.
  { apply party_upd; [|apply gentle_leaderFlag; auto]. rewrite Hw2. intros g Hg [Hso _]. split; [exact Hso|left].
    specialize (G1 y). rewrite Hs in G1. unfold slots_at in G1. rewrite Hg in G1. by injection G1. }
  assert (pending_but None w3) as Hpd3.
  { intros z g _. unfold w3. rewrite upd_group_lookup, Hw2. case_decide; [subst|intros; by apply (Hpd1 z); [congruence|]].
    intros (g0 & Hg0 & ->)%fmap_Some _. simpl. split.
    - by apply (rf_invite w1 Hok1 x p1 y _ Hx1 (gref_Some w1 y g0 Hg0)).
    - by eapply AddInvite_counts. }
  destruct (quiet_updateLeaderFlag y false w3) as [Hs4 Hq4]. split.
  - split_and!; [by apply gentle_leaderFlag|by rewrite <- Hs4|by apply Hq4].
  - intros z. by rewrite (proj1 Hs4), (proj1 Hs3), (proj1 Hs2), Hin.
Qed.

Lemma invite_into_ok guid target name group w :
  parties_ok w -> logged_in w guid -> logged_in w target -> parties_ok (snd (invite_into guid target name group w)).
Proof.
  intros Hok (p & Hp & Hw) (q & Hq & Hwq). unfold invite_into. destruct group as [y|].
  - pose proof (AddInvite_ok y target w (player_ref q) Hok (pref_Some w target q Hq) Hwq) as H.
    by destruct (AddInvite y target w) as [[] w'].
  - pose proof (new_group_ok w (parties_refs w Hok) ltac:(apply Hok)) as H.
    pose proof (party_new w (parties_party w Hok)) as Hpn.
    pose proof (party_others_new w (parties_party w Hok)) as Hpo.
    destruct (new_group false w) as [y w1]. destruct H as (Hok1 & Hpd1 & Hpl & Hg). simpl in *.
    assert (pref w1 guid = Some (player_ref p)) as Hp1 by (unfold pref; by rewrite Hpl, Hp).
    assert (parties_ok (delete_group y w1)) as Hdel.
    { split_and!; [by apply delete_group_party|by apply delete_group_refs|by apply delete_group_pending]. }
    pose proof (AddLeaderInvite_ok y guid w1 _ Hpn Hok1 Hpd1 ltac:(unfold slots_at; by rewrite Hg)
      ltac:(intros g Hg'; rewrite Hg in Hg'; by injection Hg' as <-) Hp1 Hw) as H.
    destruct (AddLeaderInvite y guid w1) as [[] w2]; [|by subst].
    destruct H as [Hok2 Hin2].
    assert (exists q2, pref w2 target = Some q2 /\ r_inWorld q2 = true) as (q2 & Hq2 & Hwq2).
    { specialize (Hin2 target). unfold pref at 2 in Hin2. rewrite Hpl, Hq in Hin2. simpl in Hin2.
      apply fmap_Some in Hin2 as (q2 & Hq2 & E). exists q2. by rewrite <- E. }
    pose proof (AddInvite_ok y target w2 q2 Hok2 Hq2 Hwq2) as H3.
    destruct (AddInvite y target w2) as [[] w3] eqn:E3; [done|]. simpl in *.
    split_and!; [apply delete_group_party, party_others, H3|by apply delete_group_refs, H3|].
    by apply delete_group_pending, pending_exempt, H3.
Qed.
(** A free player joins a group that has members. *)
Lemma join_ok y x name w g p :
  parties_ok w -> w_groups w !! y = Some g -> m_memberSlots g <> [] ->
  pref w x = Some p -> r_inWorld p = true -> r_group p = None -> r_invite p = None ->
  parties_ok (snd (AddMember y x name w)).
Proof.
  intros (Hp & Hok & Hpd) Hg Hne Hx Hw Hgr Hinv.
  assert (IsMember g x = false) as Hnm.
  { destruct (IsMember g x) eqn:E; [|done]. exfalso.
    pose proof (in_list_in_group w x p y g Hok Hg E Hx Hw). congruence. }
  pose proof (AddMember_party y x name w g Hp Hg Hnm Hne) as Hp'.
  destruct (AddMember y x name w) as [[] w'] eqn:E; simpl in *.
  - destruct (AddMember_refs y x name w w' p Hok Hx Hw Hgr Hinv E) as [J1 _ _ J4].
    split_and!; [done..|]. by apply J4, pending_exempt.
  - by apply AddMember_refused in E as ->.
Qed.

(** Accepting takes the invitation away first; the founder is still free then. *)
Lemma pref_uninvited y x w p : refs_ok w -> pref w x = Some p -> r_invite p = Some y ->
  pref (RemoveInvite y x w) x = Some (mkPRef true None None None).
Proof.
  intros Hok Hp Hi. rewrite pref_RemoveInvite, decide_True, Hp by done. simpl. rewrite decide_True by done.
  destruct (rf_invite_live w Hok x p y Hp Hi) as [G HG].
  pose proof (proj1 (rf_invite w Hok x p y G Hp HG) Hi) as Hin.
  destruct (rf_invited w Hok x y G HG Hin) as (p' & Hp' & Hw & Hg).
  rewrite Hp in Hp'. injection Hp' as <-. unfold no_invite.
  by rewrite Hw, Hg, (rf_original w Hok x p Hp).
Qed.

(** The first acceptance creates the group with its founder. *)
Lemma founder_ok y w g name :
  refs_ok w -> party_ok w -> pending_but (Some y) w -> pending g ->
  w_groups w !! y = Some g -> m_memberSlots g = [] ->
  exists w', Create y (m_leaderGuid g) name
    (match GetPlayerW w (m_leaderGuid g) with
     | Some _ => RemoveInvite y (m_leaderGuid g) w | None => w end) = (true, w') /\
  parties_ok w' /\ (exists g', w_groups w' !! y = Some g' /\ m_memberSlots g' <> []) /\
  forall z, z <> m_leaderGuid g -> pref w' z = pref w z.
Proof.
  intros Hok Hp Hpd Hpend Hg Hnil. destruct (Hpend Hnil) as [Hin Hc]. set (leader := m_leaderGuid g) in *.
  destruct (rf_invited w Hok leader y _ (gref_Some w y g Hg) Hin) as (pl & Hpl & Hw & Hgr).
  assert (leader <> 0) as Hl0 by by eapply refs_nonzero.
  destruct (pref_world w leader pl Hpl Hw Hl0) as (p & _ & -> & ->).
  pose proof (proj2 (rf_invite w Hok leader _ y _ Hpl (gref_Some w y g Hg)) Hin) as Hi.
  pose proof (pref_uninvited y leader w _ Hok Hpl Hi) as Hx. set (w1 := RemoveInvite y leader w) in *.
  assert (refs_ok w1) as Hok1 by by apply RemoveInvite_refs.
  assert (exists g1, w_groups w1 !! y = Some g1 /\ m_memberSlots g1 = [] /\ m_subGroupsCounts g1 = None)
    as (g1 & Hg1 & Hnil1 & Hc1).
  { unfold w1, RemoveInvite. rewrite Hg. case_if; [|by exists g].
    rewrite upd_player_groups, upd_group_lookup, decide_True, Hg by done. eexists. split; [reflexivity|done]. }
  assert (pending_but (Some y) w1) as Hpd1 by (apply RemoveInvite_pending; [done|congruence]).
  destruct (Create_refs y leader name w1 g1 _ Hok1 Hg1 Hnil1 Hc1 Hx eq_refl eq_refl eq_refl)
    as (w2 & E & [J1 J2 J3 J4]).
  exists w2. split; [exact E|].
  destruct (Create_new y leader name w1 g1 Hg1 Hnil1 Hc1) as [_ Hcr]. rewrite E in Hcr.
  destruct Hcr as [Hp2 (slot & Hs & _)]. split; [|split].
  - split_and!; [|done|by apply J4]. apply Hp2, party_others. by apply gentle_RemoveInvite.
  - unfold slots_at in Hs. apply fmap_Some in Hs as (g2 & Hg2 & E2). exists g2. by rewrite <- E2.
  - intros z Hz. rewrite J2, decide_False by done. unfold w1. by rewrite pref_RemoveInvite, decide_False.
Qed.

Lemma HandleGroupAcceptOpcode_ok guid w : parties_ok w -> parties_ok (snd (HandleGroupAcceptOpcode guid w)).
Proof.
  intros Hok. pose proof Hok as (Hp & Hr & Hpd). unfold HandleGroupAcceptOpcode.
  destruct (_ ≫= _) as [[[p y] g]|] eqn:E; [|done].
  apply bind_Some in E as (p' & Hpl & E). apply bind_Some in E as (y' & Hi & E).
  apply bind_Some in E as (g' & Hg & [= -> -> ->]).
  case_if; [done|]. case_if; [done|]. bool_prop.
  pose proof (pref_uninvited y guid w _ Hr (pref_Some w guid p Hpl) Hi) as Hx.
  assert (refs_ok (RemoveInvite y guid w)) as Hr1 by by apply RemoveInvite_refs.
  assert (parties_ok (RemoveInvite y guid w)) as Hok1.
  { split_and!; [by apply gentle_RemoveInvite|done|]. apply RemoveInvite_pending; [done|].
    intros g0 _ Hg0. simplify_eq. by right. }
  assert (exists g1, w_groups (RemoveInvite y guid w) !! y = Some g1 /\ m_memberSlots g1 = m_memberSlots g /\
    m_leaderGuid g1 = m_leaderGuid g) as (g1 & Hg1 & Hs1 & Hl1).
  { unfold RemoveInvite. rewrite Hg. case_if; [|by exists g].
    rewrite upd_player_groups, upd_group_lookup, decide_True, Hg by done. eexists. split; [reflexivity|done]. }
  set (w1 := RemoveInvite y guid w) in *. clearbody w1. cbv zeta.
  case_if; [done|]. case_if; [done|]. case_if.
  - assert (m_memberSlots g1 = []) as Hnil.
    { rewrite Hs1. bool_prop. unfold GetMembersCount in *. by destruct (m_memberSlots g). }
    pose proof Hok1 as (Hp1 & _ & Hpd1).
    destruct (founder_ok y w1 g1 (m_leaderName g) Hr1 Hp1 (pending_exempt y w1 Hpd1)
      (Hpd1 y g1 ltac:(done) Hg1) Hg1 Hnil) as (w2 & E2 & Hok2 & (g2 & Hg2 & Hne2) & Hpref).
    rewrite Hl1 in E2. rewrite E2. simpl. rewrite Hl1 in Hpref.
    eapply join_ok; [done..| | | |]; [rewrite Hpref by congruence; exact Hx|done..].
  - simpl. eapply join_ok; [done|exact Hg1| |exact Hx|done..].
    rewrite Hs1. bool_prop. unfold GetMembersCount in *. intros Hn. by rewrite Hn in *.
Qed.
(** ** Every opcode keeps the invariant *)
Lemma HandleGroupInviteOpcode_ok guid name w :
  parties_ok w -> logged_in w guid -> parties_ok (snd (HandleGroupInviteOpcode guid name w)).
Proof.
  intros Hok Hin. unfold HandleGroupInviteOpcode. destruct (w_players w !! guid) as [self|]; [|done].
  destruct (normalizePlayerName name) as [n|]; [|done].
  destruct (FindPlayerByName w n) as [[target player]|] eqn:Hf; [|done].
  apply FindPlayerByName_world in Hf as [Hp Hw].
  do 4 (case_if; [done|]). cbv zeta. case_if; [done|]. destruct (group_refuses _ _ _ _ _) as [[? ?]|]; [done|].
  case_if; [done|]. apply invite_into_ok; [done..|by exists player].
Qed.

Lemma HandleGroupDeclineOpcode_ok guid w : parties_ok w -> parties_ok (snd (HandleGroupDeclineOpcode guid w)).
Proof.
  intros Hok. unfold HandleGroupDeclineOpcode. destruct (_ ≫= _); [by apply UninviteFromGroup_ok|done].
Qed.

Lemma HandleGroupUninviteGuidOpcode_ok guid target w :
  parties_ok w -> parties_ok (snd (HandleGroupUninviteGuidOpcode guid target w)).
Proof.
  intros Hok. unfold HandleGroupUninviteGuidOpcode. destruct (w_players w !! guid) as [p|]; [|done].
  case_if; [done|]. destruct (CanUninviteFromGroup w guid p target); try done.
  destruct (_ ≫= _) as [[gp g]|] eqn:E; [|done].
  apply bind_Some in E as (gp' & _ & E). apply bind_Some in E as (g' & Hg & [= -> ->]).
  case_if; [by eapply kick_ok|]. case_if; [by apply UninviteFromGroup_ok|done].
Qed.

Lemma GetMemberGuid_member g name : GetMemberGuid g name <> 0 -> IsMember g (GetMemberGuid g name) = true.
Proof.
  unfold GetMemberGuid. destruct (List.find _ _) as [slot|] eqn:E; [|done]. intros _.
  apply List.find_some in E as [Hin _]. apply IsMember_elem. apply list_elem_of_fmap.
  exists slot. split; [done|]. by apply list_elem_of_In.
Qed.

Lemma HandleGroupUninviteOpcode_ok guid name w :
  parties_ok w -> parties_ok (snd (HandleGroupUninviteOpcode guid name w)).
Proof.
  intros Hok. unfold HandleGroupUninviteOpcode. destruct (_ ≫= _) as [[p n]|]; [|done].
  case_if; [done|]. destruct (_ ≫= _) as [[gp g]|] eqn:E; [|done].
  apply bind_Some in E as (gp' & _ & E). apply bind_Some in E as (g' & Hg & [= -> ->]). cbv zeta.
  case_if.
  - destruct (CanUninviteFromGroup _ _ _ _); try done. bool_prop.
    eapply kick_ok; [done..|]. by apply GetMemberGuid_member.
  - destruct (GetInvited_name w g n) as [plr|]; [|done].
    destruct (CanUninviteFromGroup _ _ _ _); try done. by apply UninviteFromGroup_ok.
Qed.

Lemma HandleGroupSetLeaderOpcode_ok guid target w :
  parties_ok w -> parties_ok (snd (HandleGroupSetLeaderOpcode guid target w)).
Proof.
  intros Hok. unfold HandleGroupSetLeaderOpcode. destruct (_ ≫= _) as [[gp g]|]; [|done].
  destruct (GetPlayerW w target); [|done]. case_if; [done|]. by apply ChangeLeader_ok.
Qed.

Lemma HandleGroupDisbandOpcode_ok guid w : parties_ok w -> parties_ok (snd (HandleGroupDisbandOpcode guid w)).
Proof.
  intros Hok. unfold HandleGroupDisbandOpcode. destruct (_ ≫= _) as [p|]; [|done].
  case_if; [done|]. by apply RemoveFromGroup_ok.
Qed.

Lemma HandleLootMethodOpcode_ok guid m master threshold w :
  parties_ok w -> parties_ok (snd (HandleLootMethodOpcode guid m master threshold w)).
Proof.
  intros Hok. unfold HandleLootMethodOpcode. case_if; [done|]. case_if; [done|].
  destruct (w_players w !! guid) as [p|]; [|done]. cbv zeta.
  destruct (_ ≫= _) as [[gp g]|]; [|done]. case_if; [done|]. by apply group_change_ok.
Qed.

Lemma SetTargetIcon_ref id target g :
  group_ref (SetTargetIcon id target g) = group_ref g /\ (pending g -> pending (SetTargetIcon id target g)) /\
  (group_ok g -> group_ok (SetTargetIcon id target g)).
Proof. unfold SetTargetIcon. by case_if. Qed.

Lemma HandleRaidTargetUpdateOpcode_ok guid x target w :
  parties_ok w -> parties_ok (snd (HandleRaidTargetUpdateOpcode guid x target w)).
Proof.
  intros Hok. unfold HandleRaidTargetUpdateOpcode. destruct (_ ≫= _) as [[gp g]|]; [|done].
  case_if; [done|]. case_if; [done|].
  apply group_change_ok; [| |done]; intros g' _; destruct (SetTargetIcon_ref x target g') as (A & B & C); auto.
Qed.

Lemma HandleGroupRaidConvertOpcode_ok guid w :
  parties_ok w -> logged_in w guid -> parties_ok (snd (HandleGroupRaidConvertOpcode guid w)).
Proof.
  intros Hok (p & Hp & Hw). unfold HandleGroupRaidConvertOpcode. rewrite Hp. simpl.
  destruct (_ ≫= _) as [[[p' gp] g]|] eqn:E; [|done].
  apply bind_Some in E as (gp' & Hgp & E). apply bind_Some in E as (g' & Hg & [= -> -> ->]).
  case_if; [done|]. case_if; [done|]. apply ConvertToRaid_ok; [|done]. intros g1 Hg1. simplify_eq.
  destruct (in_group_in_list w guid p' gp (parties_refs w Hok) Hp Hw Hgp) as (g2 & Hg2 & Hm). simplify_eq.
  apply IsMember_slot in Hm as [slot Hs]. by eapply member_not_empty.
Qed.

Lemma HandleGroupChangeSubGroupOpcode_ok guid name k w : 0 <= k ->
  parties_ok w -> parties_ok (snd (HandleGroupChangeSubGroupOpcode guid name k w)).
Proof.
  intros Hk Hok. pose proof Hok as (Hp & Hr & _). unfold HandleGroupChangeSubGroupOpcode. case_if; [done|].
  destruct (_ ≫= _) as [[gp g]|]; [|done]. case_if; [done|]. case_if; [done|].
  destruct (FindPlayerByName w name) as [[x p]|] eqn:Hf.
  - apply FindPlayerByName_world in Hf as [Hpl Hw].
    apply (quiet_ok w); [apply ChangeMembersGroup_online_quiet| |done].
    apply ChangeMembersGroup_online_party; [done..|by apply refs_agree|].
    exists p. apply GetPlayerW_Some. split_and!; [|done..]. eapply refs_nonzero; [done|by apply pref_Some].
  - cbv zeta. case_if; [done|]. apply (quiet_ok w); [apply ChangeMembersGroup_quiet| |done].
    apply ChangeMembersGroup_party; [done..|by apply refs_agree].
Qed.

Lemma HandleGroupSwapSubGroupOpcode_ok guid name name' w :
  parties_ok w -> parties_ok (snd (HandleGroupSwapSubGroupOpcode guid name name' w)).
Proof.
  intros Hok. assert (forall y x x', parties_ok (SwapMembersGroup y x x' w)) as Hs.
  { intros y x x'. apply (quiet_ok w); [apply SwapMembersGroup_quiet| |done].
    apply SwapMembersGroup_party, Hok. }
  unfold HandleGroupSwapSubGroupOpcode. destruct (_ ≫= _) as [[gp g]|]; [|done]. case_if; [done|].
  destruct (FindPlayerByName w name) as [[x p]|], (FindPlayerByName w name') as [[x' p']|];
    [apply Hs|cbv zeta; case_if; [done|apply Hs]..].
Qed.

Lemma HandleGroupAssistantLeaderOpcode_ok guid target flag w :
  parties_ok w -> parties_ok (snd (HandleGroupAssistantLeaderOpcode guid target flag w)).
Proof.
  intros Hok. unfold HandleGroupAssistantLeaderOpcode. destruct (_ ≫= _) as [[gp g]|]; [|done].
  case_if; [done|]. by apply SetAssistant_ok.
Qed.

(** ** Logging out *)
Lemma RemoveFromGroup_of_forgetful y x w g :
  parties_ok w -> w_groups w !! y = Some g ->
  (forall p, pref w x = Some p -> r_inWorld p = true -> r_group p = Some y) ->
  forgetful y w (RemoveFromGroup_of y x w).
Proof.
  intros Hok Hg Hx. destruct (RemoveMember_refs y x w g Hok Hg Hx) as (H1 & Hf & _). unfold RemoveFromGroup_of.
  destruct (RemoveMember y x w) as [n w1]; simpl in *. case_if; [|done].
  transitivity w1; [done|by apply delete_group_forgets].
Qed.

(** Nobody has invited the player. *)
Definition uninvited (x : Z) (w : World) : Prop := forall p, pref w x = Some p -> r_invite p = None.

Lemma forgetful_uninvited y x w w' : forgetful y w w' -> uninvited x w -> uninvited x w'.
Proof.
  intros Hf Hu p' Hp'. specialize (Hf x). rewrite Hp' in Hf. inversion Hf as [p q Hpq E|]; subst.
  destruct Hpq as (_ & _ & _ & [->|[_ ->]]); [by apply Hu|done].
Qed.

Lemma UninviteFromGroup_uninvited x w : parties_ok w -> uninvited x (UninviteFromGroup x w).
Proof.
  intros (Hp0 & Hok & Hpd0). unfold UninviteFromGroup. destruct (_ ≫= _) as [y|] eqn:E.
  - apply bind_Some in E as (p & Hp & Hi).
    assert (uninvited x (RemoveInvite y x w)) as Hu.
    { intros p' Hp'. rewrite (pref_uninvited y x w (player_ref p)) in Hp' by (done || by apply pref_Some).
      by injection Hp' as <-. }
    assert (refs_ok (RemoveInvite y x w)) as Hok1 by by apply RemoveInvite_refs.
    set (w1 := RemoveInvite y x w) in *. clearbody w1.
    destruct (w_groups w1 !! y) as [g|] eqn:Hg; [|done]. case_if; [|done].
    set (w2 := if 0 <? GetMembersCount g then Disband y w1 else RemoveAllInvites y w1).
    assert (forgetful y w1 w2 /\ refs_ok w2) as [Hf2 Hok2].
    { unfold w2. case_if; [by destruct (Disband_refs y w1 g Hok1 Hg) as (? & _ & ?)|].
      split; [|by apply RemoveAllInvites_refs].
      exact (sr_players _ _ _ (RemoveAllInvites_shrinks y w1 Hok1)). }
    eapply (forgetful_uninvited y); [by apply delete_group_forgets|]. by eapply forgetful_uninvited.
  - intros p Hp. unfold pref in Hp. destruct (w_players w !! x) as [q|]; [|done]. injection Hp as <-. done.
Qed.

(** What the eviction loop maintains: while the group lives, the members still
    to be evicted are in it. *)
Definition evicting (guid y : Z) (l : list Z) (w : World) : Prop :=
  parties_ok w /\ uninvited guid w /\
  (forall p, pref w guid = Some p -> r_group p = Some y \/ r_group p = None /\ w_groups w !! y = None) /\
  (w_groups w !! y = None \/
   forall m p, m ∈ l -> pref w m = Some p -> r_inWorld p = true -> r_group p = Some y).

Lemma evict_step guid y m l w :
  m <> guid -> m ∉ l -> evicting guid y (m :: l) w -> evicting guid y l (evict guid w m).
Proof.
  intros Hne Hni (Hok & Hu & Hgr & Hl). unfold evict.
  assert (evicting guid y l w) as Hsame.
  { split_and!; [done..|]. destruct Hl as [|Hl]; [by left|right]. intros m' p Hm'. apply Hl. by right. }
  destruct (_ ≫= _) as [gp|] eqn:E; [|done].
  apply bind_Some in E as (p & Hp & E). apply bind_Some in E as (gp' & Hgp & E).
  apply bind_Some in E as (g & Hg & [= ->]).
  assert (gp = y) as ->.
  { destruct (Hgr _ (pref_Some w guid p Hp)) as [H|[H _]]; simpl in H; congruence. }
  destruct Hl as [Hn|Hl]; [congruence|].
  assert (forall q, pref w m = Some q -> r_inWorld q = true -> r_group q = Some y) as Hm
    by (intros q; apply Hl; by left).
  pose proof (RemoveFromGroup_of_forgetful y m w g Hok Hg Hm) as Hf.
  split_and!.
  - by eapply RemoveFromGroup_of_ok.
  - by eapply forgetful_uninvited.
  - intros q' Hq'. destruct (RemoveFromGroup_of_others y m w g guid Hok Hg Hm ltac:(done)) as [E|[Hn E]].
    + rewrite E, (pref_Some w guid p Hp) in Hq'. injection Hq' as <-. by left.
    + rewrite Hq', (pref_Some w guid p Hp) in E.
      inversion E as [a b Hab|]; subst. destruct Hab as (_ & _ & [Ea|[_ Ea]] & _); rewrite Ea; [by left|by right].
  - destruct (w_groups (RemoveFromGroup_of y m w) !! y) as [g'|] eqn:Hg'; [right|by left].
    intros m' q Hm' Hq Hw. assert (m' <> m) as Hd by (intros ->; done).
    destruct (RemoveFromGroup_of_others y m w g m' Hok Hg Hm Hd) as [E|[E _]]; [|congruence].
    rewrite E in Hq. apply (Hl m' q); [by right|done..].
Qed.

Lemma evict_all guid y l : forall w,
  NoDup l -> guid ∉ l -> evicting guid y l w -> evicting guid y [] (foldl (evict guid) w l).
Proof.
  induction l as [|m l IH]; intros w Hnd Hni He; simpl; [done|].
  apply NoDup_cons in Hnd as [Hm Hnd]. apply IH; [done|set_solver|].
  apply evict_step; [set_solver|done|done].
Qed.

Lemma RemoveFromGroup_uninvited x w : parties_ok w -> uninvited x w -> uninvited x (RemoveFromGroup x w).
Proof.
  intros Hok Hu. unfold RemoveFromGroup. destruct (_ ≫= _) as [y|] eqn:E; [|done].
  apply bind_Some in E as (p & Hp & E). apply bind_Some in E as (y' & Hy & E).
  apply bind_Some in E as (g & Hg & [= ->]).
  eapply forgetful_uninvited; [|exact Hu]. eapply RemoveFromGroup_of_forgetful; [done..|].
  intros q Hq _. unfold pref in Hq. rewrite Hp in Hq. by injection Hq as <-.
Qed.

Lemma elem_of_evicted w g guid m :
  m ∈ evicted w g guid -> m <> guid /\ m ∈ ms_guid <$> m_memberSlots g.
Proof. unfold evicted. rewrite list_elem_of_filter. tauto. Qed.

Lemma LogoutGroup_ok guid socket w :
  parties_ok w -> parties_ok (LogoutGroup guid socket w) /\ uninvited guid (LogoutGroup guid socket w).
Proof.
  intros Hok0. unfold LogoutGroup.
  pose proof (UninviteFromGroup_ok guid w Hok0) as Hok. pose proof (UninviteFromGroup_uninvited guid w Hok0) as Hu.
  set (w1 := UninviteFromGroup guid w) in *. clearbody w1. clear Hok0 w.
  set (w2 := match p ← w_players w1 !! guid; GetGroup w1 p with Some _ => _ | None => _ end).
  assert (parties_ok w2 /\ uninvited guid w2) as [Hok2 Hu2].
  { unfold w2. destruct (_ ≫= _) as [g|] eqn:E; [|done]. case_if; [|done].
    apply bind_Some in E as (p & Hp & E). apply bind_Some in E as (y & Hy & Hg).
    assert (evicting guid y [] (foldl (evict guid) w1 (evicted w1 g guid))) as (He1 & He2 & _).
    { apply evict_all.
      - apply NoDup_filter. apply (parties_party w1 Hok y g Hg).
      - intros [Hn _]%elem_of_evicted. done.
      - split_and!; [done..| |].
        + intros q Hq. left. rewrite (pref_Some w1 guid p Hp) in Hq. by injection Hq as <-.
        + right. intros m q [_ Hm]%elem_of_evicted Hq Hw.
          eapply in_list_in_group; [apply Hok|done|by apply IsMember_elem|done..]. }
    split; [by apply RemoveFromGroup_ok|by apply RemoveFromGroup_uninvited]. }
  clearbody w2. destruct (_ ≫= _) as [y|]; [|done]. split.
  - apply (quiet_ok w2); [apply quiet_UpdatePlayerOnlineStatus| |done].
    apply gentle_UpdatePlayerOnlineStatus. apply Hok2.
  - eapply (forgetful_uninvited y); [|done]. apply same_refs_forgetful, quiet_UpdatePlayerOnlineStatus.
Qed.

(** The player object goes. *)
Lemma delete_player_ok x w : parties_ok w -> uninvited x w ->
  parties_ok (set_w_players (delete x (w_players w)) w).
Proof.
  intros (Hp & Hok & Hpd) Hu. split; [done|]. split; [|done].
  set (w' := set_w_players _ _).
  assert (forall z, pref w' z = if decide (z = x) then None else pref w z) as HP.
  { intros z. unfold pref, w'. simpl. case_decide; [subst; by rewrite lookup_delete_eq|by rewrite lookup_delete_ne]. }
  assert (forall z p, pref w' z = Some p -> pref w z = Some p) as Hback by (intros z p; rewrite HP; by case_decide).
  assert (forall z, gref w' z = gref w z) as HG by done.
  split; intros *; rewrite ?HG.
  - by apply rf_bg.
  - rewrite HP. case_decide; [done|]. by apply rf_zero.
  - intros ?%Hback. by eapply rf_original.
  - intros ?%Hback. by apply (rf_live w Hok x0).
  - intros ?%Hback. by apply rf_member.
  - by apply rf_once.
  - intros ?%Hback. by apply (rf_invite_live w Hok x0).
  - intros ?%Hback. by apply rf_invite.
  - intros Hg Hin. destruct (rf_invited w Hok x0 y G Hg Hin) as (p & Hx & Hw & Hgr). exists p.
    rewrite HP. case_decide; [|done]. subst.
    apply (rf_invite w Hok x p y G Hx Hg) in Hin. specialize (Hu p Hx). congruence.
Qed.

Lemma LogoutPlayer_ok guid socket w : parties_ok w -> parties_ok (LogoutPlayer guid socket w).
Proof. intros Hok. destruct (LogoutGroup_ok guid socket w Hok). by apply delete_player_ok. Qed.

(** ** Entering the world *)
Definition EnterWorld (guid : Z) (p : Player) (group : option Z) (w : World) : World :=
  _LoadGroup group guid (set_w_players (<[guid := p]> (w_players w)) w).

(** A player object as it is loaded, before its group. *)
Definition fresh_player (p : Player) : Prop :=
  p_inWorld p = true /\ p_group p = None /\ p_originalGroup p = None /\ p_groupInvite p = None.

Lemma EnterWorld_ok guid p group w :
  parties_ok w -> guid <> 0 -> w_players w !! guid = None -> fresh_player p ->
  (forall y, group = Some y <-> member_of w y guid) -> parties_ok (EnterWorld guid p group w).
Proof.
  intros (Hp & Hok & Hpd) Hx Hnone (Hw & Hgr & Ho & Hi) Hgroup. unfold EnterWorld, _LoadGroup.
  set (w1 := match gp ← group; _ with Some _ => _ | None => _ end).
  assert (w_groups w1 = w_groups w) as HG1 by (unfold w1; by destruct (_ ≫= _) as [[? ?]|]).
  assert (forall y G, gref w y = Some G -> guid ∉ g_invited G) as Hni.
  { intros y G HG Hin. destruct (rf_invited w Hok guid y G HG Hin) as (q & Hq & _). unfold pref in Hq.
    by rewrite Hnone in Hq. }
  assert (forall y G, gref w y = Some G -> group = Some y <-> guid ∈ g_members G) as Hmem.
  { intros y G HG. rewrite Hgroup. unfold gref in HG. apply fmap_Some in HG as (g & Hg & ->). simpl.
    rewrite <- IsMember_elem. unfold member_of. rewrite Hg. naive_solver. }
  assert (forall z, pref w1 z = if decide (z = guid) then Some (mkPRef true group None None) else pref w z) as HP.
  { intros z. unfold w1. destruct group as [y|].
    - destruct (proj1 (Hgroup y) eq_refl) as (g & Hg & _). simpl. rewrite Hg. simpl. rewrite pref_upd_player.
      case_decide; [subst; simpl; rewrite lookup_insert_eq; simpl; unfold player_ref; simpl; by rewrite Hw, Ho, Hi|].
      unfold pref. simpl. by rewrite lookup_insert_ne.
    - simpl. unfold pref. simpl. case_decide; [subst|by rewrite lookup_insert_ne].
      rewrite lookup_insert_eq. simpl. unfold player_ref. by rewrite Hw, Hgr, Ho, Hi. }
  assert (forall y, gref w1 y = gref w y) as HG by (intros; unfold gref; by rewrite HG1).
  assert (refs_ok w1) as Hok1.
  { split; intros *; rewrite ?HP, ?HG.
    - by apply rf_bg.
    - rewrite decide_False by done. by apply rf_zero.
    - case_decide; [by intros [= <-]|by apply rf_original].
    - case_decide; [|by apply rf_live]. intros [= <-]. simpl. intros Hy.
      apply Hgroup in Hy as (g & Hg & _). unfold gref. rewrite Hg. by eexists.
    - case_decide; [|by apply rf_member]. intros [= <-] _ HGy. subst. by apply Hmem.
    - by apply rf_once.
    - case_decide; [by intros [= <-]|by apply rf_invite_live].
    - case_decide; [|by apply rf_invite]. intros [= <-] HGy. simpl. subst.
      split; [done|]. intros Hin. by destruct (Hni y G HGy).
    - intros HGy Hin. destruct (rf_invited w Hok x y G HGy Hin) as (q & Hq & ?). exists q.
      rewrite decide_False; [done|]. intros ->. by destruct (Hni y G HGy). }
  assert (parties_ok w1) as Hall.
  { split_and!; [unfold party_ok; by rewrite HG1|done|by apply (pending_groups None w)]. }
  apply (quiet_ok w1); [|unfold party_ok; rewrite UpdateGroupLeaderFlag_groups; apply Hall|done].
  split; [apply same_refs_leaderFlag|]. intros x. apply pending_groups, UpdateGroupLeaderFlag_groups.
Qed.

(** ** The sessions as a step relation *)
Inductive party_opcode :=
  | OpInvite (membername : string)
  | OpAccept
  | OpDecline
  | OpUninviteGuid (target : Z)
  | OpUninvite (membername : string)
  | OpSetLeader (target : Z)
  | OpDisband
  | OpLootMethod (lootMethod lootMaster lootThreshold : Z)
  | OpRaidTarget (x target : Z)
  | OpRaidConvert
  | OpChangeSubGroup (name : string) (groupNr : Z)
  | OpSwapSubGroup (name nameSwapWith : string)
  | OpAssistantLeader (target flag : Z).

Definition run_opcode (guid : Z) (op : party_opcode) (w : World) : option PartyReply * World :=
  match op with
  | OpInvite membername => HandleGroupInviteOpcode guid membername w
  | OpAccept => HandleGroupAcceptOpcode guid w
  | OpDecline => HandleGroupDeclineOpcode guid w
  | OpUninviteGuid target => HandleGroupUninviteGuidOpcode guid target w
  | OpUninvite membername => HandleGroupUninviteOpcode guid membername w
  | OpSetLeader target => HandleGroupSetLeaderOpcode guid target w
  | OpDisband => HandleGroupDisbandOpcode guid w
  | OpLootMethod m master threshold => HandleLootMethodOpcode guid m master threshold w
  | OpRaidTarget x target => HandleRaidTargetUpdateOpcode guid x target w
  | OpRaidConvert => HandleGroupRaidConvertOpcode guid w
  | OpChangeSubGroup name groupNr => HandleGroupChangeSubGroupOpcode guid name (u8 groupNr) w
  | OpSwapSubGroup name nameSwapWith => HandleGroupSwapSubGroupOpcode guid name nameSwapWith w
  | OpAssistantLeader target flag => HandleGroupAssistantLeaderOpcode guid target (u8 flag) w
  end.

Inductive party_step : World -> World -> Prop :=
  | StepOpcode guid op w : logged_in w guid -> party_step w (snd (run_opcode guid op w))
  | StepLogout guid socket w : logged_in w guid -> party_step w (LogoutPlayer guid socket w)
  | StepEnter guid p group w :
      guid <> 0 -> w_players w !! guid = None -> fresh_player p ->
      (forall y, group = Some y <-> member_of w y guid) -> party_step w (EnterWorld guid p group w).

Lemma party_step_ok w w' : party_step w w' -> parties_ok w -> parties_ok w'.
Proof.
  intros [guid op w0 Hin|guid socket w0 Hin|guid p group w0 Hx Hn Hf Hg] Hok.
  - destruct op; simpl; eauto using HandleGroupInviteOpcode_ok, HandleGroupAcceptOpcode_ok,
      HandleGroupDeclineOpcode_ok, HandleGroupUninviteGuidOpcode_ok, HandleGroupUninviteOpcode_ok,
      HandleGroupSetLeaderOpcode_ok, HandleGroupDisbandOpcode_ok, HandleLootMethodOpcode_ok,
      HandleRaidTargetUpdateOpcode_ok, HandleGroupRaidConvertOpcode_ok, HandleGroupSwapSubGroupOpcode_ok,
      HandleGroupAssistantLeaderOpcode_ok.
    apply HandleGroupChangeSubGroupOpcode_ok; [apply u8_range|done].
  - by apply LogoutPlayer_ok.
  - by apply EnterWorld_ok.
Qed.

Lemma parties_ok_empty w : w_players w = ∅ -> w_groups w = ∅ -> parties_ok w.
Proof.
  intros HP HG. split_and!.
  - intros y g. by rewrite HG.
  - split; intros *; unfold pref, gref; rewrite ?HP, ?HG; done.
  - intros y g _. by rewrite HG.
Qed.

Lemma reachable_parties w0 w :
  w_players w0 = ∅ -> w_groups w0 = ∅ -> rtc party_step w0 w -> parties_ok w.
Proof.
  intros HP HG Hr. pose proof (parties_ok_empty w0 HP HG) as Hok. clear HP HG.
  induction Hr as [|w1 w2 w3 Hs _ IH]; [done|]. apply IH. by eapply party_step_ok.
Qed.
End sessions.
