(* ===== verification/PartyOutcomes.v ===== *)
(** What the single party opcodes achieve: invitations, acceptance, kicking,
    leaving and logging out. *)

From S2P Require Import Prelude CString World Party PartySlots PartyInv PartyRaid PartyHandlers PartyRefs PartySessions.

(** ** Invitations *)
Lemma AddInvite_true y x w w' : AddInvite y x w = (true, w') ->
  exists g g', w_groups w !! y = Some g /\ w_groups w' !! y = Some g' /\ x ∈ m_invitees g' /\
    m_memberSlots g' = m_memberSlots g /\ m_leaderGuid g' = m_leaderGuid g /\ m_groupType g' = m_groupType g.
Proof.
  unfold AddInvite, RemoveInvite. destruct (w_players w !! x) as [pl|]; [|done].
  destruct (w_groups w !! y) as [g|] eqn:Hg; [|done]. destruct (p_groupInvite pl); [done|].
  destruct (match p_group pl with Some _ => _ | None => _ end); [done|]. intros [= <-]. exists g.
  rewrite upd_player_groups, upd_group_lookup, decide_True by done.
  case_if; [rewrite upd_player_groups, upd_group_lookup, decide_True by done|]; rewrite Hg;
    eexists; (split_and!; [done|reflexivity|simpl; set_solver|done..]).
Qed.

(** One more invitation, nothing else. *)
Definition invites_only (y : Z) (w w1 : World) : Prop :=
  forall z, option_Forall2 (fun p p1 => r_inWorld p1 = r_inWorld p /\ r_original p1 = r_original p /\
     r_group p1 = r_group p /\ (r_invite p1 = r_invite p \/ r_invite p = None /\ r_invite p1 = Some y))
     (pref w z) (pref w1 z).

(** A failed attempt to found a group leaves no trace. *)
Lemma abandoned_group w w1 w' y :
  refs_ok w -> gref w y = None -> refs_ok w' -> forgetful y w1 w' ->
  invites_only y w w1 -> (forall z, gref w' z = if decide (z = y) then None else gref w z) -> same_refs w w'.
Proof.
  intros Hok Hy Hok' Hf Hw1 HG. split.
  - intros z. specialize (Hf z). specialize (Hw1 z).
    inversion Hw1 as [p p1 H1 E E1|E E1]; inversion Hf as [q p' H' Eq E'|Eq E']; rewrite <- E1 in Eq;
      simplify_eq; [|done].
    destruct H1 as (A1 & A2 & A3 & A4), H' as (B1 & B2 & B3 & B4). f_equal.
    symmetry in E, E'.
    assert (r_group p <> Some y /\ r_invite p <> Some y /\ r_invite p' <> Some y) as (Hg & Hi & Hi').
    { split_and!; intros Hr.
      - destruct (rf_live w Hok z p y E Hr) as [? Hl]. congruence.
      - destruct (rf_invite_live w Hok z p y E Hr) as [? Hl]. congruence.
      - destruct (rf_invite_live w' Hok' z p' y E' Hr) as [? Hl]. by rewrite HG, decide_True in Hl. }
    destruct p as [a b c d], p1 as [a1 b1 c1 d1], p' as [a' b' c' d']. simpl in *. naive_solver.
  - intros z. rewrite HG. case_decide; [by subst|done].
Qed.

Lemma invites_only_same y w w1 : (forall z, pref w1 z = pref w z) -> invites_only y w w1.
Proof. intros H z. rewrite H. destruct (pref w z); constructor. naive_solver. Qed.

Lemma AddLeaderInvite_only y x w w' : refs_ok w -> AddLeaderInvite y x w = (true, w') -> invites_only y w w'.
Proof.
  intros Hok. unfold AddLeaderInvite. destruct (AddInvite y x w) as [[] w1] eqn:E; [|done]. intros [= <-] z.
  set (w2 := _updateLeaderFlag y true w1).
  set (w3 := upd_group y _ w2). pose proof (proj1 (same_refs_updateLeaderFlag y false w3) z) as E3.
  pose proof (proj1 (same_refs_updateLeaderFlag y true w1) z) as E1. fold w2 in E1.
  rewrite E3. change (pref w3 z) with (pref w2 z). rewrite E1. clear E3 E1 w2 w3.
  unfold AddInvite in E. destruct (w_players w !! x) as [pl|] eqn:Hpl; [|done].
  destruct (w_groups w !! y) as [g|] eqn:Hg; [|done]. destruct (p_groupInvite pl) eqn:Hi; [done|].
  destruct (match p_group pl with Some _ => _ | None => _ end); [done|].
  rewrite (RemoveInvite_uninvited y x w pl) in E by done. injection E as <-.
  rewrite pref_upd_player, pref_upd_group. case_decide; [subst|].
  - simpl. rewrite (pref_Some w x pl Hpl), Hpl. constructor. simpl. naive_solver.
  - destruct (pref w z); constructor. naive_solver.
Qed.

Lemma AddInvite_others y x w z : z <> y -> gref (snd (AddInvite y x w)) z = gref w z.
Proof.
  intros Hz. unfold AddInvite. destruct (w_players w !! x); [|done]. destruct (w_groups w !! y); [|done].
  destruct (p_groupInvite _); [done|]. destruct (match p_group _ with Some _ => _ | None => _ end); [done|].
  simpl. by rewrite gref_upd_player, gref_upd_group, decide_False, gref_RemoveInvite, decide_False.
Qed.

Lemma AddLeaderInvite_others y x w z : z <> y -> gref (snd (AddLeaderInvite y x w)) z = gref w z.
Proof.
  intros Hz. unfold AddLeaderInvite. pose proof (AddInvite_others y x w z Hz) as H.
  destruct (AddInvite y x w) as [[] w1]; [|done]. simpl in *.
  rewrite (proj2 (same_refs_updateLeaderFlag y false _) z), gref_upd_group, decide_False by done.
  by rewrite (proj2 (same_refs_updateLeaderFlag y true _) z).
Qed.

Lemma AddLeaderInvite_true y x w w' : AddLeaderInvite y x w = (true, w') ->
  exists g g', w_groups w !! y = Some g /\ w_groups w' !! y = Some g' /\
    m_memberSlots g' = m_memberSlots g /\ m_leaderGuid g' = x /\ m_groupType g' = m_groupType g.
Proof.
  unfold AddLeaderInvite. destruct (AddInvite y x w) as [[] w1] eqn:E; [|done]. intros [= <-].
  apply AddInvite_true in E as (g & g1 & Hg & Hg1 & _ & Hs & _ & Ht). exists g.
  rewrite _updateLeaderFlag_groups, upd_group_lookup, decide_True, _updateLeaderFlag_groups, Hg1 by done.
  eexists. split_and!; [done|reflexivity|done..].
Qed.

(** A free player has been invited by somebody who may, into a group with room. *)
Definition invitation_made (w w' : World) (guid target : Z) : Prop :=
  exists p p' gp g', w_players w !! target = Some p /\ p_group p = None /\ p_groupInvite p = None /\
    w_players w' !! target = Some p' /\ p_groupInvite p' = Some gp /\
    w_groups w' !! gp = Some g' /\ target ∈ m_invitees g' /\ may_lead g' guid = true /\ IsFull g' = false.

Section outcomes.
Context {names : NameEnv} {penv : PartyEnv}.

Lemma may_lead_ext g g' guid : m_memberSlots g' = m_memberSlots g -> m_leaderGuid g' = m_leaderGuid g ->
  may_lead g' guid = may_lead g guid.
Proof. unfold may_lead, IsLeader, IsAssistant, getMemberSlot. by intros -> ->. Qed.
Lemma IsFull_ext g g' : m_memberSlots g' = m_memberSlots g -> m_groupType g' = m_groupType g ->
  IsFull g' = IsFull g.
Proof. unfold IsFull, GetMembersCount. by intros -> ->. Qed.

(** A free player's invitation, from an intermediate world on. *)
Lemma invitation_entered w w1 w2 y target guid p g :
  refs_ok w1 -> w_players w !! target = Some p -> p_inWorld p = true -> p_groupInvite p = None ->
  r_group <$> pref w1 target = r_group <$> pref w target ->
  r_inWorld <$> pref w1 target = r_inWorld <$> pref w target ->
  AddInvite y target w1 = (true, w2) ->
  w_groups w1 !! y = Some g -> may_lead g guid = true -> IsFull g = false -> invitation_made w w2 guid target.
Proof.
  intros Hok Hp Hw Hi Hgr Hin E Hg Hl Hf. rewrite (pref_Some w target p Hp) in Hgr, Hin. simpl in *.
  destruct (pref w1 target) as [p1|] eqn:Hp1; [|done]. simpl in *. injection Hgr as Hgr. injection Hin as Hin.
  destruct (AddInvite_refs y target w1 w2 p1 Hok Hp1 ltac:(congruence) E) as (_ & (p2 & Hp2 & Hi2) & Hn).
  apply AddInvite_true in E as (g0 & g' & Hg0 & Hg' & Hx & Hs & Hld & Ht). rewrite Hg in Hg0. injection Hg0 as <-.
  unfold pref in Hp2. apply fmap_Some in Hp2 as (p' & Hp' & ->).
  exists p, p', y, g'. rewrite (may_lead_ext g g'), (IsFull_ext g g') by done.
  split_and!; [done|congruence|done..].
Qed.

Lemma invite_into_outcome guid target name group w self player :
  parties_ok w -> w_players w !! guid = Some self -> p_inWorld self = true ->
  w_players w !! target = Some player -> p_inWorld player = true -> p_groupInvite player = None ->
  own_group w self = group -> group_refuses w guid player name group = None ->
  let '(reply, w') := invite_into guid target name group w in
  match reply with
  | Some r => re_result r = ERR_PARTY_RESULT_OK /\ invitation_made w w' guid target
  | None => same_refs w w'
  end.
Proof.
  intros Hok Hself Hws Hp Hw Hi Hown Href. pose proof (parties_refs w Hok) as Hr. unfold invite_into.
  destruct group as [y|].
  - destruct (AddInvite y target w) as [[] w'] eqn:E; [|by apply AddInvite_false in E as ->].
    simpl. split; [done|]. pose proof E as E2. apply AddInvite_true in E2 as (g & _ & Hg & _).
    unfold group_refuses in Href. simpl in Href. rewrite Hg in Href. simpl in Href.
    assert (may_lead g guid = true /\ IsFull g = false) as [Hl Hf].
    { unfold may_lead. destruct (IsLeader g guid), (IsAssistant g guid), (IsFull g); simpl in *; done. }
    by eapply (invitation_entered w w w' y target guid player g).
  - pose proof (new_group_ok w Hr ltac:(apply Hok)) as Hnew.
    pose proof (party_new w (parties_party w Hok)) as Hpn.
    assert (gref w (fst (new_group false w)) = None) as Hfresh.
    { unfold gref, new_group. simpl. by rewrite (proj1 (not_elem_of_dom _ _) (is_fresh _)). }
    assert (forall z, z <> fst (new_group false w) -> gref (snd (new_group false w)) z = gref w z) as Hothers.
    { intros z Hz. unfold gref, new_group in *. simpl in *. by rewrite lookup_insert_ne. }
    destruct (new_group false w) as [y w1]. destruct Hnew as (Hok1 & Hpd1 & Hpl & Hg). simpl in *.
    assert (forall z, pref w1 z = pref w z) as HP1 by (intros z; unfold pref; by rewrite Hpl).
    destruct (AddLeaderInvite y guid w1) as [[] w2] eqn:E2.
    + assert (pref w1 guid = Some (player_ref self)) as Hx by (by rewrite HP1; apply pref_Some).
      pose proof (AddLeaderInvite_ok y guid w1 _ Hpn Hok1 Hpd1 ltac:(unfold slots_at; by rewrite Hg)
        ltac:(intros g Hg'; rewrite Hg in Hg'; by injection Hg' as <-) Hx Hws) as H.
      rewrite E2 in H. destruct H as [(_ & Hok2 & _) Hin2].
      pose proof (AddLeaderInvite_only y guid w1 w2 Hok1 E2) as Honly.
      assert (invites_only y w w2) as Honly' by (intros z; rewrite <- HP1; apply Honly).
      destruct (AddInvite y target w2) as [[] w3] eqn:E3.
      * simpl. split; [done|]. pose proof E2 as E2'.
        apply AddLeaderInvite_true in E2' as (g0 & g2 & Hg0 & Hg2 & Hs2 & Hl2 & Ht2).
        rewrite Hg in Hg0. injection Hg0 as <-.
        apply (invitation_entered w w2 w3 y target guid player g2); try done.
        -- specialize (Honly' target). rewrite (pref_Some w target player Hp) in *.
           inversion Honly' as [a b (_ & _ & Hab & _)|]. simpl. by rewrite Hab.
        -- by rewrite Hin2, HP1.
        -- unfold may_lead, IsLeader. by rewrite Hl2, Z.eqb_refl.
        -- by rewrite (IsFull_ext (Group_new false) g2).
      * apply AddInvite_false in E3 as ->. simpl.
        apply (abandoned_group w w2 _ y); [done..|by apply delete_group_refs|by apply delete_group_forgets|done|].
        intros z. unfold gref. rewrite delete_group_groups. case_decide; [done|].
        change (gref w2 z = gref w z). rewrite <- Hothers by done.
        pose proof (AddLeaderInvite_others y guid w1 z) as Hz. rewrite E2 in Hz. by apply Hz.
    + assert (w2 = w1) as ->.
      { unfold AddLeaderInvite in E2. destruct (AddInvite y guid w1) as [[] w1'] eqn:E; [done|].
        apply AddInvite_false in E. congruence. }
      simpl. apply (abandoned_group w w1 _ y);
        [done..|by apply delete_group_refs|by apply delete_group_forgets|by apply invites_only_same|].
      intros z. unfold gref. rewrite delete_group_groups. case_decide; [done|]. by apply Hothers.
Qed.

(** ** Acceptance *)
Lemma join_outcome y x name w g p :
  parties_ok w -> w_groups w !! y = Some g -> IsFull g = false ->
  pref w x = Some p -> r_inWorld p = true -> r_group p = None -> r_invite p = None ->
  let w' := snd (AddMember y x name w) in
  member_of w' y x /\ pref w' x = Some (joined_ref y) /\ forall z, member_of w y z -> member_of w' y z.
Proof.
  intros (Hp & Hok & _) Hg Hf Hx Hw Hgr Hi. cbv zeta.
  pose proof (AddMember_accepts y x name w g Hg (proj1 (Hp y g Hg)) Hf ltac:(by eapply refs_nonzero)) as Ha.
  destruct (AddMember y x name w) as [b w'] eqn:E. simpl in *. subst.
  destruct (AddMember_refs y x name w w' p Hok Hx Hw Hgr Hi E) as [_ J _ _].
  apply AddMember_joined, joined_laws in E as (Hm & Hk & _).
  split_and!; [done|by rewrite J, decide_True|by apply Hk].
Qed.

Lemma founder_group y g name w1 w' :
  Create y (m_leaderGuid g) name w1 = (true, w') -> w_groups w1 !! y = Some g -> m_bgGroup g = false ->
  m_memberSlots g = [] -> m_subGroupsCounts g = None ->
  exists g', w_groups w' !! y = Some g' /\ IsMember g' (m_leaderGuid g) = true /\ IsFull g' = false.
Proof.
  intros E Hg Hb Hn Hc. destruct (Create_new y (m_leaderGuid g) name w1 g Hg Hn Hc) as [_ H]. rewrite E in H.
  destruct H as [_ (slot & Hs & <-)]. unfold slots_at in Hs. apply fmap_Some in Hs as (g' & Hg' & Hsl).
  exists g'. split_and!; [done| |].
  - apply IsMember_elem. rewrite <- Hsl. by left.
  - unfold IsFull, GetMembersCount, MAX_GROUP_SIZE, MAX_RAID_SIZE. rewrite <- Hsl. by destruct (m_groupType g').
Qed.

Lemma RemoveInvite_group y x w g : w_groups w !! y = Some g ->
  exists g', w_groups (RemoveInvite y x w) !! y = Some g' /\ m_memberSlots g' = m_memberSlots g /\
    m_leaderGuid g' = m_leaderGuid g /\ m_groupType g' = m_groupType g /\
    m_subGroupsCounts g' = m_subGroupsCounts g /\ m_bgGroup g' = m_bgGroup g.
Proof.
  intros Hg. unfold RemoveInvite. rewrite Hg. case_if; [|by exists g].
  rewrite upd_player_groups, upd_group_lookup, decide_True, Hg by done. eexists. split; [reflexivity|done].
Qed.

(** The player is in the group and free of invitations, and so is its leader in it. *)
Definition accepted_into (w' : World) (gp guid leader : Z) : Prop :=
  member_of w' gp guid /\ member_of w' gp leader /\
  exists p', w_players w' !! guid = Some p' /\ p_group p' = Some gp /\ p_groupInvite p' = None.

Lemma accept_outcome guid w p gp g :
  parties_ok w -> w_players w !! guid = Some p -> p_groupInvite p = Some gp -> w_groups w !! gp = Some g ->
  m_leaderGuid g <> guid -> Script_CanMemberAccept gp guid = true -> IsFull g = false ->
  Group_HandleHardcoreInteraction (RemoveInvite gp guid w) g p = true ->
  fst (HandleGroupAcceptOpcode guid w) = None /\
  accepted_into (snd (HandleGroupAcceptOpcode guid w)) gp guid (m_leaderGuid g).
Proof.
  intros Hok Hp Hi Hg Hne Hs Hf Hh. pose proof Hok as (Hpo & Hr & Hpd).
  unfold HandleGroupAcceptOpcode. rewrite Hp. simpl. rewrite Hi. simpl. rewrite Hg. simpl.
  rewrite (proj2 (Z.eqb_neq _ _) Hne), Hs, Hf, Hh. simpl.
  pose proof (pref_uninvited gp guid w _ Hr (pref_Some w guid p Hp) Hi) as Hx.
  destruct (RemoveInvite_group gp guid w g Hg) as (g1 & Hg1 & S1 & L1 & T1 & C1 & B1).
  assert (refs_ok (RemoveInvite gp guid w)) as Hr1 by by apply RemoveInvite_refs.
  assert (parties_ok (RemoveInvite gp guid w)) as Hok1.
  { split_and!; [by apply gentle_RemoveInvite|done|]. apply RemoveInvite_pending; [done|].
    intros g0 _ Hg0. simplify_eq. by right. }
  pose proof (rf_bg w Hr gp _ (gref_Some w gp g Hg)) as Hb. simpl in Hb.
  set (w1 := RemoveInvite gp guid w) in *. clearbody w1.
  assert (forall w2 g2, parties_ok w2 -> w_groups w2 !! gp = Some g2 -> IsFull g2 = false ->
    member_of w2 gp (m_leaderGuid g) -> pref w2 guid = Some (mkPRef true None None None) ->
    accepted_into (snd (AddMember gp guid (p_name p) w2)) gp guid (m_leaderGuid g)) as Hjoin.
  { intros w2 g2 Hok2 Hg2 Hf2 Hm2 Hx2.
    destruct (join_outcome gp guid (p_name p) w2 g2 _ Hok2 Hg2 Hf2 Hx2 eq_refl eq_refl eq_refl) as (A & B & C).
    split; [done|]. split; [by apply C|]. unfold pref in B. apply fmap_Some in B as (p' & Hp' & E).
    exists p'. injection E as _ Hgr _ Hinv. done. }
  destruct (Z.eqb_spec (GetMembersCount g) 0) as [Hz|Hz]; simpl.
  - assert (m_memberSlots g1 = []) as Hnil.
    { rewrite S1. unfold GetMembersCount in Hz. by destruct (m_memberSlots g). }
    pose proof Hok1 as (Hp1 & _ & Hpd1).
    destruct (Hpd1 gp g1 ltac:(done) Hg1 Hnil) as [_ Hc1].
    destruct (founder_ok gp w1 g1 (m_leaderName g) Hr1 Hp1 (pending_exempt gp w1 Hpd1)
      (Hpd1 gp g1 ltac:(done) Hg1) Hg1 Hnil) as (w2 & E2 & Hok2 & _ & Hpref).
    rewrite L1 in E2, Hpref. rewrite E2. simpl. split; [done|].
    assert (exists g', w_groups w2 !! gp = Some g' /\ IsMember g' (m_leaderGuid g) = true /\ IsFull g' = false)
      as (g2 & Hg2 & Hm2 & Hf2).
    { destruct (GetPlayerW w1 (m_leaderGuid g)).
      - destruct (RemoveInvite_group gp (m_leaderGuid g) w1 g1 Hg1) as (g3 & Hg3 & S3 & L3 & T3 & C3 & B3).
        assert (m_leaderGuid g3 = m_leaderGuid g) as L by congruence. rewrite <- L in *.
        eapply founder_group; [exact E2|done|congruence|congruence|congruence].
      - rewrite <- L1 in *. eapply founder_group; [exact E2|done|congruence|congruence|congruence]. }
    eapply Hjoin; [done..|by exists g2|]. rewrite Hpref by congruence. exact Hx.
  - split; [done|]. apply (Hjoin w1 g1); [done..| | |done].
    + by rewrite (IsFull_ext g g1).
    + exists g1. split; [done|]. rewrite <- L1. destruct (parties_party w1 Hok1 gp g1 Hg1) as [_ [Hnil|Hm]]; [|done].
      rewrite S1 in Hnil. unfold GetMembersCount in Hz. by rewrite Hnil in Hz.
Qed.

(** ** Kicking *)
(** May [guid] throw [target] out? *)
Definition may_kick (w : World) (guid target : Z) : Prop :=
  exists p g, w_players w !! guid = Some p /\ GetGroup w p = Some g /\ may_lead g guid = true /\
    m_leaderGuid g <> target /\ p_inBattleGround p = false.

Lemma CanUninvite_may_kick w guid p target :
  w_players w !! guid = Some p -> CanUninviteFromGroup w guid p target = ERR_PARTY_RESULT_OK ->
  may_kick w guid target.
Proof.
  intros Hp. unfold CanUninviteFromGroup. destruct (GetGroup w p) as [g|] eqn:Hg; [|done].
  case_if; [done|]. case_if; [done|]. case_if; [done|]. intros _. bool_prop. exists p, g.
  split_and!; try done. unfold may_lead. by destruct (IsLeader g guid), (IsAssistant g guid).
Qed.

(** ** Leaving *)
Lemma leave_outcome guid w p gp :
  parties_ok w -> w_players w !! guid = Some p -> p_inWorld p = true -> p_group p = Some gp ->
  exists p', w_players (RemoveFromGroup guid w) !! guid = Some p' /\ p_group p' = None /\
    forall y, ~ member_of (RemoveFromGroup guid w) y guid.
Proof.
  intros Hok Hp Hw Hgp. pose proof Hok as (Hpo & Hr & _).
  destruct (in_group_in_list w guid p gp Hr Hp Hw Hgp) as (g & Hg & Hm).
  pose proof (RemoveFromGroup_ok guid w Hok) as Hok'. pose proof Hok' as (_ & Hr' & _).
  assert (forgetful gp w (RemoveFromGroup guid w)) as Hf.
  { rewrite (RemoveFromGroup_eq guid w p gp g) by done. eapply RemoveFromGroup_of_forgetful; [done..|].
    intros q Hq _. rewrite (pref_Some w guid p Hp) in Hq. by injection Hq as <-. }
  assert (~ member_of (RemoveFromGroup guid w) gp guid) as Hout.
  { intros (g' & Hg' & Hm'). pose proof (RemoveFromGroup_slots guid w p gp g gp Hp Hgp Hg Hm) as Hs.
    unfold slots_at in Hs. rewrite decide_True, Hg' in Hs by done. simpl in Hs. case_if; [done|].
    injection Hs as Hs. apply IsMember_elem in Hm'. rewrite Hs in Hm'.
    apply erase_slot_guids in Hm'; [tauto|]. apply (Hpo gp g Hg). }
  specialize (Hf guid). rewrite (pref_Some w guid p Hp) in Hf.
  inversion Hf as [a q Hfg Ea Eq|]; subst. symmetry in Eq. destruct Hfg as (Ew & _ & Eg & _). simpl in *.
  assert (r_inWorld q = true) as Hwq by congruence.
  assert (r_group q = None) as Hn.
  { destruct Eg as [Eg|[_ ?]]; [|done]. exfalso. apply Hout. rewrite Hgp in Eg.
    destruct (rf_live _ Hr' guid q gp Eq Eg) as [G HG]. unfold gref in HG.
    apply fmap_Some in HG as (g' & Hg' & ->). exists g'. split; [done|]. apply IsMember_elem.
    by apply (rf_member _ Hr' guid q gp _ Eq Hwq (gref_Some _ gp g' Hg')). }
  unfold pref in Eq. apply fmap_Some in Eq as (p' & Hp' & ->). exists p'. split_and!; [done..|].
  intros y (g' & Hg' & Hm').
  pose proof (in_list_in_group _ guid _ y g' Hr' Hg' Hm' (pref_Some _ guid p' Hp') Hwq). congruence.
Qed.

(** ** Logging out *)
Lemma evict_members guid y m l w z :
  m <> guid -> m ∉ l -> evicting guid y (m :: l) w -> logged_in w guid ->
  (forall z', z' ∈ m :: l -> w_groups w !! y = None \/ member_of w y z') ->
  (member_of (evict guid w m) y z -> member_of w y z /\ z <> m) /\
  (forall z', z' <> m -> w_groups w !! y = None \/ member_of w y z' ->
     w_groups (evict guid w m) !! y = None \/ member_of (evict guid w m) y z') /\
  world_frame w (evict guid w m).
Proof.
  intros Hne Hni (Hok & _ & Hgr & _) (p & Hp & Hw) Hmem. unfold evict. rewrite Hp. simpl.
  destruct (Hgr _ (pref_Some w guid p Hp)) as [Hy|[Hy Hn]]; simpl in Hy; rewrite Hy; simpl.
  - destruct (in_group_in_list w guid p y (parties_refs w Hok) Hp Hw Hy) as (g & Hg & _). rewrite Hg. simpl.
    assert (IsMember g m = true) as Hm.
    { destruct (Hmem m ltac:(by left)) as [Hn|(g' & Hg' & Hm)]; [congruence|]. by simplify_eq. }
    pose proof (RemoveFromGroup_of_slots m w y g y Hg Hm) as Hs. rewrite decide_True in Hs by done.
    assert (NoDup (ms_guid <$> m_memberSlots g)) as Hnd by apply (parties_party w Hok y g Hg).
    unfold slots_at in Hs. split_and!.
    + intros (g' & Hg' & Hz). rewrite Hg' in Hs. simpl in Hs. case_if; [done|]. injection Hs as Hs.
      apply IsMember_elem in Hz. rewrite Hs in Hz. apply erase_slot_guids in Hz as [Hz Hd]; [|done].
      split; [|done]. exists g. split; [done|]. by apply IsMember_elem.
    + intros z' Hz' [Hn|(g2 & Hg2 & Hm2)]; [congruence|]. simplify_eq.
      destruct (w_groups (RemoveFromGroup_of y m w) !! y) as [g'|] eqn:Hg'; [right|by left].
      exists g'. split; [done|]. simpl in Hs. case_if; [done|]. injection Hs as Hs.
      apply IsMember_elem. rewrite Hs. apply erase_slot_guids; [done|].
      split; [by apply IsMember_elem|done].
    + apply RemoveFromGroup_of_frame.
  - split_and!; [|intros z' _ _; by left|apply world_frame_refl]. intros (g & Hg & _). congruence.
Qed.

Lemma world_frame_logged w w' guid : world_frame w w' -> logged_in w guid -> logged_in w' guid.
Proof.
  intros [Hf _] (p & Hp & Hw). specialize (Hf guid). rewrite Hp in Hf.
  destruct (w_players w' !! guid) as [q|] eqn:Hq; [|done]. exists q. split; [done|].
  by rewrite (same_static_inWorld p q).
Qed.

Lemma evict_all_members guid y l : forall w,
  NoDup l -> guid ∉ l -> evicting guid y l w -> logged_in w guid ->
  (forall z', z' ∈ l -> w_groups w !! y = None \/ member_of w y z') ->
  (forall z, member_of (foldl (evict guid) w l) y z -> member_of w y z /\ z ∉ l) /\
  (forall z, z ∉ l -> w_groups w !! y = None \/ member_of w y z ->
     w_groups (foldl (evict guid) w l) !! y = None \/ member_of (foldl (evict guid) w l) y z) /\
  world_frame w (foldl (evict guid) w l).
Proof.
  induction l as [|m l IH]; intros w Hnd Hni He Hin Hmem; simpl.
  - split_and!; [intros z Hz; split; [done|by apply not_elem_of_nil]|done|apply world_frame_refl].
  - apply NoDup_cons in Hnd as [Hm Hnd]. assert (m <> guid) as Hne by set_solver.
    pose proof (fun z => evict_members guid y m l w z Hne Hm He Hin Hmem) as Hstep.
    destruct (Hstep 0) as (_ & Hkeep & Hf).
    destruct (IH (evict guid w m)) as (H1 & H2 & H3); [done|set_solver|by apply evict_step|
      by eapply world_frame_logged|intros z' Hz'; apply Hkeep; [congruence|apply Hmem; by right]|].
    split_and!; [| |by eapply world_frame_trans].
    + intros z Hz. apply H1 in Hz as [Hz Hzl].
      apply (Hstep z) in Hz as [Hz Hzm]. split; [done|]. by apply not_elem_of_cons.
    + intros z [Hz Hzl]%not_elem_of_cons Hin'. by apply H2, Hkeep.
Qed.

(** The departing player's own step, once his company has gone. *)
Lemma last_departure guid gp w p :
  parties_ok w -> w_players w !! guid = Some p -> p_inWorld p = true ->
  p_group p = Some gp \/ p_group p = None /\ w_groups w !! gp = None ->
  exists p', w_players (RemoveFromGroup guid w) !! guid = Some p' /\ p_group p' = None /\
    (forall y, ~ member_of (RemoveFromGroup guid w) y guid) /\
    (forall m, member_of (RemoveFromGroup guid w) gp m -> member_of w gp m) /\
    (forall m, m <> guid -> w_groups w !! gp = None \/ member_of w gp m ->
       w_groups (RemoveFromGroup guid w) !! gp = None \/ member_of (RemoveFromGroup guid w) gp m) /\
    world_frame w (RemoveFromGroup guid w).
Proof.
  intros Hok Hp Hw [Hgr|[Hgr Hn]].
  - destruct (leave_outcome guid w p gp Hok Hp Hw Hgr) as (p' & Hp' & Hg' & Hout).
    destruct (in_group_in_list w guid p gp (parties_refs w Hok) Hp Hw Hgr) as (g & Hg & Hm).
    pose proof (RemoveFromGroup_slots guid w p gp g gp Hp Hgr Hg Hm) as Hs.
    pose proof (proj1 (parties_party w Hok gp g Hg)) as (Hnd & _).
    exists p'. split_and!; [done..| | |].
    + intros m (g' & Hgg & Hmm). exists g. split; [done|].
      unfold slots_at in Hs. rewrite decide_True, Hgg in Hs by done. simpl in Hs. case_if; [done|].
      injection Hs as Hs. apply IsMember_elem in Hmm. rewrite Hs in Hmm.
      apply erase_slot_guids in Hmm as [Hmm _]; [by apply IsMember_elem|done].
    + intros m Hne [Hn|(g2 & Hg2 & Hm2)]; [congruence|]. simplify_eq.
      destruct (w_groups (RemoveFromGroup guid w) !! gp) as [g'|] eqn:Hgg; [right|by left].
      exists g'. split; [done|]. unfold slots_at in Hs. rewrite decide_True, Hgg in Hs by done. simpl in Hs.
      case_if; [done|]. injection Hs as Hs. apply IsMember_elem. rewrite Hs.
      apply erase_slot_guids; [done|]. split; [by apply IsMember_elem|done].
    + rewrite (RemoveFromGroup_eq guid w p gp g) by done. apply RemoveFromGroup_of_frame.
  - assert (RemoveFromGroup guid w = w) as -> by (unfold RemoveFromGroup; rewrite Hp; simpl; by rewrite Hgr).
    exists p. split_and!; [done..| |done|done|apply world_frame_refl].
    intros y (g & Hg & Hm).
    pose proof (in_list_in_group w guid _ y g (parties_refs w Hok) Hg Hm (pref_Some w guid p Hp) Hw) as E.
    simpl in E. congruence.
Qed.

Lemma in_group_uninvited guid w p gp :
  parties_ok w -> w_players w !! guid = Some p -> p_group p = Some gp -> UninviteFromGroup guid w = w /\ p_groupInvite p = None.
Proof.
  intros (_ & Hrf & _) Hp Hgp.
  assert (p_groupInvite p = None) as Hi.
  { destruct (p_groupInvite p) as [y|] eqn:Hi; [|done]. exfalso.
    pose proof (pref_uninvited y guid w _ Hrf (pref_Some w guid p Hp) Hi) as Hx.
    rewrite pref_RemoveInvite, decide_True, (pref_Some w guid p Hp) in Hx by done. simpl in Hx.
    rewrite decide_True in Hx by done. unfold no_invite in Hx. simpl in Hx. congruence. }
  split; [|done]. unfold UninviteFromGroup. rewrite Hp. simpl. by rewrite Hi.
Qed.

(** The eviction starts from a consistent world. *)
Lemma evicting_own guid w p gp g :
  parties_ok w -> w_players w !! guid = Some p -> p_group p = Some gp -> w_groups w !! gp = Some g ->
  evicting guid gp (evicted w g guid) w.
Proof.
  intros Hok Hp Hgp Hg. split_and!; [done| | |].
  - intros q Hq. rewrite (pref_Some w guid p Hp) in Hq. injection Hq as <-. simpl.
    by eapply in_group_uninvited.
  - intros q Hq. left. rewrite (pref_Some w guid p Hp) in Hq. by injection Hq as <-.
  - right. intros m q [_ Hm]%elem_of_evicted Hq Hwq.
    eapply in_list_in_group; [apply Hok|done|by apply IsMember_elem|done..].
Qed.

(** What is left to do after the evictions: the player's own departure. *)
Lemma LogoutGroup_alone guid w p gp g p2 :
  parties_ok w -> w_players w !! guid = Some p -> p_group p = Some gp -> w_groups w !! gp = Some g ->
  isRaidGroup g = false ->
  let w2 := RemoveFromGroup guid (foldl (evict guid) w (evicted w g guid)) in
  w_players w2 !! guid = Some p2 -> p_group p2 = None -> LogoutGroup guid true w = w2.
Proof.
  intros Hok Hp Hgp Hg Hr w2 Hp2 Hn.
  assert (match p ← w_players w !! guid; GetGroup w p with
          | Some g => if negb (isRaidGroup g) && true
                      then RemoveFromGroup guid (foldl (evict guid) w (evicted w g guid)) else w
          | None => w
          end = w2) as E.
  { rewrite Hp. simpl. unfold GetGroup. rewrite Hgp. simpl. rewrite Hg. by rewrite Hr. }
  unfold LogoutGroup. rewrite (proj1 (in_group_uninvited guid w p gp Hok Hp Hgp)), E, Hp2. simpl. by rewrite Hn.
Qed.

Lemma logout_outcome guid w p gp g :
  parties_ok w -> w_players w !! guid = Some p -> p_inWorld p = true -> p_group p = Some gp ->
  w_groups w !! gp = Some g -> isRaidGroup g = false ->
  let w' := LogoutPlayer guid true w in
  (forall y, ~ member_of w' y guid) /\
  (forall m, member_of w' gp m -> member_of w gp m /\ (exists pm, GetPlayerW w' m = Some pm) /\
     Script_IsMachineDriven m = false) /\
  (forall m, member_of w gp m -> m <> guid -> is_Some (GetPlayerW w m) -> Script_IsMachineDriven m = false ->
     w_groups w' !! gp = None \/ member_of w' gp m).
Proof.
  intros Hok Hp Hw Hgp Hg Hr. cbv zeta. pose proof Hok as (Hpo & Hrf & _).
  assert (NoDup (evicted w g guid)) as Hnd by (apply NoDup_filter, (Hpo gp g Hg)).
  assert (guid ∉ evicted w g guid) as Hni by (intros [Hn _]%elem_of_evicted; done).
  pose proof (evicting_own guid w p gp g Hok Hp Hgp Hg) as Hev.
  destruct (evict_all_members guid gp (evicted w g guid) w Hnd Hni Hev ltac:(by exists p)) as (Hm & Hk & Hf).
  { intros z' [_ Hz]%elem_of_evicted. right. exists g. split; [done|]. by apply IsMember_elem. }
  pose proof (evict_all guid gp (evicted w g guid) w Hnd Hni Hev) as (Hok1 & _ & Hgr1 & _).
  set (w1 := foldl (evict guid) w (evicted w g guid)) in *.
  assert (exists p1, w_players w1 !! guid = Some p1 /\ p_inWorld p1 = true) as (p1 & Hp1 & Hw1).
  { by apply (world_frame_logged w w1 guid Hf); exists p. }
  destruct (last_departure guid gp w1 p1 Hok1 Hp1 Hw1 (Hgr1 _ (pref_Some w1 guid p1 Hp1)))
    as (p2 & Hp2 & Hn2 & Hout & Hkeep & Hstay & Hf2).
  unfold LogoutPlayer. rewrite (LogoutGroup_alone guid w p gp g p2) by done. fold w1.
  split_and!; [exact Hout| |intros m Hmem Hne [pm Hpm] Hbot; apply Hstay; [done|]; apply Hk; [|by right];
    unfold evicted; rewrite list_elem_of_filter; intuition congruence].
  intros m Hmem. pose proof (Hkeep m Hmem) as Hmem1. apply Hm in Hmem1 as [Hmw Hnot].
  destruct Hmw as (g' & Hg' & Hmg). simplify_eq. split; [by exists g|].
  assert (m <> guid) as Hne by (intros ->; by apply (Hout gp)).
  unfold evicted in Hnot. rewrite list_elem_of_filter in Hnot. apply IsMember_elem in Hmg.
  destruct (GetPlayerW w m) as [pm|] eqn:Hpm; [|tauto].
  split; [|destruct (Script_IsMachineDriven m); [tauto|done]].
  destruct (GetPlayerW_frame _ _ m pm (world_frame_trans _ _ _ Hf Hf2) Hpm) as (q & Hq & _).
  exists q. apply GetPlayerW_Some in Hq as (? & Hq & ?). apply GetPlayerW_Some. split_and!; [done| |done].
  simpl. by rewrite lookup_delete_ne by done.
Qed.
End outcomes.
