(* ===== verification/PartyRoster.v ===== *)
(** An abstract specification of the parties: a roster tells for every group
    id the guids of its members in order, and changes in three ways only.
    The opcodes, logging in and logging out refine it. *)

From S2P Require Import Prelude CString World Party PartySlots PartyInv PartyRaid PartyHandlers PartyRefs PartySessions PartyOutcomes.

(** ** The specification *)
Definition Roster := Z -> list Z.
Definition roster_eq (R R' : Roster) : Prop := forall y, R' y = R y.

#[export] Instance roster_eq_equivalence : Equivalence roster_eq.
Proof.
  split; unfold roster_eq.
  - done.
  - by intros R R' H y.
  - intros R1 R2 R3 A B y. by rewrite B.
Qed.

(** One group's list changes. *)
Definition roster_set (y : Z) (l : list Z) (R R' : Roster) : Prop :=
  R' y = l /\ forall z, z <> y -> R' z = R z.

(** Somebody who is in no group joins one that has room; a party comes into
    being by its founder joining the empty list. *)
Inductive roster_join (R R' : Roster) : Prop :=
  | JoinSame : roster_eq R R' -> roster_join R R'
  | JoinOne y x : (forall z, x ∉ R z) -> Z.of_nat (length (R y)) < MAX_RAID_SIZE ->
      roster_set y (R y ++ [x]) R R' -> roster_join R R'.

(** A member leaves a group of three or more; a group of two or one is dissolved. *)
Inductive roster_leave (R R' : Roster) : Prop :=
  | LeaveSame : roster_eq R R' -> roster_leave R R'
  | LeaveOne y x : x ∈ R y -> (2 < length (R y))%nat ->
      roster_set y (filter (fun z => z <> x) (R y)) R R' -> roster_leave R R'
  | LeaveLast y : (0 < length (R y) <= 2)%nat -> roster_set y [] R R' -> roster_leave R R'.

Definition roster_ok (R : Roster) : Prop :=
  (forall y, NoDup (R y) /\ Z.of_nat (length (R y)) <= MAX_RAID_SIZE) /\
  (forall x y y', x ∈ R y -> x ∈ R y' -> y = y').

Lemma roster_join_ok R R' : roster_join R R' -> roster_ok R -> roster_ok R'.
Proof.
  intros [He|y x Hx Hl [Hy Hs]] [A B].
  - split; intros *; rewrite !He; [apply A|apply B].
  - assert (forall z, R' z = if decide (z = y) then R y ++ [x] else R z) as HR.
    { intros z. case_decide; [by subst|by apply Hs]. }
    split.
    + intros z. rewrite HR. case_decide; [|apply A]. rewrite length_app. simpl. split; [|lia].
      apply NoDup_app. split_and!; [apply A| |apply NoDup_singleton]. intros u Hu ->%list_elem_of_singleton.
      by apply (Hx y).
    + intros u z z'. rewrite !HR. do 2 case_decide; subst; rewrite ?elem_of_app, ?list_elem_of_singleton.
      * done.
      * intros [Hu| ->] Hz; [by eapply B|by edestruct Hx].
      * intros Hz [Hu| ->]; [by eapply B|by edestruct Hx].
      * apply B.
Qed.

Lemma roster_leave_ok R R' : roster_leave R R' -> roster_ok R -> roster_ok R'.
Proof.
  assert (forall y l, roster_set y l R R' -> sublist l (R y) -> roster_ok R -> roster_ok R') as Hset.
  { intros y l [Hy Hs] Hsub [A B].
    assert (forall z, sublist (R' z) (R z)) as HR.
    { intros z. destruct (decide (z = y)) as [->|]; [by rewrite Hy|by rewrite Hs]. }
    split.
    - intros z. split; [eapply sublist_NoDup; [apply A|apply HR]|].
      pose proof (sublist_length _ _ (HR z)). pose proof (proj2 (A z)). lia.
    - intros u z z' Hz Hz'. by apply (B u); (eapply elem_of_sublist; [|apply HR]). }
  intros [He|y x Hx Hl Hs|y Hl Hs] Hok.
  - destruct Hok as [A B]. split; intros *; rewrite !He; [apply A|apply B].
  - eapply Hset; [done|apply sublist_filter|done].
  - eapply Hset; [done|apply sublist_nil_l|done].
Qed.

(** ** The abstraction *)
Definition roster (w : World) : Roster := fun y => from_option g_members [] (gref w y).

Lemma roster_slots w y : roster w y = ms_guid <$> default [] (slots_at w y).
Proof. unfold roster, gref, slots_at. by destruct (w_groups w !! y). Qed.

Lemma roster_same_slots w w' : (forall y, slots_at w' y = slots_at w y) -> roster_eq (roster w) (roster w').
Proof. intros H y. by rewrite !roster_slots, H. Qed.
Lemma roster_gentle w w' : gentle w w' -> roster_eq (roster w) (roster w').
Proof. intros [H _ _]. by apply roster_same_slots. Qed.
Lemma roster_refs w w' : same_refs w w' -> roster_eq (roster w) (roster w').
Proof. intros [_ H] y. unfold roster. by rewrite H. Qed.
Lemma roster_quiet w w' : quiet_party w w' -> roster_eq (roster w) (roster w').
Proof. intros [H _]. by apply roster_refs. Qed.

#[export] Instance roster_join_proper : Proper (roster_eq ==> roster_eq ==> iff) roster_join.
Proof.
  assert (forall R1 R2 S1 S2, roster_eq R1 R2 -> roster_eq S1 S2 -> roster_join R1 S1 -> roster_join R2 S2) as H.
  { intros R1 R2 S1 S2 HR HS [He|y x Hx Hl [Hy Hs]].
    - apply JoinSame. by rewrite <- HR, <- HS.
    - apply (JoinOne _ _ y x); [intros z; by rewrite HR|by rewrite HR|].
      split; [by rewrite HS, HR|]. intros z Hz. rewrite HS, HR. by apply Hs. }
  intros R1 R2 HR S1 S2 HS. split; [by apply H|]. apply H; by symmetry.
Qed.
#[export] Instance roster_leave_proper : Proper (roster_eq ==> roster_eq ==> iff) roster_leave.
Proof.
  assert (forall R1 R2 S1 S2, roster_eq R1 R2 -> roster_eq S1 S2 -> roster_leave R1 S1 -> roster_leave R2 S2) as H.
  { intros R1 R2 S1 S2 HR HS [He|y x Hx Hl [Hy Hs]|y Hl [Hy Hs]].
    - apply LeaveSame. by rewrite <- HR, <- HS.
    - apply (LeaveOne _ _ y x); [by rewrite HR|by rewrite HR|].
      split; [by rewrite HS, HR|]. intros z Hz. rewrite HS, HR. by apply Hs.
    - apply (LeaveLast _ _ y); [by rewrite HR|].
      split; [by rewrite HS|]. intros z Hz. rewrite HS, HR. by apply Hs. }
  intros R1 R2 HR S1 S2 HS. split; [by apply H|]. apply H; by symmetry.
Qed.

(** ** The operations *)
Lemma erase_slot_filter x l : NoDup (ms_guid <$> l) ->
  ms_guid <$> erase_slot x l = filter (fun z => z <> x) (ms_guid <$> l).
Proof.
  induction l as [|s l IH]; csimpl; [done|]. intros [Hn Hd]%NoDup_cons.
  destruct (Z.eqb_spec (ms_guid s) x) as [<-|Hne].
  - rewrite filter_cons_False by tauto. symmetry. clear -Hn. induction l as [|t l IH]; csimpl; [done|].
    apply not_elem_of_cons in Hn as [Hn1 Hn2]. rewrite filter_cons_True by congruence. by rewrite IH.
  - rewrite filter_cons_True by done. by rewrite fmap_cons, IH.
Qed.

Lemma kick_leaves y x w g : party_ok w -> w_groups w !! y = Some g -> IsMember g x = true ->
  roster_leave (roster w) (roster (RemoveFromGroup_of y x w)).
Proof.
  intros Hp Hg Hm. pose proof (RemoveFromGroup_of_slots x w y g) as Hs.
  assert (roster w y = ms_guid <$> m_memberSlots g) as HR by (rewrite roster_slots; unfold slots_at; by rewrite Hg).
  pose proof Hm as Hin. apply IsMember_elem in Hin. rewrite <- HR in Hin.
  assert (Z.of_nat (length (roster w y)) = GetMembersCount g) as Hl by (rewrite HR, length_fmap; done).
  destruct (Z.leb_spec (GetMembersCount g) 2) as [Hc|Hc].
  - apply (LeaveLast _ _ y).
    + destruct (roster w y) eqn:E; [by apply not_elem_of_nil in Hin|]. simpl in *. lia.
    + split; intros *; [|intros Hz]; rewrite !roster_slots, Hs by done; [by rewrite decide_True|by rewrite decide_False].
  - apply (LeaveOne _ _ y x); [done|lia|]. split; intros *; [|intros Hz].
    + rewrite (roster_slots (RemoveFromGroup_of y x w)), Hs, decide_True by done. simpl.
      rewrite HR. apply erase_slot_filter, (Hp y g Hg).
    + by rewrite !roster_slots, Hs, decide_False by done.
Qed.

Lemma RemoveFromGroup_leaves x w : parties_ok w ->
  (forall p, pref w x = Some p -> r_inWorld p = true) -> roster_leave (roster w) (roster (RemoveFromGroup x w)).
Proof.
  intros Hok Hin. unfold RemoveFromGroup. destruct (_ ≫= _) as [y|] eqn:E; [|by apply LeaveSame].
  apply bind_Some in E as (p & Hp & E). apply bind_Some in E as (y' & Hy & E).
  apply bind_Some in E as (g & Hg & [= ->]). pose proof (Hin _ (pref_Some w x p Hp)) as Hw.
  destruct (in_group_in_list w x p y (parties_refs w Hok) Hp Hw Hy) as (g' & Hg' & Hm). simplify_eq.
  eapply kick_leaves; [apply Hok|done..].
Qed.

Lemma UninviteFromGroup_leaves x w : roster_leave (roster w) (roster (UninviteFromGroup x w)).
Proof.
  unfold UninviteFromGroup. destruct (_ ≫= _) as [y|]; [|by apply LeaveSame].
  rewrite (roster_gentle _ _ (gentle_RemoveInvite y x w)). set (w1 := RemoveInvite y x w). clearbody w1. clear w.
  destruct (w_groups w1 !! y) as [g|] eqn:Hg; [|by apply LeaveSame]. case_if; [|by apply LeaveSame]. bool_prop.
  set (w2 := if 0 <? GetMembersCount g then Disband y w1 else RemoveAllInvites y w1).
  assert (forall z, z <> y -> slots_at w2 z = slots_at w1 z) as Hs.
  { intros z Hz. unfold w2. case_if.
    - by rewrite (proj2 (Disband_spec y w1 g Hg)), decide_False.
    - apply gentle_RemoveAllInvites. }
  assert (roster_set y [] (roster w1) (roster (delete_group y w2))) as Hset.
  { split; intros *; [|intros Hz]; rewrite !roster_slots, delete_group_slots; [by rewrite decide_True|].
    rewrite decide_False by done. by rewrite Hs. }
  assert (Z.of_nat (length (roster w1 y)) = GetMembersCount g) as Hl.
  { rewrite roster_slots. unfold slots_at. rewrite Hg. simpl. by rewrite length_fmap. }
  destruct (decide (roster w1 y = [])) as [Hn|Hn].
  - apply LeaveSame. intros z. destruct (decide (z = y)) as [->|Hz]; [|by apply Hset].
    rewrite Hn. apply Hset.
  - apply (LeaveLast _ _ y); [|done]. destruct (roster w1 y); [done|]. simpl in *. lia.
Qed.

Section refinement.
Context {names : NameEnv} {penv : PartyEnv}.

(** *** Joining *)
Lemma join_joins y x w w' : joins_refs y x w w' -> joined y x w w' ->
  (forall z, x ∉ roster w z) -> roster_join (roster w) (roster w').
Proof.
  intros [_ _ HG _] [_ _ (g & Hg & Hf & _) _] Hx. apply (JoinOne _ _ y x); [done| |].
  - rewrite roster_slots. unfold slots_at. rewrite Hg. simpl. rewrite length_fmap.
    unfold IsFull, GetMembersCount, MAX_GROUP_SIZE, MAX_RAID_SIZE in *. destruct (m_groupType g); lia.
  - unfold roster. split; intros *; [|intros Hz]; rewrite HG; [|by rewrite decide_False].
    rewrite decide_True by done. by rewrite (gref_Some w y g Hg).
Qed.

Lemma free_nowhere w x p : refs_ok w -> pref w x = Some p -> r_inWorld p = true -> r_group p = None ->
  forall z, x ∉ roster w z.
Proof.
  intros Hok Hp Hw Hgr z Hin. unfold roster in Hin. destruct (gref w z) as [G|] eqn:HG; simpl in Hin;
    [|by apply not_elem_of_nil in Hin].
  apply (rf_member w Hok x p z G Hp Hw HG) in Hin. congruence.
Qed.

Lemma AddMember_joins y x name w p :
  refs_ok w -> pref w x = Some p -> r_inWorld p = true -> r_group p = None -> r_invite p = None ->
  roster_join (roster w) (roster (snd (AddMember y x name w))).
Proof.
  intros Hok Hp Hw Hgr Hi. destruct (AddMember y x name w) as [[] w'] eqn:E.
  - eapply join_joins; [by eapply AddMember_refs|by eapply AddMember_joined|by eapply free_nowhere].
  - apply AddMember_refused in E as ->. by apply JoinSame.
Qed.

(** The founder enters his own group with the first acceptance. *)
Lemma founder_joins y w g name :
  refs_ok w -> party_ok w -> pending_but (Some y) w -> pending g ->
  w_groups w !! y = Some g -> m_memberSlots g = [] ->
  exists w', Create y (m_leaderGuid g) name
    (match GetPlayerW w (m_leaderGuid g) with
     | Some _ => RemoveInvite y (m_leaderGuid g) w | None => w end) = (true, w') /\
  refs_ok w' /\ (forall z, z <> m_leaderGuid g -> pref w' z = pref w z) /\
  roster_join (roster w) (roster w').
Proof.
  intros Hok Hp Hpd Hpend Hg Hnil.
  destruct (founder_ok y w g name Hok Hp Hpd Hpend Hg Hnil) as (w' & E & (_ & Hok' & _) & _ & Hpref).
  exists w'. split_and!; [done..|]. destruct (Hpend Hnil) as [Hin _].
  destruct (rf_invited w Hok _ y _ (gref_Some w y g Hg) Hin) as (pl & Hpl & Hw & Hgr).
  set (w1 := match GetPlayerW w _ with Some _ => _ | None => _ end) in E.
  assert (gentle w w1) as Hge by (unfold w1; destruct (GetPlayerW w _); [apply gentle_RemoveInvite|apply gentle_refl]).
  destruct (slots_at w1 y) as [l|] eqn:Hl; rewrite (ge_slots _ _ Hge) in Hl; unfold slots_at in Hl; rewrite Hg in Hl; [|done].
  injection Hl as <-.
  assert (exists g1, w_groups w1 !! y = Some g1 /\ m_memberSlots g1 = [] /\ m_subGroupsCounts g1 = None)
    as (g1 & Hg1 & Hnil1 & Hc1).
  { unfold w1. destruct (GetPlayerW w _); [|by exists g; destruct (Hpend Hnil)].
    destruct (Hpend Hnil) as [_ Hc]. unfold RemoveInvite. rewrite Hg. case_if; [|by exists g].
    rewrite upd_player_groups, upd_group_lookup, decide_True, Hg by done. eexists. split; [reflexivity|done]. }
  destruct (Create_new y (m_leaderGuid g) name w1 g1 Hg1 Hnil1 Hc1) as [Hoth Hcr]. rewrite E in Hoth, Hcr.
  destruct Hcr as [_ (slot & Hs & Hguid)]. simpl in Hoth.
  assert (roster w y = []) as HR by (rewrite roster_slots; unfold slots_at; rewrite Hg; simpl; by rewrite Hnil).
  apply (JoinOne _ _ y (m_leaderGuid g)); [by eapply free_nowhere|by rewrite HR|].
  split; intros *; [|intros Hz]; rewrite !roster_slots.
  - rewrite Hs. unfold slots_at. rewrite Hg. simpl. by rewrite Hnil, Hguid.
  - by rewrite Hoth, (ge_slots _ _ Hge).
Qed.

Lemma AddLeaderInvite_slots y x w z : slots_at (snd (AddLeaderInvite y x w)) z = slots_at w z.
Proof.
  unfold AddLeaderInvite. pose proof (ge_slots _ _ (gentle_AddInvite y x w) z) as H.
  destruct (AddInvite y x w) as [[] w1]; [|done]. simpl in *.
  rewrite (ge_slots _ _ (gentle_leaderFlag y false _)). unfold slots_at in *. rewrite upd_group_lookup.
  rewrite _updateLeaderFlag_groups. case_decide; [subst|done]. destruct (w_groups w1 !! y); [done|]. by rewrite <- H.
Qed.

Lemma accept_joins guid w : parties_ok w ->
  rtc roster_join (roster w) (roster (snd (HandleGroupAcceptOpcode guid w))).
Proof.
  intros Hok. pose proof Hok as (Hp & Hr & Hpd). unfold HandleGroupAcceptOpcode.
  assert (forall w', roster_eq (roster w) (roster w') -> rtc roster_join (roster w) (roster w')) as Hsame.
  { intros w' H. by apply rtc_once, JoinSame. }
  destruct (_ ≫= _) as [[[p y] g]|] eqn:E; [|by apply Hsame].
  apply bind_Some in E as (p' & Hpl & E). apply bind_Some in E as (y' & Hi & E).
  apply bind_Some in E as (g' & Hg & [= -> -> ->]).
  case_if; [by apply Hsame|]. case_if; [by apply Hsame|]. bool_prop.
  pose proof (pref_uninvited y guid w _ Hr (pref_Some w guid p Hpl) Hi) as Hx.
  assert (refs_ok (RemoveInvite y guid w)) as Hr1 by by apply RemoveInvite_refs.
  assert (party_ok (RemoveInvite y guid w)) as Hp1 by by apply gentle_RemoveInvite.
  assert (pending_but (Some y) (RemoveInvite y guid w)) as Hpd1.
  { by apply RemoveInvite_pending; [by apply pending_exempt|]. }
  pose proof (roster_gentle _ _ (gentle_RemoveInvite y guid w)) as He.
  assert (exists g1, w_groups (RemoveInvite y guid w) !! y = Some g1 /\ m_memberSlots g1 = m_memberSlots g /\
    m_leaderGuid g1 = m_leaderGuid g /\ (pending g -> m_leaderGuid g <> guid -> pending g1)) as (g1 & Hg1 & Hs1 & Hl1 & Hq1).
  { unfold RemoveInvite. rewrite Hg. case_if; [|by exists g].
    rewrite upd_player_groups, upd_group_lookup, decide_True, Hg by done. eexists. split; [reflexivity|].
    split_and!; [done..|]. intros Hq Hne Hnil. destruct (Hq Hnil) as [Hin Hc]. split; [|done]. simpl. set_solver. }
  set (w1 := RemoveInvite y guid w) in *. clearbody w1. cbv zeta.
  case_if; [by apply Hsame|]. case_if; [by apply Hsame|]. apply (rtc_l _ _ (roster w1)); [by apply JoinSame|].
  case_if.
  - bool_prop. assert (m_memberSlots g1 = []) as Hnil.
    { rewrite Hs1. unfold GetMembersCount in *. by destruct (m_memberSlots g). }
    assert (pending g1) as Hq by (apply Hq1; [by apply (Hpd y)|done]).
    destruct (founder_joins y w1 g1 (m_leaderName g) Hr1 Hp1 Hpd1 Hq Hg1 Hnil) as (w2 & E2 & Hr2 & Hpref & Hj).
    rewrite Hl1 in E2, Hpref. rewrite E2. simpl. eapply rtc_l; [exact Hj|]. apply rtc_once.
    eapply AddMember_joins; [done|rewrite Hpref by congruence; exact Hx|done..].
  - simpl. apply rtc_once. eapply AddMember_joins; [done|exact Hx|done..].
Qed.

(** *** The opcodes *)
Lemma invite_into_roster guid target name group w :
  parties_ok w -> roster_eq (roster w) (roster (snd (invite_into guid target name group w))).
Proof.
  intros Hok. unfold invite_into. destruct group as [y|].
  - pose proof (gentle_AddInvite y target w) as H. destruct (AddInvite y target w) as [[] w'];
      by apply roster_gentle.
  - assert (forall y w', slots_at w y = None -> (forall z, z <> y -> slots_at w' z = slots_at w z) ->
      roster_eq (roster w) (roster (delete_group y w'))) as Hdel.
    { intros y w' Hn Hs z. rewrite !roster_slots, delete_group_slots. case_decide; subst; [by rewrite Hn|by rewrite Hs]. }
    assert (slots_at w (fst (new_group false w)) = None) as Hn.
    { unfold slots_at. simpl. by rewrite (proj1 (not_elem_of_dom _ _) (is_fresh _)). }
    assert (forall z, slots_at (snd (new_group false w)) z =
      if decide (z = fst (new_group false w)) then Some [] else slots_at w z) as Hs.
    { intros z. unfold slots_at. simpl. case_decide; subst; [by rewrite lookup_insert_eq|by rewrite lookup_insert_ne]. }
    destruct (new_group false w) as [y w1]. simpl in *.
    pose proof (AddLeaderInvite_slots y guid w1) as H2. destruct (AddLeaderInvite y guid w1) as [[] w2]; simpl in *.
    + pose proof (ge_slots _ _ (gentle_AddInvite y target w2)) as H3.
      destruct (AddInvite y target w2) as [[] w3]; simpl in *.
      * intros z. rewrite !roster_slots, H3, H2, Hs. case_decide; [subst; by rewrite Hn|done].
      * apply Hdel; [done|]. intros z Hz. by rewrite H3, H2, Hs, decide_False.
    + apply Hdel; [done|]. intros z Hz. by rewrite H2, Hs, decide_False.
Qed.

Lemma HandleGroupInviteOpcode_roster guid name w :
  parties_ok w -> roster_eq (roster w) (roster (snd (HandleGroupInviteOpcode guid name w))).
Proof.
  intros Hok. unfold HandleGroupInviteOpcode. destruct (w_players w !! guid) as [self|]; [|done].
  destruct (normalizePlayerName name) as [n|]; [|done].
  destruct (FindPlayerByName w n) as [[target player]|]; [|done].
  do 4 (case_if; [done|]). cbv zeta. case_if; [done|]. destruct (group_refuses _ _ _ _ _) as [[? ?]|]; [done|].
  case_if; [done|]. by apply invite_into_roster.
Qed.

Lemma HandleGroupUninviteGuidOpcode_leaves guid target w :
  parties_ok w -> roster_leave (roster w) (roster (snd (HandleGroupUninviteGuidOpcode guid target w))).
Proof.
  intros Hok. unfold HandleGroupUninviteGuidOpcode. destruct (w_players w !! guid) as [p|]; [|by apply LeaveSame].
  case_if; [by apply LeaveSame|]. destruct (CanUninviteFromGroup w guid p target); try by apply LeaveSame.
  destruct (_ ≫= _) as [[gp g]|] eqn:E; [|by apply LeaveSame].
  apply bind_Some in E as (gp' & _ & E). apply bind_Some in E as (g' & Hg & [= -> ->]).
  case_if; [eapply kick_leaves; [apply Hok|done..]|]. case_if; [apply UninviteFromGroup_leaves|by apply LeaveSame].
Qed.

Lemma HandleGroupUninviteOpcode_leaves guid name w :
  parties_ok w -> roster_leave (roster w) (roster (snd (HandleGroupUninviteOpcode guid name w))).
Proof.
  intros Hok. unfold HandleGroupUninviteOpcode. destruct (_ ≫= _) as [[p n]|]; [|by apply LeaveSame].
  case_if; [by apply LeaveSame|]. destruct (_ ≫= _) as [[gp g]|] eqn:E; [|by apply LeaveSame].
  apply bind_Some in E as (gp' & _ & E). apply bind_Some in E as (g' & Hg & [= -> ->]). cbv zeta.
  case_if.
  - destruct (CanUninviteFromGroup _ _ _ _); try by apply LeaveSame. bool_prop.
    eapply kick_leaves; [apply Hok|done|]. by apply GetMemberGuid_member.
  - destruct (GetInvited_name w g n) as [plr|]; [|by apply LeaveSame].
    destruct (CanUninviteFromGroup _ _ _ _); try by apply LeaveSame. apply UninviteFromGroup_leaves.
Qed.

Lemma HandleGroupDisbandOpcode_leaves guid w :
  parties_ok w -> logged_in w guid -> roster_leave (roster w) (roster (snd (HandleGroupDisbandOpcode guid w))).
Proof.
  intros Hok (q & Hq & Hw). unfold HandleGroupDisbandOpcode. destruct (_ ≫= _) as [p|]; [|by apply LeaveSame].
  case_if; [by apply LeaveSame|]. simpl. apply RemoveFromGroup_leaves; [done|].
  intros r Hr. rewrite (pref_Some w guid q Hq) in Hr. by injection Hr as <-.
Qed.

(** The other opcodes leave all lists alone. *)
Lemma upd_group_roster y f w :
  (forall g, w_groups w !! y = Some g -> ms_guid <$> m_memberSlots (f g) = ms_guid <$> m_memberSlots g) ->
  roster_eq (roster w) (roster (upd_group y f w)).
Proof.
  intros Hf z. rewrite !roster_slots. unfold slots_at. rewrite upd_group_lookup. case_decide; [subst|done].
  destruct (w_groups w !! y) as [g|] eqn:E; [|done]. simpl. by rewrite Hf.
Qed.

Lemma ConvertToRaid_roster y w : roster_eq (roster w) (roster (ConvertToRaid y w)).
Proof. by apply upd_group_roster. Qed.

Lemma SetAssistant_roster y x b w : roster_eq (roster w) (roster (SetAssistant y x b w)).
Proof.
  apply upd_group_roster. intros g _. case_if; [|done]. unfold _setAssistantFlag.
  destruct (getMemberSlot g x); [|done]. simpl. by apply upd_slot_guids.
Qed.

Definition moves_members (op : party_opcode) : bool :=
  match op with OpAccept | OpDecline | OpUninviteGuid _ | OpUninvite _ | OpDisband => true | _ => false end.

Lemma other_opcodes_same guid op w : parties_ok w -> moves_members op = false ->
  roster_eq (roster w) (roster (snd (run_opcode guid op w))).
Proof.
  intros Hok Hm. destruct op as [name| | |target|name|target| |m master threshold|x target| |name nr|name name'|target flag];
    try done; simpl.
  - by apply HandleGroupInviteOpcode_roster.
  - unfold HandleGroupSetLeaderOpcode. destruct (_ ≫= _) as [[gp g]|]; [|done].
    destruct (GetPlayerW w target); [|done]. case_if; [done|]. apply roster_quiet, quiet_setLeader.
  - unfold HandleLootMethodOpcode. case_if; [done|]. case_if; [done|].
    destruct (w_players w !! guid) as [p|]; [|done]. cbv zeta.
    destruct (_ ≫= _) as [[gp g]|]; [|done]. case_if; [done|]. by apply upd_group_roster.
  - unfold HandleRaidTargetUpdateOpcode. destruct (_ ≫= _) as [[gp g]|]; [|done].
    case_if; [done|]. case_if; [done|]. apply upd_group_roster. intros g' _. unfold SetTargetIcon. by case_if.
  - unfold HandleGroupRaidConvertOpcode. destruct (_ ≫= _) as [[[p gp] g]|]; [|done].
    case_if; [done|]. case_if; [done|]. apply ConvertToRaid_roster.
  - unfold HandleGroupChangeSubGroupOpcode. case_if; [done|].
    destruct (_ ≫= _) as [[gp g]|]; [|done]. case_if; [done|]. case_if; [done|].
    destruct (FindPlayerByName w name) as [[x p]|]; [apply roster_quiet, ChangeMembersGroup_online_quiet|].
    cbv zeta. case_if; [done|]. apply roster_quiet, ChangeMembersGroup_quiet.
  - unfold HandleGroupSwapSubGroupOpcode. destruct (_ ≫= _) as [[gp g]|]; [|done]. case_if; [done|].
    destruct (FindPlayerByName w name) as [[x p]|], (FindPlayerByName w name') as [[x' p']|];
      [apply roster_quiet, SwapMembersGroup_quiet|
       cbv zeta; case_if; [done|apply roster_quiet, SwapMembersGroup_quiet]..].
  - unfold HandleGroupAssistantLeaderOpcode. destruct (_ ≫= _) as [[gp g]|]; [|done].
    case_if; [done|]. apply SetAssistant_roster.
Qed.

(** What an opcode may do to the roster. *)
Definition opcode_spec (op : party_opcode) : relation Roster :=
  match op with
  | OpAccept => rtc roster_join
  | OpDecline | OpUninviteGuid _ | OpUninvite _ | OpDisband => roster_leave
  | _ => roster_eq
  end.

Lemma opcode_refines guid op w : parties_ok w -> logged_in w guid ->
  opcode_spec op (roster w) (roster (snd (run_opcode guid op w))).
Proof.
  intros Hok Hin. destruct (moves_members op) eqn:E.
  - destruct op; try done; simpl.
    + by apply accept_joins.
    + unfold HandleGroupDeclineOpcode. destruct (_ ≫= _); [apply UninviteFromGroup_leaves|by apply LeaveSame].
    + by apply HandleGroupUninviteGuidOpcode_leaves.
    + by apply HandleGroupUninviteOpcode_leaves.
    + by apply HandleGroupDisbandOpcode_leaves.
  - pose proof (other_opcodes_same guid op w Hok E). by destruct op.
Qed.

(** *** Logging in and out *)
Lemma evictions_leave guid y l : forall w, NoDup l -> guid ∉ l -> evicting guid y l w -> logged_in w guid ->
  (forall z, z ∈ l -> w_groups w !! y = None \/ member_of w y z) ->
  rtc roster_leave (roster w) (roster (foldl (evict guid) w l)).
Proof.
  induction l as [|m l IH]; intros w Hnd Hni He Hin Hmem; simpl; [done|].
  apply NoDup_cons in Hnd as [Hm Hnd]. assert (m <> guid) as Hne by set_solver.
  destruct (evict_members guid y m l w 0 Hne Hm He Hin Hmem) as (_ & Hkeep & Hf).
  eapply rtc_l; [|apply IH; [done|set_solver|by apply evict_step|by eapply world_frame_logged|
    intros z Hz; apply Hkeep; [congruence|apply Hmem; by right]]].
  destruct He as ((Hpo & _) & _ & Hgr & _). unfold evict.
  destruct (_ ≫= _) as [gp|] eqn:E; [|by apply LeaveSame].
  apply bind_Some in E as (p & Hp & E). apply bind_Some in E as (y' & Hy & E).
  apply bind_Some in E as (g & Hg & [= ->]).
  destruct (Hgr _ (pref_Some w guid p Hp)) as [Hgy|[Hgy _]]; simpl in Hgy; [|congruence].
  destruct (Hmem m ltac:(by left)) as [Hn|(g' & Hg' & Hm')]; [congruence|]. simplify_eq.
  by eapply kick_leaves.
Qed.

Lemma LogoutGroup_leaves guid socket w : parties_ok w -> logged_in w guid ->
  rtc roster_leave (roster w) (roster (LogoutGroup guid socket w)).
Proof.
  intros Hok0 Hin0. unfold LogoutGroup. cbv zeta.
  apply (rtc_l _ _ (roster (UninviteFromGroup guid w))); [apply UninviteFromGroup_leaves|].
  pose proof (UninviteFromGroup_ok guid w Hok0) as Hok.
  pose proof (UninviteFromGroup_uninvited guid w Hok0) as Hu.
  pose proof (world_frame_logged w _ guid (UninviteFromGroup_frame guid w) Hin0) as Hin.
  set (w1 := UninviteFromGroup guid w) in *. clearbody w1. clear w Hok0 Hin0.
  match goal with |- rtc _ _ (roster (match _ with Some gp => UpdatePlayerOnlineStatus gp guid false ?w2 | None => _ end)) =>
    assert (rtc roster_leave (roster w1) (roster w2)) as H2; [|set (w3 := w2) in *] end.
  { destruct Hin as (p & Hp & Hw). rewrite Hp. simpl. destruct (GetGroup w1 p) as [g|] eqn:Hgg; [|done].
    case_if; [|done]. unfold GetGroup in Hgg. apply bind_Some in Hgg as (y & Hy & Hg).
    assert (NoDup (evicted w1 g guid)) as Hnd by (apply NoDup_filter, (parties_party w1 Hok y g Hg)).
    assert (guid ∉ evicted w1 g guid) as Hni by (intros [Hn _]%elem_of_evicted; done).
    pose proof (evicting_own guid w1 p y g Hok Hp Hy Hg) as Hev.
    assert (forall z, z ∈ evicted w1 g guid -> w_groups w1 !! y = None \/ member_of w1 y z) as Hmem.
    { intros z [_ Hz]%elem_of_evicted. right. exists g. split; [done|]. by apply IsMember_elem. }
    assert (logged_in w1 guid) as Hin by by exists p.
    etransitivity; [by apply (evictions_leave guid y)|]. apply rtc_once.
    destruct (evict_all_members guid y _ w1 Hnd Hni Hev Hin Hmem) as (_ & _ & Hf).
    apply (world_frame_logged _ _ guid Hf) in Hin as (p2 & Hp2 & Hw2).
    apply RemoveFromGroup_leaves; [by eapply evict_all|].
    intros q Hq. rewrite (pref_Some _ guid p2 Hp2) in Hq. by injection Hq as <-. }
  clearbody w3. destruct (_ ≫= _) as [gp|]; [|done].
  eapply rtc_r; [exact H2|]. apply LeaveSame, roster_quiet, quiet_UpdatePlayerOnlineStatus.
Qed.

Lemma EnterWorld_roster guid p group w : roster_eq (roster w) (roster (EnterWorld guid p group w)).
Proof.
  unfold EnterWorld, _LoadGroup. intros z. rewrite !roster_slots. unfold slots_at.
  rewrite UpdateGroupLeaderFlag_groups. by destruct (_ ≫= _) as [[? ?]|].
Qed.

(** Every step of the sessions, and every run, is one of the specification. *)
Definition roster_step : relation Roster := fun R R' => roster_join R R' \/ roster_leave R R'.

Lemma party_step_refines w w' : parties_ok w -> party_step w w' -> rtc roster_step (roster w) (roster w').
Proof.
  assert (forall R R', rtc roster_join R R' -> rtc roster_step R R') as Hj.
  { intros R R'. apply rtc_subrel. by left. }
  assert (forall R R', rtc roster_leave R R' -> rtc roster_step R R') as Hl.
  { intros R R'. apply rtc_subrel. by right. }
  intros Hok Hs. destruct Hs as [guid op w Hin|guid socket w Hin|guid p group w Hx Hn Hf Hg].
  - pose proof (opcode_refines guid op w Hok Hin) as H.
    destruct op; simpl in H; solve [by apply Hj|by apply Hl, rtc_once|apply Hj, rtc_once; by apply JoinSame].
  - apply Hl. by apply LogoutGroup_leaves.
  - apply Hj, rtc_once, JoinSame, EnterWorld_roster.
Qed.

Lemma roster_steps_ok R R' : rtc roster_step R R' -> roster_ok R -> roster_ok R'.
Proof.
  induction 1 as [|R1 R2 R3 [Hs|Hs] _ IH]; [done| |]; intros Hok; apply IH;
    [by eapply roster_join_ok|by eapply roster_leave_ok].
Qed.
End refinement.
