(* ===== verification/LFTTypes.v ===== *)
(** Data, state and message helpers of the dungeon finder, [LFTManager]
    (src/game/LFT/LFTMgr.h): user listings, the queue, pending rolechecks,
    offers, and what the finder takes from the rest of the server. *)

From S2P Require Import Prelude CString World.

(** Role masks. *)
Definition LFT_ROLE_TANK := 1.
Definition LFT_ROLE_HEALER := 2.
Definition LFT_ROLE_DAMAGE := 4.
Definition has_role (mask role : Z) : bool := negb (Z.land mask role =? 0).

Definition IN_MILLISECONDS := 1000.
Definition LFT_ROLECHECK_TIMEOUT := 90 * IN_MILLISECONDS.
Definition LFT_OFFER_TIMEOUT := 90 * IN_MILLISECONDS.

Record ListingSignup := mkSignup {
  su_name : string;
  su_className : string;
  su_level : Z;
  su_confirmed : bool
}.

Record Listing := mkListing {
  l_id : Z;
  l_creatorGuid : Z;
  l_creator : string;
  l_className : string;
  l_level : Z;
  l_team : Z;
  l_isHardcore : bool;
  l_title : string;
  l_description : string;
  l_category : Z;
  l_limit : list Z;                          (* std::array<uint8, 3> *)
  l_numConfirmed : list Z;
  l_signups : list (list ListingSignup)      (* one list per role *)
}.

(** Field updates of [Listing]. *)
Definition set_l_title x (r : Listing) : Listing :=
  {| l_id := l_id r; l_creatorGuid := l_creatorGuid r; l_creator := l_creator r;
     l_className := l_className r; l_level := l_level r; l_team := l_team r;
     l_isHardcore := l_isHardcore r; l_title := x; l_description := l_description r;
     l_category := l_category r; l_limit := l_limit r; l_numConfirmed := l_numConfirmed r;
     l_signups := l_signups r |}.
Definition set_l_description x (r : Listing) : Listing :=
  {| l_id := l_id r; l_creatorGuid := l_creatorGuid r; l_creator := l_creator r;
     l_className := l_className r; l_level := l_level r; l_team := l_team r;
     l_isHardcore := l_isHardcore r; l_title := l_title r; l_description := x;
     l_category := l_category r; l_limit := l_limit r; l_numConfirmed := l_numConfirmed r;
     l_signups := l_signups r |}.
Definition set_l_limit x (r : Listing) : Listing :=
  {| l_id := l_id r; l_creatorGuid := l_creatorGuid r; l_creator := l_creator r;
     l_className := l_className r; l_level := l_level r; l_team := l_team r;
     l_isHardcore := l_isHardcore r; l_title := l_title r; l_description := l_description r;
     l_category := l_category r; l_limit := x; l_numConfirmed := l_numConfirmed r;
     l_signups := l_signups r |}.
Definition set_l_numConfirmed x (r : Listing) : Listing :=
  {| l_id := l_id r; l_creatorGuid := l_creatorGuid r; l_creator := l_creator r;
     l_className := l_className r; l_level := l_level r; l_team := l_team r;
     l_isHardcore := l_isHardcore r; l_title := l_title r; l_description := l_description r;
     l_category := l_category r; l_limit := l_limit r; l_numConfirmed := x;
     l_signups := l_signups r |}.
Definition set_l_signups x (r : Listing) : Listing :=
  {| l_id := l_id r; l_creatorGuid := l_creatorGuid r; l_creator := l_creator r;
     l_className := l_className r; l_level := l_level r; l_team := l_team r;
     l_isHardcore := l_isHardcore r; l_title := l_title r; l_description := l_description r;
     l_category := l_category r; l_limit := l_limit r; l_numConfirmed := l_numConfirmed r;
     l_signups := x |}.

(** A row of the table [lft_user_groups]. *)
Record ListingRow := mkRow {
  row_listing : Listing;      (* the plain columns; [l_signups] is not read back *)
  row_signups : list string
}.

Record QueuedPlayer := mkQueued {
  q_guid : Z;
  q_queueLeaderGuid : Z;
  q_name : string;
  q_className : string;
  q_level : Z;
  q_team : Z;
  q_isHardcore : bool;
  q_joinTime : Z;
  q_queueOrder : Z;
  q_instances : list string;
  q_roleMask : Z;
  q_assignedRole : Z
}.

(** Field updates of [QueuedPlayer]. *)
Definition set_q_assignedRole x (r : QueuedPlayer) : QueuedPlayer :=
  {| q_guid := q_guid r; q_queueLeaderGuid := q_queueLeaderGuid r; q_name := q_name r;
     q_className := q_className r; q_level := q_level r; q_team := q_team r;
     q_isHardcore := q_isHardcore r; q_joinTime := q_joinTime r; q_queueOrder := q_queueOrder r;
     q_instances := q_instances r; q_roleMask := q_roleMask r; q_assignedRole := x |}.

Record PendingRolecheck := mkRolecheck {
  rc_leaderGuid : Z;
  rc_members : list Z;
  rc_instances : list string;
  rc_responses : gmap Z Z;
  rc_timer : Z
}.

(** Field updates of [PendingRolecheck]. *)
Definition set_rc_responses x (r : PendingRolecheck) : PendingRolecheck :=
  {| rc_leaderGuid := rc_leaderGuid r; rc_members := rc_members r; rc_instances := rc_instances r;
     rc_responses := x; rc_timer := rc_timer r |}.
Definition set_rc_timer x (r : PendingRolecheck) : PendingRolecheck :=
  {| rc_leaderGuid := rc_leaderGuid r; rc_members := rc_members r; rc_instances := rc_instances r;
     rc_responses := rc_responses r; rc_timer := x |}.

Record Offer := mkOffer {
  o_id : Z;
  o_instance : string;
  o_roles : gmap Z Z;
  o_accepted : gset Z;
  o_timer : Z
}.

(** Field updates of [Offer]. *)
Definition set_o_roles x (r : Offer) : Offer :=
  {| o_id := o_id r; o_instance := o_instance r; o_roles := x; o_accepted := o_accepted r;
     o_timer := o_timer r |}.
Definition set_o_accepted x (r : Offer) : Offer :=
  {| o_id := o_id r; o_instance := o_instance r; o_roles := o_roles r; o_accepted := x;
     o_timer := o_timer r |}.
Definition set_o_timer x (r : Offer) : Offer :=
  {| o_id := o_id r; o_instance := o_instance r; o_roles := o_roles r; o_accepted := o_accepted r;
     o_timer := x |}.

(** The manager's private state, the world it runs in and its table. *)
Record LFT := mkLFT {
  m_listings : gmap Z Listing;
  m_queue : gmap Z QueuedPlayer;
  m_signedUpRole : gmap Z Z;
  m_rolechecks : gmap Z PendingRolecheck;
  m_offers : gmap Z Offer;
  m_playerOffers : gmap Z Z;
  m_nextListingId : Z;
  m_nextOfferId : Z;
  m_nextQueueOrder : Z;
  m_listingsLoaded : bool;
  m_lftGroupIds : gset Z;
  m_fillBots : gset Z;
  m_botFillTimer : Z;
  lft_user_groups : gmap Z ListingRow;
  wld : World
}.

(** Field updates of [LFT]. *)
Definition set_m_listings x (r : LFT) : LFT :=
  {| m_listings := x; m_queue := m_queue r; m_signedUpRole := m_signedUpRole r;
     m_rolechecks := m_rolechecks r; m_offers := m_offers r; m_playerOffers := m_playerOffers r;
     m_nextListingId := m_nextListingId r; m_nextOfferId := m_nextOfferId r;
     m_nextQueueOrder := m_nextQueueOrder r; m_listingsLoaded := m_listingsLoaded r;
     m_lftGroupIds := m_lftGroupIds r; m_fillBots := m_fillBots r;
     m_botFillTimer := m_botFillTimer r; lft_user_groups := lft_user_groups r; wld := wld r |}.
Definition set_m_queue x (r : LFT) : LFT :=
  {| m_listings := m_listings r; m_queue := x; m_signedUpRole := m_signedUpRole r;
     m_rolechecks := m_rolechecks r; m_offers := m_offers r; m_playerOffers := m_playerOffers r;
     m_nextListingId := m_nextListingId r; m_nextOfferId := m_nextOfferId r;
     m_nextQueueOrder := m_nextQueueOrder r; m_listingsLoaded := m_listingsLoaded r;
     m_lftGroupIds := m_lftGroupIds r; m_fillBots := m_fillBots r;
     m_botFillTimer := m_botFillTimer r; lft_user_groups := lft_user_groups r; wld := wld r |}.
Definition set_m_signedUpRole x (r : LFT) : LFT :=
  {| m_listings := m_listings r; m_queue := m_queue r; m_signedUpRole := x;
     m_rolechecks := m_rolechecks r; m_offers := m_offers r; m_playerOffers := m_playerOffers r;
     m_nextListingId := m_nextListingId r; m_nextOfferId := m_nextOfferId r;
     m_nextQueueOrder := m_nextQueueOrder r; m_listingsLoaded := m_listingsLoaded r;
     m_lftGroupIds := m_lftGroupIds r; m_fillBots := m_fillBots r;
     m_botFillTimer := m_botFillTimer r; lft_user_groups := lft_user_groups r; wld := wld r |}.
Definition set_m_rolechecks x (r : LFT) : LFT :=
  {| m_listings := m_listings r; m_queue := m_queue r; m_signedUpRole := m_signedUpRole r;
     m_rolechecks := x; m_offers := m_offers r; m_playerOffers := m_playerOffers r;
     m_nextListingId := m_nextListingId r; m_nextOfferId := m_nextOfferId r;
     m_nextQueueOrder := m_nextQueueOrder r; m_listingsLoaded := m_listingsLoaded r;
     m_lftGroupIds := m_lftGroupIds r; m_fillBots := m_fillBots r;
     m_botFillTimer := m_botFillTimer r; lft_user_groups := lft_user_groups r; wld := wld r |}.
Definition set_m_offers x (r : LFT) : LFT :=
  {| m_listings := m_listings r; m_queue := m_queue r; m_signedUpRole := m_signedUpRole r;
     m_rolechecks := m_rolechecks r; m_offers := x; m_playerOffers := m_playerOffers r;
     m_nextListingId := m_nextListingId r; m_nextOfferId := m_nextOfferId r;
     m_nextQueueOrder := m_nextQueueOrder r; m_listingsLoaded := m_listingsLoaded r;
     m_lftGroupIds := m_lftGroupIds r; m_fillBots := m_fillBots r;
     m_botFillTimer := m_botFillTimer r; lft_user_groups := lft_user_groups r; wld := wld r |}.
Definition set_m_playerOffers x (r : LFT) : LFT :=
  {| m_listings := m_listings r; m_queue := m_queue r; m_signedUpRole := m_signedUpRole r;
     m_rolechecks := m_rolechecks r; m_offers := m_offers r; m_playerOffers := x;
     m_nextListingId := m_nextListingId r; m_nextOfferId := m_nextOfferId r;
     m_nextQueueOrder := m_nextQueueOrder r; m_listingsLoaded := m_listingsLoaded r;
     m_lftGroupIds := m_lftGroupIds r; m_fillBots := m_fillBots r;
     m_botFillTimer := m_botFillTimer r; lft_user_groups := lft_user_groups r; wld := wld r |}.
Definition set_m_nextListingId x (r : LFT) : LFT :=
  {| m_listings := m_listings r; m_queue := m_queue r; m_signedUpRole := m_signedUpRole r;
     m_rolechecks := m_rolechecks r; m_offers := m_offers r; m_playerOffers := m_playerOffers r;
     m_nextListingId := x; m_nextOfferId := m_nextOfferId r;
     m_nextQueueOrder := m_nextQueueOrder r; m_listingsLoaded := m_listingsLoaded r;
     m_lftGroupIds := m_lftGroupIds r; m_fillBots := m_fillBots r;
     m_botFillTimer := m_botFillTimer r; lft_user_groups := lft_user_groups r; wld := wld r |}.
Definition set_m_nextOfferId x (r : LFT) : LFT :=
  {| m_listings := m_listings r; m_queue := m_queue r; m_signedUpRole := m_signedUpRole r;
     m_rolechecks := m_rolechecks r; m_offers := m_offers r; m_playerOffers := m_playerOffers r;
     m_nextListingId := m_nextListingId r; m_nextOfferId := x;
     m_nextQueueOrder := m_nextQueueOrder r; m_listingsLoaded := m_listingsLoaded r;
     m_lftGroupIds := m_lftGroupIds r; m_fillBots := m_fillBots r;
     m_botFillTimer := m_botFillTimer r; lft_user_groups := lft_user_groups r; wld := wld r |}.
Definition set_m_nextQueueOrder x (r : LFT) : LFT :=
  {| m_listings := m_listings r; m_queue := m_queue r; m_signedUpRole := m_signedUpRole r;
     m_rolechecks := m_rolechecks r; m_offers := m_offers r; m_playerOffers := m_playerOffers r;
     m_nextListingId := m_nextListingId r; m_nextOfferId := m_nextOfferId r;
     m_nextQueueOrder := x; m_listingsLoaded := m_listingsLoaded r;
     m_lftGroupIds := m_lftGroupIds r; m_fillBots := m_fillBots r;
     m_botFillTimer := m_botFillTimer r; lft_user_groups := lft_user_groups r; wld := wld r |}.
Definition set_m_listingsLoaded x (r : LFT) : LFT :=
  {| m_listings := m_listings r; m_queue := m_queue r; m_signedUpRole := m_signedUpRole r;
     m_rolechecks := m_rolechecks r; m_offers := m_offers r; m_playerOffers := m_playerOffers r;
     m_nextListingId := m_nextListingId r; m_nextOfferId := m_nextOfferId r;
     m_nextQueueOrder := m_nextQueueOrder r; m_listingsLoaded := x;
     m_lftGroupIds := m_lftGroupIds r; m_fillBots := m_fillBots r;
     m_botFillTimer := m_botFillTimer r; lft_user_groups := lft_user_groups r; wld := wld r |}.
Definition set_m_lftGroupIds x (r : LFT) : LFT :=
  {| m_listings := m_listings r; m_queue := m_queue r; m_signedUpRole := m_signedUpRole r;
     m_rolechecks := m_rolechecks r; m_offers := m_offers r; m_playerOffers := m_playerOffers r;
     m_nextListingId := m_nextListingId r; m_nextOfferId := m_nextOfferId r;
     m_nextQueueOrder := m_nextQueueOrder r; m_listingsLoaded := m_listingsLoaded r;
     m_lftGroupIds := x; m_fillBots := m_fillBots r; m_botFillTimer := m_botFillTimer r;
     lft_user_groups := lft_user_groups r; wld := wld r |}.
Definition set_m_fillBots x (r : LFT) : LFT :=
  {| m_listings := m_listings r; m_queue := m_queue r; m_signedUpRole := m_signedUpRole r;
     m_rolechecks := m_rolechecks r; m_offers := m_offers r; m_playerOffers := m_playerOffers r;
     m_nextListingId := m_nextListingId r; m_nextOfferId := m_nextOfferId r;
     m_nextQueueOrder := m_nextQueueOrder r; m_listingsLoaded := m_listingsLoaded r;
     m_lftGroupIds := m_lftGroupIds r; m_fillBots := x; m_botFillTimer := m_botFillTimer r;
     lft_user_groups := lft_user_groups r; wld := wld r |}.
Definition set_m_botFillTimer x (r : LFT) : LFT :=
  {| m_listings := m_listings r; m_queue := m_queue r; m_signedUpRole := m_signedUpRole r;
     m_rolechecks := m_rolechecks r; m_offers := m_offers r; m_playerOffers := m_playerOffers r;
     m_nextListingId := m_nextListingId r; m_nextOfferId := m_nextOfferId r;
     m_nextQueueOrder := m_nextQueueOrder r; m_listingsLoaded := m_listingsLoaded r;
     m_lftGroupIds := m_lftGroupIds r; m_fillBots := m_fillBots r; m_botFillTimer := x;
     lft_user_groups := lft_user_groups r; wld := wld r |}.
Definition set_lft_user_groups x (r : LFT) : LFT :=
  {| m_listings := m_listings r; m_queue := m_queue r; m_signedUpRole := m_signedUpRole r;
     m_rolechecks := m_rolechecks r; m_offers := m_offers r; m_playerOffers := m_playerOffers r;
     m_nextListingId := m_nextListingId r; m_nextOfferId := m_nextOfferId r;
     m_nextQueueOrder := m_nextQueueOrder r; m_listingsLoaded := m_listingsLoaded r;
     m_lftGroupIds := m_lftGroupIds r; m_fillBots := m_fillBots r;
     m_botFillTimer := m_botFillTimer r; lft_user_groups := x; wld := wld r |}.
Definition set_wld x (r : LFT) : LFT :=
  {| m_listings := m_listings r; m_queue := m_queue r; m_signedUpRole := m_signedUpRole r;
     m_rolechecks := m_rolechecks r; m_offers := m_offers r; m_playerOffers := m_playerOffers r;
     m_nextListingId := m_nextListingId r; m_nextOfferId := m_nextOfferId r;
     m_nextQueueOrder := m_nextQueueOrder r; m_listingsLoaded := m_listingsLoaded r;
     m_lftGroupIds := m_lftGroupIds r; m_fillBots := m_fillBots r;
     m_botFillTimer := m_botFillTimer r; lft_user_groups := lft_user_groups r; wld := x |}.

(** [LFTManager::LFTManager]. *)
Definition LFT_init (db : gmap Z ListingRow) (w : World) : LFT := {|
  m_listings := ∅; m_queue := ∅; m_signedUpRole := ∅; m_rolechecks := ∅; m_offers := ∅;
  m_playerOffers := ∅; m_nextListingId := 1; m_nextOfferId := 1; m_nextQueueOrder := 1;
  m_listingsLoaded := false; m_lftGroupIds := ∅; m_fillBots := ∅; m_botFillTimer := 0;
  lft_user_groups := db; wld := w |}.

(** ** What the finder takes from elsewhere

    [GetPlayers_order] is the iteration order of the player hash map and
    [GetAllSessions_order] that of the session map (the players in it);
    [Script_SetForcedRole] is the bot module's hook. *)
Class LFTEnv := {
  #[global] lft_names :: NameEnv;
  GetPlayers_order : World -> list Z;
  GetAllSessions_order : World -> list Z;
  Script_SetForcedRole : Player -> Z -> Player;
  cfg_botFillEnable : bool;
  cfg_botFillDelay : Z;
  cfg_levelBelow : Z;
  cfg_levelAbove : Z;
  cfg_levelBelowHealer : Z;
  cfg_seedRuns : Z;
  cfg_seedDungeons : string;
  cfg_seedTeleport : bool;
  gameTele_names : list string;

  GetPlayers_order_elem : forall w guid,
    guid ∈ GetPlayers_order w <-> is_Some (w_players w !! guid);
  SetForcedRole_static : forall p role, same_static p (Script_SetForcedRole p role);
  SetForcedRole_group : forall p role, p_group (Script_SetForcedRole p role) = p_group p
}.

(** ** Reading players and sending addon messages *)
Definition GetPlayer (s : LFT) (guid : Z) : option Player := GetPlayerW (wld s) guid.

(** [LFTManager::Send]: only to players with a session. *)
Definition Send (guid : Z) (message : string) (s : LFT) : LFT :=
  match w_players (wld s) !! guid with
  | Some p =>
      if p_session p
      then set_wld (set_w_out (w_out (wld s) ++ [(guid, message)]) (wld s)) s
      else s
  | None => s
  end.

(** [if (Player* p = GetPlayer(guid)) Send(p, message)]. *)
Definition SendIfOnline (guid : Z) (message : string) (s : LFT) : LFT :=
  match GetPlayer s guid with Some _ => Send guid message s | None => s end.

(** [LFTManager::ClassName]. *)
Definition ClassName (p : Player) : string :=
  let c := p_class p in
  if c =? CLASS_WARRIOR then "WARRIOR"
  else if c =? CLASS_PALADIN then "PALADIN"
  else if c =? CLASS_HUNTER then "HUNTER"
  else if c =? CLASS_ROGUE then "ROGUE"
  else if c =? CLASS_PRIEST then "PRIEST"
  else if c =? CLASS_SHAMAN then "SHAMAN"
  else if c =? CLASS_MAGE then "MAGE"
  else if c =? CLASS_WARLOCK then "WARLOCK"
  else if c =? CLASS_DRUID then "DRUID"
  else "UNKNOWN".

(** [LFTManager::CanPlayersGroup]. *)
Definition CanPlayersGroup (s : LFT) (leader member : Player) : bool :=
  if negb (w_twoSideGroup (wld s)) && negb (p_team leader =? p_team member) then false
  else HardcoreAllowed leader member.

(** ** Frames: a message changes nothing but the log of messages *)
Lemma GetPlayerW_set_out w out guid :
  GetPlayerW (set_w_out out w) guid = GetPlayerW w guid.
Proof. done. Qed.

(** A message leaves every field of the manager alone. *)
Definition ignores_world {A} (f : LFT -> A) : Prop := forall w s, f (set_wld w s) = f s.

Lemma Send_field {A} (f : LFT -> A) (Hf : ignores_world f) guid msg s :
  f (Send guid msg s) = f s.
Proof. unfold Send. destruct (w_players (wld s) !! guid) as [p|]; [destruct (p_session p)|]; done. Qed.

Lemma SendIfOnline_field {A} (f : LFT -> A) (Hf : ignores_world f) guid msg s :
  f (SendIfOnline guid msg s) = f s.
Proof. unfold SendIfOnline. destruct (GetPlayer s guid); [by apply Send_field|done]. Qed.

Definition quiet (w w' : World) : Prop := exists out, w' = set_w_out out w.

Lemma quiet_refl w : quiet w w.
Proof. exists (w_out w). by destruct w. Qed.

Lemma quiet_trans w1 w2 w3 : quiet w1 w2 -> quiet w2 w3 -> quiet w1 w3.
Proof. intros [o ->] [o' ->]. by exists o'. Qed.

Lemma Send_quiet guid msg s : quiet (wld s) (wld (Send guid msg s)).
Proof.
  unfold Send. destruct (w_players (wld s) !! guid) as [p|]; [destruct (p_session p)|];
    try apply quiet_refl. by eexists.
Qed.

Lemma SendIfOnline_quiet guid msg s : quiet (wld s) (wld (SendIfOnline guid msg s)).
Proof. unfold SendIfOnline. destruct (GetPlayer s guid); [apply Send_quiet|apply quiet_refl]. Qed.

Lemma Send_groups guid msg s : w_groups (wld (Send guid msg s)) = w_groups (wld s).
Proof. by destruct (Send_quiet guid msg s) as [o ->]. Qed.

Lemma SendIfOnline_groups guid msg s : w_groups (wld (SendIfOnline guid msg s)) = w_groups (wld s).
Proof. by destruct (SendIfOnline_quiet guid msg s) as [o ->]. Qed.

Lemma Send_players guid msg s : w_players (wld (Send guid msg s)) = w_players (wld s).
Proof. by destruct (Send_quiet guid msg s) as [o ->]. Qed.

Lemma SendIfOnline_players guid msg s :
  w_players (wld (SendIfOnline guid msg s)) = w_players (wld s).
Proof. by destruct (SendIfOnline_quiet guid msg s) as [o ->]. Qed.

Lemma quiet_GetPlayer s s' guid :
  quiet (wld s) (wld s') -> GetPlayer s' guid = GetPlayer s guid.
Proof. unfold GetPlayer. by intros [o ->]. Qed.

#[export] Hint Resolve quiet_refl Send_quiet SendIfOnline_quiet : tw.

Create Rewrite HintDb lft.
#[export] Hint Rewrite
  (@Send_field _ m_listings (fun _ _ => eq_refl)) (@Send_field _ m_queue (fun _ _ => eq_refl))
  (@Send_field _ m_signedUpRole (fun _ _ => eq_refl)) (@Send_field _ m_rolechecks (fun _ _ => eq_refl))
  (@Send_field _ m_offers (fun _ _ => eq_refl)) (@Send_field _ m_playerOffers (fun _ _ => eq_refl))
  (@Send_field _ m_nextListingId (fun _ _ => eq_refl)) (@Send_field _ m_nextOfferId (fun _ _ => eq_refl))
  (@Send_field _ m_nextQueueOrder (fun _ _ => eq_refl)) (@Send_field _ m_listingsLoaded (fun _ _ => eq_refl))
  (@Send_field _ m_lftGroupIds (fun _ _ => eq_refl)) (@Send_field _ m_fillBots (fun _ _ => eq_refl))
  (@Send_field _ m_botFillTimer (fun _ _ => eq_refl)) (@Send_field _ lft_user_groups (fun _ _ => eq_refl))
  (@SendIfOnline_field _ m_listings (fun _ _ => eq_refl)) (@SendIfOnline_field _ m_queue (fun _ _ => eq_refl))
  (@SendIfOnline_field _ m_signedUpRole (fun _ _ => eq_refl)) (@SendIfOnline_field _ m_rolechecks (fun _ _ => eq_refl))
  (@SendIfOnline_field _ m_offers (fun _ _ => eq_refl)) (@SendIfOnline_field _ m_playerOffers (fun _ _ => eq_refl))
  (@SendIfOnline_field _ m_nextListingId (fun _ _ => eq_refl)) (@SendIfOnline_field _ m_nextOfferId (fun _ _ => eq_refl))
  (@SendIfOnline_field _ m_nextQueueOrder (fun _ _ => eq_refl)) (@SendIfOnline_field _ m_listingsLoaded (fun _ _ => eq_refl))
  (@SendIfOnline_field _ m_lftGroupIds (fun _ _ => eq_refl)) (@SendIfOnline_field _ m_fillBots (fun _ _ => eq_refl))
  (@SendIfOnline_field _ m_botFillTimer (fun _ _ => eq_refl)) (@SendIfOnline_field _ lft_user_groups (fun _ _ => eq_refl)) : lft.
#[export] Hint Rewrite Send_groups SendIfOnline_groups Send_players SendIfOnline_players : lft.
