(* ===== verification/LFTQueue.v ===== *)
(** The queue of the dungeon finder (src/game/LFT/LFTQeueue.cpp): joining,
    rolechecks, matching five queued players into an offer of one tank, one
    healer and three damage dealers, accepting, cancelling and completing it. *)

From S2P Require Import Prelude CString World LFTTypes.

(** ** Pure helpers *)
Definition HasInstance (instances : list string) (instance : string) : bool :=
  existsb (String.eqb instance) instances.
Definition HasString (values : list string) (value : string) : bool :=
  existsb (String.eqb value) values.
Definition inb (guid : Z) (l : list Z) : bool := existsb (Z.eqb guid) l.

Definition PickRole (roleMask tankCount healerCount damageCount : Z) : Z :=
  if has_role roleMask LFT_ROLE_TANK && (tankCount <? 1) then LFT_ROLE_TANK
  else if has_role roleMask LFT_ROLE_HEALER && (healerCount <? 1) then LFT_ROLE_HEALER
  else if has_role roleMask LFT_ROLE_DAMAGE && (damageCount <? 3) then LFT_ROLE_DAMAGE
  else 0.

Definition GetSharedInstances (requested : list string) : list string :=
  foldl (fun instances instance =>
           if negb (instance =s "") && negb (HasString instances instance)
           then instances ++ [instance] else instances) [] requested.

Definition role_of_char (c : Ascii.ascii) : Z :=
  if Ascii.eqb c "t"%char || Ascii.eqb c "T"%char then LFT_ROLE_TANK
  else if Ascii.eqb c "h"%char || Ascii.eqb c "H"%char then LFT_ROLE_HEALER
  else if Ascii.eqb c "d"%char || Ascii.eqb c "D"%char then LFT_ROLE_DAMAGE
  else 0.
Fixpoint ParseRoleMask_from (mask : Z) (roles : string) : Z :=
  match roles with
  | EmptyString => mask
  | String c roles' => ParseRoleMask_from (Z.lor mask (role_of_char c)) roles'
  end.
Definition ParseRoleMask (roles : string) : Z := ParseRoleMask_from 0 roles.

Definition AllowedRoleMask (p : Player) : Z :=
  let c := p_class p in
  if c =? CLASS_DRUID then Z.lor (Z.lor LFT_ROLE_TANK LFT_ROLE_HEALER) LFT_ROLE_DAMAGE
  else if c =? CLASS_HUNTER then LFT_ROLE_DAMAGE
  else if c =? CLASS_MAGE then LFT_ROLE_DAMAGE
  else if c =? CLASS_PALADIN then Z.lor (Z.lor LFT_ROLE_TANK LFT_ROLE_HEALER) LFT_ROLE_DAMAGE
  else if c =? CLASS_PRIEST then Z.lor LFT_ROLE_HEALER LFT_ROLE_DAMAGE
  else if c =? CLASS_ROGUE then LFT_ROLE_DAMAGE
  else if c =? CLASS_SHAMAN then Z.lor LFT_ROLE_HEALER LFT_ROLE_DAMAGE
  else if c =? CLASS_WARLOCK then LFT_ROLE_DAMAGE
  else if c =? CLASS_WARRIOR then Z.lor LFT_ROLE_TANK LFT_ROLE_DAMAGE
  else 0.

(** The [++tanks] / [++healers] / [++damage] cascades. *)
Definition count_role (role : Z) (c : Z * Z * Z) : Z * Z * Z :=
  let '(t, h, d) := c in
  if role =? LFT_ROLE_TANK then (u8 (t + 1), h, d)
  else if role =? LFT_ROLE_HEALER then (t, u8 (h + 1), d)
  else if role =? LFT_ROLE_DAMAGE then (t, h, u8 (d + 1))
  else (t, h, d).

(** Block leader of a queue entry: its queue leader, or itself. *)
Definition leader_of (guid : Z) (q : QueuedPlayer) : Z :=
  if q_queueLeaderGuid q =? 0 then guid else q_queueLeaderGuid q.

Definition QueuedPlayer_zero : QueuedPlayer := mkQueued 0 0 "" "" 0 0 false 0 0 [] 0 0.

Section queue.
Context {env : LFTEnv} {gsv : GroupService}.

Definition player_name (s : LFT) (guid : Z) : string :=
  match GetPlayer s guid with Some p => p_name p | None => "" end.

Definition GetPartyMembers (s : LFT) (leaderGuid : Z) (leader : Player) : list Z :=
  match GetGroup (wld s) leader with
  | None => [leaderGuid]
  | Some g =>
      List.filter (fun guid => match GetPlayer s guid with Some _ => true | None => false end)
        (ms_guid <$> m_memberSlots g)
  end.

(** The comparator of [GetQueueOrder]. *)
Definition queue_less (s : LFT) (leftGuid rightGuid : Z) : bool :=
  match m_queue s !! leftGuid, m_queue s !! rightGuid with
  | Some l, Some r =>
      if q_queueOrder l =? q_queueOrder r then leftGuid <? rightGuid
      else q_queueOrder l <? q_queueOrder r
  | _, _ => leftGuid <? rightGuid
  end.
Definition queue_le (s : LFT) (a b : Z) : Prop := queue_less s b a = false.
#[export] Instance queue_le_dec s a b : Decision (queue_le s a b).
Proof. unfold queue_le. apply _. Defined.

Definition GetQueueOrder (s : LFT) : list Z := merge_sort (queue_le s) (skeys (m_queue s)).

(** ** Messages of the queue *)
Definition SendQueuedStatus (guid : Z) (queued : QueuedPlayer) (s : LFT) : LFT :=
  let tanks := if q_assignedRole queued =? LFT_ROLE_TANK then 1 else 0 in
  let healers := if q_assignedRole queued =? LFT_ROLE_HEALER then 1 else 0 in
  let damage := if q_assignedRole queued =? LFT_ROLE_DAMAGE then 1 else 0 in
  Send guid ("S2C_UPDATE_QUEUE_STATUS;queued;" +:+ JoinStrings (q_instances queued) ":"%char +:+ ";" +:+
             to_string (u32 (q_joinTime queued)) +:+ ";0;" +:+ to_string tanks +:+ ":" +:+
             to_string healers +:+ ":" +:+ to_string damage) s.

Definition SendQueueJoined (guid : Z) (queued : QueuedPlayer) (s : LFT) : LFT :=
  SendQueuedStatus guid queued (Send guid "S2C_QUEUE_JOINED" s).

Definition SendQueueLeft (guid : Z) (name : string) (s : LFT) : LFT :=
  SendIfOnline guid ("S2C_QUEUE_LEFT;" +:+ name) s.

(** The pending rolecheck a player is a member of, first in map order. *)
Definition find_rolecheck (s : LFT) (guid : Z) : option Z :=
  List.find (fun k => match m_rolechecks s !! k with
                      | Some rc => inb guid (rc_members rc)
                      | None => false
                      end) (skeys (m_rolechecks s)).

Definition SendQueueStatus (guid : Z) (s : LFT) : LFT :=
  match m_playerOffers s !! guid with
  | Some _ => Send guid "S2C_UPDATE_QUEUE_STATUS;pending_offer" s
  | None =>
      match find_rolecheck s guid with
      | Some _ => Send guid "S2C_UPDATE_QUEUE_STATUS;pending_rolecheck" s
      | None =>
          match m_queue s !! guid with
          | Some q => SendQueuedStatus guid q s
          | None => s
          end
      end
  end.

(** ** Matching *)
Definition CanQueuedPlayersGroup (s : LFT) (seed candidate : QueuedPlayer) : bool :=
  match GetPlayer s (q_guid seed), GetPlayer s (q_guid candidate) with
  | Some p, Some c => CanPlayersGroup s p c
  | _, _ =>
      if negb (w_twoSideGroup (wld s)) && negb (q_team seed =? q_team candidate) then false
      else Bool.eqb (q_isHardcore seed) (q_isHardcore candidate)
  end.

(** What the inner loop has selected so far for one seed. *)
Record Picked := mkPicked {
  pk_roles : gmap Z Z;
  pk_selected : gset Z;
  pk_counts : Z * Z * Z
}.
Definition Picked_none : Picked := mkPicked ∅ ∅ (0, 0, 0).

(** Everybody queued under one leader, in queue order. *)
Definition block_of (s : LFT) (queueOrder : list Z) (blockLeader : Z) : list Z :=
  List.filter (fun guid => match m_queue s !! guid with
                           | Some q => leader_of guid q =? blockLeader
                           | None => false
                           end) queueOrder.

(** May a member of a block go into the offer being built? *)
Definition block_member_ok (s : LFT) (instance : string) (seed : QueuedPlayer)
    (selected : gset Z) (guid : Z) : option QueuedPlayer :=
  match m_queue s !! guid with
  | None => None
  | Some queued =>
      if bool_decide (guid ∈ selected) || bool_decide (is_Some (m_playerOffers s !! guid))
         || negb (HasInstance (q_instances queued) instance)
         || negb (CanQueuedPlayersGroup s seed queued)
      then None else Some queued
  end.

(** The loop over a block; [None] is [blockFits = false]. *)
Fixpoint fit_block (s : LFT) (instance : string) (seed : QueuedPlayer) (selected : gset Z)
    (block : list Z) (blockRoles : gmap Z Z) (counts : Z * Z * Z)
    : option (gmap Z Z * (Z * Z * Z)) :=
  match block with
  | [] => Some (blockRoles, counts)
  | guid :: block' =>
      match block_member_ok s instance seed selected guid with
      | None => None
      | Some queued =>
          let '(t, h, d) := counts in
          let role := PickRole (q_roleMask queued) t h d in
          if role =? 0 then None
          else fit_block s instance seed selected block' (<[guid := role]> blockRoles)
                 (count_role role counts)
      end
  end.

(** One iteration of the candidate loop. *)
Definition consider (s : LFT) (instance : string) (seed : QueuedPlayer) (queueOrder : list Z)
    (pk : Picked) (candidateGuid : Z) : Picked :=
  if 5 <=? Z.of_nat (size (pk_selected pk)) then pk
  else match m_queue s !! candidateGuid with
  | None => pk
  | Some candidate =>
      if bool_decide (candidateGuid ∈ pk_selected pk)
         || bool_decide (is_Some (m_playerOffers s !! candidateGuid)) then pk
      else if negb (HasInstance (q_instances candidate) instance) then pk
      else if negb (CanQueuedPlayersGroup s seed candidate) then pk
      else
        let blockLeader := leader_of candidateGuid candidate in
        let block := block_of s queueOrder blockLeader in
        match fit_block s instance seed (pk_selected pk) block ∅ (pk_counts pk) with
        | None => pk
        | Some (blockRoles, counts) =>
            if bool_decide (blockRoles = ∅)
               || (5 <? Z.of_nat (size (pk_selected pk)) + Z.of_nat (size blockRoles))
            then pk
            else mkPicked (blockRoles ∪ pk_roles pk) (dom blockRoles ∪ pk_selected pk) counts
        end
  end.

Definition pick_for_seed (s : LFT) (instance : string) (queueOrder : list Z) (seed : QueuedPlayer)
    : Picked :=
  foldl (consider s instance seed queueOrder) Picked_none queueOrder.

(** [tanks == 1 && healers == 1 && damage == 3 && selectedRoles.size() == 5] *)
Definition full_party (pk : Picked) : bool :=
  let '(t, h, d) := pk_counts pk in
  (t =? 1) && (h =? 1) && (d =? 3) && (Z.of_nat (size (pk_roles pk)) =? 5).

(** The loop over seeds: the roles of the first full party found. *)
Fixpoint find_party (s : LFT) (instance : string) (queueOrder seeds : list Z)
    : option (gmap Z Z) :=
  match seeds with
  | [] => None
  | seedGuid :: seeds' =>
      match m_queue s !! seedGuid with
      | None => find_party s instance queueOrder seeds'
      | Some seed =>
          if bool_decide (is_Some (m_playerOffers s !! seedGuid))
             || negb (HasInstance (q_instances seed) instance)
          then find_party s instance queueOrder seeds'
          else
            let pk := pick_for_seed s instance queueOrder seed in
            if full_party pk then Some (pk_roles pk)
            else find_party s instance queueOrder seeds'
      end
  end.

Definition role_letter (role : Z) : string :=
  if role =? LFT_ROLE_TANK then "t" else if role =? LFT_ROLE_HEALER then "h" else "d".

(** Book one selected player for an offer. *)
Definition promise_one (instance : string) (roles : gmap Z Z) (offerId : Z) (s : LFT) (guid : Z)
    : LFT :=
  let role := map_at 0 roles guid in
  let q := map_at QueuedPlayer_zero (m_queue s) guid in
  let s := set_m_queue (<[guid := set_q_assignedRole role q]> (m_queue s)) s in
  let s := set_m_signedUpRole (<[guid := role]> (m_signedUpRole s)) s in
  let s := set_m_playerOffers (<[guid := offerId]> (m_playerOffers s)) s in
  let s := SendIfOnline guid "S2C_UPDATE_QUEUE_STATUS;pending_offer" s in
  let s := SendIfOnline guid ("S2C_OFFER_NEW;" +:+ instance +:+ ";" +:+ role_letter role) s in
  SendIfOnline guid "S2C_OFFER_UPDATE_COUNT;0:0:0" s.

Definition TryBuildOfferForInstance (instance : string) (s : LFT) : bool * LFT :=
  let queueOrder := GetQueueOrder s in
  match find_party s instance queueOrder queueOrder with
  | None => (false, s)
  | Some selectedRoles =>
      let id := m_nextOfferId s in
      let s := set_m_nextOfferId (u32 (id + 1)) s in
      let offer := mkOffer id instance selectedRoles ∅ LFT_OFFER_TIMEOUT in
      let s := set_m_offers (<[id := offer]> (m_offers s)) s in
      (true, foldl (promise_one instance selectedRoles id) s (skeys selectedRoles))
  end.

(** The distinct instances of players without an offer, in string order. *)
Definition wanted_instances (s : LFT) : list string :=
  merge_sort str_le
    (elements (list_to_set (C := gset string)
      (concat ((fun guid => match m_queue s !! guid with
                            | Some q => if bool_decide (is_Some (m_playerOffers s !! guid))
                                        then [] else q_instances q
                            | None => []
                            end) <$> skeys (m_queue s))))).

Definition TryMakeOffers (s : LFT) : LFT :=
  foldl (fun s instance => snd (TryBuildOfferForInstance instance s)) s (wanted_instances s).

(** ** Entering the queue *)
Definition EnqueuePlayer (guid leaderGuid : Z) (player : Player) (instances : list string)
    (roleMask : Z) (s : LFT) : LFT :=
  let queued := mkQueued guid leaderGuid (p_name player) (ClassName player) (p_level player)
                  (p_team player) (p_hardcore player) (w_gameTime (wld s)) (m_nextQueueOrder s)
                  instances roleMask (PickRole roleMask 0 0 0) in
  let s := set_m_nextQueueOrder (u64 (m_nextQueueOrder s + 1)) s in
  let s := set_m_signedUpRole (<[guid := q_assignedRole queued]> (m_signedUpRole s)) s in
  let s := set_m_queue (<[guid := queued]> (m_queue s)) s in
  SendQueueJoined guid queued s.

Definition enqueue_member (rolecheck : PendingRolecheck) (s : LFT) (guid : Z) : LFT :=
  match GetPlayer s guid with
  | None => s
  | Some player =>
      match rc_responses rolecheck !! guid with
      | None => s
      | Some role =>
          EnqueuePlayer guid (rc_leaderGuid rolecheck) player (rc_instances rolecheck) role s
      end
  end.

Definition EnqueueRolecheck (rolecheck : PendingRolecheck) (s : LFT) : LFT :=
  TryMakeOffers (foldl (enqueue_member rolecheck) s (rc_members rolecheck)).

(** [responses.size() == members.size()] *)
Definition rolecheck_done (rc : PendingRolecheck) : bool :=
  Z.of_nat (size (rc_responses rc)) =? Z.of_nat (length (rc_members rc)).

(** Take a finished rolecheck out and queue its members. *)
Definition finish_rolecheck (key : Z) (s : LFT) : LFT :=
  match m_rolechecks s !! key with
  | Some rc =>
      if rolecheck_done rc
      then EnqueueRolecheck rc (set_m_rolechecks (delete key (m_rolechecks s)) s)
      else s
  | None => s
  end.

Definition ask_member (leaderGuid : Z) (joinedInstances : string) (s : LFT) (guid : Z) : LFT :=
  match GetPlayer s guid with
  | None => s
  | Some member =>
      if p_botManaged member then
        if p_botRoles member =? 0 then s
        else match m_rolechecks s !! leaderGuid with
             | Some rc => set_m_rolechecks (<[leaderGuid :=
                            set_rc_responses (<[guid := p_botRoles member]> (rc_responses rc)) rc]>
                            (m_rolechecks s)) s
             | None => s
             end
      else
        Send guid "S2C_UPDATE_QUEUE_STATUS;pending_rolecheck"
          (Send guid ("S2C_ROLECHECK_START;" +:+ joinedInstances) s)
  end.

Definition StartRolecheck (leaderGuid : Z) (leader : Player) (instances : list string) (s : LFT)
    : LFT :=
  let rolecheck := mkRolecheck leaderGuid (GetPartyMembers s leaderGuid leader) instances ∅
                     LFT_ROLECHECK_TIMEOUT in
  let s := set_m_rolechecks (<[leaderGuid := rolecheck]> (m_rolechecks s)) s in
  let joinedInstances := JoinStrings instances ":"%char in
  let s := foldl (ask_member leaderGuid joinedInstances) s (rc_members rolecheck) in
  finish_rolecheck leaderGuid s.

(** ** Leaving *)
Definition CancelRolecheck (key : Z) (s : LFT) : LFT :=
  match m_rolechecks s !! key with
  | None => s
  | Some rc =>
      let s := foldl (fun s guid => SendQueueLeft guid (player_name s guid) s) s (rc_members rc) in
      set_m_rolechecks (delete key (m_rolechecks s)) s
  end.

(** One participant of an offer being cancelled. *)
Definition cancel_one (offer : Offer) (requeueAccepted : bool) (removeGuid : Z)
    (requeueOthers : bool) (s : LFT) (guid : Z) : LFT :=
  let s := set_m_playerOffers (delete guid (m_playerOffers s)) s in
  let keepQueued := requeueAccepted && negb (guid =? removeGuid) &&
                    (requeueOthers || bool_decide (guid ∈ o_accepted offer)) in
  match (if keepQueued then m_queue s !! guid else None) with
  | Some q =>
      let q := set_q_assignedRole (PickRole (q_roleMask q) 0 0 0) q in
      let s := set_m_queue (<[guid := q]> (m_queue s)) s in
      let s := set_m_signedUpRole (<[guid := q_assignedRole q]> (m_signedUpRole s)) s in
      match GetPlayer s guid with Some _ => SendQueueJoined guid q s | None => s end
  | None =>
      let s := set_m_queue (delete guid (m_queue s)) s in
      SendQueueLeft guid (player_name s guid) s
  end.

Definition CancelOffer (offerId : Z) (requeueAccepted : bool) (removeGuid : Z)
    (requeueOthers : bool) (s : LFT) : LFT :=
  match m_offers s !! offerId with
  | None => s
  | Some offer =>
      let s := foldl (cancel_one offer requeueAccepted removeGuid requeueOthers) s
                 (skeys (o_roles offer)) in
      set_m_offers (delete offerId (m_offers s)) s
  end.

Definition cancel_rolecheck_of (guid : Z) (s : LFT) (key : Z) : LFT :=
  match m_rolechecks s !! key with
  | Some rc => if inb guid (rc_members rc) then CancelRolecheck key s else s
  | None => s
  end.

Definition CleanupPlayer (guid : Z) (s : LFT) : LFT :=
  let s := set_m_queue (delete guid (m_queue s)) s in
  let s := match m_playerOffers s !! guid with
           | Some offerId => CancelOffer offerId true guid true s
           | None => s
           end in
  foldl (cancel_rolecheck_of guid) s (skeys (m_rolechecks s)).

Definition remove_queued (s : LFT) (guid : Z) : LFT :=
  match m_queue s !! guid with
  | Some q => SendQueueLeft guid (q_name q) (set_m_queue (delete guid (m_queue s)) s)
  | None => s
  end.

(** [LeaveQueue(ObjectGuid)]. *)
Definition LeaveQueue (guid : Z) (s : LFT) : bool * LFT :=
  match find_rolecheck s guid with
  | Some key => (true, CancelRolecheck key s)
  | None =>
      match m_playerOffers s !! guid with
      | Some offerId => (true, TryMakeOffers (CancelOffer offerId true guid true s))
      | None =>
          match m_queue s !! guid with
          | None => (false, s)
          | Some q =>
              let leaderGuid := leader_of guid q in
              let toRemove := block_of s (skeys (m_queue s)) leaderGuid in
              (true, foldl remove_queued s toRemove)
          end
      end
  end.

Definition HandleQueueLeave (guid : Z) (s : LFT) : LFT := snd (LeaveQueue guid s).
Definition HandleGetQueueStatus (guid : Z) (s : LFT) : LFT := SendQueueStatus guid s.

Definition IsQueued (guid : Z) (s : LFT) : bool := bool_decide (is_Some (m_queue s !! guid)).
Definition IsInOffer (guid : Z) (s : LFT) : bool := bool_decide (is_Some (m_playerOffers s !! guid)).

(** ** Joining *)
Definition HandleQueueJoin (guid : Z) (fields : list string) (s : LFT) : LFT :=
  match w_players (wld s) !! guid with
  | None => s
  | Some player =>
      if p_botManaged player then s
      else if (length fields <? 3)%nat then s
      else
        let group := GetGroup (wld s) player in
        if from_option isRaidGroup false group then Send guid "S2C_QUEUE_ERROR;raid" s
        else if from_option (fun g => negb (IsLeader g guid)) false group
        then Send guid "S2C_QUEUE_ERROR;not_leader" s
        else
          let instances := GetSharedInstances (SplitPreserveEmpty (nth 1 fields "") ":"%char) in
          let roleMask := Z.land (ParseRoleMask (nth 2 fields "")) (AllowedRoleMask player) in
          if bool_decide (instances = []) || (roleMask =? 0)
          then Send guid "S2C_QUEUE_ERROR;invalid" s
          else StartRolecheck guid player instances (CleanupPlayer guid s)
  end.

(** [QueuePlayer], the module API. *)
Definition QueuePlayer (guid : Z) (instances : list string) (roleMask : Z) (s : LFT) : bool * LFT :=
  match GetPlayer s guid with
  | None => (false, s)
  | Some player =>
      let group := GetGroup (wld s) player in
      if from_option isRaidGroup false group then (false, s)
      else if from_option (fun g => negb (IsLeader g guid)) false group then (false, s)
      else
        let valid := GetSharedInstances instances in
        let effective := Z.land roleMask (AllowedRoleMask player) in
        if bool_decide (valid = []) || (effective =? 0) then (false, s)
        else
          let s := CleanupPlayer guid s in
          match group with
          | Some _ => (true, StartRolecheck guid player valid s)
          | None => (true, TryMakeOffers (EnqueuePlayer guid guid player valid effective s))
          end
  end.

(** ** Rolecheck answers *)
Definition HandleRolecheckResponse (guid : Z) (fields : list string) (s : LFT) : LFT :=
  match w_players (wld s) !! guid with
  | None => s
  | Some player =>
      if (length fields <? 2)%nat then s
      else
        let roleText := nth 1 fields "" in
        let roleMask := Z.land (ParseRoleMask roleText) (AllowedRoleMask player) in
        if roleMask =? 0 then s
        else match find_rolecheck s guid with
        | None => s
        | Some key =>
            match m_rolechecks s !! key with
            | None => s
            | Some rc =>
                let rc := set_rc_responses (<[guid := roleMask]> (rc_responses rc)) rc in
                let s := set_m_rolechecks (<[key := rc]> (m_rolechecks s)) s in
                let s := foldl (fun s memberGuid =>
                           SendIfOnline memberGuid
                             ("S2C_ROLECHECK_INFO;" +:+ p_name player +:+ ";" +:+ roleText) s)
                           s (rc_members rc) in
                finish_rolecheck key s
            end
        end
  end.
End queue.
