(* ===== verification/LFTOffer.v ===== *)
(** Accepting and completing an offer (src/game/LFT/LFTQeueue.cpp): the count
    of acceptances, forming the group, moving a bot-only group to the door,
    and the module API over the same handlers. *)

From S2P Require Import Prelude CString World LFTTypes LFTQueue.

(** ** Instance entrances *)
Definition is_alnum (c : ascii) : bool :=
  let n := Z.of_nat (nat_of_ascii c) in
  ((48 <=? n) && (n <=? 57)) || ((65 <=? n) && (n <=? 90)) || ((97 <=? n) && (n <=? 122)).
Definition to_lower (c : ascii) : ascii :=
  let n := Z.of_nat (nat_of_ascii c) in
  if (65 <=? n) && (n <=? 90) then ascii_of_nat (Z.to_nat (n + 32)) else c.

Fixpoint squash (s : string) : string :=
  match s with
  | EmptyString => EmptyString
  | String c s' => if is_alnum c then String (to_lower c) (squash s') else squash s'
  end.

Definition SquashInstanceName (name : string) : string :=
  let out := squash name in
  if String.prefix "the" out && (3 <? Z.of_nat (String.length out))
  then String.substring 3 (String.length out - 3) out else out.

(** The longest entrance name that starts the instance name. *)
Definition better_entrance (wanted : string) (best : option string * Z) (name : string)
    : option string * Z :=
  let candidate := SquashInstanceName name in
  let n := Z.of_nat (String.length candidate) in
  if (n <? 5) || (n <=? snd best) then best
  else if String.prefix candidate wanted then (Some name, n) else best.

Definition FindInstanceEntrance (teles : list string) (instance : string) : option string :=
  fst (foldl (better_entrance (SquashInstanceName instance)) (None, 0) teles).

Section offer.
Context {env : LFTEnv} {gsv : GroupService}.

(** ** Forming the group *)

(** [AddPlayerToGroup]: the result, the [Group*&], the state. *)
Definition AddPlayerToGroup (group : option Z) (leaderGuid memberGuid : Z) (s : LFT)
    : bool * option Z * LFT :=
  match GetPlayer s memberGuid with
  | None => (false, group, s)
  | Some _ =>
      let '(group, s) :=
        match group with
        | Some gp => (Some gp, s)
        | None =>
            match GetPlayer s leaderGuid with
            | None => (None, s)
            | Some leader =>
                match p_group leader with
                | Some gp => (Some gp, s)
                | None =>
                    let '(created, w) := gs_Create leaderGuid (p_name leader) (wld s) in
                    (created, set_wld w s)
                end
            end
        end in
      match group ≫= fun gp => g ← w_groups (wld s) !! gp; Some (gp, g) with
      | None => (false, group, s)
      | Some (gp, g) =>
          let s := set_m_lftGroupIds ({[m_Id g]} ∪ m_lftGroupIds s) s in
          if IsMember g memberGuid then (true, Some gp, s)
          else match GetPlayer s memberGuid with
          | None => (false, Some gp, s)
          | Some member =>
              if from_option (fun other => negb (other =? gp)) false (p_group member)
              then (false, Some gp, s)
              else if from_option (fun leader => negb (CanPlayersGroup s leader member)) false
                        (GetPlayer s leaderGuid)
              then (false, Some gp, s)
              else if IsFull g then (false, Some gp, s)
              else
                let '(added, w) := gs_AddMember gp memberGuid (p_name member) (wld s) in
                (added, Some gp, set_wld w s)
          end
      end
  end.

(** The loop over the offer's players; stops at the first refusal. *)
Fixpoint add_all (group : option Z) (leaderGuid : Z) (guids : list Z) (s : LFT)
    : bool * option Z * LFT :=
  match guids with
  | [] => (true, group, s)
  | guid :: guids' =>
      match AddPlayerToGroup group leaderGuid guid s with
      | (true, group, s) => add_all group leaderGuid guids' s
      | (false, group, s) => (false, group, s)
      end
  end.

(** Leader of the group an offer forms: a queue leader if a player came with
    one, else the tank, else the first player. *)
Definition offer_leader (offer : Offer) (s : LFT) : Z :=
  let guids := skeys (o_roles offer) in
  let queue_leader guid :=
    match m_queue s !! guid with Some q => q_queueLeaderGuid q | None => 0 end in
  match List.find (fun guid => negb (queue_leader guid =? 0)) guids with
  | Some guid => queue_leader guid
  | None =>
      match List.find (fun guid => map_at 0 (o_roles offer) guid =? LFT_ROLE_TANK) guids with
      | Some guid => guid
      | None => hd 0 guids
      end
  end.

Definition release_one (s : LFT) (guid : Z) : LFT :=
  let s := set_m_queue (delete guid (m_queue s)) s in
  let s := set_m_playerOffers (delete guid (m_playerOffers s)) s in
  SendIfOnline guid "S2C_OFFER_COMPLETE" s.

Definition teleport_one (entrance : string) (s : LFT) (guid : Z) : LFT :=
  match GetPlayer s guid with
  | None => s
  | Some member =>
      if p_beingTeleported member then s
      else
        let member := if p_inCombat member then set_p_inCombat false member else member in
        set_wld (set_w_players (<[guid := set_p_position (Some entrance) member]>
                                  (w_players (wld s))) (wld s)) s
  end.

Definition TeleportBotGroupToInstance (offer : Offer) (s : LFT) : LFT :=
  let guids := skeys (o_roles offer) in
  if negb cfg_seedTeleport then s
  else if negb (forallb (fun guid => match GetPlayer s guid with
                                     | Some member => p_aiControlled member
                                     | None => false
                                     end) guids)
  then s
  else match FindInstanceEntrance gameTele_names (o_instance offer) with
  | None => s
  | Some entrance => foldl (teleport_one entrance) s guids
  end.

Definition CompleteOffer (offerId : Z) (s : LFT) : bool * LFT :=
  match m_offers s !! offerId with
  | None => (false, s)
  | Some offer =>
      let leaderGuid := offer_leader offer s in
      let guids := skeys (o_roles offer) in
      match add_all None leaderGuid guids s with
      | (false, _, s) => (false, CancelOffer offerId false 0 false s)
      | (true, _, s) =>
          let s := foldl release_one s guids in
          let s := TeleportBotGroupToInstance offer s in
          (true, set_m_offers (delete offerId (m_offers s)) s)
      end
  end.

(** ** Accepting *)
Definition accepted_counts (offer : Offer) : Z * Z * Z :=
  foldl (fun c guid => count_role (map_at 0 (o_roles offer) guid) c) (0, 0, 0)
    (selems (o_accepted offer)).

Definition HandleOfferAccept (guid : Z) (s : LFT) : LFT :=
  match w_players (wld s) !! guid with
  | None => s
  | Some _ =>
      match m_playerOffers s !! guid with
      | None => s
      | Some offerId =>
          match m_offers s !! offerId with
          | None => s
          | Some offer =>
              let offer := set_o_accepted ({[guid]} ∪ o_accepted offer) offer in
              (* [roles[acceptedGuid]] would create a missing entry *)
              let offer := set_o_roles (o_roles offer ∪ gset_to_gmap 0 (o_accepted offer)) offer in
              let s := set_m_offers (<[offerId := offer]> (m_offers s)) s in
              let '(tanks, healers, damage) := accepted_counts offer in
              let countMessage := "S2C_OFFER_UPDATE_COUNT;" +:+ to_string tanks +:+ ":" +:+
                                  to_string healers +:+ ":" +:+ to_string damage in
              let s := foldl (fun s g => SendIfOnline g countMessage s) s (skeys (o_roles offer)) in
              if (size (o_accepted offer) =? size (o_roles offer))%nat
              then snd (CompleteOffer offerId s) else s
          end
      end
  end.

(** [AcceptOffer(ObjectGuid)], the module API. *)
Definition AcceptOffer (guid : Z) (s : LFT) : bool * LFT :=
  if guid =? 0 then (false, s)
  else match GetPlayer s guid with
  | None => (false, s)
  | Some _ => if IsInOffer guid s then (true, HandleOfferAccept guid s) else (false, s)
  end.

(** [GetQueuedPlayers]: a copy of the queue in map order. *)
Definition GetQueuedPlayers (s : LFT) : list QueuedPlayer :=
  omap (fun guid => m_queue s !! guid) (skeys (m_queue s)).
End offer.
