(* ===== verification/LFTQueueFacts.v ===== *)
(** Matching is sound: what [find_party] selects is a party of five with one
    tank, one healer and three damage dealers, all of them queued for the
    instance, free of other offers and compatible with the seed; and it keeps
    queue blocks whole.  Also the order in which the queue is scanned. *)

From S2P Require Import Prelude CString World LFTTypes LFTQueue.

(** How many entries of a role map hold a role. *)
Definition role_count (r : Z) (m : gmap Z Z) : Z :=
  Z.of_nat (size (filter (fun kv => kv.2 = r) m)).

Definition counts_of (m : gmap Z Z) : Z * Z * Z :=
  (role_count LFT_ROLE_TANK m, role_count LFT_ROLE_HEALER m, role_count LFT_ROLE_DAMAGE m).

(** The composition every offer must have. *)
Definition party_composition (roles : gmap Z Z) : Prop :=
  size roles = 5%nat /\ counts_of roles = (1, 1, 3).

Lemma role_count_empty r : role_count r ∅ = 0.
Proof. done. Qed.

Lemma role_count_insert r (m : gmap Z Z) k v :
  m !! k = None -> role_count r (<[k := v]> m) = role_count r m + (if v =? r then 1 else 0).
Proof.
  intros Hk. unfold role_count. destruct (Z.eqb_spec v r) as [->|Hne].
  - rewrite map_filter_insert_True by done. rewrite map_size_insert_None; [lia|].
    apply map_lookup_filter_None. by left.
  - rewrite map_filter_insert_not' by naive_solver. lia.
Qed.

Lemma role_count_union r (m1 m2 : gmap Z Z) :
  m1 ##ₘ m2 -> role_count r (m1 ∪ m2) = role_count r m1 + role_count r m2.
Proof.
  intros Hd. unfold role_count. rewrite map_filter_union by done.
  rewrite map_size_disj_union; [lia|]. by apply map_disjoint_filter.
Qed.

Lemma counts_of_union (m1 m2 : gmap Z Z) t1 h1 d1 t2 h2 d2 :
  m1 ##ₘ m2 -> counts_of m1 = (t1, h1, d1) -> counts_of m2 = (t2, h2, d2) ->
  counts_of (m1 ∪ m2) = (t1 + t2, h1 + h2, d1 + d2).
Proof.
  intros Hd [= <- <- <-] [= <- <- <-]. unfold counts_of. by rewrite !role_count_union.
Qed.

(** ** [PickRole] *)
Definition is_role (r : Z) : Prop := r = LFT_ROLE_TANK \/ r = LFT_ROLE_HEALER \/ r = LFT_ROLE_DAMAGE.

Lemma PickRole_spec mask t h d :
  let r := PickRole mask t h d in
  r = 0 \/
  (has_role mask r = true /\
   ((r = LFT_ROLE_TANK /\ t < 1) \/ (r = LFT_ROLE_HEALER /\ h < 1) \/
    (r = LFT_ROLE_DAMAGE /\ d < 3))).
Proof.
  simpl. unfold PickRole.
  repeat case_if; bool_prop; try (right; split; [done|tauto]); by left.
Qed.

(** [PickRole] gives up only when every role of the mask is taken. *)
Lemma PickRole_zero mask t h d :
  PickRole mask t h d = 0 ->
  (has_role mask LFT_ROLE_TANK = true -> 1 <= t) /\
  (has_role mask LFT_ROLE_HEALER = true -> 1 <= h) /\
  (has_role mask LFT_ROLE_DAMAGE = true -> 3 <= d).
Proof.
  unfold PickRole. intros H.
  destruct (has_role mask LFT_ROLE_TANK), (has_role mask LFT_ROLE_HEALER),
    (has_role mask LFT_ROLE_DAMAGE), (Z.ltb_spec t 1), (Z.ltb_spec h 1), (Z.ltb_spec d 3);
    simpl in H; try discriminate; split_and!; intros; done.
Qed.

(** Counting a picked role keeps the caps of a party. *)
Definition within_caps (c : Z * Z * Z) : Prop :=
  let '(t, h, d) := c in 0 <= t <= 1 /\ 0 <= h <= 1 /\ 0 <= d <= 3.

Lemma count_role_pick mask t h d :
  within_caps (t, h, d) -> PickRole mask t h d <> 0 ->
  within_caps (count_role (PickRole mask t h d) (t, h, d)) /\
  is_role (PickRole mask t h d) /\
  has_role mask (PickRole mask t h d) = true /\
  forall m k, m !! k = None -> counts_of m = (t, h, d) ->
    counts_of (<[k := PickRole mask t h d]> m) = count_role (PickRole mask t h d) (t, h, d).
Proof.
  intros (Ht & Hh & Hd) Hne.
  assert (forall r m k, is_role r -> m !! k = None -> counts_of m = (t, h, d) ->
            counts_of (<[k := r]> m) = count_role r (t, h, d)) as Hcount.
  { intros r m k Hr Hk [= <- <- <-]. unfold counts_of, count_role.
    rewrite !role_count_insert by done.
    destruct Hr as [-> | [-> | ->]]; simpl; rewrite ?u8_small by lia; repeat f_equal; lia. }
  destruct (PickRole_spec mask t h d) as [?|(Hhas & Hcase)]; [done|].
  assert (is_role (PickRole mask t h d)) as Hrole by (unfold is_role; tauto).
  split_and!; [|done|done|by intros; apply Hcount].
  unfold within_caps, count_role.
  destruct Hcase as [[-> ?] | [[-> ?] | [-> ?]]]; simpl; rewrite u8_small by lia; lia.
Qed.

Section match_facts.
Context {env : LFTEnv} {gsv : GroupService}.
Implicit Types (s : LFT) (g : Z).

(** ** The queue order *)
Lemma elem_of_GetQueueOrder s g : g ∈ GetQueueOrder s <-> is_Some (m_queue s !! g).
Proof. unfold GetQueueOrder. by rewrite merge_sort_Permutation, elem_of_skeys. Qed.

Lemma NoDup_GetQueueOrder s : NoDup (GetQueueOrder s).
Proof. unfold GetQueueOrder. rewrite merge_sort_Permutation. apply NoDup_skeys. Qed.

(** Position of an entry: its queue order, ties broken by guid. *)
Definition rank_of s g : Z * Z := (from_option q_queueOrder 0 (m_queue s !! g), g).
Definition rank_le (a b : Z * Z) : Prop := a.1 < b.1 \/ (a.1 = b.1 /\ a.2 <= b.2).

Lemma queue_le_rank s a b :
  is_Some (m_queue s !! a) -> is_Some (m_queue s !! b) ->
  queue_le s a b <-> rank_le (rank_of s a) (rank_of s b).
Proof.
  intros [qa Ha] [qb Hb]. unfold queue_le, queue_less, rank_le, rank_of. rewrite Ha, Hb. simpl.
  destruct (Z.eqb_spec (q_queueOrder qb) (q_queueOrder qa)).
  - destruct (Z.ltb_spec b a); split; intros; try done; lia.
  - destruct (Z.ltb_spec (q_queueOrder qb) (q_queueOrder qa)); split; intros; try done; lia.
Qed.

#[local] Instance queue_le_total s : Total (queue_le s).
Proof.
  intros a b. unfold queue_le, queue_less.
  destruct (m_queue s !! a), (m_queue s !! b); try (rewrite !Z.ltb_ge; lia).
  rewrite (Z.eqb_sym (q_queueOrder _)). case_if; rewrite !Z.ltb_ge; lia.
Qed.

(** The queue is scanned first come, first served. *)
Lemma GetQueueOrder_sorted s :
  StronglySorted (fun a b => rank_le (rank_of s a) (rank_of s b)) (GetQueueOrder s).
Proof.
  apply Sorted_StronglySorted.
  { intros a b c. unfold rank_le. lia. }
  assert (Forall (fun g => is_Some (m_queue s !! g)) (GetQueueOrder s)) as Hall.
  { apply Forall_forall. intros g. by rewrite elem_of_GetQueueOrder. }
  pose proof (Sorted_merge_sort (queue_le s) (skeys (m_queue s))) as Hsorted.
  fold (GetQueueOrder s) in Hsorted.
  induction Hsorted as [|a l Hs IH Hd]; [constructor|].
  apply Forall_cons in Hall as [Ha Hall]. constructor; [by apply IH|].
  destruct Hd as [|b l Hab]; constructor. apply Forall_cons in Hall as [Hb _].
  by apply queue_le_rank.
Qed.

(** ** What may be selected *)
Definition selectable s (instance : string) (seed : QueuedPlayer) g (role : Z) : Prop :=
  exists q, m_queue s !! g = Some q /\ m_playerOffers s !! g = None /\
    HasInstance (q_instances q) instance = true /\ CanQueuedPlayersGroup s seed q = true /\
    has_role (q_roleMask q) role = true /\ is_role role.

Definition same_block s g g' : Prop :=
  exists q q', m_queue s !! g = Some q /\ m_queue s !! g' = Some q' /\
    leader_of g q = leader_of g' q'.

(** Members of a block come together or not at all. *)
Definition blocks_whole s (roles : gmap Z Z) : Prop :=
  forall g g', is_Some (roles !! g) -> same_block s g g' -> is_Some (roles !! g').

Record picked_ok s (instance : string) (seed : QueuedPlayer) (pk : Picked) : Prop := {
  pk_dom : dom (pk_roles pk) = pk_selected pk;
  pk_sel : map_Forall (selectable s instance seed) (pk_roles pk);
  pk_cnt : counts_of (pk_roles pk) = pk_counts pk;
  pk_cap : within_caps (pk_counts pk);
  pk_whole : blocks_whole s (pk_roles pk)
}.

Lemma block_member_ok_Some s instance seed selected g q :
  block_member_ok s instance seed selected g = Some q ->
  m_queue s !! g = Some q /\ (g ∉ selected) /\ m_playerOffers s !! g = None /\
  HasInstance (q_instances q) instance = true /\ CanQueuedPlayersGroup s seed q = true.
Proof.
  unfold block_member_ok. destruct (m_queue s !! g) as [q'|]; [|done].
  case_if; [done|]. intros [= ->]. bool_prop.
  split_and!; try done. by apply eq_None_not_Some.
Qed.

Lemma fit_block_ok s instance seed base block :
  forall br counts br' counts',
  fit_block s instance seed (dom base) block br counts = Some (br', counts') ->
  NoDup block -> (forall g, g ∈ block -> br !! g = None) ->
  map_Forall (selectable s instance seed) br -> br ##ₘ base ->
  counts_of (br ∪ base) = counts -> within_caps counts ->
  map_Forall (selectable s instance seed) br' /\ br' ##ₘ base /\
  counts_of (br' ∪ base) = counts' /\ within_caps counts' /\
  dom br' = dom br ∪ list_to_set block.
Proof.
  induction block as [|g block IH]; intros br counts br' counts' Hfit Hnd Hfresh Hsel Hdisj Hcnt Hcap;
    simpl in Hfit.
  { simplify_eq. split_and!; try done. set_solver. }
  destruct (block_member_ok _ _ _ _ _) as [q|] eqn:Hq; [|done].
  apply block_member_ok_Some in Hq as (Hq & Hns & Hno & Hinst & Hcan).
  destruct counts as [[t h] d]. destruct (Z.eqb_spec (PickRole (q_roleMask q) t h d) 0) as [|Hne]; [done|].
  destruct (count_role_pick _ _ _ _ Hcap Hne) as (Hcap' & Hrole & Hhas & Hins).
  apply NoDup_cons in Hnd as [Hg Hnd].
  assert (br !! g = None) as Hbg by (apply Hfresh; by left).
  assert (base !! g = None) as Hbase by by apply not_elem_of_dom.
  eapply IH in Hfit; [|done|..|exact Hcap'].
  - destruct Hfit as (? & ? & ? & ? & Hdom). split_and!; try done.
    rewrite Hdom, dom_insert_L. set_solver.
  - intros g' Hg'. rewrite lookup_insert_ne by set_solver. apply Hfresh. by right.
  - apply map_Forall_insert_2; [|done]. unfold selectable. eauto 10.
  - by apply map_disjoint_insert_l_2.
  - rewrite <- insert_union_l. apply Hins; [|done]. by apply lookup_union_None.
Qed.

Lemma elem_of_block_of s order leader g :
  g ∈ block_of s order leader <->
  g ∈ order /\ exists q, m_queue s !! g = Some q /\ leader_of g q = leader.
Proof.
  unfold block_of. rewrite list_elem_of_In, List.filter_In, <- list_elem_of_In.
  destruct (m_queue s !! g) as [q|].
  - rewrite Z.eqb_eq. naive_solver.
  - naive_solver.
Qed.

Lemma NoDup_block_of s order leader : NoDup order -> NoDup (block_of s order leader).
Proof. unfold block_of. rewrite !NoDup_ListNoDup. apply List.NoDup_filter. Qed.

Lemma picked_none_ok s instance seed : picked_ok s instance seed Picked_none.
Proof.
  split; simpl; [apply dom_empty_L|apply map_Forall_empty|done|lia|].
  intros g g' [? Hl]. by rewrite lookup_empty in Hl.
Qed.

Lemma consider_ok s instance seed pk g :
  picked_ok s instance seed pk ->
  picked_ok s instance seed (consider s instance seed (GetQueueOrder s) pk g).
Proof.
  intros Hpk. unfold consider. case_if; [done|].
  destruct (m_queue s !! g) as [cand|] eqn:Hc; [|done].
  do 3 (case_if; [done|]).
  destruct (fit_block _ _ _ _ _ _ _) as [[br counts]|] eqn:Hfit; [|done].
  case_if; [done|]. destruct Hpk as [Hdom Hsel Hcnt Hcap Hwhole].
  rewrite <- Hdom in Hfit. apply fit_block_ok in Hfit as (Hsel' & Hdisj & Hcnt' & Hcap' & Hbr).
  2: { apply NoDup_block_of, NoDup_GetQueueOrder. }
  2: { intros. apply lookup_empty. }
  2: { apply map_Forall_empty. }
  2: { apply map_disjoint_empty_l. }
  2: { by rewrite (left_id_L ∅ (∪)). }
  2: { done. }
  split; simpl; try done.
  - by rewrite dom_union_L, Hdom.
  - apply map_Forall_union_2; done.
  - intros g1 g2 Hg1 (q1 & q2 & Hq1 & Hq2 & Hlead).
    assert (forall g0, is_Some (br !! g0) <->
              exists q, m_queue s !! g0 = Some q /\ leader_of g0 q = leader_of g cand) as Hin.
    { intros g0. rewrite <- elem_of_dom, Hbr, dom_empty_L, elem_of_union, elem_of_list_to_set,
        elem_of_block_of, elem_of_GetQueueOrder. set_solver. }
    rewrite lookup_union_is_Some in *. destruct Hg1 as [Hg1|Hg1].
    + left. apply Hin in Hg1 as (q1' & Hq1' & Hl). apply Hin. exists q2. split; [done|]. congruence.
    + right. apply (Hwhole g1); [done|]. by exists q1, q2.
Qed.

Lemma pick_for_seed_ok s instance seed :
  picked_ok s instance seed (pick_for_seed s instance (GetQueueOrder s) seed).
Proof.
  unfold pick_for_seed. apply foldl_inv; [apply picked_none_ok|].
  intros. by apply consider_ok.
Qed.

(** What the matcher hands over, in full. *)
Lemma find_party_sound s instance seeds roles :
  find_party s instance (GetQueueOrder s) seeds = Some roles ->
  party_composition roles /\ blocks_whole s roles /\
  exists seedGuid seed, m_queue s !! seedGuid = Some seed /\
    m_playerOffers s !! seedGuid = None /\ HasInstance (q_instances seed) instance = true /\
    map_Forall (selectable s instance seed) roles.
Proof.
  induction seeds as [|g seeds IH]; simpl; [done|].
  destruct (m_queue s !! g) as [seed|] eqn:Hseed; [|done].
  case_if; [done|]. case_if; [|done]. intros [= <-]. bool_prop.
  pose proof (pick_for_seed_ok s instance seed) as [Hdom Hsel Hcnt Hcap Hwhole].
  destruct (pick_for_seed _ _ _ _) as [roles sel [[t h] d]]; simpl in *. bool_prop.
  unfold full_party in *; simpl in *. bool_prop. subst.
  split_and!; [split; [lia|done]|done|].
  exists g, seed. split_and!; try done. by apply eq_None_not_Some.
Qed.
End match_facts.
