(* ===== verification/LFTInv.v ===== *)
(** The invariant of the queue: the offer table and the per-player offer index
    describe the same offers, every offer is a full party, and only its own
    players can have accepted it.  Every handler of the queue keeps it. *)

From S2P Require Import Prelude CString World LFTTypes LFTQueue LFTOffer LFTQueueFacts.

Record offers_ok (s : LFT) : Prop := {
  inv_next : 0 < m_nextOfferId s <= U32_MAX;
  inv_ids : map_Forall (fun oid o => o_id o = oid /\ 0 < oid < m_nextOfferId s) (m_offers s);
  inv_party : map_Forall (fun _ o => party_composition (o_roles o)) (m_offers s);
  inv_accepted : map_Forall (fun _ o => o_accepted o ⊆ dom (o_roles o)) (m_offers s);
  inv_link : forall g oid, m_playerOffers s !! g = Some oid <->
    exists o, m_offers s !! oid = Some o /\ is_Some (o_roles o !! g)
}.

(** Players queued and not promised to any offer. *)
Definition free_players (s : LFT) : gset Z := dom (m_queue s) ∖ dom (m_playerOffers s).

(** Offer ids that may still be handed out by one matching run: each new offer
    uses up five free players, so the run stays below this bound. *)
Definition id_budget (s : LFT) : Z := m_nextOfferId s + Z.of_nat (size (free_players s)).

(** Room for [k] more queued players before the 32-bit offer counter wraps. *)
Definition room (k : Z) (s : LFT) : Prop :=
  m_nextOfferId s + Z.of_nat (size (m_queue s)) + k <= U32_MAX.

Lemma id_budget_room s : id_budget s <= m_nextOfferId s + Z.of_nat (size (m_queue s)).
Proof.
  unfold id_budget, free_players. rewrite <- (size_dom (m_queue s)).
  pose proof (subseteq_size (dom (m_queue s) ∖ dom (m_playerOffers s)) (dom (m_queue s))). 
  assert (size (dom (m_queue s) ∖ dom (m_playerOffers s)) <= size (dom (m_queue s)))%nat; [|lia].
  apply subseteq_size. set_solver.
Qed.

Lemma offers_ok_ext s s' :
  m_offers s' = m_offers s -> m_playerOffers s' = m_playerOffers s ->
  m_nextOfferId s' = m_nextOfferId s -> offers_ok s -> offers_ok s'.
Proof. intros E1 E2 E3 []. split; rewrite ?E1, ?E2, ?E3; done. Qed.

Lemma offers_ok_init db w : offers_ok (LFT_init db w).
Proof.
  split; simpl; [done|apply map_Forall_empty..|].
  intros g oid. rewrite lookup_empty. split; [done|].
  intros (o & Ho & _). by rewrite lookup_empty in Ho.
Qed.

Lemma map_union_covered {A} (m : gmap Z A) (X : gset Z) (x : A) :
  X ⊆ dom m -> m ∪ gset_to_gmap x X = m.
Proof.
  intros HX. apply map_eq. intros g. rewrite lookup_union.
  destruct (m !! g) as [a|] eqn:Hg; [by destruct (gset_to_gmap x X !! g)|].
  rewrite lookup_gset_to_gmap. rewrite option_guard_False; [done|].
  intros Hin%HX%elem_of_dom. rewrite Hg in Hin. by destruct Hin.
Qed.

Section inv.
Context {env : LFTEnv} {gsv : GroupService}.
Implicit Types (s : LFT) (g oid : Z).

(** ** Promising the selected players *)
Section promise.
Context (instance : string) (roles : gmap Z Z) (oid : Z).
#[local] Abbreviation promise := (promise_one instance roles oid).

Lemma promise_one_fields s g :
    m_offers (promise s g) = m_offers s /\ m_nextOfferId (promise s g) = m_nextOfferId s /\
    m_rolechecks (promise s g) = m_rolechecks s /\
    m_playerOffers (promise s g) = <[g := oid]> (m_playerOffers s) /\
    dom (m_queue (promise s g)) = {[g]} ∪ dom (m_queue s).
Proof.
    unfold promise_one. autorewrite with lft. simpl. split_and!; try done. by rewrite dom_insert_L.
Qed.

Lemma promise_all_fields l : forall s,
    let s' := foldl promise s l in
    m_offers s' = m_offers s /\ m_nextOfferId s' = m_nextOfferId s /\
    m_rolechecks s' = m_rolechecks s /\
    (forall g, m_playerOffers s' !! g = if decide (g ∈ l) then Some oid else m_playerOffers s !! g) /\
    dom (m_queue s') = list_to_set l ∪ dom (m_queue s).
Proof.
    induction l as [|k l IH]; intros s; simpl.
    - split_and!; try done; set_solver.
    - destruct (promise_one_fields s k) as (H1 & H2 & H3 & H4 & H5).
      destruct (IH (promise s k)) as (-> & -> & -> & Hpo & ->).
      split_and!; try done; [|rewrite H5; set_solver].
      intros g. rewrite Hpo, H4. destruct (decide (g ∈ l)).
      + by rewrite decide_True by set_solver.
      + destruct (decide (g = k)) as [->|Hne].
        * by rewrite lookup_insert_eq, decide_True by set_solver.
        * by rewrite lookup_insert_ne, decide_False by set_solver.
Qed.
End promise.

(** ** Building an offer *)
Lemma TryBuildOffer_ok s instance :
  offers_ok s -> id_budget s <= U32_MAX ->
  let s' := snd (TryBuildOfferForInstance instance s) in
  offers_ok s' /\ id_budget s' <= id_budget s.
Proof.
  intros Hok Hb. unfold TryBuildOfferForInstance.
  destruct (find_party _ _ _ _) as [roles|] eqn:Hf; [|done]. simpl.
  apply find_party_sound in Hf as (Hparty & _ & seedGuid & seed & _ & _ & _ & Hsel).
  assert (dom roles ⊆ free_players s) as Hfree.
  { intros g [r Hr]%elem_of_dom. destruct (Hsel g r Hr) as (q & Hq & Hno & _).
    unfold free_players. apply elem_of_difference. split; [by apply elem_of_dom_2 in Hq|].
    by apply not_elem_of_dom. }
  assert (size (dom roles) = 5%nat) as Hsize by (by rewrite size_dom; apply Hparty).
  pose proof (subseteq_size _ _ Hfree) as Hle.
  assert (m_nextOfferId s < U32_MAX) as Hnext by (unfold id_budget in Hb; lia).
  destruct Hok as [Hn Hids Hpar Hacc Hlink].
  rewrite u32_small by (unfold U32_MAX in *; lia).
  match goal with |- context [foldl _ ?s0 _] => set (s1 := s0) end.
  destruct (promise_all_fields instance roles (m_nextOfferId s) (skeys roles) s1)
    as (Ho & Hnx & _ & Hpo & Hdom).
  assert (forall g, g ∈ skeys roles <-> g ∈ dom roles) as Hkeys.
  { intros g. by rewrite elem_of_skeys, elem_of_dom. }
  assert (m_offers s !! m_nextOfferId s = None) as Hfresh.
  { destruct (m_offers s !! m_nextOfferId s) eqn:E; [|done]. apply Hids in E. lia. }
  split.
  - split; rewrite ?Ho, ?Hnx; simpl.
    + lia.
    + apply map_Forall_insert_2; [simpl; lia|].
      eapply map_Forall_impl; [exact Hids|]. simpl. intros ? ? ?. lia.
    + by apply map_Forall_insert_2.
    + apply map_Forall_insert_2; [set_solver|done].
    + intros g oid. rewrite Hpo. destruct (decide (g ∈ skeys roles)) as [Hin|Hout].
      * apply Hkeys, elem_of_dom in Hin. split.
        -- intros [= <-]. eexists. split; [apply lookup_insert_eq|done].
        -- intros (o & Hl & Hg). destruct (decide (oid = m_nextOfferId s)) as [->|Hne]; [done|].
           rewrite lookup_insert_ne in Hl by done.
           assert (m_playerOffers s !! g = Some oid) as Hold by (apply Hlink; eauto).
           destruct Hin as [r Hr]. destruct (Hsel g r Hr) as (? & _ & ? & _). congruence.
      * simpl. rewrite Hlink. rewrite Hkeys, not_elem_of_dom in Hout. split.
        -- intros (o & Hl & Hg). exists o. split; [|done].
           rewrite lookup_insert_ne; [done|]. intros <-. congruence.
        -- intros (o & Hl & Hg). destruct (decide (oid = m_nextOfferId s)) as [->|Hne].
           ++ rewrite lookup_insert_eq in Hl. simplify_eq. simpl in Hg.
              rewrite Hout in Hg. by destruct Hg.
           ++ rewrite lookup_insert_ne in Hl by done. eauto.
  - unfold id_budget. rewrite Hnx. simpl.
    assert (free_players (foldl (promise_one instance roles (m_nextOfferId s)) s1 (skeys roles))
            = free_players s ∖ dom roles) as ->.
    { unfold free_players. rewrite Hdom. simpl. apply set_eq. intros g.
      rewrite !elem_of_difference, elem_of_union, elem_of_list_to_set, Hkeys, !elem_of_dom, Hpo.
      specialize (Hfree g). unfold free_players in Hfree.
      rewrite elem_of_difference, !elem_of_dom in Hfree. simpl.
      destruct (decide (g ∈ skeys roles)) as [Hin|Hout]; rewrite Hkeys, elem_of_dom in *;
        naive_solver. }
    rewrite size_difference by done. lia.
Qed.

Lemma TryMakeOffers_ok s :
  offers_ok s -> id_budget s <= U32_MAX ->
  offers_ok (TryMakeOffers s) /\ id_budget (TryMakeOffers s) <= U32_MAX.
Proof.
  intros Hok Hb. unfold TryMakeOffers.
  apply (foldl_inv (fun s => offers_ok s /\ id_budget s <= U32_MAX)); [done|].
  intros s' instance _ [Hok' Hb']. destruct (TryBuildOffer_ok s' instance Hok' Hb'). split; [done|lia].
Qed.

(** ** Cancelling *)

(** What a cancelled offer leaves of a participant's queue entry. *)
Definition requeued (offer : Offer) (requeueAccepted : bool) (removeGuid : Z) (requeueOthers : bool)
    (g : Z) (old : option QueuedPlayer) : option QueuedPlayer :=
  if requeueAccepted && negb (g =? removeGuid) &&
     (requeueOthers || bool_decide (g ∈ o_accepted offer))
  then (fun q => set_q_assignedRole (PickRole (q_roleMask q) 0 0 0) q) <$> old
  else None.

Section cancel.
Context (offer : Offer) (ra : bool) (rg : Z) (ro : bool).
#[local] Abbreviation cancel := (cancel_one offer ra rg ro).

Lemma cancel_one_fields s g :
    m_offers (cancel s g) = m_offers s /\ m_nextOfferId (cancel s g) = m_nextOfferId s /\
    m_rolechecks (cancel s g) = m_rolechecks s /\ m_fillBots (cancel s g) = m_fillBots s /\
    m_playerOffers (cancel s g) = delete g (m_playerOffers s) /\
    (forall k, m_queue (cancel s g) !! k =
       if decide (k = g) then requeued offer ra rg ro g (m_queue s !! g) else m_queue s !! k).
Proof.
    unfold cancel_one, requeued. simpl. destruct (ra && _ && _); simpl;
      [destruct (m_queue s !! g) as [q|] eqn:Hq; simpl|].
    1: match goal with |- context [GetPlayer ?s0 g] => destruct (GetPlayer s0 g) end;
       unfold SendQueueJoined, SendQueuedStatus.
    all: unfold SendQueueLeft; autorewrite with lft; simpl; split_and!; try done.
    all: intros k; destruct (decide (k = g)) as [->|];
      rewrite ?lookup_insert_eq, ?lookup_insert_ne, ?lookup_delete_eq, ?lookup_delete_ne by done; done.
Qed.

Lemma cancel_all_fields l : forall s, NoDup l ->
    let s' := foldl cancel s l in
    m_offers s' = m_offers s /\ m_nextOfferId s' = m_nextOfferId s /\
    m_rolechecks s' = m_rolechecks s /\ m_fillBots s' = m_fillBots s /\
    (forall g, m_playerOffers s' !! g = if decide (g ∈ l) then None else m_playerOffers s !! g) /\
    (forall g, m_queue s' !! g =
       if decide (g ∈ l) then requeued offer ra rg ro g (m_queue s !! g) else m_queue s !! g).
Proof.
    induction l as [|k l IH]; intros s Hnd; simpl.
    - split_and!; try done; intros g; by rewrite decide_False by set_solver.
    - apply NoDup_cons in Hnd as [Hk Hnd].
      destruct (cancel_one_fields s k) as (H1 & H2 & H3 & H4 & H5 & H6).
      destruct (IH (cancel s k) Hnd) as (-> & -> & -> & -> & Hpo & Hq).
      split_and!; try done; intros g; [rewrite Hpo, H5|rewrite Hq, H6].
      + destruct (decide (g ∈ l)); [by rewrite decide_True by set_solver|].
        destruct (decide (g = k)) as [->|].
        * by rewrite lookup_delete_eq, decide_True by set_solver.
        * by rewrite lookup_delete_ne, decide_False by set_solver.
      + destruct (decide (g = k)) as [->|].
        * by rewrite decide_False, decide_True by set_solver.
        * destruct (decide (g ∈ l)); [by rewrite decide_True by set_solver|].
          by rewrite decide_False by set_solver.
Qed.
End cancel.

(** The whole of [CancelOffer], field by field. *)
Lemma CancelOffer_fields s oid offer ra rg ro :
  m_offers s !! oid = Some offer ->
  let s' := CancelOffer oid ra rg ro s in
  m_offers s' = delete oid (m_offers s) /\ m_nextOfferId s' = m_nextOfferId s /\
  m_rolechecks s' = m_rolechecks s /\ m_fillBots s' = m_fillBots s /\
  (forall g, m_playerOffers s' !! g =
     if decide (is_Some (o_roles offer !! g)) then None else m_playerOffers s !! g) /\
  (forall g, m_queue s' !! g =
     if decide (is_Some (o_roles offer !! g)) then requeued offer ra rg ro g (m_queue s !! g)
     else m_queue s !! g).
Proof.
  intros Ho. unfold CancelOffer. rewrite Ho. simpl.
  destruct (cancel_all_fields offer ra rg ro (skeys (o_roles offer)) s)
    as (-> & -> & -> & -> & Hpo & Hq); [apply NoDup_skeys|].
  split_and!; try done; intros g; [rewrite Hpo|rewrite Hq];
    apply decide_ext, elem_of_skeys.
Qed.

(** Dropping one offer together with its players' index entries. *)
Lemma offers_ok_drop s s' oid offer :
  m_offers s !! oid = Some offer -> m_offers s' = delete oid (m_offers s) ->
  m_nextOfferId s' = m_nextOfferId s ->
  (forall g, m_playerOffers s' !! g =
     if decide (is_Some (o_roles offer !! g)) then None else m_playerOffers s !! g) ->
  offers_ok s -> offers_ok s'.
Proof.
  intros Ho Hof Hn Hpo Hok.
  destruct Hok as [H1 H2 H3 H4 Hlink]. split; rewrite ?Hof, ?Hn; try done; try by apply map_Forall_delete.
  intros g oid'. rewrite Hpo. case_decide as Hg.
  - split; [done|]. intros (o & Ho' & Hin). destruct (decide (oid' = oid)) as [->|].
    + by rewrite lookup_delete_eq in Ho'.
    + rewrite lookup_delete_ne in Ho' by done.
      assert (m_playerOffers s !! g = Some oid') by (apply Hlink; eauto).
      assert (m_playerOffers s !! g = Some oid) by (apply Hlink; eauto). congruence.
  - rewrite Hlink. split; intros (o & Ho' & Hin); exists o; (split; [|done]).
    + rewrite lookup_delete_ne; [done|]. intros <-. apply Hg. by simplify_eq.
    + by apply lookup_delete_Some in Ho' as [_ ?].
Qed.

Lemma CancelOffer_ok s oid ra rg ro : offers_ok s -> offers_ok (CancelOffer oid ra rg ro s).
Proof.
  intros Hok. destruct (m_offers s !! oid) as [offer|] eqn:Ho.
  - destruct (CancelOffer_fields s oid offer ra rg ro Ho) as (Hof & Hn & _ & _ & Hpo & _).
    by eapply offers_ok_drop.
  - unfold CancelOffer. by rewrite Ho.
Qed.

(** ** Steps that neither queue anybody nor make an offer *)
Record shrinks s s' : Prop := {
  sh_next : m_nextOfferId s' = m_nextOfferId s;
  sh_queue : dom (m_queue s') ⊆ dom (m_queue s)
}.

Lemma shrinks_refl s : shrinks s s.
Proof. done. Qed.

Lemma shrinks_trans s1 s2 s3 : shrinks s1 s2 -> shrinks s2 s3 -> shrinks s1 s3.
Proof. intros [] []. split; [congruence|set_solver]. Qed.

Lemma shrinks_room k s s' : shrinks s s' -> room k s -> room k s'.
Proof.
  intros [Hn Hq] Hr. unfold room in *. rewrite Hn. apply subseteq_size in Hq.
  rewrite !size_dom in Hq. lia.
Qed.

Lemma CancelOffer_shrinks s oid ra rg ro : shrinks s (CancelOffer oid ra rg ro s).
Proof.
  destruct (m_offers s !! oid) as [offer|] eqn:Ho.
  2: { unfold CancelOffer. by rewrite Ho. }
  destruct (CancelOffer_fields s oid offer ra rg ro Ho) as (_ & Hn & _ & _ & _ & Hq).
  split; [done|]. intros g. rewrite !elem_of_dom, Hq. case_decide; [|done].
  unfold requeued. case_if; [|by intros [? ?]]. by rewrite fmap_is_Some.
Qed.

Lemma foldl_sends_field {A B} (f : LFT -> A) (body : LFT -> B -> LFT) l s :
  (forall s x, f (body s x) = f s) -> f (foldl body s l) = f s.
Proof. intros H. by apply (foldl_keep f). Qed.

Lemma CancelRolecheck_fields s key :
  m_offers (CancelRolecheck key s) = m_offers s /\
  m_playerOffers (CancelRolecheck key s) = m_playerOffers s /\
  m_nextOfferId (CancelRolecheck key s) = m_nextOfferId s /\
  m_queue (CancelRolecheck key s) = m_queue s /\
  m_rolechecks (CancelRolecheck key s) = delete key (m_rolechecks s).
Proof.
  unfold CancelRolecheck. destruct (m_rolechecks s !! key) as [rc|] eqn:Hrc; simpl.
  - unfold SendQueueLeft. split_and!;
      try (rewrite foldl_sends_field; [done|intros; by autorewrite with lft]).
  - split_and!; try done. by rewrite delete_id.
Qed.

Lemma CancelRolecheck_ok s key : offers_ok s -> offers_ok (CancelRolecheck key s).
Proof. destruct (CancelRolecheck_fields s key) as (? & ? & ? & _). by apply offers_ok_ext. Qed.

Lemma CancelRolecheck_shrinks s key : shrinks s (CancelRolecheck key s).
Proof. destruct (CancelRolecheck_fields s key) as (_ & _ & ? & E & _). split; [done|by rewrite E]. Qed.

Lemma cancel_rolecheck_of_inv (P : LFT -> Prop) guid l s :
  (forall s key, P s -> P (CancelRolecheck key s)) ->
  P s -> P (foldl (cancel_rolecheck_of guid) s l).
Proof.
  intros HP Hs. apply foldl_inv; [done|]. intros s' key _ Hs'. unfold cancel_rolecheck_of.
  destruct (m_rolechecks s' !! key) as [rc|]; [|done]. case_if; auto.
Qed.

(** ** The whole invariant

    Besides [offers_ok]: rolechecks and groups are no larger than a raid, so a
    rolecheck can only add so many players to the queue. *)
Definition small s : Prop :=
  map_Forall (fun _ rc => Z.of_nat (length (rc_members rc)) <= MAX_RAID_SIZE) (m_rolechecks s) /\
  groups_small (wld s).

Definition lft_inv s : Prop := offers_ok s /\ small s.

Lemma small_ext s s' :
  m_rolechecks s' = m_rolechecks s -> w_groups (wld s') = w_groups (wld s) -> small s -> small s'.
Proof. unfold small, groups_small. by intros -> ->. Qed.

Lemma foldl_small {B} (body : LFT -> B -> LFT) l s :
  (forall s x, small s -> small (body s x)) -> small s -> small (foldl body s l).
Proof. intros Hb Hs. apply foldl_inv; [done|]. auto. Qed.

Lemma CancelOffer_small s oid ra rg ro : small s -> small (CancelOffer oid ra rg ro s).
Proof.
  intros Hs. unfold CancelOffer. destruct (m_offers s !! oid) as [offer|]; [|done].
  assert (small (foldl (cancel_one offer ra rg ro) s (skeys (o_roles offer)))) as Hf; [|exact Hf].
  apply foldl_small; [|done]. clear s Hs. intros s g. apply small_ext;
    unfold cancel_one, SendQueueLeft, SendQueueJoined, SendQueuedStatus; simpl;
    repeat case_match; by autorewrite with lft.
Qed.

Lemma CancelRolecheck_small s key : small s -> small (CancelRolecheck key s).
Proof.
  intros Hs. destruct (CancelRolecheck_fields s key) as (_ & _ & _ & _ & Hrc).
  assert (w_groups (wld (CancelRolecheck key s)) = w_groups (wld s)) as Hg.
  { unfold CancelRolecheck. destruct (m_rolechecks s !! key); [|done]. simpl.
    apply (foldl_keep (fun s => w_groups (wld s))). intros. unfold SendQueueLeft.
    by autorewrite with lft. }
  unfold small, groups_small in *. rewrite Hrc, Hg. destruct Hs. split; [|done].
  by apply map_Forall_delete.
Qed.

Lemma CancelOffer_inv s oid ra rg ro : lft_inv s -> lft_inv (CancelOffer oid ra rg ro s).
Proof. intros []. split; [by apply CancelOffer_ok|by apply CancelOffer_small]. Qed.

Lemma CancelRolecheck_inv s key : lft_inv s -> lft_inv (CancelRolecheck key s).
Proof. intros []. split; [by apply CancelRolecheck_ok|by apply CancelRolecheck_small]. Qed.

Lemma set_m_queue_inv q s : lft_inv s -> lft_inv (set_m_queue q s).
Proof. intros [Hok Hs]. split; [by apply (offers_ok_ext s)|exact Hs]. Qed.

Lemma CleanupPlayer_inv s g : lft_inv s -> lft_inv (CleanupPlayer g s) /\ shrinks s (CleanupPlayer g s).
Proof.
  intros Hs. unfold CleanupPlayer.
  apply cancel_rolecheck_of_inv.
  { intros s' key [Hi Hsh]. split; [by apply CancelRolecheck_inv|].
    eapply shrinks_trans; [exact Hsh|apply CancelRolecheck_shrinks]. }
  pose proof (set_m_queue_inv (delete g (m_queue s)) s Hs) as Hd.
  assert (shrinks s (set_m_queue (delete g (m_queue s)) s)) as Hsh.
  { split; [done|]. simpl. rewrite dom_delete_L. set_solver. }
  destruct (m_playerOffers _ !! g); [|done]. split; [by apply CancelOffer_inv|].
  eapply shrinks_trans; [exact Hsh|apply CancelOffer_shrinks].
Qed.

(** ** Matching keeps the invariant while there is room for offer ids *)
Lemma TryBuildOffer_small s instance : small s -> small (snd (TryBuildOfferForInstance instance s)).
Proof.
  intros Hs. unfold TryBuildOfferForInstance. destruct (find_party _ _ _ _) as [roles|]; [|done].
  apply foldl_small; [|exact Hs]. intros s' g.
  apply small_ext; unfold promise_one; autorewrite with lft; done.
Qed.

Lemma TryMakeOffers_inv s : lft_inv s -> room 0 s -> lft_inv (TryMakeOffers s).
Proof.
  intros [Hok Hs] Hr. split.
  - apply TryMakeOffers_ok; [done|]. unfold room in Hr. pose proof (id_budget_room s). lia.
  - unfold TryMakeOffers. apply foldl_small; [|done]. intros. by apply TryBuildOffer_small.
Qed.

Lemma room_mono k k' s : k' <= k -> room k s -> room k' s.
Proof. unfold room. lia. Qed.

(** ** Enqueueing *)
Lemma EnqueuePlayer_inv s g leader p insts mask k :
  lft_inv s -> room (k + 1) s ->
  lft_inv (EnqueuePlayer g leader p insts mask s) /\ room k (EnqueuePlayer g leader p insts mask s).
Proof.
  intros [Hok Hs] Hr. unfold EnqueuePlayer, SendQueueJoined, SendQueuedStatus. split; [split|].
  - eapply offers_ok_ext; [..|exact Hok]; by autorewrite with lft.
  - eapply small_ext; [..|exact Hs]; by autorewrite with lft.
  - unfold room in *. autorewrite with lft. simpl.
    rewrite map_size_insert. destruct (m_queue s !! g); simpl; lia.
Qed.

Lemma enqueue_members_inv rc k l : forall s,
  lft_inv s -> room (k + Z.of_nat (length l)) s ->
  lft_inv (foldl (enqueue_member rc) s l) /\ room k (foldl (enqueue_member rc) s l).
Proof.
  induction l as [|g l IH]; intros s Hi Hr; simpl in *.
  { split; [done|]. eapply room_mono; [|done]. lia. }
  apply IH; unfold enqueue_member.
  all: destruct (GetPlayer s g) as [p|]; [destruct (rc_responses rc !! g) as [mask|]|];
    try done; try (eapply room_mono; [|done]; lia).
  all: eapply (EnqueuePlayer_inv _ _ _ _ _ _ (k + Z.of_nat (length l))); [done|].
  all: eapply room_mono; [|done]; lia.
Qed.

Lemma EnqueueRolecheck_inv rc s :
  Z.of_nat (length (rc_members rc)) <= MAX_RAID_SIZE ->
  lft_inv s -> room MAX_RAID_SIZE s -> lft_inv (EnqueueRolecheck rc s).
Proof.
  intros Hlen Hi Hr. unfold EnqueueRolecheck.
  destruct (enqueue_members_inv rc 0 (rc_members rc) s) as [??]; [done| |by apply TryMakeOffers_inv].
  eapply room_mono; [|done]. lia.
Qed.

Lemma set_m_rolechecks_inv rcs s :
  map_Forall (fun _ rc => Z.of_nat (length (rc_members rc)) <= MAX_RAID_SIZE) rcs ->
  lft_inv s -> lft_inv (set_m_rolechecks rcs s).
Proof. intros Hrcs [Hok [_ Hg]]. split; [by apply (offers_ok_ext s)|by split]. Qed.

Lemma finish_rolecheck_inv key s :
  lft_inv s -> room MAX_RAID_SIZE s -> lft_inv (finish_rolecheck key s).
Proof.
  intros Hi Hr. unfold finish_rolecheck. destruct (m_rolechecks s !! key) as [rc|] eqn:Hrc; [|done].
  case_if; [|done]. apply EnqueueRolecheck_inv; [|apply set_m_rolechecks_inv|]; try done.
  - destruct Hi as [_ [Hrcs _]]. by apply Hrcs in Hrc.
  - apply map_Forall_delete. apply Hi.
Qed.

Lemma ask_member_inv leader joined k s g :
  lft_inv s /\ room k s -> lft_inv (ask_member leader joined s g) /\ room k (ask_member leader joined s g).
Proof.
  intros [Hi Hr]. unfold ask_member. destruct (GetPlayer s g) as [p|]; [|done].
  destruct (p_botManaged p).
  - case_if; [done|]. destruct (m_rolechecks s !! leader) as [rc|] eqn:Hrc; [|done].
    split; [|done]. apply set_m_rolechecks_inv; [|done].
    destruct Hi as [_ [Hrcs _]]. apply map_Forall_insert_2; [|done]. simpl. by apply Hrcs in Hrc.
  - destruct Hi as [Hok Hs]. split; [split|].
    + eapply offers_ok_ext; [..|exact Hok]; by autorewrite with lft.
    + eapply small_ext; [..|exact Hs]; by autorewrite with lft.
    + unfold room in *. by autorewrite with lft.
Qed.

Lemma GetPartyMembers_small s g p :
  groups_small (wld s) -> Z.of_nat (length (GetPartyMembers s g p)) <= MAX_RAID_SIZE.
Proof.
  intros Hg. unfold GetPartyMembers, GetGroup.
  destruct (p_group p) as [gp|]; simpl; [|unfold MAX_RAID_SIZE; lia].
  destruct (w_groups (wld s) !! gp) as [gr|] eqn:Hgr; simpl; [|unfold MAX_RAID_SIZE; lia].
  apply Hg in Hgr. unfold GetMembersCount in Hgr. etransitivity; [|exact Hgr].
  apply inj_le. etransitivity; [apply List.filter_length_le|]. by rewrite length_fmap.
Qed.

Lemma StartRolecheck_inv g p insts s :
  lft_inv s -> room MAX_RAID_SIZE s -> lft_inv (StartRolecheck g p insts s).
Proof.
  intros Hi Hr. unfold StartRolecheck. simpl.
  match goal with |- lft_inv (finish_rolecheck g ?s0) =>
    assert (lft_inv s0 /\ room MAX_RAID_SIZE s0) as []; [|by apply finish_rolecheck_inv] end.
  apply foldl_inv; [|intros; by apply ask_member_inv].
  split; [|done]. apply set_m_rolechecks_inv; [|done].
  destruct Hi as [_ [Hrcs Hg]]. apply map_Forall_insert_2; [|done]. simpl. by apply GetPartyMembers_small.
Qed.

(** ** The handlers of the queue *)
Lemma HandleQueueJoin_inv g fields s :
  lft_inv s -> room MAX_RAID_SIZE s -> lft_inv (HandleQueueJoin g fields s).
Proof.
  intros Hi Hr. unfold HandleQueueJoin. destruct (w_players (wld s) !! g) as [p|]; [|done].
  assert (forall msg, lft_inv (Send g msg s)) as Hsend.
  { intros msg. destruct Hi as [Hok Hs]. split;
      [eapply offers_ok_ext; [..|exact Hok]|eapply small_ext; [..|exact Hs]]; by autorewrite with lft. }
  repeat (case_if; [done|]).
  destruct (CleanupPlayer_inv s g Hi) as [? ?]. apply StartRolecheck_inv; [done|].
  by eapply shrinks_room.
Qed.

Lemma QueuePlayer_inv g insts mask s :
  lft_inv s -> room MAX_RAID_SIZE s -> lft_inv (snd (QueuePlayer g insts mask s)).
Proof.
  intros Hi Hr. unfold QueuePlayer. destruct (GetPlayer s g) as [p|]; [|done].
  repeat (case_if; [done|]). destruct (CleanupPlayer_inv s g Hi) as [Hc Hsh].
  apply (shrinks_room _ _ _ Hsh) in Hr.
  destruct (GetGroup (wld s) p); simpl; [by apply StartRolecheck_inv|].
  eapply (EnqueuePlayer_inv _ _ _ _ _ _ 0) in Hc as [? ?]; [by apply TryMakeOffers_inv|].
  eapply room_mono; [|done]. unfold MAX_RAID_SIZE. lia.
Qed.

Lemma LeaveQueue_inv g s : lft_inv s -> room 0 s -> lft_inv (snd (LeaveQueue g s)).
Proof.
  intros Hi Hr. unfold LeaveQueue. destruct (find_rolecheck s g); [by apply CancelRolecheck_inv|].
  destruct (m_playerOffers s !! g) as [oid|]; simpl.
  { apply TryMakeOffers_inv; [by apply CancelOffer_inv|].
    eapply shrinks_room; [apply CancelOffer_shrinks|done]. }
  destruct (m_queue s !! g) as [q|]; [simpl|done]. apply foldl_inv; [done|].
  intros s' g' _ Hi'. unfold remove_queued. destruct (m_queue s' !! g') as [q'|]; [|done].
  apply (set_m_queue_inv (delete g' (m_queue s'))) in Hi' as [Hok Hs]. unfold SendQueueLeft.
  split; [eapply offers_ok_ext; [..|exact Hok]|eapply small_ext; [..|exact Hs]]; by autorewrite with lft.
Qed.

Lemma HandleRolecheckResponse_inv g fields s :
  lft_inv s -> room MAX_RAID_SIZE s -> lft_inv (HandleRolecheckResponse g fields s).
Proof.
  intros Hi Hr. unfold HandleRolecheckResponse. destruct (w_players (wld s) !! g) as [p|]; [|done].
  case_if; [done|]. case_if; [done|]. destruct (find_rolecheck s g) as [key|]; [|done].
  destruct (m_rolechecks s !! key) as [rc|] eqn:Hrc; [|done]. simpl.
  match goal with |- lft_inv (finish_rolecheck key ?s0) =>
    assert (lft_inv s0 /\ room MAX_RAID_SIZE s0) as []; [|by apply finish_rolecheck_inv] end.
  apply foldl_inv.
  - split; [|done]. apply set_m_rolechecks_inv; [|done].
    destruct Hi as [_ [Hrcs _]]. apply map_Forall_insert_2; [|done]. simpl. by apply Hrcs in Hrc.
  - intros s' g' _ [[Hok Hs] Hr']. split; [split|].
    + eapply offers_ok_ext; [..|exact Hok]; by autorewrite with lft.
    + eapply small_ext; [..|exact Hs]; by autorewrite with lft.
    + unfold room in *. by autorewrite with lft.
Qed.
End inv.
