(* ===== verification/LFTOfferFacts.v ===== *)
(** Completing an offer: the group it forms, and the queue invariant through
    acceptance, completion and failure. *)

From S2P Require Import Prelude CString World LFTTypes LFTQueue LFTOffer LFTQueueFacts LFTInv.

Section facts.
Context {env : LFTEnv} {gsv : GroupService}.
Implicit Types (s : LFT) (g gp oid : Z).

(** ** Forming the group touches the world and the list of formed groups only *)
Definition group_only s s' : Prop :=
  exists w ids, s' = set_wld w (set_m_lftGroupIds ids s) /\
    world_frame (wld s) w /\ (groups_small (wld s) -> groups_small w).

Lemma group_only_refl s : group_only s s.
Proof. exists (wld s), (m_lftGroupIds s). split_and!; [by destruct s|apply world_frame_refl|done]. Qed.

Lemma group_only_trans s1 s2 s3 : group_only s1 s2 -> group_only s2 s3 -> group_only s1 s3.
Proof.
  intros (w & ids & -> & Hf & Hs) (w' & ids' & -> & Hf' & Hs'). exists w', ids'.
  split_and!; [done|by eapply world_frame_trans|auto].
Qed.

Lemma group_only_world w s :
  world_frame (wld s) w -> (groups_small (wld s) -> groups_small w) -> group_only s (set_wld w s).
Proof. intros. exists w, (m_lftGroupIds s). split_and!; [by destruct s|done|done]. Qed.

Lemma group_only_ids ids s : group_only s (set_m_lftGroupIds ids s).
Proof. exists (wld s), ids. split_and!; [by destruct s|apply world_frame_refl|done]. Qed.

Lemma group_only_inv s s' : group_only s s' -> lft_inv s -> lft_inv s'.
Proof.
  intros (w & ids & -> & _ & Hs) [Hok [Hrc Hg]].
  split; [by apply (offers_ok_ext s)|split; [exact Hrc|by apply Hs]].
Qed.

Lemma group_only_fields s s' : group_only s s' ->
  m_offers s' = m_offers s /\ m_playerOffers s' = m_playerOffers s /\ m_queue s' = m_queue s /\
  m_nextOfferId s' = m_nextOfferId s.
Proof. by intros (w & ids & -> & _). Qed.

(** Some branch of [AddPlayerToGroup] after the group is known. *)
Lemma AddPlayerToGroup_spec group leader g s ok group' s' :
  AddPlayerToGroup group leader g s = (ok, group', s') ->
  group_only s s' /\ (forall gp, group = Some gp -> group' = Some gp) /\
  (ok = true -> exists gp, group' = Some gp /\ member_of (wld s') gp g) /\
  (forall gp g', group = Some gp -> member_of (wld s) gp g' -> member_of (wld s') gp g').
Proof.
  unfold AddPlayerToGroup. destruct (GetPlayer s g) as [p|]; [|by intros [= <- <- <-];
    split_and!; [apply group_only_refl|done|done|naive_solver]].
  match goal with |- (let '(_, _) := ?e in _) = _ -> _ => destruct e as [group1 s1] eqn:E1 end.
  assert (group_only s s1 /\ (forall gp, group = Some gp -> group1 = Some gp /\ s1 = s)) as [H1 Hgp].
  { destruct group as [gp|]; simplify_eq.
    - split; [apply group_only_refl|naive_solver].
    - split; [|done]. destruct (GetPlayer s leader) as [pl|]; simplify_eq; [|apply group_only_refl].
      destruct (p_group pl); simplify_eq; [apply group_only_refl|].
      destruct (gs_Create leader (p_name pl) (wld s)) as [created w] eqn:Ec. simplify_eq.
      pose proof (gs_Create_frame leader (p_name pl) (wld s)) as Hf.
      pose proof (gs_Create_small leader (p_name pl) (wld s)) as Hs. rewrite Ec in Hf, Hs.
      by apply group_only_world. }
  destruct group1 as [gp|]; simpl.
  2: { intros [= <- <- <-]. split_and!; [done| |done|].
       - intros gp ->. by destruct (Hgp gp eq_refl) as [? _].
       - intros gp g' -> _. by destruct (Hgp gp eq_refl) as [? _]. }
  destruct (w_groups (wld s1) !! gp) as [gr|] eqn:Hgr; simpl.
  2: { intros [= <- <- <-]. split_and!; [done| |done|].
       - intros gp' ->. by destruct (Hgp gp' eq_refl) as [-> _].
       - intros gp' g' -> Hm. by destruct (Hgp gp' eq_refl) as [_ ->]. }
  assert (forall gp', group = Some gp' -> Some gp = Some gp') as Hsame.
  { intros gp' ->. by destruct (Hgp gp' eq_refl) as [-> _]. }
  set (s2 := set_m_lftGroupIds _ s1).
  assert (group_only s s2) as H2 by (eapply group_only_trans; [exact H1|apply group_only_ids]).
  assert (forall gp' g', group = Some gp' -> member_of (wld s) gp' g' -> member_of (wld s2) gp' g') as Hkeep.
  { intros gp' g' -> Hm. by destruct (Hgp gp' eq_refl) as [_ ->]. }
  case_if.
  { intros [= <- <- <-]. split_and!; [done|done|intros _; exists gp; split; [done|by exists gr]|done]. }
  destruct (GetPlayer s2 g) as [p2|]; [|by intros [= <- <- <-]].
  do 3 (case_if; [by intros [= <- <- <-]|]).
  destruct (gs_AddMember gp g (p_name p2) (wld s1)) as [added w] eqn:Ea. intros [= <- <- <-].
  pose proof (gs_AddMember_frame gp g (p_name p2) (wld s1)) as Hf.
  pose proof (gs_AddMember_small gp g (p_name p2) (wld s1)) as Hs. rewrite Ea in Hf, Hs.
  split_and!.
  - eapply group_only_trans; [exact H2|by apply group_only_world].
  - done.
  - intros ->. exists gp. split; [done|]. by eapply gs_AddMember_member.
  - intros gp' g' Hg' Hm. specialize (Hsame gp' Hg'). simplify_eq.
    eapply gs_AddMember_keeps; [exact Ea|]. by apply Hkeep.
Qed.

Lemma add_all_spec leader l : forall group s ok group' s',
  add_all group leader l s = (ok, group', s') ->
  group_only s s' /\
  (ok = true -> l <> [] -> exists gp, group' = Some gp /\ forall g, g ∈ l -> member_of (wld s') gp g) /\
  (forall gp, group = Some gp -> group' = Some gp /\
     forall g', member_of (wld s) gp g' -> member_of (wld s') gp g').
Proof.
  induction l as [|g l IH]; intros group s ok group' s'; simpl.
  { intros [= <- <- <-]. split_and!; [apply group_only_refl|done|naive_solver]. }
  destruct (AddPlayerToGroup group leader g s) as [[ok1 group1] s1] eqn:E.
  apply AddPlayerToGroup_spec in E as (Ho & Hg & Hok & Hk). destruct ok1.
  - intros Hrest. apply IH in Hrest as (Ho' & Hok' & Hk').
    destruct (Hok eq_refl) as (gp & -> & Hm). destruct (Hk' gp eq_refl) as [-> Hkeep].
    split_and!; [by eapply group_only_trans| |].
    + intros -> _. exists gp. split; [done|]. intros g0 [->|Hin]%elem_of_cons; [by apply Hkeep|].
      destruct l; [by apply elem_of_nil in Hin|].
      destruct (Hok' eq_refl) as (gp' & [= <-] & Hall); [done|]. by apply Hall.
    + intros gp0 Hg0. specialize (Hg _ Hg0). simplify_eq. split; [done|].
      intros g' Hg'. eapply Hkeep, Hk; [reflexivity|done].
  - intros [= <- <- <-]. split_and!; [done|done|]. intros gp Hgp. split; [by apply Hg|].
    intros g'. by apply Hk.
Qed.

(** ** Letting the players of a completed offer go *)
Lemma release_one_fields s g :
  m_offers (release_one s g) = m_offers s /\ m_nextOfferId (release_one s g) = m_nextOfferId s /\
  m_rolechecks (release_one s g) = m_rolechecks s /\
  m_playerOffers (release_one s g) = delete g (m_playerOffers s) /\
  m_queue (release_one s g) = delete g (m_queue s) /\
  w_groups (wld (release_one s g)) = w_groups (wld s).
Proof. unfold release_one. autorewrite with lft. done. Qed.

Lemma release_all_fields l : forall s,
  let s' := foldl release_one s l in
  m_offers s' = m_offers s /\ m_nextOfferId s' = m_nextOfferId s /\
  m_rolechecks s' = m_rolechecks s /\ w_groups (wld s') = w_groups (wld s) /\
  (forall g, m_playerOffers s' !! g = if decide (g ∈ l) then None else m_playerOffers s !! g) /\
  (forall g, m_queue s' !! g = if decide (g ∈ l) then None else m_queue s !! g).
Proof.
  induction l as [|k l IH]; intros s; simpl.
  { split_and!; try done; intros g; by rewrite decide_False by set_solver. }
  destruct (release_one_fields s k) as (E1 & E2 & E3 & E4 & E5 & E6).
  destruct (IH (release_one s k)) as (-> & -> & -> & -> & Hpo & Hq).
  split_and!; try done; intros g; [rewrite Hpo, E4|rewrite Hq, E5].
  all: destruct (decide (g ∈ l)); [by rewrite decide_True by set_solver|].
  all: destruct (decide (g = k)) as [->|];
    [by rewrite lookup_delete_eq, decide_True by set_solver|
     by rewrite lookup_delete_ne, decide_False by set_solver].
Qed.

Lemma teleport_only offer s :
  exists ps, TeleportBotGroupToInstance offer s = set_wld (set_w_players ps (wld s)) s.
Proof.
  assert (forall s, s = set_wld (set_w_players (w_players (wld s)) (wld s)) s) as Hid.
  { intros [????? ????? ???? w]. by destruct w. }
  unfold TeleportBotGroupToInstance. repeat (case_if; [eauto|]).
  destruct (FindInstanceEntrance _ _) as [e|]; [|eauto].
  apply (foldl_inv (fun s' => exists ps, s' = set_wld (set_w_players ps (wld s)) s)); [eauto|].
  intros s' g _ [ps ->]. unfold teleport_one. destruct (GetPlayer _ g); [|eauto].
  case_if; [eauto|]. eexists. reflexivity.
Qed.

Lemma CancelOffer_groups oid ra rg ro s :
  w_groups (wld (CancelOffer oid ra rg ro s)) = w_groups (wld s).
Proof.
  unfold CancelOffer. destruct (m_offers s !! oid) as [offer|]; [|done]. simpl.
  apply (foldl_keep (fun s => w_groups (wld s))). clear s. intros s g.
  unfold cancel_one, SendQueueLeft, SendQueueJoined, SendQueuedStatus; simpl;
    repeat case_match; by autorewrite with lft.
Qed.

(** ** [CompleteOffer] *)
Lemma CompleteOffer_spec oid s offer ok s' :
  m_offers s !! oid = Some offer -> CompleteOffer oid s = (ok, s') ->
  m_offers s' = delete oid (m_offers s) /\ m_nextOfferId s' = m_nextOfferId s /\
  m_rolechecks s' = m_rolechecks s /\
  (forall g, m_playerOffers s' !! g =
     if decide (is_Some (o_roles offer !! g)) then None else m_playerOffers s !! g) /\
  (forall g, m_queue s' !! g =
     if decide (is_Some (o_roles offer !! g)) then None else m_queue s !! g) /\
  (groups_small (wld s) -> groups_small (wld s')) /\
  (ok = true -> o_roles offer <> ∅ ->
     exists gp, forall g, is_Some (o_roles offer !! g) -> member_of (wld s') gp g).
Proof.
  intros Ho. unfold CompleteOffer. rewrite Ho.
  destruct (add_all None _ _ s) as [[ok1 group] s1] eqn:Ea.
  apply add_all_spec in Ea as (Honly & Hmem & _).
  pose proof (group_only_fields _ _ Honly) as (E1 & E2 & E3 & E4).
  assert (m_rolechecks s1 = m_rolechecks s) as E5 by by destruct Honly as (? & ? & -> & _).
  assert (groups_small (wld s) -> groups_small (wld s1)) as Hsm
    by by destruct Honly as (? & ? & -> & _ & ?).
  destruct ok1.
  - destruct (release_all_fields (skeys (o_roles offer)) s1) as (F1 & F2 & F3 & F4 & F5 & F6).
    set (s2 := foldl release_one s1 _) in *.
    destruct (teleport_only offer s2) as [ps ->]. intros [= <- <-]. simpl.
    rewrite F1, F2, F3, E1, E4, E5. split_and!; try done.
    + intros g. rewrite F5, E2. apply decide_ext, elem_of_skeys.
    + intros g. rewrite F6, E3. apply decide_ext, elem_of_skeys.
    + unfold groups_small. simpl. by rewrite F4.
    + intros _ Hne. destruct Hmem as (gp & _ & Hall); [done| |].
      { intros Hnil. apply Hne. apply map_eq. intros g. rewrite lookup_empty.
        apply eq_None_not_Some. rewrite <- elem_of_skeys, Hnil. apply not_elem_of_nil. }
      exists gp. intros g Hg. apply elem_of_skeys, Hall in Hg.
      unfold member_of in *. simpl. by rewrite F4.
  - intros [= <- <-].
    destruct (CancelOffer_fields s1 oid offer false 0 false) as (G1 & G2 & G3 & _ & G5 & G6);
      [by rewrite E1|].
    rewrite G1, G2, G3, E1, E4, E5. split_and!; try done.
    + intros g. by rewrite G5, E2.
    + intros g. by rewrite G6, E3.
    + unfold groups_small. rewrite CancelOffer_groups. exact Hsm.
Qed.

Lemma CompleteOffer_inv oid s :
  lft_inv s -> lft_inv (snd (CompleteOffer oid s)) /\ shrinks s (snd (CompleteOffer oid s)).
Proof.
  intros Hi. destruct (m_offers s !! oid) as [offer|] eqn:Ho.
  2: { unfold CompleteOffer. by rewrite Ho. }
  destruct (CompleteOffer oid s) as [ok s'] eqn:E. simpl.
  destruct (CompleteOffer_spec oid s offer ok s' Ho E) as (F1 & F2 & F3 & F4 & F5 & F6 & _).
  destruct Hi as [Hok [Hrc Hg]]. split; [split; [|split; [by rewrite F3|auto]]|].
  - by eapply offers_ok_drop.
  - split; [done|]. intros g. rewrite !elem_of_dom, F5. case_decide; [|done]. by intros [? ?].
Qed.

(** ** Acceptance *)
Lemma send_inv (body : LFT -> Z -> LFT) l s :
  (forall s g, body s g = s \/ exists w, body s g = set_wld w s /\ w_groups w = w_groups (wld s)) ->
  lft_inv s -> lft_inv (foldl body s l) /\ shrinks s (foldl body s l) /\
    m_offers (foldl body s l) = m_offers s.
Proof.
  intros Hb Hi.
  apply (foldl_inv (fun s' => lft_inv s' /\ shrinks s s' /\ m_offers s' = m_offers s)); [done|].
  intros s' g _ ([Hok [Hrc Hg]] & [Hn Hq] & Ho). destruct (Hb s' g) as [->|(w & -> & Hw)]; [by split|].
  split_and!; [|by split|done]. split; [by apply (offers_ok_ext s')|].
  split; [done|]. unfold groups_small. simpl. by rewrite Hw.
Qed.

Lemma SendIfOnline_only g msg s :
  SendIfOnline g msg s = s \/
  exists w, SendIfOnline g msg s = set_wld w s /\ w_groups w = w_groups (wld s).
Proof.
  unfold SendIfOnline, Send. destruct (GetPlayer s g); [|by left].
  destruct (w_players (wld s) !! g) as [pl|]; [|by left]. case_if; [right|by left]. by eexists.
Qed.

(** Recording an acceptance keeps the invariant: the missing-key insertion of
    [roles[acceptedGuid]] never fires. *)
Lemma accept_inv s g oid offer :
  lft_inv s -> m_playerOffers s !! g = Some oid -> m_offers s !! oid = Some offer ->
  let offer1 := set_o_accepted ({[g]} ∪ o_accepted offer) offer in
  let offer2 := set_o_roles (o_roles offer1 ∪ gset_to_gmap 0 (o_accepted offer1)) offer1 in
  offer2 = offer1 /\ lft_inv (set_m_offers (<[oid := offer2]> (m_offers s)) s).
Proof.
  intros [[H1 H2 H3 H4 H5] Hs] Hg Ho. intros offer1 offer2.
  assert (g ∈ dom (o_roles offer)) as Hin.
  { apply H5 in Hg as (o & Ho' & Hin). simplify_eq. by apply elem_of_dom. }
  assert (o_accepted offer1 ⊆ dom (o_roles offer1)) as Hacc.
  { specialize (H4 _ _ Ho). simpl in *. set_solver. }
  assert (offer2 = offer1) as Heq.
  { unfold offer2. rewrite map_union_covered by done. by destruct offer. }
  split; [done|]. rewrite Heq. split; [|exact Hs]. split; simpl.
  - done.
  - apply map_Forall_insert_2; [simpl; by apply H2|done].
  - apply map_Forall_insert_2; [simpl; by eapply H3|done].
  - by apply map_Forall_insert_2.
  - intros g' oid'. rewrite H5. split; intros (o & Ho' & Hr).
    + destruct (decide (oid' = oid)) as [->|]; [|exists o; by rewrite lookup_insert_ne].
      assert (o = offer) as -> by congruence. exists offer1. by rewrite lookup_insert_eq.
    + destruct (decide (oid' = oid)) as [->|];
        [rewrite lookup_insert_eq in Ho'|rewrite lookup_insert_ne in Ho' by done; by exists o].
      assert (o = offer1) as -> by congruence. by exists offer.
Qed.

Lemma HandleOfferAccept_inv g s :
  lft_inv s -> lft_inv (HandleOfferAccept g s) /\ shrinks s (HandleOfferAccept g s).
Proof.
  intros Hi. unfold HandleOfferAccept. destruct (w_players (wld s) !! g); [|done].
  destruct (m_playerOffers s !! g) as [oid|] eqn:Hpo; [|done].
  destruct (m_offers s !! oid) as [offer|] eqn:Ho; [|done].
  destruct (accept_inv s g oid offer Hi Hpo Ho) as [_ Hi1].
  set (offer2 := set_o_roles _ _) in *. set (s1 := set_m_offers _ s) in *. simpl.
  destruct (accepted_counts _) as [[t h] d].
  match goal with |- lft_inv (if _ then snd (CompleteOffer oid ?e) else _) /\ _ => set (s2 := e) end.
  assert (lft_inv s2 /\ shrinks s s2) as [Hi2 Hsh].
  { unfold s2. split; [apply send_inv; [|done]; intros; apply SendIfOnline_only|].
    apply (shrinks_trans _ s1); [by split|]. apply send_inv; [|done]. intros; apply SendIfOnline_only. }
  case_if; [|done]. destruct (CompleteOffer_inv oid s2 Hi2) as [? ?]. split; [done|].
  by eapply shrinks_trans.
Qed.

(** ** A cleaned-up player is out of the finder *)
Lemma cancel_rolecheck_of_fields g s k :
  m_queue (cancel_rolecheck_of g s k) = m_queue s /\
  m_playerOffers (cancel_rolecheck_of g s k) = m_playerOffers s /\
  m_offers (cancel_rolecheck_of g s k) = m_offers s /\
  forall k' rc, m_rolechecks (cancel_rolecheck_of g s k) !! k' = Some rc ->
    m_rolechecks s !! k' = Some rc /\ (k' = k -> inb g (rc_members rc) = false).
Proof.
  unfold cancel_rolecheck_of. destruct (m_rolechecks s !! k) as [rc0|] eqn:E.
  2: { split_and!; try done. intros k' rc Hk. split; [done|]. intros ->. congruence. }
  case_if; [destruct (CancelRolecheck_fields s k) as (E1 & E2 & _ & E4 & E5)|].
  - split_and!; try done. intros k' rc. rewrite E5. by intros [? ?]%lookup_delete_Some.
  - split_and!; try done. intros k' rc Hk. split; [done|]. intros ->. congruence.
Qed.

Lemma cancel_rolechecks_fields g l : forall s, let s' := foldl (cancel_rolecheck_of g) s l in
  m_queue s' = m_queue s /\ m_playerOffers s' = m_playerOffers s /\ m_offers s' = m_offers s /\
  forall k rc, m_rolechecks s' !! k = Some rc ->
    m_rolechecks s !! k = Some rc /\ (k ∈ l -> inb g (rc_members rc) = false).
Proof.
  induction l as [|k0 l IH]; intros s; simpl.
  { split_and!; try done. intros k rc Hk. split; [done|]. by intros ?%elem_of_nil. }
  destruct (cancel_rolecheck_of_fields g s k0) as (E1 & E2 & E3 & E4).
  destruct (IH (cancel_rolecheck_of g s k0)) as (-> & -> & -> & F4). split_and!; try done.
  intros k rc Hk. apply F4 in Hk as [Hk Hno]. apply E4 in Hk as [Hk Hno'].
  split; [done|]. intros [->|Hin]%elem_of_cons; auto.
Qed.

Lemma CleanupPlayer_out g s :
  lft_inv s ->
  let s' := CleanupPlayer g s in
  m_queue s' !! g = None /\ m_playerOffers s' !! g = None /\
  (forall oid o, m_offers s' !! oid = Some o -> o_roles o !! g = None) /\
  find_rolecheck s' g = None.
Proof.
  intros Hi s'.
  set (s1 := set_m_queue (delete g (m_queue s)) s).
  set (s2 := match m_playerOffers s1 !! g with
             | Some oid => CancelOffer oid true g true s1 | None => s1 end).
  assert (s' = foldl (cancel_rolecheck_of g) s2 (skeys (m_rolechecks s2))) as -> by done.
  assert (m_queue s2 !! g = None /\ m_playerOffers s2 !! g = None) as Hout.
  { unfold s2. destruct (m_playerOffers s1 !! g) as [oid|] eqn:Hpo.
    2: { split; [apply lookup_delete_eq|done]. }
    assert (offers_ok s1) as [_ _ _ _ Hl] by by apply set_m_queue_inv.
    apply Hl in Hpo as (o & Ho & Hr).
    destruct (CancelOffer_fields s1 oid o true g true Ho) as (_ & _ & _ & _ & Fp & Fq).
    rewrite Fp, Fq, !decide_True by done. split; [|done].
    unfold requeued. simpl. rewrite Z.eqb_refl. done. }
  assert (lft_inv s2) as Hi2.
  { unfold s2. destruct (m_playerOffers s1 !! g); [apply CancelOffer_inv|]; by apply set_m_queue_inv. }
  destruct (cancel_rolechecks_fields g (skeys (m_rolechecks s2)) s2) as (-> & Ep & Eo & Erc).
  split_and!; try by apply Hout.
  - by rewrite Ep; apply Hout.
  - intros oid o Ho. rewrite Eo in Ho. apply eq_None_not_Some. intros Hr.
    assert (m_playerOffers s2 !! g = Some oid) as Hp by (apply (inv_link _ (proj1 Hi2)); eauto).
    destruct Hout. congruence.
  - unfold find_rolecheck. match goal with |- List.find ?P ?l = _ => destruct (List.find P l) eqn:Hf end; [|done].
    apply List.find_some in Hf as [_ Hf].
    destruct (m_rolechecks (foldl _ _ _) !! _) as [rc|] eqn:E; [|done].
    apply Erc in E as [E Hno]. rewrite Hno in Hf; [done|]. apply elem_of_skeys. by eexists.
Qed.
End facts.
