(* ===== verification/LFTListings.v ===== *)
(** User listings of the dungeon finder (src/game/LFT/LFTUserGroups.cpp): the
    text format of the signup columns, the table they are kept in, and the
    handlers that create, change, show and delete them. *)

From S2P Require Import Prelude CString World LFTTypes LFTQueue.

(** ** Text helpers *)
Definition BACKSLASH : ascii := ascii_of_nat 92.
Definition DQUOTE : ascii := ascii_of_nat 34.
Definition str1 (c : ascii) : string := String c "".

Definition json_escape_char (c : ascii) : string :=
  if Ascii.eqb c BACKSLASH then String BACKSLASH (str1 BACKSLASH)
  else if Ascii.eqb c DQUOTE then String BACKSLASH (str1 DQUOTE)
  else if Ascii.eqb c (ascii_of_nat 8) then String BACKSLASH "b"
  else if Ascii.eqb c (ascii_of_nat 12) then String BACKSLASH "f"
  else if Ascii.eqb c (ascii_of_nat 10) then String BACKSLASH "n"
  else if Ascii.eqb c (ascii_of_nat 13) then String BACKSLASH "r"
  else if Ascii.eqb c (ascii_of_nat 9) then String BACKSLASH "t"
  else str1 c.
Fixpoint JsonEscape (value : string) : string :=
  match value with
  | EmptyString => ""
  | String c value' => json_escape_char c +:+ JsonEscape value'
  end.

Fixpoint EscapeListingField (value : string) : string :=
  match value with
  | EmptyString => ""
  | String c value' =>
      if Ascii.eqb c BACKSLASH || Ascii.eqb c "|"%char || Ascii.eqb c ";"%char
      then String BACKSLASH (String c (EscapeListingField value'))
      else String c (EscapeListingField value')
  end.

(** The loop of [SplitEscaped] with its [escaped] flag and [current]. *)
Fixpoint split_escaped_scan (delimiter : ascii) (value : string) (escaped : bool) (current : string)
    : list string :=
  match value with
  | EmptyString => [if escaped then current +:+ str1 BACKSLASH else current]
  | String c value' =>
      if escaped then split_escaped_scan delimiter value' false (current +:+ str1 c)
      else if Ascii.eqb c BACKSLASH then split_escaped_scan delimiter value' true current
      else if Ascii.eqb c delimiter then current :: split_escaped_scan delimiter value' false ""
      else split_escaped_scan delimiter value' false (current +:+ str1 c)
  end.
Definition SplitEscaped (value : string) (delimiter : ascii) : list string :=
  split_escaped_scan delimiter value false "".

Definition ParseConfirmedRoleIndex (value : string) : Z :=
  if (value =s "1") || (value =s "t") || (value =s "T") then 1
  else if (value =s "2") || (value =s "h") || (value =s "H") then 2
  else if (value =s "3") || (value =s "0") || (value =s "d") || (value =s "D") then 3
  else 0.

(** [ParseRoleCounts]: missing parts stay 0, parts beyond the third are ignored. *)
Definition ParseRoleCounts (roles : string) : list Z :=
  let parts := SplitPreserveEmpty roles ":"%char in
  (fun i => match parts !! i with Some part => u8 (strtoul part) | None => 0 end) <$> [0; 1; 2]%nat.

(** ** The signup columns *)
Definition SerializeSignup (signup : ListingSignup) : string :=
  EscapeListingField (su_name signup) +:+ "|" +:+ EscapeListingField (su_className signup) +:+ "|" +:+
  to_string (su_level signup) +:+ "|" +:+ (if su_confirmed signup then "1" else "0").
Definition SerializeSignups (signups : list ListingSignup) : string :=
  foldl (fun serialized signup =>
           (if serialized =s "" then serialized else serialized +:+ ";") +:+ SerializeSignup signup)
    "" signups.

Definition DeserializeSignup (row : string) : option ListingSignup :=
  if row =s "" then None
  else match SplitEscaped row "|"%char with
       | name :: className :: level :: confirmed :: _ =>
           Some (mkSignup name className (u32 (strtoul level)) (confirmed =s "1"))
       | _ => None
       end.
Definition DeserializeSignups (value : string) : list ListingSignup :=
  if value =s "" then [] else omap DeserializeSignup (SplitEscaped value ";"%char).

(** ** JSON of a listing and of a signup *)
Definition quoted (s : string) : string := str1 DQUOTE +:+ s +:+ str1 DQUOTE.
Definition key (s : string) : string := quoted s +:+ ":".
Definition json3 (l : list Z) : string :=
  "[" +:+ to_string (nth 0 l 0) +:+ "," +:+ to_string (nth 1 l 0) +:+ "," +:+ to_string (nth 2 l 0) +:+ "]".

Definition BuildListingJson (listing : Listing) : string :=
  "{" +:+ key "id" +:+ to_string (l_id listing) +:+
  "," +:+ key "creator" +:+ quoted (JsonEscape (l_creator listing)) +:+
  "," +:+ key "class" +:+ quoted (JsonEscape (l_className listing)) +:+
  "," +:+ key "level" +:+ to_string (l_level listing) +:+
  "," +:+ key "title" +:+ quoted (JsonEscape (l_title listing)) +:+
  "," +:+ key "description" +:+ quoted (JsonEscape (l_description listing)) +:+
  "," +:+ key "category" +:+ to_string (l_category listing) +:+
  "," +:+ key "limit" +:+ json3 (l_limit listing) +:+
  "," +:+ key "numConfirmed" +:+ json3 (l_numConfirmed listing) +:+ "}".

Definition BuildSignupJson (signup : ListingSignup) : string :=
  "{" +:+ key "name" +:+ quoted (JsonEscape (su_name signup)) +:+
  "," +:+ key "class" +:+ quoted (JsonEscape (su_className signup)) +:+
  "," +:+ key "level" +:+ to_string (su_level signup) +:+
  "," +:+ key "confirmed" +:+ (if su_confirmed signup then "true" else "false") +:+ "}".

Definition RecountListing (listing : Listing) : Listing :=
  set_l_numConfirmed ((fun signups => u8 (Z.of_nat (length signups))) <$> l_signups listing) listing.

Section listings.
Context {env : LFTEnv}.

(** ** The table *)
Definition DeleteListingFromDB (id : Z) (s : LFT) : LFT :=
  set_lft_user_groups (delete id (lft_user_groups s)) s.

(** On a duplicate key every column but [id] and [creatorGuid] is replaced. *)
Definition SaveListingToDB (listing : Listing) (s : LFT) : LFT :=
  let creator := match lft_user_groups s !! l_id listing with
                 | Some old => l_creatorGuid (row_listing old)
                 | None => l_creatorGuid listing
                 end in
  let row := mkRow
    {| l_id := l_id listing; l_creatorGuid := creator; l_creator := l_creator listing;
       l_className := l_className listing; l_level := l_level listing; l_team := l_team listing;
       l_isHardcore := l_isHardcore listing; l_title := l_title listing;
       l_description := l_description listing; l_category := l_category listing;
       l_limit := l_limit listing; l_numConfirmed := l_numConfirmed listing; l_signups := [] |}
    (SerializeSignups <$> l_signups listing) in
  set_lft_user_groups (<[l_id listing := row]> (lft_user_groups s)) s.

Definition listing_of_row (row : ListingRow) : Listing :=
  let r := row_listing row in
  {| l_id := u32 (l_id r); l_creatorGuid := u32 (l_creatorGuid r); l_creator := l_creator r;
     l_className := l_className r; l_level := u32 (l_level r); l_team := u32 (l_team r);
     l_isHardcore := l_isHardcore r; l_title := l_title r; l_description := l_description r;
     l_category := u8 (l_category r); l_limit := u8 <$> l_limit r;
     l_numConfirmed := u8 <$> l_numConfirmed r;
     l_signups := DeserializeSignups <$> row_signups row |}.

Definition load_row (s : LFT) (id : Z) : LFT :=
  match lft_user_groups s !! id with
  | None => s
  | Some row =>
      let listing := listing_of_row row in
      match GetPlayer s (l_creatorGuid listing) with
      | None => DeleteListingFromDB (l_id listing) s
      | Some _ =>
          let listing := RecountListing listing in
          let s := set_m_nextListingId (Z.max (m_nextListingId s) (u32 (l_id listing + 1))) s in
          set_m_listings (<[l_id listing := listing]> (m_listings s)) s
      end
  end.

Definition LoadListingsFromDB (s : LFT) : LFT :=
  let s := set_m_listings ∅ s in
  let s := set_m_nextListingId 1 s in
  foldl load_row s (skeys (lft_user_groups s)).

Definition EnsureListingsLoaded (s : LFT) : LFT :=
  if m_listingsLoaded s then s else set_m_listingsLoaded true (LoadListingsFromDB s).

(** ** Showing listings *)
Definition CanPlayerSeeListing (s : LFT) (player : Player) (listing : Listing) : bool :=
  if negb (w_twoSideGroup (wld s)) && negb (p_team player =? l_team listing) then false
  else match GetPlayer s (l_creatorGuid listing) with
       | Some creator => CanPlayersGroup s player creator
       | None => Bool.eqb (p_hardcore player) (l_isHardcore listing)
       end.

Definition list_one (guid : Z) (player : Player) (s : LFT) (id : Z) : LFT :=
  match m_listings s !! id with
  | Some listing =>
      if CanPlayerSeeListing s player listing
      then Send guid ("S2C_GROUPS_LIST_UPDATE;" +:+ BuildListingJson listing) s else s
  | None => s
  end.

Definition SendGroupsList (guid : Z) (s : LFT) : LFT :=
  match w_players (wld s) !! guid with
  | None => s
  | Some player =>
      let s := Send guid "S2C_GROUPS_LIST_UPDATE;start" s in
      let s := foldl (list_one guid player) s (skeys (m_listings s)) in
      Send guid "S2C_GROUPS_LIST_UPDATE;end" s
  end.

Definition BroadcastGroupsList (s : LFT) : LFT :=
  let s := EnsureListingsLoaded s in
  foldl (fun s guid => SendGroupsList guid s) s (GetAllSessions_order (wld s)).

Definition detail_role (guid : Z) (listing : Listing) (s : LFT) (roleIdx : nat) : LFT :=
  foldl (fun s signup =>
           Send guid ("S2C_UPDATE_GROUP;" +:+ to_string (l_id listing) +:+ ";" +:+
                      to_string (Z.of_nat roleIdx + 1) +:+ ";" +:+ BuildSignupJson signup) s)
    s (nth roleIdx (l_signups listing) []).

Definition SendGroupDetails (guid : Z) (listing : Listing) (s : LFT) : LFT :=
  let s := Send guid ("S2C_UPDATE_GROUP;" +:+ to_string (l_id listing) +:+ ";start;" +:+
                      BuildListingJson listing) s in
  let s := foldl (detail_role guid listing) s (seq 0 (length (l_signups listing))) in
  Send guid ("S2C_UPDATE_GROUP;" +:+ to_string (l_id listing) +:+ ";end") s.

(** ** Signups *)
Definition same_name (normalized : string) (signup : ListingSignup) : bool :=
  match normalizePlayerName (su_name signup) with
  | Some n => n =s normalized
  | None => false
  end.

Definition RemoveListingSignup (listing : Listing) (name : string) : Listing :=
  match normalizePlayerName name with
  | None => listing
  | Some normalized =>
      set_l_signups (List.filter (fun signup => negb (same_name normalized signup)) <$> l_signups listing)
        listing
  end.

Definition push_signup (roleIdx : Z) (signup : ListingSignup) (listing : Listing) : Listing :=
  set_l_signups (alter (fun l => l ++ [signup]) (Z.to_nat (roleIdx - 1)) (l_signups listing)) listing.

Definition SetListingSignupRole (listing : Listing) (player : Player) (roleIdx : Z) : Listing :=
  if (roleIdx <? 1) || (3 <? roleIdx) then listing
  else push_signup roleIdx (mkSignup (p_name player) (ClassName player) (p_level player) true)
         (RemoveListingSignup listing (p_name player)).

(** Does [PruneListingSignups] keep a signup? *)
Definition signup_stays (s : LFT) (listing : Listing) (group : option Group) (signup : ListingSignup)
    : bool :=
  match normalizePlayerName (su_name signup) with
  | None => false
  | Some name =>
      match FindPlayerByName (wld s) name with
      | None => false
      | Some (guid, _) =>
          (guid =? l_creatorGuid listing) || from_option (fun g => IsMember g guid) false group
      end
  end.

Definition PruneListingSignups (s : LFT) (listing : Listing) : Listing :=
  match GetPlayer s (l_creatorGuid listing) with
  | None => listing
  | Some creator =>
      let group := GetGroup (wld s) creator in
      set_l_signups (List.filter (signup_stays s listing group) <$> l_signups listing) listing
  end.

(** The listing whose creator is the player or leads a group with it. *)
Definition GetListingForGroupMember (s : LFT) (guid : Z) : option Z :=
  List.find (fun id =>
    match m_listings s !! id with
    | None => false
    | Some listing =>
        match GetPlayer s (l_creatorGuid listing) with
        | None => false
        | Some creator =>
            (l_creatorGuid listing =? guid) ||
            from_option (fun g => IsMember g guid) false (GetGroup (wld s) creator)
        end
    end) (skeys (m_listings s)).

(** ** Handlers *)
Definition HandleGetGroupsStatus (guid : Z) (s : LFT) : LFT := Send guid "S2C_GROUPS_STATUS;1" s.
Definition HandleGetGroupsList (guid : Z) (s : LFT) : LFT := SendGroupsList guid s.

Definition listing_id (text : string) : Z := u32 (strtoul text).

Definition HandleGetGroupDetails (guid : Z) (fields : list string) (s : LFT) : LFT :=
  match w_players (wld s) !! guid with
  | None => s
  | Some player =>
      if (length fields <? 2)%nat then s
      else match m_listings s !! listing_id (nth 1 fields "") with
      | None => Send guid ("S2C_UPDATE_GROUP;" +:+ nth 1 fields "" +:+ ";invalid") s
      | Some listing =>
          if negb (CanPlayerSeeListing s player listing) then s
          else SendGroupDetails guid listing s
      end
  end.

(** Erase one listing of a creator, from the map and from the table. *)
Definition erase_own (guid : Z) (s : LFT) (id : Z) : LFT :=
  match m_listings s !! id with
  | Some listing =>
      if l_creatorGuid listing =? guid
      then let s := DeleteListingFromDB (l_id listing) s in
           set_m_listings (delete id (m_listings s)) s
      else s
  | None => s
  end.

Definition new_listing (id guid : Z) (player : Player) (fields : list string) : Listing :=
  let category := u8 (strtoul (nth 3 fields "")) in
  {| l_id := id; l_creatorGuid := guid; l_creator := p_name player; l_className := ClassName player;
     l_level := p_level player; l_team := p_team player; l_isHardcore := p_hardcore player;
     l_title := nth 1 fields ""; l_description := nth 2 fields "";
     l_category := if (category <? 1) || (4 <? category) then 4 else category;
     l_limit := ParseRoleCounts (nth 4 fields ""); l_numConfirmed := [0; 0; 0];
     l_signups := [[]; []; []] |}.

Definition HandleNewGroup (guid : Z) (fields : list string) (s : LFT) : LFT :=
  match w_players (wld s) !! guid with
  | None => s
  | Some player =>
      if (length fields <? 5)%nat then s
      else if from_option (fun g => negb (IsLeader g guid)) false (GetGroup (wld s) player)
      then Send guid "S2C_QUEUE_ERROR;not_leader" s
      else
        let s := foldl (erase_own guid) s (skeys (m_listings s)) in
        let listing := new_listing (m_nextListingId s) guid player fields in
        let s := set_m_nextListingId (u32 (m_nextListingId s + 1)) s in
        let s := set_m_listings (<[l_id listing := listing]> (m_listings s)) s in
        let s := SaveListingToDB listing s in
        let s := BroadcastGroupsList s in
        SendGroupDetails guid listing s
  end.

(** One confirmed player of an update: name:role. *)
Definition confirm_field (s : LFT) (listing : Listing) (confirmed : string) : Listing :=
  if confirmed =s "" then listing
  else match SplitPreserveEmpty confirmed ":"%char with
  | name :: role :: _ =>
      if name =s "" then listing
      else
        let roleIdx := ParseConfirmedRoleIndex role in
        if roleIdx =? 0 then listing
        else match normalizePlayerName name with
        | None => listing
        | Some name =>
            match FindPlayerByName (wld s) name with
            | Some (_, confirmedPlayer) => SetListingSignupRole listing confirmedPlayer roleIdx
            | None => push_signup roleIdx (mkSignup name "UNKNOWN" 0 true)
                        (RemoveListingSignup listing name)
            end
        end
  | _ => listing
  end.

Definition HandleUpdateGroup (guid : Z) (fields : list string) (s : LFT) : LFT :=
  if (length fields <? 5)%nat then s
  else match m_listings s !! listing_id (nth 1 fields "") with
  | None => s
  | Some listing =>
      if negb (l_creatorGuid listing =? guid) then s
      else
        let listing := set_l_title (nth 2 fields "") listing in
        let listing := set_l_description (nth 3 fields "") listing in
        let listing := set_l_limit (ParseRoleCounts (nth 4 fields "")) listing in
        let listing :=
          if (6 <=? length fields)%nat
          then foldl (confirm_field s) (PruneListingSignups s listing) (drop 5 fields)
          else set_l_signups ((fun _ => []) <$> l_signups listing) listing in
        let listing := RecountListing (PruneListingSignups s listing) in
        let s := set_m_listings (<[listing_id (nth 1 fields "") := listing]> (m_listings s)) s in
        let s := SaveListingToDB listing s in
        let s := BroadcastGroupsList s in
        SendGroupDetails guid listing s
  end.

Definition HandleDeleteGroup (guid : Z) (fields : list string) (s : LFT) : LFT :=
  if (length fields <? 2)%nat then s
  else
    let id := listing_id (nth 1 fields "") in
    match m_listings s !! id with
    | None => s
    | Some listing =>
        if negb (l_creatorGuid listing =? guid) then s
        else
          let s := DeleteListingFromDB (l_id listing) s in
          let s := set_m_listings (delete id (m_listings s)) s in
          BroadcastGroupsList s
    end.

Definition HandleSignup (guid : Z) (fields : list string) (s : LFT) : LFT :=
  match w_players (wld s) !! guid with
  | None => s
  | Some player =>
      if (length fields <? 3)%nat then s
      else match m_listings s !! listing_id (nth 2 fields "") with
      | None => s
      | Some listing =>
          if negb (CanPlayerSeeListing s player listing) then s
          else
            let s := SendGroupDetails guid listing s in
            match GetPlayer s (l_creatorGuid listing) with
            | Some _ => SendGroupDetails (l_creatorGuid listing) listing s
            | None => s
            end
      end
  end.

Definition HandleManualRolecheckResponse (guid : Z) (fields : list string) (s : LFT) : LFT :=
  match w_players (wld s) !! guid with
  | None => s
  | Some player =>
      if (length fields <? 2)%nat then s
      else
        let roleIdx := ParseConfirmedRoleIndex (nth 1 fields "") in
        match id ← GetListingForGroupMember s guid; l ← m_listings s !! id; Some (id, l) with
        | None => s
        | Some (id, listing) =>
            let listing := if negb (roleIdx =? 0) then SetListingSignupRole listing player roleIdx
                           else RemoveListingSignup listing (p_name player) in
            let listing := RecountListing (PruneListingSignups s listing) in
            let s := set_m_listings (<[id := listing]> (m_listings s)) s in
            let s := SaveListingToDB listing s in
            BroadcastGroupsList s
        end
  end.

(** The listings part of [LFTManager::OnPlayerLogout]. *)
Definition has_own_listing (s : LFT) (guid : Z) : bool :=
  existsb (fun id => match m_listings s !! id with
                     | Some listing => l_creatorGuid listing =? guid
                     | None => false
                     end) (skeys (m_listings s)).
Definition erase_listings_of (guid : Z) (s : LFT) : LFT :=
  let changedListings := has_own_listing s guid in
  let s := foldl (erase_own guid) s (skeys (m_listings s)) in
  if changedListings then BroadcastGroupsList s else s.
End listings.
