(* ===== verification/LFTListingFacts.v ===== *)
(** The user listings: their text formats - the escaped signup columns of the
    table and the JSON strings sent to the addon -, the invariant (ids, counts, one
    listing per creator, and the agreement of the listings in memory with the
    table), and the signups of a listing. *)

From S2P Require Import Prelude CString World LFTTypes LFTQueue LFTListings.

(** ** One level of escaping is undone by one split *)
Definition listing_delimiter (d : ascii) : Prop := d = "|"%char \/ d = ";"%char.

Lemma split_escaped_text d s : listing_delimiter d -> forall cur rest,
  split_escaped_scan d (EscapeListingField s +:+ rest) false cur =
  split_escaped_scan d rest false (cur +:+ s).
Proof.
  intros Hd. induction s as [|c s IH]; intros cur rest; simpl.
  { by rewrite str_app_nil_r. }
  assert (cur +:+ String c s = (cur +:+ str1 c) +:+ s) as -> by by rewrite str_app_assoc.
  destruct (Ascii.eqb c BACKSLASH || Ascii.eqb c "|" || Ascii.eqb c ";") eqn:E; simpl.
  { apply IH. }
  apply orb_false_iff in E as [[E1 E2]%orb_false_iff E3]. rewrite E1.
  assert (Ascii.eqb c d = false) as -> by by destruct Hd as [-> | ->].
  apply IH.
Qed.

Lemma delimiter_not_backslash d : listing_delimiter d -> Ascii.eqb d BACKSLASH = false.
Proof. by intros [-> | ->]. Qed.

Lemma split_escaped_piece d s cur rest :
  listing_delimiter d ->
  split_escaped_scan d (EscapeListingField s +:+ String d rest) false cur =
  (cur +:+ s) :: split_escaped_scan d rest false "".
Proof.
  intros Hd. rewrite split_escaped_text by done. simpl.
  by rewrite delimiter_not_backslash, Ascii.eqb_refl.
Qed.

Lemma split_escaped_join d l :
  listing_delimiter d -> l <> [] ->
  SplitEscaped (join_with d (EscapeListingField <$> l)) d = l.
Proof.
  unfold SplitEscaped. intros Hd Hne. induction l as [|x [|y l] IH]; [done|..].
  - simpl. rewrite <- (str_app_nil_r (EscapeListingField x)). by rewrite split_escaped_text.
  - change (join_with d (EscapeListingField <$> x :: y :: l)) with
      (EscapeListingField x +:+ String d (join_with d (EscapeListingField <$> y :: l))).
    rewrite split_escaped_piece by done. simpl. f_equal. by apply IH.
Qed.

(** ** Text without any of the three special bytes *)
Definition plain (s : string) : bool :=
  lacks BACKSLASH s && lacks "|"%char s && lacks ";"%char s.

Lemma escape_plain s : plain s = true -> EscapeListingField s = s.
Proof.
  unfold plain. induction s as [|c s IH]; simpl; [done|]. intros Hp.
  repeat (apply andb_true_iff in Hp as [Hp ?]); bool_prop.
  repeat match goal with H : Ascii.eqb _ _ = false |- _ => rewrite H; clear H end.
  simpl. f_equal. apply IH. by repeat (apply andb_true_iff; split).
Qed.

Lemma split_escaped_no_backslash d s : forall cur,
  lacks BACKSLASH s = true -> split_escaped_scan d s false cur = split_scan d s cur.
Proof.
  induction s as [|c s IH]; intros cur; simpl; [done|].
  intros [Hc%negb_true_iff Hs]%andb_true_iff. rewrite Hc, !IH by done. done.
Qed.

Lemma SplitEscaped_plain d s :
  lacks BACKSLASH s = true -> SplitEscaped s d = SplitPreserveEmpty s d.
Proof. apply split_escaped_no_backslash. Qed.

Lemma plain_lacks s : plain s = true ->
  lacks BACKSLASH s = true /\ lacks "|"%char s = true /\ lacks ";"%char s = true.
Proof. unfold plain. intros. bool_prop. done. Qed.

Lemma plain_to_string n : plain (to_string n) = true.
Proof. unfold plain. by rewrite !lacks_to_string. Qed.

(** A signup that the table keeps. *)
Definition plain_signup (signup : ListingSignup) : Prop :=
  plain (su_name signup) = true /\ plain (su_className signup) = true /\
  0 <= su_level signup < 2 ^ 32.

Definition signup_fields (signup : ListingSignup) : list string :=
  [su_name signup; su_className signup; to_string (su_level signup);
   if su_confirmed signup then "1" else "0"].

Lemma serialize_plain signup :
  plain_signup signup -> SerializeSignup signup = join_with "|"%char (signup_fields signup).
Proof. intros (H1 & H2 & _). unfold SerializeSignup. by rewrite !escape_plain. Qed.

Lemma signup_fields_plain signup :
  plain_signup signup -> Forall (fun f => plain f = true) (signup_fields signup).
Proof.
  intros (H1 & H2 & _). repeat constructor; [done|done|apply plain_to_string|].
  by destruct (su_confirmed signup).
Qed.

Lemma lacks_join c d l :
  Ascii.eqb d c = false -> Forall (fun s => lacks c s = true) l -> lacks c (join_with d l) = true.
Proof.
  intros Hd. induction l as [|x [|y l] IH]; intros Hl; [done|by inversion Hl|].
  apply Forall_cons in Hl as [Hx Hl].
  change (join_with d (x :: y :: l)) with (x +:+ String d (join_with d (y :: l))).
  rewrite lacks_app, Hx. simpl. rewrite Hd. simpl. by apply IH.
Qed.

Lemma serialize_lacks signup c :
  plain_signup signup -> c = BACKSLASH \/ c = ";"%char -> lacks c (SerializeSignup signup) = true.
Proof.
  intros Hs Hc. rewrite serialize_plain by done.
  apply lacks_join; [by destruct Hc as [-> | ->]|].
  eapply Forall_impl; [by apply signup_fields_plain|]. simpl. intros f (?&?&?)%plain_lacks.
  by destruct Hc as [-> | ->].
Qed.

Lemma serialize_nonempty signup : SerializeSignup signup <> "".
Proof.
  unfold SerializeSignup. destruct (EscapeListingField (su_name signup)); discriminate.
Qed.

Lemma deserialize_signup signup :
  plain_signup signup -> DeserializeSignup (SerializeSignup signup) = Some signup.
Proof.
  intros Hs. pose proof (serialize_nonempty signup) as Hne. unfold DeserializeSignup.
  rewrite (proj2 (String.eqb_neq _ _) Hne), SplitEscaped_plain by (apply serialize_lacks; auto).
  rewrite serialize_plain, split_join; [|done| |done].
  - simpl. destruct Hs as (_ & _ & Hl). rewrite strtoul_to_string by (unfold U64_MAX; lia).
    rewrite u32_small by done. destruct signup as [n c l []]; done.
  - apply forallb_forall. intros f Hf%list_elem_of_In.
    pose proof (signup_fields_plain _ Hs) as Hp. rewrite Forall_forall in Hp.
    by destruct (plain_lacks _ (Hp _ Hf)) as (_ & ? & _).
Qed.

Lemma serialize_join signup l :
  SerializeSignups (signup :: l) = join_with ";"%char (SerializeSignup <$> signup :: l).
Proof.
  assert (forall l acc, acc <> "" ->
    foldl (fun serialized signup =>
      (if serialized =s "" then serialized else serialized +:+ ";") +:+ SerializeSignup signup) acc l
    = match l with [] => acc | _ => acc +:+ String ";" (join_with ";"%char (SerializeSignup <$> l)) end) as Hf.
  { clear. induction l as [|x l IH]; intros acc Hacc; simpl; [done|].
    rewrite (proj2 (String.eqb_neq acc "") Hacc), IH.
    - destruct l; by rewrite ?str_app_assoc.
    - rewrite str_app_assoc. apply str_app_nonempty_r. }
  unfold SerializeSignups. simpl. rewrite Hf by apply serialize_nonempty. by destruct l.
Qed.

Lemma signups_roundtrip l :
  Forall plain_signup l -> DeserializeSignups (SerializeSignups l) = l.
Proof.
  intros Hl. destruct l as [|x l]; [done|]. unfold DeserializeSignups.
  rewrite serialize_join.
  assert (lacks BACKSLASH (join_with ";"%char (SerializeSignup <$> x :: l)) = true) as Hb.
  { apply lacks_join; [done|]. apply Forall_fmap. eapply Forall_impl; [exact Hl|].
    intros y Hy. apply serialize_lacks; auto. }
  case_if.
  { apply String.eqb_eq in Heqb. rewrite <- serialize_join in Heqb. exfalso.
    assert (forall l acc, acc <> "" -> foldl (fun serialized signup =>
      (if serialized =s "" then serialized else serialized +:+ ";") +:+ SerializeSignup signup) acc l <> "") as Hn.
    { clear. induction l as [|y l IH]; intros acc Hacc; simpl; [done|]. apply IH.
      destruct (acc =s ""); [destruct acc; [done|discriminate]|].
      rewrite str_app_assoc. apply str_app_nonempty_r. }
    revert Heqb. unfold SerializeSignups. simpl. apply Hn, serialize_nonempty. }
  rewrite SplitEscaped_plain by done. rewrite split_join; [|done|].
  - clear Hb Heqb. revert Hl. generalize (x :: l). clear x l.
    induction l as [|x l IH]; [done|]. intros [Hx Hl]%Forall_cons.
    rewrite fmap_cons. cbn [omap list_omap]. rewrite deserialize_signup by done.
    f_equal. by apply IH.
  - apply forallb_forall. intros f Hf%list_elem_of_In.
    apply list_elem_of_fmap in Hf as (y & -> & Hy). rewrite Forall_forall in Hl.
    apply serialize_lacks; auto.
Qed.

(** ** JSON strings *)
(** A reader of JSON string bodies: the text up to the closing quote, and what
    follows it. *)
Definition json_unescape (c : ascii) : ascii :=
  if Ascii.eqb c "b"%char then ascii_of_nat 8
  else if Ascii.eqb c "f"%char then ascii_of_nat 12
  else if Ascii.eqb c "n"%char then ascii_of_nat 10
  else if Ascii.eqb c "r"%char then ascii_of_nat 13
  else if Ascii.eqb c "t"%char then ascii_of_nat 9
  else c.
Fixpoint json_read (s : string) : option (string * string) :=
  match s with
  | EmptyString => None
  | String c s' =>
      if Ascii.eqb c DQUOTE then Some ("", s')
      else if Ascii.eqb c BACKSLASH then
        match s' with
        | EmptyString => None
        | String e s'' => '(v, rest) ← json_read s''; Some (String (json_unescape e) v, rest)
        end
      else '(v, rest) ← json_read s'; Some (String c v, rest)
  end.

Lemma json_read_escape s rest :
  json_read (JsonEscape s +:+ String DQUOTE rest) = Some (s, rest).
Proof.
  induction s as [|c s IH]; [done|]. simpl. rewrite str_app_assoc. unfold json_escape_char.
  destruct (Ascii.eqb_spec c BACKSLASH) as [->|Hb]; [simpl; by rewrite IH|].
  destruct (Ascii.eqb_spec c DQUOTE) as [->|Hq]; [simpl; by rewrite IH|].
  repeat match goal with |- context [Ascii.eqb c ?k] =>
    destruct (Ascii.eqb_spec c k) as [->|?]; [simpl; by rewrite IH|] end.
  apply Ascii.eqb_neq in Hb, Hq. simpl. by rewrite Hq, Hb, IH.
Qed.

(** The invariant of the user listings: ids, counts, one listing per creator,
    and the agreement of the listings in memory with the table. *)

(** Rows as the server writes them. *)
Record table_ok (db : gmap Z ListingRow) : Prop := {
  tb_rows : map_Forall (fun id r =>
    l_id (row_listing r) = id /\ 0 < id < U32_MAX /\
    0 <= l_creatorGuid (row_listing r) < 2 ^ 32 /\ length (row_signups r) = 3%nat) db;
  tb_one : forall id1 id2 r1 r2, db !! id1 = Some r1 -> db !! id2 = Some r2 ->
    l_creatorGuid (row_listing r1) = l_creatorGuid (row_listing r2) -> id1 = id2
}.

Definition counts_ok (l : Listing) : Prop :=
  length (l_signups l) = 3%nat /\
  l_numConfirmed l = (fun signups => u8 (Z.of_nat (length signups))) <$> l_signups l.

Record listings_ok (s : LFT) : Prop := {
  lo_next : 0 < m_nextListingId s <= U32_MAX;
  lo_ids : map_Forall (fun id l => l_id l = id /\ 0 < id < m_nextListingId s) (m_listings s);
  lo_counts : map_Forall (fun _ l => counts_ok l) (m_listings s);
  lo_one : forall id1 id2 l1 l2, m_listings s !! id1 = Some l1 -> m_listings s !! id2 = Some l2 ->
    l_creatorGuid l1 = l_creatorGuid l2 -> id1 = id2;
  lo_table : forall id, l_creatorGuid <$> m_listings s !! id =
    (fun r => l_creatorGuid (row_listing r)) <$> lft_user_groups s !! id
}.

(** Before the first addon message or logout nothing is loaded. *)
Definition listings_inv (s : LFT) : Prop :=
  if m_listingsLoaded s then listings_ok s else table_ok (lft_user_groups s).

Lemma listings_ok_ext s s' :
  m_listings s' = m_listings s -> m_nextListingId s' = m_nextListingId s ->
  lft_user_groups s' = lft_user_groups s -> listings_ok s -> listings_ok s'.
Proof. intros E1 E2 E3 []. split; rewrite ?E1, ?E2, ?E3; done. Qed.

Lemma listings_inv_ext s s' :
  m_listings s' = m_listings s -> m_nextListingId s' = m_nextListingId s ->
  lft_user_groups s' = lft_user_groups s -> m_listingsLoaded s' = m_listingsLoaded s ->
  listings_inv s -> listings_inv s'.
Proof.
  unfold listings_inv. intros E1 E2 E3 ->. destruct (m_listingsLoaded s); [|by rewrite E3].
  by apply listings_ok_ext.
Qed.

Lemma counts_recount l : length (l_signups l) = 3%nat -> counts_ok (RecountListing l).
Proof. by split. Qed.

(** ** Steps that only send *)
Definition only_sends s s' : Prop := exists w, s' = set_wld w s /\ quiet (wld s) w.

Lemma only_sends_refl s : only_sends s s.
Proof. exists (wld s). split; [by destruct s|apply quiet_refl]. Qed.

Lemma only_sends_trans s1 s2 s3 : only_sends s1 s2 -> only_sends s2 s3 -> only_sends s1 s3.
Proof.
  intros (w & -> & Hq) (w' & -> & Hq'). exists w'. split; [done|]. by eapply quiet_trans.
Qed.

Lemma Send_only g msg s : only_sends s (Send g msg s).
Proof.
  unfold Send. destruct (w_players (wld s) !! g) as [p|]; [destruct (p_session p)|];
    try apply only_sends_refl. eexists. split; [reflexivity|by eexists].
Qed.

Lemma only_sends_foldl {B} (body : LFT -> B -> LFT) l s :
  (forall s x, only_sends s (body s x)) -> only_sends s (foldl body s l).
Proof.
  intros Hb. apply foldl_rel; [apply only_sends_refl|apply only_sends_trans|auto].
Qed.

(** ** Steps of the listings: the queue and its offers are not touched *)
Definition only_listings s s' : Prop :=
  exists ls nl ld db w, quiet (wld s) w /\
    s' = set_m_listings ls (set_m_nextListingId nl (set_m_listingsLoaded ld
           (set_lft_user_groups db (set_wld w s)))).

Lemma only_listings_refl s : only_listings s s.
Proof.
  exists (m_listings s), (m_nextListingId s), (m_listingsLoaded s), (lft_user_groups s), (wld s).
  split; [apply quiet_refl|by destruct s].
Qed.

Lemma only_listings_trans s1 s2 s3 :
  only_listings s1 s2 -> only_listings s2 s3 -> only_listings s1 s3.
Proof.
  intros (? & ? & ? & ? & w & Hq & ->) (ls & nl & ld & db & w' & Hq' & ->).
  exists ls, nl, ld, db, w'. split; [by eapply quiet_trans|done].
Qed.

Lemma only_sends_listings s s' : only_sends s s' -> only_listings s s'.
Proof.
  intros (w & -> & Hq).
  exists (m_listings s), (m_nextListingId s), (m_listingsLoaded s), (lft_user_groups s), w. by split.
Qed.

Lemma only_listings_set ls s : only_listings s (set_m_listings ls s).
Proof.
  exists ls, (m_nextListingId s), (m_listingsLoaded s), (lft_user_groups s), (wld s).
  split; [apply quiet_refl|by destruct s].
Qed.

Lemma only_listings_set_next nl s : only_listings s (set_m_nextListingId nl s).
Proof.
  exists (m_listings s), nl, (m_listingsLoaded s), (lft_user_groups s), (wld s).
  split; [apply quiet_refl|by destruct s].
Qed.

Lemma only_listings_set_table db s : only_listings s (set_lft_user_groups db s).
Proof.
  exists (m_listings s), (m_nextListingId s), (m_listingsLoaded s), db, (wld s).
  split; [apply quiet_refl|by destruct s].
Qed.

Lemma only_listings_set_loaded ld s : only_listings s (set_m_listingsLoaded ld s).
Proof.
  exists (m_listings s), (m_nextListingId s), ld, (lft_user_groups s), (wld s).
  split; [apply quiet_refl|by destruct s].
Qed.

Lemma only_listings_foldl {B} (body : LFT -> B -> LFT) l s :
  (forall s x, only_listings s (body s x)) -> only_listings s (foldl body s l).
Proof.
  intros Hb. apply foldl_rel; [apply only_listings_refl|apply only_listings_trans|auto].
Qed.

Section facts.
Context {env : LFTEnv}.
Implicit Types (s : LFT) (g id : Z).

Lemma SendGroupDetails_only g l s : only_sends s (SendGroupDetails g l s).
Proof.
  unfold SendGroupDetails. eapply only_sends_trans; [|apply Send_only].
  eapply only_sends_trans; [apply Send_only|]. apply only_sends_foldl. intros s' i.
  unfold detail_role. apply only_sends_foldl. intros. apply Send_only.
Qed.

Lemma SendGroupsList_only g s : only_sends s (SendGroupsList g s).
Proof.
  unfold SendGroupsList. destruct (w_players (wld s) !! g) as [p|]; [|apply only_sends_refl].
  eapply only_sends_trans; [|apply Send_only]. eapply only_sends_trans; [apply Send_only|].
  apply only_sends_foldl. intros s' id. unfold list_one.
  destruct (m_listings s' !! id); [|apply only_sends_refl].
  case_if; [apply Send_only|apply only_sends_refl].
Qed.

Lemma Broadcast_only s : m_listingsLoaded s = true -> only_sends s (BroadcastGroupsList s).
Proof.
  intros Hl. unfold BroadcastGroupsList, EnsureListingsLoaded. rewrite Hl.
  apply only_sends_foldl. intros. apply SendGroupsList_only.
Qed.

Lemma only_sends_inv s s' : only_sends s s' -> listings_inv s -> listings_inv s'.
Proof. intros (w & -> & _). by apply listings_inv_ext. Qed.

Lemma only_sends_ok s s' : only_sends s s' -> listings_ok s -> listings_ok s'.
Proof. intros (w & -> & _). by apply listings_ok_ext. Qed.

Lemma only_sends_loaded s s' : only_sends s s' -> m_listingsLoaded s' = m_listingsLoaded s.
Proof. by intros (w & -> & _). Qed.

(** ** Erasing *)
(** The entry of a listing goes from memory and from the table together. *)
Lemma erase_listing_ok s id l :
  listings_ok s -> m_listings s !! id = Some l ->
  listings_ok (set_m_listings (delete id (m_listings s)) (DeleteListingFromDB (l_id l) s)).
Proof.
  intros [H1 H2 H3 H4 H5] Hl. destruct (H2 _ _ Hl) as [-> _]. split; simpl.
  - done.
  - by apply map_Forall_delete.
  - by apply map_Forall_delete.
  - intros id1 id2 l1 l2 [_ ?]%lookup_delete_Some [_ ?]%lookup_delete_Some. by eapply H4.
  - intros id'. destruct (decide (id' = id)) as [->|]; [by rewrite !lookup_delete_eq|].
    by rewrite !lookup_delete_ne.
Qed.

Lemma erase_own_fields g s id :
  m_nextListingId (erase_own g s id) = m_nextListingId s /\
  m_listingsLoaded (erase_own g s id) = m_listingsLoaded s /\
  (forall id', m_listings (erase_own g s id) !! id' =
     match m_listings s !! id' with
     | Some l => if decide (id' = id /\ l_creatorGuid l = g) then None else Some l
     | None => None
     end).
Proof.
  unfold erase_own. destruct (m_listings s !! id) as [l|] eqn:Hl.
  2: { split_and!; try done. intros id'. destruct (m_listings s !! id') eqn:?; [|done].
       rewrite decide_False; [done|]. intros [-> _]. congruence. }
  destruct (Z.eqb_spec (l_creatorGuid l) g) as [Hg|Hg]; simpl.
  - split_and!; try done. intros id'. destruct (decide (id' = id)) as [->|].
    + rewrite lookup_delete_eq, Hl. by rewrite decide_True.
    + rewrite lookup_delete_ne by done. destruct (m_listings s !! id'); [|done].
      rewrite decide_False; [done|]. by intros [? _].
  - split_and!; try done. intros id'. destruct (m_listings s !! id') as [l'|] eqn:?; [|done].
    rewrite decide_False; [done|]. intros [-> ?]. congruence.
Qed.

Lemma erase_own_ok g s id : listings_ok s -> listings_ok (erase_own g s id).
Proof.
  intros Hok. unfold erase_own. destruct (m_listings s !! id) as [l|] eqn:Hl; [|done].
  case_if; [|done]. exact (erase_listing_ok s id l Hok Hl).
Qed.

Lemma erase_all_fields g l : forall s, let s' := foldl (erase_own g) s l in
  m_nextListingId s' = m_nextListingId s /\ m_listingsLoaded s' = m_listingsLoaded s /\
  (forall id', m_listings s' !! id' =
     match m_listings s !! id' with
     | Some x => if decide (id' ∈ l /\ l_creatorGuid x = g) then None else Some x
     | None => None
     end).
Proof.
  induction l as [|id l IH]; intros s; simpl.
  { split_and!; try done. intros id'. by destruct (m_listings s !! id'). }
  destruct (erase_own_fields g s id) as (E1 & E2 & E3).
  destruct (IH (erase_own g s id)) as (-> & -> & F3). split_and!; try done.
  intros id'. rewrite F3, E3. destruct (m_listings s !! id') as [x|]; [|done].
  destruct (decide (id' = id /\ l_creatorGuid x = g)) as [[-> ?]|Hn].
  - rewrite decide_True; [done|]. split; [by left|done].
  - apply decide_ext. rewrite elem_of_cons. naive_solver.
Qed.

(** After the loop over all listings the player owns none. *)
Lemma erase_all_owned g s : let s' := foldl (erase_own g) s (skeys (m_listings s)) in
  forall id x, m_listings s' !! id = Some x -> m_listings s !! id = Some x /\ l_creatorGuid x <> g.
Proof.
  intros s' id x Hx. destruct (erase_all_fields g (skeys (m_listings s)) s) as (_ & _ & F).
  unfold s' in Hx. rewrite F in Hx. destruct (m_listings s !! id) as [y|] eqn:Hy; [|done].
  case_decide as Hd; [done|]. simplify_eq. split; [done|]. intros Hg. apply Hd.
  split; [|done]. apply elem_of_skeys. by eexists.
Qed.

Lemma erase_all_ok g l s : listings_ok s -> listings_ok (foldl (erase_own g) s l).
Proof. intros Hok. apply foldl_inv; [done|]. intros. by apply erase_own_ok. Qed.

(** ** Replacing and adding *)
(** Storing a listing in memory and in the table. *)
Definition store (id : Z) (l : Listing) (s : LFT) : LFT :=
  SaveListingToDB l (set_m_listings (<[id := l]> (m_listings s)) s).

Lemma store_ok id l s :
  listings_ok s -> l_id l = id -> 0 < id < m_nextListingId s -> counts_ok l ->
  (forall l0, m_listings s !! id = Some l0 -> l_creatorGuid l0 = l_creatorGuid l) ->
  (forall id' l', m_listings s !! id' = Some l' -> l_creatorGuid l' = l_creatorGuid l -> id' = id) ->
  listings_ok (store id l s).
Proof.
  intros [H1 H2 H3 H4 H5] Hid Hr Hc Hsame Hone. unfold store, SaveListingToDB. simpl. rewrite Hid.
  split; simpl.
  - done.
  - by apply map_Forall_insert_2.
  - by apply map_Forall_insert_2.
  - intros id1 id2 l1 l2. rewrite !lookup_insert_Some.
    intros [[<- <-]|[Hn1 E1]] [[<- <-]|[Hn2 E2]] Heq; [done| | |by eapply H4].
    + symmetry. by eapply Hone.
    + by eapply Hone.
  - intros id'. destruct (decide (id' = id)) as [->|]; [|by rewrite !lookup_insert_ne].
    rewrite !lookup_insert_eq. simpl. f_equal. specialize (H5 id).
    destruct (lft_user_groups s !! id) as [r|] eqn:Er; [|done].
    destruct (m_listings s !! id) as [l0|] eqn:El; [|done]. simpl in *.
    injection H5 as <-. symmetry. by apply Hsame.
Qed.

Lemma store_loaded id l s : m_listingsLoaded (store id l s) = m_listingsLoaded s.
Proof. done. Qed.

(** Updating a listing's signups in place. *)
Lemma store_existing_ok id l0 l s :
  listings_ok s -> m_listings s !! id = Some l0 -> l_id l = l_id l0 ->
  l_creatorGuid l = l_creatorGuid l0 -> counts_ok l -> listings_ok (store id l s).
Proof.
  intros Hok Hl Hid Hg Hc. destruct (lo_ids _ Hok _ _ Hl) as [? ?].
  apply store_ok; try done; [congruence|congruence|].
  intros id' l' Hl' Hg'. eapply (lo_one _ Hok); [done..|congruence].
Qed.

(** ** What the signup operations keep of a listing *)
Definition same_listing (l l' : Listing) : Prop :=
  l_id l' = l_id l /\ l_creatorGuid l' = l_creatorGuid l /\
  length (l_signups l') = length (l_signups l).

Lemma same_listing_refl l : same_listing l l.
Proof. done. Qed.

Lemma same_listing_trans l1 l2 l3 : same_listing l1 l2 -> same_listing l2 l3 -> same_listing l1 l3.
Proof. intros (?&?&?) (?&?&?). split_and!; congruence. Qed.

Lemma RemoveListingSignup_same l name : same_listing l (RemoveListingSignup l name).
Proof.
  unfold RemoveListingSignup. destruct (normalizePlayerName name); [|done].
  split_and!; try done. simpl. by rewrite length_fmap.
Qed.

Lemma push_signup_same r su l : same_listing l (push_signup r su l).
Proof. split_and!; try done. simpl. by rewrite length_alter. Qed.

Lemma SetListingSignupRole_same l p r : same_listing l (SetListingSignupRole l p r).
Proof.
  unfold SetListingSignupRole. case_if; [done|].
  eapply same_listing_trans; [apply RemoveListingSignup_same|apply push_signup_same].
Qed.

Lemma PruneListingSignups_same s l : same_listing l (PruneListingSignups s l).
Proof.
  unfold PruneListingSignups. destruct (GetPlayer s (l_creatorGuid l)); [|done].
  split_and!; try done. simpl. by rewrite length_fmap.
Qed.

Lemma confirm_field_same s l f : same_listing l (confirm_field s l f).
Proof.
  unfold confirm_field. case_if; [done|]. destruct (SplitPreserveEmpty f ":") as [|n [|r ?]]; try done.
  case_if; [done|]. simpl. case_if; [done|]. destruct (normalizePlayerName n); [|done].
  destruct (FindPlayerByName (wld s) _) as [[? ?]|]; [apply SetListingSignupRole_same|].
  eapply same_listing_trans; [apply RemoveListingSignup_same|apply push_signup_same].
Qed.

Lemma confirm_fields_same s fs : forall l, same_listing l (foldl (confirm_field s) l fs).
Proof.
  intros l. apply foldl_rel; [apply same_listing_refl|apply same_listing_trans|].
  intros. apply confirm_field_same.
Qed.

Lemma same_listing_counts l l' : same_listing l l' -> counts_ok l -> counts_ok (RecountListing l').
Proof. intros (_ & _ & Hn) [Hl _]. apply counts_recount. congruence. Qed.
End facts.

(** Signups of a listing: nobody is listed twice, and pruning leaves only the
    creator and the members of the creator's group. *)

Section signups.
Context {env : LFTEnv}.
Implicit Types (n : string).

(** How often a (normalized) name is signed up, over all roles. *)
Definition name_count n (l : Listing) : nat := count (same_name n) (concat (l_signups l)).
Definition signups_unique (l : Listing) : Prop := forall n, (name_count n l <= 1)%nat.

Lemma count_filter_none {A} (P : A -> bool) l :
  count P (List.filter (fun x => negb (P x)) l) = 0%nat.
Proof.
  induction l as [|x l IH]; simpl; [done|]. destruct (P x) eqn:E; simpl; [done|].
  by rewrite count_cons, E, IH.
Qed.

Lemma count_filter_le {A} (P Q : A -> bool) l : (count P (List.filter Q l) <= count P l)%nat.
Proof.
  induction l as [|x l IH]; simpl; [done|]. rewrite count_cons.
  destruct (Q x); [rewrite count_cons|]; lia.
Qed.

Lemma concat_filter {A} (P : A -> bool) (ls : list (list A)) :
  concat (List.filter P <$> ls) = List.filter P (concat ls).
Proof. induction ls as [|l ls IH]; simpl; [done|]. by rewrite List.filter_app, <- IH. Qed.

Lemma count_alter_app {A} (P : A -> bool) (x : A) (ls : list (list A)) i :
  count P (concat (alter (fun l => l ++ [x]) i ls)) =
  (count P (concat ls) + if decide (i < length ls)%nat then (if P x then 1 else 0) else 0)%nat.
Proof.
  revert i. induction ls as [|l ls IH]; intros i; [done|]. destruct i as [|i]; simpl.
  - rewrite !count_app, count_cons, count_nil. lia.
  - change (list_alter _ i ls) with (alter (fun l => l ++ [x]) i ls).
    rewrite !count_app, IH. destruct (decide (i < length ls)%nat).
    + rewrite decide_True by lia. lia.
    + rewrite decide_False by lia. lia.
Qed.

Lemma Remove_count_same name n l :
  normalizePlayerName name = Some n -> name_count n (RemoveListingSignup l name) = 0%nat.
Proof.
  intros Hn. unfold name_count, RemoveListingSignup. rewrite Hn. simpl.
  rewrite concat_filter. apply count_filter_none.
Qed.

Lemma Remove_count_le name n l : (name_count n (RemoveListingSignup l name) <= name_count n l)%nat.
Proof.
  unfold name_count, RemoveListingSignup. destruct (normalizePlayerName name); [|done]. simpl.
  rewrite concat_filter. apply count_filter_le.
Qed.

Lemma Remove_keeps name n l su :
  normalizePlayerName name = Some n -> same_name n su = false ->
  su ∈ concat (l_signups l) -> su ∈ concat (l_signups (RemoveListingSignup l name)).
Proof.
  intros Hn Hs Hin. unfold RemoveListingSignup. rewrite Hn. simpl. rewrite concat_filter.
  apply list_elem_of_In, List.filter_In. split; [by apply list_elem_of_In|]. by rewrite Hs.
Qed.

Lemma push_count r su n l :
  (name_count n (push_signup r su l) <= name_count n l + if same_name n su then 1 else 0)%nat.
Proof.
  unfold name_count, push_signup. simpl. rewrite count_alter_app. case_decide; lia.
Qed.

(** Removing the name first, then adding it, keeps the names distinct. *)
Lemma replace_unique r su l :
  signups_unique l -> signups_unique (push_signup r su (RemoveListingSignup l (su_name su))).
Proof.
  intros Hu n. etransitivity; [apply push_count|].
  pose proof (Remove_count_le (su_name su) n l) as Hle. specialize (Hu n).
  destruct (same_name n su) eqn:E; [|lia]. unfold same_name in E.
  destruct (normalizePlayerName (su_name su)) as [m|] eqn:Hm; [|done].
  apply String.eqb_eq in E as ->. by rewrite Remove_count_same.
Qed.

Lemma SetListingSignupRole_unique l p r :
  signups_unique l -> signups_unique (SetListingSignupRole l p r).
Proof.
  intros Hu. unfold SetListingSignupRole. case_if; [done|].
  by apply (replace_unique r (mkSignup (p_name p) (ClassName p) (p_level p) true)).
Qed.

Lemma Prune_unique s l : signups_unique l -> signups_unique (PruneListingSignups s l).
Proof.
  intros Hu n. unfold PruneListingSignups. destruct (GetPlayer s (l_creatorGuid l)); [|apply Hu].
  unfold name_count. simpl. rewrite concat_filter. etransitivity; [apply count_filter_le|apply Hu].
Qed.

Lemma Remove_unique l name : signups_unique l -> signups_unique (RemoveListingSignup l name).
Proof. intros Hu n. etransitivity; [apply Remove_count_le|apply Hu]. Qed.

Lemma confirm_field_unique s l f : signups_unique l -> signups_unique (confirm_field s l f).
Proof.
  intros Hu. unfold confirm_field. case_if; [done|].
  destruct (SplitPreserveEmpty f ":") as [|n [|r ?]]; try done.
  case_if; [done|]. simpl. case_if; [done|]. destruct (normalizePlayerName n) as [m|]; [|done].
  destruct (FindPlayerByName (wld s) m) as [[? ?]|]; [by apply SetListingSignupRole_unique|].
  by apply (replace_unique _ (mkSignup m "UNKNOWN" 0 true)).
Qed.

Lemma confirm_fields_unique s fs : forall l,
  signups_unique l -> signups_unique (foldl (confirm_field s) l fs).
Proof. intros l Hu. apply foldl_inv; [done|]. intros. by apply confirm_field_unique. Qed.

Lemma cleared_unique l : signups_unique (set_l_signups ((fun _ => []) <$> l_signups l) l).
Proof.
  intros n. unfold name_count. simpl. 
  induction (l_signups l) as [|x ls IH]; simpl; [rewrite count_nil; lia|exact IH].
Qed.

(** The player is signed up exactly once, under the role asked for. *)
Lemma SetListingSignupRole_listed l p r :
  1 <= r <= 3 -> length (l_signups l) = 3%nat -> is_Some (normalizePlayerName (p_name p)) ->
  exists su, su_name su = p_name p /\ su_confirmed su = true /\
    su ∈ nth (Z.to_nat (r - 1)) (l_signups (SetListingSignupRole l p r)) [] /\
    forall n, same_name n su = true -> name_count n (SetListingSignupRole l p r) = 1%nat.
Proof.
  intros Hr Hlen [m Hm]. exists (mkSignup (p_name p) (ClassName p) (p_level p) true).
  unfold SetListingSignupRole. 
  assert ((r <? 1) || (3 <? r) = false) as -> by (apply orb_false_iff; lia).
  assert (length (l_signups (RemoveListingSignup l (p_name p))) = 3%nat) as Hlen'.
  { unfold RemoveListingSignup. rewrite Hm. simpl. by rewrite length_fmap. }
  split_and!; [done|done|..].
  - unfold push_signup. simpl.
    destruct (l_signups (RemoveListingSignup l (p_name p))) as [|a [|b [|c [|? ?]]]]; try done.
    assert (r = 1 \/ r = 2 \/ r = 3) as [->|[->| ->]] by lia; simpl; set_solver.
  - intros n Hn. unfold name_count, push_signup. simpl.
    rewrite count_alter_app, Hlen', Hn, decide_True by lia.
    unfold same_name in Hn. simpl in Hn. rewrite Hm in Hn. apply String.eqb_eq in Hn as ->.
    pose proof (Remove_count_same (p_name p) n l Hm) as H0. unfold name_count in H0. rewrite H0. done.
Qed.

(** ** Pruning *)
(** The signup names the creator or an online member of the creator's group. *)
Definition entitled (s : LFT) (l : Listing) (su : ListingSignup) : Prop :=
  exists n guid p, normalizePlayerName (su_name su) = Some n /\
    FindPlayerByName (wld s) n = Some (guid, p) /\
    (guid = l_creatorGuid l \/
     exists creator g, GetPlayer s (l_creatorGuid l) = Some creator /\
       GetGroup (wld s) creator = Some g /\ IsMember g guid = true).

Lemma Prune_entitled s l su :
  is_Some (GetPlayer s (l_creatorGuid l)) ->
  su ∈ concat (l_signups (PruneListingSignups s l)) -> su ∈ concat (l_signups l) /\ entitled s l su.
Proof.
  intros [creator Hc]. unfold PruneListingSignups. rewrite Hc. simpl. rewrite concat_filter.
  intros Hin%list_elem_of_In. apply List.filter_In in Hin as [Hin Hst]. split; [by apply list_elem_of_In|].
  unfold signup_stays in Hst. destruct (normalizePlayerName (su_name su)) as [n|] eqn:Hn; [|done].
  destruct (FindPlayerByName (wld s) n) as [[guid p]|] eqn:Hf; [|done].
  exists n, guid, p. split_and!; [done..|].
  apply orb_true_iff in Hst as [Hst|Hst]; [left; by apply Z.eqb_eq|right].
  destruct (GetGroup (wld s) creator) as [g|] eqn:Hg; [|done]. by exists creator, g.
Qed.

Lemma Prune_keeps s l creator su :
  GetPlayer s (l_creatorGuid l) = Some creator -> su ∈ concat (l_signups l) -> entitled s l su ->
  su ∈ concat (l_signups (PruneListingSignups s l)).
Proof.
  intros Hc Hin (n & guid & p & Hn & Hf & He). unfold PruneListingSignups. rewrite Hc. simpl.
  rewrite concat_filter. apply list_elem_of_In, List.filter_In.
  split; [by apply list_elem_of_In|]. unfold signup_stays. rewrite Hn, Hf.
  apply orb_true_iff. destruct He as [->|(c & g & Hc' & Hg & Hm)]; [left; by apply Z.eqb_eq|right].
  assert (c = creator) as -> by congruence. by rewrite Hg.
Qed.
End signups.
