(* ===== verification/LFTListingInv.v ===== *)
(** The listing handlers: each keeps the invariant of the listings and leaves
    the queue, the rolechecks and the offers alone. *)

From S2P Require Import Prelude CString World LFTTypes LFTQueue LFTListings LFTListingFacts.

Section facts.
Context {env : LFTEnv}.
Implicit Types (s : LFT) (g id : Z).

(** ** Loading *)
(** State of the load loop: [rest] are the rows still to be read. *)
Record loading (db0 : gmap Z ListingRow) (rest : list Z) (s : LFT) : Prop := {
  ld_next : 0 < m_nextListingId s <= U32_MAX;
  ld_rest : forall id, id ∈ rest -> m_listings s !! id = None /\ lft_user_groups s !! id = db0 !! id;
  ld_ids : map_Forall (fun id l => id < m_nextListingId s /\
    exists r, db0 !! id = Some r /\ l = RecountListing (listing_of_row r)) (m_listings s);
  ld_done : forall id, id ∉ rest -> l_creatorGuid <$> m_listings s !! id =
    (fun r => l_creatorGuid (row_listing r)) <$> lft_user_groups s !! id
}.

Lemma row_listing_ok db id r :
  table_ok db -> db !! id = Some r ->
  l_id (listing_of_row r) = id /\ 0 < id < U32_MAX /\
  l_creatorGuid (listing_of_row r) = l_creatorGuid (row_listing r) /\
  counts_ok (RecountListing (listing_of_row r)).
Proof.
  intros [Hr _] Hid. destruct (Hr _ _ Hid) as (Hi & Hb & Hg & Hl).
  unfold U32_MAX in *. simpl. rewrite Hi, !u32_small by lia. split_and!; try done; try lia.
  apply counts_recount. simpl. by rewrite length_fmap.
Qed.

Lemma load_row_step db0 id rest s :
  table_ok db0 -> id ∉ rest -> loading db0 (id :: rest) s -> loading db0 rest (load_row s id).
Proof.
  intros Ht Hnd [Hn Hrest Hids Hdone]. destruct (Hrest id) as [Hnone Hdb]; [left|].
  assert (forall id', id' ∈ rest -> id' <> id) as Hne by (intros id' ? ->; done).
  unfold load_row. rewrite Hdb. destruct (db0 !! id) as [r|] eqn:Hr.
  2: { split; [done|intros; apply Hrest; by right|done|]. intros id' Hout.
       destruct (decide (id' = id)) as [->|]; [by rewrite Hnone, Hdb|].
       apply Hdone. rewrite elem_of_cons. naive_solver. }
  destruct (row_listing_ok db0 id r Ht Hr) as (Hi & Hb & Hg & Hc).
  destruct (GetPlayer s (l_creatorGuid (listing_of_row r))).
  - change (l_id (RecountListing (listing_of_row r))) with (l_id (listing_of_row r)).
    rewrite Hi, u32_small by (unfold U32_MAX in *; lia).
    split; simpl.
    + lia.
    + intros id' Hin. rewrite lookup_insert_ne by (by apply not_eq_sym, Hne). apply Hrest. by right.
    + apply map_Forall_insert_2; [split; [lia|by exists r]|].
      eapply map_Forall_impl; [exact Hids|]. simpl. intros ? ? [? ?]. split; [lia|done].
    + intros id' Hout. destruct (decide (id' = id)) as [->|].
      * rewrite lookup_insert_eq, Hdb. simpl. f_equal. exact Hg.
      * rewrite lookup_insert_ne by done. apply Hdone. rewrite elem_of_cons. naive_solver.
  - unfold DeleteListingFromDB. rewrite Hi. split; simpl.
    + done.
    + intros id' Hin. rewrite lookup_delete_ne by (by apply not_eq_sym, Hne). apply Hrest. by right.
    + done.
    + intros id' Hout. destruct (decide (id' = id)) as [->|].
      * by rewrite lookup_delete_eq, Hnone.
      * rewrite lookup_delete_ne by done. apply Hdone. rewrite elem_of_cons. naive_solver.
Qed.

Lemma load_rows db0 rest : forall s,
  table_ok db0 -> NoDup rest -> loading db0 rest s -> loading db0 [] (foldl load_row s rest).
Proof.
  induction rest as [|id rest IH]; intros s Ht Hnd Hl; simpl; [done|].
  apply NoDup_cons in Hnd as [Hnin Hnd]. apply IH; [done..|]. by apply load_row_step.
Qed.

Lemma loading_ok db0 s : table_ok db0 -> loading db0 [] s -> listings_ok s.
Proof.
  intros Ht [Hn _ Hids Hdone]. split; [done|..].
  - intros id l Hl. destruct (Hids _ _ Hl) as (Hlt & r & Hr & ->).
    destruct (row_listing_ok db0 id r Ht Hr) as (? & ? & _). split; [done|lia].
  - intros id l Hl. destruct (Hids _ _ Hl) as (_ & r & Hr & ->). by eapply row_listing_ok.
  - intros id1 id2 l1 l2 E1 E2 Heq.
    destruct (Hids _ _ E1) as (_ & r1 & Hr1 & ->). destruct (Hids _ _ E2) as (_ & r2 & Hr2 & ->).
    eapply (tb_one _ Ht); [done..|].
    destruct (row_listing_ok db0 id1 r1 Ht Hr1) as (_ & _ & G1 & _).
    destruct (row_listing_ok db0 id2 r2 Ht Hr2) as (_ & _ & G2 & _).
    simpl in *. congruence.
  - intros id. apply Hdone. apply not_elem_of_nil.
Qed.

Lemma LoadListings_ok s :
  table_ok (lft_user_groups s) -> listings_ok (LoadListingsFromDB s).
Proof.
  intros Ht. unfold LoadListingsFromDB. simpl. apply (loading_ok (lft_user_groups s)); [done|].
  apply load_rows; [done|apply NoDup_skeys|]. split; simpl.
  - unfold U32_MAX; lia.
  - intros id _. by rewrite lookup_empty.
  - apply map_Forall_empty.
  - intros id Hout. rewrite elem_of_skeys in Hout. rewrite lookup_empty.
    destruct (lft_user_groups s !! id); [|done]. exfalso. apply Hout. by eexists.
Qed.

Lemma EnsureListingsLoaded_inv s : listings_inv s ->
  listings_ok (EnsureListingsLoaded s) /\ m_listingsLoaded (EnsureListingsLoaded s) = true.
Proof.
  unfold EnsureListingsLoaded, listings_inv. intros Hi.
  destruct (m_listingsLoaded s) eqn:E; [done|]. split; [|done].
  apply (listings_ok_ext (LoadListingsFromDB s)); [done..|]. by apply LoadListings_ok.
Qed.

Lemma EnsureListingsLoaded_only s : only_listings s (EnsureListingsLoaded s).
Proof.
  unfold EnsureListingsLoaded, LoadListingsFromDB. case_if; [apply only_listings_refl|].
  eapply only_listings_trans; [|apply only_listings_set_loaded].
  eapply only_listings_trans; [apply only_listings_set|].
  eapply only_listings_trans; [apply only_listings_set_next|].
  apply only_listings_foldl. intros s' id. unfold load_row.
  destruct (lft_user_groups s' !! id); [|apply only_listings_refl]. simpl.
  destruct (GetPlayer s' _); [|apply only_listings_set_table].
  eapply only_listings_trans; [apply only_listings_set_next|apply only_listings_set].
Qed.

(** ** Handlers *)
(** What a handler run on loaded listings gives back. *)
Definition listing_step s s' : Prop :=
  listings_ok s' /\ m_listingsLoaded s' = true /\ only_listings s s'.

Lemma listing_step_refl s : listings_ok s -> m_listingsLoaded s = true -> listing_step s s.
Proof. intros. split_and!; [done|done|apply only_listings_refl]. Qed.

Lemma listing_step_sends s0 s s' : listing_step s0 s -> only_sends s s' -> listing_step s0 s'.
Proof.
  intros (Hok & Hl & Ho) Hs. split_and!.
  - by eapply only_sends_ok.
  - by rewrite (only_sends_loaded s).
  - eapply only_listings_trans; [done|by apply only_sends_listings].
Qed.

Lemma listing_step_broadcast s0 s : listing_step s0 s -> listing_step s0 (BroadcastGroupsList s).
Proof. intros Hs. eapply listing_step_sends; [done|]. apply Broadcast_only, Hs. Qed.

Lemma store_only id l s : only_listings s (store id l s).
Proof.
  unfold store. eapply only_listings_trans; [apply only_listings_set|].
  unfold SaveListingToDB. apply only_listings_set_table.
Qed.

Lemma erase_own_only g s id : only_listings s (erase_own g s id).
Proof.
  unfold erase_own. destruct (m_listings s !! id); [|apply only_listings_refl].
  case_if; [|apply only_listings_refl]. unfold DeleteListingFromDB.
  eapply only_listings_trans; [apply only_listings_set_table|apply only_listings_set].
Qed.

Lemma HandleNewGroup_step g fields s :
  listings_ok s -> m_listingsLoaded s = true -> m_nextListingId s < U32_MAX ->
  listing_step s (HandleNewGroup g fields s).
Proof.
  intros Hok Hl Hroom. pose proof (listing_step_refl s Hok Hl) as Hs0. unfold HandleNewGroup.
  destruct (w_players (wld s) !! g) as [p|]; [|done]. case_if; [done|].
  case_if; [eapply listing_step_sends; [done|apply Send_only]|].
  set (s1 := foldl (erase_own g) s _). set (listing := new_listing (m_nextListingId s1) g p fields).
  destruct (erase_all_fields g (skeys (m_listings s)) s) as (En & El & _). fold s1 in En, El.
  assert (listings_ok s1) as Hok1 by by apply erase_all_ok.
  pose proof (lo_next _ Hok1) as Hnx.
  set (s2 := set_m_nextListingId (u32 (m_nextListingId s1 + 1)) s1).
  assert (m_nextListingId s2 = m_nextListingId s1 + 1) as Hn2.
  { unfold s2. simpl. rewrite u32_small; unfold U32_MAX in *; lia. }
  assert (listings_ok s2) as Hok2.
  { destruct Hok1 as [? H2 ? ? ?]. split; try done; rewrite Hn2; [lia|].
    eapply map_Forall_impl; [exact H2|]. simpl. intros ? ? ?. lia. }
  eapply listing_step_sends; [|apply SendGroupDetails_only]. apply listing_step_broadcast.
  change (SaveListingToDB listing _) with (store (l_id listing) listing s2).
  split_and!.
  - apply store_ok; [done|done|rewrite Hn2; simpl; lia|done|..].
    + intros l0 Hl0. apply (lo_ids _ Hok1) in Hl0 as [_ ?]. simpl in *. lia.
    + intros id' l' Hl'. apply (erase_all_owned g s) in Hl' as [_ Hne]. done.
  - simpl. by rewrite El.
  - eapply only_listings_trans; [|apply store_only]. apply (only_listings_trans _ s1);
      [apply only_listings_foldl; intros; apply erase_own_only|apply only_listings_set_next].
Qed.

Lemma HandleUpdateGroup_step g fields s :
  listings_ok s -> m_listingsLoaded s = true -> listing_step s (HandleUpdateGroup g fields s).
Proof.
  intros Hok Hl. pose proof (listing_step_refl s Hok Hl) as Hs0. unfold HandleUpdateGroup.
  case_if; [done|]. destruct (m_listings s !! _) as [l|] eqn:Hid; [|done]. case_if; [done|].
  eapply listing_step_sends; [|apply SendGroupDetails_only]. apply listing_step_broadcast.
  set (l1 := set_l_limit _ _). set (l2 := if (6 <=? length fields)%nat then _ else _).
  assert (same_listing l l2) as Hsame.
  { assert (same_listing l l1) as H1 by done. unfold l2. case_if.
    - eapply same_listing_trans; [exact H1|].
      eapply same_listing_trans; [apply PruneListingSignups_same|apply confirm_fields_same].
    - destruct H1 as (? & ? & ?). split_and!; try done. simpl. by rewrite length_fmap. }
  assert (same_listing l (PruneListingSignups s l2)) as Hsame'
    by (eapply same_listing_trans; [exact Hsame|apply PruneListingSignups_same]).
  pose proof Hsame' as (? & ? & ?).
  split_and!; [|done|apply (store_only _ (RecountListing (PruneListingSignups s l2)))].
  change (listings_ok (store (listing_id (nth 1 fields "")) (RecountListing (PruneListingSignups s l2)) s)).
  eapply store_existing_ok; [done..|]. eapply same_listing_counts; [done|].
  by apply (lo_counts _ Hok) in Hid.
Qed.

Lemma HandleDeleteGroup_step g fields s :
  listings_ok s -> m_listingsLoaded s = true -> listing_step s (HandleDeleteGroup g fields s).
Proof.
  intros Hok Hl. pose proof (listing_step_refl s Hok Hl) as Hs0. unfold HandleDeleteGroup.
  case_if; [done|]. destruct (m_listings s !! _) as [l|] eqn:Hid; [|done]. case_if; [done|].
  apply listing_step_broadcast. split_and!; [by apply (erase_listing_ok s)|done|].
  unfold DeleteListingFromDB.
  eapply only_listings_trans; [apply only_listings_set_table|apply only_listings_set].
Qed.

Lemma HandleManualRolecheckResponse_step g fields s :
  listings_ok s -> m_listingsLoaded s = true ->
  listing_step s (HandleManualRolecheckResponse g fields s).
Proof.
  intros Hok Hl. pose proof (listing_step_refl s Hok Hl) as Hs0. unfold HandleManualRolecheckResponse.
  destruct (w_players (wld s) !! g) as [p|]; [|done]. case_if; [done|].
  destruct (GetListingForGroupMember s g) as [id|]; simpl; [|done].
  destruct (m_listings s !! id) as [l|] eqn:Hid; simpl; [|done].
  apply listing_step_broadcast. set (l1 := if negb _ then _ else _).
  assert (same_listing l (PruneListingSignups s l1)) as Hsame.
  { eapply same_listing_trans; [|apply PruneListingSignups_same]. unfold l1.
    case_if; [apply SetListingSignupRole_same|apply RemoveListingSignup_same]. }
  pose proof Hsame as (? & ? & ?).
  split_and!; [|done|apply (store_only _ (RecountListing (PruneListingSignups s l1)))].
  change (listings_ok (store id (RecountListing (PruneListingSignups s l1)) s)).
  eapply store_existing_ok; [done..|]. eapply same_listing_counts; [done|].
  by apply (lo_counts _ Hok) in Hid.
Qed.

Lemma HandleGetGroupDetails_only g fields s : only_sends s (HandleGetGroupDetails g fields s).
Proof.
  unfold HandleGetGroupDetails. destruct (w_players (wld s) !! g) as [p|]; [|apply only_sends_refl].
  case_if; [apply only_sends_refl|]. destruct (m_listings s !! _); [|apply Send_only].
  case_if; [apply only_sends_refl|apply SendGroupDetails_only].
Qed.

Lemma HandleSignup_only g fields s : only_sends s (HandleSignup g fields s).
Proof.
  unfold HandleSignup. destruct (w_players (wld s) !! g) as [p|]; [|apply only_sends_refl].
  case_if; [apply only_sends_refl|]. destruct (m_listings s !! _); [|apply only_sends_refl].
  case_if; [apply only_sends_refl|]. destruct (GetPlayer _ (l_creatorGuid l)); [|apply SendGroupDetails_only].
  eapply only_sends_trans; apply SendGroupDetails_only.
Qed.

Lemma erase_listings_of_step g s :
  listings_ok s -> m_listingsLoaded s = true -> listing_step s (erase_listings_of g s).
Proof.
  intros Hok Hl. unfold erase_listings_of.
  assert (listing_step s (foldl (erase_own g) s (skeys (m_listings s)))) as Hs.
  { split_and!; [by apply erase_all_ok| |apply only_listings_foldl; intros; apply erase_own_only].
    destruct (erase_all_fields g (skeys (m_listings s)) s) as (_ & -> & _). done. }
  case_if; [by apply listing_step_broadcast|done].
Qed.
End facts.
