(* ===== verification/LFTBotFill.v ===== *)
(** Filling a waiting player's queue with bots (src/game/LFT/LFTBotFill.cpp):
    bots go into the queue of the real players as ordinary entries; everything
    after that is the matcher's work. *)

From S2P Require Import Prelude CString World LFTTypes LFTQueue LFTOffer.

(** ** Configuration text *)
Record SeedDungeon := mkSeed { sd_name : string; sd_minLevel : Z; sd_maxLevel : Z }.

(** [std::string::rfind] of one character. *)
Fixpoint rfind (c : ascii) (s : string) : option nat :=
  match s with
  | EmptyString => None
  | String d s' =>
      match rfind c s' with
      | Some i => Some (S i)
      | None => if Ascii.eqb d c then Some 0%nat else None
      end
  end.

Definition substr (s : string) (from n : nat) : string := String.substring from n s.
Definition substr_from (s : string) (from : nat) : string :=
  String.substring from (String.length s - from) s.

(** [std::stoul]: throws when nothing converts or the value is out of range. *)
Definition stoul (s : string) : option Z :=
  match parse_number (c_str s) with
  | Some (neg, v) => if U64_MAX <? v then None else Some (if (neg : bool) then u64 (- v) else v)
  | None => None
  end.

Definition parse_seed (entry : string) : option SeedDungeon :=
  match rfind ":"%char entry, rfind "-"%char entry with
  | Some colon, Some dash =>
      if (dash <? colon)%nat then None
      else
        lo ← stoul (substr entry (colon + 1) (dash - colon - 1));
        hi ← stoul (substr_from entry (dash + 1));
        Some (mkSeed (substr entry 0 colon) (u32 lo) (u32 hi))
  | _, _ => None
  end.
Definition ParseSeedDungeons (text : string) : list SeedDungeon :=
  omap parse_seed (getlines ","%char text).

Definition to_upper (c : ascii) : ascii :=
  let n := Z.of_nat (nat_of_ascii c) in
  if (97 <=? n) && (n <=? 122) then ascii_of_nat (Z.to_nat (n - 32)) else c.
Fixpoint upper (s : string) : string :=
  match s with EmptyString => "" | String c s' => String (to_upper c) (upper s') end.
Definition IsRandomBotAccount (p : Player) : bool :=
  match p_account p with
  | Some name => String.prefix "RNDBOT" (upper name)
  | None => false
  end.

Definition ListsInstance (instances : list string) (instance : string) : bool :=
  existsb (String.eqb instance) instances.

Section botfill.
Context {env : LFTEnv} {gsv : GroupService}.

Definition IsFillBot (s : LFT) (guid : Z) : bool := bool_decide (guid ∈ m_fillBots s).
Definition ForgetFillBot (guid : Z) (s : LFT) : LFT :=
  set_m_fillBots (m_fillBots s ∖ {[guid]}) s.

(** [Script_SetForcedRole(bot, role)] on the stored player. *)
Definition force_role (guid role : Z) (s : LFT) : LFT :=
  match w_players (wld s) !! guid with
  | Some p => set_wld (set_w_players (<[guid := Script_SetForcedRole p role]> (w_players (wld s)))
                         (wld s)) s
  | None => s
  end.

(** The result and [oldestJoin] of [RealPlayerWaitsFor]. *)
Definition RealPlayerWaitsFor (s : LFT) (instance : string) : option Z :=
  foldl (fun oldest guid =>
    match m_queue s !! guid with
    | None => oldest
    | Some q =>
        if IsFillBot s guid then oldest
        else if negb (ListsInstance (q_instances q) instance) then oldest
        else match oldest with
             | Some t => if q_joinTime q <? t then Some (q_joinTime q) else oldest
             | None => Some (q_joinTime q)
             end
    end) None (skeys (m_queue s)).

(** ** Dropping bots nobody waits for *)
Definition fill_needed (s : LFT) (guid : Z) : bool :=
  match m_queue s !! guid with
  | Some q => existsb (fun instance => bool_decide (is_Some (RealPlayerWaitsFor s instance)))
                (q_instances q)
  | None => false
  end.

Definition drop_one (s : LFT) (guid : Z) : LFT :=
  if bool_decide (is_Some (m_playerOffers s !! guid)) then s
  else if fill_needed s guid then s
  else
    let queued := m_queue s !! guid in
    let s := match GetPlayer s guid with Some _ => force_role guid 0 s | None => s end in
    let s := match queued with
             | Some q => SendQueueLeft guid (q_name q) (set_m_queue (delete guid (m_queue s)) s)
             | None => s
             end in
    ForgetFillBot guid s.

Definition DropUnneededFillBots (s : LFT) : LFT := foldl drop_one s (selems (m_fillBots s)).

(** ** Seeding an empty queue *)
Definition seed_candidate (p : Player) : bool :=
  p_inWorld p && p_alive p && p_aiControlled p && IsRandomBotAccount p &&
  negb (bool_decide (is_Some (p_group p))) && negb (p_inBattleGround p) &&
  negb (p_inBattleGroundQueue p) && negb (bool_decide (is_Some (p_dungeon p))) &&
  negb (AllowedRoleMask p =? 0).

Definition occupied_instances (w : World) : gset Z :=
  list_to_set (omap (fun guid => p ← w_players w !! guid; if p_inWorld p then p_dungeon p else None)
                 (GetPlayers_order w)).

(** The first bot and dungeon the two loops settle on. *)
Fixpoint find_seed (w : World) (dungeons : list SeedDungeon) (order : list Z)
    : option (Z * Player * SeedDungeon) :=
  match order with
  | [] => None
  | guid :: order' =>
      match w_players w !! guid with
      | None => find_seed w dungeons order'
      | Some bot =>
          if negb (seed_candidate bot) then find_seed w dungeons order'
          else match List.find (fun d => negb ((p_level bot <? sd_minLevel d) ||
                                               (sd_maxLevel d <? p_level bot))) dungeons with
               | Some dungeon => Some (guid, bot, dungeon)
               | None => find_seed w dungeons order'
               end
      end
  end.

Definition SeedBotOnlyQueue (s : LFT) : LFT :=
  let maxRuns := u32 cfg_seedRuns in
  if maxRuns =? 0 then s
  else if negb (bool_decide (m_queue s = ∅)) then s
  else
    let dungeons := ParseSeedDungeons cfg_seedDungeons in
    if bool_decide (length dungeons = 0%nat) then s
    else if maxRuns <=? Z.of_nat (size (occupied_instances (wld s))) then s
    else match find_seed (wld s) dungeons (GetPlayers_order (wld s)) with
         | Some (guid, bot, dungeon) =>
             EnqueuePlayer guid guid bot [sd_name dungeon] (AllowedRoleMask bot) s
         | None => s
         end.

(** ** Finding a bot for a role *)
(** [botLevel + below < waiter.level || waiter.level + above < botLevel] *)
Definition level_out (botLevel below above level : Z) : bool :=
  (u32 (botLevel + below) <? level) || (u32 (level + above) <? botLevel).

Definition bot_base (p : Player) : bool :=
  p_inWorld p && p_alive p && p_aiControlled p && IsRandomBotAccount p.

Definition idle_bot (s : LFT) (wanted : Z) (waiter : QueuedPlayer) (below above : Z) (guid : Z)
    : bool :=
  match w_players (wld s) !! guid with
  | None => false
  | Some bot =>
      bot_base bot && negb (bool_decide (is_Some (p_group bot))) && negb (p_inBattleGround bot) &&
      negb (p_inBattleGroundQueue bot) && negb (bool_decide (is_Some (m_queue s !! guid))) &&
      (p_team bot =? q_team waiter) && negb (level_out (p_level bot) below above (q_level waiter)) &&
      has_role (AllowedRoleMask bot) wanted && has_role (p_aiRoles bot) wanted
  end.

Definition bot_only_group (s : LFT) (g : Group) : bool :=
  forallb (fun slot =>
    negb (bool_decide (is_Some (m_playerOffers s !! ms_guid slot))) &&
    match GetPlayer s (ms_guid slot) with
    | Some member => p_aiControlled member && IsRandomBotAccount member
    | None => false
    end) (m_memberSlots g).

Definition raidable_bot (s : LFT) (wanted : Z) (waiter : QueuedPlayer) (below above : Z) (guid : Z)
    : bool :=
  match w_players (wld s) !! guid with
  | None => false
  | Some bot =>
      match GetGroup (wld s) bot with
      | None => false
      | Some g =>
          bot_base bot && negb (p_inBattleGround bot) && negb (p_inBattleGroundQueue bot) &&
          bool_decide (m_Id g ∈ m_lftGroupIds s) &&
          negb (bool_decide (is_Some (m_queue s !! guid))) && (p_team bot =? q_team waiter) &&
          negb (level_out (p_level bot) below above (q_level waiter)) &&
          has_role (AllowedRoleMask bot) wanted && has_role (p_aiRoles bot) wanted &&
          bot_only_group s g
      end
  end.

Definition TakeFromBotOnlyGroup (wanted : Z) (waiter : QueuedPlayer) (below above : Z) (s : LFT)
    : option Z * LFT :=
  match List.find (raidable_bot s wanted waiter below above) (GetPlayers_order (wld s)) with
  | Some guid => (Some guid, set_wld (gs_RemoveFromGroup guid (wld s)) s)
  | None => (None, s)
  end.

Definition respec_candidate (s : LFT) (wanted : Z) (waiter : QueuedPlayer) (below above : Z)
    (guid : Z) : bool :=
  match w_players (wld s) !! guid with
  | None => false
  | Some bot =>
      bot_base bot && negb (bool_decide (is_Some (p_group bot))) && negb (p_inBattleGround bot) &&
      negb (p_inBattleGroundQueue bot) && negb (bool_decide (is_Some (m_queue s !! guid))) &&
      (p_team bot =? q_team waiter) && negb (level_out (p_level bot) below above (q_level waiter)) &&
      negb (p_level bot <? 10) && has_role (AllowedRoleMask bot) wanted &&
      negb (has_role (p_aiRoles bot) wanted)
  end.

Definition ai_has_role (s : LFT) (guid wanted : Z) : bool :=
  match w_players (wld s) !! guid with
  | Some bot => has_role (p_aiRoles bot) wanted
  | None => false
  end.

(** A candidate that does not reach the role keeps the forced role. *)
Fixpoint respec_scan (wanted : Z) (waiter : QueuedPlayer) (below above : Z) (order : list Z)
    (s : LFT) : option Z * LFT :=
  match order with
  | [] => (None, s)
  | guid :: order' =>
      if respec_candidate s wanted waiter below above guid then
        let s := force_role guid wanted s in
        if ai_has_role s guid wanted then (Some guid, s)
        else respec_scan wanted waiter below above order' s
      else respec_scan wanted waiter below above order' s
  end.
Definition TakeBotAndRespecFor (wanted : Z) (waiter : QueuedPlayer) (below above : Z) (s : LFT)
    : option Z * LFT :=
  respec_scan wanted waiter below above (GetPlayers_order (wld s)) s.

(** The three searches in order. *)
Definition choose_bot (wanted : Z) (waiter : QueuedPlayer) (s : LFT) : option Z * LFT :=
  let below := if wanted =? LFT_ROLE_HEALER then cfg_levelBelowHealer else cfg_levelBelow in
  let above := cfg_levelAbove in
  match List.find (idle_bot s wanted waiter below above) (GetPlayers_order (wld s)) with
  | Some guid => (Some guid, s)
  | None =>
      match TakeFromBotOnlyGroup wanted waiter below above s with
      | (Some guid, s) => (Some guid, s)
      | (None, s) =>
          if (wanted =? LFT_ROLE_TANK) || (wanted =? LFT_ROLE_HEALER)
          then TakeBotAndRespecFor wanted waiter below above s
          else (None, s)
      end
  end.

(** ** Filling *)
(** What is covered already: [(tanks, healers, damage), inQueue]. *)
Definition cover_one (s : LFT) (instance : string) (waiter : QueuedPlayer)
    (acc : (Z * Z * Z) * Z) (guid : Z) : (Z * Z * Z) * Z :=
  let '((tanks, healers, damage), inQueue) := acc in
  match m_queue s !! guid with
  | None => acc
  | Some q =>
      if negb (ListsInstance (q_instances q) instance) then acc
      else if negb (CanQueuedPlayersGroup s waiter q) then acc
      else
        let inQueue := u32 (inQueue + 1) in
        if has_role (q_roleMask q) LFT_ROLE_TANK && (tanks <? 1)
        then ((u8 (tanks + 1), healers, damage), inQueue)
        else if has_role (q_roleMask q) LFT_ROLE_HEALER && (healers <? 1)
        then ((tanks, u8 (healers + 1), damage), inQueue)
        else if has_role (q_roleMask q) LFT_ROLE_DAMAGE && (damage <? 3)
        then ((tanks, healers, u8 (damage + 1)), inQueue)
        else ((tanks, healers, damage), inQueue)
  end.
Definition covered (s : LFT) (instance : string) (waiter : QueuedPlayer) : (Z * Z * Z) * Z :=
  foldl (cover_one s instance waiter) ((0, 0, 0), 0) (GetQueueOrder s).

(** The role to look for next; [None] ends the loop. *)
Definition wanted_role (tanks healers damage : Z) : option Z :=
  if tanks <? 1 then Some LFT_ROLE_TANK
  else if healers <? 1 then Some LFT_ROLE_HEALER
  else if damage <? 3 then Some LFT_ROLE_DAMAGE
  else None.

Definition enqueue_bot (instance : string) (wanted guid : Z) (s : LFT) : LFT :=
  match w_players (wld s) !! guid with
  | Some bot =>
      let s := EnqueuePlayer guid 0 bot [instance] wanted s in
      set_m_fillBots ({[guid]} ∪ m_fillBots s) s
  | None => s
  end.

(** The [while (inQueue < 5)] loop; [None] when the fuel runs out. *)
Fixpoint fill_loop (fuel : nat) (instance : string) (waiter : QueuedPlayer)
    (counts : Z * Z * Z) (inQueue : Z) (s : LFT) : option LFT :=
  match fuel with
  | O => None
  | S fuel =>
      let '(tanks, healers, damage) := counts in
      if negb (inQueue <? 5) then Some s
      else match wanted_role tanks healers damage with
      | None => Some s
      | Some wanted =>
          match choose_bot wanted waiter s with
          | (None, s) =>
              if wanted =? LFT_ROLE_TANK then fill_loop fuel instance waiter (1, healers, damage) inQueue s
              else if wanted =? LFT_ROLE_HEALER then fill_loop fuel instance waiter (tanks, 1, damage) inQueue s
              else Some s
          | (Some guid, s) =>
              let s := enqueue_bot instance wanted guid s in
              fill_loop fuel instance waiter (count_role wanted (tanks, healers, damage))
                (u32 (inQueue + 1)) s
          end
      end
  end.

Definition fill_fuel : nat := 8.

Definition FillInstanceWithBots (instance : string) (waiter : QueuedPlayer) (s : LFT) : option LFT :=
  let '(counts, inQueue) := covered s instance waiter in
  if 5 <=? inQueue then Some s
  else fill_loop fill_fuel instance waiter counts inQueue s.

(** ** Accepting for the bots *)
Definition accept_role (offerId : Z) (roles : gmap Z Z) (s : LFT) (guid : Z) : LFT :=
  match m_offers s !! offerId with
  | None => s
  | Some offer =>
      if bool_decide (guid ∈ o_accepted offer) then s
      else match GetPlayer s guid with
      | None => s
      | Some bot =>
          if negb (p_aiControlled bot) then s
          else HandleOfferAccept guid (force_role guid (map_at 0 roles guid) s)
      end
  end.
Definition accept_offer_for_bots (s : LFT) (offerId : Z) : LFT :=
  match m_offers s !! offerId with
  | None => s
  | Some offer => foldl (accept_role offerId (o_roles offer)) s (skeys (o_roles offer))
  end.
Definition AcceptOffersForFillBots (s : LFT) : LFT :=
  foldl accept_offer_for_bots s (skeys (m_offers s)).

(** ** The timer *)
(** The [pending] list: who has waited long enough, and for what. *)
Definition pending_fills (now : Z) (s : LFT) : list (string * QueuedPlayer) :=
  concat ((fun guid =>
    match m_queue s !! guid with
    | None => []
    | Some q =>
        if IsFillBot s guid || bool_decide (is_Some (m_playerOffers s !! guid)) then []
        else if u32 (now - q_joinTime q) <? cfg_botFillDelay then []
        else (fun instance => (instance, q)) <$> q_instances q
    end) <$> skeys (m_queue s)).

Definition fill_pending (s : LFT) (entry : string * QueuedPlayer) : LFT :=
  default s (FillInstanceWithBots (fst entry) (snd entry) s).

Definition UpdateBotFill (diff now : Z) (s : LFT) : LFT :=
  if negb cfg_botFillEnable then
    if negb (bool_decide (m_fillBots s = ∅)) then DropUnneededFillBots s else s
  else
    let s := AcceptOffersForFillBots s in
    if diff <? m_botFillTimer s
    then set_m_botFillTimer (u32 (m_botFillTimer s - diff)) s
    else
      let s := set_m_botFillTimer (5 * IN_MILLISECONDS) s in
      let s := DropUnneededFillBots s in
      let s := SeedBotOnlyQueue s in
      foldl fill_pending s (pending_fills now s).
End botfill.
