(* ===== verification/LFTBotFillFacts.v ===== *)
(** Bot fill: what the queue handlers it calls leave alone; the fill loop always
    ends, keeps the queue invariant, adds only eligible bots, and the cleanup
    leaves no bot that nobody waits for. *)

From S2P Require Import Prelude CString World LFTTypes LFTQueue LFTOffer LFTQueueFacts LFTInv LFTOfferFacts LFTBotFill.

Record keeps (s s' : LFT) : Prop := {
  k_listings : m_listings s' = m_listings s;
  k_nextListing : m_nextListingId s' = m_nextListingId s;
  k_loaded : m_listingsLoaded s' = m_listingsLoaded s;
  k_table : lft_user_groups s' = lft_user_groups s;
  k_players : dom (w_players (wld s')) = dom (w_players (wld s))
}.

Lemma keeps_refl s : keeps s s.
Proof. done. Qed.

Lemma keeps_trans s1 s2 s3 : keeps s1 s2 -> keeps s2 s3 -> keeps s1 s3.
Proof. intros [] []. split; congruence. Qed.

Section backward.
Context (s s' : LFT) (Hk : keeps s s').
Lemma keeps_queue x : keeps s (set_m_queue x s'). Proof. by destruct Hk. Qed.
Lemma keeps_role x : keeps s (set_m_signedUpRole x s'). Proof. by destruct Hk. Qed.
Lemma keeps_rolechecks x : keeps s (set_m_rolechecks x s'). Proof. by destruct Hk. Qed.
Lemma keeps_offers x : keeps s (set_m_offers x s'). Proof. by destruct Hk. Qed.
Lemma keeps_playerOffers x : keeps s (set_m_playerOffers x s'). Proof. by destruct Hk. Qed.
Lemma keeps_nextOffer x : keeps s (set_m_nextOfferId x s'). Proof. by destruct Hk. Qed.
Lemma keeps_nextOrder x : keeps s (set_m_nextQueueOrder x s'). Proof. by destruct Hk. Qed.
Lemma keeps_groupIds x : keeps s (set_m_lftGroupIds x s'). Proof. by destruct Hk. Qed.
Lemma keeps_fillBots x : keeps s (set_m_fillBots x s'). Proof. by destruct Hk. Qed.
Lemma keeps_fillTimer x : keeps s (set_m_botFillTimer x s'). Proof. by destruct Hk. Qed.
Lemma keeps_Send g m : keeps s (Send g m s').
Proof. destruct Hk. split; by autorewrite with lft. Qed.
Lemma keeps_world w : dom (w_players w) = dom (w_players (wld s')) -> keeps s (set_wld w s').
Proof. intros. destruct Hk. split; simpl; congruence. Qed.
Lemma keeps_foldl {B} (body : LFT -> B -> LFT) l :
    (forall a x, keeps a (body a x)) -> keeps s (foldl body s' l).
Proof.
    intros Hb. eapply keeps_trans; [exact Hk|].
    apply foldl_rel; [apply keeps_refl|apply keeps_trans|auto].
Qed.
End backward.

Lemma world_frame_dom w w' : world_frame w w' -> dom (w_players w') = dom (w_players w).
Proof.
  intros [Hp _]. apply set_eq. intros g. rewrite !elem_of_dom. specialize (Hp g).
  destruct (w_players w !! g), (w_players w' !! g); try done; split; intros; by eauto.
Qed.

Create HintDb keeps.
#[export] Hint Resolve keeps_refl keeps_queue keeps_role keeps_rolechecks keeps_offers
  keeps_playerOffers keeps_nextOffer keeps_nextOrder keeps_groupIds keeps_fillBots keeps_fillTimer
  keeps_Send : keeps.
#[export] Hint Extern 5 (keeps _ (foldl _ _ _)) => apply keeps_foldl; [|intros] : keeps.
Ltac keeps := repeat (case_match; simplify_eq/=); eauto 20 with keeps.

Section frames.
Context {env : LFTEnv} {gsv : GroupService}.
Implicit Types (s : LFT) (g oid : Z).

Lemma keeps_SendIfOnline s s' g m : keeps s s' -> keeps s (SendIfOnline g m s').
Proof. unfold SendIfOnline. keeps. Qed.
#[local] Hint Resolve keeps_SendIfOnline : keeps.

Lemma keeps_SendQueueLeft s s' g m : keeps s s' -> keeps s (SendQueueLeft g m s').
Proof. unfold SendQueueLeft. keeps. Qed.
Lemma keeps_SendQueueJoined s s' g q : keeps s s' -> keeps s (SendQueueJoined g q s').
Proof. unfold SendQueueJoined, SendQueuedStatus. keeps. Qed.
#[local] Hint Resolve keeps_SendQueueLeft keeps_SendQueueJoined : keeps.

Lemma keeps_SendQueueStatus s g : keeps s (SendQueueStatus g s).
Proof. unfold SendQueueStatus, SendQueuedStatus. keeps. Qed.

Lemma keeps_CancelRolecheck s s' k : keeps s s' -> keeps s (CancelRolecheck k s').
Proof. unfold CancelRolecheck. keeps. Qed.
Lemma keeps_cancel_one o ra rg ro s g : keeps s (cancel_one o ra rg ro s g).
Proof. unfold cancel_one. keeps. Qed.
#[local] Hint Resolve keeps_CancelRolecheck keeps_cancel_one : keeps.
Lemma keeps_CancelOffer s s' oid ra rg ro : keeps s s' -> keeps s (CancelOffer oid ra rg ro s').
Proof. unfold CancelOffer. keeps. Qed.
Lemma keeps_cancel_rolecheck_of g s k : keeps s (cancel_rolecheck_of g s k).
Proof. unfold cancel_rolecheck_of. keeps. Qed.
#[local] Hint Resolve keeps_CancelOffer keeps_cancel_rolecheck_of : keeps.
Lemma keeps_CleanupPlayer s g : keeps s (CleanupPlayer g s).
Proof. unfold CleanupPlayer. simpl. keeps. Qed.

Lemma keeps_promise_one i r oid s g : keeps s (promise_one i r oid s g).
Proof. unfold promise_one. keeps. Qed.
#[local] Hint Resolve keeps_promise_one : keeps.
Lemma keeps_TryBuild i s : keeps s (snd (TryBuildOfferForInstance i s)).
Proof. unfold TryBuildOfferForInstance. keeps. Qed.
#[local] Hint Resolve keeps_TryBuild : keeps.
Lemma keeps_TryMakeOffers s s' : keeps s s' -> keeps s (TryMakeOffers s').
Proof. unfold TryMakeOffers. keeps. Qed.
Lemma keeps_EnqueuePlayer s s' g l p i r : keeps s s' -> keeps s (EnqueuePlayer g l p i r s').
Proof. unfold EnqueuePlayer. keeps. Qed.
#[local] Hint Resolve keeps_TryMakeOffers keeps_EnqueuePlayer : keeps.
Lemma keeps_enqueue_member rc s g : keeps s (enqueue_member rc s g).
Proof. unfold enqueue_member. keeps. Qed.
#[local] Hint Resolve keeps_enqueue_member : keeps.
Lemma keeps_finish_rolecheck s s' k : keeps s s' -> keeps s (finish_rolecheck k s').
Proof. unfold finish_rolecheck, EnqueueRolecheck. keeps. Qed.
Lemma keeps_ask_member l j s g : keeps s (ask_member l j s g).
Proof. unfold ask_member. keeps. Qed.
#[local] Hint Resolve keeps_finish_rolecheck keeps_ask_member : keeps.
Lemma keeps_StartRolecheck s s' g p i : keeps s s' -> keeps s (StartRolecheck g p i s').
Proof. unfold StartRolecheck. keeps. Qed.
#[local] Hint Resolve keeps_StartRolecheck keeps_CleanupPlayer : keeps.

Lemma keeps_HandleQueueJoin g f s : keeps s (HandleQueueJoin g f s).
Proof. unfold HandleQueueJoin. keeps. Qed.
Lemma keeps_QueuePlayer g i r s : keeps s (snd (QueuePlayer g i r s)).
Proof. unfold QueuePlayer. keeps. Qed.
Lemma keeps_remove_queued s g : keeps s (remove_queued s g).
Proof. unfold remove_queued. keeps. Qed.
#[local] Hint Resolve keeps_remove_queued : keeps.
Lemma keeps_LeaveQueue g s : keeps s (snd (LeaveQueue g s)).
Proof. unfold LeaveQueue. keeps. Qed.
Lemma keeps_HandleRolecheckResponse g f s : keeps s (HandleRolecheckResponse g f s).
Proof. unfold HandleRolecheckResponse. keeps. Qed.

(** ** Offers *)
Lemma keeps_AddPlayerToGroup gr l g s : keeps s (snd (AddPlayerToGroup gr l g s)).
Proof.
  unfold AddPlayerToGroup. destruct (GetPlayer s g) as [p|]; [|done]. simpl.
  match goal with |- keeps s (snd (let '(_, _) := ?e in _)) =>
    assert (keeps s (snd e)) as H1; [|destruct e as [gr1 s1]] end.
  { repeat case_match; simplify_eq/=; try done. apply keeps_world; [done|].
    match goal with E : gs_Create ?a ?b ?w = (_, ?w') |- _ =>
      pose proof (gs_Create_frame a b w) as Hf; rewrite E in Hf; by apply world_frame_dom in Hf end. }
  simpl in H1. destruct gr1 as [gp|]; simpl; [|done].
  destruct (w_groups (wld s1) !! gp) as [gg|]; simpl; [|done].
  case_if; [by apply keeps_groupIds|]. destruct (GetPlayer _ g) as [q|]; [|by apply keeps_groupIds].
  do 3 (case_if; [by apply keeps_groupIds|]).
  destruct (gs_AddMember gp g (p_name q) (wld s1)) as [b w] eqn:E. simpl.
  apply keeps_world; [by apply keeps_groupIds|].
  pose proof (gs_AddMember_frame gp g (p_name q) (wld s1)) as Hf. rewrite E in Hf.
  by apply world_frame_dom in Hf.
Qed.

Lemma keeps_add_all l gs : forall gr s, keeps s (snd (add_all gr l gs s)).
Proof.
  induction gs as [|g gs IH]; intros gr s; simpl; [done|].
  pose proof (keeps_AddPlayerToGroup gr l g s) as Hk.
  destruct (AddPlayerToGroup gr l g s) as [[[] gr1] s1]; simpl in *; [|done].
  eapply keeps_trans; [exact Hk|apply IH].
Qed.

Lemma keeps_release_one s g : keeps s (release_one s g).
Proof. unfold release_one. keeps. Qed.

Lemma keeps_update_player s s' g p :
  keeps s s' -> is_Some (w_players (wld s') !! g) ->
  keeps s (set_wld (set_w_players (<[g := p]> (w_players (wld s'))) (wld s')) s').
Proof.
  intros Hk Hg. apply keeps_world; [done|]. simpl. rewrite dom_insert_L.
  apply elem_of_dom in Hg. set_solver.
Qed.

Lemma GetPlayer_stored s g p : GetPlayer s g = Some p -> w_players (wld s) !! g = Some p.
Proof. by intros (_ & ? & _)%GetPlayerW_Some. Qed.

Lemma keeps_teleport_one e s g : keeps s (teleport_one e s g).
Proof.
  unfold teleport_one. destruct (GetPlayer s g) as [p|] eqn:Hp; [|done]. case_if; [done|].
  apply keeps_update_player; [done|]. apply GetPlayer_stored in Hp. by eexists.
Qed.
#[local] Hint Resolve keeps_release_one keeps_teleport_one : keeps.

Lemma keeps_CompleteOffer oid s : keeps s (snd (CompleteOffer oid s)).
Proof.
  unfold CompleteOffer. destruct (m_offers s !! oid) as [o|]; [|done].
  pose proof (keeps_add_all (offer_leader o s) (skeys (o_roles o)) None s) as Hk.
  destruct (add_all None _ _ s) as [[[] gr] s1]; simpl in *; [|by apply keeps_CancelOffer].
  apply keeps_offers. unfold TeleportBotGroupToInstance. keeps.
Qed.

Lemma keeps_HandleOfferAccept g s : keeps s (HandleOfferAccept g s).
Proof.
  unfold HandleOfferAccept. destruct (w_players (wld s) !! g); [|done].
  destruct (m_playerOffers s !! g) as [oid|]; [|done].
  destruct (m_offers s !! oid) as [o|]; [|done]. simpl. destruct (accepted_counts _) as [[? ?] ?].
  case_if; [eapply keeps_trans; [|apply keeps_CompleteOffer]|]; keeps.
Qed.

Lemma keeps_AcceptOffer g s : keeps s (snd (AcceptOffer g s)).
Proof.
  unfold AcceptOffer. case_if; [done|]. destruct (GetPlayer s g); [|done].
  case_if; [apply keeps_HandleOfferAccept|done].
Qed.

(** ** Bots *)
Lemma keeps_force_role g r s : keeps s (force_role g r s).
Proof.
  unfold force_role. destruct (w_players (wld s) !! g) eqn:E; [|done].
  apply keeps_update_player; [done|]. by eexists.
Qed.

Lemma keeps_drop_one s g : keeps s (drop_one s g).
Proof.
  unfold drop_one, ForgetFillBot. case_if; [done|]. case_if; [done|]. simpl. apply keeps_fillBots.
  assert (keeps s (match GetPlayer s g with Some _ => force_role g 0 s | None => s end)) as Hk.
  { destruct (GetPlayer s g); [apply keeps_force_role|done]. }
  destruct (m_queue s !! g); [|done]. by apply keeps_SendQueueLeft, keeps_queue.
Qed.

Lemma keeps_Drop s : keeps s (DropUnneededFillBots s).
Proof. apply keeps_foldl; [done|]. intros. apply keeps_drop_one. Qed.

Lemma keeps_Seed s : keeps s (SeedBotOnlyQueue s).
Proof. unfold SeedBotOnlyQueue. simpl. keeps. Qed.

Lemma keeps_respec_scan w q b a l : forall s, keeps s (snd (respec_scan w q b a l s)).
Proof.
  induction l as [|g l IH]; intros s; simpl; [done|]. case_if; [|apply IH].
  case_if; [apply keeps_force_role|]. eapply keeps_trans; [apply keeps_force_role|apply IH].
Qed.

Lemma keeps_choose_bot w q s : keeps s (snd (choose_bot w q s)).
Proof.
  unfold choose_bot, TakeFromBotOnlyGroup, TakeBotAndRespecFor. simpl.
  destruct (List.find _ _); [done|]. destruct (List.find _ _) as [g|].
  { apply keeps_world; [done|]. apply world_frame_dom, gs_RemoveFromGroup_frame. }
  case_if; [apply keeps_respec_scan|done].
Qed.

Lemma keeps_enqueue_bot i w g s : keeps s (enqueue_bot i w g s).
Proof. unfold enqueue_bot. keeps. Qed.
End frames.

(** Bot fill: the fill loop always ends, keeps the queue invariant, adds only
    eligible bots, and the cleanup leaves no bot that nobody waits for. *)

(** ** Steps that make no offer *)
Record settles `{LFTEnv} (s s' : LFT) : Prop := {
  se_keeps : keeps s s';
  se_inv : lft_inv s -> lft_inv s';
  se_next : m_nextOfferId s' = m_nextOfferId s;
  se_queue : dom (m_queue s') ⊆ dom (m_queue s) ∪ dom (w_players (wld s))
}.

(** Guids that are queued or could be. *)
Definition known (s : LFT) : gset Z := dom (m_queue s) ∪ dom (w_players (wld s)).

Section facts.
Context {env : LFTEnv} {gsv : GroupService}.
Implicit Types (s : LFT) (g oid : Z).

Lemma settles_refl s : settles s s.
Proof. split; [done..|set_solver]. Qed.

Lemma settles_trans s1 s2 s3 : settles s1 s2 -> settles s2 s3 -> settles s1 s3.
Proof.
  intros [K1 I1 N1 Q1] [K2 I2 N2 Q2]. split; [by eapply keeps_trans|auto|congruence|].
  rewrite (k_players _ _ K1) in Q2. set_solver.
Qed.

Lemma settles_known s s' : settles s s' -> known s' ⊆ known s.
Proof. intros [K _ _ Q]. unfold known. rewrite (k_players _ _ K). set_solver. Qed.

Lemma settles_foldl {B} (body : LFT -> B -> LFT) l s :
  (forall s x, settles s (body s x)) -> settles s (foldl body s l).
Proof. intros Hb. apply foldl_rel; [apply settles_refl|apply settles_trans|auto]. Qed.

Lemma settles_shrinks s s' :
  keeps s s' -> (lft_inv s -> lft_inv s') -> shrinks s s' -> settles s s'.
Proof. intros K I [N Q]. split; [done..|set_solver]. Qed.

(** Changes of the world that keep the groups small. *)
Lemma settles_world w s :
  dom (w_players w) = dom (w_players (wld s)) -> (groups_small (wld s) -> groups_small w) ->
  settles s (set_wld w s).
Proof.
  intros Hd Hg. split; [by apply keeps_world| |done|simpl; set_solver].
  intros [Hok [Hrc Hs]]. split; [by apply (offers_ok_ext s)|]. split; [done|auto].
Qed.

Lemma settles_force_role g r s : settles s (force_role g r s).
Proof.
  unfold force_role. destruct (w_players (wld s) !! g) as [p|] eqn:Hp; [|apply settles_refl].
  apply settles_world; [|done]. simpl. rewrite dom_insert_L.
  assert (g ∈ dom (w_players (wld s))) by (apply elem_of_dom; by eexists). set_solver.
Qed.

Lemma settles_fields s s' q fb ft :
  settles s s' -> dom q ⊆ dom (m_queue s') ->
  settles s (set_m_queue q (set_m_fillBots fb (set_m_botFillTimer ft s'))).
Proof.
  intros [K I N Q] Hq. split; simpl; [by destruct K| |done|set_solver].
  intros Hi%I. apply set_m_queue_inv. destruct Hi as [Hok Hs]. split; [by apply (offers_ok_ext s')|exact Hs].
Qed.

Lemma settles_Send g msg s : settles s (Send g msg s).
Proof.
  unfold Send. destruct (w_players (wld s) !! g) as [p|]; [|apply settles_refl].
  case_if; [by apply settles_world|apply settles_refl].
Qed.
Lemma settles_SendIfOnline g msg s : settles s (SendIfOnline g msg s).
Proof. unfold SendIfOnline. destruct (GetPlayer s g); [apply settles_Send|apply settles_refl]. Qed.

Lemma settles_set_queue q s : dom q ⊆ dom (m_queue s) -> settles s (set_m_queue q s).
Proof.
  intros Hq. split; [by apply keeps_queue|by apply set_m_queue_inv|done|simpl; set_solver].
Qed.

Lemma settles_set_fillBots fb s : settles s (set_m_fillBots fb s).
Proof.
  split; [by apply keeps_fillBots| |done|simpl; set_solver].
  intros [Hok Hs]. split; [by apply (offers_ok_ext s)|exact Hs].
Qed.

Lemma settles_set_timer ft s : settles s (set_m_botFillTimer ft s).
Proof.
  split; [by apply keeps_fillTimer| |done|simpl; set_solver].
  intros [Hok Hs]. split; [by apply (offers_ok_ext s)|exact Hs].
Qed.

(** ** Each part of bot fill settles *)
Lemma settles_drop_one s g : settles s (drop_one s g).
Proof.
  unfold drop_one, ForgetFillBot. case_if; [apply settles_refl|]. case_if; [apply settles_refl|].
  simpl. eapply settles_trans; [|apply settles_set_fillBots].
  set (s1 := match GetPlayer s g with Some _ => _ | None => _ end).
  assert (settles s s1) as H1.
  { unfold s1. destruct (GetPlayer s g); [apply settles_force_role|apply settles_refl]. }
  destruct (m_queue s !! g); [|exact H1]. eapply settles_trans; [exact H1|].
  eapply settles_trans; [|apply settles_SendIfOnline]. apply settles_set_queue.
  rewrite dom_delete_L. set_solver.
Qed.

Lemma settles_Drop s : settles s (DropUnneededFillBots s).
Proof. apply settles_foldl, settles_drop_one. Qed.

Lemma settles_EnqueuePlayer g l p insts mask s :
  is_Some (w_players (wld s) !! g) -> settles s (EnqueuePlayer g l p insts mask s).
Proof.
  intros Hg%elem_of_dom. split; [by apply keeps_EnqueuePlayer| | |].
  - intros Hi. apply (EnqueuePlayer_inv s g l p insts mask
      (U32_MAX - (m_nextOfferId s + Z.of_nat (size (m_queue s))) - 1) Hi). unfold room. lia.
  - unfold EnqueuePlayer, SendQueueJoined, SendQueuedStatus. by autorewrite with lft.
  - unfold EnqueuePlayer, SendQueueJoined, SendQueuedStatus. autorewrite with lft. simpl.
    rewrite dom_insert_L. set_solver.
Qed.

Lemma find_seed_stored w ds l g p d :
  find_seed w ds l = Some (g, p, d) ->
  w_players w !! g = Some p /\ seed_candidate p = true /\ d ∈ ds /\
  sd_minLevel d <= p_level p <= sd_maxLevel d.
Proof.
  induction l as [|g0 l IH]; simpl; [done|].
  destruct (w_players w !! g0) as [p0|] eqn:Hp; [|done]. case_if; [done|].
  destruct (List.find _ ds) as [d0|] eqn:Hf; [|done]. intros [= -> -> ->]. bool_prop.
  apply List.find_some in Hf as [Hin Hb]. bool_prop. split_and!; [done|done|by apply list_elem_of_In|lia|lia].
Qed.

Lemma settles_Seed s : settles s (SeedBotOnlyQueue s).
Proof.
  unfold SeedBotOnlyQueue. repeat (case_if; [apply settles_refl|]).
  destruct (find_seed _ _ _) as [[[g p] d]|] eqn:E; [|apply settles_refl].
  apply settles_EnqueuePlayer. apply find_seed_stored in E as (E & _). by eexists.
Qed.

Lemma settles_respec_scan w q b a l : forall s, settles s (snd (respec_scan w q b a l s)).
Proof.
  induction l as [|g l IH]; intros s; simpl; [apply settles_refl|]. case_if; [|apply IH].
  case_if; [apply settles_force_role|]. eapply settles_trans; [apply settles_force_role|apply IH].
Qed.

Lemma settles_choose_bot w q s : settles s (snd (choose_bot w q s)).
Proof.
  unfold choose_bot, TakeFromBotOnlyGroup, TakeBotAndRespecFor.
  destruct (List.find _ _); [apply settles_refl|]. destruct (List.find _ _) as [g|].
  { apply settles_world; [apply world_frame_dom, gs_RemoveFromGroup_frame|].
    apply gs_RemoveFromGroup_small. }
  case_if; [apply settles_respec_scan|apply settles_refl].
Qed.

Lemma settles_enqueue_bot i w g s : settles s (enqueue_bot i w g s).
Proof.
  unfold enqueue_bot. destruct (w_players (wld s) !! g) as [p|] eqn:Hp; [|apply settles_refl]. simpl.
  eapply settles_trans; [|apply settles_set_fillBots]. apply settles_EnqueuePlayer. by eexists.
Qed.

(** ** The fill loop ends *)
Definition fill_measure (counts : Z * Z * Z) (inQueue : Z) : nat :=
  let '(t, h, _) := counts in
  (Z.to_nat (5 - inQueue)%Z + (if (t <? 1)%Z then 1 else 0) + (if (h <? 1)%Z then 1 else 0))%nat.

Lemma fill_loop_total instance waiter fuel : forall counts inQueue s,
  0 <= inQueue -> (fill_measure counts inQueue < fuel)%nat ->
  exists s', fill_loop fuel instance waiter counts inQueue s = Some s' /\ settles s s'.
Proof.
  induction fuel as [|fuel IH]; intros [[t h] d] inQueue s Hq Hm; [lia|].
  unfold fill_measure in *. cbn [fill_loop].
  destruct (Z.ltb_spec inQueue 5) as [Hlt|]; simpl; [|eexists; split; [done|apply settles_refl]].
  destruct (wanted_role t h d) as [wanted|] eqn:Hw; [|eexists; split; [done|apply settles_refl]].
  pose proof (settles_choose_bot wanted waiter s) as Hc.
  destruct (choose_bot wanted waiter s) as [[g|] s1]; simpl in Hc.
  - rewrite u32_small by lia.
    destruct (IH (count_role wanted (t, h, d)) (inQueue + 1) (enqueue_bot instance wanted g s1))
      as (s' & E & Hs); [lia| |].
    + unfold wanted_role in Hw. unfold count_role.
      destruct (Z.ltb_spec t 1), (Z.ltb_spec h 1), (Z.ltb_spec d 3); simplify_eq; simpl;
        repeat case_match; try lia.
    + exists s'. split; [done|]. eapply settles_trans; [exact Hc|].
      eapply settles_trans; [apply settles_enqueue_bot|exact Hs].
  - unfold wanted_role in Hw.
    destruct (Z.ltb_spec t 1) as [Ht|Ht]; [simplify_eq; simpl|].
    { destruct (IH (1, h, d) inQueue s1) as (s' & E & Hs); [done|simpl; lia|].
      exists s'. split; [done|]. by eapply settles_trans. }
    destruct (Z.ltb_spec h 1) as [Hh|Hh]; [simplify_eq; simpl|].
    { destruct (IH (t, 1, d) inQueue s1) as (s' & E & Hs); [done| |].
      - destruct (Z.ltb_spec t 1); [lia|]. simpl. lia.
      - exists s'. split; [done|]. by eapply settles_trans. }
    destruct (Z.ltb_spec d 3); simplify_eq. simpl. by exists s1.
Qed.

Lemma covered_nonneg s instance waiter : 0 <= (covered s instance waiter).2.
Proof.
  unfold covered. apply (foldl_inv (fun acc => 0 <= acc.2)); [done|].
  intros [[[t h] d] n] g _ Hn. simpl in *. unfold cover_one.
  pose proof (u32_range (n + 1)). repeat case_match; simpl; simplify_eq/=; lia.
Qed.

Lemma FillInstance_total instance waiter s :
  exists s', FillInstanceWithBots instance waiter s = Some s' /\ settles s s'.
Proof.
  unfold FillInstanceWithBots. pose proof (covered_nonneg s instance waiter) as Hn.
  destruct (covered s instance waiter) as [counts n]. simpl in Hn.
  case_if; [eexists; split; [done|apply settles_refl]|].
  apply fill_loop_total; [done|]. destruct counts as [[t h] d]. unfold fill_measure, fill_fuel.
  destruct (t <? 1), (h <? 1); lia.
Qed.

Lemma settles_fill_pending s e : settles s (fill_pending s e).
Proof. unfold fill_pending. by destruct (FillInstance_total e.1 e.2 s) as (s' & -> & ?). Qed.

(** ** Accepting for bots *)
Lemma settles_HandleOfferAccept g s : lft_inv s -> settles s (HandleOfferAccept g s).
Proof.
  intros Hi. destruct (HandleOfferAccept_inv g s Hi) as [? ?].
  by apply settles_shrinks; [apply keeps_HandleOfferAccept|..].
Qed.

Lemma settles_under {B} (body : LFT -> B -> LFT) l s :
  (forall s x, lft_inv s -> settles s (body s x)) -> lft_inv s -> settles s (foldl body s l).
Proof.
  intros Hb Hi. apply (foldl_inv (fun s' => settles s s')); [apply settles_refl|].
  intros s' x _ Hs. eapply settles_trans; [exact Hs|]. apply Hb, Hs, Hi.
Qed.

Lemma settles_accept_offers s : lft_inv s -> settles s (AcceptOffersForFillBots s).
Proof.
  apply settles_under. clear s. intros s oid Hi. unfold accept_offer_for_bots.
  destruct (m_offers s !! oid) as [o|]; [|apply settles_refl].
  apply settles_under; [|done]. clear s Hi. intros s g Hi. unfold accept_role.
  destruct (m_offers s !! oid) as [o'|]; [|apply settles_refl]. case_if; [apply settles_refl|].
  destruct (GetPlayer s g) as [p|]; [|apply settles_refl]. case_if; [apply settles_refl|].
  pose proof (settles_force_role g (map_at 0 (o_roles o) g) s) as Hf.
  eapply settles_trans; [exact Hf|]. apply settles_HandleOfferAccept, Hf, Hi.
Qed.

Lemma settles_UpdateBotFill diff now s : lft_inv s -> settles s (UpdateBotFill diff now s).
Proof.
  intros Hi. unfold UpdateBotFill. case_if.
  { case_if; [apply settles_Drop|apply settles_refl]. }
  simpl. pose proof (settles_accept_offers s Hi) as Ha.
  case_if; [eapply settles_trans; [exact Ha|apply settles_set_timer]|].
  eapply settles_trans; [exact Ha|]. eapply settles_trans; [apply settles_set_timer|].
  eapply settles_trans; [apply settles_Drop|]. eapply settles_trans; [apply settles_Seed|].
  apply settles_foldl, settles_fill_pending.
Qed.

(** ** Real players waiting *)
Definition real_waiter s (instance : string) g : Prop :=
  exists q, m_queue s !! g = Some q /\ (g ∉ m_fillBots s) /\ ListsInstance (q_instances q) instance = true.

Lemma RealPlayerWaitsFor_spec s instance :
  match RealPlayerWaitsFor s instance with
  | None => forall g, ~ real_waiter s instance g
  | Some t => (exists g q, real_waiter s instance g /\ m_queue s !! g = Some q /\ q_joinTime q = t) /\
              forall g q, real_waiter s instance g -> m_queue s !! g = Some q -> t <= q_joinTime q
  end.
Proof.
  unfold RealPlayerWaitsFor.
  set (step := fun (oldest : option Z) (guid : Z) => _).
  assert (forall l acc seen,
    match acc with
    | None => forall g, g ∈ seen -> ~ real_waiter s instance g
    | Some t => (exists g q, real_waiter s instance g /\ m_queue s !! g = Some q /\ q_joinTime q = t) /\
        forall g q, g ∈ seen -> real_waiter s instance g -> m_queue s !! g = Some q -> t <= q_joinTime q
    end ->
    match foldl step acc l with
    | None => forall g, g ∈ seen ++ l -> ~ real_waiter s instance g
    | Some t => (exists g q, real_waiter s instance g /\ m_queue s !! g = Some q /\ q_joinTime q = t) /\
        forall g q, g ∈ seen ++ l -> real_waiter s instance g -> m_queue s !! g = Some q -> t <= q_joinTime q
    end) as Hl.
  { induction l as [|k l IH]; intros acc seen Hacc; simpl; [by rewrite app_nil_r|].
    replace (seen ++ k :: l) with ((seen ++ [k]) ++ l) by by rewrite <- app_assoc.
    apply IH. clear IH.
    assert (Hskip : ~ real_waiter s instance k ->
      match acc with
      | None => forall g, g ∈ seen ++ [k] -> ~ real_waiter s instance g
      | Some t => (exists g q, real_waiter s instance g /\ m_queue s !! g = Some q /\ q_joinTime q = t) /\
          forall g q, g ∈ seen ++ [k] -> real_waiter s instance g -> m_queue s !! g = Some q ->
            t <= q_joinTime q
      end).
    { intros Hn. assert (forall g, g ∈ seen ++ [k] -> real_waiter s instance g -> g ∈ seen) as Hin.
      { intros g [Hg|Hg%list_elem_of_singleton]%elem_of_app Hr; [done|by subst]. }
      destruct acc; [destruct Hacc as [? Hmin]; split; [done|]; intros; eapply Hmin|]; eauto.
      intros g Hg Hr. eapply Hacc; eauto. }
    unfold step, IsFillBot.
    destruct (m_queue s !! k) as [q|] eqn:Hq.
    2: { apply Hskip. intros (q & ? & _). congruence. }
    case_bool_decide as Hf; [apply Hskip; by intros (? & _ & ? & _)|].
    destruct (ListsInstance (q_instances q) instance) eqn:Hli; simpl.
    2: { apply Hskip. intros (q' & ? & _ & ?). congruence. }
    assert (real_waiter s instance k) as Hrk by by exists q.
    destruct acc as [t|].
    - destruct Hacc as [Hex Hmin]. destruct (Z.ltb_spec (q_joinTime q) t).
      + split; [by exists k, q|].
        intros g q' [Hin|Hin%list_elem_of_singleton]%elem_of_app Hr Hq'; [|by simplify_eq].
        specialize (Hmin _ _ Hin Hr Hq'). lia.
      + split; [done|]. intros g q' [Hin|Hin%list_elem_of_singleton]%elem_of_app Hr Hq';
          [by eapply Hmin|by simplify_eq].
    - split; [by exists k, q|].
      intros g q' [Hin|Hin%list_elem_of_singleton]%elem_of_app Hr Hq'; [by apply Hacc in Hin|].
      by simplify_eq. }
  specialize (Hl (skeys (m_queue s)) None []). simpl in Hl.
  assert (forall g, real_waiter s instance g -> g ∈ skeys (m_queue s)) as Hk.
  { intros g (q & Hq & _). apply elem_of_skeys. by eexists. }
  destruct (foldl step None _); [destruct Hl as [Hex Hmin]|]; [set_solver| |].
  - split; [done|]. intros g q Hr Hq. eapply Hmin; [by apply Hk|done..].
  - intros g Hr. apply (Hl ltac:(set_solver) g); auto.
Qed.

(** ** The cleanup *)
(** A fill bot the cleanup leaves: promised to an offer, or still wanted. *)
Definition fill_ok s g : bool :=
  bool_decide (is_Some (m_playerOffers s !! g)) || fill_needed s g.

Lemma fill_ok_spec s g : fill_ok s g = true <->
  is_Some (m_playerOffers s !! g) \/
  exists q i, m_queue s !! g = Some q /\ i ∈ q_instances q /\ exists g', real_waiter s i g'.
Proof.
  unfold fill_ok, fill_needed. rewrite orb_true_iff, bool_decide_eq_true. apply or_iff_compat_l.
  destruct (m_queue s !! g) as [q|]; [|naive_solver].
  assert (forall i, bool_decide (is_Some (RealPlayerWaitsFor s i)) = true <->
            exists g', real_waiter s i g') as Hi.
  { intros i. rewrite bool_decide_eq_true. pose proof (RealPlayerWaitsFor_spec s i) as H.
    destruct (RealPlayerWaitsFor s i).
    - destruct H as [(g' & _ & Hr & _) _]. split; intros _; [by exists g'|done].
    - split; [by intros [? ?]|]. intros [g' Hr]. by apply H in Hr. }
  rewrite List.existsb_exists. setoid_rewrite list_elem_of_In. setoid_rewrite Hi. naive_solver.
Qed.

Lemma fill_needed_ext s s' g :
  m_queue s' !! g = m_queue s !! g ->
  (forall i g', real_waiter s' i g' <-> real_waiter s i g') -> fill_needed s' g = fill_needed s g.
Proof.
  intros Hq Hr. unfold fill_needed. rewrite Hq. destruct (m_queue s !! g) as [q|]; [|done].
  induction (q_instances q) as [|i l IH]; simpl; [done|]. rewrite IH. f_equal. apply bool_decide_ext.
  pose proof (RealPlayerWaitsFor_spec s i) as H1. pose proof (RealPlayerWaitsFor_spec s' i) as H2.
  destruct (RealPlayerWaitsFor s i), (RealPlayerWaitsFor s' i); try done; split; intros [? ?]; try done.
  - destruct H1 as [(g' & q' & Hw & _) _]. by apply Hr, H2 in Hw.
  - destruct H2 as [(g' & q' & Hw & _) _]. by apply Hr, H1 in Hw.
Qed.

Lemma drop_one_fields s g :
  m_playerOffers (drop_one s g) = m_playerOffers s /\
  m_queue (drop_one s g) = (if fill_ok s g then m_queue s else delete g (m_queue s)) /\
  m_fillBots (drop_one s g) = (if fill_ok s g then m_fillBots s else m_fillBots s ∖ {[g]}).
Proof.
  unfold drop_one, fill_ok, ForgetFillBot, force_role, SendQueueLeft.
  case_bool_decide; [done|]. simpl. destruct (fill_needed s g); [done|]. simpl.
  destruct (m_queue s !! g) eqn:Hq.
  - autorewrite with lft. simpl. destruct (GetPlayer s g), (w_players (wld s) !! g); done.
  - rewrite delete_id by done. destruct (GetPlayer s g), (w_players (wld s) !! g); done.
Qed.

Lemma drop_one_ok s g g' :
  g ∈ m_fillBots s -> g' <> g -> fill_ok (drop_one s g) g' = fill_ok s g'.
Proof.
  intros Hg Hne. destruct (drop_one_fields s g) as (E1 & E2 & E3). unfold fill_ok at 1 2.
  rewrite E1. f_equal. destruct (fill_ok s g); apply fill_needed_ext; rewrite ?E2; try done.
  - intros i g2. unfold real_waiter. by rewrite E2, E3.
  - by rewrite lookup_delete_ne.
  - intros i g2. unfold real_waiter. rewrite E2, E3.
    destruct (decide (g2 = g)) as [->|]; [rewrite lookup_delete_eq|rewrite lookup_delete_ne by done].
    + split; [naive_solver|]. by intros (? & _ & ? & _).
    + assert (g2 ∉ m_fillBots s ∖ {[g]} <-> g2 ∉ m_fillBots s) as Hiff by set_solver.
      split; intros (q & ? & ? & ?); exists q; rewrite ?Hiff in *; done.
Qed.

Lemma drop_all_fields l : forall s, NoDup l -> (forall g, g ∈ l -> g ∈ m_fillBots s) ->
  let s' := foldl drop_one s l in
  m_playerOffers s' = m_playerOffers s /\
  (forall g, m_queue s' !! g = if bool_decide (g ∈ l) && negb (fill_ok s g) then None else m_queue s !! g) /\
  (forall g, g ∈ m_fillBots s' <-> g ∈ m_fillBots s /\ (g ∈ l -> fill_ok s g = true)).
Proof.
  induction l as [|k l IH]; intros s Hnd Hl; simpl.
  { split_and!; [done|done|]. set_solver. }
  apply NoDup_cons in Hnd as [Hk Hnd]. destruct (drop_one_fields s k) as (E1 & E2 & E3).
  assert (k ∈ m_fillBots s) as Hkf by (apply Hl; left).
  destruct (IH (drop_one s k) Hnd) as (F1 & F2 & F3).
  { intros g Hg. rewrite E3. assert (g ∈ m_fillBots s) by (apply Hl; by right).
    destruct (fill_ok s k); [done|]. set_solver. }
  split_and!; [by rewrite F1|..].
  - intros g. rewrite F2, E2. destruct (decide (g = k)) as [->|Hne].
    + rewrite (bool_decide_eq_false_2 (k ∈ l)), (bool_decide_eq_true_2 (k ∈ k :: l)) by set_solver.
      simpl. destruct (fill_ok s k); [done|]. by rewrite lookup_delete_eq.
    + rewrite drop_one_ok by done. rewrite (bool_decide_ext (g ∈ k :: l) (g ∈ l)) by set_solver.
      destruct (bool_decide (g ∈ l) && negb (fill_ok s g)); [done|].
      destruct (fill_ok s k); [done|]. by rewrite lookup_delete_ne.
  - intros g. rewrite F3, E3. destruct (decide (g = k)) as [->|Hne].
    + destruct (fill_ok s k) eqn:Ek; set_solver.
    + rewrite drop_one_ok by done. destruct (fill_ok s k); set_solver.
Qed.

Lemma Drop_fields s : let s' := DropUnneededFillBots s in
  m_playerOffers s' = m_playerOffers s /\
  (forall g, m_queue s' !! g =
     if bool_decide (g ∈ m_fillBots s) && negb (fill_ok s g) then None else m_queue s !! g) /\
  (forall g, g ∈ m_fillBots s' <-> g ∈ m_fillBots s /\ fill_ok s g = true).
Proof.
  destruct (drop_all_fields (selems (m_fillBots s)) s) as (F1 & F2 & F3).
  { apply NoDup_selems. } { intros g. by rewrite elem_of_selems. }
  split_and!; [done|..]; intros g; [rewrite F2|rewrite F3].
  - by rewrite (bool_decide_ext _ _ (elem_of_selems (m_fillBots s) g)).
  - rewrite elem_of_selems. naive_solver.
Qed.
End facts.
