(* ===== verification/LFTBotFillSafety.v ===== *)
(** Who bot fill puts into the queue: random bots of the waiting player's team
    and level range whose class and AI can take the role, and never more than
    the party is short of. *)

From S2P Require Import Prelude CString World LFTTypes LFTQueue LFTOffer LFTInv LFTBotFill LFTBotFillFacts.

(** Players keep their static data. *)
Definition players_static (w w' : World) : Prop :=
  forall guid, match w_players w !! guid, w_players w' !! guid with
               | Some p, Some q => same_static p q
               | None, None => True
               | _, _ => False
               end.

Lemma players_static_refl w : players_static w w.
Proof. intros g. by destruct (w_players w !! g). Qed.

Lemma players_static_trans w1 w2 w3 :
  players_static w1 w2 -> players_static w2 w3 -> players_static w1 w3.
Proof.
  intros Ha Hb g. specialize (Ha g). specialize (Hb g).
  destruct (w_players w1 !! g), (w_players w2 !! g), (w_players w3 !! g); try done.
  by eapply same_static_trans.
Qed.

Lemma players_static_lookup w w' g q :
  players_static w w' -> w_players w' !! g = Some q ->
  exists p, w_players w !! g = Some p /\ same_static p q.
Proof.
  intros Hs Hq. specialize (Hs g). rewrite Hq in Hs. destruct (w_players w !! g) as [p|]; [|done].
  by exists p.
Qed.

Lemma AllowedRoleMask_static p q : same_static p q -> AllowedRoleMask q = AllowedRoleMask p.
Proof. unfold AllowedRoleMask. by intros (_ & -> & _). Qed.

Lemma IsRandom_static p q : same_static p q -> IsRandomBotAccount q = IsRandomBotAccount p.
Proof.
  unfold IsRandomBotAccount. by intros (_ & _ & _ & _ & _ & _ & _ & _ & _ & -> & _).
Qed.

Section safety.
Context {env : LFTEnv} {gsv : GroupService}.
Implicit Types (s : LFT) (g : Z).

(** A bot that may fill [role] for the waiting player. *)
Record eligible (w : World) (waiter : QueuedPlayer) (role g : Z) (p : Player) : Prop := {
  el_stored : w_players w !! g = Some p;
  el_inWorld : p_inWorld p = true;
  el_ai : p_aiControlled p = true;
  el_random : IsRandomBotAccount p = true;
  el_team : p_team p = q_team waiter;
  el_level : level_out (p_level p)
    (if role =? LFT_ROLE_HEALER then cfg_levelBelowHealer else cfg_levelBelow)
    cfg_levelAbove (q_level waiter) = false;
  el_class : has_role (AllowedRoleMask p) role = true
}.

Lemma eligible_static w w' waiter role g q :
  players_static w w' -> eligible w' waiter role g q -> exists p, eligible w waiter role g p.
Proof.
  intros Hs [Hq H1 H2 H3 H4 H5 H6]. destruct (players_static_lookup _ _ _ _ Hs Hq) as (p & Hp & Hst).
  exists p. rewrite (AllowedRoleMask_static p q Hst) in H6. rewrite (IsRandom_static p q Hst) in H3.
  destruct Hst as (_ & _ & E1 & E2 & _ & E3 & _ & _ & _ & E4 & E5). split; congruence.
Qed.

Lemma force_role_static g r s : players_static (wld s) (wld (force_role g r s)).
Proof.
  unfold force_role. destruct (w_players (wld s) !! g) as [p|] eqn:Hp; [|apply players_static_refl].
  intros g'. simpl. destruct (decide (g' = g)) as [->|].
  - rewrite Hp, lookup_insert_eq. apply SetForcedRole_static.
  - rewrite lookup_insert_ne by done. by destruct (w_players (wld s) !! g').
Qed.

Lemma force_role_queue g r s :
  m_queue (force_role g r s) = m_queue s /\ m_fillBots (force_role g r s) = m_fillBots s.
Proof. unfold force_role. by destruct (w_players (wld s) !! g). Qed.

(** ** The three searches *)
(** A search step: only the players' non-static data and the groups change. *)
Record searched s s' : Prop := {
  sr_queue : m_queue s' = m_queue s;
  sr_bots : m_fillBots s' = m_fillBots s;
  sr_static : players_static (wld s) (wld s')
}.

Lemma searched_trans s1 s2 s3 : searched s1 s2 -> searched s2 s3 -> searched s1 s3.
Proof. intros [] []. split; [congruence..|by eapply players_static_trans]. Qed.

Lemma searched_refl s : searched s s.
Proof. split; [done..|apply players_static_refl]. Qed.

Lemma force_role_searched g r s : searched s (force_role g r s).
Proof. destruct (force_role_queue g r s). split; [done..|apply force_role_static]. Qed.

Definition found s (wanted : Z) (waiter : QueuedPlayer) g : Prop :=
  m_queue s !! g = None /\ exists p, eligible (wld s) waiter wanted g p.

Lemma found_searched s s' wanted waiter g :
  searched s s' -> found s' wanted waiter g -> found s wanted waiter g.
Proof.
  intros [Hq _ Hs] [Hn [p He]]. split; [by rewrite <- Hq|]. by eapply eligible_static.
Qed.

Abbreviation below_of w := (if w =? LFT_ROLE_HEALER then cfg_levelBelowHealer else cfg_levelBelow).

Lemma idle_bot_found s wanted waiter g :
  idle_bot s wanted waiter (below_of wanted) cfg_levelAbove g = true -> found s wanted waiter g.
Proof.
  unfold idle_bot, bot_base. destruct (w_players (wld s) !! g) as [p|] eqn:Hp; [|done].
  intros Hb. bool_prop. split; [by apply eq_None_not_Some|]. exists p. by split.
Qed.

Lemma raidable_bot_found s wanted waiter g :
  raidable_bot s wanted waiter (below_of wanted) cfg_levelAbove g = true -> found s wanted waiter g.
Proof.
  unfold raidable_bot, bot_base. destruct (w_players (wld s) !! g) as [p|] eqn:Hp; [|done].
  destruct (GetGroup (wld s) p) as [gr|]; [|done].
  intros Hb. bool_prop. split; [by apply eq_None_not_Some|]. exists p. by split.
Qed.

Lemma respec_found s wanted waiter g :
  respec_candidate s wanted waiter (below_of wanted) cfg_levelAbove g = true -> found s wanted waiter g.
Proof.
  unfold respec_candidate, bot_base. destruct (w_players (wld s) !! g) as [p|] eqn:Hp; [|done].
  intros Hb. bool_prop. split; [by apply eq_None_not_Some|]. exists p. by split.
Qed.

Lemma respec_scan_found wanted waiter l : forall s r s',
  respec_scan wanted waiter (below_of wanted) cfg_levelAbove l s = (r, s') ->
  searched s s' /\ forall g, r = Some g -> found s wanted waiter g.
Proof.
  induction l as [|g l IH]; intros s r s'; simpl.
  { intros [= <- <-]. split; [apply searched_refl|done]. }
  destruct (respec_candidate _ _ _ _ _ g) eqn:Hc; [|apply IH].
  pose proof (force_role_searched g wanted s) as Hf. case_if.
  - intros [= <- <-]. split; [done|]. intros g' [= <-]. by apply respec_found.
  - intros Hr. apply IH in Hr as [Hs Hg]. split; [by eapply searched_trans|].
    intros g' Hg'. eapply found_searched; [exact Hf|]. by apply Hg.
Qed.

Lemma choose_bot_found wanted waiter s r s' :
  choose_bot wanted waiter s = (r, s') ->
  searched s s' /\ forall g, r = Some g -> found s wanted waiter g.
Proof.
  unfold choose_bot, TakeFromBotOnlyGroup.
  destruct (List.find (idle_bot _ _ _ _ _) _) as [g|] eqn:Hi.
  { intros [= <- <-]. split; [apply searched_refl|]. intros g' [= <-].
    apply List.find_some in Hi as [_ Hi]. by apply idle_bot_found. }
  destruct (List.find (raidable_bot _ _ _ _ _) _) as [g|] eqn:Hr.
  { intros [= <- <-]. split.
    - split; [done..|]. exact (proj1 (gs_RemoveFromGroup_frame g (wld s))).
    - intros g' [= <-]. apply List.find_some in Hr as [_ Hr]. by apply raidable_bot_found. }
  case_if; [apply respec_scan_found|]. intros [= <- <-]. split; [apply searched_refl|done].
Qed.

(** ** What filling adds *)
(** Entry [q] of [g] was put there by bot fill for [instance]. *)
Definition fill_entry s (instance : string) (waiter : QueuedPlayer) g (q : QueuedPlayer) : Prop :=
  m_queue s !! g = None /\ q_guid q = g /\ q_queueLeaderGuid q = 0 /\ q_instances q = [instance] /\
  (q_roleMask q = LFT_ROLE_TANK \/ q_roleMask q = LFT_ROLE_HEALER \/ q_roleMask q = LFT_ROLE_DAMAGE) /\
  exists p, eligible (wld s) waiter (q_roleMask q) g p.

Record filled s s' (instance : string) (waiter : QueuedPlayer) (room : Z) : Prop := {
  fl_static : players_static (wld s) (wld s');
  fl_bots : m_fillBots s ⊆ m_fillBots s';
  fl_kept : forall g q, m_queue s !! g = Some q -> m_queue s' !! g = Some q;
  fl_added : forall g q, m_queue s' !! g = Some q -> m_queue s !! g = Some q \/
    (g ∈ m_fillBots s' /\ fill_entry s instance waiter g q);
  fl_size : Z.of_nat (size (m_queue s')) <= Z.of_nat (size (m_queue s)) + room
}.

Lemma filled_stop s s' instance waiter room :
  0 <= room -> searched s s' -> filled s s' instance waiter room.
Proof.
  intros Hr [Hq Hb Hs]. split; [done|by rewrite Hb|by rewrite Hq| |rewrite Hq; lia].
  intros g q. rewrite Hq. by left.
Qed.

Lemma filled_searched s s1 s' instance waiter room :
  searched s s1 -> filled s1 s' instance waiter room -> filled s s' instance waiter room.
Proof.
  intros [Hq Hb Hs] [F1 F2 F3 F4 F5]. split.
  - by eapply players_static_trans.
  - by rewrite <- Hb.
  - by rewrite <- Hq.
  - intros g q Hg. apply F4 in Hg as [Hg|[Hg (E1 & E2 & E3 & E4 & E5 & p & E6)]];
      [left; by rewrite <- Hq|right]. split; [done|]. split_and!; try done; [by rewrite <- Hq|].
    by eapply eligible_static.
  - by rewrite <- Hq.
Qed.

(** One bot put into the queue, then the rest of the loop. *)
Lemma enqueue_bot_fields i w g s p :
  w_players (wld s) !! g = Some p ->
  players_static (wld s) (wld (enqueue_bot i w g s)) /\
  m_fillBots (enqueue_bot i w g s) = {[g]} ∪ m_fillBots s /\
  exists q, m_queue (enqueue_bot i w g s) = <[g := q]> (m_queue s) /\ q_guid q = g /\
    q_queueLeaderGuid q = 0 /\ q_instances q = [i] /\ q_roleMask q = w.
Proof.
  intros Hp. unfold enqueue_bot. rewrite Hp. simpl.
  unfold EnqueuePlayer, SendQueueJoined, SendQueuedStatus. autorewrite with lft. simpl. split_and!.
  - intros g'. autorewrite with lft. simpl. apply players_static_refl.
  - done.
  - eexists. split_and!; done.
Qed.

Lemma filled_enqueue s s' instance waiter wanted g room :
  found s wanted waiter g ->
  (wanted = LFT_ROLE_TANK \/ wanted = LFT_ROLE_HEALER \/ wanted = LFT_ROLE_DAMAGE) ->
  filled (enqueue_bot instance wanted g s) s' instance waiter room ->
  filled s s' instance waiter (room + 1).
Proof.
  intros [Hn [p He]] Hw [F1 F2 F3 F4 F5]. pose proof (el_stored _ _ _ _ _ He) as Hp.
  destruct (enqueue_bot_fields instance wanted g s p Hp) as (E1 & E2 & q0 & E3 & Q1 & Q2 & Q3 & Q4).
  rewrite E2 in F2. split.
  - by eapply players_static_trans.
  - set_solver.
  - intros g' q Hq. apply F3. rewrite E3, lookup_insert_ne; [done|]. intros ->. congruence.
  - intros g' q Hq. apply F4 in Hq as [Hq|[Hin (G1 & G2 & G3 & G4 & G5 & p' & G6)]].
    + rewrite E3 in Hq. apply lookup_insert_Some in Hq as [[<- <-]|[_ Hq]]; [right|by left].
      split; [set_solver|]. split_and!; try done; [by rewrite Q4|]. exists p. by rewrite Q4.
    + right. split; [done|]. split_and!; try done; [|by eapply eligible_static].
      rewrite E3 in G1. by apply lookup_insert_None in G1 as [? _].
  - rewrite E3, map_size_insert_None in F5 by done. lia.
Qed.

Lemma wanted_role_cases t h d wanted :
  wanted_role t h d = Some wanted ->
  wanted = LFT_ROLE_TANK \/ wanted = LFT_ROLE_HEALER \/ wanted = LFT_ROLE_DAMAGE.
Proof. unfold wanted_role. intros Hw. repeat case_match; simplify_eq; auto. Qed.

Lemma fill_loop_filled instance waiter fuel : forall counts inQueue s s',
  0 <= inQueue -> fill_loop fuel instance waiter counts inQueue s = Some s' ->
  filled s s' instance waiter (Z.max 0 (5 - inQueue)).
Proof.
  induction fuel as [|fuel IH]; intros [[t h] d] inQueue s s' Hq; [done|]. cbn [fill_loop].
  destruct (Z.ltb_spec inQueue 5) as [Hlt|]; simpl.
  2: { intros [= <-]. apply filled_stop; [lia|apply searched_refl]. }
  destruct (wanted_role t h d) as [wanted|] eqn:Hw.
  2: { intros [= <-]. apply filled_stop; [lia|apply searched_refl]. }
  apply wanted_role_cases in Hw.
  destruct (choose_bot wanted waiter s) as [r s1] eqn:Hc. apply choose_bot_found in Hc as [Hs Hf].
  destruct r as [g|].
  - rewrite u32_small by lia. intros Hrest. apply IH in Hrest; [|lia].
    replace (Z.max 0 (5 - inQueue)) with (Z.max 0 (5 - (inQueue + 1)) + 1) by lia.
    eapply filled_searched; [exact Hs|]. eapply filled_enqueue; [|exact Hw|exact Hrest].
    destruct (Hf g eq_refl) as [Hn [p He]]. split; [by rewrite (sr_queue _ _ Hs)|].
    destruct He as [H0 H1 H2 H3 H4 H5 H6]. pose proof (sr_static _ _ Hs g) as Hst. rewrite H0 in Hst.
    destruct (w_players (wld s1) !! g) as [p'|] eqn:Hp'; [|done]. exists p'.
    rewrite <- (AllowedRoleMask_static p p' Hst) in H6. rewrite <- (IsRandom_static p p' Hst) in H3.
    destruct Hst as (_ & _ & E1 & E2 & _ & E3 & _ & _ & _ & E4 & E5). split; congruence.
  - intros Hrest. eapply filled_searched; [exact Hs|]. revert Hrest.
    repeat case_if; [apply IH; lia..|]. intros [= <-]. apply filled_stop; [lia|apply searched_refl].
Qed.

Lemma FillInstance_filled instance waiter s s' :
  FillInstanceWithBots instance waiter s = Some s' ->
  filled s s' instance waiter (Z.max 0 (5 - (covered s instance waiter).2)).
Proof.
  unfold FillInstanceWithBots. pose proof (covered_nonneg s instance waiter) as Hn.
  destruct (covered s instance waiter) as [counts n]. cbn [snd] in *. case_if.
  - intros [= <-]. apply filled_stop; [lia|apply searched_refl].
  - intros Hl. by apply fill_loop_filled in Hl.
Qed.
End safety.
