(* ===== verification/LFTMgr.v ===== *)
(** The dungeon finder as a whole (src/game/LFT/LFTMgr.cpp): addon messages,
    the world update, logouts, and the module API, as steps of one system. *)

From S2P Require Import Prelude CString World LFTTypes LFTQueue LFTOffer LFTListings LFTBotFill.

Definition CHAT_MSG_GUILD := 3.
Definition LFT_PREFIX_TAB : string := "TW_LFG" +:+ String (ascii_of_nat 9) "".

Section mgr.
Context {env : LFTEnv} {gsv : GroupService}.

(** The [C2S_*] commands of the guild channel. *)
Definition guild_command (guid : Z) (fields : list string) (s : LFT) : LFT :=
  let command := nth 0 fields "" in
  if command =s "C2S_GET_GROUPS_STATUS" then HandleGetGroupsStatus guid s
  else if command =s "C2S_GET_GROUPS_LIST" then HandleGetGroupsList guid s
  else if command =s "C2S_GET_GROUP_DETAILS" then HandleGetGroupDetails guid fields s
  else if command =s "C2S_NEW_GROUP" then HandleNewGroup guid fields s
  else if command =s "C2S_UPDATE_GROUP" then HandleUpdateGroup guid fields s
  else if command =s "C2S_DELETE_GROUP" then HandleDeleteGroup guid fields s
  else if command =s "C2S_SIGNUP" then HandleSignup guid fields s
  else if command =s "C2S_QUEUE_JOIN" then HandleQueueJoin guid fields s
  else if command =s "C2S_QUEUE_LEAVE" then HandleQueueLeave guid s
  else if command =s "C2S_GET_QUEUE_STATUS" then HandleGetQueueStatus guid s
  else if command =s "C2S_ROLECHECK_RESPONSE" then HandleRolecheckResponse guid fields s
  else if command =s "C2S_OFFER_ACCEPT" then HandleOfferAccept guid s
  else s.

Definition HandleAddonMessage (guid type : Z) (rawMessage : string) (s : LFT) : bool * LFT :=
  if negb (String.prefix LFT_PREFIX_TAB rawMessage) then (false, s)
  else
    let payload := substr_from rawMessage (String.length LFT_PREFIX_TAB) in
    let fields := SplitPreserveEmpty payload ";"%char in
    if nth 0 fields "" =s "" then (true, s)
    else
      let s := EnsureListingsLoaded s in
      if nth 0 fields "" =s "C2C_ROLECHECK_RESPONSE"
      then (false, HandleManualRolecheckResponse guid fields s)
      else if negb (type =? CHAT_MSG_GUILD) then (false, s)
      else (true, guild_command guid fields s).

(** ** The three loops of [Update] *)
Definition drop_offline (s : LFT) (guid : Z) : LFT :=
  match GetPlayer s guid with
  | None => set_m_queue (delete guid (m_queue s)) s
  | Some _ => s
  end.

Definition tick_rolecheck (diff : Z) (s : LFT) (key : Z) : LFT :=
  match m_rolechecks s !! key with
  | None => s
  | Some rc =>
      if rc_timer rc <=? diff then CancelRolecheck key s
      else set_m_rolechecks (<[key := set_rc_timer (u32 (rc_timer rc - diff)) rc]> (m_rolechecks s)) s
  end.

Definition tick_offer (diff : Z) (s : LFT) (offerId : Z) : LFT :=
  match m_offers s !! offerId with
  | None => s
  | Some offer =>
      if o_timer offer <=? diff then CancelOffer offerId true 0 false s
      else set_m_offers (<[offerId := set_o_timer (u32 (o_timer offer - diff)) offer]> (m_offers s)) s
  end.

Definition Update (diff now : Z) (s : LFT) : LFT :=
  let s := UpdateBotFill diff now s in
  let s := foldl drop_offline s (skeys (m_queue s)) in
  let s := foldl (tick_rolecheck diff) s (skeys (m_rolechecks s)) in
  let s := foldl (tick_offer diff) s (skeys (m_offers s)) in
  TryMakeOffers s.

Definition SignedUpRole (guid : Z) (s : LFT) : Z := map_at 0 (m_signedUpRole s) guid.

Definition OnPlayerLogout (guid : Z) (s : LFT) : LFT :=
  let s := set_m_signedUpRole (delete guid (m_signedUpRole s)) s in
  let s := EnsureListingsLoaded s in
  let s := CleanupPlayer guid s in
  erase_listings_of guid s.

(** ** The finder as a transition system

    [Step_world] is everything the rest of the server does between two calls:
    players come, go and change, groups form and break up outside the finder. *)
Inductive lft_call : Type :=
  | CallMessage (guid type : Z) (rawMessage : string)
  | CallUpdate (diff now : Z)
  | CallLogout (guid : Z)
  | CallQueue (guid : Z) (instances : list string) (roleMask : Z)
  | CallLeave (guid : Z)
  | CallAccept (guid : Z)
  | CallWorld (w : World).

Definition run_call (c : lft_call) (s : LFT) : LFT :=
  match c with
  | CallMessage guid type rawMessage => snd (HandleAddonMessage guid type rawMessage s)
  | CallUpdate diff now => Update diff now s
  | CallLogout guid => OnPlayerLogout guid s
  | CallQueue guid instances roleMask => snd (QueuePlayer guid instances roleMask s)
  | CallLeave guid => snd (LeaveQueue guid s)
  | CallAccept guid => snd (AcceptOffer guid s)
  | CallWorld w => set_wld w s
  end.

(** Neither 32-bit id counter is about to wrap. *)
Definition spare (s : LFT) : Prop :=
  m_nextOfferId s + Z.of_nat (size (dom (m_queue s) ∪ dom (w_players (wld s)))) + MAX_RAID_SIZE
    <= U32_MAX /\
  m_nextListingId (EnsureListingsLoaded s) < U32_MAX.

Definition call_ok (c : lft_call) (s : LFT) : Prop :=
  match c with CallWorld w => groups_small w | _ => spare s end.

Inductive lft_step : LFT -> LFT -> Prop :=
  | lft_step_call c s : call_ok c s -> lft_step s (run_call c s).
End mgr.
