(* ===== verification/LFTMgrFacts.v ===== *)
(** Every call keeps the invariants of the queue and of the listings; what the
    periodic update does to rolechecks and offers, and what single calls do:
    accepting, leaving, finishing a rolecheck, publishing a listing, logging
    out. *)

From S2P Require Import Prelude CString World LFTTypes LFTQueue LFTOffer LFTQueueFacts LFTInv LFTOfferFacts LFTListings LFTListingFacts LFTListingInv LFTBotFill LFTBotFillFacts LFTMgr.

Section facts.
Context {env : LFTEnv} {gsv : GroupService}.
Implicit Types (s : LFT) (g : Z).

Definition manager_inv s : Prop := lft_inv s /\ listings_inv s.

Lemma keeps_listings_inv s s' : keeps s s' -> listings_inv s -> listings_inv s'.
Proof. intros []. by apply listings_inv_ext. Qed.

Lemma only_listings_inv s s' : only_listings s s' -> lft_inv s -> lft_inv s'.
Proof.
  intros (ls & nl & ld & db & w & [out Hq] & ->) [Hok Hs].
  split; [by apply (offers_ok_ext s)|]. unfold small, groups_small in *. simpl. by rewrite Hq.
Qed.

Lemma listing_step_manager s s' :
  listing_step s s' -> lft_inv s -> manager_inv s'.
Proof.
  intros (Hok & Hl & Ho) Hi. split; [by eapply only_listings_inv|].
  unfold listings_inv. by rewrite Hl.
Qed.

(** A queue step on a state with listings. *)
Lemma keeps_manager s s' :
  keeps s s' -> lft_inv s' -> listings_inv s -> manager_inv s'.
Proof. intros. split; [done|by eapply keeps_listings_inv]. Qed.

Lemma only_listings_spare s s' :
  only_listings s s' -> m_nextOfferId s' = m_nextOfferId s /\ known s' = known s.
Proof.
  intros (ls & nl & ld & db & w & [out Hq] & ->). split; [done|]. unfold known. simpl. by rewrite Hq.
Qed.

Lemma known_room s k :
  m_nextOfferId s + Z.of_nat (size (known s)) + k <= U32_MAX -> room k s.
Proof.
  unfold room, known. intros Hb.
  assert (size (dom (m_queue s)) <= size (dom (m_queue s) ∪ dom (w_players (wld s))))%nat as Hle
    by (apply subseteq_size; set_solver).
  rewrite size_dom in Hle. lia.
Qed.

Lemma listings_inv_loaded s :
  m_listingsLoaded s = true -> listings_inv s -> listings_ok s.
Proof. unfold listings_inv. by intros ->. Qed.

(** ** Addon messages *)
Lemma guild_command_inv g fields s :
  lft_inv s -> listings_ok s -> m_listingsLoaded s = true ->
  m_nextListingId s < U32_MAX -> room MAX_RAID_SIZE s ->
  manager_inv (guild_command g fields s).
Proof.
  intros Hi Hok Hl Hn Hr. assert (listings_inv s) as Hli by (unfold listings_inv; by rewrite Hl).
  assert (room 0 s) as Hr0 by (eapply room_mono; [|exact Hr]; unfold MAX_RAID_SIZE; lia).
  assert (forall s', only_sends s s' -> manager_inv s') as Hsend.
  { intros s' Hs. eapply listing_step_manager; [|exact Hi].
    eapply listing_step_sends; [by apply listing_step_refl|done]. }
  unfold guild_command.
  case_if; [apply Hsend, Send_only|].
  case_if; [apply Hsend, SendGroupsList_only|].
  case_if; [apply Hsend, HandleGetGroupDetails_only|].
  case_if; [eapply listing_step_manager; [by apply HandleNewGroup_step|done]|].
  case_if; [eapply listing_step_manager; [by apply HandleUpdateGroup_step|done]|].
  case_if; [eapply listing_step_manager; [by apply HandleDeleteGroup_step|done]|].
  case_if; [apply Hsend, HandleSignup_only|].
  case_if; [eapply keeps_manager; [apply keeps_HandleQueueJoin|by apply HandleQueueJoin_inv|done]|].
  case_if; [eapply keeps_manager; [apply keeps_LeaveQueue|by apply LeaveQueue_inv|done]|].
  case_if.
  { eapply keeps_manager; [apply keeps_SendQueueStatus| |done].
    unfold HandleGetQueueStatus, SendQueueStatus, SendQueuedStatus.
    repeat case_match; try done; by apply settles_Send. }
  case_if; [eapply keeps_manager;
    [apply keeps_HandleRolecheckResponse|by apply HandleRolecheckResponse_inv|done]|].
  case_if; [eapply keeps_manager; [apply keeps_HandleOfferAccept|by apply HandleOfferAccept_inv|done]|].
  done.
Qed.

Lemma ensure_manager s : manager_inv s -> spare s ->
  let s1 := EnsureListingsLoaded s in
  lft_inv s1 /\ listings_ok s1 /\ m_listingsLoaded s1 = true /\ m_nextListingId s1 < U32_MAX /\
  room MAX_RAID_SIZE s1.
Proof.
  intros [Hi Hli] [Hs1 Hs2] s1. destruct (EnsureListingsLoaded_inv s Hli) as [Hok Hl].
  pose proof (EnsureListingsLoaded_only s) as Ho. destruct (only_listings_spare _ _ Ho) as [E1 E2].
  split_and!; [by eapply only_listings_inv|done|done|done|].
  apply known_room. unfold s1. rewrite E1, E2. exact Hs1.
Qed.

Lemma HandleAddonMessage_inv g type raw s :
  manager_inv s -> spare s -> manager_inv (snd (HandleAddonMessage g type raw s)).
Proof.
  intros Hm Hs. unfold HandleAddonMessage. case_if; [done|]. simpl. case_if; [done|].
  destruct (ensure_manager s Hm Hs) as (Hi & Hok & Hl & Hn & Hr).
  case_if; [eapply listing_step_manager; [by apply HandleManualRolecheckResponse_step|done]|].
  case_if; [|by apply guild_command_inv].
  split; [done|]. unfold listings_inv. simpl. by rewrite Hl.
Qed.

(** ** The update *)
Lemma settles_offline s g : settles s (drop_offline s g).
Proof.
  unfold drop_offline. destruct (GetPlayer s g); [apply settles_refl|]. apply settles_set_queue.
  rewrite dom_delete_L. set_solver.
Qed.

Lemma settles_tick_rolecheck diff s k : settles s (tick_rolecheck diff s k).
Proof.
  unfold tick_rolecheck. destruct (m_rolechecks s !! k) as [rc|] eqn:Hrc; [|apply settles_refl].
  case_if.
  - apply settles_shrinks; [by apply keeps_CancelRolecheck|apply CancelRolecheck_inv|].
    apply CancelRolecheck_shrinks.
  - apply settles_shrinks; [by apply keeps_rolechecks| |by split].
    intros Hi. apply set_m_rolechecks_inv; [|done]. destruct Hi as [_ [Hr _]].
    apply map_Forall_insert_2; [simpl; by apply Hr in Hrc|done].
Qed.

Lemma set_timer_ok s oid o t :
  m_offers s !! oid = Some o -> offers_ok s ->
  offers_ok (set_m_offers (<[oid := set_o_timer t o]> (m_offers s)) s).
Proof.
  intros Ho [H1 H2 H3 H4 H5]. split; simpl.
  - done.
  - apply map_Forall_insert_2; [exact (H2 _ _ Ho)|done].
  - apply map_Forall_insert_2; [exact (H3 _ _ Ho)|done].
  - apply map_Forall_insert_2; [exact (H4 _ _ Ho)|done].
  - intros g oid'. rewrite H5. destruct (decide (oid' = oid)) as [->|].
    + rewrite lookup_insert_eq. split; intros (o' & E & Hr).
      * exists (set_o_timer t o). split; [done|]. by assert (o' = o) as -> by congruence.
      * exists o. split; [done|]. by assert (o' = set_o_timer t o) as -> by congruence.
    + by rewrite lookup_insert_ne.
Qed.

Lemma settles_tick_offer diff s oid : settles s (tick_offer diff s oid).
Proof.
  unfold tick_offer. destruct (m_offers s !! oid) as [o|] eqn:Ho; [|apply settles_refl]. case_if.
  - apply settles_shrinks; [by apply keeps_CancelOffer|apply CancelOffer_inv|apply CancelOffer_shrinks].
  - apply settles_shrinks; [by apply keeps_offers| |by split].
    intros [Hok Hs]. split; [by apply set_timer_ok|exact Hs].
Qed.

Lemma Update_settled diff now s : lft_inv s ->
  exists s', Update diff now s = TryMakeOffers s' /\ settles s s'.
Proof.
  intros Hi. pose proof (settles_UpdateBotFill diff now s Hi) as H1. unfold Update.
  set (s1 := UpdateBotFill diff now s) in *.
  set (s2 := foldl drop_offline s1 _). set (s3 := foldl (tick_rolecheck diff) s2 _).
  set (s4 := foldl (tick_offer diff) s3 _). exists s4. split; [done|].
  apply (settles_trans _ s1); [done|].
  apply (settles_trans _ s2); [apply settles_foldl, settles_offline|].
  apply (settles_trans _ s3); [apply settles_foldl, settles_tick_rolecheck|].
  apply settles_foldl, settles_tick_offer.
Qed.

Lemma settles_room s s' k :
  settles s s' -> m_nextOfferId s + Z.of_nat (size (known s)) + k <= U32_MAX -> room k s'.
Proof.
  intros Hs Hb. apply known_room. rewrite (se_next _ _ Hs).
  pose proof (subseteq_size _ _ (settles_known _ _ Hs)). lia.
Qed.

Lemma Update_inv diff now s : manager_inv s -> spare s -> manager_inv (Update diff now s).
Proof.
  intros [Hi Hl] [Hs _]. destruct (Update_settled diff now s Hi) as (s' & -> & Hst).
  apply (keeps_manager s); [apply keeps_TryMakeOffers, Hst| |done].
  apply TryMakeOffers_inv; [by apply Hst|]. eapply settles_room; [exact Hst|].
  unfold known. unfold MAX_RAID_SIZE in *. lia.
Qed.

(** ** Logout *)
Lemma OnPlayerLogout_inv g s : manager_inv s -> spare s -> manager_inv (OnPlayerLogout g s).
Proof.
  intros Hm Hs. unfold OnPlayerLogout. simpl.
  set (s0 := set_m_signedUpRole _ s).
  assert (manager_inv s0) as Hm0.
  { destruct Hm as [[Hok Hsm] Hl]. split; [split; [by apply (offers_ok_ext s)|exact Hsm]|].
    by apply (listings_inv_ext s). }
  assert (lft_inv (EnsureListingsLoaded s0)) as Hi.
  { eapply only_listings_inv; [apply EnsureListingsLoaded_only|apply Hm0]. }
  destruct (EnsureListingsLoaded_inv s0 (proj2 Hm0)) as [Hok Hl].
  destruct (CleanupPlayer_inv (EnsureListingsLoaded s0) g Hi) as [Hc _].
  pose proof (keeps_CleanupPlayer (EnsureListingsLoaded s0) g) as Hk.
  eapply listing_step_manager; [|exact Hc]. apply erase_listings_of_step.
  - destruct Hk. by eapply listings_ok_ext.
  - by rewrite (k_loaded _ _ Hk).
Qed.

Lemma AcceptOffer_inv g s : lft_inv s -> lft_inv (snd (AcceptOffer g s)).
Proof.
  intros Hi. unfold AcceptOffer. case_if; [done|]. destruct (GetPlayer s g); [|done].
  case_if; [by apply HandleOfferAccept_inv|done].
Qed.

(** ** All calls *)
Lemma run_call_inv c s : manager_inv s -> call_ok c s -> manager_inv (run_call c s).
Proof.
  intros Hm Hc. destruct c; simpl in *.
  - by apply HandleAddonMessage_inv.
  - by apply Update_inv.
  - by apply OnPlayerLogout_inv.
  - destruct Hm. eapply keeps_manager; [apply keeps_QueuePlayer| |done].
    apply QueuePlayer_inv; [done|]. apply known_room. apply Hc.
  - destruct Hm. eapply keeps_manager; [apply keeps_LeaveQueue| |done].
    apply LeaveQueue_inv; [done|]. eapply room_mono; [|apply known_room, Hc].
    unfold MAX_RAID_SIZE. lia.
  - destruct Hm. eapply keeps_manager; [apply keeps_AcceptOffer| |done]. by apply AcceptOffer_inv.
  - destruct Hm as [[Hok [Hr _]] Hl]. split; [|by apply (listings_inv_ext s)].
    split; [by apply (offers_ok_ext s)|by split].
Qed.

Lemma manager_inv_init db w : table_ok db -> groups_small w -> manager_inv (LFT_init db w).
Proof.
  intros Ht Hg. split; [split; [apply offers_ok_init|split; [apply map_Forall_empty|done]]|exact Ht].
Qed.

Lemma reachable_inv db w s :
  table_ok db -> groups_small w -> rtc lft_step (LFT_init db w) s -> manager_inv s.
Proof.
  intros Ht Hg Hr. assert (forall s1 s2, rtc lft_step s1 s2 -> manager_inv s1 -> manager_inv s2) as Hind.
  { induction 1 as [|s1 s2 s3 Hstep _ IH]; [done|]. intros Hm. apply IH. destruct Hstep.
    by apply run_call_inv. }
  eapply Hind; [exact Hr|]. by apply manager_inv_init.
Qed.

(** ** Offer timers *)
Lemma tick_offer_offers diff s oid :
  m_offers (tick_offer diff s oid) =
  match m_offers s !! oid with
  | None => m_offers s
  | Some o => if o_timer o <=? diff then delete oid (m_offers s)
              else <[oid := set_o_timer (u32 (o_timer o - diff)) o]> (m_offers s)
  end.
Proof.
  unfold tick_offer. destruct (m_offers s !! oid) as [o|] eqn:Ho; [|done]. case_if; [|done].
  by destruct (CancelOffer_fields s oid o true 0 false Ho) as [-> _].
Qed.

Lemma tick_offers_spec diff l : forall s, NoDup l ->
  forall oid, m_offers (foldl (tick_offer diff) s l) !! oid =
  match m_offers s !! oid with
  | None => None
  | Some o => if bool_decide (oid ∈ l)
              then if o_timer o <=? diff then None else Some (set_o_timer (u32 (o_timer o - diff)) o)
              else Some o
  end.
Proof.
  induction l as [|k l IH]; intros s Hnd oid; simpl.
  { by destruct (m_offers s !! oid). }
  apply NoDup_cons in Hnd as [Hk Hnd]. rewrite IH, tick_offer_offers by done.
  destruct (decide (oid = k)) as [->|Hne].
  - rewrite (bool_decide_eq_false_2 (k ∈ l)), (bool_decide_eq_true_2 (k ∈ k :: l)) by set_solver.
    destruct (m_offers s !! k) as [o|] eqn:Ho; [|by rewrite Ho].
    case_if; [by rewrite lookup_delete_eq|by rewrite lookup_insert_eq].
  - rewrite (bool_decide_ext (oid ∈ k :: l) (oid ∈ l)) by set_solver.
    destruct (m_offers s !! k) as [o|] eqn:Ho; [|done].
    case_if; [by rewrite lookup_delete_ne|by rewrite lookup_insert_ne].
Qed.
End facts.

(** What single calls of the dungeon finder do: accepting, leaving, finishing
    a rolecheck, publishing a listing, logging out. *)

Section handlers.
Context {env : LFTEnv} {gsv : GroupService}.
Implicit Types (s : LFT) (g oid : Z).

(** ** Loops that only send *)
Lemma SendIfOnline_sends g msg s : only_sends s (SendIfOnline g msg s).
Proof. unfold SendIfOnline. destruct (GetPlayer s g); [apply Send_only|apply only_sends_refl]. Qed.

Lemma SendQueueJoined_only g q s : only_sends s (SendQueueJoined g q s).
Proof. eapply only_sends_trans; apply Send_only. Qed.

(** ** Accepting *)
Lemma HandleOfferAccept_spec g s oid offer :
  lft_inv s -> is_Some (w_players (wld s) !! g) -> m_playerOffers s !! g = Some oid ->
  m_offers s !! oid = Some offer ->
  let accepted := {[g]} ∪ o_accepted offer in
  let s' := HandleOfferAccept g s in
  if (size accepted =? size (o_roles offer))%nat
  then m_offers s' = delete oid (m_offers s) /\
       forall g', is_Some (o_roles offer !! g') -> m_queue s' !! g' = None /\ m_playerOffers s' !! g' = None
  else m_offers s' = <[oid := set_o_accepted accepted offer]> (m_offers s) /\
       m_queue s' = m_queue s /\ m_playerOffers s' = m_playerOffers s.
Proof.
  intros Hi [p Hp] Hpo Ho. destruct (accept_inv s g oid offer Hi Hpo Ho) as [Heq _].
  unfold HandleOfferAccept. rewrite Hp, Hpo, Ho. cbv zeta. rewrite Heq.
  set (offer1 := set_o_accepted _ offer). destruct (accepted_counts offer1) as [[t h] d].
  match goal with |- context [foldl ?f ?s0 ?l] => set (s1 := s0); set (s2 := foldl f s1 l) end.
  assert (only_sends s1 s2) as (w & Hs2 & _).
  { apply only_sends_foldl. intros. apply SendIfOnline_sends. }
  change (o_accepted offer1) with ({[g]} ∪ o_accepted offer).
  change (o_roles offer1) with (o_roles offer). case_if; [|by rewrite Hs2].
  destruct (CompleteOffer oid s2) as [ok s3] eqn:E.
  destruct (CompleteOffer_spec oid s2 offer1 ok s3) as (F1 & _ & _ & F4 & F5 & _); [|done|].
  { rewrite Hs2. apply lookup_insert_eq. }
  simpl. split.
  - rewrite F1, Hs2. simpl. by rewrite delete_insert_eq.
  - intros g' Hg'. by rewrite F4, F5, !decide_True.
Qed.

(** ** Leaving *)
Lemma remove_queued_fields s g :
  m_queue (remove_queued s g) = delete g (m_queue s) /\ m_offers (remove_queued s g) = m_offers s /\
  m_playerOffers (remove_queued s g) = m_playerOffers s.
Proof.
  unfold remove_queued, SendQueueLeft. destruct (m_queue s !! g) eqn:E.
  - by autorewrite with lft.
  - by rewrite delete_id.
Qed.

Lemma remove_all_fields l : forall s, let s' := foldl remove_queued s l in
  (forall g, m_queue s' !! g = if decide (g ∈ l) then None else m_queue s !! g) /\
  m_offers s' = m_offers s /\ m_playerOffers s' = m_playerOffers s.
Proof.
  induction l as [|k l IH]; intros s; simpl.
  { done. }
  destruct (remove_queued_fields s k) as (E1 & E2 & E3).
  destruct (IH (remove_queued s k)) as (F1 & -> & ->). split_and!; try done.
  intros g. rewrite F1, E1. destruct (decide (g ∈ l)); [by rewrite decide_True by set_solver|].
  destruct (decide (g = k)) as [->|];
    [by rewrite lookup_delete_eq, decide_True by set_solver|
     by rewrite lookup_delete_ne, decide_False by set_solver].
Qed.

Lemma elem_of_block s order leader g :
  g ∈ block_of s order leader <->
  g ∈ order /\ exists q, m_queue s !! g = Some q /\ leader_of g q = leader.
Proof.
  unfold block_of. rewrite list_elem_of_In, List.filter_In, <- list_elem_of_In.
  split; intros [Hin Hb]; (split; [done|]).
  - destruct (m_queue s !! g) as [q|]; [|done]. exists q. split; [done|]. by apply Z.eqb_eq.
  - destruct Hb as (q & -> & <-). apply Z.eqb_refl.
Qed.

Lemma LeaveQueue_block g s q :
  find_rolecheck s g = None -> m_playerOffers s !! g = None -> m_queue s !! g = Some q ->
  let s' := snd (LeaveQueue g s) in
  fst (LeaveQueue g s) = true /\ m_offers s' = m_offers s /\
  forall g', m_queue s' !! g' =
    match m_queue s !! g' with
    | Some q' => if leader_of g' q' =? leader_of g q then None else Some q'
    | None => None
    end.
Proof.
  intros Hrc Hpo Hq. unfold LeaveQueue. rewrite Hrc, Hpo, Hq. simpl.
  destruct (remove_all_fields (block_of s (skeys (m_queue s)) (leader_of g q)) s) as (F1 & F2 & _).
  split_and!; [done|done|]. intros g'. rewrite F1. destruct (m_queue s !! g') as [q'|] eqn:Hq'.
  - destruct (Z.eqb_spec (leader_of g' q') (leader_of g q)) as [E|E].
    + rewrite decide_True; [done|]. apply elem_of_block. split; [apply elem_of_skeys; by eexists|].
      by exists q'.
    + rewrite decide_False; [done|]. intros (_ & q2 & ? & ?)%elem_of_block. congruence.
  - by case_decide.
Qed.

(** ** Finishing a rolecheck *)
(** The entry a rolecheck makes for a member. *)
Definition rolecheck_entry (rc : PendingRolecheck) g (mask : Z) (q : QueuedPlayer) : Prop :=
  q_guid q = g /\ q_queueLeaderGuid q = rc_leaderGuid rc /\ q_instances q = rc_instances rc /\
  q_roleMask q = mask /\ q_assignedRole q = PickRole mask 0 0 0.

Lemma enqueue_member_fields rc s g :
  m_offers (enqueue_member rc s g) = m_offers s /\
  (forall g', GetPlayer (enqueue_member rc s g) g' = GetPlayer s g') /\
  (forall g', g' <> g -> m_queue (enqueue_member rc s g) !! g' = m_queue s !! g') /\
  match GetPlayer s g, rc_responses rc !! g with
  | Some _, Some mask => exists q, m_queue (enqueue_member rc s g) !! g = Some q /\ rolecheck_entry rc g mask q
  | _, _ => m_queue (enqueue_member rc s g) = m_queue s
  end.
Proof.
  unfold enqueue_member. destruct (GetPlayer s g) as [p|]; [|done].
  destruct (rc_responses rc !! g) as [mask|]; [|done].
  unfold EnqueuePlayer. cbv zeta.
  match goal with |- context [SendQueueJoined g ?q ?s0] =>
    destruct (SendQueueJoined_only g q s0) as (w & -> & [o ->]) end.
  split_and!; [done|done| |].
  - intros g' Hne. simpl. by rewrite lookup_insert_ne.
  - eexists. simpl. split; [apply lookup_insert_eq|]. by split_and!.
Qed.

Lemma enqueue_all_fields rc l : forall s, NoDup l ->
  let s' := foldl (enqueue_member rc) s l in
  m_offers s' = m_offers s /\
  (forall g, g ∉ l -> m_queue s' !! g = m_queue s !! g) /\
  (forall g mask, g ∈ l -> is_Some (GetPlayer s g) -> rc_responses rc !! g = Some mask ->
     exists q, m_queue s' !! g = Some q /\ rolecheck_entry rc g mask q).
Proof.
  induction l as [|k l IH]; intros s Hnd; simpl.
  { split_and!; try done. intros g mask Hin. by apply elem_of_nil in Hin. }
  apply NoDup_cons in Hnd as [Hk Hnd]. destruct (enqueue_member_fields rc s k) as (E1 & E2 & E3 & E4).
  destruct (IH (enqueue_member rc s k) Hnd) as (F1 & F2 & F3). split_and!; [congruence| |].
  - intros g Hg. rewrite F2, E3 by set_solver. done.
  - intros g mask [->|Hin]%elem_of_cons Hon Hr; [|apply F3; [done|by rewrite E2|done]].
    rewrite F2 by done. destruct Hon as [p Hp]. by rewrite Hp, Hr in E4.
Qed.

Lemma finish_rolecheck_spec key s rc :
  m_rolechecks s !! key = Some rc -> NoDup (rc_members rc) ->
  if rolecheck_done rc
  then exists s1, finish_rolecheck key s = TryMakeOffers s1 /\ m_offers s1 = m_offers s /\
    (forall g, g ∉ rc_members rc -> m_queue s1 !! g = m_queue s !! g) /\
    (forall g mask, g ∈ rc_members rc -> is_Some (GetPlayer s g) -> rc_responses rc !! g = Some mask ->
       exists q, m_queue s1 !! g = Some q /\ rolecheck_entry rc g mask q)
  else finish_rolecheck key s = s.
Proof.
  intros Hrc Hnd. unfold finish_rolecheck. rewrite Hrc. case_if; [|done].
  eexists. split; [reflexivity|].
  by destruct (enqueue_all_fields rc (rc_members rc)
    (set_m_rolechecks (delete key (m_rolechecks s)) s) Hnd) as (F1 & F2 & F3).
Qed.

(** ** Publishing a listing *)
Lemma HandleNewGroup_spec g fields s p :
  listings_ok s -> m_listingsLoaded s = true -> m_nextListingId s < U32_MAX ->
  w_players (wld s) !! g = Some p -> (5 <= length fields)%nat ->
  from_option (fun gr => IsLeader gr g) true (GetGroup (wld s) p) = true ->
  let s' := HandleNewGroup g fields s in
  m_listings s' !! m_nextListingId s = Some (new_listing (m_nextListingId s) g p fields) /\
  (forall id l, m_listings s' !! id = Some l -> l_creatorGuid l = g -> id = m_nextListingId s) /\
  (forall id l, m_listings s !! id = Some l -> l_creatorGuid l <> g -> m_listings s' !! id = Some l).
Proof.
  intros Hok Hl Hn Hp Hlen Hlead. unfold HandleNewGroup. rewrite Hp.
  rewrite (proj2 (Nat.ltb_ge _ _) Hlen).
  assert (from_option (fun gr => negb (IsLeader gr g)) false (GetGroup (wld s) p) = false) as ->.
  { destruct (GetGroup (wld s) p); simpl in *; [by rewrite Hlead|done]. }
  cbv zeta. set (s1 := foldl (erase_own g) s _).
  destruct (erase_all_fields g (skeys (m_listings s)) s) as (En & El & F). fold s1 in En, El, F.
  rewrite En. set (l0 := new_listing (m_nextListingId s) g p fields).
  match goal with |- context [SendGroupDetails g l0 (BroadcastGroupsList ?e)] => set (s2 := e) end.
  assert (only_sends s2 (SendGroupDetails g l0 (BroadcastGroupsList s2))) as (w & -> & _).
  { eapply only_sends_trans; [|apply SendGroupDetails_only]. apply Broadcast_only. by rewrite <- Hl, <- El. }
  assert (m_listings (set_wld w s2) = <[m_nextListingId s := l0]> (m_listings s1)) as -> by done.
  split_and!.
  - apply lookup_insert_eq.
  - intros id l. rewrite lookup_insert_Some. intros [[<- _]|[_ Hid]] Hg; [done|].
    by apply (erase_all_owned g s) in Hid as [_ ?].
  - intros id l Hid Hg. rewrite lookup_insert_ne.
    + rewrite F, Hid, decide_False; [done|]. by intros [_ ?].
    + apply (lo_ids _ Hok) in Hid as [_ ?]. lia.
Qed.

(** ** Updating a listing *)
Lemma HandleUpdateGroup_listing g fields s l :
  (5 <= length fields)%nat -> m_listingsLoaded s = true ->
  m_listings s !! listing_id (nth 1 fields "") = Some l -> l_creatorGuid l = g ->
  length (l_signups l) = 3%nat -> signups_unique l ->
  exists l', m_listings (HandleUpdateGroup g fields s) =
      <[listing_id (nth 1 fields "") := l']> (m_listings s) /\
    counts_ok l' /\ signups_unique l' /\ l_creatorGuid l' = g /\ l_id l' = l_id l /\
    (forall su, is_Some (GetPlayer s g) -> su ∈ concat (l_signups l') -> entitled s l' su).
Proof.
  intros Hlen Hld Hl Hg Hsz Hu. unfold HandleUpdateGroup. rewrite (proj2 (Nat.ltb_ge _ _) Hlen), Hl.
  rewrite Hg, Z.eqb_refl. simpl negb. cbv iota zeta.
  set (l1 := set_l_limit _ _). set (l2 := if (6 <=? length fields)%nat then _ else _).
  assert (same_listing l l2 /\ signups_unique l2) as [Hs2 Hu2].
  { unfold l2. case_if; split.
    - eapply same_listing_trans; [|apply confirm_fields_same].
      eapply same_listing_trans; [|apply PruneListingSignups_same]. done.
    - by apply confirm_fields_unique, Prune_unique.
    - split_and!; try done. simpl. by rewrite length_fmap.
    - apply cleared_unique. }
  set (l3 := PruneListingSignups s l2).
  assert (same_listing l l3) as Hs3 by (eapply same_listing_trans; [exact Hs2|apply PruneListingSignups_same]).
  assert (signups_unique l3) as Hu3 by by apply Prune_unique.
  match goal with |- context [SendGroupDetails g _ (BroadcastGroupsList ?e)] => set (s2 := e) end.
  assert (only_sends s2 (SendGroupDetails g (RecountListing l3) (BroadcastGroupsList s2))) as (w & -> & _).
  { eapply only_sends_trans; [|apply SendGroupDetails_only]. by apply Broadcast_only. }
  exists (RecountListing l3). destruct Hs3 as (E1 & E2 & E3). split_and!.
  - done.
  - apply counts_recount. by rewrite E3.
  - exact Hu3.
  - simpl. by rewrite E2.
  - done.
  - intros su Hon Hin. destruct Hs2 as (_ & C2 & _).
    assert (l_creatorGuid l2 = g) as Hc by congruence.
    destruct (Prune_entitled s l2 su) as [_ He]; [by rewrite Hc|exact Hin|].
    destruct He as (n & guid & p & ? & ? & He). exists n, guid, p. simpl.
    fold l3. rewrite E2, Hg. rewrite Hc in He. done.
Qed.

(** ** Logging out *)
Lemma OnPlayerLogout_gone g s : manager_inv s ->
  let s' := OnPlayerLogout g s in
  m_queue s' !! g = None /\ m_playerOffers s' !! g = None /\
  (forall oid o, m_offers s' !! oid = Some o -> o_roles o !! g = None) /\
  find_rolecheck s' g = None /\
  (forall id l, m_listings s' !! id = Some l -> l_creatorGuid l <> g).
Proof.
  intros Hm. unfold OnPlayerLogout. cbv zeta. set (s0 := set_m_signedUpRole _ s).
  assert (lft_inv s0 /\ listings_inv s0) as [Hi0 Hl0].
  { destruct Hm as [[Hok Hsm] Hl]. split; [split; [by apply (offers_ok_ext s)|exact Hsm]|].
    by apply (listings_inv_ext s). }
  destruct (EnsureListingsLoaded_inv s0 Hl0) as [Hok Hl].
  set (s1 := EnsureListingsLoaded s0) in *.
  assert (lft_inv s1) as Hi1 by (eapply only_listings_inv; [apply EnsureListingsLoaded_only|done]).
  destruct (CleanupPlayer_out g s1 Hi1) as (C1 & C2 & C3 & C4).
  set (s2 := CleanupPlayer g s1) in *.
  pose proof (keeps_CleanupPlayer s1 g) as Hk. fold s2 in Hk.
  assert (listings_ok s2) as Hok2 by (destruct Hk; by eapply listings_ok_ext).
  assert (m_listingsLoaded s2 = true) as Hl2 by by rewrite (k_loaded _ _ Hk).
  destruct (erase_listings_of_step g s2 Hok2 Hl2) as (_ & _ & ls & nl & ld & db & w & _ & E).
  assert (m_rolechecks (erase_listings_of g s2) = m_rolechecks s2) as Erc by by rewrite E.
  split_and!.
  - by rewrite E.
  - by rewrite E.
  - by rewrite E.
  - unfold find_rolecheck in *. by rewrite Erc.
  - intros id l Hid. unfold erase_listings_of in Hid.
    set (s3 := foldl (erase_own g) s2 _) in Hid.
    assert (m_listings s3 !! id = Some l) as H3.
    { destruct (erase_all_fields g (skeys (m_listings s2)) s2) as (_ & Ef & _). fold s3 in Ef.
      case_if; [|done]. destruct (Broadcast_only s3) as (w' & Hb & _); [congruence|].
      by rewrite Hb in Hid. }
    by apply (erase_all_owned g s2) in H3 as [_ ?].
Qed.
End handlers.
