(* ===== verification/Demo.v ===== *)
(** Concrete inputs for the witnesses: a server environment, players, and
    runs of the finder that reach a queue, an offer and a party. *)

From S2P Require Import Prelude CString World Party PartyInv PartyRaid LFTTypes LFTQueue LFTOffer LFTListings LFTListingFacts LFTBotFill LFTMgr LFTMgrFacts.

(** ** An environment: names are taken as they are, players are visited by guid *)
Definition demo_normalize (name : string) : option string :=
  if name =s "" then None else Some name.

Lemma demo_normalize_idem name n : demo_normalize name = Some n -> demo_normalize n = Some n.
Proof. unfold demo_normalize. case_if; [done|]. intros [= <-]. by rewrite Heqb. Qed.

Lemma demo_order_elem w guid : guid ∈ skeys (w_players w) <-> is_Some (w_players w !! guid).
Proof. apply elem_of_skeys. Qed.

Lemma demo_role_static p role : same_static p (set_p_forcedRole role p).
Proof. done. Qed.

Definition demo_names : NameEnv := {|
  normalizePlayerName := demo_normalize; normalizePlayerName_idem := demo_normalize_idem |}.
Definition demo_env : LFTEnv := {|
  lft_names := demo_names;
  GetPlayers_order w := skeys (w_players w);
  GetAllSessions_order w := skeys (w_players w);
  Script_SetForcedRole p role := set_p_forcedRole role p;
  cfg_botFillEnable := true; cfg_botFillDelay := 30; cfg_levelBelow := 5; cfg_levelAbove := 5;
  cfg_levelBelowHealer := 5; cfg_seedRuns := 0; cfg_seedDungeons := "";
  cfg_seedTeleport := false; gameTele_names := ["Deadmines"; "Stockade"];
  GetPlayers_order_elem := demo_order_elem;
  SetForcedRole_static := demo_role_static;
  SetForcedRole_group := fun p role => eq_refl |}.

(** ** Players *)
Definition demo_player (name : string) (cls : Z) : Player :=
  mkPlayer name cls 20 ALLIANCE false true true true None 0 None 0 None false (Some "ACCOUNT")
    false 0 false 0 0 false false None false false None.
(** A bot of the AI module. *)
Definition demo_bot (name : string) (cls roles : Z) : Player :=
  mkPlayer name cls 20 ALLIANCE false true true true None 0 None 0 None false (Some "RNDBOT1")
    false 0 true roles 0 false false None false false None.

Definition demo_players : gmap Z Player := list_to_map
  [(1, demo_player "Tank" CLASS_WARRIOR); (2, demo_player "Heal" CLASS_PRIEST);
   (3, demo_player "Mage" CLASS_MAGE); (4, demo_player "Rogue" CLASS_ROGUE);
   (5, demo_player "Lock" CLASS_WARLOCK); (6, demo_player "Late" CLASS_MAGE)].
Definition demo_world (players : gmap Z Player) : World :=
  mkWorld players ∅ 1 1000 1000 ∅ false [].

(** ** A party of three, as a party and as a raid *)
Definition demo_alone : World := snd (CreateNew 1 "Tank" (demo_world demo_players)).
Definition demo_pair : World := snd (AddMember 0 2 "Heal" demo_alone).
Definition demo_party : World := snd (AddMember 0 3 "Mage" demo_pair).
Definition demo_raid : World := ConvertToRaid 0 demo_party.

Definition group_at (w : World) (gp : Z) : Group := default (Group_new false) (w_groups w !! gp).

Lemma demo_party_ok : party_ok demo_alone /\ party_ok demo_pair /\ party_ok demo_party /\ party_ok demo_raid.
Proof.
  assert (party_ok demo_alone) as H1 by (apply CreateNew_spec; apply map_Forall_empty).
  assert (party_ok demo_pair) as H2.
  { apply (AddMember_party 0 2 "Heal" demo_alone (group_at demo_alone 0) H1);
      vm_compute; [reflexivity|reflexivity|discriminate]. }
  assert (party_ok demo_party) as H3.
  { apply (AddMember_party 0 3 "Mage" demo_pair (group_at demo_pair 0) H2);
      vm_compute; [reflexivity|reflexivity|discriminate]. }
  split_and!; [done..|]. by apply ConvertToRaid_party.
Qed.

(** ** A run of the finder: five players queue, get an offer and accept it *)
Definition demo_queue (guid roles : Z) : lft_call := CallQueue guid ["Deadmines"] roles.
Definition demo_empty : LFT := LFT_init ∅ (demo_world demo_players).

Section runs.
#[local] Existing Instance demo_env.

Definition demo_run (calls : list lft_call) (s : LFT) : LFT :=
  foldl (fun s c => run_call c s) s calls.
(** Tank, healer and two damage dealers wait; then a fifth joins and the offer
    is made; then four of the five accept. *)
Definition demo_waiting : LFT :=
  demo_run [demo_queue 1 7; demo_queue 2 2; demo_queue 3 4; demo_queue 4 4] demo_empty.
Definition demo_offered : LFT :=
  demo_run [demo_queue 1 7; demo_queue 2 2; demo_queue 3 4; demo_queue 4 4; demo_queue 5 4] demo_empty.
Definition demo_accepting : LFT :=
  demo_run [demo_queue 1 7; demo_queue 2 2; demo_queue 3 4; demo_queue 4 4; demo_queue 5 4;
            CallAccept 1; CallAccept 2; CallAccept 3; CallAccept 4] demo_empty.

#[local] Instance spare_dec s : Decision (spare s).
Proof. unfold spare. apply _. Defined.

(** The counters have room at every step of a run. *)
Fixpoint demo_ok (calls : list lft_call) (s : LFT) : bool :=
  match calls with
  | [] => true
  | c :: calls' =>
      match c with CallWorld _ => false | _ => bool_decide (spare s) end &&
      demo_ok calls' (run_call c s)
  end.

Lemma demo_reachable calls : forall s, demo_ok calls s = true -> rtc lft_step s (demo_run calls s).
Proof.
  induction calls as [|c calls IH]; intros s; simpl; [intros _; apply rtc_refl|].
  intros [Hc Hr]%andb_true_iff. eapply rtc_l; [|by apply IH]. constructor.
  destruct c; try done; by apply bool_decide_eq_true in Hc.
Qed.

Lemma demo_inv calls : demo_ok calls demo_empty = true -> manager_inv (demo_run calls demo_empty).
Proof.
  intros Hok. apply (reachable_inv ∅ (demo_world demo_players)).
  - split; [apply map_Forall_empty|]. intros ????. by rewrite lookup_empty.
  - apply map_Forall_empty.
  - by apply (demo_reachable calls demo_empty).
Qed.

(** Five players in the queue before the matcher has looked. *)
Definition demo_five : LFT :=
  EnqueuePlayer 5 5 (demo_player "Lock" CLASS_WARLOCK) ["Deadmines"] 4 demo_waiting.

(** A rolecheck of two players with both answers in. *)
Definition demo_rolecheck : LFT :=
  set_m_rolechecks {[1 := mkRolecheck 1 [1; 2] ["Deadmines"] {[1 := 1; 2 := 2]} 1000]} demo_empty.

(** One player waits, and there are bots. *)
Definition demo_bots : gmap Z Player := list_to_map
  [(1, demo_player "Tank" CLASS_WARRIOR); (7, demo_bot "Healbot" CLASS_PRIEST LFT_ROLE_HEALER);
   (8, demo_bot "Magebot" CLASS_MAGE LFT_ROLE_DAMAGE)].
Definition demo_short : LFT :=
  demo_run [demo_queue 1 7] (LFT_init ∅ (demo_world demo_bots)).

(** The same, but the healer bot is a hardcore character. *)
Definition demo_hc_bot : Player :=
  mkPlayer "Healbot" CLASS_PRIEST 20 ALLIANCE true true true true None 0 None 0 None false
    (Some "RNDBOT1") false 0 true LFT_ROLE_HEALER 0 false false None false false None.
Definition demo_hc_short : LFT :=
  demo_run [demo_queue 1 7]
    (LFT_init ∅ (demo_world (list_to_map [(1, demo_player "Tank" CLASS_WARRIOR); (7, demo_hc_bot)]))).
End runs.

Lemma pair_eta {A B} (x : A * B) a : fst x = a -> x = (a, snd x).
Proof. destruct x. simpl. by intros ->. Qed.
