(* ===== verification/LFTTheorems.v ===== *)
(** The properties of the dungeon finder's queue and offers. *)

From S2P Require Import Prelude CString World Party PartyInv LFTTypes LFTQueue LFTOffer LFTQueueFacts LFTInv LFTOfferFacts LFTListings LFTListingFacts LFTBotFill LFTBotFillFacts LFTBotFillSafety LFTMgr LFTMgrFacts Demo.

Section theorems.
Context {env : LFTEnv} {gsv : GroupService}.
Implicit Types (s : LFT) (g oid : Z).


(** A new offer for an instance is a party of five with one tank, one
    healer and three damage dealers; each of them is in the queue, asked for
    this instance, allows the role he gets, was in no other offer and can
    group with one and the same queued player; and players who queued together
    are all in it or all left out. *)
Lemma match_makes_sound_offer instance s s' :
  TryBuildOfferForInstance instance s = (true, s') ->
  exists o, m_offers s' = <[m_nextOfferId s := o]> (m_offers s) /\
    o_id o = m_nextOfferId s /\ o_instance o = instance /\ o_accepted o = ∅ /\
    o_timer o = LFT_OFFER_TIMEOUT /\ party_composition (o_roles o) /\ blocks_whole s (o_roles o) /\
    exists seedGuid seed, m_queue s !! seedGuid = Some seed /\
      map_Forall (selectable s instance seed) (o_roles o).
Proof.
  unfold TryBuildOfferForInstance. cbv zeta.
  destruct (find_party s instance _ _) as [roles|] eqn:E; [|done]. intros [= <-].
  apply find_party_sound in E as (Hc & Hb & sg & seed & Hq & _ & _ & Hs).
  exists (mkOffer (m_nextOfferId s) instance roles ∅ LFT_OFFER_TIMEOUT).
  split; [|split_and!; [reflexivity..|exact Hc|exact Hb|by eauto]].
  rewrite (foldl_keep m_offers); [reflexivity|]. intros s1 g.
  unfold promise_one. cbv zeta. by autorewrite with lft.
Qed.

(** Accepting.  While players are missing, accepting only adds the player
    to the offer's acceptances; with the last acceptance the offer is gone and
    none of its players is left in the queue or promised to an offer, whether
    the party could be formed or not. *)
Lemma accept_records_then_completes g s oid offer :
  lft_inv s -> is_Some (w_players (wld s) !! g) -> m_playerOffers s !! g = Some oid ->
  m_offers s !! oid = Some offer ->
  let accepted := {[g]} ∪ o_accepted offer in
  let s' := HandleOfferAccept g s in
  if (size accepted =? size (o_roles offer))%nat
  then m_offers s' = delete oid (m_offers s) /\
      forall g', is_Some (o_roles offer !! g') ->
         m_queue s' !! g' = None /\ m_playerOffers s' !! g' = None
  else m_offers s' = <[oid := set_o_accepted accepted offer]> (m_offers s) /\
      m_queue s' = m_queue s /\ m_playerOffers s' = m_playerOffers s.
Proof. apply HandleOfferAccept_spec. Qed.

(** Completing an offer successfully leaves all its players in one and the
    same group object; either way the offer is gone, its players are out of
    the queue and promised to nothing, everybody else stays where he was, and
    no group outgrows a raid. *)
Lemma complete_offer_forms_one_group oid s offer ok s' :
  m_offers s !! oid = Some offer -> CompleteOffer oid s = (ok, s') ->
  (ok = true -> o_roles offer <> ∅ ->
     exists gp, forall g, is_Some (o_roles offer !! g) -> member_of (wld s') gp g) /\
  m_offers s' = delete oid (m_offers s) /\
  (forall g, m_playerOffers s' !! g =
     if decide (is_Some (o_roles offer !! g)) then None else m_playerOffers s !! g) /\
  (forall g, m_queue s' !! g =
     if decide (is_Some (o_roles offer !! g)) then None else m_queue s !! g) /\
  (groups_small (wld s) -> groups_small (wld s')).
Proof. intros Ho E. destruct (CompleteOffer_spec oid s offer ok s' Ho E). by destruct_and!. Qed.

(** C6: From accepting to a group.  Accepting an offer only records the
    acceptance while players are missing; with the last acceptance the offer is
    gone and none of its players is left queued or promised.  Completing it
    successfully puts all its players into one group; everybody else keeps his
    place, and no group outgrows a raid. *)
Theorem accepted_offer_becomes_a_group :
  (forall g s oid offer,
  lft_inv s -> is_Some (w_players (wld s) !! g) -> m_playerOffers s !! g = Some oid ->
  m_offers s !! oid = Some offer ->
  let accepted := {[g]} ∪ o_accepted offer in
  let s' := HandleOfferAccept g s in
  if (size accepted =? size (o_roles offer))%nat
  then m_offers s' = delete oid (m_offers s) /\
      forall g', is_Some (o_roles offer !! g') ->
         m_queue s' !! g' = None /\ m_playerOffers s' !! g' = None
  else m_offers s' = <[oid := set_o_accepted accepted offer]> (m_offers s) /\
      m_queue s' = m_queue s /\ m_playerOffers s' = m_playerOffers s) /\
  (forall oid s offer ok s',
  m_offers s !! oid = Some offer -> CompleteOffer oid s = (ok, s') ->
  (ok = true -> o_roles offer <> ∅ ->
     exists gp, forall g, is_Some (o_roles offer !! g) -> member_of (wld s') gp g) /\
  m_offers s' = delete oid (m_offers s) /\
  (forall g, m_playerOffers s' !! g =
     if decide (is_Some (o_roles offer !! g)) then None else m_playerOffers s !! g) /\
  (forall g, m_queue s' !! g =
     if decide (is_Some (o_roles offer !! g)) then None else m_queue s !! g) /\
  (groups_small (wld s) -> groups_small (wld s'))).
Proof. split; [exact accept_records_then_completes|exact complete_offer_forms_one_group]. Qed.

(** A player who leaves while an offer is pending breaks the offer up: he
    is out of the queue, the other players of the offer keep their places
    there with the role picked anew from their masks, and nobody else's entry
    changes. *)
Lemma broken_offer_requeues_the_others s oid offer g :
  m_offers s !! oid = Some offer ->
  let s' := CancelOffer oid true g true s in
  m_offers s' = delete oid (m_offers s) /\ m_queue s' !! g =
    (if decide (is_Some (o_roles offer !! g)) then None else m_queue s !! g) /\
  forall g', g' <> g -> m_queue s' !! g' =
    if decide (is_Some (o_roles offer !! g'))
    then (fun q => set_q_assignedRole (PickRole (q_roleMask q) 0 0 0) q) <$> m_queue s !! g'
    else m_queue s !! g'.
Proof.
  intros Ho. destruct (CancelOffer_fields s oid offer true g true Ho) as (H1 & _ & _ & _ & _ & H6).
  split_and!; [done| |].
  - rewrite H6. case_decide; [|done]. unfold requeued. simpl. by rewrite Z.eqb_refl.
  - intros g' Hne. rewrite H6. case_decide; [|done]. unfold requeued. simpl.
    by rewrite (proj2 (Z.eqb_neq g' g)).
Qed.




(** C15: When every member has answered a rolecheck, each of them who is online
    is queued under the leader with his answer as role mask, and the rolecheck
    is gone before the matching runs; while an answer is missing nothing
    happens. *)
Theorem finished_rolecheck_queues_members key s rc :
  m_rolechecks s !! key = Some rc -> NoDup (rc_members rc) ->
  if rolecheck_done rc
  then exists s1, finish_rolecheck key s = TryMakeOffers s1 /\ m_offers s1 = m_offers s /\
   (forall g, g ∉ rc_members rc -> m_queue s1 !! g = m_queue s !! g) /\
   (forall g mask, g ∈ rc_members rc -> is_Some (GetPlayer s g) -> rc_responses rc !! g = Some mask ->
       exists q, m_queue s1 !! g = Some q /\ rolecheck_entry rc g mask q)
  else finish_rolecheck key s = s.
Proof. apply finish_rolecheck_spec. Qed.

(** The queue is served first come, first served: the matching order holds
    every queued player once, sorted by the number drawn on joining. *)
Lemma queue_is_first_come_first_served s :
  (forall g, g ∈ GetQueueOrder s <-> is_Some (m_queue s !! g)) /\ NoDup (GetQueueOrder s) /\
  StronglySorted (fun a b => forall qa qb, m_queue s !! a = Some qa -> m_queue s !! b = Some qb ->
    q_queueOrder qa < q_queueOrder qb \/ (q_queueOrder qa = q_queueOrder qb /\ a <= b))
    (GetQueueOrder s).
Proof.
  split_and!; [apply elem_of_GetQueueOrder|apply NoDup_GetQueueOrder|].
  eapply StronglySorted_weaken; [|apply GetQueueOrder_sorted]. intros a b Hab qa qb Ha Hb.
  unfold rank_le, rank_of in Hab. by rewrite Ha, Hb in Hab.
Qed.

(** C5: Matching.  A new offer for an instance is one tank, one healer and
    three damage dealers, each queued for the instance, allowed in his role, in
    no other offer and groupable with one queued player, and players queued
    together are all in or all out; and the order the queue is matched in holds
    every queued player once, first come, first served. *)
Theorem matching_is_sound_and_in_order :
  (forall instance s s',
  TryBuildOfferForInstance instance s = (true, s') ->
  exists o, m_offers s' = <[m_nextOfferId s := o]> (m_offers s) /\
    o_id o = m_nextOfferId s /\ o_instance o = instance /\ o_accepted o = ∅ /\
    o_timer o = LFT_OFFER_TIMEOUT /\ party_composition (o_roles o) /\ blocks_whole s (o_roles o) /\
    exists seedGuid seed, m_queue s !! seedGuid = Some seed /\
      map_Forall (selectable s instance seed) (o_roles o)) /\
  (forall s,
  (forall g, g ∈ GetQueueOrder s <-> is_Some (m_queue s !! g)) /\ NoDup (GetQueueOrder s) /\
  StronglySorted (fun a b => forall qa qb, m_queue s !! a = Some qa -> m_queue s !! b = Some qb ->
    q_queueOrder qa < q_queueOrder qb \/ (q_queueOrder qa = q_queueOrder qb /\ a <= b))
    (GetQueueOrder s)).
Proof. split; [exact match_makes_sound_offer|exact queue_is_first_come_first_served]. Qed.

(** One pass of the update over the offers removes exactly those whose
    time is up and takes the elapsed time off the others. *)
Lemma offers_time_out diff s oid :
  m_offers (foldl (tick_offer diff) s (skeys (m_offers s))) !! oid =
  match m_offers s !! oid with
  | None => None
  | Some o => if o_timer o <=? diff then None else Some (set_o_timer (u32 (o_timer o - diff)) o)
  end.
Proof.
  rewrite tick_offers_spec by apply NoDup_skeys.
  destruct (m_offers s !! oid) eqn:E; [|done]. rewrite bool_decide_eq_true_2; [done|].
  apply elem_of_skeys. by eexists.
Qed.

(** C9: How offers end without a group.  A player who leaves a pending offer
    breaks it up: he is out of the queue, the others keep their places with a
    freshly picked role, nobody else changes; and a pass of the update removes
    exactly the offers whose time is up and takes the elapsed time off the others. *)
Theorem offers_end_without_a_group :
  (forall s oid offer g,
  m_offers s !! oid = Some offer ->
  let s' := CancelOffer oid true g true s in
  m_offers s' = delete oid (m_offers s) /\ m_queue s' !! g =
    (if decide (is_Some (o_roles offer !! g)) then None else m_queue s !! g) /\
  forall g', g' <> g -> m_queue s' !! g' =
    if decide (is_Some (o_roles offer !! g'))
    then (fun q => set_q_assignedRole (PickRole (q_roleMask q) 0 0 0) q) <$> m_queue s !! g'
    else m_queue s !! g') /\
  (forall diff s oid,
  m_offers (foldl (tick_offer diff) s (skeys (m_offers s))) !! oid =
  match m_offers s !! oid with
  | None => None
  | Some o => if o_timer o <=? diff then None else Some (set_o_timer (u32 (o_timer o - diff)) o)
  end).
Proof. split; [exact broken_offer_requeues_the_others|exact offers_time_out]. Qed.

(** Filling an instance with bots always ends: the [while (inQueue < 5)]
    loop runs at most seven times, so the bound of the model is never hit. *)
Lemma filling_terminates instance waiter s :
  exists s', FillInstanceWithBots instance waiter s = Some s'.
Proof. destruct (FillInstance_total instance waiter s) as (s' & E & _). by exists s'. Qed.

(** Filling only adds.  Every entry that was queued stays as it is, every
    new one is a random AI bot of the waiter's team, within the configured
    level range, whose class allows the one role it is queued for, alone and
    for this instance only, and it is remembered as a fill bot; no more are
    added than the instance is short of five; and nobody's name, class, team or
    level changes. *)
Lemma filling_adds_only_fitting_bots instance waiter s s' :
  FillInstanceWithBots instance waiter s = Some s' ->
  filled s s' instance waiter (Z.max 0 (5 - (covered s instance waiter).2)).
Proof. apply FillInstance_filled. Qed.

(** C16: Filling an instance with bots always ends, at the latest after seven
    rounds of the loop, and only adds: every entry that was queued stays, every
    new one is a fitting random AI bot remembered as such, and no more are added
    than the instance is short of five. *)
Theorem filling_ends_with_fitting_bots instance waiter s :
  exists s', FillInstanceWithBots instance waiter s = Some s' /\
    filled s s' instance waiter (Z.max 0 (5 - (covered s instance waiter).2)).
Proof.
  destruct (filling_terminates instance waiter s) as [s' E]. exists s'. split; [exact E|]. by apply filling_adds_only_fitting_bots.
Qed.

(** The cleanup of fill bots removes from the queue and from the set of
    fill bots exactly those fill bots that are in no offer and that no real
    player waits for in any of their instances. *)
Theorem cleanup_keeps_wanted_bots s :
  let wanted g := is_Some (m_playerOffers s !! g) \/
    exists q i, m_queue s !! g = Some q /\ i ∈ q_instances q /\ exists g', real_waiter s i g' in
  let s' := DropUnneededFillBots s in
  (forall g, g ∈ m_fillBots s' <-> g ∈ m_fillBots s /\ wanted g) /\
  (forall g, g ∉ m_fillBots s -> m_queue s' !! g = m_queue s !! g) /\
  (forall g, g ∈ m_fillBots s -> wanted g -> m_queue s' !! g = m_queue s !! g) /\
  (forall g, g ∈ m_fillBots s -> ~ wanted g -> m_queue s' !! g = None).
Proof.
  intros wanted s'. destruct (Drop_fields s) as (_ & Hq & Hb). fold s' in Hq, Hb.
  assert (forall g, fill_ok s g = true <-> wanted g) as Hw by apply fill_ok_spec.
  split_and!; intros g.
  - by rewrite Hb, Hw.
  - intros Hg. rewrite Hq. by rewrite bool_decide_eq_false_2.
  - intros Hg Hwg%Hw. rewrite Hq, Hwg. by rewrite andb_false_r.
  - intros Hg Hwg. rewrite Hq, bool_decide_eq_true_2 by done.
    destruct (fill_ok s g) eqn:E; [|done]. by apply Hw in E.
Qed.
End theorems.

(** ** The properties at concrete inputs *)
#[local] Existing Instance demo_env.


(** Bot fill does not look at the hardcore mode: a hardcore bot is queued
    for a player who is not, although the matcher will never put the two into
    one party. *)
Theorem filling_ignores_hardcore : exists q s' bot,
  m_queue demo_hc_short !! 1 = Some q /\ q_isHardcore q = false /\
  FillInstanceWithBots "Deadmines" q demo_hc_short = Some s' /\
  m_queue s' !! 7 = Some bot /\ q_isHardcore bot = true /\ CanQueuedPlayersGroup s' q bot = false.
Proof.
  exists (map_at QueuedPlayer_zero (m_queue demo_hc_short) 1).
  set (s1 := default demo_hc_short (FillInstanceWithBots "Deadmines"
    (map_at QueuedPlayer_zero (m_queue demo_hc_short) 1) demo_hc_short)).
  exists s1, (map_at QueuedPlayer_zero (m_queue s1) 7). split_and!; vm_compute; reflexivity.
Qed.

Lemma matching_is_sound_and_in_order_witness : exists o,
  m_offers (snd (TryBuildOfferForInstance "Deadmines" demo_five)) = <[1 := o]> (m_offers demo_five) /\
  party_composition (o_roles o).
Proof.
  destruct ((proj1 matching_is_sound_and_in_order) "Deadmines" demo_five
    (snd (TryBuildOfferForInstance "Deadmines" demo_five))) as (o & H1 & _ & _ & _ & _ & H2 & _).
  - apply pair_eta. vm_compute. reflexivity.
  - exists o. split; [|exact H2]. rewrite H1. f_equal.
Defined.

(** The fifth acceptance: the offer is over. *)

Lemma accepted_offer_becomes_a_group_witness :
  (exists o,
  m_offers demo_accepting !! 1 = Some o /\ size (o_accepted o) = 4%nat /\
  m_offers (HandleOfferAccept 5 demo_accepting) = delete 1 (m_offers demo_accepting) /\
  m_queue (HandleOfferAccept 5 demo_accepting) !! 3 = None) /\
  (exists o gp,
  m_offers demo_accepting !! 1 = Some o /\
  forall g, is_Some (o_roles o !! g) -> member_of (wld (snd (CompleteOffer 1 demo_accepting))) gp g).
Proof.
  split.
  { destruct (m_offers demo_accepting !! 1) as [o|] eqn:E; [|vm_compute in E; discriminate].
    exists o. split; [reflexivity|]. split; [vm_compute in E; injection E as <-; reflexivity|].
    pose proof ((proj1 accepted_offer_becomes_a_group) 5 demo_accepting 1 o) as H.
    assert ((size ({[5%Z]} ∪ o_accepted o) =? size (o_roles o))%nat = true) as Es.
    { vm_compute in E. injection E as <-. vm_compute. reflexivity. }
    cbv zeta in H. rewrite Es in H. destruct H as [H1 H2].
    - apply demo_inv. vm_compute. reflexivity.
    - eexists. vm_compute. reflexivity.
    - vm_compute. reflexivity.
    - exact E.
    - split; [exact H1|]. apply H2. vm_compute in E. injection E as <-. eexists. vm_compute. reflexivity. }
  { destruct (m_offers demo_accepting !! 1) as [o|] eqn:E; [|vm_compute in E; discriminate].
    destruct ((proj2 accepted_offer_becomes_a_group) 1 demo_accepting o true (snd (CompleteOffer 1 demo_accepting)))
      as [H _]; [exact E|apply pair_eta; vm_compute; reflexivity|].
    destruct H as [gp H]; [reflexivity| |exists o, gp; split; [reflexivity|exact H]].
    vm_compute in E. injection E as <-. vm_compute. discriminate. }
Defined.

Lemma offers_end_without_a_group_witness : exists o,
  m_offers demo_offered !! 1 = Some o /\ is_Some (o_roles o !! 3) /\ is_Some (o_roles o !! 4) /\
  m_queue (CancelOffer 1 true 3 true demo_offered) !! 3 = None /\
  m_queue (CancelOffer 1 true 3 true demo_offered) !! 4 =
    (fun q => set_q_assignedRole (PickRole (q_roleMask q) 0 0 0) q) <$> m_queue demo_offered !! 4.
Proof.
  destruct (m_offers demo_offered !! 1) as [o|] eqn:E; [|vm_compute in E; discriminate].
  destruct ((proj1 offers_end_without_a_group) demo_offered 1 o 3 E) as (_ & H2 & H3).
  assert (is_Some (o_roles o !! 3) /\ is_Some (o_roles o !! 4)) as [R3 R4].
  { vm_compute in E. injection E as <-. split; eexists; vm_compute; reflexivity. }
  exists o. split_and!; [reflexivity|exact R3|exact R4| |].
  - rewrite H2. by rewrite decide_True.
  - rewrite H3 by discriminate. by rewrite decide_True.
Defined.


(** Both members have answered: they are queued. *)
Lemma finished_rolecheck_queues_members_witness : exists s1 q,
  finish_rolecheck 1 demo_rolecheck = TryMakeOffers s1 /\ m_queue s1 !! 2 = Some q /\ q_roleMask q = 2.
Proof.
  destruct (m_rolechecks demo_rolecheck !! 1) as [rc|] eqn:E; [|vm_compute in E; discriminate].
  pose proof (finished_rolecheck_queues_members 1 demo_rolecheck rc E) as H.
  vm_compute in E. injection E as <-.
  destruct H as (s1 & H1 & _ & _ & H4).
  - apply NoDup_cons. split; [intros ?%list_elem_of_singleton; discriminate|apply NoDup_singleton].
  - destruct (H4 2 2) as (q & Hq & (_ & _ & _ & Hm & _)).
    + right. left.
    + eexists. vm_compute. reflexivity.
    + vm_compute. reflexivity.
    + exists s1, q. split_and!; [exact H1|exact Hq|exact Hm].
Defined.
