(* ===== verification/LFTListingTheorems.v ===== *)
(** The properties of the user listings. *)

From S2P Require Import Prelude CString World Party PartyInv LFTTypes LFTQueue LFTListings LFTListingInv LFTListingFacts LFTMgr LFTMgrFacts Demo.




Section theorems.
Context {env : LFTEnv}.
Implicit Types (s : LFT) (g : Z).





(** Publishing.  A player who may lead gets a listing under the next id
    with the data of the request and no signups; every older listing of his is
    gone and everybody else's stays as it is. *)
Lemma publishing_replaces_own_listing g fields s p :
  listings_ok s -> m_listingsLoaded s = true -> m_nextListingId s < U32_MAX ->
  w_players (wld s) !! g = Some p -> (5 <= length fields)%nat ->
  from_option (fun gr => IsLeader gr g) true (GetGroup (wld s) p) = true ->
  let s' := HandleNewGroup g fields s in
  m_listings s' !! m_nextListingId s = Some (new_listing (m_nextListingId s) g p fields) /\
  (forall id l, m_listings s' !! id = Some l -> l_creatorGuid l = g -> id = m_nextListingId s) /\
  (forall id l, m_listings s !! id = Some l -> l_creatorGuid l <> g -> m_listings s' !! id = Some l).
Proof. apply HandleNewGroup_spec. Qed.


(** Signing up for a role puts the player under that role, confirmed, and
    leaves no other entry of his name anywhere in the listing. *)
Lemma signing_up_lists_once l p r :
  1 <= r <= 3 -> length (l_signups l) = 3%nat -> is_Some (normalizePlayerName (p_name p)) ->
  exists su, su_name su = p_name p /\ su_confirmed su = true /\
    su ∈ nth (Z.to_nat (r - 1)) (l_signups (SetListingSignupRole l p r)) [] /\
    forall n, same_name n su = true -> name_count n (SetListingSignupRole l p r) = 1%nat.
Proof. apply SetListingSignupRole_listed. Qed.

(** C22: Publishing and signing up.  A player who may lead gets one listing,
    under the next id, in place of his older one; signing up for a role lists
    the player under that role, confirmed, and nowhere else. *)
Theorem listings_are_published_and_joined :
  (forall g fields s p,
  listings_ok s -> m_listingsLoaded s = true -> m_nextListingId s < U32_MAX ->
  w_players (wld s) !! g = Some p -> (5 <= length fields)%nat ->
  from_option (fun gr => IsLeader gr g) true (GetGroup (wld s) p) = true ->
  let s' := HandleNewGroup g fields s in
  m_listings s' !! m_nextListingId s = Some (new_listing (m_nextListingId s) g p fields) /\
  (forall id l, m_listings s' !! id = Some l -> l_creatorGuid l = g -> id = m_nextListingId s) /\
  (forall id l, m_listings s !! id = Some l -> l_creatorGuid l <> g -> m_listings s' !! id = Some l)) /\
  (forall l p r,
  1 <= r <= 3 -> length (l_signups l) = 3%nat -> is_Some (normalizePlayerName (p_name p)) ->
  exists su, su_name su = p_name p /\ su_confirmed su = true /\
    su ∈ nth (Z.to_nat (r - 1)) (l_signups (SetListingSignupRole l p r)) [] /\
    forall n, same_name n su = true -> name_count n (SetListingSignupRole l p r) = 1%nat).
Proof. split; [exact publishing_replaces_own_listing|exact signing_up_lists_once]. Qed.
End theorems.

(** ** The properties at concrete inputs *)
#[local] Existing Instance demo_env.

Definition demo_listing : Listing :=
  {| l_id := 1; l_creatorGuid := 1; l_creator := "Tank"; l_className := "WARRIOR"; l_level := 20;
     l_team := ALLIANCE; l_isHardcore := false; l_title := "Mines; fast|run"; l_description := "all welcome";
     l_category := 1; l_limit := [1; 1; 3]; l_numConfirmed := [1; 0; 0];
     l_signups := [[mkSignup "Tank" "WARRIOR" 20 true]; []; []] |}.


Definition demo_loaded : LFT := set_m_listingsLoaded true demo_empty.
Lemma demo_loaded_ok : listings_ok demo_loaded.
Proof.
  split; simpl; [unfold U32_MAX; lia|apply map_Forall_empty|apply map_Forall_empty| |done].
  intros ????. by rewrite lookup_empty.
Qed.
Definition demo_new : list string := ["C2S_NEW_GROUP"; "Mines"; "all welcome"; "1"; "1:1:3"].



Lemma listings_are_published_and_joined_witness :
  (exists p,
  w_players (wld demo_loaded) !! 1 = Some p /\
  m_listings (HandleNewGroup 1 demo_new demo_loaded) !! 1 = Some (new_listing 1 1 p demo_new)) /\
  (exists su,
  su_name su = "Mage" /\
  su ∈ nth 2 (l_signups (SetListingSignupRole demo_listing (demo_player "Mage" CLASS_MAGE) 3)) []).
Proof.
  split.
  { destruct (w_players (wld demo_loaded) !! 1) as [p|] eqn:E; [|vm_compute in E; discriminate].
    exists p. split; [reflexivity|].
    destruct ((proj1 listings_are_published_and_joined) 1 demo_new demo_loaded p) as [H _]; [..|exact H].
    - exact demo_loaded_ok.
    - reflexivity.
    - vm_compute. reflexivity.
    - exact E.
    - simpl. lia.
    - vm_compute in E. injection E as <-. vm_compute. reflexivity. }
  { destruct ((proj2 listings_are_published_and_joined) demo_listing (demo_player "Mage" CLASS_MAGE) 3)
      as (su & H1 & _ & H2 & _); [lia|reflexivity|eexists; reflexivity|].
    exists su. split; [exact H1|exact H2]. }
Defined.
