(* ===== verification/GuildBankTypes.v ===== *)
(** Data and state of the guild bank (src/game/GuildBank/GuildBank.h): bank
    items, logs and tabs in memory, their database rows, and what the bank
    takes from the player who uses it. *)

From S2P Require Import Prelude CString.

(** [GuildBankAction], the costs and the limits. *)
Definition ACTION_WITHDRAW_ITEM := 0.
Definition ACTION_DEPOSIT_ITEM := 1.
Definition ACTION_UNLOCK_GUILD_BANK := 2.
Definition ACTION_UNLOCK_TAB_PERSONAL_MONEY := 3.
Definition ACTION_WITHDRAW_MONEY := 4.
Definition ACTION_DEPOSIT_MONEY := 5.
Definition ACTION_UNLOCK_TAB_GUILD_MONEY := 6.
Definition ACTION_DESTROY_ITEM := 7.
Definition ACTION_SPLIT_ITEM := 8.
Definition ACTION_MOVE_ITEM := 9.

Definition GOLD := 10000.
Definition GUILD_BANK_COST := 2000 * GOLD.
Definition TAB_2_COST := 500 * GOLD.
Definition TAB_3_COST := 1000 * GOLD.
Definition TAB_4_COST := 1500 * GOLD.
Definition TAB_5_COST := 2000 * GOLD.

Definition TAB_MONEY := 0.
Definition MAX_TABS := 5.
Definition MAX_WEEKLY_WITHDRAWALS := 5.
Definition BANK_TAB_SIZE := 98.
Definition DESTROY_ITEM_ALLOWED := false.
Definition LOG_LINES_LIMIT := 50.
Definition ADDON_MAX_PACKET_SIZE := 2096.
Definition MAX_MONEY_AMOUNT := 2147483646.

(** The positions a player's items have. *)
Definition INVENTORY_SLOT_BAG_0 := 255.
Definition INVENTORY_SLOT_BAG_START := 19.
Definition INVENTORY_SLOT_BAG_END := 23.
Definition INVENTORY_SLOT_ITEM_START := 23.
Definition BANK_SLOT_BAG_START := 63.
Definition BANK_SLOT_BAG_END := 69.
Definition NULL_BAG := 0.
Definition NULL_SLOT := 255.
Definition EQUIP_ERR_OK := 0.
Definition EQUIP_ERR_INVENTORY_FULL := 50.
Definition MAX_ITEM_PROTO_SPELLS := 5%nat.
Definition MAX_ENCHANTMENT_SLOT := 7%nat.

Inductive ItemUpdateState := ITEM_UNCHANGED | ITEM_CHANGED | ITEM_NEW | ITEM_REMOVED | ITEM_STASHED.
#[export] Instance ItemUpdateState_eq_dec : EqDecision ItemUpdateState.
Proof. solve_decision. Defined.

(** ** Items of a player *)
Record ItemPrototype := mkProto {
  ip_Name1 : string;
  ip_Quality : Z;
  ip_Stackable : Z;
  ip_Duration : Z;
  ip_conjured : bool;
  ip_Bonding : Z
}.

(** [Item]: the update fields the bank copies. *)
Record Item := mkItem {
  it_entry : Z;
  it_count : Z;
  it_creator : Z;
  it_giftCreator : Z;
  it_duration : Z;
  it_charges : list Z;
  it_flags : Z;
  it_enchants : list (Z * Z * Z);
  it_randomPropertyId : Z;
  it_transmog : Z;
  it_durability : Z;
  it_text : Z;
  it_generatedLoot : bool
}.
#[export] Instance Item_eq_dec : EqDecision Item.
Proof. solve_decision. Defined.

(** Field updates of [Item]. *)
Definition set_it_count x (r : Item) : Item :=
  {| it_entry := it_entry r; it_count := x; it_creator := it_creator r;
     it_giftCreator := it_giftCreator r; it_duration := it_duration r; it_charges := it_charges r;
     it_flags := it_flags r; it_enchants := it_enchants r;
     it_randomPropertyId := it_randomPropertyId r; it_transmog := it_transmog r;
     it_durability := it_durability r; it_text := it_text r;
     it_generatedLoot := it_generatedLoot r |}.
Definition set_it_flags x (r : Item) : Item :=
  {| it_entry := it_entry r; it_count := it_count r; it_creator := it_creator r;
     it_giftCreator := it_giftCreator r; it_duration := it_duration r; it_charges := it_charges r;
     it_flags := x; it_enchants := it_enchants r; it_randomPropertyId := it_randomPropertyId r;
     it_transmog := it_transmog r; it_durability := it_durability r; it_text := it_text r;
     it_generatedLoot := it_generatedLoot r |}.

(** A creature with the flags and the gossip menu that matter here. *)
Record Banker := mkBanker { cr_entry : Z; cr_npcflags : Z; cr_menu : Z }.

Record BankPlayer := mkBankPlayer {
  bp_guid : Z;
  bp_name : string;
  bp_rank : Z;
  bp_money : Z;
  bp_bags : gmap (Z * Z) Item;
  bp_target : option Banker;
  bp_near : gset Z;
  bp_horde : bool
}.

(** Field updates of [BankPlayer]. *)
Definition set_bp_money x (r : BankPlayer) : BankPlayer :=
  {| bp_guid := bp_guid r; bp_name := bp_name r; bp_rank := bp_rank r; bp_money := x;
     bp_bags := bp_bags r; bp_target := bp_target r; bp_near := bp_near r; bp_horde := bp_horde r |}.
Definition set_bp_bags x (r : BankPlayer) : BankPlayer :=
  {| bp_guid := bp_guid r; bp_name := bp_name r; bp_rank := bp_rank r; bp_money := bp_money r;
     bp_bags := x; bp_target := bp_target r; bp_near := bp_near r; bp_horde := bp_horde r |}.

(** ** Bank items, tabs and logs *)
Record BankItem := mkBankItem {
  bi_guildid : Z;
  bi_guid : Z;
  bi_Name : string;
  bi_tab : Z;
  bi_slot : Z;
  bi_item_template : Z;
  bi_creatorGuid : Z;
  bi_giftCreatorGuid : Z;
  bi_count : Z;
  bi_maxStackSize : Z;
  bi_duration : Z;
  bi_charges : string;
  bi_flags : Z;
  bi_enchantments : string;
  bi_enchant : Z;
  bi_randomPropertyId : Z;
  bi_transmogrifyId : Z;
  bi_durability : Z;
  bi_text : Z;
  bi_generated_loot : Z;
  bi_is_inferno : bool;
  bi_quality : Z;
  bi_state : ItemUpdateState
}.
#[export] Instance BankItem_eq_dec : EqDecision BankItem.
Proof. solve_decision. Defined.

(** Field updates of [BankItem]. *)
Definition set_bi_guildid x (r : BankItem) : BankItem :=
  {| bi_guildid := x; bi_guid := bi_guid r; bi_Name := bi_Name r; bi_tab := bi_tab r;
     bi_slot := bi_slot r; bi_item_template := bi_item_template r;
     bi_creatorGuid := bi_creatorGuid r; bi_giftCreatorGuid := bi_giftCreatorGuid r;
     bi_count := bi_count r; bi_maxStackSize := bi_maxStackSize r; bi_duration := bi_duration r;
     bi_charges := bi_charges r; bi_flags := bi_flags r; bi_enchantments := bi_enchantments r;
     bi_enchant := bi_enchant r; bi_randomPropertyId := bi_randomPropertyId r;
     bi_transmogrifyId := bi_transmogrifyId r; bi_durability := bi_durability r;
     bi_text := bi_text r; bi_generated_loot := bi_generated_loot r;
     bi_is_inferno := bi_is_inferno r; bi_quality := bi_quality r; bi_state := bi_state r |}.
Definition set_bi_guid x (r : BankItem) : BankItem :=
  {| bi_guildid := bi_guildid r; bi_guid := x; bi_Name := bi_Name r; bi_tab := bi_tab r;
     bi_slot := bi_slot r; bi_item_template := bi_item_template r;
     bi_creatorGuid := bi_creatorGuid r; bi_giftCreatorGuid := bi_giftCreatorGuid r;
     bi_count := bi_count r; bi_maxStackSize := bi_maxStackSize r; bi_duration := bi_duration r;
     bi_charges := bi_charges r; bi_flags := bi_flags r; bi_enchantments := bi_enchantments r;
     bi_enchant := bi_enchant r; bi_randomPropertyId := bi_randomPropertyId r;
     bi_transmogrifyId := bi_transmogrifyId r; bi_durability := bi_durability r;
     bi_text := bi_text r; bi_generated_loot := bi_generated_loot r;
     bi_is_inferno := bi_is_inferno r; bi_quality := bi_quality r; bi_state := bi_state r |}.
Definition set_bi_Name x (r : BankItem) : BankItem :=
  {| bi_guildid := bi_guildid r; bi_guid := bi_guid r; bi_Name := x; bi_tab := bi_tab r;
     bi_slot := bi_slot r; bi_item_template := bi_item_template r;
     bi_creatorGuid := bi_creatorGuid r; bi_giftCreatorGuid := bi_giftCreatorGuid r;
     bi_count := bi_count r; bi_maxStackSize := bi_maxStackSize r; bi_duration := bi_duration r;
     bi_charges := bi_charges r; bi_flags := bi_flags r; bi_enchantments := bi_enchantments r;
     bi_enchant := bi_enchant r; bi_randomPropertyId := bi_randomPropertyId r;
     bi_transmogrifyId := bi_transmogrifyId r; bi_durability := bi_durability r;
     bi_text := bi_text r; bi_generated_loot := bi_generated_loot r;
     bi_is_inferno := bi_is_inferno r; bi_quality := bi_quality r; bi_state := bi_state r |}.
Definition set_bi_slot x (r : BankItem) : BankItem :=
  {| bi_guildid := bi_guildid r; bi_guid := bi_guid r; bi_Name := bi_Name r; bi_tab := bi_tab r;
     bi_slot := x; bi_item_template := bi_item_template r; bi_creatorGuid := bi_creatorGuid r;
     bi_giftCreatorGuid := bi_giftCreatorGuid r; bi_count := bi_count r;
     bi_maxStackSize := bi_maxStackSize r; bi_duration := bi_duration r;
     bi_charges := bi_charges r; bi_flags := bi_flags r; bi_enchantments := bi_enchantments r;
     bi_enchant := bi_enchant r; bi_randomPropertyId := bi_randomPropertyId r;
     bi_transmogrifyId := bi_transmogrifyId r; bi_durability := bi_durability r;
     bi_text := bi_text r; bi_generated_loot := bi_generated_loot r;
     bi_is_inferno := bi_is_inferno r; bi_quality := bi_quality r; bi_state := bi_state r |}.
Definition set_bi_count x (r : BankItem) : BankItem :=
  {| bi_guildid := bi_guildid r; bi_guid := bi_guid r; bi_Name := bi_Name r; bi_tab := bi_tab r;
     bi_slot := bi_slot r; bi_item_template := bi_item_template r;
     bi_creatorGuid := bi_creatorGuid r; bi_giftCreatorGuid := bi_giftCreatorGuid r;
     bi_count := x; bi_maxStackSize := bi_maxStackSize r; bi_duration := bi_duration r;
     bi_charges := bi_charges r; bi_flags := bi_flags r; bi_enchantments := bi_enchantments r;
     bi_enchant := bi_enchant r; bi_randomPropertyId := bi_randomPropertyId r;
     bi_transmogrifyId := bi_transmogrifyId r; bi_durability := bi_durability r;
     bi_text := bi_text r; bi_generated_loot := bi_generated_loot r;
     bi_is_inferno := bi_is_inferno r; bi_quality := bi_quality r; bi_state := bi_state r |}.
Definition set_bi_maxStackSize x (r : BankItem) : BankItem :=
  {| bi_guildid := bi_guildid r; bi_guid := bi_guid r; bi_Name := bi_Name r; bi_tab := bi_tab r;
     bi_slot := bi_slot r; bi_item_template := bi_item_template r;
     bi_creatorGuid := bi_creatorGuid r; bi_giftCreatorGuid := bi_giftCreatorGuid r;
     bi_count := bi_count r; bi_maxStackSize := x; bi_duration := bi_duration r;
     bi_charges := bi_charges r; bi_flags := bi_flags r; bi_enchantments := bi_enchantments r;
     bi_enchant := bi_enchant r; bi_randomPropertyId := bi_randomPropertyId r;
     bi_transmogrifyId := bi_transmogrifyId r; bi_durability := bi_durability r;
     bi_text := bi_text r; bi_generated_loot := bi_generated_loot r;
     bi_is_inferno := bi_is_inferno r; bi_quality := bi_quality r; bi_state := bi_state r |}.
Definition set_bi_quality x (r : BankItem) : BankItem :=
  {| bi_guildid := bi_guildid r; bi_guid := bi_guid r; bi_Name := bi_Name r; bi_tab := bi_tab r;
     bi_slot := bi_slot r; bi_item_template := bi_item_template r;
     bi_creatorGuid := bi_creatorGuid r; bi_giftCreatorGuid := bi_giftCreatorGuid r;
     bi_count := bi_count r; bi_maxStackSize := bi_maxStackSize r; bi_duration := bi_duration r;
     bi_charges := bi_charges r; bi_flags := bi_flags r; bi_enchantments := bi_enchantments r;
     bi_enchant := bi_enchant r; bi_randomPropertyId := bi_randomPropertyId r;
     bi_transmogrifyId := bi_transmogrifyId r; bi_durability := bi_durability r;
     bi_text := bi_text r; bi_generated_loot := bi_generated_loot r;
     bi_is_inferno := bi_is_inferno r; bi_quality := x; bi_state := bi_state r |}.
Definition set_bi_state x (r : BankItem) : BankItem :=
  {| bi_guildid := bi_guildid r; bi_guid := bi_guid r; bi_Name := bi_Name r; bi_tab := bi_tab r;
     bi_slot := bi_slot r; bi_item_template := bi_item_template r;
     bi_creatorGuid := bi_creatorGuid r; bi_giftCreatorGuid := bi_giftCreatorGuid r;
     bi_count := bi_count r; bi_maxStackSize := bi_maxStackSize r; bi_duration := bi_duration r;
     bi_charges := bi_charges r; bi_flags := bi_flags r; bi_enchantments := bi_enchantments r;
     bi_enchant := bi_enchant r; bi_randomPropertyId := bi_randomPropertyId r;
     bi_transmogrifyId := bi_transmogrifyId r; bi_durability := bi_durability r;
     bi_text := bi_text r; bi_generated_loot := bi_generated_loot r;
     bi_is_inferno := bi_is_inferno r; bi_quality := bi_quality r; bi_state := x |}.

Record BankTab := mkBankTab { t_name : string; t_icon : string; t_withdrawals : Z; t_minrank : Z }.
(** What [operator[]] of the map makes for a new key. *)
Definition BankTab_default : BankTab := mkBankTab "" "" 0 0.

Record BankLog := mkBankLog {
  bl_player : Z; bl_action : Z; bl_tab : Z; bl_item : Z; bl_enchant : Z; bl_randomPropertyId : Z;
  bl_count : Z; bl_stamp : Z; bl_playerName : string; bl_itemName : string; bl_itemQuality : string;
  bl_state : ItemUpdateState }.
Record MoneyLog := mkMoneyLog {
  ml_player : Z; ml_action : Z; ml_money : Z; ml_stamp : Z; ml_playerName : string;
  ml_state : ItemUpdateState }.
Definition set_bl_state x (l : BankLog) : BankLog :=
  mkBankLog (bl_player l) (bl_action l) (bl_tab l) (bl_item l) (bl_enchant l) (bl_randomPropertyId l)
    (bl_count l) (bl_stamp l) (bl_playerName l) (bl_itemName l) (bl_itemQuality l) x.
Definition set_ml_state x (l : MoneyLog) : MoneyLog :=
  mkMoneyLog (ml_player l) (ml_action l) (ml_money l) (ml_stamp l) (ml_playerName l) x.

(** ** The database

    Rows as the statements print them.  [guild_bank] has a unique key of guild,
    guid and isInferno, [guild_bank_money] one of guild and isInferno;
    [guild_bank_tabs] and [guild_bank_log] only number their rows. *)
Record BankRow := mkRow {
  br_tab : Z; br_slot : Z; br_item_template : Z; br_creatorGuid : Z; br_giftCreatorGuid : Z;
  br_count : Z; br_duration : Z; br_charges : string; br_flags : Z; br_enchantments : string;
  br_randomPropertyId : Z; br_transmogrifyId : Z; br_durability : Z; br_text : Z; br_generated_loot : Z }.
Record TabsRow := mkTabsRow {
  tr_guildid : Z; tr_inferno : bool; tr_tabs : Z;
  tr_names : list string; tr_icons : list string; tr_withdrawals : list Z; tr_minranks : list Z }.
Record LogRow := mkLogRow {
  lr_guildid : Z; lr_inferno : bool; lr_player : Z; lr_action : Z; lr_tab : Z; lr_item : Z;
  lr_randomPropertyId : Z; lr_enchant : Z; lr_count : Z; lr_stamp : Z }.

Record BankDB := mkDB {
  guild_bank : gmap (Z * Z * bool) BankRow;
  guild_bank_money : gmap (Z * bool) Z;
  guild_bank_tabs : list TabsRow;
  guild_bank_log : list LogRow
}.

(** Field updates of [BankDB]. *)
Definition set_guild_bank x (r : BankDB) : BankDB :=
  {| guild_bank := x; guild_bank_money := guild_bank_money r;
     guild_bank_tabs := guild_bank_tabs r; guild_bank_log := guild_bank_log r |}.
Definition set_guild_bank_money x (r : BankDB) : BankDB :=
  {| guild_bank := guild_bank r; guild_bank_money := x; guild_bank_tabs := guild_bank_tabs r;
     guild_bank_log := guild_bank_log r |}.
Definition set_guild_bank_tabs x (r : BankDB) : BankDB :=
  {| guild_bank := guild_bank r; guild_bank_money := guild_bank_money r; guild_bank_tabs := x;
     guild_bank_log := guild_bank_log r |}.
Definition set_guild_bank_log x (r : BankDB) : BankDB :=
  {| guild_bank := guild_bank r; guild_bank_money := guild_bank_money r;
     guild_bank_tabs := guild_bank_tabs r; guild_bank_log := x |}.

(** What is sent: to the player, or to everybody in the guild. *)
Inductive BankOut :=
  | AddonMessage (text : string)
  | Notification (text : string)
  | BuyError
  | EquipError (msg : Z)
  | NewItem (entry count : Z)
  | GuildMessage (text : string).

(** ** The bank

    [b_items] is the vector of pointers: every item with the address that
    pointer comparison sees.  A table of the map of maps [b_log] is the list of
    its entries 0, 1, 2, ... *)
Record GuildBank := mkBank {
  b_tabs : Z;
  b_items : list (Z * BankItem);
  b_tabInfo : gmap Z BankTab;
  b_log : gmap Z (list BankLog);
  b_moneyLog : list MoneyLog;
  b_itemUpdateQueue : list BankItem;
  b_saveLock : bool;
  b_tabs_changed : bool;
  b_money_changed : bool;
  b_moneyLog_changed : bool;
  b_log_changed : bool;
  b_infernoBank : bool;
  b_guildid : Z;
  b_money : Z;
  b_player : BankPlayer;
  b_out : list BankOut;
  b_db : BankDB;
  b_now : Z
}.

(** Field updates of [GuildBank]. *)
Definition set_b_tabs x (r : GuildBank) : GuildBank :=
  {| b_tabs := x; b_items := b_items r; b_tabInfo := b_tabInfo r; b_log := b_log r;
     b_moneyLog := b_moneyLog r; b_itemUpdateQueue := b_itemUpdateQueue r;
     b_saveLock := b_saveLock r; b_tabs_changed := b_tabs_changed r;
     b_money_changed := b_money_changed r; b_moneyLog_changed := b_moneyLog_changed r;
     b_log_changed := b_log_changed r; b_infernoBank := b_infernoBank r; b_guildid := b_guildid r;
     b_money := b_money r; b_player := b_player r; b_out := b_out r; b_db := b_db r;
     b_now := b_now r |}.
Definition set_b_items x (r : GuildBank) : GuildBank :=
  {| b_tabs := b_tabs r; b_items := x; b_tabInfo := b_tabInfo r; b_log := b_log r;
     b_moneyLog := b_moneyLog r; b_itemUpdateQueue := b_itemUpdateQueue r;
     b_saveLock := b_saveLock r; b_tabs_changed := b_tabs_changed r;
     b_money_changed := b_money_changed r; b_moneyLog_changed := b_moneyLog_changed r;
     b_log_changed := b_log_changed r; b_infernoBank := b_infernoBank r; b_guildid := b_guildid r;
     b_money := b_money r; b_player := b_player r; b_out := b_out r; b_db := b_db r;
     b_now := b_now r |}.
Definition set_b_tabInfo x (r : GuildBank) : GuildBank :=
  {| b_tabs := b_tabs r; b_items := b_items r; b_tabInfo := x; b_log := b_log r;
     b_moneyLog := b_moneyLog r; b_itemUpdateQueue := b_itemUpdateQueue r;
     b_saveLock := b_saveLock r; b_tabs_changed := b_tabs_changed r;
     b_money_changed := b_money_changed r; b_moneyLog_changed := b_moneyLog_changed r;
     b_log_changed := b_log_changed r; b_infernoBank := b_infernoBank r; b_guildid := b_guildid r;
     b_money := b_money r; b_player := b_player r; b_out := b_out r; b_db := b_db r;
     b_now := b_now r |}.
Definition set_b_log x (r : GuildBank) : GuildBank :=
  {| b_tabs := b_tabs r; b_items := b_items r; b_tabInfo := b_tabInfo r; b_log := x;
     b_moneyLog := b_moneyLog r; b_itemUpdateQueue := b_itemUpdateQueue r;
     b_saveLock := b_saveLock r; b_tabs_changed := b_tabs_changed r;
     b_money_changed := b_money_changed r; b_moneyLog_changed := b_moneyLog_changed r;
     b_log_changed := b_log_changed r; b_infernoBank := b_infernoBank r; b_guildid := b_guildid r;
     b_money := b_money r; b_player := b_player r; b_out := b_out r; b_db := b_db r;
     b_now := b_now r |}.
Definition set_b_moneyLog x (r : GuildBank) : GuildBank :=
  {| b_tabs := b_tabs r; b_items := b_items r; b_tabInfo := b_tabInfo r; b_log := b_log r;
     b_moneyLog := x; b_itemUpdateQueue := b_itemUpdateQueue r; b_saveLock := b_saveLock r;
     b_tabs_changed := b_tabs_changed r; b_money_changed := b_money_changed r;
     b_moneyLog_changed := b_moneyLog_changed r; b_log_changed := b_log_changed r;
     b_infernoBank := b_infernoBank r; b_guildid := b_guildid r; b_money := b_money r;
     b_player := b_player r; b_out := b_out r; b_db := b_db r; b_now := b_now r |}.
Definition set_b_itemUpdateQueue x (r : GuildBank) : GuildBank :=
  {| b_tabs := b_tabs r; b_items := b_items r; b_tabInfo := b_tabInfo r; b_log := b_log r;
     b_moneyLog := b_moneyLog r; b_itemUpdateQueue := x; b_saveLock := b_saveLock r;
     b_tabs_changed := b_tabs_changed r; b_money_changed := b_money_changed r;
     b_moneyLog_changed := b_moneyLog_changed r; b_log_changed := b_log_changed r;
     b_infernoBank := b_infernoBank r; b_guildid := b_guildid r; b_money := b_money r;
     b_player := b_player r; b_out := b_out r; b_db := b_db r; b_now := b_now r |}.
Definition set_b_saveLock x (r : GuildBank) : GuildBank :=
  {| b_tabs := b_tabs r; b_items := b_items r; b_tabInfo := b_tabInfo r; b_log := b_log r;
     b_moneyLog := b_moneyLog r; b_itemUpdateQueue := b_itemUpdateQueue r; b_saveLock := x;
     b_tabs_changed := b_tabs_changed r; b_money_changed := b_money_changed r;
     b_moneyLog_changed := b_moneyLog_changed r; b_log_changed := b_log_changed r;
     b_infernoBank := b_infernoBank r; b_guildid := b_guildid r; b_money := b_money r;
     b_player := b_player r; b_out := b_out r; b_db := b_db r; b_now := b_now r |}.
Definition set_b_tabs_changed x (r : GuildBank) : GuildBank :=
  {| b_tabs := b_tabs r; b_items := b_items r; b_tabInfo := b_tabInfo r; b_log := b_log r;
     b_moneyLog := b_moneyLog r; b_itemUpdateQueue := b_itemUpdateQueue r;
     b_saveLock := b_saveLock r; b_tabs_changed := x; b_money_changed := b_money_changed r;
     b_moneyLog_changed := b_moneyLog_changed r; b_log_changed := b_log_changed r;
     b_infernoBank := b_infernoBank r; b_guildid := b_guildid r; b_money := b_money r;
     b_player := b_player r; b_out := b_out r; b_db := b_db r; b_now := b_now r |}.
Definition set_b_money_changed x (r : GuildBank) : GuildBank :=
  {| b_tabs := b_tabs r; b_items := b_items r; b_tabInfo := b_tabInfo r; b_log := b_log r;
     b_moneyLog := b_moneyLog r; b_itemUpdateQueue := b_itemUpdateQueue r;
     b_saveLock := b_saveLock r; b_tabs_changed := b_tabs_changed r; b_money_changed := x;
     b_moneyLog_changed := b_moneyLog_changed r; b_log_changed := b_log_changed r;
     b_infernoBank := b_infernoBank r; b_guildid := b_guildid r; b_money := b_money r;
     b_player := b_player r; b_out := b_out r; b_db := b_db r; b_now := b_now r |}.
Definition set_b_moneyLog_changed x (r : GuildBank) : GuildBank :=
  {| b_tabs := b_tabs r; b_items := b_items r; b_tabInfo := b_tabInfo r; b_log := b_log r;
     b_moneyLog := b_moneyLog r; b_itemUpdateQueue := b_itemUpdateQueue r;
     b_saveLock := b_saveLock r; b_tabs_changed := b_tabs_changed r;
     b_money_changed := b_money_changed r; b_moneyLog_changed := x;
     b_log_changed := b_log_changed r; b_infernoBank := b_infernoBank r; b_guildid := b_guildid r;
     b_money := b_money r; b_player := b_player r; b_out := b_out r; b_db := b_db r;
     b_now := b_now r |}.
Definition set_b_log_changed x (r : GuildBank) : GuildBank :=
  {| b_tabs := b_tabs r; b_items := b_items r; b_tabInfo := b_tabInfo r; b_log := b_log r;
     b_moneyLog := b_moneyLog r; b_itemUpdateQueue := b_itemUpdateQueue r;
     b_saveLock := b_saveLock r; b_tabs_changed := b_tabs_changed r;
     b_money_changed := b_money_changed r; b_moneyLog_changed := b_moneyLog_changed r;
     b_log_changed := x; b_infernoBank := b_infernoBank r; b_guildid := b_guildid r;
     b_money := b_money r; b_player := b_player r; b_out := b_out r; b_db := b_db r;
     b_now := b_now r |}.
Definition set_b_guildid x (r : GuildBank) : GuildBank :=
  {| b_tabs := b_tabs r; b_items := b_items r; b_tabInfo := b_tabInfo r; b_log := b_log r;
     b_moneyLog := b_moneyLog r; b_itemUpdateQueue := b_itemUpdateQueue r;
     b_saveLock := b_saveLock r; b_tabs_changed := b_tabs_changed r;
     b_money_changed := b_money_changed r; b_moneyLog_changed := b_moneyLog_changed r;
     b_log_changed := b_log_changed r; b_infernoBank := b_infernoBank r; b_guildid := x;
     b_money := b_money r; b_player := b_player r; b_out := b_out r; b_db := b_db r;
     b_now := b_now r |}.
Definition set_b_money x (r : GuildBank) : GuildBank :=
  {| b_tabs := b_tabs r; b_items := b_items r; b_tabInfo := b_tabInfo r; b_log := b_log r;
     b_moneyLog := b_moneyLog r; b_itemUpdateQueue := b_itemUpdateQueue r;
     b_saveLock := b_saveLock r; b_tabs_changed := b_tabs_changed r;
     b_money_changed := b_money_changed r; b_moneyLog_changed := b_moneyLog_changed r;
     b_log_changed := b_log_changed r; b_infernoBank := b_infernoBank r; b_guildid := b_guildid r;
     b_money := x; b_player := b_player r; b_out := b_out r; b_db := b_db r; b_now := b_now r |}.
Definition set_b_player x (r : GuildBank) : GuildBank :=
  {| b_tabs := b_tabs r; b_items := b_items r; b_tabInfo := b_tabInfo r; b_log := b_log r;
     b_moneyLog := b_moneyLog r; b_itemUpdateQueue := b_itemUpdateQueue r;
     b_saveLock := b_saveLock r; b_tabs_changed := b_tabs_changed r;
     b_money_changed := b_money_changed r; b_moneyLog_changed := b_moneyLog_changed r;
     b_log_changed := b_log_changed r; b_infernoBank := b_infernoBank r; b_guildid := b_guildid r;
     b_money := b_money r; b_player := x; b_out := b_out r; b_db := b_db r; b_now := b_now r |}.
Definition set_b_out x (r : GuildBank) : GuildBank :=
  {| b_tabs := b_tabs r; b_items := b_items r; b_tabInfo := b_tabInfo r; b_log := b_log r;
     b_moneyLog := b_moneyLog r; b_itemUpdateQueue := b_itemUpdateQueue r;
     b_saveLock := b_saveLock r; b_tabs_changed := b_tabs_changed r;
     b_money_changed := b_money_changed r; b_moneyLog_changed := b_moneyLog_changed r;
     b_log_changed := b_log_changed r; b_infernoBank := b_infernoBank r; b_guildid := b_guildid r;
     b_money := b_money r; b_player := b_player r; b_out := x; b_db := b_db r; b_now := b_now r |}.
Definition set_b_db x (r : GuildBank) : GuildBank :=
  {| b_tabs := b_tabs r; b_items := b_items r; b_tabInfo := b_tabInfo r; b_log := b_log r;
     b_moneyLog := b_moneyLog r; b_itemUpdateQueue := b_itemUpdateQueue r;
     b_saveLock := b_saveLock r; b_tabs_changed := b_tabs_changed r;
     b_money_changed := b_money_changed r; b_moneyLog_changed := b_moneyLog_changed r;
     b_log_changed := b_log_changed r; b_infernoBank := b_infernoBank r; b_guildid := b_guildid r;
     b_money := b_money r; b_player := b_player r; b_out := b_out r; b_db := x; b_now := b_now r |}.
Definition set_b_now x (r : GuildBank) : GuildBank :=
  {| b_tabs := b_tabs r; b_items := b_items r; b_tabInfo := b_tabInfo r; b_log := b_log r;
     b_moneyLog := b_moneyLog r; b_itemUpdateQueue := b_itemUpdateQueue r;
     b_saveLock := b_saveLock r; b_tabs_changed := b_tabs_changed r;
     b_money_changed := b_money_changed r; b_moneyLog_changed := b_moneyLog_changed r;
     b_log_changed := b_log_changed r; b_infernoBank := b_infernoBank r; b_guildid := b_guildid r;
     b_money := b_money r; b_player := b_player r; b_out := b_out r; b_db := b_db r; b_now := x |}.

(** ** What the bank takes from the rest of the server

    The item templates and the suffixes of random properties are data; creating
    an item, the inventory's answer whether and where something can be stored
    ([CanStoreNewItem], with positions and counts), the character cache, the
    number of guild ranks, the local calendar (day of the week, hour, minute,
    second), the gossip menus and the configuration are other components.
    [uninitialised] is what a field of a new object holds that nobody has
    written. *)
Class BankEnv := {
  GetItemPrototype : Z -> option ItemPrototype;
  nameSuffix : Z -> string;
  CreateItem : Z -> Z -> option Item;
  CanStoreNewItem : BankPlayer -> Z -> Z -> Z -> Z -> Z * list (Z * Z * Z);
  GetPlayerDataByGUID : Z -> option string;
  GetRanksSize : Z;
  localtime : Z -> Z * Z * Z * Z;
  GetGossipMenuItems : Z -> list (Z * Z);
  cfg_NpcEntriesAlliance : string;
  cfg_NpcEntriesHorde : string;
  uninitialised : Z
}.

(** ** Output and small helpers *)
Definition SendAddonMessage (text : string) (s : GuildBank) : GuildBank :=
  set_b_out (b_out s ++ [AddonMessage text]) s.
Definition SendNotification (text : string) (s : GuildBank) : GuildBank :=
  set_b_out (b_out s ++ [Notification text]) s.
Definition SendBuyError (s : GuildBank) : GuildBank := set_b_out (b_out s ++ [BuyError]) s.
Definition SendEquipError (msg : Z) (s : GuildBank) : GuildBank := set_b_out (b_out s ++ [EquipError msg]) s.
Definition SendGuildMessage (text : string) (s : GuildBank) : GuildBank :=
  set_b_out (b_out s ++ [GuildMessage text]) s.

Definition playerGuid (s : GuildBank) : Z := bp_guid (b_player s).
Definition playerRankIndex (s : GuildBank) : Z := bp_rank (b_player s).
Definition tab_info (s : GuildBank) (tab : Z) : BankTab := default BankTab_default (b_tabInfo s !! tab).
Definition log_of (s : GuildBank) (tab : Z) : list BankLog := default [] (b_log s !! tab).

(** [Player::ModifyMoney], the hooks apart. *)
Definition ModifyMoney (d : Z) (p : BankPlayer) : BankPlayer :=
  set_bp_money
    (if d <? 0
     then if u32 (- d) <? bp_money p then u32 (bp_money p + d) else 0
     else if bp_money p <? u32 (MAX_MONEY_AMOUNT - d) then u32 (bp_money p + d) else MAX_MONEY_AMOUNT) p.
Definition modify_money (d : Z) (s : GuildBank) : GuildBank :=
  set_b_player (ModifyMoney (i32 d) (b_player s)) s.
