(* ===== verification/GuildBank.v ===== *)
(** The guild bank's money, tabs, access rights and logs
    (src/game/GuildBank/GuildBank.cpp), and the requests about them.  A message
    is the text of the addon message; [_player] is [b_player]. *)

From S2P Require Import Prelude CString GuildBankTypes.

(** A request is [name:argument:...]. *)
Definition params (msg : string) : list string := Tokenizer.make msg ":"%char.
Definition WrongSyntax (prefix msg : string) (s : GuildBank) : GuildBank :=
  SendAddonMessage (prefix +:+ ":Error:WrongSyntax(" +:+ msg +:+ ")") s.

Abbreviation BankTable := (gmap (Z * Z * bool) BankRow).

Section bank.
Context {env : BankEnv}.

(** ** The log *)
Definition LogAction (action tab itemID count : Z) (bItem : option BankItem) (s : GuildBank) : GuildBank :=
  if MAX_TABS <? tab then s
  else if tab =? TAB_MONEY then
    let index := Z.of_nat (length (b_moneyLog s)) in
    let l := mkMoneyLog (playerGuid s) (u8 action) count (u32 (b_now s)) (bp_name (b_player s)) ITEM_NEW in
    let s := set_b_moneyLog (b_moneyLog s ++ [l]) s in
    let s := SendGuildMessage ("GMoneyLog:0:" +:+ to_string (ml_stamp l) +:+ ";" +:+ ml_playerName l +:+ ";" +:+
               to_string (ml_action l) +:+ ";" +:+ to_string (ml_money l) +:+ ";" +:+ to_string index) s in
    set_b_moneyLog_changed true s
  else
    let named := (action =? ACTION_WITHDRAW_ITEM) || (action =? ACTION_DEPOSIT_ITEM) || (action =? ACTION_DESTROY_ITEM) in
    let '(itemName, itemQuality) :=
      match bItem with
      | Some i => if named then (bi_Name i, to_string (bi_quality i)) else ("Unknown", "1")
      | None => ("Unknown", "1")
      end in
    let l := mkBankLog (playerGuid s) (u8 action) (u8 tab) itemID (from_option bi_enchant 0 bItem)
               (u32 (from_option bi_randomPropertyId 0 bItem)) (u8 count) (u32 (b_now s)) (bp_name (b_player s))
               itemName itemQuality ITEM_NEW in
    let s := set_b_log (<[tab := log_of s tab ++ [l]]> (b_log s)) s in
    let s := SendGuildMessage ("GTabLog:" +:+ to_string tab +:+ ":" +:+ to_string (bl_stamp l) +:+ ";" +:+
               bl_playerName l +:+ ";" +:+ to_string action +:+ ";" +:+ to_string itemID +:+ ";" +:+
               bl_itemName l +:+ ";" +:+ bl_itemQuality l +:+ ";" +:+ to_string count +:+ ";" +:+
               to_string (bl_randomPropertyId l) +:+ ";" +:+ to_string (bl_enchant l)) s in
    set_b_log_changed true s.

(** ** Weekly withdrawals and access *)
Definition weekstart (now : Z) : Z :=
  let '(tm_wday, tm_hour, tm_min, tm_sec) := localtime now in
  let wday := if tm_wday - 1 =? -1 then 6 else tm_wday - 1 in
  now - wday * (60 * 60 * 24) - (tm_sec + 60 * tm_min + 60 * 60 * tm_hour).

Definition withdrawn_since (start guid tab : Z) (l : BankLog) : bool :=
  (bl_action l =? ACTION_WITHDRAW_ITEM) && (bl_player l =? guid) && (bl_tab l =? tab) && (start <=? bl_stamp l).
Definition weekWithdrawals (s : GuildBank) (tab : Z) : Z :=
  u8 (Z.of_nat (length (List.filter (withdrawn_since (weekstart (b_now s)) (playerGuid s) tab) (log_of s tab)))).

Definition GetTabWithdrawalsLeft (tab : Z) (s : GuildBank) : Z * GuildBank :=
  if (tab =? 0) || (MAX_TABS <? tab) then (0, SendAddonMessage "GetTabWithdrawalsLeft:Error:ParamsOutOfRange" s)
  else if t_withdrawals (tab_info s tab) <=? weekWithdrawals s tab then (0, s)
  else (u8 (t_withdrawals (tab_info s tab) - weekWithdrawals s tab), s).

Definition CanAccessTab (tab action : Z) (s : GuildBank) : bool * GuildBank :=
  if action =? ACTION_WITHDRAW_MONEY then (playerRankIndex s <=? 1, s)
  else if ((action =? ACTION_SPLIT_ITEM) || (action =? ACTION_DESTROY_ITEM)) &&
          (t_minrank (tab_info s tab) <? playerRankIndex s) then (false, s)
  else
    let '(may, s) :=
      if ((action =? ACTION_WITHDRAW_ITEM) || (action =? ACTION_DEPOSIT_ITEM)) &&
         (0 <? t_withdrawals (tab_info s tab)) && (playerRankIndex s =? t_minrank (tab_info s tab))
      then let '(n, s) := GetTabWithdrawalsLeft tab s in (negb (n =? 0), s)
      else (true, s) in
    if negb may then (false, s)
    else if t_minrank (tab_info s tab) <? playerRankIndex s then (false, s)
    else (true, s).

Definition SendTabWithdrawalsLeft (tab : Z) (s : GuildBank) : GuildBank :=
  if (tab =? 0) || (MAX_TABS <? tab) then SendAddonMessage "SendTabWithdrawalsLeft:Error:ParamsOutOfRange" s
  else if (t_withdrawals (tab_info s tab) =? 0) || (playerRankIndex s <? t_minrank (tab_info s tab)) ||
          (playerRankIndex s =? 0)
  then SendAddonMessage ("TabWithdrawalsLeft:" +:+ to_string tab +:+ ":Unlimited") s
  else
    let '(n, s) := GetTabWithdrawalsLeft tab s in
    SendAddonMessage ("TabWithdrawalsLeft:" +:+ to_string tab +:+ ":" +:+ to_string n) s.

Definition SendTabWithdrawalsLeft_msg (msg : string) (s : GuildBank) : GuildBank :=
  match params msg with
  | [_; p1] => SendTabWithdrawalsLeft (u8 (atoi p1)) s
  | _ => WrongSyntax "SendTabWithdrawalsLeft" msg s
  end.

(** ** Information for the client *)
Definition SendBankMoney (s : GuildBank) : GuildBank :=
  SendAddonMessage ("BankInfo:money:" +:+ to_string (b_money s)) s.

Definition tab_numbers : list Z := [1; 2; 3; 4; 5].
Definition tabs_text (f : BankTab -> string) (s : GuildBank) : string :=
  foldr (fun i text => f (tab_info s i) +:+ ":" +:+ text) "" tab_numbers.

Definition SendBankInfo (s : GuildBank) : GuildBank :=
  let s := SendBankMoney s in
  let info := "BankInfo:Tabs:" +:+ to_string (b_tabs s) +:+ ":" +:+ tabs_text t_name s +:+ tabs_text t_icon s +:+
    tabs_text (fun t => to_string (t_withdrawals t)) s +:+ tabs_text (fun t => to_string (t_minrank t)) s in
  SendAddonMessage (pop_back info) s.

(** Texts too long for one message are sent in pieces, each cut after the
    entry that crosses the limit; [header] opens every piece and, with [end],
    makes the last message. *)
Definition add_entry (header : string) (acc : list string * string) (entry : string) : list string * string :=
  let '(messages, message) := acc in
  let message := message +:+ entry in
  if ADDON_MAX_PACKET_SIZE <? Z.of_nat (String.length message)
  then (messages ++ [pop_back message], header)
  else (messages, message).
Definition in_pieces (header : string) (entries : list string) : list string :=
  let '(messages, message) := foldl (add_entry header) ([], header) entries in
  if message =s header then messages ++ [message +:+ "end"]
  else messages ++ [pop_back message; header +:+ "end"].

Definition last_lines {A} (l : list A) : list A :=
  if LOG_LINES_LIMIT <? Z.of_nat (length l) then drop (length l - Z.to_nat LOG_LINES_LIMIT) l else l.

Definition tab_log_entry (l : BankLog) : string :=
  to_string (bl_stamp l) +:+ ";" +:+ bl_playerName l +:+ ";" +:+ to_string (bl_action l) +:+ ";" +:+
  to_string (bl_item l) +:+ ";" +:+ bl_itemName l +:+ ";" +:+ bl_itemQuality l +:+ ";" +:+
  to_string (bl_count l) +:+ ";" +:+ to_string (bl_randomPropertyId l) +:+ ";" +:+ to_string (bl_enchant l) +:+ "=".
Definition SendTabLog (msg : string) (s : GuildBank) : GuildBank :=
  match params msg with
  | [_; p1] =>
      let tab := u8 (atoi p1) in
      if (tab =? 0) || (MAX_TABS <? tab) then SendAddonMessage "SendTabLog:Error:ParamsOutOfRange" s
      else foldl (fun s m => SendAddonMessage m s) s
             (in_pieces ("TabLog:" +:+ to_string tab +:+ ":") (map tab_log_entry (last_lines (log_of s tab))))
  | _ => WrongSyntax "SendTabLog" msg s
  end.

Definition money_log_entry (l : MoneyLog) : string :=
  to_string (ml_stamp l) +:+ ";" +:+ ml_playerName l +:+ ";" +:+ to_string (ml_action l) +:+ ";" +:+
  to_string (ml_money l) +:+ "=".
Definition SendMoneyLog (s : GuildBank) : GuildBank :=
  foldl (fun s m => SendAddonMessage m s) s
    (in_pieces "MoneyLog:" (map money_log_entry (last_lines (b_moneyLog s)))).

(** ** Saving

    The statements of a save form one transaction: when one of them fails,
    nothing is changed. *)
Definition row_key (i : BankItem) : Z * Z * bool := (bi_guildid i, bi_guid i, bi_is_inferno i).
(** The values as [%u] prints them. *)
Definition row_of (i : BankItem) : BankRow :=
  mkRow (bi_tab i) (bi_slot i) (bi_item_template i) (bi_creatorGuid i) (bi_giftCreatorGuid i) (bi_count i)
    (u32 (bi_duration i)) (bi_charges i) (bi_flags i) (bi_enchantments i) (u32 (bi_randomPropertyId i))
    (bi_transmogrifyId i) (bi_durability i) (bi_text i) (u32 (bi_generated_loot i)).

Definition AddToDB (i : BankItem) (t : BankTable) : option BankTable :=
  match t !! row_key i with
  | Some _ => None
  | None => Some (<[row_key i := row_of i]> t)
  end.
(** The condition of the update names guild and guid, not the bank: a row of
    the guild's other bank with the same guid is taken over, and two such rows
    violate the key. *)
Definition other_key (i : BankItem) : Z * Z * bool := (bi_guildid i, bi_guid i, negb (bi_is_inferno i)).
Definition SaveItemToDB (i : BankItem) (t : BankTable) : option BankTable :=
  match t !! row_key i, t !! other_key i with
  | None, None => Some t
  | Some _, Some _ => None
  | _, _ => Some (<[row_key i := row_of i]> (delete (other_key i) t))
  end.
Definition DeleteItemFromDB (i : BankItem) (t : BankTable) : option BankTable := Some (delete (row_key i) t).

Definition save_item (i : BankItem) (t : BankTable) : option BankTable :=
  match bi_state i with
  | ITEM_NEW => AddToDB i t
  | ITEM_CHANGED => SaveItemToDB i t
  | ITEM_REMOVED => DeleteItemFromDB i t
  | ITEM_UNCHANGED | ITEM_STASHED => Some t
  end.
Definition save_items (queue : list BankItem) (t : BankTable) : option BankTable :=
  foldl (fun t i => t ≫= save_item i) (Some t) queue.

Definition bank_key (s : GuildBank) : Z * bool := (b_guildid s, b_infernoBank s).
Definition save_money (s : GuildBank) (db : BankDB) : BankDB :=
  set_guild_bank_money (alter (fun _ => b_money s) (bank_key s) (guild_bank_money db)) db.
Definition tabs_row (s : GuildBank) : TabsRow :=
  mkTabsRow (b_guildid s) (b_infernoBank s) (b_tabs s)
    (map (fun i => t_name (tab_info s i)) tab_numbers) (map (fun i => t_icon (tab_info s i)) tab_numbers)
    (map (fun i => t_withdrawals (tab_info s i)) tab_numbers) (map (fun i => t_minrank (tab_info s i)) tab_numbers).
Definition own_tabs_row (s : GuildBank) (r : TabsRow) : bool :=
  (tr_guildid r =? b_guildid s) && Bool.eqb (tr_inferno r) (b_infernoBank s).
Definition save_tabs (s : GuildBank) (db : BankDB) : BankDB :=
  set_guild_bank_tabs (map (fun r => if own_tabs_row s r then tabs_row s else r) (guild_bank_tabs db)) db.
Definition money_log_row (s : GuildBank) (l : MoneyLog) : LogRow :=
  mkLogRow (b_guildid s) (b_infernoBank s) (ml_player l) (ml_action l) 0 0 0 0 (ml_money l) (ml_stamp l).
Definition item_log_row (s : GuildBank) (l : BankLog) : LogRow :=
  mkLogRow (b_guildid s) (b_infernoBank s) (bl_player l) (bl_action l) (bl_tab l) (bl_item l)
    (bl_randomPropertyId l) (bl_enchant l) (bl_count l) (bl_stamp l).
Definition is_new (st : ItemUpdateState) : bool := bool_decide (st = ITEM_NEW).
Definition add_log_rows (rows : list LogRow) (db : BankDB) : BankDB :=
  set_guild_bank_log (guild_bank_log db ++ rows) db.
Definition new_item_logs (s : GuildBank) : list BankLog :=
  mjoin (map (fun tab => List.filter (fun l => is_new (bl_state l)) (log_of s tab)) tab_numbers).

Definition save_statements (s : GuildBank) (db : BankDB) : option BankDB :=
  let db := if b_money_changed s then save_money s db else db in
  let db := if b_tabs_changed s then save_tabs s db else db in
  let db := if b_moneyLog_changed s
            then add_log_rows (map (money_log_row s) (List.filter (fun l => is_new (ml_state l)) (b_moneyLog s))) db
            else db in
  let db := if b_log_changed s then add_log_rows (map (item_log_row s) (new_item_logs s)) db else db in
  t ← save_items (b_itemUpdateQueue s) (guild_bank db); Some (set_guild_bank t db).

Definition nothing_to_save (s : GuildBank) : bool :=
  negb (b_moneyLog_changed s) && negb (b_tabs_changed s) && negb (b_money_changed s) && negb (b_log_changed s) &&
  bool_decide (b_itemUpdateQueue s = []).

Definition SaveToDB (s : GuildBank) : GuildBank :=
  if b_saveLock s then s
  else if nothing_to_save s then s
  else
    let db := default (b_db s) (save_statements s (b_db s)) in
    let s := if b_moneyLog_changed s
             then set_b_moneyLog (map (fun l => if is_new (ml_state l) then set_ml_state ITEM_UNCHANGED l else l)
                                    (b_moneyLog s)) s
             else s in
    let s := if b_log_changed s
             then set_b_log (foldr (fun tab m => alter (map (fun l => if is_new (bl_state l)
                                      then set_bl_state ITEM_UNCHANGED l else l)) tab m) (b_log s) tab_numbers) s
             else s in
    let s := if bool_decide (b_itemUpdateQueue s = []) then s
             else set_b_itemUpdateQueue [] (set_b_items (prod_map id (set_bi_state ITEM_UNCHANGED) <$> b_items s) s) in
    let s := set_b_log_changed false (set_b_moneyLog_changed false (set_b_tabs_changed false
               (set_b_money_changed false s))) in
    set_b_db db s.

Definition own_item_row (s : GuildBank) (k : Z * Z * bool) : bool :=
  (fst (fst k) =? b_guildid s) && Bool.eqb (snd k) (b_infernoBank s).
Definition DeleteFromDB (s : GuildBank) : GuildBank :=
  let db := b_db s in
  let db := set_guild_bank (filter (fun kr => own_item_row s (fst kr) = false) (guild_bank db)) db in
  let db := set_guild_bank_log (List.filter (fun r => negb ((lr_guildid r =? b_guildid s) &&
              Bool.eqb (lr_inferno r) (b_infernoBank s))) (guild_bank_log db)) db in
  let db := set_guild_bank_money (delete (bank_key s) (guild_bank_money db)) db in
  let db := set_guild_bank_tabs (List.filter (fun r => negb (own_tabs_row s r)) (guild_bank_tabs db)) db in
  set_b_db db (set_b_saveLock true s).
End bank.
