(* ===== verification/GuildBankRequests.v ===== *)
(** Loading the guild bank, unlocking it and its tabs, changing a tab, and the
    money (src/game/GuildBank/GuildBank.cpp). *)

From S2P Require Import Prelude CString GuildBankTypes GuildBank.

(** Conversions of the database fields. *)
Definition i8 (x : Z) : Z := (x + 2 ^ 7) mod 2 ^ 8 - 2 ^ 7.
Definition i16 (x : Z) : Z := (x + 2 ^ 15) mod 2 ^ 16 - 2 ^ 15.

Section requests.
Context {env : BankEnv}.

(** ** Loading *)
(** [BankItem::LoadFromDB]; the fields it leaves alone hold anything. *)
Definition LoadFromDB (k : Z * Z * bool) (r : BankRow) : BankItem :=
  let tokens := Tokenizer.make (br_enchantments r) " "%char in
  mkBankItem (fst (fst k)) (snd (fst k)) "" (u8 (br_tab r)) (u8 (br_slot r)) (u32 (br_item_template r))
    (u32 (br_creatorGuid r)) (u32 (br_giftCreatorGuid r)) (u32 (br_count r)) uninitialised
    (i32 (br_duration r)) (br_charges r) (u8 (br_flags r)) (br_enchantments r)
    (if (length tokens =? 21)%nat then u32 (atoi (default "" (head tokens))) else 0)
    (i16 (br_randomPropertyId r)) (u32 (br_transmogrifyId r)) (u8 (u16 (br_durability r))) (u32 (br_text r))
    (i8 (i16 (br_generated_loot r))) (snd k) uninitialised ITEM_UNCHANGED.

(** The name, with the suffix of the random property. *)
Definition full_name (name : string) (randomPropertyId : Z) : string :=
  if 0 <? randomPropertyId then name +:+ " " +:+ nameSuffix randomPropertyId else name.

Definition with_prototype (i : BankItem) : BankItem :=
  match GetItemPrototype (bi_item_template i) with
  | Some p => set_bi_maxStackSize (ip_Stackable p) (set_bi_quality (ip_Quality p)
                (set_bi_Name (full_name (ip_Name1 p) (bi_randomPropertyId i)) i))
  | None => i
  end.

(** [new BankItem]: an address no live item has. *)
Definition new_address (s : GuildBank) : Z := fresh (list_to_set (fst <$> b_items s) : gset Z).
Definition AddItem (a : Z) (i : BankItem) (s : GuildBank) : GuildBank :=
  set_b_items (b_items s ++ [(a, i)]) s.

Definition load_item (s : GuildBank) (kr : Z * Z * bool * BankRow) : GuildBank :=
  AddItem (new_address s) (set_bi_state ITEM_UNCHANGED (with_prototype (LoadFromDB (fst kr) (snd kr)))) s.

Definition load_tabs (money : Z) (s : GuildBank) (r : TabsRow) : GuildBank :=
  let tab i := mkBankTab (nth i (tr_names r) "") (nth i (tr_icons r) "") (u8 (nth i (tr_withdrawals r) 0))
                 (u8 (nth i (tr_minranks r) 0)) in
  set_b_tabInfo (<[1 := tab 0%nat]> (<[2 := tab 1%nat]> (<[3 := tab 2%nat]> (<[4 := tab 3%nat]>
                   (<[5 := tab 4%nat]> (b_tabInfo s))))))
    (set_b_money (u32 money) (set_b_tabs (u32 (tr_tabs r)) s)).

Definition own_item_rows (s : GuildBank) : list (Z * Z * bool * BankRow) :=
  List.filter (fun kr => own_item_row s (fst kr)) (map_to_list (guild_bank (b_db s))).

Definition LoadBank (s : GuildBank) : GuildBank :=
  match guild_bank_money (b_db s) !! bank_key s, List.filter (own_tabs_row s) (guild_bank_tabs (b_db s)) with
  | Some money, (_ :: _) as rows =>
      let s := foldl (load_tabs money) (set_b_tabs 0 s) rows in
      let s := set_b_tabInfo (<[TAB_MONEY := mkBankTab (t_name (tab_info s TAB_MONEY)) (t_icon (tab_info s TAB_MONEY))
                                               (t_withdrawals (tab_info s TAB_MONEY)) 1]> (b_tabInfo s)) s in
      foldl load_item s (own_item_rows s)
  | _, _ => s
  end.

(** [m[index] = x] for an index up to the number of entries. *)
Definition set_entry {A} (index : nat) (x : A) (l : list A) : list A :=
  if (index <? length l)%nat then <[index := x]> l else l ++ [x].

Definition AppendLog (index : nat) (r : LogRow) (s : GuildBank) : GuildBank :=
  let playerName := default "Unknown" (GetPlayerDataByGUID (u32 (lr_player r))) in
  let tab := u8 (lr_tab r) in
  if tab =? TAB_MONEY
  then set_b_moneyLog (set_entry index (mkMoneyLog (u32 (lr_player r)) (u8 (lr_action r)) (u32 (lr_count r))
                        (u32 (lr_stamp r)) playerName ITEM_UNCHANGED) (b_moneyLog s)) s
  else
    let '(itemName, itemQuality) :=
      match GetItemPrototype (u32 (lr_item r)) with
      | Some p => (full_name (ip_Name1 p) (u32 (lr_randomPropertyId r)), to_string (ip_Quality p))
      | None => ("Unknown", "1")
      end in
    let old := default (mkBankLog 0 0 0 0 0 0 0 0 "" "" "" ITEM_UNCHANGED) (log_of s tab !! index) in
    let l := mkBankLog (u32 (lr_player r)) (u8 (lr_action r)) tab (u32 (lr_item r)) (bl_enchant old)
               (u32 (lr_randomPropertyId r)) (u8 (u32 (lr_count r))) (u32 (lr_stamp r)) playerName itemName itemQuality
               ITEM_UNCHANGED in
    set_b_log (<[tab := set_entry index l (log_of s tab)]> (b_log s)) s.

Definition own_log_row (s : GuildBank) (r : LogRow) : bool :=
  (lr_guildid r =? b_guildid s) && Bool.eqb (lr_inferno r) (b_infernoBank s) &&
  (b_now s - 604800 <=? lr_stamp r).
Definition stamp_le (a b : LogRow) : Prop := lr_stamp a <= lr_stamp b.
#[export] Instance stamp_le_dec a b : Decision (stamp_le a b).
Proof. unfold stamp_le. apply _. Defined.

Definition load_log (acc : gmap Z nat * GuildBank) (r : LogRow) : gmap Z nat * GuildBank :=
  let '(index, s) := acc in
  let tab := u8 (lr_tab r) in
  let i := default 0%nat (index !! tab) in
  (<[tab := S i]> index, AppendLog i r s).
Definition LoadLog (s : GuildBank) : GuildBank :=
  match merge_sort stamp_le (List.filter (own_log_row s) (guild_bank_log (b_db s))) with
  | [] => s
  | rows => set_b_log_changed false (set_b_moneyLog_changed false (snd (foldl load_log (∅, s) rows)))
  end.

(** A bank as its guild creates it, then set up. *)
Definition SetGuild (guildid : Z) (s : GuildBank) : GuildBank :=
  let s := set_b_tabs 0 (set_b_guildid guildid s) in
  let s := LoadLog (LoadBank s) in
  set_b_itemUpdateQueue [] (set_b_log_changed false (set_b_moneyLog_changed false
    (set_b_money_changed false (set_b_tabs_changed false s)))).

(** ** Tabs *)
Definition tab_message (tab : Z) (t : BankTab) : string :=
  "GUpdateTab:" +:+ to_string tab +:+ ":" +:+ t_name t +:+ ":" +:+ t_icon t +:+ ":" +:+
  to_string (t_withdrawals t) +:+ ":" +:+ to_string (t_minrank t).

(** The lowest rank is deleted: its tabs go to the one above. *)
Definition update_minrank (rank : Z) (s : GuildBank) (tab : Z) : GuildBank :=
  let t := tab_info s tab in
  if t_minrank t =? rank then
    let t := mkBankTab (t_name t) (t_icon t) (t_withdrawals t) (u8 (t_minrank t - 1)) in
    SendGuildMessage (tab_message tab t) (set_b_tabs_changed true (set_b_tabInfo (<[tab := t]> (b_tabInfo s)) s))
  else s.
Definition UpdateMinranks (rank : Z) (s : GuildBank) : GuildBank := foldl (update_minrank rank) s tab_numbers.

(** The rows with the defaults of the columns (sql/create_databases.sql). *)
Definition new_tabs_row (s : GuildBank) : TabsRow :=
  mkTabsRow (b_guildid s) (b_infernoBank s) 1 ["Tab1"; "Tab2"; "Tab3"; "Tab4"; "Tab5"]
    ["inv_misc_bag_08"; "inv_misc_bag_05"; "inv_misc_bag_03"; "inv_misc_bag_06"; "inv_misc_bag_02"]
    [0; 0; 0; 0; 0] [0; 0; 0; 0; 0].
Definition insert_bank (s : GuildBank) : GuildBank :=
  let db := b_db s in
  let db := set_guild_bank_tabs (guild_bank_tabs db ++ [new_tabs_row s]) db in
  let db := match guild_bank_money db !! bank_key s with
            | Some _ => db
            | None => set_guild_bank_money (<[bank_key s := 0]> (guild_bank_money db)) db
            end in
  set_b_db db s.

Definition UnlockGuildBank (msg : string) (s : GuildBank) : GuildBank :=
  if negb (playerRankIndex s =? 0) then SendAddonMessage "UnlockGuildBank:Error:NotGM" s
  else match params msg with
  | [_; query] =>
      if query =s "Cost" then SendAddonMessage ("UnlockGuildBank:Cost:" +:+ to_string (GUILD_BANK_COST / GOLD)) s
      else if query =s "Ok" then
        if bp_money (b_player s) <? GUILD_BANK_COST then SendBuyError s
        else
          let s := set_b_tabs 1 (insert_bank s) in
          let s := modify_money (- GUILD_BANK_COST) s in
          let s := LoadLog (LoadBank s) in
          let s := SendBankInfo (SendGuildMessage "GUnlock:GuildBank:Ok" s) in
          set_b_moneyLog (b_moneyLog s ++ [mkMoneyLog (playerGuid s) ACTION_UNLOCK_GUILD_BANK GUILD_BANK_COST
                            (u32 (b_now s)) (bp_name (b_player s)) ITEM_NEW]) s
      else SendAddonMessage "UnlockGuildBank:Error:UnknownAction" s
  | _ => WrongSyntax "UnlockGuildBank" msg s
  end.

Definition tab_cost (tab : Z) : Z :=
  if tab =? 2 then TAB_2_COST
  else if tab =? 3 then TAB_3_COST
  else if tab =? 4 then TAB_4_COST
  else if tab =? 5 then TAB_5_COST
  else 0.

(** The tab is paid for: it is the number of tabs now. *)
Definition tab_unlocked (action tab cost : Z) (s : GuildBank) : GuildBank :=
  let s := SendGuildMessage ("GUnlock:Tab:" +:+ to_string tab +:+ ":Ok") (set_b_tabs tab s) in
  let s := LogAction action TAB_MONEY tab cost None s in
  SaveToDB (set_b_tabs_changed true s).
Definition UnlockTab (msg : string) (s : GuildBank) : GuildBank :=
  if negb (playerRankIndex s =? 0) then SendAddonMessage "UnlockTab:Error:NotGM" s
  else match params msg with
  | [_; p1; p2] =>
      let tab := u8 (atoi p1) in
      let moneySource := u8 (atoi p2) in
      if (tab <=? 1) || (MAX_TABS <? tab) then SendAddonMessage "UnlockTab:Error:ParamsOutOfRange" s
      else
        let cost := tab_cost tab in
        if cost =? 0 then SendAddonMessage "UnlockTab:Error:CantFindPrice" s
        else if moneySource =? 0 then
          if b_money s <? cost
          then SendAddonMessage "UnlockTab:Error:Player:NotEnoughMoney"
                 (SendNotification "Your guild bank does not have enough money." s)
          else tab_unlocked ACTION_UNLOCK_TAB_GUILD_MONEY tab cost
                 (set_b_money_changed true (set_b_money (u32 (b_money s - cost)) s))
        else
          if bp_money (b_player s) <? cost
          then SendAddonMessage "UnlockTab:Error:Bank:NotEnoughMoney" (SendBuyError s)
          else tab_unlocked ACTION_UNLOCK_TAB_PERSONAL_MONEY tab cost (modify_money (- cost) s)
  | _ => WrongSyntax "UnlockTab" msg s
  end.

Definition UnlockTabCost (msg : string) (s : GuildBank) : GuildBank :=
  if negb (playerRankIndex s =? 0) then SendAddonMessage "UnlockTabCost:Error:NotGM" s
  else match params msg with
  | [_; p1] =>
      let tab := u8 (atoi p1) in
      if (tab <=? 1) || (MAX_TABS <? tab) then SendAddonMessage "UnlockTabCost:Error:WrongTab" s
      else
        let cost := tab_cost tab in
        if cost =? 0 then SendAddonMessage "UnlockTabCost:Error:Cost0" s
        else SendAddonMessage ("Unlock:Tab:" +:+ to_string tab +:+ ":Cost:" +:+ to_string (cost / GOLD)) s
  | _ => WrongSyntax "UnlockTabCost" msg s
  end.

Definition UpdateTab (msg : string) (s : GuildBank) : GuildBank :=
  if negb (playerRankIndex s =? 0) then SendAddonMessage "UpdateTab:Error:NotGM" s
  else match params msg with
  | [_; p1; name; icon; p4; p5] =>
      let tab := u8 (atoi p1) in
      let withdrawals := u8 (atoi p4) in
      let minrank := u8 (atoi p5) in
      if (name =s "") || (30 <? Z.of_nat (String.length name)) then SendAddonMessage "UpdateTab:Error:WrongName" s
      else if (icon =s "") || (63 <? Z.of_nat (String.length icon)) then SendAddonMessage "UpdateTab:Error:WrongIcon" s
      else if MAX_WEEKLY_WITHDRAWALS <? withdrawals then SendAddonMessage "UpdateTab:Error:WrongWithdrawals" s
      else if GetRanksSize <? minrank then SendAddonMessage "UpdateTab:Error:WrongMinRank" s
      else
        let t := mkBankTab name icon withdrawals minrank in
        let s := set_b_tabInfo (<[tab := t]> (b_tabInfo s)) s in
        SaveToDB (set_b_tabs_changed true (SendGuildMessage (tab_message tab t) s))
  | _ => WrongSyntax "UpdateTab" msg s
  end.

(** ** Money *)
(** A number of copper in a [uint32]. *)
Definition parse_money (text : string) : option Z :=
  parsed ← strtoul_end text; if U32_MAX <? parsed then None else Some parsed.

Definition DepositMoney (msg : string) (s : GuildBank) : GuildBank :=
  match params msg with
  | [_; p1] =>
      match parse_money p1 with
      | None => WrongSyntax "DepositMoney" msg s
      | Some money =>
          if U32_MAX - b_money s <? money
          then SendAddonMessage "DepositMoney:Error:TooMuch"
                 (SendNotification "Your guild bank cannot hold that much." s)
          else if bp_money (b_player s) <? money
          then SendAddonMessage "DepositMoney:Error:NotEnoughMoney" (SendBuyError s)
          else
            let s := modify_money (- i32 money) s in
            let s := set_b_money (u32 (b_money s + money)) s in
            let s := LogAction ACTION_DEPOSIT_MONEY TAB_MONEY 0 money None s in
            let s := SendGuildMessage ("GMoney:" +:+ to_string (b_money s)) s in
            SaveToDB (set_b_money_changed true s)
      end
  | _ => WrongSyntax "DepositMoney" msg s
  end.

Definition WithdrawMoney (msg : string) (s : GuildBank) : GuildBank :=
  match params msg with
  | [_; p1] =>
      match parse_money p1 with
      | None => WrongSyntax "WithdrawMoney" msg s
      | Some money =>
          let '(may, s) := CanAccessTab 0 ACTION_WITHDRAW_MONEY s in
          if negb may
          then SendAddonMessage "WithdrawMoney:Error:NoAccess" (SendNotification "You dont have access to guild money." s)
          else if b_money s <? money
          then SendAddonMessage "WithdrawMoney:Error:NotEnoug"
                 (SendNotification "Your guild bank does not have enough money." s)
          else
            let s := set_b_money (u32 (b_money s - money)) s in
            let s := modify_money money s in
            let s := LogAction ACTION_WITHDRAW_MONEY TAB_MONEY 0 money None s in
            let s := SendGuildMessage ("GMoney:" +:+ to_string (b_money s)) s in
            SaveToDB (set_b_money_changed true s)
      end
  | _ => WrongSyntax "WithdrawMoney" msg s
  end.
End requests.
