(* ===== verification/GuildBankItems.v ===== *)
(** The items of the guild bank: deposits, withdrawals, swaps, moves and splits
    (src/game/GuildBank/GuildBank.cpp), and the parts of a player's inventory
    they use (src/game/Objects/Player.cpp, Item.h). *)

From S2P Require Import Prelude CString GuildBankTypes GuildBank GuildBankRequests.

(** ** The player's inventory

    A position is a bag and a slot; the items worn, in the backpack, in the
    bank slots and the bags themselves are in bag 255.  An [Item*] is the
    position of the item. *)
Abbreviation Pos := (Z * Z)%type (only parsing).

Definition is_bag_slot (slot : Z) : bool :=
  ((INVENTORY_SLOT_BAG_START <=? slot) && (slot <? INVENTORY_SLOT_BAG_END)) ||
  ((BANK_SLOT_BAG_START <=? slot) && (slot <? BANK_SLOT_BAG_END)).
Definition GetItemByPos (bag slot : Z) (p : BankPlayer) : option Item :=
  if bag =? INVENTORY_SLOT_BAG_0 then
    if (slot <? BANK_SLOT_BAG_END) || ((81 <=? slot) && (slot <? 113)) then bp_bags p !! (INVENTORY_SLOT_BAG_0, slot)
    else None
  else if is_bag_slot bag then _ ← bp_bags p !! (INVENTORY_SLOT_BAG_0, bag); bp_bags p !! (bag, slot)
  else None.

Definition upd_bags (f : gmap Pos Item -> gmap Pos Item) (s : GuildBank) : GuildBank :=
  set_b_player (set_bp_bags (f (bp_bags (b_player s))) (b_player s)) s.
Definition item_at (pos : Pos) (s : GuildBank) : option Item := bp_bags (b_player s) !! pos.
Definition upd_item (pos : Pos) (f : Item -> Item) (s : GuildBank) : GuildBank := upd_bags (alter f pos) s.

(** [SetCount(GetCount() + d)]. *)
Definition add_count (d : Z) (i : Item) : Item := set_it_count (u32 (it_count i + d)) i.

(** [Player::DestroyItem]; a bag in a bag slot takes its contents along. *)
Definition DestroyItem (pos : Pos) (s : GuildBank) : GuildBank :=
  upd_bags (fun bags =>
    let bags := if (fst pos =? INVENTORY_SLOT_BAG_0) && is_bag_slot (snd pos)
                then filter (fun pi => fst (fst pi) <> snd pos) bags else bags in
    delete pos bags) s.

Definition BIND_WHEN_PICKED_UP := 1.
Definition BIND_WHEN_EQUIPPED := 2.
Definition BIND_QUEST_ITEM := 4.
Definition BIND_ACCOUNT := 6.
Definition ITEM_DYNFLAG_BINDED := 1.
Definition ITEM_DYNFLAG_BOA := 262144.

Section items.
Context {env : BankEnv}.

(** Every item object has a prototype. *)
Definition GetProto (i : Item) : ItemPrototype :=
  default (mkProto "" 0 1 0 false 0) (GetItemPrototype (it_entry i)).
Definition IsBagPos (pos : Pos) : bool := (fst pos =? INVENTORY_SLOT_BAG_0) && is_bag_slot (snd pos).
Definition bind_stored (pos : Pos) (i : Item) : Item :=
  let b := ip_Bonding (GetProto i) in
  let i := if (b =? BIND_WHEN_PICKED_UP) || (b =? BIND_QUEST_ITEM) || ((b =? BIND_WHEN_EQUIPPED) && IsBagPos pos)
           then set_it_flags (Z.lor (it_flags i) ITEM_DYNFLAG_BINDED) i else i in
  if b =? BIND_ACCOUNT then set_it_flags (Z.lor (it_flags i) ITEM_DYNFLAG_BOA) i else i.

(** [Player::_StoreItem]: into an empty place, or onto the stack there. *)
Definition _StoreItem (pItem : Item) (bags : gmap Pos Item) (d : Z * Z * Z) : gmap Pos Item :=
  let '(bag, slot, count) := d in
  match bags !! (bag, slot) with
  | None => <[(bag, slot) := bind_stored (bag, slot) (set_it_count count pItem)]> bags
  | Some i => <[(bag, slot) := add_count count (bind_stored (bag, slot) i)]> bags
  end.
Definition dest_count (dest : list (Z * Z * Z)) : Z := foldr (fun d n => snd d + n) 0 dest.
(** [Player::StoreNewItem]: [None] when no item was made, otherwise where the
    last part of it ended up. *)
Definition StoreNewItem (dest : list (Z * Z * Z)) (entry : Z) (s : GuildBank) : option (option Pos) * GuildBank :=
  match CreateItem entry (u32 (dest_count dest)) with
  | None => (None, s)
  | Some pItem => (Some (fst <$> last dest), upd_bags (fun bags => foldl (_StoreItem pItem) bags dest) s)
  end.

Definition IsSoulBound (i : Item) : bool :=
  negb (Z.land (it_flags i) ITEM_DYNFLAG_BINDED =? 0) || negb (Z.land (it_flags i) ITEM_DYNFLAG_BOA =? 0).
Definition IsItemBankable (i : Item) (s : GuildBank) : bool * GuildBank :=
  if IsSoulBound i
  then (false, SendAddonMessage "Error:ItemSoulBound" (SendNotification "You cannot deposit soulbound items." s))
  else if ip_conjured (GetProto i)
  then (false, SendAddonMessage "Error:ItemConjured" (SendNotification "You cannot deposit conjured items." s))
  else if 0 <? ip_Duration (GetProto i)
  then (false, SendAddonMessage "Error:ItemTemporary" (SendNotification "You cannot deposit temporary items." s))
  else (true, s).

(** ** Items in memory *)
Definition at_place (tab slot : Z) (p : Z * BankItem) : bool := (bi_tab (snd p) =? tab) && (bi_slot (snd p) =? slot).
Definition GetItem (tab slot : Z) (s : GuildBank) : option (Z * BankItem) :=
  List.find (at_place tab slot) (b_items s).
Definition GetNewGuid (s : GuildBank) : Z :=
  u32 (foldl (fun guid p => if guid <? bi_guid (snd p) then bi_guid (snd p) else guid) 0 (b_items s) + 1).

(** Writing through a pointer, and removing it from the vector. *)
Definition write_address (a : Z) (i : BankItem) (l : list (Z * BankItem)) : list (Z * BankItem) :=
  (fun p => if fst p =? a then (a, i) else p) <$> l.
Definition put_item (a : Z) (i : BankItem) (s : GuildBank) : GuildBank :=
  set_b_items (write_address a i (b_items s)) s.
Fixpoint erase_address (a : Z) (l : list (Z * BankItem)) : list (Z * BankItem) :=
  match l with
  | [] => []
  | p :: l => if fst p =? a then l else p :: erase_address a l
  end.
Definition DeleteItem (a : Z) (s : GuildBank) : GuildBank := set_b_items (erase_address a (b_items s)) s.
Definition queue_update (i : BankItem) (s : GuildBank) : GuildBank :=
  set_b_itemUpdateQueue (b_itemUpdateQueue s ++ [i]) s.

(** [CloneItem] in both directions: the update fields as texts and back. *)
Definition charges_text (i : Item) : string :=
  foldr (fun n text => to_string (nth n (it_charges i) 0) +:+ " " +:+ text) "" (seq 0 MAX_ITEM_PROTO_SPELLS).
Definition enchant_text (i : Item) (n : nat) : string :=
  let '(id, duration, charges) := nth n (it_enchants i) (0, 0, 0) in
  to_string id +:+ " " +:+ to_string duration +:+ " " +:+ to_string charges +:+ " ".
Definition enchants_text (i : Item) : string :=
  foldr (fun n text => enchant_text i n +:+ text) "" (seq 0 MAX_ENCHANTMENT_SLOT).

Definition clone_to_bank (inferno : bool) (p : Item) (i : BankItem) : BankItem :=
  mkBankItem (bi_guildid i) (bi_guid i) (full_name (ip_Name1 (GetProto p)) (it_randomPropertyId p)) (bi_tab i)
    (bi_slot i) (it_entry p) (it_creator p) (it_giftCreator p) (bi_count i) (ip_Stackable (GetProto p))
    (it_duration p) (charges_text p) (u8 (it_flags p)) (enchants_text p)
    (fst (fst (nth 0%nat (it_enchants p) (0, 0, 0)))) (it_randomPropertyId p) (it_transmog p) (u8 (it_durability p))
    (it_text p) (if it_generatedLoot p then 1 else 0) inferno (ip_Quality (GetProto p)) (bi_state i).

Definition clone_to_player (i : BankItem) (p : Item) : Item :=
  let chr := Tokenizer.make (bi_charges i) " "%char in
  let ench := Tokenizer.make (bi_enchantments i) " "%char in
  let number n := u32 (strtoul (nth n ench "")) in
  mkItem (it_entry p) (it_count p) (bi_creatorGuid i) (bi_giftCreatorGuid i) (bi_duration i)
    (if (length chr =? MAX_ITEM_PROTO_SPELLS)%nat then map atoi chr else it_charges p)
    (bi_flags i) (map (fun n => (number (3 * n)%nat, number (3 * n + 1)%nat, number (3 * n + 2)%nat)) (seq 0 MAX_ENCHANTMENT_SLOT))
    (bi_randomPropertyId i) (bi_transmogrifyId i) (bi_durability i) (bi_text i) (bi_generated_loot i =? 1).

(** [CloneBankItem]: everything but the name and the quality. *)
Definition CloneBankItem (i : BankItem) (s : GuildBank) : BankItem :=
  set_bi_Name "" (set_bi_quality uninitialised (set_bi_guid (GetNewGuid s) (set_bi_guildid (b_guildid s) i))).

(** Descriptions of items in messages. *)
Definition colons (l : list string) : string := foldr (fun x text => ":" +:+ x +:+ text) "" l.
Definition item_brief (i : BankItem) : list string :=
  map to_string [bi_tab i; bi_slot i; bi_guid i; bi_item_template i; bi_count i].
Definition item_extra (i : BankItem) : list string :=
  [if 0 <? bi_randomPropertyId i then bi_Name i else "0"; to_string (bi_randomPropertyId i); to_string (bi_enchant i)].
Definition zeros (n : nat) : list string := repeat "0" n.

Definition tab_item_entry (i : BankItem) : string :=
  to_string (bi_tab i) +:+ colons (drop 1 (item_brief i) ++ item_extra i) +:+ ";".
Definition SendTabItems (msg : string) (s : GuildBank) : GuildBank :=
  match params msg with
  | [_; p1] =>
      let tab := u8 (atoi p1) in
      let s := SendTabWithdrawalsLeft tab s in
      let entries := omap (fun i => p ← GetItem tab i s; Some (tab_item_entry (snd p))) (seqZ 1 BANK_TAB_SIZE) in
      foldl (fun s m => SendAddonMessage m s) s (in_pieces ("TabItems:" +:+ to_string tab +:+ ":") entries)
  | _ => WrongSyntax "TabItems" msg s
  end.

(** ** Deposits *)
Definition new_bank_item (tab slot count : Z) (s : GuildBank) : BankItem :=
  mkBankItem (b_guildid s) (GetNewGuid s) "" tab slot 0 0 0 count 0 0 "" 0 "" 0 0 0 0 0 0 (b_infernoBank s) 0 ITEM_NEW.

(** What a deposit leaves in the bags: [after_rest] goes on with the rest of a
    stack that did not fit. *)
Definition take_deposited (pos : Pos) (count remainer : Z) (after_rest : GuildBank -> GuildBank) (s : GuildBank) : GuildBank :=
  if remainer =? 0 then
    match item_at pos s with
    | Some p => if count =? it_count p then DestroyItem pos s else upd_item pos (add_count (- count)) s
    | None => s
    end
  else after_rest (upd_item pos (add_count (- count)) s).

(** Add-on view, log and save at the end of a deposit of the item at [a]. *)
Definition deposit_done (a : Z) (i : BankItem) (count : Z) (s : GuildBank) : GuildBank :=
  let i := default i (snd <$> List.find (fun p => fst p =? a) (b_items s)) in
  let s := SendGuildMessage ("GDeposit" +:+ colons (item_brief i ++ item_extra i)) s in
  SaveToDB (LogAction ACTION_DEPOSIT_ITEM (bi_tab i) (bi_item_template i) count (Some i) s).

(** [DepositItemInSlot]; [state] is [ITEM_NEW] or [ITEM_CHANGED]. *)
Definition DepositItemInSlot_then (after_rest : GuildBank -> GuildBank) (bankTab bankSlot : Z) (pos : Pos)
    (count remainer : Z) (state : ItemUpdateState) (stack : bool) (s : GuildBank) : GuildBank :=
  match item_at pos s with
  | None => s
  | Some p =>
      if decide (state = ITEM_NEW) then
        let i := clone_to_bank (b_infernoBank s) p (new_bank_item bankTab bankSlot count s) in
        let a := new_address s in
        let s := AddItem a i (queue_update i s) in
        deposit_done a i count (take_deposited pos count remainer after_rest s)
      else
        match GetItem bankTab bankSlot s with
        | None => SendAddonMessage ("DepositItem:Error:CantFindStackDestinationItemAt:" +:+ to_string bankTab +:+ ":" +:+
                                    to_string bankSlot) s
        | Some (a, i) =>
            let i := set_bi_count (if stack then u32 (bi_count i + count) else count) i in
            let i := clone_to_bank (b_infernoBank s) p (set_bi_state state i) in
            let s := queue_update i (put_item a i s) in
            deposit_done a i count (take_deposited pos count remainer after_rest s)
        end
  end.

Definition bank_full (s : GuildBank) : GuildBank :=
  SendAddonMessage "DepositItem:Error:BankTabFullAdd" (SendNotification "Your bank tab is full." s).

(** A stack in the tab that can take more of the item. *)
Definition open_stack (tab : Z) (p : Item) (s : GuildBank) (slot : Z) : option (Z * BankItem) :=
  ai ← GetItem tab slot s;
  if (bi_item_template (snd ai) =? it_entry p) && (bi_count (snd ai) <? bi_maxStackSize (snd ai))
  then Some (slot, snd ai) else None.
Definition slot_free (tab : Z) (s : GuildBank) (slot : Z) : bool :=
  match GetItem tab slot s with Some _ => false | None => true end.

(** [DepositItemInFreeSlot]: onto a stack that is not full, the rest again;
    otherwise into the first free slot.  Every round fills a stack. *)
Fixpoint DepositItemInFreeSlot (fuel : nat) (bankTab : Z) (pos : Pos) (s : GuildBank) : GuildBank :=
  match fuel, item_at pos s with
  | S fuel, Some p =>
      match (if 1 <? ip_Stackable (GetProto p) then head (omap (open_stack bankTab p s) (seqZ 1 BANK_TAB_SIZE)) else None) with
      | Some (slot, i) =>
          if u32 (it_count p + bi_count i) <=? bi_maxStackSize i
          then DepositItemInSlot_then id bankTab slot pos (it_count p) 0 ITEM_CHANGED true s
          else
            let room := u32 (bi_maxStackSize i - bi_count i) in
            DepositItemInSlot_then (DepositItemInFreeSlot fuel bankTab pos) bankTab slot pos room
              (u32 (it_count p - room)) ITEM_CHANGED true s
      | None =>
          match List.find (slot_free bankTab s) (seqZ 1 BANK_TAB_SIZE) with
          | Some slot => DepositItemInSlot_then id bankTab slot pos (it_count p) 0 ITEM_NEW false s
          | None => bank_full s
          end
      end
  | _, _ => s
  end.
Definition deposit_fuel : nat := 99.
Definition DepositItemInSlot (bankTab bankSlot : Z) (pos : Pos) (count remainer : Z) (state : ItemUpdateState)
    (stack : bool) : GuildBank -> GuildBank :=
  DepositItemInSlot_then (DepositItemInFreeSlot deposit_fuel bankTab pos) bankTab bankSlot pos count remainer state stack.

(** [DepositInternal]: an item that is in no inventory, into the first free slot. *)
Definition DepositInternal (bankTab : Z) (item : Item) (s : GuildBank) : GuildBank :=
  match List.find (slot_free bankTab s) (seqZ 1 BANK_TAB_SIZE) with
  | Some slot =>
      let i := clone_to_bank (b_infernoBank s) item (new_bank_item bankTab slot (it_count item) s) in
      AddItem (new_address s) i (queue_update i s)
  | None => s
  end.

(** ** Withdrawals *)
(** A [BankItem*]: an item of the vector, or a copy somewhere else. *)
Definition store_ptr (a : option Z) (i : BankItem) (s : GuildBank) : GuildBank :=
  match a with Some a => put_item a i s | None => s end.
Definition delete_ptr (a : option Z) (s : GuildBank) : GuildBank :=
  match a with Some a => DeleteItem a s | None => s end.

(** The bank's side of a withdrawal: the item loses [count] (and is removed
    when nothing remains), the clients hear of it, the change is queued. *)
Definition withdrawn (bankTab bankSlot : Z) (a : option Z) (i : BankItem) (newCount remainer : Z) (swap : bool)
    (s : GuildBank) : BankItem * GuildBank :=
  if remainer =? 0 then
    let i := set_bi_state ITEM_REMOVED i in
    let s := store_ptr a i s in
    let s := if swap then s else SendGuildMessage ("GWithdraw" +:+ colons (map to_string [bankTab; bankSlot])) s in
    (i, queue_update i s)
  else
    let i := set_bi_state ITEM_CHANGED (set_bi_count newCount i) in
    let s := store_ptr a i s in
    let s := SendGuildMessage ("GPartialWithdraw" +:+ colons (item_brief i ++ zeros 3)) s in
    (i, queue_update i s).
Definition withdraw_done (bankTab : Z) (a : option Z) (i : BankItem) (count : Z) (s : GuildBank) : GuildBank :=
  let s := LogAction ACTION_WITHDRAW_ITEM (bi_tab i) (bi_item_template i) count (Some i) s in
  let s := if decide (bi_state i = ITEM_REMOVED) then delete_ptr a s else s in
  SendTabWithdrawalsLeft (u8 bankTab) s.

Definition WithdrawItem_to (bankTab bankSlot count playerBag playerSlot : Z) (a : option Z) (i : BankItem)
    (pItem : option Pos) (remainer : Z) (swap : bool) (s : GuildBank) : GuildBank :=
  let '(msg, dest) := CanStoreNewItem (b_player s) (u8 playerBag) (u8 playerSlot) (bi_item_template i) count in
  if negb (msg =? EQUIP_ERR_OK) then SendEquipError msg s
  else SaveToDB match pItem with
  | Some pos =>
      let '(i, s) := withdrawn bankTab bankSlot a i (u32 (bi_count i - count)) remainer swap s in
      withdraw_done bankTab a i count (upd_item pos (add_count count) s)
  | None =>
      match StoreNewItem dest (bi_item_template i) s with
      | (None, s) => s
      | (Some item, s) =>
          let s := match item with Some pos => upd_item pos (clone_to_player i) s | None => s end in
          let '(i, s) := withdrawn bankTab bankSlot a i remainer remainer swap s in
          withdraw_done bankTab a i count (set_b_out (b_out s ++ [NewItem (bi_item_template i) count]) s)
      end
  end.

(** [SwapItems].  The bag item is destroyed by the deposit; the pointer to it
    then reads the slot 255 and no bag. *)
Definition SwapItems (bagItem : Pos) (a : Z) (bankItem : BankItem) (s : GuildBank) : GuildBank :=
  let '(msg, _) := CanStoreNewItem (b_player s) NULL_BAG NULL_SLOT (bi_item_template bankItem) (bi_count bankItem) in
  if negb (msg =? EQUIP_ERR_OK) && negb (msg =? EQUIP_ERR_INVENTORY_FULL) then SendEquipError msg s
  else
    let count := from_option it_count 0 (item_at bagItem s) in
    let s := DepositItemInSlot (bi_tab bankItem) (bi_slot bankItem) bagItem count 0 ITEM_CHANGED false s in
    WithdrawItem_to (bi_tab bankItem) (bi_slot bankItem) (bi_count bankItem) INVENTORY_SLOT_BAG_0 NULL_SLOT
      None bankItem None 0 true s.
End items.
