(* ===== verification/GuildBankHandlers.v ===== *)
(** The requests of the guild bank's addon about items, and the dispatch of all
    requests (src/game/GuildBank/GuildBank.cpp). *)

From S2P Require Import Prelude CString GuildBankTypes GuildBank GuildBankRequests GuildBankItems.

Section handlers.
Context {env : BankEnv}.

Definition bad_place (tab slot : Z) : bool :=
  (tab =? 0) || (MAX_TABS <? tab) || (slot =? 0) || (BANK_TAB_SIZE <? slot).

(** ** Depositing *)
(** Onto an occupied place. *)
Definition deposit_onto (bankTab bankSlot : Z) (pos : Pos) (p : Item) (count : Z) (a : Z) (d : BankItem)
    (s : GuildBank) : GuildBank :=
  if (bi_item_template d =? it_entry p) && (bi_count d =? it_count p) && (bi_count d =? bi_maxStackSize d) &&
     (bi_randomPropertyId d =? it_randomPropertyId p)
  then SendAddonMessage "DepositItem:Swap:Error:SameItemSameCount" s
  else if (bi_item_template d =? it_entry p) && (1 <? bi_maxStackSize d) then
    if u32 (bi_count d + count) <=? bi_maxStackSize d
    then DepositItemInSlot bankTab bankSlot pos count 0 ITEM_CHANGED true s
    else if (count <? bi_count d) && (bi_count d =? bi_maxStackSize d) then
      let withdrawCount := u32 (bi_maxStackSize d - count) in
      let remainer := u32 (bi_maxStackSize d - withdrawCount) in
      WithdrawItem_to bankTab bankSlot withdrawCount (fst pos) (snd pos) (Some a) d (Some pos) remainer false s
    else
      let stackCount := u32 (bi_maxStackSize d - bi_count d) in
      DepositItemInSlot bankTab bankSlot pos stackCount 0 ITEM_CHANGED true s
  else SwapItems pos a d s.

(** From the client's numbering of bags and slots to the server's. *)
Definition deposit_pos (playerBag playerSlot : Z) : Pos :=
  if playerBag =? 0 then (INVENTORY_SLOT_BAG_0, u8 (playerSlot + INVENTORY_SLOT_ITEM_START - 1))
  else (u8 (playerBag + INVENTORY_SLOT_BAG_START - 1), u8 (playerSlot - 1)).

Definition DepositItem (msg : string) (s : GuildBank) : GuildBank :=
  match params msg with
  | [_; p1; p2; p3; p4; p5] =>
      let playerBag := u8 (atoi p1) in
      let playerSlot := u8 (atoi p2) in
      let bankTab := u8 (atoi p3) in
      let bankSlot := u8 (atoi p4) in
      let count := u8 (atoi p5) in
      if (bankTab =? 0) || (MAX_TABS <? bankTab) || (BANK_TAB_SIZE <? bankSlot)
      then SendAddonMessage "DepositItem:Error:ParamsOutOfRange" s
      else
        let '(may, s) := CanAccessTab bankTab ACTION_DEPOSIT_ITEM s in
        if negb may
        then SendAddonMessage "DepositItem:Error:NoRights" (SendNotification "You dont have access to this tab." s)
        else
          let pos := deposit_pos playerBag playerSlot in
          match GetItemByPos (fst pos) (snd pos) (b_player s) with
          | None => SendAddonMessage ("DepositItem:Error:CantGetPlayerItem:" +:+ to_string (fst pos) +:+ ":" +:+
                                      to_string (snd pos)) s
          | Some p =>
              let '(bankable, s) := IsItemBankable p s in
              if negb bankable then s
              else if ip_Stackable (GetProto p) <? count
              then SendAddonMessage "DepositItem:Error:Count>GetMaxStackCount" s
              else if bankSlot =? 0 then DepositItemInFreeSlot deposit_fuel bankTab pos s
              else match GetItem bankTab bankSlot s with
              | Some (a, d) => deposit_onto bankTab bankSlot pos p count a d s
              | None => DepositItemInSlot bankTab bankSlot pos count 0 ITEM_NEW false s
              end
          end
  | _ => WrongSyntax "DepositItem" msg s
  end.

(** ** Withdrawing *)
(** Onto an item in the bags. *)
Definition withdraw_onto (bankTab bankSlot withdrawCount playerBag playerSlot : Z) (p : Item) (a : Z) (i : BankItem)
    (s : GuildBank) : GuildBank :=
  let pos := (u8 playerBag, u8 playerSlot) in
  if (it_entry p =? bi_item_template i) && (1 <? bi_maxStackSize i) then
    let count := if ip_Stackable (GetProto p) <? u32 (withdrawCount + it_count p)
                 then u32 (ip_Stackable (GetProto p) - it_count p) else withdrawCount in
    WithdrawItem_to bankTab bankSlot count playerBag playerSlot (Some a) i (Some pos) (u32 (bi_count i - count)) false s
  else SwapItems pos a i s.

Definition withdraw_pos (playerBag playerSlot : Z) : Pos :=
  let playerBag := if playerBag =? 0 then 255 else u32 (playerBag + 18) in
  (playerBag, if playerBag =? 255 then u32 (playerSlot + 22) else u32 (playerSlot - 1)).

Definition WithdrawItem (msg : string) (s : GuildBank) : GuildBank :=
  match params msg with
  | [_; p1; p2; p3; p4; p5] =>
      let bankTab := u32 (atoi p1) in
      let bankSlot := u32 (atoi p2) in
      let playerBag := u32 (atoi p3) in
      let playerSlot := u32 (atoi p4) in
      let withdrawCount := u32 (atoi p5) in
      if bad_place bankTab bankSlot then SendAddonMessage "WithdrawItem:Error:ParamsOutOfRange" s
      else
        let '(may, s) := CanAccessTab (u8 bankTab) ACTION_WITHDRAW_ITEM s in
        if negb may
        then SendAddonMessage "WithdrawItem:Error:NoRights" (SendNotification "You dont have access to this tab." s)
        else match GetItem bankTab bankSlot s with
        | None => SendAddonMessage "WithdrawItem:Error:CantFindBankItem" s
        | Some (a, i) =>
            if bi_count i <? withdrawCount then SendAddonMessage "WithdrawItem:Error:CantWithdrawMoreThanCount" s
            else if (playerBag =? 0) && (playerSlot =? 0) then
              if bi_count i =? withdrawCount
              then WithdrawItem_to bankTab bankSlot (bi_count i) NULL_BAG NULL_SLOT (Some a) i None 0 false s
              else SendAddonMessage "WithdrawItem:Error:CantAutoWithdrawDifferentCount" s
            else
              let '(playerBag, playerSlot) := withdraw_pos playerBag playerSlot in
              match GetItemByPos (u8 playerBag) (u8 playerSlot) (b_player s) with
              | Some p =>
                  let '(bankable, s) := IsItemBankable p s in
                  if negb bankable then s
                  else withdraw_onto bankTab bankSlot withdrawCount playerBag playerSlot p a i s
              | None =>
                  WithdrawItem_to bankTab bankSlot withdrawCount playerBag playerSlot (Some a) i None
                    (u32 (bi_count i - withdrawCount)) false s
              end
        end
  | _ => WrongSyntax "WithdrawItem" msg s
  end.

(** ** Moving *)
Definition item_full (i : BankItem) : list string := item_brief i ++ item_extra i.
Definition MoveMessage (from to : list string) (s : GuildBank) : GuildBank :=
  SendGuildMessage ("GMoveItem:from" +:+ colons from +:+ ":to" +:+ colons to) s.

(** A changed item is written and queued. *)
Definition change_item (a : Z) (i : BankItem) (s : GuildBank) : GuildBank :=
  let i := set_bi_state ITEM_CHANGED i in queue_update i (put_item a i s).

Definition swap_places (a : Z) (i : BankItem) (b : Z) (d : BankItem) (fromSlot toSlot : Z) (s : GuildBank) : GuildBank :=
  let i := set_bi_slot toSlot i in
  let d := set_bi_slot fromSlot d in
  SaveToDB (MoveMessage (item_full i) (item_full d) (change_item b d (change_item a i s))).

Definition MoveItem_to (sItem dItem : option (Z * BankItem)) (bankTab fromSlot toSlot : Z) (s : GuildBank) : GuildBank :=
  let nothing := map to_string [bankTab; fromSlot] ++ zeros 6 in
  match sItem, dItem with
  | None, _ => SendAddonMessage "MoveItem:Error:CantGetSource" s
  | Some (a, i), None =>
      let i := set_bi_slot toSlot i in
      MoveMessage nothing (item_full i) (change_item a i s)
  | Some (a, i), Some (b, d) =>
      if bi_item_template i =? bi_item_template d then
        if (bi_count i =? bi_maxStackSize i) || (bi_count d =? bi_maxStackSize d)
        then swap_places a i b d fromSlot toSlot s
        else if u32 (bi_count i + bi_count d) <=? bi_maxStackSize i then
          let d := set_bi_count (u32 (bi_count i + bi_count d)) d in
          let s := change_item b d s in
          let i := set_bi_state ITEM_REMOVED i in
          let s := DeleteItem a (queue_update i (put_item a i s)) in
          MoveMessage nothing (item_full d) s
        else
          let sourceNewCount := u32 (bi_count i - u32 (bi_maxStackSize i - bi_count d)) in
          let i := set_bi_count sourceNewCount i in
          let d := set_bi_count (bi_maxStackSize d) d in
          MoveMessage (item_full i) (item_full d) (change_item b d (change_item a i s))
      else swap_places a i b d fromSlot toSlot s
  end.

Definition bad_places (tab fromSlot toSlot : Z) : bool :=
  (tab =? 0) || (MAX_TABS <? tab) || (fromSlot =? 0) || (BANK_TAB_SIZE <? fromSlot) ||
  (toSlot =? 0) || (BANK_TAB_SIZE <? toSlot).

Definition MoveItem (msg : string) (s : GuildBank) : GuildBank :=
  match params msg with
  | [_; p1; p2; p3] =>
      let bankTab := u8 (atoi p1) in
      let fromSlot := u8 (atoi p2) in
      let toSlot := u8 (atoi p3) in
      let '(may, s) := CanAccessTab bankTab ACTION_MOVE_ITEM s in
      if negb may
      then SendAddonMessage "MoveItem:Error:NoRights" (SendNotification "You dont have access in this tab." s)
      else if fromSlot =? toSlot then SendAddonMessage "MoveItem:Error:SameSourceDest" s
      else if bad_places bankTab fromSlot toSlot then SendAddonMessage "MoveItem:Error:ParamsOutOfRange" s
      else MoveItem_to (GetItem bankTab fromSlot s) (GetItem bankTab toSlot s) bankTab fromSlot toSlot s
  | _ => WrongSyntax "MoveItem" msg s
  end.

(** ** Splitting *)
Definition SplitMessage (i d : BankItem) (s : GuildBank) : GuildBank :=
  SendGuildMessage ("GSplitItem:from" +:+ colons (item_brief i ++ zeros 3) +:+ ":to" +:+ colons (item_brief d ++ zeros 3)) s.

Definition split_off (a : Z) (i : BankItem) (toSlot split : Z) (s : GuildBank) : GuildBank :=
  if bi_maxStackSize i <=? split then SendAddonMessage "SplitItem:Error:DestinationCountTooBig" s
  else if i32 (i32 (bi_count i) - split) <=? 0 then SendAddonMessage "SplitItem:Error:SourceLeftCount0" s
  else
    let i := set_bi_state ITEM_CHANGED (set_bi_count (u32 (i32 (bi_count i) - split)) i) in
    let s := queue_update i (put_item a i s) in
    let d := set_bi_state ITEM_NEW (set_bi_count split (set_bi_slot toSlot (CloneBankItem i s))) in
    let b := new_address s in
    SaveToDB (SplitMessage i d (AddItem b d (queue_update d s))).

Definition split_onto (a : Z) (i : BankItem) (b : Z) (d : BankItem) (split : Z) (s : GuildBank) : GuildBank :=
  if negb (bi_item_template i =? bi_item_template d) then SendAddonMessage "SplitItem:destinationItemDifferent" s
  else if negb (u32 (bi_count d + split) <=? bi_maxStackSize d) then SendAddonMessage "SplitItem:cantStackOnTarget" s
  else
    let sourceNewCount := u32 (bi_count i - split) in
    let destNewCount := u32 (bi_count d + split) in
    if sourceNewCount <=? 0 then SendAddonMessage "SplitItem:Error:SourceCount0" s
    else if bi_maxStackSize i <? sourceNewCount then SendAddonMessage "SplitItem:Error:BadSourceCount" s
    else if destNewCount <=? 0 then SendAddonMessage "SplitItem:Error:DestCount0" s
    else if bi_maxStackSize i <? destNewCount then SendAddonMessage "SplitItem:Error:BadDestCount" s
    else
      let i := set_bi_count sourceNewCount i in
      let d := set_bi_count destNewCount d in
      SplitMessage i d (change_item b d (change_item a i s)).

Definition SplitItem (msg : string) (s : GuildBank) : GuildBank :=
  match params msg with
  | [_; p1; p2; p3; p4] =>
      let bankTab := u8 (atoi p1) in
      let fromSlot := u8 (atoi p2) in
      let toSlot := u8 (atoi p3) in
      let split := u8 (atoi p4) in
      let '(may, s) := CanAccessTab bankTab ACTION_SPLIT_ITEM s in
      if negb may
      then SendAddonMessage "SplitItem:Error:NoRights" (SendNotification "You dont have access to this tab." s)
      else if fromSlot =? toSlot then SendAddonMessage "SplitItem:Error:fromSlot=toSlot" s
      else if bad_places bankTab fromSlot toSlot then SendAddonMessage "SplitItem:Error:ParamsOutOfRange" s
      else match GetItem bankTab fromSlot s with
      | None => s
      | Some (a, i) =>
          match GetItem bankTab toSlot s with
          | None => split_off a i toSlot split s
          | Some (b, d) => split_onto a i b d split s
          end
      end
  | _ => WrongSyntax "SplitItem" msg s
  end.

(** ** Destroying: switched off by [DESTROY_ITEM_ALLOWED] *)
Definition DestroyItem_msg (msg : string) (s : GuildBank) : GuildBank :=
  match params msg with
  | [_; p1; p2; p3] =>
      let bankTab := u8 (atoi p1) in
      let bankSlot := u8 (atoi p2) in
      let count := u8 (atoi p3) in
      let '(may, s) := CanAccessTab bankTab ACTION_DESTROY_ITEM s in
      if negb may
      then SendAddonMessage "DestroyItem:Error:NoRights" (SendNotification "You dont have access to this tab." s)
      else if bad_place bankTab bankSlot then SendAddonMessage "DestroyItem:Error:ParamsOutOfRange" s
      else match GetItem bankTab bankSlot s with
      | None => s
      | Some (a, i) =>
          if (bi_maxStackSize i <? count) || (bi_count i <? count)
          then SendAddonMessage "DestroyItem:Error:CountTooBig" s
          else if (count =? 0) || (count =? bi_count i) then
            let i := set_bi_state ITEM_REMOVED i in
            let s := queue_update i (put_item a i s) in
            let s := SendGuildMessage ("GDestroy" +:+ colons (map to_string [bankTab; bankSlot; 0; bi_item_template i; bi_count i])) s in
            DeleteItem a (LogAction ACTION_DESTROY_ITEM bankTab (bi_item_template i) (bi_count i) (Some i) s)
          else
            let i := set_bi_state ITEM_CHANGED (set_bi_count (u32 (bi_count i - count)) i) in
            let s := SendGuildMessage ("GPartialDestroy" +:+ colons (item_brief i)) (put_item a i s) in
            LogAction ACTION_DESTROY_ITEM bankTab (bi_item_template i) count (Some i) s
      end
  | _ => WrongSyntax "DestroyItem" msg s
  end.

(** ** Dispatch *)
(** The configured keepers: [while (std::getline(...))] over the commas. *)
Definition parse_entries (text : string) : list Z :=
  List.filter (fun e => negb (e =? 0)) (map (fun number => u32 (atoi number)) (getlines ","%char text)).
Definition GetGuildBankNpcEntries (horde : bool) : list Z :=
  parse_entries (if horde then cfg_NpcEntriesHorde else cfg_NpcEntriesAlliance).

Definition keeper_entries : list Z := [62008; 62009; 62010; 62011; 62012; 80917; 80918].
Definition UNIT_NPC_FLAG_GOSSIP := 1.
Definition GOSSIP_OPTION_GUILD_BANKER := 18.
Definition banker_option (c : Banker) (item : Z * Z) : bool :=
  (fst item =? GOSSIP_OPTION_GUILD_BANKER) && negb (Z.land (snd item) (cr_npcflags c) =? 0).
Definition is_banker (c : Banker) : bool :=
  existsb (Z.eqb (cr_entry c)) keeper_entries ||
  (negb (Z.land (cr_npcflags c) UNIT_NPC_FLAG_GOSSIP =? 0) &&
   existsb (banker_option c) match GetGossipMenuItems (cr_menu c) with
                             | [] => GetGossipMenuItems 0
                             | items => items
                             end).
Definition canUseGuildBank (p : BankPlayer) : bool :=
  from_option is_banker false (bp_target p) ||
  existsb (fun entry => bool_decide (entry ∈ bp_near p)) (GetGuildBankNpcEntries (bp_horde p)).

Definition on (msg name : string) (handler : string -> GuildBank -> GuildBank) (s : GuildBank) : GuildBank :=
  if strstr msg name then handler msg s else s.

Definition HandleAddonMessages (msg : string) (player : BankPlayer) (s : GuildBank) : GuildBank :=
  let s := set_b_player player s in
  if negb (canUseGuildBank player) then s
  else if b_saveLock s then SendAddonMessage "ActionBlockedBySaveLock" s
  else if strstr msg "UnlockGuildBank:" then UnlockGuildBank msg s
  else if b_tabs s =? 0 then SendAddonMessage "BankInfo:NoGuildBank" s
  else
    let s := on msg "UnlockTab:" UnlockTab s in
    let s := on msg "UnlockTabCost:" UnlockTabCost s in
    let s := on msg "GetBankInfo:" (fun _ => SendBankInfo) s in
    let s := on msg "GetTabItems:" SendTabItems s in
    let s := on msg "GetTabWithdrawalsLeft:" SendTabWithdrawalsLeft_msg s in
    let s := on msg "GetTabLog:" SendTabLog s in
    let s := on msg "GetMoneyLog:" (fun _ => SendMoneyLog) s in
    let s := on msg "DepositItem:" DepositItem s in
    let s := on msg "WithdrawItem:" WithdrawItem s in
    let s := on msg "MoveItem:" MoveItem s in
    let s := on msg "SplitItem:" SplitItem s in
    let s := if DESTROY_ITEM_ALLOWED then on msg "DestroyItem:" DestroyItem_msg s else s in
    let s := on msg "UpdateTab:" UpdateTab s in
    let s := on msg "DepositMoney:" DepositMoney s in
    on msg "WithdrawMoney:" WithdrawMoney s.
End handlers.
