(* ===== verification/GuildBankDemo.v ===== *)
(** Concrete inputs for the guild bank's theorems: items, players and a bank
    that has been opened and filled. *)

From S2P Require Import Prelude CString GuildBankTypes GuildBank GuildBankRequests GuildBankItems GuildBankHandlers.

(** Cloth comes in stacks of twenty, a sword alone, a letter can be read. *)
Definition CLOTH := 100.
Definition SWORD := 200.
Definition LETTER := 300.
Definition demo_proto (entry : Z) : option ItemPrototype :=
  if entry =? CLOTH then Some (mkProto "Cloth" 1 20 0 false 0)
  else if entry =? SWORD then Some (mkProto "Sword" 2 1 0 false 0)
  else if entry =? LETTER then Some (mkProto "Letter" 1 1 0 false 0)
  else None.

Definition no_enchants : list (Z * Z * Z) := replicate 7 (0, 0, 0).
Definition demo_item (entry count : Z) : Item :=
  mkItem entry count 0 0 0 [0; 0; 0; 0; 0] 0 no_enchants 0 0 50 0 false.

(** The backpack's places, first fit; a place that is named and free is taken. *)
Definition backpack : list Z := seqZ 23 16.
Definition demo_store (p : BankPlayer) (bag slot entry count : Z) : Z * list (Z * Z * Z) :=
  if (bag =? 255) && negb (slot =? 255) && bool_decide (bp_bags p !! (bag, slot) = None)
  then (EQUIP_ERR_OK, [(bag, slot, count)])
  else match List.find (fun k => bool_decide (bp_bags p !! (255, k) = None)) backpack with
       | Some k => (EQUIP_ERR_OK, [(255, k, count)])
       | None => (EQUIP_ERR_INVENTORY_FULL, [])
       end.

Definition demo_bank_env : BankEnv := {|
  GetItemPrototype := demo_proto;
  nameSuffix _ := "of the Owl";
  CreateItem entry count := if count <? 1 then None else Some (demo_item entry count);
  CanStoreNewItem := demo_store;
  GetPlayerDataByGUID _ := None;
  GetRanksSize := 5;
  localtime _ := (3, 12, 0, 0);
  GetGossipMenuItems _ := [];
  cfg_NpcEntriesAlliance := "80917";
  cfg_NpcEntriesHorde := "80918";
  uninitialised := 0 |}.

Definition keeper : option Banker := Some (mkBanker 80917 1 0).
Definition demo_master (bags : gmap (Z * Z) Item) : BankPlayer :=
  mkBankPlayer 1 "Master" 0 100000000 bags keeper ∅ false.
Definition demo_member (bags : gmap (Z * Z) Item) : BankPlayer :=
  mkBankPlayer 2 "Member" 3 5000 bags keeper ∅ false.
Definition demo_bags : gmap (Z * Z) Item := list_to_map
  [((255, 23), demo_item CLOTH 15); ((255, 24), demo_item SWORD 1); ((255, 25), demo_item CLOTH 1)].

Definition empty_db : BankDB := mkDB ∅ ∅ [] [].
Definition no_bank : GuildBank :=
  mkBank 0 [] ∅ ∅ [] [] false false false false false false 7 0 (demo_master ∅) [] empty_db 1000000.

Section runs.
#[local] Existing Instance demo_bank_env.

(** Requests of one player; he keeps what he has from one to the next. *)
Definition asks (s : GuildBank) (msg : string) : GuildBank := HandleAddonMessages msg (b_player s) s.
Definition demo_bank (p : BankPlayer) (msgs : list string) : GuildBank :=
  let s := HandleAddonMessages "UnlockGuildBank:Ok" (demo_master ∅) no_bank in
  foldl asks (set_b_out [] (set_b_player p s)) msgs.
End runs.
