(* ===== verification/GuildBankKernel.v ===== *)
(** The bank's items in memory against their rows in the database: [mirrored]
    says that the items have distinct addresses and guids and that the pending
    changes turn the table into their image.  [bank_ok]: the items have places of
    their own, too.  The basic changes of a bank keep it. *)

From S2P Require Import Prelude CString GuildBankTypes GuildBank GuildBankRequests GuildBankItems.

(** ** Lists of items *)
Definition place (i : BankItem) : Z * Z := (bi_tab i, bi_slot i).
Definition place_ok (i : BankItem) : Prop := 1 <= bi_tab i <= MAX_TABS /\ 1 <= bi_slot i <= BANK_TAB_SIZE.
Definition guid_of (p : Z * BankItem) : Z := bi_guid (snd p).
Definition place_of (p : Z * BankItem) : Z * Z := place (snd p).

(** An item of the bank [g], [inf]. *)
Definition belongs (g : Z) (inf : bool) (i : BankItem) : Prop :=
  bi_guildid i = g /\ bi_is_inferno i = inf /\ 0 < bi_guid i < 2 ^ 32 /\ place_ok i.

Record items_ok (g : Z) (inf : bool) (l : list (Z * BankItem)) : Prop := {
  io_addr : NoDup (fst <$> l);
  io_guid : NoDup (guid_of <$> l);
  io_all : Forall (fun p => belongs g inf (snd p)) l
}.

#[export] Instance items_ok_proper g inf : Proper ((≡ₚ) ==> iff) (items_ok g inf).
Proof. intros l l' E. split; intros [A B C]; split; by rewrite ?E in *. Qed.

Lemma items_cons g inf l a i : items_ok g inf ((a, i) :: l) <->
  (a ∉ (fst <$> l)) /\ (bi_guid i ∉ (guid_of <$> l)) /\ belongs g inf i /\ items_ok g inf l.
Proof.
  split.
  - intros [A B C]. apply NoDup_cons in A as [??], B as [??]. apply Forall_cons in C as [??]. done.
  - intros (A & B & C & [E F H]). by split; csimpl; constructor.
Qed.
Lemma items_split g inf l a i : items_ok g inf l -> (a, i) ∈ l ->
  exists l', l ≡ₚ (a, i) :: l' /\ a ∉ (fst <$> l').
Proof.
  intros Hok (l' & E)%elem_of_Permutation. exists l'. split; [done|]. rewrite E in Hok. by apply items_cons in Hok as (? & _).
Qed.

#[export] Instance write_address_proper a i : Proper ((≡ₚ) ==> (≡ₚ)) (write_address a i).
Proof. intros l l' E. by apply fmap_Permutation. Qed.
Lemma write_absent a i l : a ∉ (fst <$> l) -> write_address a i l = l.
Proof.
  unfold write_address. induction l as [|p l IH]; csimpl; [done|]. intros [Hn Hl]%not_elem_of_cons.
  destruct (Z.eqb_spec (fst p) a); [congruence|]. f_equal. by apply IH.
Qed.
Lemma write_cons a i i0 l : a ∉ (fst <$> l) -> write_address a i ((a, i0) :: l) = (a, i) :: l.
Proof. intros Hn. unfold write_address. csimpl. rewrite Z.eqb_refl. f_equal. by apply write_absent. Qed.
Lemma write_other a i b j l : b <> a -> write_address a i ((b, j) :: l) = (b, j) :: write_address a i l.
Proof. intros Hn. unfold write_address. csimpl. destruct (Z.eqb_spec b a); [congruence|done]. Qed.

Lemma erase_Permutation a i l : NoDup (fst <$> l) -> (a, i) ∈ l -> l ≡ₚ (a, i) :: erase_address a l.
Proof.
  induction l as [|[b j] l IH]; csimpl; [by intros _ ?%not_elem_of_nil|].
  intros [Hn Hl]%NoDup_cons Hin. destruct (Z.eqb_spec b a) as [->|Hne].
  - apply elem_of_cons in Hin as [E|Hin]; [by rewrite E|]. exfalso. apply Hn. apply list_elem_of_fmap. by exists (a, i).
  - apply elem_of_cons in Hin as [[= <- <-]|Hin]; [done|]. rewrite (IH Hl Hin) at 1. by constructor.
Qed.

(** ** Rows *)
Definition row_entry (p : Z * BankItem) : Z * Z * bool * BankRow := (row_key (snd p), row_of (snd p)).
Definition rows (l : list (Z * BankItem)) : BankTable := list_to_map (row_entry <$> l).

Lemma guid_key g inf i j : belongs g inf i -> belongs g inf j -> row_key i = row_key j -> bi_guid i = bi_guid j.
Proof. unfold row_key. congruence. Qed.
Lemma row_key_fresh g inf l i : items_ok g inf l -> belongs g inf i -> bi_guid i ∉ (guid_of <$> l) ->
  row_key i ∉ (fst <$> (row_entry <$> l)).
Proof.
  intros [_ _ Hall] Hi Hn Hin. apply Hn.
  rewrite <- list_fmap_compose in Hin. apply list_elem_of_fmap in Hin as (p & Hk & Hp).
  apply list_elem_of_fmap. exists p. split; [|done]. rewrite Forall_forall in Hall.
  eapply guid_key; [done|by apply Hall|done].
Qed.
Lemma rows_None g inf l i : items_ok g inf l -> belongs g inf i -> bi_guid i ∉ (guid_of <$> l) -> rows l !! row_key i = None.
Proof. intros ???. apply not_elem_of_list_to_map_1. by eapply row_key_fresh. Qed.
Lemma rows_foreign g inf l k : items_ok g inf l -> (fst (fst k) <> g \/ snd k <> inf) -> rows l !! k = None.
Proof.
  intros [_ _ Hall] Hk. rewrite Forall_forall in Hall. apply not_elem_of_list_to_map_1.
  rewrite <- list_fmap_compose. intros (p & -> & Hp)%list_elem_of_fmap.
  destruct (Hall p Hp) as (? & ? & _). unfold compose in Hk. cbn in Hk. tauto.
Qed.
Lemma NoDup_row_keys g inf l : items_ok g inf l -> NoDup ((row_entry <$> l).*1).
Proof.
  induction l as [|[a i] l IH]; [intros; constructor|]. intros (_ & Hg & Hi & Hok)%items_cons.
  csimpl. constructor; [by eapply row_key_fresh|by apply IH].
Qed.
Lemma rows_perm g inf l l' : items_ok g inf l -> l ≡ₚ l' -> rows l = rows l'.
Proof. intros Hok E. apply list_to_map_proper; [by eapply NoDup_row_keys|by apply fmap_Permutation]. Qed.
Lemma rows_cons a i l : rows ((a, i) :: l) = <[row_key i := row_of i]> (rows l).
Proof. done. Qed.

(** ** Pending changes *)
(** The table once the queue is worked off; the rows of the guild, in either of
    its banks, are then those of the items. *)
Definition pending (g : Z) (q : list BankItem) (t : BankTable) (l : list (Z * BankItem)) : Prop :=
  exists t', save_items q t = Some t' /\ forall k, fst (fst k) = g -> t' !! k = rows l !! k.

Definition mirrored (s : GuildBank) : Prop :=
  items_ok (b_guildid s) (b_infernoBank s) (b_items s) /\
  pending (b_guildid s) (b_itemUpdateQueue s) (guild_bank (b_db s)) (b_items s).

Lemma save_items_snoc q i t : save_items (q ++ [i]) t = save_items q t ≫= save_item i.
Proof. unfold save_items. by rewrite foldl_snoc. Qed.

Lemma pending_save g q t l i l' :
  pending g q t l ->
  (forall t', (forall k, fst (fst k) = g -> t' !! k = rows l !! k) ->
     exists t'', save_item i t' = Some t'' /\ forall k, fst (fst k) = g -> t'' !! k = rows l' !! k) ->
  pending g (q ++ [i]) t l'.
Proof.
  intros (t' & Hs & Ht) Hi. destruct (Hi t' Ht) as (t'' & Hs' & Ht'). exists t''. split; [|done].
  by rewrite save_items_snoc, Hs.
Qed.

Lemma pending_new g inf q t l a i :
  pending g q t l -> items_ok g inf (l ++ [(a, i)]) -> bi_state i = ITEM_NEW ->
  pending g (q ++ [i]) t (l ++ [(a, i)]).
Proof.
  intros Hp Hok Hst. assert (l ++ [(a, i)] ≡ₚ (a, i) :: l) as E by (symmetry; apply Permutation_cons_append).
  rewrite E in Hok. pose proof Hok as (_ & Hg & Hi & Hok')%items_cons.
  refine (pending_save _ _ _ _ _ _ Hp _). intros t' Ht. unfold save_item. rewrite Hst. unfold AddToDB.
  rewrite (Ht (row_key i)) by apply Hi. rewrite (rows_None _ _ _ _ Hok' Hi Hg). eexists. split; [done|].
  intros k Hk. rewrite <- (rows_perm _ _ _ _ Hok) by (symmetry; exact E). rewrite rows_cons.
  destruct (decide (k = row_key i)) as [->|Hne]; [by rewrite !lookup_insert, !decide_True|].
  rewrite !lookup_insert_ne by done. by apply Ht.
Qed.

(** The key of the guild's other bank is free. *)
Lemma other_key_free g inf l i : items_ok g inf l -> belongs g inf i -> rows l !! other_key i = None.
Proof.
  intros Hok (Hg & Hinf & _). eapply rows_foreign; [done|]. right. cbn. rewrite Hinf. by destruct inf.
Qed.

Lemma pending_changed g inf q t l a i i0 l' :
  pending g q t l -> items_ok g inf ((a, i0) :: l') -> l ≡ₚ (a, i0) :: l' -> belongs g inf i -> bi_guid i = bi_guid i0 ->
  bi_state i = ITEM_CHANGED -> pending g (q ++ [i]) t ((a, i) :: l').
Proof.
  intros Hp Hok E Hi Hg Hst. pose proof Hok as (_ & _ & Hi0 & _)%items_cons.
  assert (row_key i = row_key i0) as Hk0 by (unfold row_key; destruct Hi as (-> & -> & _), Hi0 as (-> & -> & _); congruence).
  assert (other_key i = other_key i0) as Ho0 by (unfold other_key, row_key in *; congruence).
  refine (pending_save _ _ _ _ _ _ Hp _). intros t' Ht. unfold save_item. rewrite Hst. unfold SaveItemToDB.
  assert (items_ok g inf l) as Hl by (by rewrite E).
  rewrite (Ht (row_key i)), (Ht (other_key i)) by apply Hi.
  rewrite (rows_perm _ _ _ _ Hl E), rows_cons, Hk0, lookup_insert, Ho0, decide_True by done.
  rewrite <- rows_cons with (a := a), (other_key_free _ _ _ _ Hok Hi0). eexists. split; [done|].
  intros k Hk. rewrite rows_cons, Hk0. destruct (decide (k = row_key i0)) as [->|Hne]; [by rewrite !lookup_insert, !decide_True|].
  rewrite !lookup_insert_ne by done. destruct (decide (k = other_key i0)) as [->|Hno].
  - rewrite lookup_delete, decide_True by done. pose proof (other_key_free _ _ _ _ Hok Hi0) as Ho.
    rewrite rows_cons, lookup_insert_ne in Ho by (unfold other_key, row_key; intros [=]; by destruct (bi_is_inferno i0)).
    done.
  - rewrite lookup_delete_ne by done. rewrite (Ht k Hk), (rows_perm _ _ _ _ Hl E), rows_cons. by rewrite lookup_insert_ne.
Qed.

Lemma pending_removed g inf q t l a i i0 l' :
  pending g q t l -> items_ok g inf ((a, i0) :: l') -> l ≡ₚ (a, i0) :: l' -> row_key i = row_key i0 ->
  bi_state i = ITEM_REMOVED -> pending g (q ++ [i]) t l'.
Proof.
  intros Hp Hok E Hk0 Hst. pose proof Hok as (_ & Hg & Hi0 & Hok')%items_cons.
  refine (pending_save _ _ _ _ _ _ Hp _). intros t' Ht. unfold save_item. rewrite Hst. unfold DeleteItemFromDB.
  assert (items_ok g inf l) as Hl by (by rewrite E). eexists. split; [done|].
  intros k Hk. rewrite Hk0. destruct (decide (k = row_key i0)) as [->|Hne].
  - rewrite lookup_delete, decide_True by done. symmetry. by eapply rows_None.
  - rewrite lookup_delete_ne by done. rewrite (Ht k Hk), (rows_perm _ _ _ _ Hl E), rows_cons. by rewrite lookup_insert_ne.
Qed.

(** [bank_ok]: the items have places of their own and are [mirrored] by the
    table and the pending changes.  The basic changes of a bank keep it. *)

Definition bank_ok (s : GuildBank) : Prop := mirrored s /\ NoDup (place_of <$> b_items s).

(** What [bank_ok] depends on. *)
Definition core (s : GuildBank) :=
  (b_items s, b_itemUpdateQueue s, guild_bank (b_db s), (b_guildid s, b_infernoBank s)).
Lemma bank_ok_core s s' : core s' = core s -> bank_ok s -> bank_ok s'.
Proof. unfold core, bank_ok, mirrored. by intros [= -> -> -> -> ->]. Qed.

(** Most operations leave it alone. *)
Section frames.
Context (s : GuildBank).
Lemma core_addon text : core (SendAddonMessage text s) = core s. Proof. done. Qed.
Lemma core_guild text : core (SendGuildMessage text s) = core s. Proof. done. Qed.
Lemma core_notify text : core (SendNotification text s) = core s. Proof. done. Qed.
Lemma core_buy : core (SendBuyError s) = core s. Proof. done. Qed.
Lemma core_out x : core (set_b_out x s) = core s. Proof. done. Qed.
Lemma core_player x : core (set_b_player x s) = core s. Proof. done. Qed.
Lemma core_ModifyMoney d : core (modify_money d s) = core s. Proof. done. Qed.
Lemma core_money x : core (set_b_money x s) = core s. Proof. done. Qed.
Lemma core_tabs x : core (set_b_tabs x s) = core s. Proof. done. Qed.
Lemma core_tabInfo x : core (set_b_tabInfo x s) = core s. Proof. done. Qed.
Lemma core_moneyLog x : core (set_b_moneyLog x s) = core s. Proof. done. Qed.
Lemma core_log x : core (set_b_log x s) = core s. Proof. done. Qed.
Lemma core_money_changed x : core (set_b_money_changed x s) = core s. Proof. done. Qed.
Lemma core_tabs_changed x : core (set_b_tabs_changed x s) = core s. Proof. done. Qed.
Lemma core_moneyLog_changed x : core (set_b_moneyLog_changed x s) = core s. Proof. done. Qed.
Lemma core_log_changed x : core (set_b_log_changed x s) = core s. Proof. done. Qed.
End frames.
Section frames_env.
Context {env : BankEnv}.
Lemma core_LogAction action tab item count i s : core (LogAction action tab item count i s) = core s.
Proof. unfold LogAction. by repeat case_match. Qed.
End frames_env.
Create Rewrite HintDb bank_core.
#[export] Hint Rewrite core_addon core_guild core_notify core_buy core_out core_player core_ModifyMoney core_money core_tabs
  core_tabInfo core_moneyLog core_log core_money_changed core_tabs_changed core_moneyLog_changed core_log_changed
  @core_LogAction : bank_core.
(** [same_core s]: the state is [s] as far as [bank_ok] is concerned. *)
Ltac same_core s := apply (bank_ok_core s); [autorewrite with bank_core; reflexivity|].

Lemma bank_ok_belongs s a i : bank_ok s -> (a, i) ∈ b_items s -> belongs (b_guildid s) (b_infernoBank s) i.
Proof. intros [[[_ _ H] _] _] Hin. rewrite Forall_forall in H. by apply (H (a, i)). Qed.
Lemma bank_ok_same s p q : bank_ok s -> p ∈ b_items s -> q ∈ b_items s -> place_of p = place_of q -> p = q.
Proof.
  intros [_ H] (l & E)%elem_of_Permutation Hq Hp. rewrite E in H, Hq. csimpl in H. apply NoDup_cons in H as [Hn _].
  apply elem_of_cons in Hq as [->|Hq]; [done|]. exfalso. apply Hn. apply list_elem_of_fmap. by exists q.
Qed.
Lemma bank_ok_address s a i j : bank_ok s -> (a, i) ∈ b_items s -> (a, j) ∈ b_items s -> i = j.
Proof.
  intros [[[H _ _] _] _] (l & E)%elem_of_Permutation Hj. rewrite E in H, Hj. csimpl in H. apply NoDup_cons in H as [Hn _].
  apply elem_of_cons in Hj as [[= ->]|Hj]; [done|]. exfalso. apply Hn. apply list_elem_of_fmap. by exists (a, j).
Qed.

(** ** Adding *)
Lemma ok_new s a i : bank_ok s -> bi_state i = ITEM_NEW -> belongs (b_guildid s) (b_infernoBank s) i ->
  a ∉ (fst <$> b_items s) -> bi_guid i ∉ (guid_of <$> b_items s) -> place i ∉ (place_of <$> b_items s) ->
  bank_ok (AddItem a i (queue_update i s)).
Proof.
  intros [[Hok Hp] Hd] Hst Hi Ha Hg Hpl.
  assert (b_items s ++ [(a, i)] ≡ₚ (a, i) :: b_items s) as E by (symmetry; apply Permutation_cons_append).
  assert (items_ok (b_guildid s) (b_infernoBank s) (b_items s ++ [(a, i)])) as Hok' by (rewrite E; by apply items_cons).
  split; [split; [done|]|].
  - by eapply pending_new.
  - simpl. rewrite E. by apply NoDup_cons.
Qed.

(** ** Changing *)
Lemma mirrored_change s a i i0 : mirrored s -> (a, i0) ∈ b_items s -> belongs (b_guildid s) (b_infernoBank s) i ->
  bi_guid i = bi_guid i0 -> bi_state i = ITEM_CHANGED -> mirrored (queue_update i (put_item a i s)).
Proof.
  intros [Hok Hp] Hin Hi Hg Hst. destruct (items_split _ _ _ _ _ Hok Hin) as (l & E & Ha).
  assert (items_ok (b_guildid s) (b_infernoBank s) ((a, i0) :: l)) as Hok0 by (by rewrite <- E).
  assert (write_address a i (b_items s) ≡ₚ (a, i) :: l) as E' by (rewrite E; by rewrite (write_cons a i i0)).
  assert (items_ok (b_guildid s) (b_infernoBank s) ((a, i) :: l)) as Hok1.
  { apply items_cons in Hok0 as (? & ? & ? & ?). apply items_cons. by rewrite Hg. }
  split; [simpl; by rewrite E'|].
  destruct (pending_changed _ _ _ _ _ _ _ _ _ Hp Hok0 E Hi Hg Hst) as (t & Ht & Hr). exists t. split; [done|].
  simpl. intros k Hk. rewrite (Hr k Hk). f_equal. apply (rows_perm _ _ _ _ Hok1). by symmetry.
Qed.

Lemma ok_change s a i i0 : bank_ok s -> (a, i0) ∈ b_items s -> belongs (b_guildid s) (b_infernoBank s) i ->
  bi_guid i = bi_guid i0 -> bi_state i = ITEM_CHANGED ->
  (place i = place i0 \/ place i ∉ (place_of <$> b_items s)) -> bank_ok (queue_update i (put_item a i s)).
Proof.
  intros [Hm Hd] Hin Hi Hg Hst Hpl. split; [by eapply mirrored_change|]. destruct Hm as [Hok _].
  destruct (items_split _ _ _ _ _ Hok Hin) as (l & E & Ha). simpl. rewrite E in *. rewrite (write_cons a i i0) by done.
  csimpl in *. apply NoDup_cons in Hd as [Hn Hd]. apply NoDup_cons. split; [|done]. destruct Hpl as [Hpl|Hpl].
  - unfold place_of at 1 in Hn. simpl in Hn. rewrite <- Hpl in Hn. done.
  - by apply not_elem_of_cons in Hpl as [_ ?].
Qed.

Lemma changed_guids s a i i0 : bank_ok s -> (a, i0) ∈ b_items s -> bi_guid i = bi_guid i0 ->
  guid_of <$> b_items (put_item a i s) ≡ₚ guid_of <$> b_items s.
Proof.
  intros [[Hok _] _] Hin Hg. destruct (items_split _ _ _ _ _ Hok Hin) as (l & E & Ha). simpl. rewrite E.
  rewrite (write_cons a i i0) by done. csimpl. unfold guid_of at 1 3. simpl. by rewrite Hg.
Qed.

(** Two items exchange their places. *)
Lemma ok_swap s a i i0 b d d0 : bank_ok s -> (a, i0) ∈ b_items s -> (b, d0) ∈ b_items s -> a <> b ->
  belongs (b_guildid s) (b_infernoBank s) i -> belongs (b_guildid s) (b_infernoBank s) d ->
  bi_guid i = bi_guid i0 -> bi_guid d = bi_guid d0 -> bi_state i = ITEM_CHANGED -> bi_state d = ITEM_CHANGED ->
  (place i = place i0 /\ place d = place d0) \/ (place i = place d0 /\ place d = place i0) ->
  bank_ok (queue_update d (put_item b d (queue_update i (put_item a i s)))).
Proof.
  intros [Hm Hd] Hi0 Hd0 Hab Hi Hd' Hgi Hgd Hsi Hsd Hpl. pose proof Hm as [Hok _].
  destruct (items_split _ _ _ _ _ Hok Hi0) as (l & E & Ha). rewrite E in Hd0.
  apply elem_of_cons in Hd0 as [[= <- _]|Hd0]; [done|].
  assert (items_ok (b_guildid s) (b_infernoBank s) l) as Hokl by (rewrite E in Hok; by apply items_cons in Hok as (_ & _ & _ & ?)).
  destruct (items_split _ _ _ _ _ Hokl Hd0) as (l2 & E2 & Hb).
  assert (write_address a i (b_items s) ≡ₚ (a, i) :: (b, d0) :: l2) as E3 by (rewrite E, (write_cons a i i0) by done; by rewrite E2).
  split.
  - refine (mirrored_change _ _ _ d0 (mirrored_change _ _ _ i0 Hm Hi0 Hi Hgi Hsi) _ Hd' Hgd Hsd). simpl.
    rewrite E3. set_solver.
  - simpl. rewrite E3, write_other, (write_cons b d d0) by done. rewrite E, E2 in Hd. csimpl in *.
    unfold place_of at 1 2 in Hd. unfold place_of at 1 2. simpl in *.
    destruct Hpl as [[-> ->]|[-> ->]]; [done|]. by rewrite Permutation_swap.
Qed.

(** ** Removing *)
Lemma ok_remove s a i i0 : bank_ok s -> (a, i0) ∈ b_items s -> row_key i = row_key i0 -> bi_state i = ITEM_REMOVED ->
  bank_ok (DeleteItem a (queue_update i (put_item a i s))).
Proof.
  intros [[Hok Hp] Hd] Hin Hk Hst. destruct (items_split _ _ _ _ _ Hok Hin) as (l & E & Ha).
  assert (items_ok (b_guildid s) (b_infernoBank s) ((a, i0) :: l)) as Hok0 by (by rewrite <- E).
  pose proof Hok0 as (_ & _ & _ & Hl)%items_cons.
  assert (write_address a i (b_items s) ≡ₚ (a, i) :: l) as E' by (rewrite E; by rewrite (write_cons a i i0)).
  assert (erase_address a (write_address a i (b_items s)) ≡ₚ l) as E3.
  { apply (Permutation_cons_inv (a := (a, i))). rewrite <- E'. symmetry. apply erase_Permutation.
    - rewrite E'. csimpl. apply NoDup_cons. split; [done|apply Hl].
    - rewrite E'. set_solver. }
  split; [split|]; simpl.
  - by rewrite E3.
  - destruct (pending_removed _ _ _ _ _ _ _ _ _ Hp Hok0 E Hk Hst) as (t & Ht & Hr). exists t. split; [done|].
    intros k Hk'. rewrite (Hr k Hk'). f_equal. symmetry. apply (rows_perm (b_guildid s) (b_infernoBank s)); [by rewrite E3|done].
  - rewrite E3. rewrite E in Hd. by apply NoDup_cons in Hd as [_ ?].
Qed.

(** ** Saving *)
(** A save succeeds as far as the items are concerned, and leaves them where
    they were, with nothing pending. *)
Lemma save_statements_items s db : save_items (b_itemUpdateQueue s) (guild_bank db) ≫= (fun t => guild_bank <$> Some (set_guild_bank t db)) =
  guild_bank <$> save_statements s db.
Proof.
  unfold save_statements. repeat match goal with |- context [if ?b then _ else _] => destruct b end; simpl;
    by destruct (save_items _ _).
Qed.

Definition unchanged (p : Z * BankItem) : Z * BankItem := prod_map id (set_bi_state ITEM_UNCHANGED) p.
Lemma unchanged_addr (l : list (Z * BankItem)) : fst <$> (unchanged <$> l) = fst <$> l.
Proof. rewrite <- list_fmap_compose. by apply list_fmap_ext. Qed.
Lemma unchanged_guid (l : list (Z * BankItem)) : guid_of <$> (unchanged <$> l) = guid_of <$> l.
Proof. rewrite <- list_fmap_compose. by apply list_fmap_ext. Qed.
Lemma unchanged_place (l : list (Z * BankItem)) : place_of <$> (unchanged <$> l) = place_of <$> l.
Proof. rewrite <- list_fmap_compose. by apply list_fmap_ext. Qed.
Lemma unchanged_rows (l : list (Z * BankItem)) : rows (unchanged <$> l) = rows l.
Proof. unfold rows. rewrite <- list_fmap_compose. f_equal. Qed.
Lemma unchanged_ok g inf l : items_ok g inf l -> items_ok g inf (unchanged <$> l).
Proof.
  intros [A B C]. split; rewrite ?unchanged_addr, ?unchanged_guid; [done..|]. by rewrite Forall_fmap.
Qed.

Lemma SaveToDB_items s : b_items (SaveToDB s) = b_items s \/ b_items (SaveToDB s) = unchanged <$> b_items s.
Proof.
  unfold SaveToDB. destruct (b_saveLock s); [by left|]. destruct (nothing_to_save s); [by left|]. cbv zeta.
  repeat match goal with |- context [if ?b then _ else _] => destruct b end; auto.
Qed.

(** What a save leaves, whatever else it writes. *)
Definition saved (s s' : GuildBank) : Prop :=
  b_guildid s' = b_guildid s /\ b_infernoBank s' = b_infernoBank s /\
  (b_items s' = b_items s \/ b_items s' = unchanged <$> b_items s) /\ b_itemUpdateQueue s' = [] /\
  forall t, save_items (b_itemUpdateQueue s) (guild_bank (b_db s)) = Some t -> guild_bank (b_db s') = t.
Lemma SaveToDB_saved s : b_saveLock s = false -> saved s (SaveToDB s).
Proof.
  intros Hl. pose proof (SaveToDB_items s) as Hi. unfold SaveToDB in *. rewrite Hl in *.
  destruct (nothing_to_save s) eqn:Hn.
  - unfold nothing_to_save in Hn. rewrite !andb_true_iff, bool_decide_eq_true in Hn. destruct Hn as [_ Hq].
    unfold saved. split_and!; [done..|]. rewrite Hq. by intros t [= <-].
  - split_and!; [cbv zeta in *..|].
    1,2: repeat match goal with |- context [if ?b then _ else _] => destruct b end; done.
    + done.
    + destruct (b_moneyLog_changed s); cbn [b_log_changed set_b_moneyLog]; destruct (b_log_changed s);
        cbn [b_itemUpdateQueue set_b_moneyLog set_b_log]; by destruct (bool_decide_reflect (b_itemUpdateQueue s = [])).
    + intros t Ht. cbv zeta. unfold set_b_db at 1. simpl. pose proof (save_statements_items s (b_db s)) as He.
      rewrite Ht in He. simpl in He. destruct (save_statements s (b_db s)) as [db|]; [|done]. by injection He as ->.
Qed.

Lemma SaveToDB_locked s : b_saveLock s = true -> SaveToDB s = s.
Proof. intros H. unfold SaveToDB. by rewrite H. Qed.

Lemma ok_save s : bank_ok s -> bank_ok (SaveToDB s).
Proof.
  destruct (b_saveLock s) eqn:Hl; [by rewrite SaveToDB_locked|]. intros [[Hok (t & Ht & Hr)] Hd].
  destruct (SaveToDB_saved s Hl) as (Hg & Hi & Hit & Hq & Hdb). specialize (Hdb t Ht).
  unfold bank_ok, mirrored. rewrite Hg, Hi, Hq, Hdb. split; [split|].
  - destruct Hit as [->| ->]; [done|by apply unchanged_ok].
  - exists t. split; [done|]. intros k Hk. rewrite (Hr k Hk). by destruct Hit as [->| ->]; rewrite ?unchanged_rows.
  - destruct Hit as [->| ->]; [done|by rewrite unchanged_place].
Qed.
