(* ===== verification/GuildBankInv.v ===== *)
(** Every operation on the bank's items keeps [bank_ok], except for the
    exchange of an item in the bank with one in the bags ([SwapItems]). *)

From S2P Require Import Prelude CString GuildBankTypes GuildBank GuildBankRequests GuildBankItems GuildBankHandlers GuildBankKernel.

(** ** Operations that only talk *)
Definition says (s s' : GuildBank) : Prop := exists out, s' = set_b_out out s.
Lemma says_refl s : says s s.
Proof. exists (b_out s). by destruct s. Qed.
Lemma says_trans s1 s2 s3 : says s1 s2 -> says s2 s3 -> says s1 s3.
Proof. intros [o1 ->] [o2 ->]. by exists o2. Qed.
Lemma says_addon s s' text : says s s' -> says s (SendAddonMessage text s').
Proof. intros [o ->]. by eexists. Qed.
Lemma says_guild s s' text : says s s' -> says s (SendGuildMessage text s').
Proof. intros [o ->]. by eexists. Qed.
Lemma says_notify s s' text : says s s' -> says s (SendNotification text s').
Proof. intros [o ->]. by eexists. Qed.
Lemma says_buy s s' : says s s' -> says s (SendBuyError s').
Proof. intros [o ->]. by eexists. Qed.
Lemma says_messages s s' l : says s s' -> says s (foldl (fun s m => SendAddonMessage m s) s' l).
Proof. revert s'. induction l as [|m l IH]; intros s' H; [done|]. by apply IH, says_addon. Qed.
Create HintDb says.
#[export] Hint Resolve says_refl says_addon says_guild says_notify says_buy says_messages : says.

Ltac branch :=
  match goal with |- context [match ?x with _ => _ end] =>
    lazymatch x with context [match _ with _ => _ end] => fail | _ => destruct x end
  end; cbn [fst snd].
Ltac says := repeat branch; eauto 10 with says.

Section inv.
Context {env : BankEnv}.

Lemma says_WithdrawalsLeft tab s : says s (snd (GetTabWithdrawalsLeft tab s)).
Proof. unfold GetTabWithdrawalsLeft. says. Qed.
Lemma says_CanAccessTab tab action s : says s (snd (CanAccessTab tab action s)).
Proof. unfold CanAccessTab, GetTabWithdrawalsLeft. says. Qed.
Lemma says_IsItemBankable i s : says s (snd (IsItemBankable i s)).
Proof. unfold IsItemBankable. says. Qed.
Lemma says_SendTabWithdrawalsLeft tab s : says s (SendTabWithdrawalsLeft tab s).
Proof. unfold SendTabWithdrawalsLeft, GetTabWithdrawalsLeft. says. Qed.
#[local] Hint Resolve says_SendTabWithdrawalsLeft : says.

Lemma says_SendTabWithdrawalsLeft_msg msg s : says s (SendTabWithdrawalsLeft_msg msg s).
Proof. unfold SendTabWithdrawalsLeft_msg, WrongSyntax. says. Qed.
Lemma says_SendBankInfo s : says s (SendBankInfo s).
Proof. unfold SendBankInfo, SendBankMoney. says. Qed.
Lemma says_SendTabItems msg s : says s (SendTabItems msg s).
Proof. unfold SendTabItems, WrongSyntax. says. Qed.
Lemma says_SendTabLog msg s : says s (SendTabLog msg s).
Proof. unfold SendTabLog, WrongSyntax. says. Qed.
Lemma says_SendMoneyLog s : says s (SendMoneyLog s).
Proof. unfold SendMoneyLog. says. Qed.

(** ** The core under the other operations *)
Lemma core_says s s' : says s s' -> core s' = core s.
Proof. by intros [o ->]. Qed.
Lemma core_put s s' a i : core s = core s' -> core (put_item a i s) = core (put_item a i s').
Proof. unfold core. intros [= E1 E2 E3 E4 E5]. simpl. congruence. Qed.
Lemma core_queue s s' i : core s = core s' -> core (queue_update i s) = core (queue_update i s').
Proof. unfold core. intros [= E1 E2 E3 E4 E5]. simpl. congruence. Qed.
Lemma core_delete s s' a : core s = core s' -> core (DeleteItem a s) = core (DeleteItem a s').
Proof. unfold core. intros [= E1 E2 E3 E4 E5]. simpl. congruence. Qed.

Lemma ok_says s s' : says s s' -> bank_ok s -> bank_ok s'.
Proof. intros H. by apply bank_ok_core, core_says. Qed.
Lemma ok_LogAction action tab item count i s : bank_ok s -> bank_ok (LogAction action tab item count i s).
Proof. apply bank_ok_core, core_LogAction. Qed.

(** ** Finding items, guids and addresses *)
Lemma GetItem_Some tab slot s a i : GetItem tab slot s = Some (a, i) -> (a, i) ∈ b_items s /\ bi_tab i = tab /\ bi_slot i = slot.
Proof.
  intros [Hin Hb]%List.find_some. unfold at_place in Hb. rewrite andb_true_iff, !Z.eqb_eq in Hb.
  split; [by apply list_elem_of_In|done].
Qed.
Lemma GetItem_None tab slot s : GetItem tab slot s = None -> (tab, slot) ∉ (place_of <$> b_items s).
Proof.
  intros Hf (p & E & Hp)%list_elem_of_fmap. apply list_elem_of_In in Hp.
  pose proof (List.find_none _ _ Hf _ Hp) as Hn. unfold at_place in Hn. injection E as -> ->. by rewrite !Z.eqb_refl in Hn.
Qed.
Lemma new_address_fresh s : new_address s ∉ (fst <$> b_items s).
Proof. unfold new_address. intros H%(elem_of_list_to_set (C := gset Z)). by apply is_fresh in H. Qed.

(** Guids are not used up. *)
Definition guid_room (s : GuildBank) : Prop := Forall (fun g => g < 2 ^ 32 - 1) (guid_of <$> b_items s).

Lemma max_guid (l : list (Z * BankItem)) m :
  let n := foldl (fun guid p => if guid <? bi_guid (snd p) then bi_guid (snd p) else guid) m l in
  m <= n /\ Forall (fun g => g <= n) (guid_of <$> l) /\ (m < 2 ^ 32 - 1 -> Forall (fun g => g < 2 ^ 32 - 1) (guid_of <$> l) -> n < 2 ^ 32 - 1).
Proof.
  revert m. induction l as [|p l IH]; intros m; csimpl; [split_and!; [lia|constructor|done]|].
  destruct (IH (if m <? bi_guid p.2 then bi_guid p.2 else m)) as (A & B & C). fold (guid_of p) in *.
  destruct (Z.ltb_spec m (guid_of p)); (split_and!; [lia|constructor; [lia|done]|intros Hm [??]%Forall_cons; by apply C]).
Qed.
Lemma GetNewGuid_fresh s : guid_room s -> 0 < GetNewGuid s < 2 ^ 32 /\ GetNewGuid s ∉ (guid_of <$> b_items s).
Proof.
  intros Hr. unfold GetNewGuid. destruct (max_guid (b_items s) 0) as (A & B & C).
  specialize (C ltac:(lia) Hr). rewrite u32_small by lia. split; [lia|].
  intros Hin. rewrite Forall_forall in B. apply B in Hin. lia.
Qed.

(** ** Deposits *)
Definition keeps (f : GuildBank -> GuildBank) : Prop := forall s, bank_ok s -> guid_room s -> bank_ok (f s).
Lemma guid_room_core s s' : core s' = core s -> guid_room s -> guid_room s'.
Proof. unfold core, guid_room. by intros [= -> _ _ _ _]. Qed.

Lemma belongs_clone g inf p i : belongs g inf i -> belongs g inf (clone_to_bank inf p i).
Proof. by intros (? & ? & ? & ?). Qed.
Lemma new_item_belongs tab slot count s : 1 <= tab <= MAX_TABS -> 1 <= slot <= BANK_TAB_SIZE -> guid_room s ->
  belongs (b_guildid s) (b_infernoBank s) (new_bank_item tab slot count s).
Proof. intros ?? Hr. destruct (GetNewGuid_fresh s Hr) as [? _]. do 3 (split; [done|]). by split. Qed.
Lemma belongs_state g inf st i : belongs g inf i -> belongs g inf (set_bi_state st i).
Proof. done. Qed.
Lemma belongs_count g inf n i : belongs g inf i -> belongs g inf (set_bi_count n i).
Proof. done. Qed.
Lemma belongs_slot g inf slot i : 1 <= slot <= BANK_TAB_SIZE -> belongs g inf i -> belongs g inf (set_bi_slot slot i).
Proof. by intros ? (? & ? & ? & ? & _). Qed.

Lemma take_deposited_ok pos count remainer after s : bank_ok s -> guid_room s -> remainer = 0 \/ keeps after ->
  bank_ok (take_deposited pos count remainer after s).
Proof.
  intros Hs Hr Ha. unfold take_deposited. destruct (Z.eqb_spec remainer 0).
  - destruct (item_at pos s) as [p|]; [|done]. by destruct (count =? it_count p).
  - destruct Ha as [|Ha]; [done|]. by apply Ha.
Qed.
Lemma take_deposited_done pos count after s : bank_ok s -> bank_ok (take_deposited pos count 0 after s).
Proof. intros Hs. unfold take_deposited. simpl. destruct (item_at pos s) as [p|]; [|done]. by destruct (count =? it_count p). Qed.
Lemma deposit_done_ok a i count s : bank_ok s -> bank_ok (deposit_done a i count s).
Proof. intros Hs. unfold deposit_done. by apply ok_save, ok_LogAction. Qed.

(** A deposit into a free place, or onto the item that is there. *)
Lemma deposit_new_ok after tab slot pos count stack s : 1 <= tab <= MAX_TABS -> 1 <= slot <= BANK_TAB_SIZE ->
  GetItem tab slot s = None -> bank_ok s -> guid_room s ->
  bank_ok (DepositItemInSlot_then after tab slot pos count 0 ITEM_NEW stack s).
Proof.
  intros Ht Hsl Hn Hs Hr. unfold DepositItemInSlot_then. destruct (item_at pos s) as [p|]; [|done].
  rewrite decide_True by done. cbv zeta. apply deposit_done_ok, take_deposited_done. cbv zeta.
  destruct (GetNewGuid_fresh s Hr) as [Hg Hf]. refine (ok_new s _ _ Hs _ _ _ _ _); simpl.
  - done.
  - by apply belongs_clone, new_item_belongs.
  - apply new_address_fresh.
  - done.
  - unfold place. simpl. by apply GetItem_None.
Qed.

Lemma deposit_changed_ok after tab slot pos count remainer stack s : keeps after -> bank_ok s -> guid_room s ->
  bank_ok (DepositItemInSlot_then after tab slot pos count remainer ITEM_CHANGED stack s).
Proof.
  intros Ha Hs Hr. unfold DepositItemInSlot_then. destruct (item_at pos s) as [p|]; [|done].
  rewrite decide_False by done. destruct (GetItem tab slot s) as [[a i]|] eqn:Hi; [|done].
  apply GetItem_Some in Hi as (Hi & _). cbv zeta. pose proof (bank_ok_belongs _ _ _ Hs Hi) as Hb.
  apply deposit_done_ok, take_deposited_ok; [| |by right].
  - refine (ok_change s a _ i Hs Hi _ _ _ _); [by apply belongs_clone|done..|by left].
  - unfold guid_room. change (b_items (queue_update ?i (put_item ?a ?j ?s))) with (b_items (put_item a j s)).
    by rewrite (changed_guids s a _ i).
Qed.

Lemma seqZ_slots (slot : Z) : slot ∈ seqZ 1 BANK_TAB_SIZE -> 1 <= slot <= BANK_TAB_SIZE.
Proof. rewrite elem_of_seqZ. unfold BANK_TAB_SIZE. lia. Qed.
Lemma free_slot tab s slot : List.find (slot_free tab s) (seqZ 1 BANK_TAB_SIZE) = Some slot ->
  1 <= slot <= BANK_TAB_SIZE /\ GetItem tab slot s = None.
Proof.
  intros [Hin Hf]%List.find_some. split; [by apply seqZ_slots, list_elem_of_In|].
  unfold slot_free in Hf. by destruct (GetItem tab slot s).
Qed.

Lemma DepositItemInFreeSlot_ok fuel tab pos : 1 <= tab <= MAX_TABS -> keeps (DepositItemInFreeSlot fuel tab pos).
Proof.
  intros Ht. induction fuel as [|fuel IH]; [by intros s|]. intros s Hs Hr. cbn [DepositItemInFreeSlot].
  destruct (item_at pos s) as [p|]; [|done]. destruct (if 1 <? _ then _ else _) as [[slot i]|].
  - destruct (u32 _ <=? _); apply deposit_changed_ok; done || by intros ?.
  - destruct (List.find _ _) as [slot|] eqn:Hf; [|by eapply ok_says, Hs; unfold bank_full; eauto with says].
    apply free_slot in Hf as [??]. by apply deposit_new_ok.
Qed.
Lemma DepositInternal_ok tab item : 1 <= tab <= MAX_TABS -> keeps (DepositInternal tab item).
Proof.
  intros Ht s Hs Hr. unfold DepositInternal. destruct (List.find _ _) as [slot|] eqn:Hf; [|done].
  apply free_slot in Hf as [Hsl Hn]. destruct (GetNewGuid_fresh s Hr) as [Hg Hfr].
  refine (ok_new s _ _ Hs _ _ _ _ _); simpl; [done| |apply new_address_fresh|done|].
  - by apply belongs_clone, new_item_belongs.
  - unfold place. simpl. by apply GetItem_None.
Qed.

(** ** Withdrawals *)
Lemma withdrawn_core tab slot a i n r swap s :
  core (snd (withdrawn tab slot (Some a) i n r swap s)) =
  core (let i := fst (withdrawn tab slot (Some a) i n r swap s) in queue_update i (put_item a i s)).
Proof. unfold withdrawn. cbv zeta. by destruct (r =? 0), swap. Qed.
Lemma withdrawn_item tab slot a i n r swap s : let i' := fst (withdrawn tab slot a i n r swap s) in
  (bi_state i' = ITEM_REMOVED /\ i' = set_bi_state ITEM_REMOVED i) \/
  (bi_state i' = ITEM_CHANGED /\ i' = set_bi_state ITEM_CHANGED (set_bi_count n i)).
Proof. unfold withdrawn. cbv zeta. destruct (r =? 0); [by left|by right]. Qed.

Lemma withdraw_done_ok tab slot a i i0 count n r swap s f : bank_ok s -> (a, i0) ∈ b_items s -> i = i0 ->
  (forall i s, core (f i s) = core s) ->
  bank_ok (let '(i, s) := withdrawn tab slot (Some a) i n r swap s in withdraw_done tab (Some a) i count (f i s)).
Proof.
  intros Hs Hi -> Hf. pose proof (withdrawn_core tab slot a i0 n r swap s) as Hc.
  pose proof (withdrawn_item tab slot (Some a) i0 n r swap s) as Hw. cbv zeta in Hc, Hw.
  destruct (withdrawn tab slot (Some a) i0 n r swap s) as [i s1]. cbn [fst snd] in *. unfold withdraw_done. cbv zeta.
  eapply ok_says; [apply says_SendTabWithdrawalsLeft|]. destruct Hw as [[Hst ->]|[Hst ->]].
  - rewrite decide_True by done. cbn [delete_ptr].
    apply (bank_ok_core (DeleteItem a (queue_update (set_bi_state ITEM_REMOVED i0) (put_item a (set_bi_state ITEM_REMOVED i0) s)))).
    + apply core_delete. by rewrite core_LogAction, Hf.
    + by eapply ok_remove.
  - rewrite decide_False by done.
    apply (bank_ok_core (queue_update (set_bi_state ITEM_CHANGED (set_bi_count n i0)) (put_item a (set_bi_state ITEM_CHANGED (set_bi_count n i0)) s)));
      [by rewrite core_LogAction, Hf|].
    refine (ok_change s a _ i0 Hs Hi _ _ _ _); [exact (bank_ok_belongs s a i0 Hs Hi)|done..|by left].
Qed.

Lemma WithdrawItem_to_ok tab slot count bag pslot a i pItem r swap s : bank_ok s -> (a, i) ∈ b_items s ->
  bank_ok (WithdrawItem_to tab slot count bag pslot (Some a) i pItem r swap s).
Proof.
  intros Hs Hi. unfold WithdrawItem_to. destruct (CanStoreNewItem _ _ _ _ _) as [msg dest].
  destruct (negb _); [done|]. apply ok_save. destruct pItem as [pos|].
  - by apply (withdraw_done_ok tab slot a i i count _ r swap s (fun _ => upd_item pos (add_count count))).
  - unfold StoreNewItem. destruct (CreateItem _ _) as [pItem|]; [|done]. cbv zeta.
    set (s1 := upd_bags _ s). assert (bank_ok s1 /\ (a, i) ∈ b_items s1) as [H1 Hi1] by done. clearbody s1.
    set (s2 := match fst <$> last dest with Some pos => _ | None => _ end).
    assert (core s2 = core s1 /\ b_items s2 = b_items s1) as [Hc Hb] by (unfold s2; by destruct (fst <$> last dest)).
    apply (withdraw_done_ok tab slot a i i count r r swap s2 (fun i s => set_b_out (b_out s ++ [NewItem (bi_item_template i) count]) s));
      [by eapply bank_ok_core|by rewrite Hb|done..].
Qed.

(** ** Requests about items *)
Lemma CanAccessTab_out tab action s : exists may out, CanAccessTab tab action s = (may, set_b_out out s).
Proof. destruct (says_CanAccessTab tab action s) as [o H]. destruct (CanAccessTab tab action s) as [may s1]. simpl in H. by exists may, o; subst. Qed.
Lemma IsItemBankable_out i s : exists b out, IsItemBankable i s = (b, set_b_out out s).
Proof. destruct (says_IsItemBankable i s) as [o H]. destruct (IsItemBankable i s) as [b s1]. simpl in H. by exists b, o; subst. Qed.

(** The request would exchange an item of the bank for one of the bags: there
    is an item in both places, and they do not stack. *)
Definition exchanges (d : BankItem) (p : Item) : bool := negb ((bi_item_template d =? it_entry p) && (1 <? bi_maxStackSize d)).
Definition exchanges_at (pos : Pos) (tab slot : Z) (s : GuildBank) : bool :=
  match GetItemByPos (fst pos) (snd pos) (b_player s), GetItem tab slot s with
  | Some p, Some (_, d) => exchanges d p
  | _, _ => false
  end.
Definition deposit_exchanges (msg : string) (s : GuildBank) : bool :=
  match params msg with
  | [_; p1; p2; p3; p4; _] => exchanges_at (deposit_pos (u8 (atoi p1)) (u8 (atoi p2))) (u8 (atoi p3)) (u8 (atoi p4)) s
  | _ => false
  end.
Definition withdraw_exchanges (msg : string) (s : GuildBank) : bool :=
  match params msg with
  | [_; p1; p2; p3; p4; _] =>
      let bag := u32 (atoi p3) in
      let slot := u32 (atoi p4) in
      let pos := withdraw_pos bag slot in
      negb ((bag =? 0) && (slot =? 0)) && exchanges_at (u8 (fst pos), u8 (snd pos)) (u32 (atoi p1)) (u32 (atoi p2)) s
  | _ => false
  end.

Lemma WrongSyntax_ok prefix msg s : bank_ok s -> bank_ok (WrongSyntax prefix msg s).
Proof. done. Qed.

Lemma deposit_onto_ok tab slot pos p count a d s : 1 <= tab <= MAX_TABS -> bank_ok s -> guid_room s ->
  (a, d) ∈ b_items s -> exchanges d p = false -> bank_ok (deposit_onto tab slot pos p count a d s).
Proof.
  intros Ht Hs Hr Hd Hx. unfold exchanges in Hx. apply negb_false_iff in Hx. unfold deposit_onto.
  destruct ((bi_item_template d =? it_entry p) && (bi_count d =? it_count p) && _ && _); [done|].
  rewrite Hx. pose proof (DepositItemInFreeSlot_ok deposit_fuel tab pos Ht) as Hk.
  destruct (u32 (bi_count d + count) <=? bi_maxStackSize d); [by apply deposit_changed_ok|].
  destruct ((count <? bi_count d) && _); [by apply WithdrawItem_to_ok|by apply deposit_changed_ok].
Qed.

Lemma DepositItem_ok msg s : bank_ok s -> guid_room s -> deposit_exchanges msg s = false -> bank_ok (DepositItem msg s).
Proof.
  intros Hs Hr Hx. unfold DepositItem. unfold deposit_exchanges in Hx.
  destruct (params msg) as [|p0 [|p1 [|p2 [|p3 [|p4 [|p5 [|? ?]]]]]]]; try done. cbv zeta.
  destruct ((u8 (atoi p3) =? 0) || _ || _) eqn:Hb; [done|]. bool_prop.
  destruct (CanAccessTab_out (u8 (atoi p3)) ACTION_DEPOSIT_ITEM s) as (may & o & ->). destruct may; [|done]. simpl negb. cbv iota.
  unfold exchanges_at in Hx. change (b_player (set_b_out o s)) with (b_player s).
  destruct (GetItemByPos _ _ (b_player s)) as [p|]; [|done].
  destruct (IsItemBankable_out p (set_b_out o s)) as (b & o' & ->). destruct b; [|done]. simpl negb. cbv iota.
  set (s1 := set_b_out o' _). assert (bank_ok s1 /\ guid_room s1) as [Hs1 Hr1] by done.
  change (GetItem (u8 (atoi p3)) (u8 (atoi p4)) s) with (GetItem (u8 (atoi p3)) (u8 (atoi p4)) s1) in Hx. clearbody s1.
  destruct (ip_Stackable (GetProto p) <? u8 (atoi p5)); [done|]. pose proof (u8_range (atoi p3)). pose proof (u8_range (atoi p4)).
  assert (1 <= u8 (atoi p3) <= MAX_TABS) as Ht by lia. destruct (Z.eqb_spec (u8 (atoi p4)) 0); [by apply DepositItemInFreeSlot_ok|].
  destruct (GetItem _ _ s1) as [[a d]|] eqn:Hd.
  - apply deposit_onto_ok; try done. by apply GetItem_Some in Hd as (? & _).
  - apply deposit_new_ok; try done. lia.
Qed.

Lemma withdraw_onto_ok tab slot count bag pslot p a i s : bank_ok s -> (a, i) ∈ b_items s -> exchanges i p = false ->
  bank_ok (withdraw_onto tab slot count bag pslot p a i s).
Proof.
  intros Hs Hi Hx. unfold exchanges in Hx. apply negb_false_iff in Hx. unfold withdraw_onto.
  rewrite Z.eqb_sym, Hx. by apply WithdrawItem_to_ok.
Qed.

Lemma WithdrawItem_ok msg s : bank_ok s -> withdraw_exchanges msg s = false -> bank_ok (WithdrawItem msg s).
Proof.
  intros Hs Hx. unfold WithdrawItem. unfold withdraw_exchanges in Hx.
  destruct (params msg) as [|p0 [|p1 [|p2 [|p3 [|p4 [|p5 [|? ?]]]]]]]; try done. cbv zeta in *.
  destruct (bad_place _ _); [done|].
  destruct (CanAccessTab_out (u8 (u32 (atoi p1))) ACTION_WITHDRAW_ITEM s) as (may & o & ->). destruct may; [|done]. simpl negb. cbv iota.
  change (GetItem ?t ?l (set_b_out o s)) with (GetItem t l s). unfold exchanges_at in Hx.
  destruct (GetItem _ _ s) as [[a i]|] eqn:Hi; [|done]. apply GetItem_Some in Hi as (Hi & _).
  destruct (bi_count i <? _); [done|]. destruct ((u32 (atoi p3) =? 0) && _).
  { destruct (bi_count i =? _); [|done]. by apply WithdrawItem_to_ok. }
  cbn [negb andb] in Hx. destruct (withdraw_pos _ _) as [bag slot]. cbn [fst snd] in Hx. change (b_player (set_b_out o s)) with (b_player s).
  destruct (GetItemByPos _ _ (b_player s)) as [p|]; [|by apply WithdrawItem_to_ok].
  destruct (IsItemBankable_out p (set_b_out o s)) as (b & o' & ->). destruct b; [|done]. by apply withdraw_onto_ok.
Qed.

Lemma bad_places_false tab fromSlot toSlot : 0 <= tab -> 0 <= fromSlot -> 0 <= toSlot -> bad_places tab fromSlot toSlot = false ->
  1 <= tab <= MAX_TABS /\ 1 <= fromSlot <= BANK_TAB_SIZE /\ 1 <= toSlot <= BANK_TAB_SIZE.
Proof. unfold bad_places. intros ??? Hb. bool_prop. lia. Qed.

(** Two items of one tab, at the slots [x] and [y]. *)
Lemma two_items s tab x y a i b d : bank_ok s -> x <> y -> GetItem tab x s = Some (a, i) -> GetItem tab y s = Some (b, d) ->
  (a, i) ∈ b_items s /\ (b, d) ∈ b_items s /\ a <> b /\
  belongs (b_guildid s) (b_infernoBank s) i /\ belongs (b_guildid s) (b_infernoBank s) d /\
  place i = (tab, x) /\ place d = (tab, y).
Proof.
  intros Hs Hxy (Hi & <- & <-)%GetItem_Some (Hd & E & <-)%GetItem_Some. split_and!; try done.
  - intros ->. apply Hxy. by rewrite (bank_ok_address _ _ _ _ Hs Hi Hd).
  - by apply (bank_ok_belongs s a).
  - by apply (bank_ok_belongs s b).
  - unfold place. by rewrite E.
Qed.

Lemma changes_ok s a i i0 b d d0 : bank_ok s -> (a, i0) ∈ b_items s -> (b, d0) ∈ b_items s -> a <> b ->
  belongs (b_guildid s) (b_infernoBank s) i -> belongs (b_guildid s) (b_infernoBank s) d ->
  bi_guid i = bi_guid i0 -> bi_guid d = bi_guid d0 ->
  (place i = place i0 /\ place d = place d0) \/ (place i = place d0 /\ place d = place i0) ->
  bank_ok (change_item b d (change_item a i s)).
Proof. intros. by eapply (ok_swap s a (set_bi_state ITEM_CHANGED i) i0 b (set_bi_state ITEM_CHANGED d) d0). Qed.

Lemma MoveItem_to_ok s tab x y : bank_ok s -> x <> y -> 1 <= y <= BANK_TAB_SIZE -> 1 <= x <= BANK_TAB_SIZE ->
  bank_ok (MoveItem_to (GetItem tab x s) (GetItem tab y s) tab x y s).
Proof.
  intros Hs Hxy Hy Hx. destruct (GetItem tab x s) as [[a i]|] eqn:Hi; [|done].
  destruct (GetItem tab y s) as [[b d]|] eqn:Hd.
  - destruct (two_items _ _ _ _ _ _ _ _ Hs Hxy Hi Hd) as (Hia & Hdb & Hab & Hbi & Hbd & Hpi & Hpd). simpl MoveItem_to.
    assert (bank_ok (swap_places a i b d x y s)) as Hsw.
    { apply ok_save. refine (changes_ok s a (set_bi_slot y i) i b (set_bi_slot x d) d Hs Hia Hdb Hab _ _ _ _ _); [by apply belongs_slot|by apply belongs_slot|done..|].
      right. unfold place in *. simpl. split; congruence. }
    destruct (bi_item_template i =? _); [|done]. destruct ((bi_count i =? _) || _); [done|]. destruct (u32 _ <=? _).
    + set (d' := set_bi_count _ d).
      assert (bank_ok (change_item b d' s)) as Hc by (refine (ok_change s b _ d Hs Hdb _ _ _ _); [done..|by left]).
      apply (bank_ok_core (DeleteItem a (queue_update (set_bi_state ITEM_REMOVED i) (put_item a (set_bi_state ITEM_REMOVED i) (change_item b d' s)))));
        [done|]. apply (ok_remove _ a _ i Hc); [|done..]. simpl. unfold write_address.
      apply list_elem_of_fmap. exists (a, i). split; [|done]. simpl. by destruct (Z.eqb_spec a b).
    + refine (changes_ok s a (set_bi_count _ i) i b (set_bi_count _ d) d Hs Hia Hdb Hab Hbi Hbd _ _ _); [done..|by left].
  - apply GetItem_None in Hd. apply GetItem_Some in Hi as (Hi & Ht & _). simpl MoveItem_to.
    refine (ok_change s a _ i Hs Hi _ _ _ _); try done.
    + apply belongs_slot; [done|]. by apply (bank_ok_belongs s a).
    + right. unfold place. simpl. by rewrite Ht.
Qed.

Lemma MoveItem_ok msg s : bank_ok s -> bank_ok (MoveItem msg s).
Proof.
  intros Hs. unfold MoveItem. destruct (params msg) as [|p0 [|p1 [|p2 [|p3 [|? ?]]]]]; try done. cbv zeta.
  destruct (CanAccessTab_out (u8 (atoi p1)) ACTION_MOVE_ITEM s) as (may & o & ->). destruct may; [|done]. simpl negb. cbv iota.
  destruct (Z.eqb_spec (u8 (atoi p2)) (u8 (atoi p3))); [done|]. destruct (bad_places _ _ _) eqn:Hb; [done|].
  apply bad_places_false in Hb as (_ & ? & ?); [|apply u8_range..]. by apply MoveItem_to_ok.
Qed.

Lemma split_off_ok a i slot n s tab : bank_ok s -> guid_room s -> (a, i) ∈ b_items s -> bi_tab i = tab ->
  GetItem tab slot s = None -> 1 <= slot <= BANK_TAB_SIZE -> bank_ok (split_off a i slot n s).
Proof.
  intros Hs Hr Hi <- Hn%GetItem_None Hsl. unfold split_off.
  destruct (bi_maxStackSize i <=? n); [done|]. destruct (i32 _ <=? 0); [done|]. cbv zeta. apply ok_save.
  pose proof (bank_ok_belongs _ _ _ Hs Hi) as Hb. set (i' := set_bi_state _ _). set (s1 := queue_update i' _).
  assert (bank_ok s1) as Hs1 by (refine (ok_change s a _ i Hs Hi _ _ _ _); [exact Hb|done..|by left]).
  assert (place_of <$> b_items s1 ≡ₚ place_of <$> b_items s) as Hp.
  { destruct Hs as [[Hok _] _], (items_split _ _ _ _ _ Hok Hi) as (l & E & Ha). simpl. rewrite E. by rewrite (write_cons a i' i). }
  assert (guid_room s1) as Hr1.
  { unfold guid_room. change (b_items s1) with (b_items (put_item a i' s)). by rewrite (changed_guids s a i' i). }
  set (d := set_bi_state ITEM_NEW _). apply (bank_ok_core (AddItem (new_address s1) d (queue_update d s1))); [done|].
  refine (ok_new s1 _ d Hs1 _ _ _ _ _); [done|..].
  - destruct (GetNewGuid_fresh s1 Hr1) as [? _]. destruct Hb as (_ & ? & _ & ? & _). do 3 (split; [done|]). by split.
  - apply new_address_fresh.
  - apply GetNewGuid_fresh, Hr1.
  - change (place d) with (bi_tab i, slot). by rewrite Hp.
Qed.

Lemma SplitItem_ok msg s : bank_ok s -> guid_room s -> bank_ok (SplitItem msg s).
Proof.
  intros Hs Hr. unfold SplitItem. destruct (params msg) as [|p0 [|p1 [|p2 [|p3 [|p4 [|? ?]]]]]]; try done. cbv zeta.
  destruct (CanAccessTab_out (u8 (atoi p1)) ACTION_SPLIT_ITEM s) as (may & o & ->). destruct may; [|done]. simpl negb. cbv iota.
  destruct (Z.eqb_spec (u8 (atoi p2)) (u8 (atoi p3))); [done|]. destruct (bad_places _ _ _) eqn:Hb; [done|].
  apply bad_places_false in Hb as (_ & ? & ?); [|apply u8_range..].
  destruct (GetItem _ (u8 (atoi p2)) _) as [[a i]|] eqn:Hi; [|done].
  destruct (GetItem _ (u8 (atoi p3)) _) as [[b d]|] eqn:Hd.
  - destruct (two_items (set_b_out o s) _ _ _ _ _ _ _ Hs n Hi Hd) as (Hia & Hdb & Hab & Hbi & Hbd & _). unfold split_onto.
    repeat (match goal with |- context [if ?c then _ else _] => destruct c end; [done|]).
    refine (changes_ok (set_b_out o s) a (set_bi_count _ i) i b (set_bi_count _ d) d Hs Hia Hdb Hab Hbi Hbd _ _ _); [done..|by left].
  - apply GetItem_Some in Hi as (Hi & Ht & _). by eapply (split_off_ok a i _ _ (set_b_out o s)).
Qed.
End inv.
