(* ===== verification/GuildBankRoundtrip.v ===== *)
(** From memory to the database and back: what a save writes is what a bank
    loads after a restart, and a deposited item that is withdrawn again is the
    item it was. *)

From S2P Require Import Prelude CString GuildBankTypes GuildBank GuildBankRequests GuildBankItems GuildBankHandlers GuildBankKernel GuildBankInv.

Section roundtrip.
Context {env : BankEnv}.

(** ** One item *)
(** The values that fit the columns and the types they are read with. *)
Record loadable (i : BankItem) : Prop := {
  ld_place : place_ok i;
  ld_template : 0 <= bi_item_template i < 2 ^ 32;
  ld_creator : 0 <= bi_creatorGuid i < 2 ^ 32;
  ld_giftCreator : 0 <= bi_giftCreatorGuid i < 2 ^ 32;
  ld_count : 0 <= bi_count i < 2 ^ 32;
  ld_duration : 0 <= bi_duration i < 2 ^ 31;
  ld_flags : 0 <= bi_flags i < 256;
  ld_random : 0 <= bi_randomPropertyId i < 2 ^ 15;
  ld_transmog : 0 <= bi_transmogrifyId i < 2 ^ 32;
  ld_durability : 0 <= bi_durability i < 256;
  ld_text : 0 <= bi_text i < 2 ^ 32;
  ld_loot : bi_generated_loot i = 0 \/ bi_generated_loot i = 1;
  ld_enchant : let tokens := Tokenizer.make (bi_enchantments i) " "%char in
    bi_enchant i = if (length tokens =? 21)%nat then u32 (atoi (default "" (head tokens))) else 0;
  ld_proto : match GetItemPrototype (bi_item_template i) with
    | Some p => bi_Name i = full_name (ip_Name1 p) (bi_randomPropertyId i) /\ bi_quality i = ip_Quality p /\
                bi_maxStackSize i = ip_Stackable p
    | None => bi_Name i = "" /\ bi_quality i = uninitialised /\ bi_maxStackSize i = uninitialised
    end
}.

Definition loaded (kr : Z * Z * bool * BankRow) : BankItem :=
  set_bi_state ITEM_UNCHANGED (with_prototype (LoadFromDB (fst kr) (snd kr))).

Lemma i16_small x : 0 <= x < 2 ^ 15 -> i16 x = x.
Proof. intros H. unfold i16. rewrite Z.mod_small; lia. Qed.

Lemma loaded_item i : loadable i -> loaded (row_key i, row_of i) = set_bi_state ITEM_UNCHANGED i.
Proof.
  intros [Hp Ht Hc Hg Hn Hd Hf Hr Htr Hdu Hte Hl He Hpr]. unfold loaded, LoadFromDB, with_prototype, row_of. simpl.
  destruct Hp as [Hp1 Hp2]. unfold MAX_TABS, BANK_TAB_SIZE in *.
  rewrite (u32_small (bi_item_template i)) by lia.
  assert (i16 (u32 (bi_randomPropertyId i)) = bi_randomPropertyId i) as Er by (rewrite u32_small, i16_small; lia).
  assert (i8 (i16 (u32 (bi_generated_loot i))) = bi_generated_loot i) as El by (destruct Hl as [->| ->]; done).
  assert (i32 (u32 (bi_duration i)) = bi_duration i) as Ed by (rewrite u32_small, i32_small; lia).
  assert (u8 (u16 (bi_durability i)) = bi_durability i) as Eu by (unfold u16; rewrite Z.mod_small, u8_small; lia).
  rewrite Er, El, Ed, Eu, (u32_small (bi_creatorGuid i)), (u32_small (bi_giftCreatorGuid i)), (u32_small (bi_count i)),
    (u32_small (bi_transmogrifyId i)), (u32_small (bi_text i)), !u8_small by lia. rewrite <- He.
  destruct (GetItemPrototype (bi_item_template i)) as [p|]; destruct Hpr as (Hn1 & Hq & Hm), i; simpl in *; by subst.
Qed.

(** The fields of a player's item, where they have the bank's widths. *)
Record item_fits (p : Item) : Prop := {
  if_entry : 0 <= it_entry p < 2 ^ 32;
  if_creator : 0 <= it_creator p < 2 ^ 32;
  if_giftCreator : 0 <= it_giftCreator p < 2 ^ 32;
  if_duration : 0 <= it_duration p < 2 ^ 31;
  if_charges : length (it_charges p) = MAX_ITEM_PROTO_SPELLS /\ Forall (fun c => - 2 ^ 31 <= c < 2 ^ 31) (it_charges p);
  if_flags : 0 <= it_flags p < 256;
  if_enchants : length (it_enchants p) = MAX_ENCHANTMENT_SLOT /\
    Forall (fun e => 0 <= fst (fst e) < 2 ^ 31 /\ 0 <= snd (fst e) < 2 ^ 32 /\ 0 <= snd e < 2 ^ 32) (it_enchants p);
  if_random : 0 <= it_randomPropertyId p < 2 ^ 15;
  if_transmog : 0 <= it_transmog p < 2 ^ 32;
  if_durability : 0 <= it_durability p < 256;
  if_text : 0 <= it_text p < 2 ^ 32;
  if_proto : is_Some (GetItemPrototype (it_entry p))
}.

Lemma charges_tokens p : length (it_charges p) = MAX_ITEM_PROTO_SPELLS ->
  Tokenizer.make (charges_text p) " "%char = map to_string (it_charges p).
Proof.
  intros Hl. rewrite <- spaced_tokens. unfold charges_text.
  destruct (it_charges p) as [|c0 [|c1 [|c2 [|c3 [|c4 [|? ?]]]]]]; done.
Qed.
Definition enchant_numbers (e : Z * Z * Z) : list Z := [fst (fst e); snd (fst e); snd e].
Lemma enchants_spaced p : length (it_enchants p) = MAX_ENCHANTMENT_SLOT ->
  enchants_text p = spaced (mjoin (enchant_numbers <$> it_enchants p)).
Proof.
  intros Hl. unfold enchants_text, enchant_text.
  destruct (it_enchants p) as [|[[??]?] [|[[??]?] [|[[??]?] [|[[??]?] [|[[??]?] [|[[??]?] [|[[??]?] [|? ?]]]]]]]]; try done.
  cbn [seq foldr nth MAX_ENCHANTMENT_SLOT fmap list_fmap mjoin list_join enchant_numbers fst snd app spaced].
  by rewrite !str_app_assoc.
Qed.

(** A deposited item can be loaded, whatever it is called and wherever it is. *)
Lemma numbers_length (l : list (Z * Z * Z)) : length (mjoin (enchant_numbers <$> l)) = (3 * length l)%nat.
Proof. induction l as [|e l IH]; csimpl; [done|]. rewrite IH. lia. Qed.
Lemma clone_loadable inf p i : item_fits p -> place_ok i -> 0 <= bi_count i < 2 ^ 32 -> loadable (clone_to_bank inf p i).
Proof.
  intros [He Hc Hg Hd Hch Hf [Hel Hef] Hr Ht Hdu Hte [pr Hpr]] Hp Hn. unfold clone_to_bank, GetProto. rewrite Hpr. split; cbn -[enchants_text Tokenizer.make].
  all: try done; try (rewrite u8_small; lia).
  - by destruct (it_generatedLoot p); [right|left].
  - rewrite enchants_spaced, spaced_tokens by done. rewrite length_map, numbers_length, Hel. cbn.
    destruct (it_enchants p) as [|[[id ?] ?] l]; [done|]. cbn. apply Forall_cons in Hef as [[Hid _] _]. cbn in Hid.
    rewrite atoi_to_string, u32_small by lia. done.
  - by rewrite Hpr.
Qed.

(** Back to a player: everything but the entry and the count, which come with
    the new item. *)
Lemma nth_enchants (l : list (Z * Z * Z)) : length l = MAX_ENCHANTMENT_SLOT ->
  Forall (fun e => 0 <= fst (fst e) < 2 ^ 31 /\ 0 <= snd (fst e) < 2 ^ 32 /\ 0 <= snd e < 2 ^ 32) l ->
  map (fun n => let number n := u32 (strtoul (nth n (map to_string (mjoin (enchant_numbers <$> l))) "")) in
                (number (3 * n)%nat, number (3 * n + 1)%nat, number (3 * n + 2)%nat)) (seq 0 MAX_ENCHANTMENT_SLOT) = l.
Proof.
  assert (forall x, 0 <= x < 2 ^ 32 -> u32 (strtoul (to_string x)) = x) as Hx.
  { intros x Hx. rewrite strtoul_to_string, u32_small; unfold U64_MAX; lia. }
  intros Hl HF. destruct l as [|[[??]?] [|[[??]?] [|[[??]?] [|[[??]?] [|[[??]?] [|[[??]?] [|[[??]?] [|? ?]]]]]]]]; try done.
  rewrite !Forall_cons in HF. cbn [fst snd] in HF. cbn -[u32 strtoul to_string]. by rewrite !Hx by lia.
Qed.
Lemma clone_back inf p i q : item_fits p -> it_entry q = it_entry p -> it_count q = it_count p ->
  clone_to_player (clone_to_bank inf p i) q = p.
Proof.
  intros [He Hc Hg Hd [Hcl Hcf] Hf [Hel Hef] Hr Ht Hdu Hte _] Eq Ec. unfold clone_to_player, clone_to_bank. cbn -[nth enchants_text charges_text Tokenizer.make seq Nat.mul].
  rewrite (charges_tokens p), (enchants_spaced p), spaced_tokens, length_map, Hcl, Eq, Ec, !u8_small by lia. cbv zeta.
  pose proof (nth_enchants _ Hel Hef) as Hn. cbv zeta in Hn. rewrite Hn, Nat.eqb_refl.
  assert (map atoi (map to_string (it_charges p)) = it_charges p) as ->.
  { clear Hcl. induction Hcf as [|c l Hc' _ IH]; [done|]. cbn. by rewrite atoi_to_string, IH. }
  destruct p as [? ? ? ? ? ? ? ? ? ? ? ? lt]; simpl. by destruct lt.
Qed.

(** ** A bank *)
Lemma own_rows_perm s t : items_ok (b_guildid s) (b_infernoBank s) (b_items s) ->
  guild_bank (b_db s) = t -> (forall k, fst (fst k) = b_guildid s -> t !! k = rows (b_items s) !! k) ->
  own_item_rows s ≡ₚ row_entry <$> b_items s.
Proof.
  intros Hok <- Hr. pose proof (NoDup_row_keys _ _ _ Hok) as Hnd. unfold own_item_rows. apply NoDup_Permutation.
  - apply NoDup_ListNoDup, List.NoDup_filter, NoDup_ListNoDup, NoDup_map_to_list.
  - by apply NoDup_fmap_1 in Hnd.
  - intros [k r]. rewrite list_elem_of_In, List.filter_In, <- list_elem_of_In, elem_of_map_to_list.
    rewrite (elem_of_list_to_map _ _ _ Hnd). fold (rows (b_items s)). unfold own_item_row. cbn [fst snd]. split.
    + intros [Hk Ho]. bool_prop. by rewrite <- Hr.
    + intros Hk. assert (fst (fst k) = b_guildid s /\ snd k = b_infernoBank s) as [Hg Hi].
      { destruct (decide (fst (fst k) = b_guildid s)), (bool_decide_reflect (snd k = b_infernoBank s)); try done;
          rewrite (rows_foreign _ _ _ _ Hok) in Hk by auto; done. }
      rewrite Hr, Hg, Hi, Z.eqb_refl, eqb_reflx by done. done.
Qed.

Lemma load_items l s : snd <$> b_items (foldl load_item s l) = (snd <$> b_items s) ++ map loaded l.
Proof.
  revert s. induction l as [|kr l IH]; intros s; [by rewrite app_nil_r|]. cbn [foldl map]. rewrite IH.
  simpl. rewrite fmap_app, <- app_assoc. done.
Qed.

(** What else a save has to know: one row of money and one of tabs, up to date
    or about to be. *)
Definition tab_ok (t : BankTab) : Prop := 0 <= t_withdrawals t < 256 /\ 0 <= t_minrank t < 256.
Definition settings_kept (s : GuildBank) : Prop :=
  0 <= b_money s < 2 ^ 32 /\ 0 <= b_tabs s < 2 ^ 32 /\ (forall i, tab_ok (tab_info s i)) /\
  (exists m, guild_bank_money (b_db s) !! bank_key s = Some m /\ (b_money_changed s = true \/ m = b_money s)) /\
  (exists r, List.filter (own_tabs_row s) (guild_bank_tabs (b_db s)) = [r] /\ (b_tabs_changed s = true \/ r = tabs_row s)).

Lemma filter_update {A} (own : A -> bool) (x : A) l : own x = true ->
  List.filter own (map (fun r => if own r then x else r) l) = map (fun _ => x) (List.filter own l).
Proof.
  intros Hx. induction l as [|r l IH]; [done|]. cbn [map List.filter]. destruct (own r) eqn:Hr; rewrite ?Hx, ?Hr, IH; done.
Qed.
Lemma save_money_row s db m : guild_bank_money db !! bank_key s = Some m -> guild_bank_money (save_money s db) !! bank_key s = Some (b_money s).
Proof. intros H. simpl. by rewrite lookup_alter, decide_True, H. Qed.
Lemma save_tabs_row s db r : List.filter (own_tabs_row s) (guild_bank_tabs db) = [r] ->
  List.filter (own_tabs_row s) (guild_bank_tabs (save_tabs s db)) = [tabs_row s].
Proof.
  intros H. simpl. rewrite filter_update, H; [done|]. unfold own_tabs_row. simpl. by rewrite Z.eqb_refl, eqb_reflx.
Qed.

Definition settings_rows (s : GuildBank) (db : BankDB) : Prop :=
  guild_bank_money db !! bank_key s = Some (b_money s) /\ List.filter (own_tabs_row s) (guild_bank_tabs db) = [tabs_row s].

Lemma save_statements_rows s db : save_statements s (b_db s) = Some db -> settings_kept s -> settings_rows s db.
Proof.
  intros Hs (_ & _ & _ & (m & Hm & Hmc) & (r & Hr & Hrc)). unfold save_statements in Hs. cbv zeta in Hs.
  set (db1 := if b_money_changed s then _ else _) in Hs. set (db2 := if b_tabs_changed s then _ else _) in Hs.
  assert (guild_bank_money db1 !! bank_key s = Some (b_money s) /\ guild_bank_tabs db1 = guild_bank_tabs (b_db s)) as [H1 H2].
  { unfold db1. destruct (b_money_changed s); [by erewrite save_money_row|]. destruct Hmc as [| ->]; done. }
  assert (settings_rows s db2) as H.
  { unfold db2. destruct (b_tabs_changed s); (split; [done|]).
    - eapply save_tabs_row. rewrite H2. exact Hr.
    - rewrite H2, Hr. destruct Hrc as [| ->]; done. }
  clearbody db1 db2. revert Hs. destruct (b_moneyLog_changed s), (b_log_changed s); destruct (save_items _ _); simpl; by intros [= <-].
Qed.

Lemma SaveToDB_rows s : bank_ok s -> b_saveLock s = false -> settings_kept s -> settings_rows s (b_db (SaveToDB s)).
Proof.
  intros [[_ (t & Ht & _)] _] Hl Hk. destruct (save_statements s (b_db s)) as [db|] eqn:Hs.
  - pose proof (save_statements_rows s db Hs Hk) as Hr. unfold SaveToDB. rewrite Hl. destruct (nothing_to_save s) eqn:Hn.
    + destruct Hk as (_ & _ & _ & (m & Hm & Hmc) & (r & Hr' & Hrc)). unfold nothing_to_save in Hn.
      rewrite !andb_true_iff, !negb_true_iff in Hn. destruct Hn as ((((_ & Hn1) & Hn2) & _) & _).
      split; [destruct Hmc as [?|<-]; congruence|destruct Hrc as [?|<-]; congruence].
    + change (settings_rows s (default (b_db s) (save_statements s (b_db s)))). by rewrite Hs.
  - exfalso. pose proof (save_statements_items s (b_db s)) as He. rewrite Ht, Hs in He. done.
Qed.

Lemma tab_numbers_all i : 1 <= i <= MAX_TABS -> i = 1 \/ i = 2 \/ i = 3 \/ i = 4 \/ i = 5.
Proof. unfold MAX_TABS. lia. Qed.
Lemma load_tabs_info s s0 m i : (forall i, tab_ok (tab_info s i)) -> 1 <= i <= MAX_TABS ->
  tab_info (load_tabs m s0 (tabs_row s)) i = tab_info s i.
Proof.
  intros Hok Hi. destruct (Hok i) as [Hw Hm]. unfold tab_info at 1. simpl b_tabInfo.
  apply tab_numbers_all in Hi as [->|[->|[->|[->| ->]]]]; rewrite ?lookup_insert_ne by done; rewrite lookup_insert, decide_True by done; simpl.
  all: rewrite !u8_small by done; by destruct (tab_info s _).
Qed.
(** The bank a guild creates from the saved rows. *)
Lemma LoadBank_saved s s0 : bank_ok s -> b_saveLock s = false -> settings_kept s -> Forall (fun p => loadable (snd p)) (b_items s) ->
  b_guildid s0 = b_guildid s -> b_infernoBank s0 = b_infernoBank s -> b_db s0 = b_db (SaveToDB s) -> b_items s0 = [] ->
  let s1 := LoadBank s0 in
  snd <$> b_items s1 ≡ₚ (set_bi_state ITEM_UNCHANGED ∘ snd) <$> b_items s /\
  b_money s1 = b_money s /\ b_tabs s1 = b_tabs s /\ (forall i, 1 <= i <= MAX_TABS -> tab_info s1 i = tab_info s i).
Proof.
  intros Hs Hl Hk Hld Hg Hi Hdb Hn. pose proof Hk as (Hm & Ht & Hti & _). pose proof Hs as [[Hok (t & Hsv & Hr)] _].
  destruct (SaveToDB_rows s Hs Hl Hk) as [Hmr Htr]. destruct (SaveToDB_saved s Hl) as (_ & _ & _ & _ & Hts). specialize (Hts t Hsv).
  assert (own_item_rows s0 ≡ₚ row_entry <$> b_items s) as Hown.
  { assert (own_item_rows s0 = own_item_rows (set_b_db (b_db s0) s)) as ->.
    { unfold own_item_rows, own_item_row. simpl. by rewrite Hg, Hi. }
    refine (own_rows_perm (set_b_db (b_db s0) s) t Hok _ Hr). simpl. by rewrite Hdb. }
  unfold LoadBank. rewrite Hdb. assert (bank_key s0 = bank_key s) as -> by (unfold bank_key; congruence). rewrite Hmr.
  rewrite (List.filter_ext (own_tabs_row s0) (own_tabs_row s)) by (intros r; unfold own_tabs_row; by rewrite Hg, Hi).
  rewrite Htr. cbv zeta. cbn [foldl]. set (s2 := load_tabs _ _ _). set (s3 := set_b_tabInfo _ s2).
  assert (own_item_rows s3 = own_item_rows s0) as -> by done.
  assert (forall l s, b_money (foldl load_item s l) = b_money s /\ b_tabs (foldl load_item s l) = b_tabs s /\
    b_tabInfo (foldl load_item s l) = b_tabInfo s) as Hf.
  { clear. induction l as [|kr l IH]; intros s; [done|]. cbn [foldl]. by destruct (IH (load_item s kr)) as (-> & -> & ->). }
  destruct (Hf (own_item_rows s0) s3) as (E1 & E2 & E3). split_and!.
  - rewrite load_items. simpl b_items. rewrite Hn. simpl. rewrite Hown, <- list_fmap_compose.
    apply reflexive_eq. apply map_ext_Forall. apply (Forall_impl _ _ _ Hld). intros p Hp. by apply loaded_item.
  - rewrite E1. simpl. by rewrite u32_small.
  - rewrite E2. simpl. by rewrite u32_small.
  - intros i Hi'. unfold tab_info at 1. rewrite E3. rewrite <- (load_tabs_info s (set_b_tabs 0 s0) (b_money s) i) by done.
    fold s2. change (b_tabInfo s3 !! i) with ((<[TAB_MONEY := mkBankTab (t_name (tab_info s2 TAB_MONEY)) (t_icon (tab_info s2 TAB_MONEY))
      (t_withdrawals (tab_info s2 TAB_MONEY)) 1]> (b_tabInfo s2)) !! i). unfold TAB_MONEY. by rewrite lookup_insert_ne by lia.
Qed.
End roundtrip.
