(* ===== verification/GuildBankTotals.v ===== *)
(** How many of an item there are, in the bank and in the bags of the player
    who uses it: the requests about items keep the number, as long as the
    counts are those of real stacks and no more is deposited than the stack in
    the bags holds.  Depositing into the first free place ends: each round fills
    one of the tab's open stacks, so [deposit_fuel] rounds are enough. *)

From S2P Require Import Prelude CString GuildBankTypes GuildBank GuildBankRequests GuildBankItems GuildBankHandlers GuildBankKernel GuildBankInv.

(** ** Counting *)
Definition weight (e : Z) (i : BankItem) : Z := if bi_item_template i =? e then bi_count i else 0.
Definition item_weight (e : Z) (p : Item) : Z := if it_entry p =? e then it_count p else 0.
Definition bank_total (e : Z) (l : list (Z * BankItem)) : Z := foldr (fun p n => weight e (snd p) + n) 0 l.
Definition bag_total (e : Z) (bags : gmap Pos Item) : Z := map_fold (fun _ p n => item_weight e p + n) 0 bags.
Definition total (e : Z) (s : GuildBank) : Z := bank_total e (b_items s) + bag_total e (bp_bags (b_player s)).

#[export] Instance bank_total_proper e : Proper ((≡ₚ) ==> (=)) (bank_total e).
Proof. intros l l'. unfold bank_total. induction 1; simpl; lia. Qed.
Lemma bank_total_snoc e l p : bank_total e (l ++ [p]) = bank_total e l + weight e (snd p).
Proof. rewrite <- Permutation_cons_append. simpl. lia. Qed.
Lemma bank_total_unchanged e l : bank_total e (unchanged <$> l) = bank_total e l.
Proof. unfold bank_total. induction l as [|p l IH]; [done|]. csimpl. by rewrite IH. Qed.

Lemma bag_total_delete e bags pos p : bags !! pos = Some p -> bag_total e bags = item_weight e p + bag_total e (delete pos bags).
Proof. intros H. unfold bag_total. apply (map_fold_delete_L (fun _ p n => item_weight e p + n)); [intros; lia|done]. Qed.
Lemma bag_total_insert e bags pos p : bag_total e (<[pos := p]> bags) = item_weight e p + bag_total e (delete pos bags).
Proof. rewrite (bag_total_delete e _ pos p) by apply lookup_insert_eq. by rewrite delete_insert_eq. Qed.
Lemma bag_total_new e bags pos p : bags !! pos = None -> bag_total e (<[pos := p]> bags) = item_weight e p + bag_total e bags.
Proof. intros H. rewrite bag_total_insert. by rewrite delete_id. Qed.
Lemma bag_total_alter e bags pos p f : bags !! pos = Some p ->
  bag_total e (alter f pos bags) = bag_total e bags - item_weight e p + item_weight e (f p).
Proof.
  intros H. rewrite (bag_total_delete e bags pos p H).
  rewrite (bag_total_delete e (alter f pos bags) pos (f p)) by (rewrite lookup_alter, decide_True, H; done).
  rewrite delete_alter_eq. lia.
Qed.

(** ** Stacks *)
Section totals.
Context {env : BankEnv}.

Definition stack_size (e : Z) : Z := from_option ip_Stackable uninitialised (GetItemPrototype e).
Definition stack_ok (i : BankItem) : Prop :=
  0 <= bi_count i <= bi_maxStackSize i /\ bi_maxStackSize i = stack_size (bi_item_template i) /\ bi_maxStackSize i < 2 ^ 31.
Definition bag_item_ok (p : Item) : Prop :=
  0 < it_count p <= stack_size (it_entry p) /\ is_Some (GetItemPrototype (it_entry p)) /\ stack_size (it_entry p) < 2 ^ 31.
Record stacks_ok (s : GuildBank) : Prop := {
  so_addr : NoDup (fst <$> b_items s);
  so_bank : Forall (fun p => stack_ok (snd p)) (b_items s);
  so_bags : forall pos p, bp_bags (b_player s) !! pos = Some p -> bag_item_ok p
}.

(** ** The basic changes *)
Definition goods (s : GuildBank) := (b_items s, bp_bags (b_player s)).
Lemma total_goods e s s' : goods s' = goods s -> total e s' = total e s.
Proof. unfold goods, total. by intros [= -> ->]. Qed.

Lemma split_address s a i : NoDup (fst <$> b_items s) -> (a, i) ∈ b_items s ->
  exists l, b_items s ≡ₚ (a, i) :: l /\ a ∉ (fst <$> l).
Proof. intros H (l & E)%elem_of_Permutation. exists l. split; [done|]. rewrite E in H. by apply NoDup_cons in H as [? _]. Qed.
Lemma put_total e s a i i0 : NoDup (fst <$> b_items s) -> (a, i0) ∈ b_items s ->
  bank_total e (write_address a i (b_items s)) = bank_total e (b_items s) - weight e i0 + weight e i.
Proof. intros H Hi. destruct (split_address s a i0 H Hi) as (l & E & Ha). rewrite E, write_cons by done. simpl. lia. Qed.
Lemma delete_total e a i l : NoDup (fst <$> l) -> (a, i) ∈ l -> bank_total e (erase_address a l) = bank_total e l - weight e i.
Proof. intros H Hi. rewrite (erase_Permutation a i l H Hi) at 2. simpl. lia. Qed.
Lemma written_addresses a i l : fst <$> write_address a i l = fst <$> l.
Proof. unfold write_address. rewrite <- list_fmap_compose. apply list_fmap_ext. intros ? [b j] _. simpl. by destruct (Z.eqb_spec b a). Qed.

Lemma SaveToDB_goods e s : total e (SaveToDB s) = total e s.
Proof.
  unfold total. assert (b_player (SaveToDB s) = b_player s) as ->.
  { unfold SaveToDB. repeat match goal with |- context [if ?b then _ else _] => destruct b end; done. }
  by destruct (SaveToDB_items s) as [->| ->]; rewrite ?bank_total_unchanged.
Qed.
Lemma LogAction_goods action tab item count i s : goods (LogAction action tab item count i s) = goods s.
Proof. unfold LogAction. by repeat case_match. Qed.
Lemma says_goods s s' : says s s' -> goods s' = goods s.
Proof. by intros [o ->]. Qed.

(** A stack in the bags loses [count], or is destroyed. *)
Lemma weight_add e p d : 0 <= it_count p + d < 2 ^ 32 -> item_weight e (add_count d p) = item_weight e p + (if it_entry p =? e then d else 0).
Proof. intros H. unfold item_weight, add_count. simpl. rewrite u32_small by done. destruct (_ =? _); lia. Qed.
Lemma DestroyItem_total e pos p s : IsBagPos pos = false -> item_at pos s = Some p -> total e (DestroyItem pos s) = total e s - item_weight e p.
Proof.
  unfold IsBagPos. intros Hb Hp. unfold total. simpl. rewrite Hb. rewrite (bag_total_delete e _ pos p Hp). lia.
Qed.
Lemma upd_item_total e pos p f s : item_at pos s = Some p -> total e (upd_item pos f s) = total e s - item_weight e p + item_weight e (f p).
Proof. intros Hp. unfold total. simpl. rewrite (bag_total_alter e _ pos p f Hp). lia. Qed.

(** ** Deposits *)
Lemma deposit_done_total e a i count s : total e (deposit_done a i count s) = total e s.
Proof. unfold deposit_done. cbv zeta. rewrite SaveToDB_goods. by rewrite (total_goods e _ _ (LogAction_goods _ _ _ _ _ _)). Qed.

Definition moved (e : Z) (p : Item) (count : Z) : Z := if it_entry p =? e then count else 0.
Lemma take_deposited_total e pos p count after s : IsBagPos pos = false -> item_at pos s = Some p ->
  0 <= count <= it_count p -> it_count p < 2 ^ 32 ->
  total e (take_deposited pos count 0 after s) = total e s - moved e p count.
Proof.
  intros Hb Hp Hc Hm. unfold take_deposited, moved. simpl. rewrite Hp. destruct (Z.eqb_spec count (it_count p)) as [->|].
  - by rewrite (DestroyItem_total e pos p).
  - rewrite (upd_item_total e pos p), weight_add by (done || lia). destruct (_ =? e); lia.
Qed.

Lemma bag_item_lt s pos p : stacks_ok s -> item_at pos s = Some p -> 0 < it_count p < 2 ^ 31.
Proof. intros H Hp. destruct (so_bags s H pos p Hp) as ([? ?] & _ & ?). lia. Qed.

Lemma deposit_new_total e after tab slot pos p count stack s : stacks_ok s -> IsBagPos pos = false -> item_at pos s = Some p ->
  0 <= count <= it_count p -> total e (DepositItemInSlot_then after tab slot pos count 0 ITEM_NEW stack s) = total e s.
Proof.
  intros Hs Hb Hp Hc. pose proof (bag_item_lt s pos p Hs Hp). unfold DepositItemInSlot_then. rewrite Hp, decide_True by done. cbv zeta.
  rewrite deposit_done_total. rewrite (take_deposited_total e pos p); [|done..|lia]. unfold total, moved. simpl.
  rewrite bank_total_snoc. unfold weight. simpl. destruct (_ =? e); lia.
Qed.

(** What is done with the rest of a stack. *)
Definition keeps_total (e : Z) (pos : Pos) (after : GuildBank -> GuildBank) : Prop :=
  forall s p, stacks_ok s -> item_at pos s = Some p -> total e (after s) = total e s.

(** The stack at [a] after a deposit of [count] onto it. *)
Definition stacked (inf : bool) (p : Item) (i : BankItem) (count : Z) : BankItem :=
  clone_to_bank inf p (set_bi_state ITEM_CHANGED (set_bi_count (u32 (bi_count i + count)) i)).
Lemma stacked_ok inf p i count : bag_item_ok p -> stack_ok i -> bi_item_template i = it_entry p -> 0 <= count ->
  bi_count i + count <= bi_maxStackSize i -> stack_ok (stacked inf p i count).
Proof.
  intros (_ & [pr Hpr] & Hlt) ([? ?] & Hm & Hml) He Hc Hle. rewrite He in Hm.
  assert (ip_Stackable (GetProto p) = stack_size (it_entry p)) as Hst by (unfold GetProto, stack_size; by rewrite Hpr).
  unfold stack_ok, stacked. cbn -[u32]. rewrite Hst, u32_small by lia. split_and!; [lia..|done|lia].
Qed.

Lemma stacks_stacked s a i p pos count : stacks_ok s -> (a, i) ∈ b_items s -> item_at pos s = Some p ->
  bi_item_template i = it_entry p -> 0 <= count < it_count p -> bi_count i + count <= bi_maxStackSize i ->
  let i' := stacked (b_infernoBank s) p i count in
  stacks_ok (upd_item pos (add_count (- count)) (queue_update i' (put_item a i' s))).
Proof.
  intros Hs Hi Hp He Hc Hle i'. pose proof Hs as [Ha Hb Hg]. pose proof (Hg pos p Hp) as Hpo.
  assert (stack_ok i) as Hio by (rewrite Forall_forall in Hb; by apply (Hb (a, i))).
  split; simpl.
  - by rewrite written_addresses.
  - unfold write_address. apply Forall_fmap. apply (Forall_impl _ _ _ Hb). intros [b j] Hj. simpl.
    destruct (Z.eqb_spec b a); [|done]. apply stacked_ok; try done. lia.
  - intros pos' p'. destruct (decide (pos = pos')) as [<-|Hne].
    + rewrite lookup_alter_eq. unfold item_at in Hp. rewrite Hp. simpl. intros [= <-].
      destruct Hpo as ([? ?] & ? & ?). unfold bag_item_ok. simpl. rewrite u32_small by lia. split_and!; [lia..|done|done].
    + rewrite lookup_alter_ne by done. apply Hg.
Qed.

Lemma stacked_total e s a i p count : stacks_ok s -> (a, i) ∈ b_items s -> bi_item_template i = it_entry p -> 0 <= count ->
  bi_count i + count <= bi_maxStackSize i ->
  let i' := stacked (b_infernoBank s) p i count in total e (queue_update i' (put_item a i' s)) = total e s + moved e p count.
Proof.
  intros [Ha Hb _] Hi He Hc Hle i'. rewrite Forall_forall in Hb. destruct (Hb _ Hi) as ([? ?] & _ & ?). simpl in *.
  unfold total. simpl b_items. rewrite (put_total e s a i' i) by done. unfold weight, moved. simpl. rewrite He, u32_small by lia.
  destruct (_ =? e); lia.
Qed.

Lemma deposit_stack_total e after tab slot pos p a i count remainer s : stacks_ok s -> IsBagPos pos = false ->
  item_at pos s = Some p -> GetItem tab slot s = Some (a, i) -> bi_item_template i = it_entry p ->
  0 <= count <= it_count p -> bi_count i + count <= bi_maxStackSize i ->
  remainer = 0 \/ (count < it_count p /\ keeps_total e pos after) ->
  total e (DepositItemInSlot_then after tab slot pos count remainer ITEM_CHANGED true s) = total e s.
Proof.
  intros Hs Hb Hp Hg He Hc Hle Hr. pose proof (bag_item_lt s pos p Hs Hp) as Hlt. unfold DepositItemInSlot_then.
  rewrite Hp, decide_False, Hg by done. cbv zeta. apply GetItem_Some in Hg as (Hi & _).
  fold (stacked (b_infernoBank s) p i count). rewrite deposit_done_total.
  pose proof (stacked_total e s a i p count Hs Hi He ltac:(lia) Hle) as Ht. cbv zeta in Ht.
  destruct (Z.eqb_spec remainer 0) as [->|Hne].
  - rewrite (take_deposited_total e pos p); [|done..|lia]. rewrite Ht. lia.
  - destruct Hr as [|[Hlc Ha]]; [done|]. unfold take_deposited. rewrite (proj2 (Z.eqb_neq remainer 0)) by done.
    pose proof (stacks_stacked s a i p pos count Hs Hi Hp He ltac:(lia) Hle) as Hso. cbv zeta in Hso.
    rewrite (Ha _ (add_count (- count) p) Hso) by (unfold item_at in *; simpl; by rewrite lookup_alter_eq, Hp).
    rewrite (upd_item_total e pos p), weight_add, Ht by (done || lia). unfold moved. destruct (_ =? e); lia.
Qed.

Lemma open_stack_spec tab p s slot slot' i : open_stack tab p s slot = Some (slot', i) ->
  slot' = slot /\ exists a, GetItem tab slot s = Some (a, i) /\ bi_item_template i = it_entry p /\ bi_count i < bi_maxStackSize i.
Proof.
  unfold open_stack. destruct (GetItem tab slot s) as [[a j]|]; [|done]. simpl. destruct (_ && _) eqn:Hb; [|done].
  intros [= <- <-]. bool_prop. split; [done|]. by exists a.
Qed.
Lemma first_open_stack tab p s l slot i : head (omap (open_stack tab p s) l) = Some (slot, i) ->
  exists a, GetItem tab slot s = Some (a, i) /\ bi_item_template i = it_entry p /\ bi_count i < bi_maxStackSize i.
Proof.
  induction l as [|x l IH]; [done|]. csimpl. destruct (open_stack tab p s x) as [[x' j]|] eqn:Hx; [|done].
  apply open_stack_spec in Hx as [-> Hx]. simpl. by intros [= <- <-].
Qed.

Lemma DepositItemInFreeSlot_total e fuel tab pos : IsBagPos pos = false -> keeps_total e pos (DepositItemInFreeSlot fuel tab pos).
Proof.
  intros Hb. induction fuel as [|fuel IH]; [by intros s|]. intros s p Hs Hp. cbn [DepositItemInFreeSlot]. rewrite Hp.
  pose proof (bag_item_lt s pos p Hs Hp) as Hlt. destruct (if 1 <? _ then _ else _) as [[slot i]|] eqn:Ho.
  - destruct (1 <? ip_Stackable (GetProto p)); [|done]. apply first_open_stack in Ho as (a & Hg & He & Hc).
    pose proof Hs as [_ Hbk _]. rewrite Forall_forall in Hbk. pose proof (GetItem_Some _ _ _ _ _ Hg) as (Hin & _).
    destruct (Hbk _ Hin) as ([? ?] & _ & ?). simpl in *. rewrite (u32_small (it_count p + bi_count i)) by lia.
    destruct (Z.leb_spec (it_count p + bi_count i) (bi_maxStackSize i)).
    + eapply deposit_stack_total; [done..|lia|lia|by left].
    + rewrite u32_small by lia. eapply deposit_stack_total; [done..|lia|lia|]. right. split; [lia|done].
  - destruct (List.find _ _) as [slot|]; [|done]. apply (deposit_new_total e _ _ _ _ p); [done..|lia].
Qed.

(** ** Withdrawals *)
(** What the inventory promises: the places it names take the whole amount;
    those that hold an item hold one of the same kind, with room.  A created
    item is of the kind asked for. *)
Record store_law : Prop := {
  sl_dest p bag slot e n dest : 0 <= n -> CanStoreNewItem p bag slot e n = (EQUIP_ERR_OK, dest) ->
    dest_count dest = n /\ NoDup (fst <$> dest) /\
    Forall (fun d => 0 <= snd d /\ forall i, bp_bags p !! fst d = Some i -> it_entry i = e /\ 0 <= it_count i /\ it_count i + snd d < 2 ^ 32) dest;
  sl_create e n i : CreateItem e n = Some i -> it_entry i = e
}.

Lemma bind_stored_weight e pos i : item_weight e (bind_stored pos i) = item_weight e i.
Proof. unfold bind_stored. cbv zeta. by destruct (_ || _ || _), (_ =? BIND_ACCOUNT). Qed.
Lemma bind_stored_add pos i d : add_count d (bind_stored pos i) = bind_stored pos (add_count d i).
Proof. unfold bind_stored. cbv zeta. by destruct (_ || _ || _), (_ =? BIND_ACCOUNT). Qed.

Definition taken (e tmpl n : Z) : Z := if tmpl =? e then n else 0.
Lemma StoreItem_total e tmpl pItem bags d : it_entry pItem = tmpl -> 0 <= snd d ->
  (forall i, bags !! fst d = Some i -> it_entry i = tmpl /\ 0 <= it_count i /\ it_count i + snd d < 2 ^ 32) ->
  bag_total e (_StoreItem pItem bags d) = bag_total e bags + taken e tmpl (snd d).
Proof.
  destruct d as [[bag slot] n]. cbn [fst snd]. intros <- Hn Hd. unfold _StoreItem, taken. destruct (bags !! (bag, slot)) as [i|] eqn:Hi.
  - destruct (Hd i eq_refl) as (He & H0 & Hlt). rewrite bag_total_insert, bind_stored_add, bind_stored_weight, weight_add by lia.
    rewrite (bag_total_delete e bags (bag, slot) i Hi), He. destruct (_ =? e); lia.
  - rewrite bag_total_new, bind_stored_weight by done. unfold item_weight. simpl. destruct (_ =? e); lia.
Qed.
Lemma StoreItem_other pItem bags d pos : pos <> fst d -> _StoreItem pItem bags d !! pos = bags !! pos.
Proof. destruct d as [[bag slot] n]. intros Hne. unfold _StoreItem. destruct (bags !! (bag, slot)); by rewrite lookup_insert_ne. Qed.
Lemma store_total e tmpl pItem dest bags : it_entry pItem = tmpl -> NoDup (fst <$> dest) ->
  Forall (fun d => 0 <= snd d /\ forall i, bags !! fst d = Some i -> it_entry i = tmpl /\ 0 <= it_count i /\ it_count i + snd d < 2 ^ 32) dest ->
  bag_total e (foldl (_StoreItem pItem) bags dest) = bag_total e bags + taken e tmpl (dest_count dest).
Proof.
  intros Ht. revert bags. induction dest as [|d dest IH]; intros bags; csimpl.
  - unfold taken. destruct (_ =? e); lia.
  - intros [Hn Hnd]%NoDup_cons [[H0 Hd] Hrest]%Forall_cons. rewrite IH.
    + rewrite (StoreItem_total e tmpl) by done. unfold taken. destruct (_ =? e); lia.
    + done.
    + rewrite Forall_forall in Hrest |- *. intros x Hx. destruct (Hrest x Hx) as [Hx0 Hxd]. split; [done|].
      intros i. rewrite StoreItem_other by (intros E; apply Hn; rewrite <- E; apply list_elem_of_fmap; by exists x). apply Hxd.
Qed.

Lemma bag_total_alter_same e bags pos f : (forall p, item_weight e (f p) = item_weight e p) ->
  bag_total e (alter f pos bags) = bag_total e bags.
Proof.
  intros Hf. destruct (bags !! pos) as [p|] eqn:Hp; [rewrite (bag_total_alter e bags pos p f Hp), Hf; lia|].
  f_equal. apply map_eq. intros k. destruct (decide (pos = k)) as [<-|]; [by rewrite lookup_alter_eq, Hp|by rewrite lookup_alter_ne].
Qed.

(** The bank's side, whatever happens to the bags in the meantime. *)
Lemma withdraw_done_total e tab slot a i count n r swap s f g : NoDup (fst <$> b_items s) -> (a, i) ∈ b_items s ->
  0 <= count <= bi_count i -> r = bi_count i - count -> (r <> 0 -> n = r) ->
  (forall i s, b_items (f i s) = b_items s) -> (forall i s, bp_bags (b_player (f i s)) = g (bp_bags (b_player s))) ->
  total e (let '(i, s) := withdrawn tab slot (Some a) i n r swap s in withdraw_done tab (Some a) i count (f i s)) =
  bank_total e (b_items s) - taken e (bi_item_template i) count + bag_total e (g (bp_bags (b_player s))).
Proof.
  intros Ha Hi Hc Hr Hn Hf Hg. unfold withdrawn. destruct (Z.eqb_spec r 0) as [Hr0|Hr0].
  - set (i' := set_bi_state ITEM_REMOVED i). set (s1 := if swap then _ else _). cbv zeta iota beta.
    assert (goods s1 = goods (put_item a i' s)) as Hs1 by (unfold s1; by destruct swap). clearbody s1.
    unfold goods in Hs1. injection Hs1 as Hi1 Hg1. unfold withdraw_done. cbv zeta. rewrite decide_True by done.
    rewrite (total_goods e _ _ (says_goods _ _ (says_SendTabWithdrawalsLeft _ _))). cbn [delete_ptr].
    pose proof (LogAction_goods ACTION_WITHDRAW_ITEM (bi_tab i') (bi_item_template i') count (Some i') (f i' (queue_update i' s1))) as Hl.
    unfold goods in Hl. injection Hl as Hl1 Hl2. unfold total. simpl. rewrite Hl1, Hl2, Hf, Hg. simpl. rewrite Hi1, Hg1. simpl.
    rewrite (delete_total e a i'); [|by rewrite written_addresses|].
    2: { destruct (split_address s a i Ha Hi) as (l & E & Hl). rewrite E, write_cons by done. set_solver. }
    rewrite (put_total e s a i' i Ha Hi). unfold weight, taken. simpl. destruct (_ =? e); lia.
  - set (i' := set_bi_state ITEM_CHANGED _). set (s1 := SendGuildMessage _ _). cbv zeta iota beta.
    assert (b_items s1 = write_address a i' (b_items s) /\ bp_bags (b_player s1) = bp_bags (b_player s)) as [Hi1 Hg1] by done. clearbody s1.
    unfold withdraw_done. cbv zeta. rewrite decide_False by done.
    rewrite (total_goods e _ _ (says_goods _ _ (says_SendTabWithdrawalsLeft _ _))), (total_goods e _ _ (LogAction_goods _ _ _ _ _ _)).
    unfold total. rewrite Hf, Hg. simpl. rewrite Hi1, Hg1, (put_total e s a i' i Ha Hi). unfold weight, taken. simpl.
    rewrite (Hn Hr0). destruct (_ =? e); lia.
Qed.

Lemma WithdrawItem_to_total e tab slot count bag pslot a i pItem r swap s : store_law -> stacks_ok s -> (a, i) ∈ b_items s ->
  0 <= count <= bi_count i -> r = bi_count i - count ->
  (forall pos, pItem = Some pos -> exists p, item_at pos s = Some p /\ it_entry p = bi_item_template i) ->
  total e (WithdrawItem_to tab slot count bag pslot (Some a) i pItem r swap s) = total e s.
Proof.
  intros [Hlaw Hcreate] Hs Hi Hc Hr Hp. unfold WithdrawItem_to.
  assert (bi_count i < 2 ^ 31) as Hlt.
  { destruct Hs as [_ Hb _]. rewrite Forall_forall in Hb. destruct (Hb _ Hi) as ([? ?] & _ & ?). simpl in *. lia. }
  destruct (CanStoreNewItem _ _ _ _ _) as [msg dest] eqn:Hst. destruct (Z.eqb_spec msg EQUIP_ERR_OK) as [->|]; [|done].
  simpl negb. cbv iota. rewrite SaveToDB_goods. destruct pItem as [pos|].
  - destruct (Hp pos eq_refl) as (p & Hpi & He). pose proof (bag_item_lt s pos p Hs Hpi).
    rewrite (withdraw_done_total e tab slot a i count _ r swap s (fun _ => upd_item pos (add_count count)) (alter (add_count count) pos));
      [|apply Hs|done..|intros; rewrite u32_small by lia; done|done|done].
    rewrite (bag_total_alter e _ pos p), weight_add by (done || lia). unfold total, taken. rewrite He. destruct (_ =? e); lia.
  - destruct (Hlaw _ _ _ _ _ _ (proj1 Hc) Hst) as (Hdc & Hnd & Hd). unfold StoreNewItem. rewrite Hdc.
    destruct (CreateItem _ _) as [q|] eqn:Hq; [|done]. apply Hcreate in Hq. cbv zeta.
    set (s1 := upd_bags _ s). set (s2 := match fst <$> last dest with Some pos => _ | None => _ end).
    assert (b_items s2 = b_items s /\ bag_total e (bp_bags (b_player s2)) = bag_total e (bp_bags (b_player s)) + taken e (bi_item_template i) count) as [H1 H2].
    { assert (bag_total e (bp_bags (b_player s1)) = bag_total e (bp_bags (b_player s)) + taken e (bi_item_template i) count) as <-
        by (simpl; rewrite (store_total e (bi_item_template i)), Hdc; done).
      unfold s2. destruct (fst <$> last dest); (split; [done|]); [|done]. simpl. by apply bag_total_alter_same. }
    rewrite (withdraw_done_total e tab slot a i count r r swap s2 (fun i s => set_b_out (b_out s ++ [NewItem (bi_item_template i) count]) s) id);
      rewrite ?H1; try done; [|apply Hs]. unfold id, total. rewrite H2. lia.
Qed.

(** ** Requests *)
Lemma GetItemByPos_at pos p s : GetItemByPos (fst pos) (snd pos) (b_player s) = Some p -> item_at pos s = Some p.
Proof.
  destruct pos as [bag slot]. cbn [fst snd]. unfold GetItemByPos, item_at. destruct (Z.eqb_spec bag INVENTORY_SLOT_BAG_0) as [->|].
  - by destruct (_ || _).
  - destruct (is_bag_slot bag); [|done]. by destruct (bp_bags (b_player s) !! (INVENTORY_SLOT_BAG_0, bag)).
Qed.
Lemma stack_at s tab slot a i : stacks_ok s -> GetItem tab slot s = Some (a, i) -> (a, i) ∈ b_items s /\ stack_ok i.
Proof. intros [_ Hb _] (Hi & _)%GetItem_Some. rewrite Forall_forall in Hb. split; [done|]. by apply (Hb (a, i)). Qed.

Lemma deposit_onto_total e tab slot pos p count a d s : store_law -> stacks_ok s -> IsBagPos pos = false -> item_at pos s = Some p ->
  GetItem tab slot s = Some (a, d) -> 0 <= count <= it_count p -> exchanges d p = false ->
  total e (deposit_onto tab slot pos p count a d s) = total e s.
Proof.
  intros Hlaw Hs Hb Hp Hd Hc Hx. unfold exchanges in Hx. apply negb_false_iff in Hx. unfold deposit_onto.
  destruct ((bi_item_template d =? it_entry p) && (bi_count d =? it_count p) && _ && _); [done|]. rewrite Hx. bool_prop.
  destruct (stack_at s tab slot a d Hs Hd) as [Hin ([? ?] & _ & ?)]. pose proof (bag_item_lt s pos p Hs Hp).
  rewrite (u32_small (bi_count d + count)) by lia. destruct (Z.leb_spec (bi_count d + count) (bi_maxStackSize d)).
  { eapply deposit_stack_total; [done..|lia|by left]. }
  destruct ((count <? bi_count d) && _) eqn:Hm.
  - bool_prop. rewrite (u32_small (bi_maxStackSize d - count)), u32_small by lia.
    apply WithdrawItem_to_total; [done..|lia|lia|]. intros pos' [= <-]. by exists p.
  - rewrite u32_small by lia. eapply deposit_stack_total; [done..|lia|lia|by left].
Qed.

(** No more is deposited than the stack in the bags holds, and no bag with
    what is in it. *)
Definition deposit_within (msg : string) (s : GuildBank) : bool :=
  match params msg with
  | [_; p1; p2; p3; p4; p5] =>
      let pos := deposit_pos (u8 (atoi p1)) (u8 (atoi p2)) in
      negb (IsBagPos pos) &&
      match GetItemByPos (fst pos) (snd pos) (b_player s) with
      | Some p => (u8 (atoi p4) =? 0) || (u8 (atoi p5) <=? it_count p)
      | None => true
      end
  | _ => true
  end.

Lemma DepositItem_total e msg s : store_law -> stacks_ok s -> deposit_within msg s = true -> deposit_exchanges msg s = false ->
  total e (DepositItem msg s) = total e s.
Proof.
  intros Hlaw Hs Hw Hx. unfold DepositItem. unfold deposit_exchanges, deposit_within in *.
  destruct (params msg) as [|p0 [|p1 [|p2 [|p3 [|p4 [|p5 [|? ?]]]]]]]; try done. cbv zeta in *.
  destruct ((u8 (atoi p3) =? 0) || _ || _); [done|].
  destruct (CanAccessTab_out (u8 (atoi p3)) ACTION_DEPOSIT_ITEM s) as (may & o & ->). destruct may; [|done]. simpl negb. cbv iota.
  unfold exchanges_at in Hx. change (b_player (set_b_out o s)) with (b_player s). apply andb_true_iff in Hw as [Hb Hw].
  apply negb_true_iff in Hb. destruct (GetItemByPos _ _ (b_player s)) as [p|] eqn:Hp; [|done]. apply GetItemByPos_at in Hp.
  destruct (IsItemBankable_out p (set_b_out o s)) as (b & o' & ->). destruct b; [|done]. simpl negb. cbv iota.
  set (s1 := set_b_out o' _). assert (stacks_ok s1 /\ item_at (deposit_pos (u8 (atoi p1)) (u8 (atoi p2))) s1 = Some p) as [Hs1 Hp1].
  { split; [|done]. by destruct Hs. }
  change (GetItem (u8 (atoi p3)) (u8 (atoi p4)) s) with (GetItem (u8 (atoi p3)) (u8 (atoi p4)) s1) in Hx.
  change (total e s) with (total e s1). clearbody s1.
  destruct (ip_Stackable (GetProto p) <? u8 (atoi p5)); [done|]. destruct (Z.eqb_spec (u8 (atoi p4)) 0).
  { by eapply DepositItemInFreeSlot_total. }
  simpl in Hw. apply Z.leb_le in Hw. assert (0 <= u8 (atoi p5) <= it_count p) by (split; [apply u8_range|done]).
  destruct (GetItem _ _ s1) as [[a d]|] eqn:Hd.
  - by apply (deposit_onto_total e _ _ _ p).
  - by apply (deposit_new_total e _ _ _ _ p).
Qed.

Lemma withdraw_onto_total e tab slot count bag pslot p a i s : store_law -> stacks_ok s -> (a, i) ∈ b_items s -> stack_ok i ->
  item_at (u8 bag, u8 pslot) s = Some p -> 0 <= count <= bi_count i -> exchanges i p = false ->
  total e (withdraw_onto tab slot count bag pslot p a i s) = total e s.
Proof.
  intros Hlaw Hs Hi ([? ?] & Hm & ?) Hp Hc Hx. unfold exchanges in Hx. apply negb_false_iff in Hx. unfold withdraw_onto.
  rewrite (Z.eqb_sym (it_entry p)), Hx. bool_prop. cbv zeta. destruct (so_bags s Hs _ _ Hp) as ([? ?] & [pr Hpr] & ?).
  assert (ip_Stackable (GetProto p) = stack_size (it_entry p)) as -> by (unfold GetProto, stack_size; by rewrite Hpr).
  rewrite (u32_small (count + it_count p)) by lia. apply WithdrawItem_to_total; try done.
  - destruct (Z.ltb_spec (stack_size (it_entry p)) (count + it_count p)); [|done]. rewrite u32_small by lia. lia.
  - destruct (Z.ltb_spec (stack_size (it_entry p)) (count + it_count p)); rewrite ?(u32_small (stack_size _ - _)) by lia; rewrite u32_small; lia.
  - intros pos [= <-]. by exists p.
Qed.

Lemma WithdrawItem_total e msg s : store_law -> stacks_ok s -> withdraw_exchanges msg s = false ->
  total e (WithdrawItem msg s) = total e s.
Proof.
  intros Hlaw Hs Hx. unfold WithdrawItem. unfold withdraw_exchanges in Hx.
  destruct (params msg) as [|p0 [|p1 [|p2 [|p3 [|p4 [|p5 [|? ?]]]]]]]; try done. cbv zeta in *.
  destruct (bad_place _ _); [done|].
  destruct (CanAccessTab_out (u8 (u32 (atoi p1))) ACTION_WITHDRAW_ITEM s) as (may & o & ->). destruct may; [|done]. simpl negb. cbv iota.
  change (GetItem ?t ?l (set_b_out o s)) with (GetItem t l s). unfold exchanges_at in Hx.
  destruct (GetItem _ _ s) as [[a i]|] eqn:Hi; [|done]. destruct (stack_at _ _ _ _ _ Hs Hi) as [Hin Hio].
  assert (stacks_ok (set_b_out o s)) as Hs1 by by destruct Hs. pose proof (u32_range (atoi p5)). pose proof Hio as ([? ?] & _ & ?).
  destruct (Z.ltb_spec (bi_count i) (u32 (atoi p5))); [done|]. destruct ((u32 (atoi p3) =? 0) && _).
  { destruct (Z.eqb_spec (bi_count i) (u32 (atoi p5))); [|done].
    rewrite (WithdrawItem_to_total e); [done|done..|lia|lia|done]. }
  cbn [negb andb] in Hx. destruct (withdraw_pos _ _) as [bag slot]. cbn [fst snd] in Hx. change (b_player (set_b_out o s)) with (b_player s).
  destruct (GetItemByPos (u8 bag) (u8 slot) (b_player s)) as [p|] eqn:Hp.
  - apply (GetItemByPos_at (u8 bag, u8 slot)) in Hp. destruct (IsItemBankable_out p (set_b_out o s)) as (b & o' & ->).
    destruct b; [|done]. simpl negb. cbv iota. rewrite (withdraw_onto_total e); try done; [by destruct Hs|lia].
  - rewrite (WithdrawItem_to_total e); [done|done..|lia|rewrite u32_small; lia|done].
Qed.

(** Two stacks are written. *)
Lemma changes_total e s a i i0 b d d0 : stacks_ok s -> (a, i0) ∈ b_items s -> (b, d0) ∈ b_items s -> a <> b ->
  weight e i + weight e d = weight e i0 + weight e d0 ->
  total e (change_item b d (change_item a i s)) = total e s.
Proof.
  intros [Ha _ _] Hi Hd Hab Hw. unfold total. simpl. set (i' := set_bi_state ITEM_CHANGED i). set (d' := set_bi_state ITEM_CHANGED d).
  assert ((b, d0) ∈ b_items (put_item a i' s)) as Hd'.
  { simpl. unfold write_address. apply list_elem_of_fmap. exists (b, d0). split; [|done]. simpl. by destruct (Z.eqb_spec b a); [congruence|]. }
  assert (NoDup (fst <$> b_items (put_item a i' s))) as Ha' by (simpl; by rewrite written_addresses).
  change (write_address a i' (b_items s)) with (b_items (put_item a i' s)).
  rewrite (put_total e (put_item a i' s) b d' d0 Ha' Hd'). simpl. rewrite (put_total e s a i' i0 Ha Hi).
  change (weight e i') with (weight e i). change (weight e d') with (weight e d). lia.
Qed.

Lemma two_stacks s tab x y a i b d : stacks_ok s -> x <> y -> GetItem tab x s = Some (a, i) -> GetItem tab y s = Some (b, d) ->
  (a, i) ∈ b_items s /\ (b, d) ∈ b_items s /\ a <> b /\ stack_ok i /\ stack_ok d.
Proof.
  intros Hs Hxy Hi Hd. destruct (stack_at _ _ _ _ _ Hs Hi) as [Hii ?], (stack_at _ _ _ _ _ Hs Hd) as [Hdi ?].
  split_and!; try done. intros ->. apply GetItem_Some in Hi as (_ & _ & <-), Hd as (_ & _ & <-).
  destruct (split_address s b i (so_addr s Hs) Hii) as (l & E & Hl). rewrite E in Hdi.
  apply elem_of_cons in Hdi as [[= ->]|Hdi]; [done|]. apply Hl. apply list_elem_of_fmap. by exists (b, d).
Qed.

Lemma MoveItem_to_total e s tab x y : stacks_ok s -> x <> y ->
  total e (MoveItem_to (GetItem tab x s) (GetItem tab y s) tab x y s) = total e s.
Proof.
  intros Hs Hxy. destruct (GetItem tab x s) as [[a i]|] eqn:Hi; [|done]. destruct (GetItem tab y s) as [[b d]|] eqn:Hd.
  - destruct (two_stacks _ _ _ _ _ _ _ _ Hs Hxy Hi Hd) as (Hia & Hdb & Hab & ([? ?] & Hmi & ?) & ([? ?] & Hmd & ?)). simpl MoveItem_to.
    assert (total e (swap_places a i b d x y s) = total e s) as Hsw.
    { unfold swap_places. cbv zeta. rewrite SaveToDB_goods.
      exact (changes_total e s a (set_bi_slot y i) i b (set_bi_slot x d) d Hs Hia Hdb Hab eq_refl). }
    destruct (Z.eqb_spec (bi_item_template i) (bi_item_template d)) as [E|]; [|done].
    destruct ((bi_count i =? _) || _); [done|]. rewrite (u32_small (bi_count i + bi_count d)) by lia.
    assert (bi_maxStackSize i = bi_maxStackSize d) as Hm by congruence. destruct (Z.leb_spec (bi_count i + bi_count d) (bi_maxStackSize i)).
    + set (d' := set_bi_count _ d). set (s1 := change_item b d' s). set (i' := set_bi_state ITEM_REMOVED i).
      assert (total e s1 = total e s - weight e d + weight e d') as Hw1.
      { unfold total. simpl. rewrite (put_total e s b (set_bi_state ITEM_CHANGED d') d (so_addr s Hs) Hdb).
        change (weight e (set_bi_state ITEM_CHANGED d')) with (weight e d'). lia. }
      assert (NoDup (fst <$> b_items s1) /\ (a, i) ∈ b_items s1) as [Ha1 Hi1].
      { split; [simpl; rewrite written_addresses; apply Hs|]. simpl. unfold write_address. apply list_elem_of_fmap. exists (a, i).
        split; [|done]. simpl. by destruct (Z.eqb_spec a b). }
      assert (total e (DeleteItem a (queue_update i' (put_item a i' s1))) = total e s1 - weight e i) as Hw2.
      { unfold total. change (b_items (DeleteItem a (queue_update i' (put_item a i' s1)))) with (erase_address a (write_address a i' (b_items s1))).
        rewrite (delete_total e a i'); [|by rewrite written_addresses|].
        2: { destruct (split_address s1 a i Ha1 Hi1) as (l & E' & Hl). rewrite E', write_cons by done. set_solver. }
        rewrite (put_total e s1 a i' i Ha1 Hi1). change (weight e i') with (weight e i).
        change (bp_bags (b_player (DeleteItem a (queue_update i' (put_item a i' s1))))) with (bp_bags (b_player s1)). lia. }
      transitivity (total e (DeleteItem a (queue_update i' (put_item a i' s1)))); [done|]. rewrite Hw2, Hw1. unfold weight, d'. simpl.
      rewrite E. destruct (_ =? e); lia.
    + rewrite (u32_small (bi_maxStackSize i - bi_count d)), u32_small by lia.
      refine (changes_total e s a (set_bi_count _ i) i b (set_bi_count _ d) d Hs Hia Hdb Hab _).
      unfold weight. simpl. rewrite E. destruct (_ =? e); lia.
  - destruct (stack_at _ _ _ _ _ Hs Hi) as [Hii _]. simpl MoveItem_to. unfold total. simpl.
    rewrite (put_total e s a _ i (so_addr s Hs) Hii). unfold weight. simpl. lia.
Qed.
Lemma MoveItem_total e msg s : stacks_ok s -> total e (MoveItem msg s) = total e s.
Proof.
  intros Hs. unfold MoveItem. destruct (params msg) as [|p0 [|p1 [|p2 [|p3 [|? ?]]]]]; try done. cbv zeta.
  destruct (CanAccessTab_out (u8 (atoi p1)) ACTION_MOVE_ITEM s) as (may & o & ->). destruct may; [|done]. simpl negb. cbv iota.
  destruct (Z.eqb_spec (u8 (atoi p2)) (u8 (atoi p3))); [done|]. destruct (bad_places _ _ _); [done|].
  apply (MoveItem_to_total e (set_b_out o s)); [by destruct Hs|done].
Qed.

Lemma split_off_total e a i slot n s : stacks_ok s -> (a, i) ∈ b_items s -> stack_ok i -> 0 <= n < 2 ^ 31 ->
  total e (split_off a i slot n s) = total e s.
Proof.
  intros Hs Hi ([? ?] & _ & ?) Hn. unfold split_off. destruct (bi_maxStackSize i <=? n); [done|].
  rewrite (i32_small (bi_count i)), i32_small by lia. destruct (Z.leb_spec (bi_count i - n) 0); [done|]. cbv zeta.
  rewrite SaveToDB_goods, u32_small by lia. unfold total. simpl. rewrite bank_total_snoc, (put_total e s a _ i (so_addr s Hs) Hi).
  unfold weight. simpl. destruct (_ =? e); lia.
Qed.
Lemma SplitItem_total e msg s : stacks_ok s -> total e (SplitItem msg s) = total e s.
Proof.
  intros Hs. unfold SplitItem. destruct (params msg) as [|p0 [|p1 [|p2 [|p3 [|p4 [|? ?]]]]]]; try done. cbv zeta.
  destruct (CanAccessTab_out (u8 (atoi p1)) ACTION_SPLIT_ITEM s) as (may & o & ->). destruct may; [|done]. simpl negb. cbv iota.
  destruct (Z.eqb_spec (u8 (atoi p2)) (u8 (atoi p3))); [done|]. destruct (bad_places _ _ _); [done|].
  assert (stacks_ok (set_b_out o s)) as Hs1 by by destruct Hs. change (total e s) with (total e (set_b_out o s)).
  pose proof (u8_range (atoi p4)) as Hn. destruct (GetItem _ (u8 (atoi p2)) _) as [[a i]|] eqn:Hi; [|done].
  destruct (GetItem _ (u8 (atoi p3)) _) as [[b d]|] eqn:Hd.
  - destruct (two_stacks _ _ _ _ _ _ _ _ Hs1 n Hi Hd) as (Hia & Hdb & Hab & ([? ?] & Hmi & ?) & ([? ?] & Hmd & ?)). unfold split_onto.
    destruct (Z.eqb_spec (bi_item_template i) (bi_item_template d)) as [E|]; [|done]. simpl negb. cbv iota.
    rewrite (u32_small (bi_count d + _)) by lia. destruct (Z.leb_spec (bi_count d + u8 (atoi p4)) (bi_maxStackSize d)); [|done].
    simpl negb. cbv iota. destruct (u32 (bi_count i - _) <=? 0); [done|].
    destruct (Z.ltb_spec (bi_maxStackSize i) (u32 (bi_count i - u8 (atoi p4)))) as [|Hle]; [done|].
    repeat (match goal with |- context [if ?c then _ else _] => destruct c end; [done|]).
    assert (u32 (bi_count i - u8 (atoi p4)) = bi_count i - u8 (atoi p4)) as ->.
    { destruct (decide (u8 (atoi p4) <= bi_count i)); [rewrite u32_small; lia|]. exfalso. revert Hle. unfold u32.
      rewrite <- (Z.mod_add _ 1), Z.mod_small by lia. lia. }
    refine (changes_total e (set_b_out o s) a (set_bi_count _ i) i b (set_bi_count _ d) d Hs1 Hia Hdb Hab _).
    unfold weight. simpl. rewrite E. destruct (_ =? e); lia.
  - destruct (stack_at _ _ _ _ _ Hs1 Hi) as [Hii Hio]. apply split_off_total; try done. lia.
Qed.
End totals.

(** Depositing into the first free place goes on with the rest of a stack until
    all of it is in the bank or the tab is full: each round fills one of the
    tab's open stacks, so [deposit_fuel] rounds are enough. *)

(** ** Finding items in a list whose items keep their places *)
Lemma find_fmap {A} (f : A -> bool) (g : A -> A) l : (forall x, x ∈ l -> f (g x) = f x) -> List.find f (g <$> l) = g <$> List.find f l.
Proof.
  induction l as [|x l IH]; csimpl; [done|]. intros H. rewrite (H x) by apply list_elem_of_here.
  destruct (f x); [done|]. apply IH. intros y Hy. apply H. by apply list_elem_of_further.
Qed.
Lemma omap_no_longer {A B} (f g : A -> option B) l : (forall y, is_Some (f y) -> is_Some (g y)) ->
  (length (omap f l) <= length (omap g l))%nat.
Proof.
  intros Hfg. induction l as [|y l IH]; csimpl; [lia|]. pose proof (Hfg y) as Hy. destruct (f y); csimpl.
  - destruct Hy as [? ->]; [done|]. simpl. lia.
  - destruct (g y); simpl; lia.
Qed.
Lemma omap_shorter `{EqDecision A} {B} (f g : A -> option B) l x : (forall y, is_Some (f y) -> is_Some (g y)) ->
  x ∈ l -> f x = None -> is_Some (g x) -> (length (omap f l) < length (omap g l))%nat.
Proof.
  intros Hfg Hx Hf [z Hg]. induction l as [|y l IH]; [by apply not_elem_of_nil in Hx|].
  pose proof (omap_no_longer f g l Hfg). csimpl. destruct (decide (x = y)) as [->|Hne].
  - rewrite Hf, Hg. simpl. lia.
  - apply elem_of_cons in Hx as [|Hx]; [done|]. specialize (IH Hx). pose proof (Hfg y) as Hy. destruct (f y); csimpl.
    + destruct Hy as [? ->]; [done|]. simpl. lia.
    + destruct (g y); simpl; lia.
Qed.

Section fuel.
Context {env : BankEnv}.

Lemma GetItem_put tab x s a i i0 : NoDup (fst <$> b_items s) -> (a, i0) ∈ b_items s -> place i = place i0 ->
  GetItem tab x (put_item a i s) = (fun p => if fst p =? a then (a, i) else p) <$> GetItem tab x s.
Proof.
  intros Ha Hi [= Ht Hs]. unfold GetItem. simpl. unfold write_address. apply find_fmap. intros [b j] Hj. simpl.
  destruct (Z.eqb_spec b a) as [->|]; [|done]. assert (j = i0) as ->; [|unfold at_place; simpl; by rewrite Ht, Hs].
  destruct (split_address s a i0 Ha Hi) as (l & E & Hl). rewrite E in Hj. apply elem_of_cons in Hj as [[= ->]|Hj]; [done|].
  exfalso. apply Hl, list_elem_of_fmap. by exists (a, j).
Qed.
Lemma SaveToDB_player s : b_player (SaveToDB s) = b_player s.
Proof. unfold SaveToDB. repeat match goal with |- context [if ?b then _ else _] => destruct b end; done. Qed.
Lemma GetItem_saved tab x s : is_Some (GetItem tab x (SaveToDB s)) <-> is_Some (GetItem tab x s).
Proof.
  unfold GetItem. destruct (SaveToDB_items s) as [->| ->]; [done|]. rewrite find_fmap by done. apply fmap_is_Some.
Qed.

(** ** Open stacks *)
Definition open_stacks (tab : Z) (p : Item) (s : GuildBank) : nat := length (omap (open_stack tab p s) (seqZ 1 BANK_TAB_SIZE)).
Lemma open_stacks_bound tab p s : (open_stacks tab p s < deposit_fuel)%nat.
Proof.
  unfold open_stacks. assert (forall l, (length (omap (open_stack tab p s) l) <= length l)%nat) as H.
  { induction l as [|x l IH]; csimpl; [lia|]. destruct (open_stack tab p s x); simpl; lia. }
  specialize (H (seqZ 1 BANK_TAB_SIZE)). rewrite length_seqZ in H. unfold BANK_TAB_SIZE, deposit_fuel in *. lia.
Qed.

Lemma head_open_slot tab p s slot i : head (omap (open_stack tab p s) (seqZ 1 BANK_TAB_SIZE)) = Some (slot, i) -> 1 <= slot <= BANK_TAB_SIZE.
Proof.
  assert (forall x, x ∈ seqZ 1 BANK_TAB_SIZE -> 1 <= x <= BANK_TAB_SIZE) as H by apply seqZ_slots. revert H.
  induction (seqZ 1 BANK_TAB_SIZE) as [|x l IH]; [done|]. csimpl. intros H. destruct (open_stack tab p s x) as [[y j]|] eqn:Hx; simpl.
  - intros [= <- <-]. apply open_stack_spec in Hx as [-> _]. apply H. by left.
  - apply IH. intros y Hy. apply H. by right.
Qed.

(** The state in which the rest of a stack is dealt with. *)
Definition filled_up (pos : Pos) (p : Item) (a : Z) (i : BankItem) (room : Z) (s : GuildBank) : GuildBank :=
  let i' := stacked (b_infernoBank s) p i room in upd_item pos (add_count (- room)) (queue_update i' (put_item a i' s)).

Lemma filled_up_closes tab slot pos p a i s : stacks_ok s -> item_at pos s = Some p -> 1 <= slot <= BANK_TAB_SIZE ->
  GetItem tab slot s = Some (a, i) -> bi_item_template i = it_entry p -> bi_count i < bi_maxStackSize i ->
  let room := bi_maxStackSize i - bi_count i in
  (open_stacks tab (add_count (- room) p) (filled_up pos p a i room s) < open_stacks tab p s)%nat.
Proof.
  intros Hs Hp Hslot Hg He Hc room. pose proof Hg as (Hi & _)%GetItem_Some. destruct (stack_at _ _ _ _ _ Hs Hg) as [_ Hio].
  pose proof Hio as ([? ?] & Hm & ?). assert (bag_item_ok p) as Hpo by by apply (so_bags s Hs pos).
  assert (bi_count (stacked (b_infernoBank s) p i room) = bi_maxStackSize (stacked (b_infernoBank s) p i room)) as Hfull.
  { destruct Hpo as (_ & [pr Hpr] & _). simpl. unfold room. rewrite u32_small by lia. unfold GetProto. rewrite Hpr. simpl.
    rewrite Hm, He. unfold stack_size. rewrite Hpr. simpl. lia. }
  set (i' := stacked (b_infernoBank s) p i room) in *.
  assert (forall x, GetItem tab x (filled_up pos p a i room s) = (fun p => if fst p =? a then (a, i') else p) <$> GetItem tab x s) as Hget.
  { intros x. transitivity (GetItem tab x (put_item a i' s)); [done|]. by apply (GetItem_put tab x s a i' i); [apply Hs|..]. }
  clearbody i'. refine (omap_shorter _ _ _ slot _ _ _ _).
  - intros x [[y j] (-> & b & Hb & Ht & Hlt)%open_stack_spec]. rewrite Hget in Hb. unfold open_stack.
    destruct (GetItem tab x s) as [[b' j']|]; [|done]. simpl in Hb. destruct (b' =? a); injection Hb as <- <-; [lia|].
    simpl. simpl in Ht. by rewrite (proj2 (Z.eqb_eq _ _) Ht), (proj2 (Z.ltb_lt _ _) Hlt).
  - rewrite elem_of_seqZ. unfold BANK_TAB_SIZE in *. lia.
  - unfold open_stack. rewrite Hget, Hg. simpl fmap. rewrite Z.eqb_refl. cbn [mbind option_bind snd].
    rewrite Hfull, Z.ltb_irrefl. by rewrite andb_false_r.
  - unfold open_stack. rewrite Hg. simpl. by rewrite (proj2 (Z.eqb_eq _ _) He), (proj2 (Z.ltb_lt _ _) Hc).
Qed.

(** ** All of the stack, or a full tab *)
Definition tab_full (tab : Z) (s : GuildBank) : Prop := forall slot, 1 <= slot <= BANK_TAB_SIZE -> is_Some (GetItem tab slot s).
Definition stored (tab : Z) (pos : Pos) (s : GuildBank) : Prop := item_at pos s = None \/ tab_full tab s.

Lemma stored_done tab pos a i count s : stored tab pos s -> stored tab pos (deposit_done a i count s).
Proof.
  intros [H|H]; unfold deposit_done; cbv zeta; set (s1 := LogAction _ _ _ _ _ _); assert (goods s1 = goods s) as Hg by (unfold s1; by rewrite LogAction_goods);
    clearbody s1; unfold goods in Hg; injection Hg as Hi Hb.
  - left. unfold item_at in *. by rewrite SaveToDB_player, Hb.
  - right. intros slot Hslot. apply GetItem_saved. unfold GetItem. rewrite Hi. by apply H.
Qed.
Lemma find_free_None tab s : List.find (slot_free tab s) (seqZ 1 BANK_TAB_SIZE) = None -> tab_full tab s.
Proof.
  intros Hf slot Hslot. assert (slot ∈ seqZ 1 BANK_TAB_SIZE) as Hin by (rewrite elem_of_seqZ; unfold BANK_TAB_SIZE in *; lia).
  apply list_elem_of_In, (List.find_none _ _ Hf) in Hin. unfold slot_free in Hin. by destruct (GetItem tab slot s).
Qed.
Lemma DestroyItem_gone pos s : item_at pos (DestroyItem pos s) = None.
Proof. unfold item_at. simpl. apply lookup_delete_eq. Qed.

(** A deposit of a whole stack, and of as much of it as has room. *)
Lemma deposit_all tab after slot pos p state stack s : item_at pos s = Some p -> (state = ITEM_NEW \/ is_Some (GetItem tab slot s)) ->
  stored tab pos (DepositItemInSlot_then after tab slot pos (it_count p) 0 state stack s).
Proof.
  intros Hp Hst. unfold DepositItemInSlot_then. rewrite Hp. case_decide.
  - apply stored_done. left. unfold take_deposited. simpl Z.eqb. cbv iota. change (item_at pos (AddItem ?a ?i (queue_update ?i s))) with (item_at pos s).
    rewrite Hp, Z.eqb_refl. apply DestroyItem_gone.
  - destruct Hst as [|[[a i] Hi]]; [done|]. rewrite Hi. apply stored_done. left. unfold take_deposited. simpl Z.eqb. cbv iota.
    change (item_at pos (queue_update ?i (put_item ?a ?i s))) with (item_at pos s). rewrite Hp, Z.eqb_refl. apply DestroyItem_gone.
Qed.

Lemma DepositItemInFreeSlot_stored n tab pos : forall s p, stacks_ok s -> item_at pos s = Some p -> (open_stacks tab p s < n)%nat ->
  stored tab pos (DepositItemInFreeSlot n tab pos s).
Proof.
  induction n as [|n IH]; intros s p Hs Hp Hn; [lia|]. cbn [DepositItemInFreeSlot]. rewrite Hp.
  pose proof (bag_item_lt s pos p Hs Hp) as Hlt. destruct (if 1 <? _ then _ else _) as [[slot i]|] eqn:Ho.
  - destruct (1 <? ip_Stackable (GetProto p)); [|done]. pose proof (head_open_slot tab p s slot i Ho) as Hslot.
    apply first_open_stack in Ho as (a & Hg & He & Hc).
    destruct (stack_at _ _ _ _ _ Hs Hg) as [Hin ([? ?] & _ & ?)]. rewrite (u32_small (it_count p + bi_count i)) by lia.
    destruct (Z.leb_spec (it_count p + bi_count i) (bi_maxStackSize i)).
    { apply deposit_all; [done|]. right. by rewrite Hg. }
    rewrite !u32_small by lia. unfold DepositItemInSlot_then. rewrite Hp, decide_False, Hg by done. cbv zeta.
    apply stored_done. unfold take_deposited. rewrite (proj2 (Z.eqb_neq _ 0)) by lia. cbv iota.
    apply (IH _ (add_count (- (bi_maxStackSize i - bi_count i)) p)).
    + by apply (stacks_stacked s a i p pos); try done; lia.
    + unfold item_at in *. simpl. by rewrite lookup_alter_eq, Hp.
    + pose proof (filled_up_closes tab slot pos p a i s Hs Hp Hslot Hg He Hc) as Hcl. cbv zeta in Hcl.
      unfold filled_up, stacked in Hcl. lia.
  - destruct (List.find _ _) as [slot|] eqn:Hf; [by apply deposit_all; [|left]|]. right. by apply find_free_None.
Qed.
End fuel.
