(* ===== verification/GuildBankSteps.v ===== *)
(** The bank's money, and who may do what: the amounts after deposits and
    withdrawals, and the access rules in one formula.  What may happen to a
    guild's bank: requests of its members, periodic saves, the deletion of the
    lowest rank, and time.  [bank_ok] is an invariant. *)

From S2P Require Import Prelude CString GuildBankTypes GuildBank GuildBankRequests GuildBankItems GuildBankHandlers GuildBankKernel GuildBankInv.

(** ** Amounts *)
Lemma digit_nonneg c d : digit_of c = Some d -> 0 <= d.
Proof. unfold digit_of. case_if; [|done]. intros [= <-]. bool_prop. lia. Qed.
Lemma read_digits_nonneg text acc v : 0 <= default 0 acc -> read_digits text acc = Some v -> 0 <= v.
Proof.
  revert acc. induction text as [|c text IH]; intros acc Ha; simpl.
  - by intros ->.
  - destruct (digit_of c) as [d|] eqn:Hd; [|by intros ->]. apply digit_nonneg in Hd. apply IH. simpl. lia.
Qed.
Lemma parse_number_nonneg text neg v : parse_number text = Some (neg, v) -> 0 <= v.
Proof.
  unfold parse_number. intros H.
  repeat match type of H with context [match ?x with _ => _ end] => destruct x end;
    apply bind_Some in H as (v' & E & [= _ <-]); by apply (read_digits_nonneg _ None v') in E.
Qed.
Lemma parse_money_range text money : parse_money text = Some money -> 0 <= money < 2 ^ 32.
Proof.
  unfold parse_money, strtoul_end. destruct (parse_number (c_str text)) as [[neg v]|] eqn:Hp; [|done]. apply parse_number_nonneg in Hp.
  simpl. set (x := if U64_MAX <? v then _ else _). destruct (Z.ltb_spec U32_MAX x) as [|Hx]; [done|]. intros [= <-].
  assert (0 <= x); [|unfold U32_MAX in Hx; lia]. unfold x. case_if; [done|]. destruct neg; [apply u64_range|done].
Qed.

Definition purse (s : GuildBank) : Z := bp_money (b_player s).
Lemma pays s money : 0 <= money <= purse s -> purse s <= MAX_MONEY_AMOUNT -> purse (modify_money (- i32 money) s) = purse s - money.
Proof.
  unfold purse, MAX_MONEY_AMOUNT. intros Hm Hp. simpl. rewrite (i32_small money), i32_small, Z.opp_involutive by lia.
  destruct (Z.ltb_spec (- money) 0).
  - rewrite u32_small by lia. destruct (Z.ltb_spec money (bp_money (b_player s))); [rewrite u32_small|]; lia.
  - assert (money = 0) as -> by lia. rewrite u32_small by (unfold MAX_MONEY_AMOUNT; lia).
    destruct (Z.ltb_spec (bp_money (b_player s)) (MAX_MONEY_AMOUNT - - 0)) as [|Hge]; [rewrite u32_small; lia|]. unfold MAX_MONEY_AMOUNT in *. lia.
Qed.
Lemma is_paid s money : 0 <= money -> 0 <= purse s -> purse s + money <= MAX_MONEY_AMOUNT -> purse (modify_money money s) = purse s + money.
Proof.
  unfold purse, MAX_MONEY_AMOUNT. intros Hm H0 Hp. simpl. rewrite (i32_small money) by lia.
  rewrite (proj2 (Z.ltb_ge money 0)) by lia. unfold MAX_MONEY_AMOUNT. rewrite u32_small by lia.
  destruct (Z.ltb_spec (bp_money (b_player s)) (2147483646 - money)) as [|Hge]; [rewrite u32_small|]; lia.
Qed.

Section money.
Context {env : BankEnv}.

Lemma SaveToDB_money s : b_money (SaveToDB s) = b_money s /\ purse (SaveToDB s) = purse s.
Proof. unfold SaveToDB. repeat match goal with |- context [if ?b then _ else _] => destruct b end; done. Qed.
Lemma LogAction_money action tab item count i s :
  b_money (LogAction action tab item count i s) = b_money s /\ purse (LogAction action tab item count i s) = purse s.
Proof. unfold LogAction. by repeat case_match. Qed.

(** A deposit: [Some] of the amounts afterwards, or a refusal. *)
Definition deposit_spec (money : Z) (s : GuildBank) : option (Z * Z) :=
  if (b_money s + money <=? U32_MAX) && (money <=? purse s) then Some (b_money s + money, purse s - money) else None.
Definition withdraw_spec (money : Z) (s : GuildBank) : option (Z * Z) :=
  if (playerRankIndex s <=? 1) && (money <=? b_money s) then Some (b_money s - money, purse s + money) else None.

Definition answers (s s' : GuildBank) (spec : option (Z * Z)) : Prop :=
  match spec with
  | Some (bank, own) => b_money s' = bank /\ purse s' = own
  | None => says s s'
  end.

Lemma DepositMoney_answers msg p0 p1 money s : params msg = [p0; p1] -> parse_money p1 = Some money ->
  0 <= b_money s < 2 ^ 32 -> 0 <= purse s <= MAX_MONEY_AMOUNT -> answers s (DepositMoney msg s) (deposit_spec money s).
Proof.
  intros Hp Hm Hb Ho. pose proof (parse_money_range _ _ Hm). unfold DepositMoney, deposit_spec. rewrite Hp, Hm. fold (purse s).
  destruct (Z.ltb_spec (U32_MAX - b_money s) money).
  { rewrite (proj2 (Z.leb_gt _ _)) by lia. cbn [andb answers]. eauto with says. }
  rewrite (proj2 (Z.leb_le (b_money s + money) _)) by lia. cbn [andb].
  destruct (Z.ltb_spec (purse s) money); [rewrite (proj2 (Z.leb_gt _ _)) by lia|rewrite (proj2 (Z.leb_le _ _)) by lia]; cbn [answers].
  { eauto with says. }
  cbv zeta. set (s1 := set_b_money _ _). assert (b_money s1 = b_money s + money /\ purse s1 = purse s - money) as [Hb1 Hb2].
  { split; [simpl; apply u32_small; unfold U32_MAX in *; lia|]. apply (pays s money); lia. }
  clearbody s1. set (s2 := set_b_money_changed true _). destruct (SaveToDB_money s2) as [-> ->].
  destruct (LogAction_money ACTION_DEPOSIT_MONEY TAB_MONEY 0 money None s1) as [E1 E2]. by rewrite <- Hb1, <- Hb2.
Qed.

Lemma WithdrawMoney_answers msg p0 p1 money s : params msg = [p0; p1] -> parse_money p1 = Some money ->
  0 <= b_money s < 2 ^ 32 -> 0 <= purse s -> purse s + money <= MAX_MONEY_AMOUNT -> answers s (WithdrawMoney msg s) (withdraw_spec money s).
Proof.
  intros Hp Hm Hb Ho Hx. pose proof (parse_money_range _ _ Hm). unfold WithdrawMoney, withdraw_spec. rewrite Hp, Hm.
  unfold CanAccessTab. rewrite Z.eqb_refl. cbv zeta iota beta.
  destruct (playerRankIndex s <=? 1); cbn [negb andb answers]; [|eauto with says].
  destruct (Z.ltb_spec (b_money s) money); [rewrite (proj2 (Z.leb_gt _ _)) by lia|rewrite (proj2 (Z.leb_le _ _)) by lia]; cbn [answers].
  { eauto with says. }
  set (s1 := modify_money money _). assert (b_money s1 = b_money s - money /\ purse s1 = purse s + money) as [Hb1 Hb2].
  { split; [simpl; apply u32_small; lia|]. apply (is_paid (set_b_money (u32 (b_money s - money)) s) money); [lia|exact Ho|exact Hx]. }
  clearbody s1. set (s2 := set_b_money_changed true _). destruct (SaveToDB_money s2) as [-> ->].
  destruct (LogAction_money ACTION_WITHDRAW_MONEY TAB_MONEY 0 money None s1) as [E1 E2]. by rewrite <- Hb1, <- Hb2.
Qed.

(** ** Access *)
(** A rank below the tab's minimum sees nothing; the minimum rank itself has a
    weekly number of deposits and withdrawals, unless the tab sets none. *)
Definition counted (action : Z) : bool := (action =? ACTION_WITHDRAW_ITEM) || (action =? ACTION_DEPOSIT_ITEM).
Definition used_up (tab : Z) (s : GuildBank) : bool :=
  (0 <? t_withdrawals (tab_info s tab)) && (playerRankIndex s =? t_minrank (tab_info s tab)) &&
  ((tab =? 0) || (MAX_TABS <? tab) || (t_withdrawals (tab_info s tab) <=? weekWithdrawals s tab)).
Definition may_access (tab action : Z) (s : GuildBank) : bool :=
  if action =? ACTION_WITHDRAW_MONEY then playerRankIndex s <=? 1
  else (playerRankIndex s <=? t_minrank (tab_info s tab)) && negb (counted action && used_up tab s).

Lemma weekWithdrawals_range s tab : 0 <= weekWithdrawals s tab < 256.
Proof. apply u8_range. Qed.
Lemma GetTabWithdrawalsLeft_zero tab s : t_withdrawals (tab_info s tab) < 256 ->
  (fst (GetTabWithdrawalsLeft tab s) =? 0) =
  ((tab =? 0) || (MAX_TABS <? tab) || (t_withdrawals (tab_info s tab) <=? weekWithdrawals s tab)).
Proof.
  intros Hlt. unfold GetTabWithdrawalsLeft. destruct ((tab =? 0) || (MAX_TABS <? tab)); [done|]. cbn [orb].
  destruct (Z.leb_spec (t_withdrawals (tab_info s tab)) (weekWithdrawals s tab)); [done|]. cbn [fst].
  pose proof (weekWithdrawals_range s tab). rewrite u8_small by lia. apply Z.eqb_neq. lia.
Qed.

Lemma GetTabWithdrawalsLeft_out tab s : exists n out, GetTabWithdrawalsLeft tab s = (n, set_b_out out s).
Proof.
  destruct (says_WithdrawalsLeft tab s) as [o H]. destruct (GetTabWithdrawalsLeft tab s) as [n s1]. simpl in H. by exists n, o; subst.
Qed.
Lemma CanAccessTab_may tab action s : t_withdrawals (tab_info s tab) < 256 -> fst (CanAccessTab tab action s) = may_access tab action s.
Proof.
  intros Hlt. unfold CanAccessTab, may_access. destruct (action =? ACTION_WITHDRAW_MONEY); [done|]. cbv zeta.
  pose proof (GetTabWithdrawalsLeft_zero tab s Hlt) as Hz. destruct (GetTabWithdrawalsLeft_out tab s) as (n & o & E). rewrite E in *.
  cbn [fst] in Hz. unfold used_up. rewrite <- Hz. fold (counted action).
  destruct (Z.leb_spec (playerRankIndex s) (t_minrank (tab_info s tab))) as [Hle|Hgt].
  - rewrite (proj2 (Z.ltb_ge (t_minrank (tab_info s tab)) (playerRankIndex s))) by done. rewrite andb_false_r. cbn [andb].
    assert ((t_minrank (tab_info (set_b_out o s) tab) <? playerRankIndex (set_b_out o s)) = false) as Ho by by apply Z.ltb_ge.
    destruct (counted action), (0 <? t_withdrawals (tab_info s tab)), (playerRankIndex s =? t_minrank (tab_info s tab)); cbn [andb negb];
      rewrite ?(proj2 (Z.ltb_ge _ _)) by done; try done. destruct (n =? 0); cbn [negb]; [done|]. by rewrite ?Ho.
  - rewrite (proj2 (Z.ltb_lt (t_minrank (tab_info s tab)) (playerRankIndex s))) by done. cbn [andb].
    rewrite (proj2 (Z.eqb_neq (playerRankIndex s) (t_minrank (tab_info s tab)))) by lia.
    rewrite !andb_false_r. cbn [negb]. rewrite (proj2 (Z.ltb_lt _ _)) by done. by destruct ((_ || _) && true).
Qed.

(** A request about an item without access changes nothing. *)
Lemma CanAccessTab_refused tab action s : t_withdrawals (tab_info s tab) < 256 -> may_access tab action s = false ->
  exists out, CanAccessTab tab action s = (false, set_b_out out s).
Proof.
  intros Hlt Hm. rewrite <- (CanAccessTab_may tab action s Hlt) in Hm.
  destruct (CanAccessTab_out tab action s) as (may & o & E). rewrite E in *. cbn [fst] in Hm. exists o. by subst.
Qed.
End money.

(** What may happen to a guild's bank: requests of its members, periodic saves,
    the deletion of the lowest rank, and time.  [bank_ok] is an invariant. *)

Section steps.
Context {env : BankEnv}.

(** ** Requests that leave the items alone *)
Lemma tab_unlocked_ok action tab cost s : bank_ok s -> bank_ok (tab_unlocked action tab cost s).
Proof. intros Hs. unfold tab_unlocked. apply ok_save. by same_core s. Qed.
Lemma UnlockTab_ok msg s : bank_ok s -> bank_ok (UnlockTab msg s).
Proof.
  intros Hs. unfold UnlockTab, WrongSyntax. repeat branch; try exact Hs; first [apply tab_unlocked_ok|idtac]; by same_core s.
Qed.
Lemma UnlockTabCost_says msg s : says s (UnlockTabCost msg s).
Proof. unfold UnlockTabCost, WrongSyntax. says. Qed.
Lemma UpdateTab_ok msg s : bank_ok s -> bank_ok (UpdateTab msg s).
Proof. intros Hs. unfold UpdateTab, WrongSyntax. repeat branch; first [apply ok_save|idtac]; by same_core s. Qed.
Lemma DepositMoney_ok msg s : bank_ok s -> bank_ok (DepositMoney msg s).
Proof. intros Hs. unfold DepositMoney, WrongSyntax. repeat branch; first [apply ok_save|idtac]; by same_core s. Qed.
Lemma WithdrawMoney_ok msg s : bank_ok s -> bank_ok (WithdrawMoney msg s).
Proof.
  intros Hs. unfold WithdrawMoney, WrongSyntax. destruct (CanAccessTab_out 0 ACTION_WITHDRAW_MONEY s) as (may & o & ->).
  repeat branch; first [apply ok_save|idtac]; by same_core s.
Qed.
Lemma UpdateMinranks_core rank s : core (UpdateMinranks rank s) = core s.
Proof.
  unfold UpdateMinranks. generalize tab_numbers as l. intros l. revert s.
  induction l as [|tab l IH]; intros s; [done|]. simpl. rewrite IH. unfold update_minrank. by destruct (_ =? rank).
Qed.

(** ** Unlocking the bank *)
Lemma LoadLog_core s : core (LoadLog s) = core s.
Proof.
  unfold LoadLog. destruct (merge_sort _ _) as [|r l]; [done|].
  assert (forall l acc, core (snd (foldl load_log acc l)) = core (snd acc)) as H.
  { clear. induction l as [|r l IH]; intros [index s]; [done|]. cbn [foldl]. rewrite IH. simpl. unfold AppendLog.
    repeat branch; done. }
  exact (H (r :: l) (∅, s)).
Qed.
Lemma LoadBank_empty s : own_item_rows s = [] -> core (LoadBank s) = core s.
Proof.
  intros Hn. unfold LoadBank. destruct (guild_bank_money _ !! _) as [money|]; [|done].
  destruct (List.filter _ _) as [|r l]; [done|].
  assert (forall l s, core (foldl (load_tabs money) s l) = core s /\ b_db (foldl (load_tabs money) s l) = b_db s) as H.
  { clear. induction l as [|r l IH]; intros s; [done|]. cbn [foldl]. by destruct (IH (load_tabs money s r)) as [-> ->]. }
  set (s1 := foldl (load_tabs money) (set_b_tabs 0 s) (r :: l)).
  destruct (H (r :: l) (set_b_tabs 0 s)) as [H1 H2]. fold s1 in H1, H2. cbv zeta.
  set (s2 := set_b_tabInfo _ s1). assert (own_item_rows s2 = []) as ->; [|exact H1].
  unfold own_item_rows, own_item_row in *. unfold core in H1. injection H1 as _ _ _ Hg Hi.
  change (b_db s2) with (b_db s1). change (b_guildid s2) with (b_guildid s1). change (b_infernoBank s2) with (b_infernoBank s1).
  by rewrite H2, Hg, Hi.
Qed.

(** No bank, or an empty and saved one: the table holds nothing of the guild. *)
Lemma empty_no_rows s : bank_ok s -> b_items s = [] -> b_itemUpdateQueue s = [] -> own_item_rows s = [].
Proof.
  intros [[_ (t & Ht & Hr)] _] Hi Hq. rewrite Hi in Hr. rewrite Hq in Ht. injection Ht as <-.
  unfold own_item_rows. destruct (List.filter _ _) as [|[k r] l] eqn:E; [done|].
  assert (In (k, r) (List.filter (fun kr => own_item_row s (fst kr)) (map_to_list (guild_bank (b_db s))))) as Hin by (rewrite E; by left).
  apply List.filter_In in Hin as [Hin Hown]. apply list_elem_of_In, elem_of_map_to_list in Hin.
  unfold own_item_row in Hown. bool_prop. rewrite (Hr k) in Hin by done. done.
Qed.

Lemma core_insert_bank s : core (insert_bank s) = core s.
Proof. unfold insert_bank, core. cbv zeta. by destruct (guild_bank_money _ !! _). Qed.
Lemma UnlockGuildBank_ok msg s : bank_ok s -> b_items s = [] -> b_itemUpdateQueue s = [] -> bank_ok (UnlockGuildBank msg s).
Proof.
  intros Hs Hi Hq. unfold UnlockGuildBank. destruct (negb _); [done|].
  destruct (params msg) as [|p0 [|query [|? ?]]]; try done. destruct (query =s "Cost"); [done|].
  destruct (query =s "Ok"); [|done]. destruct (_ <? GUILD_BANK_COST); [done|]. cbv zeta.
  set (s1 := modify_money _ _).
  assert (core s1 = core s) as Hc by (unfold s1; autorewrite with bank_core; apply core_insert_bank). clearbody s1.
  assert (bank_ok s1) as Hs1 by by apply (bank_ok_core s). injection Hc as Hi1 Hq1 _ _ _.
  assert (own_item_rows s1 = []) as Hn by by (apply (empty_no_rows s1); congruence).
  set (s2 := SendBankInfo _). apply (bank_ok_core s2); [done|]. eapply ok_says; [apply says_SendBankInfo|].
  by apply (bank_ok_core s1); [rewrite <- (LoadBank_empty s1 Hn); apply LoadLog_core|].
Qed.

(** ** Dispatch *)
Lemma on_ok msg name h s : (bank_ok s -> bank_ok (h msg s)) -> bank_ok s -> bank_ok (on msg name h s).
Proof. intros H Hs. unfold on. destruct (strstr msg name); auto. Qed.
Lemma on_says msg name h s s' : (forall s, says s (h msg s)) -> says s s' -> says s (on msg name h s').
Proof. intros H Hs. unfold on. destruct (strstr msg name); [|done]. by eapply says_trans. Qed.
Lemma on_not msg name h s : strstr msg name = false -> on msg name h s = s.
Proof. unfold on. by intros ->. Qed.

(** A message that asks for at most one change of the items. *)
Definition item_requests : list string := ["UnlockTab:"; "DepositItem:"; "WithdrawItem:"; "MoveItem:"; "SplitItem:"].
Definition single (msg : string) : bool := (length (List.filter (strstr msg) item_requests) <=? 1)%nat.

(** What the theorems ask of a request: it exchanges nothing, and it does not
    unlock a bank that is not empty. *)
Definition orderly (msg : string) (s : GuildBank) : Prop :=
  single msg = true /\ guid_room s /\
  (strstr msg "DepositItem:" = true -> deposit_exchanges msg s = false) /\
  (strstr msg "WithdrawItem:" = true -> withdraw_exchanges msg s = false) /\
  (strstr msg "UnlockGuildBank:" = true -> b_items s = [] /\ b_itemUpdateQueue s = []).

(** The rest of the dispatch, after the requests about items. *)
Lemma money_requests_ok msg s : bank_ok s ->
  bank_ok (on msg "WithdrawMoney:" WithdrawMoney (on msg "DepositMoney:" DepositMoney (on msg "UpdateTab:" UpdateTab s))).
Proof.
  intros Hs. apply on_ok; [apply WithdrawMoney_ok|]. apply on_ok; [apply DepositMoney_ok|].
  apply on_ok; [apply UpdateTab_ok|done].
Qed.
(** The requests for information, before them. *)
Definition informed (msg : string) (s : GuildBank) : GuildBank :=
  let s := on msg "UnlockTabCost:" UnlockTabCost s in
  let s := on msg "GetBankInfo:" (fun _ => SendBankInfo) s in
  let s := on msg "GetTabItems:" SendTabItems s in
  let s := on msg "GetTabWithdrawalsLeft:" SendTabWithdrawalsLeft_msg s in
  let s := on msg "GetTabLog:" SendTabLog s in
  on msg "GetMoneyLog:" (fun _ => SendMoneyLog) s.
Lemma informed_says msg s : says s (informed msg s).
Proof.
  unfold informed. repeat (apply on_says; [intros; first [apply UnlockTabCost_says|apply says_SendBankInfo|apply says_SendTabItems|
    apply says_SendTabWithdrawalsLeft_msg|apply says_SendTabLog|apply says_SendMoneyLog]|]). apply says_refl.
Qed.

Lemma HandleAddonMessages_ok msg player s : bank_ok s -> orderly msg (set_b_player player s) ->
  bank_ok (HandleAddonMessages msg player s).
Proof.
  intros Hs0 (H1 & Hr & Hd & Hw & Hu). unfold HandleAddonMessages. cbv zeta.
  assert (bank_ok (set_b_player player s)) as Hs by done. clear Hs0. set (s0 := set_b_player player s) in *. clearbody s0.
  destruct (negb _); [done|]. destruct (b_saveLock s0); [done|].
  destruct (strstr msg "UnlockGuildBank:"); [destruct (Hu eq_refl); by apply UnlockGuildBank_ok|].
  destruct (b_tabs s0 =? 0); [done|]. simpl (if DESTROY_ITEM_ALLOWED then _ else _). apply money_requests_ok.
  match goal with |- context [on msg "GetMoneyLog:" ?h ?s'] => change (on msg "GetMoneyLog:" h s') with (informed msg (on msg "UnlockTab:" UnlockTab s0)) end.
  unfold single, item_requests in H1. cbn [List.filter] in H1. unfold on at 1 2 3 4 5.
  destruct (informed_says msg (UnlockTab msg s0)) as [o1 E1]. destruct (informed_says msg s0) as [o2 E2].
  destruct (strstr msg "UnlockTab:"), (strstr msg "DepositItem:"), (strstr msg "WithdrawItem:"), (strstr msg "MoveItem:"),
    (strstr msg "SplitItem:"); try discriminate H1; rewrite ?E1, ?E2.
  - by apply UnlockTab_ok.
  - apply DepositItem_ok; [done..|]. by apply Hd.
  - apply WithdrawItem_ok; [done..|]. by apply Hw.
  - by apply MoveItem_ok.
  - by apply SplitItem_ok.
  - done.
Qed.

(** ** Steps *)
Inductive bank_step (s : GuildBank) : GuildBank -> Prop :=
| StepRequest msg player : orderly msg (set_b_player player s) -> bank_step s (HandleAddonMessages msg player s)
| StepInternal tab item : 1 <= tab <= MAX_TABS -> guid_room s -> bank_step s (DepositInternal tab item s)
| StepSave : bank_step s (SaveToDB s)
| StepMinranks rank : bank_step s (UpdateMinranks rank s)
| StepTime now : bank_step s (set_b_now now s).

Lemma bank_step_ok s s' : bank_step s s' -> bank_ok s -> bank_ok s'.
Proof.
  intros [msg player H|tab item Ht Hr| |rank|now] Hs.
  - by apply HandleAddonMessages_ok.
  - by apply DepositInternal_ok.
  - by apply ok_save.
  - by apply (bank_ok_core s); [apply UpdateMinranks_core|].
  - done.
Qed.
Lemma bank_steps_ok s s' : rtc bank_step s s' -> bank_ok s -> bank_ok s'.
Proof. induction 1 as [|s1 s2 s3 H _ IH]; [done|]. intros Hs. by eapply IH, bank_step_ok. Qed.
End steps.
