(* ===== verification/GuildBankTheorems.v ===== *)
(** The guild bank's properties, with concrete inputs at which they hold. *)

From S2P Require Import Prelude CString GuildBankTypes GuildBank GuildBankRequests GuildBankItems GuildBankHandlers GuildBankDemo GuildBankKernel GuildBankInv GuildBankRoundtrip GuildBankTotals GuildBankSteps.

(** Only who has access moves anything. *)
Section access.
Context {env : BankEnv}.

(** C26: Access.  [CanAccessTab], with its early returns and the count of this
    week's withdrawals from the log, is the rule [may_access]: guild money is
    for the two highest ranks; a tab is for the ranks down to its minimum, and
    the minimum rank itself may store and fetch only while its weekly number
    is not used up.  A request about an item, or a withdrawal of money, that
    the rule refuses changes nothing: it only sends messages. *)
Theorem access_is_the_rule tab s :
  t_withdrawals (tab_info s tab) < 256 ->
  (forall action, fst (CanAccessTab tab action s) = may_access tab action s) /\
  (forall msg p0 p1 p2 p3 p4 p5, params msg = [p0; p1; p2; p3; p4; p5] ->
     (u8 (atoi p3) = tab -> may_access tab ACTION_DEPOSIT_ITEM s = false -> says s (DepositItem msg s)) /\
     (u8 (u32 (atoi p1)) = tab -> may_access tab ACTION_WITHDRAW_ITEM s = false -> says s (WithdrawItem msg s))) /\
  (forall msg p0 p1 p2 p3, params msg = [p0; p1; p2; p3] -> u8 (atoi p1) = tab ->
     may_access tab ACTION_MOVE_ITEM s = false -> says s (MoveItem msg s)) /\
  (forall msg p0 p1 p2 p3 p4, params msg = [p0; p1; p2; p3; p4] -> u8 (atoi p1) = tab ->
     may_access tab ACTION_SPLIT_ITEM s = false -> says s (SplitItem msg s)) /\
  (forall msg, tab = 0 -> may_access tab ACTION_WITHDRAW_MONEY s = false -> says s (WithdrawMoney msg s)).
Proof.
  intros Hlt. pose proof (CanAccessTab_refused tab) as Hn. split_and!.
  - intros action. by apply CanAccessTab_may.
  - intros msg p0 p1 p2 p3 p4 p5 Hp. split; intros <- Hm; destruct (Hn _ s Hlt Hm) as (o & E).
    + unfold DepositItem. rewrite Hp, E. cbn [negb]. destruct (_ || _); by eexists.
    + unfold WithdrawItem. rewrite Hp, E. cbn [negb]. destruct (bad_place _ _); by eexists.
  - intros msg p0 p1 p2 p3 Hp <- Hm. destruct (Hn _ s Hlt Hm) as (o & E). unfold MoveItem. rewrite Hp, E. by eexists.
  - intros msg p0 p1 p2 p3 p4 Hp <- Hm. destruct (Hn _ s Hlt Hm) as (o & E). unfold SplitItem. rewrite Hp, E. by eexists.
  - intros msg -> Hm. destruct (Hn _ s Hlt Hm) as (o & E). unfold WithdrawMoney, WrongSyntax. rewrite E.
    cbn [negb]. repeat branch; first [by eexists|apply says_refl].
Qed.

(** C27: Money.  A deposit or withdrawal is either refused, with messages and
    nothing else, or moves exactly the amount that was asked for between the
    bank and the player: a deposit when the bank can hold it and the player
    has it, a withdrawal when his rank allows it and the bank has it.  Nothing
    overflows the 32 bits of either side as long as the player stays under the
    cap on his own money. *)
Theorem money_moves_exactly msg p0 p1 money s :
  params msg = [p0; p1] -> parse_money p1 = Some money ->
  0 <= b_money s < 2 ^ 32 -> 0 <= purse s <= MAX_MONEY_AMOUNT ->
  answers s (DepositMoney msg s)
    (if (b_money s + money <=? U32_MAX) && (money <=? purse s) then Some (b_money s + money, purse s - money) else None) /\
  (purse s + money <= MAX_MONEY_AMOUNT -> answers s (WithdrawMoney msg s)
    (if (playerRankIndex s <=? 1) && (money <=? b_money s) then Some (b_money s - money, purse s + money) else None)) /\
  0 <= b_money (DepositMoney msg s) < 2 ^ 32 /\ 0 <= purse (DepositMoney msg s) <= MAX_MONEY_AMOUNT.
Proof.
  intros Hp Hm Hb Ho. pose proof (parse_money_range _ _ Hm). pose proof (DepositMoney_answers msg p0 p1 money s Hp Hm Hb Ho) as Hd.
  split_and!; [exact Hd|intros Hx; by eapply WithdrawMoney_answers; try done; apply Ho|..];
    unfold answers, deposit_spec in Hd; destruct (Z.leb_spec (b_money s + money) U32_MAX), (Z.leb_spec money (purse s));
    cbn [andb] in Hd; try (destruct Hd as [o ->]; first [apply Hb|apply Ho]);
    destruct Hd as [E1 E2]; rewrite ?E1, ?E2; unfold U32_MAX in *; lia.
Qed.
End access.

Section items.
Context {env : BankEnv}.





End items.

(** ** Concrete inputs *)
#[local] Existing Instance demo_bank_env.

(** Fifteen pieces of cloth in the bank, one and a sword in the bags. *)
Definition demo_stored : GuildBank := demo_bank (demo_master demo_bags) ["DepositItem:0:1:1:1:15"].




(** A member below the tab's rank may not deposit. *)
Definition demo_visitor : GuildBank := set_b_player (demo_member demo_bags) demo_stored.
Lemma access_is_the_rule_witness :
  fst (CanAccessTab 1 ACTION_MOVE_ITEM demo_visitor) = false /\ says demo_visitor (DepositItem "DepositItem:0:3:1:5:1" demo_visitor).
Proof.
  destruct (access_is_the_rule 1 demo_visitor) as (H1 & H2 & _); [vm_compute; reflexivity|]. split.
  - rewrite H1. vm_compute. reflexivity.
  - refine (proj1 (H2 "DepositItem:0:3:1:5:1" "DepositItem" "0" "3" "1" "5" "1" _) _ _); vm_compute; reflexivity.
Defined.

Lemma money_moves_exactly_witness :
  b_money (DepositMoney "DepositMoney:500" demo_stored) = 500 /\ purse (DepositMoney "DepositMoney:500" demo_stored) = 99999500.
Proof.
  destruct (money_moves_exactly "DepositMoney:500" "DepositMoney" "500" 500 demo_stored) as (H & _).
  - vm_compute. reflexivity.
  - vm_compute. reflexivity.
  - split; [vm_compute; discriminate|vm_compute; reflexivity].
  - split; vm_compute; discriminate.
  - exact H.
Defined.


#[local] Instance tab_ok_dec t : Decision (tab_ok t).
Proof. unfold tab_ok. apply _. Defined.



#[local] Instance bag_item_ok_dec p : Decision (bag_item_ok p).
Proof. unfold bag_item_ok. apply _. Defined.
#[local] Instance stack_ok_dec i : Decision (stack_ok i).
Proof. unfold stack_ok. apply _. Defined.
