(* ===== verification/GuildTypes.v ===== *)
(** Guilds, petitions and the players they concern: the data of Guild/Guild.h
    and Guild/GuildMgr.h, the tables of the characters database they are kept
    in, and what they take from the rest of the server. *)

From S2P Require Import Prelude CString GuildBankTypes.

(** ** Constants (Guild/Guild.h, SharedDefines.h) *)
Definition GUILD_RANKS_MIN_COUNT := 5.
Definition GUILD_RANKS_MAX_COUNT := 10.
Definition GUILD_NOTE_MAX_LENGTH := 31.
Definition GUILD_INFO_MAX_LENGTH := 500.
Definition GUILD_MOTD_MAX_LENGTH := 128.
Definition GUILD_EVENTLOG_MAX_RECORDS := 100.
Definition GR_GUILDMASTER := 0.
Definition GR_OFFICER := 1.

Definition GR_RIGHT_EMPTY := 64.
Definition GR_RIGHT_GCHATLISTEN := 65.
Definition GR_RIGHT_GCHATSPEAK := 66.
Definition GR_RIGHT_OFFCHATLISTEN := 68.
Definition GR_RIGHT_OFFCHATSPEAK := 72.
Definition GR_RIGHT_INVITE := 80.
Definition GR_RIGHT_REMOVE := 96.
Definition GR_RIGHT_PROMOTE := 192.
Definition GR_RIGHT_DEMOTE := 320.
Definition GR_RIGHT_SETMOTD := 4160.
Definition GR_RIGHT_EPNOTE := 8256.
Definition GR_RIGHT_VIEWOFFNOTE := 16448.
Definition GR_RIGHT_EOFFNOTE := 32832.
Definition GR_RIGHT_MODIFY_GUILD_INFO := 65600.
Definition GR_RIGHT_ALL := 1044991.

(** Typecommand *)
Definition GUILD_CREATE_S := 0.
Definition GUILD_INVITE_S := 1.
Definition GUILD_QUIT_S := 3.

(** CommandErrors *)
Definition ERR_PLAYER_NO_MORE_IN_GUILD := 0.
Definition ERR_ALREADY_IN_GUILD_S := 3.
Definition ERR_ALREADY_INVITED_TO_GUILD_S := 5.
Definition ERR_GUILD_NAME_INVALID := 6.
Definition ERR_GUILD_NAME_EXISTS_S := 7.
Definition ERR_GUILD_LEADER_LEAVE := 8.
Definition ERR_GUILD_PERMISSIONS := 8.
Definition ERR_GUILD_PLAYER_NOT_IN_GUILD := 9.
Definition ERR_GUILD_PLAYER_NOT_IN_GUILD_S := 10.
Definition ERR_GUILD_PLAYER_NOT_FOUND_S := 11.
Definition ERR_GUILD_NOT_ALLIED := 12.
Definition ERR_GUILD_RANK_TOO_HIGH_S := 13.
Definition ERR_GUILD_RANK_TOO_LOW_S := 14.

(** GuildEvents *)
Definition GE_PROMOTION := 0.
Definition GE_DEMOTION := 1.
Definition GE_MOTD := 2.
Definition GE_JOINED := 3.
Definition GE_LEFT := 4.
Definition GE_REMOVED := 5.
Definition GE_LEADER_CHANGED := 7.
Definition GE_DISBANDED := 8.
Definition GE_SIGNED_ON := 12.
Definition GE_SIGNED_OFF := 13.

(** PetitionSigns *)
Definition PETITION_SIGN_OK := 0.
Definition PETITION_SIGN_ALREADY_SIGNED := 1.
Definition PETITION_SIGN_ALREADY_IN_GUILD := 2.
Definition PETITION_SIGN_CANT_SIGN_OWN := 3.
Definition PETITION_SIGN_NEED_MORE := 4.

(** GuildEventLogTypes *)
Definition GUILD_EVENT_LOG_INVITE_PLAYER := 1.
Definition GUILD_EVENT_LOG_JOIN_GUILD := 2.
Definition GUILD_EVENT_LOG_PROMOTE_PLAYER := 3.
Definition GUILD_EVENT_LOG_DEMOTE_PLAYER := 4.
Definition GUILD_EVENT_LOG_UNINVITE_PLAYER := 5.
Definition GUILD_EVENT_LOG_LEAVE_GUILD := 6.

(** GuildEmblem *)
Definition ERR_GUILDEMBLEM_SUCCESS := 0.
Definition ERR_GUILDEMBLEM_NOGUILD := 2.
Definition ERR_GUILDEMBLEM_NOTGUILDMASTER := 3.
Definition ERR_GUILDEMBLEM_NOTENOUGHMONEY := 4.
Definition ERR_GUILDEMBLEM_FAIL_NO_MESSAGE := 5.

(** Handlers/PetitionsHandler.cpp *)
Definition GUILD_CHARTER := 5863.
Definition GUILD_CHARTER_COST := 1000.
Definition PLAYER_STRONG_MAX_LEVEL := 255.
Definition CLASSMASK_ALL_PLAYABLE := 1503.

Inductive GuildAddStatus := OK | GUILD_FULL | ALREADY_IN_GUILD | UNKNOWN_PLAYER | PLAYER_DATA_ERROR.
#[export] Instance GuildAddStatus_eq_dec : EqDecision GuildAddStatus.
Proof. solve_decision. Defined.

(** ** Guilds *)
Record GuildEventLogEntry := mkEvent {
  EventType : Z; PlayerGuid1 : Z; PlayerGuid2 : Z; NewRank : Z; TimeStamp : Z }.

Record MemberSlot := mkSlot {
  ms_guid : Z;
  ms_accountId : Z;
  ms_Name : string;
  ms_RankId : Z;
  ms_Level : Z;
  ms_Class : Z;
  ms_ZoneId : Z;
  ms_LogoutTime : Z;
  ms_PublicNote : string;
  ms_OfficerNote : string
}.
(** Field updates of [MemberSlot]. *)
Definition set_ms_guid x (r : MemberSlot) : MemberSlot :=
  {| ms_guid := x; ms_accountId := ms_accountId r; ms_Name := ms_Name r; ms_RankId := ms_RankId r;
     ms_Level := ms_Level r; ms_Class := ms_Class r; ms_ZoneId := ms_ZoneId r;
     ms_LogoutTime := ms_LogoutTime r; ms_PublicNote := ms_PublicNote r;
     ms_OfficerNote := ms_OfficerNote r |}.
Definition set_ms_accountId x (r : MemberSlot) : MemberSlot :=
  {| ms_guid := ms_guid r; ms_accountId := x; ms_Name := ms_Name r; ms_RankId := ms_RankId r;
     ms_Level := ms_Level r; ms_Class := ms_Class r; ms_ZoneId := ms_ZoneId r;
     ms_LogoutTime := ms_LogoutTime r; ms_PublicNote := ms_PublicNote r;
     ms_OfficerNote := ms_OfficerNote r |}.
Definition set_ms_Name x (r : MemberSlot) : MemberSlot :=
  {| ms_guid := ms_guid r; ms_accountId := ms_accountId r; ms_Name := x; ms_RankId := ms_RankId r;
     ms_Level := ms_Level r; ms_Class := ms_Class r; ms_ZoneId := ms_ZoneId r;
     ms_LogoutTime := ms_LogoutTime r; ms_PublicNote := ms_PublicNote r;
     ms_OfficerNote := ms_OfficerNote r |}.
Definition set_ms_RankId x (r : MemberSlot) : MemberSlot :=
  {| ms_guid := ms_guid r; ms_accountId := ms_accountId r; ms_Name := ms_Name r; ms_RankId := x;
     ms_Level := ms_Level r; ms_Class := ms_Class r; ms_ZoneId := ms_ZoneId r;
     ms_LogoutTime := ms_LogoutTime r; ms_PublicNote := ms_PublicNote r;
     ms_OfficerNote := ms_OfficerNote r |}.
Definition set_ms_Level x (r : MemberSlot) : MemberSlot :=
  {| ms_guid := ms_guid r; ms_accountId := ms_accountId r; ms_Name := ms_Name r;
     ms_RankId := ms_RankId r; ms_Level := x; ms_Class := ms_Class r; ms_ZoneId := ms_ZoneId r;
     ms_LogoutTime := ms_LogoutTime r; ms_PublicNote := ms_PublicNote r;
     ms_OfficerNote := ms_OfficerNote r |}.
Definition set_ms_Class x (r : MemberSlot) : MemberSlot :=
  {| ms_guid := ms_guid r; ms_accountId := ms_accountId r; ms_Name := ms_Name r;
     ms_RankId := ms_RankId r; ms_Level := ms_Level r; ms_Class := x; ms_ZoneId := ms_ZoneId r;
     ms_LogoutTime := ms_LogoutTime r; ms_PublicNote := ms_PublicNote r;
     ms_OfficerNote := ms_OfficerNote r |}.
Definition set_ms_ZoneId x (r : MemberSlot) : MemberSlot :=
  {| ms_guid := ms_guid r; ms_accountId := ms_accountId r; ms_Name := ms_Name r;
     ms_RankId := ms_RankId r; ms_Level := ms_Level r; ms_Class := ms_Class r; ms_ZoneId := x;
     ms_LogoutTime := ms_LogoutTime r; ms_PublicNote := ms_PublicNote r;
     ms_OfficerNote := ms_OfficerNote r |}.
Definition set_ms_LogoutTime x (r : MemberSlot) : MemberSlot :=
  {| ms_guid := ms_guid r; ms_accountId := ms_accountId r; ms_Name := ms_Name r;
     ms_RankId := ms_RankId r; ms_Level := ms_Level r; ms_Class := ms_Class r;
     ms_ZoneId := ms_ZoneId r; ms_LogoutTime := x; ms_PublicNote := ms_PublicNote r;
     ms_OfficerNote := ms_OfficerNote r |}.
Definition set_ms_PublicNote x (r : MemberSlot) : MemberSlot :=
  {| ms_guid := ms_guid r; ms_accountId := ms_accountId r; ms_Name := ms_Name r;
     ms_RankId := ms_RankId r; ms_Level := ms_Level r; ms_Class := ms_Class r;
     ms_ZoneId := ms_ZoneId r; ms_LogoutTime := ms_LogoutTime r; ms_PublicNote := x;
     ms_OfficerNote := ms_OfficerNote r |}.
Definition set_ms_OfficerNote x (r : MemberSlot) : MemberSlot :=
  {| ms_guid := ms_guid r; ms_accountId := ms_accountId r; ms_Name := ms_Name r;
     ms_RankId := ms_RankId r; ms_Level := ms_Level r; ms_Class := ms_Class r;
     ms_ZoneId := ms_ZoneId r; ms_LogoutTime := ms_LogoutTime r; ms_PublicNote := ms_PublicNote r;
     ms_OfficerNote := x |}.

Record RankInfo := mkRank { ri_Name : string; ri_Rights : Z }.

(** The roster packets that are kept for large guilds are not here. *)
Record Guild := mkGuild {
  m_Id : Z;
  m_Name : string;
  m_LeaderGuid : Z;
  m_motd : string;
  m_info : string;
  m_Created : Z * Z * Z;
  m_Emblem : Z * Z * Z * Z * Z;
  m_accountsNumber : Z;
  m_Ranks : list RankInfo;
  members : gmap Z MemberSlot;
  m_onlineMemberCache : gset Z;
  m_GuildEventLog : list GuildEventLogEntry;
  m_GuildEventLogNextGuid : Z;
  _Bank : option GuildBank;
  _InfernoBank : option GuildBank
}.
(** Field updates of [Guild]. *)
Definition set_m_Id x (r : Guild) : Guild :=
  {| m_Id := x; m_Name := m_Name r; m_LeaderGuid := m_LeaderGuid r; m_motd := m_motd r;
     m_info := m_info r; m_Created := m_Created r; m_Emblem := m_Emblem r;
     m_accountsNumber := m_accountsNumber r; m_Ranks := m_Ranks r; members := members r;
     m_onlineMemberCache := m_onlineMemberCache r; m_GuildEventLog := m_GuildEventLog r;
     m_GuildEventLogNextGuid := m_GuildEventLogNextGuid r; _Bank := _Bank r;
     _InfernoBank := _InfernoBank r |}.
Definition set_m_Name x (r : Guild) : Guild :=
  {| m_Id := m_Id r; m_Name := x; m_LeaderGuid := m_LeaderGuid r; m_motd := m_motd r;
     m_info := m_info r; m_Created := m_Created r; m_Emblem := m_Emblem r;
     m_accountsNumber := m_accountsNumber r; m_Ranks := m_Ranks r; members := members r;
     m_onlineMemberCache := m_onlineMemberCache r; m_GuildEventLog := m_GuildEventLog r;
     m_GuildEventLogNextGuid := m_GuildEventLogNextGuid r; _Bank := _Bank r;
     _InfernoBank := _InfernoBank r |}.
Definition set_m_LeaderGuid x (r : Guild) : Guild :=
  {| m_Id := m_Id r; m_Name := m_Name r; m_LeaderGuid := x; m_motd := m_motd r;
     m_info := m_info r; m_Created := m_Created r; m_Emblem := m_Emblem r;
     m_accountsNumber := m_accountsNumber r; m_Ranks := m_Ranks r; members := members r;
     m_onlineMemberCache := m_onlineMemberCache r; m_GuildEventLog := m_GuildEventLog r;
     m_GuildEventLogNextGuid := m_GuildEventLogNextGuid r; _Bank := _Bank r;
     _InfernoBank := _InfernoBank r |}.
Definition set_m_motd x (r : Guild) : Guild :=
  {| m_Id := m_Id r; m_Name := m_Name r; m_LeaderGuid := m_LeaderGuid r; m_motd := x;
     m_info := m_info r; m_Created := m_Created r; m_Emblem := m_Emblem r;
     m_accountsNumber := m_accountsNumber r; m_Ranks := m_Ranks r; members := members r;
     m_onlineMemberCache := m_onlineMemberCache r; m_GuildEventLog := m_GuildEventLog r;
     m_GuildEventLogNextGuid := m_GuildEventLogNextGuid r; _Bank := _Bank r;
     _InfernoBank := _InfernoBank r |}.
Definition set_m_info x (r : Guild) : Guild :=
  {| m_Id := m_Id r; m_Name := m_Name r; m_LeaderGuid := m_LeaderGuid r; m_motd := m_motd r;
     m_info := x; m_Created := m_Created r; m_Emblem := m_Emblem r;
     m_accountsNumber := m_accountsNumber r; m_Ranks := m_Ranks r; members := members r;
     m_onlineMemberCache := m_onlineMemberCache r; m_GuildEventLog := m_GuildEventLog r;
     m_GuildEventLogNextGuid := m_GuildEventLogNextGuid r; _Bank := _Bank r;
     _InfernoBank := _InfernoBank r |}.
Definition set_m_Created x (r : Guild) : Guild :=
  {| m_Id := m_Id r; m_Name := m_Name r; m_LeaderGuid := m_LeaderGuid r; m_motd := m_motd r;
     m_info := m_info r; m_Created := x; m_Emblem := m_Emblem r;
     m_accountsNumber := m_accountsNumber r; m_Ranks := m_Ranks r; members := members r;
     m_onlineMemberCache := m_onlineMemberCache r; m_GuildEventLog := m_GuildEventLog r;
     m_GuildEventLogNextGuid := m_GuildEventLogNextGuid r; _Bank := _Bank r;
     _InfernoBank := _InfernoBank r |}.
Definition set_m_Emblem x (r : Guild) : Guild :=
  {| m_Id := m_Id r; m_Name := m_Name r; m_LeaderGuid := m_LeaderGuid r; m_motd := m_motd r;
     m_info := m_info r; m_Created := m_Created r; m_Emblem := x;
     m_accountsNumber := m_accountsNumber r; m_Ranks := m_Ranks r; members := members r;
     m_onlineMemberCache := m_onlineMemberCache r; m_GuildEventLog := m_GuildEventLog r;
     m_GuildEventLogNextGuid := m_GuildEventLogNextGuid r; _Bank := _Bank r;
     _InfernoBank := _InfernoBank r |}.
Definition set_m_accountsNumber x (r : Guild) : Guild :=
  {| m_Id := m_Id r; m_Name := m_Name r; m_LeaderGuid := m_LeaderGuid r; m_motd := m_motd r;
     m_info := m_info r; m_Created := m_Created r; m_Emblem := m_Emblem r; m_accountsNumber := x;
     m_Ranks := m_Ranks r; members := members r; m_onlineMemberCache := m_onlineMemberCache r;
     m_GuildEventLog := m_GuildEventLog r; m_GuildEventLogNextGuid := m_GuildEventLogNextGuid r;
     _Bank := _Bank r; _InfernoBank := _InfernoBank r |}.
Definition set_m_Ranks x (r : Guild) : Guild :=
  {| m_Id := m_Id r; m_Name := m_Name r; m_LeaderGuid := m_LeaderGuid r; m_motd := m_motd r;
     m_info := m_info r; m_Created := m_Created r; m_Emblem := m_Emblem r;
     m_accountsNumber := m_accountsNumber r; m_Ranks := x; members := members r;
     m_onlineMemberCache := m_onlineMemberCache r; m_GuildEventLog := m_GuildEventLog r;
     m_GuildEventLogNextGuid := m_GuildEventLogNextGuid r; _Bank := _Bank r;
     _InfernoBank := _InfernoBank r |}.
Definition set_members x (r : Guild) : Guild :=
  {| m_Id := m_Id r; m_Name := m_Name r; m_LeaderGuid := m_LeaderGuid r; m_motd := m_motd r;
     m_info := m_info r; m_Created := m_Created r; m_Emblem := m_Emblem r;
     m_accountsNumber := m_accountsNumber r; m_Ranks := m_Ranks r; members := x;
     m_onlineMemberCache := m_onlineMemberCache r; m_GuildEventLog := m_GuildEventLog r;
     m_GuildEventLogNextGuid := m_GuildEventLogNextGuid r; _Bank := _Bank r;
     _InfernoBank := _InfernoBank r |}.
Definition set_m_onlineMemberCache x (r : Guild) : Guild :=
  {| m_Id := m_Id r; m_Name := m_Name r; m_LeaderGuid := m_LeaderGuid r; m_motd := m_motd r;
     m_info := m_info r; m_Created := m_Created r; m_Emblem := m_Emblem r;
     m_accountsNumber := m_accountsNumber r; m_Ranks := m_Ranks r; members := members r;
     m_onlineMemberCache := x; m_GuildEventLog := m_GuildEventLog r;
     m_GuildEventLogNextGuid := m_GuildEventLogNextGuid r; _Bank := _Bank r;
     _InfernoBank := _InfernoBank r |}.
Definition set_m_GuildEventLog x (r : Guild) : Guild :=
  {| m_Id := m_Id r; m_Name := m_Name r; m_LeaderGuid := m_LeaderGuid r; m_motd := m_motd r;
     m_info := m_info r; m_Created := m_Created r; m_Emblem := m_Emblem r;
     m_accountsNumber := m_accountsNumber r; m_Ranks := m_Ranks r; members := members r;
     m_onlineMemberCache := m_onlineMemberCache r; m_GuildEventLog := x;
     m_GuildEventLogNextGuid := m_GuildEventLogNextGuid r; _Bank := _Bank r;
     _InfernoBank := _InfernoBank r |}.
Definition set_m_GuildEventLogNextGuid x (r : Guild) : Guild :=
  {| m_Id := m_Id r; m_Name := m_Name r; m_LeaderGuid := m_LeaderGuid r; m_motd := m_motd r;
     m_info := m_info r; m_Created := m_Created r; m_Emblem := m_Emblem r;
     m_accountsNumber := m_accountsNumber r; m_Ranks := m_Ranks r; members := members r;
     m_onlineMemberCache := m_onlineMemberCache r; m_GuildEventLog := m_GuildEventLog r;
     m_GuildEventLogNextGuid := x; _Bank := _Bank r; _InfernoBank := _InfernoBank r |}.
Definition set__Bank x (r : Guild) : Guild :=
  {| m_Id := m_Id r; m_Name := m_Name r; m_LeaderGuid := m_LeaderGuid r; m_motd := m_motd r;
     m_info := m_info r; m_Created := m_Created r; m_Emblem := m_Emblem r;
     m_accountsNumber := m_accountsNumber r; m_Ranks := m_Ranks r; members := members r;
     m_onlineMemberCache := m_onlineMemberCache r; m_GuildEventLog := m_GuildEventLog r;
     m_GuildEventLogNextGuid := m_GuildEventLogNextGuid r; _Bank := x;
     _InfernoBank := _InfernoBank r |}.
Definition set__InfernoBank x (r : Guild) : Guild :=
  {| m_Id := m_Id r; m_Name := m_Name r; m_LeaderGuid := m_LeaderGuid r; m_motd := m_motd r;
     m_info := m_info r; m_Created := m_Created r; m_Emblem := m_Emblem r;
     m_accountsNumber := m_accountsNumber r; m_Ranks := m_Ranks r; members := members r;
     m_onlineMemberCache := m_onlineMemberCache r; m_GuildEventLog := m_GuildEventLog r;
     m_GuildEventLogNextGuid := m_GuildEventLogNextGuid r; _Bank := _Bank r; _InfernoBank := x |}.
(** [Guild::Guild()]. *)
Definition Guild_new : Guild :=
  mkGuild 0 "" 0 "" "" (0, 0, 0) (0, 0, 0, 0, 0) 0 [] ∅ ∅ [] 0 None None.

(** ** Petitions *)
Record PetitionSignature := mkSignature { m_playerGuid : Z; m_playerAccount : Z }.
#[export] Instance PetitionSignature_eq_dec : EqDecision PetitionSignature.
Proof. solve_decision. Defined.
Record Petition := mkPetition {
  m_id : Z;
  m_charterGuid : Z;
  m_ownerGuid : Z;
  m_name : string;
  m_team : Z;
  m_signatures : list PetitionSignature
}.
(** Field updates of [Petition]. *)
Definition set_m_id x (r : Petition) : Petition :=
  {| m_id := x; m_charterGuid := m_charterGuid r; m_ownerGuid := m_ownerGuid r;
     m_name := m_name r; m_team := m_team r; m_signatures := m_signatures r |}.
Definition set_m_charterGuid x (r : Petition) : Petition :=
  {| m_id := m_id r; m_charterGuid := x; m_ownerGuid := m_ownerGuid r; m_name := m_name r;
     m_team := m_team r; m_signatures := m_signatures r |}.
Definition set_m_ownerGuid x (r : Petition) : Petition :=
  {| m_id := m_id r; m_charterGuid := m_charterGuid r; m_ownerGuid := x; m_name := m_name r;
     m_team := m_team r; m_signatures := m_signatures r |}.
Definition set_m_name x (r : Petition) : Petition :=
  {| m_id := m_id r; m_charterGuid := m_charterGuid r; m_ownerGuid := m_ownerGuid r; m_name := x;
     m_team := m_team r; m_signatures := m_signatures r |}.
Definition set_m_team x (r : Petition) : Petition :=
  {| m_id := m_id r; m_charterGuid := m_charterGuid r; m_ownerGuid := m_ownerGuid r;
     m_name := m_name r; m_team := x; m_signatures := m_signatures r |}.
Definition set_m_signatures x (r : Petition) : Petition :=
  {| m_id := m_id r; m_charterGuid := m_charterGuid r; m_ownerGuid := m_ownerGuid r;
     m_name := m_name r; m_team := m_team r; m_signatures := x |}.

(** ** Players

    Those in memory, whether in the world or not (while they load or change the
    map).  An item is its guid, its entry and the number in its first
    enchantment slot, which is the petition of a charter. *)
Record GPlayer := mkGPlayer {
  pl_name : string;
  pl_account : Z;
  pl_locale : Z;
  pl_level : Z;
  pl_class : Z;
  pl_zone : Z;
  pl_team : Z;
  pl_guildId : Z;
  pl_rank : Z;
  pl_guildIdInvited : Z;
  pl_inWorld : bool;
  pl_ignores : gset Z;
  pl_money : Z;
  pl_items : gmap (Z * Z) (Z * Z * Z)
}.
(** Field updates of [GPlayer]. *)
Definition set_pl_name x (r : GPlayer) : GPlayer :=
  {| pl_name := x; pl_account := pl_account r; pl_locale := pl_locale r; pl_level := pl_level r;
     pl_class := pl_class r; pl_zone := pl_zone r; pl_team := pl_team r;
     pl_guildId := pl_guildId r; pl_rank := pl_rank r; pl_guildIdInvited := pl_guildIdInvited r;
     pl_inWorld := pl_inWorld r; pl_ignores := pl_ignores r; pl_money := pl_money r;
     pl_items := pl_items r |}.
Definition set_pl_account x (r : GPlayer) : GPlayer :=
  {| pl_name := pl_name r; pl_account := x; pl_locale := pl_locale r; pl_level := pl_level r;
     pl_class := pl_class r; pl_zone := pl_zone r; pl_team := pl_team r;
     pl_guildId := pl_guildId r; pl_rank := pl_rank r; pl_guildIdInvited := pl_guildIdInvited r;
     pl_inWorld := pl_inWorld r; pl_ignores := pl_ignores r; pl_money := pl_money r;
     pl_items := pl_items r |}.
Definition set_pl_locale x (r : GPlayer) : GPlayer :=
  {| pl_name := pl_name r; pl_account := pl_account r; pl_locale := x; pl_level := pl_level r;
     pl_class := pl_class r; pl_zone := pl_zone r; pl_team := pl_team r;
     pl_guildId := pl_guildId r; pl_rank := pl_rank r; pl_guildIdInvited := pl_guildIdInvited r;
     pl_inWorld := pl_inWorld r; pl_ignores := pl_ignores r; pl_money := pl_money r;
     pl_items := pl_items r |}.
Definition set_pl_level x (r : GPlayer) : GPlayer :=
  {| pl_name := pl_name r; pl_account := pl_account r; pl_locale := pl_locale r; pl_level := x;
     pl_class := pl_class r; pl_zone := pl_zone r; pl_team := pl_team r;
     pl_guildId := pl_guildId r; pl_rank := pl_rank r; pl_guildIdInvited := pl_guildIdInvited r;
     pl_inWorld := pl_inWorld r; pl_ignores := pl_ignores r; pl_money := pl_money r;
     pl_items := pl_items r |}.
Definition set_pl_class x (r : GPlayer) : GPlayer :=
  {| pl_name := pl_name r; pl_account := pl_account r; pl_locale := pl_locale r;
     pl_level := pl_level r; pl_class := x; pl_zone := pl_zone r; pl_team := pl_team r;
     pl_guildId := pl_guildId r; pl_rank := pl_rank r; pl_guildIdInvited := pl_guildIdInvited r;
     pl_inWorld := pl_inWorld r; pl_ignores := pl_ignores r; pl_money := pl_money r;
     pl_items := pl_items r |}.
Definition set_pl_zone x (r : GPlayer) : GPlayer :=
  {| pl_name := pl_name r; pl_account := pl_account r; pl_locale := pl_locale r;
     pl_level := pl_level r; pl_class := pl_class r; pl_zone := x; pl_team := pl_team r;
     pl_guildId := pl_guildId r; pl_rank := pl_rank r; pl_guildIdInvited := pl_guildIdInvited r;
     pl_inWorld := pl_inWorld r; pl_ignores := pl_ignores r; pl_money := pl_money r;
     pl_items := pl_items r |}.
Definition set_pl_team x (r : GPlayer) : GPlayer :=
  {| pl_name := pl_name r; pl_account := pl_account r; pl_locale := pl_locale r;
     pl_level := pl_level r; pl_class := pl_class r; pl_zone := pl_zone r; pl_team := x;
     pl_guildId := pl_guildId r; pl_rank := pl_rank r; pl_guildIdInvited := pl_guildIdInvited r;
     pl_inWorld := pl_inWorld r; pl_ignores := pl_ignores r; pl_money := pl_money r;
     pl_items := pl_items r |}.
Definition set_pl_guildId x (r : GPlayer) : GPlayer :=
  {| pl_name := pl_name r; pl_account := pl_account r; pl_locale := pl_locale r;
     pl_level := pl_level r; pl_class := pl_class r; pl_zone := pl_zone r; pl_team := pl_team r;
     pl_guildId := x; pl_rank := pl_rank r; pl_guildIdInvited := pl_guildIdInvited r;
     pl_inWorld := pl_inWorld r; pl_ignores := pl_ignores r; pl_money := pl_money r;
     pl_items := pl_items r |}.
Definition set_pl_rank x (r : GPlayer) : GPlayer :=
  {| pl_name := pl_name r; pl_account := pl_account r; pl_locale := pl_locale r;
     pl_level := pl_level r; pl_class := pl_class r; pl_zone := pl_zone r; pl_team := pl_team r;
     pl_guildId := pl_guildId r; pl_rank := x; pl_guildIdInvited := pl_guildIdInvited r;
     pl_inWorld := pl_inWorld r; pl_ignores := pl_ignores r; pl_money := pl_money r;
     pl_items := pl_items r |}.
Definition set_pl_guildIdInvited x (r : GPlayer) : GPlayer :=
  {| pl_name := pl_name r; pl_account := pl_account r; pl_locale := pl_locale r;
     pl_level := pl_level r; pl_class := pl_class r; pl_zone := pl_zone r; pl_team := pl_team r;
     pl_guildId := pl_guildId r; pl_rank := pl_rank r; pl_guildIdInvited := x;
     pl_inWorld := pl_inWorld r; pl_ignores := pl_ignores r; pl_money := pl_money r;
     pl_items := pl_items r |}.
Definition set_pl_inWorld x (r : GPlayer) : GPlayer :=
  {| pl_name := pl_name r; pl_account := pl_account r; pl_locale := pl_locale r;
     pl_level := pl_level r; pl_class := pl_class r; pl_zone := pl_zone r; pl_team := pl_team r;
     pl_guildId := pl_guildId r; pl_rank := pl_rank r; pl_guildIdInvited := pl_guildIdInvited r;
     pl_inWorld := x; pl_ignores := pl_ignores r; pl_money := pl_money r; pl_items := pl_items r |}.
Definition set_pl_ignores x (r : GPlayer) : GPlayer :=
  {| pl_name := pl_name r; pl_account := pl_account r; pl_locale := pl_locale r;
     pl_level := pl_level r; pl_class := pl_class r; pl_zone := pl_zone r; pl_team := pl_team r;
     pl_guildId := pl_guildId r; pl_rank := pl_rank r; pl_guildIdInvited := pl_guildIdInvited r;
     pl_inWorld := pl_inWorld r; pl_ignores := x; pl_money := pl_money r; pl_items := pl_items r |}.
Definition set_pl_money x (r : GPlayer) : GPlayer :=
  {| pl_name := pl_name r; pl_account := pl_account r; pl_locale := pl_locale r;
     pl_level := pl_level r; pl_class := pl_class r; pl_zone := pl_zone r; pl_team := pl_team r;
     pl_guildId := pl_guildId r; pl_rank := pl_rank r; pl_guildIdInvited := pl_guildIdInvited r;
     pl_inWorld := pl_inWorld r; pl_ignores := pl_ignores r; pl_money := x; pl_items := pl_items r |}.
Definition set_pl_items x (r : GPlayer) : GPlayer :=
  {| pl_name := pl_name r; pl_account := pl_account r; pl_locale := pl_locale r;
     pl_level := pl_level r; pl_class := pl_class r; pl_zone := pl_zone r; pl_team := pl_team r;
     pl_guildId := pl_guildId r; pl_rank := pl_rank r; pl_guildIdInvited := pl_guildIdInvited r;
     pl_inWorld := pl_inWorld r; pl_ignores := pl_ignores r; pl_money := pl_money r; pl_items := x |}.

(** PlayerCacheData, with the team of the race. *)
Record PlayerCacheData := mkCache {
  cd_name : string; cd_level : Z; cd_account : Z; cd_class : Z; cd_zone : Z; cd_team : Z }.

(** ** Tables

    As keyed in sql/create_databases.sql: guild_member by the character,
    guild_rank by guild and rank, guild_eventlog by guild and LogGuid, petition
    by the owner, petition_sign by petition and character. *)
Record GuildRow := mkGuildRow {
  gr_name : string; gr_leaderguid : Z; gr_info : string; gr_motd : string; gr_createdate : Z; gr_emblem : Z * Z * Z * Z * Z }.
Record MemberRow := mkMemberRow { mr_guildid : Z; mr_rank : Z; mr_pnote : string; mr_offnote : string }.
Record PetitionRow := mkPetitionRow { pr_petitionguid : Z; pr_charterguid : Z; pr_name : string }.
Record SignRow := mkSignRow { sr_ownerguid : Z; sr_account : Z }.

(** The columns of characters that are read with a guild's members. *)
Record CharacterRow := mkCharacterRow {
  ch_name : string; ch_level : Z; ch_class : Z; ch_zone : Z; ch_logout_time : Z; ch_account : Z }.

Record GuildDB := mkGuildDB {
  db_guild : gmap Z GuildRow;
  db_member : gmap Z MemberRow;
  db_rank : gmap (Z * Z) RankInfo;
  db_eventlog : gmap (Z * Z) GuildEventLogEntry;
  db_petition : gmap Z PetitionRow;
  db_sign : gmap (Z * Z) SignRow;
  db_characters : gmap Z CharacterRow;
  db_bank : BankDB
}.
(** Field updates of [GuildDB]. *)
Definition set_db_guild x (r : GuildDB) : GuildDB :=
  {| db_guild := x; db_member := db_member r; db_rank := db_rank r; db_eventlog := db_eventlog r;
     db_petition := db_petition r; db_sign := db_sign r; db_characters := db_characters r;
     db_bank := db_bank r |}.
Definition set_db_member x (r : GuildDB) : GuildDB :=
  {| db_guild := db_guild r; db_member := x; db_rank := db_rank r; db_eventlog := db_eventlog r;
     db_petition := db_petition r; db_sign := db_sign r; db_characters := db_characters r;
     db_bank := db_bank r |}.
Definition set_db_rank x (r : GuildDB) : GuildDB :=
  {| db_guild := db_guild r; db_member := db_member r; db_rank := x; db_eventlog := db_eventlog r;
     db_petition := db_petition r; db_sign := db_sign r; db_characters := db_characters r;
     db_bank := db_bank r |}.
Definition set_db_eventlog x (r : GuildDB) : GuildDB :=
  {| db_guild := db_guild r; db_member := db_member r; db_rank := db_rank r; db_eventlog := x;
     db_petition := db_petition r; db_sign := db_sign r; db_characters := db_characters r;
     db_bank := db_bank r |}.
Definition set_db_petition x (r : GuildDB) : GuildDB :=
  {| db_guild := db_guild r; db_member := db_member r; db_rank := db_rank r;
     db_eventlog := db_eventlog r; db_petition := x; db_sign := db_sign r;
     db_characters := db_characters r; db_bank := db_bank r |}.
Definition set_db_sign x (r : GuildDB) : GuildDB :=
  {| db_guild := db_guild r; db_member := db_member r; db_rank := db_rank r;
     db_eventlog := db_eventlog r; db_petition := db_petition r; db_sign := x;
     db_characters := db_characters r; db_bank := db_bank r |}.
Definition set_db_characters x (r : GuildDB) : GuildDB :=
  {| db_guild := db_guild r; db_member := db_member r; db_rank := db_rank r;
     db_eventlog := db_eventlog r; db_petition := db_petition r; db_sign := db_sign r;
     db_characters := x; db_bank := db_bank r |}.
Definition set_db_bank x (r : GuildDB) : GuildDB :=
  {| db_guild := db_guild r; db_member := db_member r; db_rank := db_rank r;
     db_eventlog := db_eventlog r; db_petition := db_petition r; db_sign := db_sign r;
     db_characters := db_characters r; db_bank := x |}.

(** ** What is sent

    A guild event goes to every member in the world. *)
Inductive GuildOut :=
| CommandResult (to typecmd : Z) (str : string) (cmdresult : Z)
| GuildEvent (guild event guid : Z) (strs : list string)
| MotdSent (to : Z) (motd : string)
| GuildInvite (to : Z) (inviter guild : string)
| GuildDecline (to : Z) (name : string)
| GuildInfo (to : Z) (name : string) (created : Z * Z * Z) (memberSize accounts : Z)
| GuildQuery (to guild : Z)
| GuildRoster (to : option Z) (guild : Z)
| SaveGuildEmblem (to msg : Z)
| SignResults (to item signer result : Z)
| ShowSignatures (to item owner petition : Z) (signers : list Z)
| PetitionDeclined (to player : Z)
| PetitionRenamed (to item : Z) (name : string)
| TurnInResults (to result : Z)
| PetitionBuyError (to reason : Z)
| PetitionEquipError (to msg : Z).

(** ** The state *)
Record GW := mkGW {
  m_GuildMap : gmap Z Guild;
  m_guid2guild : gmap Z Z;
  m_petitionMap : gmap Z Petition;
  m_guildBankSaveTimer : Z;
  w_players : gmap Z GPlayer;
  w_cache : gmap Z PlayerCacheData;
  w_db : GuildDB;
  m_GuildIds : Z;
  m_PetitionIds : Z;
  w_itemGuids : Z;
  w_now : Z;
  w_out : list GuildOut
}.
(** Field updates of [GW]. *)
Definition set_m_GuildMap x (r : GW) : GW :=
  {| m_GuildMap := x; m_guid2guild := m_guid2guild r; m_petitionMap := m_petitionMap r;
     m_guildBankSaveTimer := m_guildBankSaveTimer r; w_players := w_players r;
     w_cache := w_cache r; w_db := w_db r; m_GuildIds := m_GuildIds r;
     m_PetitionIds := m_PetitionIds r; w_itemGuids := w_itemGuids r; w_now := w_now r;
     w_out := w_out r |}.
Definition set_m_guid2guild x (r : GW) : GW :=
  {| m_GuildMap := m_GuildMap r; m_guid2guild := x; m_petitionMap := m_petitionMap r;
     m_guildBankSaveTimer := m_guildBankSaveTimer r; w_players := w_players r;
     w_cache := w_cache r; w_db := w_db r; m_GuildIds := m_GuildIds r;
     m_PetitionIds := m_PetitionIds r; w_itemGuids := w_itemGuids r; w_now := w_now r;
     w_out := w_out r |}.
Definition set_m_petitionMap x (r : GW) : GW :=
  {| m_GuildMap := m_GuildMap r; m_guid2guild := m_guid2guild r; m_petitionMap := x;
     m_guildBankSaveTimer := m_guildBankSaveTimer r; w_players := w_players r;
     w_cache := w_cache r; w_db := w_db r; m_GuildIds := m_GuildIds r;
     m_PetitionIds := m_PetitionIds r; w_itemGuids := w_itemGuids r; w_now := w_now r;
     w_out := w_out r |}.
Definition set_m_guildBankSaveTimer x (r : GW) : GW :=
  {| m_GuildMap := m_GuildMap r; m_guid2guild := m_guid2guild r; m_petitionMap := m_petitionMap r;
     m_guildBankSaveTimer := x; w_players := w_players r; w_cache := w_cache r; w_db := w_db r;
     m_GuildIds := m_GuildIds r; m_PetitionIds := m_PetitionIds r; w_itemGuids := w_itemGuids r;
     w_now := w_now r; w_out := w_out r |}.
Definition set_w_players x (r : GW) : GW :=
  {| m_GuildMap := m_GuildMap r; m_guid2guild := m_guid2guild r; m_petitionMap := m_petitionMap r;
     m_guildBankSaveTimer := m_guildBankSaveTimer r; w_players := x; w_cache := w_cache r;
     w_db := w_db r; m_GuildIds := m_GuildIds r; m_PetitionIds := m_PetitionIds r;
     w_itemGuids := w_itemGuids r; w_now := w_now r; w_out := w_out r |}.
Definition set_w_cache x (r : GW) : GW :=
  {| m_GuildMap := m_GuildMap r; m_guid2guild := m_guid2guild r; m_petitionMap := m_petitionMap r;
     m_guildBankSaveTimer := m_guildBankSaveTimer r; w_players := w_players r; w_cache := x;
     w_db := w_db r; m_GuildIds := m_GuildIds r; m_PetitionIds := m_PetitionIds r;
     w_itemGuids := w_itemGuids r; w_now := w_now r; w_out := w_out r |}.
Definition set_w_db x (r : GW) : GW :=
  {| m_GuildMap := m_GuildMap r; m_guid2guild := m_guid2guild r; m_petitionMap := m_petitionMap r;
     m_guildBankSaveTimer := m_guildBankSaveTimer r; w_players := w_players r;
     w_cache := w_cache r; w_db := x; m_GuildIds := m_GuildIds r;
     m_PetitionIds := m_PetitionIds r; w_itemGuids := w_itemGuids r; w_now := w_now r;
     w_out := w_out r |}.
Definition set_m_GuildIds x (r : GW) : GW :=
  {| m_GuildMap := m_GuildMap r; m_guid2guild := m_guid2guild r; m_petitionMap := m_petitionMap r;
     m_guildBankSaveTimer := m_guildBankSaveTimer r; w_players := w_players r;
     w_cache := w_cache r; w_db := w_db r; m_GuildIds := x; m_PetitionIds := m_PetitionIds r;
     w_itemGuids := w_itemGuids r; w_now := w_now r; w_out := w_out r |}.
Definition set_m_PetitionIds x (r : GW) : GW :=
  {| m_GuildMap := m_GuildMap r; m_guid2guild := m_guid2guild r; m_petitionMap := m_petitionMap r;
     m_guildBankSaveTimer := m_guildBankSaveTimer r; w_players := w_players r;
     w_cache := w_cache r; w_db := w_db r; m_GuildIds := m_GuildIds r; m_PetitionIds := x;
     w_itemGuids := w_itemGuids r; w_now := w_now r; w_out := w_out r |}.
Definition set_w_itemGuids x (r : GW) : GW :=
  {| m_GuildMap := m_GuildMap r; m_guid2guild := m_guid2guild r; m_petitionMap := m_petitionMap r;
     m_guildBankSaveTimer := m_guildBankSaveTimer r; w_players := w_players r;
     w_cache := w_cache r; w_db := w_db r; m_GuildIds := m_GuildIds r;
     m_PetitionIds := m_PetitionIds r; w_itemGuids := x; w_now := w_now r; w_out := w_out r |}.
Definition set_w_now x (r : GW) : GW :=
  {| m_GuildMap := m_GuildMap r; m_guid2guild := m_guid2guild r; m_petitionMap := m_petitionMap r;
     m_guildBankSaveTimer := m_guildBankSaveTimer r; w_players := w_players r;
     w_cache := w_cache r; w_db := w_db r; m_GuildIds := m_GuildIds r;
     m_PetitionIds := m_PetitionIds r; w_itemGuids := w_itemGuids r; w_now := x; w_out := w_out r |}.
Definition set_w_out x (r : GW) : GW :=
  {| m_GuildMap := m_GuildMap r; m_guid2guild := m_guid2guild r; m_petitionMap := m_petitionMap r;
     m_guildBankSaveTimer := m_guildBankSaveTimer r; w_players := w_players r;
     w_cache := w_cache r; w_db := w_db r; m_GuildIds := m_GuildIds r;
     m_PetitionIds := m_PetitionIds r; w_itemGuids := w_itemGuids r; w_now := w_now r; w_out := x |}.

(** ** What guilds take from the rest of the server

    [normalizePlayerName] and the two tests of names work on UTF-8 by a library;
    [OnAddMember] is what the registered scripts make of a new member's rank,
    who may not turn the guild master into somebody else or the reverse; hash
    maps are traversed in some order; [CanStoreCharter] is the inventory's
    answer whether and where a charter can be stored. *)
Class GuildEnv := {
  escape_string : string -> string;
  normalizePlayerName : Z -> bool -> string -> option string;
  IsReservedName : string -> bool;
  IsValidCharterName : string -> bool;
  GetMangosString : Z -> Z -> string;
  local_date : Z -> Z * Z * Z;
  CanStoreCharter : GPlayer -> Z + Z * Z;
  GetZoneIdFromDB : Z -> Z;
  cfg_TwoSideGuild : bool;
  cfg_MinPetitionSigns : Z;
  cfg_EventLogCount : Z;
  cfg_BeginnersGuilds : bool;
  cfg_BeginnersGuildHorde : Z;
  cfg_BeginnersGuildAlliance : Z;
  Script_IsAIControlled : Z -> bool;
  account_name : Z -> string;
  OnAddMember : Z -> Z -> Z -> Z;
  members_order : gmap Z MemberSlot -> list (Z * MemberSlot);
  guilds_order : gmap Z Guild -> list (Z * Guild);
  petitions_order : gmap Z Petition -> list (Z * Petition);

  OnAddMember_master : forall guild guid rank, OnAddMember guild guid rank = 0 <-> rank = 0;
  OnAddMember_range : forall guild guid rank, 0 <= OnAddMember guild guid rank < 256;
  members_order_ok : forall m, members_order m ≡ₚ map_to_list m;
  guilds_order_ok : forall m, guilds_order m ≡ₚ map_to_list m;
  petitions_order_ok : forall m, petitions_order m ≡ₚ map_to_list m;
  cfg_EventLogCount_ok : GUILD_EVENTLOG_MAX_RECORDS <= cfg_EventLogCount < 2 ^ 32
}.
Definition MAX_INTERNAL_PLAYER_NAME := 15.
