(* ===== verification/Petitions.v ===== *)
(** Petitions (Guild/GuildMgr.cpp) and the small operations on the state that
    guilds and petitions share: players, tables, messages. *)

From S2P Require Import Prelude CString GuildBankTypes GuildTypes.

(** ** The state *)
Definition send (m : GuildOut) (w : GW) : GW := set_w_out (w_out w ++ [m]) w.
Definition upd_db (f : GuildDB -> GuildDB) (w : GW) : GW := set_w_db (f (w_db w)) w.
Definition upd_player (g : Z) (f : GPlayer -> GPlayer) (w : GW) : GW := set_w_players (alter f g (w_players w)) w.
Definition upd_petition (id : Z) (f : Petition -> Petition) (w : GW) : GW :=
  set_m_petitionMap (alter f id (m_petitionMap w)) w.
(** [ObjectAccessor::FindPlayerNotInWorld], [ObjectAccessor::FindPlayer]. *)
Definition FindPlayerNotInWorld (w : GW) (g : Z) : option GPlayer := w_players w !! g.
Definition FindPlayer (w : GW) (g : Z) : option GPlayer :=
  p ← FindPlayerNotInWorld w g; if pl_inWorld p then Some p else None.
Definition GetPlayerTeamByGUID (w : GW) (g : Z) : Z :=
  match FindPlayer w g with
  | Some p => pl_team p
  | None => from_option cd_team 0 (w_cache w !! g)
  end.

Section petitions.
Context {env : GuildEnv}.

Definition FindPlayerByName (w : GW) (name : string) : option (Z * GPlayer) :=
  n ← normalizePlayerName MAX_INTERNAL_PLAYER_NAME true name;
  g ← List.find (fun g => match w_players w !! g with Some p => pl_name p =s n | None => false end) (skeys (w_players w));
  p ← w_players w !! g;
  if pl_inWorld p then Some (g, p) else None.

(** ** Looking petitions up *)
Definition GetPetitionById (w : GW) (id : Z) : option Petition := m_petitionMap w !! id.
Definition find_petition (w : GW) (f : Petition -> bool) : option (Z * Petition) :=
  List.find (fun ip => f (snd ip)) (petitions_order (m_petitionMap w)).
Definition GetPetitionByCharterGuid (w : GW) (charter : Z) : option (Z * Petition) :=
  find_petition w (fun p => m_charterGuid p =? charter).
Definition GetPetitionByOwnerGuid (w : GW) (owner : Z) : option (Z * Petition) :=
  find_petition w (fun p => m_ownerGuid p =? owner).

(** A [PetitionSignature*] is the petition it belongs to and its place there. *)
Definition GetSignatureForPlayerGuid_of (p : Petition) (g : Z) : option (nat * PetitionSignature) :=
  list_find (fun s => m_playerGuid s = g) (m_signatures p).
Definition GetSignatureForAccount (p : Petition) (account : Z) : option (nat * PetitionSignature) :=
  list_find (fun s => m_playerAccount s = account) (m_signatures p).
Definition GetSignatureForPlayer (p : Petition) (g account : Z) : option (nat * PetitionSignature) :=
  match GetSignatureForAccount p account with
  | Some s => Some s
  | None => GetSignatureForPlayerGuid_of p g
  end.
Definition has_signature (g : Z) (p : Petition) : bool := bool_decide (is_Some (GetSignatureForPlayerGuid_of p g)).
Definition GetSignatureForPlayerGuid (w : GW) (g : Z) : option (Z * nat) :=
  '(id, p) ← find_petition w (has_signature g);
  '(n, _) ← GetSignatureForPlayerGuid_of p g;
  Some (id, n).

Definition IsComplete (p : Petition) : bool := Z.of_nat (length (m_signatures p)) =? cfg_MinPetitionSigns.
Definition GetSignatureCount (p : Petition) : Z := u8 (Z.of_nat (length (m_signatures p))).
Definition BuildSignatureData (p : Petition) : list Z := m_playerGuid <$> m_signatures p.

(** ** Signatures

    [PetitionSignature::DeleteFromDB] compares the owner of the petition with
    the player who signed. *)
Definition DeleteSignature (id : Z) (n : nat) (w : GW) : GW :=
  upd_petition id (fun p => set_m_signatures (delete n (m_signatures p)) p) w.
Definition signature_DeleteFromDB (g : Z) (w : GW) : GW :=
  upd_db (fun db => set_db_sign (filter (fun kr => sr_ownerguid (snd kr) <> g) (db_sign db)) db) w.
(** What joining a guild and signing again do first. *)
Definition drop_signature (g : Z) (w : GW) : GW :=
  match GetSignatureForPlayerGuid w g with
  | Some (id, n) => DeleteSignature id n (signature_DeleteFromDB g w)
  | None => w
  end.

Definition signature_SaveToDB (id owner g account : Z) (w : GW) : GW :=
  upd_db (fun db => set_db_sign (insert_row (id, g) (mkSignRow owner account) (db_sign db)) db) w.
Definition AddSignature (s : PetitionSignature) (p : Petition) : Petition := set_m_signatures (m_signatures p ++ [s]) p.
Definition AddNewSignature (id g account : Z) (w : GW) : bool * GW :=
  match GetPetitionById w id with
  | None => (false, w)
  | Some p =>
      if IsComplete p then (false, w)
      else (true, upd_petition id (AddSignature (mkSignature g account)) (signature_SaveToDB (m_id p) (m_ownerGuid p) g account w))
  end.

(** ** Petitions *)
Definition Petition_SaveToDB (p : Petition) (w : GW) : GW :=
  upd_db (fun db =>
    if bool_decide (map_Exists (fun _ r => pr_charterguid r = m_charterGuid p) (db_petition db)) then db
    else set_db_petition (insert_row (m_ownerGuid p) (mkPetitionRow (m_id p) (m_charterGuid p) (m_name p)) (db_petition db)) db) w.
Definition CreatePetition (id owner team charter : Z) (name : string) (w : GW) : GW :=
  let p := mkPetition id charter owner name team [] in
  set_m_petitionMap (<[id := p]> (m_petitionMap w)) (Petition_SaveToDB p w).
Definition Petition_Delete (p : Petition) (w : GW) : GW :=
  if m_id p =? 0 then w
  else upd_db (fun db =>
    let db := set_db_petition (filter (fun kr => pr_petitionguid (snd kr) <> m_id p) (db_petition db)) db in
    set_db_sign (filter (fun kr => fst (fst kr) <> m_id p) (db_sign db)) db) w.
Definition DeletePetition (p : Petition) (w : GW) : GW :=
  Petition_Delete p (set_m_petitionMap (delete (m_id p) (m_petitionMap w)) w).
Definition Petition_Rename (id : Z) (newname : string) (w : GW) : GW :=
  upd_petition id (set_m_name newname)
    (upd_db (fun db => set_db_petition
       ((fun r => if pr_petitionguid r =? id then mkPetitionRow (pr_petitionguid r) (pr_charterguid r) newname else r)
          <$> db_petition db) db) w).

(** ** Loading: petitions by owner, signatures in some order *)
Definition load_petition (w : GW) (owner : Z) : GW :=
  match db_petition (w_db w) !! owner with
  | Some r =>
      set_m_petitionMap (<[pr_petitionguid r :=
        mkPetition (pr_petitionguid r) (pr_charterguid r) owner (pr_name r) (GetPlayerTeamByGUID w owner) []]> (m_petitionMap w)) w
  | None => w
  end.
Definition load_signature (w : GW) (kr : Z * Z * SignRow) : GW :=
  let '((id, g), r) := kr in
  match GetPetitionById w id with
  | None => upd_db (fun db => set_db_sign (filter (fun kr => fst (fst kr) <> id) (db_sign db)) db) w
  | Some p =>
      let w := if sr_ownerguid r =? m_ownerGuid p then w
               else upd_db (fun db => set_db_sign (map_imap (fun k r => Some
                      (if fst k =? m_id p then mkSignRow (m_ownerGuid p) (sr_account r) else r)) (db_sign db)) db) w in
      upd_petition id (AddSignature (mkSignature g (sr_account r))) w
  end.
Definition sign_rows (w : GW) : list (Z * Z * SignRow) := map_to_list (db_sign (w_db w)).
Definition LoadPetitions (w : GW) : GW :=
  let w := set_m_petitionMap ∅ w in
  match skeys (db_petition (w_db w)) with
  | [] => w
  | owners => let signs := sign_rows w in foldl load_signature (foldl load_petition w owners) signs
  end.
End petitions.
