(* ===== verification/Guild.v ===== *)
(** A guild (Guild/Guild.cpp): members, ranks and rights, leadership, notes,
    the event log, and its rows.  An operation takes the guild and the rest of
    the state, since a guild that is being created is not registered yet. *)

From S2P Require Import Prelude CString GuildBankTypes GuildBank GuildBankRequests GuildTypes Petitions.

Abbreviation GS := (Guild * GW)%type.
Definition on_guild (f : Guild -> Guild) (s : GS) : GS := (f (fst s), snd s).
Definition on_world (f : GW -> GW) (s : GS) : GS := (fst s, f (snd s)).
Definition upd_member (g : Z) (f : MemberSlot -> MemberSlot) (gu : Guild) : Guild := set_members (alter f g (members gu)) gu.

Definition sql_guild (id : Z) (f : GuildRow -> GuildRow) (db : GuildDB) : GuildDB := set_db_guild (alter f id (db_guild db)) db.
Definition sql_member (g : Z) (f : MemberRow -> MemberRow) (db : GuildDB) : GuildDB := set_db_member (alter f g (db_member db)) db.
Definition sql_rank (id rid : Z) (f : RankInfo -> RankInfo) (db : GuildDB) : GuildDB := set_db_rank (alter f (id, rid) (db_rank db)) db.
Definition delete_rank_rows (id : Z) (db : GuildDB) : GuildDB :=
  set_db_rank (filter (fun kr => fst (fst kr) <> id) (db_rank db)) db.
Definition delete_member_rows (id : Z) (db : GuildDB) : GuildDB :=
  set_db_member (filter (fun kr => mr_guildid (snd kr) <> id) (db_member db)) db.
Definition delete_member_row (g : Z) (db : GuildDB) : GuildDB := set_db_member (delete g (db_member db)) db.

Definition GetMemberSlot (gu : Guild) (g : Z) : option MemberSlot := members gu !! g.
(** [GetRank] is a signed number, -1 for somebody who is no member. *)
Definition GetRank (gu : Guild) (g : Z) : Z := from_option (fun s => i32 (ms_RankId s)) (-1) (GetMemberSlot gu g).
Definition GetLowestRank (gu : Guild) : Z := u32 (Z.of_nat (length (m_Ranks gu)) - 1).
Definition GetRanksSize (gu : Guild) : Z := Z.of_nat (length (m_Ranks gu)).
Definition GetMemberSize (gu : Guild) : Z := Z.of_nat (size (members gu)).

(** ** Ranks and rights *)
Definition GetRankName (gu : Guild) (rankId : Z) : string := from_option ri_Name "<unknown>" (m_Ranks gu !! Z.to_nat rankId).
Definition GetRankRights (gu : Guild) (rankId : Z) : Z := from_option ri_Rights 0 (m_Ranks gu !! Z.to_nat rankId).
Definition HasRankRight (gu : Guild) (rankId right : Z) : bool := negb (Z.land (GetRankRights gu rankId) right =? GR_RIGHT_EMPTY).

Definition AddRank (name : string) (rights : Z) (gu : Guild) : Guild := set_m_Ranks (m_Ranks gu ++ [mkRank name rights]) gu.
Definition CreateRank (name : string) (rights : Z) (s : GS) : GS :=
  let gu := fst s in
  if GUILD_RANKS_MAX_COUNT <=? GetRanksSize gu then s
  else
    let new_rank_id := GetRanksSize gu in
    (AddRank name rights gu,
     upd_db (fun db => set_db_rank (insert_row (m_Id gu, new_rank_id) (mkRank name rights) (db_rank db)) db) (snd s)).
Definition SetRankName (rankId : Z) (name : string) (s : GS) : GS :=
  let gu := fst s in
  if GetRanksSize gu <=? rankId then s
  else (set_m_Ranks (alter (fun r => mkRank name (ri_Rights r)) (Z.to_nat rankId) (m_Ranks gu)) gu,
        upd_db (sql_rank (m_Id gu) rankId (fun r => mkRank name (ri_Rights r))) (snd s)).
Definition SetRankRights (rankId rights : Z) (s : GS) : GS :=
  let gu := fst s in
  if GetRanksSize gu <=? rankId then s
  else (set_m_Ranks (alter (fun r => mkRank (ri_Name r) rights) (Z.to_nat rankId) (m_Ranks gu)) gu,
        upd_db (sql_rank (m_Id gu) rankId (fun r => mkRank (ri_Name r) rights)) (snd s)).

(** The bank works on its own tables; every guild has two. *)
Definition run_bank (f : GuildBank -> GuildBank) (b : GuildBank) (w : GW) : GuildBank * GW :=
  let b := f (set_b_now (w_now w) (set_b_db (db_bank (w_db w)) b)) in
  (b, upd_db (set_db_bank (b_db b)) w).
Definition on_bank (f : GuildBank -> GuildBank) (s : GS) : GS :=
  match _Bank (fst s) with
  | Some b => let '(b, w) := run_bank f b (snd s) in (set__Bank (Some b) (fst s), w)
  | None => s
  end.
Definition on_inferno (f : GuildBank -> GuildBank) (s : GS) : GS :=
  match _InfernoBank (fst s) with
  | Some b => let '(b, w) := run_bank f b (snd s) in (set__InfernoBank (Some b) (fst s), w)
  | None => s
  end.
Definition DelRank (s : GS) : GS :=
  let gu := fst s in
  if GetRanksSize gu <=? GUILD_RANKS_MIN_COUNT then s
  else
    let rank := GetLowestRank gu in
    let s := on_world (upd_db (fun db =>
      set_db_rank (filter (fun kr => ~ (rank <= snd (fst kr) /\ fst (fst kr) = m_Id gu)) (db_rank db)) db)) s in
    let s := on_inferno (UpdateMinranks rank) (on_bank (UpdateMinranks rank) s) in
    on_guild (fun gu => set_m_Ranks (take (length (m_Ranks gu) - 1) (m_Ranks gu)) gu) s.

(** ** Messages and the event log *)
Definition BroadcastEvent (event guid : Z) (strs : list string) (s : GS) : GS :=
  on_world (send (GuildEvent (m_Id (fst s)) event guid strs)) s.

Section guild.
Context {env : GuildEnv} {benv : BankEnv}.

Definition LogGuildEvent (type guid1 guid2 newRank : Z) (s : GS) : GS :=
  let '(gu, w) := s in
  let e := mkEvent type guid1 guid2 (u8 newRank) (u32 (w_now w)) in
  let next := u32 (m_GuildEventLogNextGuid gu + 1) mod cfg_EventLogCount in
  let log := if GUILD_EVENTLOG_MAX_RECORDS <=? Z.of_nat (length (m_GuildEventLog gu)) then drop 1 (m_GuildEventLog gu)
             else m_GuildEventLog gu in
  (set_m_GuildEventLog (log ++ [e]) (set_m_GuildEventLogNextGuid next gu),
   upd_db (fun db => set_db_eventlog (insert_row (m_Id gu, next) e (delete (m_Id gu, next) (db_eventlog db))) db) w).
Definition GetGuildInviter (gu : Guild) (g : Z) : Z :=
  from_option PlayerGuid1 0
    (List.find (fun e => (EventType e =? GUILD_EVENT_LOG_INVITE_PLAYER) && (PlayerGuid2 e =? g)) (m_GuildEventLog gu)).

(** ** Members *)
Definition GuildMemberAdded (id g : Z) (w : GW) : GW := set_m_guid2guild (<[g := id]> (m_guid2guild w)) w.
Definition GuildMemberRemoved (g : Z) (w : GW) : GW := set_m_guid2guild (delete g (m_guid2guild w)) w.
Definition GetMemberSlot_named (gu : Guild) (name : string) : option MemberSlot :=
  snd <$> List.find (fun gs => ms_Name (snd gs) =s name) (members_order (members gu)).
Definition SetMemberStats (p : GPlayer) (sl : MemberSlot) : MemberSlot :=
  set_ms_ZoneId (pl_zone p) (set_ms_Class (pl_class p) (set_ms_Level (pl_level p) (set_ms_Name (pl_name p) sl))).
Definition UpdateLogoutTime (now : Z) (sl : MemberSlot) : MemberSlot := set_ms_LogoutTime now sl.

(** The notes: what stays in memory is the escaped text. *)
Definition SetPublicNote (g : Z) (note : string) (s : GS) : GS :=
  match GetMemberSlot (fst s) g with
  | Some sl =>
      if ms_PublicNote sl =s note then s
      else (upd_member g (set_ms_PublicNote (escape_string note)) (fst s),
            upd_db (sql_member g (fun r => mkMemberRow (mr_guildid r) (mr_rank r) note (mr_offnote r))) (snd s))
  | None => s
  end.
Definition SetOfficerNote (g : Z) (note : string) (s : GS) : GS :=
  match GetMemberSlot (fst s) g with
  | Some sl =>
      if ms_OfficerNote sl =s note then s
      else (upd_member g (set_ms_OfficerNote (escape_string note)) (fst s),
            upd_db (sql_member g (fun r => mkMemberRow (mr_guildid r) (mr_rank r) (mr_pnote r) note)) (snd s))
  | None => s
  end.

Definition ChangeRank (g newRank : Z) (s : GS) : GS :=
  let w := match FindPlayer (snd s) g with
           | Some _ => upd_player g (set_pl_rank newRank) (snd s)
           | None => snd s
           end in
  (upd_member g (set_ms_RankId newRank) (fst s),
   upd_db (sql_member g (fun r => mkMemberRow (mr_guildid r) newRank (mr_pnote r) (mr_offnote r))) w).

Definition new_slot (g rank now : Z) (p : option GPlayer) (c : PlayerCacheData) : MemberSlot :=
  match p with
  | Some p => mkSlot g (pl_account p) (pl_name p) rank (pl_level p) (pl_class p) (pl_zone p) now "" ""
  | None => mkSlot g (cd_account c) (cd_name c) rank (u8 (cd_level c)) (u8 (cd_class c)) (cd_zone c) now "" ""
  end.
Definition playable (level cls : Z) : bool :=
  (1 <=? level) && (level <=? PLAYER_STRONG_MAX_LEVEL) && negb (Z.land (Z.shiftl 1 (cls - 1)) CLASSMASK_ALL_PLAYABLE =? 0).
(** The player goes onto the list. *)
Definition enter_guild (g rank : Z) (p : option GPlayer) (sl : MemberSlot) (s : GS) : GS :=
  let id := m_Id (fst s) in
  let s := on_guild (fun gu => set_members (<[g := sl]> (members gu)) gu) s in
  let s := on_world (GuildMemberAdded id g) s in
  let s := on_world (upd_db (fun db => set_db_member (insert_row g (mkMemberRow id rank "" "") (db_member db)) db)) s in
  let s := match p with
           | Some _ => (set_m_onlineMemberCache ({[g]} ∪ m_onlineMemberCache (fst s)) (fst s),
                        upd_player g (fun p => set_pl_guildIdInvited 0 (set_pl_rank rank (set_pl_guildId id p))) (snd s))
           | None => s
           end in
  on_guild (set_m_accountsNumber 0) s.
Definition AddMember (g rank : Z) (s : GS) : GuildAddStatus * GS :=
  let pl := FindPlayerNotInWorld (snd s) g in
  if match pl with
     | Some p => negb (pl_guildId p =? 0)
     | None => bool_decide (is_Some (members (fst s) !! g))
     end then (ALREADY_IN_GUILD, s)
  else
    let s := on_world (drop_signature g) s in
    let now := w_now (snd s) in
    match pl with
    | Some p =>
        let rank := OnAddMember (m_Id (fst s)) g (u8 rank) in
        (OK, enter_guild g rank pl (new_slot g rank now pl (mkCache "" 0 0 0 0 0)) s)
    | None =>
        match w_cache (snd s) !! g with
        | None => (UNKNOWN_PLAYER, s)
        | Some c =>
            if cd_name c =s "" then (UNKNOWN_PLAYER, s)
            else if negb (playable (u8 (cd_level c)) (u8 (cd_class c))) then (PLAYER_DATA_ERROR, s)
            else (OK, enter_guild g rank None (new_slot g rank now None c) s)
        end
    end.

(** ** The leader *)
Definition SetLeader_slot (g : Z) (s : GS) : GS :=
  let s := on_guild (set_m_LeaderGuid g) s in
  let s := ChangeRank g GR_GUILDMASTER s in
  on_world (upd_db (sql_guild (m_Id (fst s))
    (fun r => mkGuildRow (gr_name r) g (gr_info r) (gr_motd r) (gr_createdate r) (gr_emblem r)))) s.
Definition SetLeader (g : Z) (s : GS) : GS :=
  match GetMemberSlot (fst s) g with Some _ => SetLeader_slot g s | None => s end.
Definition slot_name (gu : Guild) (g : Z) : string := from_option ms_Name "" (members gu !! g).
Definition SetNewLeader_slots (newLeader : Z) (oldLeader : option Z) (s : GS) : GS :=
  let s := SetLeader_slot newLeader s in
  match oldLeader with
  | Some old =>
      let s := ChangeRank old GR_OFFICER s in
      BroadcastEvent GE_LEADER_CHANGED 0 [slot_name (fst s) old; slot_name (fst s) newLeader] s
  | None => s
  end.
Definition SetNewLeader (g : Z) (s : GS) : GS :=
  let old := m_LeaderGuid (fst s) in
  match GetMemberSlot (fst s) g, GetMemberSlot (fst s) old with
  | Some _, Some _ => if g =? old then s else SetNewLeader_slots g (Some old) s
  | _, _ => s
  end.

Definition better_slot (best : option (Z * MemberSlot)) (gs : Z * MemberSlot) : option (Z * MemberSlot) :=
  match best with
  | Some b => if ms_RankId (snd gs) <? ms_RankId (snd b) then Some gs else best
  | None => Some gs
  end.
Definition officer_event (gu : Guild) (e : GuildEventLogEntry) : option (Z * MemberSlot) :=
  if negb (EventType e =? GUILD_EVENT_LOG_INVITE_PLAYER) || (PlayerGuid2 e =? m_LeaderGuid gu) then None
  else sl ← GetMemberSlot gu (PlayerGuid2 e);
       if ms_RankId sl =? GR_OFFICER then Some (PlayerGuid2 e, sl) else None.
(** The new and the old leader's slots. *)
Definition GetSuitableNewLeader (preferOldestOfficer : bool) (gu : Guild) : option Z * option Z :=
  let others := List.filter (fun gs => negb (fst gs =? m_LeaderGuid gu)) (members_order (members gu)) in
  let old := if GetMemberSlot gu (m_LeaderGuid gu) then Some (m_LeaderGuid gu) else None in
  let best := foldl better_slot None others in
  let best := if preferOldestOfficer
              then match head (omap (officer_event gu) (m_GuildEventLog gu)) with Some b => Some b | None => best end
              else best in
  (fst <$> best, old).

(** True when the guild has to be disbanded by the caller. *)
Definition remove_member (g : Z) (isDisbanding : bool) (s : GS) : bool * GS :=
  let s := on_guild (fun gu => set_m_onlineMemberCache (m_onlineMemberCache gu ∖ {[g]}) (set_members (delete g (members gu)) gu)) s in
  let s := on_world (GuildMemberRemoved g) s in
  let s := match FindPlayer (snd s) g with
           | Some _ => on_world (upd_player g (fun p => set_pl_rank 0 (set_pl_guildId 0 p))) s
           | None => s
           end in
  let s := on_world (upd_db (delete_member_row g)) s in
  let s := if isDisbanding then s else on_guild (set_m_accountsNumber 0) s in
  (bool_decide (members (fst s) = ∅), s).
Definition DelMember (g : Z) (isDisbanding : bool) (s : GS) : bool * GS :=
  if (m_LeaderGuid (fst s) =? g) && negb isDisbanding
  then match GetSuitableNewLeader false (fst s) with
       | (None, _) => (true, s)
       | (Some best, old) =>
           let s := SetNewLeader_slots best old s in
           let s := match old with Some o => BroadcastEvent GE_LEFT g [slot_name (fst s) o] s | None => s end in
           remove_member g isDisbanding s
       end
  else remove_member g isDisbanding s.

(** ** Creating and disbanding *)
Definition CreateDefaultGuildRanks (locale : Z) (s : GS) : GS :=
  let s := on_world (upd_db (delete_rank_rows (m_Id (fst s)))) s in
  let chat := Z.lor GR_RIGHT_GCHATLISTEN GR_RIGHT_GCHATSPEAK in
  foldl (fun s nr => CreateRank (GetMangosString (fst nr) locale) (snd nr) s) s
    [(811, GR_RIGHT_ALL); (812, GR_RIGHT_ALL); (813, chat); (814, chat); (815, chat)].

(** [new GuildBank]; what no one has written reads as [uninitialised]. *)
Definition GuildBank_new (inferno : bool) : GuildBank :=
  mkBank 0 [] ∅ ∅ [] [] false false false false false inferno 0 uninitialised
    (mkBankPlayer 0 "" 0 0 ∅ None ∅ false) [] (mkDB ∅ ∅ [] []) 0.
Definition make_bank (inferno : bool) (s : GS) : GuildBank * GW :=
  run_bank (SetGuild (m_Id (fst s))) (GuildBank_new inferno) (snd s).
Definition make_banks (s : GS) : GS :=
  let '(b, w) := make_bank false s in
  let s := (set__Bank (Some b) (fst s), w) in
  let '(b, w) := make_bank true s in
  (set__InfernoBank (Some b) (fst s), w).

Definition GetGuildById (w : GW) (id : Z) : option Guild := m_GuildMap w !! id.
Definition GetGuildByName (w : GW) (name : string) : option (Z * Guild) :=
  List.find (fun ig => m_Name (snd ig) =s name) (guilds_order (m_GuildMap w)).

Definition Create (leader : Z) (gname : string) (w : GW) : bool * GS :=
  match GetGuildByName w gname, FindPlayerNotInWorld w leader with
  | None, Some p =>
      let id := m_GuildIds w in
      let now := w_now w in
      let gu := set_m_Created (local_date now) (set_m_Id id (set_m_motd "No message set." (set_m_info ""
                  (set_m_Name gname (set_m_LeaderGuid leader Guild_new))))) in
      let w := set_m_GuildIds (u32 (id + 1)) w in
      let w := upd_db (fun db =>
        let db := delete_member_rows id db in
        set_db_guild (insert_row id (mkGuildRow gname leader "" "No message set." now (m_Emblem gu)) (db_guild db)) db) w in
      let s := make_banks (CreateDefaultGuildRanks (pl_locale p) (gu, w)) in
      let '(status, s) := AddMember leader GR_GUILDMASTER s in
      (bool_decide (status = OK), s)
  | _, _ => (false, (Guild_new, w))
  end.
(** The list of signatures is copied before the first one joins, but after the
    leader has. *)
Definition sign_member (s : GS) (sg : PetitionSignature) : GS :=
  if m_playerGuid sg =? 0 then s else snd (AddMember (m_playerGuid sg) (GetLowestRank (fst s)) s).
Definition Create_petition (p : Petition) (leader : Z) (w : GW) : bool * GS :=
  let '(ok, s) := Create leader (m_name p) w in
  if negb ok then (false, s)
  else (true, foldl sign_member s (from_option m_signatures [] (m_petitionMap (snd s) !! m_id p))).

Definition RemoveGuild (id : Z) (w : GW) : GW := set_m_GuildMap (delete id (m_GuildMap w)) w.
Definition delete_guild_rows (id : Z) (db : GuildDB) : GuildDB :=
  let db := set_db_guild (delete id (db_guild db)) db in
  let db := delete_rank_rows id db in
  let db := set_db_eventlog (filter (fun kr => fst (fst kr) <> id) (db_eventlog db)) db in
  let b := db_bank db in
  set_db_bank (mkDB (filter (fun kr => fst (fst (fst kr)) <> id) (guild_bank b))
                    (filter (fun kr => fst (fst kr) <> id) (guild_bank_money b))
                    (List.filter (fun r => negb (tr_guildid r =? id)) (guild_bank_tabs b))
                    (List.filter (fun r => negb (lr_guildid r =? id)) (guild_bank_log b))) db.
(** All members go, in whatever order the hash map gives them. *)
Definition Disband (s : GS) : GS :=
  let s := BroadcastEvent GE_DISBANDED 0 [] s in
  let s := foldl (fun s gs => snd (DelMember (fst gs) true s)) s (members_order (members (fst s))) in
  let s := on_world (upd_db (delete_guild_rows (m_Id (fst s)))) s in
  let s := on_inferno DeleteFromDB (on_bank DeleteFromDB s) in
  on_world (RemoveGuild (m_Id (fst s))) s.

(** ** Texts and looks *)
Definition Rename (name : string) (s : GS) : GS :=
  (set_m_Name name (fst s), upd_db (sql_guild (m_Id (fst s))
     (fun r => mkGuildRow name (gr_leaderguid r) (gr_info r) (gr_motd r) (gr_createdate r) (gr_emblem r))) (snd s)).
Definition SetMOTD (motd : string) (s : GS) : GS :=
  (set_m_motd motd (fst s), upd_db (sql_guild (m_Id (fst s))
     (fun r => mkGuildRow (gr_name r) (gr_leaderguid r) (gr_info r) motd (gr_createdate r) (gr_emblem r))) (snd s)).
Definition SetGINFO (info : string) (s : GS) : GS :=
  (set_m_info info (fst s), upd_db (sql_guild (m_Id (fst s))
     (fun r => mkGuildRow (gr_name r) (gr_leaderguid r) info (gr_motd r) (gr_createdate r) (gr_emblem r))) (snd s)).
Definition SetEmblem (e : Z * Z * Z * Z * Z) (s : GS) : GS :=
  (set_m_Emblem e (fst s), upd_db (sql_guild (m_Id (fst s))
     (fun r => mkGuildRow (gr_name r) (gr_leaderguid r) (gr_info r) (gr_motd r) (gr_createdate r) e)) (snd s)).
Definition GetAccountsNumber (gu : Guild) : Z * Guild :=
  if negb (m_accountsNumber gu =? 0) then (m_accountsNumber gu, gu)
  else let n := u32 (Z.of_nat (size (list_to_set ((fun gs => ms_accountId (snd gs)) <$> members_order (members gu)) : gset Z))) in
       (n, set_m_accountsNumber n gu).
End guild.
