(* ===== verification/GuildMgr.v ===== *)
(** The guild manager (Guild/GuildMgr.cpp) and the loading of guilds
    (Guild/Guild.cpp): rows in the order of the queries, repairs included. *)

From S2P Require Import Prelude CString GuildBankTypes GuildBank GuildBankRequests GuildTypes Petitions Guild.

Definition GUILD_BANK_SAVE_INTERVAL := 60000.

Section guildmgr.
Context {env : GuildEnv} {benv : BankEnv}.

(** ** Guilds by number, name, leader, member *)
Definition AddGuild (s : GS) : GW :=
  let s := on_world (fun w => set_m_GuildMap (<[m_Id (fst s) := fst s]> (m_GuildMap w)) w) s in
  let s := make_banks s in
  set_m_GuildMap (<[m_Id (fst s) := fst s]> (m_GuildMap (snd s))) (snd s).
Definition GetGuildByLeader (w : GW) (g : Z) : option (Z * Guild) :=
  List.find (fun ig => m_LeaderGuid (snd ig) =? g) (guilds_order (m_GuildMap w)).
Definition GetGuildNameById (w : GW) (id : Z) : string := from_option m_Name "" (m_GuildMap w !! id).
Definition GetPlayerGuild (w : GW) (g : Z) : option Guild := id ← m_guid2guild w !! g; GetGuildById w id.
Definition GetLeadershipSnapshot (w : GW) : list (Z * Z) :=
  (fun ig => (fst ig, m_LeaderGuid (snd ig))) <$> guilds_order (m_GuildMap w).

(** ** Saving the banks *)
Definition put_guild (id : Z) (s : GS) : GW := set_m_GuildMap (<[id := fst s]> (m_GuildMap (snd s))) (snd s).
Definition save_banks (w : GW) (id : Z) : GW :=
  match m_GuildMap w !! id with
  | Some gu => put_guild id (on_inferno SaveToDB (on_bank SaveToDB (gu, w)))
  | None => w
  end.
Definition SaveGuildBanks (w : GW) : GW :=
  foldl save_banks (set_m_guildBankSaveTimer GUILD_BANK_SAVE_INTERVAL w) (fst <$> guilds_order (m_GuildMap w)).
Definition Update (diff : Z) (w : GW) : GW :=
  if m_guildBankSaveTimer w <? diff then SaveGuildBanks w
  else set_m_guildBankSaveTimer (u32 (m_guildBankSaveTimer w - diff)) w.

(** ** Loading one guild

    A query result is the list of its rows; what is left of it goes on to the
    next guild. *)
Definition GuildFields : Type := Z * GuildRow.
Definition LoadGuildFromDB (r : GuildFields) : Guild :=
  let '(id, row) := r in
  let gu := set_m_motd (gr_motd row) (set_m_info (gr_info row) (set_m_Emblem (gr_emblem row)
    (set_m_LeaderGuid (gr_leaderguid row) (set_m_Name (gr_name row) (set_m_Id id Guild_new))))) in
  if 0 <? gr_createdate row then set_m_Created (local_date (gr_createdate row)) gu else gu.

Definition RankFields : Type := Z * Z * RankInfo.
(** Whether the numbers have a gap, the rows that are left. *)
Fixpoint load_ranks (rows : list RankFields) (broken : bool) (s : GS) : bool * list RankFields * GS :=
  match rows with
  | [] => (broken, [], s)
  | (guildId, rankID, ri) :: rest =>
      let gu := fst s in
      if guildId <? m_Id gu then load_ranks rest broken (on_world (upd_db (delete_rank_rows guildId)) s)
      else if m_Id gu <? guildId then (broken, rows, s)
      else
        let broken := broken || negb (rankID =? GetRanksSize gu) in
        let rights := if bool_decide (m_Ranks gu = []) then Z.lor (ri_Rights ri) GR_RIGHT_ALL else ri_Rights ri in
        load_ranks rest broken (on_guild (AddRank (ri_Name ri) rights) s)
  end.
Definition rewrite_ranks (s : GS) : GS :=
  let gu := fst s in
  on_world (upd_db (fun db =>
    foldl (fun db ir => set_db_rank (insert_row (m_Id gu, Z.of_nat (fst ir)) (snd ir) (db_rank db)) db)
      (delete_rank_rows (m_Id gu) db) (imap pair (m_Ranks gu)))) s.
Definition LoadRanksFromDB (rows : option (list RankFields)) (s : GS) : option (list RankFields) * GS :=
  match rows with
  | None => (None, CreateDefaultGuildRanks 0 s)
  | Some rows =>
      let '(broken, rows, s) := load_ranks rows false s in
      if GetRanksSize (fst s) <? GUILD_RANKS_MIN_COUNT
      then (Some rows, CreateDefaultGuildRanks 0 (on_guild (set_m_Ranks []) s))
      else (Some rows, if broken then rewrite_ranks s else s)
  end.

(** guildid, character, rank and notes, and the columns of characters, which
    are null for a character that is gone. *)
Definition MemberFields : Type := Z * Z * MemberRow * option CharacterRow.
Definition loaded_slot (g : Z) (r : MemberRow) (c : option CharacterRow) (gu : Guild) : MemberSlot :=
  let c := default (mkCharacterRow "" 0 0 0 0 0) c in
  mkSlot g (ch_account c) (ch_name c)
    (if GetRanksSize gu <=? mr_rank r then GetLowestRank gu else mr_rank r)
    (u8 (ch_level c)) (u8 (ch_class c)) (ch_zone c) (ch_logout_time c) (mr_pnote r) (mr_offnote r).
Definition load_member (g : Z) (r : MemberRow) (c : option CharacterRow) (s : GS) : GS :=
  let sl := loaded_slot g r c (fst s) in
  let sl := if ms_ZoneId sl =? 0 then set_ms_ZoneId (GetZoneIdFromDB g) sl else sl in
  if negb (playable (ms_Level sl) (ms_Class sl)) || (ms_Name sl =s "")
  then on_world (upd_db (delete_member_row g)) s
  else on_world (GuildMemberAdded (m_Id (fst s)) g) (on_guild (fun gu => set_members (<[g := sl]> (members gu)) gu) s).
Fixpoint load_members (rows : list MemberFields) (s : GS) : list MemberFields * GS :=
  match rows with
  | [] => ([], s)
  | (guildId, g, r, c) :: rest =>
      if guildId <? m_Id (fst s) then load_members rest (on_world (upd_db (delete_member_rows guildId)) s)
      else if m_Id (fst s) <? guildId then (rows, s)
      else load_members rest (load_member g r c s)
  end.
Definition LoadMembersFromDB (rows : option (list MemberFields)) (s : GS) : bool * option (list MemberFields) * GS :=
  match rows with
  | None => (false, None, s)
  | Some rows =>
      let '(rows, s) := load_members rows s in
      if decide (members (fst s) = ∅) then (false, Some rows, s)
      else (true, Some rows, on_guild (set_m_accountsNumber 0) s)
  end.

(** Only one guild master, who is the leader. *)
Definition demote_other (leader : Z) (s : GS) (gs : Z * MemberSlot) : GS :=
  if (ms_RankId (snd gs) =? GR_GUILDMASTER) && negb (leader =? ms_guid (snd gs)) then ChangeRank (fst gs) GR_OFFICER s else s.
Definition CheckGuildStructure (s : GS) : bool * GS :=
  let leader := m_LeaderGuid (fst s) in
  let rights := GetRank (fst s) leader in
  let '(gone, s) := if rights =? -1 then DelMember leader false s
                    else (false, if negb (rights =? GR_GUILDMASTER) then SetLeader leader s else s) in
  if gone then (false, s)
  else (true, foldl (demote_other (m_LeaderGuid (fst s))) s (members_order (members (fst s)))).

(** [ORDER BY TimeStamp DESC, LogGuid DESC LIMIT 100]; the log is kept with the
    oldest entry first. *)
Definition later_event (a b : Z * GuildEventLogEntry) : Prop :=
  TimeStamp (snd b) < TimeStamp (snd a) \/ (TimeStamp (snd b) = TimeStamp (snd a) /\ fst b <= fst a).
#[export] Instance later_event_dec a b : Decision (later_event a b).
Proof. unfold later_event. apply _. Defined.
Definition eventlog_rows (w : GW) (id : Z) : list (Z * GuildEventLogEntry) :=
  merge_sort later_event ((fun kr => (snd (fst kr), snd kr)) <$>
    List.filter (fun kr => fst (fst kr) =? id) (map_to_list (db_eventlog (w_db w)))).
Definition LoadGuildEventLogFromDB (s : GS) : GS :=
  let rows := take (Z.to_nat GUILD_EVENTLOG_MAX_RECORDS) (eventlog_rows (snd s) (m_Id (fst s))) in
  match rows with
  | [] => s
  | (next, _) :: _ => on_guild (fun gu => set_m_GuildEventLog (reverse (snd <$> rows) ++ m_GuildEventLog gu)
                                            (set_m_GuildEventLogNextGuid next gu)) s
  end.

(** ** Loading all of them *)
Definition load_guild (acc : option (list RankFields) * option (list MemberFields) * GW) (r : GuildFields) :
    option (list RankFields) * option (list MemberFields) * GW :=
  let '(ranks, mems, w) := acc in
  let '(ranks, s) := LoadRanksFromDB ranks (LoadGuildFromDB r, w) in
  let '(ok, mems, s) := LoadMembersFromDB mems s in
  let '(ok, s) := if ok then CheckGuildStructure s else (false, s) in
  if ok then (ranks, mems, AddGuild (LoadGuildEventLogFromDB s)) else (ranks, mems, snd (Disband s)).
(** An empty result is a null pointer. *)
Definition query {A} (rows : list A) : option (list A) := match rows with [] => None | _ => Some rows end.
Definition guild_rows (w : GW) : list GuildFields :=
  omap (fun id => r ← db_guild (w_db w) !! id; Some (id, r)) (skeys (db_guild (w_db w))).
Definition rank_key_le (a b : RankFields) : Prop :=
  fst (fst a) < fst (fst b) \/ (fst (fst a) = fst (fst b) /\ snd (fst a) <= snd (fst b)).
#[export] Instance rank_key_le_dec a b : Decision (rank_key_le a b).
Proof. unfold rank_key_le. apply _. Defined.
Definition rank_rows (w : GW) : list RankFields := merge_sort rank_key_le (map_to_list (db_rank (w_db w))).
Definition member_guild_le (a b : MemberFields) : Prop := fst (fst (fst a)) <= fst (fst (fst b)).
#[export] Instance member_guild_le_dec a b : Decision (member_guild_le a b).
Proof. unfold member_guild_le. apply _. Defined.
Definition member_rows (w : GW) : list MemberFields :=
  merge_sort member_guild_le ((fun gr => (mr_guildid (snd gr), fst gr, snd gr, db_characters (w_db w) !! fst gr)) <$>
    map_to_list (db_member (w_db w))).
Definition LoadGuilds (w : GW) : GW :=
  match guild_rows w with
  | [] => w
  | rows =>
      let '(_, _, w) := foldl load_guild (query (rank_rows w), query (member_rows w), w) rows in
      upd_db (fun db => set_db_eventlog (filter (fun kr => snd (fst kr) <= cfg_EventLogCount) (db_eventlog db)) db) w
  end.
End guildmgr.
