(* ===== verification/GuildHandlers.v ===== *)
(** What players ask of guilds (Handlers/GuildHandler.cpp), and the guild's
    share of logging in and out (Handlers/CharacterHandler.cpp,
    WorldSession.cpp, [Player::_LoadGuild]).  A handler gets the guid of the
    session's player and the fields of the packet. *)

From S2P Require Import Prelude CString GuildBankTypes GuildTypes Petitions Guild GuildMgr.

Definition HORDE_TEAM := 67.

Section handlers.
Context {env : GuildEnv} {benv : BankEnv}.

Definition SendGuildCommandResult (to typecmd : Z) (str : string) (res : Z) (w : GW) : GW := send (CommandResult to typecmd str res) w.
Definition norm_name (name : string) : option string := normalizePlayerName MAX_INTERNAL_PLAYER_NAME true name.
Definition other_side (a b : GPlayer) : bool := negb cfg_TwoSideGuild && negb (pl_team a =? pl_team b).

(** The player and his guild, or the answer that he has none. *)
Definition with_guild (me : Z) (w : GW) (f : GPlayer -> Guild -> GW) : GW :=
  match w_players w !! me with
  | None => w
  | Some self =>
      match GetGuildById w (pl_guildId self) with
      | None => SendGuildCommandResult me GUILD_CREATE_S "" ERR_GUILD_PLAYER_NOT_IN_GUILD w
      | Some gu => f self gu
      end
  end.
(** The guild goes when its last member has gone. *)
Definition disband_if (gone : bool) (s : GS) (f : GS -> GS) (id : Z) : GW :=
  if gone then snd (Disband s) else put_guild id (f s).

Definition HandleGuildQueryOpcode (me guildId : Z) (w : GW) : GW :=
  match GetGuildById w guildId with
  | Some _ => send (GuildQuery me guildId) w
  | None => SendGuildCommandResult me GUILD_CREATE_S "" ERR_GUILD_PLAYER_NOT_IN_GUILD w
  end.

Definition HandleGuildCreateOpcode (me : Z) (gname : string) (w : GW) : GW :=
  match w_players w !! me with
  | None => w
  | Some self =>
      if negb (pl_guildId self =? 0) then w
      else let '(ok, s) := Create me gname w in
           if negb ok then snd s else AddGuild s
  end.

Definition HandleGuildInviteOpcode (me : Z) (name : string) (w : GW) : GW :=
  match w_players w !! me with
  | None => w
  | Some self =>
      let Invitedname := default name (norm_name name) in
      match n ← norm_name name; FindPlayerByName w n with
      | None => SendGuildCommandResult me GUILD_INVITE_S Invitedname ERR_GUILD_PLAYER_NOT_FOUND_S w
      | Some (g, player) =>
          match GetGuildById w (pl_guildId self) with
          | None => SendGuildCommandResult me GUILD_CREATE_S "" ERR_GUILD_PLAYER_NOT_IN_GUILD w
          | Some gu =>
              if bool_decide (me ∈ pl_ignores player) then w
              else if other_side player self then SendGuildCommandResult me GUILD_INVITE_S Invitedname ERR_GUILD_NOT_ALLIED w
              else if negb (pl_guildId player =? 0)
              then SendGuildCommandResult me GUILD_INVITE_S (pl_name player) ERR_ALREADY_IN_GUILD_S w
              else if negb (pl_guildIdInvited player =? 0)
              then SendGuildCommandResult me GUILD_INVITE_S (pl_name player) ERR_ALREADY_INVITED_TO_GUILD_S w
              else if negb (HasRankRight gu (pl_rank self) GR_RIGHT_INVITE)
              then SendGuildCommandResult me GUILD_INVITE_S "" ERR_GUILD_PERMISSIONS w
              else
                let w := upd_player g (set_pl_guildIdInvited (pl_guildId self)) w in
                let w := put_guild (pl_guildId self) (LogGuildEvent GUILD_EVENT_LOG_INVITE_PLAYER me g 0 (gu, w)) in
                send (GuildInvite g (pl_name self) (m_Name gu)) w
          end
      end
  end.

Definition HandleGuildRemoveOpcode (me : Z) (name : string) (w : GW) : GW :=
  match norm_name name with
  | None => w
  | Some plName =>
      if negb (from_option pl_inWorld false (w_players w !! me)) then w
      else with_guild me w (fun self gu =>
        if negb (HasRankRight gu (pl_rank self) GR_RIGHT_REMOVE)
        then SendGuildCommandResult me GUILD_INVITE_S "" ERR_GUILD_PERMISSIONS w
        else match GetMemberSlot_named gu plName with
        | None => SendGuildCommandResult me GUILD_INVITE_S plName ERR_GUILD_PLAYER_NOT_IN_GUILD_S w
        | Some slot =>
            if ms_RankId slot =? GR_GUILDMASTER
            then SendGuildCommandResult me GUILD_QUIT_S "" ERR_GUILD_LEADER_LEAVE w
            else if ms_RankId slot <=? pl_rank self
            then SendGuildCommandResult me GUILD_QUIT_S plName ERR_GUILD_RANK_TOO_HIGH_S w
            else let '(gone, s) := DelMember (ms_guid slot) false (gu, w) in
                 disband_if gone s (fun s =>
                   BroadcastEvent GE_REMOVED 0 [plName; pl_name self]
                     (LogGuildEvent GUILD_EVENT_LOG_UNINVITE_PLAYER me (ms_guid slot) 0 s)) (pl_guildId self)
        end)
  end.

Definition HandleGuildAcceptOpcode (me : Z) (w : GW) : GW :=
  match w_players w !! me with
  | None => w
  | Some self =>
      match GetGuildById w (pl_guildIdInvited self) with
      | None => w
      | Some gu =>
          if negb (pl_guildId self =? 0) then w
          else if negb cfg_TwoSideGuild && negb (pl_team self =? GetPlayerTeamByGUID w (m_LeaderGuid gu)) then w
          else
            let '(status, s) := AddMember me (GetLowestRank gu) (gu, w) in
            if negb (bool_decide (status = OK)) then put_guild (pl_guildIdInvited self) s
            else put_guild (pl_guildIdInvited self)
                   (BroadcastEvent GE_JOINED me [pl_name self] (LogGuildEvent GUILD_EVENT_LOG_JOIN_GUILD me 0 0 s))
      end
  end.

Definition HandleGuildDeclineOpcode (me : Z) (w : GW) : GW :=
  match w_players w !! me with
  | None => w
  | Some self =>
      if negb (pl_guildId self =? 0) || (pl_guildIdInvited self =? 0) then w
      else
        let inviter := from_option (fun gu => GetGuildInviter gu me) 0 (GetGuildById w (pl_guildIdInvited self)) in
        let w := if inviter =? 0 then w
                 else match FindPlayer w inviter with
                      | Some _ => send (GuildDecline inviter (pl_name self)) w
                      | None => w
                      end in
        upd_player me (set_pl_guildIdInvited 0) w
  end.

Definition HandleGuildInfoOpcode (me : Z) (w : GW) : GW :=
  with_guild me w (fun self gu =>
    let '(accounts, gu) := GetAccountsNumber gu in
    send (GuildInfo me (m_Name gu) (m_Created gu) (u32 (GetMemberSize gu)) accounts) (put_guild (pl_guildId self) (gu, w))).
Definition HandleGuildRosterOpcode (me : Z) (w : GW) : GW :=
  match w_players w !! me with
  | Some self => match GetGuildById w (pl_guildId self) with
                 | Some _ => send (GuildRoster (Some me) (pl_guildId self)) w
                 | None => w
                 end
  | None => w
  end.

Definition HandleGuildPromoteOpcode (me : Z) (name : string) (w : GW) : GW :=
  match norm_name name with
  | None => w
  | Some plName =>
      with_guild me w (fun self gu =>
        if negb (HasRankRight gu (pl_rank self) GR_RIGHT_PROMOTE)
        then SendGuildCommandResult me GUILD_INVITE_S "" ERR_GUILD_PERMISSIONS w
        else match GetMemberSlot_named gu plName with
        | None => SendGuildCommandResult me GUILD_INVITE_S plName ERR_GUILD_PLAYER_NOT_IN_GUILD_S w
        | Some slot =>
            if ms_guid slot =? me then SendGuildCommandResult me GUILD_INVITE_S "" ERR_GUILD_NAME_INVALID w
            else if ms_RankId slot <=? u32 (pl_rank self + 1)
            then SendGuildCommandResult me GUILD_INVITE_S plName ERR_GUILD_RANK_TOO_HIGH_S w
            else
              let newRankId := u32 (ms_RankId slot - 1) in
              let s := ChangeRank (ms_guid slot) newRankId (gu, w) in
              let s := LogGuildEvent GUILD_EVENT_LOG_PROMOTE_PLAYER me (ms_guid slot) newRankId s in
              put_guild (pl_guildId self) (BroadcastEvent GE_PROMOTION 0 [pl_name self; plName; GetRankName (fst s) newRankId] s)
        end)
  end.

Definition HandleGuildDemoteOpcode (me : Z) (name : string) (w : GW) : GW :=
  match norm_name name with
  | None => w
  | Some plName =>
      with_guild me w (fun self gu =>
        if negb (HasRankRight gu (pl_rank self) GR_RIGHT_DEMOTE)
        then SendGuildCommandResult me GUILD_INVITE_S "" ERR_GUILD_PERMISSIONS w
        else match GetMemberSlot_named gu plName with
        | None => SendGuildCommandResult me GUILD_INVITE_S plName ERR_GUILD_PLAYER_NOT_IN_GUILD_S w
        | Some slot =>
            if ms_guid slot =? me then SendGuildCommandResult me GUILD_INVITE_S "" ERR_GUILD_NAME_INVALID w
            else if ms_RankId slot <=? pl_rank self
            then SendGuildCommandResult me GUILD_INVITE_S plName ERR_GUILD_RANK_TOO_HIGH_S w
            else if GetLowestRank gu <=? ms_RankId slot
            then SendGuildCommandResult me GUILD_INVITE_S plName ERR_GUILD_RANK_TOO_LOW_S w
            else
              let newRankId := u32 (ms_RankId slot + 1) in
              let s := ChangeRank (ms_guid slot) newRankId (gu, w) in
              let s := LogGuildEvent GUILD_EVENT_LOG_DEMOTE_PLAYER me (ms_guid slot) newRankId s in
              put_guild (pl_guildId self) (BroadcastEvent GE_DEMOTION 0 [pl_name self; plName; GetRankName (fst s) newRankId] s)
        end)
  end.

Definition HandleGuildLeaveOpcode (me : Z) (w : GW) : GW :=
  with_guild me w (fun self gu =>
    if (me =? m_LeaderGuid gu) && (1 <? GetMemberSize gu)
    then SendGuildCommandResult me GUILD_QUIT_S "" ERR_GUILD_LEADER_LEAVE w
    else if me =? m_LeaderGuid gu then snd (Disband (gu, w))
    else
      let w := SendGuildCommandResult me GUILD_QUIT_S (m_Name gu) ERR_PLAYER_NO_MORE_IN_GUILD w in
      let '(gone, s) := DelMember me false (gu, w) in
      disband_if gone s (fun s => BroadcastEvent GE_LEFT me [pl_name self] (LogGuildEvent GUILD_EVENT_LOG_LEAVE_GUILD me 0 0 s))
        (pl_guildId self)).

Definition HandleGuildDisbandOpcode (me : Z) (w : GW) : GW :=
  with_guild me w (fun self gu =>
    if negb (me =? m_LeaderGuid gu) then SendGuildCommandResult me GUILD_INVITE_S "" ERR_GUILD_PERMISSIONS w
    else snd (Disband (gu, w))).

Definition HandleGuildLeaderOpcode (me : Z) (name0 : string) (w : GW) : GW :=
  match norm_name name0 with
  | None => w
  | Some name =>
      with_guild me w (fun self gu =>
        if negb (me =? m_LeaderGuid gu) then SendGuildCommandResult me GUILD_INVITE_S "" ERR_GUILD_PERMISSIONS w
        else match GetMemberSlot gu me with
        | None => SendGuildCommandResult me GUILD_INVITE_S "" ERR_GUILD_PERMISSIONS w
        | Some oldSlot =>
            match GetMemberSlot_named gu name with
            | None => SendGuildCommandResult me GUILD_INVITE_S name ERR_GUILD_PLAYER_NOT_IN_GUILD_S w
            | Some slot =>
                if ms_guid slot =? me then SendGuildCommandResult me GUILD_INVITE_S name ERR_ALREADY_IN_GUILD_S w
                else put_guild (pl_guildId self) (SetNewLeader_slots (ms_guid slot) (Some me) (gu, w))
            end
        end)
  end.

(** ** Texts, notes, ranks, the emblem *)
Definition HandleGuildMOTDOpcode (me : Z) (motd : string) (w : GW) : GW :=
  if GUILD_MOTD_MAX_LENGTH <? Z.of_nat (String.length motd) then w
  else with_guild me w (fun self gu =>
    if negb (HasRankRight gu (pl_rank self) GR_RIGHT_SETMOTD) then SendGuildCommandResult me GUILD_INVITE_S "" ERR_GUILD_PERMISSIONS w
    else put_guild (pl_guildId self) (BroadcastEvent GE_MOTD 0 [motd] (SetMOTD motd (gu, w)))).

Definition set_note (right : Z) (set : Z -> string -> GS -> GS) (me : Z) (name0 note0 : string) (w : GW) : GW :=
  match norm_name name0, normalizePlayerName GUILD_NOTE_MAX_LENGTH false note0 with
  | Some name, Some note =>
      with_guild me w (fun self gu =>
        if negb (HasRankRight gu (pl_rank self) right) then SendGuildCommandResult me GUILD_INVITE_S "" ERR_GUILD_PERMISSIONS w
        else match GetMemberSlot_named gu name with
        | None => SendGuildCommandResult me GUILD_INVITE_S name ERR_GUILD_PLAYER_NOT_IN_GUILD_S w
        | Some slot =>
            if GUILD_NOTE_MAX_LENGTH <? Z.of_nat (String.length note) then w
            else send (GuildRoster (Some me) (m_Id gu)) (put_guild (pl_guildId self) (set (ms_guid slot) note (gu, w)))
        end)
  | _, _ => w
  end.
Definition HandleGuildSetPublicNoteOpcode : Z -> string -> string -> GW -> GW := set_note GR_RIGHT_EPNOTE SetPublicNote.
Definition HandleGuildSetOfficerNoteOpcode : Z -> string -> string -> GW -> GW := set_note GR_RIGHT_EOFFNOTE SetOfficerNote.

Definition HandleGuildRankOpcode (me rankId rights : Z) (rankname0 : string) (w : GW) : GW :=
  with_guild me w (fun self gu =>
    if negb (me =? m_LeaderGuid gu) then SendGuildCommandResult me GUILD_INVITE_S "" ERR_GUILD_PERMISSIONS w
    else match normalizePlayerName 25 false rankname0 with
    | None => w
    | Some rankname =>
        let s := SetRankName rankId rankname (gu, w) in
        let rights := if rankId =? GR_GUILDMASTER then GR_RIGHT_ALL else rights in
        let s := SetRankRights rankId rights s in
        send (GuildRoster None (m_Id gu)) (send (GuildQuery me (m_Id gu)) (put_guild (pl_guildId self) s))
    end).
Definition HandleGuildAddRankOpcode (me : Z) (rankname0 : string) (w : GW) : GW :=
  match norm_name rankname0 with
  | None => w
  | Some rankname =>
      with_guild me w (fun self gu =>
        if negb (me =? m_LeaderGuid gu) then SendGuildCommandResult me GUILD_INVITE_S "" ERR_GUILD_PERMISSIONS w
        else if GUILD_RANKS_MAX_COUNT <=? GetRanksSize gu then w
        else
          let s := CreateRank rankname (Z.lor GR_RIGHT_GCHATLISTEN GR_RIGHT_GCHATSPEAK) (gu, w) in
          send (GuildRoster None (m_Id gu)) (send (GuildQuery me (m_Id gu)) (put_guild (pl_guildId self) s)))
  end.
Definition HandleGuildDelRankOpcode (me : Z) (w : GW) : GW :=
  with_guild me w (fun self gu =>
    if negb (me =? m_LeaderGuid gu) then SendGuildCommandResult me GUILD_INVITE_S "" ERR_GUILD_PERMISSIONS w
    else send (GuildRoster None (m_Id gu)) (send (GuildQuery me (m_Id gu)) (put_guild (pl_guildId self) (DelRank (gu, w))))).

Definition HandleGuildChangeInfoTextOpcode (me : Z) (info0 : string) (w : GW) : GW :=
  match normalizePlayerName GUILD_INFO_MAX_LENGTH false info0 with
  | None => w
  | Some info =>
      if GUILD_INFO_MAX_LENGTH <? Z.of_nat (String.length info) then w
      else with_guild me w (fun self gu =>
        if negb (HasRankRight gu (pl_rank self) GR_RIGHT_MODIFY_GUILD_INFO)
        then SendGuildCommandResult me GUILD_CREATE_S "" ERR_GUILD_PERMISSIONS w
        else put_guild (pl_guildId self) (SetGINFO info (gu, w)))
  end.

Definition pl_ModifyMoney (d : Z) (p : GPlayer) : GPlayer :=
  set_pl_money (bp_money (GuildBankTypes.ModifyMoney d (mkBankPlayer 0 "" 0 (pl_money p) ∅ None ∅ false))) p.
(** [designer]: the tabard designer is there and can be talked to. *)
Definition HandleSaveGuildEmblemOpcode (me : Z) (designer : bool) (emblem : Z * Z * Z * Z * Z) (w : GW) : GW :=
  match w_players w !! me with
  | None => w
  | Some self =>
      if negb designer then send (SaveGuildEmblem me ERR_GUILDEMBLEM_FAIL_NO_MESSAGE) w
      else match GetGuildById w (pl_guildId self) with
      | None => send (SaveGuildEmblem me ERR_GUILDEMBLEM_NOGUILD) w
      | Some gu =>
          if negb (m_LeaderGuid gu =? me) then send (SaveGuildEmblem me ERR_GUILDEMBLEM_NOTGUILDMASTER) w
          else if pl_money self <? 10 * GOLD then send (SaveGuildEmblem me ERR_GUILDEMBLEM_NOTENOUGHMONEY) w
          else
            let w := upd_player me (pl_ModifyMoney (-10 * GOLD)) w in
            let w := put_guild (pl_guildId self) (SetEmblem emblem (gu, w)) in
            send (GuildQuery me (m_Id gu)) (send (SaveGuildEmblem me ERR_GUILDEMBLEM_SUCCESS) w)
      end
  end.

(** ** Logging in and out *)
Definition _LoadGuild (g : Z) (w : GW) (p : GPlayer) : GPlayer :=
  let p := match db_member (w_db w) !! g with
           | Some r => set_pl_rank (mr_rank r) (set_pl_guildId (mr_guildid r) p)
           | None => set_pl_rank 0 (set_pl_guildId 0 p)
           end in
  if pl_guildId p =? 0 then p
  else match GetGuildById w (pl_guildId p) with
       | Some _ => p
       | None => set_pl_rank 0 (set_pl_guildId 0 p)
       end.
(** He is in memory, not yet in the world. *)
Definition LoadPlayer (g : Z) (p : GPlayer) (w : GW) : GW :=
  set_w_players (<[g := _LoadGuild g w (set_pl_inWorld false p)]> (w_players w)) w.
Definition beginners_guild (g : Z) (p : GPlayer) : Z :=
  if cfg_BeginnersGuilds && (pl_guildId p =? 0) && negb (Script_IsAIControlled g) && (pl_level p <=? 5)
     && negb (String.prefix "RNDBOT" (account_name (pl_account p)))
  then if pl_team p =? HORDE_TEAM then cfg_BeginnersGuildHorde else cfg_BeginnersGuildAlliance
  else 0.
Definition join_beginners_guild (g : Z) (p : GPlayer) (w : GW) : GW :=
  let id := beginners_guild g p in
  if id =? 0 then w
  else match GetGuildById w id with
       | Some gu => put_guild id (snd (AddMember g (GetLowestRank gu) (gu, w)))
       | None => w
       end.
Definition sign_on (g : Z) (w : GW) : GW :=
  match p ← w_players w !! g; gu ← GetGuildById w (pl_guildId p); Some (p, gu) with
  | None => w
  | Some (p, gu) =>
      let s := BroadcastEvent GE_SIGNED_ON g [pl_name p] (gu, send (MotdSent g (m_motd gu)) w) in
      put_guild (pl_guildId p) (on_guild (fun gu => set_m_onlineMemberCache ({[g]} ∪ m_onlineMemberCache gu) gu) s)
  end.
Definition HandlePlayerLogin (g : Z) (w : GW) : GW :=
  match w_players w !! g with
  | None => w
  | Some p => sign_on g (join_beginners_guild g p w)
  end.
Definition sign_off (g : Z) (p : GPlayer) (w : GW) : GW :=
  match GetGuildById w (pl_guildId p) with
  | None => w
  | Some gu =>
      let s := on_guild (upd_member g (fun sl => UpdateLogoutTime (w_now w) (SetMemberStats p sl))) (gu, w) in
      let s := BroadcastEvent GE_SIGNED_OFF g [pl_name p] s in
      put_guild (pl_guildId p) (on_guild (fun gu => set_m_onlineMemberCache (m_onlineMemberCache gu ∖ {[g]}) gu) s)
  end.
Definition LogoutPlayer (g : Z) (w : GW) : GW :=
  match w_players w !! g with
  | None => w
  | Some p => let w := sign_off g p w in set_w_players (delete g (w_players w)) w
  end.
End handlers.
