(* ===== verification/PetitionHandlers.v ===== *)
(** What players ask of petitions (Handlers/PetitionsHandler.cpp). *)

From S2P Require Import Prelude CString GuildBankTypes GuildTypes Petitions Guild GuildMgr GuildHandlers.

Section handlers.
Context {env : GuildEnv} {benv : BankEnv}.

(** [Player::GetItemByGuid]: where the item lies, and its petition. *)
Definition GetItemByGuid (p : GPlayer) (item : Z) : option (Z * Z * Z) :=
  '(pos, i) ← List.find (fun kv => fst (fst (snd kv)) =? item) (map_to_list (pl_items p)); Some (pos, snd i).

(** [creature], [designer]: the petitioner is there and can be talked to, and
    he designs tabards. *)
Definition HandlePetitionBuyOpcode (me : Z) (creature designer : bool) (name : string) (w : GW) : GW :=
  match w_players w !! me with
  | None => w
  | Some self =>
      if negb creature then w
      else if negb designer then w
      else if negb (pl_guildId self =? 0) then w
      else if bool_decide (is_Some (GetPetitionByOwnerGuid w me)) then w
      else if bool_decide (is_Some (GetGuildByName w name))
      then SendGuildCommandResult me GUILD_CREATE_S name ERR_GUILD_NAME_EXISTS_S w
      else if IsReservedName name || negb (IsValidCharterName name)
      then SendGuildCommandResult me GUILD_CREATE_S name ERR_GUILD_NAME_INVALID w
      else match GetItemPrototype GUILD_CHARTER with
      | None => send (PetitionBuyError me 0) w
      | Some _ =>
          if pl_money self <? GUILD_CHARTER_COST then send (PetitionBuyError me 2) w
          else match CanStoreCharter self with
          | inl msg => send (PetitionEquipError me msg) w
          | inr pos =>
              let item := w_itemGuids w in
              let petitionId := m_PetitionIds w in
              let w := set_m_PetitionIds (u32 (petitionId + 1)) (set_w_itemGuids (item + 1) w) in
              let w := upd_player me (fun p => set_pl_items (<[pos := (item, GUILD_CHARTER, petitionId)]> (pl_items p))
                                                 (pl_ModifyMoney (- GUILD_CHARTER_COST) p)) w in
              CreatePetition petitionId me (pl_team self) item name w
          end
      end
  end.

Definition HandlePetitionShowSignOpcode (me item : Z) (w : GW) : GW :=
  match w_players w !! me with
  | None => w
  | Some self =>
      if negb (pl_guildId self =? 0) then w
      else match '(_, id) ← GetItemByGuid self item; p ← GetPetitionById w id; Some (id, p) with
      | None => w
      | Some (id, p) => send (ShowSignatures me item me id (BuildSignatureData p)) w
      end
  end.

Definition HandlePetitionRenameOpcode (me item : Z) (newname : string) (w : GW) : GW :=
  match self ← w_players w !! me; GetItemByGuid self item with
  | None => w
  | Some (_, id) =>
      if bool_decide (is_Some (GetGuildByName w newname))
      then SendGuildCommandResult me GUILD_CREATE_S newname ERR_GUILD_NAME_EXISTS_S w
      else if IsReservedName newname || negb (IsValidCharterName newname)
      then SendGuildCommandResult me GUILD_CREATE_S newname ERR_GUILD_NAME_INVALID w
      else match GetPetitionById w id with
      | None => w
      | Some _ => send (PetitionRenamed me item newname) (Petition_Rename id newname w)
      end
  end.

Definition HandlePetitionSignOpcode (me item : Z) (w : GW) : GW :=
  match self ← w_players w !! me; ip ← GetPetitionByCharterGuid w item; Some (self, ip) with
  | None => w
  | Some (self, (id, petition)) =>
      if IsComplete petition then w
      else if m_ownerGuid petition =? me then send (SignResults me item me PETITION_SIGN_CANT_SIGN_OWN) w
      else if negb cfg_TwoSideGuild && negb (pl_team self =? m_team petition)
      then SendGuildCommandResult me GUILD_CREATE_S "" ERR_GUILD_NOT_ALLIED w
      else if negb (pl_guildId self =? 0) then SendGuildCommandResult me GUILD_INVITE_S (pl_name self) ERR_ALREADY_IN_GUILD_S w
      else if negb (pl_guildIdInvited self =? 0)
      then SendGuildCommandResult me GUILD_INVITE_S (pl_name self) ERR_ALREADY_INVITED_TO_GUILD_S w
      else if 9 <=? GetSignatureCount petition then w
      else match GetSignatureForPlayer petition me (pl_account self) with
      | Some _ =>
          let w := send (SignResults me item me PETITION_SIGN_ALREADY_SIGNED) w in
          match FindPlayer w (m_ownerGuid petition) with
          | Some _ => SendGuildCommandResult (m_ownerGuid petition) GUILD_INVITE_S (pl_name self) ERR_ALREADY_INVITED_TO_GUILD_S w
          | None => w
          end
      | None =>
          let w := drop_signature me w in
          let '(ok, w) := AddNewSignature id me (pl_account self) w in
          if negb ok then w
          else
            let w := send (SignResults me item me PETITION_SIGN_OK) w in
            match FindPlayer w (m_ownerGuid petition) with
            | Some _ => send (SignResults (m_ownerGuid petition) item me PETITION_SIGN_OK) w
            | None => w
            end
      end
  end.

Definition HandlePetitionDeclineOpcode (me item : Z) (w : GW) : GW :=
  match GetPetitionByCharterGuid w item with
  | None => w
  | Some (_, petition) =>
      match FindPlayer w (m_ownerGuid petition) with
      | Some _ => send (PetitionDeclined (m_ownerGuid petition) me) w
      | None => w
      end
  end.

Definition HandleOfferPetitionOpcode (me item g : Z) (w : GW) : GW :=
  match self ← w_players w !! me; player ← FindPlayer w g; Some (self, player) with
  | None => w
  | Some (self, player) =>
      if other_side self player then SendGuildCommandResult me GUILD_CREATE_S "" ERR_GUILD_NOT_ALLIED w
      else if negb (pl_guildId player =? 0) then SendGuildCommandResult me GUILD_INVITE_S (pl_name self) ERR_ALREADY_IN_GUILD_S w
      else if negb (pl_guildIdInvited player =? 0)
      then SendGuildCommandResult me GUILD_INVITE_S (pl_name self) ERR_ALREADY_INVITED_TO_GUILD_S w
      else match '(_, id) ← GetItemByGuid self item; p ← GetPetitionById w id; Some (id, p) with
      | None => w
      | Some (id, p) => send (ShowSignatures g item me id (BuildSignatureData p)) w
      end
  end.

(** The first charter in the bags, by bag and slot. *)
Definition charter_order (a b : Z * Z * (Z * Z * Z)) : Prop :=
  fst (fst a) < fst (fst b) \/ (fst (fst a) = fst (fst b) /\ snd (fst a) <= snd (fst b)).
#[export] Instance charter_order_dec a b : Decision (charter_order a b).
Proof. unfold charter_order. apply _. Defined.
Definition charter_in_bags (p : GPlayer) : option (Z * Z * Z) :=
  '(pos, i) ← head (merge_sort charter_order (List.filter (fun kv =>
     (INVENTORY_SLOT_BAG_START <=? fst (fst kv)) && (fst (fst kv) <? INVENTORY_SLOT_BAG_END) && (snd (fst (snd kv)) =? GUILD_CHARTER))
     (map_to_list (pl_items p))));
  Some (pos, snd i).
Definition turned_in (p : GPlayer) (item : Z) : option (Z * Z * Z) :=
  match GetItemByGuid p item with Some c => Some c | None => charter_in_bags p end.

Definition HandleTurnInPetitionOpcode (me item : Z) (w : GW) : GW :=
  match self ← w_players w !! me; '(pos, id) ← turned_in self item; petition ← GetPetitionById w id; Some (self, pos, petition) with
  | None => w
  | Some (self, pos, petition) =>
      if negb (pl_guildId self =? 0) then send (TurnInResults me PETITION_SIGN_ALREADY_IN_GUILD) w
      else if negb (me =? m_ownerGuid petition) then w
      else if negb (IsComplete petition) then send (TurnInResults me PETITION_SIGN_NEED_MORE) w
      else if bool_decide (is_Some (GetGuildByName w (m_name petition)))
      then SendGuildCommandResult me GUILD_CREATE_S (m_name petition) ERR_GUILD_NAME_EXISTS_S w
      else
        let '(ok, s) := Create_petition petition me w in
        if negb ok then snd s
        else
          let w := DeletePetition petition (AddGuild s) in
          let w := upd_player me (fun p => set_pl_items (delete pos (pl_items p)) p) w in
          send (TurnInResults me PETITION_SIGN_OK) w
  end.
End handlers.
