(* ===== verification/GuildInv.v ===== *)
(** What the invariant of guilds is about - a register of guilds, members, ranks,
    signatures and their rows - and the invariant: index, members, rows, players
    and signatures tell the same story, and every guild has a leader who is its
    only member of rank 0.  Every operation on a guild is an operation on the
    register, or none at all. *)

From S2P Require Import Prelude CString GuildBankTypes GuildTypes Petitions Guild GuildMgr.

Record GView := mkGView { gv_id : Z; gv_name : string; gv_leader : Z; gv_ranks : list RankInfo; gv_members : gmap Z (Z * Z) }.
Record View := mkView {
  v_guilds : gmap Z GView;
  v_index : gmap Z Z;
  v_players : gmap Z (Z * Z);
  v_signs : gmap Z (Z * list Z);
  v_member : gmap Z (Z * Z);
  v_guild : gmap Z (string * Z);
  v_rank : gmap (Z * Z) RankInfo;
  v_ids : Z
}.
Definition slot_view (sl : MemberSlot) : Z * Z := (ms_guid sl, ms_RankId sl).
Definition gview (gu : Guild) : GView := mkGView (m_Id gu) (m_Name gu) (m_LeaderGuid gu) (m_Ranks gu) (slot_view <$> members gu).
Definition player_view (p : GPlayer) : Z * Z := (pl_guildId p, pl_rank p).
Definition petition_view (p : Petition) : Z * list Z := (m_id p, m_playerGuid <$> m_signatures p).
Definition member_view (r : MemberRow) : Z * Z := (mr_guildid r, mr_rank r).
Definition guild_view (r : GuildRow) : string * Z := (gr_name r, gr_leaderguid r).
Definition view (w : GW) : View :=
  mkView (gview <$> m_GuildMap w) (m_guid2guild w) (player_view <$> w_players w) (petition_view <$> m_petitionMap w)
    (member_view <$> db_member (w_db w)) (guild_view <$> db_guild (w_db w)) (db_rank (w_db w)) (m_GuildIds w).

(** A guild in hand counts as registered. *)
Definition hold (id : Z) (gv : GView) (v : View) : View :=
  mkView (<[id := gv]> (v_guilds v)) (v_index v) (v_players v) (v_signs v) (v_member v) (v_guild v) (v_rank v) (v_ids v).
Definition sview (s : GS) : View := hold (m_Id (fst s)) (gview (fst s)) (view (snd s)).
Lemma view_put id s : view (put_guild id s) = hold id (gview (fst s)) (view (snd s)).
Proof. destruct s as [gu w]. unfold view, put_guild, hold. simpl. by rewrite fmap_insert. Qed.
Lemma view_put_own s : view (put_guild (m_Id (fst s)) s) = sview s.
Proof. apply view_put. Qed.
Lemma hold_self w id gu : m_GuildMap w !! id = Some gu -> hold id (gview gu) (view w) = view w.
Proof. intros H. unfold hold, view. simpl. f_equal. apply insert_id. by rewrite lookup_fmap, H. Qed.

(** ** Maps under a projection *)
Lemma fmap_alter_same {A B} (f : A -> B) (h : A -> A) (g : Z) (m : gmap Z A) : (forall a, f (h a) = f a) -> f <$> alter h g m = f <$> m.
Proof.
  intros H. apply map_eq. intros i. rewrite !lookup_fmap. destruct (decide (g = i)) as [->|].
  - rewrite lookup_alter_eq. destruct (m !! i); simpl; [by rewrite H|done].
  - by rewrite lookup_alter_ne.
Qed.
Lemma fmap_alter_as {A B} (f : A -> B) (h : A -> A) (k : B -> B) (g : Z) (m : gmap Z A) :
  (forall a, f (h a) = k (f a)) -> f <$> alter h g m = alter k g (f <$> m).
Proof.
  intros H. apply map_eq. intros i. rewrite lookup_fmap. destruct (decide (g = i)) as [->|].
  - rewrite !lookup_alter_eq, lookup_fmap. destruct (m !! i); simpl; [by rewrite H|done].
  - by rewrite !lookup_alter_ne, lookup_fmap.
Qed.
Lemma fmap_filter_as {A B} (f : A -> B) (P : Z * A -> Prop) (Q : Z * B -> Prop) `{!forall x, Decision (P x)} `{!forall x, Decision (Q x)} (m : gmap Z A) :
  (forall k a, P (k, a) <-> Q (k, f a)) -> f <$> filter P m = filter Q (f <$> m).
Proof.
  intros Hpq. apply map_eq. intros i. rewrite lookup_fmap. apply option_eq. intros b. rewrite map_lookup_filter_Some, lookup_fmap.
  split.
  - intros (a & Ha & ->)%fmap_Some. apply map_lookup_filter_Some in Ha as [-> Ha]. split; [done|]. by apply Hpq.
  - intros [(a & Ha & ->)%fmap_Some Hq]. apply fmap_Some. exists a. split; [|done]. apply map_lookup_filter_Some. split; [done|]. by apply Hpq.
Qed.

(** ** The operations of the register *)
Definition v_upd_members (id : Z) (f : gmap Z (Z * Z) -> gmap Z (Z * Z)) (v : View) : View :=
  mkView (alter (fun gv => mkGView (gv_id gv) (gv_name gv) (gv_leader gv) (gv_ranks gv) (f (gv_members gv))) id (v_guilds v))
    (v_index v) (v_players v) (v_signs v) (v_member v) (v_guild v) (v_rank v) (v_ids v).
Definition v_upd_ranks (id : Z) (f : list RankInfo -> list RankInfo) (t : gmap (Z * Z) RankInfo) (v : View) : View :=
  mkView (alter (fun gv => mkGView (gv_id gv) (gv_name gv) (gv_leader gv) (f (gv_ranks gv)) (gv_members gv)) id (v_guilds v))
    (v_index v) (v_players v) (v_signs v) (v_member v) (v_guild v) t (v_ids v).
(** [here]: the player is in the world. *)
Definition v_set_rank (here : bool) (id g r : Z) (v : View) : View :=
  mkView (v_guilds (v_upd_members id (alter (fun sl => (fst sl, r)) g) v)) (v_index v) (if here then alter (fun p => (fst p, r)) g (v_players v) else v_players v)
    (v_signs v) (alter (fun m => (fst m, r)) g (v_member v)) (v_guild v) (v_rank v) (v_ids v).
Definition v_lead (id g : Z) (v : View) : View :=
  mkView (alter (fun gv => mkGView (gv_id gv) (gv_name gv) g (gv_ranks gv) (gv_members gv)) id (v_guilds v))
    (v_index v) (v_players v) (v_signs v) (v_member v) (alter (fun r => (fst r, g)) id (v_guild v)) (v_rank v) (v_ids v).
Definition v_leave (here : bool) (id g : Z) (v : View) : View :=
  mkView (v_guilds (v_upd_members id (delete g) v)) (delete g (v_index v)) (if here then alter (fun _ => (0, 0)) g (v_players v) else v_players v)
    (v_signs v) (delete g (v_member v)) (v_guild v) (v_rank v) (v_ids v).
Definition v_join (here : bool) (id g r : Z) (v : View) : View :=
  mkView (v_guilds (v_upd_members id (<[g := (g, r)]>) v)) (<[g := id]> (v_index v)) (if here then alter (fun _ => (id, r)) g (v_players v) else v_players v)
    (v_signs v) (insert_row g (id, r) (v_member v)) (v_guild v) (v_rank v) (v_ids v).
Definition v_set_signs (signs : gmap Z (Z * list Z)) (v : View) : View :=
  mkView (v_guilds v) (v_index v) (v_players v) signs (v_member v) (v_guild v) (v_rank v) (v_ids v).
Definition v_set_players (ps : gmap Z (Z * Z)) (v : View) : View :=
  mkView (v_guilds v) (v_index v) ps (v_signs v) (v_member v) (v_guild v) (v_rank v) (v_ids v).
Definition v_erase (id : Z) (v : View) : View :=
  mkView (delete id (v_guilds v)) (v_index v) (v_players v) (v_signs v) (v_member v) (delete id (v_guild v))
    (filter (fun kr => fst (fst kr) <> id) (v_rank v)) (v_ids v).

Lemma alter_hold {f} id gv v : alter f id (v_guilds (hold id gv v)) = <[id := f gv]> (v_guilds v).
Proof. unfold hold. simpl. apply map_eq. intros i. destruct (decide (i = id)) as [->|]; by rewrite ?lookup_alter_eq, ?lookup_alter_ne, ?lookup_insert_eq, ?lookup_insert_ne. Qed.

(** ** What changes nothing the register shows *)
Lemma view_send m w : view (send m w) = view w. Proof. done. Qed.
Lemma sview_event e g l s : sview (BroadcastEvent e g l s) = sview s. Proof. done. Qed.
Lemma sview_db_bank x s : sview (on_world (upd_db (set_db_bank x)) s) = sview s. Proof. done. Qed.
Lemma sview_bank f s : sview (on_bank f s) = sview s.
Proof. unfold on_bank. destruct (_Bank (fst s)) as [b|]; [|done]. unfold run_bank. done. Qed.
Lemma sview_inferno f s : sview (on_inferno f s) = sview s.
Proof. unfold on_inferno. destruct (_InfernoBank (fst s)) as [b|]; [|done]. unfold run_bank. done. Qed.
Lemma mId_bank f s : m_Id (fst (on_bank f s)) = m_Id (fst s).
Proof. unfold on_bank. by destruct (_Bank (fst s)). Qed.
Lemma mId_inferno f s : m_Id (fst (on_inferno f s)) = m_Id (fst s).
Proof. unfold on_inferno. by destruct (_InfernoBank (fst s)). Qed.

Section ops.
Context {env : GuildEnv} {benv : BankEnv}.
Lemma sview_log t a b r s : sview (LogGuildEvent t a b r s) = sview s.
Proof. destruct s as [gu w]. done. Qed.
Lemma sview_guild_row id f s : (forall r, guild_view (f r) = guild_view r) -> sview (on_world (upd_db (sql_guild id f)) s) = sview s.
Proof. intros Hf. unfold sview, hold, view, on_world. simpl. by rewrite (fmap_alter_same guild_view f). Qed.
Lemma sview_motd t s : sview (SetMOTD t s) = sview s.
Proof. exact (sview_guild_row (m_Id (fst s)) (fun r => mkGuildRow (gr_name r) (gr_leaderguid r) (gr_info r) t (gr_createdate r) (gr_emblem r)) s (fun r => eq_refl)). Qed.
Lemma sview_ginfo t s : sview (SetGINFO t s) = sview s.
Proof. exact (sview_guild_row (m_Id (fst s)) (fun r => mkGuildRow (gr_name r) (gr_leaderguid r) t (gr_motd r) (gr_createdate r) (gr_emblem r)) s (fun r => eq_refl)). Qed.
Lemma sview_emblem t s : sview (SetEmblem t s) = sview s.
Proof. exact (sview_guild_row (m_Id (fst s)) (fun r => mkGuildRow (gr_name r) (gr_leaderguid r) (gr_info r) (gr_motd r) (gr_createdate r) t) s (fun r => eq_refl)). Qed.
Lemma sview_upd_member g f s : (forall sl, slot_view (f sl) = slot_view sl) -> sview (on_guild (upd_member g f) s) = sview s.
Proof. intros Hf. unfold sview, gview, on_guild, upd_member. simpl. by rewrite (fmap_alter_same slot_view f). Qed.
Lemma sview_member_row g f s : (forall r, member_view (f r) = member_view r) -> sview (on_world (upd_db (sql_member g f)) s) = sview s.
Proof. intros Hf. unfold sview, hold, view, on_world. simpl. by rewrite (fmap_alter_same member_view f). Qed.
Lemma sview_note g f h s : (forall sl, slot_view (f sl) = slot_view sl) -> (forall r, member_view (h r) = member_view r) ->
  sview (upd_member g f (fst s), upd_db (sql_member g h) (snd s)) = sview s.
Proof. intros Hf Hh. etrans; [exact (sview_upd_member g f (fst s, upd_db (sql_member g h) (snd s)) Hf)|]. exact (sview_member_row g h s Hh). Qed.
Lemma sview_public g t s : sview (SetPublicNote g t s) = sview s.
Proof. unfold SetPublicNote. destruct (GetMemberSlot _ _) as [sl|]; [|done]. destruct (_ =s _); [done|]. by apply sview_note. Qed.
Lemma sview_officer g t s : sview (SetOfficerNote g t s) = sview s.
Proof. unfold SetOfficerNote. destruct (GetMemberSlot _ _) as [sl|]; [|done]. destruct (_ =s _); [done|]. by apply sview_note. Qed.
Lemma view_petition id f w : (forall p, petition_view (f p) = petition_view p) -> view (upd_petition id f w) = view w.
Proof. intros Hf. unfold view. simpl. by rewrite (fmap_alter_same petition_view f). Qed.
Lemma view_player g f w : (forall p, player_view (f p) = player_view p) -> view (upd_player g f w) = view w.
Proof. intros Hf. unfold view. simpl. by rewrite (fmap_alter_same player_view f). Qed.

(** ** What changes it *)
Definition here (w : GW) (g : Z) : bool := bool_decide (is_Some (FindPlayer w g)).
Lemma match_here {A} w g (x y : A) : match FindPlayer w g with Some _ => x | None => y end = if here w g then x else y.
Proof. unfold here. destruct (FindPlayer w g); [by rewrite bool_decide_eq_true_2|rewrite bool_decide_eq_false_2; [done|by intros [? ?]]]. Qed.
Lemma view_players_as g f k w : (forall p, player_view (f p) = k (player_view p)) ->
  view (upd_player g f w) = v_set_players (alter k g (v_players (view w))) (view w).
Proof. intros Hf. unfold view, v_set_players. simpl. by rewrite (fmap_alter_as player_view f k). Qed.

Lemma sview_ChangeRank g r s : sview (ChangeRank g r s) = v_set_rank (here (snd s) g) (m_Id (fst s)) g r (sview s).
Proof.
  destruct s as [gu w]. unfold ChangeRank. rewrite match_here. cbn [fst snd]. unfold v_set_rank, v_upd_members. cbn zeta.
  unfold sview. cbn [fst snd]. rewrite alter_hold. unfold hold, view, gview. simpl.
  rewrite (fmap_alter_as slot_view (set_ms_RankId r) (fun sl => (fst sl, r)) g) by done.
  destruct (here w g); simpl;
    rewrite (fmap_alter_as member_view _ (fun m => (fst m, r)) g) by done; [|done].
  by rewrite (fmap_alter_as player_view (set_pl_rank r) (fun p => (fst p, r)) g).
Qed.
Lemma mId_ChangeRank g r s : m_Id (fst (ChangeRank g r s)) = m_Id (fst s). Proof. done. Qed.
Lemma sview_set_leader g s :
  sview (on_world (upd_db (sql_guild (m_Id (fst s)) (fun r => mkGuildRow (gr_name r) g (gr_info r) (gr_motd r) (gr_createdate r) (gr_emblem r))))
           (on_guild (set_m_LeaderGuid g) s)) = v_lead (m_Id (fst s)) g (sview s).
Proof.
  destruct s as [gu w]. unfold v_lead, sview. cbn [fst snd]. rewrite alter_hold. unfold hold, view, gview. simpl.
  by rewrite (fmap_alter_as guild_view _ (fun r => (fst r, g)) (m_Id gu)).
Qed.
Lemma sview_SetLeader_slot g s :
  sview (SetLeader_slot g s) = v_lead (m_Id (fst s)) g (v_set_rank (here (snd s) g) (m_Id (fst s)) g 0 (sview s)).
Proof. rewrite <- sview_ChangeRank. exact (sview_set_leader g (ChangeRank g GR_GUILDMASTER s)). Qed.
Lemma sview_remove_member g d s : sview (snd (remove_member g d s)) = v_leave (here (snd s) g) (m_Id (fst s)) g (sview s).
Proof.
  destruct s as [gu w]. unfold remove_member. cbn zeta. rewrite match_here.
  set (s2 := on_world (GuildMemberRemoved g) _). assert (here (snd s2) g = here w g) as -> by done. unfold s2. clear s2.
  unfold v_leave, v_upd_members. cbn zeta. unfold sview at 2 3 4 5 6 7 8. cbn [fst snd]. rewrite alter_hold.
  destruct (here w g), d; unfold sview, hold, view, gview; simpl; rewrite !fmap_delete; try done;
    by rewrite (fmap_alter_as player_view _ (fun _ => (0, 0)) g).
Qed.
Lemma mId_remove_member g d s : m_Id (fst (snd (remove_member g d s))) = m_Id (fst s).
Proof. unfold remove_member. cbn zeta. destruct (FindPlayer _ g), d; done. Qed.

Lemma sview_enter_guild g r p sl s : slot_view sl = (g, r) ->
  sview (enter_guild g r p sl s) = v_join (bool_decide (is_Some p)) (m_Id (fst s)) g r (sview s).
Proof.
  intros Hsl. destruct s as [gu w]. unfold enter_guild. cbn zeta. unfold v_join, v_upd_members. cbn zeta.
  unfold sview at 2 3 4 5 6 7 8. cbn [fst snd]. rewrite alter_hold.
  destruct p as [p|]; unfold sview, hold, view, gview; simpl; rewrite !fmap_insert, Hsl, fmap_insert_row; try done.
  by rewrite (fmap_alter_as player_view _ (fun _ => (m_Id gu, r)) g).
Qed.
Lemma mId_enter_guild g r p sl s : m_Id (fst (enter_guild g r p sl s)) = m_Id (fst s).
Proof. unfold enter_guild. by destruct p. Qed.
End ops.

(** The invariant of guilds, on the register above: index, members,
    rows, players and signatures tell the same story, and every guild has a
    leader who is its only member of rank 0. *)

Record gview_ok (gv : GView) : Prop := {
  go_leader : snd <$> gv_members gv !! gv_leader gv = Some 0;
  go_slots : forall g sl, gv_members gv !! g = Some sl -> fst sl = g /\ 0 <= snd sl < 256 /\ (snd sl = 0 -> g = gv_leader gv);
  go_ranks : GUILD_RANKS_MIN_COUNT <= Z.of_nat (length (gv_ranks gv)) <= GUILD_RANKS_MAX_COUNT;
  go_master : ri_Rights <$> head (gv_ranks gv) = Some GR_RIGHT_ALL
}.
Definition v_member_of (v : View) (id g : Z) : Prop := exists gv, v_guilds v !! id = Some gv /\ is_Some (gv_members gv !! g).
Definition rank_row (v : View) (id rid : Z) : option RankInfo :=
  gv ← v_guilds v !! id; if decide (0 <= rid) then gv_ranks gv !! Z.to_nat rid else None.
Definition member_row (v : View) (g : Z) : option (Z * Z) :=
  id ← v_index v !! g; gv ← v_guilds v !! id; sl ← gv_members gv !! g; Some (id, snd sl).
Record reg_base (v : View) : Prop := {
  rb_id : forall id gv, v_guilds v !! id = Some gv -> gv_id gv = id /\ 0 < id < v_ids v;
  rb_index : forall g id, v_index v !! g = Some id <-> v_member_of v id g;
  rb_member : forall g, v_member v !! g = member_row v g;
  rb_row : forall id, v_guild v !! id = (fun gv => (gv_name gv, gv_leader gv)) <$> v_guilds v !! id;
  rb_rank : forall id rid, v_rank v !! (id, rid) = rank_row v id rid;
  rb_players : forall g p id, v_players v !! g = Some p -> v_index v !! g = Some id -> fst p = id;
  rb_pranks : forall g p, v_players v !! g = Some p -> 0 <= snd p < 256;
  rb_keys : forall id pe, v_signs v !! id = Some pe -> fst pe = id;
  rb_signers : forall id pe g, v_signs v !! id = Some pe -> g ∈ snd pe -> v_index v !! g = None;
  rb_once : forall id1 id2 pe1 pe2 n1 n2 g, v_signs v !! id1 = Some pe1 -> v_signs v !! id2 = Some pe2 ->
    snd pe1 !! n1 = Some g -> snd pe2 !! n2 = Some g -> id1 = id2 /\ n1 = n2;
  rb_ids : 0 < v_ids v < 2 ^ 32
}.
Definition guilds_ok (v : View) : Prop := map_Forall (fun _ gv => gview_ok gv) (v_guilds v).
Record reg_ok (v : View) : Prop := { ro_base : reg_base v; ro_guilds : guilds_ok v }.

(** ** Members *)
Definition gv_upd_members (f : gmap Z (Z * Z) -> gmap Z (Z * Z)) (gv : GView) : GView :=
  mkGView (gv_id gv) (gv_name gv) (gv_leader gv) (gv_ranks gv) (f (gv_members gv)).
Lemma guilds_upd_members id f v id' :
  v_guilds (v_upd_members id f v) !! id' = (if decide (id' = id) then gv_upd_members f else fun gv => gv) <$> v_guilds v !! id'.
Proof.
  unfold v_upd_members. simpl. case_decide as Hd; [subst; by rewrite lookup_alter_eq|]. rewrite lookup_alter_ne by congruence. by destruct (_ !! id').
Qed.
Lemma member_of_upd id f v id' g :
  v_member_of (v_upd_members id f v) id' g <->
  exists gv, v_guilds v !! id' = Some gv /\ is_Some ((if decide (id' = id) then f (gv_members gv) else gv_members gv) !! g).
Proof.
  unfold v_member_of. rewrite guilds_upd_members. split.
  - intros (gv & (gv0 & H & ->)%fmap_Some & Hm). exists gv0. split; [done|]. by case_decide.
  - intros (gv & H & Hm). rewrite H. simpl. eexists. split; [reflexivity|]. by case_decide.
Qed.
Lemma rank_row_upd id f v id' rid : rank_row (v_upd_members id f v) id' rid = rank_row v id' rid.
Proof. unfold rank_row. rewrite guilds_upd_members. destruct (v_guilds v !! id'); simpl; [|done]. by repeat case_decide. Qed.
Lemma row_upd id f v id' :
  (fun gv => (gv_name gv, gv_leader gv)) <$> v_guilds (v_upd_members id f v) !! id' = (fun gv => (gv_name gv, gv_leader gv)) <$> v_guilds v !! id'.
Proof. rewrite guilds_upd_members. destruct (v_guilds v !! id'); simpl; [|done]. by case_decide. Qed.
Lemma id_upd id f v id' gv : (forall id gv, v_guilds v !! id = Some gv -> gv_id gv = id /\ 0 < id < v_ids v) ->
  v_guilds (v_upd_members id f v) !! id' = Some gv -> gv_id gv = id' /\ 0 < id' < v_ids v.
Proof. intros H. rewrite guilds_upd_members. intros (gv0 & H0 & ->)%fmap_Some. apply H in H0. by case_decide. Qed.

Lemma set_rank_base b id g r v : reg_base v -> v_index v !! g = Some id -> 0 <= r < 256 -> reg_base (v_set_rank b id g r v).
Proof.
  intros [] Hi Hr. unfold v_set_rank. pose (f := alter (fun sl : Z * Z => (fst sl, r)) g : gmap Z (Z * Z) -> gmap Z (Z * Z)).
  change (v_upd_members id (alter (fun sl => (fst sl, r)) g) v) with (v_upd_members id f v).
  assert (forall gv g', is_Some ((f (gv_members gv)) !! g') <-> is_Some (gv_members gv !! g')) as Hf.
  { intros gv g'. unfold f. destruct (decide (g = g')) as [->|]; [rewrite lookup_alter_eq; apply fmap_is_Some|by rewrite lookup_alter_ne]. }
  assert (forall id' g', v_member_of (v_upd_members id f v) id' g' <-> v_member_of v id' g') as Hm.
  { intros id' g'. rewrite member_of_upd. unfold v_member_of. split; intros (gv & H & Hg); exists gv; (split; [done|]); case_decide; first [done | by apply (proj1 (Hf _ _)) | by apply (proj2 (Hf _ _))]. }
  split; cbn [v_guilds v_index v_players v_signs v_member v_guild v_rank v_ids]; try done.
  - intros id' gv. exact (id_upd id _ v id' gv rb_id0).
  - intros g' id'. rewrite rb_index0, <- Hm. done.
  - intros g'. unfold member_row. cbn [v_guilds v_index]. destruct (decide (g' = g)) as [->|Hne].
    + rewrite lookup_alter_eq, rb_member0. unfold member_row. rewrite Hi. cbn [mbind option_bind].
      rewrite guilds_upd_members, decide_True by done. destruct (v_guilds v !! id) as [gv|]; [|done]. simpl. unfold f.
      rewrite lookup_alter_eq. by destruct (gv_members gv !! g).
    + rewrite lookup_alter_ne, rb_member0 by done. unfold member_row. destruct (v_index v !! g') as [id'|]; [|done]. cbn [mbind option_bind].
      rewrite guilds_upd_members. destruct (v_guilds v !! id') as [gv|]; [|done]. simpl. case_decide; [|done]. simpl. unfold f.
      by rewrite lookup_alter_ne.
  - intros id'. rewrite rb_row0. symmetry. apply row_upd.
  - intros id' rid. rewrite rb_rank0. symmetry. apply (rank_row_upd id f v).
  - intros g' p id' Hp Hi'. destruct b; [|eauto]. destruct (decide (g' = g)) as [->|]; [|rewrite lookup_alter_ne in Hp by done; eauto].
    rewrite lookup_alter_eq in Hp. apply fmap_Some in Hp as (p0 & Hp & ->). simpl. eauto.
  - intros g' p Hp. destruct b; [|eauto]. destruct (decide (g' = g)) as [->|]; [|rewrite lookup_alter_ne in Hp by done; eauto].
    rewrite lookup_alter_eq in Hp. apply fmap_Some in Hp as (p0 & Hp & ->). done.
Qed.

Lemma leave_base b id g v : reg_base v -> v_index v !! g = Some id \/ v_index v !! g = None -> reg_base (v_leave b id g v).
Proof.
  intros [] Hi. unfold v_leave.
  assert (forall id' g', v_member_of (v_upd_members id (delete g) v) id' g' <-> g' <> g /\ v_member_of v id' g') as Hm.
  { intros id' g'. rewrite member_of_upd. unfold v_member_of. split.
    - intros (gv & H & Hg). destruct (decide (g' = g)) as [->|Hne].
      + case_decide as Hd; [rewrite lookup_delete_eq in Hg; by destruct Hg|].
        assert (v_index v !! g = Some id') as E by (apply rb_index0; by exists gv). destruct Hi; congruence.
      + split; [done|]. exists gv. split; [done|]. case_decide; [by rewrite lookup_delete_ne in Hg|done].
    - intros (Hne & gv & H & Hg). exists gv. split; [done|]. case_decide; [by rewrite lookup_delete_ne|done]. }
  split; cbn [v_guilds v_index v_players v_signs v_member v_guild v_rank v_ids]; try done.
  - intros id' gv. exact (id_upd id _ v id' gv rb_id0).
  - intros g' id'. rewrite lookup_delete_Some, rb_index0.
    transitivity (v_member_of (v_upd_members id (delete g) v) id' g'); [|done]. rewrite Hm. split; (intros [H1 H2]; split; [congruence|done]).
  - intros g'. unfold member_row. cbn [v_guilds v_index]. destruct (decide (g' = g)) as [->|Hne]; [by rewrite !lookup_delete_eq|].
    rewrite !lookup_delete_ne, rb_member0 by done. unfold member_row. destruct (v_index v !! g') as [id'|]; [|done]. cbn [mbind option_bind].
    rewrite guilds_upd_members. destruct (v_guilds v !! id') as [gv|]; [|done]. simpl. case_decide; [|done]. simpl.
    by rewrite lookup_delete_ne.
  - intros id'. rewrite rb_row0. symmetry. apply row_upd.
  - intros id' rid. rewrite rb_rank0. symmetry. apply (rank_row_upd id _ v).
  - intros g' p id' Hp [Hne Hi']%lookup_delete_Some. destruct b; [rewrite lookup_alter_ne in Hp by done|]; eauto.
  - intros g' p Hp. destruct b; [|eauto]. destruct (decide (g' = g)) as [->|]; [|rewrite lookup_alter_ne in Hp by done; eauto].
    rewrite lookup_alter_eq in Hp. apply fmap_Some in Hp as (p0 & Hp & ->). simpl. lia.
  - intros id' pe g' Hpe Hg'. apply lookup_delete_None. right. eauto.
Qed.

Lemma join_base b id g r v : reg_base v -> is_Some (v_guilds v !! id) -> v_index v !! g = None ->
  (forall id pe, v_signs v !! id = Some pe -> g ∉ snd pe) -> (b = false -> v_players v !! g = None) -> 0 <= r < 256 ->
  reg_base (v_join b id g r v).
Proof.
  intros [] Hg Hi Hs Hb Hr. unfold v_join.
  assert (forall id' g', v_member_of (v_upd_members id (<[g := (g, r)]>) v) id' g' <-> (g' = g /\ id' = id) \/ (g' <> g /\ v_member_of v id' g')) as Hm.
  { intros id' g'. rewrite member_of_upd. unfold v_member_of. destruct (decide (g' = g)) as [->|Hne].
    - split.
      + intros (gv & H & Hm). case_decide; [by left|]. assert (v_index v !! g = Some id') by (apply rb_index0; by exists gv). congruence.
      + intros [[_ ->]|[? _]]; [|done]. destruct Hg as [gv Hg]. exists gv. split; [done|]. rewrite decide_True by done.
        rewrite lookup_insert_eq. by eexists.
    - split.
      + intros (gv & H & Hm). right. split; [done|]. exists gv. split; [done|]. case_decide; [by rewrite lookup_insert_ne in Hm|done].
      + intros [[? _]|(_ & gv & H & Hm)]; [done|]. exists gv. split; [done|]. case_decide; [by rewrite lookup_insert_ne|done]. }
  split; cbn [v_guilds v_index v_players v_signs v_member v_guild v_rank v_ids]; try done.
  - intros id' gv. exact (id_upd id _ v id' gv rb_id0).
  - intros g' id'. transitivity (v_member_of (v_upd_members id (<[g := (g, r)]>) v) id' g'); [|done]. rewrite Hm, lookup_insert_Some, rb_index0.
    split; (intros [[-> ->]|[H1 H2]]; [by left|right; split; [congruence|done]]).
  - intros g'. unfold member_row. cbn [v_guilds v_index]. assert (v_member v !! g = None) as Hn by (rewrite rb_member0; unfold member_row; by rewrite Hi).
    unfold insert_row. rewrite Hn. destruct (decide (g' = g)) as [->|Hne].
    + rewrite !lookup_insert_eq. cbn [mbind option_bind]. rewrite guilds_upd_members, decide_True by done. destruct Hg as [gv ->]. simpl. by rewrite lookup_insert_eq.
    + rewrite !lookup_insert_ne, rb_member0 by done. unfold member_row. destruct (v_index v !! g') as [id'|]; [|done]. cbn [mbind option_bind].
      rewrite guilds_upd_members. destruct (v_guilds v !! id') as [gv|]; [|done]. simpl. case_decide; [|done]. simpl. by rewrite lookup_insert_ne.
  - intros id'. rewrite rb_row0. symmetry. apply row_upd.
  - intros id' rid. rewrite rb_rank0. symmetry. apply (rank_row_upd id _ v).
  - intros g' p id' Hp Hi'. destruct (decide (g' = g)) as [->|].
    + rewrite lookup_insert_eq in Hi'. injection Hi' as <-. destruct b; [|by rewrite Hb in Hp].
      rewrite lookup_alter_eq in Hp. by apply fmap_Some in Hp as (p0 & Hp & ->).
    + rewrite lookup_insert_ne in Hi' by done. destruct b; [rewrite lookup_alter_ne in Hp by done|]; eauto.
  - intros g' p Hp. destruct b; [|eauto]. destruct (decide (g' = g)) as [->|]; [|rewrite lookup_alter_ne in Hp by done; eauto].
    rewrite lookup_alter_eq in Hp. apply fmap_Some in Hp as (p0 & Hp & ->). done.
  - intros id' pe g' Hpe Hg'. destruct (decide (g' = g)) as [->|]; [by apply Hs in Hpe|]. rewrite lookup_insert_ne by done. eauto.
Qed.

(** ** Leaders, ranks, signatures *)
Lemma lead_base id g v : reg_base v -> reg_base (v_lead id g v).
Proof.
  intros []. unfold v_lead.
  set (h := fun gv => mkGView (gv_id gv) (gv_name gv) g (gv_ranks gv) (gv_members gv)).
  assert (forall id', alter h id (v_guilds v) !! id' = (if decide (id' = id) then h else fun gv => gv) <$> v_guilds v !! id') as Hl.
  { intros id'. case_decide as Hd; [subst; by rewrite lookup_alter_eq|]. rewrite lookup_alter_ne by congruence. by destruct (_ !! id'). }
  split; cbn [v_guilds v_index v_players v_signs v_member v_guild v_rank v_ids]; try done.
  - intros id' gv. rewrite Hl. intros (gv0 & H0 & ->)%fmap_Some. apply rb_id0 in H0. by case_decide.
  - intros g' id'. rewrite rb_index0. unfold v_member_of. simpl. rewrite Hl. split.
    + intros (gv & -> & Hm). eexists. split; [reflexivity|]. by case_decide.
    + intros (gv & (gv0 & H & ->)%fmap_Some & Hm). exists gv0. split; [done|]. by case_decide.
  - intros g'. rewrite rb_member0. unfold member_row. simpl. destruct (v_index v !! g') as [id'|]; [|done]. simpl. rewrite Hl.
    destruct (v_guilds v !! id'); simpl; [|done]. by case_decide.
  - intros id'. rewrite Hl. destruct (decide (id' = id)) as [->|Hne].
    + rewrite lookup_alter_eq, rb_row0. by destruct (v_guilds v !! id).
    + rewrite lookup_alter_ne, rb_row0 by done. by destruct (v_guilds v !! id').
  - intros id' rid. rewrite rb_rank0. unfold rank_row. simpl. rewrite Hl. destruct (v_guilds v !! id'); simpl; [|done]. by repeat case_decide.
Qed.

Lemma ranks_base id f t v : reg_base v ->
  (forall id' rid, t !! (id', rid) = if decide (id' = id) then (gv ← v_guilds v !! id; if decide (0 <= rid) then f (gv_ranks gv) !! Z.to_nat rid else None)
                                 else v_rank v !! (id', rid)) -> reg_base (v_upd_ranks id f t v).
Proof.
  intros [] Ht. unfold v_upd_ranks.
  set (h := fun gv => mkGView (gv_id gv) (gv_name gv) (gv_leader gv) (f (gv_ranks gv)) (gv_members gv)).
  assert (forall id', alter h id (v_guilds v) !! id' = (if decide (id' = id) then h else fun gv => gv) <$> v_guilds v !! id') as Hl.
  { intros id'. case_decide as Hd; [subst; by rewrite lookup_alter_eq|]. rewrite lookup_alter_ne by congruence. by destruct (_ !! id'). }
  split; cbn [v_guilds v_index v_players v_signs v_member v_guild v_rank v_ids]; try done.
  - intros id' gv. rewrite Hl. intros (gv0 & H0 & ->)%fmap_Some. apply rb_id0 in H0. by case_decide.
  - intros g' id'. rewrite rb_index0. unfold v_member_of. simpl. rewrite Hl. split.
    + intros (gv & -> & Hm). eexists. split; [reflexivity|]. by case_decide.
    + intros (gv & (gv0 & H & ->)%fmap_Some & Hm). exists gv0. split; [done|]. by case_decide.
  - intros g'. rewrite rb_member0. unfold member_row. simpl. destruct (v_index v !! g') as [id'|]; [|done]. simpl. rewrite Hl.
    destruct (v_guilds v !! id'); simpl; [|done]. by case_decide.
  - intros id'. rewrite rb_row0, Hl. destruct (v_guilds v !! id'); simpl; [|done]. by case_decide.
  - intros id' rid. rewrite Ht. unfold rank_row. simpl. rewrite Hl. case_decide as Hd; [subst|].
    + by destruct (v_guilds v !! id).
    + rewrite rb_rank0. unfold rank_row. by destruct (v_guilds v !! id').
Qed.

(** Fewer signatures, or one more by somebody who has none. *)
Lemma signs_base signs v : reg_base v -> (forall id pe, signs !! id = Some pe -> fst pe = id) ->
  (forall id pe g, signs !! id = Some pe -> g ∈ snd pe -> v_index v !! g = None) ->
  (forall id1 id2 pe1 pe2 n1 n2 g, signs !! id1 = Some pe1 -> signs !! id2 = Some pe2 ->
    snd pe1 !! n1 = Some g -> snd pe2 !! n2 = Some g -> id1 = id2 /\ n1 = n2) -> reg_base (v_set_signs signs v).
Proof. intros [] H1 H2 H3. by split. Qed.

Lemma unsign_base id n v : reg_base v ->
  reg_base (v_set_signs (alter (fun pe => (fst pe, delete n (snd pe))) id (v_signs v)) v).
Proof.
  intros Hv. pose proof Hv as []. apply signs_base; [done| | |].
  - intros id' pe. destruct (decide (id' = id)) as [->|]; [|rewrite lookup_alter_ne by done; eauto].
    rewrite lookup_alter_eq. intros (pe0 & H & ->)%fmap_Some. simpl. eauto.
  - intros id' pe g. destruct (decide (id' = id)) as [->|]; [|rewrite lookup_alter_ne by done; eauto].
    rewrite lookup_alter_eq. intros (pe0 & H & ->)%fmap_Some. simpl. intros Hg. eapply rb_signers0; [done|].
    rewrite delete_take_drop in Hg. apply elem_of_app in Hg as [Hg|Hg]; [by eapply subseteq_take|by eapply subseteq_drop].
  - set (k := fun id' n' => if decide (id' = id) then if decide (n' < n)%nat then n' else S n' else n' : nat).
    assert (forall id' pe n' g, alter (fun pe => (fst pe, delete n (snd pe))) id (v_signs v) !! id' = Some pe -> snd pe !! n' = Some g ->
      exists pe0, v_signs v !! id' = Some pe0 /\ snd pe0 !! k id' n' = Some g) as Hk.
    { intros id' pe n' g. unfold k. case_decide as Hd; [subst|rewrite lookup_alter_ne by congruence; eauto].
      rewrite lookup_alter_eq. intros (pe0 & H & ->)%fmap_Some. simpl. exists pe0. split; [done|].
      case_decide; [by rewrite list_lookup_delete_lt in * by done|by rewrite list_lookup_delete_ge in * by lia]. }
    intros id1 id2 pe1 pe2 n1 n2 g H1 H2 Hn1 Hn2. destruct (Hk _ _ _ _ H1 Hn1) as (q1 & Q1 & K1). destruct (Hk _ _ _ _ H2 Hn2) as (q2 & Q2 & K2).
    destruct (rb_once0 _ _ _ _ _ _ _ Q1 Q2 K1 K2) as [-> E]. split; [done|]. unfold k in E. repeat case_decide; lia.
Qed.
