(* ===== verification/GuildEffects.v ===== *)
(** What the operations on a guild do to the register: the guild in hand keeps
    its number, the other guilds stay as they are, and the register stays
    consistent. *)

From S2P Require Import Prelude CString GuildBankTypes GuildBank GuildBankRequests GuildTypes Petitions Guild GuildMgr GuildInv.

(** ** Founding and erasing a guild *)
Definition v_found (id : Z) (name : string) (leader : Z) (v : View) : View :=
  mkView (<[id := mkGView id name leader [] ∅]> (v_guilds v)) (v_index v) (v_players v) (v_signs v) (v_member v)
    (<[id := (name, leader)]> (v_guild v)) (v_rank v) (id + 1).
Lemma found_base name leader v : reg_base v -> v_ids v + 1 < 2 ^ 32 -> reg_base (v_found (v_ids v) name leader v).
Proof.
  intros [] Hids. unfold v_found. set (id := v_ids v) in *. assert (v_guilds v !! id = None) as Hn.
  { destruct (v_guilds v !! id) as [gv|] eqn:E; [|done]. apply rb_id in E. lia. }
  assert (forall id' gv, v_guilds v !! id' = Some gv -> id' <> id) as Hne by congruence.
  split; cbn [v_guilds v_index v_players v_signs v_member v_guild v_rank v_ids]; try done.
  - intros id' gv [[<- <-]|[? H]]%lookup_insert_Some; simpl; [lia|]. apply rb_id in H. lia.
  - intros g id'. rewrite rb_index. unfold v_member_of. simpl. split.
    + intros (gv & H & Hm). exists gv. rewrite lookup_insert_ne by (symmetry; eauto). done.
    + intros (gv & [[<- <-]|[? H]]%lookup_insert_Some & Hm); [by destruct Hm|eauto].
  - intros g. rewrite rb_member. unfold member_row. simpl. destruct (v_index v !! g) as [id'|] eqn:E; [|done]. simpl.
    apply rb_index in E as (gv & H & _). rewrite lookup_insert_ne by (symmetry; eauto). done.
  - intros id'. destruct (decide (id' = id)) as [->|]; [by rewrite !lookup_insert_eq|by rewrite !lookup_insert_ne].
  - intros id' rid. rewrite rb_rank. unfold rank_row. simpl. destruct (decide (id' = id)) as [->|].
    + rewrite lookup_insert_eq, Hn. simpl. by case_decide.
    + by rewrite lookup_insert_ne.
  - lia.
Qed.
Lemma erase_base id v : reg_base v -> (forall gv, v_guilds v !! id = Some gv -> gv_members gv = ∅) -> reg_base (v_erase id v).
Proof.
  intros [] He. unfold v_erase.
  assert (forall id' g, v_member_of v id' g -> id' <> id) as Hne by (intros id' g (gv & H & Hm) ->; rewrite (He _ H) in Hm; by destruct Hm).
  split; cbn [v_guilds v_index v_players v_signs v_member v_guild v_rank v_ids]; try done.
  - intros id' gv [_ H]%lookup_delete_Some. eauto.
  - intros g id'. rewrite rb_index. unfold v_member_of. simpl. split.
    + intros Hm. pose proof (Hne _ _ Hm). destruct Hm as (gv & Hgv & Hm). exists gv. by rewrite lookup_delete_ne.
    + intros (gv & [_ H]%lookup_delete_Some & Hm). eauto.
  - intros g. rewrite rb_member. unfold member_row. simpl. destruct (v_index v !! g) as [id'|] eqn:E; [|done]. simpl.
    apply rb_index, Hne in E. by rewrite lookup_delete_ne.
  - intros id'. destruct (decide (id' = id)) as [->|]; [by rewrite !lookup_delete_eq|by rewrite !lookup_delete_ne].
  - intros id' rid. unfold rank_row. simpl. destruct (decide (id' = id)) as [->|Hd].
    + rewrite lookup_delete_eq. simpl. apply map_lookup_filter_None. right. simpl. intros ? _ H. by apply H.
    + rewrite lookup_delete_ne by done. etrans; [|apply rb_rank]. apply option_eq. intros x. rewrite map_lookup_filter_Some. simpl. naive_solver.
Qed.

(** ** A guild in hand *)
Definition same_others (id : Z) (v v' : View) : Prop := forall id', id' <> id -> v_guilds v' !! id' = v_guilds v !! id'.
Record hand_ok (s : GS) : Prop := {
  ho_base : reg_base (sview s);
  ho_others : forall id gv, id <> m_Id (fst s) -> v_guilds (sview s) !! id = Some gv -> gview_ok gv
}.
Lemma reg_ok_hand s : reg_ok (sview s) <-> hand_ok s /\ gview_ok (gview (fst s)).
Proof.
  assert (v_guilds (sview s) !! m_Id (fst s) = Some (gview (fst s))) as Hs by (unfold sview, hold; simpl; apply lookup_insert_eq). split.
  - intros [Hb Hg]. split; [split; [done|]|]; [intros id gv _; apply Hg|exact (Hg _ _ Hs)].
  - intros [[Hb Ho] Hg]. split; [done|]. intros id gv H. destruct (decide (id = m_Id (fst s))) as [->|]; [congruence|eauto].
Qed.
Lemma in_hand s : v_guilds (sview s) !! m_Id (fst s) = Some (gview (fst s)).
Proof. unfold sview, hold. simpl. apply lookup_insert_eq. Qed.

(** Going on with the same guild. *)
Lemma hand_step s s' : hand_ok s -> m_Id (fst s') = m_Id (fst s) -> same_others (m_Id (fst s)) (sview s) (sview s') ->
  (reg_base (sview s) -> reg_base (sview s')) -> hand_ok s'.
Proof. intros [Hb Ho] Hid Hs Hr. split; [auto|]. rewrite Hid. intros id gv Hne. rewrite Hs by done. eauto. Qed.
Lemma hand_frame s s' : sview s' = sview s -> m_Id (fst s') = m_Id (fst s) -> hand_ok s -> hand_ok s'.
Proof. intros Hv Hid Hs. apply (hand_step s); [done..| |]; by rewrite Hv. Qed.
Lemma others_upd_members id f v : same_others id v (v_upd_members id f v).
Proof. intros id' Hne. rewrite guilds_upd_members, decide_False by done. by destruct (_ !! _). Qed.
Lemma others_alter id f v g : same_others id v g -> same_others id v (mkView (alter f id (v_guilds g)) (v_index g) (v_players g) (v_signs g) (v_member g) (v_guild g) (v_rank g) (v_ids g)).
Proof. intros H id' Hne. simpl. rewrite lookup_alter_ne by done. by apply H. Qed.

(** The guild is known by its slots and by the index. *)
Definition member_slot (gu : Guild) (g : Z) : option (Z * Z) := gv_members (gview gu) !! g.
Lemma hand_member s g : hand_ok s -> is_Some (member_slot (fst s) g) -> m_guid2guild (snd s) !! g = Some (m_Id (fst s)).
Proof. intros [Hb _] Hm. apply (rb_index _ Hb g). exists (gview (fst s)). split; [apply in_hand|done]. Qed.

Section effects.
Context {env : GuildEnv} {benv : BankEnv}.

(** ** Ranks of members, the leader *)
Lemma ChangeRank_hand g r s : hand_ok s -> is_Some (member_slot (fst s) g) -> 0 <= r < 256 -> hand_ok (ChangeRank g r s).
Proof.
  intros Hs Hm Hr. pose proof (hand_member _ _ Hs Hm). apply (hand_step s); [done..| |]; rewrite sview_ChangeRank.
  - exact (others_upd_members _ _ _).
  - intros Hb. by apply set_rank_base.
Qed.
Lemma gview_ChangeRank g r s : gview (fst (ChangeRank g r s)) = gv_upd_members (alter (fun sl => (fst sl, r)) g) (gview (fst s)).
Proof. unfold ChangeRank, gview, gv_upd_members. simpl. f_equal. by apply fmap_alter_as. Qed.
Lemma SetLeader_hand g s : hand_ok s -> is_Some (member_slot (fst s) g) -> hand_ok (SetLeader_slot g s).
Proof.
  intros Hs Hm. pose proof (hand_member _ _ Hs Hm). apply (hand_step s); [done..| |]; rewrite sview_SetLeader_slot.
  - apply (others_alter _ _ _ (v_set_rank _ _ _ _ _)). exact (others_upd_members _ _ _).
  - intros Hb. apply lead_base. by apply set_rank_base.
Qed.
Lemma gview_SetLeader g s : gview (fst (SetLeader_slot g s)) =
  let gv := gv_upd_members (alter (fun sl => (fst sl, 0)) g) (gview (fst s)) in
  mkGView (gv_id gv) (gv_name gv) g (gv_ranks gv) (gv_members gv).
Proof. unfold SetLeader_slot, gview, gv_upd_members. simpl. f_equal. by apply fmap_alter_as. Qed.

(** News change nothing. *)
Lemma hand_news e g strs s : hand_ok s -> hand_ok (BroadcastEvent e g strs s).
Proof. by apply hand_frame. Qed.
(** A change of leadership leaves a good guild good. *)
Lemma alter_slot (m : gmap Z (Z * Z)) g r g' : (alter (fun sl : Z * Z => (fst sl, r)) g m) !! g' =
  (fun sl => if decide (g' = g) then (fst sl, r) else sl) <$> m !! g'.
Proof. destruct (decide (g' = g)) as [->|]; [by rewrite lookup_alter_eq|]. rewrite lookup_alter_ne by done. by destruct (m !! g'). Qed.
Lemma new_leader_ok new s : hand_ok s -> gview_ok (gview (fst s)) -> is_Some (member_slot (fst s) new) -> new <> m_LeaderGuid (fst s) ->
  hand_ok (SetNewLeader_slots new (Some (m_LeaderGuid (fst s))) s) /\ gview_ok (gview (fst (SetNewLeader_slots new (Some (m_LeaderGuid (fst s))) s))).
Proof.
  intros Hs [Hl Hm Hr Ho] Hn Hne. unfold SetNewLeader_slots. set (old := m_LeaderGuid (fst s)) in *. split.
  - apply hand_news, ChangeRank_hand; [by apply SetLeader_hand| |done].
    unfold member_slot. rewrite gview_SetLeader. cbn [gv_members gv_upd_members]. rewrite alter_slot. apply fmap_is_Some.
    change (gv_leader (gview (fst s))) with old in Hl. destruct (gv_members _ !! old); [done|by simplify_eq].
  - change (gview_ok (gview (fst (ChangeRank old GR_OFFICER (SetLeader_slot new s))))). rewrite gview_ChangeRank, gview_SetLeader.
    cbn zeta. split; cbn [gv_leader gv_members gv_ranks gv_upd_members gv_id gv_name]; try done.
    + rewrite !alter_slot. destruct Hn as [sl Hn]. unfold member_slot in Hn. rewrite Hn. simpl. by rewrite decide_False, decide_True.
    + intros g sl. rewrite !alter_slot. intros (sl1 & (sl0 & H & ->)%fmap_Some & ->)%fmap_Some. apply Hm in H as (H1 & H2 & H3).
      change (gv_leader (gview (fst s))) with old in H3. repeat case_decide; simpl; unfold GR_OFFICER; repeat split; auto; lia.
Qed.
Lemma mId_new_leader new old s : m_Id (fst (SetNewLeader_slots new old s)) = m_Id (fst s).
Proof. by destruct old. Qed.

Lemma leader_new_leader new old s : m_LeaderGuid (fst (SetNewLeader_slots new old s)) = new.
Proof. by destruct old. Qed.
Lemma index_ChangeRank g r s : m_guid2guild (snd (ChangeRank g r s)) = m_guid2guild (snd s).
Proof. unfold ChangeRank. by destruct (FindPlayer _ _). Qed.
Lemma index_new_leader new old s : m_guid2guild (snd (SetNewLeader_slots new old s)) = m_guid2guild (snd s).
Proof.
  destruct old as [old|]; cbn [SetNewLeader_slots].
  - etrans; [exact (index_ChangeRank old GR_OFFICER (SetLeader_slot new s))|exact (index_ChangeRank new 0 s)].
  - exact (index_ChangeRank new 0 s).
Qed.

(** ** Leaving *)
Lemma remove_hand g d s : hand_ok s -> m_guid2guild (snd s) !! g = Some (m_Id (fst s)) \/ m_guid2guild (snd s) !! g = None ->
  hand_ok (snd (remove_member g d s)).
Proof.
  intros Hs Hi. apply (hand_step s); [done|by apply mId_remove_member| |]; rewrite sview_remove_member.
  - exact (others_upd_members _ _ _).
  - intros Hb. by apply leave_base.
Qed.
Lemma gview_remove g d s : gview (fst (snd (remove_member g d s))) = gv_upd_members (delete g) (gview (fst s)).
Proof. unfold remove_member. cbn zeta. rewrite match_here. destruct (here _ _), d; unfold gview, gv_upd_members; simpl; f_equal; apply fmap_delete. Qed.
Lemma leave_ok g gv : gview_ok gv -> g <> gv_leader gv -> gview_ok (gv_upd_members (delete g) gv).
Proof.
  intros [Hl Hm Hr Ho] Hne. split; simpl; try done; [by rewrite lookup_delete_ne|]. intros g' sl [_ H]%lookup_delete_Some. by apply Hm.
Qed.

(** Nobody but the leader, or somebody to follow him. *)
Lemma best_slot_in l b best : foldl better_slot b l = Some best -> b = Some best \/ best ∈ l.
Proof.
  revert b. induction l as [|x l IH]; simpl; intros b Hb; [by left|]. apply IH in Hb as [Hb|Hb]; [|right; by apply list_elem_of_further].
  unfold better_slot in Hb. destruct b as [b|]; [case_match|]; simplify_eq; first [by left|by right; apply list_elem_of_here].
Qed.
Lemma best_slot_none l b : foldl better_slot b l = None -> b = None /\ l = [].
Proof.
  revert b. induction l as [|x l IH]; simpl; intros b Hb; [done|]. apply IH in Hb as [Hb ->].
  unfold better_slot in Hb. destruct b as [b|]; [case_match|]; done.
Qed.
Lemma member_slot_members gu g : is_Some (member_slot gu g) <-> is_Some (members gu !! g).
Proof. unfold member_slot. simpl. rewrite lookup_fmap. apply fmap_is_Some. Qed.
Lemma GetSuitableNewLeader_spec gu best old : GetSuitableNewLeader false gu = (best, old) ->
  match best with
  | Some b => b <> m_LeaderGuid gu /\ is_Some (member_slot gu b)
  | None => forall g, is_Some (member_slot gu g) -> g = m_LeaderGuid gu
  end /\ (is_Some (member_slot gu (m_LeaderGuid gu)) -> old = Some (m_LeaderGuid gu)).
Proof.
  unfold GetSuitableNewLeader. cbn zeta. set (l := List.filter _ _). assert (forall gs, gs ∈ l <-> members gu !! fst gs = Some (snd gs) /\ fst gs <> m_LeaderGuid gu) as Hl.
  { intros [g sl]. unfold l. rewrite list_elem_of_In, filter_In, <- list_elem_of_In, members_order_ok, elem_of_map_to_list. simpl.
    rewrite negb_true_iff, Z.eqb_neq. done. }
  intros [= <- <-]. split.
  - destruct (foldl better_slot None l) as [[g sl]|] eqn:E; simpl.
    + apply best_slot_in in E as [|E]; [done|]. apply Hl in E as [H1 H2]. split; [done|]. apply member_slot_members. eauto.
    + apply best_slot_none in E as [_ E]. intros g [sl H]%member_slot_members. destruct (decide (g = m_LeaderGuid gu)); [done|].
      assert ((g, sl) ∈ l) as Hin by (by apply Hl). rewrite E in Hin. by apply not_elem_of_nil in Hin.
  - intros [sl H]%member_slot_members. unfold GetMemberSlot. by rewrite H.
Qed.

Lemma gview_members_empty gu : members gu = ∅ -> gv_members (gview gu) = ∅.
Proof. intros H. simpl. rewrite H. apply fmap_empty. Qed.
Lemma pair_snd {A B} (x : A * B) a b : x = (a, b) -> b = snd x.
Proof. by intros ->. Qed.
Lemma remove_after_news e strs g g' d s : hand_ok s -> gview_ok (gview (fst s)) -> g <> m_LeaderGuid (fst s) ->
  m_guid2guild (snd s) !! g = Some (m_Id (fst s)) \/ m_guid2guild (snd s) !! g = None ->
  let s' := snd (remove_member g d (BroadcastEvent e g' strs s)) in
  m_Id (fst s') = m_Id (fst s) /\ reg_ok (sview s').
Proof.
  intros Hs Hg Hne Hi. cbv zeta. split; [by rewrite mId_remove_member|]. apply reg_ok_hand. split.
  - apply remove_hand; [by apply hand_news|exact Hi].
  - rewrite gview_remove. by apply leave_ok.
Qed.
(** A member goes: the guild is still good, or it has to be disbanded. *)
Lemma DelMember_ok g s gone s' : reg_ok (sview s) -> m_guid2guild (snd s) !! g = Some (m_Id (fst s)) \/ m_guid2guild (snd s) !! g = None ->
  DelMember g false s = (gone, s') -> m_Id (fst s') = m_Id (fst s) /\ reg_ok (sview s').
Proof.
  intros [Hs Hg]%reg_ok_hand Hi. unfold DelMember. rewrite andb_true_r. destruct (Z.eqb_spec (m_LeaderGuid (fst s)) g) as [<-|Hne].
  - destruct (GetSuitableNewLeader false (fst s)) as [best old] eqn:E. apply GetSuitableNewLeader_spec in E as [Hb Ho].
    destruct best as [best|]; [|intros [= <- <-]; split; [done|by apply reg_ok_hand]].
    destruct Hb as [Hne Hm]. rewrite Ho by (apply (fmap_is_Some snd); exists 0; exact (go_leader _ Hg)).
    destruct (new_leader_ok best s Hs Hg Hm Hne) as [Hs2 Hg2]. intros ->%pair_snd.
    rewrite <- (mId_new_leader best (Some (m_LeaderGuid (fst s))) s).
    apply remove_after_news; [done..|by rewrite leader_new_leader|by rewrite index_new_leader, mId_new_leader].
  - intros ->%pair_snd. split; [by rewrite mId_remove_member|]. apply reg_ok_hand. split; [by apply remove_hand|].
    rewrite gview_remove. apply leave_ok; [done|]. intros ->. by apply Hne.
Qed.

(** ** Disbanding *)
Lemma index_remove g d s : m_guid2guild (snd (snd (remove_member g d s))) = delete g (m_guid2guild (snd s)).
Proof. exact (f_equal v_index (sview_remove_member g d s)). Qed.
Lemma DelMember_disbanding g s : snd (DelMember g true s) = snd (remove_member g true s).
Proof. unfold DelMember. by rewrite andb_false_r. Qed.
Definition leave_all (l : list (Z * MemberSlot)) (s : GS) : GS := foldl (fun s gs => snd (DelMember (fst gs) true s)) s l.
Lemma leave_all_hand l s : hand_ok s ->
  (forall gs, gs ∈ l -> m_guid2guild (snd s) !! fst gs = Some (m_Id (fst s)) \/ m_guid2guild (snd s) !! fst gs = None) ->
  hand_ok (leave_all l s) /\ m_Id (fst (leave_all l s)) = m_Id (fst s) /\
  forall g, member_slot (fst (leave_all l s)) g = if bool_decide (g ∈ fst <$> l) then None else member_slot (fst s) g.
Proof.
  revert s. induction l as [|gs l IH]; intros s Hs Hi; [done|]. unfold leave_all. cbn [foldl].
  rewrite DelMember_disbanding. set (s2 := snd (remove_member (fst gs) true s)). change (foldl _ s2 l) with (leave_all l s2).
  assert (hand_ok s2) as Hs2 by (apply remove_hand; [done|]; apply Hi, list_elem_of_here).
  assert (m_Id (fst s2) = m_Id (fst s)) as Hid by apply mId_remove_member.
  destruct (IH s2) as (H1 & H2 & H3); [done| |].
  - intros gs' Hin. rewrite Hid. unfold s2. rewrite index_remove. destruct (decide (fst gs' = fst gs)) as [->|]; [right; apply lookup_delete_eq|].
    rewrite lookup_delete_ne by done. by apply Hi, list_elem_of_further.
  - split; [done|]. split; [by rewrite H2|]. intros g. rewrite H3. unfold member_slot, s2. rewrite gview_remove. simpl.
    case_bool_decide as Hd; [rewrite bool_decide_eq_true_2; [done|by apply list_elem_of_further]|].
    destruct (decide (g = fst gs)) as [->|Hne]; [rewrite bool_decide_eq_true_2 by apply list_elem_of_here; apply lookup_delete_eq|].
    rewrite bool_decide_eq_false_2 by (rewrite elem_of_cons; naive_solver). by rewrite lookup_delete_ne.
Qed.
Definition everybody_left (s : GS) : GS := leave_all (members_order (members (fst s))) s.
Lemma everybody_left_hand s : hand_ok s -> hand_ok (everybody_left s) /\ m_Id (fst (everybody_left s)) = m_Id (fst s) /\
  gv_members (gview (fst (everybody_left s))) = ∅.
Proof.
  intros Hs. assert (forall g, g ∈ fst <$> members_order (members (fst s)) <-> is_Some (member_slot (fst s) g)) as Hin.
  { intros g. rewrite member_slot_members, members_order_ok, list_elem_of_fmap. split.
    - intros ([g' sl] & -> & H%elem_of_map_to_list). eauto.
    - intros [sl H]. exists (g, sl). by rewrite elem_of_map_to_list. }
  destruct (leave_all_hand (members_order (members (fst s))) s Hs) as (H1 & H2 & H3).
  - intros gs Hgs. left. apply hand_member; [done|]. apply Hin, list_elem_of_fmap. eauto.
  - split; [done|]. split; [done|]. apply map_eq. intros g. rewrite lookup_empty. etrans; [apply H3|]. case_bool_decide as Hd; [done|].
    rewrite Hin in Hd. by apply eq_None_not_Some.
Qed.
Definition v_unregister (id : Z) (v : View) : View :=
  mkView (delete id (v_guilds v)) (v_index v) (v_players v) (v_signs v) (v_member v) (v_guild v) (v_rank v) (v_ids v).
Lemma view_unregister s : view (RemoveGuild (m_Id (fst s)) (snd s)) = v_unregister (m_Id (fst s)) (sview s).
Proof. unfold v_unregister, sview, hold, view. simpl. by rewrite delete_insert_eq, fmap_delete. Qed.
Lemma view_Disband s : view (snd (Disband s)) = v_erase (m_Id (fst s)) (sview (everybody_left (BroadcastEvent GE_DISBANDED 0 [] s))).
Proof.
  unfold Disband. cbn zeta. set (s1 := BroadcastEvent _ _ _ s). change (foldl _ s1 _) with (everybody_left s1). set (s2 := everybody_left s1).
  assert (m_Id (fst s2) = m_Id (fst s)) as Hid.
  { unfold s2, everybody_left, leave_all. change (m_Id (fst s)) with (m_Id (fst s1)). generalize (members_order (members (fst s1))). intros l. generalize s1.
    induction l as [|gs l IH]; intros t; [done|]. cbn [foldl]. rewrite IH, DelMember_disbanding. apply mId_remove_member. }
  set (s3 := on_world _ s2). set (s4 := on_inferno _ _).
  assert (sview s4 = sview s3 /\ m_Id (fst s4) = m_Id (fst s)) as [Hv Hid4].
  { split; unfold s4; [by rewrite sview_inferno, sview_bank|by rewrite mId_inferno, mId_bank]. }
  rewrite Hid4. transitivity (v_unregister (m_Id (fst s)) (sview s4)); [rewrite <- Hid4; apply view_unregister|].
  rewrite Hv. unfold v_unregister, v_erase, s3, sview, hold, view, on_world. simpl. rewrite Hid, fmap_delete.
  by rewrite (delete_insert_eq (gview <$> m_GuildMap s2.2)).
Qed.
Lemma Disband_ok s : hand_ok s -> reg_ok (view (snd (Disband s))).
Proof.
  intros Hs. rewrite view_Disband. set (s1 := BroadcastEvent _ _ _ s). assert (hand_ok s1) as Hs1 by (by apply (hand_frame s)).
  destruct (everybody_left_hand s1 Hs1) as ([Hb Ho] & Hid & He). change (m_Id (fst s)) with (m_Id (fst s1)). rewrite <- Hid. split.
  - apply erase_base; [done|]. intros gv. rewrite in_hand. by intros [= <-].
  - intros id gv. cbn [v_guilds v_erase]. intros [Hne H]%lookup_delete_Some. by apply (Ho id).
Qed.

(** ** Ranks *)
Lemma sview_ranks f t s gu w : gu = set_m_Ranks (f (m_Ranks (fst s))) (fst s) -> view w = view (upd_db (set_db_rank t) (snd s)) ->
  sview (gu, w) = v_upd_ranks (m_Id (fst s)) f t (sview s).
Proof. intros -> Hw. unfold sview. simpl. rewrite Hw. unfold v_upd_ranks. rewrite alter_hold. done. Qed.

Lemma ranks_hand f t s s' : hand_ok s -> m_Id (fst s') = m_Id (fst s) -> sview s' = v_upd_ranks (m_Id (fst s)) f t (sview s) ->
  (forall id rid, t !! (id, rid) = if decide (id = m_Id (fst s)) then if decide (0 <= rid) then f (m_Ranks (fst s)) !! Z.to_nat rid else None
                               else db_rank (w_db (snd s)) !! (id, rid)) -> hand_ok s'.
Proof.
  intros Hs Hid Hv Ht. apply (hand_step s); [done|done|rewrite Hv; intros id Hne; simpl; by rewrite lookup_alter_ne|].
  rewrite Hv. intros Hb. apply ranks_base; [done|]. intros id rid. rewrite Ht, in_hand. done.
Qed.
Lemma rank_row_hand s rid : hand_ok s -> db_rank (w_db (snd s)) !! (m_Id (fst s), rid) =
  if decide (0 <= rid) then m_Ranks (fst s) !! Z.to_nat rid else None.
Proof. intros [Hb _]. change (db_rank (w_db (snd s))) with (v_rank (sview s)). rewrite (rb_rank _ Hb). unfold rank_row. by rewrite in_hand. Qed.

Lemma CreateRank_hand name rights s : hand_ok s -> hand_ok (CreateRank name rights s).
Proof.
  intros Hs. unfold CreateRank. cbn zeta. destruct (Z.leb_spec GUILD_RANKS_MAX_COUNT (GetRanksSize (fst s))); [done|].
  set (r := mkRank name rights). set (n := GetRanksSize (fst s)).
  apply (ranks_hand (fun l => l ++ [r]) (insert_row (m_Id (fst s), n) r (db_rank (w_db (snd s)))) s); [done|done| |].
  - by apply sview_ranks.
  - assert (db_rank (w_db (snd s)) !! (m_Id (fst s), n) = None) as Hn.
    { rewrite rank_row_hand by done. unfold n, GetRanksSize. case_decide; [|done]. rewrite Nat2Z.id. by apply lookup_ge_None_2. }
    intros id rid. unfold insert_row. rewrite Hn. destruct (decide ((id, rid) = (m_Id (fst s), n))) as [[= -> ->]|Hne].
    + rewrite lookup_insert_eq, !decide_True by (unfold n, GetRanksSize; lia). unfold n, GetRanksSize. by rewrite Nat2Z.id, list_lookup_middle.
    + rewrite lookup_insert_ne by done. case_decide as Hd; [subst|done]. rewrite rank_row_hand by done. case_decide as Hr; [|done].
      assert (rid <> n) by congruence. destruct (decide (rid < n)); unfold n, GetRanksSize in *.
      * by rewrite lookup_app_l by lia.
      * rewrite !lookup_ge_None_2; [done| |lia]. rewrite length_app. simpl. lia.
Qed.
Lemma sql_rank_hand rid (f : RankInfo -> RankInfo) s : hand_ok s -> 0 <= rid < GetRanksSize (fst s) ->
  hand_ok (set_m_Ranks (alter f (Z.to_nat rid) (m_Ranks (fst s))) (fst s), upd_db (sql_rank (m_Id (fst s)) rid f) (snd s)).
Proof.
  intros Hs Hr. apply (ranks_hand (alter f (Z.to_nat rid)) (alter f (m_Id (fst s), rid) (db_rank (w_db (snd s)))) s); [done|done| |].
  - by apply sview_ranks.
  - intros id rid'. destruct (decide ((id, rid') = (m_Id (fst s), rid))) as [[= -> ->]|Hne].
    + rewrite lookup_alter_eq, !decide_True, rank_row_hand, decide_True by (done || lia). by rewrite list_lookup_alter_eq.
    + rewrite lookup_alter_ne by done. case_decide as Hd; [subst|done]. rewrite rank_row_hand by done. case_decide; [|done].
      rewrite list_lookup_alter_ne; [done|]. intros E%Z2Nat.inj; [congruence|lia..].
Qed.
Lemma SetRankName_hand rid name s : hand_ok s -> 0 <= rid -> hand_ok (SetRankName rid name s).
Proof. intros Hs Hr. unfold SetRankName. cbn zeta. destruct (Z.leb_spec (GetRanksSize (fst s)) rid); [done|]. by apply sql_rank_hand. Qed.
Lemma SetRankRights_hand rid rights s : hand_ok s -> 0 <= rid -> hand_ok (SetRankRights rid rights s).
Proof. intros Hs Hr. unfold SetRankRights. cbn zeta. destruct (Z.leb_spec (GetRanksSize (fst s)) rid); [done|]. by apply sql_rank_hand. Qed.

Lemma sview_set_ranks f s : sview (on_guild (fun gu => set_m_Ranks (f (m_Ranks gu)) gu) s) =
  v_upd_ranks (m_Id (fst s)) f (v_rank (sview s)) (sview s).
Proof. destruct s as [gu w]. by apply sview_ranks. Qed.
Lemma DelRank_hand s : hand_ok s -> GetRanksSize (fst s) <= GUILD_RANKS_MAX_COUNT -> hand_ok (DelRank s).
Proof.
  intros Hs Hmax. unfold DelRank. cbn zeta. destruct (Z.leb_spec (GetRanksSize (fst s)) GUILD_RANKS_MIN_COUNT) as [|Hmin]; [done|].
  set (rank := GetLowestRank (fst s)). unfold GUILD_RANKS_MIN_COUNT, GUILD_RANKS_MAX_COUNT, GetRanksSize in *.
  assert (rank = Z.of_nat (length (m_Ranks (fst s))) - 1) as Hrank by (apply Z.mod_small; lia).
  set (s1 := on_world _ s). set (s2 := on_inferno _ _). pose (f := fun l : list RankInfo => take (length l - 1) l).
  assert (m_Id (fst s2) = m_Id (fst s)) as Hid by (unfold s2; by rewrite mId_inferno, mId_bank).
  assert (sview s2 = sview s1) as Hv by (unfold s2; by rewrite sview_inferno, sview_bank).
  set (t := v_rank (sview s1)).
  apply (ranks_hand f t s); [done|done| |].
  - etrans; [exact (sview_set_ranks f s2)|]. by rewrite Hid, Hv.
  - intros id rid. unfold t, s1. simpl. apply option_eq. intros x. rewrite map_lookup_filter_Some. simpl. case_decide as Hd.
    + subst id. rewrite rank_row_hand by done. case_decide; [|naive_solver lia]. unfold f.
      destruct (decide (rid < rank)).
      * rewrite lookup_take_lt by lia. naive_solver lia.
      * rewrite lookup_take_ge by lia. naive_solver lia.
    + naive_solver.
Qed.
End effects.
