(* ===== verification/GuildJoin.v ===== *)
(** Signing, joining and founding: whoever joins has no signature left, and the
    guild that is founded has its five ranks and its leader. *)

From S2P Require Import Prelude CString GuildBankTypes GuildBank GuildBankRequests GuildTypes Petitions Guild GuildMgr GuildInv GuildEffects.

Section joining.
Context {env : GuildEnv} {benv : BankEnv}.

(** ** Signatures *)
Lemma find_petition_Some w f id p : find_petition w f = Some (id, p) -> m_petitionMap w !! id = Some p /\ f p = true.
Proof.
  unfold find_petition. intros [H Hf]%find_some. split; [|done]. apply elem_of_map_to_list. rewrite <- petitions_order_ok. by apply list_elem_of_In.
Qed.
Lemma find_petition_None w f id p : find_petition w f = None -> m_petitionMap w !! id = Some p -> f p = false.
Proof.
  unfold find_petition. intros H Hp. refine (find_none _ _ H (id, p) _). apply list_elem_of_In. rewrite petitions_order_ok. by apply elem_of_map_to_list.
Qed.
Lemma signature_of_Some p g n s : GetSignatureForPlayerGuid_of p g = Some (n, s) -> snd (petition_view p) !! n = Some g.
Proof. intros (H & Hg & _)%list_find_Some. simpl. by rewrite list_lookup_fmap, H, <- Hg. Qed.
Lemma signature_of_None p g : GetSignatureForPlayerGuid_of p g = None -> g ∉ snd (petition_view p).
Proof. intros H%list_find_None. simpl. intros (s & -> & Hs)%list_elem_of_fmap. rewrite Forall_forall in H. by apply (H s). Qed.
Definition unsigned (g : Z) (v : View) : Prop := forall id pe, v_signs v !! id = Some pe -> g ∉ snd pe.

Lemma view_DeleteSignature id n w : view (DeleteSignature id n w) = v_set_signs (alter (fun pe => (fst pe, delete n (snd pe))) id (v_signs (view w))) (view w).
Proof.
  unfold view, v_set_signs, DeleteSignature, upd_petition. simpl.
  rewrite (fmap_alter_as petition_view _ (fun pe => (fst pe, delete n (snd pe)))); [done|]. intros p. unfold petition_view. simpl. by rewrite list_fmap_delete.
Qed.
Lemma v_set_signs_hold id gv signs v : hold id gv (v_set_signs signs v) = v_set_signs signs (hold id gv v). Proof. done. Qed.
Lemma sview_signs w' s signs : view w' = v_set_signs signs (view (snd s)) -> sview (fst s, w') = v_set_signs signs (sview s).
Proof. intros H. unfold sview. simpl. by rewrite H. Qed.

(** What a signature was dropped from. *)
Lemma drop_signature_view g w : exists signs, view (drop_signature g w) = v_set_signs signs (view w) /\
  forall v, v_signs v = v_signs (view w) -> reg_base v -> reg_base (v_set_signs signs v) /\ unsigned g (v_set_signs signs v).
Proof.
  unfold drop_signature, GetSignatureForPlayerGuid. destruct (find_petition w (has_signature g)) as [[id p]|] eqn:E.
  - apply find_petition_Some in E as [Hp Hs]. unfold has_signature in Hs. apply bool_decide_eq_true in Hs as [[n s] Hs].
    simpl. rewrite Hs. simpl. apply signature_of_Some in Hs.
    exists (alter (fun pe => (fst pe, delete n (snd pe))) id (v_signs (view w))).
    split; [by rewrite view_DeleteSignature|]. intros v Hv Hb.
    assert (v_signs (view w) = v_signs v) as -> by done. split; [by apply unsign_base|].
    assert (v_signs v !! id = Some (petition_view p)) as Hid by (rewrite Hv; simpl; by rewrite lookup_fmap, Hp).
    intros id' pe. simpl. destruct (decide (id' = id)) as [->|Hne].
    + rewrite lookup_alter_eq, Hid. intros [= <-] [n' Hn]%list_elem_of_lookup. cbn [snd] in Hn.
      destruct (decide (n' < n)%nat) as [Hlt|Hge].
      * rewrite list_lookup_delete_lt in Hn by done. destruct (rb_once _ Hb _ _ _ _ _ _ _ Hid Hid Hs Hn). lia.
      * rewrite list_lookup_delete_ge in Hn by lia. destruct (rb_once _ Hb _ _ _ _ _ _ _ Hid Hid Hs Hn). lia.
    + rewrite lookup_alter_ne by done. intros Hpe [n' Hn]%list_elem_of_lookup. destruct (rb_once _ Hb _ _ _ _ _ _ _ Hid Hpe Hs Hn). done.
  - simpl. exists (v_signs (view w)). split; [done|]. intros v Hv Hb. assert (v_set_signs (v_signs (view w)) v = v) as -> by (assert (v_signs (view w) = v_signs v) as -> by done; by destruct v).
    split; [done|]. intros id pe. cbn [v_signs v_set_signs]. rewrite Hv. unfold view. cbn [v_signs]. rewrite lookup_fmap. intros (p & Hp & ->)%fmap_Some.
    apply signature_of_None. apply (find_petition_None _ _ _ _ E) in Hp. unfold has_signature in Hp. apply bool_decide_eq_false in Hp.
    by apply eq_None_not_Some.
Qed.

(** ** Joining *)
Record joined_guild (st : GuildAddStatus) (g rank : Z) (s s' : GS) : Prop := {
  jo_hand : hand_ok s';
  jo_same : m_Id (fst s') = m_Id (fst s) /\ m_Name (fst s') = m_Name (fst s) /\ m_LeaderGuid (fst s') = m_LeaderGuid (fst s) /\
            m_Ranks (fst s') = m_Ranks (fst s) /\ m_GuildMap (snd s') = m_GuildMap (snd s) /\ m_GuildIds (snd s') = m_GuildIds (snd s);
  jo_members : if decide (st = OK)
    then (exists r, gv_members (gview (fst s')) = <[g := (g, r)]> (gv_members (gview (fst s))) /\ 0 <= r < 256 /\ (r = 0 <-> rank = 0)) /\
         m_guid2guild (snd s') = <[g := m_Id (fst s)]> (m_guid2guild (snd s)) /\ m_guid2guild (snd s) !! g = None
    else gv_members (gview (fst s')) = gv_members (gview (fst s)) /\ m_guid2guild (snd s') = m_guid2guild (snd s)
}.
Lemma nobody_in_guild_0 v g p : reg_base v -> v_players v !! g = Some p -> fst p = 0 -> v_index v !! g = None.
Proof.
  intros Hb Hp H0. destruct (v_index v !! g) as [id|] eqn:E; [|done]. pose proof (rb_players _ Hb _ _ _ Hp E) as Hid.
  apply (rb_index _ Hb) in E as (gv & E & _). apply (rb_id _ Hb) in E. lia.
Qed.
Lemma hand_players s g p : w_players (snd s) !! g = Some p -> v_players (sview s) !! g = Some (player_view p).
Proof. intros H. unfold sview, hold, view. cbn [v_players snd]. by rewrite lookup_fmap, H. Qed.

Lemma drop_signature_same g w : m_GuildMap (drop_signature g w) = m_GuildMap w /\ m_GuildIds (drop_signature g w) = m_GuildIds w /\
  m_guid2guild (drop_signature g w) = m_guid2guild w /\ w_players (drop_signature g w) = w_players w /\ w_cache (drop_signature g w) = w_cache w.
Proof. unfold drop_signature. destruct (GetSignatureForPlayerGuid w g) as [[id n]|]; done. Qed.
Lemma drop_signature_hand g s : hand_ok s -> hand_ok (on_world (drop_signature g) s) /\ unsigned g (sview (on_world (drop_signature g) s)).
Proof.
  intros Hs. destruct (drop_signature_view g (snd s)) as (signs & Hv & Hd). destruct (Hd (sview s) eq_refl (ho_base _ Hs)) as [Hb Hu].
  assert (sview (on_world (drop_signature g) s) = v_set_signs signs (sview s)) as E by by apply sview_signs.
  split; [|by rewrite E]. apply (hand_step s); [done|done| |]; by rewrite E.
Qed.
Lemma enter_joined g r rank p sl s : hand_ok s -> unsigned g (sview s) -> m_guid2guild (snd s) !! g = None -> w_players (snd s) !! g = p ->
  slot_view sl = (g, r) -> 0 <= r < 256 -> (r = 0 <-> rank = 0) -> joined_guild OK g rank s (enter_guild g r p sl s).
Proof.
  intros Hs Hu Hi Hp Hsl Hr Hr0. pose proof (sview_enter_guild g r p sl s Hsl) as Hv. split.
  - apply (hand_step s); [done|by apply mId_enter_guild|rewrite Hv; exact (others_upd_members _ _ _)|]. rewrite Hv. intros Hb.
    apply join_base; [done|rewrite in_hand; by eexists|done|done| |done].
    intros Hf. apply bool_decide_eq_false in Hf. unfold sview, hold, view. cbn [v_players]. rewrite lookup_fmap.
    apply eq_None_not_Some in Hf. by rewrite Hp, Hf.
  - unfold enter_guild. by destruct p.
  - rewrite decide_True by done. split; [|split; [exact (f_equal v_index Hv)|done]]. exists r. split; [|done].
    pose proof (f_equal (fun v => v_guilds v !! m_Id (fst s)) Hv) as Hg. cbn beta in Hg.
    rewrite <- (mId_enter_guild g r p sl s) in Hg at 1. rewrite in_hand in Hg. unfold v_join in Hg. cbn [v_guilds] in Hg.
    rewrite guilds_upd_members, decide_True, in_hand in Hg by done. simpl in Hg. by injection Hg.
Qed.
Lemma joined_from st g rank s1 s s' : m_Id (fst s) = m_Id (fst s1) -> fst s = fst s1 -> m_GuildMap (snd s) = m_GuildMap (snd s1) -> m_GuildIds (snd s) = m_GuildIds (snd s1) ->
  m_guid2guild (snd s) = m_guid2guild (snd s1) -> joined_guild st g rank s s' -> joined_guild st g rank s1 s'.
Proof. intros _ H1 H2 H3 H4 [Hh Hs Hm]. split; [done|by rewrite <- H1, <- H2, <- H3|by rewrite <- H1, <- H4]. Qed.

Lemma AddMember_ok g rank s st s' : hand_ok s -> 0 <= rank < 256 -> (w_players (snd s) !! g = None -> m_guid2guild (snd s) !! g = None) ->
  AddMember g rank s = (st, s') -> joined_guild st g rank s s'.
Proof.
  intros Hs Hr Hoff. unfold AddMember, FindPlayerNotInWorld.
  assert (joined_guild ALREADY_IN_GUILD g rank s s) as Hsame by by split.
  destruct (drop_signature_hand g s Hs) as [Hd Hu]. destruct (drop_signature_same g (snd s)) as (D1 & D2 & D3 & D4 & D5).
  change (drop_signature g (snd s)) with (snd (on_world (drop_signature g) s)) in D1, D2, D3, D4, D5.
  set (s1 := on_world (drop_signature g) s) in *.
  assert (forall st s', joined_guild st g rank s1 s' -> joined_guild st g rank s s') as Hfrom by (intros; by apply (joined_from _ _ _ s s1)).
  assert (forall st, st <> OK -> joined_guild st g rank s s1) as Hfail.
  { intros st' Hst. apply Hfrom. split; [done|done|]. by rewrite decide_False. }
  destruct (w_players (snd s) !! g) as [p|] eqn:Ep.
  - destruct (Z.eqb_spec (pl_guildId p) 0) as [H0|]; cbn [negb]; [|by intros [= <- <-]].
    intros [= <- <-]. apply Hfrom. change (u8 rank) with (rank mod 256).
    assert (m_guid2guild (snd s) !! g = None) as Hi.
    { apply (nobody_in_guild_0 (sview s) g (player_view p)); [apply Hs|by apply hand_players|done]. }
    apply enter_joined; [done|done|by rewrite D3|by rewrite D4|done|apply OnAddMember_range|].
    rewrite OnAddMember_master. by rewrite Z.mod_small.
  - case_bool_decide; [by intros [= <- <-]|].
    destruct (w_cache (snd s1) !! g) as [c|]; [|intros [= <- <-]; by apply Hfail].
    destruct (cd_name c =s ""); [intros [= <- <-]; by apply Hfail|].
    destruct (negb (playable _ _)); [intros [= <- <-]; by apply Hfail|].
    intros [= <- <-]. apply Hfrom. apply enter_joined; [done|done|rewrite D3; auto|by rewrite D4|done|done|done].
Qed.

(** A newcomer below the guild master leaves a good guild good. *)
Lemma gview_of gu : gview gu = mkGView (m_Id gu) (m_Name gu) (m_LeaderGuid gu) (m_Ranks gu) (slot_view <$> members gu). Proof. done. Qed.
Lemma not_member_hand s g : hand_ok s -> m_guid2guild (snd s) !! g = None -> gv_members (gview (fst s)) !! g = None.
Proof.
  intros Hs Hi. destruct (gv_members _ !! g) as [sl|] eqn:E; [|done]. assert (is_Some (member_slot (fst s) g)) as Hm by by exists sl.
  apply (hand_member _ _ Hs) in Hm. congruence.
Qed.
Lemma newcomer_ok st g rank s s' : hand_ok s -> gview_ok (gview (fst s)) -> rank <> 0 -> joined_guild st g rank s s' -> reg_ok (sview s').
Proof.
  intros Hs [Hl Hm Hr Ho] Hne [Hh (E1 & E2 & E3 & E4 & _) Hj]. apply reg_ok_hand. split; [done|].
  assert (gv_leader (gview (fst s')) = gv_leader (gview (fst s))) as El by done.
  assert (gv_ranks (gview (fst s')) = gv_ranks (gview (fst s))) as Er by done.
  case_decide.
  - destruct Hj as [(r & Em & Hrr & Hr0) [_ Hi]]. apply (not_member_hand s) in Hi; [|done]. assert (r <> 0) by naive_solver.
    split; rewrite ?El, ?Er, ?Em; [| |done..].
    + rewrite lookup_insert_ne; [done|]. intros ->. by rewrite Hi in Hl.
    + intros g' sl [[<- <-]|[? H1]]%lookup_insert_Some; [naive_solver|]. by apply Hm.
  - destruct Hj as [Em _]. split; rewrite ?El, ?Er, ?Em; done.
Qed.
Lemma lowest_rank_range gu : gview_ok (gview gu) -> 4 <= GetLowestRank gu <= 9.
Proof.
  intros [_ _ Hr _]. unfold GUILD_RANKS_MIN_COUNT, GUILD_RANKS_MAX_COUNT in Hr. simpl in Hr. unfold GetLowestRank, u32. rewrite Z.mod_small; lia.
Qed.
Lemma AddMember_reg g s st s' : reg_ok (sview s) -> (w_players (snd s) !! g = None -> m_guid2guild (snd s) !! g = None) ->
  AddMember g (GetLowestRank (fst s)) s = (st, s') -> reg_ok (sview s') /\ joined_guild st g (GetLowestRank (fst s)) s s'.
Proof.
  intros [Hs Hg]%reg_ok_hand Hoff HA. pose proof (lowest_rank_range _ Hg). apply AddMember_ok in HA; [|done|lia|done].
  split; [|done]. apply (newcomer_ok _ _ _ _ _ Hs Hg) in HA; [done|lia].
Qed.

(** ** Founding a guild *)
Lemma default_ranks_fst locale s : m_Ranks (fst s) = [] -> fst (CreateDefaultGuildRanks locale s) =
  set_m_Ranks [mkRank (GetMangosString 811 locale) GR_RIGHT_ALL; mkRank (GetMangosString 812 locale) GR_RIGHT_ALL;
               mkRank (GetMangosString 813 locale) (Z.lor GR_RIGHT_GCHATLISTEN GR_RIGHT_GCHATSPEAK);
               mkRank (GetMangosString 814 locale) (Z.lor GR_RIGHT_GCHATLISTEN GR_RIGHT_GCHATSPEAK);
               mkRank (GetMangosString 815 locale) (Z.lor GR_RIGHT_GCHATLISTEN GR_RIGHT_GCHATSPEAK)] (fst s).
Proof. destruct s as [[] w]. simpl. by intros ->. Qed.
Lemma default_ranks_hand locale s : hand_ok s -> m_Ranks (fst s) = [] -> hand_ok (CreateDefaultGuildRanks locale s).
Proof.
  intros Hs He. unfold CreateDefaultGuildRanks. cbn zeta. set (s1 := on_world _ s).
  assert (hand_ok s1) as Hs1.
  { apply (ranks_hand (fun l => l) (v_rank (sview s1)) s); [done|done| |].
    - unfold s1, v_upd_ranks, on_world. unfold sview at 2. rewrite alter_hold. done.
    - intros id rid. unfold s1. simpl. apply option_eq. intros x. rewrite map_lookup_filter_Some, He. simpl. case_decide.
      + case_decide; rewrite ?lookup_nil; naive_solver.
      + naive_solver. }
  simpl. by do 5 apply CreateRank_hand.
Qed.
Lemma run_bank_view f b w : view (snd (run_bank f b w)) = view w. Proof. done. Qed.
Lemma sview_make_banks s : sview (make_banks s) = sview s. Proof. done. Qed.
Lemma fst_make_banks s : gview (fst (make_banks s)) = gview (fst s). Proof. done. Qed.

Definition founding (leader : Z) (gname : string) (now : Z) (w : GW) : GS :=
  let id := m_GuildIds w in
  let gu := set_m_Created (local_date now) (set_m_Id id (set_m_motd "No message set." (set_m_info ""
              (set_m_Name gname (set_m_LeaderGuid leader Guild_new))))) in
  (gu, upd_db (fun db =>
     let db := delete_member_rows id db in
     set_db_guild (insert_row id (mkGuildRow gname leader "" "No message set." now (m_Emblem gu)) (db_guild db)) db)
     (set_m_GuildIds (u32 (id + 1)) w)).
Lemma founding_hand leader gname now w : reg_ok (view w) -> m_GuildIds w + 1 < 2 ^ 32 -> hand_ok (founding leader gname now w).
Proof.
  intros [Hb Hg] Hids. pose proof (rb_ids _ Hb) as Hi. change (v_ids (view w)) with (m_GuildIds w) in Hi.
  assert (v_guilds (view w) !! m_GuildIds w = None) as Hn.
  { destruct (v_guilds (view w) !! m_GuildIds w) as [gv|] eqn:E; [|done]. apply (rb_id _ Hb) in E. change (v_ids (view w)) with (m_GuildIds w) in E. lia. }
  assert (sview (founding leader gname now w) = v_found (v_ids (view w)) gname leader (view w)) as Hv.
  { assert (filter (fun kr => fst (snd kr) <> m_GuildIds w) (v_member (view w)) = v_member (view w)) as Hm.
    { apply map_filter_id. intros g r Hr. rewrite (rb_member _ Hb) in Hr. unfold member_row in Hr.
      destruct (v_index (view w) !! g) as [id|] eqn:E; [|done]. apply (rb_index _ Hb) in E as (gv & E & _). cbn [mbind option_bind] in Hr. rewrite E in Hr.
      cbn [mbind option_bind] in Hr. destruct (gv_members gv !! g) in Hr; [|done]. cbn [mbind option_bind] in Hr. injection Hr as <-. simpl. intros ->. naive_solver. }
    assert (v_guild (view w) !! m_GuildIds w = None) as Hr by (rewrite (rb_row _ Hb), Hn; done).
    unfold sview, founding, v_found, hold, view, gview. cbn [fst snd m_Id]. simpl. unfold u32. rewrite Z.mod_small by lia. f_equal.
    - rewrite (fmap_filter_as member_view _ (fun kr => fst (snd kr) <> m_GuildIds w)); [exact Hm|done].
    - rewrite fmap_insert_row. unfold insert_row. change (guild_view <$> db_guild (w_db w)) with (v_guild (view w)). by rewrite Hr. }
  split; rewrite Hv; [by apply found_base|]. intros id gv Hne. simpl. change (m_GuildIds w) with (v_ids (view w)) in *.
  rewrite lookup_insert_ne by done. apply Hg.
Qed.

Lemma Create_eq leader gname w : GetGuildByName w gname = None -> forall p, w_players w !! leader = Some p ->
  Create leader gname w =
    (let '(status, s) := AddMember leader GR_GUILDMASTER (make_banks (CreateDefaultGuildRanks (pl_locale p) (founding leader gname (w_now w) w))) in
     (bool_decide (status = OK), s)).
Proof. intros Hn p Hp. unfold Create, FindPlayerNotInWorld. by rewrite Hn, Hp. Qed.
Lemma default_ranks_ids locale s : m_Id (fst (CreateDefaultGuildRanks locale s)) = m_Id (fst s) /\
  m_GuildMap (snd (CreateDefaultGuildRanks locale s)) = m_GuildMap (snd s) /\ m_guid2guild (snd (CreateDefaultGuildRanks locale s)) = m_guid2guild (snd s) /\
  w_players (snd (CreateDefaultGuildRanks locale s)) = w_players (snd s).
Proof.
  unfold CreateDefaultGuildRanks. cbn zeta. set (s1 := on_world _ s).
  assert (forall n r s, m_Id (fst (CreateRank n r s)) = m_Id (fst s) /\ m_GuildMap (snd (CreateRank n r s)) = m_GuildMap (snd s) /\
    m_guid2guild (snd (CreateRank n r s)) = m_guid2guild (snd s) /\ w_players (snd (CreateRank n r s)) = w_players (snd s)) as Hc.
  { intros n r t. unfold CreateRank. cbn zeta. by destruct (_ <=? _). }
  generalize [(811, GR_RIGHT_ALL); (812, GR_RIGHT_ALL); (813, Z.lor GR_RIGHT_GCHATLISTEN GR_RIGHT_GCHATSPEAK);
    (814, Z.lor GR_RIGHT_GCHATLISTEN GR_RIGHT_GCHATSPEAK); (815, Z.lor GR_RIGHT_GCHATLISTEN GR_RIGHT_GCHATSPEAK)].
  intros l. change (m_Id (fst s)) with (m_Id (fst s1)). change (m_GuildMap (snd s)) with (m_GuildMap (snd s1)).
  change (m_guid2guild (snd s)) with (m_guid2guild (snd s1)). change (w_players (snd s)) with (w_players (snd s1)). generalize s1.
  induction l as [|nr l IH]; intros t; [done|]. cbn [foldl]. destruct (IH (CreateRank (GetMangosString (fst nr) locale) (snd nr) t)) as (-> & -> & -> & ->).
  apply Hc.
Qed.
Lemma AddMember_in_memory g rank s p : w_players (snd s) !! g = Some p -> pl_guildId p = 0 -> fst (AddMember g rank s) = OK.
Proof. intros Hp H0. unfold AddMember, FindPlayerNotInWorld. by rewrite Hp, H0. Qed.
(** The leader joins the guild that has its ranks. *)
Lemma leader_joins leader s p : hand_ok s -> gv_members (gview (fst s)) = ∅ -> m_LeaderGuid (fst s) = leader ->
  GUILD_RANKS_MIN_COUNT <= GetRanksSize (fst s) <= GUILD_RANKS_MAX_COUNT -> ri_Rights <$> head (m_Ranks (fst s)) = Some GR_RIGHT_ALL ->
  w_players (snd s) !! leader = Some p -> pl_guildId p = 0 ->
  fst (AddMember leader GR_GUILDMASTER s) = OK /\ reg_ok (sview (snd (AddMember leader GR_GUILDMASTER s))).
Proof.
  intros Hs Hm Hl Hr Ho Hp H0. pose proof (AddMember_in_memory leader GR_GUILDMASTER s p Hp H0) as Hst. split; [done|].
  destruct (AddMember leader GR_GUILDMASTER s) as [st s4] eqn:EA. simpl in Hst. subst st. cbn [snd].
  apply AddMember_ok in EA as [Hh (E1 & E2 & E3 & E4 & _) Hj]; [|done|done|by rewrite Hp]. apply reg_ok_hand. split; [done|].
  rewrite decide_True in Hj by done. destruct Hj as [(r & Em & Hrr & Hr0) _]. assert (r = 0) as -> by by apply Hr0. rewrite Hm in Em.
  assert (gv_leader (gview (fst s4)) = leader) as El by (etrans; [exact E3|done]).
  assert (gv_ranks (gview (fst s4)) = m_Ranks (fst s)) as Er by exact E4.
  split; rewrite ?El, ?Er, ?Em; [by rewrite lookup_insert_eq| |done..].
  intros g sl [[<- <-]|[_ H]]%lookup_insert_Some; [simpl; split; [done|]; split; [lia|done]|by rewrite lookup_empty in H].
Qed.
Definition ranked (leader : Z) (gname : string) (p : GPlayer) (w : GW) : GS :=
  make_banks (CreateDefaultGuildRanks (pl_locale p) (founding leader gname (w_now w) w)).
Lemma ranked_ok leader gname p w : reg_ok (view w) -> m_GuildIds w + 1 < 2 ^ 32 ->
  let s := ranked leader gname p w in hand_ok s /\ gv_members (gview (fst s)) = ∅ /\ m_LeaderGuid (fst s) = leader /\
  GetRanksSize (fst s) = 5 /\ ri_Rights <$> head (m_Ranks (fst s)) = Some GR_RIGHT_ALL /\ w_players (snd s) = w_players w.
Proof.
  intros Hw Hids. unfold ranked. pose proof (founding_hand leader gname (w_now w) w Hw Hids) as H1.
  assert (m_Ranks (fst (founding leader gname (w_now w) w)) = []) as He by done.
  pose proof (default_ranks_hand (pl_locale p) _ H1 He) as H2. pose proof (default_ranks_fst (pl_locale p) _ He) as F2.
  destruct (default_ranks_ids (pl_locale p) (founding leader gname (w_now w) w)) as (_ & _ & _ & P2).
  assert (w_players (snd (founding leader gname (w_now w) w)) = w_players w) as P1 by done. rewrite P1 in P2. clear P1.
  assert (m_LeaderGuid (fst (founding leader gname (w_now w) w)) = leader) as L1 by done.
  assert (slot_view <$> members (fst (founding leader gname (w_now w) w)) = ∅) as M1 by apply fmap_empty.
  revert H2 F2 P2. generalize (CreateDefaultGuildRanks (pl_locale p) (founding leader gname (w_now w) w)). intros s2 H2 F2 P2. set (s := make_banks s2).
  split; [by apply (hand_frame s2)|]. assert (gview (fst s) = gview (fst s2)) as G by done.
  split; [by rewrite G, F2|]. split; [change (m_LeaderGuid (fst s2) = leader); by rewrite F2|].
  split; [change (GetRanksSize (fst s2) = 5); by rewrite F2|]. split; [change (ri_Rights <$> head (m_Ranks (fst s2)) = Some GR_RIGHT_ALL); by rewrite F2|done].
Qed.
Lemma Create_ok leader gname w ok s : reg_ok (view w) -> m_GuildIds w + 1 < 2 ^ 32 ->
  from_option pl_guildId 0 (w_players w !! leader) = 0 -> Create leader gname w = (ok, s) ->
  if ok then reg_ok (sview s) else s = (Guild_new, w).
Proof.
  intros Hw Hids H0 HC. destruct (GetGuildByName w gname) as [|] eqn:En; [unfold Create in HC; rewrite En in HC; by injection HC as <- <-|].
  destruct (w_players w !! leader) as [p|] eqn:Ep; [|unfold Create, FindPlayerNotInWorld in HC; rewrite En, Ep in HC; by injection HC as <- <-].
  rewrite (Create_eq _ _ _ En _ Ep) in HC. destruct (ranked_ok leader gname p w Hw Hids) as (A1 & A2 & A3 & A4 & A5 & A6).
  change (make_banks _) with (ranked leader gname p w) in HC.
  destruct (leader_joins leader (ranked leader gname p w) p) as [Hst Hr]; [done|done|done|by rewrite A4|done|by rewrite A6|done|].
  destruct (AddMember leader GR_GUILDMASTER (ranked leader gname p w)) as [st s4]. cbn [fst snd] in *. rewrite Hst in HC.
  rewrite bool_decide_eq_true_2 in HC by done. by injection HC as <- <-.
Qed.

Lemma view_AddGuild s : view (AddGuild s) = sview s.
Proof.
  unfold AddGuild. cbn zeta. set (s1 := on_world _ s). assert (view (snd s1) = sview s) as Hv.
  { unfold s1. apply (view_put (m_Id (fst s)) s). }
  etrans; [apply (view_put (m_Id (fst (make_banks s1))) (make_banks s1))|].
  change (hold (m_Id (fst s)) (gview (fst s)) (view (snd s1)) = sview s). rewrite Hv. unfold sview, hold. simpl. by rewrite insert_insert_eq.
Qed.

(** ** The signers join *)
Lemma signers_join l s : reg_ok (sview s) -> (forall sg, sg ∈ l -> m_guid2guild (snd s) !! m_playerGuid sg = None) ->
  NoDup (m_playerGuid <$> l) -> reg_ok (sview (foldl sign_member s l)).
Proof.
  revert s. induction l as [|sg l IH]; intros s Hs Hi Hn; [done|]. cbn [foldl]. apply NoDup_cons in Hn as [Hx Hn].
  assert (forall sg', sg' ∈ l -> m_playerGuid sg' <> m_playerGuid sg) as Hne.
  { intros sg' H E. apply Hx. rewrite <- E. by apply list_elem_of_fmap_2. }
  unfold sign_member at 2. destruct (Z.eqb_spec (m_playerGuid sg) 0).
  { apply IH; [done| |done]. intros sg' H. by apply Hi, list_elem_of_further. }
  destruct (AddMember (m_playerGuid sg) (GetLowestRank (fst s)) s) as [st s'] eqn:EA.
  apply AddMember_reg in EA as [Hs' [_ _ Hj]]; [|done|intros _; by apply Hi, list_elem_of_here]. cbn [snd].
  apply IH; [done| |done]. intros sg' H. pose proof (Hi sg' (list_elem_of_further _ _ _ H)). case_decide.
  - destruct Hj as (_ & -> & _). rewrite lookup_insert_ne; [done|]. symmetry. by apply Hne.
  - by destruct Hj as [_ ->].
Qed.
Lemma signers_once v id pe : reg_base v -> v_signs v !! id = Some pe -> NoDup (snd pe).
Proof. intros Hb Hp. apply NoDup_alt. intros n1 n2 g H1 H2. by destruct (rb_once _ Hb _ _ _ _ _ _ _ Hp Hp H1 H2). Qed.
Lemma Create_petition_ok p leader w ok s : reg_ok (view w) -> m_GuildIds w + 1 < 2 ^ 32 ->
  from_option pl_guildId 0 (w_players w !! leader) = 0 -> Create_petition p leader w = (ok, s) ->
  if ok then reg_ok (sview s) else s = (Guild_new, w).
Proof.
  intros Hw Hids H0. unfold Create_petition. destruct (Create leader (m_name p) w) as [ok1 s1] eqn:EC. apply Create_ok in EC; [|done..].
  destruct ok1; [|by intros [= <- <-]]. intros [= <- <-]. destruct (m_petitionMap (snd s1) !! m_id p) as [q|] eqn:Eq; [|done]. cbn [from_option].
  assert (v_signs (sview s1) !! m_id p = Some (petition_view q)) as Hq by (unfold sview, hold, view; cbn [v_signs]; by rewrite lookup_fmap, Eq).
  apply signers_join; [done| |].
  - intros sg Hsg. apply (rb_signers _ (ro_base _ EC) _ _ _ Hq). by apply list_elem_of_fmap_2.
  - exact (signers_once _ _ _ (ro_base _ EC) Hq).
Qed.
End joining.
