(* ===== verification/GuildSteps.v ===== *)
(** The inputs that change guilds, and the invariant they keep: what players
    send, loading, logging in and out, the saving of banks. *)

From S2P Require Import Prelude CString GuildBankTypes GuildBank GuildBankRequests GuildTypes Petitions Guild GuildMgr GuildHandlers PetitionHandlers GuildInv GuildEffects GuildJoin.

(** ** The inputs *)
Inductive GuildOpcode :=
| GuildQueryOp (guildId : Z) | GuildCreateOp (gname : string) | GuildInviteOp (name : string) | GuildRemoveOp (name : string)
| GuildAcceptOp | GuildDeclineOp | GuildInfoOp | GuildRosterOp | GuildPromoteOp (name : string) | GuildDemoteOp (name : string)
| GuildLeaveOp | GuildDisbandOp | GuildLeaderOp (name : string) | GuildMOTDOp (motd : string)
| GuildSetPublicNoteOp (name note : string) | GuildSetOfficerNoteOp (name note : string)
| GuildRankOp (rankId rights : Z) (name : string) | GuildAddRankOp (name : string) | GuildDelRankOp
| GuildChangeInfoTextOp (info : string) | SaveGuildEmblemOp (designer : bool) (emblem : Z * Z * Z * Z * Z)
| PetitionBuyOp (creature designer : bool) (name : string) | PetitionShowSignOp (item : Z) | PetitionRenameOp (item : Z) (name : string)
| PetitionSignOp (item : Z) | PetitionDeclineOp (item : Z) | OfferPetitionOp (item player : Z) | TurnInPetitionOp (item : Z).

Inductive GuildInput :=
| PlayerSends (me : Z) (o : GuildOpcode)
| PlayerLoads (g : Z) (p : GPlayer)
| PlayerLogsIn (g : Z)
| PlayerLogsOut (g : Z)
| PlayerInWorld (g : Z) (b : bool)
| TimePasses (now : Z)
| GuildMgrUpdate (diff : Z).

Section steps.
Context {env : GuildEnv} {benv : BankEnv}.

Definition HandleGuildOpcode (me : Z) (o : GuildOpcode) (w : GW) : GW :=
  match o with
  | GuildQueryOp id => HandleGuildQueryOpcode me id w
  | GuildCreateOp n => HandleGuildCreateOpcode me n w
  | GuildInviteOp n => HandleGuildInviteOpcode me n w
  | GuildRemoveOp n => HandleGuildRemoveOpcode me n w
  | GuildAcceptOp => HandleGuildAcceptOpcode me w
  | GuildDeclineOp => HandleGuildDeclineOpcode me w
  | GuildInfoOp => HandleGuildInfoOpcode me w
  | GuildRosterOp => HandleGuildRosterOpcode me w
  | GuildPromoteOp n => HandleGuildPromoteOpcode me n w
  | GuildDemoteOp n => HandleGuildDemoteOpcode me n w
  | GuildLeaveOp => HandleGuildLeaveOpcode me w
  | GuildDisbandOp => HandleGuildDisbandOpcode me w
  | GuildLeaderOp n => HandleGuildLeaderOpcode me n w
  | GuildMOTDOp t => HandleGuildMOTDOpcode me t w
  | GuildSetPublicNoteOp n t => HandleGuildSetPublicNoteOpcode me n t w
  | GuildSetOfficerNoteOp n t => HandleGuildSetOfficerNoteOpcode me n t w
  | GuildRankOp id r n => HandleGuildRankOpcode me id r n w
  | GuildAddRankOp n => HandleGuildAddRankOpcode me n w
  | GuildDelRankOp => HandleGuildDelRankOpcode me w
  | GuildChangeInfoTextOp t => HandleGuildChangeInfoTextOpcode me t w
  | SaveGuildEmblemOp d e => HandleSaveGuildEmblemOpcode me d e w
  | PetitionBuyOp c d n => HandlePetitionBuyOpcode me c d n w
  | PetitionShowSignOp i => HandlePetitionShowSignOpcode me i w
  | PetitionRenameOp i n => HandlePetitionRenameOpcode me i n w
  | PetitionSignOp i => HandlePetitionSignOpcode me i w
  | PetitionDeclineOp i => HandlePetitionDeclineOpcode me i w
  | OfferPetitionOp i g => HandleOfferPetitionOpcode me i g w
  | TurnInPetitionOp i => HandleTurnInPetitionOpcode me i w
  end.
Definition guild_input (i : GuildInput) (w : GW) : GW :=
  match i with
  | PlayerSends me o => HandleGuildOpcode me o w
  | PlayerLoads g p => LoadPlayer g p w
  | PlayerLogsIn g => HandlePlayerLogin g w
  | PlayerLogsOut g => LogoutPlayer g w
  | PlayerInWorld g b => upd_player g (set_pl_inWorld b) w
  | TimePasses now => set_w_now now w
  | GuildMgrUpdate diff => Update diff w
  end.
(** Packet fields are unsigned, and the guild numbers are not used up. *)
Definition input_ok (i : GuildInput) (w : GW) : Prop :=
  m_GuildIds w + 1 < 2 ^ 32 /\
  match i with PlayerSends _ (GuildRankOp rankId _ _) => 0 <= rankId | _ => True end.
Inductive guild_step : GW -> GW -> Prop :=
| guild_step_input i w : input_ok i w -> guild_step w (guild_input i w).

(** ** The guild in hand *)
Lemma registered w id gu : reg_ok (view w) -> m_GuildMap w !! id = Some gu -> m_Id gu = id /\ sview (gu, w) = view w.
Proof.
  intros [Hb _] H. assert (v_guilds (view w) !! id = Some (gview gu)) as Hv by (unfold view; cbn [v_guilds]; by rewrite lookup_fmap, H).
  apply (rb_id _ Hb) in Hv as [E _]. simpl in E. split; [done|]. unfold sview. cbn [fst snd]. rewrite E. by apply hold_self.
Qed.
Lemma put_ok id s : reg_ok (sview s) -> m_Id (fst s) = id -> reg_ok (view (put_guild id s)).
Proof. intros H <-. by rewrite view_put_own. Qed.
Lemma with_guild_ok me w f : reg_ok (view w) ->
  (forall self gu, w_players w !! me = Some self -> m_GuildMap w !! pl_guildId self = Some gu -> m_Id gu = pl_guildId self ->
     reg_ok (sview (gu, w)) -> gview_ok (gview gu) -> hand_ok (gu, w) -> reg_ok (view (f self gu))) -> reg_ok (view (with_guild me w f)).
Proof.
  intros Hw Hf. unfold with_guild, GetGuildById. destruct (w_players w !! me) as [self|] eqn:Ep; [|done].
  destruct (m_GuildMap w !! pl_guildId self) as [gu|] eqn:Eg; [|done]. destruct (registered _ _ _ Hw Eg) as [Hid Hv].
  assert (reg_ok (sview (gu, w))) as Hr by by rewrite Hv. pose proof (proj1 (reg_ok_hand _) Hr) as [Hh Hg]. by apply Hf.
Qed.
Lemma named_slot gu name sl : gview_ok (gview gu) -> GetMemberSlot_named gu name = Some sl ->
  is_Some (member_slot gu (ms_guid sl)) /\ 0 <= ms_RankId sl < 256 /\ (ms_RankId sl = 0 <-> ms_guid sl = m_LeaderGuid gu).
Proof.
  intros Hg. unfold GetMemberSlot_named. intros ([g sl'] & H & ->)%fmap_Some. apply find_some in H as [H _].
  apply list_elem_of_In in H. rewrite members_order_ok in H. apply elem_of_map_to_list in H. simpl in H.
  assert (gv_members (gview gu) !! g = Some (slot_view sl')) as Hm by (simpl; by rewrite lookup_fmap, H).
  pose proof (go_slots _ Hg _ _ Hm) as (E & Hr & Hl). simpl in E. cbn [snd]. subst g. split; [by exists (slot_view sl')|]. split; [done|]. split; [exact Hl|].
  intros E. pose proof (go_leader _ Hg) as Hz. change (gv_leader (gview gu)) with (m_LeaderGuid gu) in Hz. rewrite <- E, Hm in Hz. by injection Hz.
Qed.
Lemma disband_if_ok gone s f id : reg_ok (sview s) -> m_Id (fst s) = id -> sview (f s) = sview s -> m_Id (fst (f s)) = m_Id (fst s) ->
  reg_ok (view (disband_if gone s f id)).
Proof.
  intros Hs Hid Hf Hf2. unfold disband_if. destruct gone; [apply Disband_ok; by apply reg_ok_hand|]. apply put_ok; [by rewrite Hf|congruence].
Qed.
Lemma index_of_guild w g p gu : reg_ok (view w) -> w_players w !! g = Some p -> m_GuildMap w !! pl_guildId p = Some gu ->
  m_guid2guild w !! g = Some (pl_guildId p) \/ m_guid2guild w !! g = None.
Proof.
  intros [Hb _] Hp _. destruct (m_guid2guild w !! g) as [id|] eqn:E; [left|by right]. f_equal. symmetry.
  apply (rb_players _ Hb g (player_view p) id); [|done]. unfold view. cbn [v_players]. by rewrite lookup_fmap, Hp.
Qed.

(** ** Every input keeps the invariant *)
Lemma sent m w : reg_ok (view w) -> reg_ok (view (send m w)). Proof. done. Qed.
Lemma told to t str r w : reg_ok (view w) -> reg_ok (view (SendGuildCommandResult to t str r w)). Proof. done. Qed.
Lemma player_ok g f w : (forall p, player_view (f p) = player_view p) -> reg_ok (view w) -> reg_ok (view (upd_player g f w)).
Proof. intros Hf. by rewrite view_player. Qed.
Lemma frame_ok s s' : sview s' = sview s -> m_Id (fst s') = m_Id (fst s) -> reg_ok (sview s) -> reg_ok (view (put_guild (m_Id (fst s)) s')).
Proof. intros Hv Hid Hs. apply put_ok; [by rewrite Hv|done]. Qed.

(** The guards of a handler, and the answers that change nothing. *)
Ltac refused := first [assumption | apply sent; refused | apply told; refused].
Ltac guards := repeat match goal with
  | |- reg_ok (view (if ?b then _ else _)) => let E := fresh "G" in destruct b eqn:E; [try refused|try refused]
  | |- reg_ok (view (match ?o with Some _ => _ | None => _ end)) => let E := fresh "G" in destruct o eqn:E; [try refused|try refused]
  end.
Ltac pairs := repeat match goal with |- reg_ok (view (match ?p with pair _ _ => _ end)) => destruct p; try refused; guards end.

Lemma Invite_ok me name w : reg_ok (view w) -> reg_ok (view (HandleGuildInviteOpcode me name w)).
Proof.
  intros Hw. unfold HandleGuildInviteOpcode. destruct (w_players w !! me) as [self|]; [|done].
  destruct (norm_name name ≫= _) as [[g player]|]; [|by apply told]. unfold GetGuildById.
  destruct (m_GuildMap w !! pl_guildId self) as [gu|] eqn:Eg; [|by apply told]. guards.
  apply sent. destruct (registered _ _ _ Hw Eg) as [Hid Hv]. set (w2 := upd_player _ _ w).
  assert (view w2 = view w) as Hv2 by (by apply view_player).
  rewrite <- Hid. apply (frame_ok (gu, w2)); [by apply sview_log|done|]. unfold sview. cbn [fst snd]. rewrite Hv2. change (reg_ok (sview (gu, w))). by rewrite Hv.
Qed.
Lemma Remove_ok me name w : reg_ok (view w) -> reg_ok (view (HandleGuildRemoveOpcode me name w)).
Proof.
  intros Hw. unfold HandleGuildRemoveOpcode. guards. apply with_guild_ok; [done|]. intros self gu Hp Hg Hid Hr Hok Hh. guards.
  destruct (named_slot gu s _ Hok G2) as (Hm & _ & _). destruct (DelMember (ms_guid m) false (gu, w)) as [gone s'] eqn:E.
  apply DelMember_ok in E as [Hid' Hr']; [|done|left; by apply (hand_member (gu, w))].
  apply disband_if_ok; [done|by rewrite Hid'| |by destruct s']. rewrite sview_event. apply sview_log.
Qed.
Lemma Accept_ok me w : reg_ok (view w) -> reg_ok (view (HandleGuildAcceptOpcode me w)).
Proof.
  intros Hw. unfold HandleGuildAcceptOpcode, GetGuildById. destruct (w_players w !! me) as [self|] eqn:Ep; [|done].
  destruct (m_GuildMap w !! pl_guildIdInvited self) as [gu|] eqn:Eg; [|done]. guards.
  destruct (registered _ _ _ Hw Eg) as [Hid Hv]. destruct (AddMember me (GetLowestRank gu) (gu, w)) as [st s] eqn:EA.
  apply (AddMember_reg me (gu, w)) in EA as [Hr [_ (E1 & _) _]]; [|by rewrite Hv|cbn [snd]; by rewrite Ep].
  destruct (negb (bool_decide (st = OK))); (apply put_ok; [|destruct s; etrans; [exact E1|exact Hid]]); [done|]. by rewrite sview_event, sview_log.
Qed.
Lemma Decline_ok me w : reg_ok (view w) -> reg_ok (view (HandleGuildDeclineOpcode me w)).
Proof.
  intros Hw. unfold HandleGuildDeclineOpcode. destruct (w_players w !! me) as [self|]; [|done]. guards. cbn zeta. apply player_ok; [done|].
  set (i := from_option _ _ _). guards.
Qed.
Lemma Info_ok me w : reg_ok (view w) -> reg_ok (view (HandleGuildInfoOpcode me w)).
Proof.
  intros Hw. apply with_guild_ok; [done|]. intros self gu Hp Hg Hid Hr Hok Hh. unfold GetAccountsNumber.
  destruct (negb _); apply sent, put_ok; done.
Qed.
Lemma change_rank_ok g r s : reg_ok (sview s) -> is_Some (member_slot (fst s) g) -> g <> m_LeaderGuid (fst s) -> 0 < r < 256 ->
  reg_ok (sview (ChangeRank g r s)).
Proof.
  intros [Hs [Hl Hm Hr Ho]]%reg_ok_hand Hg Hne Hrr. apply reg_ok_hand. split; [apply ChangeRank_hand; [done|done|lia]|]. rewrite gview_ChangeRank.
  split; cbn [gv_upd_members gv_leader gv_members gv_ranks]; [| |done..].
  - rewrite alter_slot. destruct (gv_members _ !! _) as [sl|] in Hl |- *; [|done]. simpl in *. rewrite decide_False; [done|]. intros E. by apply Hne.
  - intros g' sl. rewrite alter_slot. intros (sl0 & H & ->)%fmap_Some. apply Hm in H. case_decide; [|done]. simpl. split; [apply H|]. lia.
Qed.
Lemma Promote_ok me name w : reg_ok (view w) -> reg_ok (view (HandleGuildPromoteOpcode me name w)).
Proof.
  intros Hw. unfold HandleGuildPromoteOpcode. guards. apply with_guild_ok; [done|]. intros self gu Hp Hg Hid Hr Hok Hh. guards.
  destruct (named_slot gu s _ Hok G1) as (Hm & Hrr & Hl). apply Z.eqb_neq in G2. apply Z.leb_gt in G3.
  assert (0 <= pl_rank self < 256) as Hp0.
  { apply (rb_pranks _ (ro_base _ Hw) me (player_view self)). unfold view. cbn [v_players]. by rewrite lookup_fmap, Hp. }
  unfold u32 in G3. rewrite Z.mod_small in G3 by lia. rewrite <- Hid. apply (put_ok (m_Id gu)); [|done]. rewrite sview_event, sview_log.
  assert (u32 (ms_RankId m - 1) = ms_RankId m - 1) as -> by (apply Z.mod_small; lia).
  apply (change_rank_ok _ _ (gu, w)); [done|done| |lia]. intros E. apply Hl in E. lia.
Qed.
Lemma Demote_ok me name w : reg_ok (view w) -> reg_ok (view (HandleGuildDemoteOpcode me name w)).
Proof.
  intros Hw. unfold HandleGuildDemoteOpcode. guards. apply with_guild_ok; [done|]. intros self gu Hp Hg Hid Hr Hok Hh. guards.
  destruct (named_slot gu s _ Hok G1) as (Hm & Hrr & Hl). apply Z.leb_gt in G3, G4. pose proof (lowest_rank_range _ Hok).
  assert (0 <= pl_rank self < 256) as Hp0.
  { apply (rb_pranks _ (ro_base _ Hw) me (player_view self)). unfold view. cbn [v_players]. by rewrite lookup_fmap, Hp. }
  rewrite <- Hid. apply (put_ok (m_Id gu)); [|done]. rewrite sview_event, sview_log.
  assert (u32 (ms_RankId m + 1) = ms_RankId m + 1) as -> by (apply Z.mod_small; lia).
  apply (change_rank_ok _ _ (gu, w)); [done|done| |lia]. intros E. apply Hl in E. lia.
Qed.
Lemma Leave_ok me w : reg_ok (view w) -> reg_ok (view (HandleGuildLeaveOpcode me w)).
Proof.
  intros Hw. apply with_guild_ok; [done|]. intros self gu Hp Hg Hid Hr Hok Hh. guards; [by apply Disband_ok|].
  set (w2 := SendGuildCommandResult _ _ _ _ w). cbn zeta. destruct (DelMember me false (gu, w2)) as [gone s'] eqn:E.
  apply DelMember_ok in E as [Hid' Hr']; [|done|].
  - apply disband_if_ok; [done|by rewrite Hid'| |by destruct s']. rewrite sview_event. apply sview_log.
  - cbn [fst snd]. rewrite Hid. by apply (index_of_guild w me self gu).
Qed.
Lemma HandleDisband_ok me w : reg_ok (view w) -> reg_ok (view (HandleGuildDisbandOpcode me w)).
Proof. intros Hw. apply with_guild_ok; [done|]. intros self gu Hp Hg Hid Hr Hok Hh. guards. by apply Disband_ok. Qed.
Lemma Leader_ok me name w : reg_ok (view w) -> reg_ok (view (HandleGuildLeaderOpcode me name w)).
Proof.
  intros Hw. unfold HandleGuildLeaderOpcode. guards. apply with_guild_ok; [done|]. intros self gu Hp Hg Hid Hr Hok Hh. guards.
  apply negb_false_iff, Z.eqb_eq in G0. subst me. destruct (named_slot gu s _ Hok G2) as (Hm & _ & _). apply Z.eqb_neq in G3.
  destruct (new_leader_ok (ms_guid m0) (gu, w) Hh Hok Hm G3) as [H1 H2]. apply put_ok; [by apply reg_ok_hand|]. by rewrite mId_new_leader.
Qed.
Lemma MOTD_ok me motd w : reg_ok (view w) -> reg_ok (view (HandleGuildMOTDOpcode me motd w)).
Proof.
  intros Hw. unfold HandleGuildMOTDOpcode. guards. apply with_guild_ok; [done|]. intros self gu Hp Hg Hid Hr Hok Hh. guards.
  rewrite <- Hid. apply (frame_ok (gu, w)); [by rewrite sview_event, sview_motd|done|done].
Qed.
Lemma note_ok right (set : Z -> string -> GS -> GS) me name note w : (forall g t s, sview (set g t s) = sview s /\ m_Id (fst (set g t s)) = m_Id (fst s)) ->
  reg_ok (view w) -> reg_ok (view (set_note right set me name note w)).
Proof.
  intros Hset Hw. unfold set_note. guards. apply with_guild_ok; [done|]. intros self gu Hp Hg Hid Hr Hok Hh. guards. apply sent.
  rewrite <- Hid. apply (frame_ok (gu, w)); [apply Hset|apply Hset|done].
Qed.
Lemma PublicNote_ok me name note w : reg_ok (view w) -> reg_ok (view (HandleGuildSetPublicNoteOpcode me name note w)).
Proof.
  apply note_ok. intros g t s. split; [apply sview_public|]. unfold SetPublicNote. destruct (GetMemberSlot _ _); [|done]. by destruct (_ =s _).
Qed.
Lemma OfficerNote_ok me name note w : reg_ok (view w) -> reg_ok (view (HandleGuildSetOfficerNoteOpcode me name note w)).
Proof.
  apply note_ok. intros g t s. split; [apply sview_officer|]. unfold SetOfficerNote. destruct (GetMemberSlot _ _); [|done]. by destruct (_ =s _).
Qed.

(** Ranks are changed by the leader. *)
Lemma new_ranks_ok (s s' : GS) : hand_ok s' -> gview_ok (gview (fst s)) -> m_Id (fst s') = m_Id (fst s) -> m_LeaderGuid (fst s') = m_LeaderGuid (fst s) ->
  members (fst s') = members (fst s) -> GUILD_RANKS_MIN_COUNT <= GetRanksSize (fst s') <= GUILD_RANKS_MAX_COUNT ->
  ri_Rights <$> head (m_Ranks (fst s')) = Some GR_RIGHT_ALL -> reg_ok (view (put_guild (m_Id (fst s)) s')).
Proof.
  intros Hs [Hl Hm _ _] Hid El Em Hr Ho. apply put_ok; [|done]. apply reg_ok_hand. split; [done|].
  split; cbn [gview gv_leader gv_members gv_ranks]; rewrite ?El, ?Em; [exact Hl|exact Hm|exact Hr|exact Ho].
Qed.
Lemma head_alter (f : RankInfo -> RankInfo) n l : head (alter f n l) = (if decide (n = 0%nat) then f else fun r => r) <$> head l.
Proof. destruct l as [|r l], n; done. Qed.
Definition same_but_ranks (gu gu' : Guild) : Prop :=
  m_Id gu' = m_Id gu /\ m_LeaderGuid gu' = m_LeaderGuid gu /\ members gu' = members gu /\ GetRanksSize gu' = GetRanksSize gu.
Lemma SetRankName_same rid n s : 0 <= rid -> same_but_ranks (fst s) (fst (SetRankName rid n s)) /\
  ri_Rights <$> head (m_Ranks (fst (SetRankName rid n s))) = ri_Rights <$> head (m_Ranks (fst s)).
Proof.
  intros Hr. unfold SetRankName, same_but_ranks, GetRanksSize. cbn zeta. destruct (_ <=? rid); [done|]. simpl. rewrite length_alter, head_alter.
  case_decide; by destruct (head _).
Qed.
Lemma SetRankRights_same rid r s : 0 <= rid -> same_but_ranks (fst s) (fst (SetRankRights rid r s)) /\
  (ri_Rights <$> head (m_Ranks (fst (SetRankRights rid r s))) = ri_Rights <$> head (m_Ranks (fst s)) \/
   (rid = 0 /\ (ri_Rights <$> head (m_Ranks (fst (SetRankRights rid r s))) = (fun _ => r) <$> head (m_Ranks (fst s))))).
Proof.
  intros Hr. unfold SetRankRights, same_but_ranks, GetRanksSize. cbn zeta. destruct (_ <=? rid); [by auto|]. simpl. rewrite length_alter, head_alter.
  split; [done|]. case_decide; [right|left]; destruct (head _); first [done | split; [lia|done]].
Qed.
Lemma Rank_ok me rid rights name w : 0 <= rid -> reg_ok (view w) -> reg_ok (view (HandleGuildRankOpcode me rid rights name w)).
Proof.
  intros Hrid Hw. apply with_guild_ok; [done|]. intros self gu Hp Hg Hid Hr Hok Hh. guards. do 2 apply sent. cbn zeta.
  destruct (SetRankName_same rid s (gu, w) Hrid) as ((A1 & A2 & A3 & A4) & A5). pose proof (SetRankName_hand rid s (gu, w) Hh Hrid) as H1.
  set (s1 := SetRankName rid s (gu, w)) in *. set (r := if _ =? _ then _ else _).
  destruct (SetRankRights_same rid r s1 Hrid) as ((B1 & B2 & B3 & B4) & B5). pose proof (SetRankRights_hand rid r s1 H1 Hrid) as H2.
  rewrite <- Hid. apply (new_ranks_ok (gu, w)); [done|done|congruence..| |].
  - rewrite B4, A4. exact (go_ranks _ Hok).
  - pose proof (go_master _ Hok) as Ho. change (ri_Rights <$> head (m_Ranks (fst (gu, w))) = Some GR_RIGHT_ALL) in Ho.
    destruct B5 as [->|[-> ->]]; [by rewrite A5|]. rewrite <- A5 in Ho. by destruct (head (m_Ranks (fst s1))).
Qed.
Lemma AddRank_ok me name w : reg_ok (view w) -> reg_ok (view (HandleGuildAddRankOpcode me name w)).
Proof.
  intros Hw. unfold HandleGuildAddRankOpcode. guards. apply with_guild_ok; [done|]. intros self gu Hp Hg Hid Hr Hok Hh. guards. do 2 apply sent.
  rewrite <- Hid. pose proof (CreateRank_hand s (Z.lor GR_RIGHT_GCHATLISTEN GR_RIGHT_GCHATSPEAK) (gu, w) Hh) as H1. apply Z.leb_gt in G1.
  pose proof (go_ranks _ Hok) as Hrk. pose proof (go_master _ Hok) as Ho. unfold GUILD_RANKS_MAX_COUNT, GUILD_RANKS_MIN_COUNT in *. simpl in Hrk.
  apply (new_ranks_ok (gu, w)); [done|done|..]; unfold CreateRank; cbn zeta; cbn [fst snd]; unfold GUILD_RANKS_MAX_COUNT;
    rewrite (proj2 (Z.leb_gt _ _) G1); cbn [fst]; try done.
  - unfold GetRanksSize in *. simpl. rewrite length_app. simpl. unfold GUILD_RANKS_MIN_COUNT, GUILD_RANKS_MAX_COUNT. lia.
  - simpl. simpl in Ho. by destruct (m_Ranks gu).
Qed.
Lemma DelRank_same s : GetRanksSize (fst s) <= GUILD_RANKS_MAX_COUNT -> GUILD_RANKS_MIN_COUNT <= GetRanksSize (fst s) ->
  m_Id (fst (DelRank s)) = m_Id (fst s) /\ m_LeaderGuid (fst (DelRank s)) = m_LeaderGuid (fst s) /\ members (fst (DelRank s)) = members (fst s) /\
  GUILD_RANKS_MIN_COUNT <= GetRanksSize (fst (DelRank s)) <= GUILD_RANKS_MAX_COUNT /\ head (m_Ranks (fst (DelRank s))) = head (m_Ranks (fst s)).
Proof.
  intros Hmax Hmin. unfold DelRank. cbn zeta. destruct (Z.leb_spec (GetRanksSize (fst s)) GUILD_RANKS_MIN_COUNT) as [|Hlt]; [done|].
  set (s1 := on_world _ s). unfold on_inferno, on_bank. destruct (_Bank (fst s1)), (_InfernoBank _); unfold run_bank, GetRanksSize in *; cbn zeta; simpl;
    rewrite length_take; unfold GUILD_RANKS_MIN_COUNT, GUILD_RANKS_MAX_COUNT in *; (repeat split; [lia..|]); destruct (m_Ranks (fst s)) as [|r [|r2 l]]; simpl in *; done || lia.
Qed.
Lemma HandleDelRank_ok me w : reg_ok (view w) -> reg_ok (view (HandleGuildDelRankOpcode me w)).
Proof.
  intros Hw. apply with_guild_ok; [done|]. intros self gu Hp Hg Hid Hr Hok Hh. guards. do 2 apply sent. pose proof (go_ranks _ Hok) as Hrk.
  change (GUILD_RANKS_MIN_COUNT <= GetRanksSize (fst (gu, w)) <= GUILD_RANKS_MAX_COUNT) in Hrk.
  destruct (DelRank_same (gu, w)) as (A1 & A2 & A3 & A4 & A5); [lia..|]. rewrite <- Hid.
  apply (new_ranks_ok (gu, w)); [apply DelRank_hand; [done|lia]|done..|]. rewrite A5. exact (go_master _ Hok).
Qed.
Lemma ChangeInfoText_ok me t w : reg_ok (view w) -> reg_ok (view (HandleGuildChangeInfoTextOpcode me t w)).
Proof.
  intros Hw. unfold HandleGuildChangeInfoTextOpcode. guards. apply with_guild_ok; [done|]. intros self gu Hp Hg Hid Hr Hok Hh. guards.
  rewrite <- Hid. apply (frame_ok (gu, w)); [by rewrite sview_ginfo|done|done].
Qed.
Lemma Emblem_ok me d e w : reg_ok (view w) -> reg_ok (view (HandleSaveGuildEmblemOpcode me d e w)).
Proof.
  intros Hw. unfold HandleSaveGuildEmblemOpcode, GetGuildById. destruct (w_players w !! me) as [self|]; [|done]. guards.
  destruct (registered _ _ _ Hw G0) as [Hid Hv]. do 2 apply sent. rewrite <- Hid. set (w2 := upd_player _ _ w).
  assert (view w2 = view w) as Hv2 by by apply view_player.
  apply (frame_ok (g, w2)); [by rewrite sview_emblem|done|]. unfold sview. cbn [fst snd]. rewrite Hv2. change (reg_ok (sview (g, w))). by rewrite Hv.
Qed.
Lemma HandleCreate_ok me n w : m_GuildIds w + 1 < 2 ^ 32 -> reg_ok (view w) -> reg_ok (view (HandleGuildCreateOpcode me n w)).
Proof.
  intros Hids Hw. unfold HandleGuildCreateOpcode. destruct (w_players w !! me) as [self|] eqn:Ep; [|done]. guards.
  apply negb_false_iff, Z.eqb_eq in G. destruct (Create me n w) as [ok s] eqn:EC. apply Create_ok in EC; [|done|done|by rewrite Ep].
  destruct ok; cbn [negb]; [by rewrite view_AddGuild|]. by subst s.
Qed.

(** ** Petitions *)
Lemma petition_signs id (m : gmap Z Petition) : (petition_view <$> m) !! id = petition_view <$> m !! id. Proof. apply lookup_fmap. Qed.
Lemma set_petitions_ok w ps : reg_ok (view w) -> reg_base (v_set_signs (petition_view <$> ps) (view w)) -> reg_ok (view (set_m_petitionMap ps w)).
Proof. intros [_ Hg] Hb. by split. Qed.
Lemma CreatePetition_ok id owner team charter name w : reg_ok (view w) -> reg_ok (view (CreatePetition id owner team charter name w)).
Proof.
  intros Hw. unfold CreatePetition. cbn zeta. unfold Petition_SaveToDB. set (w2 := upd_db _ w).
  assert (view w2 = view w) as Hv by (unfold view, w2; simpl; by case_bool_decide).
  assert (reg_ok (view w2)) as Hw2 by by rewrite Hv. destruct (ro_base _ Hw2) as [_ _ _ _ _ _ _ Hk Hs Ho _].
  apply set_petitions_ok; [done|]. rewrite fmap_insert. apply signs_base; [apply Hw2| | |].
  - intros id' pe [[<- <-]|[_ H]]%lookup_insert_Some; [done|by apply (Hk id')].
  - intros id' pe g [[<- <-]|[_ H]]%lookup_insert_Some; [by intros ?%not_elem_of_nil|by apply (Hs id')].
  - intros id1 id2 pe1 pe2 n1 n2 g [[<- <-]|[_ H1]]%lookup_insert_Some; [done|]. intros [[<- <-]|[_ H2]]%lookup_insert_Some; [done|].
    by apply (Ho id1 id2 pe1 pe2).
Qed.
Lemma DeletePetition_ok p w : reg_ok (view w) -> reg_ok (view (DeletePetition p w)).
Proof.
  intros Hw. unfold DeletePetition. set (w2 := set_m_petitionMap _ w).
  assert (view (Petition_Delete p w2) = view w2) as -> by (unfold Petition_Delete; by destruct (_ =? _)).
  destruct (ro_base _ Hw) as [_ _ _ _ _ _ _ Hk Hs Ho _]. apply set_petitions_ok; [done|]. rewrite fmap_delete. apply signs_base; [apply Hw| | |].
  - intros id' pe [_ H]%lookup_delete_Some. by apply (Hk id').
  - intros id' pe g [_ H]%lookup_delete_Some. by apply (Hs id').
  - intros id1 id2 pe1 pe2 n1 n2 g [_ H1]%lookup_delete_Some [_ H2]%lookup_delete_Some. by apply (Ho id1 id2 pe1 pe2).
Qed.
Lemma Buy_ok me c d n w : reg_ok (view w) -> reg_ok (view (HandlePetitionBuyOpcode me c d n w)).
Proof.
  intros Hw. unfold HandlePetitionBuyOpcode. destruct (w_players w !! me) as [self|]; [|done]. guards.
  destruct (CanStoreCharter self) as [msg|pos]; [by apply sent|]. cbn zeta. apply CreatePetition_ok, player_ok; done.
Qed.
Lemma Rename_ok me i n w : reg_ok (view w) -> reg_ok (view (HandlePetitionRenameOpcode me i n w)).
Proof.
  intros Hw. unfold HandlePetitionRenameOpcode. destruct (w_players w !! me ≫= _) as [[pos id]|]; [|done]. guards. apply sent.
  unfold Petition_Rename. rewrite view_petition; [exact Hw|done].
Qed.
(** A signature by somebody without guild who has no other. *)
Lemma sign_ok id g account w : reg_ok (view w) -> unsigned g (view w) -> m_guid2guild w !! g = None ->
  reg_ok (view (snd (AddNewSignature id g account w))).
Proof.
  intros Hw Hu Hi. unfold AddNewSignature, GetPetitionById. destruct (m_petitionMap w !! id) as [p|] eqn:Ep; [|done].
  destruct (IsComplete p); [done|]. cbn [snd]. set (w2 := signature_SaveToDB _ _ _ _ w). assert (reg_ok (view w2)) as Hw2 by done.
  assert (v_signs (view w) !! id = Some (petition_view p)) as Hp by (unfold view; cbn [v_signs]; by rewrite lookup_fmap, Ep).
  unfold upd_petition. apply set_petitions_ok; [done|]. change (m_petitionMap w2) with (m_petitionMap w).
  rewrite (fmap_alter_as petition_view _ (fun pe => (fst pe, snd pe ++ [g]))) by (intros q; unfold petition_view; simpl; by rewrite fmap_app).
  change (petition_view <$> m_petitionMap w) with (v_signs (view w)). destruct (ro_base _ Hw) as [_ _ _ _ _ _ _ Hk Hs Ho _].
  set (h := fun pe : Z * list Z => (fst pe, snd pe ++ [g])).
  assert (forall id' pe, alter h id (v_signs (view w)) !! id' = Some pe -> exists pe0, v_signs (view w) !! id' = Some pe0 /\ fst pe = fst pe0 /\
    forall n x, snd pe !! n = Some x -> snd pe0 !! n = Some x \/ (x = g /\ id' = id /\ n = length (snd pe0))) as Hh.
  { intros id' pe. destruct (decide (id' = id)) as [->|]; [|rewrite lookup_alter_ne by done; eauto 10].
    rewrite lookup_alter_eq. intros (pe0 & H & ->)%fmap_Some. exists pe0. split; [done|]. split; [done|]. intros n x. simpl.
    intros [Hx|[Hx1 Hx2]]%lookup_app_Some; [by left|right]. apply list_lookup_singleton_Some in Hx2 as [? <-]. split; [done|]. split; [done|lia]. }
  apply signs_base; [apply Hw2| | |].
  - intros id' pe H. destruct (Hh _ _ H) as (pe0 & H0 & -> & _). eauto.
  - intros id' pe x H [n Hx]%list_elem_of_lookup. destruct (Hh _ _ H) as (pe0 & H0 & _ & Hn).
    destruct (Hn _ _ Hx) as [Hx0|(-> & _)]; [|done]. apply (Hs _ _ _ H0). by apply list_elem_of_lookup_2 in Hx0.
  - intros id1 id2 pe1 pe2 n1 n2 x H1 H2 Hx1 Hx2. destruct (Hh _ _ H1) as (q1 & Q1 & _ & N1). destruct (Hh _ _ H2) as (q2 & Q2 & _ & N2).
    destruct (N1 _ _ Hx1) as [X1|(-> & -> & ->)], (N2 _ _ Hx2) as [X2|(E & -> & ->)].
    + by apply (Ho id1 id2 q1 q2 n1 n2 x).
    + subst x. apply list_elem_of_lookup_2 in X1. by apply Hu in Q1.
    + apply list_elem_of_lookup_2 in X2. by apply Hu in Q2.
    + rewrite Q1 in Q2. by injection Q2 as ->.
Qed.
Lemma Sign_ok me i w : reg_ok (view w) -> reg_ok (view (HandlePetitionSignOpcode me i w)).
Proof.
  intros Hw. unfold HandlePetitionSignOpcode. destruct (w_players w !! me) as [self|] eqn:Ep; [|done]. cbn [mbind option_bind].
  destruct (GetPetitionByCharterGuid w i) as [[id petition]|]; [|done]. cbn [mbind option_bind]. guards.
  cbn zeta. apply negb_false_iff, Z.eqb_eq in G2.
  assert (m_guid2guild w !! me = None) as Hi.
  { apply (nobody_in_guild_0 (view w) me (player_view self)); [apply Hw| |done]. unfold view. cbn [v_players]. by rewrite lookup_fmap, Ep. }
  destruct (drop_signature_view me w) as (signs & Hv & Hd). destruct (Hd (view w) eq_refl (ro_base _ Hw)) as [Hb Hu].
  destruct (drop_signature_same me w) as (_ & _ & D & _). set (w2 := drop_signature me w) in *.
  assert (reg_ok (view w2)) as Hw2 by (rewrite Hv; split; [done|apply Hw]).
  pose proof (sign_ok id me (pl_account self) w2 Hw2) as Hs. destruct (AddNewSignature id me (pl_account self) w2) as [ok w3]. cbn [snd] in Hs.
  assert (reg_ok (view w3)) as Hw3 by (apply Hs; [by rewrite Hv|by rewrite D]). destruct ok; cbn [negb]; [|done]. guards.
Qed.
Lemma TurnIn_ok me i w : m_GuildIds w + 1 < 2 ^ 32 -> reg_ok (view w) -> reg_ok (view (HandleTurnInPetitionOpcode me i w)).
Proof.
  intros Hids Hw. unfold HandleTurnInPetitionOpcode. destruct (w_players w !! me) as [self|] eqn:Ep; [|done]. cbn [mbind option_bind].
  destruct (turned_in self i) as [[pos id]|]; [|done]. cbn [mbind option_bind]. destruct (GetPetitionById w id) as [petition|]; [|done]. cbn [mbind option_bind].
  guards. apply negb_false_iff, Z.eqb_eq in G. destruct (Create_petition petition me w) as [ok s] eqn:EC.
  apply Create_petition_ok in EC; [|done|done|by rewrite Ep]. destruct ok; cbn [negb]; [|by subst s]. cbn zeta.
  apply sent, player_ok; [done|]. apply DeletePetition_ok. by rewrite view_AddGuild.
Qed.

(** ** Loading, logging in and out, saving the banks *)
Lemma members_guild w g id r : reg_ok (view w) -> v_member (view w) !! g = Some (id, r) -> m_guid2guild w !! g = Some id /\ is_Some (m_GuildMap w !! id) /\ 0 <= r < 256.
Proof.
  intros [Hb Hg] H. rewrite (rb_member _ Hb) in H. unfold member_row in H. change (v_index (view w)) with (m_guid2guild w) in H.
  destruct (m_guid2guild w !! g) as [id'|]; [|done]. cbn [mbind option_bind] in H. destruct (v_guilds (view w) !! id') as [gv|] eqn:Eg; [|done].
  cbn [mbind option_bind] in H. destruct (gv_members gv !! g) as [sl|] eqn:Es; [|done]. injection H as <- <-. split; [done|]. split.
  - unfold view in Eg. cbn [v_guilds] in Eg. rewrite lookup_fmap in Eg. by apply fmap_Some in Eg as (gu & -> & _).
  - by apply (go_slots _ (Hg _ _ Eg) g sl).
Qed.
Lemma Load_ok g p w : reg_ok (view w) -> reg_ok (view (LoadPlayer g p w)).
Proof.
  intros Hw. unfold LoadPlayer. set (p2 := _LoadGuild g w _).
  assert ((forall id, m_guid2guild w !! g = Some id -> pl_guildId p2 = id) /\ 0 <= pl_rank p2 < 256) as [Hid Hr].
  { unfold p2, _LoadGuild, GetGuildById. cbn zeta. destruct (db_member (w_db w) !! g) as [r|] eqn:Er.
    - assert (v_member (view w) !! g = Some (mr_guildid r, mr_rank r)) as Hm by (unfold view; cbn [v_member]; by rewrite lookup_fmap, Er).
      destruct (members_guild _ _ _ _ Hw Hm) as (Hi & [gu Hgu] & Hr). cbn [pl_guildId]. simpl. rewrite Hgu. destruct (_ =? 0); simpl; (split; [congruence|done]).
    - assert (m_guid2guild w !! g = None) as Hi; [|rewrite Hi; simpl; split; [done|lia]].
      assert (v_member (view w) !! g = None) as Hm by (unfold view; cbn [v_member]; by rewrite lookup_fmap, Er).
      destruct (m_guid2guild w !! g) as [id|] eqn:E; [|done]. destruct Hw as [Hb _]. rewrite (rb_member _ Hb) in Hm. unfold member_row in Hm.
      change (v_index (view w)) with (m_guid2guild w) in Hm. pose proof (proj1 (rb_index _ Hb g id) E) as (gv & Hgv & [sl Hsl]).
      rewrite E in Hm. cbn [mbind option_bind] in Hm. rewrite Hgv in Hm. cbn [mbind option_bind] in Hm. by rewrite Hsl in Hm. }
  destruct Hw as [[] Hg]. split; [|exact Hg]. unfold view. cbn [w_players set_w_players]. rewrite fmap_insert. split; try done.
  - intros g' q id. cbn [v_players v_index]. intros [[<- <-]|[_ H]]%lookup_insert_Some; [|by apply rb_players]. intros Hi. by apply Hid.
  - intros g' q. cbn [v_players]. intros [[<- <-]|[_ H]]%lookup_insert_Some; [exact Hr|by apply (rb_pranks g')].
Qed.
Lemma Login_ok g w : reg_ok (view w) -> reg_ok (view (HandlePlayerLogin g w)).
Proof.
  intros Hw. unfold HandlePlayerLogin. destruct (w_players w !! g) as [p|] eqn:Ep; [|done]. set (w2 := join_beginners_guild g p w).
  assert (reg_ok (view w2)) as Hw2.
  { unfold w2, join_beginners_guild, GetGuildById. cbn zeta. destruct (_ =? 0); [done|]. destruct (m_GuildMap w !! beginners_guild g p) as [gu|] eqn:Eg; [|done].
    destruct (registered _ _ _ Hw Eg) as [Hid Hv]. destruct (AddMember g (GetLowestRank gu) (gu, w)) as [st s] eqn:EA.
    apply (AddMember_reg g (gu, w)) in EA as [Hr [_ (E1 & _) _]]; [|by rewrite Hv|cbn [snd]; by rewrite Ep].
    apply put_ok; [done|]. cbn [snd]. etrans; [exact E1|exact Hid]. }
  clearbody w2. unfold sign_on. destruct (w_players w2 !! g) as [q|]; [|done]. cbn [mbind option_bind]. unfold GetGuildById.
  destruct (m_GuildMap w2 !! pl_guildId q) as [gu|] eqn:Eg; [|done]. cbn [mbind option_bind]. cbn zeta.
  destruct (registered _ _ _ Hw2 Eg) as [Hid Hv]. rewrite <- Hid. apply (frame_ok (gu, w2)); [done|done|by rewrite Hv].
Qed.
Lemma Logout_ok g w : reg_ok (view w) -> reg_ok (view (LogoutPlayer g w)).
Proof.
  intros Hw. unfold LogoutPlayer. destruct (w_players w !! g) as [p|] eqn:Ep; [|done]. cbn zeta. set (w2 := sign_off g p w).
  assert (reg_ok (view w2)) as Hw2.
  { unfold w2, sign_off, GetGuildById. destruct (m_GuildMap w !! pl_guildId p) as [gu|] eqn:Eg; [|done]. destruct (registered _ _ _ Hw Eg) as [Hid Hv]. rewrite <- Hid.
    apply (frame_ok (gu, w)); [|done|by rewrite Hv]. exact (sview_upd_member g (fun sl => UpdateLogoutTime (w_now w) (SetMemberStats p sl)) (gu, w) (fun sl => eq_refl)). }
  clearbody w2. destruct Hw2 as [[] Hg]. split; [|exact Hg]. unfold view. cbn [w_players set_w_players]. rewrite fmap_delete. split; try done.
  - intros g' q id. cbn [v_players v_index]. intros [_ H]%lookup_delete_Some. by apply rb_players.
  - intros g' q. cbn [v_players]. intros [_ H]%lookup_delete_Some. by apply (rb_pranks g').
Qed.
Lemma save_banks_ok w id : reg_ok (view w) -> reg_ok (view (save_banks w id)).
Proof.
  intros Hw. unfold save_banks. destruct (m_GuildMap w !! id) as [gu|] eqn:Eg; [|done]. destruct (registered _ _ _ Hw Eg) as [Hid Hv]. rewrite <- Hid.
  apply (frame_ok (gu, w)); [by rewrite sview_inferno, sview_bank|by rewrite mId_inferno, mId_bank|by rewrite Hv].
Qed.
Lemma Update_ok diff w : reg_ok (view w) -> reg_ok (view (Update diff w)).
Proof.
  intros Hw. unfold Update. destruct (_ <? _); [|done]. unfold SaveGuildBanks. assert (reg_ok (view (set_m_guildBankSaveTimer GUILD_BANK_SAVE_INTERVAL w))) as H by done.
  revert H. generalize (set_m_guildBankSaveTimer GUILD_BANK_SAVE_INTERVAL w). induction (fst <$> guilds_order (m_GuildMap w)) as [|id l IH]; intros v H; [done|].
  cbn [foldl]. by apply IH, save_banks_ok.
Qed.

(** ** Every input, every run *)
Lemma opcode_ok me o w : input_ok (PlayerSends me o) w -> reg_ok (view w) -> reg_ok (view (HandleGuildOpcode me o w)).
Proof.
  intros [Hids Ho] Hw. destruct o; cbn [HandleGuildOpcode]; cbn [input_ok] in Ho;
    first [by apply Invite_ok|by apply Remove_ok|by apply Accept_ok|by apply Decline_ok|by apply Info_ok|by apply Promote_ok|by apply Demote_ok
          |by apply Leave_ok|by apply HandleDisband_ok|by apply Leader_ok|by apply MOTD_ok|by apply PublicNote_ok|by apply OfficerNote_ok
          |by apply Rank_ok|by apply AddRank_ok|by apply HandleDelRank_ok|by apply ChangeInfoText_ok|by apply Emblem_ok|by apply HandleCreate_ok
          |by apply Buy_ok|by apply Rename_ok|by apply Sign_ok|by apply TurnIn_ok|idtac].
  - unfold HandleGuildQueryOpcode. guards.
  - unfold HandleGuildRosterOpcode. guards.
  - unfold HandlePetitionShowSignOpcode. guards; pairs.
  - unfold HandlePetitionDeclineOpcode. guards; pairs.
  - unfold HandleOfferPetitionOpcode. guards; pairs.
Qed.
Lemma input_keeps_ok i w : input_ok i w -> reg_ok (view w) -> reg_ok (view (guild_input i w)).
Proof.
  intros Hi Hw. destruct i; cbn [guild_input].
  - by apply opcode_ok. - by apply Load_ok. - by apply Login_ok. - by apply Logout_ok. - by apply player_ok. - done. - by apply Update_ok.
Qed.
Lemma steps_ok w w' : rtc guild_step w w' -> reg_ok (view w) -> reg_ok (view w').
Proof. induction 1 as [|w1 w2 w3 [i w1' Hi] _ IH]; [done|]. intros Hw. by apply IH, input_keeps_ok. Qed.

(** A server whose tables are empty. *)
Definition no_rows_db : GuildDB := mkGuildDB ∅ ∅ ∅ ∅ ∅ ∅ ∅ (mkDB ∅ ∅ [] []).
Definition fresh (chars : gmap Z CharacterRow) (cache : gmap Z PlayerCacheData) (now : Z) : GW :=
  mkGW ∅ ∅ ∅ GUILD_BANK_SAVE_INTERVAL ∅ cache (set_db_characters chars no_rows_db) 1 1 1 now [].
Lemma fresh_ok chars cache now : reg_ok (view (fresh chars cache now)).
Proof.
  split; [|by intros id gv H]. split; try done.
  - intros g id. split; [done|]. by intros (gv & H & _).
Qed.
End steps.
