(* ===== verification/GuildFacts.v ===== *)
(** What the single operations promise: who stands where after an officer's
    request, the rights of ranks that are gone, the event log and its ring of
    rows, and the repairs after loading. *)

From S2P Require Import Prelude CString GuildBankTypes GuildBank GuildBankRequests GuildTypes Petitions Guild GuildMgr GuildHandlers PetitionHandlers GuildInv GuildEffects GuildJoin GuildSteps.

Section facts.
Context {env : GuildEnv} {benv : BankEnv}.

(** ** Standing: guild and rank *)
Definition standing (w : GW) (g : Z) : option (Z * Z) :=
  id ← m_guid2guild w !! g; gu ← m_GuildMap w !! id; sl ← members gu !! g; Some (id, ms_RankId sl).
Lemma standing_view w g : standing w g = member_row (view w) g.
Proof.
  unfold standing, member_row, view. cbn [v_index v_guilds]. destruct (m_guid2guild w !! g) as [id|]; [|done]. cbn [mbind option_bind].
  rewrite lookup_fmap. destruct (m_GuildMap w !! id) as [gu|]; [|done]. simpl. rewrite lookup_fmap. by destruct (members gu !! g).
Qed.
Lemma standing_row w g : reg_ok (view w) -> standing w g = (fun r => (mr_guildid r, mr_rank r)) <$> db_member (w_db w) !! g.
Proof. intros [Hb _]. rewrite standing_view, <- (rb_member _ Hb). unfold view. cbn [v_member]. by rewrite lookup_fmap. Qed.
Lemma standing_member w g : reg_ok (view w) -> standing w g = v_member (view w) !! g.
Proof. intros Hw. rewrite standing_row by done. unfold view. cbn [v_member]. by rewrite lookup_fmap. Qed.

(** An officer's act: nobody's standing changes, or that of one member of his
    guild who is below him, and he has the right. *)
Definition acts_below (right : Z) (me : Z) (w w' : GW) (allowed : Guild -> Z -> Z -> option Z -> Prop) : Prop :=
  (forall g, standing w' g = standing w g) \/
  exists self gu g r new, w_players w !! me = Some self /\ m_GuildMap w !! pl_guildId self = Some gu /\
    HasRankRight gu (pl_rank self) right = true /\ standing w g = Some (pl_guildId self, r) /\ pl_rank self < r /\
    allowed gu (pl_rank self) r new /\ standing w' g = (fun r => (pl_guildId self, r)) <$> new /\
    forall g', g' <> g -> standing w' g' = standing w g'.
Lemma acts_quiet right me w w' allowed : reg_ok (view w) -> reg_ok (view w') -> v_member (view w') = v_member (view w) -> acts_below right me w w' allowed.
Proof. intros H H' E. left. intros g. by rewrite !standing_member, E. Qed.

Ltac quiet := match goal with
  | Hw : reg_ok (view ?w) |- acts_below _ _ ?w _ _ => apply acts_quiet; [exact Hw|exact Hw|reflexivity]
  end.
Ltac act_guards := repeat match goal with
  | |- acts_below _ _ _ (if ?b then _ else _) _ => let E := fresh "G" in destruct b eqn:E; [try quiet|try quiet]
  | |- acts_below _ _ _ (match ?o with Some _ => _ | None => _ end) _ => let E := fresh "G" in destruct o eqn:E; [try quiet|try quiet]
  end.
Lemma with_guild_acts right me w f allowed : reg_ok (view w) ->
  (forall self gu, w_players w !! me = Some self -> m_GuildMap w !! pl_guildId self = Some gu -> m_Id gu = pl_guildId self ->
     sview (gu, w) = view w -> gview_ok (gview gu) -> acts_below right me w (f self gu) allowed) -> acts_below right me w (with_guild me w f) allowed.
Proof.
  intros Hw Hf. unfold with_guild, GetGuildById. destruct (w_players w !! me) as [self|] eqn:Ep; [|quiet].
  destruct (m_GuildMap w !! pl_guildId self) as [gu|] eqn:Eg; [|quiet]. destruct (registered _ _ _ Hw Eg) as [Hid Hv].
  apply Hf; try done. apply (proj1 (reg_ok_hand (gu, w))). by rewrite Hv.
Qed.
Lemma self_rank me w self : reg_ok (view w) -> w_players w !! me = Some self -> 0 <= pl_rank self < 256.
Proof. intros [Hb _] Hp. apply (rb_pranks _ Hb me (player_view self)). unfold view. cbn [v_players]. by rewrite lookup_fmap, Hp. Qed.
Lemma standing_named gu w name sl : reg_ok (view w) -> m_GuildMap w !! m_Id gu = Some gu -> GetMemberSlot_named gu name = Some sl ->
  standing w (ms_guid sl) = Some (m_Id gu, ms_RankId sl).
Proof.
  intros Hw Hg Hn. unfold GetMemberSlot_named in Hn. apply fmap_Some in Hn as ([g sl'] & H & E). simpl in E. subst sl'. apply find_some in H as [H _].
  apply list_elem_of_In in H. rewrite members_order_ok in H. apply elem_of_map_to_list in H. simpl in H.
  assert (v_guilds (view w) !! m_Id gu = Some (gview gu)) as Hv by (unfold view; cbn [v_guilds]; by rewrite lookup_fmap, Hg).
  assert (gv_members (gview gu) !! g = Some (slot_view sl)) as Hm by (simpl; by rewrite lookup_fmap, H).
  destruct Hw as [Hb Hgs]. pose proof (go_slots _ (Hgs _ _ Hv) _ _ Hm) as (E & _). simpl in E. subst g.
  assert (m_guid2guild w !! ms_guid sl = Some (m_Id gu)) as Hi by (apply (rb_index _ Hb); eexists; split; [exact Hv|by eexists]).
  unfold standing. rewrite Hi. cbn [mbind option_bind]. rewrite Hg. cbn [mbind option_bind]. by rewrite H.
Qed.

(** A rank that is changed, with its event. *)
Lemma member_ChangeRank g r s t a b c e l m : m_Id (fst s) = m ->
  v_member (view (put_guild m (BroadcastEvent e 0 l (LogGuildEvent t a b c (ChangeRank g r s))))) = alter (fun mr => (fst mr, r)) g (v_member (view (snd s))).
Proof.
  intros <-. set (s2 := BroadcastEvent _ _ _ _). assert (m_Id (fst s2) = m_Id (fst s)) as Hid by done. rewrite <- Hid, view_put_own.
  unfold s2. rewrite sview_event, sview_log, sview_ChangeRank. done.
Qed.
Lemma changed_rank_acts right me w w' self gu g r r' (allowed : Guild -> Z -> Z -> option Z -> Prop) : reg_ok (view w) -> reg_ok (view w') ->
  w_players w !! me = Some self -> m_GuildMap w !! pl_guildId self = Some gu -> HasRankRight gu (pl_rank self) right = true ->
  standing w g = Some (pl_guildId self, r) -> pl_rank self < r -> allowed gu (pl_rank self) r (Some r') ->
  v_member (view w') = alter (fun mr => (fst mr, r')) g (v_member (view w)) -> acts_below right me w w' allowed.
Proof.
  intros Hw Hw' Hp Hg Hr Hs Hlt Ha Hv. right. exists self, gu, g, r, (Some r'). do 6 (split; [done|]). split.
  - rewrite standing_member, Hv, lookup_alter_eq, <- standing_member by done. by rewrite Hs.
  - intros g' Hne. rewrite !standing_member, Hv by done. by rewrite lookup_alter_ne.
Qed.
Lemma promote_acts me name w : reg_ok (view w) -> acts_below GR_RIGHT_PROMOTE me w (HandleGuildPromoteOpcode me name w)
  (fun gu mine r new => mine + 1 < r /\ new = Some (r - 1)).
Proof.
  intros Hw. pose proof (Promote_ok me name w Hw) as Hw'. revert Hw'. unfold HandleGuildPromoteOpcode. destruct (norm_name name) as [plName|]; [|intros; quiet].
  intros Hw'. apply with_guild_acts; [done|]. intros self gu Hp Hg Hid Hv Hok. unfold with_guild, GetGuildById in Hw'. rewrite Hp, Hg in Hw'. revert Hw'.
  destruct (HasRankRight gu (pl_rank self) GR_RIGHT_PROMOTE) eqn:HR; [|intros; quiet]. cbn [negb].
  destruct (GetMemberSlot_named gu plName) as [sl|] eqn:En; [|intros; quiet]. destruct (ms_guid sl =? me); [intros; quiet|].
  destruct (ms_RankId sl <=? u32 (pl_rank self + 1)) eqn:G; [intros; quiet|]. cbn zeta. intros Hw'.
  pose proof (self_rank _ _ _ Hw Hp). destruct (named_slot gu plName sl Hok En) as (_ & Hrr & _). apply Z.leb_gt in G. unfold u32 in G at 1. rewrite Z.mod_small in G by lia.
  rewrite <- Hid in Hg. pose proof (standing_named gu w plName sl Hw Hg En) as Hst. rewrite Hid in Hst, Hg.
  assert (u32 (ms_RankId sl - 1) = ms_RankId sl - 1) as Hu by (apply Z.mod_small; lia).
  eapply (changed_rank_acts _ _ _ _ self gu (ms_guid sl) (ms_RankId sl)); [done|exact Hw'|done|done|done|done|lia| |by apply member_ChangeRank].
  by rewrite Hu.
Qed.
Lemma demote_acts me name w : reg_ok (view w) -> acts_below GR_RIGHT_DEMOTE me w (HandleGuildDemoteOpcode me name w)
  (fun gu mine r new => r < GetLowestRank gu /\ new = Some (r + 1)).
Proof.
  intros Hw. pose proof (Demote_ok me name w Hw) as Hw'. revert Hw'. unfold HandleGuildDemoteOpcode. destruct (norm_name name) as [plName|]; [|intros; quiet].
  intros Hw'. apply with_guild_acts; [done|]. intros self gu Hp Hg Hid Hv Hok. unfold with_guild, GetGuildById in Hw'. rewrite Hp, Hg in Hw'. revert Hw'.
  destruct (HasRankRight gu (pl_rank self) GR_RIGHT_DEMOTE) eqn:HR; [|intros; quiet]. cbn [negb].
  destruct (GetMemberSlot_named gu plName) as [sl|] eqn:En; [|intros; quiet]. destruct (ms_guid sl =? me); [intros; quiet|].
  destruct (ms_RankId sl <=? pl_rank self) eqn:G; [intros; quiet|]. destruct (GetLowestRank gu <=? ms_RankId sl) eqn:G2; [intros; quiet|].
  cbn zeta. intros Hw'. pose proof (self_rank _ _ _ Hw Hp). pose proof (lowest_rank_range _ Hok). apply Z.leb_gt in G, G2.
  rewrite <- Hid in Hg. pose proof (standing_named gu w plName sl Hw Hg En) as Hst. rewrite Hid in Hst, Hg.
  assert (u32 (ms_RankId sl + 1) = ms_RankId sl + 1) as Hu by (apply Z.mod_small; lia).
  eapply (changed_rank_acts _ _ _ _ self gu (ms_guid sl) (ms_RankId sl)); [done|exact Hw'|done|done|done|done|lia| |by apply member_ChangeRank].
  by rewrite Hu.
Qed.
(** Somebody other than the leader is taken off the list; the guild goes on. *)
Lemma DelMember_other g s : reg_ok (sview s) -> g <> m_LeaderGuid (fst s) -> m_guid2guild (snd s) !! g = Some (m_Id (fst s)) ->
  fst (DelMember g false s) = false /\ m_Id (fst (snd (DelMember g false s))) = m_Id (fst s) /\
  v_member (sview (snd (DelMember g false s))) = delete g (v_member (view (snd s))).
Proof.
  intros Hs Hne Hi. destruct (DelMember g false s) as [gone s'] eqn:E.
  assert (DelMember g false s = remove_member g false s) as Er.
  { unfold DelMember. rewrite andb_true_r. destruct (Z.eqb_spec (m_LeaderGuid (fst s)) g); [congruence|done]. }
  rewrite Er in E. cbn [fst snd]. pose proof (f_equal snd E) as E2. cbn [snd] in E2. subst s'.
  split; [|split; [apply mId_remove_member|by rewrite sview_remove_member]].
  apply reg_ok_hand in Hs as [Hh [Hl _ _ _]]. pose proof (f_equal fst E) as E1. cbn [fst] in E1. subst gone. unfold remove_member. cbn zeta. cbn [fst].
  apply bool_decide_eq_false. set (s2 := on_guild _ _).
  assert (members (fst s2) !! m_LeaderGuid (fst s) = members (fst s) !! m_LeaderGuid (fst s)) as Hm.
  { unfold s2. destruct (FindPlayer _ g); simpl; by rewrite lookup_delete_ne. }
  intros He. rewrite He, lookup_empty in Hm. change (snd <$> (slot_view <$> members (fst s)) !! m_LeaderGuid (fst s) = Some 0) in Hl.
  rewrite lookup_fmap, <- Hm in Hl. done.
Qed.
Lemma remove_acts me name w : reg_ok (view w) -> acts_below GR_RIGHT_REMOVE me w (HandleGuildRemoveOpcode me name w)
  (fun gu mine r new => new = None).
Proof.
  intros Hw. pose proof (Remove_ok me name w Hw) as Hw'. revert Hw'. unfold HandleGuildRemoveOpcode. destruct (norm_name name) as [plName|]; [|intros; quiet].
  destruct (negb _); [intros; quiet|].
  intros Hw'. apply with_guild_acts; [done|]. intros self gu Hp Hg Hid Hv Hok. unfold with_guild, GetGuildById in Hw'. rewrite Hp, Hg in Hw'. revert Hw'.
  destruct (HasRankRight gu (pl_rank self) GR_RIGHT_REMOVE) eqn:HR; [|intros; quiet]. cbn [negb].
  destruct (GetMemberSlot_named gu plName) as [sl|] eqn:En; [|intros; quiet].
  destruct (ms_RankId sl =? GR_GUILDMASTER) eqn:G; [intros; quiet|]. destruct (ms_RankId sl <=? pl_rank self) eqn:G2; [intros; quiet|].
  apply Z.eqb_neq in G. apply Z.leb_gt in G2. destruct (named_slot gu plName sl Hok En) as (Hm & Hrr & Hl).
  rewrite <- Hid in Hg. pose proof (standing_named gu w plName sl Hw Hg En) as Hst. rewrite Hid in Hst, Hg.
  assert (reg_ok (sview (gu, w))) as Hr by by rewrite Hv. pose proof (proj1 (reg_ok_hand _) Hr) as [Hh _].
  pose proof (hand_member (gu, w) (ms_guid sl) Hh Hm) as Hi.
  destruct (DelMember_other (ms_guid sl) (gu, w) Hr) as (E1 & E2 & E3); [naive_solver|done|].
  destruct (DelMember (ms_guid sl) false (gu, w)) as [gone s'] eqn:ED. cbn [fst snd] in E1, E2, E3. subst gone. unfold disband_if.
  set (s2 := BroadcastEvent _ _ _ _). intros Hw'. assert (m_Id (fst s2) = pl_guildId self) as Hid2 by (unfold s2; destruct s'; simpl in *; congruence).
  assert (v_member (view (put_guild (pl_guildId self) s2)) = delete (ms_guid sl) (v_member (view w))) as Hm2.
  { rewrite <- Hid2, view_put_own. unfold s2. rewrite sview_event, sview_log. exact E3. }
  right. exists self, gu, (ms_guid sl), (ms_RankId sl), None. do 6 (split; [done|]). split.
  - by rewrite standing_member, Hm2, lookup_delete_eq.
  - intros g' Hne. rewrite !standing_member, Hm2 by done. by rewrite lookup_delete_ne.
Qed.
(** The request that is entitled_request to its change. *)
Record entitled_request (right : Z) (me : Z) (name : string) (w : GW) (self : GPlayer) (gu : Guild) (n : string) (sl : MemberSlot) : Prop := {
  en_self : w_players w !! me = Some self;
  en_guild : m_GuildMap w !! pl_guildId self = Some gu;
  en_name : norm_name name = Some n;
  en_slot : GetMemberSlot_named gu n = Some sl;
  en_right : HasRankRight gu (pl_rank self) right = true
}.
Lemma entitled_standing right me name w self gu n sl : reg_ok (view w) -> entitled_request right me name w self gu n sl ->
  standing w (ms_guid sl) = Some (pl_guildId self, ms_RankId sl) /\ 0 <= pl_rank self < 256 /\ 0 <= ms_RankId sl < 256 /\ gview_ok (gview gu) /\
  m_Id gu = pl_guildId self /\ sview (gu, w) = view w.
Proof.
  intros Hw [Hp Hg Hn Hs _]. destruct (registered _ _ _ Hw Hg) as [Hid Hv]. assert (gview_ok (gview gu)) as Hok by (apply (proj1 (reg_ok_hand (gu, w))); by rewrite Hv).
  split; [|split; [by apply (self_rank me w)|split; [by apply (named_slot gu n)|done]]]. rewrite <- Hid in *. by apply (standing_named gu w n).
Qed.
Lemma promote_rows me name w self gu n sl : reg_ok (view w) -> entitled_request GR_RIGHT_PROMOTE me name w self gu n sl ->
  ms_guid sl <> me -> pl_rank self + 1 < ms_RankId sl ->
  v_member (view (HandleGuildPromoteOpcode me name w)) = alter (fun mr => (fst mr, ms_RankId sl - 1)) (ms_guid sl) (v_member (view w)).
Proof.
  intros Hw He Hne Hlt. destruct (entitled_standing _ _ _ _ _ _ _ _ Hw He) as (_ & Hp & Hs & _ & Hid & _). destruct He as [H1 H2 H3 H4 H5].
  unfold HandleGuildPromoteOpcode, with_guild, GetGuildById. rewrite H3, H1, H2, H5, H4, (proj2 (Z.eqb_neq _ _) Hne). unfold u32 at 1. rewrite Z.mod_small by lia.
  rewrite (proj2 (Z.leb_gt _ _)) by lia. cbn [negb]. cbn zeta. rewrite member_ChangeRank by done. unfold u32. by rewrite Z.mod_small by lia.
Qed.
Lemma demote_rows me name w self gu n sl : reg_ok (view w) -> entitled_request GR_RIGHT_DEMOTE me name w self gu n sl ->
  ms_guid sl <> me -> pl_rank self < ms_RankId sl < GetLowestRank gu ->
  v_member (view (HandleGuildDemoteOpcode me name w)) = alter (fun mr => (fst mr, ms_RankId sl + 1)) (ms_guid sl) (v_member (view w)).
Proof.
  intros Hw He Hne Hlt. destruct (entitled_standing _ _ _ _ _ _ _ _ Hw He) as (_ & Hp & Hs & Hok & Hid & _). destruct He as [H1 H2 H3 H4 H5].
  unfold HandleGuildDemoteOpcode, with_guild, GetGuildById. rewrite H3, H1, H2, H5, H4, (proj2 (Z.eqb_neq _ _) Hne).
  rewrite !(proj2 (Z.leb_gt _ _)) by lia. cbn [negb]. cbn zeta. rewrite member_ChangeRank by done. unfold u32. by rewrite Z.mod_small by lia.
Qed.

Lemma remove_rows me name w self gu n sl : reg_ok (view w) -> entitled_request GR_RIGHT_REMOVE me name w self gu n sl -> pl_inWorld self = true ->
  pl_rank self < ms_RankId sl ->
  v_member (view (HandleGuildRemoveOpcode me name w)) = delete (ms_guid sl) (v_member (view w)).
Proof.
  intros Hw He Hin Hlt. destruct (entitled_standing _ _ _ _ _ _ _ _ Hw He) as (Hst & Hp & Hs & Hok & Hid & Hv). destruct He as [H1 H2 H3 H4 H5].
  destruct (named_slot gu n sl Hok H4) as (Hm & _ & Hl). assert (reg_ok (sview (gu, w))) as Hr by by rewrite Hv.
  destruct (DelMember_other (ms_guid sl) (gu, w) Hr) as (E1 & E2 & E3).
  { intros E. apply Hl in E. lia. }
  { apply hand_member; [by apply reg_ok_hand|done]. }
  unfold HandleGuildRemoveOpcode, with_guild, GetGuildById, GR_GUILDMASTER. rewrite H3, H1. cbn [from_option]. rewrite Hin, H2, H5, H4. cbn [negb].
  rewrite (proj2 (Z.eqb_neq (ms_RankId sl) 0)), (proj2 (Z.leb_gt _ _)) by lia.
  destruct (DelMember (ms_guid sl) false (gu, w)) as [gone s']. cbn [fst snd] in *. subst gone. unfold disband_if.
  set (s2 := BroadcastEvent _ _ _ _). assert (m_Id (fst s2) = pl_guildId self) as Hid2 by (unfold s2; destruct s'; simpl in *; congruence).
  rewrite <- Hid2, view_put_own. unfold s2. by rewrite sview_event, sview_log.
Qed.

(** An entitled_request request does what it asks for. *)
Lemma promote_done me name w self gu n sl : reg_ok (view w) -> entitled_request GR_RIGHT_PROMOTE me name w self gu n sl ->
  ms_guid sl <> me -> pl_rank self + 1 < ms_RankId sl ->
  standing (HandleGuildPromoteOpcode me name w) (ms_guid sl) = Some (pl_guildId self, ms_RankId sl - 1).
Proof.
  intros Hw He Hne Hlt. destruct (entitled_standing _ _ _ _ _ _ _ _ Hw He) as (Hst & _). rewrite standing_member by by apply Promote_ok.
  rewrite (promote_rows _ _ _ _ _ _ _ Hw He Hne Hlt), lookup_alter_eq, <- standing_member, Hst; done.
Qed.
Lemma demote_done me name w self gu n sl : reg_ok (view w) -> entitled_request GR_RIGHT_DEMOTE me name w self gu n sl ->
  ms_guid sl <> me -> pl_rank self < ms_RankId sl < GetLowestRank gu ->
  standing (HandleGuildDemoteOpcode me name w) (ms_guid sl) = Some (pl_guildId self, ms_RankId sl + 1).
Proof.
  intros Hw He Hne Hlt. destruct (entitled_standing _ _ _ _ _ _ _ _ Hw He) as (Hst & _). rewrite standing_member by by apply Demote_ok.
  rewrite (demote_rows _ _ _ _ _ _ _ Hw He Hne Hlt), lookup_alter_eq, <- standing_member, Hst; done.
Qed.
Lemma remove_done me name w self gu n sl : reg_ok (view w) -> entitled_request GR_RIGHT_REMOVE me name w self gu n sl -> pl_inWorld self = true ->
  pl_rank self < ms_RankId sl -> standing (HandleGuildRemoveOpcode me name w) (ms_guid sl) = None.
Proof.
  intros Hw He Hin Hlt. rewrite standing_member by by apply Remove_ok. by rewrite (remove_rows _ _ _ _ _ _ _ Hw He Hin Hlt), lookup_delete_eq.
Qed.
End facts.
