(* ===== verification/GuildOutcomes.v ===== *)
(** What single operations on guilds achieve: the event log (the last hundred
    events in memory, a ring of rows in the database), the end of a guild (nothing
    of it is left, and nobody else's is touched), and loading (whatever the rows
    say, a guild that is kept has enough ranks, a guild master's rank with all
    rights, members of existing ranks and one leader). *)

From S2P Require Import Prelude CString GuildBankTypes GuildBank GuildBankRequests GuildTypes Petitions Guild GuildMgr GuildHandlers GuildInv GuildEffects GuildJoin GuildSteps.

(** ** Rights *)
Definition is_right (right : Z) : Prop := Z.land right GR_RIGHT_EMPTY = GR_RIGHT_EMPTY.
Lemma bit6 r : Z.land r 64 = if Z.testbit r 6 then 64 else 0.
Proof.
  apply Z.bits_inj'. intros n Hn. change 64 with (2 ^ 6) at 1. rewrite Z.land_spec, Z.pow2_bits_eqb by lia.
  destruct (Z.eqb_spec 6 n) as [<-|Hne]; [by destruct (Z.testbit r 6)|]. rewrite andb_false_r. destruct (Z.testbit r 6); [|by rewrite Z.bits_0].
  change 64 with (2 ^ 6). by rewrite Z.pow2_bits_false by lia.
Qed.
(** The test means the right's own bits, as long as the rank has the bit that
    every right has. *)
Lemma HasRankRight_spec gu rid x : Z.land x GR_RIGHT_EMPTY = 0 ->
  HasRankRight gu rid (Z.lor GR_RIGHT_EMPTY x) = true <->
  Z.land (GetRankRights gu rid) x <> 0 \/ Z.testbit (GetRankRights gu rid) 6 = false.
Proof.
  intros Hx. unfold HasRankRight, GR_RIGHT_EMPTY in *. set (r := GetRankRights gu rid). rewrite Z.land_lor_distr_r, bit6, negb_true_iff, Z.eqb_neq.
  assert (Z.land (Z.land r x) 64 = 0) as Hy by (rewrite <- Z.land_assoc, Hx; apply Z.land_0_r). set (y := Z.land r x) in *.
  assert (y <> 64) by (intros ->; done). destruct (Z.testbit r 6).
  - assert (Z.lor 64 y = 64 + y) as ->; [|naive_solver lia].
    rewrite <- Z.lxor_lor, <- Z.add_nocarry_lxor; [done|by rewrite Z.land_comm..].
  - rewrite Z.lor_0_l. naive_solver.
Qed.
Lemma missing_rank gu rid : GetRanksSize gu <= rid -> GetRankRights gu rid = 0.
Proof. intros H. unfold GetRankRights, GetRanksSize in *. by rewrite lookup_ge_None_2 by lia. Qed.

Section log.
Context {env : GuildEnv} {benv : BankEnv}.

(** ** The event log *)
Record LogArgs := mkLogArgs { la_type : Z; la_guid1 : Z; la_guid2 : Z; la_rank : Z }.
Definition event_of (now : Z) (a : LogArgs) : GuildEventLogEntry :=
  mkEvent (la_type a) (la_guid1 a) (la_guid2 a) (u8 (la_rank a)) (u32 now).
Definition log_all (l : list LogArgs) (s : GS) : GS :=
  foldl (fun s a => LogGuildEvent (la_type a) (la_guid1 a) (la_guid2 a) (la_rank a) s) s l.
Definition last_hundred {A} (l : list A) : list A := drop (length l - Z.to_nat GUILD_EVENTLOG_MAX_RECORDS) l.
Definition log_key (next : Z) (k : nat) : Z := (next + 1 + Z.of_nat k) mod cfg_EventLogCount.

Lemma LogGuildEvent_memory a s : Z.of_nat (length (m_GuildEventLog (fst s))) <= GUILD_EVENTLOG_MAX_RECORDS ->
  m_GuildEventLog (fst (LogGuildEvent (la_type a) (la_guid1 a) (la_guid2 a) (la_rank a) s)) =
  last_hundred (m_GuildEventLog (fst s) ++ [event_of (w_now (snd s)) a]).
Proof.
  destruct s as [gu w]. intros H. unfold LogGuildEvent, last_hundred, GUILD_EVENTLOG_MAX_RECORDS in *. cbn [fst snd] in *. simpl. rewrite length_app. simpl.
  change (Z.to_nat 100) with 100%nat. fold (event_of (w_now w) a). destruct (Z.leb_spec 100 (Z.of_nat (length (m_GuildEventLog gu)))) as [Hle|Hlt].
  - replace (length (m_GuildEventLog gu) + 1 - 100)%nat with 1%nat by lia. by rewrite drop_app_le by lia.
  - by replace (length (m_GuildEventLog gu) + 1 - 100)%nat with 0%nat by lia.
Qed.
Lemma last_hundred_length {A} (l : list A) : Z.of_nat (length (last_hundred l)) <= GUILD_EVENTLOG_MAX_RECORDS.
Proof. unfold last_hundred, GUILD_EVENTLOG_MAX_RECORDS. rewrite length_drop. change (Z.to_nat 100) with 100%nat. lia. Qed.
Lemma last_hundred_app {A} (l k : list A) : last_hundred (last_hundred l ++ k) = last_hundred (l ++ k).
Proof.
  unfold last_hundred. change (Z.to_nat GUILD_EVENTLOG_MAX_RECORDS) with 100%nat. rewrite !length_app, length_drop.
  destruct (decide (length l <= 100)%nat).
  - replace (length l - 100)%nat with 0%nat by lia. by rewrite Nat.sub_0_r.
  - rewrite <- (drop_app_le l k) by lia. rewrite drop_drop. f_equal. lia.
Qed.
Lemma log_all_memory l s : Z.of_nat (length (m_GuildEventLog (fst s))) <= GUILD_EVENTLOG_MAX_RECORDS ->
  m_GuildEventLog (fst (log_all l s)) = last_hundred (m_GuildEventLog (fst s) ++ (event_of (w_now (snd s)) <$> l)).
Proof.
  revert s. induction l as [|a l IH]; intros s Hs.
  - simpl. rewrite app_nil_r. unfold last_hundred. by replace (_ - _)%nat with 0%nat by (change (Z.to_nat GUILD_EVENTLOG_MAX_RECORDS) with 100%nat; unfold GUILD_EVENTLOG_MAX_RECORDS in Hs; lia).
  - unfold log_all. cbn [foldl]. set (s2 := LogGuildEvent _ _ _ _ s). change (foldl _ s2 l) with (log_all l s2).
    pose proof (LogGuildEvent_memory a s Hs) as Hm. fold s2 in Hm. rewrite IH by (rewrite Hm; apply last_hundred_length).
    rewrite Hm, last_hundred_app. assert (w_now (snd s2) = w_now (snd s)) as -> by (unfold s2; by destruct s). by rewrite <- app_assoc.
Qed.

Lemma log_key_S next k : 0 <= next < 2 ^ 32 - 1 -> log_key ((next + 1) mod cfg_EventLogCount) k = log_key next (S k).
Proof.
  intros Hn. unfold log_key. pose proof cfg_EventLogCount_ok as Hc. unfold GUILD_EVENTLOG_MAX_RECORDS in Hc.
  rewrite <- Z.add_assoc, Z.add_mod_idemp_l by lia. f_equal. lia.
Qed.
Lemma log_step a s : 0 <= m_GuildEventLogNextGuid (fst s) < 2 ^ 32 - 1 ->
  let s' := LogGuildEvent (la_type a) (la_guid1 a) (la_guid2 a) (la_rank a) s in
  let key := log_key (m_GuildEventLogNextGuid (fst s)) 0 in
  m_Id (fst s') = m_Id (fst s) /\ w_now (snd s') = w_now (snd s) /\ m_GuildEventLogNextGuid (fst s') = key /\
  db_eventlog (w_db (snd s')) = <[(m_Id (fst s), key) := event_of (w_now (snd s)) a]> (db_eventlog (w_db (snd s))).
Proof.
  intros Hn. destruct s as [gu w]. unfold LogGuildEvent. cbn [fst snd] in *. cbn zeta. simpl.
  assert (u32 (m_GuildEventLogNextGuid gu + 1) = m_GuildEventLogNextGuid gu + 1) as -> by (apply Z.mod_small; lia).
  assert ((m_GuildEventLogNextGuid gu + 1) mod cfg_EventLogCount = log_key (m_GuildEventLogNextGuid gu) 0) as -> by (unfold log_key; f_equal; simpl; lia).
  split; [done|]. split; [done|]. split; [done|]. unfold insert_row. by rewrite lookup_delete_eq, insert_delete_eq.
Qed.
Lemma log_key_range next k : 0 <= next -> 0 <= log_key next k < 2 ^ 32 - 1.
Proof. intros H. pose proof cfg_EventLogCount_ok as Hc. unfold GUILD_EVENTLOG_MAX_RECORDS in Hc. unfold log_key. pose proof (Z.mod_pos_bound (next + 1 + Z.of_nat k) cfg_EventLogCount). lia. Qed.
Lemma log_key_inj next j k : (j < k)%nat -> Z.of_nat k - Z.of_nat j < cfg_EventLogCount -> log_key next j <> log_key next k.
Proof.
  intros Hjk Hd E. unfold log_key in E. pose proof cfg_EventLogCount_ok as Hc. unfold GUILD_EVENTLOG_MAX_RECORDS in Hc.
  assert (cfg_EventLogCount <> 0) as Hnz by lia.
  pose proof (Z.div_mod (next + 1 + Z.of_nat j) cfg_EventLogCount Hnz). pose proof (Z.div_mod (next + 1 + Z.of_nat k) cfg_EventLogCount Hnz).
  set (q1 := (next + 1 + Z.of_nat j) / cfg_EventLogCount) in *. set (q2 := (next + 1 + Z.of_nat k) / cfg_EventLogCount) in *.
  assert (Z.of_nat k - Z.of_nat j = cfg_EventLogCount * (q2 - q1)) as Hm by (rewrite Z.mul_sub_distr_l; lia).
  assert (0 < Z.of_nat k - Z.of_nat j) by lia. destruct (Z.le_gt_cases (q2 - q1) 0); nia.
Qed.
Lemma log_all_step a l s : 0 <= m_GuildEventLogNextGuid (fst s) < 2 ^ 32 - 1 -> exists s2, log_all (a :: l) s = log_all l s2 /\
  m_Id (fst s2) = m_Id (fst s) /\ w_now (snd s2) = w_now (snd s) /\ m_GuildEventLogNextGuid (fst s2) = log_key (m_GuildEventLogNextGuid (fst s)) 0 /\
  db_eventlog (w_db (snd s2)) = <[(m_Id (fst s), log_key (m_GuildEventLogNextGuid (fst s)) 0) := event_of (w_now (snd s)) a]> (db_eventlog (w_db (snd s))).
Proof. intros Hn. eexists. split; [reflexivity|]. by apply log_step. Qed.
Lemma log_keys_shift next k : 0 <= next < 2 ^ 32 - 1 -> log_key (log_key next 0) k = log_key next (S k).
Proof. intros Hn. rewrite <- log_key_S by done. f_equal. unfold log_key. f_equal. simpl. lia. Qed.

(** What the ring does not reach stays. *)
Lemma log_all_others l s id key : 0 <= m_GuildEventLogNextGuid (fst s) < 2 ^ 32 - 1 ->
  (id = m_Id (fst s) -> forall k, (k < length l)%nat -> key <> log_key (m_GuildEventLogNextGuid (fst s)) k) ->
  db_eventlog (w_db (snd (log_all l s))) !! (id, key) = db_eventlog (w_db (snd s)) !! (id, key).
Proof.
  revert s. induction l as [|a l IH]; intros s Hn Hk; [done|]. destruct (log_all_step a l s Hn) as (s2 & -> & Hid & _ & Hnext & Hdb).
  pose proof (log_key_range (m_GuildEventLogNextGuid (fst s)) 0 (proj1 Hn)) as Hr. rewrite IH.
  - rewrite Hdb. apply lookup_insert_ne. intros [= <- E]. by apply (Hk eq_refl 0%nat); [simpl; lia|].
  - rewrite Hnext. lia.
  - rewrite Hid, Hnext. intros Hi k Hlt. rewrite log_keys_shift by done. apply Hk; [done|simpl; lia].
Qed.
(** An event has its row until the ring comes round. *)
Lemma log_all_rows l s j a : 0 <= m_GuildEventLogNextGuid (fst s) < 2 ^ 32 - 1 -> l !! j = Some a ->
  Z.of_nat (length l) - Z.of_nat j <= cfg_EventLogCount ->
  db_eventlog (w_db (snd (log_all l s))) !! (m_Id (fst s), log_key (m_GuildEventLogNextGuid (fst s)) j) = Some (event_of (w_now (snd s)) a).
Proof.
  revert s j. induction l as [|b l IH]; intros s j Hn Hj Hlen; [done|]. destruct (log_all_step b l s Hn) as (s2 & -> & Hid & Hnow & Hnext & Hdb).
  pose proof (log_key_range (m_GuildEventLogNextGuid (fst s)) 0 (proj1 Hn)) as Hr. destruct j as [|j].
  - injection Hj as ->. rewrite log_all_others.
    + by rewrite Hdb, lookup_insert_eq.
    + rewrite Hnext. lia.
    + rewrite Hnext. intros _ k Hk. rewrite log_keys_shift by done. apply log_key_inj; [lia|]. simpl in Hlen. lia.
  - simpl in Hj. rewrite <- log_keys_shift, <- Hid, <- Hnext, <- Hnow by done. apply IH; [rewrite Hnext; lia|done|simpl in Hlen; lia].
Qed.
End log.

(** The end of a guild: nothing of it is left, and nobody else's is touched. *)

Section gone.
Context {env : GuildEnv} {benv : BankEnv}.

Lemma here_upd_player g f w g' : (forall p, pl_inWorld (f p) = pl_inWorld p) -> here (upd_player g f w) g' = here w g'.
Proof.
  intros Hf. unfold here, FindPlayer, FindPlayerNotInWorld, upd_player. simpl. apply bool_decide_ext.
  destruct (decide (g' = g)) as [->|]; [rewrite lookup_alter_eq|by rewrite lookup_alter_ne]. destruct (w_players w !! g) as [p|]; [|done]. simpl.
  rewrite Hf. destruct (pl_inWorld p); [|done]. split; by eexists.
Qed.
Lemma here_remove g d s g' : here (snd (snd (remove_member g d s))) g' = here (snd s) g'.
Proof.
  unfold remove_member. cbn zeta. set (s2 := on_world (GuildMemberRemoved g) _). assert (here (snd s2) g' = here (snd s) g') as H by done. rewrite <- H. clear H.
  destruct (FindPlayer (snd s2) g); destruct d; try done; cbn [snd on_world on_guild]; exact (here_upd_player g (fun p => set_pl_rank 0 (set_pl_guildId 0 p)) (snd s2) g' (fun p => eq_refl)).
Qed.

(** Everybody on the list is out, and what the list does not name is as it was. *)
Record all_out (l : list Z) (s s' : GS) : Prop := {
  ao_id : m_Id (fst s') = m_Id (fst s);
  ao_guilds : m_GuildMap (snd s') = m_GuildMap (snd s);
  ao_here : forall g, here (snd s') g = here (snd s) g;
  ao_member : forall g, v_member (view (snd s')) !! g = if bool_decide (g ∈ l) then None else v_member (view (snd s)) !! g;
  ao_index : forall g, m_guid2guild (snd s') !! g = if bool_decide (g ∈ l) then None else m_guid2guild (snd s) !! g;
  ao_players : forall g, v_players (view (snd s')) !! g =
    (fun p => if bool_decide (g ∈ l) && here (snd s) g then (0, 0) else p) <$> v_players (view (snd s)) !! g;
  ao_rows : db_eventlog (w_db (snd s')) = db_eventlog (w_db (snd s)) /\ db_bank (w_db (snd s')) = db_bank (w_db (snd s)) /\
            v_rank (view (snd s')) = v_rank (view (snd s)) /\ db_guild (w_db (snd s')) = db_guild (w_db (snd s))
}.
Lemma remove_out g s : all_out [g] s (snd (remove_member g true s)).
Proof.
  pose proof (sview_remove_member g true s) as Hv. assert (forall g', bool_decide (g' ∈ [g]) = bool_decide (g' = g)) as Hin.
  { intros g'. apply bool_decide_ext. apply list_elem_of_singleton. }
  split.
  - apply mId_remove_member.
  - unfold remove_member. cbn zeta. by destruct (FindPlayer _ g).
  - intros g'. apply here_remove.
  - intros g'. change (v_member (sview (snd (remove_member g true s))) !! g' = if bool_decide (g' ∈ [g]) then None else v_member (sview s) !! g').
    rewrite Hv, Hin. unfold v_leave. cbn [v_member]. case_bool_decide as Hd; [subst; apply lookup_delete_eq|by rewrite lookup_delete_ne].
  - intros g'. rewrite index_remove, Hin. case_bool_decide as Hd; [subst; apply lookup_delete_eq|by rewrite lookup_delete_ne].
  - intros g'. change (v_players (sview (snd (remove_member g true s))) !! g' =
      (fun p => if bool_decide (g' ∈ [g]) && here (snd s) g' then (0, 0) else p) <$> v_players (sview s) !! g').
    rewrite Hv, Hin. unfold v_leave. cbn [v_players]. case_bool_decide as Hd; simpl.
    + subst g'. destruct (here (snd s) g); [by rewrite lookup_alter_eq|exact (eq_sym (option_fmap_id _))].
    + destruct (here (snd s) g); [rewrite lookup_alter_ne by done|]; exact (eq_sym (option_fmap_id _)).
  - unfold remove_member. cbn zeta. by destruct (FindPlayer _ g).
Qed.
Lemma all_out_cons g l s1 s2 s3 : all_out [g] s1 s2 -> all_out l s2 s3 -> all_out (g :: l) s1 s3.
Proof.
  intros [A1 A2 A3 A4 A5 A6 A7] [B1 B2 B3 B4 B5 B6 B7].
  assert (forall g', bool_decide (g' ∈ g :: l) = bool_decide (g' ∈ l) || bool_decide (g' ∈ [g])) as Hin.
  { intros g'. rewrite <- bool_decide_or. apply bool_decide_ext. rewrite elem_of_cons, list_elem_of_singleton. naive_solver. }
  split.
  - congruence.
  - congruence.
  - intros g'. by rewrite B3.
  - intros g'. rewrite B4, A4, Hin. by destruct (bool_decide (g' ∈ l)).
  - intros g'. rewrite B5, A5, Hin. by destruct (bool_decide (g' ∈ l)).
  - intros g'. rewrite B6, A6, A3, Hin. destruct (v_players (view (snd s1)) !! g') as [p|]; [|done]. simpl. f_equal.
    by destruct (bool_decide (g' ∈ l)), (bool_decide (g' ∈ [g])), (here (snd s1) g').
  - naive_solver congruence.
Qed.
Lemma leave_all_out l s : all_out (fst <$> l) s (leave_all l s).
Proof.
  revert s. induction l as [|gs l IH]; intros s.
  - simpl. split; try done. intros g. by destruct (_ !! g).
  - unfold leave_all. cbn [foldl]. rewrite DelMember_disbanding. cbn [fmap list_fmap]. eapply all_out_cons; [apply remove_out|apply IH].
Qed.
Definition no_bank_rows (id : Z) (b : BankDB) : Prop :=
  (forall k r, guild_bank b !! k = Some r -> fst (fst k) <> id) /\ (forall k r, guild_bank_money b !! k = Some r -> fst k <> id) /\
  (forall r, r ∈ guild_bank_tabs b -> tr_guildid r <> id) /\ (forall r, r ∈ guild_bank_log b -> lr_guildid r <> id).
Lemma no_bank_rows_delete id b : no_bank_rows id (b_db b) -> no_bank_rows id (b_db (DeleteFromDB b)).
Proof.
  intros (H1 & H2 & H3 & H4). unfold DeleteFromDB. cbn zeta. split; [|split; [|split]]; simpl.
  - intros k r [H _]%map_lookup_filter_Some. by apply (H1 k r).
  - intros k r [_ H]%lookup_delete_Some. by apply (H2 k r).
  - intros r Hr. apply list_elem_of_In, filter_In in Hr as [Hr _]. by apply H3, list_elem_of_In.
  - intros r Hr. apply list_elem_of_In, filter_In in Hr as [Hr _]. by apply H4, list_elem_of_In.
Qed.
Lemma no_bank_rows_rows id db : no_bank_rows id (db_bank (delete_guild_rows id db)).
Proof.
  split; [|split; [|split]]; simpl.
  - by intros k r [_ H]%map_lookup_filter_Some.
  - by intros k r [_ H]%map_lookup_filter_Some.
  - intros r Hr. apply list_elem_of_In, filter_In in Hr as [_ Hr]. by apply negb_true_iff, Z.eqb_neq in Hr.
  - intros r Hr. apply list_elem_of_In, filter_In in Hr as [_ Hr]. by apply negb_true_iff, Z.eqb_neq in Hr.
Qed.
Definition only_bank (s s' : GS) : Prop :=
  db_eventlog (w_db (snd s')) = db_eventlog (w_db (snd s)) /\ db_guild (w_db (snd s')) = db_guild (w_db (snd s)) /\
  db_rank (w_db (snd s')) = db_rank (w_db (snd s)) /\ m_GuildMap (snd s') = m_GuildMap (snd s) /\ w_players (snd s') = w_players (snd s) /\
  m_Id (fst s') = m_Id (fst s).
Lemma bank_deleted id s : no_bank_rows id (db_bank (w_db (snd s))) -> no_bank_rows id (db_bank (w_db (snd (on_bank DeleteFromDB s)))) /\ only_bank s (on_bank DeleteFromDB s).
Proof. intros H. unfold on_bank. destruct (_Bank (fst s)) as [b|]; [|done]. unfold run_bank. split; [by apply no_bank_rows_delete|done]. Qed.
Lemma inferno_deleted id s : no_bank_rows id (db_bank (w_db (snd s))) -> no_bank_rows id (db_bank (w_db (snd (on_inferno DeleteFromDB s)))) /\ only_bank s (on_inferno DeleteFromDB s).
Proof. intros H. unfold on_inferno. destruct (_InfernoBank (fst s)) as [b|]; [|done]. unfold run_bank. split; [by apply no_bank_rows_delete|done]. Qed.

(** Nothing of guild [id] is left, everything else is as it was. *)
Record guild_gone (id : Z) (w w' : GW) : Prop := {
  gg_map : m_GuildMap w' = delete id (m_GuildMap w);
  gg_index : forall g, m_guid2guild w' !! g = if bool_decide (m_guid2guild w !! g = Some id) then None else m_guid2guild w !! g;
  gg_member : forall g, member_view <$> db_member (w_db w') !! g =
    if bool_decide (m_guid2guild w !! g = Some id) then None else member_view <$> db_member (w_db w) !! g;
  gg_players : forall g, player_view <$> w_players w' !! g =
    (fun p => if bool_decide (m_guid2guild w !! g = Some id) && here w g then (0, 0) else player_view p) <$> w_players w !! g;
  gg_rows : db_guild (w_db w') = delete id (db_guild (w_db w)) /\
    (forall k rid, db_rank (w_db w') !! (k, rid) = if decide (k = id) then None else db_rank (w_db w) !! (k, rid)) /\
    (forall k e, db_eventlog (w_db w') !! (k, e) = if decide (k = id) then None else db_eventlog (w_db w) !! (k, e));
  gg_bank : no_bank_rows id (db_bank (w_db w'))
}.
Lemma filter_first {A} (id : Z) (m : gmap (Z * Z) A) (k x : Z) : filter (fun kr : Z * Z * A => fst (fst kr) <> id) m !! (k, x) = if decide (k = id) then None else m !! (k, x).
Proof. apply option_eq. intros a. rewrite map_lookup_filter_Some. simpl. case_decide; naive_solver. Qed.
Lemma Disband_gone gu w id : reg_ok (view w) -> m_GuildMap w !! id = Some gu -> guild_gone id w (snd (Disband (gu, w))).
Proof.
  intros Hw Hg. destruct (registered _ _ _ Hw Hg) as [Hid Hv]. set (s1 := BroadcastEvent GE_DISBANDED 0 [] (gu, w)).
  pose proof (leave_all_out (members_order (members gu)) s1) as [A1 A2 A3 A4 A5 A6 (A7 & A8 & A9 & A10)].
  set (s2 := leave_all _ s1) in *. change (m_Id (fst s1)) with (m_Id gu) in A1. rewrite Hid in A1.
  assert (forall g, bool_decide (g ∈ fst <$> members_order (members gu)) = bool_decide (m_guid2guild w !! g = Some id)) as Hin.
  { intros g. apply bool_decide_ext. rewrite members_order_ok, list_elem_of_fmap. change (m_guid2guild w) with (v_index (view w)).
    rewrite (rb_index _ (ro_base _ Hw)). unfold v_member_of, view. cbn [v_guilds]. rewrite lookup_fmap, Hg. simpl. split.
    - intros ([g' sl] & -> & H%elem_of_map_to_list). eexists. split; [reflexivity|]. simpl. rewrite lookup_fmap, H. by eexists.
    - intros (gv & [= <-] & Hm). simpl in Hm. rewrite lookup_fmap in Hm. apply fmap_is_Some in Hm as [sl Hm]. exists (g, sl).
      by rewrite elem_of_map_to_list. }
  set (s3 := on_world (upd_db (delete_guild_rows id)) s2). pose proof (no_bank_rows_rows id (w_db (snd s2))) as N3.
  destruct (bank_deleted id s3 N3) as [N4 (B1 & B2 & B3 & B4 & B5 & B6)]. destruct (inferno_deleted id _ N4) as [N5 (C1 & C2 & C3 & C4 & C5 & C6)].
  set (s5 := on_inferno DeleteFromDB _) in *. assert (snd (Disband (gu, w)) = RemoveGuild id (snd s5)) as HD.
  { unfold Disband. cbn zeta. fold s1. change (foldl _ s1 _) with s2. rewrite A1. fold s3. fold s5.
    rewrite C6, B6. change (m_Id (fst s3)) with (m_Id (fst s2)). by rewrite A1. }
  rewrite HD.
  assert (view (RemoveGuild id (snd s5)) = v_erase id (sview s2)) as HV by (rewrite <- HD, view_Disband; change (m_Id (fst (gu, w))) with (m_Id gu); by rewrite Hid).
  split.
  - cbn [RemoveGuild m_GuildMap set_m_GuildMap]. unfold RemoveGuild. simpl. rewrite C4, B4. exact (f_equal (delete id) A2).
  - intros g. change (v_index (view (RemoveGuild id (snd s5))) !! g = if bool_decide (m_guid2guild w !! g = Some id) then None else m_guid2guild w !! g).
    rewrite HV, <- Hin. exact (A5 g).
  - intros g. rewrite <- !lookup_fmap. change (v_member (view (RemoveGuild id (snd s5))) !! g = if bool_decide (m_guid2guild w !! g = Some id) then None else v_member (view w) !! g).
    rewrite HV, <- Hin. exact (A4 g).
  - intros g. rewrite <- lookup_fmap. change (v_players (view (RemoveGuild id (snd s5))) !! g = (fun p => if bool_decide (m_guid2guild w !! g = Some id) && here w g then (0, 0) else player_view p) <$> w_players w !! g).
    rewrite HV, <- Hin. etrans; [exact (A6 g)|]. change (v_players (view (snd s1))) with (player_view <$> w_players w). rewrite lookup_fmap. by destruct (w_players w !! g).
  - change (w_db (RemoveGuild id (snd s5))) with (w_db (snd s5)). rewrite C1, C2, C3, B1, B2, B3. split; [exact (f_equal (delete id) A10)|]. split.
    + intros k rid. etrans; [exact (filter_first id (db_rank (w_db (snd s2))) k rid)|]. change (db_rank (w_db (snd s2)) = db_rank (w_db w)) in A9. by rewrite A9.
    + intros k e. etrans; [exact (filter_first id (db_eventlog (w_db (snd s2))) k e)|]. by rewrite A7.
  - exact N5.
Qed.
End gone.

(** Loading a guild: whatever the rows say, a guild that is kept has enough
    ranks, a guild master's rank with all rights, members of existing ranks and
    one leader. *)

Definition ranks_loaded (gu : Guild) : Prop :=
  GUILD_RANKS_MIN_COUNT <= GetRanksSize gu /\ exists r, head (m_Ranks gu) = Some r /\ Z.land (ri_Rights r) GR_RIGHT_ALL = GR_RIGHT_ALL.
Definition slots_loaded (gu : Guild) : Prop :=
  forall g sl, members gu !! g = Some sl -> ms_guid sl = g /\ 0 <= ms_RankId sl < Z.min 256 (GetRanksSize gu).
Definition one_leader (gu : Guild) : Prop :=
  (exists sl, members gu !! m_LeaderGuid gu = Some sl /\ ms_RankId sl = GR_GUILDMASTER) /\
  forall g sl, members gu !! g = Some sl -> ms_RankId sl = GR_GUILDMASTER -> g = m_LeaderGuid gu.

Section loading.
Context {env : GuildEnv} {benv : BankEnv}.

(** ** Ranks *)
Definition master_ranks (l : list RankInfo) : Prop :=
  match head l with Some r => Z.land (ri_Rights r) GR_RIGHT_ALL = GR_RIGHT_ALL | None => True end.
Lemma load_ranks_master rows broken s : master_ranks (m_Ranks (fst s)) ->
  master_ranks (m_Ranks (fst (snd (load_ranks rows broken s)))) /\ members (fst (snd (load_ranks rows broken s))) = members (fst s).
Proof.
  revert broken s. induction rows as [|[[id rid] ri] rows IH]; intros broken s Hs; [done|]. cbn [load_ranks].
  destruct (id <? m_Id (fst s)); [exact (IH broken (on_world (upd_db (delete_rank_rows id)) s) Hs)|]. destruct (m_Id (fst s) <? id); [done|].
  set (s2 := on_guild _ s). destruct (IH (broken || negb (rid =? GetRanksSize (fst s))) s2) as [H1 H2]; [|split; [exact H1|by rewrite H2]].
  unfold s2. destruct s as [gu w]. cbn [on_guild fst snd AddRank set_m_Ranks m_Ranks] in *. case_bool_decide as He.
  - rewrite He. unfold master_ranks. simpl. rewrite Z.land_lor_distr_l, Z.land_diag. apply Z.bits_inj'. intros n Hn.
    rewrite Z.lor_spec, Z.land_spec. by destruct (Z.testbit (ri_Rights ri) n), (Z.testbit GR_RIGHT_ALL n).
  - by destruct (m_Ranks gu).
Qed.
Lemma LoadRanks_ok rows s : m_Ranks (fst s) = [] -> ranks_loaded (fst (snd (LoadRanksFromDB rows s))) /\
  members (fst (snd (LoadRanksFromDB rows s))) = members (fst s).
Proof.
  intros He. assert (forall t, m_Ranks (fst t) = [] -> ranks_loaded (fst (CreateDefaultGuildRanks 0 t)) /\ members (fst (CreateDefaultGuildRanks 0 t)) = members (fst t)) as Hd.
  { intros t Ht. rewrite default_ranks_fst by done. split; [|done]. split; [done|]. by eexists. }
  destruct rows as [rows|]; cbn [LoadRanksFromDB]; [|by apply Hd]. destruct (load_ranks_master rows false s) as [Hm Hk]; [by rewrite He|].
  destruct (load_ranks rows false s) as [[broken rest] s2]. cbn [fst snd] in Hm, Hk.
  destruct (Z.ltb_spec (GetRanksSize (fst s2)) GUILD_RANKS_MIN_COUNT) as [Hlt|Hge]; cbn [snd].
  - destruct (Hd (on_guild (set_m_Ranks []) s2) eq_refl) as [H1 H2]. split; [done|]. by rewrite H2.
  - assert (ranks_loaded (fst s2)) as Hr.
    { split; [done|]. unfold master_ranks in Hm. unfold GetRanksSize, GUILD_RANKS_MIN_COUNT in Hge. destruct (m_Ranks (fst s2)) as [|r l]; [done|]. by exists r. }
    by destruct broken.
Qed.

(** ** Members *)
Definition rows_ok (rows : list MemberFields) : Prop := Forall (fun row => 0 <= mr_rank (snd (fst row)) < 256) rows.
Lemma load_members_ok rows s : rows_ok rows -> ranks_loaded (fst s) -> slots_loaded (fst s) ->
  ranks_loaded (fst (snd (load_members rows s))) /\ slots_loaded (fst (snd (load_members rows s))).
Proof.
  revert s. induction rows as [|[[[id g] r] c] rows IH]; intros s Hrows Hr Hs; [done|]. apply Forall_cons in Hrows as [H0 Hrows]. cbn [load_members].
  destruct (id <? m_Id (fst s)); [exact (IH (on_world (upd_db (delete_member_rows id)) s) Hrows Hr Hs)|]. destruct (m_Id (fst s) <? id); [done|]. apply IH; [done|..].
  - unfold load_member. cbn zeta. by destruct (negb _ || _).
  - unfold load_member. cbn zeta. set (sl := if _ =? 0 then _ else _). destruct (negb _ || _); [done|].
    assert (ms_guid sl = g /\ 0 <= ms_RankId sl < Z.min 256 (GetRanksSize (fst s))) as Hsl.
    { assert (ms_guid sl = g /\ ms_RankId sl = ms_RankId (loaded_slot g r c (fst s))) as [-> ->] by (unfold sl; by destruct (_ =? 0)).
      split; [done|]. simpl in H0. unfold loaded_slot. cbn [ms_RankId]. destruct Hr as [Hr _]. unfold GUILD_RANKS_MIN_COUNT in Hr.
      destruct (Z.leb_spec (GetRanksSize (fst s)) (mr_rank r)); [|lia]. unfold GetLowestRank, u32. unfold GetRanksSize in *. rewrite Z.mod_small; lia. }
    intros g' sl'. cbn [on_world on_guild fst members set_members]. intros [[<- <-]|[_ H]]%lookup_insert_Some; [exact Hsl|by apply Hs].
Qed.

(** ** The leader *)
Record structure (gv : GView) : Prop := {
  st_slots : forall g sl, gv_members gv !! g = Some sl -> fst sl = g /\ 0 <= snd sl < Z.min 256 (Z.of_nat (length (gv_ranks gv)));
  st_ranks : 5 <= Z.of_nat (length (gv_ranks gv))
}.
Lemma structure_rank g r gv : structure gv -> 0 <= r < 5 -> structure (gv_upd_members (alter (fun sl => (fst sl, r)) g) gv).
Proof.
  intros [H1 H2] Hr. split; cbn [gv_upd_members gv_members gv_ranks]; [|done]. intros g' sl. rewrite alter_slot. intros (sl0 & H & ->)%fmap_Some.
  apply H1 in H as [H3 H4]. case_decide; simpl; split; auto; lia.
Qed.
Definition leads (gv : GView) : Prop := snd <$> gv_members gv !! gv_leader gv = Some 0.
Lemma demote_others l s : structure (gview (fst s)) -> leads (gview (fst s)) ->
  (forall gs, gs ∈ l -> ms_guid (snd gs) = fst gs) ->
  (forall g sl, gv_members (gview (fst s)) !! g = Some sl -> snd sl = 0 -> g = m_LeaderGuid (fst s) \/ exists gs, gs ∈ l /\ fst gs = g /\ ms_RankId (snd gs) = 0) ->
  let s' := foldl (demote_other (m_LeaderGuid (fst s))) s l in
  structure (gview (fst s')) /\ leads (gview (fst s')) /\ m_LeaderGuid (fst s') = m_LeaderGuid (fst s) /\ m_Ranks (fst s') = m_Ranks (fst s) /\
  forall g sl, gv_members (gview (fst s')) !! g = Some sl -> snd sl = 0 -> g = m_LeaderGuid (fst s').
Proof.
  revert s. induction l as [|gs l IH]; intros s Hs Hl Hk Hz.
  - do 4 (split; [done|]). intros g sl H H0. destruct (Hz g sl H H0) as [|(gs & Hin & _)]; [done|]. by apply not_elem_of_nil in Hin.
  - cbn [foldl]. assert (demote_other (m_LeaderGuid (fst s)) s gs =
      if (ms_RankId (snd gs) =? GR_GUILDMASTER) && negb (m_LeaderGuid (fst s) =? ms_guid (snd gs)) then ChangeRank (fst gs) GR_OFFICER s else s) as -> by done.
    pose proof (Hk gs (list_elem_of_here _ _)) as Eg.
    assert (forall gs', gs' ∈ l -> ms_guid (snd gs') = fst gs') as Hk' by (intros; by apply Hk, list_elem_of_further).
    destruct ((ms_RankId (snd gs) =? GR_GUILDMASTER) && negb (m_LeaderGuid (fst s) =? ms_guid (snd gs))) eqn:G.
    + apply andb_true_iff in G as [G1 G2]. apply Z.eqb_eq in G1. apply negb_true_iff, Z.eqb_neq in G2. rewrite Eg in G2.
      assert (m_LeaderGuid (fst s) = m_LeaderGuid (fst (ChangeRank (fst gs) GR_OFFICER s))) as El by done.
      assert (m_Ranks (fst s) = m_Ranks (fst (ChangeRank (fst gs) GR_OFFICER s))) as Er by done.
      rewrite El, Er. apply IH; [| |done|].
      * rewrite gview_ChangeRank. by apply structure_rank.
      * unfold leads. rewrite gview_ChangeRank. cbn [gv_upd_members gv_members gv_leader]. rewrite alter_slot. unfold leads in Hl.
        change (gv_leader (gview (fst s))) with (m_LeaderGuid (fst s)) in *. destruct (gv_members (gview (fst s)) !! m_LeaderGuid (fst s)); [|done]. simpl in *. by rewrite decide_False.
      * rewrite gview_ChangeRank. cbn [gv_upd_members gv_members]. intros g sl. rewrite alter_slot. intros (sl0 & H & ->)%fmap_Some. case_decide; [done|].
        intros Hzero. destruct (Hz g sl0 H Hzero) as [|(gs' & [->|Hin]%elem_of_cons & E1 & E2)]; [by left|congruence|right; eauto].
    + apply IH; [done..|]. intros g sl H H0. destruct (Hz g sl H H0) as [|(gs' & [->|Hin]%elem_of_cons & E1 & E2)]; [by left| |right; eauto].
      left. rewrite E2 in G. simpl in G. apply negb_false_iff, Z.eqb_eq in G. congruence.
Qed.

Lemma slots_structure gu : slots_loaded gu -> ranks_loaded gu -> structure (gview gu).
Proof.
  intros Hs [Hr _]. split; [|exact Hr]. intros g sl. simpl. rewrite lookup_fmap. intros (sl0 & H & ->)%fmap_Some. by apply Hs.
Qed.
Lemma structure_one_leader gu : structure (gview gu) -> leads (gview gu) ->
  (forall g sl, gv_members (gview gu) !! g = Some sl -> snd sl = 0 -> g = m_LeaderGuid gu) -> slots_loaded gu /\ one_leader gu.
Proof.
  intros [Hs _] Hl Hz. assert (forall g sl, members gu !! g = Some sl -> gv_members (gview gu) !! g = Some (slot_view sl)) as Hm.
  { intros g sl H. simpl. by rewrite lookup_fmap, H. }
  split; [|split].
  - intros g sl H. exact (Hs _ _ (Hm _ _ H)).
  - unfold leads in Hl. simpl in Hl. rewrite lookup_fmap in Hl. destruct (members gu !! m_LeaderGuid gu) as [sl|]; [|done]. exists sl. by injection Hl.
  - intros g sl H H0. exact (Hz _ _ (Hm _ _ H) H0).
Qed.
(** The leader is found, or made, before the others are looked at. *)
Lemma leader_found s : slots_loaded (fst s) -> ranks_loaded (fst s) -> members (fst s) <> ∅ ->
  let rights := GetRank (fst s) (m_LeaderGuid (fst s)) in
  let '(gone, s') := if rights =? -1 then DelMember (m_LeaderGuid (fst s)) false s
                     else (false, if negb (rights =? GR_GUILDMASTER) then SetLeader (m_LeaderGuid (fst s)) s else s) in
  gone = false /\ structure (gview (fst s')) /\ leads (gview (fst s')) /\ m_Ranks (fst s') = m_Ranks (fst s).
Proof.
  intros Hs Hr Hne. pose proof (slots_structure _ Hs Hr) as Hst. unfold GetRank, GetMemberSlot. cbn zeta.
  destruct (members (fst s) !! m_LeaderGuid (fst s)) as [sl|] eqn:El; cbn [from_option].
  - destruct (Hs _ _ El) as [_ Hrk]. assert (i32 (ms_RankId sl) = ms_RankId sl) as ->.
    { unfold i32, u32. rewrite Z.mod_small by lia. destruct (Z.ltb_spec (ms_RankId sl) (2 ^ 31)); lia. }
    rewrite (proj2 (Z.eqb_neq _ _)) by lia. split; [done|]. destruct (Z.eqb_spec (ms_RankId sl) GR_GUILDMASTER) as [E|E]; cbn [negb].
    + split; [done|]. split; [|done]. unfold leads. simpl. by rewrite lookup_fmap, El; simpl; rewrite E.
    + unfold SetLeader, GetMemberSlot. rewrite El. rewrite gview_SetLeader. cbn zeta. split; [|split; [|done]].
      * destruct (structure_rank (m_LeaderGuid (fst s)) 0 _ Hst) as [H1 H2]; [lia|]. by split.
      * unfold leads. cbn [gv_leader gv_members gv_upd_members]. rewrite alter_slot. simpl. rewrite lookup_fmap, El. simpl. by rewrite decide_True.
  - rewrite Z.eqb_refl. unfold DelMember. rewrite Z.eqb_refl. cbn [andb negb].
    destruct (GetSuitableNewLeader false (fst s)) as [best old] eqn:E. assert (old = None) as ->.
    { unfold GetSuitableNewLeader, GetMemberSlot in E. rewrite El in E. cbn zeta in E. by injection E as _ <-. }
    apply GetSuitableNewLeader_spec in E as [Hb _]. destruct best as [best|].
    + destruct Hb as [Hbl [sl Hbm]]. unfold SetNewLeader_slots. set (s2 := SetLeader_slot best s).
      assert (leads (gview (fst s2)) /\ structure (gview (fst s2))) as [Hl2 Hs2].
      { unfold s2. rewrite gview_SetLeader. cbn zeta. split.
        - unfold leads. cbn [gv_leader gv_members gv_upd_members]. rewrite alter_slot. unfold member_slot in Hbm. rewrite Hbm. simpl. by rewrite decide_True.
        - destruct (structure_rank best 0 _ Hst) as [H1 H2]; [lia|]. by split. }
      assert (m_LeaderGuid (fst s2) = best) as Hlead by done. pose proof (gview_remove (m_LeaderGuid (fst s)) false s2) as Hv.
      destruct (remove_member (m_LeaderGuid (fst s)) false s2) as [gone s3] eqn:Er. cbn [snd] in Hv.
      assert (gv_members (gview (fst s3)) !! best = gv_members (gview (fst s2)) !! best) as Hkeep.
      { rewrite Hv. cbn [gv_upd_members gv_members]. by rewrite lookup_delete_ne. }
      assert (leads (gview (fst s3))) as Hl3 by (unfold leads; rewrite Hv; cbn [gv_upd_members gv_leader gv_members]; rewrite lookup_delete_ne by done; exact Hl2).
      split; [|split; [|split; [done|]]].
      * assert (gone = bool_decide (members (fst s3) = ∅)) as -> by (unfold remove_member in Er; by injection Er as <- <-).
        apply bool_decide_eq_false. intros He. unfold leads in Hl3. simpl in Hl3. by rewrite He, fmap_empty, lookup_empty in Hl3.
      * rewrite Hv. destruct Hs2 as [H1 H2]. split; [|exact H2]. cbn [gv_upd_members gv_members gv_ranks]. intros g sl' [_ H]%lookup_delete_Some. by apply H1.
      * change (gv_ranks (gview (fst s3)) = m_Ranks (fst s)). by rewrite Hv.
    + exfalso. apply Hne. apply map_empty. intros g. destruct (members (fst s) !! g) as [sl|] eqn:E2; [|done].
      assert (g = m_LeaderGuid (fst s)) as -> by (apply Hb; apply member_slot_members; by exists sl). congruence.
Qed.
Lemma CheckGuildStructure_ok s : slots_loaded (fst s) -> ranks_loaded (fst s) -> members (fst s) <> ∅ ->
  exists s', CheckGuildStructure s = (true, s') /\ slots_loaded (fst s') /\ ranks_loaded (fst s') /\ one_leader (fst s').
Proof.
  intros Hs Hr Hne. pose proof (leader_found s Hs Hr Hne) as Hf. cbn zeta in Hf. unfold CheckGuildStructure. cbn zeta.
  destruct (if GetRank (fst s) (m_LeaderGuid (fst s)) =? -1 then _ else _) as [gone s1]. destruct Hf as (-> & Hst & Hl & Hrk). eexists. split; [reflexivity|].
  assert (forall gs, gs ∈ members_order (members (fst s1)) <-> members (fst s1) !! fst gs = Some (snd gs)) as Hin.
  { intros [g sl]. rewrite members_order_ok. apply elem_of_map_to_list. }
  destruct (demote_others (members_order (members (fst s1))) s1) as (H1 & H2 & H3 & H4 & H5); [done|done| | |].
  - intros gs Hgs. apply Hin in Hgs. assert (gv_members (gview (fst s1)) !! fst gs = Some (slot_view (snd gs))) as Hm by (simpl; by rewrite lookup_fmap, Hgs).
    exact (proj1 (st_slots _ Hst _ _ Hm)).
  - intros g sl. simpl. rewrite lookup_fmap. intros (sl0 & H & ->)%fmap_Some H0. right. exists (g, sl0). split; [by apply Hin|done].
  - destruct (structure_one_leader _ H1 H2 H5) as [H6 H7]. split; [done|]. split; [|done]. destruct Hr as [Hr1 (r & Hr2)].
    unfold ranks_loaded, GetRanksSize in *. rewrite H4, Hrk. split; [done|by exists r].
Qed.
End loading.
