(* ===== verification/GuildDemo.v ===== *)
(** Concrete inputs for the witnesses about guilds: an environment, three
    players, and a run that founds a guild by a charter, takes members in and
    removes a rank that somebody has. *)

From S2P Require Import Prelude CString GuildBankTypes GuildBank GuildBankRequests GuildBankDemo GuildTypes Petitions Guild GuildMgr GuildHandlers PetitionHandlers GuildInv GuildSteps GuildOutcomes.

Definition demo_guild_bank_env : BankEnv := {|
  GetItemPrototype entry := if entry =? GUILD_CHARTER then demo_proto CLOTH else demo_proto entry;
  nameSuffix := @nameSuffix demo_bank_env;
  CreateItem := @CreateItem demo_bank_env;
  CanStoreNewItem := @CanStoreNewItem demo_bank_env;
  GetPlayerDataByGUID := @GetPlayerDataByGUID demo_bank_env;
  GuildBankTypes.GetRanksSize := 5;
  localtime := @localtime demo_bank_env;
  GetGossipMenuItems := @GetGossipMenuItems demo_bank_env;
  cfg_NpcEntriesAlliance := @cfg_NpcEntriesAlliance demo_bank_env;
  cfg_NpcEntriesHorde := @cfg_NpcEntriesHorde demo_bank_env;
  uninitialised := 0 |}.

Definition demo_add (guild guid rank : Z) : Z := Z.max 0 (Z.min 255 (Z.abs rank)).
Lemma demo_add_zero guild guid rank : demo_add guild guid rank = 0 <-> rank = 0. Proof. unfold demo_add. lia. Qed.
Lemma demo_add_range guild guid rank : 0 <= demo_add guild guid rank < 256. Proof. unfold demo_add. lia. Qed.
Lemma demo_log_count : GUILD_EVENTLOG_MAX_RECORDS <= 100 < 2 ^ 32. Proof. done. Qed.
Lemma demo_perm {A} (m : gmap Z A) : map_to_list m ≡ₚ map_to_list m. Proof. done. Qed.

Definition demo_guild_env : GuildEnv := {|
  escape_string s := s;
  normalizePlayerName _ _ name := if name =s "" then None else Some name;
  IsReservedName name := name =s "Reserved";
  IsValidCharterName name := negb (name =s "");
  GetMangosString id _ := if id =? 811 then "Guild Master" else if id =? 812 then "Officer" else if id =? 813 then "Veteran"
                          else if id =? 814 then "Member" else "Initiate";
  local_date now := (now, 1, 1);
  CanStoreCharter _ := inr (255, 23);
  GetZoneIdFromDB _ := 12;
  cfg_TwoSideGuild := false;
  cfg_MinPetitionSigns := 1;
  cfg_EventLogCount := 100;
  cfg_BeginnersGuilds := false;
  cfg_BeginnersGuildHorde := 0;
  cfg_BeginnersGuildAlliance := 0;
  Script_IsAIControlled _ := false;
  account_name _ := "ACCOUNT";
  OnAddMember := demo_add;
  members_order := map_to_list;
  guilds_order := map_to_list;
  petitions_order := map_to_list;
  OnAddMember_master := demo_add_zero;
  OnAddMember_range := demo_add_range;
  members_order_ok := demo_perm;
  guilds_order_ok := demo_perm;
  petitions_order_ok := demo_perm;
  cfg_EventLogCount_ok := demo_log_count |}.

Definition demo_gplayer (name : string) (account : Z) : GPlayer :=
  mkGPlayer name account 0 60 1 12 469 0 0 0 false ∅ 200000 ∅.

Section runs.
#[local] Existing Instance demo_guild_env.
#[local] Existing Instance demo_guild_bank_env.

Definition guild_run (l : list GuildInput) (w : GW) : GW := foldl (fun w i => guild_input i w) w l.
Fixpoint run_ok (l : list GuildInput) (w : GW) : bool :=
  match l with
  | [] => true
  | i :: l => (m_GuildIds w + 1 <? 2 ^ 32) && (match i with PlayerSends _ (GuildRankOp rid _ _) => 0 <=? rid | _ => true end) && run_ok l (guild_input i w)
  end.
Lemma run_steps l w : run_ok l w = true -> rtc guild_step w (guild_run l w).
Proof.
  revert w. induction l as [|i l IH]; intros w H; [apply rtc_refl|]. cbn [run_ok] in H. apply andb_true_iff in H as [[H1%Z.ltb_lt H2]%andb_true_iff H3].
  eapply rtc_l; [|by apply IH]. apply guild_step_input. split; [done|]. destruct i as [me o| | | | | |]; try done. destruct o; try done. by apply Z.leb_le.
Qed.
Definition demo_arrivals : list GuildInput :=
  [PlayerLoads 1 (demo_gplayer "Ann" 1); PlayerLoads 2 (demo_gplayer "Bob" 2); PlayerLoads 3 (demo_gplayer "Cid" 3);
   PlayerInWorld 1 true; PlayerInWorld 2 true; PlayerInWorld 3 true; PlayerLogsIn 1; PlayerLogsIn 2; PlayerLogsIn 3].
(** Ann's charter, which Bob signs. *)
Definition demo_charter : list GuildInput :=
  [PlayerSends 1 (PetitionBuyOp true true "Wow"); PlayerSends 2 (PetitionSignOp 1); PlayerSends 1 (TurnInPetitionOp 1)].
(** A sixth rank, with which Cid joins. *)
Definition demo_sixth : list GuildInput :=
  [PlayerSends 1 (GuildAddRankOp "Guest"); PlayerSends 1 (GuildInviteOp "Cid"); PlayerSends 3 GuildAcceptOp].

Definition demo_server : GW := fresh ∅ ∅ 1000000.
Definition w_arrived : GW := Eval vm_compute in guild_run demo_arrivals demo_server.
Definition w_founded : GW := Eval vm_compute in guild_run demo_charter w_arrived.
Definition w_sixth : GW := Eval vm_compute in guild_run demo_sixth w_founded.
Definition w_rank_gone : GW := Eval vm_compute in guild_run [PlayerSends 1 GuildDelRankOp] w_sixth.

Definition motd_of (w : GW) (id : Z) : string := from_option m_motd "" (m_GuildMap w !! id).
Definition member_rank (w : GW) (id g : Z) : option Z := gu ← m_GuildMap w !! id; ms_RankId <$> members gu !! g.

Example demo_members : member_rank w_sixth 1 <$> [1; 2; 3] = [Some 0; Some 4; Some 5].
Proof. vm_compute. reflexivity. Qed.
Definition demo_guild_inputs : list GuildInput := demo_arrivals ++ demo_charter ++ demo_sixth.
Lemma w_sixth_reached : rtc guild_step demo_server w_sixth.
Proof.
  assert (guild_run demo_guild_inputs demo_server = w_sixth) as <- by (vm_compute; reflexivity). apply run_steps. vm_compute. reflexivity.
Qed.
Lemma w_rank_gone_reached : rtc guild_step demo_server w_rank_gone.
Proof.
  assert (guild_run (demo_guild_inputs ++ [PlayerSends 1 GuildDelRankOp]) demo_server = w_rank_gone) as <- by (vm_compute; reflexivity).
  apply run_steps. vm_compute. reflexivity.
Qed.

(** A guild of one rank and one loadable member, whose leader is gone. *)
Definition demo_guild_fields : GuildFields := (7, mkGuildRow "Old" 9 "" "" 0 (0, 0, 0, 0, 0)).
Definition demo_rank_fields : list RankFields := [(7, 3, mkRank "Odd" 0)].
Definition demo_member_fields : list MemberFields :=
  [(7, 5, mkMemberRow 7 200 "" "", Some (mkCharacterRow "Eve" 60 1 12 0 5)); (7, 6, mkMemberRow 7 0 "" "", None)].
Definition demo_logs : list LogArgs := (fun n => mkLogArgs GUILD_EVENT_LOG_PROMOTE_PLAYER 1 2 n) <$> seqZ 0 130.
End runs.
