(* ===== verification/GuildTheorems.v ===== *)
(** The properties of guilds, and a concrete input for each one. *)

From S2P Require Import Prelude CString GuildBankTypes GuildBank GuildBankRequests GuildTypes Petitions Guild GuildMgr GuildHandlers PetitionHandlers GuildInv GuildEffects GuildJoin GuildSteps GuildFacts GuildOutcomes GuildDemo.

(** ** What consistent guilds are *)
Record guilds_consistent (w : GW) : Prop := {
  gc_number : forall id gu, m_GuildMap w !! id = Some gu -> m_Id gu = id /\ 0 < id < m_GuildIds w;
  gc_leader : forall id gu, m_GuildMap w !! id = Some gu ->
    exists sl, members gu !! m_LeaderGuid gu = Some sl /\ ms_RankId sl = GR_GUILDMASTER;
  gc_slots : forall id gu g sl, m_GuildMap w !! id = Some gu -> members gu !! g = Some sl ->
    ms_guid sl = g /\ (ms_RankId sl = GR_GUILDMASTER -> g = m_LeaderGuid gu);
  gc_ranks : forall id gu, m_GuildMap w !! id = Some gu ->
    GUILD_RANKS_MIN_COUNT <= GetRanksSize gu <= GUILD_RANKS_MAX_COUNT /\ GetRankRights gu GR_GUILDMASTER = GR_RIGHT_ALL;
  gc_index : forall g id, m_guid2guild w !! g = Some id <-> exists gu, m_GuildMap w !! id = Some gu /\ is_Some (members gu !! g);
  gc_player : forall g p id, w_players w !! g = Some p -> m_guid2guild w !! g = Some id -> pl_guildId p = id;
  gc_member_row : forall g, (fun r => (mr_guildid r, mr_rank r)) <$> db_member (w_db w) !! g = standing w g;
  gc_guild_row : forall id, (fun r => (gr_name r, gr_leaderguid r)) <$> db_guild (w_db w) !! id =
    (fun gu => (m_Name gu, m_LeaderGuid gu)) <$> m_GuildMap w !! id;
  gc_rank_row : forall id rid, 0 <= rid -> db_rank (w_db w) !! (id, rid) = gu ← m_GuildMap w !! id; m_Ranks gu !! Z.to_nat rid;
  gc_signer : forall id pe g, m_petitionMap w !! id = Some pe -> g ∈ m_playerGuid <$> m_signatures pe -> m_guid2guild w !! g = None;
  gc_once : forall id1 id2 pe1 pe2 s1 s2, m_petitionMap w !! id1 = Some pe1 -> m_petitionMap w !! id2 = Some pe2 ->
    s1 ∈ m_signatures pe1 -> s2 ∈ m_signatures pe2 -> m_playerGuid s1 = m_playerGuid s2 -> id1 = id2
}.
Lemma reg_consistent {env : GuildEnv} {benv : BankEnv} w : reg_ok (view w) -> guilds_consistent w.
Proof.
  intros Hw. pose proof Hw as [Hb Hg]. assert (forall id gu, m_GuildMap w !! id = Some gu -> v_guilds (view w) !! id = Some (gview gu)) as Hv.
  { intros id gu H. unfold view. cbn [v_guilds]. by rewrite lookup_fmap, H. }
  assert (forall gu g sl, members gu !! g = Some sl -> gv_members (gview gu) !! g = Some (slot_view sl)) as Hm by (intros gu g sl H; simpl; by rewrite lookup_fmap, H).
  assert (forall id pe, m_petitionMap w !! id = Some pe -> v_signs (view w) !! id = Some (petition_view pe)) as Hs.
  { intros id pe H. unfold view. cbn [v_signs]. by rewrite lookup_fmap, H. }
  split.
  - intros id gu H. exact (rb_id _ Hb _ _ (Hv _ _ H)).
  - intros id gu H. pose proof (go_leader _ (Hg _ _ (Hv _ _ H))) as Hl. simpl in Hl. rewrite lookup_fmap in Hl.
    destruct (members gu !! m_LeaderGuid gu) as [sl|]; [|done]. exists sl. by injection Hl.
  - intros id gu g sl H Hsl. destruct (go_slots _ (Hg _ _ (Hv _ _ H)) _ _ (Hm _ _ _ Hsl)) as (H1 & _ & H2). done.
  - intros id gu H. split; [exact (go_ranks _ (Hg _ _ (Hv _ _ H)))|]. pose proof (go_master _ (Hg _ _ (Hv _ _ H))) as Ho. simpl in Ho.
    unfold GetRankRights. destruct (m_Ranks gu) as [|r l]; [done|]. by injection Ho.
  - intros g id. change (m_guid2guild w) with (v_index (view w)). rewrite (rb_index _ Hb). split.
    + intros (gv & H & Hmem). unfold view in H. cbn [v_guilds] in H. rewrite lookup_fmap in H. apply fmap_Some in H as (gu & H & ->). exists gu. split; [done|].
      simpl in Hmem. rewrite lookup_fmap in Hmem. by apply fmap_is_Some in Hmem.
    + intros (gu & H & [sl Hsl]). exists (gview gu). split; [by apply Hv|]. exists (slot_view sl). by apply Hm.
  - intros g p id H Hi. apply (rb_players _ Hb g (player_view p) id); [|done]. unfold view. cbn [v_players]. by rewrite lookup_fmap, H.
  - intros g. by rewrite standing_row.
  - intros id. pose proof (rb_row _ Hb id) as H. unfold view in H. cbn [v_guild v_guilds] in H. rewrite !lookup_fmap in H. etrans; [exact H|].
    by destruct (m_GuildMap w !! id).
  - intros id rid Hrid. etrans; [exact (rb_rank _ Hb id rid)|]. unfold rank_row, view. cbn [v_guilds]. rewrite lookup_fmap. destruct (m_GuildMap w !! id); simpl; [|done].
    by rewrite decide_True.
  - intros id pe g H Hin. exact (rb_signers _ Hb _ _ _ (Hs _ _ H) Hin).
  - intros id1 id2 pe1 pe2 s1 s2 H1 H2 [n1 I1]%list_elem_of_lookup [n2 I2]%list_elem_of_lookup E.
    apply (rb_once _ Hb _ _ _ _ n1 n2 (m_playerGuid s1) (Hs _ _ H1) (Hs _ _ H2)); simpl; rewrite list_lookup_fmap; [by rewrite I1|by rewrite I2, E].
Qed.

Section theorems.
Context {env : GuildEnv} {benv : BankEnv}.

(** C4: From an empty server on, whatever guild and petition opcodes, loads,
    logins, logouts and updates follow each other, guilds are consistent: the
    index, the members' lists and the rows of guild_member tell the same story,
    so nobody is in two guilds; every guild has five to ten ranks, a guild
    master's rank with all rights, the rows of its ranks, and a leader who is
    the only member of rank 0; a player in memory knows his guild; and whoever
    signed a charter is in no guild and signed no other. *)
Theorem guilds_always_consistent chars cache now w : rtc guild_step (fresh chars cache now) w -> guilds_consistent w.
Proof. intros H. apply reg_consistent. apply (steps_ok _ _ H). apply fresh_ok. Qed.

(** C8: Officers act on those below them.  Promoting, demoting and removing
    change the standing of at most one member, of the officer's own guild and of
    a rank below his, and only with the right for it: a promotion is one rank up
    and leaves the member below the officer, a demotion one rank down and not
    past the lowest, a removal ends the membership.  And a request that is
    entitled_request to it does exactly this. *)
Theorem officers_act_below_them chars cache now w me name : rtc guild_step (fresh chars cache now) w ->
  acts_below GR_RIGHT_PROMOTE me w (HandleGuildPromoteOpcode me name w) (fun gu mine r new => mine + 1 < r /\ new = Some (r - 1)) /\
  acts_below GR_RIGHT_DEMOTE me w (HandleGuildDemoteOpcode me name w) (fun gu mine r new => r < GetLowestRank gu /\ new = Some (r + 1)) /\
  acts_below GR_RIGHT_REMOVE me w (HandleGuildRemoveOpcode me name w) (fun gu mine r new => new = None) /\
  forall self gu n sl,
    (entitled_request GR_RIGHT_PROMOTE me name w self gu n sl -> ms_guid sl <> me -> pl_rank self + 1 < ms_RankId sl ->
     standing (HandleGuildPromoteOpcode me name w) (ms_guid sl) = Some (pl_guildId self, ms_RankId sl - 1)) /\
    (entitled_request GR_RIGHT_DEMOTE me name w self gu n sl -> ms_guid sl <> me -> pl_rank self < ms_RankId sl < GetLowestRank gu ->
     standing (HandleGuildDemoteOpcode me name w) (ms_guid sl) = Some (pl_guildId self, ms_RankId sl + 1)) /\
    (entitled_request GR_RIGHT_REMOVE me name w self gu n sl -> pl_inWorld self = true -> pl_rank self < ms_RankId sl ->
     standing (HandleGuildRemoveOpcode me name w) (ms_guid sl) = None).
Proof.
  intros H. assert (reg_ok (view w)) as Hw by (apply (steps_ok _ _ H), fresh_ok).
  split; [by apply promote_acts|]. split; [by apply demote_acts|]. split; [by apply remove_acts|]. intros self gu n sl.
  split; [by apply promote_done|]. split; [by apply demote_done|by apply remove_done].
Qed.


(** C14: The event log.  After any number of events the guild holds the last
    hundred of them, oldest first; in the table each event has its row, at the
    next number modulo the configured count, until that many later events have
    come round; no other row changes. *)
Theorem event_log_is_bounded l s : Z.of_nat (length (m_GuildEventLog (fst s))) <= GUILD_EVENTLOG_MAX_RECORDS ->
  0 <= m_GuildEventLogNextGuid (fst s) < 2 ^ 32 - 1 ->
  let s' := log_all l s in let key := log_key (m_GuildEventLogNextGuid (fst s)) in
  m_GuildEventLog (fst s') = last_hundred (m_GuildEventLog (fst s) ++ (event_of (w_now (snd s)) <$> l)) /\
  Z.of_nat (length (m_GuildEventLog (fst s'))) <= GUILD_EVENTLOG_MAX_RECORDS /\
  (forall j a, l !! j = Some a -> Z.of_nat (length l) - Z.of_nat j <= cfg_EventLogCount ->
     db_eventlog (w_db (snd s')) !! (m_Id (fst s), key j) = Some (event_of (w_now (snd s)) a)) /\
  (forall k, 0 <= key k < cfg_EventLogCount) /\
  (forall id n, (id = m_Id (fst s) -> forall k, (k < length l)%nat -> n <> key k) ->
     db_eventlog (w_db (snd s')) !! (id, n) = db_eventlog (w_db (snd s)) !! (id, n)).
Proof.
  intros Hlen Hn s' key. pose proof (log_all_memory l s Hlen) as Hm. split; [exact Hm|]. split; [unfold s'; rewrite Hm; apply last_hundred_length|].
  split; [intros j a Hj Hd; by apply log_all_rows|]. split; [|intros id n Hk; by apply log_all_others].
  intros k. unfold key, log_key. apply Z.mod_pos_bound. pose proof cfg_EventLogCount_ok. unfold GUILD_EVENTLOG_MAX_RECORDS in *. lia.
Qed.

(** C17: What loading makes of the rows.  Whatever the rows of ranks and members
    are, a guild is kept if one member can be loaded, and then it is well formed:
    at least five ranks, the first with all rights, every member under his own
    guid with an existing rank, and a leader who is a member and the only one of
    rank 0. *)
Theorem loaded_guild_is_well_formed ranks mems row w : rows_ok (default [] mems) ->
  let '(ranks', s) := LoadRanksFromDB ranks (LoadGuildFromDB row, w) in
  let '(ok, mems', s) := LoadMembersFromDB mems s in
  if ok then exists s', CheckGuildStructure s = (true, s') /\ ranks_loaded (fst s') /\ slots_loaded (fst s') /\ one_leader (fst s')
  else members (fst s) = ∅.
Proof.
  intros Hrows. assert (m_Ranks (LoadGuildFromDB row) = [] /\ members (LoadGuildFromDB row) = ∅) as [He Hm] by (destruct row; simpl; by destruct (0 <? _)).
  destruct (LoadRanks_ok ranks (LoadGuildFromDB row, w) He) as [Hr Hk]. destruct (LoadRanksFromDB ranks (LoadGuildFromDB row, w)) as [ranks' s].
  cbn [snd fst] in Hr, Hk. rewrite Hm in Hk. unfold LoadMembersFromDB. destruct mems as [mems|]; [|exact Hk].
  assert (slots_loaded (fst s)) as Hs by (intros g sl H; by rewrite Hk in H). destruct (load_members_ok mems s Hrows Hr Hs) as [Hr2 Hs2].
  destruct (load_members mems s) as [rest s2]. cbn [snd] in Hr2, Hs2. destruct (decide (members (fst s2) = ∅)) as [|Hne]; [done|].
  destruct (CheckGuildStructure_ok (on_guild (set_m_accountsNumber 0) s2) Hs2 Hr2 Hne) as (s3 & E & H1 & H2 & H3). by exists s3.
Qed.

(** C20: The test of rights.  A rank passes it for a right when it has one of the
    right's own bits, or when it lacks the bit that all rights share; a rank that
    does not exist has no bits.  So a member whose rank was deleted may do what
    his rank forbade: here, set the message of the day. *)
Theorem deleted_rank_has_every_right gu rid x : Z.land x GR_RIGHT_EMPTY = 0 ->
  (HasRankRight gu rid (Z.lor GR_RIGHT_EMPTY x) = true <->
   Z.land (GetRankRights gu rid) x <> 0 \/ Z.testbit (GetRankRights gu rid) 6 = false) /\
  (GetRanksSize gu <= rid -> HasRankRight gu rid (Z.lor GR_RIGHT_EMPTY x) = true) /\
  forall me self w motd, w_players w !! me = Some self -> m_GuildMap w !! pl_guildId self = Some gu -> GetRanksSize gu <= pl_rank self ->
    Z.of_nat (String.length motd) <= GUILD_MOTD_MAX_LENGTH ->
    m_motd <$> m_GuildMap (HandleGuildMOTDOpcode me motd w) !! pl_guildId self = Some motd.
Proof.
  intros Hx. assert (forall rid x, Z.land x GR_RIGHT_EMPTY = 0 -> GetRanksSize gu <= rid -> HasRankRight gu rid (Z.lor GR_RIGHT_EMPTY x) = true) as Hall.
  { intros rid' x' Hx' Hr. apply HasRankRight_spec; [done|]. right. by rewrite missing_rank. }
  split; [by apply HasRankRight_spec|]. split; [by apply Hall|]. intros me self w motd Hp Hg Hr Hl. unfold HandleGuildMOTDOpcode, with_guild, GetGuildById.
  rewrite (proj2 (Z.ltb_ge _ _)) by done. rewrite Hp, Hg. rewrite (Hall (pl_rank self) 4096 eq_refl Hr : HasRankRight gu (pl_rank self) GR_RIGHT_SETMOTD = true). cbn [negb].
  unfold put_guild. simpl. by rewrite lookup_insert_eq.
Qed.
End theorems.

(** ** Witnesses *)
Section witnesses.
#[local] Existing Instance demo_guild_env.
#[local] Existing Instance demo_guild_bank_env.

(** Ann founds a guild with Bob's signature and takes Cid in on a sixth rank. *)
Lemma guilds_always_consistent_witness :
  rtc guild_step (fresh ∅ ∅ 1000000) w_sixth /\ member_rank w_sixth 1 <$> [1; 2; 3] = [Some 0; Some 4; Some 5] /\ guilds_consistent w_sixth.
Proof.
  split; [exact w_sixth_reached|]. split; [vm_compute; reflexivity|]. exact (guilds_always_consistent ∅ ∅ 1000000 w_sixth w_sixth_reached).
Defined.

(** Ann promotes Cid; Bob, who has no such right, does not. *)
Lemma officers_act_below_them_witness :
  member_rank (HandleGuildPromoteOpcode 2 "Cid" w_sixth) 1 3 = Some 5 /\
  acts_below GR_RIGHT_PROMOTE 2 w_sixth (HandleGuildPromoteOpcode 2 "Cid" w_sixth) (fun gu mine r new => mine + 1 < r /\ new = Some (r - 1)) /\
  standing (HandleGuildPromoteOpcode 1 "Cid" w_sixth) 3 = Some (1, 4).
Proof.
  split; [vm_compute; reflexivity|].
  split; [exact (proj1 (officers_act_below_them ∅ ∅ 1000000 w_sixth 2 "Cid" w_sixth_reached))|].
  destruct (officers_act_below_them ∅ ∅ 1000000 w_sixth 1 "Cid" w_sixth_reached) as (_ & _ & _ & H).
  destruct (w_players w_sixth !! 1) as [self|] eqn:Ep; [|vm_compute in Ep; discriminate].
  assert (pl_guildId self = 1 /\ pl_rank self = 0) as [Hid Hr] by (vm_compute in Ep; injection Ep as <-; split; reflexivity).
  destruct (m_GuildMap w_sixth !! 1) as [gu|] eqn:Eg; [|vm_compute in Eg; discriminate].
  destruct (GetMemberSlot_named gu "Cid") as [sl|] eqn:Es; [|vm_compute in Eg; injection Eg as <-; vm_compute in Es; discriminate].
  assert (ms_guid sl = 3 /\ ms_RankId sl = 5) as [Hg Hk] by (vm_compute in Eg; injection Eg as <-; vm_compute in Es; injection Es as <-; split; reflexivity).
  assert (HasRankRight gu 0 GR_RIGHT_PROMOTE = true) as Hright by (vm_compute in Eg; injection Eg as <-; reflexivity).
  destruct (H self gu "Cid" sl) as [HP _]. rewrite Hg, Hk, Hid, Hr in HP. apply HP; [|discriminate|lia].
  split; [exact Ep|by rewrite Hid|reflexivity|exact Es|by rewrite Hr].
Defined.


(** A hundred and thirty promotions after the three of the demonstration. *)
Lemma event_log_is_bounded_witness :
  exists gu, m_GuildMap w_sixth !! 1 = Some gu /\
    let s' := log_all demo_logs (gu, w_sixth) in
    Z.of_nat (length (m_GuildEventLog (fst s'))) = 100 /\
    m_GuildEventLog (fst s') = last_hundred (m_GuildEventLog gu ++ (event_of 1000000 <$> demo_logs)).
Proof.
  destruct (m_GuildMap w_sixth !! 1) as [gu|] eqn:Eg; [|vm_compute in Eg; discriminate]. exists gu. split; [reflexivity|].
  assert (Z.of_nat (length (m_GuildEventLog gu)) <= GUILD_EVENTLOG_MAX_RECORDS) as H1 by (vm_compute in Eg; injection Eg as <-; discriminate).
  assert (0 <= m_GuildEventLogNextGuid gu < 2 ^ 32 - 1) as H2 by (vm_compute in Eg; injection Eg as <-; split; [discriminate|reflexivity]).
  pose proof (event_log_is_bounded demo_logs (gu, w_sixth) H1 H2) as (H & _). split; [|exact H].
  vm_compute in Eg. injection Eg as <-. vm_compute. reflexivity.
Defined.

(** One odd rank, a member of rank 200 and one whose character is gone, under a
    leader who is not there. *)
Lemma loaded_guild_is_well_formed_witness :
  exists s', (let '(_, s) := LoadRanksFromDB (Some demo_rank_fields) (LoadGuildFromDB demo_guild_fields, demo_server) in
              let '(_, _, s) := LoadMembersFromDB (Some demo_member_fields) s in CheckGuildStructure s) = (true, s') /\
    m_LeaderGuid (fst s') = 5 /\ one_leader (fst s').
Proof.
  assert (rows_ok (default [] (Some demo_member_fields))) as Hrows by (repeat constructor; discriminate).
  pose proof (loaded_guild_is_well_formed (Some demo_rank_fields) (Some demo_member_fields) demo_guild_fields demo_server Hrows) as H.
  destruct (LoadRanksFromDB _ _) as [ranks s] eqn:E1. destruct (LoadMembersFromDB _ s) as [[ok mems] s2] eqn:E2.
  vm_compute in E1. injection E1 as <- <-. vm_compute in E2. injection E2 as <- <- <-. destruct H as (s' & E & _ & _ & H). exists s'.
  split; [exact E|]. split; [|exact H]. vm_compute in E. injection E as <-. reflexivity.
Defined.

(** Cid may not set the message of the day until his rank is deleted. *)
Lemma deleted_rank_has_every_right_witness :
  member_rank w_rank_gone 1 3 = Some 5 /\
  m_motd <$> m_GuildMap (HandleGuildMOTDOpcode 3 "mine" w_sixth) !! 1 = Some "No message set." /\
  m_motd <$> m_GuildMap (HandleGuildMOTDOpcode 3 "mine" w_rank_gone) !! 1 = Some "mine".
Proof.
  split; [vm_compute; reflexivity|]. split; [vm_compute; reflexivity|].
  destruct (w_players w_rank_gone !! 3) as [self|] eqn:Ep; [|vm_compute in Ep; discriminate].
  assert (pl_guildId self = 1 /\ pl_rank self = 5) as [Hid Hr] by (vm_compute in Ep; injection Ep as <-; split; reflexivity).
  destruct (m_GuildMap w_rank_gone !! 1) as [gu|] eqn:Eg; [|vm_compute in Eg; discriminate].
  assert (GetRanksSize gu = 5) as Hs by (vm_compute in Eg; injection Eg as <-; reflexivity).
  destruct (deleted_rank_has_every_right gu 5 0 eq_refl) as (_ & _ & H). specialize (H 3 self w_rank_gone "mine" Ep).
  rewrite Hid, Hr, Hs in H. apply (H Eg); [lia|discriminate].
Defined.
End witnesses.
