(* ===== verification/PartyTheorems.v ===== *)
(** The properties of parties and raids. *)

From S2P Require Import Prelude CString World Party PartySlots PartyInv PartyRaid Demo.

(** ** The new leader *)
Definition next_leader (w : World) (gp : Z) (g : Group) : Z :=
  match List.find (preferred w gp g) (m_memberSlots g) with
  | Some slot => ms_guid slot
  | None =>
      match List.find (leader_candidate w gp g) (m_memberSlots g) with
      | Some slot => ms_guid slot
      | None => match m_memberSlots g with slot :: _ => ms_guid slot | [] => 0 end
      end
  end.

Lemma scan_leader_next w gp g : slots_ok g ->
  (if scan_leader w gp g (m_memberSlots g) 0 =? 0
   then match m_memberSlots g with slot :: _ => ms_guid slot | [] => 0 end
   else scan_leader w gp g (m_memberSlots g) 0) = next_leader w gp g.
Proof.
  intros (_ & Hne & _). unfold next_leader. pose proof (scan_leader_spec w gp g (m_memberSlots g) 0) as Hs.
  assert (forall P slot, List.find P (m_memberSlots g) = Some slot -> (ms_guid slot =? 0) = false) as Hnz.
  { intros P slot [Hin _]%List.find_some. apply Z.eqb_neq. rewrite Forall_forall in Hne.
    by apply list_elem_of_In, Hne in Hin as [? _]. }
  destruct (List.find (preferred w gp g) _) as [slot|] eqn:E1; [rewrite Hs; by erewrite Hnz|].
  simpl in Hs. rewrite Hs.
  assert (List.find (fun s => leader_candidate w gp g s && negb (ms_guid s =? 0)) (m_memberSlots g) =
          List.find (leader_candidate w gp g) (m_memberSlots g)) as ->.
  { clear -Hne. induction Hne as [|s l [Hs _] _ IH]; simpl; [done|].
    by rewrite IH, (proj2 (Z.eqb_neq _ _) Hs), andb_true_r. }
  destruct (List.find (leader_candidate w gp g) _) as [slot|] eqn:E2; [by erewrite Hnz|done].
Qed.

Lemma setLeader_leader gp guid w g : w_groups w !! gp = Some g -> IsMember g guid = true ->
  exists g', w_groups (_setLeader gp guid w) !! gp = Some g' /\ m_leaderGuid g' = guid /\
    m_memberSlots g' = m_memberSlots g.
Proof.
  intros Hg [slot Hs]%IsMember_slot. unfold _setLeader. rewrite Hg. simpl. rewrite Hs.
  rewrite _updateLeaderFlag_groups, upd_group_lookup, decide_True, _updateLeaderFlag_groups, Hg by done.
  simpl. eexists. split; [reflexivity|]. simpl. split; [|done]. by apply getMemberSlot_spec in Hs as [? _].
Qed.

Lemma next_leader_member w gp g : m_memberSlots g <> [] -> IsMember g (next_leader w gp g) = true.
Proof.
  intros Hne. unfold next_leader. apply IsMember_elem.
  assert (forall P slot, List.find P (m_memberSlots g) = Some slot ->
            ms_guid slot ∈ ms_guid <$> m_memberSlots g) as Hin.
  { intros P slot [Hs _]%List.find_some. apply list_elem_of_fmap_2. by apply list_elem_of_In. }
  destruct (List.find (preferred w gp g) _) eqn:E1; [by eapply Hin|].
  destruct (List.find (leader_candidate w gp g) _) eqn:E2; [by eapply Hin|].
  destruct (m_memberSlots g); [done|]. by left.
Qed.

(** Joining.  A player who is in no group's list yet is taken exactly when
    the group is not full - in particular a raid with a free place always has
    a free subgroup; he goes to the end of the list, every other group stays as
    it is, and all groups stay well formed: distinct members, at most 5 or 40,
    subgroups of at most 5 counted correctly, a member for a leader.  A refused
    player changes nothing. *)
Lemma joining_fills_a_free_place gp guid name w g :
  party_ok w -> w_groups w !! gp = Some g -> IsMember g guid = false -> m_memberSlots g <> [] ->
  guid <> 0 ->
  let w' := snd (AddMember gp guid name w) in
  party_ok w' /\ fst (AddMember gp guid name w) = negb (IsFull g) /\
  if IsFull g then w' = w
  else exists slot, ms_guid slot = guid /\
    forall gp', slots_at w' gp' =
      if decide (gp' = gp) then Some (m_memberSlots g ++ [slot]) else slots_at w gp'.
Proof.
  intros Hp Hg Hnm Hnn Hne w'.
  split; [by apply (AddMember_party gp guid name w g)|].
  destruct (Hp _ _ Hg) as [Hok _]. subst w'.
  destruct (AddMember gp guid name w) as [ok w'] eqn:E. destruct (IsFull g) eqn:Hf; simpl.
  - destruct ok; [|by apply AddMember_refused in E]. apply AddMember_joined in E as [_ _ (g' & Hg' & Hf' & _) _].
    simplify_eq. congruence.
  - pose proof (AddMember_accepts gp guid name w g Hg Hok Hf Hne) as Ht. rewrite E in Ht. simpl in Ht. subst ok.
    split; [done|]. apply AddMember_joined in E as [(l & slot & H1 & H2 & H3) Ho _ _].
    exists slot. split; [done|]. intros gp'. case_decide; [subst|by apply Ho].
    unfold slots_at in H1. rewrite Hg in H1. by injection H1 as <-.
Qed.

(** Leaving.  A member who leaves is out of the list, the others keep their
    order; a group of two or fewer is dissolved and gone; every other group
    stays as it is, and what remains is well formed again, a member leading
    it. *)
Lemma leaving_keeps_parties_well_formed guid w p gp g :
  party_ok w -> w_players w !! guid = Some p -> p_group p = Some gp -> w_groups w !! gp = Some g ->
  IsMember g guid = true ->
  let w' := RemoveFromGroup guid w in
  party_ok w' /\ forall gp', slots_at w' gp' =
    if decide (gp' = gp)
    then if GetMembersCount g <=? 2 then None else Some (erase_slot guid (m_memberSlots g))
    else slots_at w gp'.
Proof.
  intros Hp Hpl Hpg Hg Hm. split; [by apply RemoveFromGroup_party|].
  intros gp'. by apply (RemoveFromGroup_slots guid w p gp g gp').
Qed.

(** The successor of a leader is the first online member of the group - in
    a raid the first online assistant, failing that the first online member -
    and, when nobody is online, the first member of the list. *)
Lemma successor_is_first_suitable gp w g :
  w_groups w !! gp = Some g -> slots_ok g -> GetMembersMinCount g <= GetMembersCount g ->
  exists g', w_groups (_chooseLeader gp false w) !! gp = Some g' /\
    m_leaderGuid g' = next_leader w gp g /\ m_memberSlots g' = m_memberSlots g.
Proof.
  intros Hg Hok Hmin. unfold _chooseLeader. rewrite Hg. rewrite (proj2 (Z.ltb_ge _ _) Hmin). simpl.
  rewrite scan_leader_next by done. apply setLeader_leader; [done|]. apply next_leader_member.
  intros Hnil. unfold GetMembersMinCount, GetMembersCount in Hmin. rewrite Hnil in Hmin.
  destruct (isBGGroup g); simpl in Hmin; lia.
Qed.

(** C25: How parties lose a member.  Whoever leaves is out of the list, a party
    of two is dissolved, and what remains is well formed with a member leading
    it; the successor of a leader is the first online member, in a raid the
    first online assistant if there is one. *)
Theorem leaving_passes_on_the_lead :
  (forall guid w p gp g,
  party_ok w -> w_players w !! guid = Some p -> p_group p = Some gp -> w_groups w !! gp = Some g ->
  IsMember g guid = true ->
  let w' := RemoveFromGroup guid w in
  party_ok w' /\ forall gp', slots_at w' gp' =
    if decide (gp' = gp)
    then if GetMembersCount g <=? 2 then None else Some (erase_slot guid (m_memberSlots g))
    else slots_at w gp') /\
  (forall gp w g,
  w_groups w !! gp = Some g -> slots_ok g -> GetMembersMinCount g <= GetMembersCount g ->
  exists g', w_groups (_chooseLeader gp false w) !! gp = Some g' /\
    m_leaderGuid g' = next_leader w gp g /\ m_memberSlots g' = m_memberSlots g).
Proof. split; [exact leaving_keeps_parties_well_formed|exact successor_is_first_suitable]. Qed.

Lemma find_upd_slot_eq guid f l slot :
  (forall s, ms_guid (f s) = ms_guid s) -> List.find (fun s => ms_guid s =? guid) l = Some slot ->
  List.find (fun s => ms_guid s =? guid) (upd_slot guid f l) = Some (f slot).
Proof.
  intros Hf. induction l as [|s l IH]; simpl; [done|]. destruct (ms_guid s =? guid) eqn:E; simpl.
  - intros [= ->]. by rewrite Hf, E.
  - by rewrite E.
Qed.

Lemma moved_group guid k g j : IsMember g guid = true ->
  GetMemberGroup (SubGroupCounterDecrease j (snd (_setMembersGroup guid k g))) guid = k.
Proof.
  intros [slot Hs]%IsMember_slot. unfold GetMemberGroup, getMemberSlot. rewrite decrease_slots.
  unfold _setMembersGroup. rewrite Hs. simpl. rewrite increase_slots. simpl.
  by rewrite (find_upd_slot_eq guid (set_slot_group k) _ slot).
Qed.

(** What no join changes about a group. *)
Definition same_head (g g' : Group) : Prop :=
  m_Id g' = m_Id g /\ m_leaderGuid g' = m_leaderGuid g /\ m_looterGuid g' = m_looterGuid g /\
  m_groupType g' = m_groupType g.
Definition head_kept (gp : Z) (w w' : World) : Prop :=
  forall g, w_groups w !! gp = Some g -> exists g', w_groups w' !! gp = Some g' /\ same_head g g'.

Lemma head_kept_trans gp w1 w2 w3 : head_kept gp w1 w2 -> head_kept gp w2 w3 -> head_kept gp w1 w3.
Proof.
  intros A B g Hg. apply A in Hg as (g2 & Hg2 & H2). apply B in Hg2 as (g3 & Hg3 & H3).
  exists g3. split; [done|]. unfold same_head in *. destruct_and!. split_and!; congruence.
Qed.
Lemma head_kept_groups gp w w' : w_groups w' = w_groups w -> head_kept gp w w'.
Proof. intros E g Hg. exists g. rewrite E. by split. Qed.
Lemma head_kept_upd gp gp' f w : (forall g, same_head g (f g)) -> head_kept gp w (upd_group gp' f w).
Proof.
  intros Hf g Hg. rewrite upd_group_lookup. case_decide; [subst; rewrite Hg; by exists (f g)|by exists g].
Qed.

Lemma head_kept_AddMember gp guid name w :
  head_kept gp w (snd (AddMember gp guid name w)).
Proof.
  assert (forall k, head_kept gp w (snd (_addMember_to gp guid name false k w))) as Hto.
  { intros k. unfold _addMember_to. destruct (w_groups w !! gp) as [g|]; [|by apply head_kept_groups].
    case_if; [by apply head_kept_groups|]. case_if; [by apply head_kept_groups|].
    set (w1 := upd_group gp _ w).
    assert (head_kept gp w w1) as H1.
    { apply head_kept_upd. intros g'. unfold same_head, SubGroupCounterIncrease. simpl.
      by destruct (m_subGroupsCounts g'). }
    destruct (GetPlayerW w guid) as [p|]; [|done].
    eapply head_kept_trans; [exact H1|]. cbn [snd].
    destruct (p_groupInvite p) as [ig|]; [|by apply head_kept_groups].
    unfold RemoveInvite. destruct (w_groups w1 !! ig); [|by apply head_kept_groups].
    case_bool_decide; [|by apply head_kept_groups].
    eapply head_kept_trans; [by apply (head_kept_upd gp ig (set_m_invitees (m_invitees g0 ∖ {[guid]})))|].
    by apply head_kept_groups. }
  unfold AddMember. destruct (_addMember gp guid name false w) as [ok w1] eqn:E.
  assert (head_kept gp w w1) as H1.
  { unfold _addMember in E. destruct (w_groups w !! gp) as [g|]; [|injection E as <- <-; by apply head_kept_groups].
    destruct (m_subGroupsCounts g) as [counts|]; [destruct (first_free counts 0) as [k|]|].
    - specialize (Hto k). by rewrite E in Hto.
    - injection E as <- <-. by apply head_kept_groups.
    - specialize (Hto 0). by rewrite E in Hto. }
  destruct ok; [|done]. cbn [snd]. eapply head_kept_trans; [exact H1|].
  set (w2 := match w_groups w1 !! gp with Some _ => _ | None => _ end).
  assert (head_kept gp w1 w2) as H2.
  { unfold w2. destruct (w_groups w1 !! gp) as [g|] eqn:Hg; [|by apply head_kept_groups].
    case_if; [|by apply head_kept_groups]. unfold UpdateCrossfaction. rewrite Hg. by apply head_kept_upd. }
  eapply head_kept_trans; [exact H2|].
  destruct (GetPlayerW w2 guid); [by apply head_kept_upd|by apply head_kept_groups].
Qed.

Lemma created_fields gp guid name w :
  w_groups w !! gp = Some (Group_new false) -> guid <> 0 ->
  fst (Create gp guid name w) = true /\
  exists g slot, w_groups (snd (Create gp guid name w)) !! gp = Some g /\ m_memberSlots g = [slot] /\
    ms_guid slot = guid /\ m_leaderGuid g = guid /\ m_looterGuid g = guid /\ isRaidGroup g = false /\
    m_Id g = w_nextGroupId w.
Proof.
  intros Hg Hne. unfold Create. rewrite Hg.
  match goal with |- context [let '(_, _) := ?e in _] => destruct e as [g1 w1] eqn:E1 end.
  assert (slots_ok g1 /\ m_memberSlots g1 = [] /\ IsFull g1 = false /\ w_groups w1 = w_groups w /\
    m_Id g1 = w_nextGroupId w /\ m_leaderGuid g1 = guid /\ m_looterGuid g1 = guid /\
    m_groupType g1 = GROUPTYPE_NORMAL) as (Hok & Hnil & Hfull & Hw1 & F1 & F2 & F3 & F4).
  { cbn in E1. injection E1 as <- <-. split; [|done].
    split_and!; [apply NoDup_nil_2|apply Forall_nil_2|done|split; [done|apply Forall_nil_2]]. }
  clear E1. set (w2 := upd_group gp (fun _ => g1) w1).
  assert (w_groups w2 !! gp = Some g1) as Hg2.
  { unfold w2. by rewrite upd_group_lookup, decide_True, Hw1, Hg by done. }
  pose proof (AddMember_accepts gp guid name w2 g1 Hg2 Hok Hfull Hne) as Ha.
  pose proof (head_kept_AddMember gp guid name w2 g1 Hg2) as (g3 & Hg3 & Hh).
  destruct (AddMember gp guid name w2) as [ok w3] eqn:Ea. simpl in Ha, Hg3. subst ok. split; [done|].
  cbn [snd]. apply AddMember_joined in Ea as [(l & slot & J1 & J2 & J3) _ _ _]. unfold slots_at in J1, J3.
  rewrite Hg2 in J1. rewrite Hg3 in J3. simpl in J1, J3. injection J1 as <-. injection J3 as J3.
  rewrite Hnil in J3. exists g3, slot. rewrite _updateLeaderFlag_groups.
  destruct Hh as (E1 & E2 & E3 & E4). split_and!; try done; try congruence.
  unfold isRaidGroup. by rewrite E4, F4.
Qed.

(** A new party is a fresh object with the creator as its only member, its
    leader and its looter, no raid, and numbered by the id generator; the
    other groups are not touched. *)
Lemma created_party_has_one_member guid name w :
  party_ok w -> guid <> 0 ->
  exists gp g slot, fst (CreateNew guid name w) = Some gp /\ w_groups w !! gp = None /\
    w_groups (snd (CreateNew guid name w)) !! gp = Some g /\ m_memberSlots g = [slot] /\
    ms_guid slot = guid /\ m_leaderGuid g = guid /\ m_looterGuid g = guid /\ isRaidGroup g = false /\
    m_Id g = w_nextGroupId w /\ party_ok (snd (CreateNew guid name w)).
Proof.
  intros Hp Hne. pose proof (CreateNew_spec guid name w) as [Hok _]. specialize (Hok Hp).
  unfold CreateNew, new_group in *. set (gp := fresh (dom (w_groups w))) in *.
  set (w1 := set_w_groups (<[gp := Group_new false]> (w_groups w)) w) in *.
  assert (w_groups w !! gp = None) as Hfresh by apply not_elem_of_dom, is_fresh.
  assert (w_groups w1 !! gp = Some (Group_new false)) as Hg by apply lookup_insert_eq.
  destruct (Create gp guid name w1) as [ok w2] eqn:E.
  pose proof (created_fields gp guid name w1 Hg Hne) as H. rewrite E in H. cbn [fst snd] in H.
  destruct H as [-> (g & slot & H)]. exists gp, g, slot. destruct_and!. by split_and!.
Qed.

(** C24: How parties come about.  A new party is a fresh object with its
    creator as only member, leader and looter.  A player in no group's list is
    taken exactly when the group has a place, then stands at the end of its
    list, and everything stays well formed with correctly counted subgroups. *)
Theorem parties_are_founded_and_joined :
  (forall gp guid name w g,
  party_ok w -> w_groups w !! gp = Some g -> IsMember g guid = false -> m_memberSlots g <> [] ->
  guid <> 0 ->
  let w' := snd (AddMember gp guid name w) in
  party_ok w' /\ fst (AddMember gp guid name w) = negb (IsFull g) /\
  if IsFull g then w' = w
  else exists slot, ms_guid slot = guid /\
    forall gp', slots_at w' gp' =
      if decide (gp' = gp) then Some (m_memberSlots g ++ [slot]) else slots_at w gp') /\
  (forall guid name w,
  party_ok w -> guid <> 0 ->
  exists gp g slot, fst (CreateNew guid name w) = Some gp /\ w_groups w !! gp = None /\
    w_groups (snd (CreateNew guid name w)) !! gp = Some g /\ m_memberSlots g = [slot] /\
    ms_guid slot = guid /\ m_leaderGuid g = guid /\ m_looterGuid g = guid /\ isRaidGroup g = false /\
    m_Id g = w_nextGroupId w /\ party_ok (snd (CreateNew guid name w))).
Proof. split; [exact joining_fills_a_free_place|exact created_party_has_one_member]. Qed.

Lemma upd_group_at gp f w g :
  w_groups w !! gp = Some g -> w_groups (upd_group gp f w) !! gp = Some (f g).
Proof. intros Hg. by rewrite upd_group_lookup, decide_True, Hg. Qed.

(** Moving.  A member moved to a free subgroup of a raid is in it
    afterwards, whether he is online or not; all groups stay well formed, so
    the counters of both subgroups are right again. *)
Lemma moving_changes_subgroup gp guid k w g :
  party_ok w -> ref_agrees w gp guid -> w_groups w !! gp = Some g -> isRaidGroup g = true ->
  IsMember g guid = true -> subgroup_ok k -> HasFreeSlotSubGroup g k = true ->
  let w' := ChangeMembersGroup gp guid k w in
  party_ok w' /\
  exists g', w_groups w' !! gp = Some g' /\ GetMemberGroup g' guid = k /\
    (forall p, w_players w' !! guid = Some p -> is_Some (GetPlayerW w guid) ->
       GetMemberGroup g guid <> k ->
       (if decide (p_group p = Some gp) then p_subGroup p else p_originalSubGroup p) = k).
Proof.
  intros Hp Href Hg Hr Hm Hk Hfree. cbv zeta. split; [apply ChangeMembersGroup_party; [done|apply Hk|done]|].
  assert (overflows g k = false) as Ho.
  { unfold HasFreeSlotSubGroup, overflows in *. destruct (m_subGroupsCounts g); [|done]. bool_prop. lia. }
  assert (negb (isRaidGroup g) || (MAX_RAID_SUBGROUPS <=? k) = false) as Hb.
  { rewrite Hr. simpl. apply Z.leb_gt. apply Hk. }
  assert (GetMemberGroup g guid < MAX_RAID_SUBGROUPS) as Hprev.
  { apply IsMember_slot in Hm as [slot Hs]. unfold GetMemberGroup. rewrite Hs.
    destruct (Hp _ _ Hg) as [(_ & Hall & _) _]. rewrite Forall_forall in Hall.
    apply getMemberSlot_spec in Hs as [_ Hin]. by apply Hall in Hin as [_ [_ ?]]. }
  unfold ChangeMembersGroup. rewrite Hg, Hb, Ho.
  destruct (GetPlayerW w guid) as [p|] eqn:Hon.
  - apply GetPlayerW_Some in Hon as (_ & Hpl & _).
    unfold ChangeMembersGroup_online. rewrite Hg, Hpl, Hb, Ho.
    destruct (Z.eqb_spec (GetMemberGroup g guid) k) as [Heq|Hne]; [exists g; by split_and!|].
    rewrite (proj2 (Z.leb_gt _ _) Hprev). simpl. 
    eexists. split; [by apply (upd_group_at gp _ _ g)|].
    split; [by apply moved_group|]. intros p' Hp' _ _. rewrite lookup_alter_eq, Hpl in Hp'.
    simpl in Hp'. injection Hp' as <-. unfold set_ref_subgroup.
    case_bool_decide; simpl; [by rewrite decide_True|by rewrite decide_False].
  - destruct (Z.eqb_spec (GetMemberGroup g guid) k) as [Heq|Hne].
    + exists g. split_and!; [done..|]. by intros p _ [? ?].
    + eexists. split; [by apply (upd_group_at gp _ _ g)|].
      split; [|by intros p _ [? ?]]. pose proof (moved_group guid k g (GetMemberGroup g guid) Hm) as Hmv.
      unfold _setMembersGroup in *. apply IsMember_slot in Hm as [slot Hs]. by rewrite Hs in *.
Qed.

(** Swapping two members of different subgroups exchanges their subgroups,
    and all groups stay well formed. *)
Lemma swapping_exchanges_subgroups gp guid swapGuid w g :
  party_ok w -> w_groups w !! gp = Some g -> isRaidGroup g = true ->
  IsMember g guid = true -> IsMember g swapGuid = true ->
  let w' := SwapMembersGroup gp guid swapGuid w in
  party_ok w' /\ exists g', w_groups w' !! gp = Some g' /\
    GetMemberGroup g' guid = GetMemberGroup g swapGuid /\
    GetMemberGroup g' swapGuid = GetMemberGroup g guid /\
    GetMembersCount g' = GetMembersCount g.
Proof.
  intros Hp Hg Hr Hm1 Hm2. cbv zeta. split; [by apply SwapMembersGroup_party|].
  apply IsMember_slot in Hm1 as [slot Hs1]. apply IsMember_slot in Hm2 as [slot' Hs2].
  unfold SwapMembersGroup. rewrite Hg, Hr. cbn [negb]. cbv zeta.
  destruct (Hp _ _ Hg) as [(_ & Hall & _) _]. rewrite Forall_forall in Hall.
  destruct (getMemberSlot_spec _ _ _ Hs1) as [E1 Hin1]. destruct (getMemberSlot_spec _ _ _ Hs2) as [E2 Hin2].
  apply Hall in Hin1 as [_ [_ K1]]. apply Hall in Hin2 as [_ [_ K2]].
  assert (GetMemberGroup g guid = ms_group slot /\ GetMemberGroup g swapGuid = ms_group slot') as [G1 G2].
  { unfold GetMemberGroup. by rewrite Hs1, Hs2. }
  rewrite G1, G2. destruct (Z.eqb_spec (ms_group slot) (ms_group slot')) as [Heq|Hne].
  { exists g. cbn [orb]. by split_and!; [|congruence|congruence|]. }
  rewrite (proj2 (Z.leb_gt _ _) K1), (proj2 (Z.leb_gt _ _) K2). cbn [orb].
  unfold _swapMembersGroup. rewrite Hs1, Hs2.
  match goal with |- context [upd_group gp (fun _ => ?x) w] => set (g' := x) end.
  exists g'. split.
  { assert (w_groups (upd_group gp (fun _ => g') w) !! gp = Some g') as Hl
      by by rewrite upd_group_lookup, decide_True, Hg.
    destruct (GetPlayerW w guid), (GetPlayerW w swapGuid); exact Hl. }
  assert (guid <> swapGuid) as Hd by (intros <-; congruence).
  unfold GetMemberGroup, getMemberSlot, g'. cbn [m_memberSlots set_m_memberSlots]. split_and!.
  - rewrite (find_upd_slot_eq guid (set_slot_group (ms_group slot')) _ slot); [done|done|].
    etransitivity; [by apply find_upd_slot_ne|exact Hs1].
  - etransitivity; [apply (f_equal (fun o => match o with Some x => ms_group x | None => _ end));
      by apply find_upd_slot_ne|].
    unfold find_slot. by rewrite (find_upd_slot_eq swapGuid (set_slot_group (ms_group slot)) _ slot').
  - unfold GetMembersCount. simpl. by rewrite !upd_slot_length.
Qed.

(** Subgroups of a raid.  A member moved to a free subgroup is in it
    afterwards, whether he is online or not, and two members that swap have
    each other's subgroup; nobody is lost, all groups stay well formed, so the
    counters of both subgroups are right again. *)
Theorem subgroups_move_and_swap gp guid w g :
  party_ok w -> w_groups w !! gp = Some g -> isRaidGroup g = true -> IsMember g guid = true ->
  (forall k, ref_agrees w gp guid -> subgroup_ok k -> HasFreeSlotSubGroup g k = true ->
     let w' := ChangeMembersGroup gp guid k w in
     party_ok w' /\ exists g', w_groups w' !! gp = Some g' /\ GetMemberGroup g' guid = k /\
       (forall p, w_players w' !! guid = Some p -> is_Some (GetPlayerW w guid) -> GetMemberGroup g guid <> k ->
          (if decide (p_group p = Some gp) then p_subGroup p else p_originalSubGroup p) = k)) /\
  (forall swapGuid, IsMember g swapGuid = true ->
     let w' := SwapMembersGroup gp guid swapGuid w in
     party_ok w' /\ exists g', w_groups w' !! gp = Some g' /\
       GetMemberGroup g' guid = GetMemberGroup g swapGuid /\ GetMemberGroup g' swapGuid = GetMemberGroup g guid /\
       GetMembersCount g' = GetMembersCount g).
Proof.
  intros Hp Hg Hr Hm. split.
  - intros k Href Hk Hf. exact (moving_changes_subgroup gp guid k w g Hp Href Hg Hr Hm Hk Hf).
  - intros swapGuid Hs. exact (swapping_exchanges_subgroups gp guid swapGuid w g Hp Hg Hr Hm Hs).
Qed.

(** Target icons.  There are always eight and nobody carries two of them;
    an icon set on a target is there, and a cleared target has none. *)
Lemma icons_are_unique id target g :
  0 <= id -> icons_ok (m_targetIcons g) ->
  icons_ok (m_targetIcons (SetTargetIcon id target g)) /\
  (id < 8 -> m_targetIcons (SetTargetIcon id target g) !! Z.to_nat id = Some target) /\
  (target <> 0 -> target ∉ m_targetIcons (ClearTargetIcon target g)).
Proof.
  intros Hid Hok. split_and!; [by apply SetTargetIcon_ok| |intros; by apply ClearTargetIcon_gone].
  intros Hlt. unfold SetTargetIcon. rewrite (proj2 (Z.leb_gt _ _)) by done. simpl.
  apply list_lookup_insert_eq. destruct Hok as [Hlen _]. unfold TARGET_ICON_COUNT in Hlen.
  case_if; rewrite ?length_fmap, Hlen; lia.
Qed.

(** Main tank and main assistant of a raid are never the same player, and
    whoever is appointed is a member. *)
Lemma main_roles_differ guid g :
  tanks_ok g ->
  tanks_ok (snd (_setMainTank guid g)) /\ tanks_ok (snd (_setMainAssistant guid g)) /\
  (fst (_setMainTank guid g) = true -> m_mainTankGuid (snd (_setMainTank guid g)) = guid /\
     (guid = 0 \/ IsMember g guid = true)) /\
  (fst (_setMainAssistant guid g) = true ->
     m_mainAssistantGuid (snd (_setMainAssistant guid g)) = guid /\
     (guid = 0 \/ IsMember g guid = true)).
Proof.
  intros Hok. split_and!; [by apply setMainTank_ok|by apply setMainAssistant_ok| |].
  - unfold _setMainTank. case_if; [done|]. case_if; [case_if; [done|]|]; bool_prop; simpl; auto.
  - unfold _setMainAssistant. case_if; [done|]. case_if; [case_if; [done|]|]; bool_prop; simpl; auto.
Qed.

(** Marks of a raid.  There are always eight target icons and nobody
    carries two of them; an icon set on a target is there, and a cleared target
    has none.  Main tank and main assistant are never the same player, and
    whoever is appointed is a member. *)
Theorem raid_marks_are_unique id target guid g :
  0 <= id -> icons_ok (m_targetIcons g) -> tanks_ok g ->
  (icons_ok (m_targetIcons (SetTargetIcon id target g)) /\
   (id < 8 -> m_targetIcons (SetTargetIcon id target g) !! Z.to_nat id = Some target) /\
   (target <> 0 -> target ∉ m_targetIcons (ClearTargetIcon target g))) /\
  (tanks_ok (snd (_setMainTank guid g)) /\ tanks_ok (snd (_setMainAssistant guid g)) /\
   (fst (_setMainTank guid g) = true -> m_mainTankGuid (snd (_setMainTank guid g)) = guid /\
      (guid = 0 \/ IsMember g guid = true)) /\
   (fst (_setMainAssistant guid g) = true -> m_mainAssistantGuid (snd (_setMainAssistant guid g)) = guid /\
      (guid = 0 \/ IsMember g guid = true))).
Proof. intros Hid Hi Ht. split; [by apply icons_are_unique|by apply main_roles_differ]. Qed.

(** ** The properties at concrete inputs *)

(** The leader of the three leaves. *)

Lemma leaving_passes_on_the_lead_witness :
  (party_ok (RemoveFromGroup 1 demo_party) /\
  slots_at (RemoveFromGroup 1 demo_party) 0 = Some (erase_slot 1 (m_memberSlots (group_at demo_party 0)))) /\
  (exists g',
  w_groups (_chooseLeader 0 false demo_party) !! 0 = Some g' /\ m_leaderGuid g' = 2).
Proof.
  split.
  { destruct (w_players demo_party !! 1) as [p|] eqn:Ep; [|vm_compute in Ep; discriminate].
    destruct ((proj1 leaving_passes_on_the_lead) 1 demo_party p 0 (group_at demo_party 0)) as [H1 H2].
    - apply demo_party_ok.
    - exact Ep.
    - vm_compute in Ep. injection Ep as <-. reflexivity.
    - vm_compute. reflexivity.
    - vm_compute. reflexivity.
    - split; [exact H1|]. specialize (H2 0). rewrite decide_True in H2 by reflexivity.
      assert ((GetMembersCount (group_at demo_party 0) <=? 2) = false) as Hc by (vm_compute; reflexivity).
      rewrite Hc in H2. exact H2. }
  { destruct ((proj2 leaving_passes_on_the_lead) 0 demo_party (group_at demo_party 0)) as (g' & H1 & H2 & _).
    - vm_compute. reflexivity.
    - destruct demo_party_ok as (_ & _ & Hp & _). refine (proj1 (Hp 0 (group_at demo_party 0) _)).
      vm_compute. reflexivity.
    - vm_compute. discriminate.
    - exists g'. split; [exact H1|]. rewrite H2. vm_compute. reflexivity. }
Defined.

Lemma parties_are_founded_and_joined_witness :
  (exists slot,
  ms_guid slot = 3 /\ slots_at demo_party 0 = Some (m_memberSlots (group_at demo_pair 0) ++ [slot])) /\
  (exists gp g,
  fst (CreateNew 1 "Tank" (demo_world demo_players)) = Some gp /\
  w_groups demo_alone !! gp = Some g /\ m_leaderGuid g = 1).
Proof.
  split.
  { destruct ((proj1 parties_are_founded_and_joined) 0 3 "Mage" demo_pair (group_at demo_pair 0)) as (_ & _ & H).
    - apply demo_party_ok.
    - vm_compute. reflexivity.
    - vm_compute. reflexivity.
    - vm_compute. discriminate.
    - discriminate.
    - assert (IsFull (group_at demo_pair 0) = false) as Hf by (vm_compute; reflexivity).
      rewrite Hf in H. destruct H as (slot & H1 & H2). exists slot. split; [exact H1|].
      specialize (H2 0). rewrite decide_True in H2 by reflexivity. exact H2. }
  { destruct ((proj2 parties_are_founded_and_joined) 1 "Tank" (demo_world demo_players))
      as (gp & g & slot & H1 & _ & H2 & _ & _ & H3 & _); [apply map_Forall_empty|discriminate|].
    exists gp, g. split; [exact H1|]. split; [exact H2|exact H3]. }
Defined.

(** Two members of the raid after one of them has moved. *)
Definition demo_moved : World := ChangeMembersGroup 0 2 4 demo_raid.
Lemma demo_moved_ok : party_ok demo_moved.
Proof.
  apply ChangeMembersGroup_party; [apply demo_party_ok|lia|].
  intros g p Hg Hp _. left. vm_compute in Hp. injection Hp as <-. reflexivity.
Qed.
Lemma subgroups_move_and_swap_witness : exists g' g'',
  w_groups (ChangeMembersGroup 0 2 5 demo_moved) !! 0 = Some g' /\ GetMemberGroup g' 2 = 5 /\
  w_groups (SwapMembersGroup 0 2 3 demo_moved) !! 0 = Some g'' /\ GetMemberGroup g'' 2 = 0 /\ GetMemberGroup g'' 3 = 4.
Proof.
  destruct (subgroups_move_and_swap 0 2 demo_moved (group_at demo_moved 0)) as [H1 H2].
  - exact demo_moved_ok.
  - vm_compute. reflexivity.
  - vm_compute. reflexivity.
  - vm_compute. reflexivity.
  - destruct (H1 5) as (_ & g' & A1 & A2 & _).
    + intros g p Hg Hp _. left. vm_compute in Hp. injection Hp as <-. reflexivity.
    + unfold subgroup_ok, MAX_RAID_SUBGROUPS. lia.
    + vm_compute. reflexivity.
    + destruct (H2 3) as (_ & g'' & B1 & B2 & B3 & _); [vm_compute; reflexivity|].
      exists g', g''. split; [exact A1|]. split; [exact A2|]. split; [exact B1|].
      split; [rewrite B2|rewrite B3]; vm_compute; reflexivity.
Defined.

Lemma raid_marks_are_unique_witness :
  m_targetIcons (SetTargetIcon 3 77 (group_at demo_raid 0)) !! 3%nat = Some 77 /\
  tanks_ok (snd (_setMainTank 2 (group_at demo_raid 0))) /\ m_mainTankGuid (snd (_setMainTank 2 (group_at demo_raid 0))) = 2.
Proof.
  destruct (raid_marks_are_unique 3 77 2 (group_at demo_raid 0)) as [(_ & H1 & _) (H2 & _ & H3 & _)].
  - lia.
  - split; [vm_compute; reflexivity|]. intros i j x Hx Hi. exfalso. apply Hx.
    assert (m_targetIcons (group_at demo_raid 0) = replicate 8 0) as E by (vm_compute; reflexivity).
    rewrite E in Hi. apply lookup_replicate in Hi as [-> _]. reflexivity.
  - left. vm_compute. reflexivity.
  - split; [apply H1; lia|]. split; [exact H2|]. apply H3. vm_compute. reflexivity.
Defined.
