(* ===== verification/PartySessionTheorems.v ===== *)
(** The properties of the party opcodes and of logging in and out, each with a
    run it applies to. *)

From S2P Require Import Prelude CString World Party PartySlots PartyInv PartyRaid PartyHandlers PartyRefs PartySessions PartyOutcomes PartyRoster LFTTypes LFTQueue LFTMgr LFTMgrFacts Demo.

(** ** Concrete sessions *)
Definition demo_penv : PartyEnv := {|
  GetMapId _ := 0; GetInstanceId _ := 0; HasIgnore _ _ := false; cached_hardcore _ := None;
  GetPlayerGuidByName _ := 0; Script_CanInvitePlayer _ _ _ := true; Script_CanMemberAccept _ _ := true;
  Script_IsMachineDriven guid := guid =? 4 |}.
#[local] Existing Instance demo_names.
#[local] Existing Instance demo_penv.
#[local] Existing Instance demo_env.

Inductive demo_event :=
  | Enters (guid : Z) (p : Player)
  | Sends (guid : Z) (op : party_opcode)
  | Leaves (guid : Z).

Definition demo_happens (w : World) (e : demo_event) : World :=
  match e with
  | Enters guid p => EnterWorld guid p None w
  | Sends guid op => snd (run_opcode guid op w)
  | Leaves guid => LogoutPlayer guid true w
  end.

Definition demo_online (guid : Z) (w : World) : bool := from_option p_inWorld false (w_players w !! guid).
Definition demo_allowed (w : World) (e : demo_event) : bool :=
  match e with
  | Enters guid p =>
      negb (guid =? 0) && bool_decide (w_players w !! guid = None) && p_inWorld p &&
      bool_decide (p_group p = None) && bool_decide (p_originalGroup p = None) &&
      bool_decide (p_groupInvite p = None) && forallb (fun x => negb (IsMember (snd x) guid)) (map_to_list (w_groups w))
  | Sends guid _ | Leaves guid => demo_online guid w
  end.
Fixpoint demo_legal (w : World) (es : list demo_event) : bool :=
  match es with
  | [] => true
  | e :: es' => demo_allowed w e && demo_legal (demo_happens w e) es'
  end.

Lemma demo_online_logged guid w : demo_online guid w = true -> logged_in w guid.
Proof.
  unfold demo_online, logged_in. destruct (w_players w !! guid) as [p|]; [|done]. intros H. by exists p.
Qed.

Lemma demo_sessions es : forall w, demo_legal w es = true -> rtc party_step w (foldl demo_happens w es).
Proof.
  induction es as [|e es IH]; intros w; simpl; [done|]. intros [Ha Hl]%andb_true_iff.
  eapply rtc_l; [|by apply IH]. destruct e as [guid p|guid op|guid]; simpl in *.
  - bool_prop. apply StepEnter; [done..|by unfold fresh_player|].
    intros y. split; [done|]. intros (g & Hg & Hm). exfalso.
    rewrite forallb_forall in *. match goal with H : forall x, In x _ -> _ |- _ =>
      specialize (H (y, g) ltac:(apply list_elem_of_In, elem_of_map_to_list, Hg)) end. simpl in *.
    by rewrite Hm in *.
  - apply StepOpcode. by apply demo_online_logged.
  - apply StepLogout. by apply demo_online_logged.
Qed.

(** Four players; the first invites the others. *)
Definition demo_invited : list demo_event :=
  [Enters 1 (demo_player "Tank" CLASS_WARRIOR); Enters 2 (demo_player "Heal" CLASS_PRIEST);
   Enters 3 (demo_player "Mage" CLASS_MAGE); Enters 4 (demo_player "Rogue" CLASS_ROGUE);
   Sends 1 (OpInvite "Heal")].
Definition demo_together : list demo_event :=
  demo_invited ++ [Sends 2 OpAccept; Sends 1 (OpInvite "Mage"); Sends 3 OpAccept;
                   Sends 1 (OpInvite "Rogue"); Sends 4 OpAccept].
Definition demo_start : World := demo_world ∅.
Definition demo_at (es : list demo_event) : World := foldl demo_happens demo_start es.

Lemma demo_at_reachable es : demo_legal demo_start es = true -> rtc party_step demo_start (demo_at es).
Proof. apply demo_sessions. Qed.
Lemma demo_at_ok es : demo_legal demo_start es = true -> parties_ok (demo_at es).
Proof. intros H. by apply (reachable_parties demo_start), demo_at_reachable. Qed.


(** ** The properties *)
(** C28: from the start of the server on, after any sequence of party opcodes,
    logins and logouts, every group is well formed, an online player's
    reference names a group exactly when its list names him, an invitation is
    recorded at the player exactly when it is in the group's set (what the
    assertions of [Group::RemoveInvite] demand), both references name live
    groups, nobody is in two groups, and a group nobody is in yet still has its
    founder's invitation. *)
Theorem sessions_keep_parties_consistent (names : NameEnv) (penv : PartyEnv) (w0 w : World) :
  w_players w0 = ∅ -> w_groups w0 = ∅ -> rtc party_step w0 w ->
  party_ok w /\
  (forall x p y g, w_players w !! x = Some p -> p_inWorld p = true -> w_groups w !! y = Some g ->
     (p_group p = Some y <-> IsMember g x = true)) /\
  (forall x p y g, w_players w !! x = Some p -> w_groups w !! y = Some g ->
     (p_groupInvite p = Some y <-> x ∈ m_invitees g)) /\
  (forall x p y, w_players w !! x = Some p -> p_group p = Some y \/ p_groupInvite p = Some y ->
     is_Some (w_groups w !! y)) /\
  (forall x y1 y2, member_of w y1 x -> member_of w y2 x -> y1 = y2) /\
  (forall y g, w_groups w !! y = Some g -> m_memberSlots g = [] -> m_leaderGuid g ∈ m_invitees g).
Proof.
  intros HP HG Hr. destruct (reachable_parties w0 w HP HG Hr) as (Hp & Hok & Hpd).
  assert (forall y, is_Some (gref w y) -> is_Some (w_groups w !! y)) as Hlive.
  { intros y. unfold gref. by destruct (w_groups w !! y); [eexists|intros [? ?]]. }
  split_and!; [done|..].
  - intros x p y g Hx Hw Hg. rewrite IsMember_elem.
    exact (rf_member w Hok x _ y _ (pref_Some w x p Hx) Hw (gref_Some w y g Hg)).
  - intros x p y g Hx Hg. exact (rf_invite w Hok x _ y _ (pref_Some w x p Hx) (gref_Some w y g Hg)).
  - intros x p y Hx [H|H]; apply Hlive;
      [exact (rf_live w Hok x _ y (pref_Some w x p Hx) H)|exact (rf_invite_live w Hok x _ y (pref_Some w x p Hx) H)].
  - intros x y1 y2 (g1 & Hg1 & H1%IsMember_elem) (g2 & Hg2 & H2%IsMember_elem).
    exact (rf_once w Hok x y1 y2 _ _ (gref_Some w y1 g1 Hg1) (gref_Some w y2 g2 Hg2) H1 H2).
  - intros y g Hg Hnil. by destruct (Hpd y g ltac:(done) Hg Hnil).
Qed.

Lemma sessions_keep_parties_consistent_witness :
  party_ok (demo_at demo_together) /\ p_group <$> w_players (demo_at demo_together) !! 2 = Some (Some 0).
Proof.
  destruct (sessions_keep_parties_consistent demo_names demo_penv demo_start (demo_at demo_together))
    as (H1 & H2 & _); [reflexivity|reflexivity| |].
  { apply demo_at_reachable. vm_compute. reflexivity. }
  split; [exact H1|].
  destruct (w_players (demo_at demo_together) !! 2) as [p|] eqn:Ep; [|vm_compute in Ep; discriminate].
  assert (p_inWorld p = true) as Hw by (vm_compute in Ep; injection Ep as <-; reflexivity).
  assert (w_groups (demo_at demo_together) !! 0 = Some (group_at (demo_at demo_together) 0)) as Hg by (vm_compute; reflexivity).
  simpl. f_equal. apply (proj2 (H2 2 p 0 _ Ep Hw Hg)). vm_compute. reflexivity.
Defined.

(** An invitation that is answered with success has been entered: the
    named player was free, holds the invitation of a group now, is on its list,
    and that group has room and is led by the inviting player.  Any other
    answer, or none, leaves all groups, members and invitations as they were. *)
Lemma invitation_answer_is_true (names : NameEnv) (penv : PartyEnv) (guid : Z) (name : string) (w : World) :
  parties_ok w -> logged_in w guid ->
  let '(reply, w') := HandleGroupInviteOpcode guid name w in
  match re_result <$> reply with
  | Some ERR_PARTY_RESULT_OK => exists n target player, normalizePlayerName name = Some n /\
      FindPlayerByName w n = Some (target, player) /\ invitation_made w w' guid target
  | _ => same_refs w w'
  end.
Proof.
  intros Hok (self0 & Hself & Hws). unfold HandleGroupInviteOpcode. rewrite Hself.
  destruct (normalizePlayerName name) as [n|]; [|done].
  destruct (FindPlayerByName w n) as [[target player]|] eqn:Hf; [|done].
  pose proof (FindPlayerByName_world w n target player Hf) as [Hp Hw].
  do 4 (case_if; [done|]). cbv zeta.
  destruct (bool_decide (is_Some (own_group w player)) || bool_decide (is_Some (p_groupInvite player))) eqn:Hfree;
    [done|].
  destruct (group_refuses w guid player n (own_group w self0)) as [[nm res]|] eqn:Href.
  - destruct res; try done. exfalso. unfold group_refuses in Href. destruct (_ ≫= _) as [g|]; [|done].
    do 3 (case_if; [done|]). done.
  - case_if; [done|].
    assert (p_groupInvite player = None) as Hi.
    { destruct (p_groupInvite player); [|done]. by rewrite (bool_decide_true (is_Some (Some _))), orb_true_r in Hfree. }
    pose proof (invite_into_outcome guid target n (own_group w self0) w self0 player Hok Hself Hws Hp Hw Hi
      eq_refl Href) as H.
    destruct (invite_into guid target n (own_group w self0) w) as [[r|] w']; simpl in *; [|done].
    destruct H as [-> Hm]. by exists n, target, player.
Qed.

(** Accepting an invitation, on every branch.  The founder himself, or a
    player a module vetoes, changes nothing; otherwise the invitation is gone,
    and the player is in the group, with its leader, unless the group is full
    (which is answered) or hardcore rules forbid it. *)
Lemma acceptance_on_every_branch (names : NameEnv) (penv : PartyEnv) (guid : Z) (w : World) (p : Player) (gp : Z) (g : Group) :
  parties_ok w -> w_players w !! guid = Some p -> p_groupInvite p = Some gp -> w_groups w !! gp = Some g ->
  let '(reply, w') := HandleGroupAcceptOpcode guid w in
  if (m_leaderGuid g =? guid) || negb (Script_CanMemberAccept gp guid) then reply = None /\ w' = w
  else (exists p', w_players w' !! guid = Some p' /\ p_groupInvite p' = None) /\
    if IsFull g then reply = Some (mkReply PARTY_OP_INVITE "" ERR_GROUP_FULL) /\ w' = RemoveInvite gp guid w
    else reply = None /\
      if Group_HandleHardcoreInteraction (RemoveInvite gp guid w) g p
      then accepted_into w' gp guid (m_leaderGuid g)
      else w' = RemoveInvite gp guid w.
Proof.
  intros Hok Hp Hi Hg.
  pose proof (pref_uninvited gp guid w _ (parties_refs w Hok) (pref_Some w guid p Hp) Hi) as Hx.
  unfold pref in Hx. apply fmap_Some in Hx as (p1 & Hp1 & E1). injection E1 as _ _ _ E1. symmetry in E1.
  pose proof (accept_outcome guid w p gp g Hok Hp Hi Hg) as Hacc.
  unfold HandleGroupAcceptOpcode in *. rewrite Hp in *. simpl in *. rewrite Hi in *. simpl in *. rewrite Hg in *. simpl in *.
  destruct (Z.eqb_spec (m_leaderGuid g) guid) as [Hl|Hl]; [done|].
  destruct (Script_CanMemberAccept gp guid) eqn:Hs; [|done]. simpl.
  destruct (IsFull g) eqn:Hf; [simpl; split; [by exists p1|done]|].
  destruct (Group_HandleHardcoreInteraction (RemoveInvite gp guid w) g p) eqn:Hh;
    [|simpl; split; [by exists p1|done]].
  specialize (Hacc Hl eq_refl eq_refl eq_refl). cbn [negb] in *.
  match type of Hacc with fst ?e = _ /\ _ => destruct e as [reply w'] end. simpl in *.
  destruct Hacc as [-> Ha]. pose proof Ha as (_ & _ & p' & Hp' & _ & Hi'). split; [by exists p'|done].
Qed.

(** C29: Invitations, from asking to joining.  An answer of success means
    that the invitation was entered for a free player and a group with room,
    any other one that nothing changed; accepting takes the player in on every
    branch but those of a founder, a veto, a full group or hardcore rules. *)
Theorem invitations_from_asking_to_joining :
  (forall (names : NameEnv) (penv : PartyEnv) (guid : Z) (name : string) (w : World),
  parties_ok w -> logged_in w guid ->
  let '(reply, w') := HandleGroupInviteOpcode guid name w in
  match re_result <$> reply with
  | Some ERR_PARTY_RESULT_OK => exists n target player, normalizePlayerName name = Some n /\
      FindPlayerByName w n = Some (target, player) /\ invitation_made w w' guid target
  | _ => same_refs w w'
  end) /\
  (forall (names : NameEnv) (penv : PartyEnv) (guid : Z) (w : World) (p : Player) (gp : Z) (g : Group),
  parties_ok w -> w_players w !! guid = Some p -> p_groupInvite p = Some gp -> w_groups w !! gp = Some g ->
  let '(reply, w') := HandleGroupAcceptOpcode guid w in
  if (m_leaderGuid g =? guid) || negb (Script_CanMemberAccept gp guid) then reply = None /\ w' = w
  else (exists p', w_players w' !! guid = Some p' /\ p_groupInvite p' = None) /\
    if IsFull g then reply = Some (mkReply PARTY_OP_INVITE "" ERR_GROUP_FULL) /\ w' = RemoveInvite gp guid w
    else reply = None /\
      if Group_HandleHardcoreInteraction (RemoveInvite gp guid w) g p
      then accepted_into w' gp guid (m_leaderGuid g)
      else w' = RemoveInvite gp guid w).
Proof. split; [exact invitation_answer_is_true|exact acceptance_on_every_branch]. Qed.

Lemma invitations_from_asking_to_joining_witness :
  (invitation_made (demo_at (firstn 4 demo_invited)) (demo_at demo_invited) 1 2) /\
  (accepted_into (demo_at (demo_invited ++ [Sends 2 OpAccept])) 0 2 1).
Proof.
  split.
  { pose proof ((proj1 invitations_from_asking_to_joining) demo_names demo_penv 1 "Heal" (demo_at (firstn 4 demo_invited))) as H.
    assert (HandleGroupInviteOpcode 1 "Heal" (demo_at (firstn 4 demo_invited)) =
      (Some (mkReply PARTY_OP_INVITE "Heal" ERR_PARTY_RESULT_OK), demo_at demo_invited)) as E
      by (vm_compute; reflexivity).
    rewrite E in H. destruct H as (n & target & player & Hn & Hf & Hm).
    - apply demo_at_ok. vm_compute. reflexivity.
    - apply demo_online_logged. vm_compute. reflexivity.
    - vm_compute in Hn. injection Hn as <-.
      assert (target = 2) as ->; [|exact Hm].
      assert (fst <$> FindPlayerByName (demo_at (firstn 4 demo_invited)) "Heal" = Some 2) as E2 by (vm_compute; reflexivity).
      rewrite Hf in E2. injection E2 as <-. reflexivity. }
  { set (w := demo_at demo_invited).
    destruct (w_players w !! 2) as [p|] eqn:Ep; [|vm_compute in Ep; discriminate].
    pose proof ((proj2 invitations_from_asking_to_joining) demo_names demo_penv 2 w p 0 (group_at w 0)) as H.
    assert (snd (HandleGroupAcceptOpcode 2 w) = demo_at (demo_invited ++ [Sends 2 OpAccept])) as E
      by (unfold w; vm_compute; reflexivity).
    destruct (HandleGroupAcceptOpcode 2 w) as [reply w']. simpl in E. subst w'.
    assert ((m_leaderGuid (group_at w 0) =? 2) || negb (Script_CanMemberAccept 0 2) = false) as E1 by (vm_compute; reflexivity).
    assert (IsFull (group_at w 0) = false) as E2 by (vm_compute; reflexivity).
    assert (Group_HandleHardcoreInteraction (RemoveInvite 0 2 w) (group_at w 0) p = true) as E3.
    { vm_compute in Ep. injection Ep as <-. vm_compute. reflexivity. }
    assert (m_leaderGuid (group_at w 0) = 1) as E4 by (vm_compute; reflexivity).
    rewrite E1, E2, E3, E4 in H. apply H.
    - apply demo_at_ok. vm_compute. reflexivity.
    - exact Ep.
    - vm_compute in Ep. injection Ep as <-. reflexivity.
    - vm_compute. reflexivity. }
Defined.

(** C30: nobody is thrown out, and no invitation withdrawn, by a player who is
    not the leader or an assistant of the group; and never the leader, nor from
    a battleground. *)
Theorem kicks_are_authorised (names : NameEnv) (penv : PartyEnv) (guid : Z) (w : World) :
  (forall target, snd (HandleGroupUninviteGuidOpcode guid target w) <> w ->
     target <> guid /\ may_kick w guid target) /\
  (forall name, snd (HandleGroupUninviteOpcode guid name w) <> w ->
     exists p g n target, w_players w !! guid = Some p /\ GetGroup w p = Some g /\
       normalizePlayerName name = Some n /\ p_name p <> n /\ may_kick w guid target /\
       (target = GetMemberGuid g n \/ GetInvited_name w g n = Some target)).
Proof.
  split.
  - intros target. unfold HandleGroupUninviteGuidOpcode. destruct (w_players w !! guid) as [p|] eqn:Hp; [|done].
    destruct (Z.eqb_spec target guid) as [|Hne]; [done|].
    destruct (CanUninviteFromGroup w guid p target) eqn:Hc; try done.
    intros _. split; [done|]. by eapply CanUninvite_may_kick.
  - intros name. unfold HandleGroupUninviteOpcode. destruct (w_players w !! guid) as [p|] eqn:Hp; [|done]. simpl.
    destruct (normalizePlayerName name) as [n|] eqn:Hn; [|done]. simpl.
    destruct (String.eqb_spec (p_name p) n) as [|Hne]; [done|].
    destruct (_ ≫= _) as [[gp g]|] eqn:E; [|done].
    apply bind_Some in E as (gp' & Hgp & E). apply bind_Some in E as (g' & Hg & [= -> ->]).
    assert (GetGroup w p = Some g) as Hgg by (unfold GetGroup; rewrite Hgp; simpl; by rewrite Hg).
    cbv zeta. destruct (negb (GetMemberGuid g n =? 0)).
    + destruct (CanUninviteFromGroup w guid p (GetMemberGuid g n)) eqn:Hc; try done. intros _.
      exists p, g, n, (GetMemberGuid g n). apply (CanUninvite_may_kick w guid p) in Hc; [|done]. naive_solver.
    + destruct (GetInvited_name w g n) as [plr|] eqn:Hpl; [|done].
      destruct (CanUninviteFromGroup w guid p plr) eqn:Hc; try done. intros _.
      exists p, g, n, plr. apply (CanUninvite_may_kick w guid p) in Hc; [|done]. naive_solver.
Qed.

Lemma kicks_are_authorised_witness : may_kick (demo_at demo_together) 1 3.
Proof.
  destruct (kicks_are_authorised demo_names demo_penv 1 (demo_at demo_together)) as [H _].
  apply (H 3). intros E. apply (f_equal (fun w => length (m_memberSlots (group_at w 0)))) in E.
  vm_compute in E. discriminate.
Defined.

(** C31: a player who logs out of a party is in no group afterwards.  With him
    go, from his party, exactly the members who are not online and the bots:
    whoever is still in it is online and not a bot, and everybody who was both
    stays unless the party is gone. *)
Theorem logout_takes_company_along (names : NameEnv) (penv : PartyEnv) (guid : Z) (w : World) (p : Player) (gp : Z) (g : Group) :
  parties_ok w -> w_players w !! guid = Some p -> p_inWorld p = true -> p_group p = Some gp ->
  w_groups w !! gp = Some g -> isRaidGroup g = false ->
  let w' := LogoutPlayer guid true w in
  (forall y, ~ member_of w' y guid) /\
  (forall m, member_of w' gp m -> member_of w gp m /\ (exists pm, GetPlayerW w' m = Some pm) /\
     Script_IsMachineDriven m = false) /\
  (forall m, member_of w gp m -> m <> guid -> is_Some (GetPlayerW w m) -> Script_IsMachineDriven m = false ->
     w_groups w' !! gp = None \/ member_of w' gp m).
Proof. apply logout_outcome. Qed.

(** The leader of four logs out; the fourth member is a bot and goes too. *)
Lemma logout_takes_company_along_witness :
  member_of (demo_at demo_together) 0 4 /\ ~ member_of (LogoutPlayer 1 true (demo_at demo_together)) 0 1 /\
  member_of (LogoutPlayer 1 true (demo_at demo_together)) 0 3.
Proof.
  set (w := demo_at demo_together).
  destruct (w_players w !! 1) as [p|] eqn:Ep; [|vm_compute in Ep; discriminate].
  destruct (logout_takes_company_along demo_names demo_penv 1 w p 0 (group_at w 0)) as (H1 & _ & H3).
  - apply demo_at_ok. vm_compute. reflexivity.
  - exact Ep.
  - vm_compute in Ep. injection Ep as <-. reflexivity.
  - vm_compute in Ep. injection Ep as <-. reflexivity.
  - vm_compute. reflexivity.
  - vm_compute. reflexivity.
  - split; [exists (group_at w 0); vm_compute; split; reflexivity|]. split; [exact (H1 0)|].
    destruct (H3 3) as [E|H].
    + exists (group_at w 0). vm_compute. split; reflexivity.
    + discriminate.
    + vm_compute. eexists. reflexivity.
    + vm_compute. reflexivity.
    + vm_compute in E. discriminate.
    + exact H.
Defined.

(** C32: the sessions implement the roster specification.  Every run moves the
    lists only by free players joining at the end of a list that has room and by
    members leaving, so they stay duplicate free, disjoint and within a raid's
    size; and each opcode does what is its own: accepting joins, declining,
    kicking and leaving take away at most one member (or a party of two), and
    all the others leave every list as it is. *)
Theorem sessions_refine_roster (names : NameEnv) (penv : PartyEnv) (w0 w : World) :
  w_players w0 = ∅ -> w_groups w0 = ∅ -> rtc party_step w0 w ->
  rtc roster_step (roster w0) (roster w) /\ roster_ok (roster w) /\
  (forall guid op, logged_in w guid -> opcode_spec op (roster w) (roster (snd (run_opcode guid op w)))) /\
  (forall guid socket, logged_in w guid -> rtc roster_leave (roster w) (roster (LogoutPlayer guid socket w))).
Proof.
  intros HP HG Hr. pose proof (parties_ok_empty w0 HP HG) as Hok0.
  assert (rtc roster_step (roster w0) (roster w)) as Hsteps.
  { clear HP HG. induction Hr as [|w1 w2 w3 Hs _ IH]; [done|].
    etransitivity; [by apply party_step_refines|]. apply IH. by eapply party_step_ok. }
  pose proof (reachable_parties w0 w HP HG Hr) as Hok.
  split_and!; [done| | |].
  - eapply roster_steps_ok; [exact Hsteps|]. unfold roster, gref. rewrite HG. split.
    + intros y. rewrite lookup_empty. simpl. split; [apply NoDup_nil_2|done].
    + intros x y y'. rewrite !lookup_empty. simpl. by intros ?%not_elem_of_nil.
  - intros guid op Hin. by apply opcode_refines.
  - intros guid socket Hin. by apply LogoutGroup_leaves.
Qed.

Lemma sessions_refine_roster_witness :
  roster_ok (roster (demo_at demo_together)) /\ roster (demo_at demo_together) 0 = [1; 2; 3; 4] /\
  roster_leave (roster (demo_at demo_together)) (roster (demo_at (demo_together ++ [Sends 1 (OpUninviteGuid 3)]))).
Proof.
  destruct (sessions_refine_roster demo_names demo_penv demo_start (demo_at demo_together)) as (_ & H1 & H2 & _).
  - reflexivity.
  - reflexivity.
  - apply demo_at_reachable. vm_compute. reflexivity.
  - split; [exact H1|]. split; [vm_compute; reflexivity|].
    assert (demo_at (demo_together ++ [Sends 1 (OpUninviteGuid 3)]) =
      snd (run_opcode 1 (OpUninviteGuid 3) (demo_at demo_together))) as E by (vm_compute; reflexivity).
    rewrite E. apply (H2 1 (OpUninviteGuid 3)). apply demo_online_logged. vm_compute. reflexivity.
Defined.

