(* ===== verification/PostTypes.v ===== *)
(** The data of mail and auctions: items that change hands, letters, auction
    entries, the players at mailboxes and auctioneers, and the tables of the
    characters database that hold what is on its way (Mail/Mail.h,
    AuctionHouse/AuctionHouseMgr.h, MapNodes/MasterPlayer.h). *)

From Stdlib Require Import Floats.SpecFloat.
From S2P Require Import Prelude CString GuildBankTypes GuildBankItems.

(** ** Numbers of the protocol *)
Definition MAIL_NORMAL := 0.
Definition MAIL_AUCTION := 2.
Definition MAIL_CREATURE := 3.
Definition MAIL_GAMEOBJECT := 4.
Definition MAIL_CHECK_MASK_READ := 1.
Definition MAIL_CHECK_MASK_RETURNED := 2.
Definition MAIL_CHECK_MASK_COPIED := 4.
Definition MAIL_CHECK_MASK_COD_PAYMENT := 8.
Definition MAIL_CHECK_MASK_HAS_BODY := 16.
Definition MAIL_STATIONERY_DEFAULT := 41.
Definition MAIL_STATIONERY_GM := 61.
Definition MAIL_STATIONERY_AUCTION := 62.
Definition AUCTION_OUTBIDDED := 0.
Definition AUCTION_WON := 1.
Definition AUCTION_SUCCESSFUL := 2.
Definition AUCTION_EXPIRED := 3.
Definition AUCTION_CANCELLED_TO_BIDDER := 4.
Definition AUCTION_CANCELED := 5.
Definition MAIL_SEND := 0.
Definition MAIL_MONEY_TAKEN := 1.
Definition MAIL_ITEM_TAKEN := 2.
Definition MAIL_RETURNED_TO_SENDER := 3.
Definition MAIL_DELETED := 4.
Definition MAIL_MADE_PERMANENT := 5.
Definition MAIL_OK := 0.
Definition MAIL_ERR_EQUIP_ERROR := 1.
Definition MAIL_ERR_CANNOT_SEND_TO_SELF := 2.
Definition MAIL_ERR_NOT_ENOUGH_MONEY := 3.
Definition MAIL_ERR_RECIPIENT_NOT_FOUND := 4.
Definition MAIL_ERR_NOT_YOUR_TEAM := 5.
Definition MAIL_ERR_INTERNAL_ERROR := 6.
Definition MAIL_ERR_DISABLED_FOR_TRIAL_ACC := 14.
Definition MAIL_ERR_RECIPIENT_CAP_REACHED := 15.
Definition AUCTION_OK := 0.
Definition AUCTION_ERR_INVENTORY := 1.
Definition AUCTION_ERR_DATABASE := 2.
Definition AUCTION_ERR_NOT_ENOUGH_MONEY := 3.
Definition AUCTION_ERR_ITEM_NOT_FOUND := 4.
Definition AUCTION_ERR_HIGHER_BID := 5.
Definition AUCTION_ERR_BID_INCREMENT := 7.
Definition AUCTION_ERR_BID_OWN := 10.
Definition AUCTION_STARTED := 0.
Definition AUCTION_REMOVED := 1.
Definition AUCTION_BID_PLACED := 2.
Definition EQUIP_ERR_ITEM_NOT_FOUND := 23.
Definition SMSG_AUCTION_LIST_RESULT := 604.
Definition SMSG_AUCTION_OWNER_LIST_RESULT := 605.
Definition SMSG_AUCTION_BIDDER_LIST_RESULT := 613.
Definition MAIL_BODY_ITEM_TEMPLATE := 8383.
Definition MIN_AUCTION_TIME := 2 * 3600.
Definition ITEM_FLAG_CONJURED := 2.
Definition ITEM_FLAG_WRAPPER := 512.
Definition ITEM_DYNFLAG_WRAPPED := 8.
Definition NO_BIND := 0.
Definition SEC_PLAYER := 0.
Definition HOUR := 3600.
Definition DAY := 86400.
Definition ITEM_CLASS_RECIPE := 9.
Definition INVTYPE_CHEST := 5.
Definition INVTYPE_ROBE := 20.
Definition HARDCORE_MODE_STATUS_ALIVE := 1.
Definition HARDCORE_MODE_STATUS_DEAD := 3.
Definition HARDCORE_MODE_STATUS_HC60 := 4.
Definition FACTION_MASK_ALLIANCE := 2.
Definition FACTION_MASK_HORDE := 4.
Definition INVENTORY_SLOT_ITEM_END := 39.
Definition BANK_SLOT_ITEM_START := 39.
Definition BANK_SLOT_ITEM_END := 63.
Definition KEYRING_SLOT_START := 81.
Definition KEYRING_SLOT_END := 113.
Definition MAX_BAG_SIZE := 36.

(** ** Items

    [pi_guid], [pi_owner] and [pi_state] are the object's guid, owner and update
    state; [pi_tradeUntil] is [m_tradeAllowedUntil]. *)
Record PostItem := mkPostItem {
  pi_guid : Z;
  pi_owner : Z;
  pi_state : ItemUpdateState;
  pi_tradeUntil : Z;
  pi_item : Item
}.
(** Field updates of [PostItem]. *)
Definition set_pi_owner x (r : PostItem) : PostItem :=
  {| pi_guid := pi_guid r; pi_owner := x; pi_state := pi_state r;
     pi_tradeUntil := pi_tradeUntil r; pi_item := pi_item r |}.
Definition set_pi_state x (r : PostItem) : PostItem :=
  {| pi_guid := pi_guid r; pi_owner := pi_owner r; pi_state := x;
     pi_tradeUntil := pi_tradeUntil r; pi_item := pi_item r |}.
Definition set_pi_item x (r : PostItem) : PostItem :=
  {| pi_guid := pi_guid r; pi_owner := pi_owner r; pi_state := pi_state r;
     pi_tradeUntil := pi_tradeUntil r; pi_item := x |}.

(** The part of an item template that is read. *)
Record ItemTemplate := mkTemplate {
  tp_Class : Z;
  tp_SubClass : Z;
  tp_Name1 : string;
  tp_Quality : Z;
  tp_Flags : Z;
  tp_SellPrice : Z;
  tp_InventoryType : Z;
  tp_RequiredLevel : Z;
  tp_Stackable : Z;
  tp_Bonding : Z;
  tp_MaxDurability : Z;
  tp_Duration : Z;
  tp_bag : bool;
  tp_spell : Z
}.

(** ** Letters *)
Inductive MailState := MAIL_STATE_UNCHANGED | MAIL_STATE_CHANGED | MAIL_STATE_DELETED.
#[export] Instance MailState_eq_dec : EqDecision MailState.
Proof. solve_decision. Defined.

Record MailItemInfo := mkMailItem { mi_guid : Z; mi_template : Z }.

Record Mail := mkMail {
  ml_messageID : Z;
  ml_messageType : Z;
  ml_stationery : Z;
  ml_mailTemplateId : Z;
  ml_sender : Z;
  ml_receiverGuid : Z;
  ml_subject : string;
  ml_itemTextId : Z;
  ml_has_items : bool;
  ml_items : list MailItemInfo;
  ml_removedItems : list Z;
  ml_expire_time : Z;
  ml_deliver_time : Z;
  ml_money : Z;
  ml_COD : Z;
  ml_checked : Z;
  ml_state : MailState
}.
(** Field updates of [Mail]. *)
Definition set_ml_mailTemplateId x (r : Mail) : Mail :=
  {| ml_messageID := ml_messageID r; ml_messageType := ml_messageType r;
     ml_stationery := ml_stationery r; ml_mailTemplateId := x; ml_sender := ml_sender r;
     ml_receiverGuid := ml_receiverGuid r; ml_subject := ml_subject r;
     ml_itemTextId := ml_itemTextId r; ml_has_items := ml_has_items r; ml_items := ml_items r;
     ml_removedItems := ml_removedItems r; ml_expire_time := ml_expire_time r;
     ml_deliver_time := ml_deliver_time r; ml_money := ml_money r; ml_COD := ml_COD r;
     ml_checked := ml_checked r; ml_state := ml_state r |}.
Definition set_ml_has_items x (r : Mail) : Mail :=
  {| ml_messageID := ml_messageID r; ml_messageType := ml_messageType r;
     ml_stationery := ml_stationery r; ml_mailTemplateId := ml_mailTemplateId r;
     ml_sender := ml_sender r; ml_receiverGuid := ml_receiverGuid r; ml_subject := ml_subject r;
     ml_itemTextId := ml_itemTextId r; ml_has_items := x; ml_items := ml_items r;
     ml_removedItems := ml_removedItems r; ml_expire_time := ml_expire_time r;
     ml_deliver_time := ml_deliver_time r; ml_money := ml_money r; ml_COD := ml_COD r;
     ml_checked := ml_checked r; ml_state := ml_state r |}.
Definition set_ml_items x (r : Mail) : Mail :=
  {| ml_messageID := ml_messageID r; ml_messageType := ml_messageType r;
     ml_stationery := ml_stationery r; ml_mailTemplateId := ml_mailTemplateId r;
     ml_sender := ml_sender r; ml_receiverGuid := ml_receiverGuid r; ml_subject := ml_subject r;
     ml_itemTextId := ml_itemTextId r; ml_has_items := ml_has_items r; ml_items := x;
     ml_removedItems := ml_removedItems r; ml_expire_time := ml_expire_time r;
     ml_deliver_time := ml_deliver_time r; ml_money := ml_money r; ml_COD := ml_COD r;
     ml_checked := ml_checked r; ml_state := ml_state r |}.
Definition set_ml_removedItems x (r : Mail) : Mail :=
  {| ml_messageID := ml_messageID r; ml_messageType := ml_messageType r;
     ml_stationery := ml_stationery r; ml_mailTemplateId := ml_mailTemplateId r;
     ml_sender := ml_sender r; ml_receiverGuid := ml_receiverGuid r; ml_subject := ml_subject r;
     ml_itemTextId := ml_itemTextId r; ml_has_items := ml_has_items r; ml_items := ml_items r;
     ml_removedItems := x; ml_expire_time := ml_expire_time r;
     ml_deliver_time := ml_deliver_time r; ml_money := ml_money r; ml_COD := ml_COD r;
     ml_checked := ml_checked r; ml_state := ml_state r |}.
Definition set_ml_expire_time x (r : Mail) : Mail :=
  {| ml_messageID := ml_messageID r; ml_messageType := ml_messageType r;
     ml_stationery := ml_stationery r; ml_mailTemplateId := ml_mailTemplateId r;
     ml_sender := ml_sender r; ml_receiverGuid := ml_receiverGuid r; ml_subject := ml_subject r;
     ml_itemTextId := ml_itemTextId r; ml_has_items := ml_has_items r; ml_items := ml_items r;
     ml_removedItems := ml_removedItems r; ml_expire_time := x;
     ml_deliver_time := ml_deliver_time r; ml_money := ml_money r; ml_COD := ml_COD r;
     ml_checked := ml_checked r; ml_state := ml_state r |}.
Definition set_ml_money x (r : Mail) : Mail :=
  {| ml_messageID := ml_messageID r; ml_messageType := ml_messageType r;
     ml_stationery := ml_stationery r; ml_mailTemplateId := ml_mailTemplateId r;
     ml_sender := ml_sender r; ml_receiverGuid := ml_receiverGuid r; ml_subject := ml_subject r;
     ml_itemTextId := ml_itemTextId r; ml_has_items := ml_has_items r; ml_items := ml_items r;
     ml_removedItems := ml_removedItems r; ml_expire_time := ml_expire_time r;
     ml_deliver_time := ml_deliver_time r; ml_money := x; ml_COD := ml_COD r;
     ml_checked := ml_checked r; ml_state := ml_state r |}.
Definition set_ml_COD x (r : Mail) : Mail :=
  {| ml_messageID := ml_messageID r; ml_messageType := ml_messageType r;
     ml_stationery := ml_stationery r; ml_mailTemplateId := ml_mailTemplateId r;
     ml_sender := ml_sender r; ml_receiverGuid := ml_receiverGuid r; ml_subject := ml_subject r;
     ml_itemTextId := ml_itemTextId r; ml_has_items := ml_has_items r; ml_items := ml_items r;
     ml_removedItems := ml_removedItems r; ml_expire_time := ml_expire_time r;
     ml_deliver_time := ml_deliver_time r; ml_money := ml_money r; ml_COD := x;
     ml_checked := ml_checked r; ml_state := ml_state r |}.
Definition set_ml_checked x (r : Mail) : Mail :=
  {| ml_messageID := ml_messageID r; ml_messageType := ml_messageType r;
     ml_stationery := ml_stationery r; ml_mailTemplateId := ml_mailTemplateId r;
     ml_sender := ml_sender r; ml_receiverGuid := ml_receiverGuid r; ml_subject := ml_subject r;
     ml_itemTextId := ml_itemTextId r; ml_has_items := ml_has_items r; ml_items := ml_items r;
     ml_removedItems := ml_removedItems r; ml_expire_time := ml_expire_time r;
     ml_deliver_time := ml_deliver_time r; ml_money := ml_money r; ml_COD := ml_COD r;
     ml_checked := x; ml_state := ml_state r |}.
Definition set_ml_state x (r : Mail) : Mail :=
  {| ml_messageID := ml_messageID r; ml_messageType := ml_messageType r;
     ml_stationery := ml_stationery r; ml_mailTemplateId := ml_mailTemplateId r;
     ml_sender := ml_sender r; ml_receiverGuid := ml_receiverGuid r; ml_subject := ml_subject r;
     ml_itemTextId := ml_itemTextId r; ml_has_items := ml_has_items r; ml_items := ml_items r;
     ml_removedItems := ml_removedItems r; ml_expire_time := ml_expire_time r;
     ml_deliver_time := ml_deliver_time r; ml_money := ml_money r; ml_COD := ml_COD r;
     ml_checked := ml_checked r; ml_state := x |}.

Record MailRow := mkMailRow {
  mlr_messageType : Z;
  mlr_stationery : Z;
  mlr_mailTemplateId : Z;
  mlr_sender : Z;
  mlr_receiver : Z;
  mlr_subject : string;
  mlr_itemTextId : Z;
  mlr_has_items : bool;
  mlr_expire_time : Z;
  mlr_deliver_time : Z;
  mlr_money : Z;
  mlr_cod : Z;
  mlr_checked : Z;
  mlr_isDeleted : bool
}.
(** Field updates of [MailRow]. *)
Definition set_mlr_sender x (r : MailRow) : MailRow :=
  {| mlr_messageType := mlr_messageType r; mlr_stationery := mlr_stationery r;
     mlr_mailTemplateId := mlr_mailTemplateId r; mlr_sender := x; mlr_receiver := mlr_receiver r;
     mlr_subject := mlr_subject r; mlr_itemTextId := mlr_itemTextId r;
     mlr_has_items := mlr_has_items r; mlr_expire_time := mlr_expire_time r;
     mlr_deliver_time := mlr_deliver_time r; mlr_money := mlr_money r; mlr_cod := mlr_cod r;
     mlr_checked := mlr_checked r; mlr_isDeleted := mlr_isDeleted r |}.
Definition set_mlr_receiver x (r : MailRow) : MailRow :=
  {| mlr_messageType := mlr_messageType r; mlr_stationery := mlr_stationery r;
     mlr_mailTemplateId := mlr_mailTemplateId r; mlr_sender := mlr_sender r; mlr_receiver := x;
     mlr_subject := mlr_subject r; mlr_itemTextId := mlr_itemTextId r;
     mlr_has_items := mlr_has_items r; mlr_expire_time := mlr_expire_time r;
     mlr_deliver_time := mlr_deliver_time r; mlr_money := mlr_money r; mlr_cod := mlr_cod r;
     mlr_checked := mlr_checked r; mlr_isDeleted := mlr_isDeleted r |}.
Definition set_mlr_itemTextId x (r : MailRow) : MailRow :=
  {| mlr_messageType := mlr_messageType r; mlr_stationery := mlr_stationery r;
     mlr_mailTemplateId := mlr_mailTemplateId r; mlr_sender := mlr_sender r;
     mlr_receiver := mlr_receiver r; mlr_subject := mlr_subject r; mlr_itemTextId := x;
     mlr_has_items := mlr_has_items r; mlr_expire_time := mlr_expire_time r;
     mlr_deliver_time := mlr_deliver_time r; mlr_money := mlr_money r; mlr_cod := mlr_cod r;
     mlr_checked := mlr_checked r; mlr_isDeleted := mlr_isDeleted r |}.
Definition set_mlr_has_items x (r : MailRow) : MailRow :=
  {| mlr_messageType := mlr_messageType r; mlr_stationery := mlr_stationery r;
     mlr_mailTemplateId := mlr_mailTemplateId r; mlr_sender := mlr_sender r;
     mlr_receiver := mlr_receiver r; mlr_subject := mlr_subject r;
     mlr_itemTextId := mlr_itemTextId r; mlr_has_items := x; mlr_expire_time := mlr_expire_time r;
     mlr_deliver_time := mlr_deliver_time r; mlr_money := mlr_money r; mlr_cod := mlr_cod r;
     mlr_checked := mlr_checked r; mlr_isDeleted := mlr_isDeleted r |}.
Definition set_mlr_expire_time x (r : MailRow) : MailRow :=
  {| mlr_messageType := mlr_messageType r; mlr_stationery := mlr_stationery r;
     mlr_mailTemplateId := mlr_mailTemplateId r; mlr_sender := mlr_sender r;
     mlr_receiver := mlr_receiver r; mlr_subject := mlr_subject r;
     mlr_itemTextId := mlr_itemTextId r; mlr_has_items := mlr_has_items r; mlr_expire_time := x;
     mlr_deliver_time := mlr_deliver_time r; mlr_money := mlr_money r; mlr_cod := mlr_cod r;
     mlr_checked := mlr_checked r; mlr_isDeleted := mlr_isDeleted r |}.
Definition set_mlr_deliver_time x (r : MailRow) : MailRow :=
  {| mlr_messageType := mlr_messageType r; mlr_stationery := mlr_stationery r;
     mlr_mailTemplateId := mlr_mailTemplateId r; mlr_sender := mlr_sender r;
     mlr_receiver := mlr_receiver r; mlr_subject := mlr_subject r;
     mlr_itemTextId := mlr_itemTextId r; mlr_has_items := mlr_has_items r;
     mlr_expire_time := mlr_expire_time r; mlr_deliver_time := x; mlr_money := mlr_money r;
     mlr_cod := mlr_cod r; mlr_checked := mlr_checked r; mlr_isDeleted := mlr_isDeleted r |}.
Definition set_mlr_money x (r : MailRow) : MailRow :=
  {| mlr_messageType := mlr_messageType r; mlr_stationery := mlr_stationery r;
     mlr_mailTemplateId := mlr_mailTemplateId r; mlr_sender := mlr_sender r;
     mlr_receiver := mlr_receiver r; mlr_subject := mlr_subject r;
     mlr_itemTextId := mlr_itemTextId r; mlr_has_items := mlr_has_items r;
     mlr_expire_time := mlr_expire_time r; mlr_deliver_time := mlr_deliver_time r; mlr_money := x;
     mlr_cod := mlr_cod r; mlr_checked := mlr_checked r; mlr_isDeleted := mlr_isDeleted r |}.
Definition set_mlr_cod x (r : MailRow) : MailRow :=
  {| mlr_messageType := mlr_messageType r; mlr_stationery := mlr_stationery r;
     mlr_mailTemplateId := mlr_mailTemplateId r; mlr_sender := mlr_sender r;
     mlr_receiver := mlr_receiver r; mlr_subject := mlr_subject r;
     mlr_itemTextId := mlr_itemTextId r; mlr_has_items := mlr_has_items r;
     mlr_expire_time := mlr_expire_time r; mlr_deliver_time := mlr_deliver_time r;
     mlr_money := mlr_money r; mlr_cod := x; mlr_checked := mlr_checked r;
     mlr_isDeleted := mlr_isDeleted r |}.
Definition set_mlr_checked x (r : MailRow) : MailRow :=
  {| mlr_messageType := mlr_messageType r; mlr_stationery := mlr_stationery r;
     mlr_mailTemplateId := mlr_mailTemplateId r; mlr_sender := mlr_sender r;
     mlr_receiver := mlr_receiver r; mlr_subject := mlr_subject r;
     mlr_itemTextId := mlr_itemTextId r; mlr_has_items := mlr_has_items r;
     mlr_expire_time := mlr_expire_time r; mlr_deliver_time := mlr_deliver_time r;
     mlr_money := mlr_money r; mlr_cod := mlr_cod r; mlr_checked := x;
     mlr_isDeleted := mlr_isDeleted r |}.
Definition set_mlr_isDeleted x (r : MailRow) : MailRow :=
  {| mlr_messageType := mlr_messageType r; mlr_stationery := mlr_stationery r;
     mlr_mailTemplateId := mlr_mailTemplateId r; mlr_sender := mlr_sender r;
     mlr_receiver := mlr_receiver r; mlr_subject := mlr_subject r;
     mlr_itemTextId := mlr_itemTextId r; mlr_has_items := mlr_has_items r;
     mlr_expire_time := mlr_expire_time r; mlr_deliver_time := mlr_deliver_time r;
     mlr_money := mlr_money r; mlr_cod := mlr_cod r; mlr_checked := mlr_checked r;
     mlr_isDeleted := x |}.

(** [MailDraft]; the items by their guids. *)
Record MailDraft := mkDraft {
  d_mailTemplateId : Z;
  d_subject : string;
  d_bodyId : Z;
  d_items : gmap Z PostItem;
  d_money : Z;
  d_COD : Z;
  d_returnSourceMailId : Z
}.
(** Field updates of [MailDraft]. *)
Definition set_d_mailTemplateId x (r : MailDraft) : MailDraft :=
  {| d_mailTemplateId := x; d_subject := d_subject r; d_bodyId := d_bodyId r;
     d_items := d_items r; d_money := d_money r; d_COD := d_COD r;
     d_returnSourceMailId := d_returnSourceMailId r |}.
Definition set_d_subject x (r : MailDraft) : MailDraft :=
  {| d_mailTemplateId := d_mailTemplateId r; d_subject := x; d_bodyId := d_bodyId r;
     d_items := d_items r; d_money := d_money r; d_COD := d_COD r;
     d_returnSourceMailId := d_returnSourceMailId r |}.
Definition set_d_bodyId x (r : MailDraft) : MailDraft :=
  {| d_mailTemplateId := d_mailTemplateId r; d_subject := d_subject r; d_bodyId := x;
     d_items := d_items r; d_money := d_money r; d_COD := d_COD r;
     d_returnSourceMailId := d_returnSourceMailId r |}.
Definition set_d_items x (r : MailDraft) : MailDraft :=
  {| d_mailTemplateId := d_mailTemplateId r; d_subject := d_subject r; d_bodyId := d_bodyId r;
     d_items := x; d_money := d_money r; d_COD := d_COD r;
     d_returnSourceMailId := d_returnSourceMailId r |}.
Definition set_d_money x (r : MailDraft) : MailDraft :=
  {| d_mailTemplateId := d_mailTemplateId r; d_subject := d_subject r; d_bodyId := d_bodyId r;
     d_items := d_items r; d_money := x; d_COD := d_COD r;
     d_returnSourceMailId := d_returnSourceMailId r |}.
Definition set_d_COD x (r : MailDraft) : MailDraft :=
  {| d_mailTemplateId := d_mailTemplateId r; d_subject := d_subject r; d_bodyId := d_bodyId r;
     d_items := d_items r; d_money := d_money r; d_COD := x;
     d_returnSourceMailId := d_returnSourceMailId r |}.

Record MailSender := mkSender { sn_messageType : Z; sn_senderId : Z; sn_stationery : Z }.
Definition MailSender_player (g : Z) : MailSender := mkSender MAIL_NORMAL g MAIL_STATIONERY_DEFAULT.

(** ** Auctions *)
Record AuctionHouseEntry := mkHouseEntry { houseId : Z; depositPercent : Z; cutPercent : Z }.

Record AuctionEntry := mkAuction {
  a_Id : Z;
  a_itemGuidLow : Z;
  a_itemTemplate : Z;
  a_owner : Z;
  a_ownerAccount : Z;
  a_startbid : Z;
  a_bid : Z;
  a_buyout : Z;
  a_lockedIpAddress : string;
  a_depositTime : Z;
  a_expireTime : Z;
  a_bidder : Z;
  a_deposit : Z;
  a_house : AuctionHouseEntry
}.
(** Field updates of [AuctionEntry]. *)
Definition set_a_bid x (r : AuctionEntry) : AuctionEntry :=
  {| a_Id := a_Id r; a_itemGuidLow := a_itemGuidLow r; a_itemTemplate := a_itemTemplate r;
     a_owner := a_owner r; a_ownerAccount := a_ownerAccount r; a_startbid := a_startbid r;
     a_bid := x; a_buyout := a_buyout r; a_lockedIpAddress := a_lockedIpAddress r;
     a_depositTime := a_depositTime r; a_expireTime := a_expireTime r; a_bidder := a_bidder r;
     a_deposit := a_deposit r; a_house := a_house r |}.
Definition set_a_lockedIpAddress x (r : AuctionEntry) : AuctionEntry :=
  {| a_Id := a_Id r; a_itemGuidLow := a_itemGuidLow r; a_itemTemplate := a_itemTemplate r;
     a_owner := a_owner r; a_ownerAccount := a_ownerAccount r; a_startbid := a_startbid r;
     a_bid := a_bid r; a_buyout := a_buyout r; a_lockedIpAddress := x;
     a_depositTime := a_depositTime r; a_expireTime := a_expireTime r; a_bidder := a_bidder r;
     a_deposit := a_deposit r; a_house := a_house r |}.
Definition set_a_bidder x (r : AuctionEntry) : AuctionEntry :=
  {| a_Id := a_Id r; a_itemGuidLow := a_itemGuidLow r; a_itemTemplate := a_itemTemplate r;
     a_owner := a_owner r; a_ownerAccount := a_ownerAccount r; a_startbid := a_startbid r;
     a_bid := a_bid r; a_buyout := a_buyout r; a_lockedIpAddress := a_lockedIpAddress r;
     a_depositTime := a_depositTime r; a_expireTime := a_expireTime r; a_bidder := x;
     a_deposit := a_deposit r; a_house := a_house r |}.

Record AuctionRow := mkAuctionRow {
  ar_houseid : Z;
  ar_itemguid : Z;
  ar_item_template : Z;
  ar_itemowner : Z;
  ar_buyoutprice : Z;
  ar_time : Z;
  ar_buyguid : Z;
  ar_lastbid : Z;
  ar_startbid : Z;
  ar_deposit : Z
}.

(** The two multimaps list their pairs in the order of the keys, equal keys in
    the order of insertion; an [AuctionEntry*] in them is the entry's id. *)
Record AuctionHouseObject := mkHouse {
  OrderedAuctionMap : list (Z * Z);
  AccountAuctionMap : list (Z * Z);
  AuctionsMap : gmap Z AuctionEntry
}.
(** Field updates of [AuctionHouseObject]. *)
Definition set_AuctionsMap x (r : AuctionHouseObject) : AuctionHouseObject :=
  {| OrderedAuctionMap := OrderedAuctionMap r; AccountAuctionMap := AccountAuctionMap r;
     AuctionsMap := x |}.

(** What a list packet says of an auction ([BuildAuctionInfo]). *)
Record AuctionInfo := mkInfo {
  ai_id : Z; ai_item : PostItem; ai_owner : Z; ai_startbid : Z; ai_outbid : Z; ai_buyout : Z;
  ai_left : Z; ai_bidder : Z; ai_bid : Z
}.

Record AuctionHouseClientQuery := mkQuery {
  qy_wsearchedname : string;
  qy_levelmin : Z;
  qy_levelmax : Z;
  qy_usable : Z;
  qy_listfrom : Z;
  qy_auctionSlotID : Z;
  qy_auctionMainCategory : Z;
  qy_auctionSubCategory : Z;
  qy_quality : Z
}.
Definition set_qy_wsearchedname x (r : AuctionHouseClientQuery) : AuctionHouseClientQuery :=
  mkQuery x (qy_levelmin r) (qy_levelmax r) (qy_usable r) (qy_listfrom r) (qy_auctionSlotID r)
    (qy_auctionMainCategory r) (qy_auctionSubCategory r) (qy_quality r).

(** ** Players

    [PlayerInfo] is what does not change while one is online: the session's
    account, security level and address, whether it has a socket and is
    suspicious, the highest level of the account's characters, and the
    character's level, team and hardcore mode. *)
Record PlayerInfo := mkPlayerInfo {
  in_account : Z;
  in_security : Z;
  in_address : string;
  in_socket : bool;
  in_suspicious : bool;
  in_highLevel : bool;
  in_maxLevel : Z;
  in_level : Z;
  in_team : Z;
  in_hardcore : bool;
  in_anonMail : bool
}.

(** A player in memory: session, [Player] and [MasterPlayer].  [pp_near] are the
    mailboxes and auctioneers he can reach; [pp_removed] are the guids of items
    that wait to be deleted at the next save. *)
Record PostPlayer := mkPostPlayer {
  pp_info : PlayerInfo;
  pp_inWorld : bool;
  pp_near : gset Z;
  pp_lootGuid : Z;
  pp_money : Z;
  pp_items : gmap (Z * Z) PostItem;
  pp_removed : list Z;
  pp_ahRequest : bool;
  pp_lastMailOpen : Z;
  pp_mail : list Mail;
  pp_mitems : gmap Z PostItem;
  pp_mailsUpdated : bool;
  pp_unReadMails : Z;
  pp_nextMailDelivereTime : Z
}.
(** Field updates of [PostPlayer]. *)
Definition set_pp_inWorld x (r : PostPlayer) : PostPlayer :=
  {| pp_info := pp_info r; pp_inWorld := x; pp_near := pp_near r; pp_lootGuid := pp_lootGuid r;
     pp_money := pp_money r; pp_items := pp_items r; pp_removed := pp_removed r;
     pp_ahRequest := pp_ahRequest r; pp_lastMailOpen := pp_lastMailOpen r; pp_mail := pp_mail r;
     pp_mitems := pp_mitems r; pp_mailsUpdated := pp_mailsUpdated r;
     pp_unReadMails := pp_unReadMails r; pp_nextMailDelivereTime := pp_nextMailDelivereTime r |}.
Definition set_pp_near x (r : PostPlayer) : PostPlayer :=
  {| pp_info := pp_info r; pp_inWorld := pp_inWorld r; pp_near := x; pp_lootGuid := pp_lootGuid r;
     pp_money := pp_money r; pp_items := pp_items r; pp_removed := pp_removed r;
     pp_ahRequest := pp_ahRequest r; pp_lastMailOpen := pp_lastMailOpen r; pp_mail := pp_mail r;
     pp_mitems := pp_mitems r; pp_mailsUpdated := pp_mailsUpdated r;
     pp_unReadMails := pp_unReadMails r; pp_nextMailDelivereTime := pp_nextMailDelivereTime r |}.
Definition set_pp_lootGuid x (r : PostPlayer) : PostPlayer :=
  {| pp_info := pp_info r; pp_inWorld := pp_inWorld r; pp_near := pp_near r; pp_lootGuid := x;
     pp_money := pp_money r; pp_items := pp_items r; pp_removed := pp_removed r;
     pp_ahRequest := pp_ahRequest r; pp_lastMailOpen := pp_lastMailOpen r; pp_mail := pp_mail r;
     pp_mitems := pp_mitems r; pp_mailsUpdated := pp_mailsUpdated r;
     pp_unReadMails := pp_unReadMails r; pp_nextMailDelivereTime := pp_nextMailDelivereTime r |}.
Definition set_pp_money x (r : PostPlayer) : PostPlayer :=
  {| pp_info := pp_info r; pp_inWorld := pp_inWorld r; pp_near := pp_near r;
     pp_lootGuid := pp_lootGuid r; pp_money := x; pp_items := pp_items r;
     pp_removed := pp_removed r; pp_ahRequest := pp_ahRequest r;
     pp_lastMailOpen := pp_lastMailOpen r; pp_mail := pp_mail r; pp_mitems := pp_mitems r;
     pp_mailsUpdated := pp_mailsUpdated r; pp_unReadMails := pp_unReadMails r;
     pp_nextMailDelivereTime := pp_nextMailDelivereTime r |}.
Definition set_pp_items x (r : PostPlayer) : PostPlayer :=
  {| pp_info := pp_info r; pp_inWorld := pp_inWorld r; pp_near := pp_near r;
     pp_lootGuid := pp_lootGuid r; pp_money := pp_money r; pp_items := x;
     pp_removed := pp_removed r; pp_ahRequest := pp_ahRequest r;
     pp_lastMailOpen := pp_lastMailOpen r; pp_mail := pp_mail r; pp_mitems := pp_mitems r;
     pp_mailsUpdated := pp_mailsUpdated r; pp_unReadMails := pp_unReadMails r;
     pp_nextMailDelivereTime := pp_nextMailDelivereTime r |}.
Definition set_pp_removed x (r : PostPlayer) : PostPlayer :=
  {| pp_info := pp_info r; pp_inWorld := pp_inWorld r; pp_near := pp_near r;
     pp_lootGuid := pp_lootGuid r; pp_money := pp_money r; pp_items := pp_items r;
     pp_removed := x; pp_ahRequest := pp_ahRequest r; pp_lastMailOpen := pp_lastMailOpen r;
     pp_mail := pp_mail r; pp_mitems := pp_mitems r; pp_mailsUpdated := pp_mailsUpdated r;
     pp_unReadMails := pp_unReadMails r; pp_nextMailDelivereTime := pp_nextMailDelivereTime r |}.
Definition set_pp_ahRequest x (r : PostPlayer) : PostPlayer :=
  {| pp_info := pp_info r; pp_inWorld := pp_inWorld r; pp_near := pp_near r;
     pp_lootGuid := pp_lootGuid r; pp_money := pp_money r; pp_items := pp_items r;
     pp_removed := pp_removed r; pp_ahRequest := x; pp_lastMailOpen := pp_lastMailOpen r;
     pp_mail := pp_mail r; pp_mitems := pp_mitems r; pp_mailsUpdated := pp_mailsUpdated r;
     pp_unReadMails := pp_unReadMails r; pp_nextMailDelivereTime := pp_nextMailDelivereTime r |}.
Definition set_pp_lastMailOpen x (r : PostPlayer) : PostPlayer :=
  {| pp_info := pp_info r; pp_inWorld := pp_inWorld r; pp_near := pp_near r;
     pp_lootGuid := pp_lootGuid r; pp_money := pp_money r; pp_items := pp_items r;
     pp_removed := pp_removed r; pp_ahRequest := pp_ahRequest r; pp_lastMailOpen := x;
     pp_mail := pp_mail r; pp_mitems := pp_mitems r; pp_mailsUpdated := pp_mailsUpdated r;
     pp_unReadMails := pp_unReadMails r; pp_nextMailDelivereTime := pp_nextMailDelivereTime r |}.
Definition set_pp_mail x (r : PostPlayer) : PostPlayer :=
  {| pp_info := pp_info r; pp_inWorld := pp_inWorld r; pp_near := pp_near r;
     pp_lootGuid := pp_lootGuid r; pp_money := pp_money r; pp_items := pp_items r;
     pp_removed := pp_removed r; pp_ahRequest := pp_ahRequest r;
     pp_lastMailOpen := pp_lastMailOpen r; pp_mail := x; pp_mitems := pp_mitems r;
     pp_mailsUpdated := pp_mailsUpdated r; pp_unReadMails := pp_unReadMails r;
     pp_nextMailDelivereTime := pp_nextMailDelivereTime r |}.
Definition set_pp_mitems x (r : PostPlayer) : PostPlayer :=
  {| pp_info := pp_info r; pp_inWorld := pp_inWorld r; pp_near := pp_near r;
     pp_lootGuid := pp_lootGuid r; pp_money := pp_money r; pp_items := pp_items r;
     pp_removed := pp_removed r; pp_ahRequest := pp_ahRequest r;
     pp_lastMailOpen := pp_lastMailOpen r; pp_mail := pp_mail r; pp_mitems := x;
     pp_mailsUpdated := pp_mailsUpdated r; pp_unReadMails := pp_unReadMails r;
     pp_nextMailDelivereTime := pp_nextMailDelivereTime r |}.
Definition set_pp_mailsUpdated x (r : PostPlayer) : PostPlayer :=
  {| pp_info := pp_info r; pp_inWorld := pp_inWorld r; pp_near := pp_near r;
     pp_lootGuid := pp_lootGuid r; pp_money := pp_money r; pp_items := pp_items r;
     pp_removed := pp_removed r; pp_ahRequest := pp_ahRequest r;
     pp_lastMailOpen := pp_lastMailOpen r; pp_mail := pp_mail r; pp_mitems := pp_mitems r;
     pp_mailsUpdated := x; pp_unReadMails := pp_unReadMails r;
     pp_nextMailDelivereTime := pp_nextMailDelivereTime r |}.
Definition set_pp_unReadMails x (r : PostPlayer) : PostPlayer :=
  {| pp_info := pp_info r; pp_inWorld := pp_inWorld r; pp_near := pp_near r;
     pp_lootGuid := pp_lootGuid r; pp_money := pp_money r; pp_items := pp_items r;
     pp_removed := pp_removed r; pp_ahRequest := pp_ahRequest r;
     pp_lastMailOpen := pp_lastMailOpen r; pp_mail := pp_mail r; pp_mitems := pp_mitems r;
     pp_mailsUpdated := pp_mailsUpdated r; pp_unReadMails := x;
     pp_nextMailDelivereTime := pp_nextMailDelivereTime r |}.
Definition set_pp_nextMailDelivereTime x (r : PostPlayer) : PostPlayer :=
  {| pp_info := pp_info r; pp_inWorld := pp_inWorld r; pp_near := pp_near r;
     pp_lootGuid := pp_lootGuid r; pp_money := pp_money r; pp_items := pp_items r;
     pp_removed := pp_removed r; pp_ahRequest := pp_ahRequest r;
     pp_lastMailOpen := pp_lastMailOpen r; pp_mail := pp_mail r; pp_mitems := pp_mitems r;
     pp_mailsUpdated := pp_mailsUpdated r; pp_unReadMails := pp_unReadMails r;
     pp_nextMailDelivereTime := x |}.

(** A character that is not in memory. *)
Record SavedChar := mkSaved { sc_money : Z; sc_items : gmap (Z * Z) PostItem }.

(** PlayerCacheData. *)
Record PostCache := mkPostCache { pc_account : Z; pc_team : Z; pc_hardcoreStatus : Z }.

(** A search that waits for the async task to answer it. *)
Inductive AuctionClientQueryType := AUCTION_QUERY_LIST | AUCTION_QUERY_LIST_OWNER | AUCTION_QUERY_LIST_BIDDER.
Record AuctionTask := mkTask {
  tk_type : AuctionClientQueryType; tk_account : Z; tk_house : Z; tk_query : AuctionHouseClientQuery;
  tk_outbidded : list Z
}.

(** ** The world

    [pw_houses] are the auction houses by their addresses, [pw_houseMap] the
    address for each house id; [pw_time] is time(nullptr), [pw_gameTime] the
    world's clock.  [pw_mailIds], [pw_textIds] and [pw_itemGuids] count on where the
    generators of ids ([IdGenerator::Generate]) wrap. *)
Inductive PostOut :=
| MailResult (to mailId action error equip itemId count : Z)
| NewMail (to : Z)
| MailList (to : Z) (mails : list (Mail * option PostItem))
| ItemTextResponse (to id : Z) (text : string)
| NextMailTime (to : Z) (unread : bool)
| PostMessage (to : Z) (text : string)
| AuctionHello (to house : Z)
| AuctionCommandResult (to id action error : Z) (extra : list Z)
| AuctionBidderNotification (to house id bidder bid outbid item : Z)
| AuctionOwnerNotification (to id bid outbid bidder item : Z)
| AuctionRemovedNotification (to id item : Z)
| AuctionListResult (to opcode : Z) (infos : list AuctionInfo) (count total : Z).

Record PW := mkPW {
  pw_players : gmap Z PostPlayer;
  pw_chars : gmap Z SavedChar;
  pw_cache : gmap Z PostCache;
  pw_names : gmap string Z;
  pw_mail : gmap Z MailRow;
  pw_mail_items : gmap (Z * Z) (Z * Z);
  pw_item_instance : gmap Z (Z * Item);
  pw_item_text : gmap Z string;
  pw_itemTexts : gmap Z string;
  pw_auction : gmap Z AuctionRow;
  pw_houses : gmap Z AuctionHouseObject;
  pw_houseMap : gmap Z Z;
  pw_aitems : gmap Z PostItem;
  pw_auctionIds : gset Z;
  pw_nextAuctionId : Z;
  pw_mailIds : Z;
  pw_textIds : Z;
  pw_itemGuids : Z;
  pw_mailCount : gmap Z Z;
  pw_mailsSent : gmap Z (gmap Z Z);
  pw_time : Z;
  pw_gameTime : Z;
  pw_tasks : list AuctionTask;
  pw_out : list PostOut
}.
(** Field updates of [PW]. *)
Definition set_pw_players x (r : PW) : PW :=
  {| pw_players := x; pw_chars := pw_chars r; pw_cache := pw_cache r; pw_names := pw_names r;
     pw_mail := pw_mail r; pw_mail_items := pw_mail_items r;
     pw_item_instance := pw_item_instance r; pw_item_text := pw_item_text r;
     pw_itemTexts := pw_itemTexts r; pw_auction := pw_auction r; pw_houses := pw_houses r;
     pw_houseMap := pw_houseMap r; pw_aitems := pw_aitems r; pw_auctionIds := pw_auctionIds r;
     pw_nextAuctionId := pw_nextAuctionId r; pw_mailIds := pw_mailIds r;
     pw_textIds := pw_textIds r; pw_itemGuids := pw_itemGuids r; pw_mailCount := pw_mailCount r;
     pw_mailsSent := pw_mailsSent r; pw_time := pw_time r; pw_gameTime := pw_gameTime r;
     pw_tasks := pw_tasks r; pw_out := pw_out r |}.
Definition set_pw_chars x (r : PW) : PW :=
  {| pw_players := pw_players r; pw_chars := x; pw_cache := pw_cache r; pw_names := pw_names r;
     pw_mail := pw_mail r; pw_mail_items := pw_mail_items r;
     pw_item_instance := pw_item_instance r; pw_item_text := pw_item_text r;
     pw_itemTexts := pw_itemTexts r; pw_auction := pw_auction r; pw_houses := pw_houses r;
     pw_houseMap := pw_houseMap r; pw_aitems := pw_aitems r; pw_auctionIds := pw_auctionIds r;
     pw_nextAuctionId := pw_nextAuctionId r; pw_mailIds := pw_mailIds r;
     pw_textIds := pw_textIds r; pw_itemGuids := pw_itemGuids r; pw_mailCount := pw_mailCount r;
     pw_mailsSent := pw_mailsSent r; pw_time := pw_time r; pw_gameTime := pw_gameTime r;
     pw_tasks := pw_tasks r; pw_out := pw_out r |}.
Definition set_pw_cache x (r : PW) : PW :=
  {| pw_players := pw_players r; pw_chars := pw_chars r; pw_cache := x; pw_names := pw_names r;
     pw_mail := pw_mail r; pw_mail_items := pw_mail_items r;
     pw_item_instance := pw_item_instance r; pw_item_text := pw_item_text r;
     pw_itemTexts := pw_itemTexts r; pw_auction := pw_auction r; pw_houses := pw_houses r;
     pw_houseMap := pw_houseMap r; pw_aitems := pw_aitems r; pw_auctionIds := pw_auctionIds r;
     pw_nextAuctionId := pw_nextAuctionId r; pw_mailIds := pw_mailIds r;
     pw_textIds := pw_textIds r; pw_itemGuids := pw_itemGuids r; pw_mailCount := pw_mailCount r;
     pw_mailsSent := pw_mailsSent r; pw_time := pw_time r; pw_gameTime := pw_gameTime r;
     pw_tasks := pw_tasks r; pw_out := pw_out r |}.
Definition set_pw_names x (r : PW) : PW :=
  {| pw_players := pw_players r; pw_chars := pw_chars r; pw_cache := pw_cache r; pw_names := x;
     pw_mail := pw_mail r; pw_mail_items := pw_mail_items r;
     pw_item_instance := pw_item_instance r; pw_item_text := pw_item_text r;
     pw_itemTexts := pw_itemTexts r; pw_auction := pw_auction r; pw_houses := pw_houses r;
     pw_houseMap := pw_houseMap r; pw_aitems := pw_aitems r; pw_auctionIds := pw_auctionIds r;
     pw_nextAuctionId := pw_nextAuctionId r; pw_mailIds := pw_mailIds r;
     pw_textIds := pw_textIds r; pw_itemGuids := pw_itemGuids r; pw_mailCount := pw_mailCount r;
     pw_mailsSent := pw_mailsSent r; pw_time := pw_time r; pw_gameTime := pw_gameTime r;
     pw_tasks := pw_tasks r; pw_out := pw_out r |}.
Definition set_pw_mail x (r : PW) : PW :=
  {| pw_players := pw_players r; pw_chars := pw_chars r; pw_cache := pw_cache r;
     pw_names := pw_names r; pw_mail := x; pw_mail_items := pw_mail_items r;
     pw_item_instance := pw_item_instance r; pw_item_text := pw_item_text r;
     pw_itemTexts := pw_itemTexts r; pw_auction := pw_auction r; pw_houses := pw_houses r;
     pw_houseMap := pw_houseMap r; pw_aitems := pw_aitems r; pw_auctionIds := pw_auctionIds r;
     pw_nextAuctionId := pw_nextAuctionId r; pw_mailIds := pw_mailIds r;
     pw_textIds := pw_textIds r; pw_itemGuids := pw_itemGuids r; pw_mailCount := pw_mailCount r;
     pw_mailsSent := pw_mailsSent r; pw_time := pw_time r; pw_gameTime := pw_gameTime r;
     pw_tasks := pw_tasks r; pw_out := pw_out r |}.
Definition set_pw_mail_items x (r : PW) : PW :=
  {| pw_players := pw_players r; pw_chars := pw_chars r; pw_cache := pw_cache r;
     pw_names := pw_names r; pw_mail := pw_mail r; pw_mail_items := x;
     pw_item_instance := pw_item_instance r; pw_item_text := pw_item_text r;
     pw_itemTexts := pw_itemTexts r; pw_auction := pw_auction r; pw_houses := pw_houses r;
     pw_houseMap := pw_houseMap r; pw_aitems := pw_aitems r; pw_auctionIds := pw_auctionIds r;
     pw_nextAuctionId := pw_nextAuctionId r; pw_mailIds := pw_mailIds r;
     pw_textIds := pw_textIds r; pw_itemGuids := pw_itemGuids r; pw_mailCount := pw_mailCount r;
     pw_mailsSent := pw_mailsSent r; pw_time := pw_time r; pw_gameTime := pw_gameTime r;
     pw_tasks := pw_tasks r; pw_out := pw_out r |}.
Definition set_pw_item_instance x (r : PW) : PW :=
  {| pw_players := pw_players r; pw_chars := pw_chars r; pw_cache := pw_cache r;
     pw_names := pw_names r; pw_mail := pw_mail r; pw_mail_items := pw_mail_items r;
     pw_item_instance := x; pw_item_text := pw_item_text r; pw_itemTexts := pw_itemTexts r;
     pw_auction := pw_auction r; pw_houses := pw_houses r; pw_houseMap := pw_houseMap r;
     pw_aitems := pw_aitems r; pw_auctionIds := pw_auctionIds r;
     pw_nextAuctionId := pw_nextAuctionId r; pw_mailIds := pw_mailIds r;
     pw_textIds := pw_textIds r; pw_itemGuids := pw_itemGuids r; pw_mailCount := pw_mailCount r;
     pw_mailsSent := pw_mailsSent r; pw_time := pw_time r; pw_gameTime := pw_gameTime r;
     pw_tasks := pw_tasks r; pw_out := pw_out r |}.
Definition set_pw_item_text x (r : PW) : PW :=
  {| pw_players := pw_players r; pw_chars := pw_chars r; pw_cache := pw_cache r;
     pw_names := pw_names r; pw_mail := pw_mail r; pw_mail_items := pw_mail_items r;
     pw_item_instance := pw_item_instance r; pw_item_text := x; pw_itemTexts := pw_itemTexts r;
     pw_auction := pw_auction r; pw_houses := pw_houses r; pw_houseMap := pw_houseMap r;
     pw_aitems := pw_aitems r; pw_auctionIds := pw_auctionIds r;
     pw_nextAuctionId := pw_nextAuctionId r; pw_mailIds := pw_mailIds r;
     pw_textIds := pw_textIds r; pw_itemGuids := pw_itemGuids r; pw_mailCount := pw_mailCount r;
     pw_mailsSent := pw_mailsSent r; pw_time := pw_time r; pw_gameTime := pw_gameTime r;
     pw_tasks := pw_tasks r; pw_out := pw_out r |}.
Definition set_pw_itemTexts x (r : PW) : PW :=
  {| pw_players := pw_players r; pw_chars := pw_chars r; pw_cache := pw_cache r;
     pw_names := pw_names r; pw_mail := pw_mail r; pw_mail_items := pw_mail_items r;
     pw_item_instance := pw_item_instance r; pw_item_text := pw_item_text r; pw_itemTexts := x;
     pw_auction := pw_auction r; pw_houses := pw_houses r; pw_houseMap := pw_houseMap r;
     pw_aitems := pw_aitems r; pw_auctionIds := pw_auctionIds r;
     pw_nextAuctionId := pw_nextAuctionId r; pw_mailIds := pw_mailIds r;
     pw_textIds := pw_textIds r; pw_itemGuids := pw_itemGuids r; pw_mailCount := pw_mailCount r;
     pw_mailsSent := pw_mailsSent r; pw_time := pw_time r; pw_gameTime := pw_gameTime r;
     pw_tasks := pw_tasks r; pw_out := pw_out r |}.
Definition set_pw_auction x (r : PW) : PW :=
  {| pw_players := pw_players r; pw_chars := pw_chars r; pw_cache := pw_cache r;
     pw_names := pw_names r; pw_mail := pw_mail r; pw_mail_items := pw_mail_items r;
     pw_item_instance := pw_item_instance r; pw_item_text := pw_item_text r;
     pw_itemTexts := pw_itemTexts r; pw_auction := x; pw_houses := pw_houses r;
     pw_houseMap := pw_houseMap r; pw_aitems := pw_aitems r; pw_auctionIds := pw_auctionIds r;
     pw_nextAuctionId := pw_nextAuctionId r; pw_mailIds := pw_mailIds r;
     pw_textIds := pw_textIds r; pw_itemGuids := pw_itemGuids r; pw_mailCount := pw_mailCount r;
     pw_mailsSent := pw_mailsSent r; pw_time := pw_time r; pw_gameTime := pw_gameTime r;
     pw_tasks := pw_tasks r; pw_out := pw_out r |}.
Definition set_pw_houses x (r : PW) : PW :=
  {| pw_players := pw_players r; pw_chars := pw_chars r; pw_cache := pw_cache r;
     pw_names := pw_names r; pw_mail := pw_mail r; pw_mail_items := pw_mail_items r;
     pw_item_instance := pw_item_instance r; pw_item_text := pw_item_text r;
     pw_itemTexts := pw_itemTexts r; pw_auction := pw_auction r; pw_houses := x;
     pw_houseMap := pw_houseMap r; pw_aitems := pw_aitems r; pw_auctionIds := pw_auctionIds r;
     pw_nextAuctionId := pw_nextAuctionId r; pw_mailIds := pw_mailIds r;
     pw_textIds := pw_textIds r; pw_itemGuids := pw_itemGuids r; pw_mailCount := pw_mailCount r;
     pw_mailsSent := pw_mailsSent r; pw_time := pw_time r; pw_gameTime := pw_gameTime r;
     pw_tasks := pw_tasks r; pw_out := pw_out r |}.
Definition set_pw_houseMap x (r : PW) : PW :=
  {| pw_players := pw_players r; pw_chars := pw_chars r; pw_cache := pw_cache r;
     pw_names := pw_names r; pw_mail := pw_mail r; pw_mail_items := pw_mail_items r;
     pw_item_instance := pw_item_instance r; pw_item_text := pw_item_text r;
     pw_itemTexts := pw_itemTexts r; pw_auction := pw_auction r; pw_houses := pw_houses r;
     pw_houseMap := x; pw_aitems := pw_aitems r; pw_auctionIds := pw_auctionIds r;
     pw_nextAuctionId := pw_nextAuctionId r; pw_mailIds := pw_mailIds r;
     pw_textIds := pw_textIds r; pw_itemGuids := pw_itemGuids r; pw_mailCount := pw_mailCount r;
     pw_mailsSent := pw_mailsSent r; pw_time := pw_time r; pw_gameTime := pw_gameTime r;
     pw_tasks := pw_tasks r; pw_out := pw_out r |}.
Definition set_pw_aitems x (r : PW) : PW :=
  {| pw_players := pw_players r; pw_chars := pw_chars r; pw_cache := pw_cache r;
     pw_names := pw_names r; pw_mail := pw_mail r; pw_mail_items := pw_mail_items r;
     pw_item_instance := pw_item_instance r; pw_item_text := pw_item_text r;
     pw_itemTexts := pw_itemTexts r; pw_auction := pw_auction r; pw_houses := pw_houses r;
     pw_houseMap := pw_houseMap r; pw_aitems := x; pw_auctionIds := pw_auctionIds r;
     pw_nextAuctionId := pw_nextAuctionId r; pw_mailIds := pw_mailIds r;
     pw_textIds := pw_textIds r; pw_itemGuids := pw_itemGuids r; pw_mailCount := pw_mailCount r;
     pw_mailsSent := pw_mailsSent r; pw_time := pw_time r; pw_gameTime := pw_gameTime r;
     pw_tasks := pw_tasks r; pw_out := pw_out r |}.
Definition set_pw_auctionIds x (r : PW) : PW :=
  {| pw_players := pw_players r; pw_chars := pw_chars r; pw_cache := pw_cache r;
     pw_names := pw_names r; pw_mail := pw_mail r; pw_mail_items := pw_mail_items r;
     pw_item_instance := pw_item_instance r; pw_item_text := pw_item_text r;
     pw_itemTexts := pw_itemTexts r; pw_auction := pw_auction r; pw_houses := pw_houses r;
     pw_houseMap := pw_houseMap r; pw_aitems := pw_aitems r; pw_auctionIds := x;
     pw_nextAuctionId := pw_nextAuctionId r; pw_mailIds := pw_mailIds r;
     pw_textIds := pw_textIds r; pw_itemGuids := pw_itemGuids r; pw_mailCount := pw_mailCount r;
     pw_mailsSent := pw_mailsSent r; pw_time := pw_time r; pw_gameTime := pw_gameTime r;
     pw_tasks := pw_tasks r; pw_out := pw_out r |}.
Definition set_pw_nextAuctionId x (r : PW) : PW :=
  {| pw_players := pw_players r; pw_chars := pw_chars r; pw_cache := pw_cache r;
     pw_names := pw_names r; pw_mail := pw_mail r; pw_mail_items := pw_mail_items r;
     pw_item_instance := pw_item_instance r; pw_item_text := pw_item_text r;
     pw_itemTexts := pw_itemTexts r; pw_auction := pw_auction r; pw_houses := pw_houses r;
     pw_houseMap := pw_houseMap r; pw_aitems := pw_aitems r; pw_auctionIds := pw_auctionIds r;
     pw_nextAuctionId := x; pw_mailIds := pw_mailIds r; pw_textIds := pw_textIds r;
     pw_itemGuids := pw_itemGuids r; pw_mailCount := pw_mailCount r;
     pw_mailsSent := pw_mailsSent r; pw_time := pw_time r; pw_gameTime := pw_gameTime r;
     pw_tasks := pw_tasks r; pw_out := pw_out r |}.
Definition set_pw_mailIds x (r : PW) : PW :=
  {| pw_players := pw_players r; pw_chars := pw_chars r; pw_cache := pw_cache r;
     pw_names := pw_names r; pw_mail := pw_mail r; pw_mail_items := pw_mail_items r;
     pw_item_instance := pw_item_instance r; pw_item_text := pw_item_text r;
     pw_itemTexts := pw_itemTexts r; pw_auction := pw_auction r; pw_houses := pw_houses r;
     pw_houseMap := pw_houseMap r; pw_aitems := pw_aitems r; pw_auctionIds := pw_auctionIds r;
     pw_nextAuctionId := pw_nextAuctionId r; pw_mailIds := x; pw_textIds := pw_textIds r;
     pw_itemGuids := pw_itemGuids r; pw_mailCount := pw_mailCount r;
     pw_mailsSent := pw_mailsSent r; pw_time := pw_time r; pw_gameTime := pw_gameTime r;
     pw_tasks := pw_tasks r; pw_out := pw_out r |}.
Definition set_pw_textIds x (r : PW) : PW :=
  {| pw_players := pw_players r; pw_chars := pw_chars r; pw_cache := pw_cache r;
     pw_names := pw_names r; pw_mail := pw_mail r; pw_mail_items := pw_mail_items r;
     pw_item_instance := pw_item_instance r; pw_item_text := pw_item_text r;
     pw_itemTexts := pw_itemTexts r; pw_auction := pw_auction r; pw_houses := pw_houses r;
     pw_houseMap := pw_houseMap r; pw_aitems := pw_aitems r; pw_auctionIds := pw_auctionIds r;
     pw_nextAuctionId := pw_nextAuctionId r; pw_mailIds := pw_mailIds r; pw_textIds := x;
     pw_itemGuids := pw_itemGuids r; pw_mailCount := pw_mailCount r;
     pw_mailsSent := pw_mailsSent r; pw_time := pw_time r; pw_gameTime := pw_gameTime r;
     pw_tasks := pw_tasks r; pw_out := pw_out r |}.
Definition set_pw_itemGuids x (r : PW) : PW :=
  {| pw_players := pw_players r; pw_chars := pw_chars r; pw_cache := pw_cache r;
     pw_names := pw_names r; pw_mail := pw_mail r; pw_mail_items := pw_mail_items r;
     pw_item_instance := pw_item_instance r; pw_item_text := pw_item_text r;
     pw_itemTexts := pw_itemTexts r; pw_auction := pw_auction r; pw_houses := pw_houses r;
     pw_houseMap := pw_houseMap r; pw_aitems := pw_aitems r; pw_auctionIds := pw_auctionIds r;
     pw_nextAuctionId := pw_nextAuctionId r; pw_mailIds := pw_mailIds r;
     pw_textIds := pw_textIds r; pw_itemGuids := x; pw_mailCount := pw_mailCount r;
     pw_mailsSent := pw_mailsSent r; pw_time := pw_time r; pw_gameTime := pw_gameTime r;
     pw_tasks := pw_tasks r; pw_out := pw_out r |}.
Definition set_pw_mailCount x (r : PW) : PW :=
  {| pw_players := pw_players r; pw_chars := pw_chars r; pw_cache := pw_cache r;
     pw_names := pw_names r; pw_mail := pw_mail r; pw_mail_items := pw_mail_items r;
     pw_item_instance := pw_item_instance r; pw_item_text := pw_item_text r;
     pw_itemTexts := pw_itemTexts r; pw_auction := pw_auction r; pw_houses := pw_houses r;
     pw_houseMap := pw_houseMap r; pw_aitems := pw_aitems r; pw_auctionIds := pw_auctionIds r;
     pw_nextAuctionId := pw_nextAuctionId r; pw_mailIds := pw_mailIds r;
     pw_textIds := pw_textIds r; pw_itemGuids := pw_itemGuids r; pw_mailCount := x;
     pw_mailsSent := pw_mailsSent r; pw_time := pw_time r; pw_gameTime := pw_gameTime r;
     pw_tasks := pw_tasks r; pw_out := pw_out r |}.
Definition set_pw_mailsSent x (r : PW) : PW :=
  {| pw_players := pw_players r; pw_chars := pw_chars r; pw_cache := pw_cache r;
     pw_names := pw_names r; pw_mail := pw_mail r; pw_mail_items := pw_mail_items r;
     pw_item_instance := pw_item_instance r; pw_item_text := pw_item_text r;
     pw_itemTexts := pw_itemTexts r; pw_auction := pw_auction r; pw_houses := pw_houses r;
     pw_houseMap := pw_houseMap r; pw_aitems := pw_aitems r; pw_auctionIds := pw_auctionIds r;
     pw_nextAuctionId := pw_nextAuctionId r; pw_mailIds := pw_mailIds r;
     pw_textIds := pw_textIds r; pw_itemGuids := pw_itemGuids r; pw_mailCount := pw_mailCount r;
     pw_mailsSent := x; pw_time := pw_time r; pw_gameTime := pw_gameTime r;
     pw_tasks := pw_tasks r; pw_out := pw_out r |}.
Definition set_pw_time x (r : PW) : PW :=
  {| pw_players := pw_players r; pw_chars := pw_chars r; pw_cache := pw_cache r;
     pw_names := pw_names r; pw_mail := pw_mail r; pw_mail_items := pw_mail_items r;
     pw_item_instance := pw_item_instance r; pw_item_text := pw_item_text r;
     pw_itemTexts := pw_itemTexts r; pw_auction := pw_auction r; pw_houses := pw_houses r;
     pw_houseMap := pw_houseMap r; pw_aitems := pw_aitems r; pw_auctionIds := pw_auctionIds r;
     pw_nextAuctionId := pw_nextAuctionId r; pw_mailIds := pw_mailIds r;
     pw_textIds := pw_textIds r; pw_itemGuids := pw_itemGuids r; pw_mailCount := pw_mailCount r;
     pw_mailsSent := pw_mailsSent r; pw_time := x; pw_gameTime := pw_gameTime r;
     pw_tasks := pw_tasks r; pw_out := pw_out r |}.
Definition set_pw_gameTime x (r : PW) : PW :=
  {| pw_players := pw_players r; pw_chars := pw_chars r; pw_cache := pw_cache r;
     pw_names := pw_names r; pw_mail := pw_mail r; pw_mail_items := pw_mail_items r;
     pw_item_instance := pw_item_instance r; pw_item_text := pw_item_text r;
     pw_itemTexts := pw_itemTexts r; pw_auction := pw_auction r; pw_houses := pw_houses r;
     pw_houseMap := pw_houseMap r; pw_aitems := pw_aitems r; pw_auctionIds := pw_auctionIds r;
     pw_nextAuctionId := pw_nextAuctionId r; pw_mailIds := pw_mailIds r;
     pw_textIds := pw_textIds r; pw_itemGuids := pw_itemGuids r; pw_mailCount := pw_mailCount r;
     pw_mailsSent := pw_mailsSent r; pw_time := pw_time r; pw_gameTime := x;
     pw_tasks := pw_tasks r; pw_out := pw_out r |}.
Definition set_pw_tasks x (r : PW) : PW :=
  {| pw_players := pw_players r; pw_chars := pw_chars r; pw_cache := pw_cache r;
     pw_names := pw_names r; pw_mail := pw_mail r; pw_mail_items := pw_mail_items r;
     pw_item_instance := pw_item_instance r; pw_item_text := pw_item_text r;
     pw_itemTexts := pw_itemTexts r; pw_auction := pw_auction r; pw_houses := pw_houses r;
     pw_houseMap := pw_houseMap r; pw_aitems := pw_aitems r; pw_auctionIds := pw_auctionIds r;
     pw_nextAuctionId := pw_nextAuctionId r; pw_mailIds := pw_mailIds r;
     pw_textIds := pw_textIds r; pw_itemGuids := pw_itemGuids r; pw_mailCount := pw_mailCount r;
     pw_mailsSent := pw_mailsSent r; pw_time := pw_time r; pw_gameTime := pw_gameTime r;
     pw_tasks := x; pw_out := pw_out r |}.
Definition set_pw_out x (r : PW) : PW :=
  {| pw_players := pw_players r; pw_chars := pw_chars r; pw_cache := pw_cache r;
     pw_names := pw_names r; pw_mail := pw_mail r; pw_mail_items := pw_mail_items r;
     pw_item_instance := pw_item_instance r; pw_item_text := pw_item_text r;
     pw_itemTexts := pw_itemTexts r; pw_auction := pw_auction r; pw_houses := pw_houses r;
     pw_houseMap := pw_houseMap r; pw_aitems := pw_aitems r; pw_auctionIds := pw_auctionIds r;
     pw_nextAuctionId := pw_nextAuctionId r; pw_mailIds := pw_mailIds r;
     pw_textIds := pw_textIds r; pw_itemGuids := pw_itemGuids r; pw_mailCount := pw_mailCount r;
     pw_mailsSent := pw_mailsSent r; pw_time := pw_time r; pw_gameTime := pw_gameTime r;
     pw_tasks := pw_tasks r; pw_out := x |}.

(** ** What the modelled code reads elsewhere

    Item templates, enchantments and factions are data; [CanUnequipItem],
    [CanStoreItem], [CanUseItem] and [HasSpell] belong to the player's inventory
    and spells, [FillLoot] to loot, the names of items and searches to their locales,
    [has_auction_command] to the commands; [Item_Create] is the
    item [Item::Create] makes, [SetItemRandomProperties] what its namesake does; single
    precision numbers of the configuration are IEEE numbers. *)
Class PostEnv := {
  item_template : Z -> option ItemTemplate;
  soulbound_enchant : Z -> bool;
  CanUnequipItem : PostPlayer -> Z * Z -> bool;
  CanStoreItem : PostPlayer -> PostItem -> Z * list (Z * Z * Z);
  CanUseItem : PostPlayer -> PostItem -> bool;
  HasSpell : PostPlayer -> Z -> bool;
  searched_name_fits : PostPlayer -> PostItem -> string -> bool;
  searched_name : string -> option string;
  has_auction_command : PostPlayer -> bool;
  mail_template_exists : Z -> bool;
  FillLoot : Z -> PostPlayer -> list (Z * Z);
  Item_Create : Z -> Item;
  SetItemRandomProperties : Z -> Item -> Item;
  normalize_name : string -> option string;
  faction_of : Z -> Z;
  faction_mask : Z -> option Z;
  auction_houses : list AuctionHouseEntry;
  cfg_TwoSideAuction : bool;
  cfg_TwoSideMail : bool;
  cfg_GmAllowTrades : bool;
  cfg_AuctionLimit : Z;
  cfg_DepositMin : Z;
  cfg_RateDeposit : spec_float;
  cfg_RateCut : spec_float;
  cfg_RateTime : spec_float;
  cfg_MailMaxPerHour : Z;
  cfg_CodTagLevel : Z;
  cfg_MailDelay : Z;
  cfg_MailSpamLevel : Z;
  cfg_MailSpamMoney : Z;
  cfg_MailSpamItem : bool;
  cfg_MailSpamExpire : Z;
  cfg_MailSpamMax : Z
}.
