(* ===== verification/Mail.v ===== *)
(** Mail (Mail/Mail.cpp): drafts, sending and returning; the mailbox of a player
    in memory and its tables (MapNodes/MasterPlayer.cpp); what an item's row
    becomes (Objects/Item.cpp). *)

From S2P Require Import Prelude CString GuildBankTypes GuildBankItems PostTypes.

Definition upd_pp (g : Z) (f : PostPlayer -> PostPlayer) (w : PW) : PW := set_pw_players (alter f g (pw_players w)) w.
Definition post (o : PostOut) (w : PW) : PW := set_pw_out (pw_out w ++ [o]) w.

(** [ObjectMgr::GetPlayer] finds players in the world only, [FindMasterPlayer]
    everybody with a session. *)
Definition GetPlayer (w : PW) (g : Z) : option PostPlayer :=
  p ← pw_players w !! g; if pp_inWorld p then Some p else None.
Definition FindMasterPlayer (w : PW) (g : Z) : option PostPlayer := pw_players w !! g.
Definition GetPlayerDataByGUID (w : PW) (g : Z) : option PostCache := pw_cache w !! g.
Definition GetPlayerAccountIdByGUID (w : PW) (g : Z) : Z :=
  match GetPlayer w g with
  | Some p => in_account (pp_info p)
  | None => from_option pc_account 0 (GetPlayerDataByGUID w g)
  end.
Definition IsPlayerHardcore (w : PW) (g : Z) : bool :=
  let s := from_option pc_hardcoreStatus 0 (GetPlayerDataByGUID w g) in
  (s =? HARDCORE_MODE_STATUS_ALIVE) || (s =? HARDCORE_MODE_STATUS_DEAD) || (s =? HARDCORE_MODE_STATUS_HC60).

(** ** Items and their rows *)
Definition item_row (it : PostItem) : Z * Item := (pi_owner it, pi_item it).
(** [Item::SaveToDB]; [REPLACE] for a new item, [UPDATE] for a changed one. *)
Definition Item_SaveToDB (it : PostItem) (w : PW) : PW :=
  match pi_state it with
  | ITEM_NEW => set_pw_item_instance (<[pi_guid it := item_row it]> (pw_item_instance w)) w
  | ITEM_CHANGED => set_pw_item_instance (alter (fun _ => item_row it) (pi_guid it) (pw_item_instance w)) w
  | ITEM_REMOVED => set_pw_item_instance (delete (pi_guid it) (pw_item_instance w)) w
  | _ => w
  end.
Definition sql_owner (guid owner : Z) (w : PW) : PW :=
  set_pw_item_instance (alter (fun r => (owner, snd r)) guid (pw_item_instance w)) w.
Definition delete_item_row (guid : Z) (w : PW) : PW := set_pw_item_instance (delete guid (pw_item_instance w)) w.
(** [ModifyMoney] on the amount of coins. *)
Definition coinage (d m : Z) : Z :=
  if d <? 0 then if u32 (- d) <? m then u32 (m + d) else 0
  else if m <? u32 (MAX_MONEY_AMOUNT - d) then u32 (m + d) else MAX_MONEY_AMOUNT.
Definition pp_ModifyMoney (d : Z) (p : PostPlayer) : PostPlayer := set_pp_money (coinage d (pp_money p)) p.

(** ** Tables of mail *)
Definition sql_mail (id : Z) (f : MailRow -> MailRow) (w : PW) : PW := set_pw_mail (alter f id (pw_mail w)) w.
Definition delete_mail_items (id : Z) (w : PW) : PW :=
  set_pw_mail_items (filter (fun kr => fst (fst kr) <> id) (pw_mail_items w)) w.
Definition delete_mail_items_of (guid : Z) (w : PW) : PW :=
  set_pw_mail_items (filter (fun kr => snd (fst kr) <> guid) (pw_mail_items w)) w.
Definition delete_text (id : Z) (w : PW) : PW := set_pw_item_text (delete id (pw_item_text w)) w.
Definition soft_delete (id : Z) (w : PW) : PW := sql_mail id (set_mlr_isDeleted true) w.

(** [ObjectMgr::CreateItemText]. *)
Definition CreateItemText (text : string) (w : PW) : Z * PW :=
  let id := u32 (pw_textIds w) in
  (id, set_pw_textIds (pw_textIds w + 1) (set_pw_item_text (insert_row id text (pw_item_text w))
         (set_pw_itemTexts (<[id := text]> (pw_itemTexts w)) w))).
Definition GetItemText (w : PW) (id : Z) : string := default "There is no info for this item" (pw_itemTexts w !! id).

(** ** The mailbox in memory *)
Definition GetMail (p : PostPlayer) (id : Z) : option Mail := List.find (fun m => ml_messageID m =? id) (pp_mail p).
Definition upd_mail (id : Z) (f : Mail -> Mail) (p : PostPlayer) : PostPlayer :=
  set_pp_mail ((fun m => if ml_messageID m =? id then f m else m) <$> pp_mail p) p.
Definition GetMItem (p : PostPlayer) (g : Z) : option PostItem := pp_mitems p !! g.
Definition AddMItem (it : PostItem) (p : PostPlayer) : PostPlayer := set_pp_mitems (<[pi_guid it := it]> (pp_mitems p)) p.
Definition RemoveMItem (g : Z) (p : PostPlayer) : PostPlayer := set_pp_mitems (delete g (pp_mitems p)) p.
Definition AddMail (m : Mail) (p : PostPlayer) : PostPlayer := set_pp_mail (m :: pp_mail p) p.
Fixpoint erase_mail (id : Z) (l : list Mail) : list Mail :=
  match l with
  | [] => []
  | m :: l => if ml_messageID m =? id then l else m :: erase_mail id l
  end.
Definition RemoveMail (id : Z) (p : PostPlayer) : PostPlayer := set_pp_mail (erase_mail id (pp_mail p)) p.
Definition GetMailSize (p : PostPlayer) : Z := Z.of_nat (length (pp_mail p)).
Definition MarkMailsUpdated : PostPlayer -> PostPlayer := set_pp_mailsUpdated true.
Definition DecreaseUnreadMailsCount (p : PostPlayer) : PostPlayer :=
  set_pp_unReadMails (if pp_unReadMails p =? 0 then 0 else pp_unReadMails p - 1) p.

Definition Mail_AddItem (guid template : Z) (m : Mail) : Mail :=
  set_ml_has_items true (set_ml_items (ml_items m ++ [mkMailItem guid template]) m).
Fixpoint erase_info (guid : Z) (l : list MailItemInfo) : list MailItemInfo :=
  match l with
  | [] => []
  | i :: l => if mi_guid i =? guid then l else i :: erase_info guid l
  end.
Definition Mail_RemoveItem (guid : Z) (m : Mail) : Mail := set_ml_items (erase_info guid (ml_items m)) m.

(** [uint8 unReadMails] wraps. *)
Definition AddNewMailDeliverTime (g deliver : Z) (w : PW) : PW :=
  if deliver <=? pw_time w
  then post (NewMail g) (upd_pp g (fun p => set_pp_unReadMails (u8 (pp_unReadMails p + 1)) p) w)
  else upd_pp g (fun p =>
    if (pp_nextMailDelivereTime p =? 0) || (deliver <? pp_nextMailDelivereTime p)
    then set_pp_nextMailDelivereTime deliver p else p) w.
Definition next_time (now : Z) (s : Z * Z) (m : Mail) : Z * Z :=
  let '(next, unread) := s in
  if now <? ml_deliver_time m
  then ((if (next =? 0) || (ml_deliver_time m <? next) then ml_deliver_time m else next), unread)
  else if (Z.land (ml_checked m) MAIL_CHECK_MASK_READ =? 0) && (now <? ml_expire_time m) then (next, u8 (unread + 1))
  else (next, unread).
Definition UpdateNextMailTimeAndUnreads (now : Z) (p : PostPlayer) : PostPlayer :=
  let '(next, unread) := foldl (next_time now) (0, 0) (pp_mail p) in
  set_pp_nextMailDelivereTime next (set_pp_unReadMails unread p).
Definition MasterPlayer_Update (g : Z) (w : PW) : PW :=
  match pw_players w !! g with
  | None => w
  | Some p =>
      if negb (pp_nextMailDelivereTime p =? 0) && (pp_nextMailDelivereTime p <=? pw_time w)
      then upd_pp g (fun p => set_pp_nextMailDelivereTime 0 (set_pp_unReadMails (u8 (pp_unReadMails p + 1)) p))
             (post (NewMail g) w)
      else w
  end.

(** [MasterPlayer::SaveMails]: the statements for one mail, then the list. *)
Definition save_changed (m : Mail) (r : MailRow) : MailRow :=
  set_mlr_itemTextId (ml_itemTextId m) (set_mlr_has_items (ml_has_items m) (set_mlr_expire_time (ml_expire_time m)
    (set_mlr_deliver_time (ml_deliver_time m) (set_mlr_money (ml_money m) (set_mlr_cod (ml_COD m)
      (set_mlr_checked (ml_checked m) r)))))).
Definition save_mail (w : PW) (m : Mail) : PW :=
  match ml_state m with
  | MAIL_STATE_CHANGED =>
      let w := sql_mail (ml_messageID m) (save_changed m) w in
      foldl (fun w guid => delete_mail_items_of guid w) w (ml_removedItems m)
  | MAIL_STATE_DELETED =>
      let w := if ml_has_items m then foldl (fun w i => delete_item_row (mi_guid i) w) w (ml_items m) else w in
      let w := if negb (ml_itemTextId m =? 0) && negb (ml_stationery m =? MAIL_STATIONERY_DEFAULT)
               then delete_text (ml_itemTextId m) w else w in
      delete_mail_items (ml_messageID m) (soft_delete (ml_messageID m) w)
  | MAIL_STATE_UNCHANGED => w
  end.
Definition saved_mail (m : Mail) : Mail :=
  if decide (ml_state m = MAIL_STATE_CHANGED) then set_ml_state MAIL_STATE_UNCHANGED (set_ml_removedItems [] m) else m.
Definition kept_mail (m : Mail) : bool := negb (bool_decide (ml_state m = MAIL_STATE_DELETED)).
Definition SaveMails (g : Z) (w : PW) : PW :=
  match pw_players w !! g with
  | None => w
  | Some p =>
      if negb (pp_mailsUpdated p) then w
      else upd_pp g (fun p => set_pp_mailsUpdated false (set_pp_mail (saved_mail <$> List.filter kept_mail (pp_mail p)) p))
             (foldl save_mail w (pp_mail p))
  end.

(** ** Drafts *)
Definition no_draft : MailDraft := mkDraft 0 "" 0 ∅ 0 0 0.
Definition MailDraft_subject (subject : string) : MailDraft := set_d_subject subject no_draft.
Definition MailDraft_text (subject text : string) (w : PW) : MailDraft * PW :=
  if text =s "" then (MailDraft_subject subject, w)
  else let '(id, w) := CreateItemText text w in (set_d_bodyId id (MailDraft_subject subject), w).
Definition Draft_AddItem (it : PostItem) (d : MailDraft) : MailDraft := set_d_items (<[pi_guid it := it]> (d_items d)) d.
Definition draft_items (d : MailDraft) : list PostItem := omap (fun k => d_items d !! k) (skeys (d_items d)).

Definition expire_delay_of (d : MailDraft) (sn : MailSender) (expire_delay : Z) : Z :=
  if negb (expire_delay =? 0) then expire_delay
  else if (sn_messageType sn =? MAIL_AUCTION) && bool_decide (d_items d = ∅) && (d_money d =? 0) then HOUR
  else if 0 <? d_COD d then 3 * DAY else 30 * DAY.
Definition mail_row_of (d : MailDraft) (receiver : Z) (sn : MailSender) (checked deliver expire : Z) : MailRow :=
  mkMailRow (sn_messageType sn) (sn_stationery sn) (d_mailTemplateId d) (sn_senderId sn) receiver (d_subject d)
    (d_bodyId d) (negb (bool_decide (d_items d = ∅))) expire deliver (d_money d) (d_COD d) checked false.
Definition mail_of (id : Z) (d : MailDraft) (receiver : Z) (sn : MailSender) (checked deliver expire : Z) : Mail :=
  foldl (fun m it => Mail_AddItem (pi_guid it) (it_entry (pi_item it)) m)
    (mkMail id (sn_messageType sn) (sn_stationery sn) (d_mailTemplateId d) (sn_senderId sn) receiver (d_subject d)
       (d_bodyId d) false [] [] expire deliver (d_money d) (d_COD d) checked MAIL_STATE_UNCHANGED)
    (draft_items d).
Definition insert_mail_item (id receiver : Z) (w : PW) (it : PostItem) : PW :=
  set_pw_mail_items (insert_row (id, pi_guid it) (it_entry (pi_item it), receiver) (pw_mail_items w)) w.

(** [MailDraft::SendMailTo] without items to be made from a mail template: no
    modelled caller asks for them.  For a receiver without a session the items
    in memory are destroyed; their rows stay. *)
Definition SendMailTo (d : MailDraft) (receiver : Z) (sn : MailSender) (checked deliver_delay expire_delay : Z) (w : PW) : PW :=
  let mailId := u32 (pw_mailIds w) in
  let w := set_pw_mailIds (pw_mailIds w + 1) w in
  let deliver := pw_time w + deliver_delay in
  let expire := deliver + expire_delay_of d sn expire_delay in
  let w := if d_returnSourceMailId d =? 0 then w
           else delete_mail_items (d_returnSourceMailId d) (soft_delete (d_returnSourceMailId d) w) in
  let w := set_pw_mail (insert_row mailId (mail_row_of d receiver sn checked deliver expire) (pw_mail w)) w in
  let w := foldl (insert_mail_item mailId receiver) w (draft_items d) in
  match FindMasterPlayer w receiver with
  | None => w
  | Some _ =>
      let w := AddNewMailDeliverTime receiver deliver w in
      upd_pp receiver (fun p => foldl (fun p it => AddMItem it p)
        (AddMail (mail_of mailId d receiver sn checked deliver expire) p) (draft_items d)) w
  end.

Definition saved_item (it : PostItem) : PostItem := set_pi_state ITEM_UNCHANGED it.
(** [MailDraft::SendReturnToSender]. *)
Definition return_item (receiver : Z) (w : PW) (it : PostItem) : PW := sql_owner (pi_guid it) receiver (Item_SaveToDB it w).
Definition SendReturnToSender (d : MailDraft) (sender receiver : Z) (w : PW) : PW :=
  let rc_account := match GetPlayer w receiver with Some _ => 0 | None => GetPlayerAccountIdByGUID w receiver end in
  if negb (bool_decide (is_Some (GetPlayer w receiver))) && (rc_account =? 0)
  then foldl (fun w it => delete_item_row (pi_guid it) w) w (draft_items d)
  else
    let w := foldl (return_item receiver) w (draft_items d) in
    SendMailTo (set_d_items (saved_item <$> d_items d) d) receiver (MailSender_player sender)
      MAIL_CHECK_MASK_RETURNED 0 0 w.

Section loading.
Context {env : PostEnv}.

(** ** Loading

    [Item::LoadFromDB] on the row of an item with a template: the item in memory,
    and whether its row has to be mended. *)
Definition has_flag (flags f : Z) : bool := negb (Z.land flags f =? 0).
Definition loaded_flags (t : ItemTemplate) (i : Item) : Z * bool :=
  let '(flags, save) :=
    if negb (it_transmog i =? 0)
    then if IsSoulBound i then (it_flags i, false) else (Z.lor (it_flags i) ITEM_DYNFLAG_BINDED, true)
    else if IsSoulBound i && (tp_Bonding t =? NO_BIND) then (Z.ldiff (it_flags i) ITEM_DYNFLAG_BINDED, true)
         else (it_flags i, false) in
  if has_flag flags ITEM_DYNFLAG_WRAPPED && (negb (has_flag (tp_Flags t) ITEM_FLAG_WRAPPER) || (1 <? tp_Stackable t))
  then (Z.ldiff flags ITEM_DYNFLAG_WRAPPED, true) else (flags, save).
Definition Item_LoadFromDB (t : ItemTemplate) (i : Item) : Item * bool :=
  let '(duration, save1) :=
    if Bool.eqb (tp_Duration t =? 0) (it_duration i =? 0) then (it_duration i, false) else (tp_Duration t, true) in
  let '(flags, save2) := loaded_flags t i in
  let '(durability, save3) :=
    if tp_MaxDurability t <? it_durability i then (tp_MaxDurability t, true) else (it_durability i, false) in
  (mkItem (it_entry i) (it_count i) (it_creator i) (it_giftCreator i) duration (it_charges i) flags (it_enchants i)
     (it_randomPropertyId i) (it_transmog i) durability (it_text i) (it_generatedLoot i), save1 || save2 || save3).
(** The three columns an item that needed mending writes. *)
Definition mend_row (i : Item) (r : Z * Item) : Z * Item :=
  (fst r, mkItem (it_entry (snd r)) (it_count (snd r)) (it_creator (snd r)) (it_giftCreator (snd r)) (it_duration i)
     (it_charges (snd r)) (it_flags i) (it_enchants (snd r)) (it_randomPropertyId (snd r)) (it_transmog (snd r))
     (it_durability i) (it_text (snd r)) (it_generatedLoot (snd r))).

(** [Item::CreateItem], for a player. *)
Definition CreateItem (entry count owner : Z) (w : PW) : option PostItem * PW :=
  if count <? 1 then (None, w)
  else match item_template entry with
  | None => (None, w)
  | Some t =>
      let guid := u32 (pw_itemGuids w) in
      (Some (mkPostItem guid owner ITEM_NEW 0 (set_it_count (Z.min count (tp_Stackable t)) (Item_Create entry))),
       set_pw_itemGuids (pw_itemGuids w + 1) w)
  end.

(** [Mail::prepareTemplateItems]: the first item of the loot that can be made. *)
Fixpoint first_created (loot : list (Z * Z)) (owner : Z) (w : PW) : option PostItem * PW :=
  match loot with
  | [] => (None, w)
  | (entry, count) :: loot =>
      match CreateItem entry count owner w with
      | (Some it, w) => (Some it, w)
      | (None, w) => first_created loot owner w
      end
  end.
Definition prepareTemplateItems (g : Z) (m : Mail) (w : PW) : PW :=
  match pw_players w !! g with
  | None => w
  | Some p =>
      if (ml_mailTemplateId m =? 0) || negb (bool_decide (ml_items m = [])) then w
      else
        let id := ml_messageID m in
        let w := sql_mail id (set_mlr_has_items true) (upd_pp g (upd_mail id (set_ml_has_items true)) w) in
        match first_created (FillLoot (ml_mailTemplateId m) p) g w with
        | (None, w) => w
        | (Some it, w) =>
            let w := Item_SaveToDB it w in
            let it := saved_item it in
            insert_mail_item id g (upd_pp g (fun p => AddMItem it
              (upd_mail id (Mail_AddItem (pi_guid it) (it_entry (pi_item it))) p)) w) it
        end
  end.

Definition mail_of_row (id : Z) (r : MailRow) : Mail :=
  mkMail id (mlr_messageType r) (mlr_stationery r) (mlr_mailTemplateId r) (mlr_sender r) (mlr_receiver r) (mlr_subject r)
    (mlr_itemTextId r) (mlr_has_items r) [] [] (mlr_expire_time r) (mlr_deliver_time r) (mlr_money r) (mlr_cod r)
    (mlr_checked r) MAIL_STATE_UNCHANGED.
(** ORDER BY id DESC. *)
Definition mail_rows (g : Z) (w : PW) : list (Z * MailRow) :=
  omap (fun id => r ← pw_mail w !! id; if mlr_receiver r =? g then Some (id, r) else None) (rev (skeys (pw_mail w))).
Definition load_mail (g : Z) (w : PW) (kr : Z * MailRow) : PW :=
  let '(id, r) := kr in
  let m := mail_of_row id r in
  if mlr_isDeleted r
  then if ml_expire_time m + 60 * 60 * 24 * 31 <? pw_time w then set_pw_mail (delete id (pw_mail w)) w else w
  else
    let m := if negb (ml_mailTemplateId m =? 0) && negb (mail_template_exists (ml_mailTemplateId m))
             then set_ml_mailTemplateId 0 m else m in
    let w := upd_pp g (fun p => set_pp_mail (pp_mail p ++ [m]) p) w in
    if negb (ml_mailTemplateId m =? 0) && negb (ml_has_items m) then prepareTemplateItems g m w else w.
Definition LoadMails (g : Z) (rows : list (Z * MailRow)) (w : PW) : PW :=
  foldl (load_mail g) (upd_pp g (set_pp_mail []) w) rows.

(** The join of mail_items and item_instance. *)
Definition mailed_items (g : Z) (w : PW) : list (Z * Z * Item) :=
  omap (fun kr => if snd (snd kr) =? g then ir ← pw_item_instance w !! snd (fst kr); Some (fst kr, snd ir) else None)
    (map_to_list (pw_mail_items w)).
Definition load_mailed_item (g : Z) (w : PW) (row : Z * Z * Item) : PW :=
  let '(mail_id, guid, i) := row in
  match pw_players w !! g with
  | None => w
  | Some p =>
      match GetMail p mail_id with
      | None => w
      | Some _ =>
          let w := upd_pp g (upd_mail mail_id (Mail_AddItem guid (it_entry i))) w in
          match item_template (it_entry i) with
          | None => delete_item_row guid (delete_mail_items_of guid w)
          | Some t =>
              let '(i, need_save) := Item_LoadFromDB t i in
              let w := if need_save then set_pw_item_instance (alter (mend_row i) guid (pw_item_instance w)) w else w in
              upd_pp g (AddMItem (mkPostItem guid g ITEM_UNCHANGED 0 i)) w
          end
      end
  end.
Definition LoadMailedItems (g : Z) (rows : list (Z * Z * Item)) (w : PW) : PW := foldl (load_mailed_item g) w rows.

(** ** The player's inventory *)
Definition bag_slots (first last : Z) : list (Z * Z) :=
  b ← seqZ first (last - first); (fun s => (b, s)) <$> seqZ 0 MAX_BAG_SIZE.
Definition main_slots (first last : Z) : list (Z * Z) := (fun s => (INVENTORY_SLOT_BAG_0, s)) <$> seqZ first (last - first).
Definition search_order : list (Z * Z) :=
  main_slots 0 INVENTORY_SLOT_ITEM_END ++ main_slots KEYRING_SLOT_START KEYRING_SLOT_END ++
  bag_slots INVENTORY_SLOT_BAG_START INVENTORY_SLOT_BAG_END ++ main_slots BANK_SLOT_ITEM_START BANK_SLOT_ITEM_END ++
  bag_slots BANK_SLOT_BAG_START BANK_SLOT_BAG_END.
Definition item_by_pos (p : PostPlayer) (pos : Z * Z) : option PostItem :=
  let '(bag, slot) := pos in
  if bag =? INVENTORY_SLOT_BAG_0 then
    if (slot <? BANK_SLOT_BAG_END) || ((KEYRING_SLOT_START <=? slot) && (slot <? KEYRING_SLOT_END))
    then pp_items p !! (INVENTORY_SLOT_BAG_0, slot) else None
  else if is_bag_slot bag then _ ← pp_items p !! (INVENTORY_SLOT_BAG_0, bag); pp_items p !! (bag, slot)
  else None.
Definition GetItemByGuid (p : PostPlayer) (g : Z) : option ((Z * Z) * PostItem) :=
  head (omap (fun pos => it ← item_by_pos p pos; if pi_guid it =? g then Some (pos, it) else None) search_order).
Definition IsBankPos (pos : Z * Z) : bool :=
  let '(bag, slot) := pos in
  ((bag =? INVENTORY_SLOT_BAG_0) && (((BANK_SLOT_ITEM_START <=? slot) && (slot <? BANK_SLOT_ITEM_END)) ||
                                     ((BANK_SLOT_BAG_START <=? slot) && (slot <? BANK_SLOT_BAG_END)))) ||
  ((BANK_SLOT_BAG_START <=? bag) && (bag <? BANK_SLOT_BAG_END)).

(** [Item::CanBeTraded] for an item of the player's own at [pos]; only a bag in
    a bag slot can hold something. *)
Definition IsBoundByEnchant (i : Item) : bool :=
  existsb (fun e => negb (fst (fst e) =? 0) && soulbound_enchant (fst (fst e))) (it_enchants i).
Definition CanBeTraded (p : PostPlayer) (pos : Z * Z) (it : PostItem) (w : PW) : bool :=
  if IsSoulBound (pi_item it) && negb (pw_gameTime w <? pi_tradeUntil it) then false
  else if from_option tp_bag false (item_template (it_entry (pi_item it))) && IsBagPos pos then false
  else if negb (CanUnequipItem p pos) || (pp_lootGuid p =? pi_guid it) then false
  else negb (it_generatedLoot (pi_item it)) && negb (IsBoundByEnchant (pi_item it)).

(** [Player::MoveItemFromInventory], [Player::StoreItem] and
    [Player::MoveItemToInventory]. *)
Definition MoveItemFromInventory (g : Z) (pos : Z * Z) (w : PW) : PW :=
  upd_pp g (fun p => set_pp_items (delete pos (pp_items p)) p) w.
Definition touched (it : PostItem) : PostItem :=
  if decide (pi_state it = ITEM_NEW) then it else set_pi_state ITEM_CHANGED it.
Definition bind_into (pos : Z * Z) (i : Item) : Item :=
  let b := from_option tp_Bonding 0 (item_template (it_entry i)) in
  let i := if (b =? BIND_WHEN_PICKED_UP) || (b =? BIND_QUEST_ITEM) || ((b =? BIND_WHEN_EQUIPPED) && IsBagPos pos)
           then set_it_flags (Z.lor (it_flags i) ITEM_DYNFLAG_BINDED) i else i in
  if b =? BIND_ACCOUNT then set_it_flags (Z.lor (it_flags i) ITEM_DYNFLAG_BOA) i else i.
Definition upd_stored (f : Item -> Item) (it : PostItem) : PostItem := set_pi_item (f (pi_item it)) it.
Definition CloneItem (g count : Z) (it : PostItem) (w : PW) : option PostItem * PW :=
  match CreateItem (it_entry (pi_item it)) count g w with
  | (Some n, w) =>
      let i := pi_item it in let c := pi_item n in
      let c := mkItem (it_entry c) (it_count c) (it_creator i) (it_giftCreator i) (it_duration i) (it_charges c) (it_flags i)
                 (it_enchants c) (it_randomPropertyId c) (it_transmog c) (it_durability c) (it_text c) (it_generatedLoot i) in
      (Some (set_pi_item (SetItemRandomProperties (it_randomPropertyId i) c) n), w)
  | (None, w) => (None, w)
  end.
Definition put_item_at (g : Z) (pos : Z * Z) (it : PostItem) (w : PW) : PW :=
  upd_pp g (fun p =>
    if (fst pos =? INVENTORY_SLOT_BAG_0) || bool_decide (is_Some (pp_items p !! (INVENTORY_SLOT_BAG_0, fst pos)))
    then set_pp_items (<[pos := touched (set_pi_owner g (upd_stored (bind_into pos) it))]> (pp_items p)) p else p) w.
Definition _StoreItem (g : Z) (d : Z * Z * Z) (it : PostItem) (clone : bool) (w : PW) : PW :=
  let '(bag, slot, count) := d in
  match p ← pw_players w !! g; item_by_pos p (bag, slot) with
  | None =>
      if clone then match CloneItem g count it w with
                    | (Some n, w) => put_item_at g (bag, slot) n w
                    | (None, w) => w
                    end
      else put_item_at g (bag, slot) (upd_stored (set_it_count count) it) w
  | Some it2 =>
      let it2 := touched (upd_stored (fun i => add_count count (bind_into (bag, slot) i)) it2) in
      upd_pp g (fun p =>
        let p := set_pp_items (<[(bag, slot) := it2]> (pp_items p)) p in
        if clone || bool_decide (pi_state it = ITEM_NEW) then p else set_pp_removed (pp_removed p ++ [pi_guid it]) p) w
  end.
Fixpoint StoreItem (g : Z) (dest : list (Z * Z * Z)) (it : PostItem) (w : PW) : PW :=
  match dest with
  | [] => w
  | [d] => _StoreItem g d it false w
  | d :: dest => StoreItem g dest it (_StoreItem g d it true w)
  end.
(** A stack that was put down as it is gets a new row. *)
Definition new_in_inventory (guid : Z) (p : PostPlayer) : PostPlayer :=
  set_pp_items ((fun it => if pi_guid it =? guid then set_pi_state ITEM_NEW it else it) <$> pp_items p) p.
Definition MoveItemToInventory (g : Z) (dest : list (Z * Z * Z)) (it : PostItem) (w : PW) : PW :=
  upd_pp g (new_in_inventory (pi_guid it)) (StoreItem g dest it w).

(** [Player::SaveInventoryAndGoldToDB]: the changed and removed items get their
    rows; what is in which place, and the coins, are the character's. *)
Definition SaveInventoryAndGoldToDB (g : Z) (w : PW) : PW :=
  match pw_players w !! g with
  | None => w
  | Some p =>
      let w := foldl (fun w kv => Item_SaveToDB (snd kv) w) w (map_to_list (pp_items p)) in
      let w := foldl (fun w guid => delete_item_row guid w) w (pp_removed p) in
      upd_pp g (fun p => set_pp_removed [] (set_pp_items (saved_item <$> pp_items p) p)) w
  end.

(** ** Coming and going

    [HandlePlayerLogin] and [LogoutPlayer], as far as mail is concerned: both
    queries were sent before the player exists, a logout saves the mails and
    destroys the mailbox. *)
Definition HandlePlayerLogin (g : Z) (info : PlayerInfo) (w : PW) : PW :=
  match pw_players w !! g, pw_chars w !! g with
  | None, Some c =>
      let mails := mail_rows g w in
      let items := mailed_items g w in
      let w := set_pw_chars (delete g (pw_chars w)) w in
      let w := set_pw_players (<[g := mkPostPlayer info false ∅ 0 (sc_money c) (sc_items c) [] false 0 [] ∅ false 0 0]> (pw_players w)) w in
      let w := LoadMailedItems g items (LoadMails g mails w) in
      upd_pp g (UpdateNextMailTimeAndUnreads (pw_time w)) w
  | _, _ => w
  end.
Definition LogoutPlayer (g : Z) (w : PW) : PW :=
  let w := SaveMails g (SaveInventoryAndGoldToDB g w) in
  match pw_players w !! g with
  | None => w
  | Some p => set_pw_players (delete g (pw_players w)) (set_pw_chars (<[g := mkSaved (pp_money p) (pp_items p)]> (pw_chars w)) w)
  end.
End loading.
