(* ===== verification/MailHandlers.v ===== *)
(** The mail opcodes (Handlers/MailHandler.cpp); a handler takes the guid of the
    player whose session it runs in, and queries to the database are answered
    before anything else happens.  Mail that has run out (ObjectMgr.cpp), and what
    becomes of the mail of a character who turns to hardcore mode
    (Objects/Player.cpp). *)

From S2P Require Import Prelude CString GuildBankTypes GuildBankItems PostTypes Mail.

Section mail_handlers.
Context {env : PostEnv}.

Definition SendMailResult (me mailId action error : Z) (w : PW) : PW := post (MailResult me mailId action error 0 0 0) w.

Definition CheckMailBox (p : PostPlayer) (me mailbox : Z) : bool :=
  ((mailbox =? me) && (SEC_PLAYER <? in_security (pp_info p))) || bool_decide (mailbox ∈ pp_near p).

(** Opcodes of a player in the world who stands at a mailbox. *)
Definition at_mailbox (me mailbox : Z) (w : PW) (f : PostPlayer -> PW) : PW :=
  match GetPlayer w me with
  | Some p => if CheckMailBox p me mailbox then f p else w
  | None => w
  end.

(** ** Flood protection (AccountMgr.cpp) *)
Definition GetMailCount (w : PW) (account : Z) : Z := default 0 (pw_mailCount w !! account).
Definition IncreaseMailCount (account : Z) (w : PW) : PW :=
  set_pw_mailCount (<[account := u32 (GetMailCount w account + 1)]> (pw_mailCount w)) w.
Definition mails_sent (w : PW) (account : Z) : gmap Z Z := default ∅ (pw_mailsSent w !! account).
Definition CanMail (w : PW) (account target : Z) : bool :=
  match mails_sent w account !! target with
  | Some _ => true
  | None =>
      Z.of_nat (size (filter (fun kt => pw_time w - cfg_MailSpamExpire <= snd kt) (mails_sent w account))) <? cfg_MailSpamMax
  end.
Definition JustMailed (account target : Z) (w : PW) : PW :=
  set_pw_mailsSent (<[account := <[target := pw_time w]> (mails_sent w account)]> (pw_mailsSent w)) w.

(** ** Sending *)
Record MailRequest := mkRequest {
  rq_receiver : Z;
  rq_receiverName : string;
  rq_itemGuid : Z;
  rq_money : Z;
  rq_COD : Z;
  rq_subject : string;
  rq_body : string;
  rq_rcTeam : Z;
  rq_mailsCount : Z
}.

(** The item of a request, or [None] where the handler answers with an error. *)
Definition mailed_item (me : Z) (p : PostPlayer) (r : MailRequest) (w : PW) : option (option ((Z * Z) * PostItem)) :=
  if rq_itemGuid r =? 0 then Some None
  else match GetItemByGuid p (rq_itemGuid r) with
  | None => None
  | Some (pos, it) =>
      let i := pi_item it in
      if IsBankPos pos then None
      else if negb (has_flag (it_flags i) ITEM_DYNFLAG_BOA) && negb (CanBeTraded p pos it w) then None
      else if has_flag (it_flags i) ITEM_DYNFLAG_BOA &&
              negb (GetPlayerAccountIdByGUID w me =? GetPlayerAccountIdByGUID w (rq_receiver r)) then None
      else if negb (CanBeTraded p pos it w) || IsSoulBound i then None
      else if has_flag (from_option tp_Flags 0 (item_template (it_entry i))) ITEM_FLAG_CONJURED || negb (it_duration i =? 0) then None
      else Some (Some (pos, it))
  end.
Definition spam_level (p : PostPlayer) (r : MailRequest) : bool :=
  (in_level (pp_info p) <? cfg_MailSpamLevel) && negb (in_highLevel (pp_info p)) && (rq_money r <? cfg_MailSpamMoney) &&
  (cfg_MailSpamItem && (rq_itemGuid r =? 0)).

(** Taking the item out of the bags and handing its row over. *)
Definition hand_over (me receiver : Z) (pos : Z * Z) (it : PostItem) (w : PW) : PW :=
  sql_owner (pi_guid it) receiver (Item_SaveToDB it (MoveItemFromInventory me pos w)).
Definition mail_sender (me : Z) (p : PostPlayer) : MailSender :=
  if in_anonMail (pp_info p) then mkSender MAIL_NORMAL 0 MAIL_STATIONERY_GM else MailSender_player me.

Definition HandleSendMailCallback (me : Z) (r : MailRequest) (w : PW) : PW :=
  match GetPlayer w me with
  | None => w
  | Some p =>
      let reqmoney := u32 (rq_money r + 30) in
      let fail := fun error => SendMailResult me 0 MAIL_SEND error w in
      if reqmoney <? rq_money r then fail MAIL_ERR_NOT_ENOUGH_MONEY
      else if negb (reqmoney =? 0) && (pp_money p <? reqmoney) then fail MAIL_ERR_NOT_ENOUGH_MONEY
      else if 100 <? rq_mailsCount r then fail MAIL_ERR_RECIPIENT_CAP_REACHED
      else if negb cfg_TwoSideMail && negb (in_team (pp_info p) =? rq_rcTeam r) && (in_security (pp_info p) =? SEC_PLAYER)
      then post (PostMessage me "You need to be a diplomat in order to send mails to the other faction.") (fail MAIL_ERR_NOT_YOUR_TEAM)
      else match mailed_item me p r w with
      | None => fail MAIL_ERR_INTERNAL_ERROR
      | Some item =>
          let account := in_account (pp_info p) in
          let rc_account := GetPlayerAccountIdByGUID w (rq_receiver r) in
          if spam_level p r then post (PostMessage me "You cannot use the mailbox yet.") (fail MAIL_ERR_RECIPIENT_CAP_REACHED)
          else if negb (CanMail w account rc_account) then fail MAIL_OK
          else
            let w := JustMailed account rc_account w in
            let w := SendMailResult me 0 MAIL_SEND MAIL_OK w in
            let w := upd_pp me (pp_ModifyMoney (i32 (- reqmoney))) w in
            let '(draft, w) := MailDraft_text (rq_subject r) (rq_body r) w in
            let '(draft, w) := match item with
              | Some (pos, it) => (Draft_AddItem (saved_item it) draft, hand_over me (rq_receiver r) pos it w)
              | None => (draft, w)
              end in
            let delay := if (rq_itemGuid r =? 0) || in_anonMail (pp_info p) then 0 else cfg_MailDelay in
            let cod := if bool_decide (item = None) then 0 else rq_COD r in
            let w := SendMailTo (set_d_COD cod (set_d_money (rq_money r) draft)) (rq_receiver r) (mail_sender me p)
                       (if rq_body r =s "" then MAIL_CHECK_MASK_COPIED else MAIL_CHECK_MASK_HAS_BODY) delay 0 w in
            SaveInventoryAndGoldToDB me w
      end
  end.

Definition attaches (money COD itemGuid : Z) : bool := negb (money =? 0) || negb (COD =? 0) || negb (itemGuid =? 0).
Definition GetPlayerTeamByGUID (w : PW) (g : Z) : Z :=
  match GetPlayer w g with Some p => in_team (pp_info p) | None => from_option pc_team 0 (GetPlayerDataByGUID w g) end.
Definition count_mails (w : PW) (g : Z) : Z :=
  Z.of_nat (size (filter (fun kr => mlr_receiver (snd kr) = g /\ mlr_isDeleted (snd kr) = false) (pw_mail w))).

Definition HandleSendMail (me mailbox : Z) (receiverName subject body : string) (itemGuid money COD : Z) (w : PW) : PW :=
  at_mailbox me mailbox w (fun p =>
    let i := pp_info p in
    let fail := fun error => SendMailResult me 0 MAIL_SEND error w in
    if in_suspicious i then w
    else if (cfg_MailMaxPerHour <=? GetMailCount w (in_account i)) && negb (in_highLevel i)
    then post (PostMessage me "You have sent too many mails recently. Please try again at a later time.")
           (fail MAIL_ERR_RECIPIENT_CAP_REACHED)
    else if 64 <? Z.of_nat (String.length subject) then w
    else if 500 <? Z.of_nat (String.length body) then w
    else if 100000000 <? COD then w
    else
      let subject := if negb (COD =? 0) && negb (cfg_CodTagLevel =? 0) && (in_maxLevel i <? cfg_CodTagLevel)
                     then "(COD) " +:+ subject else subject in
      if negb cfg_GmAllowTrades && (SEC_PLAYER <? in_security i) && (negb (itemGuid =? 0) || negb (money =? 0)) then w
      else if receiverName =s "" then w
      else match name ← normalize_name receiverName; pw_names w !! name with
      | None => fail MAIL_ERR_RECIPIENT_NOT_FOUND
      | Some receiver =>
          if me =? receiver then fail MAIL_ERR_CANNOT_SEND_TO_SELF
          else if in_hardcore i && attaches money COD itemGuid
          then post (PostMessage me "Hardcore characters can use mail, but with no attachments.") (fail MAIL_ERR_DISABLED_FOR_TRIAL_ACC)
          else if negb (money =? 0) && (((Z.of_nat (String.length subject) =? 1) && (body =s "")) ||
                                         (pw_gameTime w <=? pp_lastMailOpen p + 1))
          then post (PostMessage me "Sending mail prevented.") (fail MAIL_ERR_NOT_ENOUGH_MONEY)
          else
            let w := IncreaseMailCount (in_account i) w in
            let hardcore := match GetPlayer w receiver with
                            | Some rp => in_hardcore (pp_info rp) | None => IsPlayerHardcore w receiver end in
            if negb (in_hardcore i) && hardcore && attaches money COD itemGuid
            then post (PostMessage me "Hardcore characters can not receive attachments and gold in mail.")
                   (SendMailResult me 0 MAIL_SEND MAIL_ERR_RECIPIENT_NOT_FOUND w)
            else
              let '(team, mails) := match GetPlayer w receiver with
                                    | Some rp => (in_team (pp_info rp), GetMailSize rp)
                                    | None => (GetPlayerTeamByGUID w receiver, count_mails w receiver) end in
              HandleSendMailCallback me (mkRequest receiver receiverName itemGuid money COD subject body team (u8 mails)) w
      end).

(** ** Reading, deleting, returning *)
Definition change_mail (me id : Z) (f : Mail -> Mail) (w : PW) : PW :=
  upd_pp me (fun p => MarkMailsUpdated (upd_mail id f p)) w.
Definition deleted (m : Mail) : bool := bool_decide (ml_state m = MAIL_STATE_DELETED).
Definition read_mail (now : Z) (m : Mail) : Mail :=
  let m := set_ml_state MAIL_STATE_CHANGED (set_ml_checked (Z.lor (ml_checked m) MAIL_CHECK_MASK_READ) m) in
  if (now <? ml_expire_time m) && (3 * DAY <? ml_expire_time m - now) then set_ml_expire_time (now + 3 * DAY) m else m.
Definition HandleMailMarkAsRead (me mailbox mailId : Z) (w : PW) : PW :=
  at_mailbox me mailbox w (fun p =>
    match GetMail p mailId with
    | None => w
    | Some m =>
        if deleted m then w
        else change_mail me mailId (read_mail (pw_time w)) (upd_pp me DecreaseUnreadMailsCount w)
    end).

Definition HandleMailDelete (me mailbox mailId : Z) (w : PW) : PW :=
  at_mailbox me mailbox w (fun p =>
    let w := upd_pp me MarkMailsUpdated w in
    match GetMail p mailId with
    | None => SendMailResult me mailId MAIL_DELETED MAIL_OK w
    | Some m =>
        if negb (ml_COD m =? 0) then SendMailResult me mailId MAIL_DELETED MAIL_ERR_INTERNAL_ERROR w
        else SendMailResult me mailId MAIL_DELETED MAIL_OK (upd_pp me (upd_mail mailId (set_ml_state MAIL_STATE_DELETED)) w)
    end).

(** What is not there, deleted or not delivered yet. *)
Definition usable_mail (p : PostPlayer) (mailId now : Z) : option Mail :=
  m ← GetMail p mailId; if deleted m || (now <? ml_deliver_time m) then None else Some m.

Definition returned_item (p : PostPlayer) (d : MailDraft) (i : MailItemInfo) : MailDraft :=
  match GetMItem p (mi_guid i) with Some it => Draft_AddItem it d | None => d end.
Definition return_draft (p : PostPlayer) (m : Mail) : MailDraft :=
  let d := if negb (ml_mailTemplateId m =? 0) then set_d_mailTemplateId (ml_mailTemplateId m) no_draft
           else set_d_bodyId (ml_itemTextId m) (MailDraft_subject (ml_subject m)) in
  let d := if ml_has_items m then foldl (returned_item p) d (ml_items m) else d in
  set_d_money (ml_money m) d.
Definition HandleMailReturnToSender (me mailbox mailId : Z) (w : PW) : PW :=
  at_mailbox me mailbox w (fun p =>
    match usable_mail p mailId (pw_time w) with
    | None => SendMailResult me mailId MAIL_RETURNED_TO_SENDER MAIL_ERR_INTERNAL_ERROR w
    | Some m =>
        let w := delete_mail_items mailId (soft_delete mailId w) in
        let w := upd_pp me (RemoveMail mailId) w in
        let w :=
          if (ml_messageType m =? MAIL_NORMAL) && negb (ml_sender m =? 0) && negb (IsPlayerHardcore w (ml_sender m))
          then
            let d := return_draft p m in
            let w := if ml_has_items m then upd_pp me (fun p => foldl (fun p i => RemoveMItem (mi_guid i) p) p (ml_items m)) w else w in
            SendReturnToSender d (ml_receiverGuid m) (ml_sender m) w
          else w in
        SendMailResult me mailId MAIL_RETURNED_TO_SENDER MAIL_OK w
    end).

(** ** Taking *)
Definition take_out (guid : Z) (m : Mail) : Mail :=
  set_ml_state MAIL_STATE_CHANGED (set_ml_COD 0 (set_ml_removedItems (ml_removedItems m ++ [guid]) (Mail_RemoveItem guid m))).
(** [COD] is a [uint32].  The price goes to the sender, if he still exists. *)
Definition COD_of (m : Mail) : Z := u32 (ml_COD m).
Definition pay_cod (me : Z) (m : Mail) (w : PW) : PW :=
  if COD_of m =? 0 then w
  else
    let w := if bool_decide (is_Some (GetPlayer w (ml_sender m))) || negb (GetPlayerAccountIdByGUID w (ml_sender m) =? 0)
             then SendMailTo (set_d_money (COD_of m) (MailDraft_subject (ml_subject m))) (ml_sender m) (MailSender_player me)
                    MAIL_CHECK_MASK_COD_PAYMENT 0 0 w
             else w in
    upd_pp me (pp_ModifyMoney (i32 (- COD_of m))) w.
Definition HandleMailTakeItem (me mailbox mailId : Z) (w : PW) : PW :=
  at_mailbox me mailbox w (fun p =>
    let fail := fun error => SendMailResult me mailId MAIL_ITEM_TAKEN error w in
    match usable_mail p mailId (pw_time w) with
    | None => fail MAIL_ERR_INTERNAL_ERROR
    | Some m =>
        match ml_has_items m, ml_items m with
        | true, info :: _ =>
            if pp_money p <? COD_of m then fail MAIL_ERR_NOT_ENOUGH_MONEY
            else if negb cfg_GmAllowTrades && (SEC_PLAYER <? in_security (pp_info p)) && negb (COD_of m =? 0)
            then fail MAIL_ERR_NOT_ENOUGH_MONEY
            else match GetMItem p (mi_guid info) with
            | None => post (MailResult me mailId MAIL_ITEM_TAKEN MAIL_ERR_EQUIP_ERROR EQUIP_ERR_ITEM_NOT_FOUND 0 0) w
            | Some it =>
                let '(msg, dest) := CanStoreItem p it in
                if msg =? EQUIP_ERR_OK
                then
                  let w := pay_cod me m w in
                  let w := change_mail me mailId (take_out (mi_guid info)) w in
                  let w := upd_pp me (RemoveMItem (pi_guid it)) w in
                  let w := MoveItemToInventory me dest (saved_item it) w in
                  let w := SaveMails me (SaveInventoryAndGoldToDB me w) in
                  post (MailResult me mailId MAIL_ITEM_TAKEN MAIL_OK 0 (mi_template info) (it_count (pi_item it))) w
                else post (MailResult me mailId MAIL_ITEM_TAKEN MAIL_ERR_EQUIP_ERROR msg 0 0) w
            end
        | _, _ => fail MAIL_ERR_INTERNAL_ERROR
        end
    end).

Definition HandleMailTakeMoney (me mailbox mailId : Z) (w : PW) : PW :=
  at_mailbox me mailbox w (fun p =>
    match usable_mail p mailId (pw_time w) with
    | None => SendMailResult me mailId MAIL_MONEY_TAKEN MAIL_ERR_INTERNAL_ERROR w
    | Some m =>
        let w := SendMailResult me mailId MAIL_MONEY_TAKEN MAIL_OK w in
        let w := upd_pp me (pp_ModifyMoney (i32 (ml_money m))) w in
        SaveMails me (change_mail me mailId (fun m => set_ml_state MAIL_STATE_CHANGED (set_ml_money 0 m)) w)
    end).

(** ** Listing and texts *)
Fixpoint listed_mails (n : nat) (now : Z) (p : PostPlayer) (l : list Mail) : list (Mail * option PostItem) :=
  match n, l with
  | S n', m :: l =>
      if deleted m || (now <? ml_deliver_time m) || (ml_expire_time m <? now) then listed_mails n now p l
      else (m, i ← head (ml_items m); GetMItem p (mi_guid i)) :: listed_mails n' now p l
  | _, _ => []
  end.
Definition HandleGetMailList (me mailbox : Z) (w : PW) : PW :=
  at_mailbox me mailbox w (fun p =>
    let w := upd_pp me (set_pp_lastMailOpen (pw_time w)) w in
    upd_pp me (UpdateNextMailTimeAndUnreads (pw_time w)) (post (MailList me (listed_mails 254 (pw_time w) p (pp_mail p))) w)).
Definition HandleItemTextQuery (me itemTextId : Z) (w : PW) : PW := post (ItemTextResponse me itemTextId (GetItemText w itemTextId)) w.
Definition HandleQueryNextMailTime (me : Z) (w : PW) : PW :=
  match pw_players w !! me with Some p => post (NextMailTime me (0 <? pp_unReadMails p)) w | None => w end.

(** The letter as an item of its own. *)
Definition letter_item (me guid : Z) (m : Mail) : PostItem :=
  let i := Item_Create MAIL_BODY_ITEM_TEMPLATE in
  mkPostItem guid me ITEM_NEW 0
    (mkItem (it_entry i) 1 (ml_sender m) (it_giftCreator i) (it_duration i) (it_charges i) (it_flags i) (it_enchants i)
       (it_randomPropertyId i) (it_transmog i) (it_durability i) (ml_itemTextId m) (it_generatedLoot i)).
Definition HandleMailCreateTextItem (me mailbox mailId : Z) (w : PW) : PW :=
  at_mailbox me mailbox w (fun p =>
    let fail := SendMailResult me mailId MAIL_MADE_PERMANENT MAIL_ERR_INTERNAL_ERROR w in
    match usable_mail p mailId (pw_time w) with
    | None => fail
    | Some m =>
        if ((ml_itemTextId m =? 0) && (ml_mailTemplateId m =? 0)) || has_flag (ml_checked m) MAIL_CHECK_MASK_COPIED then fail
        else
          let guid := u32 (pw_itemGuids w) in
          let w := set_pw_itemGuids (pw_itemGuids w + 1) w in
          match item_template MAIL_BODY_ITEM_TEMPLATE with
          | None => w
          | Some _ =>
              let it := letter_item me guid m in
              let '(msg, dest) := CanStoreItem p it in
              if msg =? EQUIP_ERR_OK
              then
                let w := change_mail me mailId (fun m =>
                  set_ml_state MAIL_STATE_CHANGED (set_ml_checked (Z.lor (ml_checked m) MAIL_CHECK_MASK_COPIED) m)) w in
                SendMailResult me mailId MAIL_MADE_PERMANENT MAIL_OK (StoreItem me dest it w)
              else post (MailResult me mailId MAIL_MADE_PERMANENT MAIL_ERR_EQUIP_ERROR msg 0 0) w
          end
    end).
End mail_handlers.

(** Mail that has run out (ObjectMgr.cpp): it goes back to its sender or is
    deleted.  What becomes of the mail of a character who turns to hardcore mode
    (Objects/Player.cpp). *)

Definition item_guids (id : Z) (w : PW) : list Z :=
  merge_sort Z.le (omap (fun kr => if fst (fst kr) =? id then Some (snd (fst kr)) else None) (map_to_list (pw_mail_items w))).
Definition set_items_receiver (guid receiver : Z) (w : PW) : PW :=
  set_pw_mail_items (map_imap (fun k v => Some (if snd k =? guid then (fst v, receiver) else v)) (pw_mail_items w)) w.

(** [SingleMailReturner::Callback] with the guid its query has brought, 0 for
    none; [text] is [itemTextId]. *)
Definition returned_row (sender receiver base : Z) (r : MailRow) : MailRow :=
  set_mlr_sender sender (set_mlr_receiver receiver (set_mlr_expire_time (base + 30 * DAY)
    (set_mlr_deliver_time base (set_mlr_cod 0 (set_mlr_checked MAIL_CHECK_MASK_RETURNED r))))).
Definition SingleMailReturner (returnTo base id receiver text item_guid : Z) (w : PW) : PW :=
  if bool_decide (is_Some (FindMasterPlayer w receiver)) then w
  else if returnTo =? 0
  then
    let w := if item_guid =? 0 then w else delete_mail_items id (delete_item_row item_guid w) in
    let w := if text =? 0 then w else delete_text text w in
    soft_delete id w
  else
    let w := sql_mail id (returned_row receiver returnTo base) w in
    if item_guid =? 0 then w else sql_owner item_guid returnTo (set_items_receiver item_guid returnTo w).

(** The loop of [OldMailsReturner::Callback].  It never sets [itemTextId] of the
    [Mail] it makes: [text id] is what the memory held. *)
Definition return_or_delete (serverUp : bool) (base : Z) (text : Z -> Z) (w : PW) (kr : Z * MailRow) : PW :=
  let '(id, r) := kr in
  if serverUp && bool_decide (is_Some (FindMasterPlayer w (mlr_receiver r))) then w
  else if mlr_has_items r
  then
    let to := if negb (mlr_messageType r =? MAIL_NORMAL) ||
                 negb (Z.land (mlr_checked r) (Z.lor MAIL_CHECK_MASK_COD_PAYMENT MAIL_CHECK_MASK_RETURNED) =? 0)
              then 0 else mlr_sender r in
    SingleMailReturner to base id (mlr_receiver r) (text id) (default 0 (head (item_guids id w))) w
  else
    let w := if text id =? 0 then w else delete_text (text id) w in
    soft_delete id w.
Definition old_mails (now : Z) (limit : nat) (w : PW) : list (Z * MailRow) :=
  take limit (omap (fun id => r ← pw_mail w !! id;
    if (mlr_expire_time r <? now) && negb (mlr_isDeleted r) then Some (id, r) else None) (skeys (pw_mail w))).
Definition delete_empty (now : Z) (r : MailRow) : MailRow :=
  if (mlr_expire_time r <? now) && negb (mlr_has_items r) && (mlr_itemTextId r =? 0) then set_mlr_isDeleted true r else r.
(** Both queries are answered at once. *)
Definition ReturnOrDeleteOldMails (serverUp : bool) (text : Z -> Z) (w : PW) : PW :=
  let now := pw_time w in
  let w := if serverUp then w else set_pw_mail (delete_empty now <$> pw_mail w) w in
  foldl (return_or_delete serverUp now text) w (old_mails now (if serverUp then 300 else 1000) w).

(** [HandleHardcoreMailQuery] for a player in the world: letters to and from
    him go, except those of sender 51550. *)
Definition hardcore_mails (g : Z) (w : PW) : list Z :=
  omap (fun id => r ← pw_mail w !! id;
    if ((mlr_receiver r =? g) || (mlr_sender r =? g)) && negb (mlr_sender r =? 51550) then Some id else None) (skeys (pw_mail w)).
Definition hardcore_delete (g : Z) (w : PW) (id : Z) : PW :=
  let w := delete_mail_items id (set_pw_mail (delete id (pw_mail w)) w) in
  upd_pp g (fun p => upd_mail id (set_ml_state MAIL_STATE_DELETED) (MarkMailsUpdated p)) w.
Definition HandleHardcoreMailQuery (g : Z) (w : PW) : PW :=
  match GetPlayer w g with
  | None => w
  | Some _ => foldl (hardcore_delete g) w (hardcore_mails g w)
  end.
