(* ===== verification/Auction.v ===== *)
(** Auctions (AuctionHouse/AuctionHouseMgr.cpp): the houses with their three
    maps, the items on offer, fees, the letters an auction ends with, searching,
    loading. *)

From Stdlib Require Import Floats.SpecFloat.
From S2P Require Import Prelude CString World GuildBankTypes GuildBankItems PostTypes Mail.

(** ** Single precision

    [float] is IEEE binary32; conversions from integers round, conversions to
    [uint32] truncate. *)
Definition f32 (n : Z) : spec_float := binary_normalize 24 128 n 0 false.
Definition f32_mul : spec_float -> spec_float -> spec_float := SFmul 24 128.
Definition f32_div : spec_float -> spec_float -> spec_float := SFdiv 24 128.
Definition f32_add : spec_float -> spec_float -> spec_float := SFadd 24 128.
Definition f32_to_uint (x : spec_float) : Z :=
  match x with
  | S754_finite s m e =>
      let n := if 0 <=? e then Z.pos m * 2 ^ e else Z.pos m / 2 ^ (- e) in
      u32 (if s then - n else n)
  | _ => 0
  end.

(** ** Multimaps *)
Fixpoint mm_insert (k v : Z) (l : list (Z * Z)) : list (Z * Z) :=
  match l with
  | [] => [(k, v)]
  | kv :: l' => if k <? fst kv then (k, v) :: l else kv :: mm_insert k v l'
  end.
(** The first entry with this key and id. *)
Fixpoint mm_erase (k v : Z) (l : list (Z * Z)) : list (Z * Z) :=
  match l with
  | [] => []
  | kv :: l' => if (fst kv =? k) && (snd kv =? v) then l' else kv :: mm_erase k v l'
  end.
Definition mm_range (k : Z) (l : list (Z * Z)) : list Z := snd <$> List.filter (fun kv => fst kv =? k) l.

(** ** Ids of auctions (ObjectMgr.cpp)

    The iterator walks the used ids from the next one on, as long as they follow
    each other. *)
Fixpoint next_free (ids : list Z) (next : Z) : Z :=
  match ids with
  | id :: ids => if id =? next then next_free ids (u32 (next + 1)) else next
  | [] => next
  end.
Definition GenerateAuctionID (w : PW) : Z * PW :=
  let next := next_free (List.filter (fun id => pw_nextAuctionId w <=? id) (selems (pw_auctionIds w))) (pw_nextAuctionId w) in
  (next, set_pw_nextAuctionId (u32 (next + 1)) (set_pw_auctionIds ({[next]} ∪ pw_auctionIds w) w)).
Definition FreeAuctionID (id : Z) (w : PW) : PW := set_pw_auctionIds (pw_auctionIds w ∖ {[id]}) w.

(** ** Houses *)
Definition no_house : AuctionHouseObject := mkHouse [] [] ∅.
Definition house_at (h : Z) (w : PW) : AuctionHouseObject := default no_house (pw_houses w !! h).
Definition put_house (h : Z) (o : AuctionHouseObject) (w : PW) : PW := set_pw_houses (<[h := o]> (pw_houses w)) w.
Definition GetAuction (id : Z) (o : AuctionHouseObject) : option AuctionEntry := AuctionsMap o !! id.
Definition GetAccountAuctionCount (account : Z) (o : AuctionHouseObject) : Z :=
  Z.of_nat (length (mm_range account (AccountAuctionMap o))).
Definition upd_auction (h id : Z) (f : AuctionEntry -> AuctionEntry) (w : PW) : PW :=
  put_house h (set_AuctionsMap (alter f id (AuctionsMap (house_at h w))) (house_at h w)) w.

Definition AddAuction (h : Z) (a : AuctionEntry) (w : PW) : PW :=
  let o := house_at h w in
  put_house h (mkHouse (mm_insert (a_buyout a) (a_Id a) (OrderedAuctionMap o))
                       (mm_insert (a_ownerAccount a) (a_Id a) (AccountAuctionMap o))
                       (<[a_Id a := a]> (AuctionsMap o))) w.
Definition RemoveAuction (h : Z) (a : AuctionEntry) (w : PW) : PW :=
  let o := house_at h w in
  let w := put_house h (mkHouse (mm_erase (a_buyout a) (a_Id a) (OrderedAuctionMap o))
                                (mm_erase (a_ownerAccount a) (a_Id a) (AccountAuctionMap o))
                                (delete (a_Id a) (AuctionsMap o))) w in
  if bool_decide (is_Some (AuctionsMap o !! a_Id a)) then FreeAuctionID (a_Id a) w else w.
(** The entries of the player's account that are his own; only the maps forget
    them. *)
Definition RemoveAllAuctions (h g account : Z) (w : PW) : PW :=
  let entries := omap (fun id => GetAuction id (house_at h w)) (mm_range account (AccountAuctionMap (house_at h w))) in
  foldl (fun w a => RemoveAuction h a w) w (List.filter (fun a => a_owner a =? g) entries).

Definition GetAItem (w : PW) (g : Z) : option PostItem := pw_aitems w !! g.
Definition AddAItem (it : PostItem) (w : PW) : PW := set_pw_aitems (<[pi_guid it := it]> (pw_aitems w)) w.
Definition RemoveAItem (g : Z) (w : PW) : PW := set_pw_aitems (delete g (pw_aitems w)) w.

Definition auction_row (a : AuctionEntry) : AuctionRow :=
  mkAuctionRow (houseId (a_house a)) (a_itemGuidLow a) (a_itemTemplate a) (a_owner a) (a_buyout a) (a_expireTime a)
    (a_bidder a) (a_bid a) (a_startbid a) (a_deposit a).
Definition Auction_SaveToDB (a : AuctionEntry) (w : PW) : PW :=
  set_pw_auction (insert_row (a_Id a) (auction_row a) (pw_auction w)) w.
Definition Auction_DeleteFromDB (id : Z) (w : PW) : PW := set_pw_auction (delete id (pw_auction w)) w.
Definition sql_bid (id bidder bid : Z) (w : PW) : PW :=
  set_pw_auction (alter (fun r => mkAuctionRow (ar_houseid r) (ar_itemguid r) (ar_item_template r) (ar_itemowner r)
    (ar_buyoutprice r) (ar_time r) bidder bid (ar_startbid r) (ar_deposit r)) id (pw_auction w)) w.

Definition GetAuctionOutBid (a : AuctionEntry) : Z :=
  let outbid := u32 (a_bid a / 100 * 5) in if outbid =? 0 then 1 else outbid.
Definition IsAvailableFor (a : AuctionEntry) (p : PostPlayer) : bool :=
  if a_lockedIpAddress a =s "" then true else a_lockedIpAddress a =s in_address (pp_info p).
(** [MailSender::MailSender], for an [AuctionEntry]. *)
Definition MailSender_auction (a : AuctionEntry) : MailSender :=
  mkSender MAIL_AUCTION (houseId (a_house a)) MAIL_STATIONERY_AUCTION.

(** ** Texts of the letters *)
Definition auction_subject (a : AuctionEntry) (answer : Z) : string := to_string (a_itemTemplate a) +:+ ":0:" +:+ to_string answer.
Definition hex_digit (n : Z) : ascii := ascii_of_N (Z.to_N (if n <? 10 then 48 + n else 87 + n)).
Fixpoint hex_digits (fuel : nat) (n : Z) (acc : string) : string :=
  match fuel with
  | O => acc
  | S fuel => let acc := String (hex_digit (n mod 16)) acc in if n / 16 =? 0 then acc else hex_digits fuel (n / 16) acc
  end.
(** [width(16)], right, hex: a [uint32] has at most eight digits. *)
Fixpoint pad_left (k : nat) (s : string) : string := match k with O => s | S k => String " "%char (pad_left k s) end.
Definition hex16 (n : Z) : string := let s := hex_digits 8 n "" in pad_left (16 - String.length s) s.
Definition won_body (a : AuctionEntry) : string :=
  hex16 (a_owner a) +:+ ":" +:+ to_string (a_bid a) +:+ ":" +:+ to_string (a_buyout a).
Definition successful_body (a : AuctionEntry) (cut : Z) : string :=
  hex16 (a_bidder a) +:+ ":" +:+ to_string (a_bid a) +:+ ":" +:+ to_string (a_buyout a) +:+ ":" +:+
  to_string (a_deposit a) +:+ ":" +:+ to_string cut.

(** ** Notifications (Handlers/AuctionHouseHandler.cpp) *)
Definition SendAuctionBidderNotification (to : Z) (a : AuctionEntry) (won : bool) (w : PW) : PW :=
  post (AuctionBidderNotification to (houseId (a_house a)) (a_Id a) (a_bidder a) (if won then 0 else a_bid a)
    (GetAuctionOutBid a) (a_itemTemplate a)) w.
Definition SendAuctionOwnerNotification (to : Z) (a : AuctionEntry) (sold : bool) (w : PW) : PW :=
  match pw_players w !! to with
  | Some p =>
      if in_socket (pp_info p)
      then post (AuctionOwnerNotification to (a_Id a) (a_bid a) (GetAuctionOutBid a) (if sold then 0 else a_bidder a)
             (a_itemTemplate a)) w
      else w
  | None => w
  end.
Definition SendAuctionRemovedNotification (to : Z) (a : AuctionEntry) (w : PW) : PW :=
  post (AuctionRemovedNotification to (a_Id a) (a_itemTemplate a)) w.

(** Whether a letter can reach somebody: he is in the world or has an account,
    and he is not in hardcore mode. *)
Definition hardcore_of (w : PW) (g : Z) : bool :=
  match GetPlayer w g with Some p => in_hardcore (pp_info p) | None => IsPlayerHardcore w g end.
Definition in_world (w : PW) (g : Z) : bool := bool_decide (is_Some (GetPlayer w g)).
Definition exists_player (w : PW) (g : Z) : bool := in_world w g || negb (GetPlayerAccountIdByGUID w g =? 0).
Definition reachable (w : PW) (g : Z) : bool := exists_player w g && negb (hardcore_of w g).
Definition SendAuctionMail (d : MailDraft) (to : Z) (a : AuctionEntry) (w : PW) : PW :=
  SendMailTo d to (MailSender_auction a) MAIL_CHECK_MASK_COPIED 0 0 w.

Section auctions.
Context {env : PostEnv}.

(** ** Fees *)
Definition GetAuctionCut (a : AuctionEntry) : Z :=
  f32_to_uint (f32_div (f32_mul (f32 (u32 (cutPercent (a_house a) * a_bid a))) cfg_RateCut) (f32 100)).
Definition GetAuctionDeposit (e : AuctionHouseEntry) (time : Z) (it : PostItem) : Z :=
  let t := item_template (it_entry (pi_item it)) in
  let count := it_count (pi_item it) in
  let deposit := f32 (u32 (u32 (from_option tp_SellPrice 0 t * count) * (time / MIN_AUCTION_TIME))) in
  let deposit := f32_div (f32_mul deposit (f32 (depositPercent e))) (f32 100) in
  let min_deposit := f32 cfg_DepositMin in
  let deposit := if SFltb deposit min_deposit then min_deposit else deposit in
  let diffSize := i32 (from_option tp_Stackable 0 t - count) in
  let deposit := f32_mul deposit (f32_add (f32 1) (f32_mul (f32 diffSize) (f32_div (f32 5) (f32 100)))) in
  f32_to_uint (f32_mul deposit cfg_RateDeposit).

(** ** The letters an auction ends with *)
Definition destroy_aitem (g : Z) (w : PW) : PW := RemoveAItem g (delete_item_row g w).
Definition SendAuctionWonMail (a : AuctionEntry) (w : PW) : PW :=
  match GetAItem w (a_itemGuidLow a) with
  | None => w
  | Some it =>
      let bidder := a_bidder a in
      if reachable w bidder
      then
        let w := sql_owner (pi_guid it) bidder w in
        let w := if in_world w bidder then SendAuctionBidderNotification bidder a true w else RemoveAItem (pi_guid it) w in
        let '(d, w) := MailDraft_text (auction_subject a AUCTION_WON) (won_body a) w in
        SendAuctionMail (Draft_AddItem it d) bidder a w
      else destroy_aitem (pi_guid it) w
  end.
Definition SendAuctionSuccessfulMail (a : AuctionEntry) (w : PW) : PW :=
  let owner := a_owner a in
  if reachable w owner
  then
    let cut := GetAuctionCut a in
    let profit := u32 (a_bid a + a_deposit a - cut) in
    let w := if in_world w owner then SendAuctionOwnerNotification owner a true w else w in
    let '(d, w) := MailDraft_text (auction_subject a AUCTION_SUCCESSFUL) (successful_body a cut) w in
    SendAuctionMail (set_d_money profit d) owner a w
  else w.
Definition SendAuctionExpiredMail (a : AuctionEntry) (w : PW) : PW :=
  match GetAItem w (a_itemGuidLow a) with
  | None => w
  | Some it =>
      let owner := a_owner a in
      if reachable w owner
      then
        let w := if in_world w owner then SendAuctionOwnerNotification owner a false w else RemoveAItem (pi_guid it) w in
        SendAuctionMail (Draft_AddItem it (MailDraft_subject (auction_subject a AUCTION_EXPIRED))) owner a w
      else destroy_aitem (pi_guid it) w
  end.
Definition SendAuctionOutbiddedMail (a : AuctionEntry) (w : PW) : PW :=
  let old := a_bidder a in
  if reachable w old
  then
    let w := if in_world w old then SendAuctionBidderNotification old a false w else w in
    SendAuctionMail (set_d_money (a_bid a) (MailDraft_subject (auction_subject a AUCTION_OUTBIDDED))) old a w
  else w.
Definition SendAuctionCancelledToBidderMail (a : AuctionEntry) (w : PW) : PW :=
  let bidder := a_bidder a in
  if reachable w bidder
  then
    let w := if in_world w bidder then SendAuctionRemovedNotification bidder a w else w in
    SendAuctionMail (set_d_money (a_bid a) (MailDraft_subject (auction_subject a AUCTION_CANCELLED_TO_BIDDER))) bidder a w
  else w.

(** ** The end of an auction *)
Definition clear_auction (h : Z) (a : AuctionEntry) (w : PW) : PW :=
  RemoveAuction h a (RemoveAItem (a_itemGuidLow a) (Auction_DeleteFromDB (a_Id a) w)).
Definition ExpireAuction (h id : Z) (w : PW) : PW :=
  match GetAuction id (house_at h w) with
  | None => w
  | Some a =>
      clear_auction h a
        (if a_bidder a =? 0 then SendAuctionExpiredMail a w else SendAuctionWonMail a (SendAuctionSuccessfulMail a w))
  end.
Definition update_auction (h : Z) (w : PW) (id : Z) : PW :=
  match GetAuction id (house_at h w) with
  | None => w
  | Some a =>
      let w := if a_depositTime a + 5 * 60 <? pw_gameTime w then upd_auction h id (set_a_lockedIpAddress "") w else w in
      if a_expireTime a <? pw_gameTime w then ExpireAuction h id w else w
  end.
Definition House_Update (w : PW) (h : Z) : PW := foldl (update_auction h) w (skeys (AuctionsMap (house_at h w))).
Definition AuctionHouseMgr_Update (w : PW) : PW := foldl House_Update w (skeys (pw_houses w)).

(** ** Which house *)
Definition GetAuctionHouseTeam (e : AuctionHouseEntry) : Z :=
  let id := houseId e in
  if (id =? 1) || (id =? 2) || (id =? 3) then ALLIANCE
  else if (id =? 4) || (id =? 5) || (id =? 6) then HORDE else 0.
Definition GetAuctionHouseId (factionTemplateId : Z) : Z :=
  let either := fun a b => (factionTemplateId =? a) || (factionTemplateId =? b) in
  if either 11 12 then 1 else if either 29 85 then 6 else if either 55 57 then 2 else if either 68 71 then 4
  else if either 79 80 then 3 else if either 104 105 then 5 else if either 120 474 then 7 else if factionTemplateId =? 534 then 2
  else if factionTemplateId =? 855 then 7
  else match faction_mask factionTemplateId with
       | None => 7
       | Some mask =>
           if has_flag mask FACTION_MASK_ALLIANCE then 1 else if has_flag mask FACTION_MASK_HORDE then 6 else 7
       end.
Definition LookupHouse (id : Z) : option AuctionHouseEntry := List.find (fun e => houseId e =? id) auction_houses.
(** For an auctioneer, or for a player who opened the auction with a command. *)
Definition GetAuctionHouseEntry (me guid : Z) (p : PostPlayer) : option AuctionHouseEntry :=
  LookupHouse (if cfg_TwoSideAuction then 1
               else if negb (guid =? me) then GetAuctionHouseId (faction_of guid)
               else if in_team (pp_info p) =? HORDE then 6 else 1).
Definition GetAuctionsMap (e : AuctionHouseEntry) (w : PW) : option Z := pw_houseMap w !! houseId e.

(** [std::map::insert] keeps the first house of an id. *)
Definition map_house (addr : AuctionHouseEntry -> Z) (w : PW) (e : AuctionHouseEntry) : PW :=
  set_pw_houseMap (insert_row (houseId e) (addr e) (pw_houseMap w)) w.
Definition LoadAuctionHouses (w : PW) : PW :=
  if cfg_TwoSideAuction
  then foldl (map_house (fun _ => 0)) (put_house 0 no_house w) auction_houses
  else foldl (map_house (fun e => let t := GetAuctionHouseTeam e in if t =? ALLIANCE then 0 else if t =? HORDE then 1 else 2))
         (put_house 2 no_house (put_house 1 no_house (put_house 0 no_house w))) auction_houses.

(** ** Loading *)
Definition auction_items (w : PW) : list (Z * Item) :=
  omap (fun kr => ir ← pw_item_instance w !! ar_itemguid (snd kr); Some (ar_itemguid (snd kr), snd ir)) (map_to_list (pw_auction w)).
(** The query does not read the column [generated_loot]. *)
Definition without_loot (i : Item) : Item :=
  mkItem (it_entry i) (it_count i) (it_creator i) (it_giftCreator i) (it_duration i) (it_charges i) (it_flags i)
    (it_enchants i) (it_randomPropertyId i) (it_transmog i) (it_durability i) (it_text i) false.
Definition load_auction_item (w : PW) (gi : Z * Item) : PW :=
  let '(guid, i) := gi in
  match item_template (it_entry i) with
  | None => w
  | Some t =>
      let '(i, need_save) := Item_LoadFromDB t (without_loot i) in
      let w := if need_save then set_pw_item_instance (alter (mend_row i) guid (pw_item_instance w)) w else w in
      AddAItem (mkPostItem guid 0 ITEM_UNCHANGED 0 i) w
  end.
Definition LoadAuctionItems (w : PW) : PW := foldl load_auction_item w (auction_items w).

Definition load_auction (w : PW) (kr : Z * AuctionRow) : PW :=
  let '(id, r) := kr in
  let a := fun house => mkAuction id (ar_itemguid r) (ar_item_template r) (ar_itemowner r)
    (GetPlayerAccountIdByGUID w (ar_itemowner r)) (ar_startbid r) (ar_lastbid r) (ar_buyoutprice r) "" 0 (ar_time r)
    (ar_buyguid r) (ar_deposit r) house in
  match GetAItem w (ar_itemguid r) with
  | None => Auction_DeleteFromDB id w
  | Some it =>
      if ar_houseid r =? 0
      then match LookupHouse 7 with
           | None => w
           | Some house =>
               let a := a house in
               let w := SendAuctionMail (Draft_AddItem it (MailDraft_subject (auction_subject a AUCTION_CANCELED))) (a_owner a) a w in
               Auction_DeleteFromDB id (RemoveAItem (a_itemGuidLow a) w)
           end
      else match house ← LookupHouse (ar_houseid r); h ← GetAuctionsMap house w; Some (house, h) with
           | Some (house, h) => AddAuction h (a house) w
           | None => w
           end
  end.
Definition LoadAuctions (w : PW) : PW := foldl load_auction w (map_to_list (pw_auction w)).

(** ** Searching *)
Definition BuildAuctionInfo (w : PW) (a : AuctionEntry) : option AuctionInfo :=
  it ← GetAItem w (a_itemGuidLow a);
  Some (mkInfo (a_Id a) it (a_owner a) (a_startbid a) (if a_bid a =? 0 then 0 else GetAuctionOutBid a) (a_buyout a)
          (u32 ((a_expireTime a - pw_time w) * 1000)) (a_bidder a) (a_bid a)).

(** A list being built: the infos, [count] and [totalcount]. *)
Record ListAcc := mkAcc { ac_infos : list AuctionInfo; ac_count : Z; ac_total : Z }.
Definition no_list : ListAcc := mkAcc [] 0 0.
(** The owner's and the bidder's lists: an auction is shown when it is past
    [listfrom], there is room and its item is there. *)
Definition list_own (w : PW) (listfrom : Z) (acc : ListAcc) (a : AuctionEntry) : ListAcc :=
  let total := u32 (ac_total acc + 1) in
  if (ac_count acc <? 50) && (listfrom <? total)
  then match BuildAuctionInfo w a with
       | Some i => mkAcc (ac_infos acc ++ [i]) (ac_count acc + 1) total
       | None => mkAcc (ac_infos acc) (ac_count acc) total
       end
  else mkAcc (ac_infos acc) (ac_count acc) total.
Definition bidder_auctions (me : Z) (o : AuctionHouseObject) : list AuctionEntry :=
  List.filter (fun a => a_bidder a =? me) (omap (fun id => GetAuction id o) (skeys (AuctionsMap o))).
Definition owner_auctions (me account : Z) (o : AuctionHouseObject) : list AuctionEntry :=
  List.filter (fun a => a_owner a =? me) (omap (fun id => GetAuction id o) (mm_range account (AccountAuctionMap o))).
Definition BuildListBidderItems (w : PW) (me listfrom : Z) (o : AuctionHouseObject) (acc : ListAcc) : ListAcc :=
  foldl (list_own w listfrom) acc (bidder_auctions me o).
Definition BuildListOwnerItems (w : PW) (me account listfrom : Z) (o : AuctionHouseObject) (acc : ListAcc) : ListAcc :=
  foldl (list_own w listfrom) acc (owner_auctions me account o).

Definition NOT_SET := 4294967295.
Definition empty_query (q : AuctionHouseClientQuery) : bool :=
  (qy_auctionMainCategory q =? NOT_SET) && (qy_auctionSubCategory q =? NOT_SET) && (qy_auctionSlotID q =? NOT_SET) &&
  (qy_quality q =? NOT_SET) && (qy_levelmin q =? 0) && (qy_levelmax q =? 0) && (qy_usable q =? 0) && (qy_wsearchedname q =s "").
Definition ordered_auctions (o : AuctionHouseObject) : list AuctionEntry :=
  omap (fun kv => GetAuction (snd kv) o) (OrderedAuctionMap o).
(** Without a query: from [listfrom] on the first fifty that are available. *)
Fixpoint list_first (w : PW) (p : PostPlayer) (l : list AuctionEntry) (acc : ListAcc) : ListAcc :=
  match l with
  | [] => acc
  | a :: l =>
      if negb (IsAvailableFor a p) then list_first w p l acc
      else
        let infos := match BuildAuctionInfo w a with Some i => ac_infos acc ++ [i] | None => ac_infos acc end in
        let acc := mkAcc infos (ac_count acc + 1) (ac_total acc) in
        if 50 <=? ac_count acc then acc else list_first w p l acc
  end.
Definition query_fits (q : AuctionHouseClientQuery) (p : PostPlayer) (t : ItemTemplate) (it : PostItem) : bool :=
  let wants := fun x f => (x =? NOT_SET) || f in
  wants (qy_auctionMainCategory q) (tp_Class t =? qy_auctionMainCategory q) &&
  wants (qy_auctionSubCategory q) (tp_SubClass t =? qy_auctionSubCategory q) &&
  wants (qy_auctionSlotID q) ((tp_InventoryType t =? qy_auctionSlotID q) ||
    ((qy_auctionSlotID q =? INVTYPE_CHEST) && (tp_InventoryType t =? INVTYPE_ROBE))) &&
  wants (qy_quality q) (qy_quality q <=? tp_Quality t) &&
  ((qy_levelmin q =? 0) || ((qy_levelmin q <=? tp_RequiredLevel t) &&
    ((qy_levelmax q =? 0) || (tp_RequiredLevel t <=? qy_levelmax q)))) &&
  ((qy_usable q =? 0) || CanUseItem p it) &&
  ((qy_usable q =? 0) || negb (tp_Class t =? ITEM_CLASS_RECIPE) || negb (HasSpell p (tp_spell t))).
Definition name_fits (q : AuctionHouseClientQuery) (p : PostPlayer) (t : ItemTemplate) (it : PostItem) : bool :=
  (qy_wsearchedname q =s "") || (negb (tp_Name1 t =s "") && searched_name_fits p it (qy_wsearchedname q)).
Definition auction_fits (w : PW) (p : PostPlayer) (q : AuctionHouseClientQuery) (a : AuctionEntry) : bool :=
  match GetAItem w (a_itemGuidLow a) with
  | None => false
  | Some it =>
      match item_template (it_entry (pi_item it)) with
      | None => false
      | Some t => query_fits q p t it && IsAvailableFor a p && name_fits q p t it
      end
  end.
Definition list_fitting (w : PW) (listfrom : Z) (acc : ListAcc) (a : AuctionEntry) : ListAcc :=
  let total := u32 (ac_total acc + 1) in
  if (ac_count acc <? 50) && (listfrom <=? ac_total acc)
  then mkAcc (match BuildAuctionInfo w a with Some i => ac_infos acc ++ [i] | None => ac_infos acc end) (ac_count acc + 1) total
  else mkAcc (ac_infos acc) (ac_count acc) total.
Definition BuildListAuctionItems (w : PW) (p : PostPlayer) (q : AuctionHouseClientQuery) (o : AuctionHouseObject) : ListAcc :=
  if empty_query q
  then
    let total := Z.of_nat (length (OrderedAuctionMap o)) in
    if qy_listfrom q <? total
    then list_first w p (drop (Z.to_nat (qy_listfrom q)) (ordered_auctions o)) (mkAcc [] 0 total)
    else mkAcc [] 0 total
  else foldl (list_fitting w (qy_listfrom q)) no_list (List.filter (auction_fits w p q) (ordered_auctions o)).
End auctions.
