(* ===== verification/AuctionHandlers.v ===== *)
(** The auction opcodes (Handlers/AuctionHouseHandler.cpp) and the task that
    answers a search. *)

From Stdlib Require Import Floats.SpecFloat.
From S2P Require Import Prelude CString GuildBankTypes GuildBankItems PostTypes Mail Auction.

Section auction_handlers.
Context {env : PostEnv}.

(** What the packet says of the auction it is about. *)
Definition SendAuctionCommandResult (me : Z) (a : option AuctionEntry) (action error inv : Z) (w : PW) : PW :=
  let extra :=
    if error =? AUCTION_OK then if action =? AUCTION_BID_PLACED then [from_option GetAuctionOutBid 0 a] else []
    else if error =? AUCTION_ERR_INVENTORY then [inv]
    else if error =? AUCTION_ERR_HIGHER_BID then [from_option a_bidder 0 a; from_option a_bid 0 a; from_option GetAuctionOutBid 0 a]
    else [] in
  post (AuctionCommandResult me (from_option a_Id 0 a) action error extra) w.

Definition HandleAuctionHello (me auctioneer : Z) (w : PW) : PW :=
  match GetPlayer w me with
  | None => w
  | Some p =>
      if in_hardcore (pp_info p)
      then post (PostMessage me "Hardcore characters can not trade, nor buy on Auction House.") w
      else if negb (bool_decide (auctioneer ∈ pp_near p)) then w
      else if in_suspicious (pp_info p) then w
      else match GetAuctionHouseEntry me auctioneer p with
           | Some e => post (AuctionHello me (houseId e)) w
           | None => w
           end
  end.

Definition GetCheckedAuctionHouseForAuctioneer (me guid : Z) (p : PostPlayer) : option AuctionHouseEntry :=
  if guid =? me
  then if has_auction_command p then GetAuctionHouseEntry me guid p else None
  else if bool_decide (guid ∈ pp_near p) then GetAuctionHouseEntry me guid p else None.
(** Opcodes of a player in the world at an auctioneer: the entry and the house. *)
Definition at_auctioneer (me guid : Z) (w : PW) (f : PostPlayer -> AuctionHouseEntry -> Z -> PW) : PW :=
  match GetPlayer w me with
  | None => w
  | Some p =>
      match e ← GetCheckedAuctionHouseForAuctioneer me guid p; h ← GetAuctionsMap e w; Some (e, h) with
      | Some (e, h) => f p e h
      | None => w
      end
  end.
Definition gm_barred (p : PostPlayer) : bool := negb cfg_GmAllowTrades && (SEC_PLAYER <? in_security (pp_info p)).

(** ** Selling *)
Definition auctionable (p : PostPlayer) (pos : Z * Z) (it : PostItem) (w : PW) : bool :=
  negb (IsBankPos pos) && CanBeTraded p pos it w && negb (IsSoulBound (pi_item it)) &&
  negb (has_flag (from_option tp_Flags 0 (item_template (it_entry (pi_item it)))) ITEM_FLAG_CONJURED) &&
  (it_duration (pi_item it) =? 0).
Definition start_auction (me : Z) (p : PostPlayer) (e : AuctionHouseEntry) (h : Z) (pos : Z * Z) (it : PostItem)
    (bid buyout etime deposit : Z) (w : PW) : PW :=
  let w := upd_pp me (pp_ModifyMoney (i32 (- i32 deposit))) w in
  let auction_time := f32_to_uint (f32_mul (f32 etime) cfg_RateTime) in
  let '(id, w) := GenerateAuctionID w in
  let a := mkAuction id (pi_guid it) (it_entry (pi_item it)) me (in_account (pp_info p)) bid 0 buyout
             (in_address (pp_info p)) (pw_time w) (pw_time w + auction_time) 0 deposit e in
  let w := MoveItemFromInventory me pos (AddAItem (saved_item it) (AddAuction h a w)) in
  let w := SaveInventoryAndGoldToDB me (Auction_SaveToDB a (Item_SaveToDB it w)) in
  SendAuctionCommandResult me (Some a) AUCTION_STARTED AUCTION_OK 0 w.
Definition HandleAuctionSellItem (me auctioneer itemGuid bid buyout etime : Z) (w : PW) : PW :=
  match GetPlayer w me with
  | None => w
  | Some p =>
      if (bid =? 0) || (etime =? 0) || in_suspicious (pp_info p) then w
      else if (2000000000 <? bid) || (2000000000 <? buyout) then w
      else if negb (buyout =? 0) && (buyout <? bid) then w
      else if gm_barred p then w
      else at_auctioneer me auctioneer w (fun p e h =>
        let fail := fun error => SendAuctionCommandResult me None AUCTION_STARTED error EQUIP_ERR_ITEM_NOT_FOUND w in
        if negb (cfg_AuctionLimit =? 0) && (cfg_AuctionLimit <=? GetAccountAuctionCount (in_account (pp_info p)) (house_at h w))
        then SendAuctionCommandResult me None AUCTION_STARTED AUCTION_ERR_DATABASE 0
               (post (PostMessage me "You have reached the limit of active auctions on your account.") w)
        else
          let etime := u32 (etime * 60) in
          if negb ((etime =? 1 * MIN_AUCTION_TIME) || (etime =? 4 * MIN_AUCTION_TIME) || (etime =? 12 * MIN_AUCTION_TIME)) then w
          else if itemGuid =? 0 then w
          else if bool_decide (is_Some (GetAItem w itemGuid)) then fail AUCTION_ERR_INVENTORY
          else match GetItemByGuid p itemGuid with
          | None => fail AUCTION_ERR_INVENTORY
          | Some (pos, it) =>
              if negb (auctionable p pos it w) then fail AUCTION_ERR_INVENTORY
              else
                let deposit := GetAuctionDeposit e etime it in
                if pp_money p <? deposit then fail AUCTION_ERR_NOT_ENOUGH_MONEY
                else start_auction me p e h pos it bid buyout etime deposit w
          end)
  end.

(** ** Bidding *)
Definition set_bid (bidder bid : Z) (a : AuctionEntry) : AuctionEntry := set_a_bidder bidder (set_a_bid bid a).
(** The bidder pays the price, or what is missing to it; the bidder before him
    gets his money back. *)
Definition pay_bid (me : Z) (a : AuctionEntry) (price : Z) (w : PW) : PW :=
  if me =? a_bidder a then upd_pp me (pp_ModifyMoney (i32 (- i32 (u32 (price - a_bid a))))) w
  else
    let w := upd_pp me (pp_ModifyMoney (i32 (- i32 price))) w in
    if a_bidder a =? 0 then w else SendAuctionOutbiddedMail a w.
Definition place_bid (me h : Z) (a : AuctionEntry) (price : Z) (w : PW) : PW :=
  let w := pay_bid me a price w in
  let a := set_bid me price a in
  let w := upd_auction h (a_Id a) (set_bid me price) w in
  let w := if in_world w (a_owner a) then SendAuctionOwnerNotification (a_owner a) a false w else w in
  SendAuctionCommandResult me (Some a) AUCTION_BID_PLACED AUCTION_OK 0 (sql_bid (a_Id a) me price w).
Definition buy_out (me h : Z) (a : AuctionEntry) (w : PW) : PW :=
  let w := pay_bid me a (a_buyout a) w in
  let w := upd_auction h (a_Id a) (set_bid me (a_buyout a)) w in
  let a := set_bid me (a_buyout a) a in
  let w := SendAuctionWonMail a (SendAuctionSuccessfulMail a w) in
  let w := SendAuctionCommandResult me (Some a) AUCTION_BID_PLACED AUCTION_OK 0 w in
  Auction_DeleteFromDB (a_Id a) (RemoveAuction h a (RemoveAItem (a_itemGuidLow a) w)).
Definition HandleAuctionPlaceBid (me auctioneer auctionId price : Z) (w : PW) : PW :=
  match GetPlayer w me with
  | None => w
  | Some p =>
      if gm_barred p then w
      else if (auctionId =? 0) || (price =? 0) then w
      else at_auctioneer me auctioneer w (fun p e h =>
        if in_suspicious (pp_info p) then w
        else match GetAuction auctionId (house_at h w) with
        | None => SendAuctionCommandResult me None AUCTION_BID_PLACED AUCTION_ERR_ITEM_NOT_FOUND 0 w
        | Some a =>
            let fail := fun error a => SendAuctionCommandResult me a AUCTION_BID_PLACED error 0 w in
            let plain_bid := (price <? a_buyout a) || (a_buyout a =? 0) in
            if a_owner a =? me then fail AUCTION_ERR_BID_OWN None
            else if negb (in_world w (a_owner a)) && (GetPlayerAccountIdByGUID w (a_owner a) =? in_account (pp_info p))
            then fail AUCTION_ERR_BID_OWN None
            else if price <? a_startbid a then w
            else if price <=? a_bid a then fail AUCTION_ERR_HIGHER_BID (Some a)
            else if plain_bid && (price <? u32 (a_bid a + GetAuctionOutBid a)) then fail AUCTION_ERR_BID_INCREMENT (Some a)
            else if pp_money p <? price then w
            else SaveInventoryAndGoldToDB me (if plain_bid then place_bid me h a price w else buy_out me h a w)
        end)
  end.

(** ** Cancelling *)
Definition cancel_auction (me h : Z) (a : AuctionEntry) (it : PostItem) (w : PW) : PW :=
  let w := if 0 <? a_bidder a
           then upd_pp me (pp_ModifyMoney (i32 (- i32 (GetAuctionCut a)))) (SendAuctionCancelledToBidderMail a w) else w in
  let w := SendAuctionMail (Draft_AddItem it (MailDraft_subject (auction_subject a AUCTION_CANCELED))) me a w in
  let w := SendAuctionCommandResult me (Some a) AUCTION_REMOVED AUCTION_OK 0 w in
  let w := SaveInventoryAndGoldToDB me (Auction_DeleteFromDB (a_Id a) w) in
  RemoveAuction h a (RemoveAItem (a_itemGuidLow a) w).
Definition HandleAuctionRemoveItem (me auctioneer auctionId : Z) (w : PW) : PW :=
  at_auctioneer me auctioneer w (fun p e h =>
    let fail := fun error => SendAuctionCommandResult me None AUCTION_REMOVED error EQUIP_ERR_ITEM_NOT_FOUND w in
    match GetAuction auctionId (house_at h w) with
    | None => fail AUCTION_ERR_DATABASE
    | Some a =>
        if negb (a_owner a =? me) then fail AUCTION_ERR_DATABASE
        else match GetAItem w (a_itemGuidLow a) with
        | None => fail AUCTION_ERR_INVENTORY
        | Some it =>
            if (0 <? a_bidder a) && (pp_money p <? GetAuctionCut a) then w else cancel_auction me h a it w
        end
    end).

(** ** Lists *)
Definition add_task (me : Z) (t : AuctionTask) (w : PW) : PW :=
  set_pw_tasks (pw_tasks w ++ [t]) (upd_pp me (set_pp_ahRequest true) w).
Definition page_query (listfrom : Z) : AuctionHouseClientQuery := mkQuery "" 0 0 0 listfrom 0 0 0 0.
(** [outbidded] are the ids the packet brought; none are read when its size is wrong. *)
Definition HandleAuctionListBidderItems (me auctioneer listfrom : Z) (outbidded : list Z) (sized : bool) (w : PW) : PW :=
  at_auctioneer me auctioneer w (fun p e h =>
    if pp_ahRequest p then w
    else add_task me (mkTask AUCTION_QUERY_LIST_BIDDER (in_account (pp_info p)) h (page_query listfrom)
                        (if sized then outbidded else [])) w).
Definition HandleAuctionListOwnerItems (me auctioneer listfrom : Z) (w : PW) : PW :=
  at_auctioneer me auctioneer w (fun p e h =>
    if pp_ahRequest p then w
    else add_task me (mkTask AUCTION_QUERY_LIST_OWNER (in_account (pp_info p)) h (page_query listfrom) []) w).
Definition HandleAuctionListItems (me auctioneer : Z) (name : string) (q : AuctionHouseClientQuery) (w : PW) : PW :=
  at_auctioneer me auctioneer w (fun p e h =>
    if pp_ahRequest p then w
    else match searched_name name with
         | None => w
         | Some name => add_task me (mkTask AUCTION_QUERY_LIST (in_account (pp_info p)) h (set_qy_wsearchedname name q) []) w
         end).

(** [World::FindSession]: one session per account. *)
Definition FindSession (account : Z) (w : PW) : option (Z * PostPlayer) :=
  head (omap (fun g => p ← pw_players w !! g; if in_account (pp_info p) =? account then Some (g, p) else None)
          (skeys (pw_players w))).
Definition list_outbidded (w : PW) (listfrom : Z) (o : AuctionHouseObject) (acc : ListAcc) (id : Z) : ListAcc :=
  match GetAuction id o with Some a => list_own w listfrom acc a | None => acc end.
Definition list_page (w : PW) (me : Z) (p : PostPlayer) (t : AuctionTask) : Z * ListAcc :=
  let o := house_at (tk_house t) w in
  let from := qy_listfrom (tk_query t) in
  match tk_type t with
  | AUCTION_QUERY_LIST => (SMSG_AUCTION_LIST_RESULT, BuildListAuctionItems w p (tk_query t) o)
  | AUCTION_QUERY_LIST_BIDDER =>
      (SMSG_AUCTION_BIDDER_LIST_RESULT,
       BuildListBidderItems w me from o (foldl (list_outbidded w from o) no_list (tk_outbidded t)))
  | AUCTION_QUERY_LIST_OWNER =>
      (SMSG_AUCTION_OWNER_LIST_RESULT, BuildListOwnerItems w me (in_account (pp_info p)) from o no_list)
  end.
(** [AuctionHouseClientQueryTask::operator()]. *)
Definition run_task (t : AuctionTask) (w : PW) : PW :=
  match FindSession (tk_account t) w with
  | None => w
  | Some (me, p) =>
      let w := upd_pp me (set_pp_ahRequest false) w in
      if negb (pp_inWorld p) then w
      else
        let '(opcode, acc) := list_page w me p t in
        post (AuctionListResult me opcode (ac_infos acc) (ac_count acc) (ac_total acc)) w
  end.
(** The async tasks of [World::Update], one at a time. *)
Definition run_next_task (w : PW) : PW :=
  match pw_tasks w with
  | [] => w
  | t :: ts => run_task t (set_pw_tasks ts w)
  end.
End auction_handlers.
