(* ===== verification/PostSteps.v ===== *)
(** What can happen to mail and auctions: opcodes of players, ticks, the expiry
    of letters, logging in and out, and what players do meanwhile elsewhere. *)

From Stdlib Require Import Floats.SpecFloat.
From S2P Require Import Prelude CString GuildBankTypes GuildBankItems PostTypes Mail MailHandlers Auction AuctionHandlers.

(** Numbers in opcodes are read as [uint32]. *)
Inductive PostOp :=
| SendMail (me mailbox : Z) (receiverName subject body : string) (itemGuid money COD : Z)
| MailMarkAsRead (me mailbox mailId : Z)
| MailDelete (me mailbox mailId : Z)
| MailReturnToSender (me mailbox mailId : Z)
| MailTakeItem (me mailbox mailId : Z)
| MailTakeMoney (me mailbox mailId : Z)
| MailCreateTextItem (me mailbox mailId : Z)
| GetMailList (me mailbox : Z)
| ItemTextQuery (me itemTextId : Z)
| QueryNextMailTime (me : Z)
| AuctionHelloOp (me auctioneer : Z)
| AuctionSellItem (me auctioneer itemGuid bid buyout etime : Z)
| AuctionPlaceBid (me auctioneer auctionId price : Z)
| AuctionRemoveItem (me auctioneer auctionId : Z)
| AuctionListBidderItems (me auctioneer listfrom : Z) (outbidded : list Z) (sized : bool)
| AuctionListOwnerItems (me auctioneer listfrom : Z)
| AuctionListItems (me auctioneer : Z) (name : string) (q : AuctionHouseClientQuery)
| AsyncTask
| AuctionUpdate
| MailTick (g : Z)
| MailExpiry (text : Z -> Z)
| PlayerLogin (g : Z) (info : PlayerInfo)
| PlayerLogout (g : Z)
| Clock (time gameTime : Z)
| Elsewhere (g : Z) (inWorld : bool) (near : gset Z) (lootGuid : Z)
| Remembered (cache : gmap Z PostCache) (names : gmap string Z).

Section steps.
Context {env : PostEnv}.

Definition run_op (o : PostOp) (w : PW) : PW :=
  match o with
  | SendMail me mb name subject body item money COD =>
      HandleSendMail me mb name subject body (u32 item) (u32 money) (u32 COD) w
  | MailMarkAsRead me mb id => HandleMailMarkAsRead me mb (u32 id) w
  | MailDelete me mb id => HandleMailDelete me mb (u32 id) w
  | MailReturnToSender me mb id => HandleMailReturnToSender me mb (u32 id) w
  | MailTakeItem me mb id => HandleMailTakeItem me mb (u32 id) w
  | MailTakeMoney me mb id => HandleMailTakeMoney me mb (u32 id) w
  | MailCreateTextItem me mb id => HandleMailCreateTextItem me mb (u32 id) w
  | GetMailList me mb => HandleGetMailList me mb w
  | ItemTextQuery me id => HandleItemTextQuery me (u32 id) w
  | QueryNextMailTime me => HandleQueryNextMailTime me w
  | AuctionHelloOp me a => HandleAuctionHello me a w
  | AuctionSellItem me a item bid buyout etime => HandleAuctionSellItem me a (u32 item) (u32 bid) (u32 buyout) (u32 etime) w
  | AuctionPlaceBid me a id price => HandleAuctionPlaceBid me a (u32 id) (u32 price) w
  | AuctionRemoveItem me a id => HandleAuctionRemoveItem me a (u32 id) w
  | AuctionListBidderItems me a from ids sized => HandleAuctionListBidderItems me a (u32 from) (u32 <$> ids) sized w
  | AuctionListOwnerItems me a from => HandleAuctionListOwnerItems me a (u32 from) w
  | AuctionListItems me a name q => HandleAuctionListItems me a name q w
  | AsyncTask => run_next_task w
  | AuctionUpdate => AuctionHouseMgr_Update w
  | MailTick g => MasterPlayer_Update g w
  | MailExpiry text => ReturnOrDeleteOldMails true text w
  | PlayerLogin g info => HandlePlayerLogin g info w
  | PlayerLogout g => LogoutPlayer g w
  | Clock time gameTime => set_pw_time time (set_pw_gameTime gameTime w)
  | Elsewhere g inWorld near loot => upd_pp g (fun p => set_pp_inWorld inWorld (set_pp_near near (set_pp_lootGuid loot p))) w
  | Remembered cache names => set_pw_cache cache (set_pw_names names w)
  end.

(** The server stops before a counter of ids wraps ([IdGenerator::Generate]) and
    before the last auction id is taken, and no letter holds more gold than a
    player may own. *)
Record in_range (w : PW) : Prop := mkInRange {
  ir_mails : pw_mailIds w <= 2 ^ 32;
  ir_items : pw_itemGuids w <= 2 ^ 32;
  ir_auctions : forall id, id ∈ pw_auctionIds w -> id < 2 ^ 32 - 1;
  ir_gold : forall id r, pw_mail w !! id = Some r -> mlr_isDeleted r = false -> mlr_money r <= MAX_MONEY_AMOUNT
}.

Inductive post_steps : PW -> PW -> Prop :=
| post_refl w : post_steps w w
| post_step w o w' : in_range w -> in_range (run_op o w) -> post_steps (run_op o w) w' -> post_steps w w'.
End steps.
