(* ===== verification/PostGold.v ===== *)
(** Where the gold is: in purses, in letters and at the auction houses, whose cut
    stays below the bid though it is computed in single precision.  [flow c]
    holds of a change that adds at most [c] to it and keeps mailboxes and table in
    agreement; the operations of mail and auctions are such changes. *)

From Stdlib Require Import Floats.SpecFloat.
From S2P Require Import Prelude CString GuildBankTypes GuildBankItems PostTypes Mail MailHandlers Auction AuctionHandlers.

Lemma digits_bounds p : 2 ^ (Z.pos (digits2_pos p) - 1) <= Z.pos p < 2 ^ Z.pos (digits2_pos p).
Proof.
  induction p as [p IH|p IH|]; simpl digits2_pos; [| |done].
  - rewrite Pos2Z.inj_succ. rewrite Z.pow_succ_r by lia.
    replace (Z.succ (Z.pos (digits2_pos p)) - 1) with (Z.succ (Z.pos (digits2_pos p) - 1)) by lia. rewrite Z.pow_succ_r by lia. lia.
  - rewrite Pos2Z.inj_succ. rewrite Z.pow_succ_r by lia.
    replace (Z.succ (Z.pos (digits2_pos p)) - 1) with (Z.succ (Z.pos (digits2_pos p) - 1)) by lia. rewrite Z.pow_succ_r by lia. lia.
Qed.
Lemma digits_unique p d : 0 < d -> 2 ^ (d - 1) <= Z.pos p < 2 ^ d -> Z.pos (digits2_pos p) = d.
Proof.
  intros Hd [H1 H2]. destruct (digits_bounds p) as [H3 H4]. set (k := Z.pos (digits2_pos p)) in *.
  assert (0 < k) by lia. destruct (Z.lt_trichotomy k d) as [E|[E|E]]; [|done|].
  - pose proof (Z.pow_le_mono_r 2 k (d - 1)). lia.
  - pose proof (Z.pow_le_mono_r 2 d (k - 1)). lia.
Qed.
Lemma shr_1_m mrs : 0 <= shr_m mrs -> shr_m (shr_1 mrs) = shr_m mrs / 2.
Proof. rewrite <- Z.div2_div. destruct mrs as [[|[p|p|]|p] r s]; simpl; intros H; done || lia. Qed.
Lemma iter_shr_m p mrs : 0 <= shr_m mrs -> shr_m (SpecFloat.iter_pos shr_1 p mrs) = shr_m mrs / 2 ^ Z.pos p.
Proof.
  revert mrs. assert (Hstep : forall a b m, 0 <= m -> m / 2 ^ Z.pos a / 2 ^ Z.pos b = m / 2 ^ (Z.pos a + Z.pos b)).
  { intros a b m Hm. rewrite Z.div_div by lia. by rewrite <- Z.pow_add_r by lia. }
  assert (Hpos : forall m k, 0 <= m -> 0 <= m / 2 ^ Z.pos k) by (intros; apply Z.div_pos; [done|apply Z.pow_pos_nonneg; lia]).
  induction p as [p IH|p IH|]; intros mrs H; simpl.
  - assert (H1 : 0 <= shr_m (shr_1 mrs)) by (rewrite shr_1_m by done; by apply (Hpos _ 1%positive)).
    assert (H2 : 0 <= shr_m (SpecFloat.iter_pos shr_1 p (shr_1 mrs))) by (rewrite IH by done; by apply Hpos).
    rewrite IH, IH, shr_1_m by done. change 2 with (2 ^ Z.pos 1) at 1. rewrite !Hstep.
    + rewrite Z.div_div by lia. rewrite <- Z.pow_add_r by lia. f_equal. f_equal. lia.
    + by apply Hpos.
  - assert (H2 : 0 <= shr_m (SpecFloat.iter_pos shr_1 p mrs)) by (rewrite IH by done; by apply Hpos).
    rewrite IH, IH by done. rewrite Hstep by done. f_equal. f_equal. lia.
  - by rewrite shr_1_m.
Qed.
Lemma shr_spec m l e n : 0 <= m -> 0 <= n ->
  shr_m (fst (shr (shr_record_of_loc m l) e n)) = m / 2 ^ n /\ snd (shr (shr_record_of_loc m l) e n) = e + n.
Proof.
  intros Hm Hn. assert (Hl : shr_m (shr_record_of_loc m l) = m) by (by destruct l as [|[| |]]).
  destruct n as [|p|p]; [|simpl|lia].
  - simpl. rewrite Hl, Z.div_1_r. split; [done|lia].
  - rewrite iter_shr_m by lia. by rewrite Hl.
Qed.
(** A mantissa of 24 digits or more is rounded to one of 24. *)
Lemma round_spec m ex lx : 2 ^ 23 <= m < 2 ^ 60 -> - 100 <= ex <= 60 ->
  exists m' e', binary_round_aux 24 128 false m ex lx = S754_finite false m' e' /\
    2 ^ 23 <= Z.pos m' < 2 ^ 24 /\ ex <= e' <= ex + 37 /\ Z.pos m' * 2 ^ (e' - ex) * 2 ^ 23 <= (2 ^ 23 + 1) * m.
Proof.
  intros Hm Hex. destruct m as [|p|p]; [lia| |lia]. pose proof (digits_bounds p) as Hd. set (d := Z.pos (digits2_pos p)) in *.
  assert (Hd1 : 24 <= d <= 60).
  { split.
    - destruct (Z.le_gt_cases 24 d); [done|]. pose proof (Z.pow_le_mono_r 2 d 23). lia.
    - destruct (Z.le_gt_cases d 60); [done|]. pose proof (Z.pow_le_mono_r 2 60 (d - 1)). lia. }
  unfold binary_round_aux, shr_fexp. simpl Zdigits2. fold d.
  assert (Hn : fexp 24 128 (d + ex) - ex = d - 24) by (unfold fexp, emin; lia). rewrite Hn.
  destruct (shr_spec (Z.pos p) lx ex (d - 24)) as [S1 S2]; [lia..|].
  destruct (shr _ ex (d - 24)) as [mrs e1]. simpl in S1, S2. subst e1.
  set (m1 := shr_m mrs) in *. assert (H1 : 2 ^ 23 <= m1 < 2 ^ 24 /\ m1 * 2 ^ (d - 24) <= Z.pos p).
  { rewrite S1. pose proof (Z.pow_pos_nonneg 2 (d - 24)).
    replace (2 ^ (d - 1)) with (2 ^ 23 * 2 ^ (d - 24)) in Hd by (rewrite <- Z.pow_add_r by lia; f_equal; lia).
    replace (2 ^ d) with (2 ^ 24 * 2 ^ (d - 24)) in Hd by (rewrite <- Z.pow_add_r by lia; f_equal; lia).
    split; [split|].
    - apply Z.div_le_lower_bound; lia.
    - apply Z.div_lt_upper_bound; lia.
    - rewrite Z.mul_comm. apply Z.mul_div_le. lia. }
  set (m2 := round_nearest_even m1 _). assert (H2 : m1 <= m2 <= m1 + 1).
  { unfold m2, round_nearest_even. destruct (loc_of_shr_record mrs) as [|[| |]]; try lia. case_if; lia. }
  clearbody m2. clear S1. destruct m2 as [|p2|p2]; [lia| |lia]. simpl Zdigits2.
  assert (Hk : (Z.pos (digits2_pos p2) = 24 /\ Z.pos p2 < 2 ^ 24) \/ (Z.pos (digits2_pos p2) = 25 /\ Z.pos p2 = 2 ^ 24)).
  { destruct (Z.lt_ge_cases (Z.pos p2) (2 ^ 24)); [left|right]; (split; [|lia]); apply digits_unique; lia. }
  assert (Hn2 : exists n2, fexp 24 128 (Z.pos (digits2_pos p2) + (ex + (d - 24))) - (ex + (d - 24)) = n2 /\
    ((n2 = 0 /\ Z.pos p2 < 2 ^ 24) \/ (n2 = 1 /\ Z.pos p2 = 2 ^ 24))).
  { eexists. split; [done|]. unfold fexp, emin. destruct Hk as [[-> ?]|[-> ?]]; [left|right]; lia. }
  destruct Hn2 as (n2 & -> & Hn2). destruct (shr_spec (Z.pos p2) loc_Exact (ex + (d - 24)) n2) as [S3 S4]; [lia..|].
  destruct (shr _ (ex + (d - 24)) n2) as [mrs3 e3]. simpl in S3, S4. subst e3. rewrite S3.
  assert (H3 : 2 ^ 23 <= Z.pos p2 / 2 ^ n2 < 2 ^ 24 /\ Z.pos p2 / 2 ^ n2 * 2 ^ n2 = Z.pos p2).
  { destruct Hn2 as [[-> ?]|[-> ->]]; [rewrite Z.div_1_r; lia|by vm_compute]. }
  destruct (Z.pos p2 / 2 ^ n2) as [|q|q]; [lia| |lia]. rewrite (proj2 (Z.leb_le _ _)) by lia.
  exists q, (ex + (d - 24) + n2). split; [done|]. split; [lia|]. split; [lia|].
  replace (ex + (d - 24) + n2 - ex) with (n2 + (d - 24)) by lia. rewrite Z.pow_add_r by lia.
  destruct H3 as [_ H3]. rewrite Z.mul_assoc, H3. pose proof (Z.pow_pos_nonneg 2 (d - 24)). nia.
Qed.

(** Values are compared at the scale of 2^-100. *)
Definition scaled (m e : Z) : Z := m * 2 ^ (e + 100).
Lemma round_scaled m ex lx : 2 ^ 23 <= m < 2 ^ 60 -> - 100 <= ex <= 60 ->
  exists m' e', binary_round_aux 24 128 false m ex lx = S754_finite false m' e' /\
    2 ^ 23 <= Z.pos m' < 2 ^ 24 /\ ex <= e' <= ex + 37 /\ scaled (Z.pos m') e' * 2 ^ 23 <= (2 ^ 23 + 1) * scaled m ex.
Proof.
  intros Hm Hex. destruct (round_spec m ex lx Hm Hex) as (m' & e' & E & Hm' & He & Hv). exists m', e'. repeat (split; [done|]).
  unfold scaled. replace (e' + 100) with ((e' - ex) + (ex + 100)) by lia. rewrite Z.pow_add_r by lia.
  pose proof (Z.pow_nonneg 2 (ex + 100)). nia.
Qed.
Lemma iter_xO p k : Z.pos (Pos.iter xO p k) = Z.pos p * 2 ^ Z.pos k.
Proof.
  induction k as [|k IH] using Pos.peano_ind; [simpl; lia|]. rewrite Pos.iter_succ, Pos2Z.inj_succ, Z.pow_succ_r by lia.
  change (2 * Z.pos (Pos.iter xO p k) = Z.pos p * (2 * 2 ^ Z.pos k)). lia.
Qed.
Lemma f32_spec n : 0 < n < 2 ^ 32 ->
  exists m e, f32 n = S754_finite false m e /\ 2 ^ 23 <= Z.pos m < 2 ^ 24 /\ - 23 <= e <= 37 /\
    scaled (Z.pos m) e * 2 ^ 23 <= (2 ^ 23 + 1) * scaled n 0.
Proof.
  intros Hn. destruct n as [|p|p]; [lia| |lia]. unfold f32, binary_normalize, binary_round.
  pose proof (digits_bounds p) as Hd. set (d := Z.pos (digits2_pos p)) in *.
  assert (Hd1 : 1 <= d <= 32).
  { split; [lia|]. destruct (Z.le_gt_cases d 32); [done|]. pose proof (Z.pow_le_mono_r 2 32 (d - 1)). lia. }
  assert (fexp 24 128 (d + 0) = d - 24) as -> by (unfold fexp, emin; lia). unfold shl_align. rewrite Z.sub_0_r.
  destruct (d - 24) as [|k|k] eqn:Ek.
  - assert (d = 24) as Hd24 by lia. rewrite Hd24 in Hd.
    destruct (round_scaled (Z.pos p) 0 loc_Exact) as (m & e & E & H1 & H2 & H3); [lia..|]. exists m, e. split; [done|]. split; [done|]. split; [lia|done].
  - assert (2 ^ 23 <= Z.pos p) by (pose proof (Z.pow_le_mono_r 2 23 (d - 1)); lia).
    destruct (round_scaled (Z.pos p) 0 loc_Exact) as (m & e & E & H1 & H2 & H3); [lia..|]. exists m, e. split; [done|]. split; [done|]. split; [lia|done].
  - assert (Hp : Z.pos (Pos.iter xO p k) = Z.pos p * 2 ^ Z.pos k) by apply iter_xO.
    assert (Hk : 2 ^ 23 <= Z.pos p * 2 ^ Z.pos k < 2 ^ 24).
    { replace (2 ^ 23) with (2 ^ (d - 1) * 2 ^ Z.pos k) by (rewrite <- Z.pow_add_r by lia; f_equal; lia).
      replace (2 ^ 24) with (2 ^ d * 2 ^ Z.pos k) by (rewrite <- Z.pow_add_r by lia; f_equal; lia).
      pose proof (Z.pow_pos_nonneg 2 (Z.pos k)). nia. }
    rewrite <- Hp in Hk. destruct (round_scaled (Z.pos (Pos.iter xO p k)) (Z.neg k) loc_Exact) as (m & e & E & H1 & H2 & H3); [lia..|].
    exists m, e. split; [done|]. split; [done|]. split; [lia|].
    assert (scaled (Z.pos (Pos.iter xO p k)) (Z.neg k) = scaled (Z.pos p) 0) as <-; [|done].
    unfold scaled. rewrite Hp, <- Z.mul_assoc, <- Z.pow_add_r by lia. f_equal. f_equal. lia.
Qed.
Lemma f32_one : f32 1 = S754_finite false 8388608 (- 23).
Proof. by vm_compute. Qed.
Lemma f32_hundred : f32 100 = S754_finite false 13107200 (- 17).
Proof. by vm_compute. Qed.
Lemma f32_mul_one m e : 2 ^ 23 <= Z.pos m < 2 ^ 24 -> - 23 <= e <= 37 ->
  exists m' e', f32_mul (S754_finite false m e) (f32 1) = S754_finite false m' e' /\ 2 ^ 23 <= Z.pos m' < 2 ^ 24 /\ - 46 <= e' <= 51 /\
    scaled (Z.pos m') e' * 2 ^ 23 <= (2 ^ 23 + 1) * scaled (Z.pos m) e.
Proof.
  intros Hm He. rewrite f32_one. unfold f32_mul, SFmul. simpl xorb.
  destruct (round_scaled (Z.pos (m * 8388608)) (e + - 23) loc_Exact) as (m' & e' & E & H1 & H2 & H3); [lia..|].
  exists m', e'. split; [done|]. split; [done|]. split; [lia|].
  assert (scaled (Z.pos (m * 8388608)) (e + - 23) = scaled (Z.pos m) e) as <-; [|done].
  unfold scaled. rewrite Pos2Z.inj_mul. change 8388608 with (2 ^ 23). rewrite <- Z.mul_assoc, <- Z.pow_add_r by lia. f_equal. f_equal. lia.
Qed.
Lemma f32_div_hundred m e : 2 ^ 23 <= Z.pos m < 2 ^ 24 -> - 46 <= e <= 60 ->
  exists m' e', f32_div (S754_finite false m e) (f32 100) = S754_finite false m' e' /\ - 100 <= e' /\
    scaled (Z.pos m') e' * 2 ^ 23 * 100 <= (2 ^ 23 + 1) * scaled (Z.pos m) e.
Proof.
  intros Hm He. rewrite f32_hundred. unfold f32_div, SFdiv, SFdiv_core_binary. simpl xorb.
  assert (Hd : Zdigits2 (Z.pos m) = 24) by (apply digits_unique; simpl; lia). rewrite Hd. change (Zdigits2 13107200) with 24.
  assert (Hf : Z.min (fexp 24 128 (24 + e - (24 + - 17))) (e - - 17) = e - 7) by (unfold fexp, emin; lia). rewrite Hf.
  replace (e - - 17 - (e - 7)) with 24 by lia. rewrite Z.shiftl_mul_pow2 by lia.
  pose proof (Z_div_mod (Z.pos m * 2 ^ 24) 13107200 ltac:(lia)) as Hq. destruct (Z.div_eucl _ _) as [q r]. destruct Hq as [Hq Hr].
  destruct (round_scaled q (e - 7) (new_location 13107200 r)) as (m' & e' & E & H1 & H2 & H3); [lia..|].
  exists m', e'. split; [done|]. split; [lia|]. assert (scaled q (e - 7) * 100 <= scaled (Z.pos m) e); [|lia].
  unfold scaled. replace (e + 100) with (7 + (e - 7 + 100)) by lia. rewrite (Z.pow_add_r 2 7) by lia.
  pose proof (Z.pow_nonneg 2 (e - 7 + 100)). nia.
Qed.
Lemma f32_to_uint_le m e b : - 100 <= e -> 0 <= b < 2 ^ 32 -> scaled (Z.pos m) e <= scaled b 0 -> f32_to_uint (S754_finite false m e) <= b.
Proof.
  intros He Hb H. unfold f32_to_uint, scaled in *. case_if; bool_prop.
  - rewrite (Z.pow_add_r 2 e) in H by lia. pose proof (Z.pow_pos_nonneg 2 e).
    assert (Z.pos m * 2 ^ e <= b) by (apply (Z.mul_le_mono_pos_r _ _ (2 ^ 100)); lia). rewrite u32_small; lia.
  - assert (Hm : Z.pos m / 2 ^ (- e) <= b); [|unfold u32; etransitivity; [apply Z.mod_le; [|lia]|exact Hm]; apply Z.div_pos; [lia|apply Z.pow_pos_nonneg; lia]].
    replace (0 + 100) with (- e + (e + 100)) in H by lia. rewrite (Z.pow_add_r 2 (- e)) in H by lia.
    pose proof (Z.pow_pos_nonneg 2 (- e)). pose proof (Z.pow_pos_nonneg 2 (e + 100)).
    assert (Z.pos m <= b * 2 ^ (- e)) by (apply (Z.mul_le_mono_pos_r _ _ (2 ^ (e + 100))); lia). apply Z.div_le_upper_bound; lia.
Qed.

Section fees.
Context {env : PostEnv}.

(** The cut of a house that takes less than everything stays below the bid. *)
Lemma cut_below_bid a :
  cfg_RateCut = f32 1 -> 0 <= cutPercent (a_house a) < 100 -> 0 <= a_bid a < 2 ^ 32 -> GetAuctionCut a <= a_bid a.
Proof.
  intros Hr Hp Hb. unfold GetAuctionCut. rewrite Hr. set (n := u32 (cutPercent (a_house a) * a_bid a)).
  assert (Hn : 0 <= n < 2 ^ 32 /\ n <= 99 * a_bid a).
  { unfold n. split; [apply u32_range|]. unfold u32. etransitivity; [apply Z.mod_le; nia|nia]. }
  clearbody n. destruct (Z.eq_dec n 0) as [->|Hn0].
  { transitivity 0; [|lia]. by vm_compute. }
  destruct (f32_spec n) as (m0 & e0 & -> & H1 & H2 & V0); [lia|].
  destruct (f32_mul_one m0 e0) as (m1 & e1 & -> & H3 & H4 & V1); [lia..|].
  destruct (f32_div_hundred m1 e1) as (m2 & e2 & -> & H5 & V2); [lia..|].
  apply f32_to_uint_le; [done|done|]. unfold scaled at 2. unfold scaled at 2 in V0. simpl (0 + 100) in *.
  assert (scaled (Z.pos m2) e2 * 2 ^ 23 * 100 * 2 ^ 46 <= (2 ^ 23 + 1) * (2 ^ 23 + 1) * (2 ^ 23 + 1) * (99 * a_bid a) * 2 ^ 100) by nia.
  nia.
Qed.
End fees.

(** Where the gold is: in purses, in letters and at the auction houses.  [flow c]
    holds of a change that adds at most [c] to it and keeps mailboxes and table in
    agreement; the operations of mail and auctions are such changes. *)

(** ** Sums over maps *)
Definition psum {V} (f : V -> Z) (m : gmap Z V) : Z := map_fold (fun _ x n => f x + n) 0 m.

Section psum.
Context {V : Type} (f : V -> Z).
Implicit Types (m : gmap Z V).

Lemma psum_empty : psum f ∅ = 0.
Proof. apply map_fold_empty. Qed.
Lemma psum_new k x m : m !! k = None -> psum f (<[k := x]> m) = f x + psum f m.
Proof. intros H. unfold psum. apply (map_fold_insert_L (fun _ x n => f x + n)); [intros; lia|done]. Qed.
Lemma psum_take k x m : m !! k = Some x -> psum f m = f x + psum f (delete k m).
Proof. intros H. unfold psum. apply (map_fold_delete_L (fun _ x n => f x + n)); [intros; lia|done]. Qed.
Lemma psum_delete k m : psum f (delete k m) = psum f m - from_option f 0 (m !! k).
Proof.
  destruct (m !! k) as [x|] eqn:E; simpl.
  - rewrite (psum_take k x m E). lia.
  - rewrite delete_id by done. lia.
Qed.
Lemma psum_insert k x m : psum f (<[k := x]> m) = psum f m - from_option f 0 (m !! k) + f x.
Proof.
  rewrite <- insert_delete_eq, psum_new by apply lookup_delete_eq. rewrite psum_delete. lia.
Qed.
Lemma psum_alter (h : V -> V) k m :
  psum f (alter h k m) = psum f m + from_option (fun x => f (h x) - f x) 0 (m !! k).
Proof.
  destruct (m !! k) as [x|] eqn:E; simpl.
  - assert (alter h k m = <[k := h x]> m) as ->.
    { apply map_eq. intros k'. destruct (decide (k = k')); by simplify_map_eq. }
    rewrite psum_insert, E. simpl. lia.
  - rewrite alter_id' by done. lia.
Qed.
Lemma psum_nonneg m : (forall k x, m !! k = Some x -> 0 <= f x) -> 0 <= psum f m.
Proof.
  induction m as [|k x m Hk IH] using map_ind; intros H; [rewrite psum_empty; lia|].
  rewrite psum_new by done. pose proof (H k x (lookup_insert_eq _ _ _)).
  assert (0 <= psum f m); [|lia]. apply IH. intros k' x' E. apply (H k').
  rewrite lookup_insert_ne; [done|congruence].
Qed.
End psum.
Lemma psum_fmap {V W} (f : W -> Z) (g : V -> W) m : psum f (g <$> m) = psum (fun x => f (g x)) m.
Proof.
  induction m as [|k x m Hk IH] using map_ind; [by rewrite fmap_empty, !psum_empty|].
  rewrite fmap_insert, !psum_new by (by rewrite ?lookup_fmap, ?Hk). by rewrite IH.
Qed.

(** ** What the gold depends on *)
Definition mail_view (m : Mail) : Z * Z := (ml_messageID m, ml_money m).
Definition player_view (p : PostPlayer) : Z * list (Z * Z) := (pp_money p, mail_view <$> pp_mail p).
Definition row_view (r : MailRow) : Z * bool * Z := (mlr_receiver r, mlr_isDeleted r, mlr_money r).
Definition house_view (o : AuctionHouseObject) : gmap Z (Z * Z * Z * Z * Z) :=
  (fun a => (a_bid a, a_deposit a, a_buyout a, a_Id a, cutPercent (a_house a))) <$> AuctionsMap o.
Record GoldView := mkGV {
  gv_players : gmap Z (Z * list (Z * Z));
  gv_chars : gmap Z Z;
  gv_rows : gmap Z (Z * bool * Z);
  gv_houses : gmap Z (gmap Z (Z * Z * Z * Z * Z));
  gv_ids : Z
}.
Definition gview (w : PW) : GoldView :=
  mkGV (player_view <$> pw_players w) (sc_money <$> pw_chars w) (row_view <$> pw_mail w) (house_view <$> pw_houses w) (pw_mailIds w).

Definition row_worth (r : Z * bool * Z) : Z := let '(_, del, money) := r in if del then 0 else money.
Definition auction_worth (a : Z * Z * Z * Z * Z) : Z := let '(bid, deposit, _, _, _) := a in bid + deposit.
Definition vgold (v : GoldView) : Z :=
  psum fst (gv_players v) + psum id (gv_chars v) + psum row_worth (gv_rows v) + psum (psum auction_worth) (gv_houses v).

(** All the gold: in the purses of players and of characters that are not
    online, in the letters of the table, and in the bids and deposits of the
    running auctions. *)
Definition gold (w : PW) : Z :=
  psum pp_money (pw_players w) + psum sc_money (pw_chars w) +
  psum (fun r => if mlr_isDeleted r then 0 else mlr_money r) (pw_mail w) +
  psum (fun o => psum (fun a => a_bid a + a_deposit a) (AuctionsMap o)) (pw_houses w).
Lemma psum_le {V} (f : V -> Z) m1 m2 :
  (forall k, from_option f 0 (m1 !! k) <= from_option f 0 (m2 !! k)) -> psum f m1 <= psum f m2.
Proof.
  revert m2. induction m1 as [|k x m Hk IH] using map_ind; intros m2 H.
  - rewrite psum_empty. apply psum_nonneg. intros k x E. pose proof (H k) as Hk. by rewrite lookup_empty, E in Hk.
  - rewrite psum_new by done. pose proof (psum_delete f k m2).
    pose proof (H k) as Hx. rewrite lookup_insert_eq in Hx. simpl in Hx.
    assert (psum f m <= psum f (delete k m2)); [|lia]. apply IH. intros k'.
    destruct (decide (k = k')) as [<-|Hne]; [by rewrite lookup_delete_eq, Hk|].
    pose proof (H k') as Hx'. rewrite lookup_insert_ne in Hx' by done. by rewrite lookup_delete_ne.
Qed.
Lemma psum_ext {V} (f g : V -> Z) m : (forall k x, m !! k = Some x -> f x = g x) -> psum f m = psum g m.
Proof.
  induction m as [|k x m Hk IH] using map_ind; intros H; [by rewrite !psum_empty|].
  rewrite !psum_new by done. rewrite (H k x (lookup_insert_eq _ _ _)), IH; [done|].
  intros k' x' E. apply (H k'). rewrite lookup_insert_ne; [done|congruence].
Qed.
Lemma gold_view w : gold w = vgold (gview w).
Proof.
  unfold gold, vgold, gview. simpl. rewrite !psum_fmap. f_equal.
  apply psum_ext. intros k o _. unfold house_view. by rewrite psum_fmap.
Qed.

(** ** Agreement of mailboxes and table *)
Record view_ok (v : GoldView) : Prop := mkViewOk {
  vo_rows : forall id r, gv_rows v !! id = Some r -> 0 <= id < gv_ids v /\ 0 <= snd r < 2 ^ 32;
  vo_players : forall g m l, gv_players v !! g = Some (m, l) -> 0 <= m <= MAX_MONEY_AMOUNT /\ NoDup l.*1;
  vo_box : forall g m l id n, gv_players v !! g = Some (m, l) -> (id, n) ∈ l -> gv_rows v !! id = Some (g, false, n);
  vo_chars : forall g m, gv_chars v !! g = Some m -> 0 <= m <= MAX_MONEY_AMOUNT;
  vo_houses : forall h o id bid deposit buyout id' cut, gv_houses v !! h = Some o -> o !! id = Some (bid, deposit, buyout, id', cut) ->
    id' = id /\ 0 <= bid < 2 ^ 32 /\ 0 <= deposit < 2 ^ 32 /\ 0 <= buyout < 2 ^ 32 /\ (buyout = 0 \/ bid <= buyout) /\ 0 <= cut < 100;
  vo_ids : 0 <= gv_ids v
}.
Definition flow (c : Z) (w w' : PW) : Prop :=
  pw_mailIds w <= pw_mailIds w' /\
  (pw_mailIds w' <= 2 ^ 32 -> view_ok (gview w) -> view_ok (gview w') /\ gold w' <= gold w + c).

Lemma flow_same w w' : gview w' = gview w -> flow 0 w w'.
Proof.
  intros E. split.
  - change (gv_ids (gview w) <= gv_ids (gview w')). by rewrite E.
  - intros _ Hok. rewrite !gold_view, E. split; [done|lia].
Qed.
Lemma flow_refl w : flow 0 w w.
Proof. by apply flow_same. Qed.
Lemma flow_trans a b c w w1 w2 : flow a w w1 -> flow b w1 w2 -> a + b <= c -> flow c w w2.
Proof.
  intros [H1 H1'] [H2 H2'] Hc. split; [lia|]. intros Hm Hok.
  destruct H1' as [Hok1 ?]; [lia|done|]. destruct H2' as [Hok2 ?]; [done..|]. split; [done|lia].
Qed.
Lemma flow_weak a b w w' : flow a w w' -> a <= b -> flow b w w'.
Proof. intros H ?. apply (flow_trans a 0 b w w' w'); [done|apply flow_refl|lia]. Qed.

(** ** Changes the gold does not depend on *)
Lemma fmap_alter_keep {A B} (h : A -> B) (f : A -> A) k (m : gmap Z A) :
  (forall x, m !! k = Some x -> h (f x) = h x) -> h <$> alter f k m = h <$> m.
Proof.
  intros H. apply map_eq. intros k'. rewrite !lookup_fmap, lookup_alter. case_decide; [|done]. subst.
  destruct (m !! k') as [x|] eqn:E; [|done]. simpl. by rewrite H.
Qed.
Lemma gview_upd_pp g f w :
  (forall p, pw_players w !! g = Some p -> player_view (f p) = player_view p) -> gview (upd_pp g f w) = gview w.
Proof. intros H. unfold gview. simpl. by rewrite fmap_alter_keep. Qed.
Lemma gview_sql_mail id f w : (forall r, row_view (f r) = row_view r) -> gview (sql_mail id f w) = gview w.
Proof. intros H. unfold gview. simpl. by rewrite fmap_alter_keep. Qed.
Lemma gview_foldl {A} (f : PW -> A -> PW) l w : (forall w x, gview (f w x) = gview w) -> gview (foldl f w l) = gview w.
Proof. apply foldl_keep. Qed.
Lemma view_upd_mail id f p :
  (forall m, ml_messageID m = id -> mail_view (f m) = mail_view m) -> player_view (upd_mail id f p) = player_view p.
Proof.
  intros H. unfold player_view. simpl. f_equal. rewrite <- list_fmap_compose. apply list_fmap_ext.
  intros i m _. simpl. case_if; [|done]. apply H. lia.
Qed.
Lemma gview_Item_SaveToDB it w : gview (Item_SaveToDB it w) = gview w.
Proof. unfold Item_SaveToDB. by destruct (pi_state it). Qed.
Lemma view_AddMItems its p : player_view (foldl (fun p it => AddMItem it p) p its) = player_view p.
Proof. by apply foldl_keep. Qed.
Lemma view_RemoveMItems {A} (f : A -> Z) l p : player_view (foldl (fun p i => RemoveMItem (f i) p) p l) = player_view p.
Proof. by apply foldl_keep. Qed.

(** Only the tables of items and texts change. *)
Lemma gview_MailDraft_text subject text w : gview (snd (MailDraft_text subject text w)) = gview w.
Proof. unfold MailDraft_text. by case_if. Qed.
Lemma gview_return_item receiver w it : gview (return_item receiver w it) = gview w.
Proof. transitivity (gview (Item_SaveToDB it w)); [done|apply gview_Item_SaveToDB]. Qed.
Lemma gview_SaveInventoryAndGoldToDB g w : gview (SaveInventoryAndGoldToDB g w) = gview w.
Proof.
  unfold SaveInventoryAndGoldToDB. destruct (pw_players w !! g); [|done].
  rewrite gview_upd_pp by done. rewrite gview_foldl by done. rewrite gview_foldl; [done|].
  intros. apply gview_Item_SaveToDB.
Qed.
Lemma gview_AddNewMailDeliverTime g t w : gview (AddNewMailDeliverTime g t w) = gview w.
Proof.
  unfold AddNewMailDeliverTime. case_if; [apply gview_upd_pp; done|]. apply gview_upd_pp. intros p _. by case_if.
Qed.

(** ** Purses *)
(** [ModifyMoney] adds, within 0 and the maximum, up to the maximum. *)
Lemma coinage_exact d m : - 2 ^ 31 <= d <= MAX_MONEY_AMOUNT -> 0 <= m <= MAX_MONEY_AMOUNT ->
  coinage d m = Z.min MAX_MONEY_AMOUNT (Z.max 0 (m + d)).
Proof.
  unfold coinage, MAX_MONEY_AMOUNT. intros ??. destruct (Z.ltb_spec d 0).
  - rewrite (u32_small (- d)) by lia. destruct (Z.ltb_spec (- d) m); [rewrite u32_small|]; lia.
  - rewrite (u32_small (2147483646 - d)) by lia.
    destruct (Z.ltb_spec m (2147483646 - d)); [rewrite u32_small|]; lia.
Qed.
Lemma coinage_pay d m : 0 <= d <= m -> m <= MAX_MONEY_AMOUNT -> coinage (i32 (- d)) m = m - d.
Proof. unfold MAX_MONEY_AMOUNT. intros ??. rewrite i32_small by lia. rewrite coinage_exact; unfold MAX_MONEY_AMOUNT; lia. Qed.
Lemma coinage_earn d m : 0 <= d <= MAX_MONEY_AMOUNT -> 0 <= m <= MAX_MONEY_AMOUNT ->
  coinage (i32 d) m = Z.min MAX_MONEY_AMOUNT (m + d).
Proof. unfold MAX_MONEY_AMOUNT. intros ??. rewrite i32_small by lia. rewrite coinage_exact; unfold MAX_MONEY_AMOUNT; lia. Qed.

(** A purse is changed: the rest of the view stays. *)
Lemma flow_purse g p f w c :
  pw_players w !! g = Some p -> mail_view <$> pp_mail (f p) = mail_view <$> pp_mail p ->
  (0 <= pp_money p <= MAX_MONEY_AMOUNT -> 0 <= pp_money (f p) <= MAX_MONEY_AMOUNT /\ pp_money (f p) <= pp_money p + c) ->
  flow c w (upd_pp g f w).
Proof.
  intros Hp Hbox Hm. split; [done|]. intros _ Hok.
  assert (Hv : gv_players (gview w) !! g = Some (player_view p)) by (simpl; by rewrite lookup_fmap, Hp).
  assert (Hpl : gv_players (gview (upd_pp g f w)) = <[g := (pp_money (f p), (mail_view <$> pp_mail p))]> (gv_players (gview w))).
  { simpl. rewrite <- Hbox. change (pp_money (f p), mail_view <$> pp_mail (f p)) with (player_view (f p)).
    rewrite <- fmap_insert. f_equal. apply map_eq. intros k. destruct (decide (g = k)); by simplify_map_eq. }
  destruct (vo_players _ Hok g _ _ Hv) as [Hr Hn]. destruct (Hm Hr) as [Hr' Hc]. split.
  - split; try apply Hok.
    + intros g' m l. rewrite Hpl. rewrite lookup_insert. case_decide; [intros [= <- <-]; done|]. apply (vo_players _ Hok).
    + intros g' m l id n. rewrite Hpl, lookup_insert. case_decide; [|apply (vo_box _ Hok)].
      intros [= <- <-]. subst. apply (vo_box _ Hok _ _ _ _ _ Hv).
  - rewrite !gold_view. unfold vgold. rewrite Hpl, psum_insert, Hv. simpl. lia.
Qed.
Lemma flow_pay g p d w :
  pw_players w !! g = Some p -> 0 <= d <= pp_money p -> flow (- d) w (upd_pp g (pp_ModifyMoney (i32 (- d))) w).
Proof. intros Hp Hd. eapply flow_purse; [done..|]. intros ?. simpl. rewrite coinage_pay by lia. lia. Qed.
Lemma flow_earn g p d w :
  pw_players w !! g = Some p -> 0 <= d <= MAX_MONEY_AMOUNT -> flow d w (upd_pp g (pp_ModifyMoney (i32 d)) w).
Proof. intros Hp Hd. eapply flow_purse; [done..|]. intros ?. simpl. rewrite coinage_earn by lia. lia. Qed.

(** ** Letters *)
Definition put_letter (id n : Z) (pl : Z * list (Z * Z)) : Z * list (Z * Z) := (fst pl, (id, n) :: snd pl).
Definition gview_send (to n : Z) (v : GoldView) : GoldView :=
  let id := u32 (gv_ids v) in
  mkGV (alter (put_letter id n) to (gv_players v)) (gv_chars v) (insert_row id (to, false, n) (gv_rows v)) (gv_houses v) (gv_ids v + 1).
Lemma fmap_alter_view {A B} (h : A -> B) (f : A -> A) (f' : B -> B) k (m : gmap Z A) :
  (forall x, h (f x) = f' (h x)) -> h <$> alter f k m = alter f' k (h <$> m).
Proof.
  intros H. apply map_eq. intros k'. rewrite lookup_fmap, !lookup_alter. case_decide; subst; rewrite lookup_fmap; [|done].
  destruct (m !! k'); simpl; [by rewrite H|done].
Qed.
Lemma mail_of_view id d to sn c t e : mail_view (mail_of id d to sn c t e) = (id, d_money d).
Proof. unfold mail_of. rewrite (foldl_keep mail_view); done. Qed.
Lemma gview_SendMailTo d to sn c dd ed w :
  d_returnSourceMailId d = 0 -> gview (SendMailTo d to sn c dd ed w) = gview_send to (d_money d) (gview w).
Proof.
  intros Hr. unfold SendMailTo. rewrite Hr. simpl.
  set (id := u32 (pw_mailIds w)). set (t := pw_time w + dd). set (e := t + expire_delay_of d sn ed).
  set (w1 := foldl _ _ (draft_items d)).
  assert (Hw1 : gview w1 = mkGV (player_view <$> pw_players w) (sc_money <$> pw_chars w)
    (insert_row id (to, false, d_money d) (row_view <$> pw_mail w)) (house_view <$> pw_houses w) (pw_mailIds w + 1)).
  { unfold w1. rewrite gview_foldl by done. unfold gview. simpl. f_equal. by rewrite fmap_insert_row. }
  assert (Hpl : pw_players w1 = pw_players w).
  { unfold w1. rewrite (foldl_keep pw_players); done. }
  unfold FindMasterPlayer. rewrite Hpl. unfold gview_send. destruct (pw_players w !! to) as [p|] eqn:Hp.
  - assert (Ht : gview (upd_pp to (fun p => foldl (fun p it => AddMItem it p) (AddMail (mail_of id d to sn c t e) p) (draft_items d))
      (AddNewMailDeliverTime to t w1)) = let v := gview (AddNewMailDeliverTime to t w1) in
        mkGV (alter (put_letter id (d_money d)) to (gv_players v)) (gv_chars v) (gv_rows v) (gv_houses v) (gv_ids v)).
    { unfold gview. simpl. f_equal. apply fmap_alter_view. intros q. rewrite view_AddMItems. unfold player_view, put_letter. simpl.
      by rewrite mail_of_view. }
    rewrite Ht, gview_AddNewMailDeliverTime, Hw1. done.
  - rewrite Hw1. simpl. f_equal. symmetry. apply alter_id'. by rewrite lookup_fmap, Hp.
Qed.

Lemma elem_of_fst (id : Z) (l : list (Z * Z)) : id ∈ l.*1 -> exists n, (id, n) ∈ l.
Proof. intros [[id' n'] [-> ?]]%list_elem_of_fmap. by exists n'. Qed.
Lemma flow_send to n w w' : 0 <= n < 2 ^ 32 -> gview w' = gview_send to n (gview w) -> flow n w w'.
Proof.
  intros Hn Hv. split.
  { change (gv_ids (gview w) <= gv_ids (gview w')). rewrite Hv. simpl. lia. }
  intros Hm Hok. change (gv_ids (gview w') <= 2 ^ 32) in Hm. rewrite !gold_view, Hv. rewrite Hv in Hm. change (gv_ids (gview w) + 1 <= 2 ^ 32) in Hm.
  revert Hm Hok. generalize (gview w). intros v Hm Hok. pose proof (vo_ids _ Hok).
  unfold gview_send. rewrite u32_small by lia.
  assert (Hfresh : gv_rows v !! gv_ids v = None).
  { destruct (gv_rows v !! gv_ids v) eqn:E; [|done]. apply (vo_rows _ Hok) in E. lia. }
  unfold insert_row. rewrite Hfresh. split.
  - split; simpl; try (by apply Hok).
    + intros id r. rewrite lookup_insert. case_decide; [intros [= <-]; simpl; lia|]. intros ?%(vo_rows _ Hok). lia.
    + intros g m l. rewrite lookup_alter. case_decide; [|apply (vo_players _ Hok)]. subst.
      destruct (gv_players v !! g) as [[m' l']|] eqn:E; [|done]. intros [= <- <-]. simpl.
      destruct (vo_players _ Hok _ _ _ E). split; [done|]. constructor; [|done].
      intros [n' Hin]%elem_of_fst. by rewrite (vo_box _ Hok _ _ _ _ _ E Hin) in Hfresh.
    + intros g m l id n'. rewrite lookup_alter. case_decide.
      * subst. destruct (gv_players v !! g) as [[m' l']|] eqn:E; [|done]. intros [= <- <-]. simpl.
        intros [[= -> ->]|Hin]%elem_of_cons; [by rewrite lookup_insert_eq|].
        rewrite lookup_insert_ne; [by eapply (vo_box _ Hok)|]. intros <-. by rewrite (vo_box _ Hok _ _ _ _ _ E Hin) in Hfresh.
      * intros E Hin. rewrite lookup_insert_ne; [by eapply (vo_box _ Hok)|]. intros <-.
        by rewrite (vo_box _ Hok _ _ _ _ _ E Hin) in Hfresh.
    + lia.
  - unfold vgold. simpl. rewrite psum_new by done. rewrite psum_alter. simpl.
    destruct (gv_players v !! to) as [[m' l']|]; simpl; lia.
Qed.
Lemma flow_SendMailTo d to sn c dd ed w :
  d_returnSourceMailId d = 0 -> 0 <= d_money d < 2 ^ 32 -> flow (d_money d) w (SendMailTo d to sn c dd ed w).
Proof. intros ??. apply (flow_send to); [done|]. by apply gview_SendMailTo. Qed.

(** The table changes, in favour of nobody, and no mailbox notices. *)
Lemma flow_rows w w' :
  pw_players w' = pw_players w -> pw_chars w' = pw_chars w -> pw_houses w' = pw_houses w -> pw_mailIds w' = pw_mailIds w ->
  (forall id r', pw_mail w' !! id = Some r' -> exists r, pw_mail w !! id = Some r /\
     row_worth (row_view r') <= row_worth (row_view r) /\ 0 <= mlr_money r' <= mlr_money r) ->
  (forall g p id n r, pw_players w !! g = Some p -> (id, n) ∈ mail_view <$> pp_mail p -> pw_mail w !! id = Some r ->
     row_view r = (g, false, n) -> row_view <$> pw_mail w' !! id = Some (g, false, n)) ->
  flow 0 w w'.
Proof.
  intros Hp Hc Hh Hi Hr Hb. split; [lia|]. intros _ Hok. split.
  - split; simpl; rewrite ?Hp, ?Hc, ?Hh, ?Hi; try (by apply Hok).
    + intros id r. rewrite lookup_fmap. destruct (pw_mail w' !! id) as [r'|] eqn:E; [|done]. intros [= <-].
      apply Hr in E as (r & E & _ & ?). destruct (vo_rows _ Hok id (row_view r)) as [? ?]; [simpl; by rewrite lookup_fmap, E|].
      simpl in *. lia.
    + intros g m l id n Hg Hin. rewrite lookup_fmap in Hg. destruct (pw_players w !! g) as [p|] eqn:E; [|done].
      injection Hg as <- <-. pose proof (vo_box _ Hok g _ _ id n ltac:(simpl; by rewrite lookup_fmap, E) Hin) as Hrow.
      simpl in Hrow. rewrite lookup_fmap in Hrow |- *. destruct (pw_mail w !! id) as [r|] eqn:Er; [|done].
      apply (Hb g p id n r E Hin Er). simpl in Hrow. congruence.
  - rewrite !gold_view. unfold vgold, gview. simpl. rewrite Hp, Hc, Hh.
    enough (psum row_worth (row_view <$> pw_mail w') <= psum row_worth (row_view <$> pw_mail w)) by lia.
    apply psum_le. intros id. rewrite !lookup_fmap. destruct (pw_mail w' !! id) as [r'|] eqn:E.
    + apply Hr in E as (r & -> & ? & _). done.
    + simpl. destruct (pw_mail w !! id) as [r|] eqn:Er; simpl; [|lia].
      destruct (vo_rows _ Hok id (row_view r)) as [? ?]; [simpl; by rewrite lookup_fmap, Er|].
      simpl in *. destruct (mlr_isDeleted r); lia.
Qed.

(** ** Saving the mailbox *)
Definition save_row (m : Mail) (r : MailRow) : MailRow :=
  match ml_state m with
  | MAIL_STATE_CHANGED => save_changed m r
  | MAIL_STATE_DELETED => set_mlr_isDeleted true r
  | MAIL_STATE_UNCHANGED => r
  end.
Lemma save_mail_rows m w : pw_mail (save_mail w m) = alter (save_row m) (ml_messageID m) (pw_mail w).
Proof.
  unfold save_mail, save_row. destruct (ml_state m).
  - apply map_eq. intros k. rewrite lookup_alter. case_decide; [|done]. subst. by destruct (pw_mail w !! _).
  - rewrite (foldl_keep pw_mail); done.
  - unfold delete_mail_items, soft_delete, sql_mail. simpl. f_equal.
    repeat case_if; simpl; rewrite ?(foldl_keep pw_mail); done.
Qed.
Definition letter_of (l : list Mail) (id : Z) : option Mail := List.find (fun m => ml_messageID m =? id) l.
Lemma letter_of_elem l id m : letter_of l id = Some m -> m ∈ l /\ ml_messageID m = id.
Proof. unfold letter_of. intros H%List.find_some. rewrite list_elem_of_In. destruct H. split; [done|lia]. Qed.
Lemma letter_of_unique l m : NoDup (ml_messageID <$> l) -> m ∈ l -> letter_of l (ml_messageID m) = Some m.
Proof.
  unfold letter_of. induction l as [|x l IH]; intros Hn Hin; [by apply elem_of_nil in Hin|]. simpl.
  apply NoDup_cons in Hn as [Hx Hn]. apply elem_of_cons in Hin as [<-|Hin]; [by rewrite Z.eqb_refl|].
  case_if; [|by apply IH]. bool_prop. destruct Hx. replace (ml_messageID x) with (ml_messageID m) by done.
  by apply list_elem_of_fmap_2.
Qed.
Lemma save_mails_rows l w k : NoDup (ml_messageID <$> l) ->
  pw_mail (foldl save_mail w l) !! k =
  match letter_of l k with Some m => save_row m <$> pw_mail w !! k | None => pw_mail w !! k end.
Proof.
  revert w. induction l as [|m l IH]; intros w; [done|]. rewrite fmap_cons, NoDup_cons. intros [Hm Hn]. simpl.
  rewrite IH by done. rewrite save_mail_rows, lookup_alter.
  destruct (Z.eqb_spec (ml_messageID m) k) as [<-|Hne]; [|by case_decide].
  rewrite decide_True by done. destruct (letter_of l (ml_messageID m)) as [m'|] eqn:E; [|done].
  apply letter_of_elem in E as [Hin Heq]. destruct Hm. rewrite <- Heq. by apply list_elem_of_fmap_2.
Qed.

Lemma lookup_gvp w g : gv_players (gview w) !! g = player_view <$> pw_players w !! g.
Proof. apply lookup_fmap. Qed.
Lemma lookup_gvr w id : gv_rows (gview w) !! id = row_view <$> pw_mail w !! id.
Proof. apply lookup_fmap. Qed.

(** A mailbox forgets letters. *)
Lemma lookup_view (w : PW) g p : pw_players w !! g = Some p -> gv_players (gview w) !! g = Some (player_view p).
Proof. intros E. simpl. by rewrite lookup_fmap, E. Qed.
Lemma letters_row w g p m : view_ok (gview w) -> pw_players w !! g = Some p -> m ∈ pp_mail p ->
  exists r, pw_mail w !! ml_messageID m = Some r /\ row_view r = (g, false, ml_money m).
Proof.
  intros Hok Hp Hm. pose proof (vo_box _ Hok g _ _ (ml_messageID m) (ml_money m) (lookup_view _ _ _ Hp)) as Hb.
  simpl in Hb. rewrite lookup_fmap in Hb. destruct (pw_mail w !! ml_messageID m) as [r|].
  - exists r. split; [done|]. specialize (Hb (list_elem_of_fmap_2 mail_view _ _ Hm)). simpl in Hb. congruence.
  - discriminate (Hb (list_elem_of_fmap_2 mail_view _ _ Hm)).
Qed.
Lemma letters_distinct w g p : view_ok (gview w) -> pw_players w !! g = Some p -> NoDup (ml_messageID <$> pp_mail p).
Proof.
  intros Hok Hp. destruct (vo_players _ Hok g _ _ (lookup_view _ _ _ Hp)) as [_ H].
  by rewrite <- list_fmap_compose in H.
Qed.
Lemma flow_box g f w :
  (forall p, pw_players w !! g = Some p -> pp_money (f p) = pp_money p /\ mail_view <$> pp_mail (f p) `sublist_of` mail_view <$> pp_mail p) ->
  flow 0 w (upd_pp g f w).
Proof.
  intros Hf. destruct (pw_players w !! g) as [p|] eqn:Hp.
  2:{ apply flow_same. unfold gview. simpl. f_equal. f_equal. by apply alter_id'. }
  destruct (Hf p eq_refl) as [Hm Hs]. split; [done|]. intros _ Hok.
  pose proof (lookup_view _ _ _ Hp) as Hv.
  assert (Hpl : gv_players (gview (upd_pp g f w)) = <[g := player_view (f p)]> (gv_players (gview w))).
  { simpl. rewrite <- fmap_insert. f_equal. apply map_eq. intros k. destruct (decide (g = k)); by simplify_map_eq. }
  destruct (vo_players _ Hok g _ _ Hv) as [Hr Hn]. split.
  - split; try apply Hok.
    + intros g' m l. rewrite Hpl, lookup_insert. case_decide; [|apply (vo_players _ Hok)]. intros [= <- <-]. split; [by rewrite Hm|].
      eapply sublist_NoDup; [exact Hn|]. by apply fmap_sublist.
    + intros g' m l id n. rewrite Hpl, lookup_insert. case_decide; [|apply (vo_box _ Hok)].
      intros [= <- <-] Hin. subst. apply (vo_box _ Hok _ _ _ _ _ Hv). simpl. by eapply elem_of_sublist.
  - rewrite !gold_view. unfold vgold. rewrite Hpl, psum_insert, Hv. simpl. rewrite Hm. lia.
Qed.
Lemma view_saved (l : list Mail) : mail_view <$> (saved_mail <$> l) = mail_view <$> l.
Proof.
  rewrite <- list_fmap_compose. apply list_fmap_ext. intros i m _. simpl. unfold saved_mail. by case_decide.
Qed.
Lemma sublist_list_filter {A} (f : A -> bool) l : List.filter f l `sublist_of` l.
Proof. induction l as [|x l IH]; simpl; [done|]. case_if; by constructor. Qed.
Lemma row_worth_nonneg w id r : view_ok (gview w) -> pw_mail w !! id = Some r -> 0 <= mlr_money r < 2 ^ 32.
Proof. intros Hok E. apply (vo_rows _ Hok id (row_view r)). simpl. by rewrite lookup_fmap, E. Qed.
Lemma save_mails_keep l w :
  let w' := foldl save_mail w l in
  pw_players w' = pw_players w /\ pw_chars w' = pw_chars w /\ pw_houses w' = pw_houses w /\ pw_mailIds w' = pw_mailIds w.
Proof.
  set (F := fun w => (pw_players w, pw_chars w, pw_houses w, pw_mailIds w)).
  assert (H : forall w m, F (save_mail w m) = F w).
  { intros v m. unfold save_mail. destruct (ml_state m); [done| |].
    - by rewrite (foldl_keep F).
    - repeat case_if; try done; transitivity (F (foldl (fun w i => delete_item_row (mi_guid i) w) v (ml_items m)));
        try done; by rewrite (foldl_keep F). }
  pose proof (foldl_keep F save_mail l w H) as E. simpl. unfold F in E. by injection E as -> -> -> ->.
Qed.
Lemma SaveMails_ids g w : pw_mailIds (SaveMails g w) = pw_mailIds w.
Proof.
  unfold SaveMails. destruct (pw_players w !! g) as [p|]; [|done]. case_if; [done|].
  apply (save_mails_keep (pp_mail p) w).
Qed.
Lemma flow_SaveMails g w : flow 0 w (SaveMails g w).
Proof.
  unfold SaveMails. destruct (pw_players w !! g) as [p|] eqn:Hp; [|apply flow_refl]. case_if; [apply flow_refl|].
  set (f := fun p => set_pp_mailsUpdated false (set_pp_mail (saved_mail <$> List.filter kept_mail (pp_mail p)) p)).
  destruct (save_mails_keep (pp_mail p) w) as (Kp & Kc & Kh & Ki). split; [by rewrite <- Ki|].
  intros Hm Hok. pose proof (letters_distinct _ _ _ Hok Hp) as Hn.
  pose proof (save_mails_rows (pp_mail p) w) as Krow.
  set (w1 := foldl save_mail w (pp_mail p)) in *.
  assert (F1 : flow 0 w (upd_pp g f w)).
  { apply flow_box. intros q _. split; [done|]. simpl. rewrite view_saved. apply fmap_sublist, sublist_list_filter. }
  assert (F2 : flow 0 (upd_pp g f w) (upd_pp g f w1)).
  { apply flow_rows; try done; [by simpl; rewrite Kp| |].
    - simpl. intros id r'. rewrite Krow by done. destruct (letter_of (pp_mail p) id) as [m|] eqn:Em.
      + apply letter_of_elem in Em as [Hin <-]. destruct (letters_row _ _ _ _ Hok Hp Hin) as (r & Er & Hv).
        pose proof (row_worth_nonneg _ _ _ Hok Er) as Hw. injection Hv as _ Hd Hmon. rewrite Er. intros [= <-]. exists r.
        split; [done|]. unfold save_row. destruct (ml_state m); simpl; rewrite Hd; lia.
      + intros Er. exists r'. pose proof (row_worth_nonneg _ _ _ Hok Er). split; [done|]. lia.
    - simpl. intros g' q id n r Hq Hin Er Hv. rewrite Krow by done.
      destruct (letter_of (pp_mail p) id) as [m|] eqn:Em; [|by rewrite Er; simpl; f_equal].
      apply letter_of_elem in Em as [Hmin <-]. destruct (letters_row _ _ _ _ Hok Hp Hmin) as (r0 & Er0 & Hv0).
      assert (r0 = r) as -> by congruence. rewrite Er. simpl. assert (g' = g /\ n = ml_money m) as [-> ->] by (split; congruence).
      rewrite lookup_alter_eq, Hp in Hq. injection Hq as <-. simpl in Hin. rewrite view_saved in Hin.
      apply list_elem_of_fmap in Hin as (m' & [= Hid Hmon] & Hin'). apply list_elem_of_In, List.filter_In in Hin' as [Hin' Hk].
      apply list_elem_of_In in Hin'. pose proof (letter_of_unique _ _ Hn Hin') as E1. pose proof (letter_of_unique _ _ Hn Hmin) as E2.
      rewrite <- Hid, E2 in E1. injection E1 as ->. f_equal. unfold save_row. unfold kept_mail in Hk.
      destruct (ml_state m'); [done| |by rewrite bool_decide_true in Hk].
      unfold row_view in Hv |- *. simpl. congruence. }
  destruct (flow_trans _ _ 0 _ _ _ F1 F2) as [_ H]; [lia|]. by apply H.
Qed.

(** ** Taking the gold of a letter *)
Definition zero_letter (m : Mail) : Mail := set_ml_state MAIL_STATE_CHANGED (set_ml_money 0 m).
Lemma GetMail_elem p id m : GetMail p id = Some m -> m ∈ pp_mail p /\ ml_messageID m = id.
Proof. apply letter_of_elem. Qed.
Lemma upd_mail_ids id f p : (forall m, ml_messageID (f m) = ml_messageID m) -> ml_messageID <$> pp_mail (upd_mail id f p) = ml_messageID <$> pp_mail p.
Proof. intros H. simpl. rewrite <- list_fmap_compose. apply list_fmap_ext. intros i m _. simpl. case_if; [apply H|done]. Qed.
Lemma elem_of_upd_mail id f p m : m ∈ pp_mail (upd_mail id f p) ->
  exists m0, m0 ∈ pp_mail p /\ m = if ml_messageID m0 =? id then f m0 else m0.
Proof. simpl. intros (m0 & -> & ?)%list_elem_of_fmap. by exists m0. Qed.
Lemma flow_zero me p id m w :
  pw_players w !! me = Some p -> GetMail p id = Some m ->
  flow (- ml_money m) w (change_mail me id zero_letter (sql_mail id (set_mlr_money 0) w)).
Proof.
  intros Hp [Hm <-]%GetMail_elem. split; [done|]. intros _ Hok.
  destruct (letters_row _ _ _ _ Hok Hp Hm) as (r & Er & Hv). pose proof (row_worth_nonneg _ _ _ Hok Er) as Hw.
  set (id := ml_messageID m) in *. set (w' := change_mail _ _ _ _).
  assert (Hpl : forall g q, pw_players w' !! g = Some q -> exists q0, pw_players w !! g = Some q0 /\ pp_money q = pp_money q0 /\
    ml_messageID <$> pp_mail q = ml_messageID <$> pp_mail q0 /\
    forall x, x ∈ pp_mail q -> exists x0, x0 ∈ pp_mail q0 /\ x = if bool_decide (g = me) && (ml_messageID x0 =? id) then zero_letter x0 else x0).
  { intros g q. simpl. rewrite lookup_alter. case_decide as Hg.
    - subst. rewrite Hp. intros [= <-]. exists p. split; [done|]. split; [done|]. split; [by apply upd_mail_ids|].
      intros x (x0 & Hx0 & ->)%elem_of_upd_mail. exists x0. by rewrite bool_decide_true.
    - intros E. exists q. repeat (split; [done|]). intros x Hx. exists x. by rewrite bool_decide_false by congruence. }
  assert (Hnew : gv_rows (gview w') !! id = Some (me, false, 0)).
  { rewrite lookup_gvr. simpl. rewrite lookup_alter_eq, Er. simpl. unfold row_view in *. simpl. congruence. }
  assert (Hold : forall k, k <> id -> gv_rows (gview w') !! k = gv_rows (gview w) !! k).
  { intros k Hk. rewrite !lookup_gvr. simpl. by rewrite lookup_alter_ne. }
  split.
  - split; try apply Hok.
    + intros k x. destruct (decide (k = id)) as [->|Hk]; [|rewrite Hold by done; apply (vo_rows _ Hok)].
      rewrite Hnew. intros [= <-]. split; [|simpl; lia]. apply (vo_rows _ Hok id (row_view r)). simpl. by rewrite lookup_fmap, Er.
    + intros g money l. rewrite lookup_gvp. destruct (pw_players w' !! g) as [q|] eqn:Eq; [|done].
      apply Hpl in Eq as (q0 & E0 & Hmon & Hids & _). intros [= <- <-].
      destruct (vo_players _ Hok g _ _ (lookup_view _ _ _ E0)) as [? Hn]. rewrite Hmon. split; [done|].
      rewrite <- list_fmap_compose in Hn |- *. change (NoDup (ml_messageID <$> pp_mail q)). by rewrite Hids.
    + intros g money l k n. rewrite lookup_gvp. destruct (pw_players w' !! g) as [q|] eqn:Eq; [|done].
      apply Hpl in Eq as (q0 & E0 & _ & _ & Hx). intros [= <- <-] (x & [= -> ->] & Hin)%list_elem_of_fmap.
      apply Hx in Hin as (x0 & Hin0 & ->). destruct (letters_row _ _ _ _ Hok E0 Hin0) as (r0 & Er0 & Hv0).
      case_if.
      * apply andb_true_iff in Heqb as [Hg Hi]. bool_prop. subst g. simpl. by rewrite Hi.
      * destruct (decide (ml_messageID x0 = id)) as [Hi|Hi].
        -- exfalso. assert (g = me) as -> by (rewrite Hi in Er0; congruence). by rewrite bool_decide_true, Hi, Z.eqb_refl in Heqb.
        -- rewrite Hold by done. rewrite lookup_gvr, Er0. simpl. by f_equal.
  - rewrite !gold_view. unfold vgold.
    assert (psum row_worth (gv_rows (gview w')) = psum row_worth (gv_rows (gview w)) - ml_money m) as ->.
    { simpl. rewrite (fmap_alter_view row_view _ (fun r => (fst r, 0))) by done. rewrite psum_alter, lookup_fmap, Er. simpl.
      injection Hv as _ -> ->. simpl. lia. }
    assert (psum fst (gv_players (gview w')) <= psum fst (gv_players (gview w))) as ?; [|change (gv_chars (gview w')) with (gv_chars (gview w)); change (gv_houses (gview w')) with (gv_houses (gview w)); lia].
    apply psum_le. intros g. rewrite !lookup_gvp. destruct (pw_players w' !! g) as [q|] eqn:Eq; simpl.
    + apply Hpl in Eq as (q0 & -> & Hmon & _). simpl. lia.
    + destruct (pw_players w !! g) as [q0|] eqn:E0; simpl; [|lia].
      destruct (vo_players _ Hok g _ _ (lookup_view _ _ _ E0)). lia.
Qed.
Lemma flow_take me p id m w :
  pw_players w !! me = Some p -> GetMail p id = Some m ->
  flow (- ml_money m) w (SaveMails me (change_mail me id zero_letter w)).
Proof.
  intros Hp Hg. pose proof (flow_zero _ _ _ _ _ Hp Hg) as F. pose proof (flow_SaveMails me (change_mail me id zero_letter (sql_mail id (set_mlr_money 0) w))) as F'.
  assert (flow (- ml_money m) w (SaveMails me (change_mail me id zero_letter (sql_mail id (set_mlr_money 0) w)))) as [H1 H2]
    by (eapply flow_trans; [exact F|exact F'|lia]). clear F F'.
  enough (forall (Hn : NoDup (ml_messageID <$> pp_mail p)), gview (SaveMails me (change_mail me id zero_letter w)) =
    gview (SaveMails me (change_mail me id zero_letter (sql_mail id (set_mlr_money 0) w)))) as E.
  { split.
    - by rewrite SaveMails_ids.
    - intros Hm Hok. pose proof (E (letters_distinct _ _ _ Hok Hp)) as E'. rewrite !gold_view, E' in *. apply H2; [|done].
      change (gv_ids (gview (SaveMails me (change_mail me id zero_letter (sql_mail id (set_mlr_money 0) w)))) <= 2 ^ 32). by rewrite <- E'. }
  intros Hn. unfold SaveMails, change_mail. simpl. rewrite lookup_alter_eq, Hp. simpl.
  set (l := (fun m0 => if _ =? id then _ else _) <$> pp_mail p).
  set (wa := upd_pp _ _ w). set (wb := upd_pp _ _ (sql_mail _ _ w)).
  destruct (save_mails_keep l wa) as (Ka1 & Ka2 & Ka3 & Ka4). destruct (save_mails_keep l wb) as (Kb1 & Kb2 & Kb3 & Kb4).
  assert (Hl : NoDup (ml_messageID <$> l)) by (change l with (pp_mail (upd_mail id zero_letter p)); by rewrite upd_mail_ids).
  unfold gview, upd_pp. simpl. rewrite Ka1, Ka2, Ka3, Ka4, Kb1, Kb2, Kb3, Kb4. f_equal.
  apply map_eq. intros k. rewrite !lookup_fmap, !save_mails_rows by done. simpl.
  destruct (decide (id = k)) as [<-|Hne]; [|by rewrite lookup_alter_ne].
  rewrite lookup_alter_eq. destruct (letter_of l id) as [x|] eqn:Ex.
  - apply letter_of_elem in Ex as [Hx Hid]. unfold l in Hx. apply list_elem_of_fmap in Hx as (x0 & -> & _).
    destruct (Z.eqb_spec (ml_messageID x0) id); [|done]. by destruct (pw_mail w !! id).
  - exfalso. apply GetMail_elem in Hg as [Hin Hid]. assert (Hin' : zero_letter m ∈ l).
    { unfold l. apply list_elem_of_fmap. exists m. split; [|done]. by rewrite Hid, Z.eqb_refl. }
    apply (letter_of_unique _ _ Hl) in Hin'. simpl in Hin'. congruence.
Qed.
