(* ===== verification/PostGoldSteps.v ===== *)
(** The operations of mail and auctions as flows of gold: the parts they are made
    of, the opcodes, and all of them together. *)

From Stdlib Require Import Floats.SpecFloat.
From S2P Require Import Prelude CString GuildBankTypes GuildBankItems PostTypes Mail MailHandlers Auction AuctionHandlers PostSteps PostGold.

(** ** Letters that go *)
Lemma flow_soft_delete id w :
  (forall g p, pw_players w !! g = Some p -> id ∉ ml_messageID <$> pp_mail p) ->
  flow (- from_option (fun r => row_worth (row_view r)) 0 (pw_mail w !! id)) w (delete_mail_items id (soft_delete id w)).
Proof.
  intros Hno. split; [apply Z.le_refl|]. intros Hm Hok. set (w' := delete_mail_items id (soft_delete id w)).
  assert (Hrow : forall k, pw_mail w' !! k = if decide (id = k) then set_mlr_isDeleted true <$> pw_mail w !! k else pw_mail w !! k).
  { intros k. simpl. rewrite lookup_alter. case_decide; by subst. }
  assert (F : flow 0 w w').
  { apply flow_rows; try done.
    - intros k r'. rewrite Hrow. case_decide.
      + destruct (pw_mail w !! k) as [r|] eqn:E; [|done]. intros [= <-]. exists r.
        pose proof (row_worth_nonneg _ _ _ Hok E). split; [done|]. simpl. destruct (mlr_isDeleted r); lia.
      + intros E. exists r'. pose proof (row_worth_nonneg _ _ _ Hok E). split; [done|]. lia.
    - intros g p k n r Hp Hin Er Hv. rewrite Hrow, Er. rewrite decide_False; [simpl; by f_equal|].
      intros <-. destruct (Hno g p Hp). apply list_elem_of_fmap in Hin as (m & [= -> _] & Hin).
      by apply list_elem_of_fmap_2. }
  destruct F as [_ F]. destruct (F Hm Hok) as [Hok' _]. split; [done|].
  rewrite !gold_view. unfold vgold. simpl.
  rewrite (fmap_alter_view row_view _ (fun r => (fst (fst r), true, snd r))) by done.
  rewrite psum_alter, lookup_fmap. destruct (pw_mail w !! id); simpl; lia.
Qed.
Lemma sublist_erase id l : erase_mail id l `sublist_of` l.
Proof. induction l as [|m l IH]; simpl; [done|]. case_if; by constructor. Qed.
Lemma erase_mail_gone id l : NoDup (ml_messageID <$> l) -> id ∉ ml_messageID <$> erase_mail id l.
Proof.
  induction l as [|m l IH]; simpl; [intros _; apply not_elem_of_nil|]. rewrite NoDup_cons. intros [Hm Hn].
  destruct (Z.eqb_spec (ml_messageID m) id) as [<-|Hne]; [done|]. rewrite fmap_cons, not_elem_of_cons. by split; [congruence|apply IH].
Qed.
(** A letter leaves the mailbox and the table. *)
Lemma flow_discard me p id m w :
  pw_players w !! me = Some p -> GetMail p id = Some m ->
  flow (- ml_money m) w (upd_pp me (RemoveMail id) (delete_mail_items id (soft_delete id w))).
Proof.
  intros Hp [Hm <-]%GetMail_elem. split; [done|]. intros Hmax Hok.
  destruct (letters_row _ _ _ _ Hok Hp Hm) as (r & Er & Hv). pose proof (letters_distinct _ _ _ Hok Hp) as Hn.
  set (id := ml_messageID m) in *.
  assert (F1 : flow 0 w (upd_pp me (RemoveMail id) w)).
  { apply flow_box. intros q _. split; [done|]. apply fmap_sublist, sublist_erase. }
  assert (F2 : flow (- ml_money m) (upd_pp me (RemoveMail id) w) (delete_mail_items id (soft_delete id (upd_pp me (RemoveMail id) w)))).
  { eapply flow_weak; [apply flow_soft_delete|].
    - intros g q. simpl. rewrite lookup_alter. case_decide.
      + subst. rewrite Hp. intros [= <-]. simpl. by apply erase_mail_gone.
      + intros Hq (x & Hx & Hin)%list_elem_of_fmap. destruct (letters_row _ _ _ _ Hok Hq Hin) as (r' & Er' & Hv').
        rewrite <- Hx in Er'. rewrite Er in Er'. injection Er' as <-. congruence.
    - change (pw_mail (upd_pp me (RemoveMail id) w)) with (pw_mail w). rewrite Er. simpl. injection Hv as _ -> ->. lia. }
  destruct (flow_trans _ _ (- ml_money m) _ _ _ F1 F2) as [_ H]; [lia|]. by apply H.
Qed.

(** ** Auctions *)
Definition auction_gold (a : AuctionEntry) : Z := a_bid a + a_deposit a.
Definition auction_range (id : Z) (a : AuctionEntry) : Prop :=
  a_Id a = id /\ 0 <= a_bid a < 2 ^ 32 /\ 0 <= a_deposit a < 2 ^ 32 /\ 0 <= a_buyout a < 2 ^ 32 /\
  (a_buyout a = 0 \/ a_bid a <= a_buyout a) /\ 0 <= cutPercent (a_house a) < 100.
Lemma psum_house o : psum auction_worth (house_view o) = psum auction_gold (AuctionsMap o).
Proof. unfold house_view. by rewrite psum_fmap. Qed.
Lemma lookup_gvh w h : gv_houses (gview w) !! h = house_view <$> pw_houses w !! h.
Proof. apply lookup_fmap. Qed.
Lemma house_at_lookup h w : house_at h w = default no_house (pw_houses w !! h).
Proof. done. Qed.
Lemma house_range w h id a : view_ok (gview w) -> AuctionsMap (house_at h w) !! id = Some a -> auction_range id a.
Proof.
  intros Hok. unfold house_at. destruct (pw_houses w !! h) as [o|] eqn:E; simpl; [|done]. intros Ha.
  apply (vo_houses _ Hok h (house_view o) id); [by rewrite lookup_gvh, E|]. unfold house_view. by rewrite lookup_fmap, Ha.
Qed.
Lemma flow_put_house h o w c :
  (view_ok (gview w) -> forall id a, AuctionsMap o !! id = Some a -> auction_range id a) ->
  (view_ok (gview w) -> psum auction_gold (AuctionsMap o) <= psum auction_gold (AuctionsMap (house_at h w)) + c) ->
  flow c w (put_house h o w).
Proof.
  intros Ha Hc. split; [apply Z.le_refl|]. intros _ Hok.
  assert (Hh : gv_houses (gview (put_house h o w)) = <[h := house_view o]> (gv_houses (gview w))) by (simpl; by rewrite fmap_insert).
  split.
  - split; try apply Hok. intros k x id bid deposit buyout id' cut. rewrite Hh, lookup_insert. case_decide; [|apply (vo_houses _ Hok)].
    intros [= <-]. unfold house_view. rewrite lookup_fmap. destruct (AuctionsMap o !! id) as [a|] eqn:E; [|done].
    intros [= <- <- <- <- <-]. by apply (Ha Hok id).
  - rewrite !gold_view. unfold vgold. rewrite Hh, psum_insert, psum_house, lookup_gvh. pose proof (Hc Hok) as Hc'.
    unfold house_at in Hc'. change (gv_players (gview (put_house h o w))) with (gv_players (gview w)).
    change (gv_rows (gview (put_house h o w))) with (gv_rows (gview w)).
    change (gv_chars (gview (put_house h o w))) with (gv_chars (gview w)).
    destruct (pw_houses w !! h) as [o'|]; simpl in *; rewrite ?psum_house; [lia|]. rewrite psum_empty in Hc'. lia.
Qed.
Lemma flow_AddAuction h a w : auction_range (a_Id a) a -> flow (auction_gold a) w (AddAuction h a w).
Proof.
  intros Ha. apply flow_put_house; intros Hok; simpl.
  - intros id b. rewrite lookup_insert. case_decide; [intros [= <-]; by subst|]. by apply house_range.
  - rewrite psum_insert. destruct (AuctionsMap (house_at h w) !! a_Id a) as [b|] eqn:E; simpl; [|lia].
    destruct (house_range _ _ _ _ Hok E) as (_ & ? & ? & ?). unfold auction_gold. lia.
Qed.
Lemma flow_RemoveAuction h a b w : GetAuction (a_Id a) (house_at h w) = Some b -> flow (- auction_gold b) w (RemoveAuction h a w).
Proof.
  intros Hb. unfold RemoveAuction.
  set (o := mkHouse _ _ _). assert (F : flow (- auction_gold b) w (put_house h o w)).
  { apply flow_put_house; intros Hok; simpl.
    - intros id c [_ E]%lookup_delete_Some. by apply (house_range w h id).
    - rewrite psum_delete. unfold GetAuction in Hb. rewrite Hb. simpl. lia. }
  case_if; [|done]. eapply flow_trans; [exact F|by apply flow_same|lia].
Qed.
Lemma flow_RemoveAuction_0 h a w : flow 0 w (RemoveAuction h a w).
Proof.
  unfold RemoveAuction. set (o := mkHouse _ _ _). assert (F : flow 0 w (put_house h o w)).
  { apply flow_put_house; intros Hok; simpl.
    - intros id c [_ E]%lookup_delete_Some. by apply (house_range w h id).
    - rewrite psum_delete. destruct (AuctionsMap (house_at h w) !! a_Id a) as [b|] eqn:E; simpl; [|lia].
      destruct (house_range _ _ _ _ Hok E) as (_ & ? & ? & ?). unfold auction_gold. lia. }
  case_if; [|done]. eapply flow_trans; [exact F|by apply flow_same|lia].
Qed.
Lemma flow_upd_auction h id a f w c :
  GetAuction id (house_at h w) = Some a -> (auction_range id a -> auction_range id (f a) /\ auction_gold (f a) <= auction_gold a + c) ->
  flow c w (upd_auction h id f w).
Proof.
  intros Ha Hf. apply flow_put_house; intros Hok; destruct (Hf (house_range _ _ _ _ Hok Ha)) as [Hr Hc]; simpl.
  - intros k b. rewrite lookup_alter. case_decide; [|by apply house_range]. subst. unfold GetAuction in Ha. rewrite Ha. by intros [= <-].
  - rewrite psum_alter. unfold GetAuction in Ha. rewrite Ha. simpl. lia.
Qed.

(** ** Who pays stays who he was *)
Lemma GetPlayer_players w g p : GetPlayer w g = Some p -> pw_players w !! g = Some p.
Proof. unfold GetPlayer. destruct (pw_players w !! g) as [q|]; [|done]. simpl. case_if; [done|discriminate]. Qed.
Definition purse (w : PW) (g : Z) : option Z := pp_money <$> pw_players w !! g.
Lemma purse_view w g : purse w g = fst <$> gv_players (gview w) !! g.
Proof. rewrite lookup_gvp. unfold purse. by destruct (pw_players w !! g). Qed.
Lemma purse_same w w' : gview w' = gview w -> forall g, purse w' g = purse w g.
Proof. intros E g. by rewrite !purse_view, E. Qed.
Lemma purse_SendMailTo d to sn c dd ed w g : d_returnSourceMailId d = 0 -> purse (SendMailTo d to sn c dd ed w) g = purse w g.
Proof.
  intros Hd. rewrite !purse_view, gview_SendMailTo by done. simpl. rewrite lookup_alter. case_decide; [subst|done].
  by destruct (_ !! g).
Qed.
Lemma purse_lookup w g m : purse w g = Some m -> exists p, pw_players w !! g = Some p /\ pp_money p = m.
Proof. unfold purse. destruct (pw_players w !! g) as [p|]; [|done]. intros [= <-]. by exists p. Qed.
Lemma flow_debit g m d w : purse w g = Some m -> 0 <= d <= m -> flow (- d) w (upd_pp g (pp_ModifyMoney (i32 (- d))) w).
Proof. intros (p & Hp & <-)%purse_lookup Hd. by eapply flow_pay. Qed.
Lemma flow_debit' g m d w : purse w g = Some m -> 0 <= d <= m -> flow (- d) w (upd_pp g (pp_ModifyMoney (i32 (- i32 d))) w).
Proof.
  intros (p & Hp & <-)%purse_lookup Hd. eapply flow_purse; [done..|]. intros ?. simpl. unfold MAX_MONEY_AMOUNT in *.
  rewrite (i32_small d) by lia. rewrite coinage_pay by (unfold MAX_MONEY_AMOUNT; lia). lia.
Qed.

Create HintDb gold.
#[export] Hint Resolve flow_refl : gold.
(** [w'] differs from [w] in what the gold does not depend on. *)
Ltac same_gold := apply flow_same; try done.

Section mail_flows.
Context {env : PostEnv}.

Lemma flow_at_mailbox me mb w f c : 0 <= c ->
  (forall p, pw_players w !! me = Some p -> flow c w (f p)) -> flow c w (at_mailbox me mb w f).
Proof.
  intros Hc H. unfold at_mailbox. destruct (GetPlayer w me) as [p|] eqn:E; [|by eapply flow_weak; [apply flow_refl|]].
  case_if; [apply H; by apply GetPlayer_players|by eapply flow_weak; [apply flow_refl|]].
Qed.
Lemma gview_SendMailResult me id a e w : gview (SendMailResult me id a e w) = gview w.
Proof. done. Qed.
Lemma gview_change_mail me id f w :
  (forall m, ml_messageID m = id -> mail_view (f m) = mail_view m) -> gview (change_mail me id f w) = gview w.
Proof.
  intros H. apply gview_upd_pp. intros p _. change (player_view (upd_mail id f p) = player_view p). by apply view_upd_mail.
Qed.

Lemma flow_HandleMailMarkAsRead me mb id w : flow 0 w (HandleMailMarkAsRead me mb id w).
Proof.
  apply flow_at_mailbox; [done|]. intros p Hp. destruct (GetMail p id) as [m|]; [|apply flow_refl].
  case_if; [apply flow_refl|]. apply flow_same. rewrite gview_change_mail; [by apply gview_upd_pp|].
  intros m' _. unfold read_mail. by case_if.
Qed.
Lemma flow_HandleMailDelete me mb id w : flow 0 w (HandleMailDelete me mb id w).
Proof.
  apply flow_at_mailbox; [done|]. intros p Hp. destruct (GetMail p id) as [m|]; [|by apply flow_same, gview_upd_pp].
  case_if; [by apply flow_same, gview_upd_pp|]. apply flow_same. rewrite gview_SendMailResult.
  rewrite gview_upd_pp; [by apply gview_upd_pp|]. intros q _. by apply view_upd_mail.
Qed.

Lemma flow_SendReturnToSender d sender receiver w :
  d_returnSourceMailId d = 0 -> 0 <= d_money d < 2 ^ 32 -> flow (d_money d) w (SendReturnToSender d sender receiver w).
Proof.
  intros Hr Hm. unfold SendReturnToSender. case_if.
  - eapply flow_weak; [apply flow_same|lia]. by rewrite gview_foldl.
  - eapply flow_trans; [apply flow_same|apply flow_SendMailTo; [done|simpl; exact Hm]|simpl; lia].
    apply gview_foldl. intros. apply gview_return_item.
Qed.
Lemma return_draft_money p m : d_money (return_draft p m) = ml_money m /\ d_returnSourceMailId (return_draft p m) = 0.
Proof.
  unfold return_draft. split; [done|]. simpl. case_if; [|by case_if].
  rewrite (foldl_keep d_returnSourceMailId); [by case_if|]. intros d i. unfold returned_item. by destruct (GetMItem p (mi_guid i)).
Qed.
Lemma usable_mail_spec p id now m : usable_mail p id now = Some m -> GetMail p id = Some m /\ deleted m = false.
Proof.
  unfold usable_mail. destruct (GetMail p id) as [m'|]; [|done]. simpl. case_if; [done|]. intros [= <-].
  by bool_prop.
Qed.
Lemma flow_HandleMailReturnToSender me mb id w : view_ok (gview w) -> flow 0 w (HandleMailReturnToSender me mb id w).
Proof.
  intros Hok. apply flow_at_mailbox; [done|]. intros p Hp. destruct (usable_mail p id (pw_time w)) as [m|] eqn:E; [|by apply flow_same].
  apply usable_mail_spec in E as [E _]. pose proof (flow_discard _ _ _ _ _ Hp E) as F.
  assert (Hm : 0 <= ml_money m < 2 ^ 32).
  { destruct (letters_row _ _ _ _ Hok Hp (proj1 (GetMail_elem _ _ _ E))) as (r & Er & [= _ _ Hv]).
    rewrite <- Hv. by apply (row_worth_nonneg w _ r Hok Er). }
  set (w1 := upd_pp me (RemoveMail id) _) in *.
  eapply (flow_trans _ (ml_money m)); [exact F| |lia]. cbv zeta. fold w1.
  match goal with |- flow _ _ (SendMailResult _ _ _ _ ?x) => apply (flow_trans (ml_money m) 0 _ _ x); [|by apply flow_same|lia] end.
  destruct (_ && _).
  - destruct (return_draft_money p m) as [Hd Hs].
    eapply (flow_trans 0 (d_money (return_draft p m))); [|apply flow_SendReturnToSender; rewrite ?Hd; done|lia]. apply flow_same.
    case_if; [|done]. apply gview_upd_pp. intros q _. apply view_RemoveMItems.
  - eapply flow_weak; [apply flow_refl|lia].
Qed.

(** ** Taking what a letter holds *)
Lemma gview_CreateItem e c g w : gview (snd (CreateItem e c g w)) = gview w.
Proof. unfold CreateItem. case_if; [done|]. by destruct (item_template e). Qed.
Lemma gview_CloneItem g c it w : gview (snd (CloneItem g c it w)) = gview w.
Proof.
  unfold CloneItem. pose proof (gview_CreateItem (it_entry (pi_item it)) c g w) as H.
  by destruct (CreateItem (it_entry (pi_item it)) c g w) as [[n|] w1].
Qed.
Lemma gview_put_item_at g pos it w : gview (put_item_at g pos it w) = gview w.
Proof. apply gview_upd_pp. intros p _. by case_if. Qed.
Lemma gview__StoreItem g d it b w : gview (_StoreItem g d it b w) = gview w.
Proof.
  unfold _StoreItem. destruct d as [[bag slot] n]. destruct (p ← pw_players w !! g; item_by_pos p (bag, slot)) as [it2|].
  - apply gview_upd_pp. intros p _. by case_if.
  - destruct b; [|apply gview_put_item_at]. pose proof (gview_CloneItem g n it w) as H.
    destruct (CloneItem g n it w) as [[c|] w1]; [|done]. by rewrite gview_put_item_at.
Qed.
Lemma gview_StoreItem g dest it w : gview (StoreItem g dest it w) = gview w.
Proof.
  revert w. induction dest as [|d dest IH]; intros w; [done|]. destruct dest as [|d' dest]; [apply gview__StoreItem|].
  change (gview (StoreItem g (d' :: dest) it (_StoreItem g d it true w)) = gview w). by rewrite IH, gview__StoreItem.
Qed.
Lemma gview_MoveItemToInventory g dest it w : gview (MoveItemToInventory g dest it w) = gview w.
Proof. unfold MoveItemToInventory. rewrite gview_upd_pp by done. apply gview_StoreItem. Qed.
Lemma flow_pay_cod me p m w : pw_players w !! me = Some p -> COD_of m <= pp_money p -> flow 0 w (pay_cod me m w).
Proof.
  intros Hp Hm. unfold pay_cod. case_if; [apply flow_refl|]. pose proof (u32_range (ml_COD m)) as Hr. fold (COD_of m) in Hr.
  set (w1 := if _ || _ then _ else _).
  assert (flow (COD_of m) w w1 /\ purse w1 me = Some (pp_money p)) as [F Hpu].
  { unfold w1. case_if.
    - split; [by apply flow_SendMailTo|]. rewrite purse_SendMailTo by done. unfold purse. by rewrite Hp.
    - split; [by eapply flow_weak; [apply flow_refl|lia]|]. unfold purse. by rewrite Hp. }
  eapply flow_trans; [exact F|eapply flow_debit; [exact Hpu|lia]|lia].
Qed.
Lemma flow_HandleMailTakeItem me mb id w : flow 0 w (HandleMailTakeItem me mb id w).
Proof.
  apply flow_at_mailbox; [done|]. intros p Hp. destruct (usable_mail p id (pw_time w)) as [m|] eqn:E; [|by apply flow_same].
  destruct (ml_has_items m); [|by apply flow_same]. destruct (ml_items m) as [|info infos]; [by apply flow_same|].
  case_if; [by apply flow_same|]. case_if; [by apply flow_same|]. bool_prop.
  destruct (GetMItem p (mi_guid info)) as [it|]; [|by apply flow_same].
  destruct (CanStoreItem p it) as [msg dest]. case_if; [|by apply flow_same].
  eapply (flow_trans 0 0); [by apply (flow_pay_cod me p)| |done].
  eapply (flow_trans 0 0); [|by apply flow_same|done]. eapply (flow_trans 0 0); [|apply flow_SaveMails|done]. apply flow_same.
  rewrite gview_SaveInventoryAndGoldToDB, gview_MoveItemToInventory, gview_upd_pp by done. by rewrite gview_change_mail.
Qed.
Lemma flow_HandleMailTakeMoney me mb id w :
  view_ok (gview w) -> (forall k r, pw_mail w !! k = Some r -> mlr_isDeleted r = false -> mlr_money r <= MAX_MONEY_AMOUNT) ->
  flow 0 w (HandleMailTakeMoney me mb id w).
Proof.
  intros Hok Hmax. apply flow_at_mailbox; [done|]. intros p Hp.
  destruct (usable_mail p id (pw_time w)) as [m|] eqn:E; [|by apply flow_same]. apply usable_mail_spec in E as [E _].
  assert (Hm : 0 <= ml_money m <= MAX_MONEY_AMOUNT).
  { destruct (letters_row _ _ _ _ Hok Hp (proj1 (GetMail_elem _ _ _ E))) as (r & Er & [= _ Hd Hv]).
    rewrite <- Hv. split; [apply (row_worth_nonneg w _ r Hok Er)|by eapply Hmax]. }
  set (w1 := SendMailResult _ _ _ _ _). eapply (flow_trans 0 0); [by apply (flow_same w w1)| |done].
  eapply (flow_trans (ml_money m) (- ml_money m)); [by eapply (flow_earn me p)| |lia].
  apply (flow_take me (pp_ModifyMoney (i32 (ml_money m)) p)); [|done]. simpl. by rewrite lookup_alter_eq, Hp.
Qed.
Lemma flow_HandleMailCreateTextItem me mb id w : flow 0 w (HandleMailCreateTextItem me mb id w).
Proof.
  apply flow_at_mailbox; [done|]. intros p Hp. destruct (usable_mail p id (pw_time w)) as [m|]; [|by apply flow_same].
  case_if; [by apply flow_same|]. destruct (item_template MAIL_BODY_ITEM_TEMPLATE); [|by apply flow_same].
  cbv zeta. destruct (CanStoreItem p (letter_item me (u32 (pw_itemGuids w)) m)) as [msg dest]. case_if; [|by apply flow_same].
  apply flow_same. rewrite gview_SendMailResult, gview_StoreItem. by rewrite gview_change_mail.
Qed.
Lemma flow_HandleGetMailList me mb w : flow 0 w (HandleGetMailList me mb w).
Proof.
  apply flow_at_mailbox; [done|]. intros p Hp. apply flow_same. rewrite gview_upd_pp; [by apply gview_upd_pp|].
  intros q _. unfold UpdateNextMailTimeAndUnreads. by destruct (foldl _ _ _).
Qed.
End mail_flows.

(** The rest of the operations as flows of gold, and all of them together. *)

(** Branches that answer and change nothing the gold depends on. *)
Ltac answered := first [apply flow_refl | by apply flow_same].

Section flows.
Context {env : PostEnv}.

(** ** Sending *)
Lemma flow_HandleSendMailCallback me r w : 0 <= rq_money r < 2 ^ 32 -> flow 0 w (HandleSendMailCallback me r w).
Proof.
  intros Hm. unfold HandleSendMailCallback. destruct (GetPlayer w me) as [p|] eqn:Hp; [|answered].
  apply GetPlayer_players in Hp. cbv zeta. case_if; [answered|]. destruct (_ && _) eqn:Hmoney; [answered|].
  case_if; [answered|]. destruct (negb cfg_TwoSideMail && _ && _); [answered|].
  destruct (mailed_item me p r w) as [item|]; [|answered]. case_if; [answered|]. case_if; [answered|].
  set (req := u32 (rq_money r + 30)) in *.
  assert (Hreq : req = rq_money r + 30 /\ req <= pp_money p).
  { unfold req in *. bool_prop. destruct (decide (rq_money r + 30 < 2 ^ 32)).
    - rewrite u32_small in * by lia. apply andb_false_iff in Hmoney as [?|?]; bool_prop; lia.
    - exfalso. unfold u32 in Heqb. rewrite <- (Z.mod_add (rq_money r + 30) (-1)), Z.mod_small in Heqb by lia. lia. }
  set (w1 := SendMailResult _ _ _ _ _). set (w2 := upd_pp me (pp_ModifyMoney (i32 (- req))) w1).
  assert (F : flow (- req) w w2).
  { eapply (flow_trans 0 (- req)); [by apply (flow_same w w1)| |lia]. apply (flow_pay me p); [done|lia]. }
  pose proof (gview_MailDraft_text (rq_subject r) (rq_body r) w2) as Hd.
  assert (Hr : d_returnSourceMailId (fst (MailDraft_text (rq_subject r) (rq_body r) w2)) = 0) by (unfold MailDraft_text; by case_if).
  destruct (MailDraft_text (rq_subject r) (rq_body r) w2) as [draft w3]. simpl in Hd, Hr.
  assert (exists draft' w4, (match item with
      | Some (pos, it) => (Draft_AddItem (saved_item it) draft, hand_over me (rq_receiver r) pos it w3)
      | None => (draft, w3) end) = (draft', w4) /\ gview w4 = gview w3 /\ d_returnSourceMailId draft' = 0) as (draft' & w4 & -> & Hw4 & Hr').
  { destruct item as [[pos it]|]; eexists _, _; (split; [done|]); [|done]. split; [|done].
    unfold hand_over. transitivity (gview (MoveItemFromInventory me pos w3)); [|by apply gview_upd_pp].
    rewrite <- (gview_Item_SaveToDB it (MoveItemFromInventory me pos w3)). done. }
  eapply (flow_trans (- 30) 0); [|apply flow_same, gview_SaveInventoryAndGoldToDB|lia].
  eapply (flow_trans (- req) (rq_money r)); [|apply flow_SendMailTo; [done|simpl; lia]|simpl; lia].
  eapply (flow_trans _ 0); [exact F|by apply flow_same; rewrite Hw4|lia].
Qed.
Lemma flow_HandleSendMail me mb name subject body item money COD w :
  0 <= money < 2 ^ 32 -> flow 0 w (HandleSendMail me mb name subject body item money COD w).
Proof.
  intros Hm. apply flow_at_mailbox; [done|]. intros p Hp. cbv zeta.
  set (s := if negb (COD =? 0) && _ && _ then _ else subject). clearbody s. repeat (case_if; [answered|]).
  destruct (name ← normalize_name name; pw_names w !! name) as [receiver|]; [|answered].
  repeat (case_if; [answered|]).
  destruct (GetPlayer (IncreaseMailCount (in_account (pp_info p)) w) receiver) as [q|];
    (eapply (flow_trans 0 0); [|by apply flow_HandleSendMailCallback|done]; by apply flow_same).
Qed.

(** ** The letters of auctions *)
Lemma houses_SendMailTo d to sn c dd ed w : pw_houses (SendMailTo d to sn c dd ed w) = pw_houses w.
Proof.
  unfold SendMailTo. cbv zeta.
  assert (H : forall m w, pw_houses (foldl (insert_mail_item m to) w (draft_items d)) = pw_houses w)
    by (intros; by apply foldl_keep).
  assert (Ha : forall g t w, pw_houses (AddNewMailDeliverTime g t w) = pw_houses w)
    by (intros; unfold AddNewMailDeliverTime; by case_if).
  destruct (FindMasterPlayer _ _); [|rewrite H; by case_if].
  unfold upd_pp. simpl. rewrite Ha, H. by case_if.
Qed.
Lemma houses_MailDraft_text s t w : pw_houses (snd (MailDraft_text s t w)) = pw_houses w.
Proof. unfold MailDraft_text. by case_if. Qed.
Lemma MailDraft_text_source s t w : d_returnSourceMailId (fst (MailDraft_text s t w)) = 0.
Proof. unfold MailDraft_text. by case_if. Qed.

(** A letter of an auction: what it is worth at most, and what it leaves alone. *)
Definition letter_flow (c : Z) (w w' : PW) : Prop :=
  flow c w w' /\ pw_houses w' = pw_houses w /\ forall g, purse w' g = purse w g.
Lemma letter_flow_same w w' : gview w' = gview w -> pw_houses w' = pw_houses w -> letter_flow 0 w w'.
Proof. intros E H. split; [by apply flow_same|]. split; [done|]. by apply purse_same. Qed.
Lemma letter_flow_trans a b c w w1 w2 : letter_flow a w w1 -> letter_flow b w1 w2 -> a + b <= c -> letter_flow c w w2.
Proof.
  intros (F1 & H1 & P1) (F2 & H2 & P2) Hc. split; [by eapply flow_trans|]. split; [congruence|]. intros g. by rewrite P2.
Qed.
Lemma letter_flow_weak a b w w' : letter_flow a w w' -> a <= b -> letter_flow b w w'.
Proof. intros (F & H & P) ?. split; [by eapply flow_weak|done]. Qed.
Lemma letter_SendAuctionMail d to a w :
  d_returnSourceMailId d = 0 -> 0 <= d_money d < 2 ^ 32 -> letter_flow (d_money d) w (SendAuctionMail d to a w).
Proof.
  intros Hr Hm. split; [by apply flow_SendMailTo|]. split; [apply houses_SendMailTo|]. intros g. by apply purse_SendMailTo.
Qed.
(** A letter with a text. *)
Lemma letter_with_text s t f to a w n :
  (forall d, d_returnSourceMailId (f d) = d_returnSourceMailId d) -> (forall d, d_money d = 0 -> d_money (f d) = n) -> 0 <= n < 2 ^ 32 ->
  letter_flow n w (let '(d, w) := MailDraft_text s t w in SendAuctionMail (f d) to a w).
Proof.
  intros Hs Hn Hr. pose proof (gview_MailDraft_text s t w) as H. pose proof (MailDraft_text_source s t w) as H0.
  pose proof (houses_MailDraft_text s t w) as H1. assert (H2 : d_money (fst (MailDraft_text s t w)) = 0) by (unfold MailDraft_text; by case_if).
  destruct (MailDraft_text s t w) as [d w1]. simpl in *.
  eapply (letter_flow_trans 0 n); [by apply letter_flow_same| |lia]. rewrite <- (Hn d) at 1 by done.
  apply letter_SendAuctionMail; [by rewrite Hs|]. by rewrite Hn.
Qed.
Lemma letter_won a w : letter_flow 0 w (SendAuctionWonMail a w).
Proof.
  unfold SendAuctionWonMail. destruct (GetAItem w (a_itemGuidLow a)) as [it|]; [|by apply letter_flow_same].
  cbv zeta. destruct (reachable w (a_bidder a)); [|by apply letter_flow_same].
  set (w1 := sql_owner _ _ w). set (w2 := if in_world w1 (a_bidder a) then _ else _).
  eapply (letter_flow_trans 0 0 _ _ w2); [unfold w2; case_if; by apply letter_flow_same| |lia].
  by apply (letter_with_text _ _ (Draft_AddItem it)).
Qed.
(** Houses take their cut at the default rate, and not all of the bid. *)
Context (rate_cut : cfg_RateCut = f32 1) (house_cuts : Forall (fun e => 0 <= cutPercent e < 100) auction_houses).
Lemma f32_to_uint_range x : 0 <= f32_to_uint x < 2 ^ 32.
Proof. destruct x; simpl; try lia. apply u32_range. Qed.
Lemma cut_range a : 0 <= GetAuctionCut a < 2 ^ 32.
Proof. apply f32_to_uint_range. Qed.
Lemma letter_successful a w : 0 <= cutPercent (a_house a) < 100 -> 0 <= a_bid a < 2 ^ 32 -> 0 <= a_deposit a < 2 ^ 32 -> letter_flow (auction_gold a) w (SendAuctionSuccessfulMail a w).
Proof.
  intros Hcp Hb Hd. unfold SendAuctionSuccessfulMail, auction_gold. cbv zeta.
  destruct (reachable w (a_owner a)); [|eapply letter_flow_weak; [by apply letter_flow_same|lia]].
  set (w1 := if in_world w (a_owner a) then _ else _).
  assert (H1 : letter_flow 0 w w1).
  { unfold w1, SendAuctionOwnerNotification. case_if; [|by apply letter_flow_same].
    destruct (pw_players w !! a_owner a); [|by apply letter_flow_same]. case_if; by apply letter_flow_same. }
  set (profit := u32 (a_bid a + a_deposit a - GetAuctionCut a)).
  assert (profit <= a_bid a + a_deposit a).
  { pose proof (cut_below_bid a rate_cut Hcp Hb). pose proof (cut_range a). unfold profit, u32.
    pose proof (Z.mod_le (a_bid a + a_deposit a - GetAuctionCut a) (2 ^ 32)). lia. }
  eapply (letter_flow_trans 0 profit); [exact H1| |lia].
  apply (letter_with_text _ _ (set_d_money profit)); [done..|]. apply u32_range.
Qed.
Lemma letter_expired a w : letter_flow 0 w (SendAuctionExpiredMail a w).
Proof.
  unfold SendAuctionExpiredMail. destruct (GetAItem w (a_itemGuidLow a)) as [it|]; [|by apply letter_flow_same].
  cbv zeta. destruct (reachable w (a_owner a)); [|by apply letter_flow_same].
  set (w1 := if in_world w (a_owner a) then _ else _). eapply (letter_flow_trans 0 0 _ _ w1); [|by apply letter_SendAuctionMail|lia].
  unfold w1, SendAuctionOwnerNotification. case_if; [|by apply letter_flow_same].
  destruct (pw_players w !! a_owner a); [|by apply letter_flow_same]. case_if; by apply letter_flow_same.
Qed.
Lemma letter_outbidded a w : 0 <= a_bid a < 2 ^ 32 -> letter_flow (a_bid a) w (SendAuctionOutbiddedMail a w).
Proof.
  intros Hb. unfold SendAuctionOutbiddedMail. cbv zeta.
  destruct (reachable w (a_bidder a)); [|eapply letter_flow_weak; [by apply letter_flow_same|lia]].
  set (w1 := if in_world w (a_bidder a) then _ else _). eapply (letter_flow_trans 0 (a_bid a) _ _ w1).
  - unfold w1. case_if; by apply letter_flow_same.
  - by apply letter_SendAuctionMail.
  - lia.
Qed.
Lemma letter_cancelled a w : 0 <= a_bid a < 2 ^ 32 -> letter_flow (a_bid a) w (SendAuctionCancelledToBidderMail a w).
Proof.
  intros Hb. unfold SendAuctionCancelledToBidderMail. cbv zeta.
  destruct (reachable w (a_bidder a)); [|eapply letter_flow_weak; [by apply letter_flow_same|lia]].
  set (w1 := if in_world w (a_bidder a) then _ else _). eapply (letter_flow_trans 0 (a_bid a) _ _ w1).
  - unfold w1. case_if; by apply letter_flow_same.
  - by apply letter_SendAuctionMail.
  - lia.
Qed.

(** ** Auctions *)
Lemma house_at_same w w' h : pw_houses w' = pw_houses w -> house_at h w' = house_at h w.
Proof. intros E. unfold house_at. by rewrite E. Qed.
Lemma flow_clear_auction h a b w : GetAuction (a_Id a) (house_at h w) = Some b -> flow (- auction_gold b) w (clear_auction h a w).
Proof.
  intros Hb. unfold clear_auction. eapply (flow_trans 0 (- auction_gold b)); [|by apply flow_RemoveAuction|lia]. by apply flow_same.
Qed.
Lemma flow_ExpireAuction h id w : view_ok (gview w) -> flow 0 w (ExpireAuction h id w).
Proof.
  intros Hok. unfold ExpireAuction. destruct (GetAuction id (house_at h w)) as [a|] eqn:Ha; [|answered].
  destruct (house_range _ _ _ _ Hok Ha) as (<- & Hb & Hd & _ & _ & Hcp).
  assert (H : letter_flow (auction_gold a) w
    (if a_bidder a =? 0 then SendAuctionExpiredMail a w else SendAuctionWonMail a (SendAuctionSuccessfulMail a w))).
  { case_if.
    - eapply letter_flow_weak; [apply letter_expired|]. unfold auction_gold. lia.
    - eapply (letter_flow_trans (auction_gold a) 0); [by apply letter_successful|apply letter_won|lia]. }
  destruct H as (F & Hh & _). eapply (flow_trans _ (- auction_gold a)); [exact F| |lia].
  apply flow_clear_auction. by rewrite (house_at_same _ _ _ Hh).
Qed.
(** Steps that need the agreement of mailboxes and table to begin with. *)
Lemma flow_if c w w' : pw_mailIds w <= pw_mailIds w' -> (view_ok (gview w) -> flow c w w') -> flow c w w'.
Proof. intros Hm H. split; [done|]. intros Hmax Hok. by apply (H Hok). Qed.
Lemma flow_fold {A} (f : PW -> A -> PW) l w :
  (forall w x, flow 0 w (f w x)) -> flow 0 w (foldl f w l).
Proof.
  intros H. apply foldl_rel; [apply flow_refl| |intros; apply H]. intros a b c H1 H2. by eapply (flow_trans 0 0).
Qed.
Lemma ids_SendMailTo d to sn c dd ed w : d_returnSourceMailId d = 0 -> pw_mailIds (SendMailTo d to sn c dd ed w) = pw_mailIds w + 1.
Proof. intros Hd. change (gv_ids (gview (SendMailTo d to sn c dd ed w)) = pw_mailIds w + 1). by rewrite gview_SendMailTo. Qed.
Definition ids_up (w w' : PW) : Prop := pw_mailIds w <= pw_mailIds w'.
Lemma ids_ExpireAuction h id w : pw_mailIds w <= pw_mailIds (ExpireAuction h id w).
Proof.
  unfold ExpireAuction. destruct (GetAuction id (house_at h w)) as [a|]; [|lia].
  assert (Hr : forall w, pw_mailIds (clear_auction h a w) = pw_mailIds w) by (intros; unfold clear_auction, RemoveAuction; by case_if).
  rewrite Hr. case_if; [apply (letter_expired a w)|].
  assert (Hs : pw_mailIds w <= pw_mailIds (SendAuctionSuccessfulMail a w)).
  { unfold SendAuctionSuccessfulMail. cbv zeta. case_if; [|lia]. set (w1 := if in_world w _ then _ else _).
    assert (pw_mailIds w1 = pw_mailIds w) as <-.
    { unfold w1, SendAuctionOwnerNotification. case_if; [|done]. destruct (pw_players w !! a_owner a); [|done]. by case_if. }
    apply (letter_with_text _ _ (set_d_money (u32 (a_bid a + a_deposit a - GetAuctionCut a)))
      _ _ _ (u32 (a_bid a + a_deposit a - GetAuctionCut a))); [done..|]. apply u32_range. }
  pose proof (proj1 (proj1 (letter_won a (SendAuctionSuccessfulMail a w)))). lia.
Qed.
Lemma flow_update_auction h w id : flow 0 w (update_auction h w id).
Proof.
  unfold update_auction. destruct (GetAuction id (house_at h w)) as [a|] eqn:Ha; [|answered]. cbv zeta.
  set (w1 := if a_depositTime a + 5 * 60 <? pw_gameTime w then _ else _).
  assert (F : flow 0 w w1).
  { unfold w1. case_if; [|answered]. eapply flow_upd_auction; [exact Ha|]. intros Hr. split; [exact Hr|]. simpl. unfold auction_gold. simpl. lia. }
  case_if; [|done]. eapply (flow_trans 0 0); [exact F| |done]. apply flow_if; [apply ids_ExpireAuction|apply flow_ExpireAuction].
Qed.
Lemma flow_AuctionHouseMgr_Update w : flow 0 w (AuctionHouseMgr_Update w).
Proof. apply flow_fold. intros v h. apply flow_fold. intros v' id. apply flow_update_auction. Qed.

Lemma house_entry_cut me guid p e : GetCheckedAuctionHouseForAuctioneer me guid p = Some e -> 0 <= cutPercent e < 100.
Proof.
  assert (H : forall id, LookupHouse id = Some e -> 0 <= cutPercent e < 100).
  { intros id [Hin _]%List.find_some. rewrite Forall_forall in house_cuts. apply house_cuts. by apply list_elem_of_In. }
  unfold GetCheckedAuctionHouseForAuctioneer, GetAuctionHouseEntry. repeat case_match; try done; apply H.
Qed.
Lemma flow_at_auctioneer me guid w f :
  (forall p e h, pw_players w !! me = Some p -> 0 <= cutPercent e < 100 -> flow 0 w (f p e h)) -> flow 0 w (at_auctioneer me guid w f).
Proof.
  intros H. unfold at_auctioneer. destruct (GetPlayer w me) as [p|] eqn:E; [|answered].
  destruct (GetCheckedAuctionHouseForAuctioneer me guid p) as [e|] eqn:Ee; [|answered]. simpl.
  destruct (GetAuctionsMap e w) as [h|]; [|answered]. simpl. apply H; [by apply GetPlayer_players|by eapply house_entry_cut].
Qed.
Lemma gview_GenerateAuctionID w : gview (snd (GenerateAuctionID w)) = gview w.
Proof. done. Qed.
Lemma gview_SendAuctionCommandResult me a x e i w : gview (SendAuctionCommandResult me a x e i w) = gview w.
Proof. done. Qed.
Lemma flow_start_auction me p e h pos it bid buyout etime deposit w :
  pw_players w !! me = Some p -> 0 <= deposit <= pp_money p -> deposit < 2 ^ 32 -> 0 <= buyout < 2 ^ 32 -> 0 <= cutPercent e < 100 ->
  flow 0 w (start_auction me p e h pos it bid buyout etime deposit w).
Proof.
  intros Hp Hd Hd' Hb Hcp. unfold start_auction. cbv zeta. set (w1 := upd_pp me _ w). pose proof (gview_GenerateAuctionID w1) as Hg.
  destruct (GenerateAuctionID w1) as [id w2]. simpl in Hg. set (a := mkAuction _ _ _ _ _ _ _ _ _ _ _ _ _ _).
  assert (F : flow (- deposit) w w1) by (eapply flow_debit'; [unfold purse; by rewrite Hp|done]).
  eapply (flow_trans (- deposit) deposit); [eapply (flow_trans _ 0); [exact F|by apply (flow_same w1 w2)|lia]| |lia].
  eapply (flow_trans (auction_gold a) 0 _ _ (AddAuction h a w2)); [apply flow_AddAuction| |unfold auction_gold; simpl; lia].
  { split; [done|]. simpl. lia. }
  apply flow_same. rewrite gview_SendAuctionCommandResult, gview_SaveInventoryAndGoldToDB.
  set (w3 := MoveItemFromInventory _ _ _). transitivity (gview (Item_SaveToDB it w3)); [done|].
  rewrite gview_Item_SaveToDB. transitivity (gview (AddAItem (saved_item it) (AddAuction h a w2))); [by apply gview_upd_pp|done].
Qed.
Lemma flow_HandleAuctionSellItem me auctioneer item bid buyout etime w :
  0 <= buyout < 2 ^ 32 -> flow 0 w (HandleAuctionSellItem me auctioneer item bid buyout etime w).
Proof.
  intros Hb. unfold HandleAuctionSellItem. destruct (GetPlayer w me) as [p|]; [|answered]. repeat (case_if; [answered|]).
  apply flow_at_auctioneer. intros q e h Hq Hcp. cbv zeta. repeat (case_if; [answered|]).
  destruct (GetItemByGuid q item) as [[pos it]|]; [|answered]. case_if; [answered|]. case_if; [answered|]. bool_prop.
  assert (0 <= GetAuctionDeposit e (u32 (etime * 60)) it < 2 ^ 32) by apply f32_to_uint_range.
  apply flow_start_auction; [done|lia|lia|done|done].
Qed.

(** ** Bids *)
Lemma letter_pay_bid me p a price w :
  pw_players w !! me = Some p -> 0 <= a_bid a < 2 ^ 32 -> a_bid a <= price <= pp_money p -> price < 2 ^ 32 ->
  flow (a_bid a - price) w (pay_bid me a price w) /\ pw_houses (pay_bid me a price w) = pw_houses w.
Proof.
  intros Hp Hb Hpr Hr. unfold pay_bid. case_if.
  - split; [|done]. rewrite u32_small by lia. eapply flow_weak; [eapply flow_debit'; [unfold purse; by rewrite Hp|lia]|lia].
  - cbv zeta. set (w1 := upd_pp me _ w).
    assert (F : flow (- price) w w1) by (eapply flow_debit'; [unfold purse; by rewrite Hp|lia]).
    case_if; [split; [by eapply flow_weak; [exact F|lia]|done]|].
    destruct (letter_outbidded a w1 Hb) as (F' & Hh & _). split; [|done]. by eapply flow_trans; [exact F|exact F'|lia].
Qed.
Lemma flow_place_bid me p h id a price w :
  view_ok (gview w) -> pw_players w !! me = Some p -> GetAuction id (house_at h w) = Some a -> a_bid a <= price <= pp_money p -> price < 2 ^ 32 ->
  price < a_buyout a \/ a_buyout a = 0 -> flow 0 w (place_bid me h a price w).
Proof.
  intros Hok Hp Ha Hpr Hr Hbuy. destruct (house_range _ _ _ _ Hok Ha) as (Hid & Hb & Hd & Hbo & _ & Hcp).
  destruct (letter_pay_bid me p a price w Hp Hb Hpr Hr) as [F Hh]. unfold place_bid. cbv zeta.
  set (w1 := pay_bid me a price w) in *. set (w2 := upd_auction h (a_Id a) (set_bid me price) w1).
  assert (F2 : flow (price - a_bid a) w1 w2).
  { eapply (flow_upd_auction _ _ a); [by rewrite (house_at_same _ _ _ Hh), Hid|]. intros _. unfold auction_range, auction_gold. simpl.
    repeat split; lia. }
  eapply (flow_trans (a_bid a - price) (price - a_bid a)); [exact F| |lia].
  eapply (flow_trans _ 0); [exact F2| |lia]. apply flow_same. unfold SendAuctionOwnerNotification.
  by repeat case_match.
Qed.
Lemma flow_buy_out me p h id a price w :
  view_ok (gview w) -> pw_players w !! me = Some p -> GetAuction id (house_at h w) = Some a -> a_buyout a <= price <= pp_money p -> a_buyout a <> 0 ->
  flow 0 w (buy_out me h a w).
Proof.
  intros Hok Hp Ha Hpr Hbuy. destruct (house_range _ _ _ _ Hok Ha) as (Hid & Hb & Hd & Hbo & Hbb & Hcut).
  destruct (letter_pay_bid me p a (a_buyout a) w Hp Hb) as [F Hh]; [lia..|]. unfold buy_out. cbv zeta.
  set (w1 := pay_bid me a (a_buyout a) w) in *. set (a' := set_bid me (a_buyout a) a).
  set (w2 := upd_auction h (a_Id a) (set_bid me (a_buyout a)) w1).
  assert (Ha1 : GetAuction (a_Id a) (house_at h w1) = Some a) by (by rewrite (house_at_same _ _ _ Hh), Hid).
  assert (F2 : flow (a_buyout a - a_bid a) w1 w2).
  { eapply (flow_upd_auction _ _ a); [exact Ha1|]. intros _. unfold auction_range, auction_gold. simpl. repeat split; lia. }
  assert (Ha2 : GetAuction (a_Id a) (house_at h w2) = Some a').
  { unfold w2, upd_auction, put_house, house_at at 1, GetAuction. simpl. rewrite lookup_insert_eq. simpl. rewrite lookup_alter_eq.
    unfold GetAuction in Ha1. by rewrite Ha1. }
  destruct (letter_successful a' w2) as (F3 & Hh3 & _); [simpl; lia..|].
  destruct (letter_won a' (SendAuctionSuccessfulMail a' w2)) as (F4 & Hh4 & _).
  eapply (flow_trans (a_bid a - a_buyout a) (a_buyout a - a_bid a)); [exact F| |lia].
  eapply (flow_trans _ 0); [exact F2| |lia]. eapply (flow_trans (auction_gold a') (- auction_gold a')); [| |lia].
  { eapply (flow_trans _ 0); [exact F3|exact F4|lia]. }
  eapply (flow_trans (- auction_gold a') 0 _ _ (RemoveAuction h a' (RemoveAItem (a_itemGuidLow a') (SendAuctionCommandResult me (Some a')
    AUCTION_BID_PLACED AUCTION_OK 0 (SendAuctionWonMail a' (SendAuctionSuccessfulMail a' w2)))))); [|by apply flow_same|lia].
  eapply (flow_trans 0); [|apply flow_RemoveAuction|apply Z.le_refl]; [by apply flow_same|].
  change (GetAuction (a_Id a) (house_at h (SendAuctionWonMail a' (SendAuctionSuccessfulMail a' w2))) = Some a').
  by rewrite (house_at_same _ _ _ Hh4), (house_at_same _ _ _ Hh3).
Qed.
Lemma flow_HandleAuctionPlaceBid me auctioneer id price w :
  view_ok (gview w) -> 0 <= price < 2 ^ 32 -> flow 0 w (HandleAuctionPlaceBid me auctioneer id price w).
Proof.
  intros Hok Hpr. unfold HandleAuctionPlaceBid. destruct (GetPlayer w me) as [p|]; [|answered]. repeat (case_if; [answered|]).
  apply flow_at_auctioneer. intros q e h Hq Hcp. case_if; [answered|].
  destruct (GetAuction id (house_at h w)) as [a|] eqn:Ha; [|answered]. cbv zeta. repeat (case_if; [answered|]). bool_prop.
  destruct (house_range _ _ _ _ Hok Ha) as (Hid & Hb & Hd & Hbo & Hbb & Hcut).
  eapply (flow_trans 0 0); [|apply flow_same, gview_SaveInventoryAndGoldToDB|lia].
  destruct ((price <? a_buyout a) || (a_buyout a =? 0)) eqn:Hplain.
  - eapply flow_place_bid; [done..|lia|lia|]. apply orb_true_iff in Hplain. lia.
  - apply orb_false_iff in Hplain as [??]. eapply (flow_buy_out me q h id a price); [done..|lia|lia].
Qed.
Lemma flow_HandleAuctionRemoveItem me auctioneer id w :
  view_ok (gview w) -> flow 0 w (HandleAuctionRemoveItem me auctioneer id w).
Proof.
  intros Hok. unfold HandleAuctionRemoveItem. apply flow_at_auctioneer. intros p e h Hp Hcp. cbv zeta.
  destruct (GetAuction id (house_at h w)) as [a|] eqn:Ha; [|answered]. case_if; [answered|].
  destruct (GetAItem w (a_itemGuidLow a)) as [it|]; [|answered]. case_if; [answered|].
  destruct (house_range _ _ _ _ Hok Ha) as (Hid & Hb & Hd & Hbo & Hbb & Hcut). pose proof (cut_range a) as Hc.
  unfold cancel_auction. cbv zeta. set (w1 := if 0 <? a_bidder a then _ else w).
  assert (flow (a_bid a) w w1 /\ pw_houses w1 = pw_houses w) as [F1 H1].
  { unfold w1. destruct (Z.ltb_spec 0 (a_bidder a)); [|split; [eapply flow_weak; [answered|lia]|done]].
    destruct (letter_cancelled a w Hb) as (F & Hh & Hpu). split; [|done].
    assert (GetAuctionCut a <= pp_money p) by (apply andb_false_iff in Heqb0 as [?|?]; bool_prop; lia).
    eapply (flow_trans (a_bid a) (- GetAuctionCut a)); [exact F| |lia].
    eapply flow_debit'; [rewrite Hpu; unfold purse; by rewrite Hp|lia]. }
  set (d := Draft_AddItem it _). destruct (letter_SendAuctionMail d me a w1) as (F2 & H2 & _); [done..|].
  set (w2 := SendAuctionMail d me a w1) in *.
  set (w3 := SaveInventoryAndGoldToDB me (Auction_DeleteFromDB (a_Id a) (SendAuctionCommandResult me (Some a) AUCTION_REMOVED AUCTION_OK 0 w2))).
  assert (H3 : pw_houses w3 = pw_houses w2).
  { unfold w3, SaveInventoryAndGoldToDB. simpl. destruct (pw_players w2 !! me); [|done]. unfold upd_pp. simpl.
    rewrite (foldl_keep pw_houses) by done. rewrite (foldl_keep pw_houses); [done|].
    intros v kv. unfold Item_SaveToDB. by destruct (pi_state (snd kv)). }
  assert (F3 : flow 0 w2 w3) by (apply flow_same; unfold w3; by rewrite gview_SaveInventoryAndGoldToDB).
  eapply (flow_trans (a_bid a) (- auction_gold a)); [exact F1| |unfold auction_gold; lia].
  eapply (flow_trans 0 (- auction_gold a)); [exact F2| |lia].
  eapply (flow_trans 0 (- auction_gold a)); [exact F3| |lia].
  eapply (flow_trans 0); [|apply flow_RemoveAuction|apply Z.le_refl]; [by apply flow_same|].
  change (GetAuction (a_Id a) (house_at h w3) = Some a).
  by rewrite (house_at_same _ _ _ H3), (house_at_same _ _ _ H2), (house_at_same _ _ _ H1), Hid.
Qed.

(** ** Lists and tasks *)
Lemma gview_add_task me t w : gview (add_task me t w) = gview w.
Proof. transitivity (gview (upd_pp me (set_pp_ahRequest true) w)); [done|by apply gview_upd_pp]. Qed.
Lemma gview_run_task t w : gview (run_task t w) = gview w.
Proof.
  unfold run_task. destruct (FindSession (tk_account t) w) as [[me p]|]; [|done].
  assert (E : gview (upd_pp me (set_pp_ahRequest false) w) = gview w) by by apply gview_upd_pp. cbv zeta.
  case_if; [done|]. destruct (list_page _ me p t) as [opcode acc]. exact E.
Qed.

(** ** Mail that has run out *)
Lemma flow_offline_row id f w :
  (forall r, pw_mail w !! id = Some r -> pw_players w !! mlr_receiver r = None /\ mlr_money (f r) = mlr_money r /\
     (mlr_isDeleted (f r) = mlr_isDeleted r \/ mlr_isDeleted (f r) = true)) ->
  flow 0 w (sql_mail id f w).
Proof.
  intros Hf. apply flow_if; [done|]. intros Hok. apply flow_rows; try done.
  - intros k r'. simpl. rewrite lookup_alter. case_decide; [subst|].
    + destruct (pw_mail w !! k) as [r|] eqn:E; [|done]. intros [= <-]. exists r. split; [done|].
      pose proof (row_worth_nonneg _ _ _ Hok E). destruct (Hf r eq_refl) as (_ & Hm & Hd). simpl. rewrite Hm.
      destruct Hd as [-> | ->]; [|destruct (mlr_isDeleted r)]; lia.
    + intros E. exists r'. pose proof (row_worth_nonneg _ _ _ Hok E). split; [done|]. lia.
  - intros g p k n r Hp Hin Er Hv. simpl. rewrite lookup_alter. case_decide; [subst|rewrite Er; simpl; by f_equal].
    destruct (Hf r Er) as (Hoff & _). unfold row_view in Hv. congruence.
Qed.
Lemma players_delete_text t w : pw_players (delete_text t w) = pw_players w.
Proof. done. Qed.
Lemma flow_return_or_delete base text w k r : pw_mail w !! k = Some r -> flow 0 w (return_or_delete true base text w (k, r)).
Proof.
  intros Er. unfold return_or_delete. simpl. case_if; [answered|]. unfold FindMasterPlayer in Heqb. bool_prop.
  assert (Hoff : pw_players w !! mlr_receiver r = None) by (destruct (pw_players w !! mlr_receiver r); [destruct Heqb; by eexists|done]).
  assert (Hsoft : flow 0 w (soft_delete k w)).
  { apply flow_offline_row. intros r' Er'. assert (r' = r) as -> by congruence. split; [done|]. by split; [|right]. }
  case_if.
  - unfold SingleMailReturner. case_if; [answered|]. case_if.
    + eapply (flow_trans 0 0); [exact Hsoft|apply flow_same|lia]. repeat case_if; done.
    + set (to := if _ || _ then 0 else mlr_sender r) in *.
      eapply (flow_trans 0 0 _ _ (sql_mail k (returned_row (mlr_receiver r) to base) w)); [|apply flow_same; by case_if|lia].
      apply flow_offline_row. intros r' Er'. assert (r' = r) as -> by congruence. split; [done|]. by split; [|left].
  - eapply (flow_trans 0 0); [exact Hsoft|apply flow_same|lia]. by case_if.
Qed.
Lemma return_or_delete_rows base text w k r k' : k' <> k -> pw_mail (return_or_delete true base text w (k, r)) !! k' = pw_mail w !! k'.
Proof.
  intros Hk. unfold return_or_delete, SingleMailReturner. repeat case_if; simpl; rewrite ?lookup_alter_ne by done; done.
Qed.
Lemma elem_of_old_mails now n w k r : (k, r) ∈ old_mails now n w -> pw_mail w !! k = Some r.
Proof.
  unfold old_mails. intros H%elem_of_take. destruct H as (i & H & _). apply list_elem_of_lookup_2 in H.
  apply list_elem_of_omap in H as (id & _ & H). destruct (pw_mail w !! id) as [r'|] eqn:E; [|done]. simpl in H. case_if; [|done]. by injection H as <- <-.
Qed.
Lemma NoDup_omap_keys {V} (f : Z -> option (Z * V)) l :
  (forall k kv, f k = Some kv -> fst kv = k) -> NoDup l -> NoDup (omap f l).*1.
Proof.
  intros Hf. induction l as [|k l IH]; intros Hn; simpl; [constructor|]. apply NoDup_cons in Hn as [Hk Hn].
  destruct (f k) as [kv|] eqn:E; [|by apply IH]. simpl. rewrite (Hf _ _ E). constructor; [|by apply IH].
  intros (kv' & -> & Hin)%list_elem_of_fmap. apply list_elem_of_omap in Hin as (k' & Hin & E'). by rewrite (Hf _ _ E') in Hk.
Qed.
Lemma NoDup_take_fst {V} n (l : list (Z * V)) : NoDup l.*1 -> NoDup (take n l).*1.
Proof. intros H. rewrite <- (take_drop n l), fmap_app in H. by apply NoDup_app in H as [H _]. Qed.
Lemma NoDup_old_mails now n w : NoDup (old_mails now n w).*1.
Proof.
  unfold old_mails. apply NoDup_take_fst. apply NoDup_omap_keys; [|apply NoDup_skeys]. intros k kv.
  destruct (pw_mail w !! k); [|done]. simpl. case_if; [|done]. by intros [= <-].
Qed.
Lemma flow_ReturnOrDeleteOldMails text w : flow 0 w (ReturnOrDeleteOldMails true text w).
Proof.
  unfold ReturnOrDeleteOldMails. simpl. pose proof (NoDup_old_mails (pw_time w) 300 w) as Hn.
  assert (Hr : forall k r, (k, r) ∈ old_mails (pw_time w) 300 w -> pw_mail w !! k = Some r) by apply elem_of_old_mails.
  revert Hn Hr. generalize (old_mails (pw_time w) 300 w). generalize (pw_time w). intros base l. revert w.
  induction l as [|[k r] l IH]; intros w Hn Hr; [answered|]. apply NoDup_cons in Hn as [Hk Hn].
  change (flow 0 w (foldl (return_or_delete true base text) (return_or_delete true base text w (k, r)) l)).
  eapply (flow_trans 0 0); [apply flow_return_or_delete; apply Hr; left| |done]. apply IH; [done|].
  intros k' r' Hin. rewrite return_or_delete_rows; [apply Hr; by right|]. intros ->. apply Hk.
  by apply (list_elem_of_fmap_2 fst) in Hin.
Qed.

(** ** Logging in *)
Lemma gview_first_created loot g w : gview (snd (first_created loot g w)) = gview w.
Proof.
  revert w. induction loot as [|[e c] loot IH]; intros w; [done|]. simpl. pose proof (gview_CreateItem e c g w) as H.
  destruct (CreateItem e c g w) as [[it|] w1]; [done|]. simpl in H. by rewrite IH.
Qed.
Lemma gview_prepareTemplateItems g m w : gview (prepareTemplateItems g m w) = gview w.
Proof.
  unfold prepareTemplateItems. destruct (pw_players w !! g) as [p|]; [|done]. case_if; [done|]. cbv zeta.
  set (w1 := sql_mail _ _ _). assert (H1 : gview w1 = gview w).
  { unfold w1. rewrite gview_sql_mail by done. apply gview_upd_pp. intros q _. by apply view_upd_mail. }
  pose proof (gview_first_created (FillLoot (ml_mailTemplateId m) p) g w1) as H2.
  destruct (first_created (FillLoot (ml_mailTemplateId m) p) g w1) as [[it|] w2]; simpl in H2; [|by rewrite H2].
  transitivity (gview (upd_pp g (fun p => AddMItem (saved_item it) (upd_mail (ml_messageID m)
    (Mail_AddItem (pi_guid (saved_item it)) (it_entry (pi_item (saved_item it)))) p)) (Item_SaveToDB it w2))); [done|].
  rewrite gview_upd_pp; [by rewrite gview_Item_SaveToDB, H2|]. intros q _. by rewrite <- (view_upd_mail (ml_messageID m)
    (Mail_AddItem (pi_guid (saved_item it)) (it_entry (pi_item (saved_item it)))) q).
Qed.
Lemma gview_load_mailed_item g w row : gview (load_mailed_item g w row) = gview w.
Proof.
  unfold load_mailed_item. destruct row as [[mid guid] i]. destruct (pw_players w !! g) as [p|]; [|done].
  destruct (GetMail p mid); [|done]. cbv zeta.
  assert (H1 : gview (upd_pp g (upd_mail mid (Mail_AddItem guid (it_entry i))) w) = gview w)
    by (apply gview_upd_pp; intros q _; by apply view_upd_mail).
  destruct (item_template (it_entry i)) as [t|]; [|done]. destruct (Item_LoadFromDB t i) as [i' save].
  rewrite gview_upd_pp by done. by case_if.
Qed.
(** A letter of the table enters its receiver's mailbox. *)
Lemma flow_append g m w :
  gv_rows (gview w) !! ml_messageID m = Some (g, false, ml_money m) ->
  (forall p, pw_players w !! g = Some p -> ml_messageID m ∉ ml_messageID <$> pp_mail p) ->
  flow 0 w (upd_pp g (fun p => set_pp_mail (pp_mail p ++ [m]) p) w).
Proof.
  intros Hrow Hnew. set (w' := upd_pp _ _ w). split; [done|]. intros _ Hok.
  destruct (pw_players w !! g) as [p|] eqn:Hp.
  2:{ assert (E : gview w' = gview w) by (unfold gview; simpl; f_equal; f_equal; by apply alter_id'). rewrite !gold_view, E. split; [done|lia]. }
  pose proof (lookup_view _ _ _ Hp) as Hv. destruct (vo_players _ Hok g _ _ Hv) as [Hr Hn].
  assert (Hpl : gv_players (gview w') = <[g := (pp_money p, (mail_view <$> pp_mail p) ++ [mail_view m])]> (gv_players (gview w))).
  { simpl. rewrite <- (fmap_app mail_view _ [m]). change (pp_money p, mail_view <$> pp_mail p ++ [m]) with (player_view (set_pp_mail (pp_mail p ++ [m]) p)).
    rewrite <- fmap_insert. f_equal. apply map_eq. intros k. destruct (decide (g = k)); by simplify_map_eq. }
  split.
  - split; try apply Hok.
    + intros g' n l. rewrite Hpl, lookup_insert. case_decide; [|apply (vo_players _ Hok)]. intros [= <- <-]. split; [done|].
      rewrite fmap_app. apply NoDup_app. split; [done|]. split; [|apply NoDup_singleton].
      intros x Hx ->%list_elem_of_singleton. apply (Hnew p eq_refl). rewrite <- list_fmap_compose in Hx. exact Hx.
    + intros g' n l id k. rewrite Hpl, lookup_insert. case_decide; [|apply (vo_box _ Hok)].
      intros [= <- <-]. subst. intros [Hin|[= -> ->]%list_elem_of_singleton]%elem_of_app; [by apply (vo_box _ Hok _ _ _ _ _ Hv)|exact Hrow].
  - rewrite !gold_view. unfold vgold. rewrite Hpl, psum_insert, Hv. simpl. lia.
Qed.
Definition box_ids (w : PW) (g : Z) : list Z := from_option (fun p => ml_messageID <$> pp_mail p) [] (pw_players w !! g).
Lemma box_ids_view w w' g : gview w' = gview w -> box_ids w' g = box_ids w g.
Proof.
  intros E. assert (H : forall w, box_ids w g = from_option (fun pl => (snd pl).*1) [] (gv_players (gview w) !! g)).
  { intros v. unfold box_ids. rewrite lookup_gvp. destruct (pw_players v !! g); [|done]. simpl. by rewrite <- list_fmap_compose. }
  by rewrite !H, E.
Qed.
Lemma box_ids_append w g m : box_ids (upd_pp g (fun p => set_pp_mail (pp_mail p ++ [m]) p) w) g ⊆ box_ids w g ++ [ml_messageID m].
Proof.
  unfold box_ids. simpl. rewrite lookup_alter_eq. destruct (pw_players w !! g) as [p|]; simpl; [|set_solver]. by rewrite fmap_app.
Qed.
Lemma flow_load_mail g w id r :
  gv_rows (gview w) !! id = Some (row_view r) -> mlr_receiver r = g -> id ∉ box_ids w g ->
  flow 0 w (load_mail g w (id, r)) /\
  (forall k, k <> id -> gv_rows (gview (load_mail g w (id, r))) !! k = gv_rows (gview w) !! k) /\
  box_ids (load_mail g w (id, r)) g ⊆ box_ids w g ++ [id].
Proof.
  intros Hrow Hg Hnew. unfold load_mail. cbv zeta. destruct (mlr_isDeleted r) eqn:Hd.
  - case_if; [|split; [answered|]; split; [done|set_solver]]. split; [|split; [|set_solver]].
    + rewrite lookup_gvr in Hrow. destruct (pw_mail w !! id) as [r0|] eqn:Er; [|done]. injection Hrow as _ Hd0 _. rewrite Hd in Hd0.
      apply flow_if; [done|]. intros Hok. apply flow_rows; try done; simpl.
      * intros k r' [Hk Er']%lookup_delete_Some. exists r'. pose proof (row_worth_nonneg _ _ _ Hok Er'). split; [done|]. lia.
      * intros g' p k n r1 Hp Hin Er1 Hv. rewrite lookup_delete_ne; [rewrite Er1; simpl; by f_equal|]. intros <-.
        rewrite Er in Er1. injection Er1 as <-. unfold row_view in Hv. congruence.
    + intros k Hk. rewrite !lookup_gvr. simpl. by rewrite lookup_delete_ne.
  - set (m := if negb (ml_mailTemplateId (mail_of_row id r) =? 0) && negb (mail_template_exists (ml_mailTemplateId (mail_of_row id r)))
              then _ else _).
    set (w1 := upd_pp g (fun p => set_pp_mail (pp_mail p ++ [m]) p) w).
    assert (Hm : ml_messageID m = id /\ ml_money m = mlr_money r) by (unfold m; by case_if). destruct Hm as [Hid Hmon].
    assert (F : flow 0 w w1).
    { apply flow_append.
      - rewrite Hid, Hrow, Hmon. unfold row_view. by rewrite Hd, Hg.
      - intros p Hp. rewrite Hid. unfold box_ids in Hnew. by rewrite Hp in Hnew. }
    assert (E : gview (if negb (ml_mailTemplateId m =? 0) && negb (ml_has_items m) then prepareTemplateItems g m w1 else w1) = gview w1)
      by (case_if; [apply gview_prepareTemplateItems|done]).
    split; [|split].
    + eapply (flow_trans 0 0); [exact F|by apply flow_same|done].
    + intros k Hk. by rewrite E.
    + rewrite (box_ids_view _ _ g E). unfold w1. rewrite <- Hid. apply box_ids_append.
Qed.
Lemma flow_load_mails g l w :
  NoDup l.*1 -> (forall id r, (id, r) ∈ l -> gv_rows (gview w) !! id = Some (row_view r) /\ mlr_receiver r = g /\ id ∉ box_ids w g) ->
  flow 0 w (foldl (load_mail g) w l).
Proof.
  revert w. induction l as [|[id r] l IH]; intros w Hn Hl; [answered|]. apply NoDup_cons in Hn as [Hid Hn].
  destruct (Hl id r) as (Hrow & Hg & Hnew); [left|]. destruct (flow_load_mail g w id r Hrow Hg Hnew) as (F & Hrows & Hbox).
  change (flow 0 w (foldl (load_mail g) (load_mail g w (id, r)) l)).
  eapply (flow_trans 0 0); [exact F| |done]. apply IH; [done|]. intros k r' Hin.
  assert (k <> id) by (intros ->; apply Hid; by apply (list_elem_of_fmap_2 fst) in Hin).
  destruct (Hl k r') as (Hrow' & Hg' & Hnew'); [by right|]. rewrite Hrows by done. repeat (split; [done|]). set_solver.
Qed.
Lemma elem_of_mail_rows g w id r : (id, r) ∈ mail_rows g w -> pw_mail w !! id = Some r /\ mlr_receiver r = g.
Proof.
  unfold mail_rows. intros H%list_elem_of_omap. destruct H as (k & _ & H).
  destruct (pw_mail w !! k) as [r'|] eqn:E; [|done]. simpl in H. case_if; [|done]. injection H as <- <-. split; [done|lia].
Qed.
Lemma NoDup_mail_rows g w : NoDup (mail_rows g w).*1.
Proof.
  unfold mail_rows. apply NoDup_omap_keys; [|rewrite <- Permutation_rev; apply NoDup_skeys].
  intros k kv. destruct (pw_mail w !! k); [|done]. simpl. case_if; [|done]. by intros [= <-].
Qed.
Lemma flow_HandlePlayerLogin g info w : flow 0 w (HandlePlayerLogin g info w).
Proof.
  unfold HandlePlayerLogin. destruct (pw_players w !! g) as [|] eqn:Hp; [answered|].
  destruct (pw_chars w !! g) as [c|] eqn:Hc; [|answered]. cbv zeta.
  set (w1 := set_pw_players _ _).
  assert (F1 : flow 0 w w1).
  { split; [done|]. intros _ Hok. pose proof (vo_chars _ Hok g (sc_money c)) as Hm. simpl in Hm. rewrite lookup_fmap, Hc in Hm.
    specialize (Hm eq_refl).
    assert (Hpl : gv_players (gview w1) = <[g := (sc_money c, [])]> (gv_players (gview w))) by (simpl; by rewrite fmap_insert).
    assert (Hch : gv_chars (gview w1) = delete g (gv_chars (gview w))) by (simpl; by rewrite fmap_delete).
    split.
    - split; try apply Hok.
      + intros g' m l. rewrite Hpl, lookup_insert. case_decide; [|apply (vo_players _ Hok)]. intros [= <- <-]. split; [done|constructor].
      + intros g' m l id n. rewrite Hpl, lookup_insert. case_decide; [|apply (vo_box _ Hok)]. by intros [= <- <-] ?%not_elem_of_nil.
      + intros g' m. rewrite Hch. intros [_ E]%lookup_delete_Some. by apply (vo_chars _ Hok g').
    - rewrite !gold_view. unfold vgold. rewrite Hpl, Hch, psum_insert, psum_delete, lookup_gvp, Hp. simpl. rewrite lookup_fmap, Hc.
      unfold id. simpl. lia. }
  set (w2 := LoadMails g (mail_rows g w) w1).
  assert (F2 : flow 0 w1 w2).
  { unfold w2, LoadMails. eapply (flow_trans 0 0); [apply (flow_box g (set_pp_mail []))| |done].
    - intros p _. split; [done|]. apply sublist_nil_l.
    - apply flow_load_mails; [apply NoDup_mail_rows|]. intros id r [Hr Hg]%elem_of_mail_rows. split.
      + rewrite lookup_gvr. simpl. by rewrite Hr.
      + split; [done|]. unfold box_ids. simpl. rewrite lookup_alter_eq, lookup_insert_eq. simpl. apply not_elem_of_nil. }
  eapply (flow_trans 0 0); [exact F1| |done]. eapply (flow_trans 0 0); [exact F2| |done]. apply flow_same.
  rewrite gview_upd_pp.
  - unfold LoadMailedItems. apply gview_foldl. intros v row. apply gview_load_mailed_item.
  - intros q _. unfold UpdateNextMailTimeAndUnreads. by destruct (foldl _ _ _).
Qed.
Lemma flow_LogoutPlayer g w : flow 0 w (LogoutPlayer g w).
Proof.
  unfold LogoutPlayer. cbv zeta. set (w1 := SaveMails g _). destruct (pw_players w1 !! g) as [p|] eqn:Hp.
  2:{ eapply (flow_trans 0 0); [apply flow_same, (gview_SaveInventoryAndGoldToDB g)|apply flow_SaveMails|done]. }
  eapply (flow_trans 0 0 _ _ w1); [eapply (flow_trans 0 0); [apply flow_same, (gview_SaveInventoryAndGoldToDB g)|apply flow_SaveMails|done]| |done].
  clearbody w1. split; [done|]. intros _ Hok. set (w2 := set_pw_players _ _).
  pose proof (lookup_view _ _ _ Hp) as Hv. destruct (vo_players _ Hok g _ _ Hv) as [Hr _].
  assert (Hpl : gv_players (gview w2) = delete g (gv_players (gview w1))) by (simpl; by rewrite fmap_delete).
  assert (Hch : gv_chars (gview w2) = <[g := pp_money p]> (gv_chars (gview w1))) by (simpl; by rewrite fmap_insert).
  split.
  - split; try apply Hok.
    + intros g' m l. rewrite Hpl. intros [_ E]%lookup_delete_Some. by apply (vo_players _ Hok g').
    + intros g' m l id n. rewrite Hpl. intros [_ E]%lookup_delete_Some. by apply (vo_box _ Hok g' m).
    + intros g' m. rewrite Hch, lookup_insert. case_decide; [by intros [= <-]|apply (vo_chars _ Hok)].
  - rewrite !gold_view. unfold vgold. rewrite Hpl, Hch, psum_insert, psum_delete, Hv. simpl.
    assert (0 <= from_option id 0 (gv_chars (gview w1) !! g)); [|simpl in *; unfold id in *; lia].
    destruct (gv_chars (gview w1) !! g) as [m|] eqn:E; simpl; [apply (vo_chars _ Hok) in E; unfold id; lia|lia].
Qed.

(** ** All operations *)
Lemma flow_run_op o w : view_ok (gview w) -> in_range w -> flow 0 w (run_op o w).
Proof.
  intros Hok Hr. destruct o; simpl.
  - apply flow_HandleSendMail, u32_range.
  - apply flow_HandleMailMarkAsRead.
  - apply flow_HandleMailDelete.
  - by apply flow_HandleMailReturnToSender.
  - apply flow_HandleMailTakeItem.
  - by apply flow_HandleMailTakeMoney, Hr.
  - apply flow_HandleMailCreateTextItem.
  - apply flow_HandleGetMailList.
  - answered.
  - unfold HandleQueryNextMailTime. destruct (pw_players w !! me); answered.
  - unfold HandleAuctionHello. destruct (GetPlayer w me) as [p|]; [|answered]. repeat (case_if; [answered|]).
    destruct (GetAuctionHouseEntry me auctioneer p); answered.
  - apply flow_HandleAuctionSellItem, u32_range.
  - by apply flow_HandleAuctionPlaceBid, u32_range.
  - by apply flow_HandleAuctionRemoveItem.
  - apply flow_at_auctioneer. intros p e h Hp Hcp. case_if; [answered|]. apply flow_same, gview_add_task.
  - apply flow_at_auctioneer. intros p e h Hp Hcp. case_if; [answered|]. apply flow_same, gview_add_task.
  - apply flow_at_auctioneer. intros p e h Hp Hcp. case_if; [answered|]. destruct (searched_name name); [|answered].
    apply flow_same, gview_add_task.
  - unfold run_next_task. destruct (pw_tasks w) as [|t ts]; [answered|]. apply flow_same. by rewrite gview_run_task.
  - apply flow_AuctionHouseMgr_Update.
  - unfold MasterPlayer_Update. destruct (pw_players w !! g); [|answered]. case_if; [|answered]. apply flow_same.
    transitivity (gview (post (NewMail g) w)); [by apply gview_upd_pp|done].
  - apply flow_ReturnOrDeleteOldMails.
  - apply flow_HandlePlayerLogin.
  - apply flow_LogoutPlayer.
  - answered.
  - apply flow_same. by apply gview_upd_pp.
  - answered.
Qed.
Lemma gold_steps w w' : post_steps w w' -> view_ok (gview w) -> view_ok (gview w') /\ gold w' <= gold w.
Proof.
  induction 1 as [w|w o w' Hr Hr' _ IH]; intros Hok; [by split|].
  destruct (flow_run_op o w Hok Hr) as [_ F]. destruct (F (ir_mails _ Hr') Hok) as [Hok' Hg].
  destruct (IH Hok') as [Hok2 Hg2]. split; [done|]. lia.
Qed.
End flows.
