(* ===== verification/PostItems.v ===== *)
(** Where items are: in bags, in letters and at auctions.  [arrive S] holds of a
    change after which items may be where the list [S] says, and everything else
    is where it was or nowhere.  The parts the operations are made of are such
    changes. *)

From Stdlib Require Import Floats.SpecFloat.
From S2P Require Import Prelude CString GuildBankTypes GuildBankItems PostTypes Mail MailHandlers Auction AuctionHandlers PostSteps PostGold PostGoldSteps.

Inductive place := Bags (g : Z) (pos : Z * Z) | Letter (id : Z) | OnSale.
(** The same in detail: a letter in the table, a letter in a mailbox in memory. *)
Inductive spot := InBags (g : Z) (pos : Z * Z) | InRow (id : Z) | InBox (g id : Z) | InAuction.
Definition place_of (x : spot) : place :=
  match x with InBags g pos => Bags g pos | InRow id => Letter id | InBox _ id => Letter id | InAuction => OnSale end.

(** ** What places depend on *)
Record PlayerItems := mkPI {
  pv_bags : gmap (Z * Z) Z;
  pv_box : list (Z * list Z);
  pv_mitems : gmap Z Z
}.
Definition infos_view (m : Mail) : Z * list Z := (ml_messageID m, mi_guid <$> ml_items m).
Definition player_items (p : PostPlayer) : PlayerItems :=
  mkPI (pi_guid <$> pp_items p) (infos_view <$> pp_mail p) (pi_guid <$> pp_mitems p).
Record ItemView := mkIV {
  iv_players : gmap Z PlayerItems;
  iv_chars : gmap Z (gmap (Z * Z) Z);
  iv_rows : gset (Z * Z);
  iv_aitems : gmap Z Z;
  iv_guids : Z
}.
Definition char_items (c : SavedChar) : gmap (Z * Z) Z := pi_guid <$> sc_items c.
Definition iview (w : PW) : ItemView :=
  mkIV (player_items <$> pw_players w) (char_items <$> pw_chars w) (dom (pw_mail_items w)) (pi_guid <$> pw_aitems w) (pw_itemGuids w).

Inductive item_in (v : ItemView) (k : Z) : spot -> Prop :=
| in_bags g pos t : iv_players v !! g = Some t -> pv_bags t !! pos = Some k -> item_in v k (InBags g pos)
| in_char g pos b : iv_chars v !! g = Some b -> b !! pos = Some k -> item_in v k (InBags g pos)
| in_row id : (id, k) ∈ iv_rows v -> item_in v k (InRow id)
| in_box g t id infos : iv_players v !! g = Some t -> (id, infos) ∈ pv_box t -> k ∈ infos -> item_in v k (InBox g id)
| in_sale k' : iv_aitems v !! k = Some k' -> item_in v k InAuction.
Lemma row_in v k id : item_in v k (InRow id) -> (id, k) ∈ iv_rows v.
Proof. intros H. inversion H. assumption. Qed.
(** A letter has the items of its rows in mail_items and those the mailbox in
    memory lists. *)
Definition item_at (w : PW) (k : Z) (P : place) : Prop := exists x, item_in (iview w) k x /\ place_of x = P.

Definition regular_player (t : PlayerItems) : Prop :=
  (forall id infos, (id, infos) ∈ pv_box t -> NoDup infos) /\ (forall k k', pv_mitems t !! k = Some k' -> k' = k).
Record items_ok (v : ItemView) : Prop := mkItemsOk {
  io_place : forall k x y, item_in v k x -> item_in v k y -> place_of x = place_of y;
  io_guids : forall k x, item_in v k x -> 0 <= k < iv_guids v;
  io_players : forall g t, iv_players v !! g = Some t -> regular_player t /\ iv_chars v !! g = None;
  io_aitems : forall k k', iv_aitems v !! k = Some k' -> k' = k;
  io_nonneg : 0 <= iv_guids v
}.

(** ** Changes *)
Definition regular (v : ItemView) : Prop :=
  (forall g t, iv_players v !! g = Some t -> regular_player t /\ iv_chars v !! g = None) /\ (forall k k', iv_aitems v !! k = Some k' -> k' = k).
Record arrive (S : list (Z * spot)) (v v' : ItemView) : Prop := mkArrive {
  ar_in : forall k x, item_in v' k x -> item_in v k x \/ (k, x) ∈ S;
  ar_guids : iv_guids v <= iv_guids v';
  ar_regular : regular v -> regular v'
}.
Abbreviation stay := (arrive []).
Lemma arrive_same S v : arrive S v v.
Proof. split; [by left|lia|done]. Qed.
Lemma arrive_eq S v v' : v' = v -> arrive S v v'.
Proof. intros ->. apply arrive_same. Qed.
Lemma arrive_trans S1 S2 S v v1 v2 : arrive S1 v v1 -> arrive S2 v1 v2 -> (forall x, x ∈ S1 \/ x ∈ S2 -> x ∈ S) -> arrive S v v2.
Proof.
  intros [H1 G1 R1] [H2 G2 R2] HS. split; [|lia|auto]. intros k P H. destruct (H2 _ _ H) as [H'|?]; [|by right; apply HS; right].
  destruct (H1 _ _ H') as [?|?]; [by left|]. right. apply HS. by left.
Qed.
Lemma stay_then S v v1 v2 : stay v v1 -> arrive S v1 v2 -> arrive S v v2.
Proof. intros H1 H2. eapply arrive_trans; [exact H1|exact H2|]. intros x [?%not_elem_of_nil|?]; done. Qed.
Lemma then_stay S v v1 v2 : arrive S v v1 -> stay v1 v2 -> arrive S v v2.
Proof. intros H1 H2. eapply arrive_trans; [exact H1|exact H2|]. intros x [?|?%not_elem_of_nil]; done. Qed.
Lemma stay_in v v' k P : stay v v' -> item_in v' k P -> item_in v k P.
Proof. intros [H _ _] Hi. by destruct (H _ _ Hi) as [?|?%not_elem_of_nil]. Qed.

(** The invariant after an arrival: the items that have arrived have left where
    they were. *)
Definition functional (S : list (Z * spot)) : Prop := forall k x y, (k, x) ∈ S -> (k, y) ∈ S -> place_of x = place_of y.
Lemma items_ok_arrive S v v' :
  items_ok v -> arrive S v v' -> functional S -> (forall k x, (k, x) ∈ S -> 0 <= k < iv_guids v') ->
  (forall k x y, (k, x) ∈ S -> item_in v k y -> item_in v' k y -> place_of y = place_of x) -> items_ok v'.
Proof.
  intros Hok [H G R] Hf Hk Hu. destruct R as [R1 R2]; [by split; apply Hok|]. pose proof (io_nonneg _ Hok).
  split; [| |exact R1|exact R2|lia].
  - intros k x y Hx Hy. destruct (H _ _ Hx) as [I1|S1], (H _ _ Hy) as [I2|S2].
    + by eapply (io_place _ Hok).
    + by eapply Hu.
    + symmetry. by eapply Hu.
    + by eapply Hf.
  - intros k x Hx. destruct (H _ _ Hx) as [Hi|Hi]; [apply (io_guids _ Hok) in Hi; lia|by eapply Hk].
Qed.
Lemma items_ok_stay v v' : items_ok v -> stay v v' -> items_ok v'.
Proof.
  intros Hok Hs. apply (items_ok_arrive [] v); [done|done|..].
  - by intros k x y ?%not_elem_of_nil.
  - by intros k x ?%not_elem_of_nil.
  - by intros k x y ?%not_elem_of_nil.
Qed.
Lemma items_ok_regular v : items_ok v -> regular v.
Proof. intros Hok. split; apply Hok. Qed.

(** A change to one player. *)
Definition put_player (g : Z) (t : PlayerItems) (v : ItemView) : ItemView :=
  mkIV (<[g := t]> (iv_players v)) (iv_chars v) (iv_rows v) (iv_aitems v) (iv_guids v).
Lemma arrive_player S g t t' v :
  iv_players v !! g = Some t -> (regular_player t -> regular_player t') ->
  (forall pos k, pv_bags t' !! pos = Some k -> pv_bags t !! pos = Some k \/ (k, InBags g pos) ∈ S) ->
  (forall id infos k, (id, infos) ∈ pv_box t' -> k ∈ infos ->
     (exists infos', (id, infos') ∈ pv_box t /\ k ∈ infos') \/ (k, InBox g id) ∈ S) ->
  arrive S v (put_player g t' v).
Proof.
  intros Ht Hr Hb Hl. split; [|simpl; lia|].
  - intros k P H. destruct H as [g' pos t1 E1 E2|g' pos b E1 E2|id E|g' t1 id infos E1 E2 E3|k' E].
    + simpl in E1. rewrite lookup_insert in E1. case_decide; [|left; by eapply in_bags]. injection E1 as <-. subst g'.
      destruct (Hb _ _ E2) as [?|?]; [left; by eapply in_bags|by right].
    + left. by eapply in_char.
    + left. by eapply in_row.
    + simpl in E1. rewrite lookup_insert in E1. case_decide; [|left; by eapply in_box]. injection E1 as <-. subst g'.
      destruct (Hl _ _ _ E2 E3) as [(infos' & ? & ?)|?]; [left; by eapply in_box|by right].
    + left. by eapply in_sale.
  - intros [H1 H2]. split; [|done]. intros g' t1. simpl. rewrite lookup_insert. case_decide; [intros [= <-]; subst; destruct (H1 _ _ Ht); by eauto|apply H1].
Qed.
Lemma iview_upd_pp g f w p : pw_players w !! g = Some p -> iview (upd_pp g f w) = put_player g (player_items (f p)) (iview w).
Proof.
  intros Hp. unfold iview, put_player. simpl. f_equal. rewrite <- fmap_insert. f_equal. apply map_eq. intros k.
  destruct (decide (g = k)); by simplify_map_eq.
Qed.
Lemma iview_upd_none g f w : pw_players w !! g = None -> iview (upd_pp g f w) = iview w.
Proof. intros Hp. unfold iview. simpl. f_equal. f_equal. by apply alter_id'. Qed.
Lemma lookup_ivp w g : iv_players (iview w) !! g = player_items <$> pw_players w !! g.
Proof. apply lookup_fmap. Qed.
Lemma iview_upd_keep g f w :
  (forall p, pw_players w !! g = Some p -> player_items (f p) = player_items p) -> iview (upd_pp g f w) = iview w.
Proof. intros H. unfold iview. simpl. by rewrite fmap_alter_keep. Qed.
Lemma arrive_upd S g f w :
  (forall p, pw_players w !! g = Some p -> regular_player (player_items p) ->
    regular_player (player_items (f p)) /\
    (forall pos k, pv_bags (player_items (f p)) !! pos = Some k -> pv_bags (player_items p) !! pos = Some k \/ (k, InBags g pos) ∈ S) /\
    (forall id infos k, (id, infos) ∈ pv_box (player_items (f p)) -> k ∈ infos ->
       (exists infos', (id, infos') ∈ pv_box (player_items p) /\ k ∈ infos') \/ (k, InBox g id) ∈ S)) ->
  regular (iview w) -> arrive S (iview w) (iview (upd_pp g f w)).
Proof.
  intros H Hreg. destruct (pw_players w !! g) as [p|] eqn:Hp; [|by apply arrive_eq, iview_upd_none].
  rewrite (iview_upd_pp _ _ _ _ Hp). assert (Ht : iv_players (iview w) !! g = Some (player_items p)) by (rewrite lookup_ivp, Hp; done).
  assert (Hr : regular_player (player_items p)) by by apply (proj1 Hreg g).
  destruct (H p eq_refl Hr) as (H1 & H2 & H3). by apply (arrive_player S g (player_items p)).
Qed.
(** A player loses items. *)
Lemma stay_upd g f w :
  (forall p, pw_players w !! g = Some p ->
    (forall pos k, pv_bags (player_items (f p)) !! pos = Some k -> pv_bags (player_items p) !! pos = Some k) /\
    (forall id infos, (id, infos) ∈ pv_box (player_items (f p)) -> exists infos', (id, infos') ∈ pv_box (player_items p) /\ infos `sublist_of` infos') /\
    (forall k k', pv_mitems (player_items (f p)) !! k = Some k' -> pv_mitems (player_items p) !! k = Some k')) ->
  regular (iview w) -> stay (iview w) (iview (upd_pp g f w)).
Proof.
  intros H Hreg. apply arrive_upd; [|done]. intros p Hp [R1 R2]. destruct (H p Hp) as (H1 & H2 & H3). split; [split|split].
  - intros id infos Hin. destruct (H2 _ _ Hin) as (infos' & Hin' & Hs). eapply sublist_NoDup; [|exact Hs]. by eapply R1.
  - intros k k' E. by eapply R2, H3.
  - intros pos k E. left. by apply H1.
  - intros id infos k Hin Hk. left. destruct (H2 _ _ Hin) as (infos' & ? & Hs). exists infos'. split; [done|]. by eapply elem_of_sublist.
Qed.
Definition with_rows (X : gset (Z * Z)) (v : ItemView) : ItemView := mkIV (iv_players v) (iv_chars v) X (iv_aitems v) (iv_guids v).
Lemma stay_rows X v : X ⊆ iv_rows v -> stay v (with_rows X v).
Proof.
  intros HX. split; [|simpl; lia|done]. intros k P H. left. destruct H.
  - by eapply in_bags.
  - by eapply in_char.
  - eapply in_row. by apply HX.
  - by eapply in_box.
  - by eapply in_sale.
Qed.
Lemma stay_delete_mail_items id w : stay (iview w) (iview (delete_mail_items id w)).
Proof. apply (stay_rows (dom (pw_mail_items (delete_mail_items id w))) (iview w)). simpl. apply dom_filter_subseteq. Qed.
Lemma stay_delete_mail_items_of k w : stay (iview w) (iview (delete_mail_items_of k w)).
Proof. apply (stay_rows (dom (pw_mail_items (delete_mail_items_of k w))) (iview w)). simpl. apply dom_filter_subseteq. Qed.

Lemma infos_upd_mail id f p : (forall m, infos_view (f m) = infos_view m) -> player_items (upd_mail id f p) = player_items p.
Proof.
  intros H. unfold player_items. simpl. f_equal. rewrite <- list_fmap_compose. apply list_fmap_ext. intros i m _. simpl.
  case_if; [apply H|done].
Qed.

(** ** Letters with items *)
Definition draft_ok (d : MailDraft) : Prop := forall k it, d_items d !! k = Some it -> pi_guid it = k.
Lemma draft_guids d : draft_ok d -> pi_guid <$> draft_items d = skeys (d_items d).
Proof.
  intros H. unfold draft_items. assert (Hk : forall k, k ∈ skeys (d_items d) -> is_Some (d_items d !! k)) by (intros k; apply elem_of_skeys).
  revert Hk. induction (skeys (d_items d)) as [|k l IH]; intros Hk; simpl; [done|]. destruct (Hk k) as [it E]; [left|].
  rewrite E. simpl. rewrite (H _ _ E). f_equal. apply IH. intros k' ?. apply Hk. by right.
Qed.
Lemma draft_ok_none : draft_ok no_draft.
Proof. intros k it. simpl. by rewrite lookup_empty. Qed.
Lemma draft_ok_add it d : draft_ok d -> draft_ok (Draft_AddItem it d).
Proof. intros H k it'. simpl. rewrite lookup_insert. case_decide; [by intros [= <-]|apply H]. Qed.
Lemma draft_ok_saved d : draft_ok d -> draft_ok (set_d_items (saved_item <$> d_items d) d).
Proof. intros H k it. simpl. rewrite lookup_fmap. destruct (d_items d !! k) as [it'|] eqn:E; [|done]. intros [= <-]. exact (H _ _ E). Qed.

Definition arrivals (d : MailDraft) (to id : Z) : list (Z * spot) :=
  ((fun it => (pi_guid it, InRow id)) <$> draft_items d) ++ ((fun it => (pi_guid it, InBox to id)) <$> draft_items d).
Lemma elem_of_arrivals d to id k x : draft_ok d ->
  (k, x) ∈ arrivals d to id <-> is_Some (d_items d !! k) /\ (x = InRow id \/ x = InBox to id).
Proof.
  intros H. rewrite <- elem_of_skeys, <- (draft_guids d H). unfold arrivals. rewrite elem_of_app, !list_elem_of_fmap. split.
  - intros [(it & [= -> ->] & Hin)|(it & [= -> ->] & Hin)]; (split; [by exists it|]); [by left|by right].
  - intros [(it & -> & Hin) [-> | ->]]; [left|right]; by exists it.
Qed.
Lemma functional_arrivals d to id : draft_ok d -> functional (arrivals d to id).
Proof. intros H k x y [_ Hx]%elem_of_arrivals [_ Hy]%elem_of_arrivals; [|done..]. by destruct Hx as [-> | ->], Hy as [-> | ->]. Qed.
Lemma dom_insert_row {V} (k : Z * Z) (x : V) (m : gmap (Z * Z) V) : dom (insert_row k x m) = {[k]} ∪ dom m.
Proof.
  unfold insert_row. destruct (m !! k) eqn:E; [|by rewrite dom_insert_L].
  apply elem_of_dom_2 in E. set_solver.
Qed.
Lemma insert_mail_items_view id to l w :
  iview (foldl (insert_mail_item id to) w l) = with_rows (list_to_set ((fun it => (id, pi_guid it)) <$> l) ∪ iv_rows (iview w)) (iview w).
Proof.
  revert w. induction l as [|it l IH]; intros w; simpl.
  - unfold with_rows, iview. simpl. by rewrite union_empty_l_L.
  - rewrite IH. unfold with_rows, iview. simpl. rewrite dom_insert_row. f_equal. set_solver.
Qed.
Lemma mail_of_infos id d to sn c t e : infos_view (mail_of id d to sn c t e) = (id, pi_guid <$> draft_items d).
Proof.
  unfold mail_of, infos_view. set (m0 := mkMail _ _ _ _ _ _ _ _ _ _ _ _ _ _ _ _ _). 
  assert (H : forall l m, ml_messageID (foldl (fun m it => Mail_AddItem (pi_guid it) (it_entry (pi_item it)) m) m l) = ml_messageID m /\
    mi_guid <$> ml_items (foldl (fun m it => Mail_AddItem (pi_guid it) (it_entry (pi_item it)) m) m l) = (mi_guid <$> ml_items m) ++ (pi_guid <$> l)).
  { induction l as [|it l IH]; intros m; simpl; [by rewrite app_nil_r|]. destruct (IH (Mail_AddItem (pi_guid it) (it_entry (pi_item it)) m)) as [-> ->].
    simpl. split; [done|]. rewrite fmap_app, <- app_assoc. done. }
  destruct (H (draft_items d) m0) as [-> ->]. done.
Qed.
Lemma AddMItems_view its p :
  let p' := foldl (fun p it => AddMItem it p) p its in
  pv_bags (player_items p') = pv_bags (player_items p) /\ pv_box (player_items p') = pv_box (player_items p) /\
  (regular_player (player_items p) -> regular_player (player_items p')).
Proof.
  cbv zeta. revert p. induction its as [|it its IH]; intros p; [done|]. destruct (IH (AddMItem it p)) as (H1 & H2 & H3).
  cbn [foldl]. rewrite H1, H2. repeat (split; [done|]). intros [R1 R2]. apply H3. split; [done|]. intros k k'. simpl. rewrite fmap_insert, lookup_insert.
  case_decide; [by intros [= <-]|apply R2].
Qed.
Lemma iview_AddNewMailDeliverTime g t w : iview (AddNewMailDeliverTime g t w) = iview w.
Proof.
  unfold AddNewMailDeliverTime. case_if; [by apply (iview_upd_keep g _ w)|]. apply iview_upd_keep. intros p _. by case_if.
Qed.
Lemma arrive_SendMailTo d to sn c dd ed w :
  draft_ok d -> d_returnSourceMailId d = 0 -> regular (iview w) ->
  arrive (arrivals d to (u32 (pw_mailIds w))) (iview w) (iview (SendMailTo d to sn c dd ed w)).
Proof.
  intros Hd Hr Hreg. unfold SendMailTo. rewrite Hr. simpl. set (id := u32 (pw_mailIds w)). set (S := arrivals d to id).
  set (t := pw_time w + dd). set (e := t + expire_delay_of d sn ed). set (w0 := set_pw_mail _ _).
  set (w1 := foldl (insert_mail_item id to) w0 (draft_items d)).
  assert (A1 : arrive S (iview w) (iview w1)).
  { unfold w1. rewrite insert_mail_items_view. split; [|simpl; lia|done]. intros k P H. destruct H as [| |id' Hin| |].
    - left. by eapply in_bags.
    - left. by eapply in_char.
    - simpl in Hin. apply elem_of_union in Hin as [Hin|Hin]; [|left; by apply in_row]. right.
      apply elem_of_list_to_set, list_elem_of_fmap in Hin as (it & [= -> ->] & Hin). apply elem_of_app. left.
      apply list_elem_of_fmap. by exists it.
    - left. by eapply in_box.
    - left. by eapply in_sale. }
  destruct (FindMasterPlayer w1 to) as [q|]; [|done].
  eapply arrive_trans; [exact A1| |intros x [?|Hx]; [done|exact Hx]].
  rewrite <- (iview_AddNewMailDeliverTime to t w1). set (w2 := AddNewMailDeliverTime to t w1).
  apply arrive_upd; [|unfold w2; rewrite iview_AddNewMailDeliverTime; by apply A1].
  intros p Hp Hrp. destruct (AddMItems_view (draft_items d) (AddMail (mail_of id d to sn c t e) p)) as (-> & -> & R). split; [|split].
  - apply R. destruct Hrp as [R1 R2]. split; [|done]. intros id' infos. simpl. rewrite mail_of_infos.
    intros [[= -> ->]|Hin]%elem_of_cons; [rewrite (draft_guids d Hd); apply NoDup_skeys|by eapply R1].
  - intros pos k E. by left.
  - intros id' infos k. simpl. rewrite mail_of_infos. intros [[= -> ->]|Hin]%elem_of_cons Hk; [|left; by exists infos].
    right. unfold S. apply elem_of_arrivals; [done|]. split; [|by right].
    apply elem_of_skeys. by rewrite <- draft_guids.
Qed.

(** What the operations do to the places of items. *)

Lemma iview_Item_SaveToDB it w : iview (Item_SaveToDB it w) = iview w.
Proof. unfold Item_SaveToDB. by destruct (pi_state it). Qed.
Lemma iview_SaveInventoryAndGoldToDB g w : iview (SaveInventoryAndGoldToDB g w) = iview w.
Proof.
  unfold SaveInventoryAndGoldToDB. destruct (pw_players w !! g) as [p|]; [|done].
  rewrite iview_upd_keep.
  - rewrite foldl_keep by done. rewrite foldl_keep; [done|]. intros. apply iview_Item_SaveToDB.
  - intros q _. unfold player_items. simpl. f_equal. rewrite <- map_fmap_compose. by apply map_fmap_ext.
Qed.
Lemma iview_MailDraft_text s t w : iview (snd (MailDraft_text s t w)) = iview w.
Proof. unfold MailDraft_text. by case_if. Qed.
Lemma MailDraft_text_items s t w : d_items (fst (MailDraft_text s t w)) = ∅.
Proof. unfold MailDraft_text. by case_if. Qed.

(** ** Letters without items *)
Lemma stay_SendMailTo d to sn c dd ed w :
  d_items d = ∅ -> d_returnSourceMailId d = 0 -> regular (iview w) -> stay (iview w) (iview (SendMailTo d to sn c dd ed w)).
Proof.
  intros Hd Hr Hreg. assert (Hok : draft_ok d) by (intros k it; by rewrite Hd, lookup_empty).
  pose proof (arrive_SendMailTo d to sn c dd ed w Hok Hr Hreg) as A. unfold arrivals, draft_items in A. by rewrite Hd in A.
Qed.

(** ** Mailboxes *)
Lemma stay_change_mail me id f w :
  (forall m, ml_messageID (f m) = ml_messageID m) -> (forall m, mi_guid <$> ml_items (f m) `sublist_of` mi_guid <$> ml_items m) ->
  regular (iview w) -> stay (iview w) (iview (change_mail me id f w)).
Proof.
  intros Hid Hf Hreg. apply stay_upd; [|done]. intros p _. split; [done|]. split; [|done]. intros k infos. simpl.
  rewrite <- list_fmap_compose. intros (m & [= -> ->] & Hin)%list_elem_of_fmap. exists (mi_guid <$> ml_items m). split.
  - apply list_elem_of_fmap. exists m. split; [|done]. unfold infos_view. case_if; [by rewrite Hid|done].
  - case_if; [apply Hf|done].
Qed.
Lemma stay_RemoveMail me id w : regular (iview w) -> stay (iview w) (iview (upd_pp me (RemoveMail id) w)).
Proof.
  intros Hreg. apply stay_upd; [|done]. intros p _. split; [done|]. split; [|done]. intros k infos Hin. exists infos.
  split; [|done]. simpl in *. eapply elem_of_sublist; [exact Hin|]. apply fmap_sublist, sublist_erase.
Qed.
Lemma stay_RemoveMItems {A} me (f : A -> Z) l w :
  regular (iview w) -> stay (iview w) (iview (upd_pp me (fun p => foldl (fun p i => RemoveMItem (f i) p) p l) w)).
Proof.
  intros Hreg. apply stay_upd; [|done]. intros p _.
  assert (H : forall l p, let p' := foldl (fun p i => RemoveMItem (f i) p) p l in
    pv_bags (player_items p') = pv_bags (player_items p) /\ pv_box (player_items p') = pv_box (player_items p) /\
    (forall k k', pv_mitems (player_items p') !! k = Some k' -> pv_mitems (player_items p) !! k = Some k')).
  { clear. intros l. induction l as [|i l IH]; intros p; [done|]. cbv zeta. cbn [foldl].
    destruct (IH (RemoveMItem (f i) p)) as (-> & -> & H). repeat (split; [done|]). intros k k' E. apply H in E. simpl in E.
    rewrite fmap_delete in E. by apply lookup_delete_Some in E as [_ E]. }
  destruct (H l p) as (-> & -> & H3). split; [done|]. split; [|done]. intros id infos ?. by exists infos.
Qed.
Lemma stay_RemoveMItem me k w : regular (iview w) -> stay (iview w) (iview (upd_pp me (RemoveMItem k) w)).
Proof. apply (stay_RemoveMItems me (fun _ : unit => k) [tt]). Qed.
(** Nothing is left in a letter that was discarded. *)
Lemma discarded me p id m w k x :
  view_ok (gview w) -> pw_players w !! me = Some p -> GetMail p id = Some m ->
  item_in (iview (upd_pp me (RemoveMail id) (delete_mail_items id (soft_delete id w)))) k x -> place_of x <> Letter id.
Proof.
  intros Hok Hp [Hm <-]%GetMail_elem. set (id := ml_messageID m). intros H. destruct H as [| |id' H|g t id' infos H1 H2 H3|]; simpl; try done.
  - intros [= ->]. simpl in H. apply elem_of_dom in H as [r H]. apply map_lookup_filter_Some in H as [_ H]. by apply H.
  - intros [= ->]. rewrite lookup_ivp in H1. simpl in H1. rewrite lookup_alter in H1.
    destruct (letters_row _ _ _ _ Hok Hp Hm) as (r & Er & Hv). case_decide.
    + subst g. rewrite Hp in H1. injection H1 as <-. simpl in H2.
      apply (erase_mail_gone id _ (letters_distinct _ _ _ Hok Hp)). apply list_elem_of_fmap in H2 as (m' & [= Hid _] & H2).
      apply list_elem_of_fmap. by exists m'.
    + destruct (pw_players w !! g) as [q|] eqn:Hq; [|done]. injection H1 as <-.
      apply list_elem_of_fmap in H2 as (m' & [= Hid _] & H2). destruct (letters_row _ _ _ _ Hok Hq H2) as (r' & Er' & Hv').
      fold id in Er. rewrite Hid in Er. rewrite Er in Er'. injection Er' as <-. congruence.
Qed.

(** ** Saving *)
Lemma iview_soft_delete id w : iview (soft_delete id w) = iview w.
Proof. done. Qed.
Lemma stay_save_mail w m : stay (iview w) (iview (save_mail w m)).
Proof.
  unfold save_mail. destruct (ml_state m); [apply arrive_same| |].
  - apply (foldl_rel (fun w w' => stay (iview w) (iview w')) _ (ml_removedItems m)) with (a := sql_mail (ml_messageID m) (save_changed m) w);
      [intros; apply arrive_same|intros a b c; apply stay_then|intros; apply stay_delete_mail_items_of].
  - cbv zeta. match goal with |- arrive _ _ (iview (delete_mail_items _ (soft_delete _ ?x))) => assert (E : iview x = iview w) end.
    { repeat case_if; try done; apply (foldl_keep iview); done. }
    rewrite <- E. apply (stay_delete_mail_items (ml_messageID m) (soft_delete (ml_messageID m) _)).
Qed.
Lemma stay_SaveMails g w : regular (iview w) -> stay (iview w) (iview (SaveMails g w)).
Proof.
  intros Hreg. unfold SaveMails. destruct (pw_players w !! g) as [p|]; [|apply arrive_same]. case_if; [apply arrive_same|].
  set (w1 := foldl save_mail w (pp_mail p)). assert (A : stay (iview w) (iview w1)).
  { unfold w1. apply (foldl_rel (fun w w' => stay (iview w) (iview w'))); [intros; apply arrive_same|intros a b c; apply stay_then|].
    intros; apply stay_save_mail. }
  eapply then_stay; [exact A|]. apply stay_upd; [|by apply A]. intros q _. split; [done|]. split; [|done].
  intros id infos Hin. exists infos. split; [|done]. simpl in Hin |- *. rewrite <- list_fmap_compose in Hin.
  assert (Hs : (infos_view ∘ saved_mail) <$> List.filter kept_mail (pp_mail q) `sublist_of` infos_view <$> pp_mail q).
  { assert (forall m, (infos_view ∘ saved_mail) m = infos_view m) as E by (intros m; unfold compose, saved_mail; by case_decide).
    rewrite (list_fmap_ext _ infos_view _ (fun _ m _ => E m)). apply fmap_sublist, sublist_list_filter. }
  by eapply elem_of_sublist.
Qed.
(** A changed letter's removed items leave the table. *)
Lemma save_mail_rows_shrink l w : dom (pw_mail_items (foldl save_mail w l)) ⊆ dom (pw_mail_items w).
Proof.
  revert w. induction l as [|m l IH]; intros w; [done|]. cbn [foldl]. etransitivity; [apply IH|].
  intros [id k] Hin. apply (row_in (iview w)). eapply stay_in; [apply (stay_save_mail w m)|]. by apply in_row.
Qed.
Lemma removed_rows l : forall w k id, k ∈ l -> (id, k) ∉ dom (pw_mail_items (foldl (fun w guid => delete_mail_items_of guid w) w l)).
Proof.
  intros w k id Hin. assert (H : forall l w, dom (pw_mail_items (foldl (fun w guid => delete_mail_items_of guid w) w l)) ⊆ dom (pw_mail_items w)).
  { clear. intros l. induction l as [|g l IH]; intros w; simpl; [done|]. etransitivity; [apply IH|]. simpl. apply dom_filter_subseteq. }
  revert w. induction l as [|g l IH]; intros w; [by apply elem_of_nil in Hin|]. simpl. apply elem_of_cons in Hin as [->|Hin]; [|by apply IH].
  intros Hd%H. simpl in Hd. apply elem_of_dom in Hd as [r Hr]. apply map_lookup_filter_Some in Hr as [_ Hr]. by apply Hr.
Qed.
Lemma save_removed g p m k id w :
  pw_players w !! g = Some p -> pp_mailsUpdated p = true -> m ∈ pp_mail p -> ml_state m = MAIL_STATE_CHANGED -> k ∈ ml_removedItems m ->
  (id, k) ∉ dom (pw_mail_items (SaveMails g w)).
Proof.
  intros Hp Hu Hm Hs Hk. unfold SaveMails. rewrite Hp, Hu. simpl. apply list_elem_of_split in Hm as (l1 & l2 & ->).
  rewrite foldl_app. simpl. intros Hin%save_mail_rows_shrink. revert Hin. unfold save_mail at 1. rewrite Hs. cbv zeta. by apply removed_rows.
Qed.

(** ** Bags *)
Section bags.
Context {env : PostEnv}.

Lemma touched_guid it : pi_guid (touched it) = pi_guid it.
Proof. unfold touched. by case_decide. Qed.
Lemma arrive_put_item_at g pos it w :
  regular (iview w) -> arrive [(pi_guid it, InBags g pos)] (iview w) (iview (put_item_at g pos it w)).
Proof.
  intros Hreg. apply arrive_upd; [|done]. intros p _ Hr. case_if; [|split; [done|split; [by left|intros; left; by eexists]]].
  split; [exact Hr|]. split; [|intros; left; by eexists]. intros pos' k. simpl. rewrite fmap_insert, lookup_insert. case_decide; [|by left].
  subst. intros [= <-]. right. apply list_elem_of_singleton. by rewrite touched_guid.
Qed.
Lemma stay_new_guid w n : iv_guids (iview w) <= n -> stay (iview w) (mkIV (iv_players (iview w)) (iv_chars (iview w)) (iv_rows (iview w)) (iv_aitems (iview w)) n).
Proof.
  intros Hn. split; [|done|done]. intros k x H. left. destruct H; [by eapply in_bags|by eapply in_char|by eapply in_row|by eapply in_box|by eapply in_sale].
Qed.
Lemma CreateItem_spec e c g w n w' : CreateItem e c g w = (Some n, w') ->
  pi_guid n = u32 (pw_itemGuids w) /\ pw_itemGuids w' = pw_itemGuids w + 1 /\ stay (iview w) (iview w').
Proof.
  unfold CreateItem. case_if; [done|]. destruct (item_template e) as [t|]; [|done]. intros [= <- <-].
  split; [done|]. split; [done|]. apply stay_new_guid. simpl. lia.
Qed.
Lemma CreateItem_none e c g w w' : CreateItem e c g w = (None, w') -> w' = w.
Proof. unfold CreateItem. case_if; [by intros [= <-]|]. destruct (item_template e); [done|]. by intros [= <-]. Qed.
Lemma CloneItem_spec g c it w n w' : CloneItem g c it w = (Some n, w') ->
  pi_guid n = u32 (pw_itemGuids w) /\ pw_itemGuids w' = pw_itemGuids w + 1 /\ stay (iview w) (iview w').
Proof.
  unfold CloneItem. destruct (CreateItem _ c g w) as [[m|] w1] eqn:E; [|done]. intros [= <- <-]. simpl. by eapply CreateItem_spec.
Qed.
Lemma CloneItem_none g c it w w' : CloneItem g c it w = (None, w') -> w' = w.
Proof. unfold CloneItem. destruct (CreateItem _ c g w) as [[m|] w1] eqn:E; [done|]. intros [= <-]. by eapply CreateItem_none. Qed.

(** What a store puts down: the item itself or a copy with a new guid. *)
Lemma arrive__StoreItem g d it b w : regular (iview w) ->
  exists S, arrive S (iview w) (iview (_StoreItem g d it b w)) /\
    (S = [] \/ exists k pos, S = [(k, InBags g pos)] /\
       ((b = false /\ k = pi_guid it) \/ (b = true /\ k = u32 (pw_itemGuids w) /\ pw_itemGuids (_StoreItem g d it b w) = pw_itemGuids w + 1))).
Proof.
  intros Hreg. destruct d as [[bag slot] n]. unfold _StoreItem. destruct (p ← pw_players w !! g; item_by_pos p (bag, slot)) as [it2|] eqn:E2.
  - exists []. split; [|by left]. apply stay_upd; [|done]. intros p Hp.
    assert (Hb : pp_items p !! (bag, slot) = Some it2).
    { rewrite Hp in E2. simpl in E2. unfold item_by_pos in E2. repeat (case_if; try done); bool_prop; subst; try done.
      by destruct (pp_items p !! (INVENTORY_SLOT_BAG_0, bag)). }
    assert (Hv : forall q, pv_bags (player_items (if b || bool_decide (pi_state it = ITEM_NEW) then q else set_pp_removed (pp_removed q ++ [pi_guid it]) q)) = pv_bags (player_items q) /\
      pv_box (player_items (if b || bool_decide (pi_state it = ITEM_NEW) then q else set_pp_removed (pp_removed q ++ [pi_guid it]) q)) = pv_box (player_items q) /\
      pv_mitems (player_items (if b || bool_decide (pi_state it = ITEM_NEW) then q else set_pp_removed (pp_removed q ++ [pi_guid it]) q)) = pv_mitems (player_items q))
      by (intros q; by case_if).
    cbv zeta. match goal with |- context [set_pp_items ?x p] => destruct (Hv (set_pp_items x p)) as (-> & -> & ->) end.
    split; [|split; [|done]].
    + intros pos k. simpl. rewrite fmap_insert, lookup_insert. destruct (decide ((bag, slot) = pos)) as [<-|]; [|done]. intros [= <-].
      rewrite lookup_fmap, Hb. simpl. f_equal. by rewrite touched_guid.
    + intros id infos ?. by exists infos.
  - destruct b.
    + destruct (CloneItem g n it w) as [[c|] w1] eqn:Ec.
      * destruct (CloneItem_spec _ _ _ _ _ _ Ec) as (Hg & Hn & Hs). exists [(pi_guid c, InBags g (bag, slot))]. split.
        -- eapply stay_then; [exact Hs|]. apply arrive_put_item_at. by apply Hs.
        -- right. exists (pi_guid c), (bag, slot). split; [done|]. right. done.
      * exists []. split; [|by left]. apply CloneItem_none in Ec as ->. apply arrive_same.
    + exists [(pi_guid it, InBags g (bag, slot))]. split; [exact (arrive_put_item_at g (bag, slot) (upd_stored (set_it_count n) it) w Hreg)|].
      right. exists (pi_guid it), (bag, slot). split; [done|]. by left.
Qed.
Lemma arrive_StoreItem g dest it w : regular (iview w) -> 0 <= pi_guid it < pw_itemGuids w -> pw_itemGuids (StoreItem g dest it w) <= 2 ^ 32 ->
  exists S, arrive S (iview w) (iview (StoreItem g dest it w)) /\ functional S /\
    (forall k x, (k, x) ∈ S -> (k = pi_guid it \/ pw_itemGuids w <= k < pw_itemGuids (StoreItem g dest it w)) /\ exists pos, x = InBags g pos).
Proof.
  revert w. induction dest as [|d dest IH]; intros w Hreg Hk Hmax.
  { exists []. split; [apply arrive_same|]. by split; [intros ? ? ? ?%not_elem_of_nil|intros ? ? ?%not_elem_of_nil]. }
  destruct dest as [|d' dest].
  - destruct (arrive__StoreItem g d it false w Hreg) as (S & A & HS). exists S. split; [exact A|].
    destruct HS as [->|(k & pos & -> & [[_ ->]|[? _]])]; [|split|done].
    + by split; [intros ? ? ? ?%not_elem_of_nil|intros ? ? ?%not_elem_of_nil].
    + by intros k x y [= -> ->]%list_elem_of_singleton [= ->]%list_elem_of_singleton.
    + intros k x [= -> ->]%list_elem_of_singleton. split; [by left|by eexists].
  - destruct (arrive__StoreItem g d it true w Hreg) as (S & A & HS).
    change (StoreItem g (d :: d' :: dest) it w) with (StoreItem g (d' :: dest) it (_StoreItem g d it true w)) in *.
    set (w1 := _StoreItem g d it true w) in *. pose proof (ar_guids _ _ _ A) as Hg. simpl in Hg.
    destruct (IH w1) as (S2 & A2 & F2 & H2); [by apply A|lia|done|]. assert (Hg2 : pw_itemGuids w1 <= pw_itemGuids (StoreItem g (d' :: dest) it w1)) by apply (ar_guids _ _ _ A2).
    exists (S ++ S2). split; [|split].
    + eapply arrive_trans; [exact A|exact A2|]. intros x. by rewrite elem_of_app.
    + intros k x y [Hx|Hx]%elem_of_app [Hy|Hy]%elem_of_app; [| | |by eapply F2].
      * destruct HS as [->|(k0 & pos & -> & _)]; [by apply not_elem_of_nil in Hx|].
        apply list_elem_of_singleton in Hx as [= -> ->]. by apply list_elem_of_singleton in Hy as [= ->].
      * destruct HS as [->|(k0 & pos & -> & [[? _]|(_ & -> & Hn)])]; [by apply not_elem_of_nil in Hx|done|].
        apply list_elem_of_singleton in Hx as [= -> ->]. destruct (H2 _ _ Hy) as [[E|E] _].
        -- rewrite u32_small in E by lia. lia.
        -- rewrite u32_small in E by lia. lia.
      * destruct HS as [->|(k0 & pos & -> & [[? _]|(_ & -> & Hn)])]; [by apply not_elem_of_nil in Hy|done|].
        apply list_elem_of_singleton in Hy as [= -> ->]. destruct (H2 _ _ Hx) as [[E|E] _].
        -- rewrite u32_small in E by lia. lia.
        -- rewrite u32_small in E by lia. lia.
    + intros k x [Hx|Hx]%elem_of_app.
      * destruct HS as [->|(k0 & pos & -> & [[? _]|(_ & -> & Hn)])]; [by apply not_elem_of_nil in Hx|done|].
        apply list_elem_of_singleton in Hx as [= -> ->]. rewrite u32_small by lia. split; [right; lia|by eexists].
      * destruct (H2 _ _ Hx) as [[?|?] ?]; (split; [|done]); [by left|right; lia].
Qed.
Lemma stay_new_in_inventory g k w : iview (upd_pp g (new_in_inventory k) w) = iview w.
Proof.
  apply iview_upd_keep. intros p _. unfold player_items, new_in_inventory. simpl. f_equal. rewrite <- map_fmap_compose.
  apply map_fmap_ext. intros pos it _. simpl. by case_if.
Qed.
Lemma guids_StoreItem g dest it w : pw_itemGuids w <= pw_itemGuids (StoreItem g dest it w).
Proof.
  assert (H1 : forall d b w, pw_itemGuids w <= pw_itemGuids (_StoreItem g d it b w)).
  { clear. intros [[bag slot] n] b w. unfold _StoreItem. destruct (p ← pw_players w !! g; item_by_pos p (bag, slot)); [simpl; lia|].
    destruct b; [|simpl; lia]. destruct (CloneItem g n it w) as [[c|] w1] eqn:E.
    - apply CloneItem_spec in E as (_ & E & _). simpl. lia.
    - apply CloneItem_none in E as ->. simpl. lia. }
  revert w. induction dest as [|d dest IH]; intros w; [simpl; lia|]. destruct dest as [|d' dest]; [apply H1|].
  change (pw_itemGuids w <= pw_itemGuids (StoreItem g (d' :: dest) it (_StoreItem g d it true w))).
  pose proof (IH (_StoreItem g d it true w)). pose proof (H1 d true w). lia.
Qed.
End bags.
