(* ===== verification/PostItemsSteps.v ===== *)
(** Every operation keeps every item in one place. *)

From Stdlib Require Import Floats.SpecFloat.
From S2P Require Import Prelude CString GuildBankTypes GuildBankItems PostTypes Mail MailHandlers Auction AuctionHandlers PostSteps PostGold PostGoldSteps PostItems.

Abbreviation kept w w' := (items_ok (iview w) -> items_ok (iview w')).
(** Branches that leave the items alone. *)
Ltac same_items := first [assumption | match goal with H : items_ok (iview _) |- items_ok (iview _) => exact H end].

Section items.
Context {env : PostEnv}.

Lemma item_by_pos_items p pos it : item_by_pos p pos = Some it -> pp_items p !! pos = Some it.
Proof.
  destruct pos as [bag slot]. unfold item_by_pos. repeat (case_if; try done); bool_prop; subst; try done.
  by destruct (pp_items p !! (INVENTORY_SLOT_BAG_0, bag)).
Qed.
Lemma GetItemByGuid_items p g pos it : GetItemByGuid p g = Some (pos, it) -> pp_items p !! pos = Some it /\ pi_guid it = g.
Proof.
  unfold GetItemByGuid. intros H. assert (Hin : (pos, it) ∈ omap (fun pos => it ← item_by_pos p pos; if pi_guid it =? g then Some (pos, it) else None) search_order).
  { destruct (omap _ search_order) as [|x l]; [done|]. injection H as <-. left. }
  apply list_elem_of_omap in Hin as (pos' & _ & H'). destruct (item_by_pos p pos') as [it'|] eqn:E; [|done]. simpl in H'.
  case_if; [|done]. injection H' as <- <-. split; [by apply item_by_pos_items|lia].
Qed.
(** What was taken out of the bags is nowhere. *)
Lemma taken_out me p pos it w x :
  items_ok (iview w) -> pw_players w !! me = Some p -> pp_items p !! pos = Some it ->
  ~ item_in (iview (MoveItemFromInventory me pos w)) (pi_guid it) x.
Proof.
  intros Hok Hp Hit Hin. set (w' := MoveItemFromInventory me pos w) in *.
  assert (Hbag : item_in (iview w) (pi_guid it) (InBags me pos)).
  { apply (in_bags _ _ me pos (player_items p)); [by rewrite lookup_ivp, Hp|]. simpl. by rewrite lookup_fmap, Hit. }
  assert (Hs : stay (iview w) (iview w')).
  { apply stay_upd; [|by apply items_ok_regular]. intros q _. split; [|split; [intros ? infos ?; by exists infos|done]].
    intros pos' k. simpl. rewrite fmap_delete. by intros [_ E]%lookup_delete_Some. }
  pose proof (io_place _ Hok _ _ _ (stay_in _ _ _ _ Hs Hin) Hbag) as E.
  assert (Hc : pw_chars w !! me = None).
  { destruct (io_players _ Hok me (player_items p)) as [_ H]; [by rewrite lookup_ivp, Hp|]. simpl in H. rewrite lookup_fmap in H. by destruct (pw_chars w !! me). }
  destruct Hin as [g pos' t H1 H2|g pos' b H1 H2| | |]; simpl in E; try done; injection E as -> ->.
  - rewrite lookup_ivp in H1. unfold w' in H1. simpl in H1. rewrite lookup_alter_eq, Hp in H1. injection H1 as <-.
    simpl in H2. by rewrite fmap_delete, lookup_delete_eq in H2.
  - simpl in H1. by rewrite lookup_fmap, Hc in H1.
Qed.
Lemma iview_ModifyMoney g d w : iview (upd_pp g (pp_ModifyMoney d) w) = iview w.
Proof. by apply iview_upd_keep. Qed.

(** ** Sending *)
Lemma mailed_item_bags me p r w pos it : mailed_item me p r w = Some (Some (pos, it)) -> pp_items p !! pos = Some it.
Proof.
  unfold mailed_item. case_if; [done|]. destruct (GetItemByGuid p (rq_itemGuid r)) as [[pos' it']|] eqn:E; [|done].
  apply GetItemByGuid_items in E as [E _]. repeat (case_if; [done|]). by intros [= <- <-].
Qed.
Lemma items_HandleSendMailCallback me r w : kept w (HandleSendMailCallback me r w).
Proof.
  intros Hok. unfold HandleSendMailCallback. destruct (GetPlayer w me) as [p|] eqn:Hp; [|same_items].
  apply GetPlayer_players in Hp. cbv zeta. case_if; [same_items|]. destruct (_ && _) eqn:Hmoney; [same_items|].
  case_if; [same_items|]. destruct (negb cfg_TwoSideMail && _ && _); [same_items|].
  destruct (mailed_item me p r w) as [item|] eqn:Hitem; [|same_items]. case_if; [same_items|]. case_if; [same_items|].
  set (w1 := SendMailResult _ _ _ _ _). set (w2 := upd_pp me (pp_ModifyMoney _) w1).
  assert (E2 : iview w2 = iview w) by (unfold w2; by rewrite iview_ModifyMoney).
  pose proof (iview_MailDraft_text (rq_subject r) (rq_body r) w2) as E3. pose proof (MailDraft_text_source (rq_subject r) (rq_body r) w2) as Hr.
  pose proof (MailDraft_text_items (rq_subject r) (rq_body r) w2) as Hd.
  assert (Hp3 : exists p3, pw_players (snd (MailDraft_text (rq_subject r) (rq_body r) w2)) !! me = Some p3 /\ pp_items p3 = pp_items p).
  { assert (Hpl : pw_players (snd (MailDraft_text (rq_subject r) (rq_body r) w2)) = pw_players w2) by (unfold MailDraft_text; by case_if).
    rewrite Hpl. exists (pp_ModifyMoney (i32 (- u32 (rq_money r + 30))) p). split; [|done]. unfold w2. simpl. by rewrite lookup_alter_eq, Hp. }
  destruct (MailDraft_text (rq_subject r) (rq_body r) w2) as [draft w3]. simpl in *. rewrite E2 in E3.
  assert (Hok3 : items_ok (iview w3)) by by rewrite E3. destruct item as [[pos it]|]; rewrite iview_SaveInventoryAndGoldToDB.
  - apply mailed_item_bags in Hitem. destruct Hp3 as (p3 & Hp3 & Hbag). rewrite <- Hbag in Hitem.
    assert (E4 : iview (hand_over me (rq_receiver r) pos it w3) = iview (MoveItemFromInventory me pos w3))
      by exact (iview_Item_SaveToDB it (MoveItemFromInventory me pos w3)).
    set (w4 := hand_over me (rq_receiver r) pos it w3) in *.
    assert (Hgone : forall x, ~ item_in (iview w4) (pi_guid it) x) by (intros x; rewrite E4; by eapply taken_out).
    assert (Hs : stay (iview w3) (iview w4)).
    { rewrite E4. apply stay_upd; [|by apply items_ok_regular]. intros q _. split; [|split; [intros ? infos ?; by exists infos|done]].
      intros pos' k. simpl. rewrite fmap_delete. by intros [_ E]%lookup_delete_Some. }
    assert (Hok4 : items_ok (iview w4)) by by eapply items_ok_stay. set (d := set_d_COD _ _).
    assert (Hdi : d_items d = {[pi_guid it := saved_item it]}) by (unfold d; simpl; by rewrite Hd).
    assert (Hdok : draft_ok d) by (intros k it'; rewrite Hdi; by intros [<- <-]%lookup_singleton_Some).
    eapply items_ok_arrive; [exact Hok4|apply arrive_SendMailTo; [exact Hdok|exact Hr|by apply items_ok_regular]|by apply functional_arrivals| |].
    + intros k x [[it' Hk] _]%elem_of_arrivals; [|done]. rewrite Hdi in Hk. apply lookup_singleton_Some in Hk as [<- _].
      assert (Hr' : 0 <= pi_guid it < iv_guids (iview w3)).
      { apply (io_guids _ Hok3 _ (InBags me pos)). apply (in_bags _ _ me pos (player_items p3)); [by rewrite lookup_ivp, Hp3|]. simpl. by rewrite lookup_fmap, Hitem. }
      pose proof (ar_guids _ _ _ Hs). pose proof (ar_guids _ _ _ (arrive_SendMailTo d (rq_receiver r) (mail_sender me p)
        (if rq_body r =s "" then MAIL_CHECK_MASK_COPIED else MAIL_CHECK_MASK_HAS_BODY)
        (if (rq_itemGuid r =? 0) || in_anonMail (pp_info p) then 0 else cfg_MailDelay) 0 w4 Hdok Hr (items_ok_regular _ Hok4))). lia.
    + intros k x y [[it' Hk] _]%elem_of_arrivals Hin _; [|done]. rewrite Hdi in Hk. apply lookup_singleton_Some in Hk as [<- _]. by destruct (Hgone y).
  - eapply items_ok_stay; [exact Hok3|]. apply stay_SendMailTo; [done|done|by apply items_ok_regular].
Qed.
Lemma items_at_mailbox me mb w f : (forall p, pw_players w !! me = Some p -> kept w (f p)) -> kept w (at_mailbox me mb w f).
Proof.
  intros H Hok. unfold at_mailbox. destruct (GetPlayer w me) as [p|] eqn:E; [|done]. case_if; [|done]. apply H; [|done]. by apply GetPlayer_players.
Qed.
Lemma items_HandleSendMail me mb name subject body item money COD w : kept w (HandleSendMail me mb name subject body item money COD w).
Proof.
  apply items_at_mailbox. intros p Hp Hok. cbv zeta.
  set (s := if negb (COD =? 0) && _ && _ then _ else subject). clearbody s. repeat (case_if; [same_items|]).
  destruct (name ← normalize_name name; pw_names w !! name) as [receiver|]; [|same_items]. repeat (case_if; [same_items|]).
  destruct (GetPlayer (IncreaseMailCount (in_account (pp_info p)) w) receiver) as [q|]; by apply items_HandleSendMailCallback.
Qed.

(** ** Reading, deleting, returning *)
Lemma iview_change_mail me id f w : (forall m, infos_view (f m) = infos_view m) -> iview (change_mail me id f w) = iview w.
Proof. intros H. apply iview_upd_keep. intros p _. exact (infos_upd_mail id f p H). Qed.
Lemma items_HandleMailMarkAsRead me mb id w : kept w (HandleMailMarkAsRead me mb id w).
Proof.
  apply items_at_mailbox. intros p Hp Hok. destruct (GetMail p id) as [m|]; [|same_items]. case_if; [same_items|].
  rewrite iview_change_mail; [by rewrite iview_upd_keep|]. intros m'. unfold read_mail. by case_if.
Qed.
Lemma items_HandleMailDelete me mb id w : kept w (HandleMailDelete me mb id w).
Proof.
  apply items_at_mailbox. intros p Hp Hok. cbv zeta. assert (E : iview (upd_pp me MarkMailsUpdated w) = iview w) by by apply iview_upd_keep.
  destruct (GetMail p id) as [m|]; [|by rewrite <- E in Hok]. case_if; [by rewrite <- E in Hok|].
  change (items_ok (iview (upd_pp me (upd_mail id (set_ml_state MAIL_STATE_DELETED)) (upd_pp me MarkMailsUpdated w)))).
  rewrite iview_upd_keep; [by rewrite E|]. intros q _. by apply infos_upd_mail.
Qed.
Lemma returned_items p l d :
  regular_player (player_items p) -> draft_ok d ->
  let d' := foldl (returned_item p) d l in
  draft_ok d' /\ d_returnSourceMailId d' = d_returnSourceMailId d /\
  forall k, is_Some (d_items d' !! k) -> is_Some (d_items d !! k) \/ k ∈ mi_guid <$> l.
Proof.
  intros [_ Hr]. revert d. induction l as [|i l IH]; intros d Hd; cbv zeta; cbn [foldl]; [split; [done|split; [done|by left]]|].
  assert (Hi : draft_ok (returned_item p d i) /\ d_returnSourceMailId (returned_item p d i) = d_returnSourceMailId d /\
    forall k, is_Some (d_items (returned_item p d i) !! k) -> is_Some (d_items d !! k) \/ k = mi_guid i).
  { unfold returned_item, GetMItem. destruct (pp_mitems p !! mi_guid i) as [it|] eqn:E; [|by split; [|split; [|left]]].
    assert (pi_guid it = mi_guid i) as Hg by (apply (Hr (mi_guid i)); simpl; by rewrite lookup_fmap, E).
    split; [by apply draft_ok_add|]. split; [done|]. intros k. simpl. rewrite lookup_insert. case_decide; [subst; by right|by left]. }
  destruct Hi as (H1 & H2 & H3). destruct (IH _ H1) as (I1 & I2 & I3). split; [done|]. split; [congruence|].
  intros k Hk. rewrite fmap_cons, elem_of_cons. destruct (I3 k Hk) as [Hk'|?]; [|tauto]. destruct (H3 k Hk'); tauto.
Qed.
Lemma return_draft_items p m : regular_player (player_items p) ->
  draft_ok (return_draft p m) /\ forall k, is_Some (d_items (return_draft p m) !! k) -> k ∈ mi_guid <$> ml_items m.
Proof.
  intros Hr. unfold return_draft. set (d0 := if negb (ml_mailTemplateId m =? 0) then _ else _).
  assert (H0 : draft_ok d0 /\ d_items d0 = ∅) by (unfold d0; case_if; split; try done; intros k it; by rewrite lookup_empty).
  destruct H0 as [H0 He]. destruct (ml_has_items m).
  - destruct (returned_items p (ml_items m) d0 Hr H0) as (I1 & _ & I3). split; [exact I1|]. intros k Hk.
    destruct (I3 k Hk) as [H|]; [|done]. rewrite He, lookup_empty in H. by destruct H.
  - split; [exact H0|]. intros k. change (d_items (set_d_money (ml_money m) d0)) with (d_items d0). rewrite He, lookup_empty. by intros [? ?].
Qed.
(** A letter is sent with items that are nowhere. *)
Lemma items_send_new d to sn c dd ed w :
  items_ok (iview w) -> draft_ok d -> d_returnSourceMailId d = 0 ->
  (forall k, is_Some (d_items d !! k) -> 0 <= k < pw_itemGuids w /\ forall x, ~ item_in (iview w) k x) ->
  items_ok (iview (SendMailTo d to sn c dd ed w)).
Proof.
  intros Hok Hd Hr Hk. pose proof (arrive_SendMailTo d to sn c dd ed w Hd Hr (items_ok_regular _ Hok)) as A.
  eapply items_ok_arrive; [exact Hok|exact A|by apply functional_arrivals| |].
  - intros k x [H _]%elem_of_arrivals; [|done]. pose proof (ar_guids _ _ _ A) as Hg. destruct (Hk k H) as [? _]. simpl in Hg |- *. lia.
  - intros k x y [H _]%elem_of_arrivals Hin _; [|done]. by destruct (proj2 (Hk k H) y).
Qed.
Lemma iview_return_items receiver l w : iview (foldl (return_item receiver) w l) = iview w.
Proof.
  apply foldl_keep. intros v it. exact (iview_Item_SaveToDB it v).
Qed.
Lemma items_HandleMailReturnToSender me mb id w : view_ok (gview w) -> kept w (HandleMailReturnToSender me mb id w).
Proof.
  intros Hv. apply items_at_mailbox. intros p Hp Hok. destruct (usable_mail p id (pw_time w)) as [m|] eqn:E; [|same_items].
  apply usable_mail_spec in E as [E _]. cbv zeta. set (w1 := upd_pp me (RemoveMail id) _).
  assert (S1 : stay (iview w) (iview w1)).
  { eapply then_stay; [exact (stay_delete_mail_items id (soft_delete id w))|]. apply stay_RemoveMail.
    by apply (stay_delete_mail_items id (soft_delete id w)), items_ok_regular. }
  assert (Hok1 : items_ok (iview w1)) by by eapply items_ok_stay.
  match goal with |- items_ok (iview (SendMailResult _ _ _ _ ?x)) => change (items_ok (iview x)) end.
  destruct (_ && _); [|done].
  set (w2 := if ml_has_items m then _ else w1). assert (S2 : stay (iview w1) (iview w2)).
  { unfold w2. case_if; [|apply arrive_same]. apply (stay_RemoveMItems me mi_guid). by apply items_ok_regular. }
  assert (Hok2 : items_ok (iview w2)) by by eapply items_ok_stay.
  assert (Hreg : regular_player (player_items p)) by (apply (io_players _ Hok me); by rewrite lookup_ivp, Hp).
  destruct (return_draft_items p m Hreg) as [Hd Hk]. destruct (return_draft_money p m) as [_ Hs].
  assert (Hnew : forall k, is_Some (d_items (return_draft p m) !! k) -> 0 <= k < pw_itemGuids w2 /\ forall x, ~ item_in (iview w2) k x).
  { intros k Hin%Hk. assert (Hbox : item_in (iview w) k (InBox me id)).
    { destruct (GetMail_elem _ _ _ E) as [Hm <-]. apply (in_box _ _ me (player_items p) _ (mi_guid <$> ml_items m)); [by rewrite lookup_ivp, Hp| |done].
      simpl. apply list_elem_of_fmap. by exists m. }
    split.
    - apply (io_guids _ Hok) in Hbox. pose proof (ar_guids _ _ _ S1). pose proof (ar_guids _ _ _ S2). simpl in *. lia.
    - intros x Hx. apply (stay_in _ _ _ _ S2) in Hx. apply (discarded me p id m w k x Hv Hp E Hx).
      by rewrite (io_place _ Hok _ _ _ (stay_in _ _ _ _ S1 Hx) Hbox). }
  unfold SendReturnToSender. case_if; [rewrite foldl_keep; done|].
  apply items_send_new; [by rewrite iview_return_items|by apply draft_ok_saved|done|]. intros k [it Hit].
  change ((saved_item <$> d_items (return_draft p m)) !! k = Some it) in Hit. rewrite lookup_fmap in Hit.
  apply fmap_Some in Hit as (it0 & Ek & _). destruct (Hnew k ltac:(by eexists)) as [Hg Hx]. rewrite iview_return_items. split; [|done].
  change (0 <= k < iv_guids (iview (foldl (return_item (ml_sender m)) w2 (draft_items (return_draft p m))))). by rewrite iview_return_items.
Qed.

(** ** Taking *)
Definition mbox (w : PW) (g : Z) : option (list Mail * bool) := (fun p => (pp_mail p, pp_mailsUpdated p)) <$> pw_players w !! g.
Lemma mbox_upd_keep g g' f w : (forall p, pp_mail (f p) = pp_mail p /\ pp_mailsUpdated (f p) = pp_mailsUpdated p) -> mbox (upd_pp g' f w) g = mbox w g.
Proof.
  intros H. unfold mbox. simpl. rewrite lookup_alter. case_decide; [subst|done]. destruct (pw_players w !! g) as [p|]; [|done].
  simpl. by destruct (H p) as [-> ->].
Qed.
Lemma mbox_players w w' g : pw_players w' = pw_players w -> mbox w' g = mbox w g.
Proof. intros E. unfold mbox. by rewrite E. Qed.
Lemma mbox_put_item_at g g' pos it w : mbox (put_item_at g' pos it w) g = mbox w g.
Proof. apply mbox_upd_keep. intros p. by case_if. Qed.
Lemma mbox__StoreItem g g' d it b w : mbox (_StoreItem g' d it b w) g = mbox w g.
Proof.
  unfold _StoreItem. destruct d as [[bag slot] n]. destruct (p ← pw_players w !! g'; item_by_pos p (bag, slot)) as [it2|].
  - apply mbox_upd_keep. intros p. by case_if.
  - destruct b; [|apply mbox_put_item_at]. destruct (CloneItem g' n it w) as [[c|] w1] eqn:Ec; [|by apply CloneItem_none in Ec as ->].
    rewrite mbox_put_item_at. apply mbox_players. unfold CloneItem, CreateItem in Ec. repeat case_match; by simplify_eq.
Qed.
Lemma mbox_StoreItem g g' dest it w : mbox (StoreItem g' dest it w) g = mbox w g.
Proof.
  revert w. induction dest as [|d dest IH]; intros w; [done|]. destruct dest as [|d' dest]; [apply mbox__StoreItem|].
  change (mbox (StoreItem g' (d' :: dest) it (_StoreItem g' d it true w)) g = mbox w g). by rewrite IH, mbox__StoreItem.
Qed.
Lemma mbox_SaveInventoryAndGoldToDB g g' w : mbox (SaveInventoryAndGoldToDB g' w) g = mbox w g.
Proof.
  unfold SaveInventoryAndGoldToDB. destruct (pw_players w !! g') as [p|]; [|done]. rewrite mbox_upd_keep by done.
  apply mbox_players. rewrite (foldl_keep pw_players) by done. rewrite (foldl_keep pw_players); [done|].
  intros v kv. unfold Item_SaveToDB. by destruct (pi_state (snd kv)).
Qed.
(** Letters only join a mailbox. *)
Lemma mail_AddNewMailDeliverTime to t w g p : pw_players w !! g = Some p ->
  exists p2, pw_players (AddNewMailDeliverTime to t w) !! g = Some p2 /\ pp_mail p2 = pp_mail p.
Proof.
  intros Hp. unfold AddNewMailDeliverTime. case_if; simpl; rewrite lookup_alter; (case_decide; [subst to; rewrite Hp|by exists p]); simpl; eexists; (split; [done|]); simpl; by try case_if.
Qed.
Lemma mail_SendMailTo d to sn c dd ed w g p : pw_players w !! g = Some p ->
  exists p', pw_players (SendMailTo d to sn c dd ed w) !! g = Some p' /\ pp_mail p ⊆ pp_mail p'.
Proof.
  intros Hp. unfold SendMailTo. cbv zeta.
  match goal with |- context [FindMasterPlayer ?x to] => assert (E : pw_players x = pw_players w) end.
  { assert (H : forall id l w0, pw_players (foldl (insert_mail_item id to) w0 l) = pw_players w0) by (intros; by apply foldl_keep).
    etransitivity; [apply H|]. simpl. by case_if. }
  unfold FindMasterPlayer. rewrite E. destruct (pw_players w !! to) as [q|]; [|exists p; by rewrite ?E].
  unfold upd_pp at 1. simpl. rewrite lookup_alter.
  match goal with |- context [pw_players (AddNewMailDeliverTime to ?t ?x)] =>
    assert (E2 : exists p2, pw_players (AddNewMailDeliverTime to t x) !! g = Some p2 /\ pp_mail p2 = pp_mail p);
      [apply mail_AddNewMailDeliverTime; by etransitivity; [apply (f_equal (lookup g) E)|]|] end.
  destruct E2 as (p2 & E2 & Hm). case_decide as Hg; [subst g|exists p2; by rewrite E2, Hm]. rewrite E2. simpl. eexists. split; [done|].
  assert (Hf : forall l q, pp_mail (foldl (fun p it => AddMItem it p) q l) = pp_mail q) by (intros; by apply foldl_keep).
  rewrite Hf. simpl. rewrite Hm. set_solver.
Qed.
Lemma erase_info_sub k l : mi_guid <$> erase_info k l `sublist_of` mi_guid <$> l.
Proof. induction l as [|i l IH]; simpl; [done|]. case_if; by constructor. Qed.
Lemma erase_info_gone k l : NoDup (mi_guid <$> l) -> k ∉ mi_guid <$> erase_info k l.
Proof.
  induction l as [|i l IH]; simpl; [intros _; apply not_elem_of_nil|]. rewrite NoDup_cons. intros [Hi Hn].
  destruct (Z.eqb_spec (mi_guid i) k) as [<-|Hne]; [done|]. rewrite fmap_cons, not_elem_of_cons. by split; [congruence|apply IH].
Qed.
Lemma pay_cod_facts me m w p : regular (iview w) -> pw_players w !! me = Some p ->
  stay (iview w) (iview (pay_cod me m w)) /\ exists p', pw_players (pay_cod me m w) !! me = Some p' /\ pp_mail p ⊆ pp_mail p'.
Proof.
  intros Hreg Hp. unfold pay_cod. case_if; [split; [apply arrive_same|by exists p]|]. cbv zeta. rewrite iview_ModifyMoney.
  set (d := set_d_money _ _). destruct (mail_SendMailTo d (ml_sender m) (MailSender_player me) MAIL_CHECK_MASK_COD_PAYMENT 0 0 w me p Hp) as (p' & Hp' & Hsub).
  case_if.
  - split; [by apply stay_SendMailTo|]. exists (pp_ModifyMoney (i32 (- COD_of m)) p'). simpl. by rewrite lookup_alter_eq, Hp'.
  - split; [apply arrive_same|]. exists (pp_ModifyMoney (i32 (- COD_of m)) p). simpl. by rewrite lookup_alter_eq, Hp.
Qed.
Lemma item_of_letter me p m w k :
  pw_players w !! me = Some p -> m ∈ pp_mail p -> k ∈ mi_guid <$> ml_items m -> item_in (iview w) k (InBox me (ml_messageID m)).
Proof.
  intros Hp Hm Hk. apply (in_box _ _ me (player_items p) _ (mi_guid <$> ml_items m)); [by rewrite lookup_ivp, Hp| |done].
  simpl. apply list_elem_of_fmap. by exists m.
Qed.
Lemma letter_of_item w k g id : item_in (iview w) k (InBox g id) ->
  exists p m, pw_players w !! g = Some p /\ m ∈ pp_mail p /\ ml_messageID m = id /\ k ∈ mi_guid <$> ml_items m.
Proof.
  intros H. remember (InBox g id) as x eqn:Ex. destruct H as [| | |g' t id' infos H1 H2 H3|]; try done. injection Ex as -> ->.
  rewrite lookup_ivp in H1. destruct (pw_players w !! g) as [p|]; [|done]. injection H1 as <-.
  apply list_elem_of_fmap in H2 as (m & [= -> ->] & H2). by exists p, m.
Qed.
(** The mailbox after an item was taken out of a letter. *)
Lemma taken_from_box me id k w : regular (iview w) -> ~ item_in (iview (change_mail me id (take_out k) w)) k (InBox me id).
Proof.
  intros Hreg (p & m & Hp & Hm & Hid & Hk)%letter_of_item. simpl in Hp. rewrite lookup_alter_eq in Hp.
  destruct (pw_players w !! me) as [q|] eqn:Hq; [|done]. injection Hp as <-. simpl in Hm. apply list_elem_of_fmap in Hm as (m0 & -> & Hm0).
  destruct (Z.eqb_spec (ml_messageID m0) id) as [E|E]; [|done]. simpl in Hk. revert Hk. apply erase_info_gone.
  apply (proj1 Hreg me (player_items q)) with (id := ml_messageID m0); [by rewrite lookup_ivp, Hq|]. simpl. apply list_elem_of_fmap. by exists m0.
Qed.
Lemma items_at_mailbox_bounded me mb w f :
  (forall p, pw_players w !! me = Some p -> pw_itemGuids (f p) <= 2 ^ 32 -> kept w (f p)) ->
  pw_itemGuids (at_mailbox me mb w f) <= 2 ^ 32 -> kept w (at_mailbox me mb w f).
Proof.
  unfold at_mailbox. destruct (GetPlayer w me) as [p|] eqn:E; [|done]. case_if; [|done]. intros H. apply H. by apply GetPlayer_players.
Qed.
Definition take_item (me id k : Z) (m : Mail) (dest : list (Z * Z * Z)) (it : PostItem) (w : PW) : PW :=
  SaveMails me (SaveInventoryAndGoldToDB me (MoveItemToInventory me dest (saved_item it)
    (upd_pp me (RemoveMItem (pi_guid it)) (change_mail me id (take_out k) (pay_cod me m w))))).
Lemma items_take_item me p m dest it w : view_ok (gview w) -> items_ok (iview w) ->
  pw_players w !! me = Some p -> m ∈ pp_mail p -> pi_guid it ∈ mi_guid <$> ml_items m ->
  pw_itemGuids (take_item me (ml_messageID m) (pi_guid it) m dest it w) <= 2 ^ 32 ->
  items_ok (iview (take_item me (ml_messageID m) (pi_guid it) m dest it w)).
Proof.
  intros Hv Hok Hp Hm Hk. set (k := pi_guid it) in *. set (id := ml_messageID m). unfold take_item.
  set (w1 := pay_cod me m w). set (w2 := change_mail me id (take_out k) w1). set (w3 := upd_pp me (RemoveMItem k) w2).
  set (w4 := SaveInventoryAndGoldToDB me _). set (w5 := SaveMails me w4). intros Hmax.
  destruct (pay_cod_facts me m w p (items_ok_regular _ Hok) Hp) as (S1 & p1 & Hp1 & Hsub). fold w1 in S1, Hp1.
  assert (R1 : regular (iview w1)) by by apply S1, items_ok_regular.
  assert (S2 : stay (iview w1) (iview w2)) by (apply stay_change_mail; [done|intros; apply erase_info_sub|done]).
  assert (S3 : stay (iview w2) (iview w3)) by by apply stay_RemoveMItem, S2.
  assert (S13 : stay (iview w) (iview w3)) by (eapply then_stay; [|exact S3]; by eapply then_stay).
  assert (R3 : regular (iview w3)) by by apply S13, items_ok_regular.
  assert (E4 : iview w4 = iview (StoreItem me dest (saved_item it) w3)).
  { unfold w4. rewrite iview_SaveInventoryAndGoldToDB. apply stay_new_in_inventory. }
  assert (G5 : iv_guids (iview w4) <= iv_guids (iview w5)).
  { unfold w5, SaveMails. destruct (pw_players w4 !! me) as [q|]; [|lia]. case_if; [lia|].
    change (iv_guids (iview w4) <= iv_guids (iview (foldl save_mail w4 (pp_mail q)))).
    generalize w4, (pp_mail q). intros v l. revert v. induction l as [|x l IH]; intros v; [simpl; lia|].
    cbn [foldl]. pose proof (IH (save_mail v x)). pose proof (ar_guids _ _ _ (stay_save_mail v x)). lia. }
  assert (Hbox : item_in (iview w) k (InBox me id)) by by apply (item_of_letter me p).
  assert (Hr : 0 <= k < pw_itemGuids w3).
  { pose proof (io_guids _ Hok _ _ Hbox). pose proof (ar_guids _ _ _ S13). simpl in *. lia. }
  rewrite E4 in G5. change (pw_itemGuids (StoreItem me dest (saved_item it) w3) <= pw_itemGuids w5) in G5.
  destruct (arrive_StoreItem me dest (saved_item it) w3 R3 Hr) as (S & A & F & HS); [lia|]. rewrite <- E4 in A.
  assert (S5 : stay (iview w4) (iview w5)) by by apply stay_SaveMails, A.
  assert (A5 : arrive S (iview w) (iview w5)) by (eapply then_stay; [|exact S5]; by eapply stay_then).
  pose proof (ar_guids _ _ _ S13) as G13. pose proof (ar_guids _ _ _ A) as GA. rewrite E4 in GA.
  change (pw_itemGuids w <= pw_itemGuids w3) in G13. change (pw_itemGuids w3 <= pw_itemGuids (StoreItem me dest (saved_item it) w3)) in GA.
  apply (items_ok_arrive S _ _ Hok A5 F).
  - intros k' x Hin. change (0 <= k' < pw_itemGuids w5). change (pi_guid (saved_item it)) with k in HS. destruct (HS _ _ Hin) as [[->|?] _]; lia.
  - intros k' x y Hin Hy Hy5. destruct (HS _ _ Hin) as [Hk' [pos ->]].
    destruct Hk' as [->|Hk']; [|apply (io_guids _ Hok) in Hy; simpl in Hy; lia]. exfalso. change (pi_guid (saved_item it)) with k in *.
    pose proof (io_place _ Hok _ _ _ Hy Hbox) as E. destruct y as [|id'|g id'|]; try done; injection E as ->.
    + apply row_in in Hy5. revert Hy5.
      assert (Hb : mbox w4 me = Some ((fun m => if ml_messageID m =? id then take_out k m else m) <$> pp_mail p1, true)).
      { unfold w4, MoveItemToInventory. rewrite mbox_SaveInventoryAndGoldToDB, mbox_upd_keep, mbox_StoreItem by done.
        unfold w3. rewrite mbox_upd_keep by done. unfold mbox, w2. simpl. by rewrite lookup_alter_eq, Hp1. }
      unfold mbox in Hb. destruct (pw_players w4 !! me) as [p4|] eqn:Hp4; [|done]. injection Hb as Hb Hu.
      apply (save_removed me p4 (take_out k m)); try done.
      * rewrite Hb. apply list_elem_of_fmap. exists m. split; [by rewrite Z.eqb_refl|by apply Hsub].
      * simpl. apply elem_of_app. right. by apply list_elem_of_singleton.
    + assert (g = me) as ->.
      { destruct (letter_of_item _ _ _ _ Hy) as (q & m' & Hq & Hm' & Hid & _).
        destruct (letters_row _ _ _ _ Hv Hp Hm) as (r & Er & Hrv). destruct (letters_row _ _ _ _ Hv Hq Hm') as (r' & Er' & Hrv').
        rewrite Hid in Er'. fold id in Er. rewrite Er in Er'. injection Er' as <-. unfold row_view in *. congruence. }
      apply (stay_in _ _ _ _ S5) in Hy5. destruct (ar_in _ _ _ A _ _ Hy5) as [Hy3|Hy3]; [|by destruct (HS _ _ Hy3) as [_ [? ?]]].
      apply (stay_in _ _ _ _ S3) in Hy3. by apply (taken_from_box me id k w1 R1).
Qed.
Lemma items_HandleMailTakeItem me mb id w :
  view_ok (gview w) -> pw_itemGuids (HandleMailTakeItem me mb id w) <= 2 ^ 32 -> kept w (HandleMailTakeItem me mb id w).
Proof.
  intros Hv. apply items_at_mailbox_bounded. intros p Hp Hmax Hok. cbv beta in *. revert Hmax.
  destruct (usable_mail p id (pw_time w)) as [m|] eqn:Hm; [|done]. apply usable_mail_spec in Hm as [[Hm <-]%GetMail_elem _].
  cbv zeta. destruct (ml_has_items m); [|done]. destruct (ml_items m) as [|info l] eqn:Hi; [done|]. case_if; [done|].
  destruct (negb cfg_GmAllowTrades && _ && _); [done|]. destruct (GetMItem p (mi_guid info)) as [it|] eqn:Hit; [|done].
  destruct (CanStoreItem p it) as [msg dest]. case_if; [|done].
  assert (Hg : pi_guid it = mi_guid info).
  { destruct (io_players _ Hok me (player_items p)) as [[_ R] _]; [by rewrite lookup_ivp, Hp|]. apply (R (mi_guid info)).
    simpl. unfold GetMItem in Hit. by rewrite lookup_fmap, Hit. }
  rewrite <- Hg. intros Hmax. apply (items_take_item me p m dest it w); try done. rewrite Hi, Hg. left.
Qed.
End items.
