(* ===== verification/PostItemsLoad.v ===== *)
(** Auctions, expiry, logging in and out, and all operations together: every item
    stays in one place. *)

From Stdlib Require Import Floats.SpecFloat.
From S2P Require Import Prelude CString GuildBankTypes GuildBankItems PostTypes Mail MailHandlers Auction AuctionHandlers PostSteps PostGold PostGoldSteps PostItems PostItemsSteps.

Section items.
Context {env : PostEnv}.

(** ** Money, letters as items, lists *)
Lemma items_HandleMailTakeMoney me mb id w : kept w (HandleMailTakeMoney me mb id w).
Proof.
  apply items_at_mailbox. intros p Hp Hok. destruct (usable_mail p id (pw_time w)) as [m|]; [|same_items]. cbv zeta.
  set (w1 := upd_pp me _ _). set (w2 := change_mail me id _ w1).
  assert (E : iview w2 = iview w).
  { unfold w2. rewrite iview_change_mail by done. unfold w1. by rewrite iview_ModifyMoney. }
  rewrite <- E in Hok. eapply items_ok_stay; [exact Hok|]. by apply stay_SaveMails, items_ok_regular.
Qed.
(** Items with a new guid. *)
Lemma items_new_guids S v v' : items_ok v -> arrive S v v' -> functional S ->
  (forall k x, (k, x) ∈ S -> iv_guids v <= k < iv_guids v') -> items_ok v'.
Proof.
  intros Hok A F HS. pose proof (io_nonneg _ Hok). apply (items_ok_arrive S v); [done|done|done| |].
  - intros k x Hk%HS. lia.
  - intros k x y Hk%HS Hy _. apply (io_guids _ Hok) in Hy. lia.
Qed.
Lemma items_HandleMailCreateTextItem me mb id w :
  pw_itemGuids (HandleMailCreateTextItem me mb id w) <= 2 ^ 32 -> kept w (HandleMailCreateTextItem me mb id w).
Proof.
  apply items_at_mailbox_bounded. intros p Hp Hmax Hok. revert Hmax. cbv zeta.
  destruct (usable_mail p id (pw_time w)) as [m|]; [|done]. case_if; [done|].
  set (w1 := set_pw_itemGuids (pw_itemGuids w + 1) w).
  assert (S1 : stay (iview w) (iview w1)) by (apply stay_new_guid; simpl; lia).
  assert (Hok1 : items_ok (iview w1)) by by eapply items_ok_stay.
  destruct (item_template MAIL_BODY_ITEM_TEMPLATE); [|by intros _].
  set (it := letter_item me (u32 (pw_itemGuids w)) m). destruct (CanStoreItem p it) as [msg dest]. case_if; [|by intros _].
  set (w2 := change_mail me id _ w1). assert (E2 : iview w2 = iview w1) by (unfold w2; by rewrite iview_change_mail).
  intros Hmax. change (pw_itemGuids (StoreItem me dest it w2) <= 2 ^ 32) in Hmax.
  change (items_ok (iview (StoreItem me dest it w2))).
  assert (Hn : 0 <= pw_itemGuids w) by apply (io_nonneg _ Hok).
  assert (Hg2 : pw_itemGuids w2 = pw_itemGuids w + 1) by done.
  assert (Hle : pw_itemGuids w2 <= pw_itemGuids (StoreItem me dest it w2)) by apply guids_StoreItem.
  assert (Hit : pi_guid it = pw_itemGuids w) by (simpl; apply u32_small; lia).
  destruct (arrive_StoreItem me dest it w2) as (S & A & F & HS); [rewrite E2; by apply items_ok_regular|rewrite Hit; lia|done|].
  apply (items_new_guids S (iview w)); [done| |done|].
  - eapply stay_then; [exact S1|]. by rewrite <- E2.
  - intros k x [Hk _]%HS. change (pw_itemGuids w <= k < pw_itemGuids (StoreItem me dest it w2)). lia.
Qed.
Lemma iview_UpdateNext me t w : iview (upd_pp me (UpdateNextMailTimeAndUnreads t) w) = iview w.
Proof. apply iview_upd_keep. intros p _. unfold UpdateNextMailTimeAndUnreads. by destruct (foldl _ _ _). Qed.
Lemma items_HandleGetMailList me mb w : kept w (HandleGetMailList me mb w).
Proof.
  apply items_at_mailbox. intros p Hp Hok. cbv zeta. rewrite iview_UpdateNext.
  change (items_ok (iview (upd_pp me (set_pp_lastMailOpen (pw_time w)) w))). by rewrite iview_upd_keep.
Qed.

(** ** Selling *)
Lemma arrive_AddAItem it w : arrive [(pi_guid it, InAuction)] (iview w) (iview (AddAItem it w)).
Proof.
  split; [|simpl; lia|].
  - intros k x H. destruct H as [| | | |k' H]; [left; by eapply in_bags|left; by eapply in_char|left; by apply in_row|left; by eapply in_box|].
    simpl in H. rewrite lookup_fmap, lookup_insert in H. case_decide; [|left; apply (in_sale _ _ k'); simpl; by rewrite lookup_fmap].
    subst. right. by apply list_elem_of_singleton.
  - intros [R1 R2]. split; [done|]. intros k k'. simpl. rewrite lookup_fmap, lookup_insert. case_decide; [by intros [= <-]|].
    intros E. apply R2. simpl. by rewrite lookup_fmap.
Qed.
Lemma items_start_auction me p e h pos it bid buyout etime deposit w :
  pw_players w !! me = Some p -> pp_items p !! pos = Some it -> kept w (start_auction me p e h pos it bid buyout etime deposit w).
Proof.
  intros Hp Hit Hok. unfold start_auction. cbv zeta. set (w1 := upd_pp me _ w).
  assert (E1 : iview w1 = iview w) by apply iview_ModifyMoney. set (gw := GenerateAuctionID w1).
  assert (E2 : iview (snd gw) = iview w1) by done.
  assert (Hp1 : exists q, pw_players (snd gw) !! me = Some q /\ pp_items q !! pos = Some it).
  { simpl. rewrite lookup_alter_eq, Hp. by eexists. }
  destruct gw as [id w2]. simpl in E2, Hp1. destruct Hp1 as (q & Hq & Hqi). rewrite E1 in E2. rewrite <- E2 in Hok.
  match goal with |- items_ok (iview (SendAuctionCommandResult _ _ _ _ _ ?x)) => change (items_ok (iview x)) end.
  rewrite iview_SaveInventoryAndGoldToDB.
  match goal with |- context [Auction_SaveToDB ?x _] => set (a := x) end.
  assert (E3 : forall v, iview (Auction_SaveToDB a v) = iview v) by done. rewrite E3, iview_Item_SaveToDB.
  set (v := MoveItemFromInventory me pos w2).
  change (items_ok (iview (AddAItem (saved_item it) v))).
  assert (Hs : stay (iview w2) (iview v)).
  { apply stay_upd; [|by apply items_ok_regular]. intros q' _. split; [|split; [intros ? infos ?; by exists infos|done]].
    intros pos' k. simpl. rewrite fmap_delete. by intros [_ E]%lookup_delete_Some. }
  assert (Hokv : items_ok (iview v)) by by eapply items_ok_stay.
  apply (items_ok_arrive _ _ _ Hokv (arrive_AddAItem (saved_item it) v)).
  - by intros k x y [= -> ->]%list_elem_of_singleton [= ->]%list_elem_of_singleton.
  - intros k x [= -> ->]%list_elem_of_singleton. apply (io_guids _ Hok _ (InBags me pos)).
    apply (in_bags _ _ me pos (player_items q)); [by rewrite lookup_ivp, Hq|]. simpl. by rewrite lookup_fmap, Hqi.
  - intros k x y [= -> ->]%list_elem_of_singleton Hy _. exfalso. revert Hy. by apply (taken_out me q pos it w2).
Qed.
Lemma items_at_auctioneer me guid w f :
  (forall p e h, pw_players w !! me = Some p -> kept w (f p e h)) -> kept w (at_auctioneer me guid w f).
Proof.
  intros H Hok. unfold at_auctioneer. destruct (GetPlayer w me) as [p|] eqn:E; [|done].
  destruct (GetCheckedAuctionHouseForAuctioneer me guid p) as [e|]; [|done]. simpl.
  destruct (GetAuctionsMap e w) as [h|]; [|done]. simpl. apply H; [by apply GetPlayer_players|done].
Qed.
Lemma items_HandleAuctionSellItem me a item bid buyout etime w : kept w (HandleAuctionSellItem me a item bid buyout etime w).
Proof.
  intros Hok. unfold HandleAuctionSellItem. destruct (GetPlayer w me) as [p0|]; [|done]. repeat (case_if; [done|]).
  apply items_at_auctioneer; [|done]. intros p e h Hp _. cbv zeta. do 4 (case_if; [same_items|]).
  destruct (GetItemByGuid p item) as [[pos it]|] eqn:E; [|same_items]. apply GetItemByGuid_items in E as [E _].
  case_if; [done|]. case_if; [done|]. by apply items_start_auction.
Qed.

(** ** The letters of auctions *)
Lemma stay_RemoveAItem k w : stay (iview w) (iview (RemoveAItem k w)).
Proof.
  split; [|simpl; lia|].
  - intros k' x H. left. destruct H as [| | | |k2 H]; [by eapply in_bags|by eapply in_char|by apply in_row|by eapply in_box|].
    simpl in H. rewrite fmap_delete in H. apply lookup_delete_Some in H as [_ H]. by apply (in_sale _ _ k2).
  - intros [R1 R2]. split; [done|]. intros k1 k2. simpl. rewrite fmap_delete. intros [_ H]%lookup_delete_Some. by apply R2.
Qed.
Lemma iview_RemoveAItem k w w' : iview w = iview w' -> iview (RemoveAItem k w) = iview (RemoveAItem k w').
Proof. intros E. unfold iview in *. injection E as E1 E2 E3 E4 E5. simpl. by rewrite E1, E2, E3, E5, !fmap_delete, E4. Qed.
Lemma iview_Auction_DeleteFromDB id w : iview (Auction_DeleteFromDB id w) = iview w.
Proof. done. Qed.
Lemma iview_SendAuctionCommandResult me a x e i w : iview (SendAuctionCommandResult me a x e i w) = iview w.
Proof. done. Qed.
Lemma removed_aitem k w : ~ item_in (iview (RemoveAItem k w)) k InAuction.
Proof. intros H. inversion H as [| | | |k' H']. simpl in H'. by rewrite fmap_delete, lookup_delete_eq in H'. Qed.
Lemma GetAItem_guid w k it : items_ok (iview w) -> GetAItem w k = Some it -> pi_guid it = k /\ item_in (iview w) k InAuction.
Proof.
  intros Hok H. assert (H' : iv_aitems (iview w) !! k = Some (pi_guid it)) by (simpl; unfold GetAItem in H; by rewrite lookup_fmap, H).
  split; [by apply (io_aitems _ Hok)|by eapply in_sale].
Qed.
(** The item of an auction goes into a letter. *)
Lemma items_sent_away k it d to sn c dd ed w0 w :
  items_ok (iview w0) -> stay (iview w0) (iview w) -> GetAItem w0 k = Some it -> d_items d = {[k := it]} -> d_returnSourceMailId d = 0 ->
  items_ok (iview (RemoveAItem k (SendMailTo d to sn c dd ed w))).
Proof.
  intros Hok Hs Hit Hd Hr. destruct (GetAItem_guid _ _ _ Hok Hit) as [Hg Hin].
  assert (Hdok : draft_ok d) by (intros k' it'; rewrite Hd; by intros [<- <-]%lookup_singleton_Some).
  pose proof (arrive_SendMailTo d to sn c dd ed w Hdok Hr (ar_regular _ _ _ Hs (items_ok_regular _ Hok))) as A.
  set (w1 := SendMailTo d to sn c dd ed w) in *. pose proof (stay_RemoveAItem k w1) as S1.
  apply (items_ok_arrive (arrivals d to (u32 (pw_mailIds w))) _ _ Hok); [eapply then_stay; [by eapply stay_then|exact S1]|by apply functional_arrivals| |].
  - intros k' x [[it' Hk] _]%elem_of_arrivals; [|done]. rewrite Hd in Hk. apply lookup_singleton_Some in Hk as [<- _].
    pose proof (io_guids _ Hok _ _ Hin). pose proof (ar_guids _ _ _ Hs). pose proof (ar_guids _ _ _ A). pose proof (ar_guids _ _ _ S1). lia.
  - intros k' x y [[it' Hk] _]%elem_of_arrivals Hy Hy'; [|done]. rewrite Hd in Hk. apply lookup_singleton_Some in Hk as [<- _].
    exfalso. pose proof (io_place _ Hok _ _ _ Hy Hin) as E. destruct y; try done. by apply removed_aitem in Hy'.
Qed.
Lemma iview_notified to a b w : iview (SendAuctionOwnerNotification to a b w) = iview w.
Proof. unfold SendAuctionOwnerNotification. destruct (pw_players w !! to); [|done]. by case_if. Qed.
Lemma stay_gone a w : items_ok (iview w) -> items_ok (iview (RemoveAItem a w)).
Proof. intros Hok. eapply items_ok_stay; [exact Hok|apply stay_RemoveAItem]. Qed.
Lemma items_won a w : items_ok (iview w) -> items_ok (iview (RemoveAItem (a_itemGuidLow a) (SendAuctionWonMail a w))).
Proof.
  intros Hok. unfold SendAuctionWonMail. destruct (GetAItem w (a_itemGuidLow a)) as [it|] eqn:Hit; [|by apply stay_gone].
  destruct (GetAItem_guid _ _ _ Hok Hit) as [Hg _]. cbv zeta. case_if.
  2:{ apply stay_gone. eapply items_ok_stay; [exact Hok|]. apply (stay_RemoveAItem _ (delete_item_row (pi_guid it) w)). }
  set (w1 := sql_owner _ _ w). set (w2 := if in_world w1 (a_bidder a) then _ else _).
  assert (S2 : stay (iview w) (iview w2)).
  { unfold w2. case_if; [apply arrive_same|]. apply (stay_RemoveAItem _ w1). }
  pose proof (iview_MailDraft_text (auction_subject a AUCTION_WON) (won_body a) w2) as E.
  pose proof (MailDraft_text_source (auction_subject a AUCTION_WON) (won_body a) w2) as Hr.
  pose proof (MailDraft_text_items (auction_subject a AUCTION_WON) (won_body a) w2) as Hd.
  destruct (MailDraft_text (auction_subject a AUCTION_WON) (won_body a) w2) as [d w3]. simpl in E, Hr, Hd.
  apply (items_sent_away _ it _ _ _ _ _ _ w); [done|by rewrite E|done| |done]. simpl. by rewrite Hd, Hg.
Qed.
Lemma items_expired a w : items_ok (iview w) -> items_ok (iview (RemoveAItem (a_itemGuidLow a) (SendAuctionExpiredMail a w))).
Proof.
  intros Hok. unfold SendAuctionExpiredMail. destruct (GetAItem w (a_itemGuidLow a)) as [it|] eqn:Hit; [|by apply stay_gone].
  destruct (GetAItem_guid _ _ _ Hok Hit) as [Hg _]. cbv zeta. case_if.
  2:{ apply stay_gone. eapply items_ok_stay; [exact Hok|]. apply (stay_RemoveAItem _ (delete_item_row (pi_guid it) w)). }
  set (w2 := if in_world w (a_owner a) then _ else _).
  assert (S2 : stay (iview w) (iview w2)).
  { unfold w2. case_if; [apply arrive_eq, iview_notified|apply stay_RemoveAItem]. }
  apply (items_sent_away _ it _ _ _ _ _ _ w); [done|done|done| |done]. simpl. by rewrite Hg.
Qed.
(** Letters with money only. *)
Lemma items_money_letter d to sn c dd ed w : d_items d = ∅ -> d_returnSourceMailId d = 0 -> kept w (SendMailTo d to sn c dd ed w).
Proof. intros Hd Hr Hok. eapply items_ok_stay; [exact Hok|]. apply stay_SendMailTo; [done..|]. by apply items_ok_regular. Qed.
Lemma items_successful a w : kept w (SendAuctionSuccessfulMail a w).
Proof.
  intros Hok. unfold SendAuctionSuccessfulMail. cbv zeta. case_if; [|done]. set (w1 := if in_world w (a_owner a) then _ else _).
  assert (E : iview w1 = iview w) by (unfold w1; case_if; [apply iview_notified|done]). rewrite <- E in Hok.
  match goal with |- context [MailDraft_text ?s ?t w1] => pose proof (iview_MailDraft_text s t w1) as E'; pose proof (MailDraft_text_source s t w1) as Hr;
    pose proof (MailDraft_text_items s t w1) as Hd; destruct (MailDraft_text s t w1) as [d w3] end.
  simpl in E', Hr, Hd. rewrite <- E' in Hok. by apply items_money_letter.
Qed.
Lemma items_outbidded a w : kept w (SendAuctionOutbiddedMail a w).
Proof.
  intros Hok. unfold SendAuctionOutbiddedMail. cbv zeta. case_if; [|done]. apply items_money_letter; [done..|]. by case_if.
Qed.
Lemma items_cancelled_to_bidder a w : items_ok (iview w) -> stay (iview w) (iview (SendAuctionCancelledToBidderMail a w)).
Proof.
  intros Hok. unfold SendAuctionCancelledToBidderMail. cbv zeta. case_if; [|apply arrive_same].
  set (w1 := if in_world w (a_bidder a) then _ else _). assert (E : iview w1 = iview w) by (unfold w1; by case_if). rewrite <- E.
  apply stay_SendMailTo; [done..|]. rewrite E. by apply items_ok_regular.
Qed.

(** ** The end of an auction *)
Lemma iview_RemoveAuction h a w : iview (RemoveAuction h a w) = iview w.
Proof. unfold RemoveAuction. by case_if. Qed.
Lemma items_ExpireAuction h id w : kept w (ExpireAuction h id w).
Proof.
  intros Hok. unfold ExpireAuction. destruct (GetAuction id (house_at h w)) as [a|]; [|done]. unfold clear_auction.
  rewrite iview_RemoveAuction.
  match goal with |- items_ok (iview (RemoveAItem _ (Auction_DeleteFromDB _ ?x))) => change (items_ok (iview (RemoveAItem (a_itemGuidLow a) x))) end.
  case_if; [by apply items_expired|]. by apply items_won, items_successful.
Qed.
Lemma items_update_auction h w id : kept w (update_auction h w id).
Proof.
  intros Hok. unfold update_auction. destruct (GetAuction id (house_at h w)) as [a|]; [|done]. cbv zeta.
  case_if; case_if; try done; by apply items_ExpireAuction.
Qed.
Lemma items_AuctionHouseMgr_Update w : kept w (AuctionHouseMgr_Update w).
Proof.
  intros Hok. apply (foldl_inv (fun w => items_ok (iview w))); [done|]. intros w1 h _ Hok1.
  apply (foldl_inv (fun w => items_ok (iview w))); [done|]. intros w2 id _. apply items_update_auction.
Qed.

(** ** Bidding and cancelling *)
Lemma items_pay_bid me a price w : kept w (pay_bid me a price w).
Proof.
  intros Hok. unfold pay_bid. case_if; [by rewrite iview_ModifyMoney|]. cbv zeta. case_if; [by rewrite iview_ModifyMoney|].
  apply items_outbidded. by rewrite iview_ModifyMoney.
Qed.
Lemma items_place_bid me h a price w : kept w (place_bid me h a price w).
Proof.
  intros Hok%(items_pay_bid me a price). unfold place_bid. cbv zeta. set (w1 := pay_bid me a price w) in *.
  match goal with |- items_ok (iview (SendAuctionCommandResult _ _ _ _ _ (sql_bid _ _ _ ?x))) => change (items_ok (iview x)) end.
  case_if; [|done]. by rewrite iview_notified.
Qed.
Lemma items_buy_out me h a w : kept w (buy_out me h a w).
Proof.
  intros Hok%(items_pay_bid me a (a_buyout a)). unfold buy_out. cbv zeta. revert Hok. generalize (pay_bid me a (a_buyout a) w). intros w1 Hok.
  set (b := set_bid me (a_buyout a) a). assert (E2 : iview (upd_auction h (a_Id a) (set_bid me (a_buyout a)) w1) = iview w1) by done.
  revert E2. generalize (upd_auction h (a_Id a) (set_bid me (a_buyout a)) w1). intros w2 E2. rewrite <- E2 in Hok.
  rewrite iview_Auction_DeleteFromDB, iview_RemoveAuction.
  rewrite (iview_RemoveAItem _ _ _ (iview_SendAuctionCommandResult me (Some b) AUCTION_BID_PLACED AUCTION_OK 0 _)).
  change (a_itemGuidLow a) with (a_itemGuidLow b). by apply items_won, items_successful.
Qed.
Lemma items_HandleAuctionPlaceBid me a id price w : kept w (HandleAuctionPlaceBid me a id price w).
Proof.
  intros Hok. unfold HandleAuctionPlaceBid. destruct (GetPlayer w me) as [p0|]; [|done]. repeat (case_if; [done|]).
  apply items_at_auctioneer; [|done]. intros p e h Hp _. case_if; [done|]. destruct (GetAuction id (house_at h w)) as [b|]; [|done].
  cbv zeta. case_if; [done|]. case_if; [done|]. case_if; [done|]. case_if; [done|].
  destruct (((price <? a_buyout b) || (a_buyout b =? 0)) && _); [done|]. case_if; [done|]. rewrite iview_SaveInventoryAndGoldToDB.
  case_if; [by apply items_place_bid|by apply items_buy_out].
Qed.
Lemma items_HandleAuctionRemoveItem me a id w : kept w (HandleAuctionRemoveItem me a id w).
Proof.
  apply items_at_auctioneer. intros p e h Hp Hok. cbv zeta. destruct (GetAuction id (house_at h w)) as [b|]; [|done].
  case_if; [done|]. destruct (GetAItem w (a_itemGuidLow b)) as [it|] eqn:Hit; [|done]. case_if; [done|]. unfold cancel_auction. cbv zeta.
  rewrite iview_RemoveAuction. set (w1 := if 0 <? a_bidder b then _ else w).
  assert (S1 : stay (iview w) (iview w1)).
  { unfold w1. case_if; [|apply arrive_same]. rewrite iview_ModifyMoney. by apply items_cancelled_to_bidder. }
  rewrite (iview_RemoveAItem _ _ _ (iview_SaveInventoryAndGoldToDB me _)), (iview_RemoveAItem _ _ _ (iview_Auction_DeleteFromDB _ _)).
  rewrite (iview_RemoveAItem _ _ _ (iview_SendAuctionCommandResult me (Some b) AUCTION_REMOVED AUCTION_OK 0 _)). destruct (GetAItem_guid _ _ _ Hok Hit) as [Hg _].
  apply (items_sent_away _ it _ _ _ _ _ _ w); [done|done|done| |done]. simpl. by rewrite Hg.
Qed.
End items.

(** Expiry, logging in and out, and all operations together: every item stays
    in one place. *)

(** ** Expiry *)
Lemma stay_fold {A} (f : PW -> A -> PW) l w : (forall w x, stay (iview w) (iview (f w x))) -> stay (iview w) (iview (foldl f w l)).
Proof.
  intros H. apply (foldl_rel (fun w w' => stay (iview w) (iview w'))); [intros; apply arrive_same|intros a b c; apply stay_then|].
  intros; apply H.
Qed.
Lemma iview_set_items_receiver k r w : iview (set_items_receiver k r w) = iview w.
Proof.
  unfold iview. simpl. f_equal. apply dom_imap_L. intros i. rewrite elem_of_dom. split; [intros [x E]; exists x; by eauto|by intros (x & -> & _)].
Qed.
Lemma stay_SingleMailReturner to base id receiver text k w : stay (iview w) (iview (SingleMailReturner to base id receiver text k w)).
Proof.
  unfold SingleMailReturner. case_if; [apply arrive_same|]. case_if.
  - cbv zeta. set (w1 := if k =? 0 then w else _).
    assert (S1 : stay (iview w) (iview w1)).
    { unfold w1. case_if; [apply arrive_same|]. exact (stay_delete_mail_items id (delete_item_row k w)). }
    eapply then_stay; [exact S1|]. apply arrive_eq. by case_if.
  - apply arrive_eq. cbv zeta. case_if; [done|]. exact (iview_set_items_receiver k to (sql_mail id (returned_row receiver to base) w)).
Qed.
Lemma items_ReturnOrDeleteOldMails text w : kept w (ReturnOrDeleteOldMails true text w).
Proof.
  intros Hok. eapply items_ok_stay; [exact Hok|]. apply stay_fold. intros v [id r]. unfold return_or_delete.
  case_if; [apply arrive_same|]. case_if; [apply stay_SingleMailReturner|]. apply arrive_eq. cbv zeta. by case_if.
Qed.

Section items.
Context {env : PostEnv}.

(** ** Logging in *)
Lemma stay_AddMItem g it w : regular (iview w) -> stay (iview w) (iview (upd_pp g (AddMItem it) w)).
Proof.
  intros Hreg. apply arrive_upd; [|done]. intros p _ [R1 R2]. split; [split; [exact R1|]|split].
  - intros k k'. simpl. rewrite fmap_insert, lookup_insert. case_decide; [by intros [= <-]|apply R2].
  - intros pos k ?. by left.
  - intros id infos k ? ?. left. by exists infos.
Qed.
Lemma arrive_Mail_AddItem g id k e w : regular (iview w) -> ~ item_in (iview w) k (InBox g id) ->
  arrive [(k, InBox g id)] (iview w) (iview (upd_pp g (upd_mail id (Mail_AddItem k e)) w)).
Proof.
  intros Hreg Hk. apply arrive_upd; [|done]. intros p Hp [R1 R2].
  assert (H : forall id' infos, (id', infos) ∈ pv_box (player_items (upd_mail id (Mail_AddItem k e) p)) ->
    (id', infos) ∈ pv_box (player_items p) \/
    (id' = id /\ exists infos', infos = infos' ++ [k] /\ (id, infos') ∈ pv_box (player_items p) /\ k ∉ infos')).
  { intros id' infos. simpl. rewrite <- list_fmap_compose. intros (m & E & Hm)%list_elem_of_fmap. simpl in E.
    destruct (Z.eqb_spec (ml_messageID m) id) as [Hid|Hid].
    - right. injection E as -> ->. split; [done|]. exists (mi_guid <$> ml_items m). rewrite fmap_app. split; [done|]. split.
      + apply list_elem_of_fmap. exists m. by rewrite <- Hid.
      + intros Hin. apply Hk. rewrite <- Hid. by apply (item_of_letter g p).
    - left. apply list_elem_of_fmap. by exists m. }
  split; [split; [|exact R2]|split].
  - intros id' infos [Hin|(-> & infos' & -> & Hin & Hn)]%H; [by eapply R1|]. apply NoDup_app. split; [by eapply R1|].
    split; [|apply NoDup_singleton]. by intros x Hx ->%list_elem_of_singleton.
  - intros pos k' ?. by left.
  - intros id' infos k' [Hin|(-> & infos' & -> & Hin & Hn)]%H Hk'; [left; by exists infos|].
    apply elem_of_app in Hk' as [?| ->%list_elem_of_singleton]; [left; by exists infos'|right; by apply list_elem_of_singleton].
Qed.
(** What a letter in memory lists comes from the rows. *)
Definition joined (g : Z) (l : list (Z * Z * Item)) : list (Z * spot) := (fun row => (snd (fst row), InBox g (fst (fst row)))) <$> l.
Lemma arrive_load_mailed_item g id k i w : regular (iview w) -> ~ item_in (iview w) k (InBox g id) ->
  arrive [(k, InBox g id)] (iview w) (iview (load_mailed_item g w (id, k, i))).
Proof.
  intros Hreg Hk. unfold load_mailed_item. destruct (pw_players w !! g) as [p|]; [|apply arrive_same].
  destruct (GetMail p id); [|apply arrive_same]. cbv zeta. set (w1 := upd_pp g _ w).
  pose proof (arrive_Mail_AddItem g id k (it_entry i) w Hreg Hk) as A. fold w1 in A.
  destruct (item_template (it_entry i)) as [t|].
  - destruct (Item_LoadFromDB t i) as [i' save]. set (w2 := if save then _ else w1).
    assert (E2 : iview w2 = iview w1) by (unfold w2; by case_if). rewrite <- E2 in A.
    eapply then_stay; [exact A|]. by apply stay_AddMItem, A.
  - eapply then_stay; [exact A|]. exact (stay_delete_mail_items_of k w1).
Qed.
Lemma arrive_LoadMailedItems g l w : regular (iview w) -> NoDup l.*1 ->
  (forall id k i, (id, k, i) ∈ l -> ~ item_in (iview w) k (InBox g id)) ->
  arrive (joined g l) (iview w) (iview (LoadMailedItems g l w)).
Proof.
  unfold LoadMailedItems. revert w. induction l as [|[[id k] i] l IH]; intros w Hreg Hn Hl; [apply arrive_same|].
  apply NoDup_cons in Hn as [Hk Hn]. cbn [foldl].
  pose proof (arrive_load_mailed_item g id k i w Hreg (Hl id k i ltac:(left))) as A.
  eapply arrive_trans; [exact A|apply IH|].
  - by apply A.
  - done.
  - intros id' k' i' Hin Hx. destruct (ar_in _ _ _ A _ _ Hx) as [Hx'|[= -> ->]%list_elem_of_singleton].
    + apply (Hl id' k' i'); [by right|done].
    + apply Hk. by apply (list_elem_of_fmap_2 fst) in Hin.
  - intros x [->%list_elem_of_singleton|Hx]; [left|by right].
Qed.
Lemma omap_keys_sublist {K V W} (f : K * V -> option (K * W)) l : (forall kv y, f kv = Some y -> fst y = fst kv) -> (omap f l).*1 `sublist_of` l.*1.
Proof.
  intros H. induction l as [|kv l IH]; [done|]. simpl. destruct (f kv) as [y|] eqn:E; simpl; [rewrite (H _ _ E)|]; by constructor.
Qed.
Lemma mailed_items_rows g w : NoDup (mailed_items g w).*1 /\ forall id k i, (id, k, i) ∈ mailed_items g w -> (id, k) ∈ iv_rows (iview w).
Proof.
  unfold mailed_items. set (f := fun kr : Z * Z * (Z * Z) => _).
  assert (Hf : forall kv y, f kv = Some y -> fst y = fst kv).
  { intros [[id k] v] y. unfold f. simpl. case_if; [|done]. destruct (pw_item_instance w !! k); [|done]. simpl. by intros [= <-]. }
  split.
  - apply (sublist_NoDup _ (map_to_list (pw_mail_items w)).*1); [apply NoDup_fst_map_to_list|by apply omap_keys_sublist].
  - intros id k i (kv & Hkv & E)%list_elem_of_omap. pose proof (Hf _ _ E) as Hk. destruct kv as [key v]. simpl in Hk. subst key.
    apply elem_of_map_to_list in Hkv. simpl. apply elem_of_dom. by eexists.
Qed.

(** The items the letters of a mail template bring are new. *)
Definition fresh_boxes (g n : Z) (v : ItemView) : Prop := forall k id, item_in v k (InBox g id) -> n <= k.
Record loading (g n : Z) (X : gset (Z * Z)) (w : PW) : Prop := mkLoading {
  ld_ok : items_ok (iview w);
  ld_rows : X ⊆ iv_rows (iview w);
  ld_guids : n <= pw_itemGuids w;
  ld_boxes : fresh_boxes g n (iview w)
}.
Lemma first_created_spec loot g w : let r := first_created loot g w in
  (fst r = None /\ snd r = w) \/
  exists it, fst r = Some it /\ pi_guid it = u32 (pw_itemGuids w) /\ pw_itemGuids (snd r) = pw_itemGuids w + 1 /\
    iv_rows (iview (snd r)) = iv_rows (iview w) /\ stay (iview w) (iview (snd r)).
Proof.
  induction loot as [|[e c] loot IH]; cbv zeta; simpl; [by left|]. destruct (CreateItem e c g w) as [[it|] w1] eqn:E; simpl.
  - right. exists it. destruct (CreateItem_spec _ _ _ _ _ _ E) as (H1 & H2 & H3). repeat (split; [done|]). split; [|done].
    revert E. unfold CreateItem. case_if; [done|]. destruct (item_template e); [|done]. by intros [= _ <-].
  - apply CreateItem_none in E as ->. exact IH.
Qed.
Lemma loading_same g n X w w' : iview w' = iview w -> loading g n X w -> loading g n X w'.
Proof. intros E [H1 H2 H3 H4]. change (n <= iv_guids (iview w)) in H3. split; try (by rewrite E). change (n <= iv_guids (iview w')). by rewrite E. Qed.
Lemma guids_prepareTemplateItems g m w : pw_itemGuids w <= pw_itemGuids (prepareTemplateItems g m w).
Proof.
  unfold prepareTemplateItems. destruct (pw_players w !! g) as [p|]; [|lia]. case_if; [lia|]. cbv zeta. set (w1 := sql_mail _ _ _).
  destruct (first_created_spec (FillLoot (ml_mailTemplateId m) p) g w1) as [[E1 E2]|(it & E1 & _ & E2 & _)];
    destruct (first_created (FillLoot (ml_mailTemplateId m) p) g w1) as [o w2]; simpl in E1, E2; subst o; [by subst w2|].
  assert (E : pw_itemGuids (Item_SaveToDB it w2) = pw_itemGuids w2) by (unfold Item_SaveToDB; by destruct (pi_state it)).
  simpl. rewrite E, E2. simpl. lia.
Qed.
Lemma loading_prepare g n X m w : pw_itemGuids (prepareTemplateItems g m w) <= 2 ^ 32 -> loading g n X w -> loading g n X (prepareTemplateItems g m w).
Proof.
  intros Hmax. revert Hmax. unfold prepareTemplateItems. destruct (pw_players w !! g) as [p|]; [|done]. case_if; [done|]. cbv zeta. set (id := ml_messageID m).
  set (w1 := sql_mail _ _ _). assert (E1 : iview w1 = iview w).
  { change (iview (upd_pp g (upd_mail id (set_ml_has_items true)) w) = iview w). apply iview_upd_keep. intros q _. by apply infos_upd_mail. }
  intros Hmax Hl%(loading_same _ _ _ _ _ E1). clearbody w1. clear E1. revert Hmax.
  destruct (first_created_spec (FillLoot (ml_mailTemplateId m) p) g w1) as [[E1 E2]|(it & E1 & Hg & E2 & Hr & S2)];
    destruct (first_created (FillLoot (ml_mailTemplateId m) p) g w1) as [o w2]; simpl in *; subst o; [by subst w2|].
  assert (E3 : iview (Item_SaveToDB it w2) = iview w2) by apply iview_Item_SaveToDB. revert E3. generalize (Item_SaveToDB it w2). intros w3 E3.
  intros Hmax. assert (Hn3 : pw_itemGuids w3 = pw_itemGuids w1 + 1).
  { change (iv_guids (iview w3) = pw_itemGuids w1 + 1). by rewrite E3. }
  change (pw_itemGuids w3 <= 2 ^ 32) in Hmax. destruct Hl as [Hok HX Hn Hb]. pose proof (io_nonneg _ Hok) as H0. simpl in H0.
  rewrite u32_small in Hg by lia. set (k := pi_guid it) in *. set (e := it_entry (pi_item (saved_item it))).
  assert (S3 : stay (iview w1) (iview w3)) by by rewrite E3.
  assert (Hok3 : items_ok (iview w3)) by by eapply items_ok_stay.
  assert (Hk1 : forall x, ~ item_in (iview w1) k x) by (intros x Hx; apply (io_guids _ Hok) in Hx; simpl in Hx; lia).
  assert (Hk3 : forall x, ~ item_in (iview w3) k x) by (intros x Hx; by apply (Hk1 x), (stay_in _ _ _ _ S3)).
  set (w4 := upd_pp g (upd_mail id (Mail_AddItem k e)) w3). set (w5 := upd_pp g (AddMItem (saved_item it)) w4).
  match goal with |- loading _ _ _ (insert_mail_item _ _ ?x _) => assert (E5 : iview x = iview w5) end.
  { unfold w5, w4, upd_pp, iview. simpl. f_equal. f_equal. rewrite alter_alter_eq || rewrite <- alter_compose. apply alter_ext. done. }
  assert (A4 : arrive [(k, InBox g id)] (iview w3) (iview w4)) by (apply arrive_Mail_AddItem; [by apply items_ok_regular|apply Hk3]).
  assert (R4 : regular (iview w4)) by by apply A4, items_ok_regular.
  pose proof (stay_AddMItem g (saved_item it) w4 R4) as S5. fold w5 in S5.
  match goal with |- loading _ _ _ ?x => set (w6 := x) end.
  assert (V6 : iview w6 = with_rows ({[(id, k)]} ∪ iv_rows (iview w5)) (iview w5)).
  { rewrite <- E5. unfold w6. etransitivity; [exact (insert_mail_items_view id g [saved_item it] _)|]. unfold with_rows. f_equal. simpl. set_solver. }
  assert (A6 : arrive [(k, InRow id)] (iview w5) (iview w6)).
  { rewrite V6. split; [|simpl; lia|done]. intros k' x Hx. destruct Hx as [| |id' Hx| |];
      [left; by eapply in_bags|left; by eapply in_char| |left; by eapply in_box|left; by eapply in_sale].
    simpl in Hx. apply elem_of_union in Hx as [[= -> ->]%elem_of_singleton|Hx]; [right; by apply list_elem_of_singleton|left; by apply in_row]. }
  assert (A36 : arrive [(k, InBox g id); (k, InRow id)] (iview w3) (iview w6)).
  { eapply arrive_trans; [eapply then_stay; [exact A4|exact S5]|exact A6|]. intros x [->%list_elem_of_singleton| ->%list_elem_of_singleton]; set_solver. }
  assert (Hrows : iv_rows (iview w5) = iv_rows (iview w1)) by (change (iv_rows (iview w3) = iv_rows (iview w1)); by rewrite E3).
  assert (G6 : pw_itemGuids w6 = pw_itemGuids w1 + 1) by (change (iv_guids (iview w6) = pw_itemGuids w1 + 1); by rewrite V6).
  split.
  - apply (items_ok_arrive _ _ _ Hok3 A36).
    + intros k' x y Hx Hy. apply elem_of_cons in Hx as [[= -> ->]|[= -> ->]%list_elem_of_singleton];
        apply elem_of_cons in Hy as [[= ->]|[= ->]%list_elem_of_singleton]; done.
    + intros k' x Hx. change (0 <= k' < pw_itemGuids w6). assert (k' = k) as -> by set_solver. lia.
    + intros k' x y Hx Hy _. assert (k' = k) as -> by set_solver. by destruct (Hk3 y).
  - rewrite V6. simpl. intros x Hx. apply elem_of_union. right. change (x ∈ iv_rows (iview w5)). rewrite Hrows. by apply HX.
  - lia.
  - intros k' id' Hx. destruct (ar_in _ _ _ A36 _ _ Hx) as [Hx'|Hx']; [by eapply Hb, (stay_in _ _ _ _ S3)|].
    assert (k' = k) as -> by set_solver. lia.
Qed.
Lemma loading_stay g n X w w' : stay (iview w) (iview w') -> X ⊆ iv_rows (iview w') -> loading g n X w -> loading g n X w'.
Proof.
  intros S HX [H1 _ H3 H4]. split; [by eapply items_ok_stay|done|pose proof (ar_guids _ _ _ S); simpl in *; lia|].
  intros k id Hx. by eapply H4, (stay_in _ _ _ _ S).
Qed.
Lemma stay_append g m w : ml_items m = [] -> regular (iview w) -> stay (iview w) (iview (upd_pp g (fun p => set_pp_mail (pp_mail p ++ [m]) p) w)).
Proof.
  intros Hm Hreg. apply arrive_upd; [|done]. intros p _ [R1 R2].
  assert (H : forall id infos, (id, infos) ∈ pv_box (player_items (set_pp_mail (pp_mail p ++ [m]) p)) -> (id, infos) ∈ pv_box (player_items p) \/ infos = []).
  { intros id infos. simpl. rewrite fmap_app. intros [?|[= -> ->]%list_elem_of_singleton]%elem_of_app; [by left|right; by rewrite Hm]. }
  split; [split; [|exact R2]|split].
  - intros id infos [Hin| ->]%H; [by eapply R1|constructor].
  - intros pos k ?. by left.
  - intros id infos k [Hin| ->]%H Hk; [left; by exists infos|by apply not_elem_of_nil in Hk].
Qed.
Lemma guids_load_mail g w kr : pw_itemGuids w <= pw_itemGuids (load_mail g w kr).
Proof.
  unfold load_mail. destruct kr as [id r]. cbv zeta. case_if; [case_if; simpl; lia|].
  set (w1 := upd_pp g _ w). change (pw_itemGuids w) with (pw_itemGuids w1). case_if; [apply guids_prepareTemplateItems|lia].
Qed.
Lemma loading_load_mail g n X w kr : pw_itemGuids (load_mail g w kr) <= 2 ^ 32 -> loading g n X w -> loading g n X (load_mail g w kr).
Proof.
  unfold load_mail. destruct kr as [id r]. cbv zeta. intros Hmax Hl. revert Hmax. case_if; [intros _; case_if; [by apply (loading_same _ _ _ w)|done]|].
  set (m := if negb (ml_mailTemplateId (mail_of_row id r) =? 0) && _ then _ else _). assert (Hm : ml_items m = []) by (unfold m; by case_if).
  set (w1 := upd_pp g _ w). assert (H1 : loading g n X w1).
  { eapply loading_stay; [|apply Hl|exact Hl]. apply stay_append; [done|]. by apply items_ok_regular, Hl. }
  case_if; [|done]. intros Hmax. by apply loading_prepare.
Qed.
Lemma loading_load_mails g n X l w : pw_itemGuids (foldl (load_mail g) w l) <= 2 ^ 32 -> loading g n X w -> loading g n X (foldl (load_mail g) w l).
Proof.
  revert w. induction l as [|kr l IH]; intros w Hmax Hl; [done|]. cbn [foldl] in *. apply IH; [done|]. apply loading_load_mail; [|done].
  assert (Hg : forall l w, pw_itemGuids w <= pw_itemGuids (foldl (load_mail g) w l)).
  { clear. intros l. induction l as [|kr l IH]; intros w; simpl; [lia|]. pose proof (IH (load_mail g w kr)). pose proof (guids_load_mail g w kr). lia. }
  pose proof (Hg l (load_mail g w kr)). lia.
Qed.
(** A character becomes a player with nothing in his mailbox. *)
Lemma stay_enter g c p w :
  pw_players w !! g = None -> pw_chars w !! g = Some c -> pp_items p = sc_items c -> pp_mail p = [] -> pp_mitems p = ∅ -> 
  stay (iview w) (iview (set_pw_players (<[g := p]> (pw_players w)) (set_pw_chars (delete g (pw_chars w)) w))).
Proof.
  intros Hp Hc Hi Hm Hmi. split; [|simpl; lia|].
  - intros k x Hx. left. destruct Hx as [g' pos t H1 H2|g' pos b H1 H2|id H|g' t id infos H1 H2 H3|k' H].
    + simpl in H1. rewrite lookup_fmap, lookup_insert in H1. case_decide; [|apply (in_bags _ _ _ _ t); [by rewrite lookup_ivp|done]].
      subst g'. injection H1 as <-. apply (in_char _ _ _ _ (char_items c)); [simpl; by rewrite lookup_fmap, Hc|]. simpl in H2. by rewrite Hi in H2.
    + simpl in H1. rewrite lookup_fmap in H1. apply (in_char _ _ _ _ b); [|done]. simpl. rewrite lookup_fmap.
      destruct (delete g (pw_chars w) !! g') as [c'|] eqn:E; [|done]. apply lookup_delete_Some in E as [_ E]. by rewrite E.
    + by apply in_row.
    + simpl in H1. rewrite lookup_fmap, lookup_insert in H1. case_decide; [|apply (in_box _ _ _ t _ infos); [by rewrite lookup_ivp|done|done]].
      injection H1 as <-. simpl in H2. rewrite Hm in H2. by apply not_elem_of_nil in H2.
    + by apply (in_sale _ _ k').
  - intros [R1 R2]. split; [|done]. intros g' t. simpl. rewrite !lookup_fmap, lookup_insert. case_decide as Hg.
    + intros [= <-]. subst. rewrite lookup_delete_eq. split; [|done]. split.
      * intros id infos. simpl. rewrite Hm. by intros ?%not_elem_of_nil.
      * intros k k'. simpl. rewrite Hmi. by rewrite fmap_empty, lookup_empty.
    + rewrite lookup_delete_ne by done. intros E. pose proof (R1 g' t) as R. simpl in R. rewrite !lookup_fmap in R. by apply R.
Qed.
Lemma no_box w g k id : (forall p, pw_players w !! g = Some p -> pp_mail p = []) -> ~ item_in (iview w) k (InBox g id).
Proof. intros H (p & m & Hp & Hm & _)%letter_of_item. rewrite (H _ Hp) in Hm. by apply not_elem_of_nil in Hm. Qed.
Lemma guids_LoadMailedItems g l w : pw_itemGuids (LoadMailedItems g l w) = pw_itemGuids w.
Proof.
  apply foldl_keep. clear. intros w [[id k] i]. unfold load_mailed_item. destruct (pw_players w !! g) as [p|]; [|done].
  destruct (GetMail p id); [|done]. cbv zeta. destruct (item_template (it_entry i)) as [t|]; [|done].
  destruct (Item_LoadFromDB t i) as [i' save]. by destruct save.
Qed.
Lemma items_HandlePlayerLogin g info w : pw_itemGuids (HandlePlayerLogin g info w) <= 2 ^ 32 -> kept w (HandlePlayerLogin g info w).
Proof.
  intros Hmax Hok. revert Hmax. unfold HandlePlayerLogin. destruct (pw_players w !! g) as [|] eqn:Hp; [done|].
  destruct (pw_chars w !! g) as [c|] eqn:Hc; [|done]. cbv zeta. rewrite iview_UpdateNext.
  set (w1 := set_pw_players _ _). set (w2 := upd_pp g (set_pp_mail []) w1). set (w3 := LoadMails g (mail_rows g w) w1).
  assert (S1 : stay (iview w) (iview w1)) by by exact (stay_enter g c (mkPostPlayer info false ∅ 0 (sc_money c) (sc_items c) [] false 0 [] ∅ false 0 0) w Hp Hc eq_refl eq_refl eq_refl).
  assert (R1 : regular (iview w1)) by by apply S1, items_ok_regular.
  assert (S2 : stay (iview w1) (iview w2)).
  { apply stay_upd; [|done]. intros p _. split; [done|]. split; [|done]. intros id infos Hx. simpl in Hx. by apply not_elem_of_nil in Hx. }
  set (n := pw_itemGuids w). set (X := iv_rows (iview w)).
  assert (L2 : loading g n X w2).
  { split; [|done|done|].
    - eapply items_ok_stay; [|exact S2]. by eapply items_ok_stay.
    - intros k id Hx. exfalso. revert Hx. apply no_box. intros p. unfold w2. simpl. rewrite lookup_alter_eq.
      destruct (<[g := _]> (pw_players w) !! g); [|done]. by intros [= <-]. }
  intros Hmax. assert (Hmax3 : pw_itemGuids w3 <= 2 ^ 32).
  { rewrite <- (guids_LoadMailedItems g (mailed_items g w) w3). exact Hmax. }
  assert (L3 : loading g n X w3) by by apply loading_load_mails. destruct L3 as [Hok3 HX3 Hn3 Hb3].
  destruct (mailed_items_rows g w) as [Hnd Hrows].
  assert (A : arrive (joined g (mailed_items g w)) (iview w3) (iview (LoadMailedItems g (mailed_items g w) w3))).
  { apply arrive_LoadMailedItems; [by apply items_ok_regular|done|]. intros id k i Hin Hx. apply Hb3 in Hx.
    assert (Hk : item_in (iview w) k (InRow id)) by (apply in_row; by eapply Hrows). apply (io_guids _ Hok) in Hk. simpl in Hk. unfold n in Hx. lia. }
  assert (Hj : forall k x, (k, x) ∈ joined g (mailed_items g w) -> exists id, x = InBox g id /\ item_in (iview w3) k (InRow id)).
  { intros k x ([[id k'] i] & [= -> ->] & Hin)%list_elem_of_fmap. exists id. split; [done|]. apply in_row, HX3. by eapply Hrows. }
  eapply items_ok_arrive; [exact Hok3|exact A| | |].
  - intros k x y (id & -> & H1)%Hj (id' & -> & H2)%Hj. exact (io_place _ Hok3 _ _ _ H1 H2).
  - intros k x (id & -> & H1)%Hj. apply (io_guids _ Hok3) in H1. pose proof (ar_guids _ _ _ A). lia.
  - intros k x y (id & -> & H1)%Hj Hy _. exact (io_place _ Hok3 _ _ _ Hy H1).
Qed.

(** ** Logging out *)
Lemma items_LogoutPlayer g w : kept w (LogoutPlayer g w).
Proof.
  intros Hok. unfold LogoutPlayer. cbv zeta. set (w1 := SaveInventoryAndGoldToDB g w).
  assert (Hok1 : items_ok (iview w1)) by (unfold w1; by rewrite iview_SaveInventoryAndGoldToDB). set (w2 := SaveMails g w1).
  assert (Hok2 : items_ok (iview w2)) by (eapply items_ok_stay; [exact Hok1|]; by apply stay_SaveMails, items_ok_regular).
  clearbody w2. destruct (pw_players w2 !! g) as [p|] eqn:Hp; [|done]. eapply items_ok_stay; [exact Hok2|]. split; [|simpl; lia|].
  - intros k x Hx. left. destruct Hx as [g' pos t H1 H2|g' pos b H1 H2|id H|g' t id infos H1 H2 H3|k' H].
    + simpl in H1. rewrite fmap_delete in H1. apply lookup_delete_Some in H1 as [_ H1]. by eapply in_bags.
    + simpl in H1. rewrite fmap_insert, lookup_insert in H1. case_decide; [|by eapply in_char]. injection H1 as <-. subst.
      apply (in_bags _ _ _ _ (player_items p)); [by rewrite lookup_ivp, Hp|done].
    + by apply in_row.
    + simpl in H1. rewrite fmap_delete in H1. apply lookup_delete_Some in H1 as [_ H1]. by eapply in_box.
    + by apply (in_sale _ _ k').
  - intros [R1 R2]. split; [|done]. intros g' t. simpl. rewrite fmap_delete, fmap_insert. intros [Hg E]%lookup_delete_Some.
    rewrite lookup_insert_ne by done. by apply R1.
Qed.

(** ** All operations *)
Lemma iview_add_task me t w : iview (add_task me t w) = iview w.
Proof. unfold add_task. change (iview (upd_pp me (set_pp_ahRequest true) w) = iview w). by apply iview_upd_keep. Qed.
Lemma iview_run_task t w : iview (run_task t w) = iview w.
Proof.
  unfold run_task. destruct (FindSession (tk_account t) w) as [[me p]|]; [|done]. cbv zeta.
  assert (E : iview (upd_pp me (set_pp_ahRequest false) w) = iview w) by by apply iview_upd_keep. case_if; [done|].
  by destruct (list_page _ me p t).
Qed.
Lemma items_run_op o w : view_ok (gview w) -> pw_itemGuids (run_op o w) <= 2 ^ 32 -> kept w (run_op o w).
Proof.
  intros Hv. destruct o; simpl; intros Hmax.
  - apply items_HandleSendMail.
  - apply items_HandleMailMarkAsRead.
  - apply items_HandleMailDelete.
  - by apply items_HandleMailReturnToSender.
  - by apply items_HandleMailTakeItem.
  - apply items_HandleMailTakeMoney.
  - by apply items_HandleMailCreateTextItem.
  - apply items_HandleGetMailList.
  - done.
  - unfold HandleQueryNextMailTime. by destruct (pw_players w !! me).
  - unfold HandleAuctionHello. destruct (GetPlayer w me) as [p|]; [|done]. repeat (case_if; [done|]). by destruct (GetAuctionHouseEntry me auctioneer p).
  - apply items_HandleAuctionSellItem.
  - apply items_HandleAuctionPlaceBid.
  - apply items_HandleAuctionRemoveItem.
  - apply items_at_auctioneer. intros p e h _. case_if; [done|]. by rewrite iview_add_task.
  - apply items_at_auctioneer. intros p e h _. case_if; [done|]. by rewrite iview_add_task.
  - apply items_at_auctioneer. intros p e h _. case_if; [done|]. destruct (searched_name name); [|done]. by rewrite iview_add_task.
  - unfold run_next_task. destruct (pw_tasks w) as [|t ts]; [done|]. by rewrite iview_run_task.
  - apply items_AuctionHouseMgr_Update.
  - unfold MasterPlayer_Update. destruct (pw_players w !! g); [|done]. case_if; [|done]. by rewrite iview_upd_keep.
  - apply items_ReturnOrDeleteOldMails.
  - by apply items_HandlePlayerLogin.
  - apply items_LogoutPlayer.
  - done.
  - by rewrite iview_upd_keep.
  - done.
Qed.
Context (rate_cut : cfg_RateCut = f32 1) (house_cuts : Forall (fun e => 0 <= cutPercent e < 100) auction_houses).
Lemma items_steps w w' : post_steps w w' -> view_ok (gview w) -> items_ok (iview w) -> items_ok (iview w').
Proof.
  induction 1 as [w|w o w' Hr Hr' _ IH]; intros Hv Hok; [done|].
  destruct (flow_run_op rate_cut house_cuts o w Hv Hr) as [_ F]. destruct (F (ir_mails _ Hr') Hv) as [Hv' _].
  apply IH; [done|]. apply items_run_op; [done|by apply Hr'|done].
Qed.
End items.
