(* ===== verification/PostHouses.v ===== *)
(** The consistency of the auction houses: their indexes, the table, the ids in
    use and the items on sale agree, and every operation keeps it so. *)

From Stdlib Require Import Floats.SpecFloat.
From S2P Require Import Prelude CString World GuildBankTypes GuildBankItems PostTypes Mail MailHandlers Auction AuctionHandlers PostSteps PostGold PostGoldSteps PostItems PostItemsSteps.

Record AHView := mkAH {
  av_houses : gmap Z AuctionHouseObject;
  av_rows : gmap Z AuctionRow;
  av_ids : gset Z;
  av_next : Z;
  av_items : gmap Z Z
}.
Definition ahview (w : PW) : AHView := mkAH (pw_houses w) (pw_auction w) (pw_auctionIds w) (pw_nextAuctionId w) (pi_guid <$> pw_aitems w).
Definition av_house (h : Z) (v : AHView) : AuctionHouseObject := default no_house (av_houses v !! h).
(** Auction [id] runs in house [h]. *)
Definition running (v : AHView) (h id : Z) (a : AuctionEntry) : Prop := AuctionsMap (av_house h v) !! id = Some a.

(** The two indexes of a house hold its auctions under their keys, in ascending order. *)
Definition index_of (key : AuctionEntry -> Z) (m : gmap Z AuctionEntry) : list (Z * Z) := (fun kv => (key (snd kv), fst kv)) <$> map_to_list m.
Definition ascending (l : list (Z * Z)) : Prop := StronglySorted Z.le l.*1.
Record indexed (o : AuctionHouseObject) : Prop := mkIndexed {
  ix_buyout : OrderedAuctionMap o ≡ₚ index_of a_buyout (AuctionsMap o);
  ix_account : AccountAuctionMap o ≡ₚ index_of a_ownerAccount (AuctionsMap o);
  ix_cheapest : ascending (OrderedAuctionMap o)
}.
Record ah_ok (v : AHView) : Prop := mkAhOk {
  ah_indexed : forall h, indexed (av_house h v);
  ah_key : forall h id a, running v h id a -> a_Id a = id;
  ah_house : forall h h' id a a', running v h id a -> running v h' id a' -> h = h';
  ah_row : forall h id a, running v h id a -> av_rows v !! id = Some (auction_row a);
  ah_rows : forall id r, av_rows v !! id = Some r -> exists h a, running v h id a;
  ah_ids : forall id, id ∈ av_ids v <-> exists h a, running v h id a;
  ah_item : forall h id a, running v h id a -> av_items v !! a_itemGuidLow a = Some (a_itemGuidLow a);
  ah_items : forall k k', av_items v !! k = Some k' -> exists h id a, running v h id a /\ a_itemGuidLow a = k;
  ah_item_of : forall h h' id id' a a', running v h id a -> running v h' id' a' -> a_itemGuidLow a = a_itemGuidLow a' -> id = id';
  ah_next : 0 <= av_next v < 2 ^ 32 /\ forall id, id ∈ av_ids v -> 0 <= id < 2 ^ 32
}.

(** ** Multimaps *)
Lemma mm_insert_perm k v l : mm_insert k v l ≡ₚ (k, v) :: l.
Proof. induction l as [|kv l IH]; simpl; [done|]. case_if; [done|]. rewrite IH. apply perm_swap. Qed.
Lemma mm_erase_perm k v l : (k, v) ∈ l -> l ≡ₚ (k, v) :: mm_erase k v l.
Proof.
  induction l as [|kv l IH]; simpl; [by intros ?%not_elem_of_nil|]. destruct ((fst kv =? k) && (snd kv =? v)) eqn:E.
  - intros _. destruct kv. simpl in E. apply andb_true_iff in E as [E1 E2]. apply Z.eqb_eq in E1, E2. by subst.
  - intros [<-|Hin]%elem_of_cons; [simpl in E; by rewrite !Z.eqb_refl in E|]. rewrite perm_swap. constructor. by apply IH.
Qed.
Lemma mm_erase_sublist k v l : mm_erase k v l `sublist_of` l.
Proof. induction l as [|kv l IH]; simpl; [done|]. case_if; by constructor. Qed.
Lemma mm_insert_ascending k v l : ascending l -> ascending (mm_insert k v l).
Proof.
  unfold ascending. induction l as [|kv l IH]; simpl; intros H; [by repeat constructor|]. inversion H as [|? ? Hs Hf]; subst.
  destruct (Z.ltb_spec k (fst kv)) as [Hlt|Hge].
  - constructor; [done|]. simpl. constructor; [lia|]. eapply Forall_impl; [exact Hf|]. simpl. lia.
  - simpl. constructor; [by apply IH|]. rewrite Forall_forall. intros x Hx.
    assert (Hx' : x ∈ k :: l.*1) by (apply list_elem_of_fmap in Hx as (y & -> & Hy); rewrite mm_insert_perm in Hy; by apply (list_elem_of_fmap_2 fst) in Hy).
    apply elem_of_cons in Hx' as [->|Hx']; [lia|]. rewrite Forall_forall in Hf. by apply Hf.
Qed.
Lemma sublist_ascending l l' : l' `sublist_of` l -> ascending l -> ascending l'.
Proof.
  unfold ascending. induction 1 as [|x l' l H IH|x l' l H IH]; [done|..]; simpl; intros Hs; inversion Hs as [|? ? Hs' Hf]; subst.
  - constructor; [by apply IH|]. rewrite Forall_forall in *. intros y Hy. apply Hf. eapply elem_of_sublist; [exact Hy|]. by apply fmap_sublist.
  - by apply IH.
Qed.

(** ** Indexes *)
Lemma elem_of_index key m k id : (k, id) ∈ index_of key m <-> exists a, m !! id = Some a /\ key a = k.
Proof.
  unfold index_of. rewrite list_elem_of_fmap. split.
  - intros ([id' a] & [= -> ->] & H%elem_of_map_to_list). by exists a.
  - intros (a & H & <-). exists (id, a). by rewrite elem_of_map_to_list.
Qed.
Lemma index_insert key m id a : m !! id = None -> index_of key (<[id := a]> m) ≡ₚ (key a, id) :: index_of key m.
Proof. intros H. unfold index_of. by rewrite map_to_list_insert. Qed.
Lemma index_delete key m id a : m !! id = Some a -> index_of key m ≡ₚ (key a, id) :: index_of key (delete id m).
Proof. intros H. unfold index_of. by rewrite <- (map_to_list_delete m id a H). Qed.
Lemma index_alter key f m id : (forall a, m !! id = Some a -> key (f a) = key a) -> index_of key (alter f id m) ≡ₚ index_of key m.
Proof.
  intros Hf. destruct (m !! id) as [a|] eqn:E; [|by rewrite alter_id'].
  rewrite (index_delete key (alter f id m) id (f a)) by (by rewrite lookup_alter_eq, E).
  rewrite (index_delete key m id a) by done. rewrite Hf by done. by rewrite delete_alter_eq.
Qed.
Lemma indexed_none : indexed no_house.
Proof. split; try (unfold index_of; simpl; by rewrite map_to_list_empty). constructor. Qed.
Lemma indexed_insert o id a : indexed o -> AuctionsMap o !! id = None ->
  indexed (mkHouse (mm_insert (a_buyout a) id (OrderedAuctionMap o)) (mm_insert (a_ownerAccount a) id (AccountAuctionMap o)) (<[id := a]> (AuctionsMap o))).
Proof.
  intros [H1 H2 H3] Hn. split; simpl.
  - by rewrite mm_insert_perm, index_insert, H1.
  - by rewrite mm_insert_perm, index_insert, H2.
  - by apply mm_insert_ascending.
Qed.
Lemma indexed_erase o id a : indexed o -> AuctionsMap o !! id = Some a ->
  indexed (mkHouse (mm_erase (a_buyout a) id (OrderedAuctionMap o)) (mm_erase (a_ownerAccount a) id (AccountAuctionMap o)) (delete id (AuctionsMap o))).
Proof.
  intros [H1 H2 H3] Ha. split; simpl.
  - apply (Permutation_cons_inv (a := (a_buyout a, id))). rewrite <- mm_erase_perm, <- index_delete; [done|done|].
    rewrite H1. apply elem_of_index. by exists a.
  - apply (Permutation_cons_inv (a := (a_ownerAccount a, id))). rewrite <- mm_erase_perm, <- index_delete; [done|done|].
    rewrite H2. apply elem_of_index. by exists a.
  - eapply sublist_ascending; [apply mm_erase_sublist|done].
Qed.
Lemma indexed_alter o id f : indexed o -> (forall a, a_buyout (f a) = a_buyout a /\ a_ownerAccount (f a) = a_ownerAccount a) ->
  indexed (set_AuctionsMap (alter f id (AuctionsMap o)) o).
Proof.
  intros [H1 H2 H3] Hf. split; simpl; [rewrite index_alter|rewrite index_alter|]; try done; intros; apply Hf.
Qed.

(** ** Starting, changing and ending an auction *)
Definition put_av (h : Z) (o : AuctionHouseObject) (v : AHView) : AHView :=
  mkAH (<[h := o]> (av_houses v)) (av_rows v) (av_ids v) (av_next v) (av_items v).
Lemma av_house_put h h' o v : av_house h' (put_av h o v) = if decide (h = h') then o else av_house h' v.
Proof. unfold av_house. simpl. rewrite lookup_insert. by case_decide. Qed.
Definition with_tables (rows : gmap Z AuctionRow) (ids : gset Z) (next : Z) (items : gmap Z Z) (v : AHView) : AHView :=
  mkAH (av_houses v) rows ids next items.
Lemma running_put h o v rows ids next items h' id a :
  running (with_tables rows ids next items (put_av h o v)) h' id a <-> if decide (h = h') then AuctionsMap o !! id = Some a else running v h' id a.
Proof.
  change (running (put_av h o v) h' id a <-> if decide (h = h') then AuctionsMap o !! id = Some a else running v h' id a).
  unfold running. rewrite av_house_put. by case_decide.
Qed.
Definition start_view (h : Z) (a : AuctionEntry) (next : Z) (v : AHView) : AHView :=
  let o := av_house h v in
  with_tables (<[a_Id a := auction_row a]> (av_rows v)) ({[a_Id a]} ∪ av_ids v) next
    (<[a_itemGuidLow a := a_itemGuidLow a]> (av_items v))
    (put_av h (mkHouse (mm_insert (a_buyout a) (a_Id a) (OrderedAuctionMap o)) (mm_insert (a_ownerAccount a) (a_Id a) (AccountAuctionMap o))
                 (<[a_Id a := a]> (AuctionsMap o))) v).
Lemma start_running h a next v h' id b : ah_ok v -> a_Id a ∉ av_ids v ->
  running (start_view h a next v) h' id b <-> (h' = h /\ id = a_Id a /\ b = a) \/ running v h' id b.
Proof.
  intros Hok Hnew. unfold start_view. cbv zeta. rewrite running_put. case_decide as Hh.
  - subst h'. simpl. destruct (decide (a_Id a = id)) as [<-|Hne].
    + rewrite lookup_insert_eq. split; [intros [= ->]; by left|]. intros [(_ & _ & ->)|Hr]; [done|].
      exfalso. apply Hnew, (ah_ids _ Hok). by exists h, b.
    + rewrite lookup_insert_ne by done. split; [by right|]. intros [(_ & E & _)|Hr]; [by subst id|done].
  - split; [by right|]. by intros [(E & _)|Hr]; [subst h'|].
Qed.
Lemma ah_start h a next v :
  ah_ok v -> a_Id a ∉ av_ids v -> av_items v !! a_itemGuidLow a = None -> 0 <= a_Id a < 2 ^ 32 -> 0 <= next < 2 ^ 32 ->
  ah_ok (start_view h a next v).
Proof.
  intros Hok Hnew Hitem Hid Hnext. pose proof (fun h' id b => start_running h a next v h' id b Hok Hnew) as Hrun.
  assert (Hnone : forall h' b, ~ running v h' (a_Id a) b) by (intros h' b Hr; apply Hnew, (ah_ids _ Hok); by exists h', b).
  assert (Hguid : forall h' id b, running v h' id b -> a_itemGuidLow b <> a_itemGuidLow a).
  { intros h' id b Hr E. apply (ah_item _ Hok) in Hr. by rewrite E, Hitem in Hr. }
  split.
  - intros h'. change (indexed (av_house h' (put_av h (mkHouse (mm_insert (a_buyout a) (a_Id a) (OrderedAuctionMap (av_house h v)))
      (mm_insert (a_ownerAccount a) (a_Id a) (AccountAuctionMap (av_house h v))) (<[a_Id a := a]> (AuctionsMap (av_house h v)))) v))).
    rewrite av_house_put. case_decide; [|apply Hok]. apply indexed_insert; [apply Hok|].
    destruct (AuctionsMap (av_house h v) !! a_Id a) as [b|] eqn:E; [|done]. by destruct (Hnone h b).
  - intros h' id b [(-> & -> & ->)|Hr]%Hrun; [done|by eapply (ah_key _ Hok)].
  - intros h1 h2 id b b' [(-> & -> & ->)|Hr]%Hrun [(-> & E & ->)|Hr']%Hrun; try done; [by destruct (Hnone h2 b')|subst id; by destruct (Hnone h1 b)|].
    by eapply (ah_house _ Hok).
  - intros h' id b [(-> & -> & ->)|Hr]%Hrun; simpl; [by rewrite lookup_insert_eq|].
    rewrite lookup_insert_ne; [by apply (ah_row _ Hok h')|]. intros <-. by destruct (Hnone h' b).
  - intros id r. simpl. rewrite lookup_insert. case_decide; [intros [= <-]; subst; exists h, a; apply Hrun; by left|].
    intros (h' & b & Hr)%(ah_rows _ Hok). exists h', b. apply Hrun. by right.
  - intros id. simpl. rewrite elem_of_union, elem_of_singleton, (ah_ids _ Hok). split.
    + intros [->|(h' & b & Hr)]; [exists h, a; apply Hrun; by left|exists h', b; apply Hrun; by right].
    + intros (h' & b & [(-> & -> & ->)|Hr]%Hrun); [by left|right; by exists h', b].
  - intros h' id b [(-> & -> & ->)|Hr]%Hrun; simpl; [by rewrite lookup_insert_eq|].
    rewrite lookup_insert_ne; [by apply (ah_item _ Hok h' id)|]. intros E. by apply (Hguid _ _ _ Hr).
  - intros k k'. simpl. rewrite lookup_insert. case_decide; [intros _; exists h, (a_Id a), a; split; [apply Hrun; by left|done]|].
    intros (h' & id & b & Hr & E)%(ah_items _ Hok). exists h', id, b. split; [apply Hrun; by right|done].
  - intros h1 h2 id id' b b' [(-> & -> & ->)|Hr]%Hrun [(-> & -> & ->)|Hr']%Hrun; try done; intros E.
    + by destruct (Hguid _ _ _ Hr').
    + by destruct (Hguid _ _ _ Hr).
    + by eapply (ah_item_of _ Hok).
  - split; [done|]. intros id. simpl. rewrite elem_of_union, elem_of_singleton. intros [->|Hin]; [done|]. by apply (ah_next _ Hok).
Qed.
Definition update_view (h id : Z) (f : AuctionEntry -> AuctionEntry) (g : AuctionRow -> AuctionRow) (v : AHView) : AHView :=
  let o := av_house h v in
  with_tables (alter g id (av_rows v)) (av_ids v) (av_next v) (av_items v) (put_av h (set_AuctionsMap (alter f id (AuctionsMap o)) o) v).
Lemma running_update h id f g v h' id' b :
  running (update_view h id f g v) h' id' b <-> exists a, running v h' id' a /\ b = if decide (h' = h /\ id' = id) then f a else a.
Proof.
  unfold update_view. cbv zeta. rewrite running_put. unfold running. case_decide as E.
    - subst h'. simpl. rewrite lookup_alter. destruct (decide (id = id')) as [<-|Hne].
      + destruct (AuctionsMap (av_house h v) !! id) as [a|]; simpl; [|split; [done|by intros (a & ? & _)]].
        split; [intros [= <-]; exists a|intros (a' & [= <-] & ->)]; by rewrite decide_True.
      + split; [intros H; exists b|intros (a & H & ->)]; rewrite decide_False by (intros [_ ?]; by subst); done.
    - split; [intros H; exists b|intros (a & H & ->)]; rewrite decide_False by (intros [? _]; by subst); done.
Qed.
Lemma ah_update h id f g v :
  ah_ok v -> (forall a, a_Id (f a) = a_Id a /\ a_buyout (f a) = a_buyout a /\ a_ownerAccount (f a) = a_ownerAccount a /\ a_itemGuidLow (f a) = a_itemGuidLow a) ->
  (forall a, running v h id a -> g (auction_row a) = auction_row (f a)) -> (forall h' a, running v h' id a -> h' = h) ->
  ah_ok (update_view h id f g v).
Proof.
  intros Hok Hf Hg Hh.
  pose proof (running_update h id f g v) as Hrun.
  assert (Hrev : forall h' id' a, running v h' id' a -> running (update_view h id f g v) h' id' (if decide (h' = h /\ id' = id) then f a else a))
    by (intros h' id' a Hr; apply Hrun; by exists a).
  assert (Hkeep : forall h' id' a, let b := if decide (h' = h /\ id' = id) then f a else a in a_Id b = a_Id a /\ a_itemGuidLow b = a_itemGuidLow a).
  { intros h' id' a. cbv zeta. case_decide; [|done]. by destruct (Hf a) as (? & _ & _ & ?). }
  split.
  - intros h'. change (indexed (av_house h' (put_av h (set_AuctionsMap (alter f id (AuctionsMap (av_house h v))) (av_house h v)) v))).
    rewrite av_house_put. case_decide; [|apply Hok]. apply indexed_alter; [apply Hok|]. intros a. by destruct (Hf a) as (_ & ? & ? & _).
  - intros h' id' b (a & Hr & ->)%Hrun. rewrite (proj1 (Hkeep _ _ _)). by eapply (ah_key _ Hok).
  - intros h1 h2 id' b b' (a & Hr & _)%Hrun (a' & Hr' & _)%Hrun. by eapply (ah_house _ Hok).
  - intros h' id' b (a & Hr & ->)%Hrun. change (av_rows (update_view h id f g v)) with (alter g id (av_rows v)).
    rewrite lookup_alter, (ah_row _ Hok _ _ _ Hr). destruct (decide (id = id')) as [<-|Hne].
    + pose proof (Hh _ _ Hr) as ->. rewrite decide_True by done. rewrite (ah_row _ Hok _ _ _ Hr). exact (f_equal Some (Hg a Hr)).
    + rewrite decide_False by (intros [_ ?]; by subst). done.
  - intros id' r. simpl. rewrite lookup_alter. intros H. assert (is_Some (av_rows v !! id')) as [r' Hr'].
    { case_decide; [subst; by destruct (av_rows v !! id')|by eexists]. }
    destruct (ah_rows _ Hok _ _ Hr') as (h' & a & Hr). eexists _, _. by apply Hrev.
  - intros id'. rewrite (ah_ids _ Hok id' : id' ∈ av_ids (update_view h id f g v) <-> _). split.
    + intros (h' & a & Hr). eexists _, _. by apply Hrev.
    + intros (h' & b & (a & Hr & _)%Hrun). by exists h', a.
  - intros h' id' b (a & Hr & ->)%Hrun. rewrite (proj2 (Hkeep _ _ _)). exact (ah_item _ Hok _ _ _ Hr).
  - intros k k' (h' & id' & a & Hr & E)%(ah_items _ Hok). eexists _, _, _. split; [by apply Hrev|]. by rewrite (proj2 (Hkeep _ _ _)).
  - intros h1 h2 id1 id2 b b' (a & Hr & ->)%Hrun (a' & Hr' & ->)%Hrun. rewrite !(proj2 (Hkeep _ _ _)). by eapply (ah_item_of _ Hok).
  - apply Hok.
Qed.
Definition end_view (h : Z) (a : AuctionEntry) (v : AHView) : AHView :=
  let o := av_house h v in
  with_tables (delete (a_Id a) (av_rows v)) (av_ids v ∖ {[a_Id a]}) (av_next v) (delete (a_itemGuidLow a) (av_items v))
    (put_av h (mkHouse (mm_erase (a_buyout a) (a_Id a) (OrderedAuctionMap o)) (mm_erase (a_ownerAccount a) (a_Id a) (AccountAuctionMap o))
                 (delete (a_Id a) (AuctionsMap o))) v).
Lemma ah_end h id a b v :
  ah_ok v -> running v h id a -> a_Id b = id -> a_buyout b = a_buyout a -> a_ownerAccount b = a_ownerAccount a -> a_itemGuidLow b = a_itemGuidLow a ->
  ah_ok (end_view h b v) /\ forall h' id' c, running (end_view h b v) h' id' c <-> running v h' id' c /\ id' <> id.
Proof.
  intros Hok Ha Hid Hb Hac Hg.
  assert (Hrun : forall h' id' c, running (end_view h b v) h' id' c <-> running v h' id' c /\ id' <> id).
  { intros h' id' c. unfold end_view. cbv zeta. rewrite running_put, Hid. unfold running. case_decide as E.
    - subst h'. simpl. rewrite lookup_delete_Some. naive_solver.
    - split; [|by intros [? _]]. intros Hr. split; [done|]. intros ->. apply E. by eapply (ah_house _ Hok). }
  split; [|exact Hrun]. split.
  - intros h'. change (indexed (av_house h' (put_av h (mkHouse (mm_erase (a_buyout b) (a_Id b) (OrderedAuctionMap (av_house h v)))
      (mm_erase (a_ownerAccount b) (a_Id b) (AccountAuctionMap (av_house h v))) (delete (a_Id b) (AuctionsMap (av_house h v)))) v))).
    rewrite av_house_put. case_decide; [|apply Hok]. rewrite Hid, Hb, Hac. by apply indexed_erase; [apply Hok|].
  - intros h' id' c [Hr _]%Hrun. by eapply (ah_key _ Hok).
  - intros h1 h2 id' c c' [Hr _]%Hrun [Hr' _]%Hrun. by eapply (ah_house _ Hok).
  - intros h' id' c [Hr Hne]%Hrun. simpl. rewrite Hid, lookup_delete_ne by done. by eapply (ah_row _ Hok).
  - intros id' r. simpl. rewrite Hid. intros [Hne (h' & c & Hr)%(ah_rows _ Hok)]%lookup_delete_Some. exists h', c. by apply Hrun.
  - intros id'. simpl. rewrite elem_of_difference, elem_of_singleton, Hid, (ah_ids _ Hok). split.
    + intros [(h' & c & Hr) Hne]. exists h', c. by apply Hrun.
    + intros (h' & c & [Hr Hne]%Hrun). split; [by exists h', c|done].
  - intros h' id' c [Hr Hne]%Hrun. simpl. rewrite Hg, lookup_delete_ne; [by eapply (ah_item _ Hok)|].
    intros E. apply Hne. symmetry. by eapply (ah_item_of _ Hok).
  - intros k k'. simpl. rewrite Hg. intros [Hne (h' & id' & c & Hr & E)%(ah_items _ Hok)]%lookup_delete_Some.
    exists h', id', c. split; [|done]. apply Hrun. split; [done|]. intros ->. apply Hne.
    pose proof (ah_house _ Hok _ _ _ _ _ Hr Ha) as ->. unfold running in *. congruence.
  - intros h1 h2 id1 id2 c c' [Hr _]%Hrun [Hr' _]%Hrun. by eapply (ah_item_of _ Hok).
  - split; [exact (proj1 (ah_next _ Hok))|]. change (forall id', id' ∈ av_ids v ∖ {[a_Id b]} -> 0 <= id' < 2 ^ 32). intros id' [Hin _]%elem_of_difference. by apply (ah_next _ Hok).
Qed.

(** Every operation keeps the auction houses consistent. *)

(** ** What leaves the houses alone *)
Lemma ahv_Item_SaveToDB it w : ahview (Item_SaveToDB it w) = ahview w.
Proof. unfold Item_SaveToDB. by destruct (pi_state it). Qed.
Lemma ahv_SaveInventoryAndGoldToDB g w : ahview (SaveInventoryAndGoldToDB g w) = ahview w.
Proof.
  unfold SaveInventoryAndGoldToDB. destruct (pw_players w !! g) as [p|]; [|done].
  match goal with |- ahview (upd_pp _ _ ?x) = _ => change (ahview x = ahview w) end.
  rewrite (foldl_keep ahview) by done. apply foldl_keep. intros; apply ahv_Item_SaveToDB.
Qed.
Lemma ahv_MailDraft_text s t w : ahview (snd (MailDraft_text s t w)) = ahview w.
Proof. unfold MailDraft_text. by case_if. Qed.
Lemma ahv_SendMailTo d to sn c dd ed w : ahview (SendMailTo d to sn c dd ed w) = ahview w.
Proof.
  unfold SendMailTo. cbv zeta.
  assert (H : forall m w, ahview (foldl (insert_mail_item m to) w (draft_items d)) = ahview w) by (intros; by apply foldl_keep).
  assert (Ha : forall g t w, ahview (AddNewMailDeliverTime g t w) = ahview w) by (intros; unfold AddNewMailDeliverTime; by case_if).
  destruct (FindMasterPlayer _ _).
  - match goal with |- ahview (upd_pp _ _ ?x) = _ => change (ahview x = ahview w) end. rewrite Ha. etransitivity; [apply H|]. by case_if.
  - etransitivity; [apply H|]. by case_if.
Qed.
Lemma ahv_SaveMails g w : ahview (SaveMails g w) = ahview w.
Proof.
  unfold SaveMails. destruct (pw_players w !! g) as [p|]; [|done]. case_if; [done|].
  match goal with |- ahview (upd_pp _ _ ?x) = _ => change (ahview x = ahview w) end. apply foldl_keep. intros v m. unfold save_mail.
  destruct (ml_state m); [done|cbv zeta; etransitivity; [by apply (foldl_keep ahview)|done]|]. cbv zeta.
  match goal with |- ahview (delete_mail_items _ (soft_delete _ ?x)) = _ => change (ahview x = ahview v) end. repeat case_if; try done; (etransitivity; [by apply (foldl_keep ahview)|done]).
Qed.
Lemma ahv_SendReturnToSender d s r w : ahview (SendReturnToSender d s r w) = ahview w.
Proof.
  unfold SendReturnToSender. case_if; [by apply (foldl_keep ahview)|]. cbv zeta. rewrite ahv_SendMailTo. apply foldl_keep. intros v it.
  exact (ahv_Item_SaveToDB it v).
Qed.
Lemma ahv_notified to a b w : ahview (SendAuctionOwnerNotification to a b w) = ahview w.
Proof. unfold SendAuctionOwnerNotification. destruct (pw_players w !! to); [|done]. by case_if. Qed.
Lemma ahv_ReturnOrDeleteOldMails text w : ahview (ReturnOrDeleteOldMails true text w) = ahview w.
Proof.
  unfold ReturnOrDeleteOldMails. cbv zeta. etransitivity; [apply (foldl_keep ahview)|done]. intros v [id r]. unfold return_or_delete, SingleMailReturner.
  repeat case_if; done.
Qed.

Section steps.
Context {env : PostEnv}.

Lemma ahv_CreateItem e c g w : ahview (snd (CreateItem e c g w)) = ahview w.
Proof. unfold CreateItem. case_if; [done|]. by destruct (item_template e). Qed.
Lemma ahv_put_item_at g pos it w : ahview (put_item_at g pos it w) = ahview w.
Proof. done. Qed.
Lemma ahv__StoreItem g d it b w : ahview (_StoreItem g d it b w) = ahview w.
Proof.
  unfold _StoreItem. destruct d as [[bag slot] n]. destruct (p ← pw_players w !! g; item_by_pos p (bag, slot)); [done|].
  destruct b; [|done]. unfold CloneItem. pose proof (ahv_CreateItem (it_entry (pi_item it)) n g w) as H.
  by destruct (CreateItem (it_entry (pi_item it)) n g w) as [[m|] w1].
Qed.
Lemma ahv_StoreItem g dest it w : ahview (StoreItem g dest it w) = ahview w.
Proof.
  revert w. induction dest as [|d dest IH]; intros w; [done|]. destruct dest as [|d' dest]; [apply ahv__StoreItem|].
  change (ahview (StoreItem g (d' :: dest) it (_StoreItem g d it true w)) = ahview w). by rewrite IH, ahv__StoreItem.
Qed.
Lemma ahv_HandleSendMailCallback me r w : ahview (HandleSendMailCallback me r w) = ahview w.
Proof.
  unfold HandleSendMailCallback. destruct (GetPlayer w me) as [p|]; [|done]. cbv zeta. case_if; [done|]. destruct (_ && _); [done|].
  case_if; [done|]. destruct (negb cfg_TwoSideMail && _ && _); [done|]. destruct (mailed_item me p r w) as [item|]; [|done].
  case_if; [done|]. case_if; [done|]. set (w2 := upd_pp me (pp_ModifyMoney _) _). assert (E2 : ahview w2 = ahview w) by done.
  pose proof (ahv_MailDraft_text (rq_subject r) (rq_body r) w2) as E3. destruct (MailDraft_text (rq_subject r) (rq_body r) w2) as [draft w3].
  simpl in E3. destruct item as [[pos it]|]; rewrite ahv_SaveInventoryAndGoldToDB, ahv_SendMailTo; [|congruence].
  transitivity (ahview w3); [|congruence]. exact (ahv_Item_SaveToDB it (MoveItemFromInventory me pos w3)).
Qed.
Lemma ahv_at_mailbox me mb w f : (forall p, ahview (f p) = ahview w) -> ahview (at_mailbox me mb w f) = ahview w.
Proof. intros H. unfold at_mailbox. destruct (GetPlayer w me) as [p|]; [|done]. by case_if. Qed.
Lemma ahv_HandleSendMail me mb name subject body item money COD w : ahview (HandleSendMail me mb name subject body item money COD w) = ahview w.
Proof.
  apply ahv_at_mailbox. intros p. cbv zeta. set (s := if negb (COD =? 0) && _ && _ then _ else subject). clearbody s. repeat (case_if; [done|]).
  destruct (name ← normalize_name name; pw_names w !! name) as [receiver|]; [|done]. repeat (case_if; [done|]).
  destruct (GetPlayer (IncreaseMailCount (in_account (pp_info p)) w) receiver) as [q|]; by rewrite ahv_HandleSendMailCallback.
Qed.
Lemma ahv_HandleMailReturnToSender me mb id w : ahview (HandleMailReturnToSender me mb id w) = ahview w.
Proof.
  apply ahv_at_mailbox. intros p. destruct (usable_mail p id (pw_time w)) as [m|]; [|done]. cbv zeta.
  match goal with |- ahview (SendMailResult _ _ _ _ ?x) = _ => change (ahview x = ahview w) end.
  destruct (_ && _); [|done]. rewrite ahv_SendReturnToSender. by case_if.
Qed.
Lemma ahv_HandleMailTakeItem me mb id w : ahview (HandleMailTakeItem me mb id w) = ahview w.
Proof.
  apply ahv_at_mailbox. intros p. cbv zeta. destruct (usable_mail p id (pw_time w)) as [m|]; [|done].
  destruct (ml_has_items m); [|done]. destruct (ml_items m) as [|info l]; [done|]. case_if; [done|].
  destruct (negb cfg_GmAllowTrades && _ && _); [done|]. destruct (GetMItem p (mi_guid info)) as [it|]; [|done].
  destruct (CanStoreItem p it) as [msg dest]. case_if; [|done].
  match goal with |- ahview (post _ ?x) = _ => change (ahview x = ahview w) end.
  rewrite ahv_SaveMails, ahv_SaveInventoryAndGoldToDB. unfold MoveItemToInventory.
  match goal with |- ahview (upd_pp _ _ ?x) = _ => change (ahview x = ahview w) end. rewrite ahv_StoreItem.
  change (ahview (pay_cod me m w) = ahview w). unfold pay_cod. case_if; [done|]. cbv zeta.
  match goal with |- ahview (upd_pp _ _ ?x) = _ => change (ahview x = ahview w) end. case_if; [apply ahv_SendMailTo|done].
Qed.
Lemma ahv_HandleMailCreateTextItem me mb id w : ahview (HandleMailCreateTextItem me mb id w) = ahview w.
Proof.
  apply ahv_at_mailbox. intros p. cbv zeta. destruct (usable_mail p id (pw_time w)) as [m|]; [|done]. case_if; [done|].
  destruct (item_template MAIL_BODY_ITEM_TEMPLATE); [|done]. destruct (CanStoreItem p _) as [msg dest]. case_if; [|done].
  match goal with |- ahview (SendMailResult _ _ _ _ ?x) = _ => change (ahview x = ahview w) end. by rewrite ahv_StoreItem.
Qed.
Lemma ahv_first_created loot g w : ahview (snd (first_created loot g w)) = ahview w.
Proof.
  revert w. induction loot as [|[e c] loot IH]; intros w; [done|]. simpl. pose proof (ahv_CreateItem e c g w) as H.
  destruct (CreateItem e c g w) as [[it|] w1]; [done|]. simpl in H. by rewrite IH.
Qed.
Lemma ahv_prepareTemplateItems g m w : ahview (prepareTemplateItems g m w) = ahview w.
Proof.
  unfold prepareTemplateItems. destruct (pw_players w !! g) as [p|]; [|done]. case_if; [done|]. cbv zeta. set (w1 := sql_mail _ _ _).
  assert (E1 : ahview w1 = ahview w) by done. pose proof (ahv_first_created (FillLoot (ml_mailTemplateId m) p) g w1) as H2.
  destruct (first_created (FillLoot (ml_mailTemplateId m) p) g w1) as [[it|] w2]; simpl in H2; [|congruence].
  transitivity (ahview (Item_SaveToDB it w2)); [done|]. rewrite ahv_Item_SaveToDB. congruence.
Qed.
Lemma ahv_HandlePlayerLogin g info w : ahview (HandlePlayerLogin g info w) = ahview w.
Proof.
  unfold HandlePlayerLogin. destruct (pw_players w !! g); [done|]. destruct (pw_chars w !! g) as [c|]; [|done]. cbv zeta.
  match goal with |- ahview (upd_pp _ _ ?x) = _ => change (ahview x = ahview w) end. unfold LoadMailedItems, LoadMails.
  rewrite (foldl_keep ahview).
  - rewrite (foldl_keep ahview); [done|]. intros v [id r]. unfold load_mail. cbv zeta. repeat case_if; try done; by rewrite ahv_prepareTemplateItems.
  - intros v [[id k] i]. unfold load_mailed_item. destruct (pw_players v !! g); [|done]. destruct (GetMail _ id); [|done]. cbv zeta.
    destruct (item_template (it_entry i)); [|done]. destruct (Item_LoadFromDB _ i) as [i' save]. by destruct save.
Qed.
Lemma ahv_LogoutPlayer g w : ahview (LogoutPlayer g w) = ahview w.
Proof.
  unfold LogoutPlayer. cbv zeta. set (w1 := SaveMails g _). assert (E : ahview w1 = ahview w) by (unfold w1; by rewrite ahv_SaveMails, ahv_SaveInventoryAndGoldToDB).
  destruct (pw_players w1 !! g); [|done]. by rewrite <- E.
Qed.
Lemma ahv_run_task t w : ahview (run_task t w) = ahview w.
Proof.
  unfold run_task. destruct (FindSession (tk_account t) w) as [[me p]|]; [|done]. cbv zeta. case_if; [done|].
  by destruct (list_page _ me p t).
Qed.

(** ** New ids *)
Lemma next_free_spec l next :
  StronglySorted Z.le l -> NoDup l -> 0 <= next < 2 ^ 32 -> (forall id, id ∈ l -> next <= id < 2 ^ 32 - 1) ->
  next <= next_free l next < 2 ^ 32 /\ next_free l next ∉ l.
Proof.
  revert next. induction l as [|id l IH]; intros next Hs Hn Hr Hl; simpl; [split; [lia|apply not_elem_of_nil]|].
  inversion Hs as [|? ? Hs' Hf]; subst. apply NoDup_cons in Hn as [Hid Hn]. destruct (Hl id) as [H1 H2]; [left|]. rewrite Forall_forall in Hf.
  destruct (Z.eqb_spec id next) as [->|Hne].
  - rewrite u32_small by lia. destruct (IH (next + 1)) as [Hb Hni]; [done|done|lia| |].
    + intros id Hin. pose proof (Hf id Hin). destruct (Hl id); [by right|]. assert (id <> next) by (by intros ->). lia.
    + split; [lia|]. rewrite not_elem_of_cons. split; [lia|done].
  - split; [lia|]. rewrite not_elem_of_cons. split; [done|]. intros Hin. apply Hf in Hin. lia.
Qed.
Lemma GenerateAuctionID_spec w : 0 <= pw_nextAuctionId w < 2 ^ 32 -> (forall id, id ∈ pw_auctionIds w -> id < 2 ^ 32 - 1) ->
  let r := GenerateAuctionID w in
  (fst r ∉ pw_auctionIds w) /\ 0 <= fst r < 2 ^ 32 /\
  ahview (snd r) = mkAH (pw_houses w) (pw_auction w) ({[fst r]} ∪ pw_auctionIds w) (u32 (fst r + 1)) (pi_guid <$> pw_aitems w).
Proof.
  intros Hn Hids. cbv zeta. unfold GenerateAuctionID. cbv zeta. cbn [fst snd]. set (l := List.filter _ _).
  assert (Hl : forall id, id ∈ l <-> id ∈ pw_auctionIds w /\ pw_nextAuctionId w <= id).
  { intros id. unfold l. rewrite list_elem_of_In, List.filter_In, <- list_elem_of_In, elem_of_selems, Z.leb_le. done. }
  assert (Hsub : l `sublist_of` selems (pw_auctionIds w)) by apply sublist_list_filter.
  destruct (next_free_spec l (pw_nextAuctionId w)) as [Hb Hni].
  - clear -Hsub. assert (Hs : StronglySorted Z.le (selems (pw_auctionIds w))) by apply (StronglySorted_merge_sort Z.le).
    revert Hs. induction Hsub as [|x l l' H IH|x l l' H IH]; [done|..]; intros Hs; inversion Hs as [|? ? Hs' Hf]; subst; [|by apply IH].
    constructor; [by apply IH|]. rewrite Forall_forall in *. intros y Hy. apply Hf. by eapply elem_of_sublist.
  - eapply sublist_NoDup; [apply NoDup_selems|done].
  - done.
  - intros id [Hin Hle]%Hl. split; [done|by apply Hids].
  - split; [|split; [lia|done]]. intros Hin. apply Hni, Hl. split; [done|lia].
Qed.

(** ** Selling *)
Lemma ahv_start_auction me p e h pos it bid buyout etime deposit w :
  ah_ok (ahview w) -> (forall id, id ∈ pw_auctionIds w -> id < 2 ^ 32 - 1) -> GetAItem w (pi_guid it) = None ->
  ah_ok (ahview (start_auction me p e h pos it bid buyout etime deposit w)).
Proof.
  intros Hok Hids Hit. unfold start_auction. cbv zeta. set (w1 := upd_pp me _ w).
  destruct (GenerateAuctionID_spec w1 (proj1 (ah_next _ Hok)) Hids) as (Hnew & Hr & Hv).
  destruct (GenerateAuctionID w1) as [id w2]. cbn [fst snd] in Hnew, Hr, Hv. set (a := mkAuction _ _ _ _ _ _ _ _ _ _ _ _ _ _).
  match goal with |- ah_ok (ahview (SendAuctionCommandResult _ _ _ _ _ ?x)) => change (ah_ok (ahview x)) end.
  rewrite ahv_SaveInventoryAndGoldToDB. set (w3 := MoveItemFromInventory _ _ _).
  assert (E3 : ahview (Item_SaveToDB it w3) = ahview w3) by apply ahv_Item_SaveToDB.
  assert (E : ahview (Auction_SaveToDB a (Item_SaveToDB it w3)) = start_view h a (u32 (id + 1)) (ahview w)).
  { revert E3. generalize (Item_SaveToDB it w3). intros w4 E4. unfold ahview in E4. injection E4 as E1 E2 E5 E6 E7. 
    unfold ahview in Hv. injection Hv as V1 V2 V3 V4 V5. unfold ahview, start_view, with_tables, put_av, av_house. simpl.
    rewrite E1, E2, E5, E6, E7. unfold w3. simpl. unfold house_at. rewrite V1, V2, V3, V4, fmap_insert, V5.
    unfold insert_row. assert (Hrow : pw_auction w !! id = None).
    { destruct (pw_auction w !! id) as [r|] eqn:Er; [|done]. destruct (ah_rows _ Hok id r Er) as (h' & b & Hrun).
      exfalso. apply Hnew. apply (ah_ids _ Hok). by exists h', b. }
    by rewrite Hrow. }
  rewrite E. apply ah_start; [done|exact Hnew| |exact Hr|apply u32_range].
  simpl. unfold GetAItem in Hit. by rewrite lookup_fmap, Hit.
Qed.
Lemma ah_at_auctioneer me guid w f : (forall p e h, ah_ok (ahview w) -> ah_ok (ahview (f p e h))) -> ah_ok (ahview w) -> ah_ok (ahview (at_auctioneer me guid w f)).
Proof.
  intros H Hok. unfold at_auctioneer. destruct (GetPlayer w me) as [p|]; [|done].
  destruct (GetCheckedAuctionHouseForAuctioneer me guid p) as [e|]; [|done]. simpl. destruct (GetAuctionsMap e w) as [h|]; [|done]. by apply H.
Qed.
Lemma ah_HandleAuctionSellItem me a item bid buyout etime w : (forall id, id ∈ pw_auctionIds w -> id < 2 ^ 32 - 1) ->
  ah_ok (ahview w) -> ah_ok (ahview (HandleAuctionSellItem me a item bid buyout etime w)).
Proof.
  intros Hids Hok. unfold HandleAuctionSellItem. destruct (GetPlayer w me) as [p0|]; [|done]. repeat (case_if; [done|]).
  apply ah_at_auctioneer; [|done]. intros p e h _. cbv zeta. do 3 (case_if; [done|]). destruct (bool_decide (is_Some (GetAItem w item))) eqn:Hno; [done|].
  destruct (GetItemByGuid p item) as [[pos it]|] eqn:E; [|done]. apply GetItemByGuid_items in E as [_ E].
  case_if; [done|]. case_if; [done|]. apply ahv_start_auction; [done|done|]. rewrite E.
  apply bool_decide_eq_false in Hno. by apply eq_None_not_Some.
Qed.

(** ** Ending *)
Definition without_item (k : Z) (v : AHView) : AHView := mkAH (av_houses v) (av_rows v) (av_ids v) (av_next v) (delete k (av_items v)).
Lemma ahv_RemoveAItem k w : ahview (RemoveAItem k w) = without_item k (ahview w).
Proof. unfold ahview, without_item. simpl. by rewrite fmap_delete. Qed.
Lemma without_item_twice k v : without_item k (without_item k v) = without_item k v.
Proof. unfold without_item. simpl. by rewrite delete_delete_eq. Qed.
Definition keyed (w : PW) (k : Z) : Prop := forall k', av_items (ahview w) !! k = Some k' -> k' = k.
Lemma keyed_item w k it : keyed w k -> GetAItem w k = Some it -> pi_guid it = k.
Proof. intros Hk Hit. apply Hk. simpl. unfold GetAItem in Hit. by rewrite lookup_fmap, Hit. Qed.
Lemma keyed_same w w' k : ahview w' = ahview w -> keyed w k -> keyed w' k.
Proof. intros E. unfold keyed. by rewrite E. Qed.
Lemma ah_keyed w k : ah_ok (ahview w) -> keyed w k.
Proof. intros Hok k' H. destruct (ah_items _ Hok _ _ H) as (h & id & a & Hr & <-). apply (ah_item _ Hok) in Hr. congruence. Qed.
Lemma ahv_won a w : keyed w (a_itemGuidLow a) ->
  without_item (a_itemGuidLow a) (ahview (SendAuctionWonMail a w)) = without_item (a_itemGuidLow a) (ahview w).
Proof.
  intros Hk. unfold SendAuctionWonMail. destruct (GetAItem w (a_itemGuidLow a)) as [it|] eqn:E; [|done]. apply (keyed_item _ _ _ Hk) in E. cbv zeta. case_if.
  - set (w1 := sql_owner _ _ w). set (w2 := if in_world w1 (a_bidder a) then _ else _).
    assert (E2 : without_item (a_itemGuidLow a) (ahview w2) = without_item (a_itemGuidLow a) (ahview w)).
    { unfold w2. case_if; [done|]. rewrite ahv_RemoveAItem, E, without_item_twice. done. }
    pose proof (ahv_MailDraft_text (auction_subject a AUCTION_WON) (won_body a) w2) as E3.
    destruct (MailDraft_text (auction_subject a AUCTION_WON) (won_body a) w2) as [d w3]. simpl in E3.
    unfold SendAuctionMail. by rewrite ahv_SendMailTo, E3.
  - unfold destroy_aitem. by rewrite ahv_RemoveAItem, E, without_item_twice.
Qed.
Lemma ahv_expired a w : keyed w (a_itemGuidLow a) ->
  without_item (a_itemGuidLow a) (ahview (SendAuctionExpiredMail a w)) = without_item (a_itemGuidLow a) (ahview w).
Proof.
  intros Hk. unfold SendAuctionExpiredMail. destruct (GetAItem w (a_itemGuidLow a)) as [it|] eqn:E; [|done]. apply (keyed_item _ _ _ Hk) in E. cbv zeta. case_if.
  - set (w2 := if in_world w (a_owner a) then _ else _). unfold SendAuctionMail. rewrite ahv_SendMailTo. unfold w2.
    case_if; [by rewrite ahv_notified|]. by rewrite ahv_RemoveAItem, E, without_item_twice.
  - unfold destroy_aitem. by rewrite ahv_RemoveAItem, E, without_item_twice.
Qed.
Lemma ahv_successful a w : ahview (SendAuctionSuccessfulMail a w) = ahview w.
Proof.
  unfold SendAuctionSuccessfulMail. cbv zeta. case_if; [|done]. set (w1 := if in_world w (a_owner a) then _ else _).
  assert (E : ahview w1 = ahview w) by (unfold w1; case_if; [apply ahv_notified|done]).
  match goal with |- context [MailDraft_text ?s ?t w1] => pose proof (ahv_MailDraft_text s t w1) as E'; destruct (MailDraft_text s t w1) as [d w3] end.
  simpl in E'. unfold SendAuctionMail. rewrite ahv_SendMailTo. congruence.
Qed.
Lemma ahv_outbidded a w : ahview (SendAuctionOutbiddedMail a w) = ahview w.
Proof. unfold SendAuctionOutbiddedMail, SendAuctionMail. cbv zeta. case_if; [|done]. rewrite ahv_SendMailTo. by case_if. Qed.
Lemma ahv_cancelled_to_bidder a w : ahview (SendAuctionCancelledToBidderMail a w) = ahview w.
Proof. unfold SendAuctionCancelledToBidderMail, SendAuctionMail. cbv zeta. case_if; [|done]. rewrite ahv_SendMailTo. by case_if. Qed.
Lemma ahv_pay_bid me a price w : ahview (pay_bid me a price w) = ahview w.
Proof. unfold pay_bid. case_if; [done|]. cbv zeta. case_if; [done|]. by rewrite ahv_outbidded. Qed.

(** Whatever was sent before it: when an auction is taken out of its house, the
    view is that of the end of the auction. *)
Lemma end_of_auction h a b w w' :
  without_item (a_itemGuidLow b) (ahview w') = without_item (a_itemGuidLow b) (ahview w) ->
  running (ahview w) h (a_Id b) a ->
  ahview (RemoveAuction h b (RemoveAItem (a_itemGuidLow b) (Auction_DeleteFromDB (a_Id b) w'))) = end_view h b (ahview w).
Proof.
  intros E Hr. unfold RemoveAuction. cbv zeta. set (w1 := RemoveAItem _ _).
  assert (Ho : house_at h w1 = av_house h (ahview w)) by (unfold without_item in E; injection E as E1 _ _ _ _; change (house_at h w1) with (default no_house (pw_houses w' !! h)); by rewrite E1).
  rewrite Ho. rewrite bool_decide_true by (unfold running in Hr; rewrite Hr; by eexists).
  unfold without_item in E. injection E as E1 E2 E3 E4 E5. unfold ahview, end_view, with_tables, put_av. simpl. rewrite fmap_delete.
  by rewrite E1, E2, E3, E4, E5.
Qed.
Lemma ahv_RemoveAuction_same h b w w' : ahview w' = ahview w -> ahview (RemoveAuction h b w') = ahview (RemoveAuction h b w).
Proof.
  intros E. unfold ahview in E. injection E as E1 E2 E3 E4 E5. unfold RemoveAuction. cbv zeta. unfold house_at. rewrite E1.
  case_if; unfold ahview; simpl; by rewrite E1, E2, E3, E4, E5.
Qed.
Lemma ahv_RemoveAuction_DeleteFromDB h b id w : ahview (Auction_DeleteFromDB id (RemoveAuction h b w)) = ahview (RemoveAuction h b (Auction_DeleteFromDB id w)).
Proof. unfold RemoveAuction. cbv zeta. change (house_at h (Auction_DeleteFromDB id w)) with (house_at h w). by case_if. Qed.
Lemma house_at_view h w : house_at h w = av_house h (ahview w).
Proof. done. Qed.
Lemma ahv_ExpireAuction h id a w : ah_ok (ahview w) -> running (ahview w) h id a -> ahview (ExpireAuction h id w) = end_view h a (ahview w).
Proof.
  intros Hok Hr. unfold ExpireAuction. assert (Hg : GetAuction id (house_at h w) = Some a) by exact Hr. rewrite Hg. unfold clear_auction.
  pose proof (ah_key _ Hok _ _ _ Hr) as Hid. apply (end_of_auction h a a w); [|by rewrite Hid].
  case_if; [by apply ahv_expired, ah_keyed|]. rewrite ahv_won; [by rewrite ahv_successful|]. apply (keyed_same w); [apply ahv_successful|by apply ah_keyed].
Qed.
Lemma ah_update_auction h w id : ah_ok (ahview w) -> ah_ok (ahview (update_auction h w id)).
Proof.
  intros Hok. unfold update_auction. destruct (GetAuction id (house_at h w)) as [a|] eqn:Ha; [|done]. cbv zeta.
  set (w1 := if a_depositTime a + 5 * 60 <? pw_gameTime w then _ else _).
  assert (H1 : ah_ok (ahview w1)).
  { unfold w1. case_if; [|done]. pose proof (ah_update h id (set_a_lockedIpAddress "") (fun r => r) (ahview w) Hok) as H.
    unfold update_view in H. cbn [av_rows] in H. rewrite alter_id in H by done. apply H; [done|done|]. intros h' b Hb. by eapply (ah_house _ Hok). }
  case_if; [|done]. unfold ExpireAuction. destruct (GetAuction id (house_at h w1)) as [b|] eqn:Hb; [|done].
  pose proof (ahv_ExpireAuction h id b w1 H1 Hb) as E. unfold ExpireAuction in E. rewrite Hb in E. rewrite E.
  by eapply ah_end; [done|exact Hb|eapply (ah_key _ H1)|..].
Qed.
Lemma ah_AuctionHouseMgr_Update w : ah_ok (ahview w) -> ah_ok (ahview (AuctionHouseMgr_Update w)).
Proof.
  intros Hok. apply (foldl_inv (fun w => ah_ok (ahview w))); [done|]. intros w1 h _ Hok1.
  apply (foldl_inv (fun w => ah_ok (ahview w))); [done|]. intros w2 id _. apply ah_update_auction.
Qed.

(** ** Bidding and cancelling *)
Lemma ahv_place_bid me h a price w : ah_ok (ahview w) -> running (ahview w) h (a_Id a) a ->
  ahview (place_bid me h a price w) = update_view h (a_Id a) (set_bid me price)
    (fun r => mkAuctionRow (ar_houseid r) (ar_itemguid r) (ar_item_template r) (ar_itemowner r) (ar_buyoutprice r) (ar_time r) me price (ar_startbid r) (ar_deposit r)) (ahview w).
Proof.
  intros Hok Hr. unfold place_bid. cbv zeta. set (w1 := pay_bid me a price w). assert (E1 : ahview w1 = ahview w) by apply ahv_pay_bid. rewrite <- E1.
  clearbody w1. clear E1 Hok Hr. set (w2 := upd_auction h (a_Id a) (set_bid me price) w1).
  match goal with |- ahview (SendAuctionCommandResult _ _ _ _ _ (sql_bid _ _ _ ?x)) = _ => assert (E : ahview x = ahview w2) by (case_if; [apply ahv_notified|done]);
    revert E; generalize x end.
  intros w3 E. change (ahview (sql_bid (a_Id a) me price w3) = update_view h (a_Id a) (set_bid me price)
    (fun r => mkAuctionRow (ar_houseid r) (ar_itemguid r) (ar_item_template r) (ar_itemowner r) (ar_buyoutprice r) (ar_time r) me price (ar_startbid r) (ar_deposit r)) (ahview w1)).
  transitivity (let v := ahview w3 in with_tables (alter (fun r => mkAuctionRow (ar_houseid r) (ar_itemguid r) (ar_item_template r) (ar_itemowner r)
    (ar_buyoutprice r) (ar_time r) me price (ar_startbid r) (ar_deposit r)) (a_Id a) (av_rows v)) (av_ids v) (av_next v) (av_items v) v); [done|].
  by rewrite E.
Qed.
Lemma ahv_buy_out me h a w : ah_ok (ahview w) -> running (ahview w) h (a_Id a) a ->
  ahview (buy_out me h a w) = end_view h a (ahview w).
Proof.
  intros Hok Hr. unfold buy_out. cbv zeta. set (w1 := pay_bid me a (a_buyout a) w). assert (E1 : ahview w1 = ahview w) by apply ahv_pay_bid. rewrite <- E1.
  rewrite <- E1 in Hok, Hr. clearbody w1. clear E1. set (b := set_bid me (a_buyout a) a). set (w2 := upd_auction h (a_Id a) (set_bid me (a_buyout a)) w1).
  assert (Hk : keyed w2 (a_itemGuidLow b)) by exact (ah_keyed w1 (a_itemGuidLow a) Hok).
  assert (E : without_item (a_itemGuidLow b) (ahview (SendAuctionWonMail b (SendAuctionSuccessfulMail b w2))) = without_item (a_itemGuidLow b) (ahview w2)).
  { rewrite ahv_won; [by rewrite ahv_successful|]. exact (keyed_same w2 _ _ (ahv_successful b w2) Hk). }
  assert (Hr2 : running (ahview w2) h (a_Id b) b).
  { unfold running. change (AuctionsMap (av_house h (put_av h (set_AuctionsMap (alter (set_bid me (a_buyout a)) (a_Id a) (AuctionsMap (av_house h (ahview w1))))
      (av_house h (ahview w1))) (ahview w1))) !! a_Id a = Some b). rewrite av_house_put, decide_True by done. simpl.
    unfold running in Hr. by rewrite lookup_alter_eq, Hr. }
  transitivity (ahview (RemoveAuction h b (RemoveAItem (a_itemGuidLow b) (Auction_DeleteFromDB (a_Id b) (SendAuctionWonMail b (SendAuctionSuccessfulMail b w2))))));
    [|rewrite (end_of_auction h b b w2 _ E Hr2)].
  - rewrite ahv_RemoveAuction_DeleteFromDB. by apply ahv_RemoveAuction_same.
  - unfold end_view, with_tables, put_av. cbv zeta.
    change (av_house h (ahview w2)) with (av_house h (put_av h (set_AuctionsMap (alter (set_bid me (a_buyout a)) (a_Id a) (AuctionsMap (av_house h (ahview w1)))) (av_house h (ahview w1))) (ahview w1))).
    rewrite av_house_put, decide_True by done. simpl. by rewrite insert_insert_eq, delete_alter_eq.
Qed.
Lemma ah_HandleAuctionPlaceBid me a id price w : ah_ok (ahview w) -> ah_ok (ahview (HandleAuctionPlaceBid me a id price w)).
Proof.
  intros Hok. unfold HandleAuctionPlaceBid. destruct (GetPlayer w me) as [p0|]; [|done]. repeat (case_if; [done|]).
  apply ah_at_auctioneer; [|done]. intros p e h _. case_if; [done|]. destruct (GetAuction id (house_at h w)) as [b|] eqn:Hb; [|done].
  cbv zeta. do 4 (case_if; [done|]). destruct (((price <? a_buyout b) || (a_buyout b =? 0)) && _); [done|]. case_if; [done|].
  rewrite ahv_SaveInventoryAndGoldToDB. assert (Hid : a_Id b = id) by by eapply (ah_key _ Hok h).
  assert (Hr : running (ahview w) h (a_Id b) b) by by rewrite Hid. case_if.
  - rewrite ahv_place_bid by done. apply ah_update; [done|done|done|]. intros h' c Hc. by eapply (ah_house _ Hok).
  - rewrite ahv_buy_out by done. by eapply ah_end.
Qed.
Lemma ah_HandleAuctionRemoveItem me a id w : ah_ok (ahview w) -> ah_ok (ahview (HandleAuctionRemoveItem me a id w)).
Proof.
  apply ah_at_auctioneer. intros p e h Hok. cbv zeta. destruct (GetAuction id (house_at h w)) as [b|] eqn:Hb; [|done].
  case_if; [done|]. destruct (GetAItem w (a_itemGuidLow b)) as [it|]; [|done]. case_if; [done|]. unfold cancel_auction. cbv zeta.
  set (w1 := if 0 <? a_bidder b then _ else w).
  assert (E1 : ahview w1 = ahview w) by (unfold w1; case_if; [apply ahv_cancelled_to_bidder|done]).
  assert (Hid : a_Id b = id) by by eapply (ah_key _ Hok h). assert (Hr : running (ahview w) h (a_Id b) b) by by rewrite Hid.
  set (w2 := SendAuctionMail _ me b w1). assert (E2 : ahview w2 = ahview w) by (unfold w2, SendAuctionMail; by rewrite ahv_SendMailTo).
  set (w3 := SaveInventoryAndGoldToDB me _).
  assert (E3 : ahview w3 = ahview (Auction_DeleteFromDB (a_Id b) w2)) by (unfold w3; by rewrite ahv_SaveInventoryAndGoldToDB).
  assert (E : ahview (RemoveAuction h b (RemoveAItem (a_itemGuidLow b) w3)) = ahview (RemoveAuction h b (RemoveAItem (a_itemGuidLow b) (Auction_DeleteFromDB (a_Id b) w2)))).
  { apply ahv_RemoveAuction_same. rewrite !ahv_RemoveAItem. by rewrite E3. }
  rewrite E, (end_of_auction h b b w w2); [|by rewrite E2|done]. by eapply ah_end.
Qed.

(** ** All operations *)
Lemma ah_run_op o w : in_range w -> ah_ok (ahview w) -> ah_ok (ahview (run_op o w)).
Proof.
  intros Hr Hok. destruct o; simpl.
  - by rewrite ahv_HandleSendMail.
  - unfold HandleMailMarkAsRead. rewrite ahv_at_mailbox; [done|]. intros p. destruct (GetMail p _); [|done]. by case_if.
  - unfold HandleMailDelete. rewrite ahv_at_mailbox; [done|]. intros p. cbv zeta. destruct (GetMail p _); [|done]. by case_if.
  - by rewrite ahv_HandleMailReturnToSender.
  - by rewrite ahv_HandleMailTakeItem.
  - unfold HandleMailTakeMoney. rewrite ahv_at_mailbox; [done|]. intros p. destruct (usable_mail p _ _); [|done]. cbv zeta. by rewrite ahv_SaveMails.
  - by rewrite ahv_HandleMailCreateTextItem.
  - unfold HandleGetMailList. by rewrite ahv_at_mailbox.
  - done.
  - unfold HandleQueryNextMailTime. by destruct (pw_players w !! me).
  - unfold HandleAuctionHello. destruct (GetPlayer w me) as [p|]; [|done]. repeat (case_if; [done|]). by destruct (GetAuctionHouseEntry me auctioneer p).
  - apply ah_HandleAuctionSellItem; [apply Hr|done].
  - by apply ah_HandleAuctionPlaceBid.
  - by apply ah_HandleAuctionRemoveItem.
  - apply ah_at_auctioneer; [|done]. intros p e h _. by case_if.
  - apply ah_at_auctioneer; [|done]. intros p e h _. by case_if.
  - apply ah_at_auctioneer; [|done]. intros p e h _. case_if; [done|]. by destruct (searched_name name).
  - unfold run_next_task. destruct (pw_tasks w) as [|t ts]; [done|]. by rewrite ahv_run_task.
  - by apply ah_AuctionHouseMgr_Update.
  - unfold MasterPlayer_Update. destruct (pw_players w !! g); [|done]. by case_if.
  - by rewrite ahv_ReturnOrDeleteOldMails.
  - by rewrite ahv_HandlePlayerLogin.
  - by rewrite ahv_LogoutPlayer.
  - done.
  - done.
  - done.
Qed.
Lemma ah_steps w w' : post_steps w w' -> ah_ok (ahview w) -> ah_ok (ahview w').
Proof. induction 1 as [w|w o w' Hr Hr' _ IH]; intros Hok; [done|]. by apply IH, ah_run_op. Qed.
End steps.
