(* ===== verification/PostOutcomes.v ===== *)
(** What single operations achieve: which letters were sent to whom, which
    auctions a tick ends, what a bid pays, gives back and gets, and what the lists
    of fifty auctions show. *)

From Stdlib Require Import Floats.SpecFloat.
From S2P Require Import Prelude CString World GuildBankTypes GuildBankItems PostTypes Mail MailHandlers Auction AuctionHandlers PostSteps PostGold PostGoldSteps PostItems PostItemsSteps PostItemsLoad PostHouses.

(** Since [w0] a letter with [n] coins and the items [ks] was sent to [to]. *)
Definition sent (w0 w : PW) (to n : Z) (ks : list Z) : Prop :=
  exists id r, pw_mailIds w0 <= id < pw_mailIds w /\ pw_mail w !! id = Some r /\ mlr_receiver r = to /\ mlr_isDeleted r = false /\
    mlr_money r = n /\ forall k, k ∈ ks -> (id, k) ∈ dom (pw_mail_items w).
Record grows (w w' : PW) : Prop := mkGrows {
  gr_ids : pw_mailIds w <= pw_mailIds w';
  gr_rows : gv_rows (gview w) ⊆ gv_rows (gview w');
  gr_items : dom (pw_mail_items w) ⊆ dom (pw_mail_items w')
}.
Lemma grows_refl w : grows w w.
Proof. done. Qed.
Lemma grows_trans w w1 w2 : grows w w1 -> grows w1 w2 -> grows w w2.
Proof. intros [H1 H2 H3] [I1 I2 I3]. split; [lia|by etransitivity|set_solver]. Qed.
Lemma grows_views w w' : pw_mailIds w' = pw_mailIds w -> gv_rows (gview w') = gv_rows (gview w) -> iv_rows (iview w') = iv_rows (iview w) -> grows w w'.
Proof. intros E1 E2 E3. split; [lia|by rewrite E2|]. simpl in E3. by rewrite E3. Qed.
Lemma grows_same w w' : gview w' = gview w -> iview w' = iview w -> grows w w'.
Proof. intros E1 E2. apply grows_views; [|by rewrite E1|by rewrite E2]. change (gv_ids (gview w') = gv_ids (gview w)). by rewrite E1. Qed.
Lemma sent_grows w0 w w' to n ks : sent w0 w to n ks -> grows w w' -> sent w0 w' to n ks.
Proof.
  intros (id & r & Hid & Hr & <- & Hd & <- & Hk) [G1 G2 G3].
  assert (E : gv_rows (gview w') !! id = Some (row_view r)) by (eapply lookup_weaken; [|exact G2]; by rewrite lookup_gvr, Hr).
  rewrite lookup_gvr in E. destruct (pw_mail w' !! id) as [r'|] eqn:Hr'; [|done]. injection E as E1 E2 E3.
  exists id, r'. repeat (split; [first [lia|done|congruence]|]). intros k Hin. by apply G3, Hk.
Qed.
Lemma sent_since w0 w1 w to n ks : pw_mailIds w0 <= pw_mailIds w1 -> sent w1 w to n ks -> sent w0 w to n ks.
Proof. intros Hle (id & r & Hid & H). exists id, r. split; [lia|done]. Qed.

(** ** Sending *)
Lemma rows_SendMailTo d to sn c dd ed w : d_returnSourceMailId d = 0 ->
  iv_rows (iview (SendMailTo d to sn c dd ed w)) = list_to_set ((fun it => (u32 (pw_mailIds w), pi_guid it)) <$> draft_items d) ∪ iv_rows (iview w).
Proof.
  intros Hr. unfold SendMailTo. rewrite Hr. cbv zeta. set (w0 := set_pw_mail _ _). set (w1 := foldl _ w0 _).
  assert (E1 : iv_rows (iview w1) = list_to_set ((fun it => (u32 (pw_mailIds w), pi_guid it)) <$> draft_items d) ∪ iv_rows (iview w)).
  { unfold w1. by rewrite insert_mail_items_view. }
  destruct (FindMasterPlayer w1 to); [|done]. match goal with |- iv_rows (iview (upd_pp _ _ ?x)) = _ => change (iv_rows (iview x) = list_to_set ((fun it => (u32 (pw_mailIds w), pi_guid it)) <$> draft_items d) ∪ iv_rows (iview w)) end.
  by rewrite iview_AddNewMailDeliverTime.
Qed.
Lemma grows_SendMailTo d to sn c dd ed w : d_returnSourceMailId d = 0 -> grows w (SendMailTo d to sn c dd ed w).
Proof.
  intros Hr. pose proof (gview_SendMailTo d to sn c dd ed w Hr) as Hg. split.
  - change (gv_ids (gview w) <= gv_ids (gview (SendMailTo d to sn c dd ed w))). rewrite Hg. simpl. lia.
  - rewrite Hg. simpl. unfold insert_row. destruct (_ !! u32 _) eqn:E; [done|]. by apply insert_subseteq.
  - change (iv_rows (iview w) ⊆ iv_rows (iview (SendMailTo d to sn c dd ed w))). rewrite rows_SendMailTo by done. set_solver.
Qed.
Lemma sent_SendMailTo d to sn c dd ed w : d_returnSourceMailId d = 0 -> view_ok (gview w) -> pw_mailIds w < 2 ^ 32 ->
  sent w (SendMailTo d to sn c dd ed w) to (d_money d) (pi_guid <$> draft_items d).
Proof.
  intros Hr Hok Hmax. pose proof (gview_SendMailTo d to sn c dd ed w Hr) as Hg. pose proof (vo_ids _ Hok) as H0. simpl in H0.
  set (w' := SendMailTo d to sn c dd ed w) in *.
  assert (Hid : u32 (pw_mailIds w) = pw_mailIds w) by (apply u32_small; lia).
  assert (Hn : gv_rows (gview w) !! pw_mailIds w = None).
  { destruct (gv_rows (gview w) !! pw_mailIds w) eqn:E; [|done]. apply (vo_rows _ Hok) in E as [E _]. simpl in E. lia. }
  assert (Hrow : gv_rows (gview w') !! pw_mailIds w = Some (to, false, d_money d)).
  { rewrite Hg. simpl. rewrite Hid. unfold insert_row. simpl in Hn. by rewrite Hn, lookup_insert_eq. }
  rewrite lookup_gvr in Hrow. destruct (pw_mail w' !! pw_mailIds w) as [r|] eqn:Er; [|done]. injection Hrow as E1 E2 E3.
  exists (pw_mailIds w), r. split.
  { assert (pw_mailIds w' = pw_mailIds w + 1); [|lia]. change (gv_ids (gview w') = pw_mailIds w + 1). by rewrite Hg. }
  repeat (split; [done|]). intros k (it & -> & Hin)%list_elem_of_fmap. change ((pw_mailIds w, pi_guid it) ∈ iv_rows (iview w')).
  unfold w'. rewrite rows_SendMailTo, Hid by done. apply elem_of_union. left. apply elem_of_list_to_set, list_elem_of_fmap. by exists it.
Qed.

(** ** Who can be reached *)
Definition standing (w : PW) : gmap Z (bool * PlayerInfo) * gmap Z PostCache := ((fun p => (pp_inWorld p, pp_info p)) <$> pw_players w, pw_cache w).
Lemma reachable_same w w' g : standing w' = standing w -> reachable w' g = reachable w g /\ in_world w' g = in_world w g.
Proof.
  intros E. unfold standing in E. injection E as E1 E2.
  assert (Hp : (fun p => (pp_inWorld p, pp_info p)) <$> pw_players w' !! g = (fun p => (pp_inWorld p, pp_info p)) <$> pw_players w !! g) by by rewrite <- !lookup_fmap, E1.
  unfold reachable, exists_player, hardcore_of, in_world, GetPlayerAccountIdByGUID, IsPlayerHardcore, GetPlayerDataByGUID, GetPlayer. rewrite E2.
  destruct (pw_players w' !! g) as [p'|], (pw_players w !! g) as [p|]; try done. simpl in Hp |- *. injection Hp as Hw Hi. rewrite Hw.
  destruct (pp_inWorld p); [by rewrite !Hi|done].
Qed.
Lemma standing_upd g f w : (forall p, pp_inWorld (f p) = pp_inWorld p /\ pp_info (f p) = pp_info p) -> standing (upd_pp g f w) = standing w.
Proof.
  intros H. unfold standing. simpl. f_equal. apply map_eq. intros k. rewrite !lookup_fmap, lookup_alter. case_decide; [subst|done].
  destruct (pw_players w !! k) as [p|]; [|done]. simpl. by destruct (H p) as [-> ->].
Qed.
Lemma standing_SendMailTo d to sn c dd ed w : standing (SendMailTo d to sn c dd ed w) = standing w.
Proof.
  unfold SendMailTo. cbv zeta.
  assert (H : forall m w, standing (foldl (insert_mail_item m to) w (draft_items d)) = standing w) by (intros; by apply foldl_keep).
  assert (Ha : forall g t w, standing (AddNewMailDeliverTime g t w) = standing w).
  { intros. unfold AddNewMailDeliverTime. case_if; [by apply (standing_upd g)|]. apply standing_upd. intros p. by case_if. }
  destruct (FindMasterPlayer _ _).
  - rewrite standing_upd.
    + rewrite Ha. etransitivity; [apply H|]. by case_if.
    + intros q0. assert (Hf : forall l q, (fun q => (pp_inWorld q, pp_info q)) (foldl (fun p it => AddMItem it p) q l) = (pp_inWorld q, pp_info q))
        by (intros; by apply (foldl_keep (fun q => (pp_inWorld q, pp_info q)))).
      cbv beta in Hf. match goal with |- context [foldl _ ?q ?l] => pose proof (Hf l q) as E end. injection E as E1 E2. by split.
  - etransitivity; [apply H|]. by case_if.
Qed.
Lemma standing_MailDraft_text s t w : standing (snd (MailDraft_text s t w)) = standing w.
Proof. unfold MailDraft_text. by case_if. Qed.
Lemma standing_notified to a b w : standing (SendAuctionOwnerNotification to a b w) = standing w.
Proof. unfold SendAuctionOwnerNotification. destruct (pw_players w !! to); [|done]. by case_if. Qed.

Section letters.
Context {env : PostEnv}.

(** A letter of an auction, after notes that change nothing of the post. *)
Record posted (w w' : PW) : Prop := mkPosted { po_grows : grows w w'; po_standing : standing w' = standing w; po_time : pw_gameTime w' = pw_gameTime w }.
Lemma posted_refl w : posted w w.
Proof. split; [apply grows_refl|done|done]. Qed.
Lemma posted_trans w w1 w2 : posted w w1 -> posted w1 w2 -> posted w w2.
Proof. intros [G1 S1 T1] [G2 S2 T2]. split; [by eapply grows_trans|congruence|congruence]. Qed.
Lemma time_SendMailTo d to sn c dd ed w : pw_gameTime (SendMailTo d to sn c dd ed w) = pw_gameTime w.
Proof.
  unfold SendMailTo. cbv zeta.
  assert (H : forall m w, pw_gameTime (foldl (insert_mail_item m to) w (draft_items d)) = pw_gameTime w) by (intros; by apply foldl_keep).
  assert (Ha : forall g t w, pw_gameTime (AddNewMailDeliverTime g t w) = pw_gameTime w) by (intros; unfold AddNewMailDeliverTime; by case_if).
  destruct (FindMasterPlayer _ _).
  - match goal with |- pw_gameTime (upd_pp _ _ ?x) = _ => change (pw_gameTime x = pw_gameTime w) end. rewrite Ha. etransitivity; [apply H|]. by case_if.
  - etransitivity; [apply H|]. by case_if.
Qed.
Lemma posted_SendMailTo d to sn c dd ed w : d_returnSourceMailId d = 0 -> posted w (SendMailTo d to sn c dd ed w).
Proof. intros Hr. split; [by apply grows_SendMailTo|apply standing_SendMailTo|apply time_SendMailTo]. Qed.
Lemma posted_RemoveAItem k w : posted w (RemoveAItem k w).
Proof. by split; [apply grows_views|..]. Qed.
Lemma posted_notified to a b w : posted w (SendAuctionOwnerNotification to a b w).
Proof.
  split; [apply grows_views|apply standing_notified|]; unfold SendAuctionOwnerNotification; (destruct (pw_players w !! to); [|done]); by case_if.
Qed.
Lemma posted_MailDraft_text s t w : posted w (snd (MailDraft_text s t w)).
Proof. split; [apply grows_views|apply standing_MailDraft_text|]; unfold MailDraft_text; by case_if. Qed.
Lemma view_same_ok w w' : gview w' = gview w -> view_ok (gview w) -> view_ok (gview w').
Proof. by intros ->. Qed.

Lemma sent_later w w1 d to sn c dd ed n ks :
  gview w1 = gview w -> d_returnSourceMailId d = 0 -> d_money d = n -> (forall k, k ∈ ks -> k ∈ pi_guid <$> draft_items d) ->
  view_ok (gview w) -> pw_mailIds (SendMailTo d to sn c dd ed w1) <= 2 ^ 32 -> sent w (SendMailTo d to sn c dd ed w1) to n ks.
Proof.
  intros E Hr <- Hks Hok Hm. assert (Hm1 : pw_mailIds w1 = pw_mailIds w) by (change (gv_ids (gview w1) = gv_ids (gview w)); by rewrite E).
  rewrite ids_SendMailTo in Hm by done.
  destruct (sent_SendMailTo d to sn c dd ed w1 Hr) as (id & r & Hid & H1 & H2 & H3 & H4 & H5); [by rewrite E|lia|].
  exists id, r. split; [lia|]. repeat (split; [done|]). intros k Hk. by apply H5, Hks.
Qed.

(** The letters: posted at all events, and sent when the receiver can be reached. *)
Lemma sent_outbidded a w :
  posted w (SendAuctionOutbiddedMail a w) /\
  (reachable w (a_bidder a) = true -> view_ok (gview w) -> pw_mailIds (SendAuctionOutbiddedMail a w) <= 2 ^ 32 -> sent w (SendAuctionOutbiddedMail a w) (a_bidder a) (a_bid a) []).
Proof.
  unfold SendAuctionOutbiddedMail. cbv zeta. destruct (reachable w (a_bidder a)); [|split; [apply posted_refl|done]].
  set (w1 := if in_world w (a_bidder a) then _ else _).
  assert (P1 : posted w w1 /\ gview w1 = gview w) by (unfold w1; case_if; by repeat split). destruct P1 as [P1 G1].
  split; [eapply posted_trans; [exact P1|by apply posted_SendMailTo]|]. intros _ Hok Hm.
  apply sent_later; first [done|congruence|by intros k ?%not_elem_of_nil|by rewrite draft_of_one].
Qed.
Lemma gview_notified to a b w : gview (SendAuctionOwnerNotification to a b w) = gview w.
Proof. unfold SendAuctionOwnerNotification. destruct (pw_players w !! to); [|done]. by case_if. Qed.
Lemma sent_successful a w :
  posted w (SendAuctionSuccessfulMail a w) /\
  (reachable w (a_owner a) = true -> view_ok (gview w) -> pw_mailIds (SendAuctionSuccessfulMail a w) <= 2 ^ 32 ->
   sent w (SendAuctionSuccessfulMail a w) (a_owner a) (u32 (a_bid a + a_deposit a - GetAuctionCut a)) []).
Proof.
  unfold SendAuctionSuccessfulMail. cbv zeta. destruct (reachable w (a_owner a)); [|split; [apply posted_refl|done]].
  set (w1 := if in_world w (a_owner a) then _ else _).
  assert (P1 : posted w w1 /\ gview w1 = gview w) by (unfold w1; case_if; [split; [apply posted_notified|apply gview_notified]|split; [apply posted_refl|done]]).
  destruct P1 as [P1 G1]. set (s := auction_subject a AUCTION_SUCCESSFUL). set (t := successful_body a (GetAuctionCut a)).
  pose proof (posted_MailDraft_text s t w1) as P2. pose proof (gview_MailDraft_text s t w1) as G2. pose proof (MailDraft_text_source s t w1) as Hr.
  destruct (MailDraft_text s t w1) as [d w2]. cbn [fst snd] in P2, G2, Hr.
  split; [eapply posted_trans; [exact P1|]; eapply posted_trans; [exact P2|by apply posted_SendMailTo]|]. intros _ Hok Hm.
  apply sent_later; first [done|congruence|by intros k ?%not_elem_of_nil|by rewrite draft_of_one].
Qed.
Lemma draft_of_one it d : d_items d = ∅ -> pi_guid <$> draft_items (Draft_AddItem it d) = [pi_guid it].
Proof.
  intros Hd. assert (Hok : draft_ok (Draft_AddItem it d)) by (apply draft_ok_add; intros k it'; by rewrite Hd, lookup_empty).
  rewrite draft_guids by done. simpl. rewrite Hd, insert_empty. apply Permutation_singleton_r. by rewrite skeys_perm, map_to_list_singleton.
Qed.
Lemma sent_won a w :
  posted w (SendAuctionWonMail a w) /\
  (forall it, GetAItem w (a_itemGuidLow a) = Some it -> reachable w (a_bidder a) = true -> view_ok (gview w) -> pw_mailIds (SendAuctionWonMail a w) <= 2 ^ 32 ->
   sent w (SendAuctionWonMail a w) (a_bidder a) 0 [pi_guid it]).
Proof.
  unfold SendAuctionWonMail. destruct (GetAItem w (a_itemGuidLow a)) as [it|]; [|split; [apply posted_refl|done]].
  cbv zeta. destruct (reachable w (a_bidder a)); [|split; [by split; [apply grows_views|..]|done]].
  set (w0 := sql_owner _ _ w). set (w1 := if in_world w0 (a_bidder a) then _ else _).
  assert (P1 : posted w w1 /\ gview w1 = gview w) by (unfold w1; case_if; by repeat split). destruct P1 as [P1 G1].
  set (s := auction_subject a AUCTION_WON). set (t := won_body a).
  pose proof (posted_MailDraft_text s t w1) as P2. pose proof (gview_MailDraft_text s t w1) as G2. pose proof (MailDraft_text_source s t w1) as Hr.
  pose proof (MailDraft_text_items s t w1) as Hd. assert (Hmon : d_money (fst (MailDraft_text s t w1)) = 0) by (unfold MailDraft_text; by case_if).
  destruct (MailDraft_text s t w1) as [d w2]. cbn [fst snd] in P2, G2, Hr, Hd, Hmon.
  split; [eapply posted_trans; [exact P1|]; eapply posted_trans; [exact P2|by apply posted_SendMailTo]|]. intros it' [= <-] _ Hok Hm.
  apply sent_later; first [done|congruence|by intros k ?%not_elem_of_nil|by rewrite draft_of_one].
Qed.
Lemma sent_expired a w :
  posted w (SendAuctionExpiredMail a w) /\
  (forall it, GetAItem w (a_itemGuidLow a) = Some it -> reachable w (a_owner a) = true -> view_ok (gview w) -> pw_mailIds (SendAuctionExpiredMail a w) <= 2 ^ 32 ->
   sent w (SendAuctionExpiredMail a w) (a_owner a) 0 [pi_guid it]).
Proof.
  unfold SendAuctionExpiredMail. destruct (GetAItem w (a_itemGuidLow a)) as [it|]; [|split; [apply posted_refl|done]].
  cbv zeta. destruct (reachable w (a_owner a)); [|split; [by split; [apply grows_views|..]|done]].
  set (w1 := if in_world w (a_owner a) then _ else _).
  assert (P1 : posted w w1 /\ gview w1 = gview w).
  { unfold w1. case_if; [split; [apply posted_notified|apply gview_notified]|by repeat split]. }
  destruct P1 as [P1 G1]. split; [eapply posted_trans; [exact P1|by apply posted_SendMailTo]|]. intros it' [= <-] _ Hok Hm.
  apply sent_later; first [done|congruence|by intros k ?%not_elem_of_nil|by rewrite draft_of_one].
Qed.
(** What they leave of the items on sale. *)
Lemma aitems_SendMailTo d to sn c dd ed w : pw_aitems (SendMailTo d to sn c dd ed w) = pw_aitems w.
Proof.
  unfold SendMailTo. cbv zeta.
  assert (H : forall m w, pw_aitems (foldl (insert_mail_item m to) w (draft_items d)) = pw_aitems w) by (intros; by apply foldl_keep).
  assert (Ha : forall g t w, pw_aitems (AddNewMailDeliverTime g t w) = pw_aitems w) by (intros; unfold AddNewMailDeliverTime; by case_if).
  destruct (FindMasterPlayer _ _).
  - match goal with |- pw_aitems (upd_pp _ _ ?x) = _ => change (pw_aitems x = pw_aitems w) end. rewrite Ha. etransitivity; [apply H|]. by case_if.
  - etransitivity; [apply H|]. by case_if.
Qed.
Lemma aitems_MailDraft_text s t w : pw_aitems (snd (MailDraft_text s t w)) = pw_aitems w.
Proof. unfold MailDraft_text. by case_if. Qed.
Lemma aitems_notified to a b w : pw_aitems (SendAuctionOwnerNotification to a b w) = pw_aitems w.
Proof. unfold SendAuctionOwnerNotification. destruct (pw_players w !! to); [|done]. by case_if. Qed.
Lemma GetAItem_removed k k' w : k <> k' -> GetAItem (RemoveAItem k' w) k = GetAItem w k.
Proof. intros Hne. unfold GetAItem. simpl. by rewrite lookup_delete_ne. Qed.
Lemma aitem_successful a w : pw_aitems (SendAuctionSuccessfulMail a w) = pw_aitems w.
Proof.
  unfold SendAuctionSuccessfulMail. cbv zeta. case_if; [|done]. set (w1 := if in_world w (a_owner a) then _ else _).
  assert (E : pw_aitems w1 = pw_aitems w) by (unfold w1; case_if; [apply aitems_notified|done]).
  match goal with |- context [MailDraft_text ?s ?t w1] => pose proof (aitems_MailDraft_text s t w1) as E'; destruct (MailDraft_text s t w1) as [d w3] end.
  simpl in E'. unfold SendAuctionMail. rewrite aitems_SendMailTo. congruence.
Qed.
Lemma aitem_won a w k : (forall it, GetAItem w (a_itemGuidLow a) = Some it -> pi_guid it <> k) -> GetAItem (SendAuctionWonMail a w) k = GetAItem w k.
Proof.
  intros Hk. unfold SendAuctionWonMail. destruct (GetAItem w (a_itemGuidLow a)) as [it|]; [|done]. specialize (Hk it eq_refl). cbv zeta. case_if.
  - set (w1 := sql_owner _ _ w). set (w2 := if in_world w1 (a_bidder a) then _ else _).
    assert (E2 : GetAItem w2 k = GetAItem w k) by (unfold w2; case_if; [done|]; by rewrite GetAItem_removed).
    pose proof (aitems_MailDraft_text (auction_subject a AUCTION_WON) (won_body a) w2) as E3.
    destruct (MailDraft_text (auction_subject a AUCTION_WON) (won_body a) w2) as [d w3]. simpl in E3.
    unfold SendAuctionMail, GetAItem. rewrite aitems_SendMailTo, E3. exact E2.
  - unfold destroy_aitem. by rewrite GetAItem_removed.
Qed.
Lemma aitem_expired a w k : (forall it, GetAItem w (a_itemGuidLow a) = Some it -> pi_guid it <> k) -> GetAItem (SendAuctionExpiredMail a w) k = GetAItem w k.
Proof.
  intros Hk. unfold SendAuctionExpiredMail. destruct (GetAItem w (a_itemGuidLow a)) as [it|]; [|done]. specialize (Hk it eq_refl). cbv zeta. case_if.
  - unfold SendAuctionMail, GetAItem. rewrite aitems_SendMailTo. case_if; [by rewrite aitems_notified|].
    exact (GetAItem_removed k (pi_guid it) w (not_eq_sym Hk)).
  - unfold destroy_aitem. by rewrite GetAItem_removed.
Qed.
End letters.

(** The tick of the auction houses: which auctions end, and what is posted. *)

Definition due (w : PW) (a : AuctionEntry) : bool := a_expireTime a <? pw_gameTime w.
(** Five minutes after its start an auction is open to the seller's own address. *)
Definition unlocked (w : PW) (a : AuctionEntry) : AuctionEntry :=
  if a_depositTime a + 5 * 60 <? pw_gameTime w then set_a_lockedIpAddress "" a else a.
(** Who gets the item of an auction that ends. *)
Definition receiver_of (a : AuctionEntry) : Z := if a_bidder a =? 0 then a_owner a else a_bidder a.

Section ends.
Context {env : PostEnv}.

Record delivered (w0 w w' : PW) (a : AuctionEntry) : Prop := mkDelivered {
  dl_item : forall it, GetAItem w (a_itemGuidLow a) = Some it -> reachable w (receiver_of a) = true -> sent w0 w' (receiver_of a) 0 [a_itemGuidLow a];
  dl_gold : a_bidder a <> 0 -> reachable w (a_owner a) = true -> sent w0 w' (a_owner a) (u32 (a_bid a + a_deposit a - GetAuctionCut a)) []
}.
Lemma delivered_same w0 w w' a b : a_itemGuidLow b = a_itemGuidLow a -> a_bidder b = a_bidder a -> a_owner b = a_owner a -> a_bid b = a_bid a ->
  a_deposit b = a_deposit a -> a_house b = a_house a -> delivered w0 w w' b -> delivered w0 w w' a.
Proof.
  intros E1 E2 E3 E4 E5 E6 [H1 H2]. unfold GetAuctionCut, receiver_of in *. rewrite E1, E2, E3 in H1. rewrite E2, E3, E4, E5, E6 in H2. by split.
Qed.

Definition step1 (w : PW) (hi : Z * Z) : PW := update_auction (fst hi) w (snd hi).
Context (rate_cut : cfg_RateCut = f32 1) (house_cuts : Forall (fun e => 0 <= cutPercent e < 100) auction_houses).

(** One auction. *)
Lemma posted_clear h a w : posted w (clear_auction h a w).
Proof. unfold clear_auction, RemoveAuction. case_if; by split; [apply grows_views|..]. Qed.
Lemma ExpireAuction_posts h id a w :
  ah_ok (ahview w) -> running (ahview w) h id a ->
  posted w (ExpireAuction h id w) /\
  (view_ok (gview w) -> pw_mailIds (ExpireAuction h id w) <= 2 ^ 32 -> delivered w w (ExpireAuction h id w) a) /\
  (forall k, k <> a_itemGuidLow a -> GetAItem (ExpireAuction h id w) k = GetAItem w k).
Proof.
  intros Hok Hr. unfold ExpireAuction. assert (Hg : GetAuction id (house_at h w) = Some a) by exact Hr. rewrite Hg.
  pose proof (ah_keyed w (a_itemGuidLow a) Hok) as Hk. set (w1 := if a_bidder a =? 0 then _ else _).
  assert (Hi : forall k, k <> a_itemGuidLow a -> GetAItem w1 k = GetAItem w k -> GetAItem (clear_auction h a w1) k = GetAItem w k).
  { intros k Hne <-. unfold clear_auction, RemoveAuction, GetAItem. case_if; simpl; by rewrite lookup_delete_ne. }
  assert (HP : posted w w1 /\ (view_ok (gview w) -> pw_mailIds w1 <= 2 ^ 32 -> delivered w w w1 a) /\ (forall k, k <> a_itemGuidLow a -> GetAItem w1 k = GetAItem w k)).
  2:{ destruct HP as (P & D & I). split; [eapply posted_trans; [exact P|apply posted_clear]|]. split; [|intros k Hne; apply Hi; auto].
      intros Hv Hm. pose proof (posted_clear h a w1) as [G _ _]. destruct D as [D1 D2]; [done|pose proof (gr_ids _ _ G); lia|].
      split; intros; (eapply sent_grows; [by eauto|done]). }
  clear Hi. subst w1.
  assert (Hother : forall w2 k, pw_aitems w2 = pw_aitems w -> k <> a_itemGuidLow a -> forall it, GetAItem w2 (a_itemGuidLow a) = Some it -> pi_guid it <> k).
  { intros w2 k E Hne it Hit. unfold GetAItem in Hit. rewrite E in Hit. rewrite (keyed_item _ _ _ Hk Hit). congruence. }
  destruct (Z.eqb_spec (a_bidder a) 0) as [Hb|Hb].
  - destruct (sent_expired a w) as [P S]. split; [done|]. split; [|intros k Hne; by apply aitem_expired, Hother].
    intros Hv Hm. split; [|done]. unfold receiver_of. rewrite Hb. simpl. intros it Hit Hre. rewrite <- (keyed_item _ _ _ Hk Hit). by apply S.
  - destruct (sent_successful a w) as [P S]. set (w2 := SendAuctionSuccessfulMail a w) in *. destruct (sent_won a w2) as [P2 S2].
    split; [by eapply posted_trans|]. split.
    + intros Hv Hm. pose proof (gr_ids _ _ (po_grows _ _ P)). pose proof (gr_ids _ _ (po_grows _ _ P2)).
      pose proof (reachable_same _ _ (a_bidder a) (po_standing _ _ P)) as [E _]. split.
      * unfold receiver_of. rewrite (proj2 (Z.eqb_neq _ _) Hb). intros it Hit Hre. rewrite <- (keyed_item _ _ _ Hk Hit).
        eapply sent_since; [|apply S2]; [lia| |by rewrite E| |done]; [unfold GetAItem, w2; by rewrite aitem_successful|].
        destruct (house_range _ _ _ _ Hv Hr) as (_ & ? & ? & _ & _ & ?). destruct (letter_successful rate_cut a w) as ((_ & F) & _); [done..|]. fold w2 in F. apply F; [lia|done].
      * intros _ Hre. eapply sent_grows; [apply S; [done|done|lia]|apply P2].
    + intros k Hne. rewrite aitem_won by (apply Hother; [apply aitem_successful|done]). unfold GetAItem, w2. by rewrite aitem_successful.
Qed.

(** ** One step of the loop *)
Definition unlock (h id : Z) (w : PW) : PW :=
  match GetAuction id (house_at h w) with
  | Some a => if a_depositTime a + 5 * 60 <? pw_gameTime w then upd_auction h id (set_a_lockedIpAddress "") w else w
  | None => w
  end.
Lemma running_same_step v h id (f : AuctionEntry -> AuctionEntry) h' id' b : (forall a, running v h id a -> f a = a) ->
  running v h' id' b <-> exists a, running v h' id' a /\ b = if decide (h' = h /\ id' = id) then f a else a.
Proof.
  intros Hf. split; [intros Hr; exists b; split; [done|]|intros (a & Hr & ->)]; case_decide as E; try done; destruct E as [-> ->]; by rewrite Hf.
Qed.
Lemma gview_unlocked h id w : gview (upd_auction h id (set_a_lockedIpAddress "") w) = gview w \/ GetAuction id (house_at h w) = None.
Proof.
  destruct (GetAuction id (house_at h w)) as [a|] eqn:Ha; [left|by right]. unfold gview. simpl. f_equal. apply map_eq. intros k.
  rewrite !lookup_fmap, lookup_insert. case_decide as Hk; [|done]. subst k. unfold house_at, GetAuction in *.
  destruct (pw_houses w !! h) as [o|]; [|simpl in Ha; by rewrite lookup_empty in Ha]. simpl. f_equal. unfold house_view. simpl.
  apply map_eq. intros k. rewrite !lookup_fmap, lookup_alter. case_decide; [subst|done]. by destruct (AuctionsMap o !! k).
Qed.
Lemma unlock_spec h id w : ah_ok (ahview w) ->
  ah_ok (ahview (unlock h id w)) /\ posted w (unlock h id w) /\ gview (unlock h id w) = gview w /\ pw_aitems (unlock h id w) = pw_aitems w /\
  forall h' id' b, running (ahview (unlock h id w)) h' id' b <->
    exists a, running (ahview w) h' id' a /\ b = if decide (h' = h /\ id' = id) then unlocked w a else a.
Proof.
  intros Hok. unfold unlock.
  assert (Hsame : (forall a, running (ahview w) h id a -> unlocked w a = a) -> ah_ok (ahview w) /\ posted w w /\ gview w = gview w /\ pw_aitems w = pw_aitems w /\
    forall h' id' b, running (ahview w) h' id' b <-> exists a, running (ahview w) h' id' a /\ b = if decide (h' = h /\ id' = id) then unlocked w a else a).
  { intros H. split; [done|]. split; [apply posted_refl|]. do 2 (split; [done|]). intros h' id' b. by apply running_same_step. }
  destruct (GetAuction id (house_at h w)) as [a|] eqn:Ha.
  2:{ apply Hsame. intros a Hr. assert (H : GetAuction id (house_at h w) = Some a) by exact Hr. congruence. }
  assert (Ha1 : forall b, running (ahview w) h id b -> b = a).
  { intros b Hr. assert (H : GetAuction id (house_at h w) = Some b) by exact Hr. congruence. }
  destruct (a_depositTime a + 5 * 60 <? pw_gameTime w) eqn:Hlt; [clear Hsame|apply Hsame; intros b ->%Ha1; unfold unlocked; by rewrite Hlt].
  set (w1 := upd_auction h id (set_a_lockedIpAddress "") w).
  assert (E : ahview w1 = update_view h id (set_a_lockedIpAddress "") (fun r => r) (ahview w)).
  { unfold update_view. cbv zeta. cbn [av_rows]. by rewrite alter_id. }
  split; [rewrite E; apply ah_update; [done|done|done|]; intros h' c Hc; by eapply (ah_house _ Hok)|].
  assert (G : gview w1 = gview w) by (destruct (gview_unlocked h id w) as [G|G]; [done|congruence]).
  split; [split; [by apply grows_same|done|done]|]. do 2 (split; [done|]). intros h' id' b. rewrite E, running_update.
  split; intros (c & Hr & ->); exists c; (split; [done|]); case_decide as D; try done; destruct D as [-> ->]; rewrite (Ha1 c Hr); unfold unlocked; by rewrite Hlt.
Qed.
(** After one step auction [id] of house [h] is gone if it was due. *)
Definition after_step (w : PW) (here : bool) (a b : AuctionEntry) : Prop := if here then due w a = false /\ b = unlocked w a else b = a.
Lemma unlocked_keeps w a : let b := unlocked w a in a_Id b = a_Id a /\ a_itemGuidLow b = a_itemGuidLow a /\ a_bidder b = a_bidder a /\ a_owner b = a_owner a /\
  a_bid b = a_bid a /\ a_deposit b = a_deposit a /\ a_house b = a_house a /\ a_expireTime b = a_expireTime a.
Proof. unfold unlocked. by case_if. Qed.
Lemma update_auction_unlock h id w : update_auction h w id =
  match GetAuction id (house_at h w) with
  | Some a => if due w a then ExpireAuction h id (unlock h id w) else unlock h id w
  | None => w end.
Proof.
  unfold update_auction, unlock, due. destruct (GetAuction id (house_at h w)) as [a|]; [|done]. cbv zeta.
  by destruct (a_depositTime a + 5 * 60 <? pw_gameTime w).
Qed.
Lemma step_spec h id w : ah_ok (ahview w) -> let w' := update_auction h w id in
  ah_ok (ahview w') /\ posted w w' /\
  (forall h' id' b, running (ahview w') h' id' b <-> exists a, running (ahview w) h' id' a /\ after_step w (bool_decide (h' = h /\ id' = id)) a b) /\
  (forall a, running (ahview w) h id a -> due w a = true -> view_ok (gview w) -> pw_mailIds w' <= 2 ^ 32 -> delivered w w w' a) /\
  (forall k, (forall a, running (ahview w) h id a -> a_itemGuidLow a <> k) -> GetAItem w' k = GetAItem w k).
Proof.
  intros Hok. cbv zeta. destruct (unlock_spec h id w Hok) as (Hok1 & P1 & G1 & I1 & R1). rewrite update_auction_unlock.
  destruct (GetAuction id (house_at h w)) as [a|] eqn:Ha.
  2:{ assert (Hno : forall b, ~ running (ahview w) h id b) by (intros b Hb; assert (H : GetAuction id (house_at h w) = Some b) by exact Hb; congruence).
      split; [done|]. split; [apply posted_refl|]. split; [|split; [intros b Hb; by destruct (Hno b)|done]].
      intros h' id' b. split; [intros Hr; exists b; split; [done|]|intros (c & Hr & Hs)]; unfold after_step in *;
        (case_bool_decide as D; [destruct D as [-> ->]; by destruct (Hno _ Hr)|]); [done|by subst]. }
  assert (Hra : running (ahview w) h id a) by exact Ha.
  assert (Ha1 : forall b, running (ahview w) h id b -> b = a) by (intros b Hr; assert (H : GetAuction id (house_at h w) = Some b) by exact Hr; congruence).
  destruct (due w a) eqn:Hdue.
  - set (w1 := unlock h id w) in *. set (b := unlocked w a). assert (Hrb : running (ahview w1) h id b).
    { apply R1. exists a. split; [done|]. by rewrite decide_True. }
    pose proof (unlocked_keeps w a) as (Kid & Kg & K2 & K3 & K4 & K5 & K6 & _). fold b in Kid, Kg, K2, K3, K4, K5, K6.
    destruct (ExpireAuction_posts h id b w1 Hok1 Hrb) as (P2 & D2 & I2). rewrite (ahv_ExpireAuction h id b w1 Hok1 Hrb).
    destruct (ah_end h id b b (ahview w1) Hok1 Hrb) as [Hok2 R2]; [by eapply (ah_key _ Hok1)|done..|].
    split; [done|]. split; [by eapply posted_trans|]. split; [|split].
    + intros h' id' c. rewrite R2. split.
      * intros [(d & Hr & ->)%R1 Hne]. exists d. rewrite decide_False by (by intros [_ ?]). split; [done|]. unfold after_step. by rewrite bool_decide_false by (by intros [_ ?]).
      * intros (d & Hr & Hs). unfold after_step in Hs. case_bool_decide as D.
        -- destruct D as [-> ->], Hs as [Hs _]. rewrite (Ha1 _ Hr) in Hs. congruence.
        -- subst c. split; [apply R1; exists d; by rewrite decide_False|]. intros ->. apply D. split; [|done]. by eapply (ah_house _ Hok).
    + intros c Hc _ Hv Hm. rewrite (Ha1 _ Hc). apply (delivered_same _ _ _ _ b); try done. rewrite <- G1 in Hv.
      destruct (D2 Hv Hm) as [H1 H2]. split.
      * intros it Hit. unfold GetAItem in Hit. rewrite <- I1 in Hit. rewrite <- (proj1 (reachable_same _ _ _ (po_standing _ _ P1))). intros Hre.
        eapply sent_since; [apply (gr_ids _ _ (po_grows _ _ P1))|]. by eapply H1.
      * intros Hb. rewrite <- (proj1 (reachable_same _ _ _ (po_standing _ _ P1))). intros Hre.
        eapply sent_since; [apply (gr_ids _ _ (po_grows _ _ P1))|]. by apply H2.
    + intros k Hk. rewrite I2; [unfold GetAItem; by rewrite I1|]. rewrite Kg. apply not_eq_sym. by apply Hk.
  - split; [done|]. split; [done|]. split; [|split; [intros b ->%Ha1; congruence|intros k _; unfold GetAItem; by rewrite I1]].
    intros h' id' b. rewrite R1. unfold after_step. split; intros (c & Hr & Hs); exists c; (split; [done|]).
    + subst b. case_bool_decide as D; [rewrite decide_True by done|by rewrite decide_False]. destruct D as [-> ->]. by rewrite (Ha1 _ Hr).
    + case_bool_decide as D; [rewrite decide_True by done; by destruct Hs|by rewrite decide_False].
Qed.

(** ** The whole loop *)
Lemma after_step_same w w' p a b : pw_gameTime w' = pw_gameTime w -> after_step w' p a b <-> after_step w p a b.
Proof. intros E. unfold after_step, due, unlocked. by rewrite E. Qed.
Lemma flow_step hi w : flow 0 w (step1 w hi).
Proof. destruct hi as [h id]. by apply flow_update_auction. Qed.
Lemma steps_spec l w : NoDup l -> ah_ok (ahview w) -> let w' := foldl step1 w l in
  ah_ok (ahview w') /\ posted w w' /\
  (forall h id b, running (ahview w') h id b <-> exists a, running (ahview w) h id a /\ after_step w (bool_decide ((h, id) ∈ l)) a b) /\
  (forall h id a, (h, id) ∈ l -> running (ahview w) h id a -> due w a = true -> view_ok (gview w) -> pw_mailIds w' <= 2 ^ 32 -> delivered w w w' a).
Proof.
  revert w. induction l as [|[h0 id0] l IH]; intros w Hnd Hok; cbv zeta.
  - split; [done|]. split; [apply posted_refl|]. split; [|by intros h id a ?%not_elem_of_nil].
    intros h id b. rewrite bool_decide_false by apply not_elem_of_nil. unfold after_step.
    split; [intros Hr; by exists b|by intros (a & Hr & ->)].
  - apply NoDup_cons in Hnd as [Hni Hnd]. cbn [foldl]. set (w1 := step1 w (h0, id0)).
    destruct (step_spec h0 id0 w Hok) as (Hok1 & P1 & R1 & D1 & I1). change (update_auction h0 w id0) with w1 in Hok1, P1, R1, D1, I1.
    destruct (IH w1 Hnd Hok1) as (Hok2 & P2 & R2 & D2). set (w2 := foldl step1 w1 l) in *.
    pose proof (po_time _ _ P1) as T1. pose proof (gr_ids _ _ (po_grows _ _ P1)) as G1. pose proof (gr_ids _ _ (po_grows _ _ P2)) as G2.
    split; [done|]. split; [by eapply posted_trans|]. split.
    + intros h id b. rewrite R2. split.
      * intros (c & (a & Hr & Hs)%R1 & Hs2). exists a. split; [done|]. rewrite (after_step_same w w1) in Hs2 by done. unfold after_step in *.
        destruct (decide (h = h0 /\ id = id0)) as [D|D].
        -- rewrite bool_decide_true in Hs by done. destruct D as [-> ->], Hs as [Hs ->]. rewrite bool_decide_false in Hs2 by done. subst b.
           rewrite bool_decide_true by left. done.
        -- rewrite bool_decide_false in Hs by done. subst c. rewrite (bool_decide_ext ((h, id) ∈ (h0, id0) :: l) ((h, id) ∈ l)); [done|].
           rewrite elem_of_cons. split; [intros [[= -> ->]|?]; [by destruct D|done]|by right].
      * intros (a & Hr & Hs). unfold after_step in Hs. case_bool_decide as D0.
        -- apply elem_of_cons in D0 as [[= -> ->]|D0].
           ++ exists b. split; [apply R1; exists a; split; [done|]; unfold after_step; by rewrite bool_decide_true|].
              unfold after_step. by rewrite bool_decide_false.
           ++ exists a. split; [apply R1; exists a; split; [done|]; unfold after_step; rewrite bool_decide_false; [done|intros [-> ->]; done]|].
              rewrite (after_step_same w w1) by done. unfold after_step. by rewrite bool_decide_true.
        -- apply not_elem_of_cons in D0 as [D0 D1']. exists b. split; [apply R1; exists a; split; [done|]; unfold after_step; rewrite bool_decide_false; [done|by intros [-> ->]]|].
           unfold after_step. by rewrite bool_decide_false.
    + intros h id a Hin Hr Hdue Hv Hm. apply elem_of_cons in Hin as [[= -> ->]|Hin].
      * destruct (D1 a Hr Hdue Hv) as [H1 H2]; [lia|]. split; intros; (eapply sent_grows; [by eauto|apply P2]).
      * assert (Hne : ~ (h = h0 /\ id = id0)) by (by intros [-> ->]).
        assert (Hr1 : running (ahview w1) h id a) by (apply R1; exists a; split; [done|]; unfold after_step; by rewrite bool_decide_false).
        assert (Hv1 : view_ok (gview w1)) by (apply (flow_step (h0, id0) w); [fold w1; lia|done]).
        destruct (D2 h id a Hin Hr1) as [H1 H2]; [unfold due in *; by rewrite T1|done|done|].
        assert (Hi : GetAItem w1 (a_itemGuidLow a) = GetAItem w (a_itemGuidLow a)).
        { apply I1. intros c Hc E. apply Hne. pose proof (ah_item_of _ Hok _ _ _ _ _ _ Hr Hc (eq_sym E)) as ->. split; [|done]. by eapply (ah_house _ Hok). }
        split.
        -- intros it Hit Hre. eapply sent_since; [exact G1|]. rewrite <- Hi in Hit. apply (H1 it Hit). by rewrite (proj1 (reachable_same _ _ _ (po_standing _ _ P1))).
        -- intros Hb Hre. eapply sent_since; [exact G1|]. apply H2; [done|]. by rewrite (proj1 (reachable_same _ _ _ (po_standing _ _ P1))).
Qed.

Definition all_pairs (w : PW) (hs : list Z) : list (Z * Z) := h ← hs; (fun id => (h, id)) <$> skeys (AuctionsMap (house_at h w)).
Lemma House_Update_steps w h : House_Update w h = foldl step1 w ((fun id => (h, id)) <$> skeys (AuctionsMap (house_at h w))).
Proof. unfold House_Update. generalize (skeys (AuctionsMap (house_at h w))). intros l. revert w. induction l as [|id l IH]; intros w; [done|]. apply IH. Qed.
Lemma other_house h h' id w : h <> h' -> house_at h' (update_auction h w id) = house_at h' w.
Proof.
  intros Hne. rewrite update_auction_unlock. destruct (GetAuction id (house_at h w)) as [a|]; [|done].
  assert (Hput : forall o v, house_at h' (put_house h o v) = house_at h' v) by (intros; unfold house_at, put_house; simpl; by rewrite lookup_insert_ne).
  assert (H1 : house_at h' (unlock h id w) = house_at h' w).
  { unfold unlock. destruct (GetAuction id (house_at h w)); [|done]. case_if; [apply Hput|done]. }
  case_if; [|done]. rewrite <- H1. generalize (unlock h id w). clear -Hput rate_cut house_cuts. intros v. unfold ExpireAuction. destruct (GetAuction id (house_at h v)) as [b|]; [|done].
  unfold clear_auction, RemoveAuction. cbv zeta.
  assert (Hl : forall x, pw_houses x = pw_houses v -> house_at h' x = house_at h' v) by (intros x E; unfold house_at; by rewrite E).
  assert (Hs : pw_houses (if a_bidder b =? 0 then SendAuctionExpiredMail b v else SendAuctionWonMail b (SendAuctionSuccessfulMail b v)) = pw_houses v).
  { case_if.
    - apply (letter_expired b v).
    - rewrite (proj1 (proj2 (letter_won b _))). change (av_houses (ahview (SendAuctionSuccessfulMail b v)) = pw_houses v). by rewrite ahv_successful. }
  case_if; [|rewrite Hput; by apply Hl].
  match goal with |- house_at h' (FreeAuctionID _ ?x) = _ => change (house_at h' x = house_at h' v) end. rewrite Hput. by apply Hl.
Qed.
Lemma Update_steps w hs : NoDup hs -> foldl House_Update w hs = foldl step1 w (all_pairs w hs).
Proof.
  revert w. induction hs as [|h hs IH]; intros w Hnd; [done|]. apply NoDup_cons in Hnd as [Hni Hnd]. cbn [foldl].
  unfold all_pairs. cbn [mbind list_bind]. rewrite foldl_app, <- House_Update_steps, IH by done. f_equal. unfold all_pairs.
  assert (H : forall h', h' ∈ hs -> house_at h' (House_Update w h) = house_at h' w).
  { intros h' Hin. assert (Hne : h <> h') by (by intros ->). unfold House_Update. generalize (skeys (AuctionsMap (house_at h w))). intros l. revert w.
    induction l as [|id l IHl]; intros w; [done|]. cbn [foldl]. rewrite IHl. by apply other_house. }
  clear IH Hni Hnd. induction hs as [|h' hs IH]; [done|]. cbn [mbind list_bind]. rewrite H by left. f_equal. apply IH. intros h2 Hin. apply H. by right.
Qed.
Lemma elem_of_all_pairs w h id a : running (ahview w) h id a -> (h, id) ∈ all_pairs w (skeys (pw_houses w)).
Proof.
  intros Hr. unfold all_pairs. apply list_elem_of_bind. exists h. split.
  - apply list_elem_of_fmap. exists id. split; [done|]. apply elem_of_skeys. by exists a.
  - apply elem_of_skeys. unfold running, av_house in Hr. simpl in Hr. destruct (pw_houses w !! h); [by eexists|]. simpl in Hr. by rewrite lookup_empty in Hr.
Qed.
Lemma NoDup_all_pairs w hs : NoDup hs -> NoDup (all_pairs w hs).
Proof.
  induction 1 as [|h hs Hni Hnd IH]; [constructor|]. unfold all_pairs. cbn [mbind list_bind]. apply NoDup_app. split; [|split; [|exact IH]].
  - apply NoDup_fmap_2; [by intros x y [= ->]|apply NoDup_skeys].
  - intros [h1 id] Hx Hy. apply list_elem_of_fmap in Hx as (id1 & [= -> ->] & _). apply list_elem_of_bind in Hy as (h2 & Hy & Hin).
    apply list_elem_of_fmap in Hy as (id2 & [= <- <-] & _). done.
Qed.
Lemma Update_spec w : ah_ok (ahview w) -> let w' := AuctionHouseMgr_Update w in
  ah_ok (ahview w') /\ posted w w' /\
  (forall h id b, running (ahview w') h id b <-> exists a, running (ahview w) h id a /\ due w a = false /\ b = unlocked w a) /\
  (forall h id a, running (ahview w) h id a -> due w a = true -> view_ok (gview w) -> pw_mailIds w' <= 2 ^ 32 -> delivered w w w' a).
Proof.
  intros Hok. cbv zeta. unfold AuctionHouseMgr_Update. rewrite Update_steps by apply NoDup_skeys.
  destruct (steps_spec (all_pairs w (skeys (pw_houses w))) w) as (H1 & H2 & H3 & H4); [apply NoDup_all_pairs, NoDup_skeys|done|].
  split; [done|]. split; [done|]. split.
  - intros h id b. rewrite H3. unfold after_step. split; intros (a & Hr & Hs); exists a; (split; [done|]).
    + by rewrite (bool_decide_true _ (elem_of_all_pairs _ _ _ _ Hr)) in Hs.
    + by rewrite (bool_decide_true _ (elem_of_all_pairs _ _ _ _ Hr)).
  - intros h id a Hr. apply (H4 h id); [by eapply elem_of_all_pairs|done].
Qed.
End ends.

(** Bids: what is paid, what is given back and who gets what. *)

(** Nothing but a message. *)
Definition only_answered (w w' : PW) : Prop := exists l, w' = set_pw_out l w.
Lemma only_answered_refl w : only_answered w w.
Proof. exists (pw_out w). by destruct w. Qed.
Lemma only_answered_post o w : only_answered w (post o w).
Proof. by eexists. Qed.

Section bids.
Context {env : PostEnv}.
Context (rate_cut : cfg_RateCut = f32 1) (house_cuts : Forall (fun e => 0 <= cutPercent e < 100) auction_houses).

(** What a bidder pays now: the price, less his own bid if it stood. *)
Definition due_from (me : Z) (a : AuctionEntry) (price : Z) : Z := if me =? a_bidder a then price - a_bid a else price.
Lemma purse_debit me m d w : purse w me = Some m -> 0 <= m <= MAX_MONEY_AMOUNT -> 0 <= d <= m ->
  purse (upd_pp me (pp_ModifyMoney (i32 (- i32 d))) w) me = Some (m - d).
Proof.
  intros (p & Hp & <-)%purse_lookup Hm Hd. unfold purse. simpl. rewrite lookup_alter_eq, Hp. simpl. f_equal.
  unfold MAX_MONEY_AMOUNT in *. rewrite (i32_small d) by lia. apply coinage_pay; [lia|unfold MAX_MONEY_AMOUNT; lia].
Qed.
Lemma pay_bid_spec me p a price w :
  view_ok (gview w) -> pw_players w !! me = Some p -> 0 <= a_bid a < 2 ^ 32 -> a_bid a <= price <= pp_money p ->
  posted w (pay_bid me a price w) /\ purse (pay_bid me a price w) me = Some (pp_money p - due_from me a price) /\
  (pw_mailIds (pay_bid me a price w) <= 2 ^ 32 -> a_bidder a <> 0 -> a_bidder a <> me -> reachable w (a_bidder a) = true ->
   sent w (pay_bid me a price w) (a_bidder a) (a_bid a) []).
Proof.
  intros Hv Hp Hb Hpr. destruct (vo_players _ Hv me _ _ (lookup_view _ _ _ Hp)) as [Hm _].
  assert (Hpu : purse w me = Some (pp_money p)) by (unfold purse; by rewrite Hp). unfold pay_bid, due_from.
  assert (Hpay : forall d, posted w (upd_pp me (pp_ModifyMoney d) w)).
  { intros d. split; [by apply grows_views|by apply standing_upd|done]. }
  destruct (Z.eqb_spec me (a_bidder a)) as [E|E].
  - unfold MAX_MONEY_AMOUNT in Hm. rewrite u32_small by lia. split; [apply Hpay|]. split; [|intros; congruence].
    apply purse_debit; unfold MAX_MONEY_AMOUNT; [done|lia|lia].
  - cbv zeta. set (w1 := upd_pp me (pp_ModifyMoney (i32 (- i32 price))) w).
    assert (H1 : purse w1 me = Some (pp_money p - price)) by (apply purse_debit; [done|done|lia]).
    destruct (Z.eqb_spec (a_bidder a) 0) as [E0|E0]; [split; [apply Hpay|split; [done|congruence]]|].
    destruct (sent_outbidded a w1) as [P S]. destruct (letter_outbidded a w1 Hb) as (_ & _ & Hpur).
    split; [eapply posted_trans; [apply Hpay|exact P]|]. split; [by rewrite Hpur|]. intros Hids _ _ Hre.
    pose proof (gr_ids _ _ (po_grows _ _ (Hpay (i32 (- i32 price))))) as Hg.
    destruct (flow_debit' me (pp_money p) price w Hpu) as [_ F]; [lia|]. fold w1 in F, Hg.
    pose proof (gr_ids _ _ (po_grows _ _ P)).
    eapply sent_since; [exact Hg|]. apply S; [by rewrite (proj1 (reachable_same w w1 _ (po_standing _ _ (Hpay _))))|apply F; [lia|done]|done].
Qed.
Record bid_taken (w w' : PW) (me h id price : Z) (p : PostPlayer) (a : AuctionEntry) : Prop := mkBidTaken {
  bt_rules : a_owner a <> me /\ a_startbid a <= price /\ a_bid a < price <= pp_money p;
  bt_refund : a_bidder a <> 0 -> a_bidder a <> me -> reachable w (a_bidder a) = true -> sent w w' (a_bidder a) (a_bid a) [];
  bt_end :
    if (price <? a_buyout a) || (a_buyout a =? 0)
    then purse w' me = Some (pp_money p - due_from me a price) /\
      forall h' id' b, running (ahview w') h' id' b <->
        exists c, running (ahview w) h' id' c /\ b = if decide (h' = h /\ id' = id) then set_bid me price c else c
    else purse w' me = Some (pp_money p - due_from me a (a_buyout a)) /\
      (forall h' id' b, running (ahview w') h' id' b <-> running (ahview w) h' id' b /\ id' <> id) /\
      (reachable w me = true -> sent w w' me 0 [a_itemGuidLow a]) /\
      (reachable w (a_owner a) = true -> sent w w' (a_owner a) (u32 (a_buyout a + a_deposit a - GetAuctionCut (set_bid me (a_buyout a) a))) [])
}.
Lemma place_bid_taken me p h id a price w :
  ah_ok (ahview w) -> view_ok (gview w) -> pw_players w !! me = Some p -> running (ahview w) h id a -> a_owner a <> me -> a_startbid a <= price ->
  a_bid a < price <= pp_money p -> price < a_buyout a \/ a_buyout a = 0 -> pw_mailIds (place_bid me h a price w) <= 2 ^ 32 ->
  bid_taken w (place_bid me h a price w) me h id price p a.
Proof.
  intros Hok Hv Hp Hr Hown Hst Hpr Hplain Hm. destruct (house_range _ _ _ _ Hv Hr) as (Hid & Hb & _).
  destruct (pay_bid_spec me p a price w Hv Hp Hb) as (P & Hpu & S); [lia|].
  assert (Hr' : running (ahview w) h (a_Id a) a) by by rewrite Hid.
  pose proof (ahv_place_bid me h a price w Hok Hr') as E. rewrite Hid in E.
  assert (G : grows (pay_bid me a price w) (place_bid me h a price w) /\ forall g, purse (place_bid me h a price w) g = purse (pay_bid me a price w) g).
  { unfold place_bid. cbv zeta. set (w1 := pay_bid me a price w). set (b := set_bid me price a). set (w2 := upd_auction h (a_Id b) (set_bid me price) w1).
    set (w3 := if in_world w2 (a_owner b) then SendAuctionOwnerNotification (a_owner b) b false w2 else w2).
    assert (E3 : gview w3 = gview w2 /\ iview w3 = iview w2) by (unfold w3; case_if; [split; [apply gview_notified|apply iview_notified]|done]).
    destruct E3 as [E3 E4]. split; [|intros g; transitivity (purse w3 g); [done|]; by rewrite (purse_same w2 w3)].
    eapply (grows_trans _ w2); [by apply grows_views|]. eapply (grows_trans _ w3); [by apply grows_same|by apply grows_views]. }
  destruct G as [G Hpur]. pose proof (gr_ids _ _ G). split.
  - done.
  - intros H1 H2 H3. eapply sent_grows; [apply S; [lia|done..]|done].
  - assert (Hif : (price <? a_buyout a) || (a_buyout a =? 0) = true) by (apply orb_true_iff; lia). rewrite Hif, Hpur.
    split; [done|]. intros h' id' b. by rewrite E, running_update.
Qed.
Lemma aitem_view w w' k : ahview w' = ahview w -> pi_guid <$> GetAItem w' k = pi_guid <$> GetAItem w k.
Proof. intros E. unfold ahview in E. injection E as _ _ _ _ E. unfold GetAItem. by rewrite <- !lookup_fmap, E. Qed.
Lemma aitem_running w h id a : ah_ok (ahview w) -> running (ahview w) h id a -> exists it, GetAItem w (a_itemGuidLow a) = Some it /\ pi_guid it = a_itemGuidLow a.
Proof.
  intros Hok Hr. pose proof (ah_item _ Hok _ _ _ Hr) as H. simpl in H. rewrite lookup_fmap in H. unfold GetAItem.
  destruct (pw_aitems w !! a_itemGuidLow a) as [it|]; [|done]. injection H as H. by exists it.
Qed.
Lemma buy_out_taken me p h id a price w :
  ah_ok (ahview w) -> view_ok (gview w) -> pw_players w !! me = Some p -> running (ahview w) h id a -> a_owner a <> me -> a_startbid a <= price ->
  a_bid a < price <= pp_money p -> a_buyout a <= price -> a_buyout a <> 0 -> pw_mailIds (buy_out me h a w) <= 2 ^ 32 ->
  bid_taken w (buy_out me h a w) me h id price p a.
Proof.
  intros Hok Hv Hp Hr Hown Hst Hpr Hbuy Hb0 Hm. destruct (house_range _ _ _ _ Hv Hr) as (Hid & Hb & Hd & Hbr & Hbb & Hcut).
  destruct (pay_bid_spec me p a (a_buyout a) w Hv Hp Hb) as (P & Hpu & S); [lia|].
  destruct (letter_pay_bid me p a (a_buyout a) w Hp Hb) as [F Hh]; [lia|lia|].
  assert (Hr' : running (ahview w) h (a_Id a) a) by by rewrite Hid. pose proof (ahv_buy_out me h a w Hok Hr') as E.
  pose proof (ahv_pay_bid me a (a_buyout a) w) as E1. revert Hm E. unfold buy_out. cbv zeta.
  set (w1 := pay_bid me a (a_buyout a) w) in *. set (w2 := upd_auction h (a_Id a) (set_bid me (a_buyout a)) w1). set (b := set_bid me (a_buyout a) a).
  destruct (sent_successful b w2) as [P3 S3]. set (w3 := SendAuctionSuccessfulMail b w2) in *. destruct (sent_won b w3) as [P4 S4]. set (w4 := SendAuctionWonMail b w3) in *.
  set (w5 := Auction_DeleteFromDB _ _). intros Hm E.
  assert (P2 : posted w1 w2) by by split; [apply grows_views|..].
  assert (G5 : grows w4 w5 /\ forall g, purse w5 g = purse w4 g).
  { unfold w5, RemoveAuction. case_if; (split; [by apply grows_views|done]). }
  destruct G5 as [G5 Hpur5].
  assert (F2 : flow (a_buyout a - a_bid a) w1 w2).
  { eapply (flow_upd_auction _ _ a); [by rewrite (house_at_same _ _ _ Hh), Hid|]. intros _. unfold auction_range, auction_gold. simpl. repeat split; lia. }
  destruct (letter_successful rate_cut b w2) as (F3 & _ & Hpur3); [done|simpl; lia|done|]. fold w3 in F3, Hpur3.
  destruct (letter_won b w3) as (_ & _ & Hpur4). fold w4 in Hpur4.
  pose proof (gr_ids _ _ (po_grows _ _ P)) as M1. pose proof (gr_ids _ _ (po_grows _ _ P2)) as M2. pose proof (gr_ids _ _ (po_grows _ _ P3)) as M3.
  pose proof (gr_ids _ _ (po_grows _ _ P4)) as M4. pose proof (gr_ids _ _ G5) as M5.
  assert (V1 : view_ok (gview w1)) by (apply F; [lia|done]). assert (V2 : view_ok (gview w2)) by (apply F2; [lia|done]).
  assert (V3 : view_ok (gview w3)) by (apply F3; [lia|done]).
  pose proof (posted_trans _ _ _ P P2) as P02. pose proof (posted_trans _ _ _ P02 P3) as P03.
  destruct (aitem_running w h id a Hok Hr) as (it & Hit & Hg).
  assert (Hit3 : exists it', GetAItem w3 (a_itemGuidLow b) = Some it' /\ pi_guid it' = a_itemGuidLow a).
  { assert (Hv3 : pi_guid <$> GetAItem w3 (a_itemGuidLow a) = pi_guid <$> GetAItem w (a_itemGuidLow a)).
    { transitivity (pi_guid <$> GetAItem w2 (a_itemGuidLow a)); [apply aitem_view, ahv_successful|]. exact (aitem_view w w1 _ E1). }
    rewrite Hit in Hv3. destruct (GetAItem w3 (a_itemGuidLow a)) as [it'|] eqn:Hi3; [|done]. injection Hv3 as Hv3.
    exists it'. split; [exact Hi3|congruence]. }
  destruct Hit3 as (it' & Hit' & Hg').
  assert (Hif : (price <? a_buyout a) || (a_buyout a =? 0) = false) by (apply orb_false_iff; lia).
  split.
  - done.
  - intros H1 H2 H3. eapply sent_grows; [apply S; [lia|done..]|]. eapply grows_trans; [apply P2|]. eapply grows_trans; [apply P3|].
    eapply grows_trans; [apply P4|exact G5].
  - rewrite Hif, Hpur5, Hpur4, Hpur3. split; [exact Hpu|]. split; [|split].
    + intros h' id' c. rewrite E. exact (proj2 (ah_end h id a a (ahview w) Hok Hr Hid eq_refl eq_refl eq_refl) h' id' c).
    + intros Hre. eapply sent_since; [|eapply sent_grows; [rewrite <- Hg'; apply (S4 it' Hit'); [|done|lia]|exact G5]]; [lia|].
      change (a_bidder b) with me. by rewrite (proj1 (reachable_same _ _ _ (po_standing _ _ P03))).
    + intros Hre. eapply sent_since; [|eapply sent_grows; [apply S3; [|done|lia]|eapply grows_trans; [apply P4|exact G5]]]; [lia|].
      change (a_owner b) with (a_owner a). by rewrite (proj1 (reachable_same _ _ _ (po_standing _ _ P02))).
Qed.
Lemma HandleAuctionPlaceBid_spec me auctioneer id price w :
  ah_ok (ahview w) -> view_ok (gview w) -> pw_mailIds (HandleAuctionPlaceBid me auctioneer id price w) <= 2 ^ 32 ->
  let w' := HandleAuctionPlaceBid me auctioneer id price w in
  only_answered w w' \/ exists p e h a, GetPlayer w me = Some p /\ GetCheckedAuctionHouseForAuctioneer me auctioneer p = Some e /\ GetAuctionsMap e w = Some h /\
    running (ahview w) h id a /\ bid_taken w w' me h id price p a.
Proof.
  intros Hok Hv Hm. cbv zeta. revert Hm. unfold HandleAuctionPlaceBid, at_auctioneer. destruct (GetPlayer w me) as [p|] eqn:Hp; [|intros _; left; apply only_answered_refl].
  case_if; [intros _; left; apply only_answered_refl|]. case_if; [intros _; left; apply only_answered_refl|].
  destruct (GetCheckedAuctionHouseForAuctioneer me auctioneer p) as [e|] eqn:He; [|intros _; left; apply only_answered_refl]. simpl.
  destruct (GetAuctionsMap e w) as [h|] eqn:Hh; [|intros _; left; apply only_answered_refl]. simpl.
  case_if; [intros _; left; apply only_answered_refl|].
  destruct (GetAuction id (house_at h w)) as [a|] eqn:Ha; [|intros _; left; apply only_answered_post].
  do 2 (case_if; [intros _; left; apply only_answered_post|]). case_if; [intros _; left; apply only_answered_refl|].
  case_if; [intros _; left; apply only_answered_post|].
  destruct (((price <? a_buyout a) || (a_buyout a =? 0)) && _); [intros _; left; apply only_answered_post|]. case_if; [intros _; left; apply only_answered_refl|].
  intros Hm. right. exists p, e, h, a. do 3 (split; [done|]). assert (Hr : running (ahview w) h id a) by exact Ha. split; [exact Hr|].
  pose proof (GetPlayer_players _ _ _ Hp) as Hpl. bool_prop. revert Hm.
  match goal with |- pw_mailIds (SaveInventoryAndGoldToDB me ?x) <= _ -> _ => set (w1 := x) end. intros Hm.
  assert (Hids : pw_mailIds (SaveInventoryAndGoldToDB me w1) = pw_mailIds w1).
  { change (gv_ids (gview (SaveInventoryAndGoldToDB me w1)) = gv_ids (gview w1)). by rewrite gview_SaveInventoryAndGoldToDB. }
  assert (T : bid_taken w w1 me h id price p a).
  { rewrite Hids in Hm. unfold w1 in *. destruct ((price <? a_buyout a) || (a_buyout a =? 0)) eqn:Hplain.
    - apply orb_true_iff in Hplain. apply place_bid_taken; try done; lia.
    - apply orb_false_iff in Hplain as [??]. apply buy_out_taken; try done; lia. }
  destruct T as [T1 T2 T3]. assert (G : grows w1 (SaveInventoryAndGoldToDB me w1))
    by (apply grows_same; [apply gview_SaveInventoryAndGoldToDB|apply iview_SaveInventoryAndGoldToDB]).
  assert (Hpur : forall g, purse (SaveInventoryAndGoldToDB me w1) g = purse w1 g) by (apply purse_same, gview_SaveInventoryAndGoldToDB).
  split; [done|intros; eapply sent_grows; [by apply T2|done]|]. rewrite ahv_SaveInventoryAndGoldToDB, Hpur. case_if; [done|].
  destruct T3 as (T3 & T4 & T5 & T6). split; [done|]. split; [done|]. split; intros; (eapply sent_grows; [by auto|done]).
Qed.
End bids.

(** Pages of auctions: what the lists of fifty show. *)

(** A page of at most [n] auctions that can be shown, from the [from]-th auction on. *)
Definition page (w : PW) (n : nat) (from : Z) (l : list AuctionEntry) : list AuctionInfo :=
  take n (omap (BuildAuctionInfo w) (drop (Z.to_nat from) l)).
Definition acc_ok (acc : ListAcc) : Prop := ac_count acc = Z.of_nat (length (ac_infos acc)) /\ ac_count acc <= 50.

Section pages.
Context {env : PostEnv}.

Lemma take_snoc_omap {A B} (f : A -> option B) n l a :
  take n (omap f (l ++ [a])) = match f a with
                               | Some b => if (length (omap f l) <? n)%nat then take n (omap f l) ++ [b] else take n (omap f l)
                               | None => take n (omap f l) end.
Proof.
  rewrite omap_app. simpl. destruct (f a) as [b|]; [|by rewrite app_nil_r]. rewrite take_app.
  destruct (Nat.ltb_spec (length (omap f l)) n).
  - rewrite (take_ge [b]); [done|]. simpl. lia.
  - replace (n - length (omap f l))%nat with 0%nat by lia. by rewrite take_0, app_nil_r.
Qed.
(** One list after [l1]: the page over [l1 ++ l2], given the page over [l1]. *)
Lemma fold_page (step : ListAcc -> AuctionEntry -> ListAcc) w from l :
  (forall acc a, 0 <= ac_total acc -> ac_total acc + 1 < 2 ^ 32 -> step acc a =
     if (ac_count acc <? 50) && (from <=? ac_total acc)
     then match BuildAuctionInfo w a with
          | Some i => mkAcc (ac_infos acc ++ [i]) (ac_count acc + 1) (ac_total acc + 1)
          | None => mkAcc (ac_infos acc) (ac_count acc) (ac_total acc + 1) end
     else mkAcc (ac_infos acc) (ac_count acc) (ac_total acc + 1)) ->
  0 <= from -> Z.of_nat (length l) < 2 ^ 32 ->
  foldl step no_list l = mkAcc (page w 50 from l) (Z.of_nat (length (page w 50 from l))) (Z.of_nat (length l)).
Proof.
  intros Hs Hf. induction l as [|a l IH] using rev_ind; intros Hl; [unfold page; by rewrite drop_nil|].
  rewrite length_app in Hl. simpl in Hl. rewrite foldl_app, IH by lia. cbn [foldl]. rewrite Hs by (simpl; lia). cbn [ac_infos ac_count ac_total].
  rewrite length_app. simpl length. replace (Z.of_nat (length l + 1)) with (Z.of_nat (length l) + 1) by lia.
  unfold page. destruct (Z.leb_spec from (Z.of_nat (length l))) as [Hle|Hgt].
  - rewrite drop_app_le by lia. rewrite take_snoc_omap, andb_true_r. set (l' := drop (Z.to_nat from) l).
    destruct (BuildAuctionInfo w a) as [i|]; [|by case_if]. rewrite length_take.
    destruct (Nat.ltb_spec (length (omap (BuildAuctionInfo w) l')) 50) as [Hlt|Hge].
    + rewrite (proj2 (Z.ltb_lt _ _)) by lia. f_equal. rewrite length_app, length_take. simpl. lia.
    + rewrite (proj2 (Z.ltb_ge _ _)) by lia. by rewrite length_take.
  - rewrite andb_false_r. by rewrite !(drop_ge _ (Z.to_nat from)) by (rewrite ?length_app; simpl; lia).
Qed.
Lemma le_lt_succ from n : (from <? n + 1) = (from <=? n).
Proof. destruct (Z.leb_spec from n), (Z.ltb_spec from (n + 1)); done || lia. Qed.

(** ** The lists of one's own auctions and bids *)
Lemma list_own_page w from l : 0 <= from -> Z.of_nat (length l) < 2 ^ 32 ->
  foldl (list_own w from) no_list l = mkAcc (page w 50 from l) (Z.of_nat (length (page w 50 from l))) (Z.of_nat (length l)).
Proof.
  apply fold_page. intros acc a H1 H2. unfold list_own. by rewrite u32_small, le_lt_succ by lia.
Qed.
Lemma owner_page w me account from o : 0 <= from -> Z.of_nat (length (owner_auctions me account o)) < 2 ^ 32 ->
  BuildListOwnerItems w me account from o no_list =
  let l := owner_auctions me account o in mkAcc (page w 50 from l) (Z.of_nat (length (page w 50 from l))) (Z.of_nat (length l)).
Proof. apply list_own_page. Qed.
(** The bidder's list begins with the auctions the client asks after. *)
Definition asked (outbidded : list Z) (o : AuctionHouseObject) : list AuctionEntry := omap (fun id => GetAuction id o) outbidded.
Lemma bidder_page w me from outbidded o : 0 <= from ->
  Z.of_nat (length (asked outbidded o ++ bidder_auctions me o)) < 2 ^ 32 ->
  BuildListBidderItems w me from o (foldl (list_outbidded w from o) no_list outbidded) =
  let l := asked outbidded o ++ bidder_auctions me o in mkAcc (page w 50 from l) (Z.of_nat (length (page w 50 from l))) (Z.of_nat (length l)).
Proof.
  intros Hf Hl. cbv zeta. rewrite <- list_own_page by done. rewrite foldl_app. unfold BuildListBidderItems. f_equal.
  clear Hl. unfold asked. generalize no_list. induction outbidded as [|id l IH]; intros acc; [done|]. cbn [foldl omap list_omap].
  unfold list_outbidded at 2. destruct (GetAuction id o) as [a|]; apply IH.
Qed.

(** ** Searching *)
Lemma search_page w p q o : empty_query q = false -> 0 <= qy_listfrom q -> Z.of_nat (length (List.filter (auction_fits w p q) (ordered_auctions o))) < 2 ^ 32 ->
  BuildListAuctionItems w p q o =
  let l := List.filter (auction_fits w p q) (ordered_auctions o) in
  mkAcc (page w 50 (qy_listfrom q) l) (Z.of_nat (length (page w 50 (qy_listfrom q) l))) (Z.of_nat (length l)).
Proof.
  intros Hq Hf Hl. unfold BuildListAuctionItems. rewrite Hq. cbv zeta. set (l := List.filter _ _) in *.
  assert (Hit : forall a, a ∈ l -> is_Some (BuildAuctionInfo w a)).
  { intros a Ha%list_elem_of_In. apply List.filter_In in Ha as [_ Ha]. unfold auction_fits in Ha. unfold BuildAuctionInfo.
    destruct (GetAItem w (a_itemGuidLow a)); [by eexists|done]. }
  set (step := fun acc a => if bool_decide (is_Some (BuildAuctionInfo w a)) then list_fitting w (qy_listfrom q) acc a else
     mkAcc (ac_infos acc) (ac_count acc) (u32 (ac_total acc + 1))).
  transitivity (foldl step no_list l).
  - clear Hl Hf. generalize no_list. clearbody l. induction l as [|a l IH]; intros acc; [done|]. cbn [foldl]. unfold step at 2.
    rewrite bool_decide_true by (apply Hit; left). apply IH. intros b Hb. apply Hit. by right.
  - apply fold_page; [|done|done]. intros acc a H1 H2. unfold step, list_fitting. rewrite u32_small by lia.
    destruct (BuildAuctionInfo w a) as [i|]; simpl; [done|]. by case_if.
Qed.
Lemma list_first_take w p l : forall acc, 0 <= ac_count acc < 50 ->
  list_first w p l acc =
  let shown := take (Z.to_nat (50 - ac_count acc)) (List.filter (fun a => IsAvailableFor a p) l) in
  mkAcc (ac_infos acc ++ omap (BuildAuctionInfo w) shown) (ac_count acc + Z.of_nat (length shown)) (ac_total acc).
Proof.
  induction l as [|a l IH]; intros acc Hc; cbv zeta; simpl.
  - rewrite take_nil. simpl. rewrite app_nil_r, Z.add_0_r. by destruct acc.
  - destruct (IsAvailableFor a p); simpl; [|by rewrite IH].
    destruct (Z.to_nat (50 - ac_count acc)) as [|n] eqn:En; [lia|]. simpl.
    set (infos := match BuildAuctionInfo w a with Some i => _ | None => _ end).
    assert (Hi : forall x, infos ++ x = ac_infos acc ++ (match BuildAuctionInfo w a with Some i => [i] | None => [] end) ++ x).
    { intros x. unfold infos. destruct (BuildAuctionInfo w a); [by rewrite <- app_assoc|done]. }
    destruct (Z.leb_spec 50 (ac_count acc + 1)).
    + replace n with 0%nat by lia. rewrite take_0. simpl. f_equal. rewrite <- (app_nil_r infos), Hi. by destruct (BuildAuctionInfo w a).
    + rewrite IH by (simpl; lia). cbv zeta. simpl. replace (Z.to_nat (50 - (ac_count acc + 1))) with n by lia. rewrite Hi.
      f_equal; [|lia]. f_equal. by destruct (BuildAuctionInfo w a).
Qed.
Lemma browse_page w p q o : empty_query q = true -> 0 <= qy_listfrom q ->
  BuildListAuctionItems w p q o =
  let shown := take 50 (List.filter (fun a => IsAvailableFor a p) (drop (Z.to_nat (qy_listfrom q)) (ordered_auctions o))) in
  mkAcc (if qy_listfrom q <? Z.of_nat (length (OrderedAuctionMap o)) then omap (BuildAuctionInfo w) shown else [])
    (if qy_listfrom q <? Z.of_nat (length (OrderedAuctionMap o)) then Z.of_nat (length shown) else 0)
    (Z.of_nat (length (OrderedAuctionMap o))).
Proof.
  intros Hq Hf. unfold BuildListAuctionItems. rewrite Hq. case_if; [|done]. rewrite list_first_take by (simpl; lia). done.
Qed.

(** ** Turning pages *)
Lemma pages_cover (l : list AuctionEntry) w k : (forall a, a ∈ l -> is_Some (BuildAuctionInfo w a)) ->
  (length l <= 50 * k)%nat ->
  concat ((fun i => page w 50 (50 * Z.of_nat i) l) <$> seq 0 k) = omap (BuildAuctionInfo w) l.
Proof.
  revert l. induction k as [|k IH]; intros l Hl Hk; [destruct l; [done|simpl in Hk; lia]|].
  cbn [seq]. rewrite <- fmap_S_seq. cbn [fmap list_fmap concat]. rewrite <- list_fmap_compose.
  assert (Ht : page w 50 (50 * Z.of_nat 0) l = omap (BuildAuctionInfo w) (take 50 l)).
  { unfold page. replace (Z.to_nat _) with 0%nat by lia. rewrite drop_0. clear -Hl. revert l Hl. generalize 50%nat.
    induction n as [|n IH]; intros [|a l] Hl; try done. simpl. destruct (Hl a) as [i ->]; [left|]. simpl. f_equal. apply IH. intros b Hb. apply Hl. by right. }
  rewrite Ht. rewrite <- (take_drop 50 l) at 2. rewrite omap_app. f_equal.
  rewrite <- (IH (drop 50 l)); [|intros a Ha; apply Hl; eapply elem_of_sublist; [exact Ha|apply sublist_drop]|rewrite length_drop; lia].
  f_equal. apply list_fmap_ext. intros _ i _. unfold page. simpl. rewrite drop_drop. do 3 f_equal. lia.
Qed.
End pages.
