(* ===== verification/PostDemo.v ===== *)
(** Where everything starts: a server without players, letters and auctions is
    consistent.  A small realm - two characters, a mailbox and an auctioneer - and
    runs of operations on it are the states of the examples. *)

From Stdlib Require Import Floats.SpecFloat.
From S2P Require Import Prelude CString World GuildBankTypes GuildBankItems PostTypes Mail MailHandlers Auction AuctionHandlers PostSteps PostGold PostGoldSteps PostItems PostHouses.

(** Mailboxes and table, places of items and auction houses agree. *)
Record post_ok (w : PW) : Prop := mkPostOk {
  pk_gold : view_ok (gview w);
  pk_items : items_ok (iview w);
  pk_houses : ah_ok (ahview w)
}.
(** Nobody is in, nothing is under way, characters hold what they saved. *)
Record fresh_server (w : PW) : Prop := mkFresh {
  fs_players : pw_players w = ∅;
  fs_mail : pw_mail w = ∅ /\ pw_mail_items w = ∅;
  fs_auctions : pw_auction w = ∅ /\ pw_auctionIds w = ∅ /\ pw_aitems w = ∅ /\ forall h o, pw_houses w !! h = Some o -> o = no_house;
  fs_counters : 0 <= pw_mailIds w /\ 0 <= pw_itemGuids w /\ 0 <= pw_nextAuctionId w < 2 ^ 32;
  fs_money : forall g c, pw_chars w !! g = Some c -> 0 <= sc_money c <= MAX_MONEY_AMOUNT;
  fs_guids : forall g c pos it, pw_chars w !! g = Some c -> sc_items c !! pos = Some it -> 0 <= pi_guid it < pw_itemGuids w;
  fs_once : forall g c pos it g' c' pos' it', pw_chars w !! g = Some c -> sc_items c !! pos = Some it ->
    pw_chars w !! g' = Some c' -> sc_items c' !! pos' = Some it' -> pi_guid it = pi_guid it' -> g = g' /\ pos = pos'
}.
Lemma fresh_in_char w k x : fresh_server w -> item_in (iview w) k x ->
  exists g c pos it, x = InBags g pos /\ pw_chars w !! g = Some c /\ sc_items c !! pos = Some it /\ pi_guid it = k.
Proof.
  intros F H. destruct H as [g pos t H1 H2|g pos b H1 H2|id H|g t id infos H1 H2 H3|k' H].
  - rewrite lookup_ivp, (fs_players _ F), lookup_empty in H1. done.
  - simpl in H1. rewrite lookup_fmap in H1. destruct (pw_chars w !! g) as [c|] eqn:Hc; [|done]. injection H1 as <-.
    unfold char_items in H2. rewrite lookup_fmap in H2. destruct (sc_items c !! pos) as [it|] eqn:Hi; [|done]. injection H2 as <-.
    by exists g, c, pos, it.
  - simpl in H. rewrite (proj2 (fs_mail _ F)), dom_empty_L in H. by apply not_elem_of_empty in H.
  - rewrite lookup_ivp, (fs_players _ F), lookup_empty in H1. done.
  - simpl in H. destruct (fs_auctions _ F) as (_ & _ & Hai & _). by rewrite Hai, fmap_empty, lookup_empty in H.
Qed.
Lemma fresh_server_ok w : fresh_server w -> post_ok w.
Proof.
  intros F. pose proof (fs_counters _ F) as (Hm & Hi & Hn). destruct (fs_auctions _ F) as (Ha & Hids & Hai & Hho). destruct (fs_mail _ F) as [Hml Hmi].
  assert (Hrun : forall h id a, ~ running (ahview w) h id a).
  { intros h id a. unfold running, av_house. simpl. destruct (pw_houses w !! h) as [o|] eqn:E; simpl; [rewrite (Hho _ _ E); simpl|]; by rewrite lookup_empty. }
  split.
  - split; try done; intros *; rewrite ?lookup_gvp, ?lookup_gvr, ?(fs_players _ F), ?Hml, ?lookup_empty; try done.
    + simpl. rewrite lookup_fmap. destruct (pw_chars w !! g) as [c|] eqn:E; [|done]. intros [= <-]. by apply (fs_money _ F g).
    + rewrite lookup_gvh. destruct (pw_houses w !! h) as [o'|] eqn:E; [|done]. rewrite (Hho _ _ E). intros [= <-]. unfold house_view. simpl.
      by rewrite fmap_empty, lookup_empty.
  - split.
    + intros k x y Hx Hy. destruct (fresh_in_char _ _ _ F Hx) as (g & c & pos & it & -> & H1 & H2 & H3).
      destruct (fresh_in_char _ _ _ F Hy) as (g' & c' & pos' & it' & -> & H4 & H5 & H6). simpl.
      destruct (fs_once _ F g c pos it g' c' pos' it') as [-> ->]; [done..|congruence|done].
    + intros k x Hx. destruct (fresh_in_char _ _ _ F Hx) as (g & c & pos & it & _ & H1 & H2 & <-). simpl. by eapply (fs_guids _ F).
    + intros g t. rewrite lookup_ivp, (fs_players _ F), lookup_empty. done.
    + intros k k'. simpl. by rewrite Hai, fmap_empty, lookup_empty.
    + done.
  - split; try (intros *; intros Hr; by destruct (Hrun _ _ _ Hr)).
    + intros h. unfold av_house. simpl. destruct (pw_houses w !! h) as [o|] eqn:E; simpl; [rewrite (Hho _ _ E)|]; apply indexed_none.
    + intros id r. simpl. by rewrite Ha, lookup_empty.
    + intros id. simpl. rewrite Hids. split; [by intros ?%not_elem_of_empty|]. intros (h & a & Hr). by destruct (Hrun _ _ _ Hr).
    + intros k k'. simpl. by rewrite Hai, fmap_empty, lookup_empty.
    + split; [done|]. intros id. simpl. rewrite Hids. by intros ?%not_elem_of_empty.
Qed.

Section runs.
Context {env : PostEnv}.

Definition in_rangeb (w : PW) : bool :=
  (pw_mailIds w <=? 2 ^ 32) && (pw_itemGuids w <=? 2 ^ 32) && forallb (fun id => id <? 2 ^ 32 - 1) (elements (pw_auctionIds w)) &&
  forallb (fun r => mlr_isDeleted r || (mlr_money r <=? MAX_MONEY_AMOUNT)) (map_to_list (pw_mail w)).*2.
Lemma in_rangeb_spec w : in_rangeb w = true -> in_range w.
Proof.
  unfold in_rangeb. rewrite !andb_true_iff, !Z.leb_le. intros [[[H1 H2] H3] H4]. split; [done|done|..].
  - intros id Hin%elem_of_elements. rewrite forallb_forall in H3. apply Z.ltb_lt, H3. by apply list_elem_of_In.
  - intros id r Hr Hd. rewrite forallb_forall in H4. assert (Hin : r ∈ (map_to_list (pw_mail w)).*2).
    { apply list_elem_of_fmap. exists (id, r). split; [done|]. by apply elem_of_map_to_list. }
    apply list_elem_of_In, H4 in Hin. rewrite Hd in Hin. by apply Z.leb_le.
Qed.
Definition run_ops (l : list PostOp) (w : PW) : PW := foldl (fun w o => run_op o w) w l.
Fixpoint runs_in_range (l : list PostOp) (w : PW) : bool :=
  in_rangeb w && match l with [] => true | o :: l => runs_in_range l (run_op o w) end.
Lemma runs_steps l w : runs_in_range l w = true -> post_steps w (run_ops l w).
Proof.
  revert w. induction l as [|o l IH]; intros w; [intros _; constructor|]. simpl. rewrite andb_true_iff. intros [H1 H2].
  eapply (post_step w o); [by apply in_rangeb_spec| |by apply IH]. apply in_rangeb_spec. destruct l; simpl in H2; by apply andb_true_iff in H2 as [? _].
Qed.
End runs.

(** A small realm: two characters, a mailbox and an auctioneer, used by the
    examples. *)

Definition plain_item (entry : Z) : Item := mkItem entry 1 0 0 0 [] 0 [] 0 0 0 0 false.
Definition cloth : ItemTemplate := mkTemplate 7 5 "Linen Cloth" 1 0 100 0 0 20 0 0 0 false 0.
Definition free_slot (p : PostPlayer) : option Z :=
  List.find (fun s => negb (bool_decide (is_Some (pp_items p !! (INVENTORY_SLOT_BAG_0, s))))) (seqZ 23 16).
#[export] Instance demo_env : PostEnv := {|
  item_template := fun entry => if (1 <=? entry) && (entry <=? 8383) then Some cloth else None;
  soulbound_enchant := fun _ => false;
  CanUnequipItem := fun _ _ => true;
  CanStoreItem := fun p it => match free_slot p with
                              | Some s => (EQUIP_ERR_OK, [(INVENTORY_SLOT_BAG_0, s, it_count (pi_item it))])
                              | None => (50, []) end;
  CanUseItem := fun _ _ => true;
  HasSpell := fun _ _ => false;
  searched_name_fits := fun _ _ name => name =s "linen cloth";
  searched_name := Some;
  has_auction_command := fun _ => false;
  mail_template_exists := fun _ => false;
  FillLoot := fun _ _ => [];
  Item_Create := plain_item;
  SetItemRandomProperties := fun _ i => i;
  normalize_name := fun name => if name =s "" then None else Some name;
  faction_of := fun _ => 12;
  faction_mask := fun _ => None;
  auction_houses := [mkHouseEntry 1 5 5; mkHouseEntry 6 5 5; mkHouseEntry 7 25 15];
  cfg_TwoSideAuction := false;
  cfg_TwoSideMail := false;
  cfg_GmAllowTrades := true;
  cfg_AuctionLimit := 0;
  cfg_DepositMin := 0;
  cfg_RateDeposit := f32 1;
  cfg_RateCut := f32 1;
  cfg_RateTime := f32 1;
  cfg_MailMaxPerHour := 100;
  cfg_CodTagLevel := 0;
  cfg_MailDelay := 3600;
  cfg_MailSpamLevel := 0;
  cfg_MailSpamMoney := 0;
  cfg_MailSpamItem := false;
  cfg_MailSpamExpire := 3600;
  cfg_MailSpamMax := 100
|}.

Definition the_mailbox : Z := 500.
Definition the_auctioneer : Z := 600.
Definition info (account : Z) : PlayerInfo := mkPlayerInfo account 0 "" true false false 60 60 ALLIANCE false false.
(** Anna (1) has a piece of cloth and Bert (2) a purse of gold. *)
Definition anna : SavedChar :=
  mkSaved 50000 {[(INVENTORY_SLOT_BAG_0, 23) := mkPostItem 10 1 ITEM_UNCHANGED 0 (plain_item 7)]}.
Definition bert : SavedChar := mkSaved 200000 ∅.
Definition closed_world : PW :=
  mkPW ∅ (<[1 := anna]> (<[2 := bert]> ∅)) (<[1 := mkPostCache 11 ALLIANCE 0]> (<[2 := mkPostCache 12 ALLIANCE 0]> ∅))
    (<["Anna" := 1]> (<["Bert" := 2]> ∅)) ∅ ∅ (<[10 := (1, plain_item 7)]> ∅) ∅ ∅ ∅ ∅ ∅ ∅ ∅ 1 1 1 11 ∅ ∅ 1000 1000 [] [].
Definition opening : PW := LoadAuctionHouses closed_world.
Definition both_enter : list PostOp :=
  [PlayerLogin 1 (info 11); PlayerLogin 2 (info 12);
   Elsewhere 1 true {[the_mailbox; the_auctioneer]} 0; Elsewhere 2 true {[the_mailbox; the_auctioneer]} 0].
(** Anna sells the cloth; Bert bids, then buys it out and takes it from the letter. *)
Definition on_sale : list PostOp := both_enter ++ [AuctionSellItem 1 the_auctioneer 10 1000 5000 120].
Definition bid_on : list PostOp := on_sale ++ [AuctionPlaceBid 2 the_auctioneer 1 2000].
Definition bought : list PostOp := bid_on ++ [AuctionPlaceBid 2 the_auctioneer 1 5000].
Definition taken : list PostOp := bought ++ [MailTakeItem 2 the_mailbox 2; MailTakeMoney 1 the_mailbox 1].

Lemma opening_fresh : fresh_server opening.
Proof.
  assert (Hc : forall g c, pw_chars opening !! g = Some c -> (g = 1 /\ c = anna) \/ (g = 2 /\ c = bert)).
  { intros g c. change (pw_chars opening) with (<[1 := anna]> (<[2 := bert]> (∅ : gmap Z SavedChar))). rewrite !lookup_insert, lookup_empty.
    repeat case_decide; intros E; simplify_eq; auto. }
  assert (Hi : forall g c pos it, pw_chars opening !! g = Some c -> sc_items c !! pos = Some it ->
    g = 1 /\ pos = (INVENTORY_SLOT_BAG_0, 23) /\ it = mkPostItem 10 1 ITEM_UNCHANGED 0 (plain_item 7)).
  { intros g c pos it [[-> ->]|[-> ->]]%Hc; simpl; [intros [<- <-]%lookup_singleton_Some; done|by rewrite lookup_empty]. }
  split; try done.
  - do 3 (split; [done|]). intros h o. change (pw_houses opening) with (<[0 := no_house]> (<[1 := no_house]> (<[2 := no_house]> (∅ : gmap Z AuctionHouseObject)))).
    rewrite !lookup_insert, lookup_empty. repeat case_decide; intros E; by simplify_eq.
  - intros g c [[-> ->]|[-> ->]]%Hc; done.
  - intros g c pos it Hg Hp. destruct (Hi _ _ _ _ Hg Hp) as (_ & _ & ->). done.
  - intros g c pos it g' c' pos' it' Hg Hp Hg' Hp' _. destruct (Hi _ _ _ _ Hg Hp) as (-> & -> & _). by destruct (Hi _ _ _ _ Hg' Hp') as (-> & -> & _).
Qed.
Lemma opening_ok : post_ok opening.
Proof. apply fresh_server_ok, opening_fresh. Qed.
Lemma demo_rate : cfg_RateCut = f32 1.
Proof. done. Qed.
Lemma demo_cuts : Forall (fun e => 0 <= cutPercent e < 100) auction_houses.
Proof. repeat constructor; simpl; lia. Qed.

(** Anna sends Bert a letter with a hundred coins. *)
Definition gift : list PostOp := both_enter ++ [SendMail 1 the_mailbox "Bert" "gift" "for you" 0 100 0].
Definition after_month : list PostOp := gift ++ [PlayerLogout 2; Clock (1000 + 31 * DAY) (1000 + 31 * DAY)].
Definition expired_with (text : Z) : list PostOp := after_month ++ [MailExpiry (fun _ => text)].
(** Bert returns it, Anna returns it again. *)
Definition returned_once : list PostOp := gift ++ [MailReturnToSender 2 the_mailbox 1].
Definition returned_twice : list PostOp := returned_once ++ [MailReturnToSender 1 the_mailbox 2].
