(* ===== verification/PostTheorems.v ===== *)
(** The properties of mail and auctions. *)

From Stdlib Require Import Floats.SpecFloat.
From S2P Require Import Prelude CString World GuildBankTypes GuildBankItems PostTypes Mail MailHandlers Auction AuctionHandlers PostSteps PostGold PostGoldSteps PostItems PostItemsLoad PostHouses PostOutcomes PostDemo.





(** C7: The auction houses stay consistent.  Starting from a consistent server,
    whatever follows: the index by price and the one by account of every house
    hold exactly its auctions, cheapest buyout first; the table has exactly the
    rows of the running auctions with their present bids; the ids in use are
    exactly theirs and no two houses share one; the items on sale are exactly
    those of the auctions, and no two auctions sell the same one. *)
Theorem auction_houses_consistent `{PostEnv} (w w' : PW) : post_ok w -> post_steps w w' -> ah_ok (ahview w').
Proof. intros Hok Hs. exact (ah_steps w w' Hs (pk_houses _ Hok)). Qed.

Lemma row_of_running w h id a : ah_ok (ahview w) -> running (ahview w) h id a -> pw_auction w !! id = Some (auction_row a).
Proof. intros Hok Hr. exact (ah_row _ Hok _ _ _ Hr). Qed.
Lemma auction_houses_consistent_witness : pw_auction (run_ops bid_on opening) !! 1 = Some (mkAuctionRow 1 10 7 1 5000 8200 2 2000 1000 9) /\
  forall a, running (ahview (run_ops bid_on opening)) 0 1 a -> auction_row a = mkAuctionRow 1 10 7 1 5000 8200 2 2000 1000 9.
Proof.
  assert (Hs : post_steps opening (run_ops bid_on opening)) by (apply runs_steps; vm_compute; reflexivity).
  assert (E : pw_auction (run_ops bid_on opening) !! 1 = Some (mkAuctionRow 1 10 7 1 5000 8200 2 2000 1000 9)) by (vm_compute; reflexivity).
  split; [exact E|]. intros a Ha. pose proof (row_of_running _ _ _ _ (auction_houses_consistent opening _ opening_ok Hs) Ha) as Hr.
  apply (inj Some). transitivity (pw_auction (run_ops bid_on opening) !! 1); [symmetry; exact Hr|exact E].
Defined.





(** C18: Pages of auctions.  The lists of one's own auctions and bids and the
    result of a search are pages of the whole list: up to fifty auctions that
    can be shown, from the asked position on, with the number of them and the
    number of all; turning the pages by fifty shows every auction once, in
    order.  Without a search term the page is taken, cheapest buyout first, from
    the auctions that are open to the player's address, but position and number
    count all of them. *)
Theorem pages_show_the_list `{PostEnv} (w : PW) (me account from : Z) (p : PostPlayer) (q : AuctionHouseClientQuery) (outbidded : list Z) (o : AuctionHouseObject) :
  0 <= from -> 0 <= qy_listfrom q ->
  Z.of_nat (length (owner_auctions me account o)) < 2 ^ 32 -> Z.of_nat (length (asked outbidded o ++ bidder_auctions me o)) < 2 ^ 32 ->
  Z.of_nat (length (List.filter (auction_fits w p q) (ordered_auctions o))) < 2 ^ 32 ->
  let shows := fun from l acc => acc = mkAcc (page w 50 from l) (Z.of_nat (length (page w 50 from l))) (Z.of_nat (length l)) in
  shows from (owner_auctions me account o) (BuildListOwnerItems w me account from o no_list) /\
  shows from (asked outbidded o ++ bidder_auctions me o)
    (BuildListBidderItems w me from o (foldl (list_outbidded w from o) no_list outbidded)) /\
  (empty_query q = false ->
     shows (qy_listfrom q) (List.filter (auction_fits w p q) (ordered_auctions o)) (BuildListAuctionItems w p q o)) /\
  (empty_query q = true -> qy_listfrom q < Z.of_nat (length (OrderedAuctionMap o)) ->
     let shown := take 50 (List.filter (fun a => IsAvailableFor a p) (drop (Z.to_nat (qy_listfrom q)) (ordered_auctions o))) in
     BuildListAuctionItems w p q o = mkAcc (omap (BuildAuctionInfo w) shown) (Z.of_nat (length shown)) (Z.of_nat (length (OrderedAuctionMap o)))) /\
  (forall l k, (forall a, a ∈ l -> is_Some (BuildAuctionInfo w a)) -> (length l <= 50 * k)%nat ->
     concat ((fun i => page w 50 (50 * Z.of_nat i) l) <$> seq 0 k) = omap (BuildAuctionInfo w) l).
Proof.
  intros Hf Hq H1 H2 H3. cbv zeta. split; [by apply owner_page|]. split; [by apply bidder_page|]. split; [intros; by apply search_page|].
  split; [|intros; by apply pages_cover]. intros He Hlt. rewrite browse_page by done. cbv zeta. by rewrite (proj2 (Z.ltb_lt _ _)).
Qed.

Lemma pages_show_the_list_witness :
  BuildListOwnerItems (run_ops on_sale opening) 1 11 0 (house_at 0 (run_ops on_sale opening)) no_list =
  mkAcc [mkInfo 1 (mkPostItem 10 1 ITEM_UNCHANGED 0 (plain_item 7)) 1 1000 0 5000 7200000 0 0] 1 1.
Proof.
  destruct (pages_show_the_list (run_ops on_sale opening) 1 11 0 (mkPostPlayer (info 11) true ∅ 0 0 ∅ [] false 0 [] ∅ false 0 0) (page_query 0) []
    (house_at 0 (run_ops on_sale opening))) as [E _]; [vm_compute; discriminate|vm_compute; discriminate|vm_compute; reflexivity..|].
  rewrite E. vm_compute. reflexivity.
Defined.

(** C38: The cut of the house.  At the default rate and for a house that takes
    less than all, the cut computed in single precision is never above the bid,
    so the seller's profit is the exact sum of bid and deposit less the cut. *)
Theorem cut_is_below_the_bid `{PostEnv} (a : AuctionEntry) :
  cfg_RateCut = f32 1 -> 0 <= cutPercent (a_house a) < 100 -> 0 <= a_bid a < 2 ^ 32 -> 0 <= a_deposit a -> a_bid a + a_deposit a < 2 ^ 32 ->
  0 <= GetAuctionCut a <= a_bid a /\
  u32 (a_bid a + a_deposit a - GetAuctionCut a) = a_bid a + a_deposit a - GetAuctionCut a.
Proof.
  intros Hr Hc Hb Hd Hs. pose proof (cut_below_bid a Hr Hc Hb). pose proof (cut_range a). split; [lia|]. apply u32_small. lia.
Qed.

(** A bid of 4294967295 with a cut of 15 in a hundred: the product wraps around. *)
Lemma cut_is_below_the_bid_witness :
  let a := mkAuction 1 10 7 1 11 1 4294967295 0 "" 0 0 2 0 (mkHouseEntry 7 25 15) in GetAuctionCut a = 42949672 /\ GetAuctionCut a <= a_bid a.
Proof.
  cbv zeta. split; [vm_compute; reflexivity|].
  exact (proj2 (proj1 (cut_is_below_the_bid (mkAuction 1 10 7 1 11 1 4294967295 0 "" 0 0 2 0 (mkHouseEntry 7 25 15)) demo_rate ltac:(simpl; lia) ltac:(simpl; lia) ltac:(simpl; lia) ltac:(simpl; lia)))).
Defined.

